(* ===== verification/_CoqProject ===== *)
-Q . S2P
Prelude.v
GoStrings.v
GoTime.v
Json.v
Sha256.v
Floats.v
Contract.v
Codec.v
CodecSpec.v
SnapshotSpec.v
Store.v
StoreSpec.v
StoreApi.v
ScheduleParse.v
Catalog.v
Request.v
Policy.v
Workflow.v
BusinessKey.v
Executor.v
Outcome.v
Coordinator.v
Recovery.v
Repository.v
RepositorySpec.v
DbStore.v
DbStoreSpec.v
Shadow.v
JsonLax.v
Calendar.v
Settings.v
Attendance.v
AttendanceSpec.v
AttendanceLaws.v
Analytics.v
AnalyticsSpec.v
Slots.v
SlotsSpec.v
AttendanceText.v
Text.v
Entity.v
Llm.v
Intent.v
Compiler.v
Renderer.v
Live.v
EntitySpec.v
LlmSpec.v
IntentSpec.v
CompilerSpec.v
LiveSpec.v
Session.v
SessionSpec.v
Turn.v
TurnSpec.v
ShadowSpec.v
Subscription.v
SubscriptionSpec.v
Clients.v
ClientsSpec.v
Scheduler.v
SchedulerSpec.v
Leave.v
LeaveSpec.v
Courses.v
CoursesSpec.v
Users.v
UsersSpec.v
Reply.v
ReplySpec.v
