(* ===== verification/Prelude.v ===== *)
(** * Schedule Server: verification library

    This library models the parts of the schedule server (module
    schedule_server, sources under src/) that carry its own logic: the DingTalk
    agent from a chat message to the reply and to the write it may cause; the
    attendance service with the calendar, settings, timetables and leave it
    computes from; the scheduler that runs it; and the users and departments it
    is about.

    ** The program and its parts

    A chat message reaches the agent (internal/agent).  Its sender is
    identified and admitted by a rate limit; the conversation's workflow is
    loaded; a compiler turns the message into an intent draft, with the help of
    the language model; gates and arbiters decide whether the draft may run,
    needs a dialogue first, or is refused; entities are resolved within the
    tenant, a request with trusted parameters is built and executed against
    ports, and the outcome is rendered as text and remembered in the session.
    Reads are executed at once.  A write is first reserved in the workflow store
    under a business key and a fresh token, then executed, its result recorded
    and the reservation deleted; a process that dies in between leaves a
    reservation whose lease runs out, and a recovery poll takes it over.  The
    store is in memory, in MySQL (internal/repository, internal/app), or one of
    them shadowed by the other.

    The attendance service (internal/service) works out, for a section of a
    day, who has to attend, who checked in, who was on leave, and stores the
    answer as a record; records are read back, corrected by hand, and counted
    in statistics and rankings, which the agent's tools also call.  The
    scheduler (internal/scheduler) settles every section by daily jobs, rebuilt
    when the timetable changes, and pushes the text to subscribed groups.
    Users and departments come from DingTalk, at login and by synchronisation,
    leave from its approvals, courses from the users themselves; each tenant's
    DingTalk client is made once and cached.

    ** The files, in dependency order

    Foundations:
    - [Prelude]: Go errors, results, the state-and-error monad [ST], machine
      integers, map and slice loops, [st_keeps]; tactics [case_if], [b2p],
      [res_inv]; hint databases [go] and [keeps].
    - [GoStrings], [GoTime], [Json], [JsonLax], [Sha256], [Floats]: the
      standard-library functions the program uses, written out: UTF-8,
      strings, strconv; instants as nanoseconds since 0001-01-01 UTC, RFC 3339,
      the calendar; encoding/json with its errors and, where the code drops
      them, with what is stored regardless; SHA-256; doubles.

    The agent's data and stores:
    - [Contract]: drafts, requests, trusted parameters, workflow snapshots
      (protocol_contract.go, workflow_contract.go, execution_gate.go).
    - [Codec], [CodecSpec], [SnapshotSpec]: the persisted JSON schema
      (workflow_snapshot_codec.go) and its round trips.
    - [Store], [StoreSpec]: the in-memory store (workflow_store.go), one
      Definition per method on a map of records; its invariant, fencing,
      version races, and the refinement of the reservation lifecycle.
    - [StoreApi]: the WorkflowStore interface as type classes with laws (the
      write path, the conversation path), and the in-memory store shared with
      other clients as an instance.
    - [Repository], [RepositorySpec]: the agent_workflows table, its statements
      and the tenant plugin (repository/agent_workflow_repository.go,
      tenant_gorm_plugin.go) over a database given as a type class.
    - [DbStore], [DbStoreSpec]: the production store
      (app/agent_workflow_store.go) as an instance of the interface.
    - [Shadow], [ShadowSpec]: the store that mirrors its calls
      (workflow_shadow_store.go), again an instance.

    From a message to a request:
    - [Text], [Entity], [EntitySpec]: keyword signals, numerals and names
      (query_router.go), dates, weeks, sections, users and departments
      (entity_resolver.go), the choice of a candidate (candidate_resolver.go).
    - [Llm], [LlmSpec]: one attempt, the retry loops and the reading of leaked
      tool calls (client.go).
    - [Intent], [IntentSpec]: the prompt, the bounded history and the strict
      reading of the model's reply (intent_compiler.go).
    - [Catalog]: the operation manifests and their lint (operation_catalog.go).
    - [Compiler], [CompilerSpec]: deterministic candidates and the model's draft
      in three modes (operation_compiler.go, protocol_compiler.go).
    - [Request]: request building and the write guard (execution_gate.go,
      operation_request_context.go).
    - [Policy]: the pre-resolution and resource gates (policy_gate.go).
    - [Workflow]: the dialogue state machines and the arbiters
      (workflow_engine.go, operation_arbiter.go).

    From a request to the reply:
    - [BusinessKey]: the identity of a subscription write and its hash.
    - [Executor]: the operations against ports over a world
      (operation_executor.go, operation_executor_bindings.go).
    - [Outcome]: the outcome record and live execution
      (protocol_live_outcome.go, protocol_live_execution.go).
    - [Coordinator], [Recovery]: reserve, execute, record, delete
      (protocol_live_write_coordinator.go); takeover and repetition
      (workflow_recovery.go).
    - [Renderer]: every response as text (response_renderer.go,
      capabilities.go).
    - [Live], [LiveSpec]: the handler of a turn (protocol_live_pipeline.go and
      the protocol_live_*.go files it is made of).
    - [Session], [SessionSpec]: sessions, tasks, workflow bindings, the rate
      limit and the sender's identity (session.go, task_memory.go,
      ratelimit.go, chat_pipeline.go).
    - [Turn], [TurnSpec]: [Chat] of agent.go in protocol_live mode, which puts
      all of the above together.
    - [Subscription], [SubscriptionSpec]: group subscriptions with their write
      ledger and the executor's port onto them
      (repository/group_attendance_subscription_repository.go, the adapter in
      app/agent_wiring.go), over transactions given as a type class.

    Attendance:
    - [ScheduleParse]: timetable text analysis and table layout
      (pkg/scheduleparse, pkg/weekutil).
    - [Calendar]: local time, slots and weeks (pkg/scheduleutil,
      semester_service.go); [Settings]: mode, season, periods and switches
      (schedule_period_service.go and its repositories).
    - [Attendance], [AttendanceSpec], [AttendanceLaws]: records, signing and
      corrections (attendance_record_service.go, dto/attendance_record.go).
    - [Analytics], [AnalyticsSpec]: statistics, the cross query
      (attendance_analytics.go) and the weekly rankings.
    - [Slots], [SlotsSpec]: the status of a section and the counts of a week
      (attendance_service.go); [AttendanceText]: the text of a section.
    - [Clients], [ClientsSpec]: tenants, the cache of their DingTalk clients and
      their stream connections (tenant_repository.go,
      dingtalk_client_manager.go, stream_client_manager.go); a call is its steps
      between two locks, and calls interleave.
    - [Scheduler], [SchedulerSpec]: the daily jobs of every tenant, what they
      settle and whom they tell (scheduler/attendance_scheduler.go); a reload is
      also the parts between which other goroutines run.
    - [Leave], [LeaveSpec]: approvals read into leave that attendance counts
      (leave_sync_service.go, leave_approval_repository.go).
    - [Courses], [CoursesSpec]: the timetables of users (schedule_service.go,
      course_repository.go).
    - [Users], [UsersSpec]: users, departments, rest days and the login
      (user_service.go, department_service.go, rest_day_service.go,
      auth_service.go, their repositories, pkg/dingtalk/department.go).
    - [Reply], [ReplySpec]: messages and events of the stream, replies to groups
      and their plain text (pkg/dingtalk: stream.go,
      group_chat_reply_orchestrator.go, reply_format.go).


    ** How code is represented

    A Go struct is a Record and a closed string enumeration its strings; uint,
    int and int64 are integers in Z with their wrap-around or range checks
    written where they matter; a nil pointer is [None]; nil and empty slices
    and maps are identified, except where the code tells them apart.  A value
    of type any is a [value].  A map loop is a fold over an enumeration the
    language leaves open ([MapOrder], [UserMapOrder]); sort.Slice is a stable
    sort, one of the orders it may produce.  A function that may fail returns
    [res]; a method that changes its receiver is in [ST], whose state survives
    an error as it does in Go.  Time is read from a sequence of clock readings
    or passed as an argument; random bytes and request ids likewise; a context
    that may be done is an [option err] at each call.  A panic of the reading of
    the model's reply is an outcome of the client's call ([ChatPanicked]); the
    compiler hands it on as [Panic], and the turn then has no reply.  Code outside the
    repository (the ports' implementations, the ORM and the database, the
    language model, workbook readers, the time zone) is an argument or a type
    class; its documented behaviour is a law of the class, and each such class
    has a concrete instance in the witnesses.

    ** What is proved

    - A message writes at most once, as its own sender, and never before the
      write is on record: [TurnSpec.message_executes_one_own_write], on top of
      [LiveSpec.turn_prepares_own_write], [CompilerSpec.only_model_starts] and
      [IntentSpec.intent_drafts_checked]; every message is answered and
      remembered, unless the model's reply is one the client panics on
      ([TurnSpec.every_message_answered]).
    - No write is lost: [StoreSpec.reservation_never_lost],
      [RepositorySpec.row_never_lost];
      [Coordinator.write_reserved_before_executed],
      [Recovery.recovery_settles_or_keeps], for every store with the laws of
      [StoreApi], among them the production store
      ([DbStoreSpec.database_store_implements]) and the shadow store, which
      nobody can tell from its primary ([ShadowSpec.shadow_mode_invisible]); a
      lone client finishes: [Coordinator.undisturbed_write_completes].
    - Who may write: a call without the token of an execution leaves it as it is
      ([StoreSpec.execution_fenced]), version races
      ([StoreSpec.one_winner_per_version]), tenants
      ([RepositorySpec.tenant_isolation], [EntitySpec.entities_stay_in_tenant],
      [SessionSpec.session_keys_of_tenants]), roles and scopes
      ([Policy.pre_policy_allows], [Policy.resource_gate_safe]), the write guard.
    - The same write has the same identity: [BusinessKey.business_key_identity],
      [SubscriptionSpec.legacy_key_agrees],
      [Recovery.recovered_request_complete]; an execution mutates at most once
      ([Executor.execute_one_mutation]); what it mutates is a map from
      conversations to scopes with one ledger entry per key
      ([SubscriptionSpec.subscription_transactions_refine]), and repeating a
      write, as recovery does, leaves what one execution leaves
      ([SubscriptionSpec.repeated_write_converges]).
    - What is stored reads back, and only what is well formed does:
      [SnapshotSpec.snapshot_roundtrip], [CodecSpec.reservation_roundtrip],
      [DbStoreSpec.stored_workflow_reads_back],
      [SnapshotSpec.unmarshal_authority],
      [AttendanceLaws.saved_record_reads_back].
    - Dialogues: the line of an option that a workflow keeps chooses it
      ([LiveSpec.offered_line_selects]), a word of cancellation ends a workflow
      ([LiveSpec.cancel_word_ends_workflow]), the arbiters choose as intended
      ([Workflow]); the shipped catalogue passes its lint ([Catalog]).
    - What is bounded: messages per minute
      ([SessionSpec.rate_limit_bounds_minute]), the history
      ([SessionSpec.history_is_recent_conversation],
      [IntentSpec.history_bounded]), calls of the model
      ([LlmSpec.structured_call_bounded]).
    - Attendance: everybody who has to attend is accounted for
      ([AttendanceSpec.attendance_accounted]), the numbers add up
      ([AttendanceLaws.statistics_add_up]), signing checks before it writes, the
      cross query and the ranking answer what they are asked
      ([AnalyticsSpec.cross_query_exact],
      [AnalyticsSpec.ranking_counts_lateness]); dates and weeks agree
      ([Calendar.week_of_date_iff_range]); timetable cells survive the import
      ([ScheduleParse]).
    - A section and a week: the week's counts are those of the sections, unless
      the rule of who attends changes within the week
      ([SlotsSpec.week_agrees_with_sections]), a section's view is its record
      ([SlotsSpec.section_view_is_the_records]).
    - The scheduler runs the jobs it has on record and no others, at every moment
      of a run in which no two reloads overlap
      ([SchedulerSpec.cron_holds_the_recorded_jobs]), two for every section of
      the timetable ([SchedulerSpec.reload_installs_the_timetable]), and tells
      every subscribed group ([SchedulerSpec.every_group_is_told]).
    - Leave: attendance counts a leave that was neither refused nor withdrawn,
      when DingTalk says how a terminated one ended
      ([LeaveSpec.synced_leave_counts]), its form is read back as written
      ([LeaveSpec.holiday_form_is_read]).
    - Users and their timetables: nobody changes somebody else's courses
      ([CoursesSpec.courses_owned]), a copy is the original
      ([CoursesSpec.copied_timetable_is_the_same]), who is free is who has no
      course ([CoursesSpec.free_users_exact]); a role changes only where it is
      granted ([UsersSpec.roles_are_granted]), a token speaks of its row
      ([UsersSpec.login_answers_the_row]), departments mirror DingTalk's whole
      tree, or stay as they were when a call for it fails
      ([UsersSpec.all_departments_fetched],
      [UsersSpec.synced_departments_are_the_tree]), a rest day reads back
      ([UsersSpec.rest_day_read_back]).
    - Overlapping calls for a tenant get one client
      ([ClientsSpec.one_client_per_tenant]), each in five steps
      ([ClientsSpec.call_answers]).
    - A group message is answered once, at most ten at a time
      ([ReplySpec.group_message_answered_once]), and can always finish
      ([ReplySpec.accepted_message_finishes]); plain text is sent as it is
      ([ReplySpec.plain_reply_unchanged]).
    - Defects found: [ScheduleParse.expandWeeksToArray_diverges],
      [SnapshotSpec.padded_key_unreadable],
      [DbStoreSpec.deferred_execution_readable], [LlmSpec.dsml_panics],
      [LlmSpec.attempts_count_no_call], [EntitySpec.numeral_skips_digits],
      [LiveSpec.offered_departments_not_selectable],
      [AttendanceLaws.carried_user_counted_twice],
      [Settings.schedule_info_unset],
      [AnalyticsSpec.statistics_count_only_absences],
      [AnalyticsSpec.day_takes_in_next_day],
      [AnalyticsSpec.unknown_name_counts_everybody],
      [AnalyticsSpec.unknown_name_counts_onTime],
      [SlotsSpec.views_name_different_reasons],
      [SlotsSpec.straddling_week_disagrees],
      [SchedulerSpec.late_section_settled_for_tomorrow],
      [SchedulerSpec.overlapping_reloads_leak],
      [LeaveSpec.withdrawn_leave_counts], [LeaveSpec.last_day_not_covered],
      [LeaveSpec.name_never_filled_in],
      [UsersSpec.deleted_department_still_attends],
      [UsersSpec.restored_user_loses_pinyin],
      [UsersSpec.stale_refresh_undoes_a_role],
      [ClientsSpec.disabled_tenant_still_served],
      [ClientsSpec.overlapping_starts_leak],
      [ReplySpec.panicked_message_unanswered],
      [ReplySpec.acknowledged_after_the_answer],
      [ReplySpec.underscored_link_broken].

    ** Bounds

    Recursion that is not structural runs on fuel that is proved enough where a
    theorem depends on it: digits of an integer ([GoStrings.dec_fuel]), the
    JSON reader (the length of its input and a nesting limit of encoding/json),
    the week loops of the importer (64-bit bounds; the divergence of the loop
    is stated as such), the reading of leaked tool calls (the length of the
    text), the walk of the departments (the depth of the tree).  Retry loops recurse on their number of attempts.  Snapshots,
    reservations and results have the codec's own byte, rune and count limits.
    [Floats] rounds as IEEE 754 does at 53 bits; its values are compared as
    rationals.

    ** Not modelled

    The conversation engine the protocol pipeline replaces (semantic routing,
    tasks, its tools) and the shadow mode that only logs, both off in
    protocol_live mode; offline evaluation and replay, which report on recorded
    turns; the import of the knowledge base (files, embeddings, full-text search
    of the database); handlers, middleware, admin pages, configuration,
    migrations and command-line tools (input/output and wiring); the HTTP calls
    of the DingTalk client (network), whose answers are arguments; workbook and
    HTML readers, transliteration, tokens and the cron library (third-party);
    logging, metrics and caches; the goroutines that poll, clean up and hold
    connections, of which one step or one decision is modelled (the reload of
    the scheduler is modelled with its interleavings).  The manifest
    lists every part with its reason. *)
From Stdlib Require Import ZArith Lia Bool String Ascii.
From stdpp Require Import base list strings gmap fin_maps sorting.

#[global] Set Default Goal Selector "!".
#[global] Open Scope Z_scope.

(** ** Go errors

    A Go error is the message it was built from ([errors.New], [fmt.Errorf]
    without %w), a package-level sentinel compared by identity, or a wrapper
    around another error: fmt.Errorf with %w, [errors.Join], or the WrapMsgErr
    of internal/errs, whose text is the message alone. *)
Inductive err : Type :=
  | EMsg (msg : string)
  | EFmt (fmt : string) (args : list string)
  | ESentinel (name : string)
  | EWrap (fmt : string) (inner : err)
  | EJoin (e1 e2 : err).

(** [errors.Is(e, target)] for a sentinel target. *)
Fixpoint errors_Is (e : err) (target : string) : bool :=
  match e with
  | EMsg _ | EFmt _ _ => false
  | ESentinel n => bool_decide (n = target)
  | EWrap _ e' => errors_Is e' target
  | EJoin e1 e2 => errors_Is e1 target || errors_Is e2 target
  end.

#[global] Instance err_eq_dec : EqDecision err.
Proof. solve_decision. Defined.

(** ** Results of fallible Go functions: the value or the error. *)
Inductive res (A : Type) : Type :=
  | Ok (a : A)
  | Err (e : err).
Arguments Ok {A} a.
Arguments Err {A} e.

Declare Scope go_scope.
Delimit Scope go_scope with go.

Definition res_bind {A B} (r : res A) (k : A -> res B) : res B :=
  match r with Ok a => k a | Err e => Err e end.

Notation "x <- r ;; k" := (res_bind r (fun x => k))
  (at level 60, r at next level, right associativity) : go_scope.
Notation "r ;;; k" := (res_bind r (fun _ => k))
  (at level 60, right associativity) : go_scope.

(** A Go function that panics: it does not return, and what called it does not
    go on; no error that is returned is this one. *)
Definition panic_error : err := ESentinel "panic".
Definition Panic {A} : res A := Err panic_error.
Definition is_panic {A} (r : res A) : bool := match r with Err e => bool_decide (e = panic_error) | Ok _ => false end.

(** [guard b e]: the early return `if !b { return e }`. *)
Definition guard (b : bool) (e : err) : res unit := if b then Ok tt else Err e.

(** [fmt.Errorf("...: %w", err)] around the error of a call. *)
Definition wrap_err {A} (fmt : string) (r : res A) : res A :=
  match r with Ok a => Ok a | Err e => Err (EWrap fmt e) end.

Definition is_ok {A} (r : res A) : bool := match r with Ok _ => true | Err _ => false end.

(** ** State and errors together: a Go method that mutates its receiver and
    may return an error.  The state is kept on the error path, as in Go. *)
Definition ST (S A : Type) : Type := S -> res A * S.

Definition st_ret {S A} (a : A) : ST S A := fun s => (Ok a, s).
Definition st_fail {S A} (e : err) : ST S A := fun s => (Err e, s).
Definition st_bind {S A B} (m : ST S A) (k : A -> ST S B) : ST S B :=
  fun s => match m s with
           | (Ok a, s') => k a s'
           | (Err e, s') => (Err e, s')
           end.
Definition st_lift {S A} (r : res A) : ST S A := fun s => (r, s).
Definition st_get {S} : ST S S := fun s => (Ok s, s).
Definition st_put {S} (s' : S) : ST S unit := fun _ => (Ok tt, s').

Notation "x <~ m ;; k" := (st_bind m (fun x => k))
  (at level 60, m at next level, right associativity) : go_scope.
Notation "m ~;; k" := (st_bind m (fun _ => k))
  (at level 60, right associativity) : go_scope.

(** ** Machine integers (Go int, int64, uint, uint64 on a 64-bit platform) *)
Definition two63 : Z := 2 ^ 63.
Definition two64 : Z := 2 ^ 64.
Definition max_int64 : Z := two63 - 1.
Definition min_int64 : Z := - two63.
Definition max_uint64 : Z := two64 - 1.
Definition wrap_int64 (z : Z) : Z := (z + two63) mod two64 - two63.
Definition wrap_uint64 (z : Z) : Z := z mod two64.
Definition in_int64 (z : Z) : bool := (min_int64 <=? z) && (z <=? max_int64).
Definition in_uint64 (z : Z) : bool := (0 <=? z) && (z <=? max_uint64).

(** ** Go maps

    A map is a [gmap]; nil and empty maps are both the empty [gmap].  A loop
    over a map that may return early is a fold in the order of [map_fold]; Go
    leaves the order open, so only which of several errors is returned depends
    on it. *)
Section map_loops.
Context {A B : Type}.

(** Build a map entry by entry, stopping at the first error. *)
Definition map_mapM (f : string -> A -> res B) (m : gmap string A) : res (gmap string B) :=
  map_fold (fun k a acc => res_bind acc (fun m' =>
              res_bind (f k a) (fun b => Ok (<[k := b]> m')))) (Ok ∅) m.

(** Check every entry, stopping at the first error. *)
Definition map_checkM (f : string -> A -> res unit) (m : gmap string A) : res unit :=
  map_fold (fun k a acc => res_bind acc (fun _ => f k a)) (Ok tt) m.
End map_loops.

(** The same loops over slices. *)
Fixpoint list_mapM {A B} (f : A -> res B) (l : list A) : res (list B) :=
  match l with
  | [] => Ok []
  | a :: l' => res_bind (f a) (fun b => res_bind (list_mapM f l') (fun bs => Ok (b :: bs)))
  end.

Fixpoint list_checkM {A} (f : A -> res unit) (l : list A) : res unit :=
  match l with
  | [] => Ok tt
  | a :: l' => res_bind (f a) (fun _ => list_checkM f l')
  end.

(** The first answer of a loop that returns when it finds one. *)
Fixpoint first_some {A B} (f : A -> option B) (l : list A) : option B :=
  match l with [] => None | a :: l => match f a with Some b => Some b | None => first_some f l end end.

(** [sort.Ints] and [sort.Slice] with [<] on integers. *)
Definition sort_Z : list Z -> list Z := merge_sort Z.le.

(** Remove adjacent duplicates: the write/read-index loop over a sorted slice. *)
Fixpoint dedup_adjacent (l : list Z) : list Z :=
  match l with
  | [] => []
  | x :: l' => match dedup_adjacent l' with
               | [] => [x]
               | y :: r => if x =? y then y :: r else x :: y :: r
               end
  end.

(** ** Tactics *)

(** Split a successful monadic computation in a hypothesis into its steps. *)
Ltac res_inv H :=
  lazymatch type of H with
  | res_bind ?r _ = Ok _ =>
      let E := fresh "E" in
      destruct r eqn:E; cbn [res_bind] in H; [ | discriminate H ]
  | guard ?b _ = Ok _ =>
      let E := fresh "E" in
      destruct b eqn:E; cbn [guard] in H; [ | discriminate H ]
  | Ok _ = Ok _ => injection H as H
  | Err _ = Ok _ => discriminate H
  end.

(** Case analysis on the boolean or option a goal or a hypothesis branches on. *)
Ltac case_if :=
  match goal with
  | |- context [ if ?b then _ else _ ] => let E := fresh "E" in destruct b eqn:E
  end.
Ltac case_if_in H :=
  match type of H with
  | context [ if ?b then _ else _ ] => let E := fresh "E" in destruct b eqn:E
  end.

(** Boolean hypotheses to propositions. *)
Ltac b2p :=
  repeat match goal with
  | H : _ && _ = true |- _ => apply andb_true_iff in H as [? ?]
  | H : _ || _ = false |- _ => apply orb_false_iff in H as [? ?]
  | H : negb _ = true |- _ => apply negb_true_iff in H
  | H : negb _ = false |- _ => apply negb_false_iff in H
  | H : bool_decide _ = true |- _ => apply bool_decide_eq_true in H
  | H : bool_decide _ = false |- _ => apply bool_decide_eq_false in H
  | H : (_ =? _)%Z = true |- _ => apply Z.eqb_eq in H
  | H : (_ =? _)%Z = false |- _ => apply Z.eqb_neq in H
  | H : (_ <? _)%Z = true |- _ => apply Z.ltb_lt in H
  | H : (_ <? _)%Z = false |- _ => apply Z.ltb_ge in H
  | H : (_ <=? _)%Z = true |- _ => apply Z.leb_le in H
  | H : (_ <=? _)%Z = false |- _ => apply Z.leb_gt in H
  end.

Create HintDb go discriminated.
Create Rewrite HintDb go.
Create HintDb keeps discriminated.

(** ** Generic lemmas *)

Lemma res_bind_Ok {A B} (r : res A) (k : A -> res B) b :
  res_bind r k = Ok b <-> exists a, r = Ok a /\ k a = Ok b.
Proof. destruct r; cbn; naive_solver. Qed.

Lemma wrap_err_Ok {A} f (r : res A) a : wrap_err f r = Ok a <-> r = Ok a.
Proof. destruct r; cbn; naive_solver. Qed.

Lemma guard_Ok b e u : guard b e = Ok u <-> b = true.
Proof. destruct b, u; cbn; naive_solver. Qed.

Lemma is_ok_true {A} (r : res A) : is_ok r = true <-> exists a, r = Ok a.
Proof. destruct r; cbn; naive_solver. Qed.

Lemma list_mapM_Ok {A B} (f : A -> res B) l l' :
  list_mapM f l = Ok l' <-> Forall2 (fun a b => f a = Ok b) l l'.
Proof.
  revert l'. induction l as [|a l IH]; intros l'; cbn.
  - split; [intros [= <-]; constructor | intros H; inversion H; done].
  - rewrite res_bind_Ok. split.
    + intros (b & Hb & H). apply res_bind_Ok in H as (bs & Hbs & [= <-]).
      constructor; [done|]. by apply IH.
    + intros H. inversion H as [|? b ? bs Hb Hbs]; subst.
      exists b. split; [done|]. apply IH in Hbs as ->. done.
Qed.

Lemma list_checkM_Ok {A} (f : A -> res unit) l :
  list_checkM f l = Ok tt <-> Forall (fun a => f a = Ok tt) l.
Proof.
  induction l as [|a l IH]; cbn; [by split|].
  rewrite res_bind_Ok, Forall_cons, <- IH. split.
  - intros ([] & ? & ?). done.
  - intros [? ?]. by exists tt.
Qed.

Lemma map_checkM_Ok {A} (f : string -> A -> res unit) m :
  map_checkM f m = Ok tt <-> map_Forall (fun k a => f k a = Ok tt) m.
Proof.
  unfold map_checkM.
  apply (map_fold_weak_ind (fun r m => r = Ok tt <-> map_Forall (fun k a => f k a = Ok tt) m)).
  - split; [intros _; apply map_Forall_empty | done].
  - intros k a m' r Hk IH. rewrite map_Forall_insert, <- IH by done.
    rewrite res_bind_Ok. split.
    + intros ([] & ? & ?). done.
    + intros [? ?]. by exists tt.
Qed.

(** The entry-by-entry characterisation of [map_mapM]: the result has the
    domain of the argument and every value is the image of the one it replaces. *)
Lemma map_mapM_Ok {A B} (f : string -> A -> res B) m m' :
  map_mapM f m = Ok m' <->
  (forall k, match m !! k, m' !! k with
             | Some a, Some b => f k a = Ok b
             | None, None => True
             | _, _ => False
             end).
Proof.
  unfold map_mapM. revert m'.
  apply (map_fold_weak_ind (fun r m => forall m', r = Ok m' <->
    (forall k, match m !! k, m' !! k with
               | Some a, Some b => f k a = Ok b
               | None, None => True
               | _, _ => False
               end))).
  - intros m'. split.
    + intros [= <-] k. by rewrite !lookup_empty.
    + intros H. f_equal. apply map_eq. intros k. specialize (H k).
      rewrite lookup_empty in *. by destruct (m' !! k).
  - intros k a m0 r Hk IH m'. rewrite res_bind_Ok. split.
    + intros (m1 & Hr & H). apply res_bind_Ok in H as (b & Hb & [= <-]).
      intros k'. destruct (decide (k = k')) as [<-|Hne].
      * by rewrite !lookup_insert_eq.
      * rewrite !lookup_insert_ne by done. by apply IH.
    + intros H. pose proof (H k) as H0. rewrite lookup_insert_eq in H0.
      destruct (m' !! k) as [b|] eqn:Eb; [|done].
      exists (delete k m'). split.
      * apply IH. intros k'. destruct (decide (k = k')) as [<-|Hne].
        -- by rewrite Hk, lookup_delete_eq.
        -- specialize (H k'). rewrite lookup_insert_ne in H by done.
           by rewrite lookup_delete_ne.
      * rewrite H0. cbn. f_equal. rewrite insert_delete_eq. by apply insert_id.
Qed.

Lemma sort_Z_Permutation l : sort_Z l ≡ₚ l.
Proof. apply merge_sort_Permutation. Qed.

Lemma sort_Z_elem x l : x ∈ sort_Z l <-> x ∈ l.
Proof. by rewrite sort_Z_Permutation. Qed.

Lemma sort_Z_StronglySorted l : StronglySorted Z.le (sort_Z l).
Proof. apply StronglySorted_merge_sort; apply _. Qed.

Lemma sort_Z_unique l1 l2 : l1 ≡ₚ l2 -> sort_Z l1 = sort_Z l2.
Proof.
  intros H. apply (StronglySorted_unique Z.le); try apply sort_Z_StronglySorted.
  by rewrite !sort_Z_Permutation.
Qed.

Lemma sort_Z_idem l : StronglySorted Z.le l -> sort_Z l = l.
Proof.
  intros H. apply (StronglySorted_unique Z.le); [apply sort_Z_StronglySorted|done|].
  apply sort_Z_Permutation.
Qed.

Lemma dedup_adjacent_elem x l : x ∈ dedup_adjacent l <-> x ∈ l.
Proof.
  induction l as [|y l IH]; cbn; [done|].
  destruct (dedup_adjacent l) as [|z r].
  - rewrite list_elem_of_singleton, elem_of_cons, <- IH. set_solver.
  - destruct (y =? z) eqn:E; b2p; rewrite !elem_of_cons, <- IH, ?elem_of_cons; naive_solver.
Qed.

Lemma dedup_adjacent_sorted l :
  StronglySorted Z.le l -> StronglySorted Z.lt (dedup_adjacent l).
Proof.
  induction 1 as [|y l Hs IH Hle]; cbn; [constructor|].
  destruct (dedup_adjacent l) as [|z r] eqn:E; [repeat constructor|].
  assert (Hz : y <= z).
  { rewrite Forall_forall in Hle. apply Hle, dedup_adjacent_elem. rewrite E. by left. }
  destruct (y =? z) eqn:Eb; b2p; [done|].
  constructor; [done|]. inversion IH as [|? ? Hr Hall]; subst.
  constructor; [lia|]. eapply Forall_impl; [done|]. cbn. lia.
Qed.

Lemma StronglySorted_lt_le l : StronglySorted Z.lt l -> StronglySorted Z.le l.
Proof.
  induction 1 as [|x l Hs IH Hall]; constructor; [done|].
  eapply Forall_impl; [done|]. cbn. lia.
Qed.

(** Two strictly sorted lists with the same elements are equal. *)
Lemma StronglySorted_lt_ext l1 l2 :
  StronglySorted Z.lt l1 -> StronglySorted Z.lt l2 ->
  (forall x, x ∈ l1 <-> x ∈ l2) -> l1 = l2.
Proof.
  intros H1 H2 Hx.
  assert (HN : forall l, StronglySorted Z.lt l -> NoDup l).
  { induction 1 as [|x l Hs IH Hall]; constructor; [|done].
    intros Hin. rewrite Forall_forall in Hall. specialize (Hall x Hin). lia. }
  apply (StronglySorted_unique Z.le); [by apply StronglySorted_lt_le..|].
  apply NoDup_Permutation; auto.
Qed.

Lemma dedup_sorted_idem l : StronglySorted Z.lt l -> dedup_adjacent l = l.
Proof.
  induction 1 as [|x l Hs IH Hall]; cbn; [done|]. rewrite IH.
  destruct l as [|y l]; [done|]. inversion Hall; subst.
  by destruct (Z.eqb_spec x y); [lia|].
Qed.

#[export] Hint Resolve sort_Z_StronglySorted dedup_adjacent_sorted StronglySorted_lt_le : go.
#[export] Hint Rewrite @res_bind_Ok guard_Ok @wrap_err_Ok @list_mapM_Ok @list_checkM_Ok @map_checkM_Ok : go.

(** ** Computations that keep a property of the state, whatever they answer *)
Definition st_keeps {S A} (P : S -> Prop) (m : ST S A) : Prop := forall s, P s -> P (m s).2.

Lemma keeps_ret {S A} (P : S -> Prop) (a : A) : st_keeps P (st_ret a).
Proof. by intros s. Qed.
Lemma keeps_fail {S A} (P : S -> Prop) e : st_keeps P (st_fail (A := A) e).
Proof. by intros s. Qed.
Lemma keeps_lift {S A} (P : S -> Prop) (r : res A) : st_keeps P (st_lift r).
Proof. by intros s. Qed.
Lemma keeps_bind {S A B} (P : S -> Prop) (m : ST S A) (k : A -> ST S B) :
  st_keeps P m -> (forall a, st_keeps P (k a)) -> st_keeps P (st_bind m k).
Proof.
  intros Hm Hk s Hs. unfold st_bind. specialize (Hm s Hs).
  destruct (m s) as [[a|e] s']; [by apply Hk|done].
Qed.

(** Steps of a successful computation. *)
Lemma st_bind_Ok {S A B} (m : ST S A) (k : A -> ST S B) s b s' :
  st_bind m k s = (Ok b, s') <-> exists a s1, m s = (Ok a, s1) /\ k a s1 = (Ok b, s').
Proof.
  unfold st_bind. destruct (m s) as [[a|e] s1]; split; try naive_solver.
Qed.
Lemma st_lift_Ok {S A} (r : res A) (s s' : S) a : st_lift r s = (Ok a, s') <-> r = Ok a /\ s' = s.
Proof. unfold st_lift. split; [by intros [= -> ->]|by intros [-> ->]]. Qed.
Lemma st_ret_Ok {S A} (s s' : S) (a b : A) : st_ret a s = (Ok b, s') <-> a = b /\ s' = s.
Proof. unfold st_ret. split; [by intros [= -> ->]|by intros [-> ->]]. Qed.

#[export] Hint Resolve keeps_ret keeps_fail keeps_lift keeps_bind : keeps.
