(* ===== verification/GoStrings.v ===== *)
(** * Go strings

    The part of Go's string handling the program relies on: UTF-8 decoding
    (package unicode/utf8), [strings.TrimSpace], [strings.Split] and the other
    helpers of package strings the code calls, and [strconv.Itoa],
    [strconv.Atoi], [strconv.ParseInt] and [strconv.ParseUint] with their
    range and syntax errors.  A Go string is a Rocq [string] read as bytes. *)
From Stdlib Require Import ZArith Lia Bool String Ascii.
From stdpp Require Import base list strings.
From S2P Require Import Prelude.

(** ** Bytes *)

Definition byte_of_ascii (a : ascii) : Z := Z.of_N (N_of_ascii a).
Definition ascii_of_byte (z : Z) : ascii := ascii_of_N (Z.to_N z).

Definition bytes (s : string) : list Z := byte_of_ascii <$> list_ascii_of_string s.
Definition of_bytes (l : list Z) : string := string_of_list_ascii (ascii_of_byte <$> l).

Definition is_byte (z : Z) : Prop := 0 <= z < 256.

(** ** UTF-8 (unicode/utf8) *)

Definition rune_error : Z := 65533.
Definition in_range (lo hi b : Z) : bool := (lo <=? b) && (b <=? hi).
Definition is_cont (b : Z) : bool := in_range 128 191 b.

(** Well-formed encodings of two, three and four bytes (the accept ranges). *)
Definition is_utf8_2 (b0 b1 : Z) : bool := in_range 194 223 b0 && is_cont b1.
Definition is_utf8_3 (b0 b1 b2 : Z) : bool :=
  ((in_range 224 224 b0 && in_range 160 191 b1)
   || (in_range 225 236 b0 && is_cont b1)
   || (in_range 237 237 b0 && in_range 128 159 b1)
   || (in_range 238 239 b0 && is_cont b1)) && is_cont b2.
Definition is_utf8_4 (b0 b1 b2 b3 : Z) : bool :=
  ((in_range 240 240 b0 && in_range 144 191 b1)
   || (in_range 241 243 b0 && is_cont b1)
   || (in_range 244 244 b0 && in_range 128 143 b1)) && is_cont b2 && is_cont b3.

(** The runes of a byte string, each with the bytes it was decoded from; an
    invalid byte decodes to U+FFFD with width one. *)
Fixpoint runes (l : list Z) : list (Z * list Z) :=
  match l with
  | [] => []
  | b0 :: l1 =>
      let one := ((if b0 <? 128 then b0 else rune_error), [b0]) in
      match l1 with
      | [] => one :: runes l1
      | b1 :: l2 =>
          if is_utf8_2 b0 b1
          then ((b0 - 192) * 64 + (b1 - 128), [b0; b1]) :: runes l2
          else match l2 with
               | [] => one :: runes l1
               | b2 :: l3 =>
                   if is_utf8_3 b0 b1 b2
                   then ((b0 - 224) * 4096 + (b1 - 128) * 64 + (b2 - 128), [b0; b1; b2]) :: runes l3
                   else match l3 with
                        | [] => one :: runes l1
                        | b3 :: l4 =>
                            if is_utf8_4 b0 b1 b2 b3
                            then ((b0 - 240) * 262144 + (b1 - 128) * 4096
                                  + (b2 - 128) * 64 + (b3 - 128), [b0; b1; b2; b3]) :: runes l4
                            else one :: runes l1
                        end
               end
      end
  end.

Definition rune_valid (c : Z * list Z) : bool :=
  match c with
  | (_, [b]) => b <? 128
  | _ => true
  end.

(** [utf8.ValidString], [utf8.RuneCountInString] *)
Definition valid_string (s : string) : bool := forallb rune_valid (runes (bytes s)).
Definition rune_count (s : string) : Z := Z.of_nat (length (runes (bytes s))).

(** The rune values of a string, as a range loop over it yields them. *)
Definition rune_list (s : string) : list Z := fst <$> runes (bytes s).

(** [utf8.EncodeRune] (callers pass valid runes) *)
Definition encode_rune (r : Z) : list Z :=
  if r <? 128 then [r]
  else if r <? 2048 then [192 + r / 64; 128 + r mod 64]
  else if r <? 65536 then [224 + r / 4096; 128 + (r / 64) mod 64; 128 + r mod 64]
  else [240 + r / 262144; 128 + (r / 4096) mod 64; 128 + (r / 64) mod 64; 128 + r mod 64].

Definition of_runes (l : list Z) : string := of_bytes (concat (encode_rune <$> l)).

(** [unicode.IsSpace] *)
Definition is_space (r : Z) : bool :=
  in_range 9 13 r || (r =? 32) || (r =? 133) || (r =? 160) || (r =? 5760)
  || in_range 8192 8202 r || (r =? 8232) || (r =? 8233) || (r =? 8239)
  || (r =? 8287) || (r =? 12288).

(** ** Package strings *)

Fixpoint drop_while {A} (p : A -> bool) (l : list A) : list A :=
  match l with
  | [] => []
  | a :: l' => if p a then drop_while p l' else l
  end.
Definition drop_while_end {A} (p : A -> bool) (l : list A) : list A :=
  rev (drop_while p (rev l)).

Definition space_rune (c : Z * list Z) : bool := is_space (fst c).

(** [strings.TrimSpace] *)
Definition trim_space (s : string) : string :=
  of_bytes (concat (snd <$> drop_while_end space_rune (drop_while space_rune (runes (bytes s))))).

(** [strings.Split] on a one-byte separator *)
Fixpoint split_bytes (sep : Z) (l : list Z) : list (list Z) :=
  match l with
  | [] => [[]]
  | b :: l' =>
      if b =? sep then [] :: split_bytes sep l'
      else match split_bytes sep l' with
           | [] => [[b]]
           | p :: ps => (b :: p) :: ps
           end
  end.
Definition split_byte (sep : Z) (s : string) : list string := of_bytes <$> split_bytes sep (bytes s).

(** [strings.Join] *)
Fixpoint join (sep : string) (l : list string) : string :=
  match l with
  | [] => ""
  | [s] => s
  | s :: l' => s +:+ sep +:+ join sep l'
  end.

(** [strings.HasPrefix], [strings.HasSuffix], [strings.Contains] *)
Fixpoint prefix_of (p l : list Z) : bool :=
  match p, l with
  | [], _ => true
  | a :: p', b :: l' => (a =? b) && prefix_of p' l'
  | _, [] => false
  end.
Fixpoint contains_bytes (sub l : list Z) : bool :=
  prefix_of sub l || match l with [] => false | _ :: l' => contains_bytes sub l' end.
Definition has_prefix (s p : string) : bool := prefix_of (bytes p) (bytes s).
Definition has_suffix (s p : string) : bool := prefix_of (rev (bytes p)) (rev (bytes s)).
Definition contains (s sub : string) : bool := contains_bytes (bytes sub) (bytes s).

(** [strings.ContainsAny] *)
Definition contains_any (s chars : string) : bool :=
  existsb (fun r => existsb (Z.eqb r) (rune_list chars)) (rune_list s).

(** [strings.ReplaceAll s " " ""] and its like: drop one byte value. *)
Definition remove_byte (b : Z) (s : string) : string :=
  of_bytes (List.filter (fun c => negb (c =? b)) (bytes s)).

(** [strings.Fields]: maximal runs of non-space runes. *)
Fixpoint fields_runes (l : list (Z * list Z)) (cur : list Z) : list (list Z) :=
  match l with
  | [] => if decide (cur = []) then [] else [cur]
  | (r, bs) :: l' =>
      if is_space r
      then (if decide (cur = []) then fields_runes l' [] else cur :: fields_runes l' [])
      else fields_runes l' (cur ++ bs)
  end.
Definition fields (s : string) : list string := of_bytes <$> fields_runes (runes (bytes s)) [].

(** [strings.ToLower] restricted to the runes whose lower case is ASCII; the
    program only compares its result with ASCII text. *)
Definition lower_rune (r : Z) : Z :=
  if in_range 65 90 r then r + 32
  else if r =? 8490 then 107
  else if r =? 304 then 105
  else r.
Definition to_lower (s : string) : string :=
  of_bytes (concat ((fun c : Z * list Z =>
    let r' := lower_rune (fst c) in
    if r' =? fst c then snd c else encode_rune r') <$> runes (bytes s))).

(** ** Package strconv *)

Definition is_digit (b : Z) : bool := in_range 48 57 b.

(** The leading decimal digits of a byte string, and the rest. *)
Fixpoint span_digits (l : list Z) : list Z * list Z :=
  match l with
  | b :: l' => if is_digit b then let '(ds, r) := span_digits l' in (b :: ds, r) else ([], l)
  | [] => ([], [])
  end.

(** The decimal digits of a non-negative integer, most significant first. *)
Fixpoint dec_digits (fuel : nat) (n : Z) (acc : list Z) : list Z :=
  match fuel with
  | O => acc
  | S f => let acc' := (48 + n mod 10) :: acc in
           if n <? 10 then acc' else dec_digits f (n / 10) acc'
  end.
Definition dec_fuel (n : Z) : nat := S (Z.to_nat (Z.log2 n)).
Definition itoa_bytes (z : Z) : list Z :=
  if z <? 0 then 45 :: dec_digits (dec_fuel (- z)) (- z) []
  else dec_digits (dec_fuel z) z [].

(** [strconv.Itoa], [fmt.Sprint] of an integer *)
Definition itoa (z : Z) : string := of_bytes (itoa_bytes z).

Inductive num_error : Type := NumSyntax | NumRange.

(** [strconv.ParseUint(s, 10, 64)]: the loop over the digits with its two
    overflow tests; the value returned beside the error is the second component. *)
Fixpoint parse_uint_loop (l : list Z) (n : Z) : Z * option num_error :=
  match l with
  | [] => (n, None)
  | c :: l' =>
      if is_digit c then
        if max_uint64 / 10 + 1 <=? n then (max_uint64, Some NumRange)
        else let n1 := n * 10 + (c - 48) in
             if max_uint64 <? n1 then (max_uint64, Some NumRange)
             else parse_uint_loop l' n1
      else (0, Some NumSyntax)
  end.
Definition parse_uint_bytes (l : list Z) : Z * option num_error :=
  match l with [] => (0, Some NumSyntax) | _ => parse_uint_loop l 0 end.

(** [strconv.ParseInt(s, 10, 64)], which [strconv.Atoi] agrees with on a
    64-bit platform. *)
Definition parse_int_bytes (l : list Z) : Z * option num_error :=
  let '(neg, digits) := match l with
                        | b :: l' => if b =? 43 then (false, l')
                                     else if b =? 45 then (true, l') else (false, l)
                        | [] => (false, [])
                        end in
  match parse_uint_bytes digits with
  | (_, Some NumSyntax) => (0, Some NumSyntax)
  | (un, e) =>
      if (negb neg && (two63 <=? un))%bool then (max_int64, Some NumRange)
      else if (neg && (two63 <? un))%bool then (min_int64, Some NumRange)
      else ((if neg then - un else un), e)
  end.

Definition parse_uint (s : string) : Z * option num_error := parse_uint_bytes (bytes s).
Definition atoi (s : string) : Z * option num_error := parse_int_bytes (bytes s).

(** [v, _ := strconv.Atoi(s)]: the value, the error dropped. *)
Definition atoi_value (s : string) : Z := fst (atoi s).

(** ** Bytes and strings: lemmas *)

Lemma ascii_byte_ascii a : ascii_of_byte (byte_of_ascii a) = a.
Proof. unfold ascii_of_byte, byte_of_ascii. rewrite N2Z.id. apply ascii_N_embedding. Qed.

Lemma byte_ascii_byte z : is_byte z -> byte_of_ascii (ascii_of_byte z) = z.
Proof.
  intros [H0 H1]. unfold ascii_of_byte, byte_of_ascii.
  rewrite N_ascii_embedding; [by rewrite Z2N.id|]. lia.
Qed.

Lemma is_byte_ascii a : is_byte (byte_of_ascii a).
Proof.
  unfold is_byte, byte_of_ascii. pose proof (N_ascii_bounded a). lia.
Qed.

Lemma bytes_is_byte s : Forall is_byte (bytes s).
Proof. apply Forall_fmap, Forall_forall. intros a _. apply is_byte_ascii. Qed.

Lemma of_bytes_bytes s : of_bytes (bytes s) = s.
Proof.
  unfold of_bytes, bytes. rewrite <- list_fmap_compose.
  rewrite (list_fmap_ext _ id).
  - by rewrite list_fmap_id, string_of_list_ascii_of_string.
  - intros i a _. apply ascii_byte_ascii.
Qed.

Lemma bytes_of_bytes l : Forall is_byte l -> bytes (of_bytes l) = l.
Proof.
  intros H. unfold of_bytes, bytes. rewrite list_ascii_of_string_of_list_ascii.
  rewrite <- list_fmap_compose. induction H as [|z l Hz Hl IH]; [done|].
  cbn. f_equal; [by apply byte_ascii_byte|done].
Qed.

Lemma bytes_inj s1 s2 : bytes s1 = bytes s2 -> s1 = s2.
Proof. intros H. by rewrite <- (of_bytes_bytes s1), H, of_bytes_bytes. Qed.

Lemma bytes_app s1 s2 : bytes (s1 +:+ s2) = bytes s1 ++ bytes s2.
Proof.
  unfold bytes. induction s1 as [|a s1 IH]; [done|].
  change (String a s1 +:+ s2) with (String a (s1 +:+ s2)). cbn. by f_equal.
Qed.

Lemma of_bytes_app l1 l2 : of_bytes (l1 ++ l2) = of_bytes l1 +:+ of_bytes l2.
Proof.
  unfold of_bytes. rewrite fmap_app. induction (ascii_of_byte <$> l1) as [|a l IH]; [done|].
  change ((a :: l) ++ (ascii_of_byte <$> l2)) with (a :: (l ++ (ascii_of_byte <$> l2))).
  cbn [string_of_list_ascii]. rewrite IH. reflexivity.
Qed.

#[export] Hint Resolve bytes_is_byte : go.

(** One decoding step. *)
Lemma runes_cons b0 l1 :
  runes (b0 :: l1) =
  let one := ((if b0 <? 128 then b0 else rune_error), [b0]) :: runes l1 in
  match l1 with
  | [] => one
  | b1 :: l2 =>
      if is_utf8_2 b0 b1
      then ((b0 - 192) * 64 + (b1 - 128), [b0; b1]) :: runes l2
      else match l2 with
           | [] => one
           | b2 :: l3 =>
               if is_utf8_3 b0 b1 b2
               then ((b0 - 224) * 4096 + (b1 - 128) * 64 + (b2 - 128), [b0; b1; b2]) :: runes l3
               else match l3 with
                    | [] => one
                    | b3 :: l4 =>
                        if is_utf8_4 b0 b1 b2 b3
                        then ((b0 - 240) * 262144 + (b1 - 128) * 4096
                              + (b2 - 128) * 64 + (b3 - 128), [b0; b1; b2; b3]) :: runes l4
                        else one
                    end
           end
  end.
Proof. reflexivity. Qed.

(** Decoding always splits off a first rune made of one to four leading bytes. *)
Lemma runes_step b0 l1 :
  exists r bs l2, runes (b0 :: l1) = (r, bs) :: runes l2 /\ b0 :: l1 = bs ++ l2
    /\ (length l2 <= length l1)%nat.
Proof.
  rewrite runes_cons. cbn zeta.
  destruct l1 as [|b1 l2]; [by eexists _, [b0], []|].
  destruct (is_utf8_2 b0 b1); [eexists _, [b0; b1], _; split; [done|cbn; split; [done|lia]]|].
  destruct l2 as [|b2 l3]; [by eexists _, [b0], _|].
  destruct (is_utf8_3 b0 b1 b2);
    [eexists _, [b0; b1; b2], _; split; [done|cbn; split; [done|lia]]|].
  destruct l3 as [|b3 l4]; [by eexists _, [b0], _|].
  destruct (is_utf8_4 b0 b1 b2 b3);
    [eexists _, [b0; b1; b2; b3], _; split; [done|cbn; split; [done|lia]]|].
  by eexists _, [b0], _.
Qed.

(** Induction along the decoding. *)
Lemma runes_ind (P : list Z -> Prop) :
  P [] ->
  (forall b0 l1 r bs l2, runes (b0 :: l1) = (r, bs) :: runes l2 -> b0 :: l1 = bs ++ l2 ->
     P l2 -> P (b0 :: l1)) ->
  forall l, P l.
Proof.
  intros H0 HS l.
  enough (H : forall n l, (length l <= n)%nat -> P l) by eauto.
  clear l. intros n. induction n as [|n IH]; intros [|b0 l1] Hl; cbn in Hl; try done; [lia|].
  destruct (runes_step b0 l1) as (r & bs & l2 & E1 & E2 & Hlen).
  eapply HS; [done..|]. apply IH. lia.
Qed.

(** The bytes of the decoded runes are the bytes of the string. *)
Lemma runes_concat l : concat (snd <$> runes l) = l.
Proof.
  induction l as [|b0 l1 r bs l2 E1 E2 IH] using runes_ind; [done|].
  rewrite E1, E2. cbn. by rewrite IH.
Qed.

Lemma drop_while_split {A} (p : A -> bool) l :
  exists l1, l = l1 ++ drop_while p l /\ forallb p l1 = true.
Proof.
  induction l as [|a l (l1 & E & H)]; cbn; [by exists []|].
  destruct (p a) eqn:Ep; [|by exists []].
  exists (a :: l1). cbn. rewrite Ep, H. split; [congruence|done].
Qed.

Lemma drop_while_none {A} (p : A -> bool) l :
  match l with a :: _ => p a = false | [] => True end -> drop_while p l = l.
Proof. destruct l; cbn; [done|]. by intros ->. Qed.

Lemma drop_while_head {A} (p : A -> bool) l :
  match drop_while p l with a :: _ => p a = false | [] => True end.
Proof. induction l as [|a l IH]; cbn; [done|]. by destruct (p a) eqn:E. Qed.

(** ** Trimming *)

(** The decoder never looks across a byte that does not continue a rune. *)
Definition starts_rune (l : list Z) : Prop :=
  match l with b :: _ => is_cont b = false | [] => True end.

Lemma is_utf8_2_cont b0 b1 : is_utf8_2 b0 b1 = true -> is_cont b1 = true.
Proof. unfold is_utf8_2. intros H. by b2p. Qed.
Lemma is_utf8_3_cont b0 b1 b2 :
  is_utf8_3 b0 b1 b2 = true -> is_cont b1 = true /\ is_cont b2 = true.
Proof.
  unfold is_utf8_3, is_cont, in_range. intros H. b2p. split; [|apply andb_true_iff; split; lia].
  apply andb_true_iff. rewrite !Z.leb_le. lia.
Qed.
Lemma is_utf8_4_cont b0 b1 b2 b3 :
  is_utf8_4 b0 b1 b2 b3 = true ->
  is_cont b1 = true /\ is_cont b2 = true /\ is_cont b3 = true.
Proof.
  unfold is_utf8_4, is_cont, in_range. intros H. b2p.
  rewrite !andb_true_iff, !Z.leb_le. lia.
Qed.

Lemma runes_app l1 l2 : starts_rune l2 -> runes (l1 ++ l2) = runes l1 ++ runes l2.
Proof.
  intros Hs. enough (H : forall n l1, (length l1 <= n)%nat ->
    runes (l1 ++ l2) = runes l1 ++ runes l2) by eauto.
  clear l1. intros n. induction n as [|n IH]; intros [|b0 m1] Hl; cbn in Hl; try done; [lia|].
  change ((b0 :: m1) ++ l2) with (b0 :: (m1 ++ l2)). rewrite !runes_cons. cbn zeta.
  assert (Hone : forall x, (x :: runes (m1 ++ l2)) = (x :: runes m1) ++ runes l2).
  { intros x. cbn. f_equal. apply IH. lia. }
  destruct m1 as [|b1 m2]; cbn [app].
  { destruct l2 as [|c0 l3]; [done|]. cbn in Hs.
    destruct (is_utf8_2 b0 c0) eqn:E2; [apply is_utf8_2_cont in E2; congruence|].
    destruct l3 as [|c1 l4]; [done|].
    destruct (is_utf8_3 b0 c0 c1) eqn:E3; [apply is_utf8_3_cont in E3; destruct E3; congruence|].
    destruct l4 as [|c2 l5]; [done|].
    destruct (is_utf8_4 b0 c0 c1 c2) eqn:E4; [apply is_utf8_4_cont in E4; destruct E4; congruence|].
    done. }
  cbn in Hl. destruct (is_utf8_2 b0 b1); [cbn; f_equal; apply IH; lia|].
  destruct m2 as [|b2 m3]; cbn [app].
  { destruct l2 as [|c0 l3]; [apply Hone|]. cbn in Hs.
    destruct (is_utf8_3 b0 b1 c0) eqn:E3; [apply is_utf8_3_cont in E3; destruct E3; congruence|].
    destruct l3 as [|c1 l4]; [apply Hone|].
    destruct (is_utf8_4 b0 b1 c0 c1) eqn:E4;
      [apply is_utf8_4_cont in E4; destruct E4 as (? & ? & ?); congruence|].
    apply Hone. }
  cbn in Hl. destruct (is_utf8_3 b0 b1 b2); [cbn; f_equal; apply IH; lia|].
  destruct m3 as [|b3 m4]; cbn [app].
  { destruct l2 as [|c0 l3]; [apply Hone|]. cbn in Hs.
    destruct (is_utf8_4 b0 b1 b2 c0) eqn:E4;
      [apply is_utf8_4_cont in E4; destruct E4 as (? & ? & ?); congruence|].
    apply Hone. }
  cbn in Hl. destruct (is_utf8_4 b0 b1 b2 b3); [cbn; f_equal; apply IH; lia|].
  apply Hone.
Qed.

(** A decoded space starts with a byte that continues no rune. *)
Lemma runes_nonempty l : Forall (fun c : Z * list Z => c.2 <> []) (runes l).
Proof.
  induction l as [|b0 l1 r bs l2 E1 E2 IH] using runes_ind; [constructor|].
  rewrite E1. constructor; [|done]. cbn. intros ->. cbn in E2. subst l2.
  rewrite E1 in IH. apply (f_equal length) in E1. cbn in E1. lia.
Qed.

Lemma runes_space_start l :
  Forall (fun c : Z * list Z => space_rune c = true -> starts_rune c.2) (runes l).
Proof.
  induction l as [|b0 l1 r bs l2 E1 E2 IH] using runes_ind; [constructor|].
  rewrite E1. constructor; [|done]. clear IH. cbn [snd]. intros Hsp.
  assert (Hb : bs <> []).
  { pose proof (runes_nonempty (b0 :: l1)) as HF. rewrite E1 in HF. by inversion HF. }
  destruct bs as [|b bs]; [done|]. cbn in E2. injection E2 as <- E2. cbn.
  rewrite runes_cons in E1. cbn zeta in E1.
  assert (Hone : forall x y, ((if b0 <? 128 then b0 else rune_error), [b0]) :: x
                             = (r, b0 :: bs) :: y -> is_cont b0 = false).
  { intros x y [= Hr _ _]. unfold is_cont, in_range. destruct (b0 <? 128) eqn:E; b2p.
    - apply andb_false_iff. left. apply Z.leb_gt. lia.
    - subst r. by vm_compute in Hsp. }
  assert (Hrange : forall a b : bool, in_range 194 244 b0 = true -> is_cont b0 = false).
  { unfold is_cont, in_range. intros _ _ H. b2p. apply andb_false_iff. right.
    apply Z.leb_gt. lia. }
  destruct l1 as [|b1 m2]; [by eapply Hone|].
  destruct (is_utf8_2 b0 b1) eqn:H2.
  { apply (Hrange true true). unfold is_utf8_2, in_range in *. b2p.
    apply andb_true_iff. rewrite !Z.leb_le. lia. }
  destruct m2 as [|b2 m3]; [by eapply Hone|].
  destruct (is_utf8_3 b0 b1 b2) eqn:H3.
  { apply (Hrange true true). unfold is_utf8_3, is_cont, in_range in *.
    apply andb_true_iff. rewrite !Z.leb_le. lia. }
  destruct m3 as [|b3 m4]; [by eapply Hone|].
  destruct (is_utf8_4 b0 b1 b2 b3) eqn:H4; [|by eapply Hone].
  apply (Hrange true true). unfold is_utf8_4, is_cont, in_range in *.
  apply andb_true_iff. rewrite !Z.leb_le. lia.
Qed.

(** Dropping decoded runes from the front leaves the decoding of a suffix. *)
Lemma drop_while_runes p l : exists l', drop_while p (runes l) = runes l'.
Proof.
  induction l as [|b0 l1 r bs l2 E1 E2 IH] using runes_ind; [by exists []|].
  rewrite E1. cbn [drop_while]. destruct (p (r, bs)); [done|]. exists (b0 :: l1). done.
Qed.

(** The decoding of a list cut before a rune start is the cut decoding. *)
Lemma runes_prefix l c1 c2 :
  runes l = c1 ++ c2 -> Forall (fun c : Z * list Z => starts_rune c.2) c2 ->
  runes (concat (snd <$> c1)) = c1.
Proof.
  intros E Hc2.
  assert (Hne : Forall (fun c : Z * list Z => c.2 <> []) (c1 ++ c2)).
  { rewrite <- E. apply runes_nonempty. }
  apply Forall_app in Hne as [Hne1 Hne2].
  assert (Hl : l = concat (snd <$> c1) ++ concat (snd <$> c2)).
  { rewrite <- concat_app, <- fmap_app, <- E. symmetry. apply runes_concat. }
  assert (Hst : starts_rune (concat (snd <$> c2))).
  { destruct Hc2 as [|[r b] c2' Hb Hc]; [done|]. cbn in *.
    destruct b as [|b0 b]; [|done]. by inversion Hne2. }
  pose proof (runes_app (concat (snd <$> c1)) _ Hst) as H. rewrite <- Hl, E in H.
  pose proof (runes_concat (concat (snd <$> c1))) as H2.
  pose proof (runes_nonempty (concat (snd <$> c1))) as Hne3.
  assert (Hnil : forall d : list (Z * list Z), Forall (fun c : Z * list Z => c.2 <> []) d ->
            concat (snd <$> d) = [] -> d = []).
  { intros [|[r b] d] Hd Hcd; [done|]. cbn in Hcd. apply app_eq_nil in Hcd as [-> _].
    by inversion Hd. }
  revert H H2 Hne3. generalize (runes (concat (snd <$> c1))) as x. intros x H H2 Hne3.
  destruct (app_eq_app _ _ _ _ H) as (d & [[E1 E2]|[E1 E2]]); subst.
  - rewrite fmap_app, concat_app in H2. rewrite <- (app_nil_r (concat _)) in H2 at 1.
    apply app_inv_head in H2. apply Forall_app in Hne1 as [_ Hd].
    rewrite (Hnil d); [by rewrite app_nil_r|done|done].
  - rewrite fmap_app, concat_app in H2. rewrite <- (app_nil_r (concat (_ <$> c1))) in H2.
    rewrite <- app_assoc in H2. apply app_inv_head in H2. cbn in H2.
    apply Forall_app in Hne3 as [_ Hd].
    rewrite (Hnil d); [by rewrite app_nil_r|done|done].
Qed.

Lemma trim_runes_spec l :
  exists c, drop_while_end space_rune (drop_while space_rune (runes l)) = c
    /\ runes (concat (snd <$> c)) = c
    /\ drop_while space_rune c = c /\ drop_while space_rune (rev c) = rev c
    /\ (forall P : Z -> Prop, Forall P l -> Forall P (concat (snd <$> c))).
Proof.
  destruct (drop_while_runes space_rune l) as [l' El].
  pose proof (drop_while_head space_rune (runes l)) as Hh. rewrite El in *.
  unfold drop_while_end. destruct (drop_while_split space_rune (rev (runes l'))) as (c2 & E & Hc2).
  pose proof (drop_while_head space_rune (rev (runes l'))) as Ht.
  set (d := drop_while space_rune (rev (runes l'))) in *.
  assert (Er : runes l' = rev d ++ rev c2).
  { by rewrite <- rev_app_distr, <- E, rev_involutive. }
  exists (rev d). split; [done|].
  assert (Hpre : runes (concat (snd <$> rev d)) = rev d).
  { eapply runes_prefix; [exact Er|].
    pose proof (runes_space_start l') as Hs. rewrite Er in Hs.
    apply Forall_app in Hs as [_ Hs].
    rewrite Forall_forall in Hs |- *. intros c Hc. apply Hs; [done|].
    rewrite forallb_forall in Hc2. apply Hc2. by apply in_rev, list_elem_of_In. }
  split; [done|]. split; [|split].
  - apply drop_while_none. destruct (rev d) as [|c d'] eqn:Ed; [done|].
    rewrite Er in Hh. done.
  - rewrite rev_involutive. by apply drop_while_none.
  - intros P HP.
    assert (HP' : Forall P (concat (snd <$> runes l'))).
    { rewrite <- El. rewrite <- (runes_concat l) in HP.
      destruct (drop_while_split space_rune (runes l)) as (c1 & Ec1 & _). rewrite Ec1 in HP.
      rewrite fmap_app, concat_app in HP. by apply Forall_app in HP as [_ HP]. }
    rewrite Er, fmap_app, concat_app in HP'. by apply Forall_app in HP' as [HP' _].
Qed.

(** [strings.TrimSpace] is idempotent. *)
Lemma trim_space_idem s : trim_space (trim_space s) = trim_space s.
Proof.
  unfold trim_space at 2 3.
  destruct (trim_runes_spec (bytes s)) as (c & -> & Hr & Hd & Hd' & HP).
  unfold trim_space. rewrite bytes_of_bytes by (apply HP, bytes_is_byte).
  rewrite Hr, Hd. unfold drop_while_end. by rewrite Hd', rev_involutive.
Qed.

(** ** Numbers *)

Lemma dec_digits_app fuel n acc :
  dec_digits fuel n acc = dec_digits fuel n [] ++ acc.
Proof.
  revert n acc. induction fuel as [|f IH]; intros n acc; cbn; [done|].
  destruct (n <? 10); [done|].
  rewrite IH, (IH _ [_]). by rewrite <- app_assoc.
Qed.

Lemma dec_digits_digit fuel n acc :
  Forall (fun b => is_digit b = true) acc ->
  Forall (fun b => is_digit b = true) (dec_digits fuel n acc).
Proof.
  revert n acc. induction fuel as [|f IH]; intros n acc H; cbn; [done|].
  assert (Hd : is_digit (48 + n mod 10) = true).
  { unfold is_digit, in_range. pose proof (Z.mod_pos_bound n 10).
    apply andb_true_iff. rewrite !Z.leb_le. lia. }
  destruct (n <? 10); [by constructor|]. apply IH. by constructor.
Qed.

Lemma dec_fuel_bound n : 0 <= n -> n < 10 ^ Z.of_nat (dec_fuel n).
Proof.
  intros Hn. unfold dec_fuel. rewrite Nat2Z.inj_succ, Z2Nat.id by apply Z.log2_nonneg.
  destruct (decide (n = 0)) as [->|]; [done|].
  pose proof (Z.log2_spec n ltac:(lia)) as [_ H].
  eapply Z.lt_le_trans; [exact H|]. apply Z.pow_le_mono_l. lia.
Qed.

(** Reading back the digits of a number continues with the number. *)
Lemma parse_uint_dec fuel n acc :
  0 <= n < 10 ^ Z.of_nat fuel -> n <= max_uint64 ->
  parse_uint_loop (dec_digits fuel n acc) 0 = parse_uint_loop acc n.
Proof.
  revert n acc. induction fuel as [|f IH]; intros n acc Hn Hm.
  { assert (n = 0) as -> by (cbn in Hn; lia). done. }
  pose proof (Z.mod_pos_bound n 10 ltac:(lia)) as Hmod.
  assert (Hd : is_digit (48 + n mod 10) = true).
  { unfold is_digit, in_range. apply andb_true_iff. rewrite !Z.leb_le. lia. }
  assert (Hstep : forall m, m = n / 10 ->
            parse_uint_loop ((48 + n mod 10) :: acc) m = parse_uint_loop acc n).
  { intros m ->. cbn [parse_uint_loop]. rewrite Hd.
    assert (n / 10 * 10 + (48 + n mod 10 - 48) = n) as ->.
    { pose proof (Z.div_mod n 10 ltac:(lia)). lia. }
    assert (n / 10 <= max_uint64 / 10) by (apply Z.div_le_mono; lia).
    destruct (Z.leb_spec (max_uint64 / 10 + 1) (n / 10)); [lia|].
    by destruct (Z.ltb_spec max_uint64 n); [lia|]. }
  cbn [dec_digits]. destruct (Z.ltb_spec n 10).
  - apply Hstep. symmetry. apply Z.div_small. lia.
  - rewrite IH.
    + by apply Hstep.
    + split; [apply Z.div_pos; lia|]. apply Z.div_lt_upper_bound; [lia|].
      rewrite Nat2Z.inj_succ, Z.pow_succ_r in Hn by lia. lia.
    + assert (n / 10 <= n) by (apply Z.div_le_upper_bound; lia). lia.
Qed.

Lemma dec_digits_cons n :
  0 <= n -> exists d ds, dec_digits (dec_fuel n) n [] = d :: ds /\ is_digit d = true.
Proof.
  intros Hn. pose proof (dec_digits_digit (dec_fuel n) n [] ltac:(constructor)) as HF.
  assert (Hne : dec_digits (dec_fuel n) n [] <> []).
  { unfold dec_fuel. cbn. destruct (n <? 10); [done|].
    rewrite dec_digits_app. intros H. by apply app_eq_nil in H as [_ ?]. }
  destruct (dec_digits (dec_fuel n) n []) as [|d ds]; [done|].
  inversion HF; subst. by exists d, ds.
Qed.

Lemma itoa_bytes_is_byte z : Forall is_byte (itoa_bytes z).
Proof.
  assert (H : forall f n, Forall is_byte (dec_digits f n [])).
  { intros f n. eapply Forall_impl; [apply dec_digits_digit; constructor|].
    unfold is_digit, in_range, is_byte. intros b Hb. cbn in Hb. b2p. lia. }
  unfold itoa_bytes. destruct (z <? 0); [constructor; [unfold is_byte; lia|]|]; apply H.
Qed.

Lemma parse_uint_bytes_itoa n :
  0 <= n <= max_uint64 -> parse_uint_bytes (dec_digits (dec_fuel n) n []) = (n, None).
Proof.
  intros Hn. destruct (dec_digits_cons n ltac:(lia)) as (d & ds & E & _).
  unfold parse_uint_bytes. rewrite E. rewrite <- E.
  rewrite parse_uint_dec; [done| |lia]. split; [lia|]. apply dec_fuel_bound. lia.
Qed.

(** [strconv.ParseUint] reads back what [strconv.Itoa] prints. *)
Lemma parse_uint_itoa n : in_uint64 n = true -> parse_uint (itoa n) = (n, None).
Proof.
  unfold in_uint64. intros H. b2p. unfold parse_uint, itoa.
  rewrite bytes_of_bytes by apply itoa_bytes_is_byte. unfold itoa_bytes.
  destruct (Z.ltb_spec n 0); [lia|]. by apply parse_uint_bytes_itoa.
Qed.

Lemma parse_int_bytes_itoa z :
  in_int64 z = true -> parse_int_bytes (itoa_bytes z) = (z, None).
Proof.
  unfold in_int64, min_int64, max_int64. intros H. b2p. unfold itoa_bytes.
  assert (Hb : two63 <= max_uint64) by done.
  destruct (Z.ltb_spec z 0) as [Hz|Hz]; unfold parse_int_bytes.
  - change (45 =? 43) with false. change (45 =? 45) with true. cbv iota.
    rewrite parse_uint_bytes_itoa by lia. cbn [negb andb].
    destruct (Z.ltb_spec two63 (- z)); [lia|]. by rewrite Z.opp_involutive.
  - destruct (dec_digits_cons z Hz) as (d & ds & E & Hd). rewrite E.
    unfold is_digit, in_range in Hd. b2p.
    destruct (Z.eqb_spec d 43); [lia|]. destruct (Z.eqb_spec d 45); [lia|]. rewrite <- E.
    rewrite parse_uint_bytes_itoa by lia. cbn [negb andb].
    by destruct (Z.leb_spec two63 z); [lia|].
Qed.

(** [strconv.Atoi] reads back what [strconv.Itoa] prints. *)
Lemma atoi_itoa z : in_int64 z = true -> atoi (itoa z) = (z, None).
Proof.
  intros H. unfold atoi, itoa. rewrite bytes_of_bytes by apply itoa_bytes_is_byte.
  by apply parse_int_bytes_itoa.
Qed.

Lemma span_digits_app ds rest :
  Forall (fun b => is_digit b = true) ds ->
  match rest with b :: _ => is_digit b = false | [] => True end ->
  span_digits (ds ++ rest) = (ds, rest).
Proof.
  intros Hd Hr. induction Hd as [|b ds Hb Hds IH]; cbn.
  - destruct rest as [|b rest]; cbn; [done|]. by rewrite Hr.
  - by rewrite Hb, IH.
Qed.

(** ** Valid runes *)

(** The first rune of a non-empty byte string: an ASCII byte, an invalid byte,
    or an encoding of two, three or four bytes. *)
Lemma first_rune b0 l1 :
  exists r bs l2, runes (b0 :: l1) = (r, bs) :: runes l2 /\ b0 :: l1 = bs ++ l2 /\
  ((b0 < 128 /\ r = b0 /\ bs = [b0])
   \/ (128 <= b0 /\ r = rune_error /\ bs = [b0])
   \/ (exists b1, is_utf8_2 b0 b1 = true /\ r = (b0 - 192) * 64 + (b1 - 128) /\ bs = [b0; b1])
   \/ (exists b1 b2, is_utf8_2 b0 b1 = false /\ is_utf8_3 b0 b1 b2 = true
         /\ r = (b0 - 224) * 4096 + (b1 - 128) * 64 + (b2 - 128) /\ bs = [b0; b1; b2])
   \/ (exists b1 b2 b3, is_utf8_2 b0 b1 = false /\ is_utf8_3 b0 b1 b2 = false
         /\ is_utf8_4 b0 b1 b2 b3 = true
         /\ r = (b0 - 240) * 262144 + (b1 - 128) * 4096 + (b2 - 128) * 64 + (b3 - 128)
         /\ bs = [b0; b1; b2; b3])).
Proof.
  rewrite runes_cons. cbn zeta.
  assert (Hone : exists r bs l2, ((if b0 <? 128 then b0 else rune_error), [b0]) :: runes l1
      = (r, bs) :: runes l2 /\ b0 :: l1 = bs ++ l2 /\
      ((b0 < 128 /\ r = b0 /\ bs = [b0]) \/ (128 <= b0 /\ r = rune_error /\ bs = [b0]))).
  { eexists _, [b0], l1. split; [reflexivity|]. split; [done|].
    destruct (Z.ltb_spec b0 128); [left|right]; done. }
  destruct Hone as (r & bs & l2 & E1 & E2 & Hone).
  destruct l1 as [|b1 m2]; [exists r, bs, l2; naive_solver|].
  destruct (is_utf8_2 b0 b1) eqn:H2.
  { eexists _, [b0; b1], _. split; [reflexivity|]. split; [done|]. do 2 right. left. by exists b1. }
  destruct m2 as [|b2 m3]; [exists r, bs, l2; naive_solver|].
  destruct (is_utf8_3 b0 b1 b2) eqn:H3.
  { eexists _, [b0; b1; b2], _. split; [reflexivity|]. split; [done|]. do 3 right. left.
    by exists b1, b2. }
  destruct m3 as [|b3 m4]; [exists r, bs, l2; naive_solver|].
  destruct (is_utf8_4 b0 b1 b2 b3) eqn:H4; [|exists r, bs, l2; naive_solver].
  eexists _, [b0; b1; b2; b3], _. split; [reflexivity|]. split; [done|]. do 4 right.
  by exists b1, b2, b3.
Qed.

(** What holds of a valid rune and the bytes it was decoded from. *)
Record good_chunk (c : Z * list Z) : Prop := {
  good_valid : rune_valid c = true;
  good_encode : encode_rune c.1 = c.2;
  good_start : starts_rune c.2;
  good_nonneg : 0 <= c.1;
  good_ascii : c.1 < 128 -> c.2 = [c.1];
  good_high : 128 <= c.1 -> Forall (fun b => 128 <= b) c.2;
  good_runes : runes c.2 = [c]
}.

Lemma starts_rune_range b l : b < 128 \/ 192 <= b -> starts_rune (b :: l).
Proof.
  intros H. cbn. unfold is_cont, in_range. apply andb_false_iff. rewrite !Z.leb_gt. lia.
Qed.

Lemma good_chunk_ascii b : 0 <= b < 128 -> good_chunk (b, [b]).
Proof.
  intros H. assert (Hlt : (b <? 128) = true) by (apply Z.ltb_lt; lia).
  split; cbn [fst snd].
  - exact Hlt.
  - unfold encode_rune. by rewrite Hlt.
  - apply starts_rune_range. lia.
  - lia.
  - done.
  - lia.
  - cbn. by rewrite Hlt.
Qed.

Lemma good_chunk_2 b0 b1 :
  is_utf8_2 b0 b1 = true -> good_chunk ((b0 - 192) * 64 + (b1 - 128), [b0; b1]).
Proof.
  intros E. pose proof E as H. unfold is_utf8_2, is_cont, in_range in H. b2p.
  split; cbn [fst snd]; try done; try lia.
  - unfold encode_rune. set (r := (b0 - 192) * 64 + (b1 - 128)).
    destruct (Z.ltb_spec r 128); [lia|]. destruct (Z.ltb_spec r 2048); [|lia].
    f_equal; [|f_equal]; unfold r in *; Z.div_mod_to_equations; lia.
  - apply starts_rune_range. lia.
  - intros _. repeat constructor; lia.
  - rewrite runes_cons. cbn zeta. by rewrite E.
Qed.

Lemma good_chunk_3 b0 b1 b2 :
  is_utf8_2 b0 b1 = false -> is_utf8_3 b0 b1 b2 = true ->
  good_chunk ((b0 - 224) * 4096 + (b1 - 128) * 64 + (b2 - 128), [b0; b1; b2]).
Proof.
  intros E2 E. pose proof E as H.
  assert (Hb : 224 <= b0 <= 239 /\ 128 <= b1 <= 191 /\ 128 <= b2 <= 191 /\ (b0 = 224 -> 160 <= b1)).
  { unfold is_utf8_3, is_cont, in_range in H. b2p. lia. }
  split; cbn [fst snd]; try done; try lia.
  - unfold encode_rune. set (r := (b0 - 224) * 4096 + (b1 - 128) * 64 + (b2 - 128)).
    destruct (Z.ltb_spec r 128); [lia|]. destruct (Z.ltb_spec r 2048); [lia|].
    destruct (Z.ltb_spec r 65536); [|lia].
    f_equal; [|f_equal; [|f_equal]]; unfold r in *; Z.div_mod_to_equations; lia.
  - apply starts_rune_range. lia.
  - intros _. repeat constructor; lia.
  - rewrite runes_cons. cbn zeta. by rewrite E2, E.
Qed.

Lemma good_chunk_4 b0 b1 b2 b3 :
  is_utf8_2 b0 b1 = false -> is_utf8_3 b0 b1 b2 = false -> is_utf8_4 b0 b1 b2 b3 = true ->
  good_chunk ((b0 - 240) * 262144 + (b1 - 128) * 4096 + (b2 - 128) * 64 + (b3 - 128),
              [b0; b1; b2; b3]).
Proof.
  intros E2 E3 E. pose proof E as H.
  assert (Hb : 240 <= b0 <= 244 /\ 128 <= b1 <= 191 /\ 128 <= b2 <= 191 /\ 128 <= b3 <= 191
            /\ (b0 = 240 -> 144 <= b1)).
  { unfold is_utf8_4, is_cont, in_range in H. b2p. lia. }
  split; cbn [fst snd]; try done; try lia.
  - unfold encode_rune.
    set (r := (b0 - 240) * 262144 + (b1 - 128) * 4096 + (b2 - 128) * 64 + (b3 - 128)).
    destruct (Z.ltb_spec r 128); [lia|]. destruct (Z.ltb_spec r 2048); [lia|].
    destruct (Z.ltb_spec r 65536); [lia|].
    f_equal; [|f_equal; [|f_equal; [|f_equal]]]; unfold r in *; Z.div_mod_to_equations; lia.
  - apply starts_rune_range. lia.
  - intros _. repeat constructor; lia.
  - rewrite runes_cons. cbn zeta. by rewrite E2, E3, E.
Qed.

Lemma runes_good l :
  Forall is_byte l -> forallb rune_valid (runes l) = true -> Forall good_chunk (runes l).
Proof.
  induction l as [|b0 l1 r bs l2 E1 E2 IH] using runes_ind; [constructor|].
  intros Hb Hv. rewrite E1 in *. cbn [forallb] in Hv. b2p.
  assert (Hl2 : Forall is_byte l2) by (rewrite E2 in Hb; by apply Forall_app in Hb as [_ ?]).
  constructor; [|by apply IH].
  destruct (first_rune b0 l1) as (r' & bs' & l2' & E1' & _ & Hc).
  rewrite E1 in E1'. injection E1' as <- <- _.
  inversion Hb as [|? ? Hb0 _]; subst. unfold is_byte in Hb0.
  destruct Hc as [(?&->&->)|[(?&->&->)|[(b1&?&->&->)|[(b1&b2&?&?&->&->)|(b1&b2&b3&?&?&?&->&->)]]]].
  - apply good_chunk_ascii. lia.
  - match goal with H : rune_valid _ = true |- _ => cbn in H; b2p end. lia.
  - by apply good_chunk_2.
  - by apply good_chunk_3.
  - by apply good_chunk_4.
Qed.

(** The leading digit of a positive number is not zero. *)
Lemma dec_digits_head fuel n acc :
  0 < n < 10 ^ Z.of_nat fuel ->
  exists d ds, dec_digits fuel n acc = d :: ds /\ 49 <= d <= 57.
Proof.
  revert n acc. induction fuel as [|f IH]; intros n acc H; [cbn in H; lia|].
  rewrite Nat2Z.inj_succ, Z.pow_succ_r in H by lia. cbn [dec_digits].
  destruct (Z.ltb_spec n 10).
  - eexists _, _. split; [done|]. rewrite Z.mod_small by lia. lia.
  - apply IH. split; [apply Z.div_str_pos; lia|]. apply Z.div_lt_upper_bound; lia.
Qed.

(** ** ASCII text *)

Definition is_ascii (b : Z) : Prop := 0 <= b < 128.

Lemma is_ascii_byte b : is_ascii b -> is_byte b.
Proof. unfold is_ascii, is_byte. lia. Qed.

Lemma runes_ascii_cons b l : b < 128 -> runes (b :: l) = (b, [b]) :: runes l.
Proof.
  intros H. destruct (first_rune b l) as (r & bs & l2 & E1 & E2 & Hc). rewrite E1.
  assert (H2 : forall b1, is_utf8_2 b b1 = false).
  { intros b1. unfold is_utf8_2, in_range. apply andb_false_iff. left.
    apply andb_false_iff. left. apply Z.leb_gt. lia. }
  assert (H3 : forall b1 b2, is_utf8_3 b b1 b2 = false).
  { intros b1 b2. destruct (is_utf8_3 b b1 b2) eqn:E; [|done]. unfold is_utf8_3, in_range in E.
    b2p. lia. }
  assert (H4 : forall b1 b2 b3, is_utf8_4 b b1 b2 b3 = false).
  { intros b1 b2 b3. destruct (is_utf8_4 b b1 b2 b3) eqn:E; [|done]. unfold is_utf8_4, in_range in E.
    b2p. lia. }
  destruct Hc as [(?&->&->)|[(?&->&->)|[(b1&E&_)|[(b1&b2&_&E&_)|(b1&b2&b3&_&_&E&_)]]]].
  - by injection E2 as <-.
  - lia.
  - by rewrite H2 in E.
  - by rewrite H3 in E.
  - by rewrite H4 in E.
Qed.

Lemma valid_ascii l : Forall is_ascii l -> valid_string (of_bytes l) = true.
Proof.
  intros H. unfold valid_string. rewrite bytes_of_bytes.
  - induction H as [|b l Hb Hl IH]; [done|]. unfold is_ascii in Hb.
    rewrite runes_ascii_cons by lia. cbn. rewrite IH. destruct (Z.ltb_spec b 128); [done|lia].
  - eapply Forall_impl; [exact H|]. apply is_ascii_byte.
Qed.

Lemma drop_while_end_cons {A} (p : A -> bool) a l :
  p a = false -> exists l', drop_while_end p (a :: l) = a :: l'.
Proof.
  intros H. unfold drop_while_end. cbn [rev].
  assert (Hs : forall m, exists m', drop_while p (m ++ [a]) = m' ++ [a]).
  { induction m as [|b m (m' & IH)]; cbn; [rewrite H; by exists []|].
    destruct (p b); [by exists m'|by exists (b :: m)]. }
  destruct (Hs (rev l)) as [m' ->]. rewrite rev_unit. eauto.
Qed.

(** Text that starts with an ASCII byte other than space is not blank. *)
Lemma trim_space_head b l :
  is_ascii b -> is_space b = false -> Forall is_byte l -> trim_space (of_bytes (b :: l)) <> "".
Proof.
  intros Hb Hs Hl. unfold trim_space.
  rewrite bytes_of_bytes by (constructor; [by apply is_ascii_byte|done]).
  unfold is_ascii in Hb. rewrite runes_ascii_cons by lia. rewrite drop_while_none by done.
  destruct (drop_while_end_cons space_rune (b, [b]) (runes l) Hs) as [l' ->]. done.
Qed.

(** Text between two ASCII bytes that are no spaces is trimmed already. *)
Lemma trim_space_closed b l e :
  is_ascii b -> is_space b = false -> is_ascii e -> is_space e = false -> Forall is_byte l ->
  trim_space (of_bytes (b :: l ++ [e])) = of_bytes (b :: l ++ [e]).
Proof.
  intros Hb Hbs He Hes Hl. unfold trim_space.
  rewrite bytes_of_bytes
    by (constructor; [by apply is_ascii_byte|]; apply Forall_app; split; [done|];
        constructor; [by apply is_ascii_byte|constructor]).
  unfold is_ascii in Hb, He. rewrite runes_ascii_cons by lia.
  rewrite runes_app by (apply starts_rune_range; lia). rewrite (runes_ascii_cons e []) by lia.
  rewrite drop_while_none by done. unfold drop_while_end.
  cbn [rev]. change (runes []) with (@nil (Z * list Z)). rewrite rev_app_distr. cbn [rev app].
  rewrite drop_while_none by done. cbn [rev]. rewrite rev_app_distr, rev_involutive. cbn [rev app].
  rewrite fmap_cons, fmap_app. cbn [concat snd]. rewrite concat_app, runes_concat. done.
Qed.

(** What the integer parsers accept fits 64 bits. *)
Lemma parse_uint_loop_range l n z :
  0 <= n <= max_uint64 -> parse_uint_loop l n = (z, None) -> 0 <= z <= max_uint64.
Proof.
  revert n. induction l as [|c l IH]; intros n Hn; cbn; [by intros [= <-]|].
  destruct (is_digit c) eqn:Hc; [|done]. destruct (_ <=? n); [done|].
  destruct (Z.ltb_spec max_uint64 (n * 10 + (c - 48))); [done|].
  apply IH. unfold is_digit, in_range in Hc. b2p. lia.
Qed.

Lemma parse_uint_range s z : parse_uint s = (z, None) -> in_uint64 z = true.
Proof.
  unfold parse_uint, parse_uint_bytes. destruct (bytes s) as [|b l]; [done|].
  intros H%parse_uint_loop_range; [|done]. unfold in_uint64. apply andb_true_iff. rewrite !Z.leb_le. lia.
Qed.

Lemma atoi_range s z : atoi s = (z, None) -> in_int64 z = true.
Proof.
  unfold atoi, parse_int_bytes.
  destruct (match bytes s with [] => _ | _ => _ end) as [neg digits].
  destruct (parse_uint_bytes digits) as [un e] eqn:Eu. intros H.
  assert (e = None /\ (if neg then - un else un) = z
          /\ (negb neg && (two63 <=? un)) = false /\ (neg && (two63 <? un)) = false) as (-> & <- & H1 & H2).
  { destruct e as [[]|]; [done| |]; repeat case_if_in H; naive_solver. }
  assert (0 <= un <= max_uint64).
  { unfold parse_uint_bytes in Eu. destruct digits; [done|]. by eapply parse_uint_loop_range. }
  unfold in_int64, min_int64, max_int64. apply andb_true_iff. rewrite !Z.leb_le.
  destruct neg; cbn in H1, H2; b2p; unfold two63 in *; lia.
Qed.

(** [a == b] on strings *)
Definition eqs (a b : string) : bool := bool_decide (a = b).
Lemma eqs_true a b : eqs a b = true <-> a = b.
Proof. apply bool_decide_eq_true. Qed.
Lemma eqs_false a b : eqs a b = false <-> a <> b.
Proof. apply bool_decide_eq_false. Qed.

(** [len] of a slice and of a string *)
Definition len {A} (l : list A) : Z := Z.of_nat (length l).
Definition str_len (s : string) : Z := Z.of_nat (String.length s).
