(* ===== verification/GoTime.v ===== *)
(** * Package time

    The part of Go's package time the program relies on.  An instant is its
    number of nanoseconds since 0001-01-01T00:00:00Z, the zero [time.Time];
    locations are not kept, since the code that stores or compares instants
    converts them with [UTC] first.  [format_rfc3339nano] and
    [parse_rfc3339nano] are [Time.UTC().Format] and [time.Parse] for the layout
    [time.RFC3339Nano], the parser with the leniency Go's has (an hour of one
    digit, a comma before the fraction, any number of fraction digits). *)
From Stdlib Require Import ZArith Lia Bool String Ascii.
From stdpp Require Import base list strings.
From S2P Require Import Prelude GoStrings.

(** ** Instants *)

Definition ns_ms : Z := 1000000.
Definition ns_sec : Z := 1000000000.
Definition ns_min : Z := 60 * ns_sec.
Definition ns_hour : Z := 3600 * ns_sec.
Definition ns_day : Z := 86400 * ns_sec.

Definition is_zero (t : Z) : bool := t =? 0.
Definition after (t u : Z) : bool := u <? t.
Definition before (t u : Z) : bool := t <? u.

(** [t.Truncate(time.Millisecond)] *)
Definition truncate_ms (t : Z) : Z := t - t mod ns_ms.

(** ** The proleptic Gregorian calendar *)

Definition leap (y : Z) : bool := (y mod 4 =? 0) && (negb (y mod 100 =? 0) || (y mod 400 =? 0)).

Definition days_in (m y : Z) : Z :=
  if m =? 2 then (if leap y then 29 else 28)
  else if (m =? 4) || (m =? 6) || (m =? 9) || (m =? 11) then 30 else 31.

(** Days since 0001-01-01 of a civil date, years counted from March. *)
Definition days_from_civil (y m d : Z) : Z :=
  let y' := if m <=? 2 then y - 1 else y in
  let mp := if m <=? 2 then m + 9 else m - 3 in
  let doy := (153 * mp + 2) / 5 + d - 1 in
  let yoe := y' mod 400 in
  (y' / 400) * 146097 + (yoe * 365 + yoe / 4 - yoe / 100 + doy) - 306.

(** The date of the day [doe] of a 400-year era, as years since the era began. *)
Definition civil_of_doe (doe : Z) : Z * Z * Z :=
  let yoe := (doe - doe / 1460 + doe / 36524 - doe / 146096) / 365 in
  let doy := doe - (365 * yoe + yoe / 4 - yoe / 100) in
  let mp := (5 * doy + 2) / 153 in
  let d := doy - (153 * mp + 2) / 5 + 1 in
  let m := if mp <? 10 then mp + 3 else mp - 9 in
  ((if m <=? 2 then yoe + 1 else yoe), m, d).

Definition civil_from_days (days : Z) : Z * Z * Z :=
  let z := days + 306 in
  let '(y, m, d) := civil_of_doe (z mod 146097) in
  (y + 400 * (z / 146097), m, d).

(** [t.Date()] and the clock of the day. *)
Definition date_of (t : Z) : Z * Z * Z := civil_from_days (t / ns_day).
Definition year_of (t : Z) : Z := (date_of t).1.1.

(** [time.Date(y, m, d, h, mi, s, ns, time.UTC)] for fields in range *)
Definition instant (y m d h mi s ns : Z) : Z :=
  days_from_civil y m d * ns_day + (h * 3600 + mi * 60 + s) * ns_sec + ns.

(** [t.Weekday()]: Sunday is 0; 0001-01-01 was a Monday. *)
Definition weekday (t : Z) : Z := (t / ns_day + 1) mod 7.

(** ** Formatting *)

Definition pad2 (n : Z) : list Z := [48 + n / 10; 48 + n mod 10].

(** [appendInt(b, year, 4)] *)
Definition pad_year (y : Z) : list Z :=
  if (0 <=? y) && (y <=? 9999) then pad2 (y / 100) ++ pad2 (y mod 100)
  else let ds := dec_digits (dec_fuel (Z.abs y)) (Z.abs y) [] in
       (if y <? 0 then [45] else []) ++ replicate (4 - length ds) 48 ++ ds.

Fixpoint digits_width (w : nat) (n : Z) : list Z :=
  match w with
  | O => []
  | S w' => digits_width w' (n / 10) ++ [48 + n mod 10]
  end.

(** ".999999999": nine digits without trailing zeros, nothing for zero *)
Definition format_frac (ns : Z) : list Z :=
  if ns =? 0 then [] else 46 :: drop_while_end (Z.eqb 48) (digits_width 9 ns).

Definition format_rfc3339nano_bytes (t : Z) : list Z :=
  let '(y, m, d) := date_of t in
  let tod := t mod ns_day in
  let sod := tod / ns_sec in
  pad_year y ++ [45] ++ pad2 m ++ [45] ++ pad2 d ++ [84]
  ++ pad2 (sod / 3600) ++ [58] ++ pad2 ((sod / 60) mod 60) ++ [58] ++ pad2 (sod mod 60)
  ++ format_frac (tod mod ns_sec) ++ [90].

Definition format_rfc3339nano (t : Z) : string := of_bytes (format_rfc3339nano_bytes t).

(** ** Parsing *)

(** [getnum(s, fixed)] *)
Definition getnum (fixed : bool) (l : list Z) : option (Z * list Z) :=
  match l with
  | a :: l1 =>
      if is_digit a then
        match l1 with
        | b :: l2 => if is_digit b then Some ((a - 48) * 10 + (b - 48), l2)
                     else if fixed then None else Some (a - 48, l1)
        | [] => if fixed then None else Some (a - 48, l1)
        end
      else None
  | [] => None
  end.

Definition get_range (lo hi : Z) (r : option (Z * list Z)) : option (Z * list Z) :=
  '(n, l) ← r; if (lo <=? n) && (n <=? hi) then Some (n, l) else None.

Definition expect (c : Z) (l : list Z) : option (list Z) :=
  match l with b :: l' => if b =? c then Some l' else None | [] => None end.

Definition get_year (l : list Z) : option (Z * list Z) :=
  match l with
  | a :: b :: c :: d :: l' =>
      if is_digit a && is_digit b && is_digit c && is_digit d
      then Some ((((a - 48) * 10 + (b - 48)) * 10 + (c - 48)) * 10 + (d - 48), l') else None
  | _ => None
  end.

Definition digits_value (ds : list Z) : Z := fold_left (fun n c => n * 10 + (c - 48)) ds 0.

(** [parseNanoseconds]: the first nine digits, scaled *)
Definition frac_value (ds : list Z) : Z :=
  let ds' := take 9 ds in digits_value ds' * 10 ^ (9 - Z.of_nat (length ds')).

(** The fraction is optional; it starts with a period or a comma. *)
Definition get_frac (l : list Z) : Z * list Z :=
  match l with
  | p :: l' => if ((p =? 46) || (p =? 44)) then
                 match span_digits l' with
                 | ([], _) => (0, l)
                 | (ds, r) => (frac_value ds, r)
                 end
               else (0, l)
  | [] => (0, [])
  end.

(** The zone: Z, or a signed hh:mm offset in seconds. *)
Definition get_zone (l : list Z) : option (Z * list Z) :=
  match l with
  | z :: l' =>
      if z =? 90 then Some (0, l')
      else match l' with
           | h1 :: h2 :: c :: m1 :: m2 :: rest =>
               if c =? 58 then
                 '(hr, _) ← get_range 0 24 (getnum true [h1; h2]);
                 '(mm, _) ← get_range 0 60 (getnum true [m1; m2]);
                 let off := (hr * 60 + mm) * 60 in
                 if z =? 43 then Some (off, rest)
                 else if z =? 45 then Some (- off, rest) else None
               else None
           | _ => None
           end
  | [] => None
  end.

Definition parse_rfc3339nano_bytes (l : list Z) : option Z :=
  '(y, l) ← get_year l; l ← expect 45 l;
  '(m, l) ← get_range 1 12 (getnum true l); l ← expect 45 l;
  '(d, l) ← getnum true l; l ← expect 84 l;
  '(h, l) ← get_range 0 23 (getnum false l); l ← expect 58 l;
  '(mi, l) ← get_range 0 59 (getnum true l); l ← expect 58 l;
  '(s, l) ← get_range 0 59 (getnum true l);
  let '(ns, l) := get_frac l in
  '(off, l) ← get_zone l;
  match l with
  | [] => if (1 <=? d) && (d <=? days_in m y)
          then Some (instant y m d h mi s ns - off * ns_sec) else None
  | _ => None
  end.

(** [time.Parse("2006-01-02", s)] *)
Definition parse_date_bytes (l : list Z) : option Z :=
  '(y, l) ← get_year l; l ← expect 45 l;
  '(m, l) ← get_range 1 12 (getnum true l); l ← expect 45 l;
  '(d, l) ← getnum true l;
  match l with
  | [] => if (1 <=? d) && (d <=? days_in m y) then Some (instant y m d 0 0 0 0) else None
  | _ => None
  end.
Definition parse_date (s : string) : option Z := parse_date_bytes (bytes s).

Definition parse_rfc3339nano (s : string) : option Z := parse_rfc3339nano_bytes (bytes s).

(** ** Lemmas on the calendar *)

(** The year of an era a day falls in, and the day of that year. *)
Lemma year_of_era doe :
  0 <= doe < 146097 ->
  let yoe := (doe - doe / 1460 + doe / 36524 - doe / 146096) / 365 in
  let doy := doe - (365 * yoe + yoe / 4 - yoe / 100) in
  0 <= yoe <= 399 /\ 0 <= doy <= 365
  /\ (doy = 365 -> (yoe + 1) mod 4 = 0 /\ ((yoe + 1) mod 100 <> 0 \/ (yoe + 1) mod 400 = 0)).
Proof.
  intros H yoe doy. unfold doy, yoe. Z.div_mod_to_equations. lia.
Qed.

(** The month and day of a day of the year that began in March. *)
Definition month_day_ok (doy : Z) : bool :=
  let mp := (5 * doy + 2) / 153 in
  let d := doy - (153 * mp + 2) / 5 + 1 in
  let m := if mp <? 10 then mp + 3 else mp - 9 in
  (0 <=? mp) && (mp <=? 11) && (1 <=? d) && (d <=? (if doy =? 365 then 29 else days_in m 1)).

Lemma month_days_checked : forallb month_day_ok (seqZ 0 366) = true.
Proof. vm_compute. reflexivity. Qed.

(** One day of an era: its date is valid and leads back to the day. *)
Lemma civil_of_doe_spec doe y m d :
  0 <= doe < 146097 -> civil_of_doe doe = (y, m, d) ->
  1 <= m <= 12 /\ 1 <= d <= days_in m y /\ days_from_civil y m d = doe - 306.
Proof.
  intros H. unfold civil_of_doe. pose proof (year_of_era doe H) as Hy. cbn zeta in Hy.
  set (yoe := _ / 365) in *. set (doy := doe - (365 * yoe + _ - _)) in *.
  destruct Hy as (Hyoe & Hdoy & Hleap).
  assert (Hm : month_day_ok doy = true).
  { pose proof month_days_checked as Hc. rewrite forallb_forall in Hc. apply Hc.
    apply list_elem_of_In, elem_of_seqZ. lia. }
  unfold month_day_ok in Hm. set (mp := (5 * doy + 2) / 153) in *. b2p.
  intros [= <- <- <-].
  assert (Hd : doy = 365 -> mp = 11) by (intros E; unfold mp; rewrite E; reflexivity).
  split; [destruct (Z.ltb_spec mp 10); lia|].
  split.
  - split; [lia|]. destruct (Z.eqb_spec doy 365) as [E|].
    + rewrite (Hd E) in *. unfold days_in, leap.
      change (11 <? 10) with false. cbv iota. change (11 - 9 =? 2) with true.
      change (11 - 9 <=? 2) with true. cbv iota.
      destruct (Hleap E) as [-> Hl]. cbn.
      destruct (Z.eqb_spec ((yoe + 1) mod 100) 0), (Z.eqb_spec ((yoe + 1) mod 400) 0); cbn; lia.
    + etransitivity; [eassumption|]. unfold days_in at 1. change (leap 1) with false. unfold days_in.
      destruct (_ =? 2); [case_if; lia|]. done.
  - unfold days_from_civil.
    destruct (Z.ltb_spec mp 10) as [Hlt|Hge].
    + destruct (Z.leb_spec (mp + 3) 2); [lia|].
      rewrite (Z.div_small yoe 400), (Z.mod_small yoe 400) by lia.
      replace (mp + 3 - 3) with mp by lia. unfold doy. lia.
    + destruct (Z.leb_spec (mp - 9) 2); [|lia].
      replace (yoe + 1 - 1) with yoe by lia.
      rewrite (Z.div_small yoe 400), (Z.mod_small yoe 400) by lia.
      replace (mp - 9 + 9) with mp by lia. unfold doy. lia.
Qed.

Lemma leap_era y k : leap (y + 400 * k) = leap y.
Proof.
  unfold leap.
  replace ((y + 400 * k) mod 4) with (y mod 4)
    by (replace (y + 400 * k) with (y + (100 * k) * 4) by lia; by rewrite Z.mod_add).
  replace ((y + 400 * k) mod 100) with (y mod 100)
    by (replace (y + 400 * k) with (y + (4 * k) * 100) by lia; by rewrite Z.mod_add).
  replace ((y + 400 * k) mod 400) with (y mod 400)
    by (replace (y + 400 * k) with (y + k * 400) by lia; by rewrite Z.mod_add).
  done.
Qed.

Lemma days_in_era m y k : days_in m (y + 400 * k) = days_in m y.
Proof. unfold days_in. by rewrite leap_era. Qed.

Lemma days_from_civil_era y m d k :
  days_from_civil (y + 400 * k) m d = days_from_civil y m d + 146097 * k.
Proof.
  unfold days_from_civil.
  set (y' := if m <=? 2 then y - 1 else y).
  assert ((if m <=? 2 then y + 400 * k - 1 else y + 400 * k) = y' + k * 400) as ->.
  { unfold y'. destruct (m <=? 2); lia. }
  rewrite Z.mod_add, Z.div_add by lia. lia.
Qed.

(** A day's date is valid and leads back to the day. *)
Lemma civil_from_days_spec days y m d :
  civil_from_days days = (y, m, d) ->
  1 <= m <= 12 /\ 1 <= d <= days_in m y /\ days_from_civil y m d = days.
Proof.
  unfold civil_from_days. intros H.
  pose proof (Z.mod_pos_bound (days + 306) 146097 ltac:(lia)) as Hb.
  destruct (civil_of_doe _) as [[y0 m0] d0] eqn:E. injection H as <- <- <-.
  destruct (civil_of_doe_spec _ _ _ _ Hb E) as (? & ? & ?).
  rewrite days_in_era, days_from_civil_era.
  pose proof (Z.div_mod (days + 306) 146097 ltac:(lia)). lia.
Qed.

Lemma days_in_bound m y : days_in m y <= 31.
Proof. unfold days_in. destruct (leap y); repeat case_if; lia. Qed.

(** ** Lemmas on formatting and parsing *)

Lemma is_digit_48 n : 0 <= n <= 9 -> is_digit (48 + n) = true.
Proof. intros H. unfold is_digit, in_range. apply andb_true_iff. rewrite !Z.leb_le. lia. Qed.

Lemma getnum_pad2 fixed n rest :
  0 <= n < 100 -> getnum fixed (pad2 n ++ rest) = Some (n, rest).
Proof.
  intros H. cbn.
  assert (0 <= n / 10 <= 9) by (split; [apply Z.div_pos; lia|apply Z.lt_succ_r, Z.div_lt_upper_bound; lia]).
  pose proof (Z.mod_pos_bound n 10 ltac:(lia)).
  rewrite !is_digit_48 by lia. do 2 f_equal. pose proof (Z.div_mod n 10 ltac:(lia)). lia.
Qed.

Lemma get_year_pad y rest :
  0 <= y <= 9999 -> get_year (pad_year y ++ rest) = Some (y, rest).
Proof.
  intros H. unfold pad_year. destruct (Z.leb_spec 0 y); [|lia].
  destruct (Z.leb_spec y 9999); [|lia]. cbn.
  assert (0 <= y / 100 < 100) by (split; [apply Z.div_pos; lia|apply Z.div_lt_upper_bound; lia]).
  pose proof (Z.mod_pos_bound y 100 ltac:(lia)).
  assert (Hd : forall n, 0 <= n < 100 -> 0 <= n / 10 <= 9).
  { intros n Hn. split; [apply Z.div_pos; lia|apply Z.lt_succ_r, Z.div_lt_upper_bound; lia]. }
  pose proof (Hd (y / 100) ltac:(lia)). pose proof (Hd (y mod 100) ltac:(lia)).
  pose proof (Z.mod_pos_bound (y / 100) 10 ltac:(lia)).
  pose proof (Z.mod_pos_bound (y mod 100) 10 ltac:(lia)).
  rewrite !is_digit_48 by lia. cbn. do 2 f_equal.
  pose proof (Z.div_mod y 100 ltac:(lia)).
  pose proof (Z.div_mod (y / 100) 10 ltac:(lia)). pose proof (Z.div_mod (y mod 100) 10 ltac:(lia)).
  lia.
Qed.

Lemma digits_width_length w n : length (digits_width w n) = w.
Proof. revert n. induction w as [|w IH]; intros n; cbn; [done|]. rewrite length_app, IH. cbn. lia. Qed.

Lemma digits_width_digit w n : Forall (fun b => is_digit b = true) (digits_width w n).
Proof.
  revert n. induction w as [|w IH]; intros n; cbn; [constructor|].
  apply Forall_app. split; [apply IH|]. constructor; [|constructor].
  pose proof (Z.mod_pos_bound n 10 ltac:(lia)). apply is_digit_48. lia.
Qed.

Lemma digits_value_snoc ds c : digits_value (ds ++ [c]) = digits_value ds * 10 + (c - 48).
Proof. unfold digits_value. by rewrite fold_left_app. Qed.

Lemma digits_width_value w n :
  0 <= n < 10 ^ Z.of_nat w -> digits_value (digits_width w n) = n.
Proof.
  revert n. induction w as [|w IH]; intros n H; [cbn in H |- *; lia|].
  rewrite Nat2Z.inj_succ, Z.pow_succ_r in H by lia.
  cbn [digits_width]. rewrite digits_value_snoc, IH.
  - pose proof (Z.div_mod n 10 ltac:(lia)). lia.
  - split; [apply Z.div_pos; lia|]. apply Z.div_lt_upper_bound; lia.
Qed.

Lemma drop_while_end_snoc {A} (p : A -> bool) l a :
  drop_while_end p (l ++ [a]) = if p a then drop_while_end p l else l ++ [a].
Proof.
  unfold drop_while_end. rewrite rev_unit. cbn. destruct (p a); [done|].
  change (rev (a :: rev l)) with (rev (rev l) ++ [a]). by rewrite rev_involutive.
Qed.

Lemma trim_zeros_value ds :
  digits_value (drop_while_end (Z.eqb 48) ds)
    * 10 ^ (Z.of_nat (length ds) - Z.of_nat (length (drop_while_end (Z.eqb 48) ds)))
  = digits_value ds
  /\ (length (drop_while_end (Z.eqb 48) ds) <= length ds)%nat.
Proof.
  induction ds as [|c ds [IH Hl]] using rev_ind; [done|].
  rewrite drop_while_end_snoc. destruct (Z.eqb_spec 48 c) as [<-|].
  - rewrite digits_value_snoc, <- IH, length_app. cbn [length]. split; [|lia].
    set (k := length (drop_while_end (Z.eqb 48) ds)) in *.
    replace (Z.of_nat (length ds + 1) - Z.of_nat k)
      with (Z.succ (Z.of_nat (length ds) - Z.of_nat k)) by lia.
    rewrite Z.pow_succ_r by lia. lia.
  - rewrite Z.sub_diag. split; [by rewrite Z.mul_1_r|lia].
Qed.

Lemma drop_while_end_Forall {A} (P : A -> Prop) (p : A -> bool) l :
  Forall P l -> Forall P (drop_while_end p l).
Proof.
  unfold drop_while_end. intros H. rewrite <- (rev_involutive l) in H.
  destruct (drop_while_split p (rev l)) as (l1 & E & _). rewrite E, rev_app_distr in H.
  by apply Forall_app in H as [? _].
Qed.

Lemma get_frac_format ns rest :
  0 <= ns < ns_sec ->
  match rest with b :: _ => is_digit b = false /\ b <> 46 /\ b <> 44 | [] => False end ->
  get_frac (format_frac ns ++ rest) = (ns, rest).
Proof.
  intros Hn Hr. unfold format_frac. destruct (Z.eqb_spec ns 0) as [->|Hz].
  - destruct rest as [|b rest]; [done|]. destruct Hr as (_ & H1 & H2). cbn.
    destruct (Z.eqb_spec b 46); [done|]. by destruct (Z.eqb_spec b 44).
  - pose proof (trim_zeros_value (digits_width 9 ns)) as [Hv Hl].
    pose proof (drop_while_end_Forall _ (Z.eqb 48) _ (digits_width_digit 9 ns)) as Hd.
    rewrite digits_width_value, digits_width_length in Hv by (unfold ns_sec in Hn; cbn; lia).
    rewrite digits_width_length in Hl.
    revert Hv Hl Hd. generalize (drop_while_end (Z.eqb 48) (digits_width 9 ns)) as ds.
    intros ds Hv Hl Hd. cbn [app get_frac]. change (46 =? 46) with true. cbn [orb].
    rewrite span_digits_app; [|done|by destruct rest; [|destruct Hr]].
    destruct ds as [|c ds]; [cbn in Hv; lia|].
    unfold frac_value. rewrite take_ge by lia. by rewrite <- Hv.
Qed.

Lemma expect_cons c l : expect c ([c] ++ l) = Some l.
Proof. cbn. by rewrite Z.eqb_refl. Qed.

(** The clock fields of a time of day. *)
Lemma clock_fields tod :
  0 <= tod < ns_day ->
  let sod := tod / ns_sec in
  0 <= sod / 3600 <= 23 /\ 0 <= (sod / 60) mod 60 <= 59 /\ 0 <= sod mod 60 <= 59
  /\ 0 <= tod mod ns_sec < ns_sec
  /\ (sod / 3600 * 3600 + (sod / 60) mod 60 * 60 + sod mod 60) * ns_sec + tod mod ns_sec = tod.
Proof.
  intros H sod. unfold sod, ns_day, ns_sec in *. Z.div_mod_to_equations. lia.
Qed.

Lemma get_range_Some lo hi n l : lo <= n <= hi -> get_range lo hi (Some (n, l)) = Some (n, l).
Proof.
  intros H. unfold get_range. cbn. destruct (Z.leb_spec lo n); [|lia].
  by destruct (Z.leb_spec n hi); [|lia].
Qed.

(** Years that RFC 3339 can print. *)
Definition year_printable (t : Z) : Prop := 0 <= year_of t <= 9999.

Lemma parse_format_rfc3339nano_bytes t :
  year_printable t -> parse_rfc3339nano_bytes (format_rfc3339nano_bytes t) = Some t.
Proof.
  unfold year_printable, year_of, format_rfc3339nano_bytes.
  destruct (date_of t) as [[y m] d] eqn:E. cbn [fst]. intros Hy.
  destruct (civil_from_days_spec _ _ _ _ E) as (Hm & Hd & Hdays).
  pose proof (days_in_bound m y). pose proof (Z.mod_pos_bound t ns_day ltac:(done)) as Htod.
  destruct (clock_fields _ Htod) as (Hh & Hmi & Hs & Hns & Hsum).
  set (tod := t mod ns_day) in *. set (sod := tod / ns_sec) in *.
  unfold parse_rfc3339nano_bytes.
  rewrite get_year_pad by lia. cbn [mbind option_bind]. rewrite expect_cons. cbn [mbind option_bind].
  rewrite getnum_pad2, get_range_Some by lia. cbn [mbind option_bind].
  rewrite expect_cons. cbn [mbind option_bind]. rewrite getnum_pad2 by lia. cbn [mbind option_bind].
  rewrite expect_cons. cbn [mbind option_bind].
  rewrite getnum_pad2, get_range_Some by lia. cbn [mbind option_bind].
  rewrite expect_cons. cbn [mbind option_bind].
  rewrite getnum_pad2, get_range_Some by lia. cbn [mbind option_bind].
  rewrite expect_cons. cbn [mbind option_bind].
  rewrite getnum_pad2, get_range_Some by lia. cbn [mbind option_bind].
  rewrite get_frac_format by (done || (cbn; lia)). cbn [get_zone Z.eqb Pos.eqb mbind option_bind].
  destruct (Z.leb_spec 1 d); [|lia]. destruct (Z.leb_spec d (days_in m y)); [|lia]. cbn [andb].
  f_equal. unfold instant. rewrite Hdays, <- (Z.add_assoc (_ * ns_day)), Hsum.
  unfold tod. pose proof (Z.div_mod t ns_day ltac:(done)). lia.
Qed.

Lemma digits_width_is_ascii w n : Forall is_ascii (digits_width w n).
Proof.
  eapply Forall_impl; [apply digits_width_digit|]. intros b Hb. cbn in Hb.
  unfold is_digit, in_range, is_ascii in *. b2p. lia.
Qed.

Lemma pad2_is_ascii n : 0 <= n < 100 -> Forall is_ascii (pad2 n).
Proof.
  intros H. assert (0 <= n / 10 < 10) by (split; [apply Z.div_pos; lia|apply Z.div_lt_upper_bound; lia]).
  pose proof (Z.mod_pos_bound n 10 ltac:(lia)). unfold is_ascii. repeat constructor; lia.
Qed.

Lemma format_rfc3339nano_is_ascii t :
  year_printable t -> Forall is_ascii (format_rfc3339nano_bytes t).
Proof.
  unfold year_printable, year_of, format_rfc3339nano_bytes.
  destruct (date_of t) as [[y m] d] eqn:E. cbn [fst]. intros Hy.
  destruct (civil_from_days_spec _ _ _ _ E) as (Hm & Hd & _).
  pose proof (days_in_bound m y). pose proof (Z.mod_pos_bound t ns_day ltac:(done)) as Htod.
  destruct (clock_fields _ Htod) as (Hh & Hmi & Hs & Hns & _).
  assert (Hc : forall c : Z, 0 <= c < 128 -> Forall is_ascii [c]) by (intros c Hc; constructor; [done|constructor]).
  assert (0 <= y / 100 < 100) by (split; [apply Z.div_pos; lia|apply Z.div_lt_upper_bound; lia]).
  pose proof (Z.mod_pos_bound y 100 ltac:(lia)).
  assert (Hpy : Forall is_ascii (pad_year y)).
  { unfold pad_year. destruct (Z.leb_spec 0 y); [|lia]. destruct (Z.leb_spec y 9999); [|lia].
    cbn [andb]. apply Forall_app. split; apply pad2_is_ascii; lia. }
  assert (Hfr : forall ns, Forall is_ascii (format_frac ns)).
  { intros ns. unfold format_frac. destruct (ns =? 0); [constructor|].
    constructor; [unfold is_ascii; lia|]. apply drop_while_end_Forall, digits_width_is_ascii. }
  repeat (apply Forall_app; split); try done; try (apply Hc; lia); apply pad2_is_ascii; lia.
Qed.

(** [time.Parse(time.RFC3339Nano, t.UTC().Format(time.RFC3339Nano))] is [t]. *)
Lemma parse_format_rfc3339nano t :
  year_printable t -> parse_rfc3339nano (format_rfc3339nano t) = Some t.
Proof.
  intros H. unfold parse_rfc3339nano, format_rfc3339nano.
  rewrite bytes_of_bytes
    by (eapply Forall_impl; [by apply format_rfc3339nano_is_ascii|apply is_ascii_byte]).
  by apply parse_format_rfc3339nano_bytes.
Qed.

Lemma truncate_ms_idem t : truncate_ms (truncate_ms t) = truncate_ms t.
Proof.
  unfold truncate_ms, ns_ms. Z.div_mod_to_equations. lia.
Qed.

Lemma truncate_ms_mono t u : t <= u -> truncate_ms t <= truncate_ms u.
Proof. unfold truncate_ms, ns_ms. intros H. Z.div_mod_to_equations. lia. Qed.

(** A printed instant starts with the first digit of its year. *)
Lemma format_rfc3339nano_head t :
  year_printable t ->
  exists b l, format_rfc3339nano_bytes t = b :: l /\ is_digit b = true.
Proof.
  unfold year_printable, year_of, format_rfc3339nano_bytes.
  destruct (date_of t) as [[y m] d]. cbn [fst]. intros Hy. unfold pad_year.
  destruct (Z.leb_spec 0 y); [|lia]. destruct (Z.leb_spec y 9999); [|lia].
  cbn. eexists _, _. split; [done|]. apply is_digit_48.
  assert (0 <= y / 100 < 100) by (split; [apply Z.div_pos; lia|apply Z.div_lt_upper_bound; lia]).
  split; [apply Z.div_pos; lia|]. apply Z.lt_succ_r, Z.div_lt_upper_bound; lia.
Qed.

Lemma format_rfc3339nano_trim t :
  year_printable t -> trim_space (format_rfc3339nano t) <> "".
Proof.
  intros H. pose proof (format_rfc3339nano_is_ascii t H) as Ha.
  destruct (format_rfc3339nano_head t H) as (b & l & E & Hb). unfold format_rfc3339nano.
  rewrite E in *. inversion Ha as [|? ? Hb' Hl]; subst. apply trim_space_head; [done| |].
  - unfold is_digit, in_range in Hb. unfold is_space, in_range. b2p.
    rewrite !orb_false_iff, !andb_false_iff, !Z.eqb_neq, !Z.leb_gt. lia.
  - eapply Forall_impl; [exact Hl|apply is_ascii_byte].
Qed.

Lemma format_rfc3339nano_valid t :
  year_printable t -> valid_string (format_rfc3339nano t) = true.
Proof. intros H. by apply valid_ascii, format_rfc3339nano_is_ascii. Qed.
