(* ===== verification/Json.v ===== *)
(** * Package encoding/json

    The part of encoding/json the workflow codec relies on: a document as a
    tree, [Marshal]'s compact printing with its HTML-safe escapes and sorted map
    keys, the scanner and parser of [Decoder.Decode] and the rules by which a
    document is stored into Go values (fields matched exactly, then under case
    folding; unknown fields refused; null leaves a scalar alone; numbers read
    with package strconv).  Error texts are abbreviated: the program only
    forwards them. *)
From Stdlib Require Import ZArith Lia Bool String Ascii.
From stdpp Require Import base list strings gmap sorting.
From S2P Require Import Prelude GoStrings.

(** A number keeps its literal. *)
#[local] Unset Elimination Schemes.
Inductive json : Type :=
  | JNull
  | JBool (b : bool)
  | JNum (lit : string)
  | JStr (s : string)
  | JArr (l : list json)
  | JObj (ms : list (string * json)).
#[local] Set Elimination Schemes.

Lemma json_ind (P : json -> Prop) :
  P JNull -> (forall b, P (JBool b)) -> (forall lit, P (JNum lit)) -> (forall s, P (JStr s)) ->
  (forall l, Forall P l -> P (JArr l)) -> (forall ms, Forall (fun m => P m.2) ms -> P (JObj ms)) ->
  forall j, P j.
Proof.
  intros Hn Hb Hnum Hs Ha Ho. fix IH 1. intros [|b|lit|s|l|ms].
  - exact Hn.
  - apply Hb.
  - apply Hnum.
  - apply Hs.
  - apply Ha. induction l as [|x l IHl]; constructor; [apply IH|exact IHl].
  - apply Ho. induction ms as [|[k v] ms IHms]; constructor; [apply IH|exact IHms].
Qed.

(** ** Printing *)

Definition hex_digit (n : Z) : Z := if n <? 10 then 48 + n else 87 + n.

(** One rune of a string literal. *)
Definition esc_rune (c : Z * list Z) : list Z :=
  let '(r, bs) := c in
  if negb (rune_valid c) then [92; 117; 102; 102; 102; 100]
  else if (r =? 34) || (r =? 92) then [92; r]
  else if r =? 8 then [92; 98]
  else if r =? 12 then [92; 102]
  else if r =? 10 then [92; 110]
  else if r =? 13 then [92; 114]
  else if r =? 9 then [92; 116]
  else if (r <? 32) || (r =? 60) || (r =? 62) || (r =? 38)
  then [92; 117; 48; 48; hex_digit (r / 16); hex_digit (r mod 16)]
  else if (r =? 8232) || (r =? 8233) then [92; 117; 50; 48; 50; hex_digit (r mod 16)]
  else bs.

Definition print_string (s : string) : list Z :=
  [34] ++ concat (esc_rune <$> runes (bytes s)) ++ [34].

Fixpoint sep_by (sep : list Z) (l : list (list Z)) : list Z :=
  match l with
  | [] => []
  | [x] => x
  | x :: l' => x ++ sep ++ sep_by sep l'
  end.

Fixpoint print_json (j : json) : list Z :=
  match j with
  | JNull => bytes "null"
  | JBool true => bytes "true"
  | JBool false => bytes "false"
  | JNum lit => bytes lit
  | JStr s => print_string s
  | JArr l => [91] ++ sep_by [44] (List.map print_json l) ++ [93]
  | JObj ms => [123] ++ sep_by [44] (List.map (fun m => print_string m.1 ++ [58] ++ print_json m.2) ms)
               ++ [125]
  end.

(** [json.Marshal]'s order of map entries: by key. *)
Definition key_le {A} (a b : string * A) : Prop := String.le a.1 b.1.
#[global] Instance key_le_dec {A} (a b : string * A) : Decision (key_le a b) := _.
Definition sorted_entries {A} (m : gmap string A) : list (string * A) :=
  merge_sort key_le (map_to_list m).

(** ** Scanning *)

Definition is_ws (b : Z) : bool := (b =? 32) || (b =? 9) || (b =? 10) || (b =? 13).
Definition skip_ws (l : list Z) : list Z := drop_while is_ws l.

(** The next byte after white space is [c]. *)
Definition next_is (c : Z) (l : list Z) : option (list Z) :=
  match skip_ws l with b :: l' => if b =? c then Some l' else None | [] => None end.

(** A string literal as raw bytes and escaped UTF-16 units. *)
Inductive piece : Type := PRaw (b : Z) | PUnit (v : Z).

Definition hex_value (b : Z) : option Z :=
  if in_range 48 57 b then Some (b - 48)
  else if in_range 97 102 b then Some (b - 87)
  else if in_range 65 70 b then Some (b - 55) else None.

Definition simple_escape (e : Z) : option Z :=
  if (e =? 34) || (e =? 92) || (e =? 47) then Some e
  else if e =? 98 then Some 8
  else if e =? 102 then Some 12
  else if e =? 110 then Some 10
  else if e =? 114 then Some 13
  else if e =? 116 then Some 9 else None.

Fixpoint str_pieces (l : list Z) : option (list piece * list Z) :=
  match l with
  | [] => None
  | b :: l1 =>
      if b =? 34 then Some ([], l1)
      else if b <? 32 then None
      else if b =? 92 then
        match l1 with
        | [] => None
        | e :: l2 =>
            if e =? 117 then
              match l2 with
              | h1 :: h2 :: h3 :: h4 :: l3 =>
                  v1 ← hex_value h1; v2 ← hex_value h2; v3 ← hex_value h3; v4 ← hex_value h4;
                  '(ps, r) ← str_pieces l3;
                  Some (PUnit (((v1 * 16 + v2) * 16 + v3) * 16 + v4) :: ps, r)
              | _ => None
              end
            else v ← simple_escape e; '(ps, r) ← str_pieces l2; Some (PUnit v :: ps, r)
        end
      else '(ps, r) ← str_pieces l1; Some (PRaw b :: ps, r)
  end.

(** Raw bytes with every invalid byte replaced by U+FFFD. *)
Definition sanitize (l : list Z) : list Z :=
  concat ((fun c : Z * list Z => if rune_valid c then c.2 else [239; 191; 189]) <$> runes l).

(** The bytes a literal denotes; [acc] is the current run of raw bytes.  A
    surrogate escape that is not half of a pair denotes U+FFFD. *)
Fixpoint unquote (acc : list Z) (ps : list piece) : list Z :=
  match ps with
  | [] => sanitize acc
  | PRaw b :: ps' => unquote (acc ++ [b]) ps'
  | PUnit v :: ps' =>
      sanitize acc ++
      (if in_range 55296 57343 v then
         match ps' with
         | PUnit w :: ps'' =>
             if (v <=? 56319) && in_range 56320 57343 w
             then encode_rune (65536 + (v - 55296) * 1024 + (w - 56320)) ++ unquote [] ps''
             else encode_rune rune_error ++ unquote [] ps'
         | _ => encode_rune rune_error ++ unquote [] ps'
         end
       else encode_rune v ++ unquote [] ps')
  end.

(** A number literal: sign, integer part, fraction, exponent. *)
Definition scan_int (l : list Z) : option (list Z * list Z) :=
  match l with
  | b :: l' => if b =? 48 then Some ([48], l')
               else if is_digit b then Some (span_digits l) else None
  | [] => None
  end.
Definition scan_frac (l : list Z) : list Z * list Z :=
  match l with
  | b :: l' => if b =? 46 then match span_digits l' with
                               | ([], _) => ([], l)
                               | (ds, r) => (46 :: ds, r)
                               end
               else ([], l)
  | [] => ([], [])
  end.
Definition scan_exp (l : list Z) : list Z * list Z :=
  match l with
  | b :: l' =>
      if (b =? 101) || (b =? 69) then
        let '(sign, l1) := match l' with
                           | s :: l2 => if (s =? 43) || (s =? 45) then ([s], l2) else ([], l')
                           | [] => ([], [])
                           end in
        match span_digits l1 with
        | ([], _) => ([], l)
        | (ds, r) => (b :: sign ++ ds, r)
        end
      else ([], l)
  | [] => ([], [])
  end.
Definition scan_number (l : list Z) : option (list Z * list Z) :=
  let '(sign, l1) := match l with
                     | b :: l' => if b =? 45 then ([45], l') else ([], l)
                     | [] => ([], [])
                     end in
  '(i, l2) ← scan_int l1;
  let '(f, l3) := scan_frac l2 in
  let '(e, l4) := scan_exp l3 in
  Some (sign ++ i ++ f ++ e, l4).

Definition literal (word : string) (j : json) (l : list Z) : option (json * list Z) :=
  if prefix_of (bytes word) l then Some (j, drop (length (bytes word)) l) else None.

(** [maxNestingDepth] *)
Definition max_depth : Z := 10000.

Fixpoint parse_value (fuel : nat) (depth : Z) (l : list Z) : option (json * list Z) :=
  match fuel with
  | O => None
  | S f =>
      match skip_ws l with
      | [] => None
      | b :: l1 =>
          if b =? 123 then
            if depth <? max_depth then
              match next_is 125 l1 with
              | Some r => Some (JObj [], r)
              | None => '(ms, r) ← parse_members f (depth + 1) l1; Some (JObj ms, r)
              end
            else None
          else if b =? 91 then
            if depth <? max_depth then
              match next_is 93 l1 with
              | Some r => Some (JArr [], r)
              | None => '(vs, r) ← parse_elems f (depth + 1) l1; Some (JArr vs, r)
              end
            else None
          else if b =? 34 then '(ps, r) ← str_pieces l1; Some (JStr (of_bytes (unquote [] ps)), r)
          else if b =? 110 then literal "null" JNull (b :: l1)
          else if b =? 116 then literal "true" (JBool true) (b :: l1)
          else if b =? 102 then literal "false" (JBool false) (b :: l1)
          else '(lit, r) ← scan_number (b :: l1); Some (JNum (of_bytes lit), r)
      end
  end
with parse_members (fuel : nat) (depth : Z) (l : list Z) : option (list (string * json) * list Z) :=
  match fuel with
  | O => None
  | S f =>
      l1 ← next_is 34 l;
      '(ps, r) ← str_pieces l1;
      r1 ← next_is 58 r;
      '(v, r2) ← parse_value f depth r1;
      let m := (of_bytes (unquote [] ps), v) in
      match next_is 44 r2 with
      | Some r3 => '(ms, r4) ← parse_members f depth r3; Some (m :: ms, r4)
      | None => r3 ← next_is 125 r2; Some ([m], r3)
      end
  end
with parse_elems (fuel : nat) (depth : Z) (l : list Z) : option (list json * list Z) :=
  match fuel with
  | O => None
  | S f =>
      '(v, r) ← parse_value f depth l;
      match next_is 44 r with
      | Some r1 => '(vs, r2) ← parse_elems f depth r1; Some (v :: vs, r2)
      | None => r1 ← next_is 93 r; Some ([v], r1)
      end
  end.

Definition json_fuel (l : list Z) : nat := S (2 * length l).

(** One document and nothing but white space after it, as the strict decoder
    of the codec reads it. *)
Definition parse_document (l : list Z) : option json :=
  match parse_value (json_fuel l) 0 l with
  | Some (j, r) => match skip_ws r with [] => Some j | _ => None end
  | None => None
  end.

(** ** Storing a document into Go values

    A decoder takes the document and the value already held. *)

Definition json_type_error : err := EMsg "json: cannot unmarshal value".
Definition json_unknown_field : err := EMsg "json: unknown field".
Definition json_syntax_error : err := EMsg "json: syntax error".

Definition decoder (A : Type) : Type := json -> A -> res A.

Definition dec_string : decoder string := fun j cur =>
  match j with JNull => Ok cur | JStr s => Ok s | _ => Err json_type_error end.
Definition dec_bool : decoder bool := fun j cur =>
  match j with JNull => Ok cur | JBool b => Ok b | _ => Err json_type_error end.
Definition dec_int64 : decoder Z := fun j cur =>
  match j with
  | JNull => Ok cur
  | JNum lit => match atoi lit with (z, None) => Ok z | _ => Err json_type_error end
  | _ => Err json_type_error
  end.
Definition dec_uint64 : decoder Z := fun j cur =>
  match j with
  | JNull => Ok cur
  | JNum lit => match parse_uint lit with (z, None) => Ok z | _ => Err json_type_error end
  | _ => Err json_type_error
  end.
(** [json.RawMessage] keeps the document. *)
Definition dec_raw : decoder (option json) := fun j _ => Ok (Some j).

(** A slice: elements are stored into those it already holds. *)
Fixpoint dec_elems {A} (dec : decoder A) (zero : A) (l : list json) (cur : list A) : res (list A) :=
  match l with
  | [] => Ok []
  | j :: l' => res_bind (dec j (hd zero cur)) (fun a =>
                 res_bind (dec_elems dec zero l' (tl cur)) (fun l'' => Ok (a :: l'')))
  end.
Definition dec_list {A} (dec : decoder A) (zero : A) : decoder (list A) := fun j cur =>
  match j with
  | JNull => Ok []
  | JArr l => dec_elems dec zero l cur
  | _ => Err json_type_error
  end.

(** A map: every entry is stored into a zero value. *)
Fixpoint dec_entries {A} (dec : decoder A) (zero : A) (ms : list (string * json))
    (cur : gmap string A) : res (gmap string A) :=
  match ms with
  | [] => Ok cur
  | (k, j) :: ms' => res_bind (dec j zero) (fun a => dec_entries dec zero ms' (<[k := a]> cur))
  end.
Definition dec_map {A} (dec : decoder A) (zero : A) : decoder (gmap string A) := fun j cur =>
  match j with
  | JNull => Ok ∅
  | JObj ms => dec_entries dec zero ms cur
  | _ => Err json_type_error
  end.

(** [foldName] restricted to the runes that fold to ASCII *)
Definition fold_rune (r : Z) : Z :=
  if in_range 97 122 r then r - 32 else if r =? 383 then 83 else if r =? 8490 then 75 else r.
Definition fold_name (s : string) : list Z := fold_rune <$> rune_list s.

(** The struct field a key names: the exact name first, then one that folds
    to the same text. *)
Definition resolve (names : list string) (k : string) : option string :=
  if decide (k ∈ names) then Some k
  else List.find (fun n => bool_decide (fold_name n = fold_name k)) names.

(** With [DisallowUnknownFields] every key names a field. *)
Definition known_keys (names : list string) (ms : list (string * json)) : bool :=
  forallb (fun m => match resolve names m.1 with Some _ => true | None => false end) ms.

(** One field of a struct: the members that name it are stored one after the
    other.  Fields are independent, so a struct is read field by field. *)
Fixpoint dec_field {A} (names : list string) (name : string) (dec : decoder A)
    (ms : list (string * json)) (cur : A) : res A :=
  match ms with
  | [] => Ok cur
  | (k, j) :: ms' =>
      if decide (resolve names k = Some name)
      then res_bind (dec j cur) (fun cur' => dec_field names name dec ms' cur')
      else dec_field names name dec ms' cur
  end.

Definition dec_struct {A} (names : list string) (build : list (string * json) -> A -> res A)
  : decoder A := fun j cur =>
  match j with
  | JNull => Ok cur
  | JObj ms => if known_keys names ms then build ms cur else Err json_unknown_field
  | _ => Err json_type_error
  end.

(** A struct being printed: for each field whether omitempty drops it, its
    name and its value. *)
Definition members (l : list (bool * string * json)) : list (string * json) :=
  flat_map (fun '(omit, k, j) => if (omit : bool) then [] else [(k, j)]) l.
Definition obj (l : list (bool * string * json)) : json := JObj (members l).

(** [json.Marshal] and the strict decode of a payload into a zero value *)
Definition marshal (j : json) : string := of_bytes (print_json j).
Definition decode_strict {A} (dec : decoder A) (zero : A) (payload : string) : res A :=
  match parse_document (bytes payload) with
  | Some j => dec j zero
  | None => Err json_syntax_error
  end.

Definition json_int (z : Z) : json := JNum (itoa z).

(** ** String literals *)

Definition is_escaped (r : Z) : bool :=
  (r <? 32) || (r =? 34) || (r =? 92) || (r =? 60) || (r =? 62) || (r =? 38)
  || (r =? 8232) || (r =? 8233).

Definition chunk_pieces (c : Z * list Z) : list piece :=
  if is_escaped c.1 then [PUnit c.1] else PRaw <$> c.2.

Definition push_pieces (ps : list piece) (o : option (list piece * list Z))
  : option (list piece * list Z) :=
  '(qs, r) ← o; Some (ps ++ qs, r).

Lemma str_pieces_raw bs rest :
  Forall (fun b => 32 <= b /\ b <> 34 /\ b <> 92) bs ->
  str_pieces (bs ++ rest) = push_pieces (PRaw <$> bs) (str_pieces rest).
Proof.
  induction 1 as [|b bs (H1 & H2 & H3) Hbs IH]; cbn [app fmap list_fmap].
  - unfold push_pieces. by destruct (str_pieces rest) as [[]|].
  - cbn [str_pieces]. destruct (Z.eqb_spec b 34); [done|]. destruct (Z.ltb_spec b 32); [lia|].
    destruct (Z.eqb_spec b 92); [done|]. rewrite IH. unfold push_pieces.
    by destruct (str_pieces rest) as [[]|].
Qed.

Lemma hex_value_digit n : 0 <= n < 16 -> hex_value (hex_digit n) = Some n.
Proof.
  intros H. unfold hex_value, hex_digit, in_range. destruct (Z.ltb_spec n 10).
  - replace ((48 <=? 48 + n) && (48 + n <=? 57)) with true
      by (symmetry; apply andb_true_iff; rewrite !Z.leb_le; lia).
    f_equal. lia.
  - replace ((48 <=? 87 + n) && (87 + n <=? 57)) with false
      by (symmetry; apply andb_false_iff; rewrite !Z.leb_gt; lia).
    replace ((97 <=? 87 + n) && (87 + n <=? 102)) with true
      by (symmetry; apply andb_true_iff; rewrite !Z.leb_le; lia).
    f_equal. lia.
Qed.

Lemma str_pieces_hex h1 h2 h3 h4 v1 v2 v3 v4 rest :
  hex_value h1 = Some v1 -> hex_value h2 = Some v2 -> hex_value h3 = Some v3 ->
  hex_value h4 = Some v4 ->
  str_pieces ([92; 117; h1; h2; h3; h4] ++ rest)
  = push_pieces [PUnit (((v1 * 16 + v2) * 16 + v3) * 16 + v4)] (str_pieces rest).
Proof.
  intros E1 E2 E3 E4. cbn [app str_pieces]. cbn [Z.eqb Z.ltb Pos.eqb Z.compare Pos.compare Pos.compare_cont].
  rewrite E1, E2, E3, E4. cbn [mbind option_bind]. unfold push_pieces. done.
Qed.

Lemma str_pieces_simple e v rest :
  simple_escape e = Some v -> e <> 117 ->
  str_pieces ([92; e] ++ rest) = push_pieces [PUnit v] (str_pieces rest).
Proof.
  intros E He. cbn [app str_pieces]. cbn [Z.eqb Z.ltb Pos.eqb Z.compare Pos.compare Pos.compare_cont].
  destruct (Z.eqb_spec e 117); [done|]. rewrite E. done.
Qed.

(** Scanning an escaped rune yields its pieces. *)
Lemma str_pieces_esc c rest :
  good_chunk c -> str_pieces (esc_rune c ++ rest) = push_pieces (chunk_pieces c) (str_pieces rest).
Proof.
  intros Hg. destruct c as [r bs]. unfold esc_rune. rewrite (good_valid _ Hg). cbn [negb].
  pose proof (good_nonneg _ Hg) as Hr. cbn [fst] in Hr. unfold chunk_pieces, is_escaped. cbn [fst snd].
  destruct (Z.eqb_spec r 34) as [->|H34]; [by apply str_pieces_simple|].
  destruct (Z.eqb_spec r 92) as [->|H92]; [by apply str_pieces_simple|]. cbn [orb].
  destruct (Z.eqb_spec r 8) as [->|]; [by apply str_pieces_simple|].
  destruct (Z.eqb_spec r 12) as [->|]; [by apply str_pieces_simple|].
  destruct (Z.eqb_spec r 10) as [->|]; [by apply str_pieces_simple|].
  destruct (Z.eqb_spec r 13) as [->|]; [by apply str_pieces_simple|].
  destruct (Z.eqb_spec r 9) as [->|]; [by apply str_pieces_simple|].
  rewrite !orb_false_r.
  destruct (((r <? 32) || (r =? 60) || (r =? 62) || (r =? 38))) eqn:E.
  - assert (r < 64) by (rewrite !orb_true_iff in E; destruct E as [[[E|E]|E]|E]; b2p; lia).
    cbn [orb]. erewrite str_pieces_hex; [|reflexivity|reflexivity|apply hex_value_digit..].
    + do 3 f_equal. pose proof (Z.div_mod r 16 ltac:(lia)). lia.
    + split; [apply Z.div_pos; lia|]. apply Z.div_lt_upper_bound; lia.
    + apply Z.mod_pos_bound. lia.
  - cbn [orb]. destruct (Z.eqb_spec r 8232) as [->|H1];
      [exact (str_pieces_hex 50 48 50 56 2 0 2 8 rest eq_refl eq_refl eq_refl eq_refl)|].
    destruct (Z.eqb_spec r 8233) as [->|H2];
      [exact (str_pieces_hex 50 48 50 57 2 0 2 9 rest eq_refl eq_refl eq_refl eq_refl)|]. cbn [orb].
    b2p. apply str_pieces_raw. destruct (Z.lt_ge_cases r 128) as [Hlt|Hge].
    + pose proof (good_ascii _ Hg Hlt) as Eb. cbn [fst snd] in Eb. subst bs. repeat constructor; lia.
    + eapply Forall_impl; [exact (good_high _ Hg Hge)|]. cbn. lia.
Qed.

Lemma str_pieces_quoted cs rest :
  Forall good_chunk cs ->
  str_pieces (concat (esc_rune <$> cs) ++ 34 :: rest) = Some (concat (chunk_pieces <$> cs), rest).
Proof.
  induction 1 as [|c cs Hc Hcs IH]; [done|]. rewrite !fmap_cons. cbn [concat].
  rewrite <- app_assoc, str_pieces_esc, IH by done. done.
Qed.

Lemma sanitize_valid l : forallb rune_valid (runes l) = true -> sanitize l = l.
Proof.
  intros H. unfold sanitize. rewrite <- (runes_concat l) at 2. f_equal.
  revert H. induction (runes l) as [|c cs IH]; [done|]. cbn [forallb]. intros H. b2p.
  rewrite !fmap_cons. f_equal; [|by apply IH]. by rewrite H.
Qed.

Lemma unquote_raw acc bs ps : unquote acc ((PRaw <$> bs) ++ ps) = unquote (acc ++ bs) ps.
Proof.
  revert acc. induction bs as [|b bs IH]; intros acc; cbn; [by rewrite app_nil_r|].
  rewrite IH, <- app_assoc. done.
Qed.

Lemma unquote_pieces cs acc :
  Forall good_chunk cs -> forallb rune_valid (runes acc) = true ->
  unquote acc (concat (chunk_pieces <$> cs)) = acc ++ concat (snd <$> cs).
Proof.
  intros Hcs. revert acc. induction Hcs as [|c cs Hc Hcs IH]; intros acc Hacc.
  { cbn. by rewrite sanitize_valid, app_nil_r. }
  rewrite !fmap_cons. cbn [concat]. unfold chunk_pieces at 1. destruct (is_escaped c.1) eqn:E.
  - cbn [app unquote]. rewrite sanitize_valid by done. f_equal.
    assert (Hs : in_range 55296 57343 c.1 = false).
    { unfold is_escaped in E. unfold in_range. apply andb_false_iff. left. apply Z.leb_gt.
      rewrite !orb_true_iff in E. destruct E as [[[[[[[E|E]|E]|E]|E]|E]|E]|E]; b2p; lia. }
    rewrite Hs, (good_encode _ Hc), IH by done. done.
  - rewrite unquote_raw, IH.
    + by rewrite app_assoc.
    + rewrite runes_app by apply (good_start _ Hc). rewrite forallb_app, Hacc, (good_runes _ Hc).
      cbn. by rewrite (good_valid _ Hc).
Qed.

Lemma valid_string_good s : valid_string s = true -> Forall good_chunk (runes (bytes s)).
Proof. intros H. apply runes_good; [apply bytes_is_byte|exact H]. Qed.

(** Reading a printed string literal gives the string back. *)
Lemma print_string_parse s rest :
  valid_string s = true ->
  exists ps, str_pieces (concat (esc_rune <$> runes (bytes s)) ++ 34 :: rest) = Some (ps, rest)
    /\ of_bytes (unquote [] ps) = s.
Proof.
  intros H. pose proof (valid_string_good s H) as Hg. eexists. split.
  - by apply str_pieces_quoted.
  - rewrite unquote_pieces by done. cbn. rewrite runes_concat. apply of_bytes_bytes.
Qed.

(** ** Numbers *)

(** What may follow a value in a compact document. *)
Definition follows (l : list Z) : Prop :=
  match l with [] => True | b :: _ => b = 44 \/ b = 93 \/ b = 125 end.

Lemma scan_int_dec n rest :
  0 <= n -> follows rest ->
  scan_int (dec_digits (dec_fuel n) n [] ++ rest) = Some (dec_digits (dec_fuel n) n [], rest).
Proof.
  intros Hn Hf. destruct (decide (n = 0)) as [->|].
  - reflexivity.
  - destruct (dec_digits_head (dec_fuel n) n []) as (d & ds & E & Hd).
    { split; [lia|]. by apply dec_fuel_bound. }
    pose proof (dec_digits_digit (dec_fuel n) n [] ltac:(constructor)) as HF.
    rewrite E in *. cbn [app scan_int]. destruct (Z.eqb_spec d 48); [lia|].
    inversion HF as [|? ? Hd' _]; subst. rewrite Hd'. f_equal.
    change (d :: ds ++ rest) with ((d :: ds) ++ rest). apply span_digits_app; [done|].
    destruct rest as [|b r]; [done|]. unfold is_digit, in_range.
    apply andb_false_iff. cbn in Hf. rewrite !Z.leb_gt. lia.
Qed.

Lemma scan_number_itoa z rest :
  follows rest -> scan_number (itoa_bytes z ++ rest) = Some (itoa_bytes z, rest).
Proof.
  intros Hf. unfold scan_number, itoa_bytes.
  assert (Hfrac : scan_frac rest = ([], rest)).
  { destruct rest as [|b r]; [done|]. cbn in Hf |- *. by destruct (Z.eqb_spec b 46); [lia|]. }
  assert (Hexp : scan_exp rest = ([], rest)).
  { destruct rest as [|b r]; [done|]. cbn in Hf |- *. destruct (Z.eqb_spec b 101); [lia|].
    by destruct (Z.eqb_spec b 69); [lia|]. }
  destruct (Z.ltb_spec z 0).
  - cbn [app]. change (45 =? 45) with true. cbv iota.
    rewrite scan_int_dec by (lia || done). cbn [mbind option_bind].
    rewrite Hfrac, Hexp. by rewrite !app_nil_r.
  - destruct (dec_digits_cons z ltac:(lia)) as (d & ds & E & Hd).
    assert (Hne : (d =? 45) = false).
    { unfold is_digit, in_range in Hd. b2p. apply Z.eqb_neq. lia. }
    rewrite E. cbn [app]. rewrite Hne. change (d :: ds ++ rest) with ((d :: ds) ++ rest).
    rewrite <- E, scan_int_dec by done. cbn [mbind option_bind].
    rewrite Hfrac, Hexp. by rewrite !app_nil_r.
Qed.

(** ** Printing and parsing a document *)

Inductive printable : Z -> json -> Prop :=
  | printable_null d : printable d JNull
  | printable_bool d b : printable d (JBool b)
  | printable_num d z : printable d (JNum (itoa z))
  | printable_str d s : valid_string s = true -> printable d (JStr s)
  | printable_arr d l : d < max_depth -> Forall (printable (d + 1)) l -> printable d (JArr l)
  | printable_obj d ms : d < max_depth ->
      Forall (fun m => valid_string m.1 = true /\ printable (d + 1) m.2) ms -> printable d (JObj ms).

(** The recursion depth parsing needs. *)
Fixpoint need (j : json) : nat :=
  match j with
  | JArr l => S (foldr (fun x n => (S (need x) + n)%nat) 0%nat l)
  | JObj ms => S (foldr (fun m n => (S (need m.2) + n)%nat) 0%nat ms)
  | _ => 1%nat
  end.

Lemma skip_ws_head b l : is_ws b = false -> skip_ws (b :: l) = b :: l.
Proof. intros H. unfold skip_ws. cbn. by rewrite H. Qed.

Lemma next_is_head c l : is_ws c = false -> next_is c (c :: l) = Some l.
Proof. intros H. unfold next_is. by rewrite skip_ws_head, Z.eqb_refl. Qed.

Lemma next_is_other c b l : is_ws b = false -> b <> c -> next_is c (b :: l) = None.
Proof.
  intros H Hne. unfold next_is. rewrite skip_ws_head by done.
  by destruct (Z.eqb_spec b c).
Qed.

Lemma prefix_of_app p l : prefix_of p (p ++ l) = true.
Proof. induction p as [|a p IH]; cbn; [done|]. by rewrite Z.eqb_refl, IH. Qed.

Lemma literal_app w j rest : literal w j (bytes w ++ rest) = Some (j, rest).
Proof. unfold literal. by rewrite prefix_of_app, drop_app_length. Qed.

(** The first byte of a printed value: no white space, no closing bracket. *)
Definition value_head (b : Z) : Prop :=
  is_ws b = false /\ b <> 93 /\ b <> 125 /\ b <> 44.

Lemma print_json_head d j :
  printable d j -> exists b l, print_json j = b :: l /\ value_head b.
Proof.
  unfold value_head. destruct 1 as [| |d z| | |].
  - by eexists _, _.
  - destruct b; by eexists _, _.
  - cbn [print_json]. unfold itoa. rewrite bytes_of_bytes by apply itoa_bytes_is_byte.
    unfold itoa_bytes. destruct (Z.ltb_spec z 0); [by eexists _, _|].
    destruct (dec_digits_cons z ltac:(lia)) as (c & ds & -> & Hc).
    eexists _, _. split; [done|]. unfold is_digit, in_range in Hc. b2p. unfold is_ws.
    split; [|lia]. rewrite !orb_false_iff, !Z.eqb_neq. lia.
  - by eexists _, _.
  - by eexists _, _.
  - by eexists _, _.
Qed.

Lemma sep_by_cons sep x y l : sep_by sep (x :: y :: l) = x ++ sep ++ sep_by sep (y :: l).
Proof. reflexivity. Qed.

Lemma parse_value_obj f d l :
  d < max_depth ->
  parse_value (S f) d ([123] ++ l)
  = match next_is 125 l with
    | Some r => Some (JObj [], r)
    | None => '(ms, r) ← parse_members f (d + 1) l; Some (JObj ms, r)
    end.
Proof.
  intros H. cbn [app parse_value]. rewrite skip_ws_head by done.
  cbn [Z.eqb Pos.eqb]. by destruct (Z.ltb_spec d max_depth); [|lia].
Qed.

Lemma parse_value_arr f d l :
  d < max_depth ->
  parse_value (S f) d ([91] ++ l)
  = match next_is 93 l with
    | Some r => Some (JArr [], r)
    | None => '(vs, r) ← parse_elems f (d + 1) l; Some (JArr vs, r)
    end.
Proof.
  intros H. cbn [app parse_value]. rewrite skip_ws_head by done.
  cbn [Z.eqb Pos.eqb]. by destruct (Z.ltb_spec d max_depth); [|lia].
Qed.

Section parse_print.

Definition parses (j : json) : Prop := forall d fuel rest,
  printable d j -> (need j <= fuel)%nat -> follows rest ->
  parse_value fuel d (print_json j ++ rest) = Some (j, rest).

Lemma parse_elems_print l d fuel rest :
  l <> [] -> Forall parses l -> Forall (printable d) l ->
  (foldr (fun x n => (S (need x) + n)%nat) 0%nat l <= fuel)%nat ->
  parse_elems fuel d (sep_by [44] (List.map print_json l) ++ 93 :: rest) = Some (l, rest).
Proof.
  intros Hne Hp. revert fuel. induction Hp as [|j l Hj Hl IH]; [done|]. intros fuel Hpr Hf.
  apply Forall_cons in Hpr as [Hpj Hpl]. cbn [foldr] in Hf.
  destruct fuel as [|f]; [lia|]. cbn [parse_elems List.map].
  destruct l as [|j' l'].
  - cbn [sep_by List.map]. rewrite Hj; [|done|cbn in Hf; lia|cbn; lia]. cbn [mbind option_bind].
    rewrite next_is_other by (done || lia). by rewrite next_is_head.
  - change (sep_by [44] (print_json j :: List.map print_json (j' :: l')))
      with (print_json j ++ [44] ++ sep_by [44] (List.map print_json (j' :: l'))).
    rewrite <- !app_assoc, Hj; [|done|lia|cbn; lia]. cbn [mbind option_bind app].
    rewrite next_is_head by done. rewrite IH; [done|done|done|lia].
Qed.

Lemma parse_members_print ms d fuel rest :
  ms <> [] -> Forall (fun m => parses m.2) ms ->
  Forall (fun m => valid_string m.1 = true /\ printable d m.2) ms ->
  (foldr (fun m n => (S (need m.2) + n)%nat) 0%nat ms <= fuel)%nat ->
  parse_members fuel d
    (sep_by [44] (List.map (fun m => print_string m.1 ++ [58] ++ print_json m.2) ms) ++ 125 :: rest)
  = Some (ms, rest).
Proof.
  intros Hne Hp. revert fuel. induction Hp as [|[k j] ms Hj Hms IH]; [done|]. intros fuel Hpr Hf.
  apply Forall_cons in Hpr as [[Hk Hpj] Hpms]. cbn [foldr fst snd] in *.
  destruct fuel as [|f]; [lia|]. cbn [parse_members List.map].
  assert (Hstep : forall tail, follows tail ->
    (l1 ← next_is 34 (print_string k ++ [58] ++ print_json j ++ tail);
     '(ps, r) ← str_pieces l1; r1 ← next_is 58 r; '(v, r2) ← parse_value f d r1;
     let m := (of_bytes (unquote [] ps), v) in
      match next_is 44 r2 with
      | Some r3 => '(ms, r4) ← parse_members f d r3; Some (m :: ms, r4)
      | None => r3 ← next_is 125 r2; Some ([m], r3)
      end) =
    match next_is 44 tail with
    | Some r3 => '(ms, r4) ← parse_members f d r3; Some ((k, j) :: ms, r4)
    | None => r3 ← next_is 125 tail; Some ([(k, j)], r3)
    end).
  { intros tail Ht. unfold print_string. rewrite <- !app_assoc. cbn [app].
    rewrite next_is_head by done. cbn [mbind option_bind].
    destruct (print_string_parse k (58 :: print_json j ++ tail) Hk) as (ps & Eps & Ek).
    rewrite Eps. cbn [mbind option_bind]. rewrite next_is_head by done. cbn [mbind option_bind].
    rewrite Hj; [|done|lia|done]. cbn [mbind option_bind]. by rewrite Ek. }
  destruct ms as [|[k' j'] ms'].
  - cbn [sep_by List.map fst snd]. rewrite <- !app_assoc. cbn [app]. cbn [app] in Hstep.
    rewrite Hstep by (cbn; lia). rewrite next_is_other by (done || lia).
    by rewrite next_is_head.
  - cbn [List.map fst snd]. rewrite sep_by_cons. rewrite <- !app_assoc.
    rewrite Hstep by (cbn; lia).
    change ((print_string k' ++ [58] ++ print_json j')
            :: List.map (fun m => print_string m.1 ++ [58] ++ print_json m.2) ms')
      with (List.map (fun m => print_string m.1 ++ [58] ++ print_json m.2) ((k', j') :: ms')).
    cbn [app]. rewrite next_is_head by done. rewrite IH; [done|done|done|lia].
Qed.

Lemma parse_value_print j : parses j.
Proof.
  induction j as [|b|lit|s|l IH|ms IH] using json_ind; intros d fuel rest Hp Hf Hr;
    destruct fuel as [|f]; try (cbn in Hf; lia); inversion Hp; subst; cbn [print_json].
  - apply (literal_app "null").
  - destruct b; [apply (literal_app "true")|apply (literal_app "false")].
  - unfold itoa. rewrite bytes_of_bytes by apply itoa_bytes_is_byte.
    assert (Hh : exists b l, itoa_bytes z = b :: l /\ (b = 45 \/ 48 <= b <= 57)).
    { unfold itoa_bytes. destruct (Z.ltb_spec z 0); [eexists _, _; split; [done|lia]|].
      destruct (dec_digits_cons z ltac:(lia)) as (c & ds & -> & Hc).
      eexists _, _. split; [done|]. unfold is_digit, in_range in Hc. b2p. lia. }
    destruct Hh as (b & l & E & Hb). pose proof (scan_number_itoa z rest Hr) as Hs.
    rewrite E in *. cbn [app parse_value] in *.
    rewrite skip_ws_head by (unfold is_ws; rewrite !orb_false_iff, !Z.eqb_neq; lia).
    repeat match goal with |- context [b =? ?c] => destruct (Z.eqb_spec b c); [lia|] end.
    rewrite Hs. cbn [mbind option_bind]. done.
  - unfold print_string. rewrite <- !app_assoc. cbn [app parse_value].
    rewrite skip_ws_head by done. cbn [Z.eqb Pos.eqb].
    match goal with H : valid_string s = true |- _ =>
      destruct (print_string_parse s rest H) as (ps & Eps & Es) end.
    rewrite Eps. cbn [mbind option_bind]. by rewrite Es.
  - rewrite <- !app_assoc, parse_value_arr by done. destruct l as [|j l].
    + cbn [List.map sep_by app]. by rewrite next_is_head.
    + assert (Hn : next_is 93 (sep_by [44] (List.map print_json (j :: l)) ++ [93] ++ rest) = None).
      { match goal with H : Forall (printable _) _ |- _ => inversion H; subst end.
        match goal with H : printable _ j |- _ =>
          destruct (print_json_head _ _ H) as (b & t & E & Hb) end.
        cbn [List.map sep_by]. destruct (List.map print_json l); rewrite E; cbn [app];
          apply next_is_other; apply Hb. }
      rewrite Hn. change ([93] ++ rest) with (93 :: rest).
      rewrite (parse_elems_print (j :: l) (d + 1) f rest); [done|done|done|done|].
      cbn in Hf |- *. lia.
  - rewrite <- !app_assoc, parse_value_obj by done. destruct ms as [|m ms].
    + cbn [List.map sep_by app]. by rewrite next_is_head.
    + assert (Hn : next_is 125 (sep_by [44] (List.map (fun m => print_string m.1 ++ [58]
                     ++ print_json m.2) (m :: ms)) ++ [125] ++ rest) = None).
      { cbn [List.map sep_by]. destruct (List.map _ ms); unfold print_string; cbn [app];
          by apply next_is_other. }
      rewrite Hn. change ([125] ++ rest) with (125 :: rest).
      rewrite (parse_members_print (m :: ms) (d + 1) f rest); [done|done|done|done|].
      cbn in Hf |- *. lia.
Qed.
End parse_print.

Lemma need_elems_length l d :
  Forall (fun j => forall d, printable d j -> (need j <= 2 * length (print_json j))%nat) l ->
  Forall (printable d) l ->
  (foldr (fun x n => (S (need x) + n)%nat) 0%nat l
   <= 2 * length (sep_by [44]%Z (List.map print_json l)) + 1)%nat.
Proof.
  induction 1 as [|j l Hj Hl IH]; intros Hp; [cbn; lia|].
  apply Forall_cons in Hp as [Hpj Hpl]. specialize (Hj d Hpj). specialize (IH Hpl).
  cbn [foldr List.map]. destruct l as [|j' l']; [cbn [sep_by List.map foldr]; lia|].
  cbn [List.map] in *. rewrite sep_by_cons, !length_app. cbn [length]. lia.
Qed.

Lemma need_members_length ms d :
  Forall (fun m => forall d, printable d m.2 -> (need m.2 <= 2 * length (print_json m.2))%nat) ms ->
  Forall (fun m => valid_string m.1 = true /\ printable d m.2) ms ->
  (foldr (fun m n => (S (need m.2) + n)%nat) 0%nat ms
   <= 2 * length (sep_by [44]%Z (List.map (fun m => print_string m.1 ++ [58]%Z ++ print_json m.2) ms))
      + 1)%nat.
Proof.
  induction 1 as [|m ms Hm Hms IH]; intros Hp; [cbn; lia|].
  apply Forall_cons in Hp as [[_ Hpm] Hpms]. specialize (Hm d Hpm). specialize (IH Hpms).
  cbn [foldr List.map].
  destruct ms as [|m' ms']; [cbn [sep_by List.map foldr]; rewrite !length_app; lia|].
  cbn [List.map] in *. rewrite sep_by_cons, !length_app. cbn [length] in *. lia.
Qed.

Lemma need_length j d : printable d j -> (need j <= 2 * length (print_json j))%nat.
Proof.
  revert d. induction j as [|b|lit|s|l IH|ms IH] using json_ind; intros d Hp; inversion Hp; subst;
    cbn [need print_json].
  - cbn. lia.
  - destruct b; cbn; lia.
  - unfold itoa. rewrite bytes_of_bytes by apply itoa_bytes_is_byte.
    enough (0 < length (itoa_bytes z))%nat by lia. unfold itoa_bytes.
    destruct (Z.ltb_spec z 0); [cbn; lia|].
    destruct (dec_digits_cons z ltac:(lia)) as (c & ds & -> & _). cbn. lia.
  - unfold print_string. cbn. lia.
  - rewrite !length_app. cbn [length].
    match goal with H : Forall (printable ?d') l |- _ => pose proof (need_elems_length l d' IH H) end.
    lia.
  - rewrite !length_app. cbn [length].
    match goal with H : Forall _ ms |- _ => 
      match type of H with Forall (fun m => _ /\ printable ?d' _) _ =>
        pose proof (need_members_length ms d' IH H) end end.
    lia.
Qed.

Lemma runes_bytes_Forall (P : Z -> Prop) l :
  Forall P l -> Forall (fun c : Z * list Z => Forall P c.2) (runes l).
Proof.
  intros H. rewrite <- (runes_concat l) in H. revert H.
  induction (runes l) as [|c cs IH]; [constructor|]. rewrite fmap_cons. cbn [concat].
  intros [H1 H2]%Forall_app. constructor; [done|by apply IH].
Qed.

Lemma hex_digit_byte n : 0 <= n < 16 -> is_byte (hex_digit n).
Proof. unfold hex_digit, is_byte. intros H. destruct (n <? 10); lia. Qed.

Lemma esc_rune_byte c : good_chunk c -> Forall is_byte c.2 -> Forall is_byte (esc_rune c).
Proof.
  intros Hg Hb. destruct c as [r bs]. unfold esc_rune. rewrite (good_valid _ Hg). cbn [negb].
  pose proof (good_nonneg _ Hg) as Hr. cbn [fst snd] in *.
  assert (Hl : forall l, forallb (in_range 0 255) l = true -> Forall is_byte l).
  { intros l Hl. rewrite Forall_forall. intros x Hx. rewrite forallb_forall in Hl.
    apply list_elem_of_In, Hl in Hx. unfold in_range, is_byte in *. b2p. lia. }
  assert (Hm : is_byte (hex_digit (r mod 16))) by (apply hex_digit_byte, Z.mod_pos_bound; lia).
  destruct (Z.eqb_spec r 34) as [->|]; [by apply Hl|].
  destruct (Z.eqb_spec r 92) as [->|]; [by apply Hl|]. cbn [orb].
  destruct (r =? 8); [by apply Hl|]. destruct (r =? 12); [by apply Hl|].
  destruct (r =? 10); [by apply Hl|]. destruct (r =? 13); [by apply Hl|].
  destruct (r =? 9); [by apply Hl|].
  destruct ((r <? 32) || (r =? 60) || (r =? 62) || (r =? 38)) eqn:E.
  - assert (r < 64) by (rewrite !orb_true_iff in E; destruct E as [[[E|E]|E]|E]; b2p; lia).
    apply (Forall_app_2 _ [92; 117; 48; 48]); [by apply Hl|].
    constructor; [|constructor; [done|constructor]].
    apply hex_digit_byte. split; [apply Z.div_pos; lia|apply Z.div_lt_upper_bound; lia].
  - destruct ((r =? 8232) || (r =? 8233)); [|done].
    apply (Forall_app_2 _ [92; 117; 50; 48; 50]); [by apply Hl|]. constructor; [done|constructor].
Qed.

Lemma print_string_byte s : valid_string s = true -> Forall is_byte (print_string s).
Proof.
  intros H. pose proof (valid_string_good s H) as Hg. unfold print_string.
  pose proof (runes_bytes_Forall is_byte _ (bytes_is_byte s)) as Hb.
  assert (Hc : Forall is_byte [34]) by (constructor; [unfold is_byte; lia|constructor]).
  apply Forall_app. split; [done|]. apply Forall_app. split; [|done].
  revert Hg Hb. induction (runes (bytes s)) as [|c cs IH]; intros Hg Hb; [constructor|].
  inversion Hg; inversion Hb; subst. rewrite fmap_cons. cbn [concat]. apply Forall_app. split.
  - by apply esc_rune_byte.
  - by apply IH.
Qed.

Lemma sep_by_Forall (P : Z -> Prop) sep l :
  Forall P sep -> Forall (Forall P) l -> Forall P (sep_by sep l).
Proof.
  intros Hs. induction 1 as [|x l Hx Hl IH]; [constructor|].
  destruct l as [|y l]; [done|]. rewrite sep_by_cons. by repeat (apply Forall_app; split).
Qed.

Lemma print_json_byte j d : printable d j -> Forall is_byte (print_json j).
Proof.
  assert (Hc : forall c : Z, 0 <= c < 256 -> Forall is_byte [c])
    by (intros c Hc; constructor; [done|constructor]).
  revert d. induction j as [|b|lit|s|l IH|ms IH] using json_ind; intros d Hp; inversion Hp; subst;
    cbn [print_json].
  - apply bytes_is_byte.
  - destruct b; apply bytes_is_byte.
  - apply bytes_is_byte.
  - by apply print_string_byte.
  - apply Forall_app. split; [apply Hc; lia|]. apply Forall_app. split; [|apply Hc; lia].
    apply sep_by_Forall; [apply Hc; lia|]. apply Forall_map.
    match goal with H : Forall (printable _) l |- _ => rename H into Hl end.
    rewrite Forall_forall in *. eauto.
  - apply Forall_app. split; [apply Hc; lia|]. apply Forall_app. split; [|apply Hc; lia].
    apply sep_by_Forall; [apply Hc; lia|]. apply Forall_map.
    match goal with H : Forall _ ms |- _ => rename H into Hms end.
    rewrite Forall_forall in *. intros m Hm. destruct (Hms m Hm) as [Hk Hv].
    apply Forall_app. split; [by apply print_string_byte|].
    apply Forall_app. split; [apply Hc; lia|]. by eapply IH.
Qed.

(** Decoding what [json.Marshal] printed stores the document it was given. *)
Lemma decode_strict_marshal {A} (dec : decoder A) zero j :
  printable 0 j -> decode_strict dec zero (marshal j) = dec j zero.
Proof.
  intros Hp. unfold decode_strict, marshal.
  rewrite bytes_of_bytes by (by eapply print_json_byte).
  unfold parse_document. rewrite <- (app_nil_r (print_json j)) at 2.
  rewrite parse_value_print; [done|done| |done].
  unfold json_fuel. pose proof (need_length j 0 Hp). lia.
Qed.

(** ** Storing: lemmas *)

Lemma dec_string_eq s cur : dec_string (JStr s) cur = Ok s.
Proof. done. Qed.

Lemma dec_int64_int z cur : in_int64 z = true -> dec_int64 (json_int z) cur = Ok z.
Proof. intros H. cbn. by rewrite atoi_itoa. Qed.

Lemma dec_uint64_int z cur : in_uint64 z = true -> dec_uint64 (json_int z) cur = Ok z.
Proof. intros H. cbn. by rewrite parse_uint_itoa. Qed.

Lemma dec_list_map {A} (dec : decoder A) zero (enc : A -> json) l cur :
  Forall (fun a => forall cur, dec (enc a) cur = Ok a) l ->
  dec_list dec zero (JArr (List.map enc l)) cur = Ok l.
Proof.
  intros H. cbn [dec_list]. revert cur. induction H as [|a l Ha Hl IH]; intros cur; cbn; [done|].
  by rewrite Ha; cbn; rewrite IH.
Qed.

Lemma sorted_entries_Permutation {A} (m : gmap string A) : sorted_entries m ≡ₚ map_to_list m.
Proof. apply merge_sort_Permutation. Qed.

Lemma dec_entries_ok {A B} (dec : decoder B) zero (f : A -> json) (g : A -> B) l cur :
  Forall (fun p : string * A => dec (f p.2) zero = Ok (g p.2)) l ->
  dec_entries dec zero (List.map (fun p => (p.1, f p.2)) l) cur
  = Ok (foldl (fun m p => <[p.1 := g p.2]> m) cur l).
Proof.
  intros H. revert cur. induction H as [|[k a] l Ha Hl IH]; intros cur; cbn in *; [done|].
  by rewrite Ha; cbn; rewrite IH.
Qed.

Lemma foldl_insert_lookup {A B} (g : A -> B) (l : list (string * A)) (m : gmap string B) k :
  NoDup l.*1 ->
  foldl (fun m p => <[p.1 := g p.2]> m) m l !! k
  = match (list_to_map l : gmap string A) !! k with Some a => Some (g a) | None => m !! k end.
Proof.
  revert m. induction l as [|[k' a] l IH]; intros m Hnd; cbn [foldl].
  { by rewrite list_to_map_nil, lookup_empty. }
  rewrite fmap_cons in Hnd. apply NoDup_cons in Hnd as [Hk' Hnd]. rewrite IH by done. cbn [fst snd].
  rewrite list_to_map_cons. destruct (decide (k = k')) as [->|Hne].
  - rewrite lookup_insert_eq, not_elem_of_list_to_map_1 by done. by rewrite lookup_insert_eq.
  - by rewrite !lookup_insert_ne by done.
Qed.

(** Reading back a map printed in key order. *)
Lemma dec_map_entries {A B} (dec : decoder B) zero (f : A -> json) (g : A -> B) (m : gmap string A) cur :
  cur = ∅ ->
  map_Forall (fun _ a => dec (f a) zero = Ok (g a)) m ->
  dec_map dec zero (JObj (List.map (fun p => (p.1, f p.2)) (sorted_entries m))) cur = Ok (g <$> m).
Proof.
  intros -> H. cbn [dec_map]. pose proof (sorted_entries_Permutation m) as Hp.
  rewrite dec_entries_ok with (g := g).
  - f_equal. apply map_eq. intros k. rewrite foldl_insert_lookup.
    + rewrite (list_to_map_proper _ (map_to_list m)); [|by rewrite Hp; apply NoDup_fst_map_to_list|done].
      rewrite list_to_map_to_list, lookup_fmap, lookup_empty. by destruct (m !! k).
    + rewrite Hp. apply NoDup_fst_map_to_list.
  - rewrite Hp. apply map_Forall_to_list in H. eapply Forall_impl; [exact H|]. by intros [k a].
Qed.

Definition field_key (x : bool * string * json) : string := x.1.2.
Definition lookup_field (n : string) (l : list (bool * string * json)) : option (bool * json) :=
  match List.find (fun x => String.eqb (field_key x) n) l with
  | Some (omit, _, j) => Some (omit, j)
  | None => None
  end.

Lemma resolve_exact names k : k ∈ names -> resolve names k = Some k.
Proof. intros H. unfold resolve. by rewrite decide_True. Qed.

Lemma known_keys_members names l :
  Forall (fun x => field_key x ∈ names) l -> known_keys names (members l) = true.
Proof.
  unfold known_keys. induction 1 as [|[[o k] j] l Hk Hl IH]; [done|]. cbn in Hk.
  destruct o; cbn; [done|]. by rewrite resolve_exact.
Qed.

Lemma dec_field_none {A} names n (dec : decoder A) l cur :
  Forall (fun x => field_key x ∈ names) l -> n ∉ (field_key <$> l) ->
  dec_field names n dec (members l) cur = Ok cur.
Proof.
  induction 1 as [|[[o k] j] l Hk Hl IH]; [done|]. rewrite fmap_cons, not_elem_of_cons.
  change (field_key (o, k, j)) with k in *. intros [Hne Hn]. destruct o; cbn; [by apply IH|].
  rewrite resolve_exact by done. rewrite decide_False by congruence. by apply IH.
Qed.

Lemma dec_field_lookup {A} names n (dec : decoder A) l cur :
  Forall (fun x => field_key x ∈ names) l -> NoDup (field_key <$> l) ->
  dec_field names n dec (members l) cur
  = match lookup_field n l with
    | Some (omit, j) => if (omit : bool) then Ok cur else dec j cur
    | None => Ok cur
    end.
Proof.
  unfold lookup_field. induction 1 as [|[[o k] j] l Hk Hl IH]; [done|]. rewrite fmap_cons.
  intros Hnd. apply NoDup_cons in Hnd as [Hkl Hnd].
  cbn [List.find]. change (field_key (o, k, j)) with k in *.
  destruct (String.eqb_spec k n) as [E|E].
  - subst n. destruct o; cbn [members flat_map app].
    + by apply dec_field_none.
    + cbn [dec_field]. rewrite resolve_exact, decide_True by done.
      destruct (dec j cur) as [a|e]; cbn [res_bind]; [|done]. by apply dec_field_none.
  - destruct o; cbn [members flat_map app]; [by apply IH|].
    cbn [dec_field]. rewrite resolve_exact by done. rewrite decide_False by congruence. by apply IH.
Qed.

(** Reading a field of a printed struct whose fields are the declared ones. *)
Lemma dec_field_members {A} names n (dec : decoder A) l cur :
  field_key <$> l = names -> bool_decide (NoDup names) = true ->
  dec_field names n dec (members l) cur
  = match lookup_field n l with
    | Some (omit, j) => if (omit : bool) then Ok cur else dec j cur
    | None => Ok cur
    end.
Proof.
  intros <- Hnd%bool_decide_eq_true. apply dec_field_lookup; [|done].
  apply Forall_forall. intros x Hx. by apply list_elem_of_fmap_2.
Qed.

Lemma dec_struct_obj {A} names (build : list (string * json) -> A -> res A) l cur :
  field_key <$> l = names -> dec_struct names build (obj l) cur = build (members l) cur.
Proof.
  intros <-. unfold dec_struct, obj. rewrite known_keys_members; [done|].
  apply Forall_forall. intros x Hx. by apply list_elem_of_fmap_2.
Qed.

(** A field that omitempty may have dropped reads back from the zero value. *)
Lemma field_str (s : string) :
  (if bool_decide (s = "") then Ok "" else dec_string (JStr s) "") = Ok s.
Proof. by case_bool_decide; subst. Qed.
Lemma field_int64 z :
  in_int64 z = true -> (if z =? 0 then Ok 0 else dec_int64 (json_int z) 0) = Ok z.
Proof. intros H. destruct (Z.eqb_spec z 0) as [->|]; [done|]. by apply dec_int64_int. Qed.
Lemma field_uint64 z :
  in_uint64 z = true -> (if z =? 0 then Ok 0 else dec_uint64 (json_int z) 0) = Ok z.
Proof. intros H. destruct (Z.eqb_spec z 0) as [->|]; [done|]. by apply dec_uint64_int. Qed.
Lemma field_list {A} (dec : decoder A) zero (enc : A -> json) (l : list A) `{!Decision (l = [])} :
  Forall (fun a => forall cur, dec (enc a) cur = Ok a) l ->
  (if bool_decide (l = []) then Ok [] else dec_list dec zero (JArr (List.map enc l)) []) = Ok l.
Proof. intros H. case_bool_decide as E; [by rewrite E|]. by apply dec_list_map. Qed.
Lemma field_map {A} (dec : decoder A) zero (enc : A -> json) (m : gmap string A) :
  map_Forall (fun _ a => dec (enc a) zero = Ok a) m ->
  (if bool_decide (size m = 0%nat) then Ok ∅
   else dec_map dec zero (JObj (List.map (fun p => (p.1, enc p.2)) (sorted_entries m))) ∅) = Ok m.
Proof.
  intros H. case_bool_decide as E; [by apply map_size_empty_inv in E as ->|].
  rewrite (dec_map_entries dec zero enc id) by done. by rewrite map_fmap_id.
Qed.

Lemma printable_obj_members d l :
  d < max_depth ->
  Forall (fun x : bool * string * json =>
    x.1.1 = false -> valid_string x.1.2 = true /\ printable (d + 1) x.2) l ->
  printable d (obj l).
Proof.
  intros Hd H. constructor; [done|]. induction H as [|[[o k] j] l Hx Hl IH]; [constructor|].
  destruct o; cbn; [done|]. constructor; [|done]. by apply Hx.
Qed.
