(* ===== verification/Sha256.v ===== *)
(** * Package crypto/sha256

    The hash the program uses for subscription business keys and snapshot
    hashes, written from FIPS 180-4 on bytes and 32-bit words. *)
From Stdlib Require Import ZArith Lia Bool String.
From stdpp Require Import base list strings.
From S2P Require Import Prelude GoStrings.

Definition two32 : Z := 2 ^ 32.
Definition add32 (a b : Z) : Z := (a + b) mod two32.
Definition rotr (n x : Z) : Z := Z.lor (Z.shiftr x n) (Z.shiftl x (32 - n) mod two32).

Definition sha_k : list Z :=
  [1116352408; 1899447441; 3049323471; 3921009573; 961987163; 1508970993; 2453635748;
    2870763221; 3624381080; 310598401; 607225278; 1426881987; 1925078388; 2162078206;
    2614888103; 3248222580; 3835390401; 4022224774; 264347078; 604807628; 770255983;
    1249150122; 1555081692; 1996064986; 2554220882; 2821834349; 2952996808; 3210313671;
    3336571891; 3584528711; 113926993; 338241895; 666307205; 773529912; 1294757372;
    1396182291; 1695183700; 1986661051; 2177026350; 2456956037; 2730485921; 2820302411;
    3259730800; 3345764771; 3516065817; 3600352804; 4094571909; 275423344; 430227734;
    506948616; 659060556; 883997877; 958139571; 1322822218; 1537002063; 1747873779;
    1955562222; 2024104815; 2227730452; 2361852424; 2428436474; 2756734187; 3204031479;
    3329325298].
Definition sha_h0 : list Z :=
  [1779033703; 3144134277; 1013904242; 2773480762; 1359893119; 2600822924; 528734635;
    1541459225].

Definition big_endian32 (b : list Z) : Z := fold_left (fun n c => n * 256 + c) b 0.

(** The message with the one bit, the zeros and the bit length. *)
Definition sha_pad (msg : list Z) : list Z :=
  let n := Z.of_nat (length msg) in
  let zeros := Z.to_nat ((55 - n) mod 64) in
  let bits := 8 * n in
  msg ++ [128] ++ replicate zeros 0
  ++ ((fun i => Z.shiftr bits (8 * (7 - Z.of_nat i)) mod 256) <$> seq 0 8).

(** The message schedule, most recent word first. *)
Fixpoint schedule_loop (n : nat) (rw : list Z) : list Z :=
  match n with
  | O => rw
  | S n' =>
      let w i := nth i rw 0 in
      let s0 := Z.lxor (Z.lxor (rotr 7 (w 14%nat)) (rotr 18 (w 14%nat))) (Z.shiftr (w 14%nat) 3) in
      let s1 := Z.lxor (Z.lxor (rotr 17 (w 1%nat)) (rotr 19 (w 1%nat))) (Z.shiftr (w 1%nat) 10) in
      schedule_loop n' (add32 (add32 (w 15%nat) s0) (add32 (w 6%nat) s1) :: rw)
  end.

Fixpoint words (n : nat) (block : list Z) : list Z :=
  match n with O => [] | S n' => big_endian32 (take 4 block) :: words n' (drop 4 block) end.

Definition sha_round (st : Z * Z * Z * Z * Z * Z * Z * Z) (kw : Z * Z)
  : Z * Z * Z * Z * Z * Z * Z * Z :=
  let '(a, b, c, d, e, f, g, h) := st in
  let s1 := Z.lxor (Z.lxor (rotr 6 e) (rotr 11 e)) (rotr 25 e) in
  let ch := Z.lxor (Z.land e f) (Z.land (two32 - 1 - e) g) in
  let t1 := add32 (add32 (add32 h s1) (add32 ch kw.1)) kw.2 in
  let s0 := Z.lxor (Z.lxor (rotr 2 a) (rotr 13 a)) (rotr 22 a) in
  let maj := Z.lxor (Z.lxor (Z.land a b) (Z.land a c)) (Z.land b c) in
  (add32 t1 (add32 s0 maj), a, b, c, add32 d t1, e, f, g).

Definition sha_block (hs block : list Z) : list Z :=
  match hs with
  | [a; b; c; d; e; f; g; h] =>
      let ws := rev (schedule_loop 48 (rev (words 16 block))) in
      let '(a', b', c', d', e', f', g', h') :=
        fold_left sha_round (combine sha_k ws) (a, b, c, d, e, f, g, h) in
      [add32 a a'; add32 b b'; add32 c c'; add32 d d'; add32 e e'; add32 f f'; add32 g g'; add32 h h']
  | _ => hs
  end.

Fixpoint sha_blocks (n : nat) (msg hs : list Z) : list Z :=
  match n with
  | O => hs
  | S n' => sha_blocks n' (drop 64 msg) (sha_block hs (take 64 msg))
  end.

(** [sha256.Sum256] *)
Definition sha256 (msg : list Z) : list Z :=
  let p := sha_pad msg in
  let hs := sha_blocks (length p / 64) p sha_h0 in
  concat ((fun w => [w / 16777216; (w / 65536) mod 256; (w / 256) mod 256; w mod 256]) <$> hs).

(** [hex.EncodeToString] *)
Definition hex_encode (l : list Z) : string :=
  let d n := if n <? 10 then 48 + n else 87 + n in
  of_bytes (concat ((fun b => [d (b / 16); d (b mod 16)]) <$> l)).

Definition sha256_hex (msg : string) : string := hex_encode (sha256 (bytes msg)).

(** The test vectors of the standard. *)
Example sha256_empty :
  sha256_hex "" = "e3b0c44298fc1c149afbf4c8996fb92427ae41e4649b934ca495991b7852b855".
Proof. vm_compute. reflexivity. Qed.
Example sha256_abc :
  sha256_hex "abc" = "ba7816bf8f01cfea414140de5dae2223b00361a396177a9cb410ff61f20015ad".
Proof. vm_compute. reflexivity. Qed.
