(* ===== verification/Floats.v ===== *)
(** * float64

    The double-precision arithmetic the program uses, on the Standard Library's
    [SpecFloat] (IEEE 754 at 53 bits, rounding to nearest even): conversion from
    integers, division, multiplication, strconv.ParseFloat of decimal literals
    and fmt's fixed-point verbs.  The values are compared and rounded as the
    rationals they are. *)
From Stdlib Require Import ZArith QArith Qround Lia Bool String.
From Stdlib Require SpecFloat.
From stdpp Require Import base list strings.
From S2P Require Import Prelude GoStrings GoTime.

Open Scope Z_scope.

(** [strconv.ParseFloat(lit, 64)] of a JSON number: the decimal digits as an
    integer and the power of ten, rounded to the nearest double.  An overflow is
    an error. *)
Definition float_scan (l : list Z) : option (bool * Z * Z) :=
  let '(neg, l) := match l with 45 :: l => (true, l) | _ => (false, l) end in
  let '(int, l) := span_digits l in
  let '(frac, l) := match l with 46 :: l => span_digits l | _ => ([], l) end in
  let mant := digits_value (int ++ frac) in
  let scale := - len frac in
  match l with
  | [] => Some (neg, mant, scale)
  | _ :: l =>
      let '(eneg, l) := match l with 45 :: l => (true, l) | 43 :: l => (false, l) | _ => (false, l) end in
      let e := digits_value l in
      Some (neg, mant, scale + if eneg then - e else e)
  end.
Definition spec_float_Q (f : SpecFloat.spec_float) : option Q :=
  match f with
  | SpecFloat.S754_zero _ => Some 0%Q
  | SpecFloat.S754_finite s m e =>
      let z := if s then Zneg m else Zpos m in
      Some (if 0 <=? e then inject_Z (z * 2 ^ e) else Qmake z (Z.to_pos (2 ^ (- e))))
  | _ => None
  end.
Definition parse_float (lit : string) : option Q :=
  '(neg, mant, e) ← float_scan (bytes lit);
  match mant with
  | Zpos m => spec_float_Q (SpecFloat.SFdiv 53 1024
                (SpecFloat.S754_finite neg (m * Z.to_pos (10 ^ Z.max e 0)) 0)
                (SpecFloat.S754_finite false (Z.to_pos (10 ^ Z.max (- e) 0)) 0))
  | _ => Some 0%Q
  end.

(** [float64(n)], exact below 2^53. *)
Definition float_of_int (n : Z) : SpecFloat.spec_float :=
  match n with
  | Z0 => SpecFloat.S754_zero false
  | Zpos m => SpecFloat.S754_finite false m 0
  | Zneg m => SpecFloat.S754_finite true m 0
  end.
Definition float_div : SpecFloat.spec_float -> SpecFloat.spec_float -> SpecFloat.spec_float := SpecFloat.SFdiv 53 1024.
Definition float_mul : SpecFloat.spec_float -> SpecFloat.spec_float -> SpecFloat.spec_float := SpecFloat.SFmul 53 1024.

(** The value of a float that is neither infinite nor NaN. *)
Definition float_value (f : SpecFloat.spec_float) : Q := default 0%Q (spec_float_Q f).

(** The nearest integer, the even one of two. *)
Definition round_half_even (q : Q) : Z :=
  let n := Qfloor q in
  match Qcompare (q - inject_Z n) (1 # 2) with
  | Lt => n
  | Gt => n + 1
  | Eq => if Z.even n then n else n + 1
  end.

(** [fmt.Sprintf("%.{prec}f", f)] of a float that is not negative. *)
Definition pad_digits (width : nat) (s : string) : string :=
  String.concat "" (repeat "0" (width - String.length s)) +:+ s.
Definition format_fixed (prec : nat) (f : SpecFloat.spec_float) : string :=
  let n := round_half_even (float_value f * inject_Z (10 ^ Z.of_nat prec))%Q in
  match prec with
  | O => itoa n
  | _ => itoa (n / 10 ^ Z.of_nat prec) +:+ "." +:+ pad_digits prec (itoa (n mod 10 ^ Z.of_nat prec))
  end.

(** [strconv.ParseFloat] of the digits [format_fixed] prints, as a float. *)
Definition parse_fixed (s : string) : SpecFloat.spec_float :=
  match float_scan (bytes s) with
  | Some (false, Zpos m, e) =>
      float_div (SpecFloat.S754_finite false (m * Z.to_pos (10 ^ Z.max e 0)) 0)
        (SpecFloat.S754_finite false (Z.to_pos (10 ^ Z.max (- e) 0)) 0)
  | _ => SpecFloat.S754_zero false
  end.
