(* ===== verification/Contract.v ===== *)
(** * Agent contracts (internal/agent/protocol_contract.go, workflow_contract.go)

    The data the agent's components exchange: intent drafts, trusted
    parameters, operation requests and workflow snapshots, with the cloning
    helpers every store goes through.  Named string types of the source stay
    strings, since values outside the declared constants reach the code from
    storage and from the model and are what its validation rejects.  A nil and
    an empty slice or map are the same value here; the code tells them apart
    nowhere in what is modelled.  Identifiers of type uint, int and int64 are
    integers; the codec states where their width matters. *)
From Stdlib Require Import ZArith QArith Lia Bool String.
From stdpp Require Import base list strings gmap.
From S2P Require Import Prelude GoStrings GoTime.
#[local] Open Scope Z_scope.

(** ** Dynamic values

    A value of type [any], by its dynamic type; [VOther] stands for the types
    no code looks into. *)
Inductive value : Type :=
  | VNil
  | VString (s : string)
  | VInt (z : Z)
  | VInt64 (z : Z)
  | VUint (z : Z)
  | VUint64 (z : Z)
  | VFloat64 (q : Q)
  | VBool (b : bool)
  | VInt64s (l : list Z)
  | VUint64s (l : list Z)
  | VInts (l : list Z)
  | VStrings (l : list string)
  | VAnys (l : list value)
  | VOther (type : string).

(** ** protocol_contract.go *)

Definition ActCapabilityQuestion : string := "capability_question".
Definition ActRuleQuestion : string := "rule_question".
Definition ActReadQuery : string := "read_query".
Definition ActWriteRequest : string := "write_request".
Definition ActWorkflowContinue : string := "workflow_continue".
Definition ActWorkflowCancel : string := "workflow_cancel".
Definition ActHelp : string := "help".
Definition ActUnknown : string := "unknown".

Definition DomainSystem : string := "system".
Definition DomainAttendance : string := "attendance".
Definition DomainSubscription : string := "subscription".
Definition DomainManualSign : string := "manual_sign".
Definition DomainSchedule : string := "schedule".
Definition DomainLeave : string := "leave".
Definition DomainAnalytics : string := "analytics".
Definition DomainUnknown : string := "unknown".

Definition ProtocolModeLegacy : string := "legacy".
Definition ProtocolModeShadow : string := "protocol_shadow".
Definition ProtocolModeLive : string := "protocol_live".
Definition protocolModes : list string := [ProtocolModeLegacy; ProtocolModeShadow; ProtocolModeLive].
Definition normalizeProtocolMode (value : string) : string :=
  if decide (value ∈ protocolModes) then value else ProtocolModeLegacy.

Definition ResponseAnswer : string := "answer".
Definition ResponseResult : string := "result".
Definition ResponseClarify : string := "clarify".
Definition ResponseSelectOptions : string := "select_options".
Definition ResponseRefuse : string := "refuse".
Definition ResponseConfirm : string := "confirm".
Definition responseKinds : list string :=
  [ResponseAnswer; ResponseResult; ResponseClarify; ResponseSelectOptions; ResponseRefuse;
   ResponseConfirm].

Record SlotDraft := mkSlotDraft { slot_Field : string; slot_Raw : string }.

(** [IntentDraft], also called [ProtocolDraft]; the confidence is a rational. *)
Record IntentDraft := mkIntentDraft {
  draft_Act : string;
  draft_Domain : string;
  draft_Operation : string;
  draft_Confidence : Q;
  draft_Slots : gmap string SlotDraft;
  draft_Reason : string;
  draft_Params : gmap string value;
  draft_MissingFields : list string;
  draft_ClarifyReason : string
}.
Definition ProtocolDraft : Type := IntentDraft.

Definition TrustedParamSourceRawSlot : string := "raw_slot".
Definition TrustedParamSourceDefault : string := "default".
Definition TrustedParamSourceRuntime : string := "runtime".
Definition TrustedParamSourceWorkflow : string := "workflow".
Definition TrustedParamSourceCandidate : string := "candidate".
Definition TrustedParamSourceDerived : string := "derived".

Record TrustedParamSource := mkSource { src_Kind : string; src_Raw : string; src_Resolver : string }.

Record TrustedParam := mkTrustedParam {
  tp_Field : string;
  tp_Value : value;
  tp_Source : TrustedParamSource;
  tp_TenantID : Z
}.

Record OperationRequest := mkOperationRequest {
  req_Operation : string;
  req_TenantID : Z;
  req_ActorUserID : Z;
  req_ConversationID : string;
  req_TrustedParams : gmap string TrustedParam;
  req_IdempotencyKey : string
}.

(** ** execution_gate.go: the trusted entities of a turn *)
Record trustedEntities := mkTrusted {
  te_TenantID : Z;
  te_DepartmentID : Z;
  te_DeptIDs : list Z;
  te_UserID : Z;
  te_UserName : string;
  te_Date : string;
  te_Section : Z;
  te_Week : Z;
  te_ConversationID : string;
  te_Scope : string;
  te_QueryShape : string;
  te_UserRole : Z;
  te_TrustedParams : gmap string TrustedParam
}.
Definition no_trusted : trustedEntities := mkTrusted 0 0 [] 0 "" "" 0 0 "" "" "" 0 ∅.

(** ** workflow_contract.go *)

Definition WorkflowSubscriptionStart : string := "subscription.start".
Definition WorkflowSubscriptionCancel : string := "subscription.cancel".
Definition WorkflowManualSignCreate : string := "manual_sign.create".

Definition WorkflowCollectScope : string := "collect_scope".
Definition WorkflowCollectDepartments : string := "collect_departments".
Definition WorkflowCollectUser : string := "collect_user".
Definition WorkflowCollectDate : string := "collect_date".
Definition WorkflowCollectSection : string := "collect_section".
Definition WorkflowReady : string := "ready".
Definition WorkflowCompleted : string := "completed".
Definition WorkflowCancelled : string := "cancelled".
Definition WorkflowInterruptedState : string := "interrupted".

Inductive WorkflowDecision : Type :=
  | WorkflowContinueDecision
  | WorkflowReadyToExecute
  | WorkflowSuspendForNewRequest
  | WorkflowRejectInvalidShape
  | WorkflowMetaResult
  | WorkflowCompletedDecision
  | WorkflowCanceled
  | WorkflowInterrupted
  | WorkflowStartNew
  | WorkflowSingleTurn.

Record TrustedEntity := mkTrustedEntity {
  ent_ID : string; ent_Type : string; ent_Label : string; ent_Value : value; ent_TenantID : Z }.

Record Candidate := mkCandidate {
  cand_ID : string; cand_Label : string; cand_Value : value; cand_TenantID : Z }.

Record WorkflowSnapshot := mkSnapshot {
  wf_ID : string;
  wf_TenantID : Z;
  wf_ActorUserID : Z;
  wf_ConversationID : string;
  wf_Type : string;
  wf_State : string;
  wf_MissingFields : list string;
  wf_TrustedEntities : gmap string TrustedEntity;
  wf_Candidates : gmap string (list Candidate);
  wf_LastUserMessage : string;
  wf_CreatedAt : Z;
  wf_UpdatedAt : Z;
  wf_ExpiresAt : Z;
  wf_Version : Z;
  wf_MissingSlots : list string;
  wf_Trusted : trustedEntities
}.

Record WorkflowResult := mkWorkflowResult {
  wr_Decision : WorkflowDecision;
  wr_Workflow : option WorkflowSnapshot
}.

(** Field updates. *)
Definition with_missing (mf ms : list string) (w : WorkflowSnapshot) : WorkflowSnapshot :=
  mkSnapshot (wf_ID w) (wf_TenantID w) (wf_ActorUserID w) (wf_ConversationID w) (wf_Type w)
    (wf_State w) mf (wf_TrustedEntities w) (wf_Candidates w) (wf_LastUserMessage w)
    (wf_CreatedAt w) (wf_UpdatedAt w) (wf_ExpiresAt w) (wf_Version w) ms (wf_Trusted w).
Definition with_state (st : string) (w : WorkflowSnapshot) : WorkflowSnapshot :=
  mkSnapshot (wf_ID w) (wf_TenantID w) (wf_ActorUserID w) (wf_ConversationID w) (wf_Type w)
    st (wf_MissingFields w) (wf_TrustedEntities w) (wf_Candidates w) (wf_LastUserMessage w)
    (wf_CreatedAt w) (wf_UpdatedAt w) (wf_ExpiresAt w) (wf_Version w) (wf_MissingSlots w)
    (wf_Trusted w).
Definition with_trusted (t : trustedEntities) (w : WorkflowSnapshot) : WorkflowSnapshot :=
  mkSnapshot (wf_ID w) (wf_TenantID w) (wf_ActorUserID w) (wf_ConversationID w) (wf_Type w)
    (wf_State w) (wf_MissingFields w) (wf_TrustedEntities w) (wf_Candidates w)
    (wf_LastUserMessage w) (wf_CreatedAt w) (wf_UpdatedAt w) (wf_ExpiresAt w) (wf_Version w)
    (wf_MissingSlots w) t.
Definition with_version (v : Z) (w : WorkflowSnapshot) : WorkflowSnapshot :=
  mkSnapshot (wf_ID w) (wf_TenantID w) (wf_ActorUserID w) (wf_ConversationID w) (wf_Type w)
    (wf_State w) (wf_MissingFields w) (wf_TrustedEntities w) (wf_Candidates w)
    (wf_LastUserMessage w) (wf_CreatedAt w) (wf_UpdatedAt w) (wf_ExpiresAt w) v
    (wf_MissingSlots w) (wf_Trusted w).

(** Copies of slices and maps are the same value; what cloning changes is
    written out below. *)
Definition cloneStringSlice (values : list string) : list string := values.
Definition cloneTrustedEntities (m : gmap string TrustedEntity) : gmap string TrustedEntity := m.

(** Fields without candidates are dropped. *)
Definition cloneWorkflowCandidates (m : gmap string (list Candidate)) : gmap string (list Candidate) :=
  filter (fun p : string * list Candidate => p.2 <> []) m.

Definition workflowMissingFields (w : WorkflowSnapshot) : list string :=
  match wf_MissingFields w with [] => wf_MissingSlots w | l => l end.

Definition setWorkflowMissingFields (fields : list string) (w : WorkflowSnapshot) : WorkflowSnapshot :=
  with_missing fields fields w.

Definition with_candidates (c : gmap string (list Candidate)) (w : WorkflowSnapshot)
  : WorkflowSnapshot :=
  mkSnapshot (wf_ID w) (wf_TenantID w) (wf_ActorUserID w) (wf_ConversationID w) (wf_Type w)
    (wf_State w) (wf_MissingFields w) (wf_TrustedEntities w) c
    (wf_LastUserMessage w) (wf_CreatedAt w) (wf_UpdatedAt w) (wf_ExpiresAt w) (wf_Version w)
    (wf_MissingSlots w) (wf_Trusted w).

(** [cloneWorkflowSnapshot] on a non-nil snapshot. *)
Definition cloneWorkflowSnapshot (w : WorkflowSnapshot) : WorkflowSnapshot :=
  let mf := workflowMissingFields w in
  let ms := match wf_MissingSlots w with [] => mf | l => l end in
  with_candidates (cloneWorkflowCandidates (wf_Candidates w)) (with_missing mf ms w).

(** ** Lemmas *)

Lemma normalizeProtocolMode_allowed value : normalizeProtocolMode value ∈ protocolModes.
Proof. unfold normalizeProtocolMode. case_decide; [done|]. unfold protocolModes. set_solver. Qed.

Lemma workflowMissingFields_clone w :
  workflowMissingFields (cloneWorkflowSnapshot w) = workflowMissingFields w.
Proof.
  unfold cloneWorkflowSnapshot, workflowMissingFields. cbn.
  by destruct (wf_MissingFields w), (wf_MissingSlots w).
Qed.

Lemma cloneWorkflowCandidates_idem m :
  cloneWorkflowCandidates (cloneWorkflowCandidates m) = cloneWorkflowCandidates m.
Proof. unfold cloneWorkflowCandidates. rewrite map_filter_filter. apply map_filter_ext. naive_solver. Qed.

(** Cloning a clone changes nothing more. *)
Lemma cloneWorkflowSnapshot_idem w :
  cloneWorkflowSnapshot (cloneWorkflowSnapshot w) = cloneWorkflowSnapshot w.
Proof.
  unfold cloneWorkflowSnapshot at 1. rewrite workflowMissingFields_clone.
  unfold cloneWorkflowSnapshot, workflowMissingFields, with_candidates, with_missing. cbn.
  rewrite cloneWorkflowCandidates_idem.
  by destruct (wf_MissingFields w), (wf_MissingSlots w).
Qed.
