(* ===== verification/Codec.v ===== *)
(** * Workflow persistence codec (internal/agent/workflow_snapshot_codec.go)

    The V1 schema under which reservations, results and workflow snapshots are
    stored: validation, the data transfer objects, their JSON and the way back.
    A [json.RawMessage] is kept as the document it holds ([None] when absent).
    The execution records of workflow_store.go are declared here, since both
    the codec and the stores work on them. *)
From Stdlib Require Import ZArith Lia Bool String.
From stdpp Require Import base list strings gmap sorting.
From S2P Require Import Prelude GoStrings GoTime Json Sha256 Contract.
#[local] Open Scope go_scope.

(** ** Limits *)
Definition workflowSnapshotSchemaVersion : Z := 1.
Definition workflowSnapshotMaxBytes : Z := 64 * 1024.
Definition executionSchemaVersion : Z := 1.
Definition workflowSnapshotMaxCandidateFields : Z := 16.
Definition workflowSnapshotMaxCandidatesPerField : Z := 50.
Definition workflowSnapshotMaxCandidatesTotal : Z := 200.
Definition workflowSnapshotMaxTrustedEntities : Z := 32.
Definition workflowSnapshotMaxTrustedParams : Z := 32.
Definition workflowSnapshotMaxInt64SliceItems : Z := 256.
Definition workflowSnapshotMaxKeyRunes : Z := 64.
Definition workflowSnapshotMaxIDRunes : Z := 128.
Definition workflowSnapshotMaxWorkflowIDRunes : Z := 64.
Definition workflowSnapshotMaxLabelRunes : Z := 256.
Definition workflowSnapshotMaxTypedStringRunes : Z := 4096.
Definition workflowSnapshotMaxConversationRunes : Z := 128.
Definition executionMaxTrustedParams : Z := 6.
Definition executionMaxProjectionRunes : Z := 64.

(** [len] of a map *)
Definition map_len {A} (m : gmap string A) : Z := Z.of_nat (size m).

Definition runeLengthWithin (value : string) (limit : Z) : bool :=
  valid_string value && (rune_count value <=? limit).
Definition blank (s : string) : bool := bool_decide (trim_space s = "").
Definition trimmed (s : string) : bool := bool_decide (s = trim_space s).

(** ** Execution records (workflow_store.go) *)

Definition WorkflowExecutionExecuting : string := "executing".
Definition WorkflowExecutionResultRecorded : string := "result_recorded".
Definition WorkflowExecutionRecoveryRequired : string := "recovery_required".

Definition WriteEffectCreated : string := "created".
Definition WriteEffectUpdated : string := "updated".
Definition WriteEffectNoOp : string := "no_op".
Definition WriteEffectCancelled : string := "cancelled".
Definition writeEffects : list string :=
  [WriteEffectCreated; WriteEffectUpdated; WriteEffectNoOp; WriteEffectCancelled].

Record ReservedExecutionV1 := mkReserved {
  re_Operation : string;
  re_BusinessKey : string;
  re_TrustedParams : gmap string value;
  re_ExecutionToken : string;
  re_AttemptRequestID : string;
  re_StartedAt : Z;
  re_LeaseExpiresAt : Z
}.

Record PersistedExecutionResultV1 := mkResult {
  er_BusinessKey : string;
  er_WriteEffect : string;
  er_CompletedAt : Z
}.

Record PersistedExecutionV1 := mkExecution {
  ex_Status : string;
  ex_Reservation : ReservedExecutionV1;
  ex_Result : option PersistedExecutionResultV1
}.

(** [validateReservedExecution] *)
Definition validateReservedParam (field : string) (v : value) : res unit :=
  guard (negb (blank field)) (EMsg "execution trusted parameter name is required") ;;;
  match v with
  | VString _ | VInt _ | VInt64 _ | VUint _ | VInt64s _ | VBool _ => Ok tt
  | _ => Err (EFmt "unsupported execution trusted parameter type for %q" [field])
  end.

Definition validateReservedExecution (r : ReservedExecutionV1) : res unit :=
  guard (negb (blank (re_Operation r))) (EMsg "execution operation is required") ;;;
  guard (negb (blank (re_BusinessKey r))) (EMsg "execution business key is required") ;;;
  guard (negb (blank (re_ExecutionToken r))) (EMsg "execution token is required") ;;;
  guard (negb (blank (re_AttemptRequestID r))) (EMsg "execution request id is required") ;;;
  guard (negb (is_zero (re_StartedAt r))) (EMsg "execution start time is required") ;;;
  guard (negb (is_zero (re_LeaseExpiresAt r))) (EMsg "execution lease expiry is required") ;;;
  guard (after (re_LeaseExpiresAt r) (re_StartedAt r))
    (EMsg "execution lease expiry must be after start time") ;;;
  guard (runeLengthWithin (trim_space (re_Operation r)) executionMaxProjectionRunes
         && runeLengthWithin (trim_space (re_BusinessKey r)) executionMaxProjectionRunes
         && runeLengthWithin (trim_space (re_ExecutionToken r)) executionMaxProjectionRunes
         && runeLengthWithin (trim_space (re_AttemptRequestID r)) executionMaxProjectionRunes)
    (EMsg "execution identifier exceeds persistence limit") ;;;
  map_checkM validateReservedParam (re_TrustedParams r).

Definition validatePersistedExecutionResult (r : PersistedExecutionResultV1) : res unit :=
  guard (negb (blank (er_BusinessKey r))) (EMsg "execution result business key is required") ;;;
  guard (runeLengthWithin (trim_space (er_BusinessKey r)) executionMaxProjectionRunes)
    (EMsg "execution result business key exceeds persistence limit") ;;;
  guard (bool_decide (er_WriteEffect r ∈ writeEffects))
    (EFmt "unsupported write effect %q" [er_WriteEffect r]) ;;;
  guard (negb (is_zero (er_CompletedAt r))) (EMsg "execution result completion time is required").

(** ** Typed values *)

Record persistedTypedValueV1 := mkTyped { pv_Kind : string; pv_Value : option json }.
Definition zero_typed : persistedTypedValueV1 := mkTyped "" None.

Definition encodePersistedTypedValue (v : value) : res persistedTypedValueV1 :=
  match v with
  | VString s =>
      if runeLengthWithin s workflowSnapshotMaxTypedStringRunes
      then Ok (mkTyped "string" (Some (JStr s)))
      else Err (EMsg "string value exceeds limit")
  | VInt z => Ok (mkTyped "int" (Some (json_int z)))
  | VInt64 z => Ok (mkTyped "int64" (Some (json_int z)))
  | VUint z => Ok (mkTyped "uint" (Some (json_int z)))
  | VInt64s l =>
      if workflowSnapshotMaxInt64SliceItems <? len l then Err (EMsg "int64 slice exceeds limit")
      else Ok (mkTyped "int64_slice" (Some (JArr (List.map json_int l))))
  | VBool b => Ok (mkTyped "bool" (Some (JBool b)))
  | _ => Err (EMsg "unsupported persisted value type")
  end.

(** int is 64 bits wide, so the 32-bit overflow tests of the source are off. *)
Definition decodePersistedTypedValue (v : persistedTypedValueV1) : res value :=
  match pv_Value v with
  | None | Some JNull => Err (EMsg "typed value is empty or null")
  | Some j =>
      if bool_decide (pv_Kind v = "string") then
        s <- dec_string j "" ;;
        if runeLengthWithin s workflowSnapshotMaxTypedStringRunes then Ok (VString s)
        else Err (EMsg "string value exceeds limit")
      else if bool_decide (pv_Kind v = "int") then z <- dec_int64 j 0 ;; Ok (VInt z)
      else if bool_decide (pv_Kind v = "int64") then z <- dec_int64 j 0 ;; Ok (VInt64 z)
      else if bool_decide (pv_Kind v = "uint") then z <- dec_uint64 j 0 ;; Ok (VUint z)
      else if bool_decide (pv_Kind v = "int64_slice") then
        l <- dec_list dec_int64 0 j [] ;;
        if workflowSnapshotMaxInt64SliceItems <? len l then Err (EMsg "int64 slice exceeds limit")
        else Ok (VInt64s l)
      else if bool_decide (pv_Kind v = "bool") then b <- dec_bool j false ;; Ok (VBool b)
      else Err (EFmt "unsupported persisted value kind %q" [pv_Kind v])
  end.

Definition json_of_typed (v : persistedTypedValueV1) : json :=
  obj [(false, "kind", JStr (pv_Kind v)); (false, "value", default JNull (pv_Value v))].
Definition typed_names : list string := ["kind"; "value"].
Definition dec_typed : decoder persistedTypedValueV1 :=
  dec_struct typed_names (fun ms cur =>
    k <- dec_field typed_names "kind" dec_string ms (pv_Kind cur) ;;
    v <- dec_field typed_names "value" dec_raw ms (pv_Value cur) ;;
    Ok (mkTyped k v)).

(** ** Times, identifiers *)

Definition formatWorkflowTime (t : Z) : string := if is_zero t then "" else format_rfc3339nano t.

Definition parseWorkflowTime (field v : string) (allowEmpty : bool) : res Z :=
  if blank v then
    if allowEmpty then Ok 0 else Err (EFmt "workflow snapshot %s is required" [field])
  else match parse_rfc3339nano v with
       | Some t => Ok t
       | None => Err (EFmt "invalid workflow snapshot %s" [field; v])
       end.

Definition parseExecutionTime (field v : string) : res Z :=
  if blank v then Err (EFmt "reserved execution %s is required" [field])
  else match parse_rfc3339nano v with
       | Some t => Ok t
       | None => Err (EFmt "invalid reserved execution %s" [field; v])
       end.

Definition normalizeWorkflowDatabaseTime (t : Z) : Z := truncate_ms t.

Definition sortedUniqueInt64s (l : list Z) : list Z := dedup_adjacent (sort_Z l).

Definition validateWorkflowMapKey (k : string) : res unit :=
  guard (negb (blank k) && runeLengthWithin k workflowSnapshotMaxKeyRunes)
    (EMsg "map key is empty or too long").

(** ** Reservations *)

Record persistedReservedExecutionV1 := mkReservedDTO {
  pr_SchemaVersion : Z;
  pr_Operation : string;
  pr_BusinessKey : string;
  pr_TrustedParams : gmap string persistedTypedValueV1;
  pr_ExecutionToken : string;
  pr_AttemptRequestID : string;
  pr_StartedAt : string;
  pr_LeaseExpiresAt : string
}.

Definition operationParamActorRole : string := "actor_role".
Definition operationParamConversationType : string := "conversation_type".
Definition operationParamConversationTitle : string := "conversation_title".

Definition normalizeExecutionTrustedParam (key : string) (v : value) : res value :=
  if bool_decide (key = "conversation_id") then
    match v with
    | VString s =>
        if negb (bool_decide (s = "")) && trimmed s
           && runeLengthWithin s workflowSnapshotMaxConversationRunes
        then Ok (VString s) else Err (EMsg "reserved execution conversation_id is invalid")
    | _ => Err (EMsg "reserved execution conversation_id is invalid")
    end
  else if bool_decide (key = "scope") then
    match v with
    | VString s => if bool_decide (s = "all") || bool_decide (s = "department")
                   then Ok (VString s) else Err (EMsg "reserved execution scope is invalid")
    | _ => Err (EMsg "reserved execution scope is invalid")
    end
  else if bool_decide (key = "dept_ids") then
    match v with
    | VInt64s l =>
        if workflowSnapshotMaxInt64SliceItems <? len l
        then Err (EMsg "reserved execution dept_ids is invalid")
        else if forallb (fun d => 0 <? d) l then Ok (VInt64s (sortedUniqueInt64s l))
        else Err (EMsg "reserved execution dept_ids contains invalid id")
    | _ => Err (EMsg "reserved execution dept_ids is invalid")
    end
  else if bool_decide (key = operationParamActorRole) then
    match v with
    | VInt z => if 0 <=? z then Ok (VInt z) else Err (EMsg "reserved execution actor_role is invalid")
    | _ => Err (EMsg "reserved execution actor_role is invalid")
    end
  else if bool_decide (key = operationParamConversationType) then
    match v with
    | VString s => if bool_decide (s = "2") then Ok (VString s)
                   else Err (EMsg "reserved execution conversation_type is invalid")
    | _ => Err (EMsg "reserved execution conversation_type is invalid")
    end
  else if bool_decide (key = operationParamConversationTitle) then
    match v with
    | VString s => if runeLengthWithin s workflowSnapshotMaxLabelRunes then Ok (VString s)
                   else Err (EMsg "reserved execution conversation_title is invalid")
    | _ => Err (EMsg "reserved execution conversation_title is invalid")
    end
  else Err (EFmt "reserved execution trusted param %q is not allowlisted" [key]).

Definition reservedParamToV1 (key : string) (v : value) : res persistedTypedValueV1 :=
  n <- normalizeExecutionTrustedParam key v ;;
  wrap_err "reserved execution param %q: %w" (encodePersistedTypedValue n).

Definition reservedExecutionToV1 (r : ReservedExecutionV1) : res persistedReservedExecutionV1 :=
  validateReservedExecution r ;;;
  guard (trimmed (re_Operation r) && trimmed (re_BusinessKey r) && trimmed (re_ExecutionToken r)
         && trimmed (re_AttemptRequestID r))
    (EMsg "reserved execution identifiers must be normalized") ;;;
  guard (bool_decide (re_Operation r = "subscription.start")
         || bool_decide (re_Operation r = "subscription.cancel"))
    (EFmt "unsupported reserved execution operation %q" [re_Operation r]) ;;;
  guard (runeLengthWithin (re_Operation r) executionMaxProjectionRunes
         && runeLengthWithin (re_BusinessKey r) executionMaxProjectionRunes
         && runeLengthWithin (re_ExecutionToken r) executionMaxProjectionRunes
         && runeLengthWithin (re_AttemptRequestID r) executionMaxProjectionRunes)
    (EMsg "reserved execution identifier exceeds limit") ;;;
  guard (map_len (re_TrustedParams r) <=? executionMaxTrustedParams)
    (EMsg "reserved execution trusted params exceed limit") ;;;
  params <- map_mapM reservedParamToV1 (re_TrustedParams r) ;;
  Ok (mkReservedDTO executionSchemaVersion (re_Operation r) (re_BusinessKey r) params
        (re_ExecutionToken r) (re_AttemptRequestID r)
        (formatWorkflowTime (normalizeWorkflowDatabaseTime (re_StartedAt r)))
        (formatWorkflowTime (normalizeWorkflowDatabaseTime (re_LeaseExpiresAt r)))).

Definition reservedParamFromV1 (key : string) (e : persistedTypedValueV1) : res value :=
  v <- wrap_err "reserved execution param %q: %w" (decodePersistedTypedValue e) ;;
  normalizeExecutionTrustedParam key v.

Definition reservedExecutionFromV1 (d : persistedReservedExecutionV1) : res ReservedExecutionV1 :=
  startedAt <- parseExecutionTime "started_at" (pr_StartedAt d) ;;
  leaseExpiresAt <- parseExecutionTime "lease_expires_at" (pr_LeaseExpiresAt d) ;;
  params <- map_mapM reservedParamFromV1 (pr_TrustedParams d) ;;
  let r := mkReserved (pr_Operation d) (pr_BusinessKey d) params (pr_ExecutionToken d)
             (pr_AttemptRequestID d) startedAt leaseExpiresAt in
  reservedExecutionToV1 r ;;; Ok r.

Definition json_of_typed_map (m : gmap string persistedTypedValueV1) : json :=
  JObj (List.map (fun p => (p.1, json_of_typed p.2)) (sorted_entries m)).

Definition json_of_reserved (d : persistedReservedExecutionV1) : json :=
  obj [(false, "schema_version", json_int (pr_SchemaVersion d));
       (false, "operation", JStr (pr_Operation d));
       (false, "business_key", JStr (pr_BusinessKey d));
       (bool_decide (size (pr_TrustedParams d) = 0%nat), "trusted_params",
          json_of_typed_map (pr_TrustedParams d));
       (false, "execution_token", JStr (pr_ExecutionToken d));
       (false, "attempt_request_id", JStr (pr_AttemptRequestID d));
       (false, "started_at", JStr (pr_StartedAt d));
       (false, "lease_expires_at", JStr (pr_LeaseExpiresAt d))].

Definition reserved_names : list string :=
  ["schema_version"; "operation"; "business_key"; "trusted_params"; "execution_token";
   "attempt_request_id"; "started_at"; "lease_expires_at"].
Definition zero_reserved : persistedReservedExecutionV1 := mkReservedDTO 0 "" "" ∅ "" "" "" "".
Definition dec_reserved : decoder persistedReservedExecutionV1 :=
  dec_struct reserved_names (fun ms cur =>
    let fld {A} n (d : decoder A) c := dec_field reserved_names n d ms c in
    sv <- fld "schema_version" dec_int64 (pr_SchemaVersion cur) ;;
    op <- fld "operation" dec_string (pr_Operation cur) ;;
    bk <- fld "business_key" dec_string (pr_BusinessKey cur) ;;
    ps <- fld "trusted_params" (dec_map dec_typed zero_typed) (pr_TrustedParams cur) ;;
    tok <- fld "execution_token" dec_string (pr_ExecutionToken cur) ;;
    rid <- fld "attempt_request_id" dec_string (pr_AttemptRequestID cur) ;;
    st <- fld "started_at" dec_string (pr_StartedAt cur) ;;
    le <- fld "lease_expires_at" dec_string (pr_LeaseExpiresAt cur) ;;
    Ok (mkReservedDTO sv op bk ps tok rid st le)).

Definition MarshalReservedExecution (r : ReservedExecutionV1) : res string :=
  d <- reservedExecutionToV1 r ;;
  let payload := marshal (json_of_reserved d) in
  if workflowSnapshotMaxBytes <? str_len payload
  then Err (EFmt "reserved execution exceeds %d bytes" []) else Ok payload.

Definition UnmarshalReservedExecution (payload : string) : res ReservedExecutionV1 :=
  if str_len payload =? 0 then Err (EMsg "reserved execution payload is empty")
  else if workflowSnapshotMaxBytes <? str_len payload
  then Err (EFmt "reserved execution exceeds %d bytes" [])
  else
    match decode_strict dec_reserved zero_reserved payload with
    | Err e => Err (EWrap "decode reserved execution v1: %w" e)
    | Ok d =>
        if pr_SchemaVersion d =? executionSchemaVersion then reservedExecutionFromV1 d
        else Err (EFmt "unsupported reserved execution schema version %d" [itoa (pr_SchemaVersion d)])
    end.

(** workflow_store.go: [canonicalReservedExecution] *)
Definition canonicalReservedExecution (r : ReservedExecutionV1) : res ReservedExecutionV1 :=
  payload <- MarshalReservedExecution r ;; UnmarshalReservedExecution payload.

(** ** Results *)

Record persistedExecutionResultV1 := mkResultDTO {
  px_SchemaVersion : Z;
  px_BusinessKey : string;
  px_WriteEffect : string;
  px_CompletedAt : string
}.

Definition persistedExecutionResultToV1 (r : PersistedExecutionResultV1)
  : res persistedExecutionResultV1 :=
  validatePersistedExecutionResult r ;;;
  guard (trimmed (er_BusinessKey r) && runeLengthWithin (er_BusinessKey r) executionMaxProjectionRunes)
    (EMsg "persisted execution result business_key is invalid") ;;;
  Ok (mkResultDTO executionSchemaVersion (er_BusinessKey r) (er_WriteEffect r)
        (formatWorkflowTime (er_CompletedAt r))).

Definition persistedExecutionResultFromV1 (d : persistedExecutionResultV1)
  : res PersistedExecutionResultV1 :=
  completedAt <- parseExecutionTime "completed_at" (px_CompletedAt d) ;;
  let r := mkResult (px_BusinessKey d) (px_WriteEffect d) completedAt in
  persistedExecutionResultToV1 r ;;; Ok r.

Definition json_of_result (d : persistedExecutionResultV1) : json :=
  obj [(false, "schema_version", json_int (px_SchemaVersion d));
       (false, "business_key", JStr (px_BusinessKey d));
       (false, "write_effect", JStr (px_WriteEffect d));
       (false, "completed_at", JStr (px_CompletedAt d))].
Definition result_names : list string :=
  ["schema_version"; "business_key"; "write_effect"; "completed_at"].
Definition zero_result : persistedExecutionResultV1 := mkResultDTO 0 "" "" "".
Definition dec_result : decoder persistedExecutionResultV1 :=
  dec_struct result_names (fun ms cur =>
    let fld {A} n (d : decoder A) c := dec_field result_names n d ms c in
    sv <- fld "schema_version" dec_int64 (px_SchemaVersion cur) ;;
    bk <- fld "business_key" dec_string (px_BusinessKey cur) ;;
    we <- fld "write_effect" dec_string (px_WriteEffect cur) ;;
    ca <- fld "completed_at" dec_string (px_CompletedAt cur) ;;
    Ok (mkResultDTO sv bk we ca)).

Definition MarshalPersistedExecutionResult (r : PersistedExecutionResultV1) : res string :=
  d <- persistedExecutionResultToV1 r ;;
  let payload := marshal (json_of_result d) in
  if workflowSnapshotMaxBytes <? str_len payload
  then Err (EFmt "persisted execution result exceeds %d bytes" []) else Ok payload.

Definition UnmarshalPersistedExecutionResult (payload : string) : res PersistedExecutionResultV1 :=
  if str_len payload =? 0 then Err (EMsg "persisted execution result payload is empty")
  else if workflowSnapshotMaxBytes <? str_len payload
  then Err (EFmt "persisted execution result exceeds %d bytes" [])
  else
    match decode_strict dec_result zero_result payload with
    | Err e => Err (EWrap "decode persisted execution result v1: %w" e)
    | Ok d =>
        if px_SchemaVersion d =? executionSchemaVersion then persistedExecutionResultFromV1 d
        else Err (EFmt "unsupported persisted execution result schema version %d"
                    [itoa (px_SchemaVersion d)])
    end.

(** ** Snapshots *)

Record persistedParamSourceV1 := mkSourceDTO { ps_Kind : string; ps_Resolver : string }.
Record persistedTrustedParamV1 := mkParamDTO {
  pp_Field : string; pp_Value : persistedTypedValueV1; pp_Source : persistedParamSourceV1;
  pp_TenantID : Z }.
Record persistedTrustedEntityV1 := mkEntityDTO {
  pe_ID : string; pe_Type : string; pe_Label : string; pe_Value : persistedTypedValueV1;
  pe_TenantID : Z }.
Record persistedCandidateV1 := mkCandidateDTO {
  pc_ID : string; pc_Label : string; pc_Value : persistedTypedValueV1; pc_TenantID : Z }.
Record persistedTrustedStateV1 := mkTrustedDTO {
  pt_TenantID : Z; pt_DepartmentID : Z; pt_DeptIDs : list Z; pt_UserID : Z; pt_UserName : string;
  pt_Date : string; pt_Section : Z; pt_Week : Z; pt_ConversationID : string; pt_Scope : string;
  pt_QueryShape : string; pt_UserRole : Z; pt_TrustedParams : gmap string persistedTrustedParamV1 }.
Record persistedWorkflowSnapshotV1 := mkSnapshotDTO {
  pw_SchemaVersion : Z; pw_ID : string; pw_TenantID : Z; pw_ActorUserID : Z;
  pw_ConversationID : string; pw_Type : string; pw_State : string; pw_MissingFields : list string;
  pw_Trusted : persistedTrustedStateV1; pw_TrustedEntities : gmap string persistedTrustedEntityV1;
  pw_Candidates : gmap string (list persistedCandidateV1); pw_CreatedAt : string;
  pw_UpdatedAt : string; pw_ExpiresAt : string; pw_Version : Z }.

Definition trustedParamSourceKinds : list string :=
  [TrustedParamSourceRawSlot; TrustedParamSourceDefault; TrustedParamSourceRuntime;
   TrustedParamSourceWorkflow; TrustedParamSourceCandidate; TrustedParamSourceDerived].
Definition knownTrustedParamSourceKind (kind : string) : bool :=
  bool_decide (kind ∈ trustedParamSourceKinds).

Definition workflowTypes : list string :=
  [WorkflowSubscriptionStart; WorkflowSubscriptionCancel; WorkflowManualSignCreate].
Definition workflowStates : list string :=
  [WorkflowCollectScope; WorkflowCollectDepartments; WorkflowCollectUser; WorkflowCollectDate;
   WorkflowCollectSection; WorkflowReady; WorkflowCompleted; WorkflowCancelled;
   WorkflowInterruptedState].

(** [validateWorkflowSnapshotAuthority]: what a snapshot trusts belongs to its
    own tenant and conversation. *)
Definition validateWorkflowSnapshotAuthority (w : WorkflowSnapshot) : res unit :=
  let t := wf_Trusted w in
  guard ((te_TenantID t =? 0) || (te_TenantID t =? wf_TenantID w))
    (EMsg "workflow trusted tenant_id does not match snapshot") ;;;
  guard (bool_decide (te_ConversationID t = "")
         || bool_decide (te_ConversationID t = wf_ConversationID w))
    (EMsg "workflow trusted conversation_id does not match snapshot") ;;;
  map_checkM (fun field p =>
    guard (tp_TenantID p =? wf_TenantID w)
      (EFmt "trusted param %q tenant_id does not match snapshot" [field]) ;;;
    guard (knownTrustedParamSourceKind (src_Kind (tp_Source p)))
      (EFmt "trusted param %q has unsupported source kind %q" [field; src_Kind (tp_Source p)]))
    (te_TrustedParams t) ;;;
  map_checkM (fun field e =>
    guard (ent_TenantID e =? wf_TenantID w)
      (EFmt "trusted entity %q tenant_id does not match snapshot" [field])) (wf_TrustedEntities w) ;;;
  map_checkM (fun field cs =>
    list_checkM (fun c =>
      guard ((cand_TenantID c =? 0) || (cand_TenantID c =? wf_TenantID w))
        (EFmt "candidate %q tenant_id does not match snapshot" [field])) cs) (wf_Candidates w).

Definition validateWorkflowSnapshotIdentity (w : WorkflowSnapshot) : res unit :=
  guard (negb (blank (wf_ID w)) && runeLengthWithin (wf_ID w) workflowSnapshotMaxWorkflowIDRunes)
    (EMsg "workflow snapshot id is missing or too long") ;;;
  guard (negb (wf_TenantID w =? 0) && negb (wf_ActorUserID w =? 0))
    (EMsg "workflow snapshot tenant_id and actor_user_id are required") ;;;
  guard (negb (blank (wf_ConversationID w))
         && runeLengthWithin (wf_ConversationID w) workflowSnapshotMaxConversationRunes)
    (EMsg "workflow snapshot conversation_id is missing or too long") ;;;
  guard (bool_decide (wf_Type w ∈ workflowTypes)) (EFmt "unsupported workflow type %q" [wf_Type w]) ;;;
  guard (bool_decide (wf_State w ∈ workflowStates))
    (EFmt "unsupported workflow state %q" [wf_State w]) ;;;
  guard (negb (is_zero (wf_ExpiresAt w))) (EMsg "workflow snapshot expires_at is required") ;;;
  list_checkM (fun f => guard (negb (blank f) && runeLengthWithin f workflowSnapshotMaxKeyRunes)
                 (EMsg "workflow snapshot has invalid missing field")) (workflowMissingFields w) ;;;
  validateWorkflowSnapshotAuthority w.

Definition trustedParamToV1 (key : string) (p : TrustedParam) : res persistedTrustedParamV1 :=
  wrap_err "trusted param key: %w" (validateWorkflowMapKey key) ;;;
  v <- wrap_err "trusted param %q: %w" (encodePersistedTypedValue (tp_Value p)) ;;
  let field := if blank (tp_Field p) then key else trim_space (tp_Field p) in
  guard (bool_decide (field = key)) (EFmt "trusted param %q field mismatch %q" [key; field]) ;;;
  guard (runeLengthWithin (src_Resolver (tp_Source p)) workflowSnapshotMaxIDRunes)
    (EFmt "trusted param %q resolver too long" [key]) ;;;
  Ok (mkParamDTO field v (mkSourceDTO (src_Kind (tp_Source p)) (src_Resolver (tp_Source p)))
        (tp_TenantID p)).

Definition trustedStateToV1 (t : trustedEntities) : res persistedTrustedStateV1 :=
  guard (len (te_DeptIDs t) <=? workflowSnapshotMaxInt64SliceItems)
    (EMsg "workflow trusted dept_ids exceed limit") ;;;
  guard (map_len (te_TrustedParams t) <=? workflowSnapshotMaxTrustedParams)
    (EMsg "workflow trusted params exceed limit") ;;;
  params <- map_mapM trustedParamToV1 (te_TrustedParams t) ;;
  guard (runeLengthWithin (te_UserName t) workflowSnapshotMaxLabelRunes
         && runeLengthWithin (te_ConversationID t) workflowSnapshotMaxConversationRunes
         && runeLengthWithin (te_Date t) workflowSnapshotMaxIDRunes
         && runeLengthWithin (te_Scope t) workflowSnapshotMaxKeyRunes
         && runeLengthWithin (te_QueryShape t) workflowSnapshotMaxKeyRunes)
    (EMsg "workflow trusted string exceeds limit") ;;;
  Ok (mkTrustedDTO (te_TenantID t) (te_DepartmentID t) (te_DeptIDs t) (te_UserID t) (te_UserName t)
        (te_Date t) (te_Section t) (te_Week t) (te_ConversationID t) (te_Scope t) (te_QueryShape t)
        (te_UserRole t) params).

Definition trustedParamFromV1 (key : string) (p : persistedTrustedParamV1) : res TrustedParam :=
  wrap_err "trusted param key: %w" (validateWorkflowMapKey key) ;;;
  guard (bool_decide (pp_Field p = key)) (EFmt "trusted param %q field mismatch %q" [key; pp_Field p]) ;;;
  v <- wrap_err "trusted param %q: %w" (decodePersistedTypedValue (pp_Value p)) ;;
  Ok (mkTrustedParam key v (mkSource (ps_Kind (pp_Source p)) "" (ps_Resolver (pp_Source p)))
        (pp_TenantID p)).

Definition trustedStateFromV1 (d : persistedTrustedStateV1) : res trustedEntities :=
  guard ((len (pt_DeptIDs d) <=? workflowSnapshotMaxInt64SliceItems)
         && (map_len (pt_TrustedParams d) <=? workflowSnapshotMaxTrustedParams))
    (EMsg "workflow trusted state exceeds limit") ;;;
  params <- map_mapM trustedParamFromV1 (pt_TrustedParams d) ;;
  let t := mkTrusted (pt_TenantID d) (pt_DepartmentID d) (pt_DeptIDs d) (pt_UserID d) (pt_UserName d)
             (pt_Date d) (pt_Section d) (pt_Week d) (pt_ConversationID d) (pt_Scope d)
             (pt_QueryShape d) (pt_UserRole d) params in
  trustedStateToV1 t ;;; Ok t.

Definition trustedEntityToV1 (key : string) (e : TrustedEntity) : res persistedTrustedEntityV1 :=
  wrap_err "trusted entity key: %w" (validateWorkflowMapKey key) ;;;
  guard (runeLengthWithin (ent_ID e) workflowSnapshotMaxIDRunes
         && runeLengthWithin (ent_Type e) workflowSnapshotMaxKeyRunes
         && runeLengthWithin (ent_Label e) workflowSnapshotMaxLabelRunes)
    (EFmt "trusted entity %q text exceeds limit" [key]) ;;;
  v <- wrap_err "trusted entity %q: %w" (encodePersistedTypedValue (ent_Value e)) ;;
  Ok (mkEntityDTO (ent_ID e) (ent_Type e) (ent_Label e) v (ent_TenantID e)).

Definition trustedEntitiesToV1 (m : gmap string TrustedEntity)
  : res (gmap string persistedTrustedEntityV1) :=
  guard (map_len m <=? workflowSnapshotMaxTrustedEntities)
    (EMsg "workflow trusted entities exceed limit") ;;;
  map_mapM trustedEntityToV1 m.

Definition trustedEntityFromV1 (key : string) (e : persistedTrustedEntityV1) : res TrustedEntity :=
  wrap_err "trusted entity key: %w" (validateWorkflowMapKey key) ;;;
  v <- wrap_err "trusted entity %q: %w" (decodePersistedTypedValue (pe_Value e)) ;;
  Ok (mkTrustedEntity (pe_ID e) (pe_Type e) (pe_Label e) v (pe_TenantID e)).

Definition trustedEntitiesFromV1 (m : gmap string persistedTrustedEntityV1)
  : res (gmap string TrustedEntity) :=
  guard (map_len m <=? workflowSnapshotMaxTrustedEntities)
    (EMsg "workflow trusted entities exceed limit") ;;;
  r <- map_mapM trustedEntityFromV1 m ;;
  if bool_decide (r = ∅) then Ok ∅ else trustedEntitiesToV1 r ;;; Ok r.

Definition candidateToV1 (c : Candidate) : res persistedCandidateV1 :=
  guard (negb (blank (cand_Label c)) && runeLengthWithin (cand_Label c) workflowSnapshotMaxLabelRunes
         && runeLengthWithin (cand_ID c) workflowSnapshotMaxIDRunes)
    (EMsg "candidate has invalid id or label") ;;;
  v <- wrap_err "candidate %q[%d]: %w" (encodePersistedTypedValue (cand_Value c)) ;;
  Ok (mkCandidateDTO (cand_ID c) (cand_Label c) v (cand_TenantID c)).

(** The loop over the candidate fields carries the running total. *)
Definition candidates_loop {A B} (check : string -> res unit) (conv : A -> res B)
    (m : gmap string (list A)) : res (Z * gmap string (list B)) :=
  map_fold (fun field values acc =>
    res_bind acc (fun '(total, result) =>
      check field ;;;
      guard (len values <=? workflowSnapshotMaxCandidatesPerField)
        (EFmt "candidate field %q exceeds limit" [field]) ;;;
      let total' := total + len values in
      guard (total' <=? workflowSnapshotMaxCandidatesTotal)
        (EMsg "workflow candidates exceed total limit") ;;;
      l <- list_mapM conv values ;;
      Ok (total', match l with [] => result | _ => <[field := l]> result end)))
    (Ok (0, ∅)) m.

Definition candidatesToV1 (m : gmap string (list Candidate))
  : res (gmap string (list persistedCandidateV1)) :=
  guard (map_len m <=? workflowSnapshotMaxCandidateFields)
    (EMsg "workflow candidate fields exceed limit") ;;;
  r <- candidates_loop (fun k => wrap_err "candidate field: %w" (validateWorkflowMapKey k))
         candidateToV1 m ;;
  Ok (snd r).

Definition candidateFromV1 (c : persistedCandidateV1) : res Candidate :=
  v <- wrap_err "candidate %q[%d]: %w" (decodePersistedTypedValue (pc_Value c)) ;;
  Ok (mkCandidate (pc_ID c) (pc_Label c) v (pc_TenantID c)).

Definition candidatesFromV1 (m : gmap string (list persistedCandidateV1))
  : res (gmap string (list Candidate)) :=
  guard (map_len m <=? workflowSnapshotMaxCandidateFields)
    (EMsg "workflow candidate fields exceed limit") ;;;
  r <- candidates_loop (fun _ => Ok tt) candidateFromV1 m ;;
  if bool_decide (snd r = ∅) then Ok ∅ else candidatesToV1 (snd r) ;;; Ok (snd r).

Definition workflowSnapshotToV1 (w : WorkflowSnapshot) : res persistedWorkflowSnapshotV1 :=
  validateWorkflowSnapshotIdentity w ;;;
  trusted <- trustedStateToV1 (wf_Trusted w) ;;
  entities <- trustedEntitiesToV1 (wf_TrustedEntities w) ;;
  candidates <- candidatesToV1 (wf_Candidates w) ;;
  Ok (mkSnapshotDTO workflowSnapshotSchemaVersion (wf_ID w) (wf_TenantID w) (wf_ActorUserID w)
        (wf_ConversationID w) (wf_Type w) (wf_State w) (workflowMissingFields w) trusted entities
        candidates (formatWorkflowTime (wf_CreatedAt w)) (formatWorkflowTime (wf_UpdatedAt w))
        (formatWorkflowTime (wf_ExpiresAt w)) (wf_Version w)).

Definition workflowSnapshotFromV1 (d : persistedWorkflowSnapshotV1) : res WorkflowSnapshot :=
  createdAt <- parseWorkflowTime "created_at" (pw_CreatedAt d) true ;;
  updatedAt <- parseWorkflowTime "updated_at" (pw_UpdatedAt d) true ;;
  expiresAt <- parseWorkflowTime "expires_at" (pw_ExpiresAt d) false ;;
  trusted <- trustedStateFromV1 (pw_Trusted d) ;;
  entities <- trustedEntitiesFromV1 (pw_TrustedEntities d) ;;
  candidates <- candidatesFromV1 (pw_Candidates d) ;;
  let w := mkSnapshot (pw_ID d) (pw_TenantID d) (pw_ActorUserID d) (pw_ConversationID d) (pw_Type d)
             (pw_State d) (pw_MissingFields d) entities candidates "" createdAt updatedAt expiresAt
             (pw_Version d) (pw_MissingFields d) trusted in
  validateWorkflowSnapshotIdentity w ;;; Ok w.

(** *** The JSON of a snapshot *)

Definition no_str (s : string) : bool := bool_decide (s = "").
Definition json_strs (l : list string) : json := JArr (List.map JStr l).

Definition json_of_source (d : persistedParamSourceV1) : json :=
  obj [(no_str (ps_Kind d), "kind", JStr (ps_Kind d));
       (no_str (ps_Resolver d), "resolver", JStr (ps_Resolver d))].
Definition source_names : list string := ["kind"; "resolver"].
Definition zero_source : persistedParamSourceV1 := mkSourceDTO "" "".
Definition dec_source : decoder persistedParamSourceV1 :=
  dec_struct source_names (fun ms cur =>
    k <- dec_field source_names "kind" dec_string ms (ps_Kind cur) ;;
    r <- dec_field source_names "resolver" dec_string ms (ps_Resolver cur) ;;
    Ok (mkSourceDTO k r)).

Definition json_of_param (d : persistedTrustedParamV1) : json :=
  obj [(false, "field", JStr (pp_Field d)); (false, "value", json_of_typed (pp_Value d));
       (false, "source", json_of_source (pp_Source d));
       (pp_TenantID d =? 0, "tenant_id", json_int (pp_TenantID d))].
Definition param_names : list string := ["field"; "value"; "source"; "tenant_id"].
Definition zero_param : persistedTrustedParamV1 := mkParamDTO "" zero_typed zero_source 0.
Definition dec_param : decoder persistedTrustedParamV1 :=
  dec_struct param_names (fun ms cur =>
    let fld {A} n (d : decoder A) c := dec_field param_names n d ms c in
    f <- fld "field" dec_string (pp_Field cur) ;;
    v <- fld "value" dec_typed (pp_Value cur) ;;
    s <- fld "source" dec_source (pp_Source cur) ;;
    t <- fld "tenant_id" dec_uint64 (pp_TenantID cur) ;;
    Ok (mkParamDTO f v s t)).

Definition json_of_entity (d : persistedTrustedEntityV1) : json :=
  obj [(no_str (pe_ID d), "id", JStr (pe_ID d)); (no_str (pe_Type d), "type", JStr (pe_Type d));
       (no_str (pe_Label d), "label", JStr (pe_Label d)); (false, "value", json_of_typed (pe_Value d));
       (pe_TenantID d =? 0, "tenant_id", json_int (pe_TenantID d))].
Definition entity_names : list string := ["id"; "type"; "label"; "value"; "tenant_id"].
Definition zero_entity : persistedTrustedEntityV1 := mkEntityDTO "" "" "" zero_typed 0.
Definition dec_entity : decoder persistedTrustedEntityV1 :=
  dec_struct entity_names (fun ms cur =>
    let fld {A} n (d : decoder A) c := dec_field entity_names n d ms c in
    i <- fld "id" dec_string (pe_ID cur) ;;
    ty <- fld "type" dec_string (pe_Type cur) ;;
    l <- fld "label" dec_string (pe_Label cur) ;;
    v <- fld "value" dec_typed (pe_Value cur) ;;
    t <- fld "tenant_id" dec_uint64 (pe_TenantID cur) ;;
    Ok (mkEntityDTO i ty l v t)).

Definition json_of_candidate (d : persistedCandidateV1) : json :=
  obj [(no_str (pc_ID d), "id", JStr (pc_ID d)); (false, "label", JStr (pc_Label d));
       (false, "value", json_of_typed (pc_Value d));
       (pc_TenantID d =? 0, "tenant_id", json_int (pc_TenantID d))].
Definition candidate_names : list string := ["id"; "label"; "value"; "tenant_id"].
Definition zero_candidate : persistedCandidateV1 := mkCandidateDTO "" "" zero_typed 0.
Definition dec_candidate : decoder persistedCandidateV1 :=
  dec_struct candidate_names (fun ms cur =>
    let fld {A} n (d : decoder A) c := dec_field candidate_names n d ms c in
    i <- fld "id" dec_string (pc_ID cur) ;;
    l <- fld "label" dec_string (pc_Label cur) ;;
    v <- fld "value" dec_typed (pc_Value cur) ;;
    t <- fld "tenant_id" dec_uint64 (pc_TenantID cur) ;;
    Ok (mkCandidateDTO i l v t)).

Definition json_of_trusted (d : persistedTrustedStateV1) : json :=
  obj [(pt_TenantID d =? 0, "tenant_id", json_int (pt_TenantID d));
       (pt_DepartmentID d =? 0, "department_id", json_int (pt_DepartmentID d));
       (bool_decide (pt_DeptIDs d = []), "dept_ids", JArr (List.map json_int (pt_DeptIDs d)));
       (pt_UserID d =? 0, "user_id", json_int (pt_UserID d));
       (no_str (pt_UserName d), "user_name", JStr (pt_UserName d));
       (no_str (pt_Date d), "date", JStr (pt_Date d));
       (pt_Section d =? 0, "section", json_int (pt_Section d));
       (pt_Week d =? 0, "week", json_int (pt_Week d));
       (no_str (pt_ConversationID d), "conversation_id", JStr (pt_ConversationID d));
       (no_str (pt_Scope d), "scope", JStr (pt_Scope d));
       (no_str (pt_QueryShape d), "query_shape", JStr (pt_QueryShape d));
       (pt_UserRole d =? 0, "user_role", json_int (pt_UserRole d));
       (bool_decide (size (pt_TrustedParams d) = 0%nat), "trusted_params",
          JObj (List.map (fun p => (p.1, json_of_param p.2)) (sorted_entries (pt_TrustedParams d))))].
Definition trusted_names : list string :=
  ["tenant_id"; "department_id"; "dept_ids"; "user_id"; "user_name"; "date"; "section"; "week";
   "conversation_id"; "scope"; "query_shape"; "user_role"; "trusted_params"].
Definition zero_trusted : persistedTrustedStateV1 := mkTrustedDTO 0 0 [] 0 "" "" 0 0 "" "" "" 0 ∅.
Definition dec_trusted : decoder persistedTrustedStateV1 :=
  dec_struct trusted_names (fun ms cur =>
    let fld {A} n (d : decoder A) c := dec_field trusted_names n d ms c in
    te <- fld "tenant_id" dec_uint64 (pt_TenantID cur) ;;
    dp <- fld "department_id" dec_int64 (pt_DepartmentID cur) ;;
    ds <- fld "dept_ids" (dec_list dec_int64 0) (pt_DeptIDs cur) ;;
    us <- fld "user_id" dec_uint64 (pt_UserID cur) ;;
    un <- fld "user_name" dec_string (pt_UserName cur) ;;
    dt <- fld "date" dec_string (pt_Date cur) ;;
    se <- fld "section" dec_int64 (pt_Section cur) ;;
    wk <- fld "week" dec_int64 (pt_Week cur) ;;
    cv <- fld "conversation_id" dec_string (pt_ConversationID cur) ;;
    sc <- fld "scope" dec_string (pt_Scope cur) ;;
    qs <- fld "query_shape" dec_string (pt_QueryShape cur) ;;
    ur <- fld "user_role" dec_int64 (pt_UserRole cur) ;;
    ps <- fld "trusted_params" (dec_map dec_param zero_param) (pt_TrustedParams cur) ;;
    Ok (mkTrustedDTO te dp ds us un dt se wk cv sc qs ur ps)).

Definition json_of_snapshot (d : persistedWorkflowSnapshotV1) : json :=
  obj [(false, "schema_version", json_int (pw_SchemaVersion d));
       (false, "id", JStr (pw_ID d));
       (false, "tenant_id", json_int (pw_TenantID d));
       (false, "actor_user_id", json_int (pw_ActorUserID d));
       (false, "conversation_id", JStr (pw_ConversationID d));
       (false, "type", JStr (pw_Type d));
       (false, "state", JStr (pw_State d));
       (bool_decide (pw_MissingFields d = []), "missing_fields", json_strs (pw_MissingFields d));
       (false, "trusted", json_of_trusted (pw_Trusted d));
       (bool_decide (size (pw_TrustedEntities d) = 0%nat), "trusted_entities",
          JObj (List.map (fun p => (p.1, json_of_entity p.2)) (sorted_entries (pw_TrustedEntities d))));
       (bool_decide (size (pw_Candidates d) = 0%nat), "candidates",
          JObj (List.map (fun p => (p.1, JArr (List.map json_of_candidate p.2)))
                  (sorted_entries (pw_Candidates d))));
       (no_str (pw_CreatedAt d), "created_at", JStr (pw_CreatedAt d));
       (no_str (pw_UpdatedAt d), "updated_at", JStr (pw_UpdatedAt d));
       (false, "expires_at", JStr (pw_ExpiresAt d));
       (false, "version", json_int (pw_Version d))].
Definition snapshot_names : list string :=
  ["schema_version"; "id"; "tenant_id"; "actor_user_id"; "conversation_id"; "type"; "state";
   "missing_fields"; "trusted"; "trusted_entities"; "candidates"; "created_at"; "updated_at";
   "expires_at"; "version"].
Definition zero_snapshot : persistedWorkflowSnapshotV1 :=
  mkSnapshotDTO 0 "" 0 0 "" "" "" [] zero_trusted ∅ ∅ "" "" "" 0.
Definition dec_snapshot : decoder persistedWorkflowSnapshotV1 :=
  dec_struct snapshot_names (fun ms cur =>
    let fld {A} n (d : decoder A) c := dec_field snapshot_names n d ms c in
    sv <- fld "schema_version" dec_int64 (pw_SchemaVersion cur) ;;
    i <- fld "id" dec_string (pw_ID cur) ;;
    te <- fld "tenant_id" dec_uint64 (pw_TenantID cur) ;;
    ac <- fld "actor_user_id" dec_uint64 (pw_ActorUserID cur) ;;
    cv <- fld "conversation_id" dec_string (pw_ConversationID cur) ;;
    ty <- fld "type" dec_string (pw_Type cur) ;;
    st <- fld "state" dec_string (pw_State cur) ;;
    mf <- fld "missing_fields" (dec_list dec_string "") (pw_MissingFields cur) ;;
    tr <- fld "trusted" dec_trusted (pw_Trusted cur) ;;
    en <- fld "trusted_entities" (dec_map dec_entity zero_entity) (pw_TrustedEntities cur) ;;
    ca <- fld "candidates" (dec_map (dec_list dec_candidate zero_candidate) []) (pw_Candidates cur) ;;
    cr <- fld "created_at" dec_string (pw_CreatedAt cur) ;;
    up <- fld "updated_at" dec_string (pw_UpdatedAt cur) ;;
    ex <- fld "expires_at" dec_string (pw_ExpiresAt cur) ;;
    ve <- fld "version" dec_uint64 (pw_Version cur) ;;
    Ok (mkSnapshotDTO sv i te ac cv ty st mf tr en ca cr up ex ve)).

Definition MarshalWorkflowSnapshot (w : WorkflowSnapshot) : res string :=
  d <- workflowSnapshotToV1 w ;;
  let payload := marshal (json_of_snapshot d) in
  if workflowSnapshotMaxBytes <? str_len payload
  then Err (EFmt "workflow snapshot exceeds %d bytes" []) else Ok payload.

Definition UnmarshalWorkflowSnapshot (payload : string) : res WorkflowSnapshot :=
  if str_len payload =? 0 then Err (EMsg "workflow snapshot payload is empty")
  else if workflowSnapshotMaxBytes <? str_len payload
  then Err (EFmt "workflow snapshot exceeds %d bytes" [])
  else
    match decode_strict dec_snapshot zero_snapshot payload with
    | Err e => Err (EWrap "decode workflow snapshot v1: %w" e)
    | Ok d =>
        if pw_SchemaVersion d =? workflowSnapshotSchemaVersion then workflowSnapshotFromV1 d
        else Err (EFmt "unsupported workflow snapshot schema version %d" [itoa (pw_SchemaVersion d)])
    end.

(** The snapshot with what the store manages set aside. *)
Definition hash_dto (d : persistedWorkflowSnapshotV1) : persistedWorkflowSnapshotV1 :=
  mkSnapshotDTO (pw_SchemaVersion d) (pw_ID d) (pw_TenantID d) (pw_ActorUserID d)
    (pw_ConversationID d) (pw_Type d) (pw_State d) (pw_MissingFields d) (pw_Trusted d)
    (pw_TrustedEntities d) (pw_Candidates d) "" "" "" 0.

Definition WorkflowSnapshotHash (w : WorkflowSnapshot) : res string :=
  d <- workflowSnapshotToV1 w ;;
  let payload := marshal (json_of_snapshot (hash_dto d)) in
  if workflowSnapshotMaxBytes <? str_len payload
  then Err (EFmt "workflow snapshot exceeds %d bytes" []) else Ok (sha256_hex payload).
