(* ===== verification/CodecSpec.v ===== *)
(** * Properties of the persistence codec

    What the definitions of Codec.v guarantee of reservations and results: they
    read back as the values they were stored from, up to the normalisation the
    canonical form states. *)
From Stdlib Require Import ZArith Lia Bool String.
From stdpp Require Import base list strings gmap sorting.
From S2P Require Import Prelude GoStrings GoTime Json Sha256 Contract Codec.
#[local] Open Scope go_scope.

(** Open a decoder on the object the matching printer built. *)
Ltac struct_fields :=
  rewrite dec_struct_obj by reflexivity; cbv zeta;
  repeat (rewrite dec_field_members by reflexivity;
          cbn [lookup_field List.find field_key String.eqb Ascii.eqb Bool.eqb fst snd]).

(** ** Typed values *)

(** Machine widths: what Go's types guarantee of a value. *)
Definition value_wide (v : value) : bool :=
  match v with
  | VInt z | VInt64 z => in_int64 z
  | VUint z => in_uint64 z
  | VInt64s l => forallb in_int64 l
  | _ => true
  end.

Definition typed_ok (e : persistedTypedValueV1) : Prop :=
  valid_string (pv_Kind e) = true
  /\ exists j, pv_Value e = Some j /\ forall d, d < 100 -> printable d j.

Lemma runeLengthWithin_valid s n : runeLengthWithin s n = true -> valid_string s = true.
Proof. unfold runeLengthWithin. intros H. by b2p. Qed.

Lemma dec_int64s_ok l cur :
  forallb in_int64 l = true -> dec_list dec_int64 0 (JArr (List.map json_int l)) cur = Ok l.
Proof.
  intros H. apply dec_list_map. rewrite forallb_forall in H. apply Forall_forall.
  intros z Hz cur'. apply dec_int64_int, H. by apply list_elem_of_In.
Qed.

Lemma printable_ints d l : d < max_depth -> printable d (JArr (List.map json_int l)).
Proof.
  intros Hd. constructor; [done|]. apply Forall_map, Forall_forall. intros z _. constructor.
Qed.

Lemma encode_decode v e :
  encodePersistedTypedValue v = Ok e -> value_wide v = true ->
  decodePersistedTypedValue e = Ok v /\ typed_ok e.
Proof.
  intros He Hw. unfold typed_ok. destruct v; cbn [encodePersistedTypedValue] in He; try discriminate He.
  - destruct (runeLengthWithin s _) eqn:E; [|discriminate]. injection He as <-. split.
    + unfold decodePersistedTypedValue. cbn. by rewrite E.
    + split; [done|]. eexists. split; [done|]. intros d _. constructor.
      by eapply runeLengthWithin_valid.
  - injection He as <-. split.
    + unfold decodePersistedTypedValue. cbn -[dec_int64]. rewrite dec_int64_int; done.
    + split; [done|]. eexists. split; [done|]. intros. constructor.
  - injection He as <-. split.
    + unfold decodePersistedTypedValue. cbn -[dec_int64]. rewrite dec_int64_int; done.
    + split; [done|]. eexists. split; [done|]. intros. constructor.
  - injection He as <-. split.
    + unfold decodePersistedTypedValue. cbn -[dec_uint64]. rewrite dec_uint64_int; done.
    + split; [done|]. eexists. split; [done|]. intros. constructor.
  - injection He as <-. split; [done|]. split; [done|]. eexists. split; [done|]. intros. constructor.
  - destruct (_ <? _) eqn:E; [discriminate|]. injection He as <-. split.
    + unfold decodePersistedTypedValue. cbn [pv_Value pv_Kind]. cbn -[dec_list len].
      rewrite dec_int64s_ok by done. cbn -[len]. by rewrite E.
    + split; [done|]. eexists. split; [done|]. intros d Hd. apply printable_ints. unfold max_depth. lia.
Qed.

Lemma dec_typed_ok e : typed_ok e -> dec_typed (json_of_typed e) zero_typed = Ok e.
Proof.
  intros (_ & j & Hj & _). unfold dec_typed, json_of_typed. struct_fields. rewrite Hj.
  destruct e; cbn in *. by subst.
Qed.

Lemma printable_typed d e : typed_ok e -> d < 99 -> printable d (json_of_typed e).
Proof.
  intros (Hk & j & Hj & Hp) Hd. apply printable_obj_members; [unfold max_depth; lia|].
  repeat constructor; cbn; try done; try (constructor; done). rewrite Hj. apply Hp. lia.
Qed.

(** Canonical department lists: sorting and deduplicating settles in one step. *)
Lemma sortedUnique_sorted l : StronglySorted Z.lt (sortedUniqueInt64s l).
Proof. apply dedup_adjacent_sorted, sort_Z_StronglySorted. Qed.

Lemma sortedUnique_elem x l : x ∈ sortedUniqueInt64s l <-> x ∈ l.
Proof. unfold sortedUniqueInt64s. by rewrite dedup_adjacent_elem, sort_Z_elem. Qed.

Lemma sortedUnique_idem l : sortedUniqueInt64s (sortedUniqueInt64s l) = sortedUniqueInt64s l.
Proof.
  unfold sortedUniqueInt64s at 1. rewrite sort_Z_idem.
  - apply dedup_sorted_idem, sortedUnique_sorted.
  - apply StronglySorted_lt_le, sortedUnique_sorted.
Qed.

Lemma dedup_adjacent_length l : (length (dedup_adjacent l) <= length l)%nat.
Proof.
  induction l as [|x l IH]; cbn; [done|]. destruct (dedup_adjacent l) as [|y r]; cbn in *; [lia|].
  destruct (x =? y); cbn; lia.
Qed.

Lemma sortedUnique_length l : (length (sortedUniqueInt64s l) <= length l)%nat.
Proof.
  unfold sortedUniqueInt64s. etransitivity; [apply dedup_adjacent_length|].
  by rewrite (Permutation_length (sort_Z_Permutation l)).
Qed.

Lemma sortedUnique_forallb p l : forallb p l = true -> forallb p (sortedUniqueInt64s l) = true.
Proof.
  rewrite !forallb_forall. intros H x Hx%list_elem_of_In. apply H, list_elem_of_In.
  by apply sortedUnique_elem.
Qed.

(** What persisting a parameter makes of its value. *)
Definition norm_value (v : value) : value :=
  match v with VInt64s l => VInt64s (sortedUniqueInt64s l) | _ => v end.

Lemma norm_value_wide v : value_wide v = true -> value_wide (norm_value v) = true.
Proof. destruct v; cbn; try done. apply sortedUnique_forallb. Qed.

Lemma normalize_ok k v n :
  normalizeExecutionTrustedParam k v = Ok n ->
  n = norm_value v /\ normalizeExecutionTrustedParam k n = Ok n.
Proof.
  unfold normalizeExecutionTrustedParam.
  repeat case_bool_decide; try discriminate; destruct v; try discriminate;
    try (case_if; intros [= <-]; (split; [done|]); by rewrite E).
  destruct (_ <? len l) eqn:El; [discriminate|].
  destruct (forallb _ l) eqn:Ef; intros [= <-]. split; [done|].
  rewrite sortedUnique_forallb by done. rewrite sortedUnique_idem.
  replace (_ <? len (sortedUniqueInt64s l)) with false; [done|].
  symmetry. apply Z.ltb_ge. apply Z.ltb_ge in El. pose proof (sortedUnique_length l).
  unfold len in *. lia.
Qed.

(** ** Times *)

Lemma parseExecutionTime_format field t :
  year_printable t -> t <> 0 -> parseExecutionTime field (formatWorkflowTime t) = Ok t.
Proof.
  intros Hy Ht. unfold parseExecutionTime, formatWorkflowTime, is_zero, blank.
  destruct (Z.eqb_spec t 0); [done|]. rewrite bool_decide_eq_false_2 by (by apply format_rfc3339nano_trim).
  by rewrite parse_format_rfc3339nano.
Qed.

Lemma parseWorkflowTime_format field t allowEmpty :
  year_printable t -> (t = 0 -> allowEmpty = true) ->
  parseWorkflowTime field (formatWorkflowTime t) allowEmpty = Ok t.
Proof.
  intros Hy Ht. unfold parseWorkflowTime, formatWorkflowTime, is_zero, blank.
  destruct (Z.eqb_spec t 0) as [->|].
  - rewrite Ht by done. done.
  - rewrite bool_decide_eq_false_2 by (by apply format_rfc3339nano_trim).
    by rewrite parse_format_rfc3339nano.
Qed.

Lemma formatWorkflowTime_valid t :
  year_printable t -> valid_string (formatWorkflowTime t) = true.
Proof. unfold formatWorkflowTime. intros H. case_if; [done|]. by apply format_rfc3339nano_valid. Qed.

(** ** Reservations *)

(** The form a reservation takes once stored. *)
Definition canonical_form (r : ReservedExecutionV1) : ReservedExecutionV1 :=
  mkReserved (re_Operation r) (re_BusinessKey r) (norm_value <$> re_TrustedParams r)
    (re_ExecutionToken r) (re_AttemptRequestID r)
    (truncate_ms (re_StartedAt r)) (truncate_ms (re_LeaseExpiresAt r)).

Definition reservation_wide (r : ReservedExecutionV1) : Prop :=
  map_Forall (fun _ v => value_wide v = true) (re_TrustedParams r).

(** The instants survive millisecond precision and four-digit years. *)
Definition reservation_times_ok (r : ReservedExecutionV1) : Prop :=
  let s := truncate_ms (re_StartedAt r) in
  let l := truncate_ms (re_LeaseExpiresAt r) in
  year_printable s /\ year_printable l /\ s <> 0 /\ l <> 0 /\ s < l.

Lemma reservedParamToV1_ok k v e :
  reservedParamToV1 k v = Ok e -> value_wide v = true ->
  reservedParamFromV1 k e = Ok (norm_value v) /\ reservedParamToV1 k (norm_value v) = Ok e
  /\ typed_ok e.
Proof.
  unfold reservedParamToV1, reservedParamFromV1. intros H Hw.
  destruct (normalizeExecutionTrustedParam k v) as [n|] eqn:En; [|discriminate].
  cbn [res_bind] in H. apply wrap_err_Ok in H. pose proof (normalize_ok _ _ _ En) as [-> En'].
  destruct (encode_decode _ _ H) as [Hd Ht]; [by apply norm_value_wide|].
  rewrite Hd. cbn [res_bind wrap_err]. rewrite En'. cbn [res_bind wrap_err]. by rewrite H.
Qed.

Lemma reserved_params_ok m ps :
  map_mapM reservedParamToV1 m = Ok ps -> map_Forall (fun _ v => value_wide v = true) m ->
  map_mapM reservedParamFromV1 ps = Ok (norm_value <$> m)
  /\ map_mapM reservedParamToV1 (norm_value <$> m) = Ok ps
  /\ map_Forall (fun _ => typed_ok) ps.
Proof.
  rewrite !map_mapM_Ok. intros H Hw.
  assert (Hk : forall k, match m !! k, ps !! k with
    | Some v, Some e => reservedParamFromV1 k e = Ok (norm_value v)
        /\ reservedParamToV1 k (norm_value v) = Ok e /\ typed_ok e
    | None, None => True
    | _, _ => False end).
  { intros k. specialize (H k). destruct (m !! k) as [v|] eqn:Em, (ps !! k) as [e|]; try done.
    apply reservedParamToV1_ok; [done|by eapply Hw]. }
  split; [|split].
  - intros k. specialize (Hk k). rewrite lookup_fmap.
    destruct (m !! k), (ps !! k); cbn; naive_solver.
  - intros k. specialize (Hk k). rewrite lookup_fmap.
    destruct (m !! k), (ps !! k); cbn; naive_solver.
  - intros k e Hke. specialize (Hk k). rewrite Hke in Hk. destruct (m !! k); naive_solver.
Qed.

(** The keys of a stored reservation are allowlisted, hence printable. *)
Lemma reservedParamToV1_key k v e : reservedParamToV1 k v = Ok e -> valid_string k = true.
Proof.
  unfold reservedParamToV1, normalizeExecutionTrustedParam. intros H.
  repeat (case_bool_decide; [subst k; reflexivity|]). done.
Qed.

Lemma validateReservedParam_norm k v :
  validateReservedParam k (norm_value v) = validateReservedParam k v.
Proof. by destruct v. Qed.

Lemma validateReserved_canonical r :
  validateReservedExecution r = Ok tt -> reservation_times_ok r ->
  validateReservedExecution (canonical_form r) = Ok tt.
Proof.
  unfold validateReservedExecution, reservation_times_ok, canonical_form, is_zero, after.
  cbn [re_Operation re_BusinessKey re_TrustedParams re_ExecutionToken re_AttemptRequestID
       re_StartedAt re_LeaseExpiresAt].
  intros H (_ & _ & Hs & Hl & Hlt).
  repeat (apply res_bind_Ok in H as (? & ?%guard_Ok & H)).
  apply Z.eqb_neq in Hs, Hl. apply Z.ltb_lt in Hlt. rewrite Hs, Hl, Hlt.
  repeat (match goal with E : ?b = true |- context [guard ?b _] => rewrite E end; cbn [guard res_bind]).
  cbn [negb guard res_bind].
  repeat (match goal with E : ?b = true |- context [guard ?b _] => rewrite E end; cbn [guard res_bind]).
  apply map_checkM_Ok. apply map_checkM_Ok in H. intros k v.
  rewrite lookup_fmap, fmap_Some. intros (v' & Hv & ->). rewrite validateReservedParam_norm.
  by apply H.
Qed.

(** What a successful conversion to V1 says. *)
Lemma reservedExecutionToV1_Ok r d :
  reservedExecutionToV1 r = Ok d <->
  validateReservedExecution r = Ok tt
  /\ trimmed (re_Operation r) && trimmed (re_BusinessKey r) && trimmed (re_ExecutionToken r)
     && trimmed (re_AttemptRequestID r) = true
  /\ bool_decide (re_Operation r = "subscription.start")
     || bool_decide (re_Operation r = "subscription.cancel") = true
  /\ runeLengthWithin (re_Operation r) executionMaxProjectionRunes
     && runeLengthWithin (re_BusinessKey r) executionMaxProjectionRunes
     && runeLengthWithin (re_ExecutionToken r) executionMaxProjectionRunes
     && runeLengthWithin (re_AttemptRequestID r) executionMaxProjectionRunes = true
  /\ (map_len (re_TrustedParams r) <=? executionMaxTrustedParams) = true
  /\ exists ps, map_mapM reservedParamToV1 (re_TrustedParams r) = Ok ps
     /\ d = mkReservedDTO executionSchemaVersion (re_Operation r) (re_BusinessKey r) ps
          (re_ExecutionToken r) (re_AttemptRequestID r)
          (formatWorkflowTime (normalizeWorkflowDatabaseTime (re_StartedAt r)))
          (formatWorkflowTime (normalizeWorkflowDatabaseTime (re_LeaseExpiresAt r))).
Proof.
  unfold reservedExecutionToV1. split.
  - intros H. apply res_bind_Ok in H as ([] & H0 & H).
    repeat (apply res_bind_Ok in H as (? & ?%guard_Ok & H)).
    apply res_bind_Ok in H as (ps & Hps & [= <-]). repeat (split; [done|]). eauto.
  - intros (-> & -> & -> & -> & -> & ps & -> & ->). done.
Qed.

Lemma reservedToV1_canonical r d :
  reservedExecutionToV1 r = Ok d -> reservation_wide r -> reservation_times_ok r ->
  reservedExecutionToV1 (canonical_form r) = Ok d
  /\ reservedExecutionFromV1 d = Ok (canonical_form r)
  /\ map_Forall (fun _ => typed_ok) (pr_TrustedParams d)
  /\ map_Forall (fun k _ => valid_string k = true) (pr_TrustedParams d).
Proof.
  intros (Hv & Ht & Ho & Hl & Hn & ps & Hps & ->)%reservedExecutionToV1_Ok Hw Htimes.
  destruct (reserved_params_ok _ _ Hps Hw) as (Hf & Hb & Htyped).
  assert (Hto : reservedExecutionToV1 (canonical_form r)
    = Ok (mkReservedDTO executionSchemaVersion (re_Operation r) (re_BusinessKey r) ps
          (re_ExecutionToken r) (re_AttemptRequestID r)
          (formatWorkflowTime (normalizeWorkflowDatabaseTime (re_StartedAt r)))
          (formatWorkflowTime (normalizeWorkflowDatabaseTime (re_LeaseExpiresAt r))))).
  { apply reservedExecutionToV1_Ok. cbn [canonical_form re_Operation re_BusinessKey re_TrustedParams
      re_ExecutionToken re_AttemptRequestID re_StartedAt re_LeaseExpiresAt].
    split; [by apply validateReserved_canonical|]. do 3 (split; [done|]).
    split; [unfold map_len in *; by rewrite map_size_fmap|].
    exists ps. split; [done|]. unfold normalizeWorkflowDatabaseTime. by rewrite !truncate_ms_idem. }
  split; [done|]. destruct Htimes as (Hy1 & Hy2 & Hz1 & Hz2 & Hlt).
  split; [|split; [done|]].
  - unfold reservedExecutionFromV1. cbn [pr_StartedAt pr_LeaseExpiresAt pr_TrustedParams pr_Operation
      pr_BusinessKey pr_ExecutionToken pr_AttemptRequestID].
    unfold normalizeWorkflowDatabaseTime in *.
    rewrite !parseExecutionTime_format by done. cbn [res_bind]. rewrite Hf. cbn [res_bind].
    fold (canonical_form r). by rewrite Hto.
  - cbn [pr_TrustedParams]. intros k e Hke. apply map_mapM_Ok with (k := k) in Hps.
    rewrite Hke in Hps. destruct (re_TrustedParams r !! k) eqn:E; [|done].
    by eapply reservedParamToV1_key.
Qed.

Lemma dec_reserved_ok d :
  pr_SchemaVersion d = executionSchemaVersion ->
  map_Forall (fun _ => typed_ok) (pr_TrustedParams d) ->
  dec_reserved (json_of_reserved d) zero_reserved = Ok d.
Proof.
  intros Hs Hp. unfold dec_reserved, json_of_reserved. struct_fields.
  rewrite Hs, dec_int64_int by done. cbn [res_bind dec_string].
  unfold json_of_typed_map. cbn [zero_reserved pr_TrustedParams].
  rewrite field_map; [|intros k e He; by apply dec_typed_ok, (Hp k e)].
  cbn [res_bind]. destruct d; cbn in *. by subst.
Qed.

(** Objects printed from maps. *)
Lemma printable_map {A} d (enc : A -> json) (m : gmap string A) :
  d < max_depth -> map_Forall (fun k a => valid_string k = true /\ printable (d + 1) (enc a)) m ->
  printable d (JObj (List.map (fun p => (p.1, enc p.2)) (sorted_entries m))).
Proof.
  intros Hd H. constructor; [done|]. apply Forall_map. rewrite sorted_entries_Permutation.
  apply map_Forall_to_list in H. eapply Forall_impl; [exact H|]. by intros [k a].
Qed.

Lemma printable_reserved r d :
  reservedExecutionToV1 r = Ok d -> reservation_times_ok r ->
  map_Forall (fun _ => typed_ok) (pr_TrustedParams d) ->
  map_Forall (fun k _ => valid_string k = true) (pr_TrustedParams d) ->
  printable 0 (json_of_reserved d).
Proof.
  intros (_ & _ & _ & Hl & _ & ps & Hps & ->)%reservedExecutionToV1_Ok (Hy1 & Hy2 & _) Ht Hk.
  cbn [pr_TrustedParams] in *. b2p.
  repeat match goal with H : runeLengthWithin _ _ = true |- _ => apply runeLengthWithin_valid in H end.
  apply printable_obj_members; [done|].
  repeat (constructor; [intros _; cbn [fst snd]; split; [reflexivity|]|]); [| | | | | | | |constructor];
    cbn [pr_SchemaVersion pr_Operation pr_BusinessKey pr_ExecutionToken pr_AttemptRequestID
         pr_StartedAt pr_LeaseExpiresAt pr_TrustedParams];
    try (constructor; done).
  - apply printable_map; [done|]. intros k e He. split; [by apply (Hk k e)|].
    apply printable_typed; [by apply (Ht k e)|lia].
  - constructor. by apply formatWorkflowTime_valid.
  - constructor. by apply formatWorkflowTime_valid.
Qed.

(** The payload of a printed object is never empty. *)
Lemma str_len_of_bytes l : str_len (of_bytes l) = Z.of_nat (length l).
Proof.
  unfold str_len, of_bytes. f_equal. induction l as [|b l IH]; [done|].
  cbn. by rewrite <- IH.
Qed.

Lemma marshal_obj_nonempty l : (str_len (marshal (obj l)) =? 0) = false.
Proof.
  apply Z.eqb_neq. unfold marshal. rewrite str_len_of_bytes. cbn [print_json obj].
  cbn [app length]. lia.
Qed.

Lemma reserved_marshal_ok r payload :
  MarshalReservedExecution r = Ok payload -> reservation_wide r -> reservation_times_ok r ->
  UnmarshalReservedExecution payload = Ok (canonical_form r)
  /\ MarshalReservedExecution (canonical_form r) = Ok payload.
Proof.
  unfold MarshalReservedExecution. intros H Hw Ht. apply res_bind_Ok in H as (d & Hd & H).
  destruct (_ <? _) eqn:El; [discriminate|]. injection H as <-.
  destruct (reservedToV1_canonical _ _ Hd Hw Ht) as (Hto & Hfrom & Htyped & Hkeys).
  split.
  - unfold UnmarshalReservedExecution. unfold json_of_reserved at 1. rewrite marshal_obj_nonempty, El.
    rewrite decode_strict_marshal by (by apply (printable_reserved r)).
    pose proof Hd as (_ & _ & _ & _ & _ & ps & _ & Ed)%reservedExecutionToV1_Ok.
    rewrite dec_reserved_ok; [|by rewrite Ed|done].
    rewrite Ed at 1. cbn [pr_SchemaVersion Z.eqb executionSchemaVersion Pos.eqb]. done.
  - rewrite Hto. cbn [res_bind]. by rewrite El.
Qed.

(** a reservation that can be stored reads back as its canonical form: the
    same operation, business key, token and request, every department list
    sorted without duplicates, and both instants cut to milliseconds. *)
Theorem reservation_roundtrip r payload :
  MarshalReservedExecution r = Ok payload -> reservation_wide r -> reservation_times_ok r ->
  UnmarshalReservedExecution payload = Ok (canonical_form r).
Proof. intros H Hw Ht. by apply reserved_marshal_ok. Qed.

Definition sample_reservation : ReservedExecutionV1 :=
  mkReserved "subscription.start" "key-1"
    {[ "scope" := VString "department"; "dept_ids" := VInt64s [3; 1; 3]; "actor_role" := VInt 2 ]}
    "tok-1" "req-1" (instant 2026 3 1 9 0 0 1234567) (instant 2026 3 1 9 2 0 0).

Lemma sample_reservation_wide : reservation_wide sample_reservation.
Proof.
  unfold reservation_wide, sample_reservation. cbn [re_TrustedParams].
  repeat (apply map_Forall_insert_2; [reflexivity|]). apply map_Forall_empty.
Qed.

Lemma sample_reservation_times : reservation_times_ok sample_reservation.
Proof. repeat split; vm_compute; congruence. Qed.

Lemma reservation_roundtrip_witness :
  exists payload, MarshalReservedExecution sample_reservation = Ok payload
    /\ UnmarshalReservedExecution payload = Ok (canonical_form sample_reservation).
Proof.
  eexists. split; [vm_compute; reflexivity|].
  apply (reservation_roundtrip sample_reservation);
    [vm_compute; reflexivity|apply sample_reservation_wide|apply sample_reservation_times].
Defined.

Lemma canonicalReservedExecution_Ok r r' :
  canonicalReservedExecution r = Ok r' -> reservation_wide r -> reservation_times_ok r ->
  r' = canonical_form r /\ canonicalReservedExecution r' = Ok r'.
Proof.
  unfold canonicalReservedExecution. intros H Hw Ht. apply res_bind_Ok in H as (p & Hp & Hu).
  destruct (reserved_marshal_ok _ _ Hp Hw Ht) as [Hu' Hm].
  rewrite Hu in Hu'. injection Hu' as ->. split; [done|]. rewrite Hm. cbn [res_bind]. done.
Qed.

(** The canonical form every store keeps is a fixed point: canonicalising
    a reservation again, as a takeover and a database round trip do, leaves the
    operation, business key and parameters the write was reserved under. *)
Theorem canonicalReservedExecution_idempotent r r' :
  canonicalReservedExecution r = Ok r' -> reservation_wide r -> reservation_times_ok r ->
  r' = canonical_form r /\ canonicalReservedExecution r' = Ok r'.
Proof. apply canonicalReservedExecution_Ok. Qed.

Lemma canonicalReservedExecution_idempotent_witness :
  canonical_form sample_reservation = canonical_form sample_reservation
  /\ canonicalReservedExecution (canonical_form sample_reservation)
     = Ok (canonical_form sample_reservation).
Proof.
  apply (canonicalReservedExecution_idempotent sample_reservation);
    [|apply sample_reservation_wide|apply sample_reservation_times].
  vm_compute. reflexivity.
Defined.

(** ** Results *)

Lemma persistedExecutionResultToV1_Ok r d :
  persistedExecutionResultToV1 r = Ok d <->
  validatePersistedExecutionResult r = Ok tt
  /\ trimmed (er_BusinessKey r)
     && runeLengthWithin (er_BusinessKey r) executionMaxProjectionRunes = true
  /\ d = mkResultDTO executionSchemaVersion (er_BusinessKey r) (er_WriteEffect r)
           (formatWorkflowTime (er_CompletedAt r)).
Proof.
  unfold persistedExecutionResultToV1. split.
  - intros H. apply res_bind_Ok in H as ([] & H0 & H).
    apply res_bind_Ok in H as (? & ?%guard_Ok & [= <-]). done.
  - intros (-> & -> & ->). done.
Qed.

Lemma dec_result_ok d :
  px_SchemaVersion d = executionSchemaVersion -> dec_result (json_of_result d) zero_result = Ok d.
Proof.
  intros Hs. unfold dec_result, json_of_result. struct_fields. rewrite Hs, dec_int64_int by done.
  cbn [res_bind dec_string]. destruct d; cbn in *. by subst.
Qed.

Lemma writeEffects_valid e : e ∈ writeEffects -> valid_string e = true.
Proof.
  intros H. enough (forallb valid_string writeEffects = true) as HF
    by (rewrite forallb_forall in HF; by apply HF, list_elem_of_In).
  reflexivity.
Qed.

Lemma result_marshal_ok r payload :
  MarshalPersistedExecutionResult r = Ok payload -> year_printable (er_CompletedAt r) ->
  UnmarshalPersistedExecutionResult payload = Ok r.
Proof.
  unfold MarshalPersistedExecutionResult. intros H Hy. apply res_bind_Ok in H as (d & Hd & H).
  destruct (_ <? _) eqn:El; [discriminate|]. injection H as <-.
  pose proof Hd as (Hv & Ht & ->)%persistedExecutionResultToV1_Ok.
  unfold validatePersistedExecutionResult in Hv.
  apply res_bind_Ok in Hv as (? & ?%guard_Ok & Hv). apply res_bind_Ok in Hv as (? & ?%guard_Ok & Hv).
  apply res_bind_Ok in Hv as (? & Hwe%guard_Ok & Hz%guard_Ok). unfold is_zero in Hz. b2p.
  apply Z.ltb_ge in El. unfold UnmarshalPersistedExecutionResult. unfold json_of_result at 1.
  rewrite marshal_obj_nonempty, El, decode_strict_marshal.
  - rewrite dec_result_ok by done. cbn [px_SchemaVersion Z.eqb executionSchemaVersion Pos.eqb].
    unfold persistedExecutionResultFromV1. cbn [px_CompletedAt px_BusinessKey px_WriteEffect].
    rewrite parseExecutionTime_format by done. cbn [res_bind].
    replace (mkResult (er_BusinessKey r) (er_WriteEffect r) (er_CompletedAt r)) with r by (by destruct r).
    by rewrite Hd.
  - apply printable_obj_members; [done|].
    repeat (constructor; [intros _; cbn [fst snd]; split; [reflexivity|]|]); [| | | |constructor];
      cbn [px_SchemaVersion px_BusinessKey px_WriteEffect px_CompletedAt].
    + constructor.
    + constructor. by eapply runeLengthWithin_valid.
    + constructor. by apply writeEffects_valid.
    + constructor. by apply formatWorkflowTime_valid.
Qed.

(** An execution result that can be stored reads back unchanged. *)
Theorem result_roundtrip r payload :
  MarshalPersistedExecutionResult r = Ok payload -> year_printable (er_CompletedAt r) ->
  UnmarshalPersistedExecutionResult payload = Ok r.
Proof. apply result_marshal_ok. Qed.

Lemma result_roundtrip_witness :
  exists payload,
    MarshalPersistedExecutionResult (mkResult "key-1" "created" (instant 2026 3 1 9 1 0 5)) = Ok payload
    /\ UnmarshalPersistedExecutionResult payload = Ok (mkResult "key-1" "created" (instant 2026 3 1 9 1 0 5)).
Proof.
  eexists. split; [vm_compute; reflexivity|].
  apply result_roundtrip; [vm_compute; reflexivity|vm_compute; split; congruence].
Defined.
