(* ===== verification/SnapshotSpec.v ===== *)
(** * Properties of stored workflow snapshots

    The round trip of [MarshalWorkflowSnapshot], what it leaves out of the
    stored bytes, and the authority of whatever snapshot is read back. *)
From Stdlib Require Import ZArith Lia Bool String.
From stdpp Require Import base list strings gmap sorting.
From S2P Require Import Prelude GoStrings GoTime Json Sha256 Contract Codec CodecSpec.
#[local] Open Scope go_scope.

(** ** Snapshots: what conversion to V1 does to each part *)

(** What is stored of a trusted parameter: its field is the key it is under,
    the raw text it was read from is left out. *)
Definition persisted_param (key : string) (p : TrustedParam) : TrustedParam :=
  mkTrustedParam key (tp_Value p) (mkSource (src_Kind (tp_Source p)) "" (src_Resolver (tp_Source p)))
    (tp_TenantID p).

Definition persisted_trusted (t : trustedEntities) : trustedEntities :=
  mkTrusted (te_TenantID t) (te_DepartmentID t) (te_DeptIDs t) (te_UserID t) (te_UserName t)
    (te_Date t) (te_Section t) (te_Week t) (te_ConversationID t) (te_Scope t) (te_QueryShape t)
    (te_UserRole t) (map_imap (fun k p => Some (persisted_param k p)) (te_TrustedParams t)).

(** The snapshot a stored workflow reads back as. *)
Definition persisted_view (w : WorkflowSnapshot) : WorkflowSnapshot :=
  mkSnapshot (wf_ID w) (wf_TenantID w) (wf_ActorUserID w) (wf_ConversationID w) (wf_Type w)
    (wf_State w) (workflowMissingFields w) (wf_TrustedEntities w)
    (cloneWorkflowCandidates (wf_Candidates w)) "" (wf_CreatedAt w) (wf_UpdatedAt w) (wf_ExpiresAt w)
    (wf_Version w) (workflowMissingFields w) (persisted_trusted (wf_Trusted w)).

(** Machine widths of a snapshot. *)
Definition trusted_wide (t : trustedEntities) : Prop :=
  in_uint64 (te_TenantID t) = true /\ in_int64 (te_DepartmentID t) = true
  /\ forallb in_int64 (te_DeptIDs t) = true /\ in_uint64 (te_UserID t) = true
  /\ in_int64 (te_Section t) = true /\ in_int64 (te_Week t) = true /\ in_int64 (te_UserRole t) = true
  /\ map_Forall (fun _ p => value_wide (tp_Value p) = true /\ in_uint64 (tp_TenantID p) = true)
       (te_TrustedParams t).

Definition snapshot_wide (w : WorkflowSnapshot) : Prop :=
  in_uint64 (wf_TenantID w) = true /\ in_uint64 (wf_ActorUserID w) = true
  /\ in_uint64 (wf_Version w) = true /\ trusted_wide (wf_Trusted w)
  /\ map_Forall (fun _ e => value_wide (ent_Value e) = true /\ in_uint64 (ent_TenantID e) = true)
       (wf_TrustedEntities w)
  /\ map_Forall (fun _ cs => Forall (fun c => value_wide (cand_Value c) = true
                                              /\ in_uint64 (cand_TenantID c) = true) cs)
       (wf_Candidates w).

Definition snapshot_times_ok (w : WorkflowSnapshot) : Prop :=
  year_printable (wf_CreatedAt w) /\ year_printable (wf_UpdatedAt w)
  /\ year_printable (wf_ExpiresAt w).

(** A DTO part whose JSON can be printed and read back. *)
Definition dto_param_ok (p : persistedTrustedParamV1) : Prop :=
  typed_ok (pp_Value p) /\ in_uint64 (pp_TenantID p) = true /\ valid_string (pp_Field p) = true
  /\ valid_string (ps_Kind (pp_Source p)) = true /\ valid_string (ps_Resolver (pp_Source p)) = true.

Lemma validateWorkflowMapKey_Ok k :
  validateWorkflowMapKey k = Ok tt ->
  blank k = false /\ runeLengthWithin k workflowSnapshotMaxKeyRunes = true.
Proof. unfold validateWorkflowMapKey. intros H%guard_Ok. by b2p. Qed.

Lemma runeLengthWithin_empty n : 0 <= n -> runeLengthWithin "" n = true.
Proof. intros H. unfold runeLengthWithin, rune_count. cbn. by apply Z.leb_le. Qed.

(** A parameter without a field name of its own sits under a key that has no
    surrounding white space; other keys are equal to a trimmed field anyway. *)
Definition param_keyed (k : string) (p : TrustedParam) : Prop :=
  blank (tp_Field p) = true -> trim_space k = k.

Lemma trustedParamToV1_ok k p d :
  trustedParamToV1 k p = Ok d ->
  value_wide (tp_Value p) = true -> in_uint64 (tp_TenantID p) = true ->
  valid_string (src_Kind (tp_Source p)) = true -> param_keyed k p ->
  trustedParamFromV1 k d = Ok (persisted_param k p)
  /\ trustedParamToV1 k (persisted_param k p) = Ok d /\ dto_param_ok d /\ valid_string k = true.
Proof.
  unfold trustedParamToV1, trustedParamFromV1, persisted_param. intros H Hw Ht Hsk Hkeyed.
  apply res_bind_Ok in H as ([] & Hk%wrap_err_Ok & H).
  apply res_bind_Ok in H as (v & Hv%wrap_err_Ok & H).
  apply res_bind_Ok in H as (? & Hf%guard_Ok & H). apply res_bind_Ok in H as (? & Hr%guard_Ok & [= <-]).
  apply bool_decide_eq_true in Hf. destruct (validateWorkflowMapKey_Ok _ Hk) as [Hkb Hkl].
  destruct (encode_decode _ _ Hv Hw) as [Hdec Htyped].
  assert (Htk : trim_space k = k).
  { destruct (blank (tp_Field p)) eqn:Eb; [by apply Hkeyed|]. rewrite <- Hf. apply trim_space_idem. }
  cbn [pp_Field pp_Value pp_Source pp_TenantID ps_Kind ps_Resolver tp_Field tp_Value tp_Source
       tp_TenantID src_Kind src_Resolver].
  rewrite Hf, Hk, Hkb, Htk. cbn [wrap_err res_bind]. rewrite bool_decide_eq_true_2 by done.
  cbn [guard res_bind]. rewrite Hdec, Hv. cbn [wrap_err res_bind]. rewrite Hr. cbn [guard res_bind].
  split; [done|]. split; [done|]. split; [|by eapply runeLengthWithin_valid].
  unfold dto_param_ok. cbn [pp_Field pp_Value pp_Source pp_TenantID ps_Kind ps_Resolver].
  repeat split; try done; try (by eapply runeLengthWithin_valid); apply Htyped.
Qed.

(** Lifting an entry-wise conversion to the whole map. *)
Lemma map_mapM_entries {A B C} (f : string -> A -> res B) (g : string -> B -> res C)
    (view : string -> A -> C) (P : string -> B -> Prop) m m' :
  map_mapM f m = Ok m' ->
  map_Forall (fun k a => forall b, f k a = Ok b -> g k b = Ok (view k a) /\ P k b) m ->
  map_mapM g m' = Ok (map_imap (fun k a => Some (view k a)) m) /\ map_Forall P m'.
Proof.
  rewrite !map_mapM_Ok. intros H Hf.
  assert (Hk : forall k, match m !! k, m' !! k with
                         | Some a, Some b => g k b = Ok (view k a) /\ P k b
                         | None, None => True
                         | _, _ => False end).
  { intros k. specialize (H k). destruct (m !! k) as [a|] eqn:Em, (m' !! k) as [b|]; try done.
    by apply (Hf k a Em). }
  split.
  - intros k. specialize (Hk k). rewrite map_lookup_imap.
    destruct (m !! k), (m' !! k); cbn; naive_solver.
  - intros k b Hb. specialize (Hk k). rewrite Hb in Hk. destruct (m !! k); naive_solver.
Qed.

Lemma map_mapM_view {A B} (f : string -> A -> res B) (view : string -> A -> A) m m' :
  map_mapM f m = Ok m' -> map_Forall (fun k a => forall b, f k a = Ok b -> f k (view k a) = Ok b) m ->
  map_mapM f (map_imap (fun k a => Some (view k a)) m) = Ok m'.
Proof.
  rewrite !map_mapM_Ok. intros H Hf k. specialize (H k). rewrite map_lookup_imap.
  destruct (m !! k) as [a|] eqn:Em, (m' !! k) as [b|]; cbn; try done. by apply (Hf k a Em).
Qed.

Lemma map_imap_Some_size {A B} (view : string -> A -> B) (m : gmap string A) :
  size (map_imap (fun k a => Some (view k a)) m) = size m.
Proof.
  rewrite <- !size_dom. f_equal. apply set_eq. intros k.
  rewrite !elem_of_dom, map_lookup_imap. destruct (m !! k); cbn; [|done]. split; intros _; eauto.
Qed.

Definition trusted_keyed (t : trustedEntities) : Prop := map_Forall param_keyed (te_TrustedParams t).

Definition dto_trusted_ok (d : persistedTrustedStateV1) : Prop :=
  map_Forall (fun k p => valid_string k = true /\ dto_param_ok p) (pt_TrustedParams d).

Lemma trustedStateToV1_ok t d :
  trustedStateToV1 t = Ok d -> trusted_wide t -> trusted_keyed t ->
  map_Forall (fun _ p => valid_string (src_Kind (tp_Source p)) = true) (te_TrustedParams t) ->
  trustedStateFromV1 d = Ok (persisted_trusted t) /\ dto_trusted_ok d
  /\ d = mkTrustedDTO (te_TenantID t) (te_DepartmentID t) (te_DeptIDs t) (te_UserID t)
        (te_UserName t) (te_Date t) (te_Section t) (te_Week t) (te_ConversationID t) (te_Scope t)
        (te_QueryShape t) (te_UserRole t) (pt_TrustedParams d)
  /\ forallb valid_string [te_UserName t; te_Date t; te_ConversationID t; te_Scope t; te_QueryShape t]
     = true.
Proof.
  intros H Hw Hkeyed Hkinds. pose proof H as H0. unfold trustedStateToV1 in H.
  apply res_bind_Ok in H as (? & Hd%guard_Ok & H). apply res_bind_Ok in H as (? & Hn%guard_Ok & H).
  apply res_bind_Ok in H as (ps & Hps & H). apply res_bind_Ok in H as (? & Hs%guard_Ok & [= <-]).
  destruct Hw as (_ & _ & _ & _ & _ & _ & _ & Hpw).
  assert (Hall : map_Forall (fun k p => forall b, trustedParamToV1 k p = Ok b ->
      trustedParamFromV1 k b = Ok (persisted_param k p)
      /\ trustedParamToV1 k (persisted_param k p) = Ok b /\ dto_param_ok b /\ valid_string k = true)
      (te_TrustedParams t)).
  { intros k p Hp b Hb. destruct (Hpw k p Hp) as [? ?].
    by apply trustedParamToV1_ok; [|..|apply (Hkinds k p Hp)|apply (Hkeyed k p Hp)]. }
  assert (Hfrom := map_mapM_entries _ trustedParamFromV1 persisted_param
    (fun k b => valid_string k = true /\ dto_param_ok b) _ _ Hps).
  destruct Hfrom as [Hfrom Hok]; [intros k p Hp b Hb; destruct (Hall k p Hp b Hb); naive_solver|].
  assert (Hto : map_mapM trustedParamToV1
     (map_imap (fun k p => Some (persisted_param k p)) (te_TrustedParams t)) = Ok ps).
  { apply map_mapM_view; [done|]. intros k p Hp b Hb. destruct (Hall k p Hp b Hb); naive_solver. }
  assert (Hsz : map_len ps = map_len (te_TrustedParams t)).
  { unfold map_len. f_equal. rewrite <- (map_imap_Some_size persisted_param (te_TrustedParams t)).
    rewrite map_mapM_Ok in Hto. rewrite <- !size_dom. f_equal. apply set_eq. intros k.
    rewrite !elem_of_dom. specialize (Hto k). destruct (map_imap _ _ !! k), (ps !! k); naive_solver. }
  split; [|split; [done|split; [done|]]].
  - unfold trustedStateFromV1. cbn [pt_DeptIDs pt_TrustedParams pt_TenantID pt_DepartmentID pt_UserID
      pt_UserName pt_Date pt_Section pt_Week pt_ConversationID pt_Scope pt_QueryShape pt_UserRole].
    rewrite Hd, Hsz, Hn. cbn [andb guard res_bind]. rewrite Hfrom. cbn [res_bind].
    fold (persisted_trusted t). unfold trustedStateToV1.
    cbn [persisted_trusted te_DeptIDs te_TrustedParams te_UserName te_ConversationID te_Date te_Scope
         te_QueryShape].
    rewrite Hd. unfold map_len. rewrite map_imap_Some_size. unfold map_len in Hn. rewrite Hn.
    cbn [guard res_bind]. rewrite Hto. cbn [res_bind]. rewrite Hs. done.
  - b2p. cbn [forallb].
    repeat match goal with H : runeLengthWithin _ _ = true |- _ => apply runeLengthWithin_valid in H end.
    by rewrite !andb_true_iff.
Qed.

Lemma map_imap_same {A} (m : gmap string A) : map_imap (fun _ a => Some a) m = m.
Proof. apply map_eq. intros k. rewrite map_lookup_imap. by destruct (m !! k). Qed.

(** *** Trusted entities *)

Definition dto_entity_ok (d : persistedTrustedEntityV1) : Prop :=
  typed_ok (pe_Value d) /\ in_uint64 (pe_TenantID d) = true /\ valid_string (pe_ID d) = true
  /\ valid_string (pe_Type d) = true /\ valid_string (pe_Label d) = true.

Lemma trustedEntityToV1_ok k e d :
  trustedEntityToV1 k e = Ok d -> value_wide (ent_Value e) = true -> in_uint64 (ent_TenantID e) = true ->
  trustedEntityFromV1 k d = Ok e /\ valid_string k = true /\ dto_entity_ok d.
Proof.
  unfold trustedEntityToV1, trustedEntityFromV1. intros H Hw Ht.
  apply res_bind_Ok in H as ([] & Hk%wrap_err_Ok & H). apply res_bind_Ok in H as (? & Hs%guard_Ok & H).
  apply res_bind_Ok in H as (v & Hv%wrap_err_Ok & [= <-]).
  destruct (validateWorkflowMapKey_Ok _ Hk) as [_ Hkl]. destruct (encode_decode _ _ Hv Hw) as [Hd Hty].
  unfold dto_entity_ok. cbn [pe_ID pe_Type pe_Label pe_Value pe_TenantID]. rewrite Hk.
  cbn [wrap_err res_bind]. rewrite Hd. cbn [wrap_err res_bind]. b2p.
  repeat match goal with H : runeLengthWithin _ _ = true |- _ => apply runeLengthWithin_valid in H end.
  repeat split; try done; try apply Hty. by destruct e.
Qed.

Lemma trustedEntitiesToV1_ok m d :
  trustedEntitiesToV1 m = Ok d ->
  map_Forall (fun _ e => value_wide (ent_Value e) = true /\ in_uint64 (ent_TenantID e) = true) m ->
  trustedEntitiesFromV1 d = Ok m
  /\ map_Forall (fun k e => valid_string k = true /\ dto_entity_ok e) d.
Proof.
  intros H Hw. pose proof H as H0. unfold trustedEntitiesToV1 in H.
  apply res_bind_Ok in H as (? & Hn%guard_Ok & Hm).
  destruct (map_mapM_entries trustedEntityToV1 trustedEntityFromV1 (fun _ e => e)
    (fun k e => valid_string k = true /\ dto_entity_ok e) _ _ Hm) as [Hf Hok].
  { intros k e He b Hb. destruct (Hw k e He). by apply trustedEntityToV1_ok. }
  rewrite map_imap_same in Hf. split; [|done]. unfold trustedEntitiesFromV1.
  assert (Hsz : map_len d = map_len m).
  { unfold map_len. f_equal. rewrite map_mapM_Ok in Hm. rewrite <- !size_dom. f_equal.
    apply set_eq. intros k. rewrite !elem_of_dom. specialize (Hm k).
    destruct (m !! k), (d !! k); naive_solver. }
  rewrite Hsz, Hn, Hf. cbn [guard res_bind]. case_bool_decide as E; [by rewrite E|]. by rewrite H0.
Qed.

(** *** Candidates *)

Definition total_len {A} (m : gmap string (list A)) : Z := map_fold (fun _ l n => n + len l) 0 m.

Lemma total_len_insert {A} k (l : list A) m :
  m !! k = None -> total_len (<[k := l]> m) = total_len m + len l.
Proof. intros H. unfold total_len. rewrite map_fold_insert_L; [done| |done]. intros. lia. Qed.

Lemma total_len_nonneg {A} (m : gmap string (list A)) : 0 <= total_len m.
Proof.
  unfold total_len. apply (map_fold_weak_ind (fun r _ => 0 <= r)); [done|].
  intros. unfold len. lia.
Qed.

Definition entry_converted {A B} (conv : A -> res B) (o : option (list A)) (o' : option (list B)) : Prop :=
  match o, o' with
  | Some l, Some l' => l <> [] /\ list_mapM conv l = Ok l'
  | Some l, None => l = []
  | None, None => True
  | None, Some _ => False
  end.

(** The candidate loop succeeds exactly when every field passes its checks and
    the total fits, in whatever order the map is walked. *)
Lemma candidates_loop_Ok {A B} check (conv : A -> res B) m t r :
  candidates_loop check conv m = Ok (t, r) <->
  t = total_len m /\ total_len m <= workflowSnapshotMaxCandidatesTotal
  /\ map_Forall (fun k l => check k = Ok tt /\ len l <= workflowSnapshotMaxCandidatesPerField) m
  /\ (forall k, entry_converted conv (m !! k) (r !! k)).
Proof.
  unfold candidates_loop. revert t r.
  apply (map_fold_weak_ind (fun acc m => forall t r, acc = Ok (t, r) <->
    t = total_len m /\ total_len m <= workflowSnapshotMaxCandidatesTotal
    /\ map_Forall (fun k l => check k = Ok tt /\ len l <= workflowSnapshotMaxCandidatesPerField) m
    /\ (forall k, entry_converted conv (m !! k) (r !! k)))).
  - intros t r. split.
    + intros [= <- <-]. split; [done|]. split; [by vm_compute|]. split; [apply map_Forall_empty|].
      intros k. by rewrite !lookup_empty.
    + intros (-> & _ & _ & Hk). do 2 f_equal. apply map_eq. intros k. specialize (Hk k).
      rewrite lookup_empty in *. by destruct (r !! k).
  - intros k l m0 acc Hfresh IH t r. rewrite res_bind_Ok, total_len_insert by done.
    rewrite map_Forall_insert by done. pose proof (total_len_nonneg m0) as Hnn. split.
    + intros ([t0 r0] & (-> & Ht & Hf & Hc)%IH & H).
      apply res_bind_Ok in H as ([] & Hchk & H). apply res_bind_Ok in H as (? & Hl%guard_Ok & H).
      apply res_bind_Ok in H as (? & Htot%guard_Ok & H). apply res_bind_Ok in H as (l' & Hl' & [= <- <-]).
      b2p. repeat (split; [done|]). intros k'. specialize (Hc k').
      destruct (decide (k = k')) as [<-|Hne].
      * rewrite lookup_insert_eq. rewrite Hfresh in Hc. cbn in Hc.
        destruct (r0 !! k) eqn:Er; [done|]. destruct l as [|a l].
        -- injection Hl' as <-. by rewrite Er.
        -- destruct l' as [|b l']; [apply list_mapM_Ok in Hl'; inversion Hl'|].
           by rewrite lookup_insert_eq.
      * rewrite lookup_insert_ne by done. destruct l'; [done|]. by rewrite lookup_insert_ne.
    + intros (-> & Ht & [[Hchk Hl] Hf] & Hc). assert (0 <= len l) by (unfold len; lia).
      exists (total_len m0, delete k r). split.
      * apply IH. split; [done|]. split; [lia|]. split; [done|]. intros k'. specialize (Hc k').
        destruct (decide (k = k')) as [<-|Hne]; [by rewrite Hfresh, lookup_delete_eq|].
        rewrite lookup_insert_ne in Hc by done. by rewrite lookup_delete_ne.
      * specialize (Hc k). rewrite lookup_insert_eq in Hc. rewrite Hchk. cbn [res_bind].
        apply Z.leb_le in Hl, Ht. rewrite Hl, Ht. cbn [guard res_bind].
        destruct (r !! k) as [l'|] eqn:Er; cbn in Hc.
        -- destruct Hc as [Hne Hm]. rewrite Hm. cbn [res_bind]. do 2 f_equal.
           assert (l' <> []). { intros ->. apply list_mapM_Ok in Hm. by inversion Hm. }
           destruct l' as [|b l']; [done|]. rewrite insert_delete_eq. by rewrite insert_id.
        -- subst l. cbn [list_mapM res_bind]. do 2 f_equal. by apply delete_id.
Qed.

Definition dto_candidate_ok (d : persistedCandidateV1) : Prop :=
  typed_ok (pc_Value d) /\ in_uint64 (pc_TenantID d) = true /\ valid_string (pc_ID d) = true
  /\ valid_string (pc_Label d) = true.

Definition candidate_wide (c : Candidate) : Prop :=
  value_wide (cand_Value c) = true /\ in_uint64 (cand_TenantID c) = true.

Lemma candidateToV1_ok c d :
  candidateToV1 c = Ok d -> candidate_wide c -> candidateFromV1 d = Ok c /\ dto_candidate_ok d.
Proof.
  unfold candidateToV1, candidateFromV1. intros H [Hw Ht].
  apply res_bind_Ok in H as (? & Hs%guard_Ok & H). apply res_bind_Ok in H as (v & Hv%wrap_err_Ok & [= <-]).
  destruct (encode_decode _ _ Hv Hw) as [Hd Hty]. unfold dto_candidate_ok.
  cbn [pc_ID pc_Label pc_Value pc_TenantID]. rewrite Hd. cbn [wrap_err res_bind]. b2p.
  repeat match goal with H : runeLengthWithin _ _ = true |- _ => apply runeLengthWithin_valid in H end.
  repeat split; try done; try apply Hty. by destruct c.
Qed.

Lemma candidates_list_ok l l' :
  list_mapM candidateToV1 l = Ok l' -> Forall candidate_wide l ->
  list_mapM candidateFromV1 l' = Ok l /\ Forall dto_candidate_ok l' /\ length l' = length l.
Proof.
  rewrite !list_mapM_Ok. intros H. induction H as [|c d l l' Hc Hl IH]; intros Hw.
  { split; [constructor|]. split; [constructor|done]. }
  inversion Hw; subst. destruct (candidateToV1_ok _ _ Hc) as [? ?]; [done|].
  destruct IH as (? & ? & ?); [done|]. split; [by constructor|]. split; [by constructor|]. cbn. lia.
Qed.

(** Maps whose fields convert have the same totals. *)
Lemma total_len_converted {A B} (m : gmap string (list A)) (m' : gmap string (list B)) :
  (forall k, match m !! k, m' !! k with
             | Some l, Some l' => len l' = len l
             | Some l, None => l = []
             | None, None => True
             | None, Some _ => False end) ->
  total_len m' = total_len m.
Proof.
  revert m'. induction m as [|k l m Hk IH] using map_ind; intros m' H.
  - assert (m' = ∅) as ->; [|done]. apply map_eq. intros k. specialize (H k).
    rewrite lookup_empty in *. by destruct (m' !! k).
  - rewrite total_len_insert by done. rewrite <- (IH (delete k m')).
    + specialize (H k). rewrite lookup_insert_eq in H. destruct (m' !! k) as [l'|] eqn:E.
      * rewrite <- (insert_delete_id m' k l') at 1 by done.
        rewrite total_len_insert by apply lookup_delete_eq. lia.
      * subst l. rewrite delete_id by done. unfold len. cbn. lia.
    + intros k'. specialize (H k'). destruct (decide (k = k')) as [<-|Hne].
      * by rewrite Hk, lookup_delete_eq.
      * rewrite lookup_insert_ne in H by done. by rewrite lookup_delete_ne.
Qed.

Lemma candidatesToV1_ok m d :
  candidatesToV1 m = Ok d -> map_Forall (fun _ cs => Forall candidate_wide cs) m ->
  candidatesFromV1 d = Ok (cloneWorkflowCandidates m)
  /\ map_Forall (fun k cs => valid_string k = true /\ Forall dto_candidate_ok cs) d.
Proof.
  unfold candidatesToV1. intros H Hw.
  apply res_bind_Ok in H as (? & Hn%guard_Ok & H). apply res_bind_Ok in H as ([t r] & Hr & [= <-]).
  cbn [snd]. pose proof Hr as (-> & Htot & Hchk & Hc)%candidates_loop_Ok.
  set (v := cloneWorkflowCandidates m).
  assert (Hv : forall k, v !! k = match m !! k with Some (c :: cs) => Some (c :: cs) | _ => None end).
  { intros k. unfold v, cloneWorkflowCandidates. rewrite map_lookup_filter.
    destruct (m !! k) as [[|c cs]|]; cbn; [|by rewrite option_guard_True by done|done].
    by rewrite option_guard_False by naive_solver. }
  assert (Hback : forall k, match v !! k, r !! k with
      | Some l, Some l' => l <> [] /\ l' <> [] /\ list_mapM candidateToV1 l = Ok l'
          /\ list_mapM candidateFromV1 l' = Ok l /\ Forall dto_candidate_ok l' /\ length l' = length l
      | None, None => True | _, _ => False end).
  { intros k. specialize (Hc k). rewrite Hv. destruct (m !! k) as [l|] eqn:El, (r !! k) as [l'|] eqn:Er;
      cbn in Hc; try done.
    - destruct Hc as [Hne Hl]. destruct l as [|c cs]; [done|].
      destruct (candidates_list_ok _ _ Hl) as (? & ? & Hlen); [by apply (Hw k)|].
      repeat split; try done. by intros ->.
    - by subst. }
  assert (Hdom : forall k, is_Some (r !! k) -> is_Some (m !! k)).
  { intros k [l' Hl']. specialize (Hc k). rewrite Hl' in Hc. destruct (m !! k); [eauto|done]. }
  assert (Hsize : map_len r <= map_len m).
  { unfold map_len. rewrite <- !size_dom. apply inj_le, subseteq_size. intros k.
    rewrite !elem_of_dom. apply Hdom. }
  assert (Htr : total_len r = total_len m).
  { apply total_len_converted. intros k. specialize (Hback k). specialize (Hv k).
    destruct (m !! k) as [[|c cs]|]; rewrite Hv in Hback; destruct (r !! k); try done.
    destruct Hback as (_ & _ & _ & _ & _ & Hlen). unfold len. by rewrite Hlen. }
  assert (Htv : total_len v = total_len m).
  { apply total_len_converted. intros k. rewrite Hv. by destruct (m !! k) as [[|]|]. }
  assert (Hfrom : candidates_loop (fun _ => Ok tt) candidateFromV1 r = Ok (total_len r, v)).
  { apply candidates_loop_Ok. split; [done|]. split; [lia|]. split.
    - intros k l' Hl'. split; [done|]. specialize (Hback k). rewrite Hl' in Hback.
      destruct (v !! k) as [l|] eqn:Evk; [|done]. rewrite Hv in Evk.
      destruct (m !! k) as [[|c cs]|] eqn:Em; try done. injection Evk as <-.
      destruct (Hchk _ _ Em) as [_ Hlen]. destruct Hback as (_ & _ & _ & _ & _ & Hl'').
      unfold len in *. by rewrite Hl''.
    - intros k. specialize (Hback k). destruct (r !! k), (v !! k); cbn; naive_solver. }
  assert (Hkey : forall k, is_Some (r !! k) ->
            wrap_err "candidate field: %w" (validateWorkflowMapKey k) = Ok tt).
  { intros k Hk. apply Hdom in Hk as [l Hl]. by destruct (Hchk _ _ Hl). }
  split.
  - unfold candidatesFromV1.
    assert ((map_len r <=? workflowSnapshotMaxCandidateFields) = true) as ->
      by (b2p; apply Z.leb_le; lia).
    cbn [guard res_bind]. rewrite Hfrom. cbn [res_bind snd].
    case_bool_decide as E; [by rewrite E|]. unfold candidatesToV1.
    assert (map_len v <= map_len m).
    { unfold map_len. rewrite <- !size_dom. apply inj_le, subseteq_size. intros k.
      rewrite !elem_of_dom, Hv. destruct (m !! k) as [[|]|]; cbn; intros [? ?]; naive_solver. }
    assert ((map_len v <=? workflowSnapshotMaxCandidateFields) = true) as ->
      by (b2p; apply Z.leb_le; lia).
    cbn [guard res_bind].
    assert (candidates_loop (fun k => wrap_err "candidate field: %w" (validateWorkflowMapKey k))
              candidateToV1 v = Ok (total_len v, r)) as ->; [|done].
    apply candidates_loop_Ok. split; [done|]. split; [lia|]. split.
    + intros k l Hl. rewrite Hv in Hl. destruct (m !! k) as [[|c cs]|] eqn:Em; try done.
      injection Hl as <-. by apply (Hchk _ _ Em).
    + intros k. specialize (Hback k). destruct (v !! k), (r !! k); cbn; naive_solver.
  - intros k cs Hk. split.
    + assert (H1 := Hkey k ltac:(by rewrite Hk; eauto)). apply wrap_err_Ok in H1.
      destruct (validateWorkflowMapKey_Ok _ H1) as [_ ?]. by eapply runeLengthWithin_valid.
    + specialize (Hback k). rewrite Hk in Hback. destruct (v !! k); naive_solver.
Qed.

(** ** The JSON of each part *)

Lemma dec_source_ok d : dec_source (json_of_source d) zero_source = Ok d.
Proof.
  unfold dec_source, json_of_source. struct_fields. cbn [zero_source ps_Kind ps_Resolver].
  unfold no_str. rewrite !field_str. by destruct d.
Qed.

Lemma dec_param_ok d : dto_param_ok d -> dec_param (json_of_param d) zero_param = Ok d.
Proof.
  intros (Ht & Hu & _). unfold dec_param, json_of_param. struct_fields.
  cbn [zero_param pp_Field pp_Value pp_Source pp_TenantID].
  rewrite (dec_typed_ok _ Ht), dec_source_ok, field_uint64 by done. by destruct d.
Qed.

Lemma dec_entity_ok d : dto_entity_ok d -> dec_entity (json_of_entity d) zero_entity = Ok d.
Proof.
  intros (Ht & Hu & _). unfold dec_entity, json_of_entity. struct_fields.
  cbn [zero_entity pe_ID pe_Type pe_Label pe_Value pe_TenantID]. unfold no_str.
  rewrite !field_str, (dec_typed_ok _ Ht), field_uint64 by done. by destruct d.
Qed.

(** An element of a slice is stored over whatever the slice holds; a printed
    candidate starts from the zero value because the slice is empty. *)
Lemma dec_candidate_ok d : dto_candidate_ok d -> dec_candidate (json_of_candidate d) zero_candidate = Ok d.
Proof.
  intros (Ht & Hu & _). unfold dec_candidate, json_of_candidate. struct_fields.
  cbn [zero_candidate pc_ID pc_Label pc_Value pc_TenantID]. unfold no_str.
  rewrite !field_str, (dec_typed_ok _ Ht), field_uint64 by done. by destruct d.
Qed.

Lemma dec_elems_from_zero {A} (dec : decoder A) zero (enc : A -> json) l :
  Forall (fun a => dec (enc a) zero = Ok a) l ->
  dec_list dec zero (JArr (List.map enc l)) [] = Ok l.
Proof.
  intros H. cbn [dec_list]. induction H as [|a l Ha Hl IH]; cbn; [done|].
  by rewrite Ha; cbn; rewrite IH.
Qed.

Lemma field_ints l :
  forallb in_int64 l = true ->
  (if bool_decide (l = []) then Ok [] else dec_list dec_int64 0 (JArr (List.map json_int l)) []) = Ok l.
Proof. intros H. case_bool_decide as E; [by rewrite E|]. by apply dec_int64s_ok. Qed.

Lemma field_strs l :
  (if bool_decide (l = []) then Ok [] else dec_list dec_string "" (json_strs l) []) = Ok l.
Proof. apply field_list. by apply Forall_forall. Qed.

(** The scalar widths of a stored trusted state. *)
Definition dto_trusted_wide (d : persistedTrustedStateV1) : Prop :=
  in_uint64 (pt_TenantID d) = true /\ in_int64 (pt_DepartmentID d) = true
  /\ forallb in_int64 (pt_DeptIDs d) = true /\ in_uint64 (pt_UserID d) = true
  /\ in_int64 (pt_Section d) = true /\ in_int64 (pt_Week d) = true /\ in_int64 (pt_UserRole d) = true.

Lemma dec_trusted_ok d :
  dto_trusted_wide d -> dto_trusted_ok d -> dec_trusted (json_of_trusted d) zero_trusted = Ok d.
Proof.
  intros (H1 & H2 & H3 & H4 & H5 & H6 & H7) Hp. unfold dec_trusted, json_of_trusted. struct_fields.
  cbn [zero_trusted pt_TenantID pt_DepartmentID pt_DeptIDs pt_UserID pt_UserName pt_Date pt_Section
       pt_Week pt_ConversationID pt_Scope pt_QueryShape pt_UserRole pt_TrustedParams].
  unfold no_str. rewrite !field_str. rewrite (field_uint64 (pt_TenantID d)) by done.
  rewrite (field_int64 (pt_DepartmentID d)), field_ints by done. cbn [res_bind].
  rewrite (field_uint64 (pt_UserID d)) by done. cbn [res_bind].
  rewrite (field_int64 (pt_Section d)), (field_int64 (pt_Week d)) by done. cbn [res_bind].
  rewrite (field_int64 (pt_UserRole d)) by done. cbn [res_bind].
  rewrite field_map by (intros k p Hk; apply dec_param_ok, (Hp k p Hk)). cbn [res_bind].
  by destruct d.
Qed.

Definition dto_snapshot_ok (d : persistedWorkflowSnapshotV1) : Prop :=
  pw_SchemaVersion d = workflowSnapshotSchemaVersion
  /\ in_uint64 (pw_TenantID d) = true /\ in_uint64 (pw_ActorUserID d) = true
  /\ in_uint64 (pw_Version d) = true
  /\ dto_trusted_wide (pw_Trusted d) /\ dto_trusted_ok (pw_Trusted d)
  /\ map_Forall (fun k e => valid_string k = true /\ dto_entity_ok e) (pw_TrustedEntities d)
  /\ map_Forall (fun k cs => valid_string k = true /\ Forall dto_candidate_ok cs) (pw_Candidates d).

Lemma dec_snapshot_ok d :
  dto_snapshot_ok d -> dec_snapshot (json_of_snapshot d) zero_snapshot = Ok d.
Proof.
  intros (Hs & H1 & H2 & H3 & Htw & Hto & He & Hc). unfold dec_snapshot, json_of_snapshot. struct_fields.
  cbn [zero_snapshot pw_SchemaVersion pw_ID pw_TenantID pw_ActorUserID pw_ConversationID pw_Type
       pw_State pw_MissingFields pw_Trusted pw_TrustedEntities pw_Candidates pw_CreatedAt
       pw_UpdatedAt pw_ExpiresAt pw_Version].
  unfold no_str. rewrite !field_str. rewrite Hs, dec_int64_int by done. cbn [res_bind dec_string].
  rewrite (dec_uint64_int (pw_TenantID d)), (dec_uint64_int (pw_ActorUserID d)) by done.
  cbn [res_bind dec_string]. rewrite field_strs. cbn [res_bind].
  rewrite dec_trusted_ok by done. cbn [res_bind].
  rewrite field_map by (intros k e Hk; apply dec_entity_ok, (He k e Hk)). cbn [res_bind].
  assert (Hcand := field_map (dec_list dec_candidate zero_candidate) []
    (fun cs => JArr (List.map json_of_candidate cs)) (pw_Candidates d)). cbv beta in Hcand.
  rewrite Hcand.
  - cbn [res_bind]. rewrite dec_uint64_int by done. cbn [res_bind]. destruct d; cbn in *. by subst.
  - intros k cs Hk. apply dec_elems_from_zero. destruct (Hc k cs Hk) as [_ H].
    eapply Forall_impl; [exact H|]. apply dec_candidate_ok.
Qed.

(** ** Printable parts *)

Ltac printable_object :=
  apply printable_obj_members; [unfold max_depth; lia|];
  repeat (constructor; [intros _; cbn [fst snd]; split; [reflexivity|]|]);
  cbn [fst snd]; try lazymatch goal with
  | |- Forall _ [] => constructor
  | |- printable _ (JStr _) => apply printable_str
  | |- printable _ (json_int _) => apply printable_num
  end.

Lemma printable_source d s :
  d < 90 -> valid_string (ps_Kind s) = true -> valid_string (ps_Resolver s) = true ->
  printable d (json_of_source s).
Proof. intros Hd H1 H2. unfold json_of_source. by printable_object. Qed.

Lemma printable_param d p : d < 80 -> dto_param_ok p -> printable d (json_of_param p).
Proof.
  intros Hd (H1 & H2 & H3 & H4 & H5). unfold json_of_param. printable_object; try done.
  - apply printable_typed; [done|lia].
  - by apply printable_source; [lia|..].
Qed.

Lemma printable_entity d e : d < 80 -> dto_entity_ok e -> printable d (json_of_entity e).
Proof.
  intros Hd (H1 & H2 & H3 & H4 & H5). unfold json_of_entity. printable_object; try done.
  apply printable_typed; [done|lia].
Qed.

Lemma printable_candidate d c : d < 80 -> dto_candidate_ok c -> printable d (json_of_candidate c).
Proof.
  intros Hd (H1 & H2 & H3 & H4). unfold json_of_candidate. printable_object; try done.
  apply printable_typed; [done|lia].
Qed.

Lemma printable_trusted d t :
  d < 70 -> dto_trusted_ok t ->
  forallb valid_string [pt_UserName t; pt_Date t; pt_ConversationID t; pt_Scope t; pt_QueryShape t]
  = true ->
  printable d (json_of_trusted t).
Proof.
  intros Hd Hp Hs. cbn [forallb] in Hs. b2p. unfold json_of_trusted. printable_object; try done.
  - apply printable_ints. unfold max_depth. lia.
  - apply printable_map; [unfold max_depth; lia|]. intros k p Hk. destruct (Hp k p Hk).
    split; [done|]. apply printable_param; [lia|done].
Qed.

Lemma printable_strs d l :
  d < max_depth -> Forall (fun s => valid_string s = true) l -> printable d (json_strs l).
Proof.
  intros Hd H. constructor; [done|]. apply Forall_map. eapply Forall_impl; [exact H|].
  intros s Hs. by apply printable_str.
Qed.

Definition dto_snapshot_text_ok (d : persistedWorkflowSnapshotV1) : Prop :=
  forallb valid_string [pw_ID d; pw_ConversationID d; pw_Type d; pw_State d; pw_CreatedAt d;
    pw_UpdatedAt d; pw_ExpiresAt d] = true
  /\ Forall (fun s => valid_string s = true) (pw_MissingFields d)
  /\ forallb valid_string [pt_UserName (pw_Trusted d); pt_Date (pw_Trusted d);
       pt_ConversationID (pw_Trusted d); pt_Scope (pw_Trusted d); pt_QueryShape (pw_Trusted d)] = true.

Lemma printable_snapshot d :
  dto_snapshot_ok d -> dto_snapshot_text_ok d -> printable 0 (json_of_snapshot d).
Proof.
  intros (_ & _ & _ & _ & _ & Ht & He & Hc) (Hs & Hm & Hts). cbn [forallb] in Hs. b2p.
  unfold json_of_snapshot. printable_object; try done.
  - by apply printable_strs.
  - by apply printable_trusted; [lia|..].
  - apply printable_map; [done|]. intros k e Hk. destruct (He k e Hk). split; [done|].
    by apply printable_entity; [lia|].
  - assert (Hcm := printable_map (0 + 1) (fun cs => JArr (List.map json_of_candidate cs)) (pw_Candidates d)).
    cbv beta in Hcm. apply Hcm; [done|]. intros k cs Hk. destruct (Hc k cs Hk) as [Hv Hok].
    split; [done|]. constructor; [done|]. apply Forall_map. eapply Forall_impl; [exact Hok|].
    intros c Hcand. by apply printable_candidate; [lia|].
Qed.

(** ** Identity and authority *)

Lemma knownKind_valid k : knownTrustedParamSourceKind k = true -> valid_string k = true.
Proof.
  unfold knownTrustedParamSourceKind. intros H%bool_decide_eq_true.
  enough (forallb valid_string trustedParamSourceKinds = true) as HF
    by (rewrite forallb_forall in HF; by apply HF, list_elem_of_In).
  reflexivity.
Qed.

(** Everything a snapshot trusts belongs to its tenant and conversation. *)
Definition own_authority (w : WorkflowSnapshot) : Prop :=
  (te_TenantID (wf_Trusted w) = 0 \/ te_TenantID (wf_Trusted w) = wf_TenantID w)
  /\ (te_ConversationID (wf_Trusted w) = "" \/ te_ConversationID (wf_Trusted w) = wf_ConversationID w)
  /\ map_Forall (fun _ p => tp_TenantID p = wf_TenantID w
       /\ src_Kind (tp_Source p) ∈ trustedParamSourceKinds) (te_TrustedParams (wf_Trusted w))
  /\ map_Forall (fun _ e => ent_TenantID e = wf_TenantID w) (wf_TrustedEntities w)
  /\ map_Forall (fun _ cs => Forall (fun c => cand_TenantID c = 0 \/ cand_TenantID c = wf_TenantID w) cs)
       (wf_Candidates w).

Lemma validateAuthority_Ok w : validateWorkflowSnapshotAuthority w = Ok tt <-> own_authority w.
Proof.
  unfold validateWorkflowSnapshotAuthority, own_authority, knownTrustedParamSourceKind. cbv zeta.
  split.
  - intros H. apply res_bind_Ok in H as (? & H1%guard_Ok & H). apply res_bind_Ok in H as (? & H2%guard_Ok & H).
    apply res_bind_Ok in H as ([] & H3%map_checkM_Ok & H).
    apply res_bind_Ok in H as ([] & H4%map_checkM_Ok & H5%map_checkM_Ok).
    split; [apply orb_true_iff in H1; rewrite !Z.eqb_eq in H1; done|].
    split; [apply orb_true_iff in H2; rewrite !bool_decide_eq_true in H2; done|].
    split; [|split].
    + intros k p Hk. specialize (H3 k p Hk). apply res_bind_Ok in H3 as (? & ?%guard_Ok & ?%guard_Ok).
      by b2p.
    + intros k e Hk. specialize (H4 k e Hk). apply guard_Ok in H4. by b2p.
    + intros k cs Hk. specialize (H5 k cs Hk). apply list_checkM_Ok in H5.
      eapply Forall_impl; [exact H5|]. intros c Hc%guard_Ok%orb_true_iff. by rewrite !Z.eqb_eq in Hc.
  - intros (H1 & H2 & H3 & H4 & H5).
    apply res_bind_Ok. exists tt. split; [apply guard_Ok, orb_true_iff; by rewrite !Z.eqb_eq|].
    apply res_bind_Ok. exists tt. split; [apply guard_Ok, orb_true_iff; by rewrite !bool_decide_eq_true|].
    apply res_bind_Ok. exists tt. split.
    { apply map_checkM_Ok. intros k p Hk. destruct (H3 k p Hk) as [? ?].
      apply res_bind_Ok. exists tt. split; apply guard_Ok; [by apply Z.eqb_eq|by apply bool_decide_eq_true]. }
    apply res_bind_Ok. exists tt. split.
    { apply map_checkM_Ok. intros k e Hk. apply guard_Ok, Z.eqb_eq. by apply (H4 k e Hk). }
    apply map_checkM_Ok. intros k cs Hk. apply list_checkM_Ok. specialize (H5 k cs Hk).
    eapply Forall_impl; [exact H5|]. intros c Hc. apply guard_Ok, orb_true_iff. by rewrite !Z.eqb_eq.
Qed.

(** What identity validation accepts. *)
Definition identity_ok (w : WorkflowSnapshot) : Prop :=
  blank (wf_ID w) = false /\ runeLengthWithin (wf_ID w) workflowSnapshotMaxWorkflowIDRunes = true
  /\ wf_TenantID w <> 0 /\ wf_ActorUserID w <> 0
  /\ blank (wf_ConversationID w) = false
  /\ runeLengthWithin (wf_ConversationID w) workflowSnapshotMaxConversationRunes = true
  /\ wf_Type w ∈ workflowTypes /\ wf_State w ∈ workflowStates /\ wf_ExpiresAt w <> 0
  /\ Forall (fun f => blank f = false /\ runeLengthWithin f workflowSnapshotMaxKeyRunes = true)
       (workflowMissingFields w)
  /\ own_authority w.

Lemma validateIdentity_Ok w : validateWorkflowSnapshotIdentity w = Ok tt <-> identity_ok w.
Proof.
  unfold validateWorkflowSnapshotIdentity, identity_ok, is_zero. split.
  - intros H. repeat (apply res_bind_Ok in H as (? & ?%guard_Ok & H)).
    apply res_bind_Ok in H as ([] & Hm%list_checkM_Ok & H%validateAuthority_Ok). b2p.
    repeat (split; [done|]). split; [|done]. eapply Forall_impl; [exact Hm|].
    intros f Hf%guard_Ok. by b2p.
  - intros (H1 & H2 & H3 & H4 & H5 & H6 & H7 & H8 & H9 & Hm & Ha).
    rewrite H1, H2, H5, H6, !bool_decide_eq_true_2 by done.
    apply Z.eqb_neq in H3, H4, H9. rewrite H3, H4, H9. cbn [negb andb guard res_bind].
    apply res_bind_Ok. exists tt. split; [|by apply validateAuthority_Ok].
    apply list_checkM_Ok. eapply Forall_impl; [exact Hm|]. intros f [-> ->]. done.
Qed.

Lemma own_authority_view w : own_authority w -> own_authority (persisted_view w).
Proof.
  unfold own_authority, persisted_view, persisted_trusted.
  cbn [wf_Trusted te_TenantID te_ConversationID wf_TenantID wf_ConversationID te_TrustedParams
       wf_TrustedEntities wf_Candidates].
  intros (H1 & H2 & H3 & H4 & H5). repeat (split; [done|]). split; [|split; [done|]].
  - intros k p'. rewrite map_lookup_imap. destruct (te_TrustedParams _ !! k) as [p|] eqn:E; [|done].
    cbn. intros [= <-]. exact (H3 k p E).
  - intros k cs [Hk _]%map_lookup_filter_Some. exact (H5 k cs Hk).
Qed.

Lemma identity_ok_view w : identity_ok w -> identity_ok (persisted_view w).
Proof.
  intros (H1 & H2 & H3 & H4 & H5 & H6 & H7 & H8 & H9 & Hm & Ha).
  assert (Hmf : workflowMissingFields (persisted_view w) = workflowMissingFields w).
  { unfold persisted_view, workflowMissingFields. cbn. by destruct (wf_MissingFields w), (wf_MissingSlots w). }
  unfold identity_ok. rewrite Hmf. repeat (split; [done|]). by apply own_authority_view.
Qed.

Lemma closed_valid (l : list string) s :
  forallb valid_string l = true -> s ∈ l -> valid_string s = true.
Proof. intros HF H. rewrite forallb_forall in HF. by apply HF, list_elem_of_In. Qed.

(** ** The round trip *)

Lemma snapshotToV1_ok w d :
  workflowSnapshotToV1 w = Ok d -> snapshot_wide w -> snapshot_times_ok w ->
  trusted_keyed (wf_Trusted w) ->
  workflowSnapshotFromV1 d = Ok (persisted_view w) /\ dto_snapshot_ok d /\ dto_snapshot_text_ok d.
Proof.
  intros H (Hw1 & Hw2 & Hw3 & Htw & Hew & Hcw) (Hy1 & Hy2 & Hy3) Hkeyed. unfold workflowSnapshotToV1 in H.
  apply res_bind_Ok in H as ([] & Hid%validateIdentity_Ok & H).
  apply res_bind_Ok in H as (t & Ht & H). apply res_bind_Ok in H as (es & He & H).
  apply res_bind_Ok in H as (cs & Hc & [= <-]).
  pose proof Hid as (Hi1 & Hi2 & Hi3 & Hi4 & Hi5 & Hi6 & Hi7 & Hi8 & Hi9 & Him & Hia).
  assert (Hkinds : map_Forall (fun _ p => valid_string (src_Kind (tp_Source p)) = true)
                     (te_TrustedParams (wf_Trusted w))).
  { destruct Hia as (_ & _ & Hp & _). intros k p Hk. destruct (Hp k p Hk) as [_ Hsk].
    apply knownKind_valid. by apply bool_decide_eq_true. }
  destruct (trustedStateToV1_ok _ _ Ht Htw Hkeyed Hkinds) as (Htf & Hto & Hte & Hts).
  destruct (trustedEntitiesToV1_ok _ _ He Hew) as [Hef Heo].
  destruct (candidatesToV1_ok _ _ Hc Hcw) as [Hcf Hco].
  split; [|split].
  - unfold workflowSnapshotFromV1. cbn [pw_CreatedAt pw_UpdatedAt pw_ExpiresAt pw_Trusted
      pw_TrustedEntities pw_Candidates pw_ID pw_TenantID pw_ActorUserID pw_ConversationID pw_Type
      pw_State pw_MissingFields pw_Version].
    rewrite !parseWorkflowTime_format by done. cbn [res_bind]. rewrite Htf, Hef, Hcf. cbn [res_bind].
    fold (persisted_view w). apply identity_ok_view in Hid. apply validateIdentity_Ok in Hid.
    by rewrite Hid.
  - unfold dto_snapshot_ok. cbn [pw_SchemaVersion pw_TenantID pw_ActorUserID pw_Version pw_Trusted
      pw_TrustedEntities pw_Candidates].
    repeat (split; [done|]). split; [|done].
    rewrite Hte. destruct Htw as (? & ? & ? & ? & ? & ? & ? & _). done.
  - unfold dto_snapshot_text_ok. cbn [pw_ID pw_ConversationID pw_Type pw_State pw_CreatedAt
      pw_UpdatedAt pw_ExpiresAt pw_MissingFields pw_Trusted].
    split; [|split].
    + cbn [forallb]. rewrite !andb_true_iff.
      repeat split; try (by eapply runeLengthWithin_valid); try (by apply formatWorkflowTime_valid).
      * by apply (closed_valid workflowTypes).
      * by apply (closed_valid workflowStates).
    + eapply Forall_impl; [exact Him|]. intros f [_ Hf]. by eapply runeLengthWithin_valid.
    + rewrite Hte. exact Hts.
Qed.

Lemma snapshot_marshal_ok w payload :
  MarshalWorkflowSnapshot w = Ok payload ->
  snapshot_wide w -> snapshot_times_ok w -> trusted_keyed (wf_Trusted w) ->
  UnmarshalWorkflowSnapshot payload = Ok (persisted_view w).
Proof.
  unfold MarshalWorkflowSnapshot. intros H Hw Ht Hk. apply res_bind_Ok in H as (d & Hd & H).
  destruct (_ <? _) eqn:El; [discriminate|]. injection H as <-.
  destruct (snapshotToV1_ok _ _ Hd Hw Ht Hk) as (Hfrom & Hok & Htext).
  unfold UnmarshalWorkflowSnapshot. unfold json_of_snapshot at 1. rewrite marshal_obj_nonempty, El.
  rewrite decode_strict_marshal by (by apply printable_snapshot).
  rewrite dec_snapshot_ok by done. destruct Hok as (-> & _). done.
Qed.

(** a workflow snapshot that can be stored reads back as its persisted
    view: every business field unchanged, with the last user message and the
    raw text behind each trusted parameter left out. *)
Theorem snapshot_roundtrip w payload :
  MarshalWorkflowSnapshot w = Ok payload ->
  snapshot_wide w -> snapshot_times_ok w -> trusted_keyed (wf_Trusted w) ->
  UnmarshalWorkflowSnapshot payload = Ok (persisted_view w).
Proof. apply snapshot_marshal_ok. Qed.

Definition sample_snapshot : WorkflowSnapshot :=
  mkSnapshot "wf-1" 7 42 "cid-1" "subscription.start" "collect_departments" ["dept_names"]
    {[ "dept" := mkTrustedEntity "11" "department" "研发部" (VInt64 11) 7 ]}
    {[ "dept_ids" := [mkCandidate "11" "研发部" (VInt64 11) 7; mkCandidate "12" "市场部" (VInt64 12) 0] ]}
    "帮我订阅研发部" (instant 2026 3 1 9 0 0 0) (instant 2026 3 1 9 0 5 120) (instant 2026 3 1 9 30 0 0) 3
    [] (mkTrusted 7 0 [11; 12] 42 "张三" "" 0 0 "cid-1" "department" "" 1
         {[ "scope" := mkTrustedParam "scope" (VString "department") (mkSource "raw_slot" "部门" "scope") 7 ]}).

Lemma snapshot_roundtrip_witness :
  exists payload, MarshalWorkflowSnapshot sample_snapshot = Ok payload
    /\ UnmarshalWorkflowSnapshot payload = Ok (persisted_view sample_snapshot).
Proof.
  eexists. split; [vm_compute; reflexivity|]. apply (snapshot_roundtrip sample_snapshot).
  - vm_compute. reflexivity.
  - do 3 (split; [reflexivity|]). split; [do 7 (split; [reflexivity|])|split];
      intros k y Hy; cbn in Hy; apply lookup_singleton_Some in Hy as [_ <-]; [by split|by split|].
    repeat (constructor; [by split|]). constructor.
  - repeat split; vm_compute; congruence.
  - intros k p Hp. cbn in Hp. apply lookup_singleton_Some in Hp as [<- <-]. intros _. reflexivity.
Defined.

(** ** Authority of what is read back *)

(** whatever bytes are decoded, a snapshot that comes out is complete and
    trusts only its own tenant: its identity fields are present and within
    their limits, its type and state are known, and every trusted parameter,
    entity and candidate carries the snapshot's tenant. *)
Theorem unmarshal_authority payload w :
  UnmarshalWorkflowSnapshot payload = Ok w -> identity_ok w.
Proof.
  unfold UnmarshalWorkflowSnapshot. destruct (_ =? _); [discriminate|].
  destruct (_ <? _); [discriminate|]. destruct (decode_strict _ _ _) as [d|]; [|discriminate].
  destruct (_ =? _); [|discriminate]. unfold workflowSnapshotFromV1. intros H.
  repeat (apply res_bind_Ok in H as (? & ? & H)). injection H as <-.
  match goal with u : unit |- _ => destruct u end. by apply validateIdentity_Ok.
Qed.

Definition sample_payload : string := default "" (match MarshalWorkflowSnapshot sample_snapshot with
                                                  | Ok p => Some p | Err _ => None end).

Lemma unmarshal_authority_witness : identity_ok (persisted_view sample_snapshot).
Proof. apply (unmarshal_authority sample_payload). vm_compute. reflexivity. Defined.

(** ** What is not stored *)

Definition scrub_param (p : TrustedParam) : TrustedParam :=
  mkTrustedParam (tp_Field p) (tp_Value p) (mkSource (src_Kind (tp_Source p)) "" (src_Resolver (tp_Source p)))
    (tp_TenantID p).
Definition scrub_trusted (t : trustedEntities) : trustedEntities :=
  mkTrusted (te_TenantID t) (te_DepartmentID t) (te_DeptIDs t) (te_UserID t) (te_UserName t)
    (te_Date t) (te_Section t) (te_Week t) (te_ConversationID t) (te_Scope t) (te_QueryShape t)
    (te_UserRole t) (scrub_param <$> te_TrustedParams t).

(** The snapshot without the user's own words. *)
Definition scrub (w : WorkflowSnapshot) : WorkflowSnapshot :=
  mkSnapshot (wf_ID w) (wf_TenantID w) (wf_ActorUserID w) (wf_ConversationID w) (wf_Type w)
    (wf_State w) (wf_MissingFields w) (wf_TrustedEntities w) (wf_Candidates w) "" (wf_CreatedAt w)
    (wf_UpdatedAt w) (wf_ExpiresAt w) (wf_Version w) (wf_MissingSlots w) (scrub_trusted (wf_Trusted w)).

Lemma res_bind_iff {A B} (r1 r2 : res A) (k1 k2 : A -> res B) b :
  (forall a, r1 = Ok a <-> r2 = Ok a) -> (forall a b, k1 a = Ok b <-> k2 a = Ok b) ->
  res_bind r1 k1 = Ok b <-> res_bind r2 k2 = Ok b.
Proof. intros Hr Hk. rewrite !res_bind_Ok. by setoid_rewrite Hr; setoid_rewrite Hk. Qed.

Lemma map_mapM_fmap {A B} (f : string -> A -> res B) (g : A -> A) m r :
  (forall k a, f k (g a) = f k a) -> map_mapM f (g <$> m) = Ok r <-> map_mapM f m = Ok r.
Proof.
  intros Hg. rewrite !map_mapM_Ok. split; intros H k; specialize (H k); rewrite lookup_fmap in *;
    destruct (m !! k); cbn in *; try rewrite Hg in *; done.
Qed.

Lemma own_authority_scrub w : own_authority (scrub w) <-> own_authority w.
Proof.
  unfold own_authority, scrub, scrub_trusted.
  cbn [wf_Trusted te_TenantID te_ConversationID wf_TenantID wf_ConversationID te_TrustedParams
       wf_TrustedEntities wf_Candidates].
  rewrite map_Forall_fmap. done.
Qed.

Lemma identity_ok_scrub w : identity_ok (scrub w) <-> identity_ok w.
Proof. unfold identity_ok. by rewrite own_authority_scrub. Qed.

Lemma trustedStateToV1_scrub t d :
  trustedStateToV1 (scrub_trusted t) = Ok d <-> trustedStateToV1 t = Ok d.
Proof.
  unfold trustedStateToV1, scrub_trusted.
  cbn [te_DeptIDs te_TrustedParams te_UserName te_ConversationID te_Date te_Scope te_QueryShape
       te_TenantID te_DepartmentID te_UserID te_Section te_Week te_UserRole].
  unfold map_len. rewrite map_size_fmap.
  apply res_bind_iff; [done|]. intros _ b1. apply res_bind_iff; [done|]. intros _ b2.
  apply res_bind_iff; [|done]. intros ps. by apply map_mapM_fmap.
Qed.

Lemma snapshotToV1_scrub w d : workflowSnapshotToV1 (scrub w) = Ok d <-> workflowSnapshotToV1 w = Ok d.
Proof.
  unfold workflowSnapshotToV1. apply res_bind_iff.
  - intros []. rewrite !validateIdentity_Ok. apply identity_ok_scrub.
  - intros _ b. apply res_bind_iff; [|done]. apply trustedStateToV1_scrub.
Qed.

(** the stored bytes carry none of the user's own words: two snapshots
    that differ only in the last user message and in the raw text behind their
    trusted parameters are stored as the same bytes. *)
Theorem stored_bytes_scrubbed w1 w2 payload :
  scrub w1 = scrub w2 ->
  MarshalWorkflowSnapshot w1 = Ok payload -> MarshalWorkflowSnapshot w2 = Ok payload.
Proof.
  intros Hs. unfold MarshalWorkflowSnapshot. rewrite !res_bind_Ok. intros (d & Hd & H).
  exists d. split; [|done]. apply snapshotToV1_scrub. rewrite <- Hs. by apply snapshotToV1_scrub.
Qed.

Lemma stored_bytes_scrubbed_witness :
  MarshalWorkflowSnapshot (scrub sample_snapshot) = Ok sample_payload.
Proof.
  apply (stored_bytes_scrubbed sample_snapshot (scrub sample_snapshot)); vm_compute; reflexivity.
Defined.

(** ** The business hash *)

(** The fields a store manages. *)
Definition restamp (version created updated expires : Z) (w : WorkflowSnapshot) : WorkflowSnapshot :=
  mkSnapshot (wf_ID w) (wf_TenantID w) (wf_ActorUserID w) (wf_ConversationID w) (wf_Type w)
    (wf_State w) (wf_MissingFields w) (wf_TrustedEntities w) (wf_Candidates w) (wf_LastUserMessage w)
    created updated expires version (wf_MissingSlots w) (wf_Trusted w).

(** the hash that shadow stores compare depends on business state alone:
    changing the version and the three timestamps leaves it as it is. *)
Theorem hash_ignores_stamps version created updated expires w h :
  WorkflowSnapshotHash w = Ok h -> expires <> 0 ->
  WorkflowSnapshotHash (restamp version created updated expires w) = Ok h.
Proof.
  intros H He. unfold WorkflowSnapshotHash in *. rewrite res_bind_Ok in H |- *.
  destruct H as (d & Hd & H). unfold workflowSnapshotToV1 in Hd.
  apply res_bind_Ok in Hd as ([] & Hid & Hd). apply res_bind_Ok in Hd as (t & Ht & Hd).
  apply res_bind_Ok in Hd as (es & Hes & Hd). apply res_bind_Ok in Hd as (cs & Hcs & [= <-]).
  assert (Hid' : validateWorkflowSnapshotIdentity (restamp version created updated expires w) = Ok tt).
  { apply validateIdentity_Ok. apply validateIdentity_Ok in Hid.
    destruct Hid as (? & ? & ? & ? & ? & ? & ? & ? & _ & ? & ?). by repeat (split; [done|]). }
  eexists. split.
  - unfold workflowSnapshotToV1. rewrite Hid'. cbn [restamp wf_Trusted wf_TrustedEntities wf_Candidates
      res_bind]. rewrite Ht, Hes, Hcs. cbn [res_bind]. reflexivity.
  - exact H.
Qed.

Lemma hash_ignores_stamps_witness :
  exists h, WorkflowSnapshotHash sample_snapshot = Ok h
    /\ WorkflowSnapshotHash (restamp 9 1 2 3 sample_snapshot) = Ok h.
Proof.
  eexists. split; [vm_compute; reflexivity|].
  apply (hash_ignores_stamps 9 1 2 3 sample_snapshot); [vm_compute; reflexivity|done].
Defined.

(** ** An asymmetry between writing and reading *)

Definition padded_key_snapshot : WorkflowSnapshot :=
  mkSnapshot "wf-1" 7 42 "cid-1" "subscription.start" "ready" [] ∅ ∅ "" 0 0
    (instant 2026 3 1 9 30 0 0) 1 []
    (mkTrusted 0 0 [] 0 "" "" 0 0 "" "" "" 0
       {[ " scope" := mkTrustedParam "" (VString "all") (mkSource "raw_slot" "" "") 7 ]}).

(** writing accepts what reading refuses: a parameter without a field
    name under a key with surrounding white space is stored, and the stored
    bytes are then rejected for a field mismatch. *)
Theorem padded_key_unreadable :
  exists payload, MarshalWorkflowSnapshot padded_key_snapshot = Ok payload
    /\ is_ok (UnmarshalWorkflowSnapshot payload) = false.
Proof.
  eexists. split; [vm_compute; reflexivity|]. vm_compute. reflexivity.
Qed.
