(* ===== verification/Store.v ===== *)
(** * The workflow store (internal/agent/workflow_store.go)

    The in-memory implementation of the [WorkflowStore] interface, one
    Definition per method.  A method runs under the store's mutex from its
    first read to its return, so it is one step on the store's state; it may
    read the clock several times, and the readings come from a sequence the
    section is given.  Records are values: every method stores and hands out
    clones, so no caller holds a pointer into the map. *)
From Stdlib Require Import ZArith Lia Bool String.
From stdpp Require Import base list strings gmap sorting.
From S2P Require Import Prelude GoStrings GoTime Json Contract Codec.
#[local] Open Scope go_scope.

(** ** Data *)

Definition defaultWorkflowTTL : Z := 30 * ns_min.

Definition errWorkflowKeyIncomplete : err := ESentinel "errWorkflowKeyIncomplete".
Definition ErrWorkflowConflict : err := ESentinel "ErrWorkflowConflict".
Definition ErrExecutionInProgress : err := ESentinel "ErrExecutionInProgress".

Record WorkflowKey := mkKey { key_TenantID : Z; key_ConversationID : string; key_ActorUserID : Z }.

#[global] Instance WorkflowKey_eq_dec : EqDecision WorkflowKey.
Proof. solve_decision. Defined.
#[global] Instance WorkflowKey_countable : Countable WorkflowKey.
Proof.
  apply (inj_countable' (fun k => (key_TenantID k, key_ConversationID k, key_ActorUserID k))
           (fun '(a, b, c) => mkKey a b c)).
  by intros [].
Defined.

Record VersionedWorkflow := mkVersioned {
  vw_Snapshot : WorkflowSnapshot; vw_Version : Z; vw_Execution : option PersistedExecutionV1 }.

Record memoryWorkflowRecord := mkRecord {
  mr_snapshot : WorkflowSnapshot; mr_version : Z; mr_execution : option PersistedExecutionV1 }.

(** The map and the number of clock readings made so far. *)
Record memoryWorkflowStore := mkStore {
  ms_workflows : gmap WorkflowKey memoryWorkflowRecord; ms_ticks : nat }.

Definition newMemoryWorkflowStore : memoryWorkflowStore := mkStore ∅ 0.

(** ** Keys *)

Definition validateWorkflowKey (k : WorkflowKey) : res unit :=
  if (key_TenantID k =? 0) || blank (key_ConversationID k) || (key_ActorUserID k =? 0)
  then Err (EWrap "%w: tenant_id=%d conversation_id=%q actor_user_id=%d" errWorkflowKeyIncomplete)
  else Ok tt.

Definition workflowKeyFromSnapshot (w : option WorkflowSnapshot) : res WorkflowKey :=
  match w with
  | None => Err errWorkflowKeyIncomplete
  | Some w =>
      let k := mkKey (wf_TenantID w) (trim_space (wf_ConversationID w)) (wf_ActorUserID w) in
      validateWorkflowKey k ;;; Ok k
  end.

(** hash/fnv's 32-bit FNV-1a *)
Definition fnv32a (l : list Z) : Z :=
  fold_left (fun h b => (Z.lxor h b * 16777619) mod 2 ^ 32) l 2166136261.

Definition workflowActorIDFromToken (token : string) : Z :=
  let v := trim_space token in
  match parse_uint v with
  | (n, None) => if 0 <? n then n else fnv32a (bytes v) + 1
  | _ => fnv32a (bytes v) + 1
  end.

Definition workflowKeyFromSessionKey (sessionKey : string) (w : option WorkflowSnapshot) : WorkflowKey :=
  match workflowKeyFromSnapshot w with
  | Ok k => k
  | Err _ =>
      let parts := split_byte 58 (trim_space sessionKey) in
      let p0 := default "" (head parts) in
      let tenant := match parse_uint p0 with (n, None) => n | _ => 0 end in
      let tenant := if tenant =? 0 then workflowActorIDFromToken p0 else tenant in
      match parts with
      | _ :: conv :: actor :: more =>
          mkKey tenant (trim_space conv) (workflowActorIDFromToken (join ":" (actor :: more)))
      | [_; p1] => mkKey tenant ("direct:" +:+ trim_space p1) (workflowActorIDFromToken p1)
      | _ => mkKey tenant ("legacy:" +:+ trim_space sessionKey) (workflowActorIDFromToken sessionKey)
      end
  end.

(** ** Clones *)

Definition cloneReservedExecution (r : ReservedExecutionV1) : ReservedExecutionV1 :=
  mkReserved (trim_space (re_Operation r)) (trim_space (re_BusinessKey r)) (re_TrustedParams r)
    (trim_space (re_ExecutionToken r)) (trim_space (re_AttemptRequestID r))
    (normalizeWorkflowDatabaseTime (re_StartedAt r))
    (normalizeWorkflowDatabaseTime (re_LeaseExpiresAt r)).

Definition clonePersistedExecution (e : PersistedExecutionV1) : PersistedExecutionV1 :=
  mkExecution (ex_Status e) (cloneReservedExecution (ex_Reservation e)) (ex_Result e).

Definition cloneVersionedWorkflow (r : memoryWorkflowRecord) : VersionedWorkflow :=
  mkVersioned (cloneWorkflowSnapshot (mr_snapshot r)) (mr_version r)
    (clonePersistedExecution <$> mr_execution r).

Definition workflowExpired (w : WorkflowSnapshot) (now : Z) : bool :=
  if is_zero (wf_ExpiresAt w) then false else negb (after (wf_ExpiresAt w) now).

(** The fields [prepareSnapshotLocked] sets on the clone. *)
Definition stamp_snapshot (key : WorkflowKey) (created updated expires version : Z)
    (w : WorkflowSnapshot) : WorkflowSnapshot :=
  mkSnapshot (wf_ID w) (key_TenantID key) (key_ActorUserID key) (key_ConversationID key) (wf_Type w)
    (wf_State w) (wf_MissingFields w) (wf_TrustedEntities w) (wf_Candidates w) (wf_LastUserMessage w)
    created updated expires version (wf_MissingSlots w) (wf_Trusted w).

Definition syncWorkflowSnapshotFields (w : WorkflowSnapshot) : WorkflowSnapshot :=
  let fields := workflowMissingFields w in
  with_candidates (cloneWorkflowCandidates (wf_Candidates w)) (with_missing fields fields w).

Definition setWorkflowSnapshotVersion (version : Z) (w : WorkflowSnapshot) : WorkflowSnapshot :=
  with_version version w.

Definition next_version (v : Z) : Z := wrap_uint64 (v + 1).

(** ** The store *)

Section store.
Context (clock : nat -> Z).

Definition store (A : Type) : Type := ST memoryWorkflowStore A.

Definition now : store Z := fun s => (Ok (clock (ms_ticks s)), mkStore (ms_workflows s) (S (ms_ticks s))).

Definition put_record (key : WorkflowKey) (r : memoryWorkflowRecord) : store unit :=
  fun s => (Ok tt, mkStore (<[key := r]> (ms_workflows s)) (ms_ticks s)).
Definition delete_record (key : WorkflowKey) : store unit :=
  fun s => (Ok tt, mkStore (delete key (ms_workflows s)) (ms_ticks s)).

(** [activeRecordLocked]: the clock is read only for a record without an
    execution; an expired one is deleted. *)
Definition activeRecordLocked (key : WorkflowKey) : store (option memoryWorkflowRecord) :=
  s <~ st_get ;;
  match ms_workflows s !! key with
  | None => st_ret None
  | Some r =>
      match mr_execution r with
      | Some _ => st_ret (Some r)
      | None =>
          t <~ now ;;
          if workflowExpired (mr_snapshot r) t
          then delete_record key ~;; st_ret None
          else st_ret (Some r)
      end
  end.

Definition recordForVersionedMutationLocked (key : WorkflowKey) (expectedVersion : Z)
  : store memoryWorkflowRecord :=
  o <~ activeRecordLocked key ;;
  match o with
  | Some r => if mr_version r =? expectedVersion then st_ret r else st_fail ErrWorkflowConflict
  | None => st_fail ErrWorkflowConflict
  end.

(** The record with the execution it must hold. *)
Definition recordForExecutionMutationLocked (key : WorkflowKey) (expectedVersion : Z)
    (executionToken : string) : store (memoryWorkflowRecord * PersistedExecutionV1) :=
  r <~ recordForVersionedMutationLocked key expectedVersion ;;
  match mr_execution r with
  | Some e =>
      if blank executionToken
         || negb (bool_decide (re_ExecutionToken (ex_Reservation e) = trim_space executionToken))
      then st_fail ErrWorkflowConflict
      else st_ret (r, e)
  | None => st_fail ErrWorkflowConflict
  end.

Definition prepareSnapshotLocked (key : WorkflowKey) (workflow : WorkflowSnapshot) (version : Z)
    (existing : option WorkflowSnapshot) : store WorkflowSnapshot :=
  t <~ now ;;
  let next := cloneWorkflowSnapshot workflow in
  let created :=
    if is_zero (wf_CreatedAt next) then
      match existing with
      | Some e => if is_zero (wf_CreatedAt e) then t else wf_CreatedAt e
      | None => t
      end
    else wf_CreatedAt next in
  let expires := if is_zero (wf_ExpiresAt next) then t + defaultWorkflowTTL else wf_ExpiresAt next in
  st_ret (syncWorkflowSnapshotFields (stamp_snapshot key created t expires version next)).

(** What every method checks before it takes the lock: the context's error,
    the key, and the snapshot where one is passed. *)
Definition check_call (ctxErr : option err) (key : WorkflowKey) : res unit :=
  match ctxErr with Some e => Err e | None => validateWorkflowKey key end.
Definition check_next (next : option WorkflowSnapshot) : res WorkflowSnapshot :=
  match next with Some w => Ok w | None => Err (EMsg "workflow snapshot is required") end.

(** ** Methods *)

Definition Load (ctxErr : option err) (key : WorkflowKey) : store (option VersionedWorkflow) :=
  st_lift (check_call ctxErr key) ~;;
  o <~ activeRecordLocked key ;;
  st_ret (cloneVersionedWorkflow <$> o).

Definition Create (ctxErr : option err) (key : WorkflowKey) (next : option WorkflowSnapshot)
  : store VersionedWorkflow :=
  st_lift (check_call ctxErr key) ~;;
  w <~ st_lift (check_next next) ;;
  o <~ activeRecordLocked key ;;
  match o with
  | Some _ => st_fail ErrWorkflowConflict
  | None =>
      snap <~ prepareSnapshotLocked key w 1 None ;;
      let r := mkRecord snap 1 None in
      put_record key r ~;; st_ret (cloneVersionedWorkflow r)
  end.

Definition CompareAndSwap (ctxErr : option err) (key : WorkflowKey) (expectedVersion : Z)
    (next : option WorkflowSnapshot) : store VersionedWorkflow :=
  st_lift (check_call ctxErr key) ~;;
  w <~ st_lift (check_next next) ;;
  r <~ recordForVersionedMutationLocked key expectedVersion ;;
  match mr_execution r with
  | Some _ => st_fail ErrExecutionInProgress
  | None =>
      let v := next_version (mr_version r) in
      snap <~ prepareSnapshotLocked key w v (Some (mr_snapshot r)) ;;
      let r' := mkRecord snap v None in
      put_record key r' ~;; st_ret (cloneVersionedWorkflow r')
  end.

Definition DeleteIfVersion (ctxErr : option err) (key : WorkflowKey) (expectedVersion : Z)
  : store unit :=
  st_lift (check_call ctxErr key) ~;;
  r <~ recordForVersionedMutationLocked key expectedVersion ;;
  match mr_execution r with
  | Some _ => st_fail ErrExecutionInProgress
  | None => delete_record key
  end.

Definition CreateReservedExecution (ctxErr : option err) (key : WorkflowKey)
    (next : option WorkflowSnapshot) (reservation : ReservedExecutionV1) : store VersionedWorkflow :=
  st_lift (check_call ctxErr key) ~;;
  w <~ st_lift (check_next next) ;;
  norm <~ st_lift (canonicalReservedExecution reservation) ;;
  o <~ activeRecordLocked key ;;
  match o with
  | Some _ => st_fail ErrWorkflowConflict
  | None =>
      snap <~ prepareSnapshotLocked key w 1 None ;;
      let r := mkRecord snap 1 (Some (mkExecution WorkflowExecutionExecuting norm None)) in
      put_record key r ~;; st_ret (cloneVersionedWorkflow r)
  end.

Definition ReserveExecution (ctxErr : option err) (key : WorkflowKey) (expectedVersion : Z)
    (next : option WorkflowSnapshot) (reservation : ReservedExecutionV1) : store VersionedWorkflow :=
  st_lift (check_call ctxErr key) ~;;
  w <~ st_lift (check_next next) ;;
  norm <~ st_lift (canonicalReservedExecution reservation) ;;
  r <~ recordForVersionedMutationLocked key expectedVersion ;;
  match mr_execution r with
  | Some _ => st_fail ErrExecutionInProgress
  | None =>
      let v := next_version (mr_version r) in
      snap <~ prepareSnapshotLocked key w v (Some (mr_snapshot r)) ;;
      let r' := mkRecord snap v (Some (mkExecution WorkflowExecutionExecuting norm None)) in
      put_record key r' ~;; st_ret (cloneVersionedWorkflow r')
  end.

Definition RecordExecutionResult (ctxErr : option err) (key : WorkflowKey) (expectedVersion : Z)
    (executionToken : string) (result : PersistedExecutionResultV1) : store VersionedWorkflow :=
  st_lift (check_call ctxErr key) ~;;
  st_lift (validatePersistedExecutionResult result) ~;;
  re <~ recordForExecutionMutationLocked key expectedVersion executionToken ;;
  let '(r, e) := re in
  let result' := mkResult (trim_space (er_BusinessKey result)) (er_WriteEffect result)
                   (er_CompletedAt result) in
  if bool_decide (re_BusinessKey (ex_Reservation e) = er_BusinessKey result') then
    let v := next_version (mr_version r) in
    let r' := mkRecord (setWorkflowSnapshotVersion v (mr_snapshot r)) v
                (Some (mkExecution WorkflowExecutionResultRecorded (ex_Reservation e) (Some result'))) in
    put_record key r' ~;; st_ret (cloneVersionedWorkflow r')
  else st_fail (EWrap "%w: execution business key mismatch" ErrWorkflowConflict).

(** The result is recorded: the status says so and the result is there. *)
Definition result_recorded (e : PersistedExecutionV1) : bool :=
  bool_decide (ex_Status e = WorkflowExecutionResultRecorded)
  && match ex_Result e with Some _ => true | None => false end.

Definition FinalizeExecution (ctxErr : option err) (key : WorkflowKey) (expectedVersion : Z)
    (executionToken : string) (next : option WorkflowSnapshot) : store VersionedWorkflow :=
  st_lift (check_call ctxErr key) ~;;
  w <~ st_lift (check_next next) ;;
  re <~ recordForExecutionMutationLocked key expectedVersion executionToken ;;
  let '(r, e) := re in
  if result_recorded e then
    let v := next_version (mr_version r) in
    snap <~ prepareSnapshotLocked key w v (Some (mr_snapshot r)) ;;
    let r' := mkRecord snap v None in
    put_record key r' ~;; st_ret (cloneVersionedWorkflow r')
  else st_fail ErrExecutionInProgress.

Definition DeleteReservedExecution (ctxErr : option err) (key : WorkflowKey) (expectedVersion : Z)
    (executionToken : string) : store unit :=
  st_lift (check_call ctxErr key) ~;;
  re <~ recordForExecutionMutationLocked key expectedVersion executionToken ;;
  let '(r, e) := re in
  if result_recorded e then delete_record key else st_fail ErrExecutionInProgress.

Definition TakeoverExpiredExecution (ctxErr : option err) (key : WorkflowKey) (expectedVersion : Z)
    (previousToken : string) (next : ReservedExecutionV1) : store VersionedWorkflow :=
  st_lift (check_call ctxErr key) ~;;
  norm <~ st_lift (canonicalReservedExecution next) ;;
  if bool_decide (trim_space previousToken = re_ExecutionToken norm)
  then st_fail (EMsg "takeover requires a new execution token")
  else
    re <~ recordForExecutionMutationLocked key expectedVersion previousToken ;;
    let '(r, e) := re in
    t <~ now ;;
    if after (re_LeaseExpiresAt (ex_Reservation e)) t then st_fail ErrExecutionInProgress
    else if negb (bool_decide (re_Operation (ex_Reservation e) = re_Operation norm))
            || negb (bool_decide (re_BusinessKey (ex_Reservation e) = re_BusinessKey norm))
    then st_fail (EWrap "%w: takeover cannot change operation or business key" ErrWorkflowConflict)
    else
      let v := next_version (mr_version r) in
      let status := match ex_Result e with
                    | Some _ => WorkflowExecutionResultRecorded
                    | None => WorkflowExecutionExecuting
                    end in
      let r' := mkRecord (setWorkflowSnapshotVersion v (mr_snapshot r)) v
                  (Some (mkExecution status norm (ex_Result e))) in
      put_record key r' ~;; st_ret (cloneVersionedWorkflow r').

(** ** One call of a client *)

Inductive store_call : Type :=
  | CLoad (key : WorkflowKey)
  | CCreate (key : WorkflowKey) (next : option WorkflowSnapshot)
  | CCompareAndSwap (key : WorkflowKey) (v : Z) (next : option WorkflowSnapshot)
  | CDeleteIfVersion (key : WorkflowKey) (v : Z)
  | CCreateReserved (key : WorkflowKey) (next : option WorkflowSnapshot) (r : ReservedExecutionV1)
  | CReserve (key : WorkflowKey) (v : Z) (next : option WorkflowSnapshot) (r : ReservedExecutionV1)
  | CRecord (key : WorkflowKey) (v : Z) (token : string) (result : PersistedExecutionResultV1)
  | CFinalize (key : WorkflowKey) (v : Z) (token : string) (next : option WorkflowSnapshot)
  | CDeleteReserved (key : WorkflowKey) (v : Z) (token : string)
  | CTakeover (key : WorkflowKey) (v : Z) (token : string) (r : ReservedExecutionV1).

Definition call_key (c : store_call) : WorkflowKey :=
  match c with
  | CLoad k | CCreate k _ | CCompareAndSwap k _ _ | CDeleteIfVersion k _ | CCreateReserved k _ _
  | CReserve k _ _ _ | CRecord k _ _ _ | CFinalize k _ _ _ | CDeleteReserved k _ _
  | CTakeover k _ _ _ => k
  end.

Definition forget {A} (m : store A) : store unit := m ~;; st_ret tt.

(** The call, its answer reduced to success or the error. *)
Definition run_call (ctxErr : option err) (c : store_call) : store unit :=
  match c with
  | CLoad k => forget (Load ctxErr k)
  | CCreate k n => forget (Create ctxErr k n)
  | CCompareAndSwap k v n => forget (CompareAndSwap ctxErr k v n)
  | CDeleteIfVersion k v => DeleteIfVersion ctxErr k v
  | CCreateReserved k n r => forget (CreateReservedExecution ctxErr k n r)
  | CReserve k v n r => forget (ReserveExecution ctxErr k v n r)
  | CRecord k v t r => forget (RecordExecutionResult ctxErr k v t r)
  | CFinalize k v t n => forget (FinalizeExecution ctxErr k v t n)
  | CDeleteReserved k v t => DeleteReservedExecution ctxErr k v t
  | CTakeover k v t r => forget (TakeoverExpiredExecution ctxErr k v t r)
  end.

End store.
