(* ===== verification/StoreSpec.v ===== *)
(** * Properties of the workflow store

    Each call's effect on the one record it names ([rec_effect], against which
    the methods are verified once), the invariant of reachable stores, the
    refinement of an abstract workflow lifecycle, version races and the fencing
    of executions by their token. *)
From Stdlib Require Import ZArith Lia Bool String.
From stdpp Require Import base list strings gmap sorting relations.
From S2P Require Import Prelude GoStrings GoTime Json Contract Codec Store.
#[local] Open Scope go_scope.

(** ** What a call does to the record it names *)

(** A snapshot the store prepared for a key and a version. *)
Definition snap_for (key : WorkflowKey) (version : Z) (w : WorkflowSnapshot) : Prop :=
  wf_TenantID w = key_TenantID key /\ wf_ConversationID w = key_ConversationID key
  /\ wf_ActorUserID w = key_ActorUserID key /\ wf_Version w = version
  /\ wf_MissingSlots w = wf_MissingFields w
  /\ map_Forall (fun _ cs => cs <> []) (wf_Candidates w).

(** The caller names the execution's token. *)
Definition token_matches (e : PersistedExecutionV1) (token : string) : Prop :=
  blank token = false /\ re_ExecutionToken (ex_Reservation e) = trim_space token.

Section effects.
Context (clock : nat -> Z).

Inductive rec_effect : store_call -> option memoryWorkflowRecord -> option memoryWorkflowRecord -> Prop :=
  | eff_load k o : rec_effect (CLoad k) o o
  | eff_create k w snap :
      snap_for k 1 snap ->
      rec_effect (CCreate k (Some w)) None (Some (mkRecord snap 1 None))
  | eff_cas k w r snap :
      mr_execution r = None -> snap_for k (next_version (mr_version r)) snap ->
      rec_effect (CCompareAndSwap k (mr_version r) (Some w)) (Some r)
        (Some (mkRecord snap (next_version (mr_version r)) None))
  | eff_delete k r :
      mr_execution r = None -> rec_effect (CDeleteIfVersion k (mr_version r)) (Some r) None
  | eff_create_reserved k w rv norm snap :
      canonicalReservedExecution rv = Ok norm -> snap_for k 1 snap ->
      rec_effect (CCreateReserved k (Some w) rv) None
        (Some (mkRecord snap 1 (Some (mkExecution WorkflowExecutionExecuting norm None))))
  | eff_reserve k w rv norm r snap :
      canonicalReservedExecution rv = Ok norm -> mr_execution r = None ->
      snap_for k (next_version (mr_version r)) snap ->
      rec_effect (CReserve k (mr_version r) (Some w) rv) (Some r)
        (Some (mkRecord snap (next_version (mr_version r))
                 (Some (mkExecution WorkflowExecutionExecuting norm None))))
  | eff_record k r e token result result' :
      validatePersistedExecutionResult result = Ok tt ->
      mr_execution r = Some e -> token_matches e token ->
      result' = mkResult (trim_space (er_BusinessKey result)) (er_WriteEffect result)
                  (er_CompletedAt result) ->
      re_BusinessKey (ex_Reservation e) = er_BusinessKey result' ->
      rec_effect (CRecord k (mr_version r) token result) (Some r)
        (Some (mkRecord (setWorkflowSnapshotVersion (next_version (mr_version r)) (mr_snapshot r))
                 (next_version (mr_version r))
                 (Some (mkExecution WorkflowExecutionResultRecorded (ex_Reservation e) (Some result')))))
  | eff_finalize k w r e token snap :
      mr_execution r = Some e -> token_matches e token -> result_recorded e = true ->
      snap_for k (next_version (mr_version r)) snap ->
      rec_effect (CFinalize k (mr_version r) token (Some w)) (Some r)
        (Some (mkRecord snap (next_version (mr_version r)) None))
  | eff_delete_reserved k r e token :
      mr_execution r = Some e -> token_matches e token -> result_recorded e = true ->
      rec_effect (CDeleteReserved k (mr_version r) token) (Some r) None
  | eff_takeover k r e token rv norm n :
      canonicalReservedExecution rv = Ok norm ->
      mr_execution r = Some e -> token_matches e token ->
      trim_space token <> re_ExecutionToken norm ->
      re_LeaseExpiresAt (ex_Reservation e) <= clock n ->
      re_Operation (ex_Reservation e) = re_Operation norm ->
      re_BusinessKey (ex_Reservation e) = re_BusinessKey norm ->
      rec_effect (CTakeover k (mr_version r) token rv) (Some r)
        (Some (mkRecord (setWorkflowSnapshotVersion (next_version (mr_version r)) (mr_snapshot r))
                 (next_version (mr_version r))
                 (Some (mkExecution (match ex_Result e with
                                     | Some _ => WorkflowExecutionResultRecorded
                                     | None => WorkflowExecutionExecuting end) norm (ex_Result e))))).

(** ** Settling: what [activeRecordLocked] finds *)

(** The record may have run out: it holds no execution and its time is up at
    some reading of the clock. *)
Definition run_out (o : option memoryWorkflowRecord) : Prop :=
  exists r n, o = Some r /\ mr_execution r = None /\ workflowExpired (mr_snapshot r) (clock n) = true.

Definition set_record (key : WorkflowKey) (o : option memoryWorkflowRecord)
    (m : gmap WorkflowKey memoryWorkflowRecord) : gmap WorkflowKey memoryWorkflowRecord :=
  match o with Some r => <[key := r]> m | None => delete key m end.

Lemma set_record_same key m : set_record key (m !! key) m = m.
Proof.
  unfold set_record. destruct (m !! key) as [r|] eqn:E; [by apply insert_id|by apply delete_id].
Qed.

Lemma set_record_set key o o' m : set_record key o' (set_record key o m) = set_record key o' m.
Proof.
  destruct o, o'; cbn.
  - by rewrite insert_insert_eq.
  - by rewrite delete_insert_eq.
  - by rewrite insert_delete_eq.
  - by rewrite delete_delete_eq.
Qed.

Lemma lookup_set_record key o m : set_record key o m !! key = o.
Proof. destruct o; cbn; [apply lookup_insert_eq|apply lookup_delete_eq]. Qed.

Lemma lookup_set_record_ne key key' o m : key <> key' -> set_record key o m !! key' = m !! key'.
Proof. intros H. destruct o; cbn; [by apply lookup_insert_ne|by apply lookup_delete_ne]. Qed.

Lemma activeRecordLocked_spec key s :
  exists o s', activeRecordLocked clock key s = (Ok o, s')
    /\ ms_workflows s' = set_record key o (ms_workflows s)
    /\ (o = ms_workflows s !! key \/ (o = None /\ run_out (ms_workflows s !! key))).
Proof.
  unfold activeRecordLocked, st_bind, st_get, st_ret, now, delete_record.
  destruct (ms_workflows s !! key) as [r|] eqn:E.
  - destruct (mr_execution r) as [e|] eqn:Ee.
    + eexists _, _. split; [done|]. split; [|by left]. by rewrite <- E, set_record_same.
    + destruct (workflowExpired (mr_snapshot r) (clock (ms_ticks s))) eqn:Ex.
      * eexists _, _. split; [done|]. split; [done|]. right. split; [done|]. by exists r, (ms_ticks s).
      * eexists _, _. split; [done|]. cbn [ms_workflows]. split; [|by left].
        by rewrite <- E, set_record_same.
  - eexists _, _. split; [done|]. split; [|by left]. by rewrite <- E, set_record_same.
Qed.

Lemma recordForVersioned_spec key v s :
  exists o s', ms_workflows s' = set_record key o (ms_workflows s)
    /\ (o = ms_workflows s !! key \/ (o = None /\ run_out (ms_workflows s !! key)))
    /\ ((exists r, o = Some r /\ mr_version r = v
           /\ recordForVersionedMutationLocked clock key v s = (Ok r, s'))
        \/ ((forall r, o = Some r -> mr_version r <> v)
           /\ recordForVersionedMutationLocked clock key v s = (Err ErrWorkflowConflict, s'))).
Proof.
  destruct (activeRecordLocked_spec key s) as (o & s' & E & Hm & Ho). exists o, s'.
  split; [done|]. split; [done|]. unfold recordForVersionedMutationLocked, st_bind, st_ret, st_fail.
  rewrite E. destruct o as [r|]; [|right; split; [congruence|done]].
  destruct (Z.eqb_spec (mr_version r) v); [left; by exists r|right; split; [congruence|done]].
Qed.

Lemma recordForExecution_spec key v token s :
  exists o s', ms_workflows s' = set_record key o (ms_workflows s)
    /\ (o = ms_workflows s !! key \/ (o = None /\ run_out (ms_workflows s !! key)))
    /\ ((exists r e, o = Some r /\ mr_version r = v /\ mr_execution r = Some e /\ token_matches e token
           /\ recordForExecutionMutationLocked clock key v token s = (Ok (r, e), s'))
        \/ recordForExecutionMutationLocked clock key v token s = (Err ErrWorkflowConflict, s')).
Proof.
  destruct (recordForVersioned_spec key v s) as (o & s' & Hm & Ho & H). exists o, s'.
  split; [done|]. split; [done|]. unfold recordForExecutionMutationLocked, st_bind, st_ret, st_fail.
  destruct H as [(r & -> & Hv & ->)|[_ ->]]; [|by right].
  destruct (mr_execution r) as [e|] eqn:Ee; [|by right].
  unfold token_matches. destruct (blank token) eqn:Eb; [by right|]. cbn [orb].
  case_bool_decide; cbn [negb]; [left; by exists r, e|by right].
Qed.

Lemma prepareSnapshotLocked_spec key w v ex s :
  exists snap, prepareSnapshotLocked clock key w v ex s
    = (Ok snap, mkStore (ms_workflows s) (S (ms_ticks s))) /\ snap_for key v snap.
Proof.
  eexists. split; [reflexivity|]. unfold snap_for, syncWorkflowSnapshotFields, stamp_snapshot.
  cbn. repeat split. intros k cs. rewrite cloneWorkflowCandidates_idem.
  unfold cloneWorkflowCandidates. by intros [_ H]%map_lookup_filter_Some.
Qed.

(** ** Every call *)

(** A call answers with an error and at most drops the record it names when
    its time is up, or succeeds with an effect on what is left of it. *)
Definition call_outcome (c : store_call) (s : memoryWorkflowStore) (r : res unit)
    (s' : memoryWorkflowStore) : Prop :=
  exists o, (o = ms_workflows s !! call_key c \/ (o = None /\ run_out (ms_workflows s !! call_key c)))
    /\ match r with
       | Ok _ => exists o', rec_effect c o o' /\ ms_workflows s' = set_record (call_key c) o' (ms_workflows s)
       | Err _ => ms_workflows s' = set_record (call_key c) o (ms_workflows s)
       end.

Lemma outcome_unchanged c s e : call_outcome c s (Err e) s.
Proof.
  exists (ms_workflows s !! call_key c). split; [by left|]. by rewrite set_record_same.
Qed.

Lemma run_call_outcome ctxErr c s :
  call_outcome c s (run_call clock ctxErr c s).1 (run_call clock ctxErr c s).2.
Proof.
  unfold run_call, forget.
  destruct c as [k|k n|k v n|k v|k n rv|k v n rv|k v t res|k v t n|k v t|k v t rv];
    unfold Load, Create, CompareAndSwap, DeleteIfVersion, CreateReservedExecution, ReserveExecution,
      RecordExecutionResult, FinalizeExecution, DeleteReservedExecution, TakeoverExpiredExecution,
      st_bind at 1 2, st_bind, st_lift, st_ret, st_fail;
    (destruct (check_call ctxErr k) as [?|?]; [|apply outcome_unchanged]).
  - destruct (activeRecordLocked_spec k s) as (o & s' & -> & Hm & Ho). exists o. split; [done|].
    exists o. split; [constructor|done].
  - destruct n as [w|]; cbn [check_next]; [|apply outcome_unchanged].
    destruct (activeRecordLocked_spec k s) as (o & s' & -> & Hm & Ho). exists o. split; [done|].
    destruct o as [r|]; [done|].
    destruct (prepareSnapshotLocked_spec k w 1 None s') as (snap & -> & Hs).
    cbn. eexists. split; [by constructor|]. rewrite Hm. apply (set_record_set k None (Some _)).
  - destruct n as [w|]; cbn [check_next]; [|apply outcome_unchanged].
    destruct (recordForVersioned_spec k v s) as (o & s' & Hm & Ho & H). exists o. split; [done|].
    destruct H as [(r & -> & <- & ->)|[_ ->]]; [|done].
    destruct (mr_execution r) as [e|] eqn:Ee; [done|].
    destruct (prepareSnapshotLocked_spec k w (next_version (mr_version r)) (Some (mr_snapshot r)) s')
      as (snap & -> & Hs).
    cbn. eexists. split; [by constructor|]. rewrite Hm. apply (set_record_set k (Some _) (Some _)).
  - destruct (recordForVersioned_spec k v s) as (o & s' & Hm & Ho & H). exists o. split; [done|].
    destruct H as [(r & -> & <- & ->)|[_ ->]]; [|done].
    destruct (mr_execution r) as [e|] eqn:Ee; [done|].
    cbn. eexists. split; [by constructor|]. rewrite Hm. apply (set_record_set k (Some _) None).
  - destruct n as [w|]; cbn [check_next]; [|apply outcome_unchanged].
    destruct (canonicalReservedExecution rv) as [norm|] eqn:Ec; [|apply outcome_unchanged].
    destruct (activeRecordLocked_spec k s) as (o & s' & -> & Hm & Ho). exists o. split; [done|].
    destruct o as [r|]; [done|].
    destruct (prepareSnapshotLocked_spec k w 1 None s') as (snap & -> & Hs).
    cbn. eexists. split; [by constructor|]. rewrite Hm. apply (set_record_set k None (Some _)).
  - destruct n as [w|]; cbn [check_next]; [|apply outcome_unchanged].
    destruct (canonicalReservedExecution rv) as [norm|] eqn:Ec; [|apply outcome_unchanged].
    destruct (recordForVersioned_spec k v s) as (o & s' & Hm & Ho & H). exists o. split; [done|].
    destruct H as [(r & -> & <- & ->)|[_ ->]]; [|done].
    destruct (mr_execution r) as [e|] eqn:Ee; [done|].
    destruct (prepareSnapshotLocked_spec k w (next_version (mr_version r)) (Some (mr_snapshot r)) s')
      as (snap & -> & Hs).
    cbn. eexists. split; [by constructor|]. rewrite Hm. apply (set_record_set k (Some _) (Some _)).
  - destruct (validatePersistedExecutionResult res) as [[]|] eqn:Ev; [|apply outcome_unchanged].
    destruct (recordForExecution_spec k v t s) as (o & s' & Hm & Ho & H). exists o. split; [done|].
    destruct H as [(r & e & -> & <- & He & Ht & ->)| ->]; [|done].
    case_bool_decide as Eb; [|done].
    cbn. eexists. split; [by econstructor|]. rewrite Hm. apply (set_record_set k (Some _) (Some _)).
  - destruct n as [w|]; cbn [check_next]; [|apply outcome_unchanged].
    destruct (recordForExecution_spec k v t s) as (o & s' & Hm & Ho & H). exists o. split; [done|].
    destruct H as [(r & e & -> & <- & He & Ht & ->)| ->]; [|done].
    destruct (result_recorded e) eqn:Er; [|done].
    destruct (prepareSnapshotLocked_spec k w (next_version (mr_version r)) (Some (mr_snapshot r)) s')
      as (snap & -> & Hs).
    cbn. eexists. split; [by econstructor|]. rewrite Hm. apply (set_record_set k (Some _) (Some _)).
  - destruct (recordForExecution_spec k v t s) as (o & s' & Hm & Ho & H). exists o. split; [done|].
    destruct H as [(r & e & -> & <- & He & Ht & ->)| ->]; [|done].
    destruct (result_recorded e) eqn:Er; [|done].
    cbn. eexists. split; [by econstructor|]. rewrite Hm. apply (set_record_set k (Some _) None).
  - destruct (canonicalReservedExecution rv) as [norm|] eqn:Ec; [|apply outcome_unchanged].
    case_bool_decide as Ht0; [apply outcome_unchanged|].
    destruct (recordForExecution_spec k v t s) as (o & s' & Hm & Ho & H). exists o. split; [done|].
    destruct H as [(r & e & -> & <- & He & Ht & ->)| ->]; [|done]. unfold now.
    destruct (after _ _) eqn:Ea; [done|].
    case_bool_decide as Eo; [|done]. case_bool_decide as Eb; [|done].
    cbn. eexists. split.
    + eapply eff_takeover; [done..| |done|done]. unfold after in Ea. b2p. exact Ea.
    + rewrite Hm. apply (set_record_set k (Some _) (Some _)).
Qed.

End effects.

(** ** The invariant of reachable stores *)

Lemma canonical_persistable rv norm :
  canonicalReservedExecution rv = Ok norm -> is_ok (reservedExecutionToV1 norm) = true.
Proof.
  unfold canonicalReservedExecution, UnmarshalReservedExecution, reservedExecutionFromV1.
  intros H. apply res_bind_Ok in H as (p & _ & H). destruct (_ =? _); [discriminate|].
  destruct (_ <? _); [discriminate|]. destruct (decode_strict _ _ _) as [d|]; [|discriminate].
  destruct (_ =? _); [|discriminate]. repeat (apply res_bind_Ok in H as (? & ? & H)).
  injection H as <-. apply is_ok_true. eauto.
Qed.

Lemma validateResult_trim result :
  validatePersistedExecutionResult result = Ok tt ->
  validatePersistedExecutionResult
    (mkResult (trim_space (er_BusinessKey result)) (er_WriteEffect result) (er_CompletedAt result)) = Ok tt.
Proof.
  unfold validatePersistedExecutionResult, blank. cbn [er_BusinessKey er_WriteEffect er_CompletedAt].
  by rewrite trim_space_idem.
Qed.

(** An execution: a persistable reservation, and either no result under the
    executing status or the result of that reservation under the recorded one. *)
Definition execution_ok (e : PersistedExecutionV1) : Prop :=
  is_ok (reservedExecutionToV1 (ex_Reservation e)) = true
  /\ ((ex_Status e = WorkflowExecutionExecuting /\ ex_Result e = None)
      \/ (ex_Status e = WorkflowExecutionResultRecorded
          /\ exists result, ex_Result e = Some result
             /\ validatePersistedExecutionResult result = Ok tt
             /\ er_BusinessKey result = re_BusinessKey (ex_Reservation e))).

Definition record_ok (key : WorkflowKey) (r : memoryWorkflowRecord) : Prop :=
  snap_for key (mr_version r) (mr_snapshot r) /\ in_uint64 (mr_version r) = true
  /\ match mr_execution r with Some e => execution_ok e | None => True end.

Definition store_ok (s : memoryWorkflowStore) : Prop := map_Forall record_ok (ms_workflows s).

Lemma next_version_in v : in_uint64 (next_version v) = true.
Proof.
  unfold next_version, wrap_uint64, in_uint64, max_uint64.
  pose proof (Z.mod_pos_bound (v + 1) two64 ltac:(done)). apply andb_true_iff. rewrite !Z.leb_le. lia.
Qed.

Lemma snap_for_version key v v' w :
  snap_for key v w -> snap_for key v' (setWorkflowSnapshotVersion v' w).
Proof. unfold snap_for. cbn. naive_solver. Qed.

Section reachable.
Context (clock : nat -> Z).

Lemma rec_effect_ok c o o' :
  rec_effect clock c o o' ->
  match o with Some r => record_ok (call_key c) r | None => True end ->
  match o' with Some r => record_ok (call_key c) r | None => True end.
Proof.
  pose proof next_version_in as Hv. destruct 1; intros Ho; try done; cbn [call_key] in *;
    unfold record_ok in *; cbn [mr_snapshot mr_version mr_execution]; try (by split).
  - split; [done|]. split; [done|]. unfold execution_ok. cbn. split; [by eapply canonical_persistable|].
    by left.
  - split; [done|]. split; [done|]. unfold execution_ok. cbn. split; [by eapply canonical_persistable|].
    by left.
  - destruct Ho as (Hs & _ & He). rewrite H0 in He. split; [by eapply snap_for_version|]. split; [done|].
    unfold execution_ok. cbn. split; [apply He|]. right. split; [done|]. exists result'.
    split; [done|]. subst result'. split; [by apply validateResult_trim|done].
  - destruct Ho as (Hs & _ & He). rewrite H0 in He. split; [by eapply snap_for_version|]. split; [done|].
    unfold execution_ok in *. cbn [ex_Status ex_Reservation ex_Result].
    split; [by eapply canonical_persistable|].
    destruct He as (_ & [[_ ->]|(_ & result & -> & ? & ?)]); [by left|right].
    split; [done|]. exists result. split; [done|]. split; [done|congruence].
Qed.

Lemma run_call_ok ctxErr c s : store_ok s -> store_ok (run_call clock ctxErr c s).2.
Proof.
  intros Hs. destruct (run_call_outcome clock ctxErr c s) as (o & Ho & H).
  assert (Hok : match o with Some r => record_ok (call_key c) r | None => True end).
  { destruct Ho as [->|[-> _]]; [|done]. destruct (ms_workflows s !! call_key c) eqn:E; [|done].
    by apply Hs. }
  assert (Hset : forall o', match o' with Some r => record_ok (call_key c) r | None => True end ->
            map_Forall record_ok (set_record (call_key c) o' (ms_workflows s))).
  { intros o' Ho'. destruct o' as [r|]; cbn.
    - apply map_Forall_insert_2; [exact Ho'|exact Hs].
    - apply map_Forall_delete. exact Hs. }
  unfold store_ok. destruct (run_call clock ctxErr c s).1 as [[]|].
  - destruct H as (o' & He & ->). apply Hset. by eapply rec_effect_ok.
  - rewrite H. by apply Hset.
Qed.

(** Stores that arise from the empty one by calls of any clients. *)
Inductive reachable : memoryWorkflowStore -> Prop :=
  | reachable_new : reachable newMemoryWorkflowStore
  | reachable_call ctxErr c s : reachable s -> reachable (run_call clock ctxErr c s).2.

(** C40: every reachable store keeps its records well formed: each snapshot
    carries its key's tenant, conversation and actor and the record's version;
    each execution holds a reservation that can be persisted, and has a result
    exactly when its status says so, for the business key that was reserved. *)
Theorem reachable_store_ok s : reachable s -> store_ok s.
Proof.
  induction 1 as [|ctxErr c s _ IH]; [apply map_Forall_empty|]. by apply run_call_ok.
Qed.
End reachable.

Definition tick (n : nat) : Z := instant 2026 3 1 9 0 0 0 + Z.of_nat n * ns_sec.
Definition key7 : WorkflowKey := mkKey 7 "cid-1" 42.
Definition draft_snapshot : WorkflowSnapshot :=
  mkSnapshot "wf-1" 0 0 "" "subscription.start" "ready" [] ∅ ∅ "" 0 0 0 0 [] no_trusted.
Definition reservation7 : ReservedExecutionV1 :=
  mkReserved "subscription.start" "key-1" {[ "scope" := VString "all" ]} "tok-1" "req-1"
    (tick 0) (tick 60).
Definition reserved_store : memoryWorkflowStore :=
  (run_call tick None (CCreateReserved key7 (Some draft_snapshot) reservation7) newMemoryWorkflowStore).2.

Lemma reachable_store_ok_witness : store_ok reserved_store.
Proof. apply (reachable_store_ok tick). apply reachable_call, reachable_new. Defined.

(** ** Races on a version *)

Section races.
Context (clock : nat -> Z).

(** Calls of several clients, one after the other, with their answers. *)
Fixpoint run_calls (cs : list (option err * store_call)) (s : memoryWorkflowStore)
  : list (res unit) * memoryWorkflowStore :=
  match cs with
  | [] => ([], s)
  | (ctxErr, c) :: cs' =>
      let '(r, s1) := run_call clock ctxErr c s in
      let '(rs, s2) := run_calls cs' s1 in (r :: rs, s2)
  end.

(** The calls that change a record on condition that it has version [v]. *)
Definition contends (key : WorkflowKey) (v : Z) (c : store_call) : bool :=
  match c with
  | CCompareAndSwap k v' _ | CDeleteIfVersion k v' | CReserve k v' _ _ | CRecord k v' _ _
  | CFinalize k v' _ _ | CDeleteReserved k v' _ | CTakeover k v' _ _ =>
      bool_decide (k = key) && (v' =? v)
  | CLoad _ | CCreate _ _ | CCreateReserved _ _ _ => false
  end.

(** The record is gone or has moved past version [v]. *)
Definition moved_past (key : WorkflowKey) (v : Z) (s : memoryWorkflowStore) : Prop :=
  match ms_workflows s !! key with Some r => mr_version r <> v | None => True end.

Lemma next_version_ne v : in_uint64 v = true -> next_version v <> v.
Proof.
  unfold in_uint64, next_version, wrap_uint64, max_uint64. intros H. b2p. intros E.
  destruct (decide (v = two64 - 1)) as [->|].
  - replace (two64 - 1 + 1) with two64 in E by lia. rewrite Z.mod_same in E by done. done.
  - rewrite Z.mod_small in E by lia. lia.
Qed.

Lemma contends_effect key v c o o' :
  contends key v c = true -> in_uint64 v = true -> rec_effect clock c o o' ->
  call_key c = key /\ (exists r, o = Some r /\ mr_version r = v)
  /\ match o' with Some r => mr_version r <> v | None => True end.
Proof.
  intros Hc Hv He. destruct He; cbn [contends] in Hc; try discriminate Hc; b2p; subst;
    (split; [done|]); (split; [by eexists|]); cbn; try done; by apply next_version_ne.
Qed.

Lemma contends_once key v cs s :
  in_uint64 v = true -> Forall (fun p => contends key v p.2 = true) cs -> moved_past key v s ->
  Forall (fun r => is_ok r = false) (run_calls cs s).1.
Proof.
  intros Hv Hcs. revert s. induction Hcs as [|[ctxErr c] cs Hc Hcs IH]; intros s Hs; [constructor|].
  cbn [run_calls snd] in *. pose proof (run_call_outcome clock ctxErr c s) as (o & Ho & H).
  destruct (run_call clock ctxErr c s) as [r s1] eqn:E1. cbn [fst snd] in H.
  destruct (run_calls cs s1) as [rs s2] eqn:E2. cbn [fst].
  destruct r as [[]|e].
  - exfalso. destruct H as (o' & He & _).
    destruct (contends_effect _ _ _ _ _ Hc Hv He) as (Hk & (r & -> & Hr) & _). rewrite Hk in Ho.
    unfold moved_past in Hs. destruct Ho as [Ho|[Ho _]]; [|done]. rewrite <- Ho in Hs. done.
  - constructor; [done|]. specialize (IH s1). rewrite E2 in IH. apply IH.
    unfold moved_past in *. rewrite H.
    assert (Hk : call_key c = key) by (destruct c; cbn in Hc; try discriminate; b2p; by subst).
    rewrite Hk in *. rewrite lookup_set_record. destruct Ho as [->|[-> _]]; done.
Qed.

(** of all the conditional changes of a workflow that clients attempt at
    one version, at most one succeeds, however many clients there are, in
    whatever order their calls reach the store and whatever kind they are
    (compare-and-swap, delete, reserve, record, finalize, takeover). *)
Theorem one_winner_per_version key v cs s :
  in_uint64 v = true -> Forall (fun p => contends key v p.2 = true) cs ->
  (length (List.filter is_ok (run_calls cs s).1) <= 1)%nat.
Proof.
  intros Hv Hcs. revert s. induction Hcs as [|[ctxErr c] cs Hc Hcs IH]; intros s; [cbn; lia|].
  cbn [run_calls snd] in *. pose proof (run_call_outcome clock ctxErr c s) as (o & Ho & H).
  destruct (run_call clock ctxErr c s) as [r s1] eqn:E1. cbn [fst snd] in H.
  destruct (run_calls cs s1) as [rs s2] eqn:E2. cbn [fst List.filter].
  destruct r as [[]|e]; cbn [is_ok].
  - destruct H as (o' & He & Hm).
    destruct (contends_effect _ _ _ _ _ Hc Hv He) as (Hk & _ & Ho').
    assert (Hrs : Forall (fun r => is_ok r = false) rs).
    { assert (Hcon := contends_once key v cs s1 Hv Hcs). rewrite E2 in Hcon. apply Hcon.
      unfold moved_past. rewrite Hm, Hk, lookup_set_record. exact Ho'. }
    assert (Hf : List.filter is_ok rs = []).
    { clear -Hrs. induction Hrs as [|r rs Hr Hrs IH]; [done|]. cbn. by rewrite Hr. }
    rewrite Hf. cbn. lia.
  - specialize (IH s1). by rewrite E2 in IH.
Qed.
End races.

Definition idle_store : memoryWorkflowStore :=
  (run_call tick None (CCreate key7 (Some draft_snapshot)) newMemoryWorkflowStore).2.

Lemma one_winner_per_version_witness :
  let cs := [(None, CReserve key7 1 (Some draft_snapshot) reservation7);
             (None, CCompareAndSwap key7 1 (Some draft_snapshot)); (None, CDeleteIfVersion key7 1)] in
  is_ok <$> (run_calls tick cs idle_store).1 = [true; false; false]
  /\ (length (List.filter is_ok (run_calls tick cs idle_store).1) <= 1)%nat.
Proof.
  split; [vm_compute; reflexivity|].
  apply (one_winner_per_version tick key7 1); [reflexivity|]. by repeat constructor.
Defined.

(** ** Fencing *)

Section fencing.
Context (clock : nat -> Z).

(** What a call may do to a record that holds an execution: it names the
    record's version and the execution's token. *)
Inductive fenced_change (r : memoryWorkflowRecord) (e : PersistedExecutionV1)
    : store_call -> option memoryWorkflowRecord -> Prop :=
  | fc_recorded k token result r' e' :
      token_matches e token -> mr_execution r' = Some e' ->
      ex_Reservation e' = ex_Reservation e -> result_recorded e' = true ->
      fenced_change r e (CRecord k (mr_version r) token result) (Some r')
  | fc_finalized k token w r' :
      token_matches e token -> result_recorded e = true -> mr_execution r' = None ->
      fenced_change r e (CFinalize k (mr_version r) token w) (Some r')
  | fc_deleted k token :
      token_matches e token -> result_recorded e = true ->
      fenced_change r e (CDeleteReserved k (mr_version r) token) None
  | fc_taken_over k token rv r' e' n :
      token_matches e token -> mr_execution r' = Some e' ->
      re_LeaseExpiresAt (ex_Reservation e) <= clock n ->
      re_ExecutionToken (ex_Reservation e') <> re_ExecutionToken (ex_Reservation e) ->
      re_Operation (ex_Reservation e') = re_Operation (ex_Reservation e) ->
      re_BusinessKey (ex_Reservation e') = re_BusinessKey (ex_Reservation e) ->
      ex_Result e' = ex_Result e ->
      fenced_change r e (CTakeover k (mr_version r) token rv) (Some r').

(** The token a call names. *)
Definition call_token (c : store_call) : option string :=
  match c with
  | CRecord _ _ token _ | CFinalize _ _ token _ | CDeleteReserved _ _ token | CTakeover _ _ token _ => Some token
  | _ => None
  end.

Lemma fenced_token r e c o :
  fenced_change r e c o -> exists token, call_token c = Some token /\ token_matches e token.
Proof. by intros [k t|k t|k t|k t]; exists t. Qed.

Lemma execution_not_run_out key s r e :
  ms_workflows s !! key = Some r -> mr_execution r = Some e -> ~ run_out clock (ms_workflows s !! key).
Proof. intros Hr He (r' & n & Hr' & He' & _). congruence. Qed.

Lemma fenced_step ctxErr c s key r e :
  ms_workflows s !! key = Some r -> mr_execution r = Some e ->
  ms_workflows (run_call clock ctxErr c s).2 !! key = Some r
  \/ call_key c = key /\ fenced_change r e c (ms_workflows (run_call clock ctxErr c s).2 !! key).
Proof.
  intros Hr He. pose proof (execution_not_run_out _ _ _ _ Hr He) as Hno.
  destruct (run_call_outcome clock ctxErr c s) as (o & Ho & H).
  destruct (decide (call_key c = key)) as [Hk|Hne].
  - rewrite Hk in *. destruct Ho as [Ho|[_ Ho]]; [|done]. rewrite Hr in Ho.
    destruct (run_call clock ctxErr c s).1 as [[]|err1].
    + destruct H as (o' & Heff & ->). rewrite lookup_set_record. subst o.
      inversion Heff; subst; try (by left); try congruence; right; (split; [done|]);
        match goal with H : mr_execution r = Some ?e2 |- _ =>
          assert_fails (constr_eq e2 e); assert (e2 = e) as -> by congruence end.
      * by eapply fc_recorded.
      * by eapply fc_finalized.
      * by eapply fc_deleted.
      * eapply fc_taken_over; cbn; try done.
        match goal with H : token_matches e token |- _ => destruct H as [_ Htok] end.
        intros Heq. rewrite Htok in Heq. by apply eq_sym in Heq.
    + left. rewrite H, lookup_set_record. by subst.
  - left. destruct (run_call clock ctxErr c s).1 as [[]|err1].
    + destruct H as (o' & _ & ->). by rewrite lookup_set_record_ne.
    + by rewrite H, lookup_set_record_ne.
Qed.

(** C11: while a workflow holds an execution, only the holder of its token
    changes it: a call that names another token, or none, leaves the record
    exactly as it was, expiry included.  A call that names the record, its version
    and the token can record the result, finish (replace or delete the workflow)
    once the result is recorded, or take over once the lease has run out, under a
    new token but for the same operation, business key and recorded result;
    nothing else happens to the record. *)
Theorem execution_fenced ctxErr c s key r e :
  ms_workflows s !! key = Some r -> mr_execution r = Some e ->
  let after := ms_workflows (run_call clock ctxErr c s).2 !! key in
  ((forall token, call_token c = Some token -> ~ token_matches e token) -> after = Some r)
  /\ (after = Some r \/ call_key c = key /\ fenced_change r e c after).
Proof.
  intros Hr He after. pose proof (fenced_step ctxErr c s key r e Hr He) as Hf. split; [|exact Hf].
  intros Hno. destruct Hf as [Hf|[_ Hf]]; [exact Hf|]. apply fenced_token in Hf as (token & Hc & Ht).
  by destruct (Hno token Hc).
Qed.

(** An execution of this operation for this business key. *)
Definition holds (key : WorkflowKey) (op bk : string) (s : memoryWorkflowStore) : Prop :=
  exists r e, ms_workflows s !! key = Some r /\ mr_execution r = Some e
    /\ re_Operation (ex_Reservation e) = op /\ re_BusinessKey (ex_Reservation e) = bk.

Definition holds_recorded (key : WorkflowKey) (op bk : string) (s : memoryWorkflowStore) : Prop :=
  exists r e, ms_workflows s !! key = Some r /\ mr_execution r = Some e
    /\ re_Operation (ex_Reservation e) = op /\ re_BusinessKey (ex_Reservation e) = bk
    /\ result_recorded e = true.

Lemma never_lost key op bk cs s :
  holds key op bk s ->
  holds key op bk (run_calls clock cs s).2
  \/ exists n, holds_recorded key op bk (run_calls clock (take n cs) s).2.
Proof.
  revert s. induction cs as [|[ctxErr c] cs IH]; intros s Hs; [by left|].
  cbn [run_calls]. destruct Hs as (r & e & Hr & He & Hop & Hbk).
  destruct (result_recorded e) eqn:Erec.
  { right. exists 0%nat. cbn. exists r, e. done. }
  pose proof (fenced_step ctxErr c s key r e Hr He) as Hf.
  destruct (run_call clock ctxErr c s) as [res1 s1] eqn:E1. cbn [snd] in Hf.
  assert (Hs1 : holds key op bk s1).
  { destruct Hf as [Hsame|Hf]; [by exists r, e|].
    destruct Hf as [_ Hf].
    unfold holds. inversion Hf; subst;
      first [congruence | (eexists _, _; split; [by symmetry|]; split; [eassumption|]; split; congruence)]. }
  specialize (IH s1 Hs1). destruct (run_calls clock cs s1) as [rs s2] eqn:E2. cbn [snd] in *.
  destruct IH as [IH|(n & Hn)]; [by left|]. right. exists (S n). cbn [take run_calls]. rewrite E1.
  destruct (run_calls clock (take n cs) s1) as [rs' s2']. exact Hn.
Qed.

(** C1: a reserved write is never lost: along any sequence of calls by any
    clients, the workflow still holds an execution of the reserved operation
    for the reserved business key, unless at some point on the way a result for
    exactly that operation and key had been recorded. *)
Theorem reservation_never_lost key op bk cs s :
  holds key op bk s ->
  holds key op bk (run_calls clock cs s).2
  \/ exists n, holds_recorded key op bk (run_calls clock (take n cs) s).2.
Proof. apply never_lost. Qed.

End fencing.

Definition other_reservation : ReservedExecutionV1 :=
  mkReserved "subscription.start" "key-1" {[ "scope" := VString "all" ]} "tok-2" "req-2"
    (tick 100) (tick 160).

Lemma reserved_store_holds :
  exists r e, ms_workflows reserved_store !! key7 = Some r /\ mr_execution r = Some e.
Proof. eexists _, _. split; [vm_compute; reflexivity|reflexivity]. Qed.

(** A stale token changes nothing; the holder's records the result. *)
Definition stale_call : store_call := CRecord key7 1 "tok-2" (mkResult "key-1" "created" (tick 5)).
Definition holder_call : store_call := CRecord key7 1 "tok-1" (mkResult "key-1" "created" (tick 5)).
Lemma execution_fenced_witness :
  exists r e, ms_workflows reserved_store !! key7 = Some r /\ mr_execution r = Some e
    /\ ms_workflows (run_call tick None stale_call reserved_store).2 !! key7 = Some r
    /\ fenced_change tick r e holder_call (ms_workflows (run_call tick None holder_call reserved_store).2 !! key7).
Proof.
  destruct reserved_store_holds as (r & e & Hr & He). exists r, e. split; [exact Hr|]. split; [exact He|].
  assert (Htok : re_ExecutionToken (ex_Reservation e) = "tok-1").
  { assert (H : (fun e => re_ExecutionToken (ex_Reservation e)) <$> (ms_workflows reserved_store !! key7 ≫= mr_execution)
                = Some "tok-1") by (vm_compute; reflexivity).
    rewrite Hr in H. simpl mbind in H. rewrite He in H. injection H as H. exact H. }
  split.
  - apply (execution_fenced tick None stale_call reserved_store key7 r e Hr He).
    intros token E Hm. injection E as <-. destruct Hm as [_ Ht].
    assert (E : trim_space "tok-2" = "tok-1") by (etransitivity; [symmetry; exact Ht|exact Htok]).
    vm_compute in E. discriminate E.
  - destruct (proj2 (execution_fenced tick None holder_call reserved_store key7 r e Hr He)) as [H|[_ H]]; [|exact H].
    exfalso. assert (Hv : mr_version r = 1).
    { assert (E : mr_version <$> (ms_workflows reserved_store !! key7) = Some 1) by (vm_compute; reflexivity).
      rewrite Hr in E. injection E as E. exact E. }
    assert (E : mr_version <$> (ms_workflows (run_call tick None holder_call reserved_store).2 !! key7) = Some 2)
      by (vm_compute; reflexivity).
    rewrite H in E. injection E as E. rewrite Hv in E. discriminate E.
Defined.

Lemma reservation_never_lost_witness :
  let cs := [(None, CDeleteIfVersion key7 1); (None, CTakeover key7 1 "tok-1" other_reservation);
             (None, CLoad key7)] in
  holds key7 "subscription.start" "key-1" (run_calls tick cs reserved_store).2
  \/ exists n, holds_recorded key7 "subscription.start" "key-1"
       (run_calls tick (take n cs) reserved_store).2.
Proof.
  apply reservation_never_lost. eexists _, _. split; [vm_compute; reflexivity|].
  split; [reflexivity|]. split; reflexivity.
Defined.

(** ** The lifecycle of a workflow *)

(** What the protocol around the store knows of a workflow. *)
Inductive lifecycle : Type :=
  | Absent
  | Idle (version : Z)
  | Executing (version : Z) (token op bk : string)
  | Recorded (version : Z) (token op bk : string).

Definition lifecycle_of (o : option memoryWorkflowRecord) : lifecycle :=
  match o with
  | None => Absent
  | Some r =>
      match mr_execution r with
      | None => Idle (mr_version r)
      | Some e =>
          let rv := ex_Reservation e in
          (if result_recorded e then Recorded else Executing)
            (mr_version r) (re_ExecutionToken rv) (re_Operation rv) (re_BusinessKey rv)
      end
  end.

(** The moves the contract allows. *)
Inductive lifecycle_step : lifecycle -> lifecycle -> Prop :=
  | step_create : lifecycle_step Absent (Idle 1)
  | step_create_reserved t op bk : lifecycle_step Absent (Executing 1 t op bk)
  | step_swap v : lifecycle_step (Idle v) (Idle (next_version v))
  | step_drop v : lifecycle_step (Idle v) Absent
  | step_reserve v t op bk : lifecycle_step (Idle v) (Executing (next_version v) t op bk)
  | step_record v t op bk : lifecycle_step (Executing v t op bk) (Recorded (next_version v) t op bk)
  | step_record_again v t op bk : lifecycle_step (Recorded v t op bk) (Recorded (next_version v) t op bk)
  | step_finalize v t op bk : lifecycle_step (Recorded v t op bk) (Idle (next_version v))
  | step_finish v t op bk : lifecycle_step (Recorded v t op bk) Absent
  | step_takeover v t t' op bk :
      t <> t' -> lifecycle_step (Executing v t op bk) (Executing (next_version v) t' op bk)
  | step_takeover_recorded v t t' op bk :
      t <> t' -> lifecycle_step (Recorded v t op bk) (Recorded (next_version v) t' op bk).

Section lifecycle.
Context (clock : nat -> Z).

Lemma rec_effect_lifecycle c o o' :
  rec_effect clock c o o' ->
  match o with Some r => record_ok (call_key c) r | None => True end ->
  lifecycle_of o' = lifecycle_of o \/ lifecycle_step (lifecycle_of o) (lifecycle_of o').
Proof.
  intros He Hok. destruct He; unfold lifecycle_of; cbn [mr_execution mr_version];
    repeat match goal with H : mr_execution ?r = _ |- context [mr_execution ?r] => rewrite H end;
    cbn [ex_Reservation]; try (by left); try (by right; constructor); right.
  - destruct (result_recorded e); constructor.
  - rewrite H1. constructor.
  - rewrite H1. constructor.
  - destruct Hok as (_ & _ & Hex). rewrite H0 in Hex. destruct H1 as [_ Htok]. rewrite Htok, H4, H5.
    destruct Hex as (_ & [[Hst Hr]|(Hst & result & Hr & _)]); unfold result_recorded;
      rewrite Hst, Hr; cbn; by constructor.
Qed.

(** the store implements the workflow lifecycle: every call moves the
    workflow it names by at most one allowed step, after dropping it first if
    it was idle and its time was up, and leaves every other workflow alone.  In
    particular an execution ends only after its result was recorded. *)
Theorem store_refines_lifecycle ctxErr c s key :
  store_ok s ->
  let o := ms_workflows s !! key in
  let o' := ms_workflows (run_call clock ctxErr c s).2 !! key in
  (key <> call_key c -> o' = o)
  /\ exists mid, (mid = lifecycle_of o \/ (mid = Absent /\ run_out clock o))
       /\ (lifecycle_of o' = mid \/ lifecycle_step mid (lifecycle_of o')).
Proof.
  intros Hs o o'. unfold o, o'. destruct (run_call_outcome clock ctxErr c s) as (o1 & Ho & H).
  assert (Hother : key <> call_key c ->
    ms_workflows (run_call clock ctxErr c s).2 !! key = ms_workflows s !! key).
  { intros Hne. destruct (run_call clock ctxErr c s).1 as [[]|e1].
    - destruct H as (o2 & _ & ->). by rewrite lookup_set_record_ne.
    - by rewrite H, lookup_set_record_ne. }
  split; [done|]. destruct (decide (key = call_key c)) as [->|Hne].
  - assert (Hok : match o1 with Some r => record_ok (call_key c) r | None => True end).
    { destruct Ho as [->|[-> _]]; [|done]. destruct (ms_workflows s !! call_key c) eqn:E; [|done].
      by apply Hs. }
    exists (lifecycle_of o1). split.
    + destruct Ho as [->|[-> Hro]]; [by left|]. right. by split.
    + destruct (run_call clock ctxErr c s).1 as [[]|e1].
      * destruct H as (o2 & He & ->). rewrite lookup_set_record. by apply (rec_effect_lifecycle c).
      * left. by rewrite H, lookup_set_record.
  - exists (lifecycle_of (ms_workflows s !! key)). split; [by left|]. left. by rewrite Hother.
Qed.
End lifecycle.

Lemma store_refines_lifecycle_witness :
  lifecycle_of (ms_workflows reserved_store !! key7) = Executing 1 "tok-1" "subscription.start" "key-1"
  /\ exists mid,
       (mid = lifecycle_of (ms_workflows reserved_store !! key7)
        \/ (mid = Absent /\ run_out tick (ms_workflows reserved_store !! key7)))
       /\ (lifecycle_of (ms_workflows (run_call tick None
              (CRecord key7 1 "tok-1" (mkResult "key-1" "created" (tick 5))) reserved_store).2 !! key7) = mid
           \/ lifecycle_step mid (lifecycle_of (ms_workflows (run_call tick None
              (CRecord key7 1 "tok-1" (mkResult "key-1" "created" (tick 5))) reserved_store).2 !! key7))).
Proof.
  split; [vm_compute; reflexivity|].
  apply (store_refines_lifecycle tick None (CRecord key7 1 "tok-1" (mkResult "key-1" "created" (tick 5)))
           reserved_store key7).
  apply (run_call_ok tick). apply map_Forall_empty.
Defined.
