(* ===== verification/StoreApi.v ===== *)
(** * The workflow store as its clients see it

    The part of the [WorkflowStore] and [WorkflowRecoveryStore] interfaces
    (internal/agent/workflow_store.go) that the write path calls and the part a
    conversation calls, the laws their clients rely on, and the in-memory store
    as an implementation that satisfies them while other clients call it in
    between. *)
From Stdlib Require Import ZArith Lia Bool String.
From stdpp Require Import base list strings gmap.
From S2P Require Import Prelude GoStrings GoTime Contract Codec CodecSpec Store StoreSpec.
#[local] Open Scope go_scope.

(** ** Operations

    The first argument is the error of the call's context.  The reason a
    deletion is given is only logged by the stores and left out. *)
Class WorkflowStore (S : Type) := {
  ws_create_reserved : option err -> WorkflowKey -> option WorkflowSnapshot -> ReservedExecutionV1 ->
    ST S VersionedWorkflow;
  ws_reserve : option err -> WorkflowKey -> Z -> option WorkflowSnapshot -> ReservedExecutionV1 ->
    ST S VersionedWorkflow;
  ws_record : option err -> WorkflowKey -> Z -> string -> PersistedExecutionResultV1 ->
    ST S VersionedWorkflow;
  ws_delete_reserved : option err -> WorkflowKey -> Z -> string -> ST S unit;
  ws_takeover : option err -> WorkflowKey -> Z -> string -> ReservedExecutionV1 ->
    ST S VersionedWorkflow
}.

(** The part of the interface a conversation's turns and sessions call. *)
Class ConversationStore (S : Type) := {
  cs_load : option err -> WorkflowKey -> ST S (option VersionedWorkflow);
  cs_create : option err -> WorkflowKey -> option WorkflowSnapshot -> ST S VersionedWorkflow;
  cs_compare_and_swap : option err -> WorkflowKey -> Z -> option WorkflowSnapshot -> ST S VersionedWorkflow;
  cs_delete_if_version : option err -> WorkflowKey -> Z -> ST S unit
}.

(** ** Laws

    A write is on record ([ws_kept]) while the store holds an execution of its
    operation and business key, or once its result has been recorded
    ([ws_recorded]). *)
Class WorkflowStoreLaws (S : Type) `{WorkflowStore S} := {
  ws_kept : WorkflowKey -> string -> string -> S -> Prop;
  ws_recorded : WorkflowKey -> string -> string -> S -> Prop;
  ws_create_kept c k n rv s vw s' :
    ws_create_reserved c k n rv s = (Ok vw, s') ->
    exists norm, canonicalReservedExecution rv = Ok norm
      /\ ws_kept k (re_Operation norm) (re_BusinessKey norm) s';
  ws_reserve_kept c k v n rv s vw s' :
    ws_reserve c k v n rv s = (Ok vw, s') ->
    exists norm, canonicalReservedExecution rv = Ok norm
      /\ ws_kept k (re_Operation norm) (re_BusinessKey norm) s';
  ws_record_kept c k v t result key op bk s :
    ws_kept key op bk s -> ws_kept key op bk (ws_record c k v t result s).2;
  ws_delete_kept c k v t key op bk s e s' :
    ws_kept key op bk s -> ws_delete_reserved c k v t s = (Err e, s') -> ws_kept key op bk s';
  ws_delete_recorded c k v t op bk s s' :
    ws_kept k op bk s -> ws_delete_reserved c k v t s = (Ok tt, s') -> ws_recorded k op bk s';
  ws_takeover_kept c k v t rv key op bk s :
    ws_kept key op bk s -> ws_kept key op bk (ws_takeover c k v t rv s).2;
  ws_takeover_execution c k v t rv s vw s' :
    ws_takeover c k v t rv s = (Ok vw, s') ->
    exists norm e, canonicalReservedExecution rv = Ok norm /\ vw_Execution vw = Some e
      /\ re_Operation (ex_Reservation e) = re_Operation norm
      /\ re_BusinessKey (ex_Reservation e) = re_BusinessKey norm
      /\ re_TrustedParams (ex_Reservation e) = re_TrustedParams norm
      /\ ws_kept k (re_Operation norm) (re_BusinessKey norm) s'
}.

(** A reservation in the form the stores keep, cloned. *)
Lemma clone_identifiers rv norm :
  canonicalReservedExecution rv = Ok norm ->
  re_Operation (cloneReservedExecution norm) = re_Operation norm
  /\ re_BusinessKey (cloneReservedExecution norm) = re_BusinessKey norm.
Proof.
  intros H%canonical_persistable. apply is_ok_true in H as (d & H).
  apply reservedExecutionToV1_Ok in H as (_ & Ht & _). unfold trimmed in Ht. b2p. by split.
Qed.

(** ** The in-memory store, shared with other clients

    Before each call of the client at hand, other clients make the calls at the
    head of [sh_others].  [sh_seen] is a ghost: every state the store went
    through. *)
Record shared_store := mkShared {
  sh_store : memoryWorkflowStore;
  sh_others : list (list (option err * store_call));
  sh_seen : list memoryWorkflowStore
}.

Section shared.
Context (clock : nat -> Z).

(** The states before, between and after some calls. *)
Fixpoint visited (cs : list (option err * store_call)) (s : memoryWorkflowStore)
  : list memoryWorkflowStore :=
  s :: match cs with [] => [] | (c, call) :: cs' => visited cs' (run_call clock c call s).2 end.

Definition shared_call {A} (m : ST memoryWorkflowStore A) : ST shared_store A := fun s =>
  let cs := default [] (head (sh_others s)) in
  let '(r, s2) := m (run_calls clock cs (sh_store s)).2 in
  (r, mkShared s2 (tail (sh_others s)) (sh_seen s ++ visited cs (sh_store s))).

#[global] Instance shared_WorkflowStore : WorkflowStore shared_store := {
  ws_create_reserved c k n rv := shared_call (CreateReservedExecution clock c k n rv);
  ws_reserve c k v n rv := shared_call (ReserveExecution clock c k v n rv);
  ws_record c k v t r := shared_call (RecordExecutionResult clock c k v t r);
  ws_delete_reserved c k v t := shared_call (DeleteReservedExecution clock c k v t);
  ws_takeover c k v t rv := shared_call (TakeoverExpiredExecution clock c k v t rv)
}.

#[global] Instance shared_ConversationStore : ConversationStore shared_store := {
  cs_load c k := shared_call (Load clock c k);
  cs_create c k n := shared_call (Create clock c k n);
  cs_compare_and_swap c k v n := shared_call (CompareAndSwap clock c k v n);
  cs_delete_if_version c k v := shared_call (DeleteIfVersion clock c k v)
}.

(** A result for the write was recorded at some point. *)
Definition was_recorded (k : WorkflowKey) (op bk : string) (s : shared_store) : Prop :=
  Exists (holds_recorded k op bk) (sh_seen s).
Definition on_record (k : WorkflowKey) (op bk : string) (s : shared_store) : Prop :=
  holds k op bk (sh_store s) \/ was_recorded k op bk s.

Lemma forget_state {A} (m : store A) s : (forget m s).2 = (m s).2.
Proof. unfold forget, st_bind, st_ret. by destruct (m s) as [[a|e] s']. Qed.

Lemma visited_take cs s n : (run_calls clock (take n cs) s).2 ∈ visited cs s.
Proof.
  revert s n. induction cs as [|[c call] cs IH]; intros s [|n]; cbn; try by left.
  right. destruct (run_call clock c call s) as [r s1]. specialize (IH s1 n).
  by destruct (run_calls clock (take n cs) s1).
Qed.

Lemma visited_last cs s : (run_calls clock cs s).2 ∈ visited cs s.
Proof. rewrite <- (take_ge cs (length cs)) at 1 by done. apply visited_take. Qed.

(** Calls of others keep a write on record. *)
Lemma on_record_others k op bk cs s :
  holds k op bk s ->
  holds k op bk (run_calls clock cs s).2 \/ Exists (holds_recorded k op bk) (visited cs s).
Proof.
  intros [H|(n & H)]%(never_lost clock k op bk cs); [by left|right].
  apply Exists_exists. eexists. split; [apply visited_take|exact H].
Qed.

(** So does one call of the client's own. *)
Lemma holds_call k op bk c call s :
  holds k op bk s ->
  holds k op bk (run_call clock c call s).2 \/ holds_recorded k op bk s.
Proof.
  intros [H|([|[|n]] & H)]%(never_lost clock k op bk [(c, call)]).
  - left. cbn in H. by destruct (run_call clock c call s).
  - by right.
  - cbn in H. left. destruct (run_call clock c call s) as [r s1]. cbn in *.
    destruct H as (rec & e & ? & ? & ? & ? & _). by exists rec, e.
  - cbn in H. left. destruct (run_call clock c call s) as [r s1]. cbn in *.
    destruct H as (rec & e & ? & ? & ? & ? & _). by exists rec, e.
Qed.

Lemma shared_call_kept {A} (m : ST memoryWorkflowStore A) c call k op bk s :
  (forall s0, (m s0).2 = (run_call clock c call s0).2) ->
  on_record k op bk s -> on_record k op bk (shared_call m s).2.
Proof.
  intros Hm H. unfold shared_call. set (cs := default [] (head (sh_others s))).
  specialize (Hm (run_calls clock cs (sh_store s)).2).
  pose proof (holds_call k op bk c call (run_calls clock cs (sh_store s)).2) as Hc. rewrite <- Hm in Hc.
  pose proof (visited_last cs (sh_store s)) as Hl.
  destruct (m _) as [r s2]. cbn [snd] in *. unfold on_record, was_recorded in *. cbn [sh_store sh_seen].
  rewrite Exists_app. destruct H as [H|H]; [|tauto].
  destruct (on_record_others k op bk cs _ H) as [H1|H1]; [|tauto].
  destruct (Hc H1) as [H2|H2]; [tauto|]. right; right. apply Exists_exists. eauto.
Qed.

(** What a call answered and did, read off the call it stands for. *)
Lemma ok_effect {A} (m : store A) c call s a s' :
  (forall s0, run_call clock c call s0 = forget m s0) -> m s = (Ok a, s') ->
  exists o o', rec_effect clock call o o' /\ (o = ms_workflows s !! call_key call \/ o = None)
    /\ ms_workflows s' = set_record (call_key call) o' (ms_workflows s).
Proof.
  intros Hm H. pose proof (run_call_outcome clock c call s) as (o & Ho & Hr).
  rewrite Hm in Hr. unfold forget, st_bind, st_ret in Hr. rewrite H in Hr. cbn in Hr.
  destruct Hr as (o' & He & Hs). exists o, o'. naive_solver.
Qed.

(** A reservation that was made is held, by the record the call left. *)
Lemma reserved_holds k op bk m m' r e :
  ms_workflows m = set_record k (Some r) m' -> mr_execution r = Some e ->
  re_Operation (ex_Reservation e) = op -> re_BusinessKey (ex_Reservation e) = bk -> holds k op bk m.
Proof. intros Hm He Ho Hb. exists r, e. by rewrite Hm, lookup_set_record. Qed.

Lemma create_holds c k n rv s vw s' :
  CreateReservedExecution clock c k n rv s = (Ok vw, s') ->
  exists norm, canonicalReservedExecution rv = Ok norm
    /\ holds k (re_Operation norm) (re_BusinessKey norm) s'.
Proof.
  intros H. destruct (ok_effect _ c (CCreateReserved k n rv) _ _ _ (fun _ => eq_refl) H)
    as (o & o' & He & _ & Hm).
  inversion He; subst. eexists. split; [done|]. by eapply reserved_holds.
Qed.

Lemma reserve_holds c k v n rv s vw s' :
  ReserveExecution clock c k v n rv s = (Ok vw, s') ->
  exists norm, canonicalReservedExecution rv = Ok norm
    /\ holds k (re_Operation norm) (re_BusinessKey norm) s'.
Proof.
  intros H. destruct (ok_effect _ c (CReserve k v n rv) _ _ _ (fun _ => eq_refl) H)
    as (o & o' & He & _ & Hm).
  inversion He; subst. eexists. split; [done|]. by eapply reserved_holds.
Qed.

Lemma takeover_holds c k v t rv s vw s' :
  TakeoverExpiredExecution clock c k v t rv s = (Ok vw, s') ->
  exists norm e, canonicalReservedExecution rv = Ok norm /\ vw_Execution vw = Some e
    /\ ex_Reservation e = cloneReservedExecution norm
    /\ holds k (re_Operation norm) (re_BusinessKey norm) s'.
Proof.
  intros H. destruct (ok_effect _ c (CTakeover k v t rv) _ _ _ (fun _ => eq_refl) H)
    as (o & o' & He & _ & Hm).
  inversion He as [| | | | | | | | |k0 r e t0 rv0 norm n0 Hc]; subst.
  assert (holds k (re_Operation norm) (re_BusinessKey norm) s') by (by eapply reserved_holds).
  revert H. unfold TakeoverExpiredExecution, st_bind, st_lift, st_ret, st_fail, now, put_record.
  destruct (check_call c k); [|done]. rewrite Hc. case_bool_decide; [done|].
  destruct (recordForExecutionMutationLocked clock k _ t s) as [[[r1 e1]|] s1]; [|done].
  repeat (case_if; [done|]). intros [= <- _]. by eexists _, _.
Qed.

(** A reservation that could be deleted had its result recorded. *)
Lemma delete_recorded c k v t op bk s s' :
  holds k op bk s -> DeleteReservedExecution clock c k v t s = (Ok tt, s') -> holds_recorded k op bk s.
Proof.
  intros (r0 & e0 & Hr0 & He0 & Hop & Hbk) H.
  destruct (run_call_outcome clock c (CDeleteReserved k v t) s) as (o & Ho & Hr).
  cbn [run_call call_key] in *. rewrite H in Hr. cbn in Hr. destruct Hr as (o' & He & _).
  inversion He as [| | | | | | | |k0 r e t0 Hex _ Hrec|]; subst.
  destruct Ho as [Ho|[? _]]; [|done]. assert (r = r0) as -> by congruence.
  assert (e = e0) as -> by congruence. by exists r0, e0.
Qed.

(** A successful call of the client's own, after those of the others. *)
Lemma shared_call_Ok {A} (m : ST memoryWorkflowStore A) s a s' :
  shared_call m s = (Ok a, s') ->
  let s0 := (run_calls clock (default [] (head (sh_others s))) (sh_store s)).2 in
  m s0 = (Ok a, sh_store s') /\ s0 ∈ sh_seen s'
  /\ forall k op bk, on_record k op bk s -> holds k op bk s0 \/ was_recorded k op bk s'.
Proof.
  unfold shared_call. set (cs := default [] (head (sh_others s))). intros H.
  pose proof (visited_last cs (sh_store s)) as Hl. cbv zeta.
  destruct (m _) as [r s2]. injection H as -> <-. cbn [sh_store sh_seen]. split; [done|].
  split; [apply elem_of_app; by right|].
  intros k op bk [H|H]; unfold was_recorded; cbn [sh_seen]; rewrite Exists_app; [|tauto].
  destruct (on_record_others k op bk cs _ H); tauto.
Qed.

#[global] Instance shared_WorkflowStoreLaws : WorkflowStoreLaws shared_store.
Proof.
  refine {| ws_kept := on_record; ws_recorded := was_recorded |}.
  - intros c k n rv s vw s' (H & _)%shared_call_Ok.
    apply create_holds in H as (norm & ? & ?). exists norm. split; [done|by left].
  - intros c k v n rv s vw s' (H & _)%shared_call_Ok.
    apply reserve_holds in H as (norm & ? & ?). exists norm. split; [done|by left].
  - intros c k v t result key op bk s. apply (shared_call_kept _ c (CRecord k v t result)).
    intros s0. symmetry. apply forget_state.
  - intros c k v t key op bk s e s' Hk H.
    pose proof (shared_call_kept _ c (CDeleteReserved k v t) key op bk s (fun _ => eq_refl) Hk) as Hk'.
    cbn in H. unfold shared_call in H, Hk'. cbn [run_call] in Hk'.
    destruct (DeleteReservedExecution _ _ _ _ _ _) as [r s2]. by injection H as _ <-.
  - intros c k v t op bk s s' Hk (H & Hin & Ho)%shared_call_Ok.
    destruct (Ho _ _ _ Hk) as [Hh|Hr]; [|done].
    apply Exists_exists. eexists. split; [exact Hin|]. by eapply delete_recorded.
  - intros c k v t rv key op bk s. apply (shared_call_kept _ c (CTakeover k v t rv)).
    intros s0. symmetry. apply forget_state.
  - intros c k v t rv s vw s' (H & _)%shared_call_Ok.
    apply takeover_holds in H as (norm & e & Hc & ? & Hr & ?). exists norm, e. rewrite Hr.
    destruct (clone_identifiers _ _ Hc). split_and!; try done. by left.
Defined.

End shared.
