(* ===== verification/ScheduleParse.v ===== *)
(** * Timetable import (pkg/scheduleparse/parser.go) and week lists (pkg/weekutil/week.go)

    The text analysis of an imported timetable: recognising the "weeks[nodes]"
    anchors of a cell, splitting the cell into courses, expanding a week
    expression such as "1-8,10" into weeks and printing the stored week list,
    which [ContainsWeek] reads back.  Workbook and HTML reading (excelize,
    goquery, xls) is not modelled: [ParseCourses] starts from the rows the
    workbook yields and [layoutTable] from the table cells the HTML yields.
    The regular expressions of the source are written out as functions on the
    decoded runes, each paired with the bytes it came from. *)
From Stdlib Require Import ZArith Lia Bool String Ascii.
From stdpp Require Import base list strings gmap sorting.
From S2P Require Import Prelude GoStrings.

(** ** Week lists *)

(** The digits of one segment, read as [n = n*10 + int(c-'0')] at machine width. *)
Definition week_segment_value (seg : list Z) : Z :=
  fold_left (fun n c => if is_digit c then wrap_int64 (n * 10 + (c - 48)) else n) seg 0.

(** The test made at the end of a segment: it is not empty and equals [week]. *)
Definition week_segment_hit (seg : list Z) (week : Z) : bool :=
  match seg with [] => false | _ => week_segment_value seg =? week end.

(** The scan of the list, [seg] being the bytes since the last comma. *)
Fixpoint contains_week_loop (rest seg : list Z) (week : Z) : bool :=
  match rest with
  | [] => week_segment_hit seg week
  | c :: rest' =>
      if c =? 44
      then week_segment_hit seg week || contains_week_loop rest' [] week
      else contains_week_loop rest' (seg ++ [c]) week
  end.

Definition ContainsWeek (weekList : string) (week : Z) : bool :=
  if (bool_decide (weekList = "") || (week <=? 0))%bool then false
  else contains_week_loop (bytes weekList) [] week.

(** [for i := s; i <= e; i++ { weeks = append(weeks, i) }]: [None] when the
    fuel runs out before the loop ends.  The increment wraps. *)
Fixpoint week_range_loop (fuel : nat) (i e : Z) : option (list Z) :=
  match fuel with
  | O => None
  | S f => if i <=? e
           then l ← week_range_loop f (wrap_int64 (i + 1)) e; Some (i :: l)
           else Some []
  end.

(** One comma-separated part of a week expression. *)
Definition expand_week_part (fuel : nat) (p : string) : option (list Z) :=
  if contains p "-" then
    match split_byte 45 p with
    | [rs; re] => week_range_loop fuel (atoi_value rs) (atoi_value re)
    | _ => Some []
    end
  else let i := atoi_value p in Some (if 0 <? i then [i] else []).

Fixpoint expand_week_parts (fuel : nat) (ps : list string) : option (list Z) :=
  match ps with
  | [] => Some []
  | p :: ps' => l ← expand_week_part fuel p; l' ← expand_week_parts fuel ps'; Some (l ++ l')
  end.

Definition expandWeeksToArray (fuel : nat) (raw : string) : option (list Z) :=
  l ← expand_week_parts fuel (split_byte 44 raw); Some (sort_Z l).

(** Go's [%] on int truncates towards zero. *)
Definition filterWeeks (weeks : list Z) (weekType : Z) : list Z :=
  if weekType =? 0 then weeks
  else List.filter (fun w => ((weekType =? 1) && negb (Z.rem w 2 =? 0))
                             || ((weekType =? 2) && (Z.rem w 2 =? 0))) weeks.

Definition joinWeeks (weeks : list Z) : string := join "," (itoa <$> weeks).

Definition parseNode (raw : string) : Z * Z :=
  match split_byte 45 raw with
  | [] => (0, 0)
  | p0 :: ps =>
      let start := atoi_value p0 in
      (start, match ps with [] => start | p1 :: _ => atoi_value p1 end)
  end.

(** The big section of a start node: [(start + 1) / 2] when it is positive. *)
Definition big_section (start : Z) : Z :=
  if 0 <? start then Z.quot (wrap_int64 (start + 1)) 2 else 0.

(** ** Runes with their bytes *)

Abbreviation rl := (list (Z * list Z)).
Definition decode (s : string) : rl := runes (bytes s).
Definition encode (l : rl) : string := of_bytes (concat (snd <$> l)).

Definition is_open (r : Z) : bool := (r =? 91) || (r =? 12304).
Definition is_close (r : Z) : bool := (r =? 93) || (r =? 12305).
Definition is_num_rune (r : Z) : bool := in_range 48 57 r || (r =? 44) || (r =? 45).
Definition is_week_rune (r : Z) : bool :=
  is_num_rune r || (r =? 21608) || (r =? 21333) || (r =? 21452).
Definition is_word_rune (r : Z) : bool :=
  in_range 65 90 r || in_range 97 122 r || in_range 48 57 r || (r =? 35).

(** [unicode.Han] (Unicode 15.0, the tables of Go 1.24) *)
Definition han_ranges : list (Z * Z) :=
  [(11904, 11929); (11931, 12019); (12032, 12245); (12293, 12293); (12295, 12295);
   (12321, 12329); (12344, 12347); (13312, 19903); (19968, 40959); (63744, 64109);
   (64112, 64217); (94178, 94179); (94192, 94193); (131072, 173791); (173824, 177977);
   (177984, 178205); (178208, 183969); (183984, 191456); (194560, 195101);
   (196608, 201546); (201552, 205743)].
Definition is_han (r : Z) : bool := existsb (fun p => in_range p.1 p.2 r) han_ranges.

(** ** Anchors *)

Definition isTimeAnchor (s : string) : bool :=
  contains_any s "[]【】"
  && (contains_any s "0123456789" || contains s "单" || contains s "双").

(** [(\[|【)(.*?)(\]|】)]: the first opening bracket with a closing bracket after
    it on the same line; the runes before it, between the brackets and after. *)
Fixpoint to_close (l : rl) : option (rl * rl) :=
  match l with
  | [] => None
  | (r, b) :: l' =>
      if is_close r then Some ([], l')
      else if r =? 10 then None
      else '(inner, rest) ← to_close l'; Some ((r, b) :: inner, rest)
  end.
Fixpoint find_node (l : rl) : option (rl * rl * rl) :=
  match l with
  | [] => None
  | (r, b) :: l' =>
      match (if is_open r then to_close l' else None) with
      | Some (inner, rest) => Some ([], inner, rest)
      | None => '(pre, inner, rest) ← find_node l'; Some ((r, b) :: pre, inner, rest)
      end
  end.

(** [reNode.ReplaceAllString(token, "")]; every round drops two brackets, so the
    length of the token is fuel enough. *)
Fixpoint remove_nodes (fuel : nat) (l : rl) : rl :=
  match fuel with
  | O => l
  | S f => match find_node l with
           | None => l
           | Some (pre, _, rest) => pre ++ remove_nodes f rest
           end
  end.

Definition parseTimeToken (token : string) : string * string * Z :=
  let l := decode token in
  let nodePart := match find_node l with Some (_, inner, _) => encode inner | None => "" end in
  let weekPartRaw := encode (remove_nodes (length l) l) in
  let weekType := if contains weekPartRaw "单" then 1
                  else if contains weekPartRaw "双" then 2 else 0 in
  (encode (List.filter (fun c => is_num_rune (fst c)) (decode weekPartRaw)), nodePart, weekType).

(** ** Courses *)

Record CourseInput := mkCourseInput {
  CourseName : string;
  Teacher : string;
  Location : string;
  DayOfWeek : Z;
  Section_ : Z;
  WeekList : string
}.

(** The node and week fields every parser fills from an anchor token. *)
Definition anchor_section_weeks (fuel : nat) (token : string) : option (Z * string) :=
  let '(weekPart, nodePart, weekType) := parseTimeToken token in
  let '(start, _) := parseNode nodePart in
  weekInts ← expandWeeksToArray fuel weekPart;
  Some (big_section start, joinWeeks (filterWeeks weekInts weekType)).

Definition trimmed_lines (cellValue : string) : list string :=
  List.filter (fun t => negb (bool_decide (t = ""))) (trim_space <$> split_byte 10 cellValue).

(** The body of the loop of [parseStructuredLines] at line [i]. *)
Definition structured_record (fuel : nat) (lines : list string) (i : nat) (line : string)
  : option CourseInput :=
  '(section, weeks) ← anchor_section_weeks fuel line;
  let teacher := if (1 <=? Z.of_nat i) then default "未知" (lines !! (i - 1)%nat) else "未知" in
  let name := if (2 <=? Z.of_nat i) then default "未知课程" (lines !! (i - 2)%nat) else "未知课程" in
  let location := match lines !! (i + 1)%nat with
                  | Some next => if isTimeAnchor next then "未定地点" else next
                  | None => "未定地点"
                  end in
  Some (mkCourseInput name teacher location 0 section weeks).

Fixpoint structured_loop (fuel : nat) (lines : list string) (i : nat) (rest : list string)
  : option (list CourseInput) :=
  match rest with
  | [] => Some []
  | line :: rest' =>
      if isTimeAnchor line then
        r ← structured_record fuel lines i line;
        rs ← structured_loop fuel lines (S i) rest';
        Some (r :: rs)
      else structured_loop fuel lines (S i) rest'
  end.

Definition parseStructuredLines (fuel : nat) (cellValue : string) : option (list CourseInput) :=
  let lines := trimmed_lines cellValue in structured_loop fuel lines 0 lines.

Definition containsCourseKeyword (s : string) : bool := contains_any s "课论学基组室楼区程".

(** [strings.LastIndex(raw, " ")] as the text before and after it. *)
Fixpoint last_space_split (l : list Z) : option (list Z * list Z) :=
  match l with
  | [] => None
  | c :: l' => match last_space_split l' with
               | Some (a, b) => Some (c :: a, b)
               | None => if c =? 32 then Some ([], l') else None
               end
  end.

Definition splitNameAndTeacherGeneric (raw : string) : string * string :=
  if bool_decide (raw = "") then ("未知课程", "未知")
  else match last_space_split (bytes raw) with
       | Some (pre, t) =>
           if negb (containsCourseKeyword (of_bytes t)) && (Z.of_nat (length t) <? 15)
           then (trim_space (of_bytes pre), of_bytes t)
           else (raw, "未知")
       | None => (raw, "未知")
       end.

Definition protectedSuffixes : list string :=
  ["实验室"; "中心"; "机房"; "基地"; "平台"; "实训室"; "楼"; "区"; "室"].

(** [([A-Za-z0-9#]+)([\p{Han}])]: the text up to the end of the first run of word
    characters that a Han character follows, and the text from there. *)
Fixpoint word_han_split (l : rl) : option (rl * rl) :=
  match l with
  | (r, b) :: l' =>
      match l' with
      | (r', _) :: _ =>
          if is_word_rune r && is_han r' then Some ([(r, b)], l')
          else '(pre, rest) ← word_han_split l'; Some ((r, b) :: pre, rest)
      | [] => None
      end
  | [] => None
  end.

Definition splitLocationAndNextCourse (raw : string) : string * string :=
  if bool_decide (raw = "") then ("", "")
  else if existsb (has_suffix raw) protectedSuffixes then (raw, "")
  else match word_han_split (decode raw) with
       | Some (pre, rest) =>
           if existsb (contains (encode rest)) protectedSuffixes then (raw, "")
           else (encode pre, encode rest)
       | None => (raw, "")
       end.

(** [([0-9,\-周单双]+)(\[|【)([0-9,\-]+)(\]|】)] at the front of [l]: the match and
    the rest. *)
Fixpoint span (p : Z -> bool) (l : rl) : rl * rl :=
  match l with
  | [] => ([], [])
  | c :: l' => if p (fst c) then let '(a, b) := span p l' in (c :: a, b) else ([], l)
  end.
Definition anchor_match (l : rl) : option (rl * rl) :=
  match span is_week_rune l with
  | (w :: ws, o :: l1) =>
      if is_open (fst o) then
        match span is_num_rune l1 with
        | (n :: ns, c :: l2) =>
            if is_close (fst c) then Some ((w :: ws) ++ [o] ++ (n :: ns) ++ [c], l2) else None
        | _ => None
        end
      else None
  | _ => None
  end.

Definition space_chunk : Z * list Z := (32, [32]).

(** [reAnchor.ReplaceAllString(s, " $0 ")] *)
Fixpoint pad_anchors (fuel : nat) (l : rl) : rl :=
  match fuel with
  | O => l
  | S f => match l with
           | [] => []
           | c :: l' => match anchor_match l with
                        | Some (m, rest) => space_chunk :: m ++ space_chunk :: pad_anchors f rest
                        | None => c :: pad_anchors f l'
                        end
           end
  end.

(** [\s+] to one space ([\s] is tab, newline, form feed, return and space) *)
Definition is_re_space (r : Z) : bool :=
  (r =? 9) || (r =? 10) || (r =? 12) || (r =? 13) || (r =? 32).
Fixpoint collapse_spaces (in_run : bool) (l : rl) : rl :=
  match l with
  | [] => []
  | c :: l' => if is_re_space (fst c)
               then (if in_run then collapse_spaces true l' else space_chunk :: collapse_spaces true l')
               else c :: collapse_spaces false l'
  end.

Definition normalizeAndPad (s : string) : string :=
  let spaced := (fun c : Z * list Z =>
    if is_space (fst c) || (fst c =? 12288) || (fst c =? 8194) then 32 else fst c) <$> decode s in
  let l := decode (of_runes spaced) in
  encode (collapse_spaces false (pad_anchors (length l) l)).

(** [parseGeneric]: the loop over the anchors, carrying the text that belongs
    to the next course and the index after the last token consumed. *)
Fixpoint anchor_indices (i : nat) (tokens : list string) : list nat :=
  match tokens with
  | [] => []
  | t :: ts => if isTimeAnchor t then i :: anchor_indices (S i) ts else anchor_indices (S i) ts
  end.

Fixpoint generic_loop (fuel : nat) (tokens : list string) (idxs : list nat)
    (pendingStr : string) (prevEnd : nat) : option (list CourseInput) :=
  match idxs with
  | [] => Some []
  | a :: idxs' =>
      let rawTime := default "" (tokens !! a) in
      let left := join " " (take (a - prevEnd) (drop prevEnd tokens)) in
      let header := if bool_decide (pendingStr = "") then left else pendingStr +:+ left in
      let '(courseName, teacher) := splitNameAndTeacherGeneric header in
      let locStart := S a in
      let locEnd := match idxs' with a' :: _ => a' | [] => length tokens end in
      let rawRight := if (locStart <? locEnd)%nat
                      then join "" (take (locEnd - locStart) (drop locStart tokens)) else "" in
      let '(realLocation, nextStart) := splitLocationAndNextCourse rawRight in
      '(section, weeks) ← anchor_section_weeks fuel rawTime;
      rs ← generic_loop fuel tokens idxs' nextStart locEnd;
      Some (mkCourseInput courseName teacher realLocation 0 section weeks :: rs)
  end.

Definition parseGeneric (fuel : nat) (tokens : list string) : option (list CourseInput) :=
  generic_loop fuel tokens (anchor_indices 0 tokens) "" 0.

(** ** The sheet *)

(** The day of a header cell: later matches overwrite earlier ones, as the
    sequence of ifs does. *)
Definition header_day (txt : string) : option Z :=
  let d := None in
  let d := if contains txt "一" then Some 1 else d in
  let d := if contains txt "二" then Some 2 else d in
  let d := if contains txt "三" then Some 3 else d in
  let d := if contains txt "四" then Some 4 else d in
  let d := if contains txt "五" then Some 5 else d in
  let d := if contains txt "六" then Some 6 else d in
  if contains txt "日" || contains txt "天" then Some 7 else d.

Fixpoint scan_header_row (cIdx : nat) (row : list string) : nat * gmap nat Z :=
  match row with
  | [] => (0%nat, ∅)
  | cell :: row' =>
      let '(n, m) := scan_header_row (S cIdx) row' in
      let txt := remove_byte 32 cell in
      if contains txt "星期"
      then (S n, match header_day txt with Some d => <[cIdx := d]> m | None => m end)
      else (n, m)
  end.

Fixpoint find_header (rows : list (list string)) : option (gmap nat Z) :=
  match rows with
  | [] => None
  | row :: rows' => let '(n, m) := scan_header_row 0 row in
                    if (3 <=? n)%nat then Some m else find_header rows'
  end.

(** The day of a column: from the header, or guessed from the position. *)
Definition column_day (header : option (gmap nat Z)) (colIdx : nat) : option Z :=
  match header with
  | Some m => m !! colIdx
  | None => if (colIdx <? 2)%nat then None
            else Some (Z.min (Z.of_nat colIdx - 1) 7)
  end.

Definition parse_cell (fuel : nat) (cleanValue : string) : option (list CourseInput) :=
  if contains cleanValue (of_bytes [10])
  then parseStructuredLines fuel cleanValue
  else parseGeneric fuel (fields (normalizeAndPad cleanValue)).

Definition set_day (d : Z) (r : CourseInput) : CourseInput :=
  mkCourseInput (CourseName r) (Teacher r) (Location r) d (Section_ r) (WeekList r).

Fixpoint parse_row (fuel : nat) (header : option (gmap nat Z)) (colIdx : nat)
    (row : list string) : option (list CourseInput) :=
  match row with
  | [] => Some []
  | cell :: row' =>
      rest ← parse_row fuel header (S colIdx) row';
      match column_day header colIdx with
      | None => Some rest
      | Some d =>
          let clean := trim_space cell in
          if bool_decide (clean = "") then Some rest
          else records ← parse_cell fuel clean; Some ((set_day d <$> records) ++ rest)
      end
  end.

Fixpoint parse_rows (fuel : nat) (header : option (gmap nat Z)) (rows : list (list string))
  : option (list CourseInput) :=
  match rows with
  | [] => Some []
  | row :: rows' =>
      if existsb (fun cell => contains cell "星期") row then parse_rows fuel header rows'
      else cs ← parse_row fuel header 0 row;
           rest ← parse_rows fuel header rows';
           Some (cs ++ rest)
  end.

(** [ParseCourses] on the rows of the first sheet. *)
Definition ParseCourses (fuel : nat) (rows : list (list string)) : option (list CourseInput) :=
  parse_rows fuel (find_header (take 10 rows)) rows.

(** ** The HTML table layout (convertHTMLToXLSX) *)

(** A table cell as the HTML library yields it: its rowspan and colspan
    attributes ("1" when absent) and its text. *)
Record htmlCell := mkCell { rowspanAttr : string; colspanAttr : string; cellText : string }.

Definition span_value (attr : string) : Z := let n := atoi_value attr in if n <? 1 then 1 else n.

(** [for isOccupied(rowIdx, colIdx) { colIdx++ }]; each step passes an occupied
    cell, so the number of occupied cells is fuel enough. *)
Fixpoint skip_occupied (fuel : nat) (occ : gset (Z * Z)) (row col : Z) : Z :=
  match fuel with
  | O => col
  | S f => if decide ((row, col) ∈ occ) then skip_occupied f occ row (col + 1) else col
  end.

Fixpoint mark_row (n : nat) (row col : Z) (occ : gset (Z * Z)) : gset (Z * Z) :=
  match n with
  | O => occ
  | S n' => mark_row n' row (col + 1) ({[(row, col)]} ∪ occ)
  end.
Fixpoint mark_block (rs cs : nat) (row col : Z) (occ : gset (Z * Z)) : gset (Z * Z) :=
  match rs with
  | O => occ
  | S rs' => mark_block rs' cs (row + 1) col (mark_row cs row col occ)
  end.

(** One row: the cells written, as ((column, row), text), and the occupied set. *)
Fixpoint layout_row (cells : list htmlCell) (row col : Z) (occ : gset (Z * Z))
  : list (Z * Z * string) * gset (Z * Z) :=
  match cells with
  | [] => ([], occ)
  | c :: cells' =>
      let col' := skip_occupied (size occ) occ row col in
      let rs := span_value (rowspanAttr c) in
      let cs := span_value (colspanAttr c) in
      let occ' := mark_block (Z.to_nat rs) (Z.to_nat cs) row col' occ in
      let '(ws, occ'') := layout_row cells' row (col' + cs) occ' in
      ((row, col', trim_space (cellText c)) :: ws, occ'')
  end.

Fixpoint layout_rows (rows : list (list htmlCell)) (row : Z) (occ : gset (Z * Z))
  : list (Z * Z * string) :=
  match rows with
  | [] => []
  | cells :: rows' =>
      let '(ws, occ') := layout_row cells row 1 occ in ws ++ layout_rows rows' (row + 1) occ'
  end.

Definition layoutTable (rows : list (list htmlCell)) : list (Z * Z * string) :=
  layout_rows rows 1 ∅.

(** ** File kinds *)
Definition isXLSX (header : list Z) : bool := prefix_of [80; 75; 3; 4] header.
Definition isBinaryXLS (header : list Z) : bool := prefix_of [208; 207; 17; 224] header.
Definition isHTML (header : list Z) : bool :=
  let s := to_lower (of_bytes header) in
  contains s "<html" || contains s "<table" || contains s "<!doctype html".

(** ** Lemmas on week lists *)

Lemma parse_uint_loop_ge l n v :
  0 <= n -> parse_uint_loop l n = (v, None) -> n <= v.
Proof.
  revert n. induction l as [|c l IH]; intros n Hn; cbn [parse_uint_loop]; [intros [= <-]; lia|].
  destruct (is_digit c) eqn:Ec; [|done]. unfold is_digit, in_range in Ec. b2p.
  destruct (_ <=? n); [done|]. destruct (_ <? _); [done|]. intros Hp.
  apply IH in Hp; lia.
Qed.

(** The digit loop of [ContainsWeek] agrees with [strconv] on numbers in range. *)
Lemma week_fold_parse l n v :
  0 <= n -> parse_uint_loop l n = (v, None) -> v <= max_int64 ->
  fold_left (fun n c => if is_digit c then wrap_int64 (n * 10 + (c - 48)) else n) l n = v.
Proof.
  revert n. induction l as [|c l IH]; intros n Hn; cbn [parse_uint_loop fold_left].
  { by intros [= <-] _. }
  destruct (is_digit c) eqn:Ec; [|done].
  destruct (_ <=? n); [done|]. destruct (_ <? _); [done|]. intros Hp Hv.
  pose proof Ec as Ec'. unfold is_digit, in_range in Ec'. b2p.
  assert (0 <= n * 10 + (c - 48)) as Hnn by lia.
  pose proof (parse_uint_loop_ge _ _ _ Hnn Hp) as Hge.
  rewrite <- (IH (n * 10 + (c - 48))); [f_equal|lia|done|done].
  unfold wrap_int64. rewrite Z.mod_small; [lia|].
  unfold max_int64, two63, two64 in *. lia.
Qed.

Lemma week_segment_value_itoa w :
  0 <= w <= max_int64 -> week_segment_value (itoa_bytes w) = w.
Proof.
  intros Hw. unfold week_segment_value, itoa_bytes.
  destruct (Z.ltb_spec w 0); [lia|]. apply week_fold_parse; [lia| |lia].
  rewrite parse_uint_dec; [done| |].
  - split; [lia|]. apply dec_fuel_bound. lia.
  - unfold max_uint64, max_int64, two63, two64 in *. lia.
Qed.

Lemma contains_week_loop_app d rest seg week :
  Forall (fun c => c <> 44) d ->
  contains_week_loop (d ++ rest) seg week = contains_week_loop rest (seg ++ d) week.
Proof.
  intros H. revert seg. induction H as [|c d Hc Hd IH]; intros seg; cbn.
  - by rewrite app_nil_r.
  - destruct (Z.eqb_spec c 44); [done|]. by rewrite IH, <- app_assoc.
Qed.

Lemma itoa_bytes_digits w :
  0 <= w -> itoa_bytes w <> [] /\ Forall (fun b => is_digit b = true) (itoa_bytes w).
Proof.
  intros Hw. unfold itoa_bytes. destruct (Z.ltb_spec w 0); [lia|]. split.
  - destruct (dec_digits_cons w Hw) as (d & ds & -> & _). done.
  - by apply dec_digits_digit.
Qed.

Lemma itoa_bytes_no_comma w : 0 <= w -> Forall (fun c => c <> 44) (itoa_bytes w).
Proof.
  intros Hw. eapply Forall_impl; [by apply itoa_bytes_digits|].
  intros c Hc. cbn in Hc. unfold is_digit, in_range in Hc. b2p. lia.
Qed.

Lemma week_segment_hit_itoa w x :
  0 <= w <= max_int64 -> week_segment_hit (itoa_bytes w) x = (w =? x).
Proof.
  intros Hw. unfold week_segment_hit. destruct (itoa_bytes w) as [|b l] eqn:E.
  - by destruct (itoa_bytes_digits w ltac:(lia)) as [? _].
  - rewrite <- E. by rewrite week_segment_value_itoa.
Qed.

Lemma bytes_itoa w : bytes (itoa w) = itoa_bytes w.
Proof. unfold itoa. apply bytes_of_bytes, itoa_bytes_is_byte. Qed.

Lemma joinWeeks_cons w w' ws : joinWeeks (w :: w' :: ws) = itoa w +:+ "," +:+ joinWeeks (w' :: ws).
Proof. reflexivity. Qed.

Lemma contains_week_loop_join ws x :
  Forall (fun w => 0 <= w <= max_int64) ws -> ws <> [] ->
  contains_week_loop (bytes (joinWeeks ws)) [] x = bool_decide (x ∈ ws).
Proof.
  induction 1 as [|w ws Hw Hws IH]; [done|]. intros _. destruct ws as [|w' ws'].
  - unfold joinWeeks. cbn [fmap list_fmap join]. rewrite bytes_itoa.
    rewrite <- (app_nil_r (itoa_bytes w)), contains_week_loop_app by (apply itoa_bytes_no_comma; lia).
    cbn. rewrite week_segment_hit_itoa by done.
    destruct (Z.eqb_spec w x) as [->|]; symmetry;
      [apply bool_decide_eq_true|apply bool_decide_eq_false]; set_solver.
  - rewrite joinWeeks_cons, !bytes_app, bytes_itoa.
    rewrite contains_week_loop_app by (apply itoa_bytes_no_comma; lia).
    change (bytes ",") with [44]. cbn [app contains_week_loop Z.eqb Pos.eqb].
    rewrite week_segment_hit_itoa, IH by done.
    destruct (Z.eqb_spec w x) as [->|]; cbn [orb].
    + symmetry. apply bool_decide_eq_true. set_solver.
    + apply bool_decide_ext. set_solver.
Qed.

(** A stored week list answers exactly the weeks it was printed from. *)
Lemma ContainsWeek_join_elem ws x :
  Forall (fun w => 0 <= w <= max_int64) ws -> 0 < x ->
  ContainsWeek (joinWeeks ws) x = bool_decide (x ∈ ws).
Proof.
  intros Hws Hx. unfold ContainsWeek. destruct ws as [|w ws].
  { cbn. symmetry. apply bool_decide_eq_false. set_solver. }
  destruct (Z.leb_spec x 0); [lia|]. rewrite orb_false_r.
  rewrite bool_decide_eq_false_2; [by apply contains_week_loop_join|].
  intros E. apply (f_equal bytes) in E. inversion Hws as [|? ? Hw _]; subst.
  destruct (itoa_bytes_digits w ltac:(lia)) as [Hne _].
  destruct ws as [|w' ws].
  - unfold joinWeeks in E. cbn [fmap list_fmap join] in E. rewrite bytes_itoa in E. done.
  - rewrite joinWeeks_cons, bytes_app, bytes_itoa in E. apply app_eq_nil in E. naive_solver.
Qed.

(** ** Lemmas on week expressions *)

Lemma week_range_loop_seqZ fuel s e :
  min_int64 <= s -> e < max_int64 -> (Z.to_nat (e - s + 1) < fuel)%nat ->
  week_range_loop fuel s e = Some (seqZ s (e - s + 1)).
Proof.
  revert s. induction fuel as [|f IH]; intros s Hs He Hf; [lia|]. cbn.
  destruct (Z.leb_spec s e) as [Hle|Hgt].
  - assert (wrap_int64 (s + 1) = s + 1) as ->.
    { unfold wrap_int64. rewrite Z.mod_small; [lia|].
      unfold min_int64, max_int64, two63, two64 in *. lia. }
    rewrite IH by lia. cbn. rewrite (seqZ_cons s (e - s + 1)) by lia.
    do 2 f_equal. f_equal; lia.
  - by rewrite seqZ_nil by lia.
Qed.

Lemma week_range_loop_diverges fuel s :
  min_int64 <= s <= max_int64 -> week_range_loop fuel s max_int64 = None.
Proof.
  revert s. induction fuel as [|f IH]; intros s Hs; [done|]. cbn.
  destruct (Z.leb_spec s max_int64); [|lia].
  rewrite IH; [done|]. unfold wrap_int64.
  pose proof (Z.mod_pos_bound (s + 1 + two63) two64 ltac:(done)).
  unfold min_int64, max_int64, two63, two64 in *. lia.
Qed.

Lemma atoi_value_bounds s : min_int64 <= atoi_value s <= max_int64.
Proof.
  unfold atoi_value, atoi, parse_int_bytes.
  assert (Hn : min_int64 <= 0 <= max_int64) by done.
  assert (H63 : min_int64 = - two63 /\ max_int64 = two63 - 1) by done.
  assert (Hp : forall l n, 0 <= n -> 0 <= fst (parse_uint_loop l n)).
  { intros l. induction l as [|c l IH]; intros n Hpos; cbn; [done|].
    destruct (is_digit c) eqn:Ec; [|done]. unfold is_digit, in_range in Ec. b2p.
    destruct (_ <=? n); [done|]. destruct (_ <? _); [done|]. apply IH. lia. }
  destruct (match bytes s with [] => _ | _ => _ end) as [neg ds].
  pose proof (Hp ds 0 ltac:(lia)) as Hpos. unfold parse_uint_bytes.
  destruct ds as [|d ds]; [done|].
  destruct (parse_uint_loop (d :: ds) 0) as [un [[]|]]; cbn in *; [done| |];
    destruct neg; cbn [negb andb];
    repeat match goal with |- context [ if ?b then _ else _ ] => destruct b eqn:?; b2p end;
    cbn; lia.
Qed.

(** What a part of a week expression denotes. *)
Definition week_in_part (p : string) (w : Z) : Prop :=
  if contains p "-"
  then exists rs re, split_byte 45 p = [rs; re] /\ atoi_value rs <= w <= atoi_value re
  else w = atoi_value p /\ 0 < w.

(** The part's range loop ends: its upper bound is not the largest int. *)
Definition part_bounded (p : string) : Prop :=
  forall rs re, split_byte 45 p = [rs; re] -> atoi_value re < max_int64.

Lemma expand_week_part_spec p :
  part_bounded p ->
  exists n0, forall fuel, (n0 <= fuel)%nat ->
    exists l, expand_week_part fuel p = Some l /\ forall w, w ∈ l <-> week_in_part p w.
Proof.
  intros Hb. unfold expand_week_part, week_in_part. destruct (contains p "-").
  - destruct (split_byte 45 p) as [|rs [|re [|]]] eqn:E;
      try (exists 0%nat; intros fuel _; exists []; split; [done|]; set_solver).
    specialize (Hb rs re E). pose proof (atoi_value_bounds rs) as [Hs _].
    exists (S (Z.to_nat (atoi_value re - atoi_value rs + 1))). intros fuel Hf.
    rewrite week_range_loop_seqZ by (done || lia). eexists. split; [done|].
    intros w. rewrite elem_of_seqZ. split.
    + intros ?. exists rs, re. split; [done|]. lia.
    + intros (? & ? & [= <- <-] & ?). lia.
  - exists 0%nat. intros fuel _. eexists. split; [done|]. intros w.
    destruct (Z.ltb_spec 0 (atoi_value p)); set_unfold; naive_solver lia.
Qed.

Lemma expand_week_parts_spec ps :
  Forall part_bounded ps ->
  exists n0, forall fuel, (n0 <= fuel)%nat ->
    exists l, expand_week_parts fuel ps = Some l
      /\ forall w, w ∈ l <-> exists p, p ∈ ps /\ week_in_part p w.
Proof.
  induction 1 as [|p ps Hp Hps (n1 & IH)].
  { exists 0%nat. intros fuel _. exists []. split; [done|]. set_solver. }
  destruct (expand_week_part_spec p Hp) as (n0 & H0). exists (max n0 n1). intros fuel Hf.
  destruct (H0 fuel ltac:(lia)) as (l & El & Hl). destruct (IH fuel ltac:(lia)) as (l' & El' & Hl').
  exists (l ++ l'). cbn. rewrite El. cbn. rewrite El'. split; [done|].
  intros w. rewrite elem_of_app, Hl, Hl'. setoid_rewrite elem_of_cons. naive_solver.
Qed.

(** Whatever a range loop yields is the interval it walks. *)
Lemma week_range_loop_Some fuel s e l :
  min_int64 <= s -> e < max_int64 -> week_range_loop fuel s e = Some l -> l = seqZ s (e - s + 1).
Proof.
  revert s l. induction fuel as [|f IH]; intros s l Hs He; [done|]. cbn.
  destruct (Z.leb_spec s e).
  - assert (wrap_int64 (s + 1) = s + 1) as ->.
    { unfold wrap_int64. rewrite Z.mod_small; [lia|].
      unfold min_int64, max_int64, two63, two64 in *. lia. }
    destruct (week_range_loop f (s + 1) e) as [l'|] eqn:El; [|done].
    intros [= <-]. apply IH in El; [|lia|done]. subst l'.
    rewrite (seqZ_cons s (e - s + 1)) by lia. f_equal. f_equal; lia.
  - intros [= <-]. by rewrite seqZ_nil by lia.
Qed.

(** Whatever the expansion yields, it holds the weeks denoted. *)
Lemma expand_week_part_elem fuel p l :
  expand_week_part fuel p = Some l -> forall w, w ∈ l <-> week_in_part p w.
Proof.
  unfold expand_week_part, week_in_part. destruct (contains p "-") eqn:Hc.
  - destruct (split_byte 45 p) as [|rs [|re [|]]] eqn:E; try (intros [= <-]; set_solver).
    pose proof (atoi_value_bounds rs) as Hs. pose proof (atoi_value_bounds re) as He.
    destruct (Z.eq_dec (atoi_value re) max_int64) as [Hm|Hm].
    { rewrite Hm, week_range_loop_diverges by done. done. }
    intros Hl w. apply week_range_loop_Some in Hl as ->; [|lia..].
    rewrite elem_of_seqZ. split.
    + intros ?. exists rs, re. split; [done|]. lia.
    + intros (? & ? & [= <- <-] & ?). lia.
  - intros [= <-] w. destruct (Z.ltb_spec 0 (atoi_value p)); set_unfold; naive_solver lia.
Qed.

Lemma expand_week_parts_elem fuel ps l :
  expand_week_parts fuel ps = Some l ->
  forall w, w ∈ l <-> exists p, p ∈ ps /\ week_in_part p w.
Proof.
  revert l. induction ps as [|p ps IH]; intros l; cbn; [intros [= <-]; set_solver|].
  destruct (expand_week_part fuel p) as [l1|] eqn:E1; [|done]. cbn.
  destruct (expand_week_parts fuel ps) as [l2|] eqn:E2; [|done]. cbn.
  intros [= <-] w. rewrite elem_of_app, (expand_week_part_elem _ _ _ E1), (IH _ eq_refl).
  setoid_rewrite elem_of_cons. naive_solver.
Qed.

Lemma expandWeeks_elem fuel raw l :
  expandWeeksToArray fuel raw = Some l ->
  forall w, w ∈ l <-> exists p, p ∈ split_byte 44 raw /\ week_in_part p w.
Proof.
  unfold expandWeeksToArray.
  destruct (expand_week_parts fuel (split_byte 44 raw)) as [l'|] eqn:E; [|done].
  cbn. intros [= <-] w. rewrite sort_Z_elem. by apply expand_week_parts_elem with fuel.
Qed.

(** ** Lemmas on anchors *)

(** A decoded ASCII rune is the byte it came from. *)
Lemma runes_ascii l :
  Forall (fun c : Z * list Z => c.1 < 128 -> c.2 = [c.1]) (runes l).
Proof.
  induction l as [|b0 l1 r bs l2 E1 E2 IH] using runes_ind; [constructor|].
  rewrite E1. constructor; [|done]. clear IH. cbn [fst snd]. intros Hr.
  rewrite runes_cons in E1. cbn zeta in E1.
  assert (Hone : forall x y, ((if b0 <? 128 then b0 else rune_error), [b0]) :: x
                             = (r, bs) :: y -> bs = [r]).
  { intros x y [= H1 <- _]. destruct (Z.ltb_spec b0 128); [congruence|].
    subst r. by vm_compute in Hr. }
  destruct l1 as [|b1 m2]; [by eapply Hone|].
  destruct (is_utf8_2 b0 b1) eqn:H2.
  { exfalso. injection E1 as E1 _ _. unfold is_utf8_2, is_cont, in_range in H2. b2p. lia. }
  destruct m2 as [|b2 m3]; [by eapply Hone|].
  destruct (is_utf8_3 b0 b1 b2) eqn:H3.
  { exfalso. injection E1 as E1 _ _. unfold is_utf8_3, is_cont, in_range in H3. b2p. lia. }
  destruct m3 as [|b3 m4]; [by eapply Hone|].
  destruct (is_utf8_4 b0 b1 b2 b3) eqn:H4; [|by eapply Hone].
  exfalso. injection E1 as E1 _ _. unfold is_utf8_4, is_cont, in_range in H4. b2p. lia.
Qed.

Lemma concat_filter_num l :
  Forall (fun b => is_num_rune b = true)
    (concat (snd <$> List.filter (fun c : Z * list Z => is_num_rune (fst c)) (runes l))).
Proof.
  pose proof (runes_ascii l) as H. induction H as [|c cs Hc Hcs IH]; [constructor|].
  cbn. destruct (is_num_rune (fst c)) eqn:E; [|done]. cbn. apply Forall_app. split; [|done].
  rewrite Hc; [by repeat constructor|].
  unfold is_num_rune, in_range in E. destruct (Z.ltb_spec c.1 128); [done|]. b2p. lia.
Qed.

Lemma is_num_rune_byte b : is_num_rune b = true -> is_byte b.
Proof. unfold is_num_rune, is_byte, in_range. intros H. b2p. lia. Qed.

(** The week part of an anchor holds digits, commas and dashes only. *)
Lemma week_part_bytes token weekPart nodePart weekType :
  parseTimeToken token = (weekPart, nodePart, weekType) ->
  Forall (fun b => is_num_rune b = true) (bytes weekPart).
Proof.
  unfold parseTimeToken. intros [= <- _ _]. unfold encode, decode.
  rewrite bytes_of_bytes.
  - apply concat_filter_num.
  - eapply Forall_impl; [apply concat_filter_num|]. intros b. apply is_num_rune_byte.
Qed.

Lemma split_bytes_Forall (P : Z -> Prop) sep l :
  Forall P l -> Forall (Forall (fun b => P b /\ b <> sep)) (split_bytes sep l).
Proof.
  induction 1 as [|b l Hb Hl IH]; cbn; [by repeat constructor|].
  destruct (Z.eqb_spec b sep); [by constructor|].
  destruct (split_bytes sep l); inversion IH; subst; repeat constructor; done.
Qed.

Lemma split_byte_Forall (P : Z -> Prop) sep s :
  Forall P (bytes s) ->
  Forall (fun p => Forall (fun b => P b /\ b <> sep) (bytes p)) (split_byte sep s).
Proof.
  intros H. unfold split_byte.
  assert (HB : Forall (fun b => P b /\ is_byte b) (bytes s)).
  { rewrite Forall_and. split; [done|apply bytes_is_byte]. }
  apply (split_bytes_Forall _ sep) in HB. rewrite Forall_fmap.
  eapply Forall_impl; [exact HB|]. intros l Hl. cbn. rewrite bytes_of_bytes.
  - eapply Forall_impl; [exact Hl|]. cbn. naive_solver.
  - eapply Forall_impl; [exact Hl|]. cbn. naive_solver.
Qed.

Lemma atoi_value_digits s :
  Forall (fun b => b <> 45) (bytes s) -> 0 <= atoi_value s.
Proof.
  unfold atoi_value, atoi, parse_int_bytes. intros H.
  assert (Hp : forall l n, 0 <= n -> 0 <= fst (parse_uint_loop l n)).
  { intros l. induction l as [|c l IH]; intros n Hpos; cbn; [done|].
    destruct (is_digit c) eqn:Ec; [|done]. unfold is_digit, in_range in Ec. b2p.
    destruct (_ <=? n); [done|]. destruct (_ <? _); [done|]. apply IH. lia. }
  assert (Hq : forall l, 0 <= fst (parse_uint_bytes l)).
  { intros [|b l]; cbn -[parse_uint_loop]; [done|]. by apply Hp. }
  destruct (bytes s) as [|b l]; [done|]. inversion H; subst.
  destruct (Z.eqb_spec b 45) as [|_]; [done|].
  pose proof (Hq l). pose proof (Hq (b :: l)).
  destruct (b =? 43); match goal with |- context [parse_uint_bytes ?x] =>
    destruct (parse_uint_bytes x) as [un [[]|]] end; cbn in *; try done;
    repeat match goal with |- context [ if ?b then _ else _ ] => destruct b end; done.
Qed.

(** Every week denoted by an anchor's week part is non-negative. *)
Lemma week_in_part_nonneg weekPart p w :
  Forall (fun b => is_num_rune b = true) (bytes weekPart) ->
  p ∈ split_byte 44 weekPart -> week_in_part p w -> 0 <= w.
Proof.
  intros Hb Hp. apply (split_byte_Forall _ 44) in Hb. rewrite Forall_forall in Hb.
  specialize (Hb p Hp). unfold week_in_part. destruct (contains p "-"); [|lia].
  intros (rs & re & E & Hw). apply (split_byte_Forall _ 45) in Hb. rewrite E in Hb.
  inversion Hb as [|? ? Hrs _]; subst.
  enough (0 <= atoi_value rs) by lia. apply atoi_value_digits.
  eapply Forall_impl; [exact Hrs|]. cbn. naive_solver.
Qed.

(** The parity an anchor asks for: 单 odd weeks, 双 even weeks. *)
Definition week_parity (weekType w : Z) : bool :=
  if weekType =? 1 then Z.odd w else if weekType =? 2 then Z.even w else true.

Lemma rem2_odd w : 0 <= w -> (Z.rem w 2 =? 0) = Z.even w.
Proof.
  intros Hw. rewrite Z.rem_mod_nonneg by lia.
  rewrite Zmod_even. by destruct (Z.even w).
Qed.

Lemma filterWeeks_elem ws weekType w :
  weekType ∈ [0; 1; 2] -> Forall (fun w => 0 <= w) ws ->
  (w ∈ filterWeeks ws weekType <-> w ∈ ws /\ week_parity weekType w = true).
Proof.
  intros Ht Hws. unfold filterWeeks, week_parity.
  assert (Hcases : weekType = 0 \/ weekType = 1 \/ weekType = 2) by set_solver.
  rewrite Forall_forall in Hws.
  destruct Hcases as [-> | [-> | ->]]; cbn [Z.eqb Pos.eqb andb]; [naive_solver|..];
    rewrite list_elem_of_In, filter_In, <- list_elem_of_In;
    (split; intros [Hin Hp]; (split; [done|]); specialize (Hws w Hin);
     rewrite ?orb_false_r, ?orb_false_l, rem2_odd in * by done;
     rewrite <- ?Z.negb_even in *; done).
Qed.

Lemma parseTimeToken_type token : (parseTimeToken token).2 ∈ [0; 1; 2].
Proof. unfold parseTimeToken. cbn. repeat case_if; set_solver. Qed.

(** ** Properties of week lists *)

(** the week list stored for an anchor of an imported timetable answers
    [ContainsWeek] exactly as the anchor text denotes: week [x] is in it when a
    comma-separated part of the token's week expression is the number [x] or a
    range around it, and [x] has the parity that a 单 or 双 mark asks for. *)
Theorem anchor_weeks_stored fuel token section wl weekPart nodePart weekType x :
  parseTimeToken token = (weekPart, nodePart, weekType) ->
  anchor_section_weeks fuel token = Some (section, wl) ->
  0 < x ->
  ContainsWeek wl x = true <->
    (exists p, p ∈ split_byte 44 weekPart /\ week_in_part p x)
    /\ week_parity weekType x = true.
Proof.
  intros Ht Ha Hx. unfold anchor_section_weeks in Ha. rewrite Ht in Ha.
  destruct (parseNode nodePart) as [start end_].
  destruct (expandWeeksToArray fuel weekPart) as [ws|] eqn:E; [|done].
  cbn in Ha. injection Ha as <- <-.
  pose proof (expandWeeks_elem _ _ _ E) as Hel.
  assert (Hn : Forall (fun w => 0 <= w <= max_int64) ws).
  { rewrite Forall_forall. intros w Hw. apply Hel in Hw as (p & Hp & Hw). split.
    - eapply week_in_part_nonneg; [by eapply week_part_bytes|done..].
    - unfold week_in_part in Hw. destruct (contains p "-").
      + destruct Hw as (rs & re & _ & ?). pose proof (atoi_value_bounds re). lia.
      + pose proof (atoi_value_bounds p). lia. }
  assert (Hfe : forall w, w ∈ filterWeeks ws weekType <-> w ∈ ws /\ week_parity weekType w = true).
  { intros w. apply filterWeeks_elem.
    - pose proof (parseTimeToken_type token) as Htt. by rewrite Ht in Htt.
    - eapply Forall_impl; [exact Hn|]. cbn. lia. }
  rewrite ContainsWeek_join_elem.
  - rewrite bool_decide_eq_true, Hfe, Hel. done.
  - rewrite Forall_forall in Hn |- *. intros w Hw. apply Hn. by apply Hfe in Hw as [? _].
  - done.
Qed.

Lemma anchor_weeks_stored_witness :
  anchor_section_weeks 20 "1-8单,12【3-4节】" = Some (2, "1,3,5,7")
  /\ (ContainsWeek "1,3,5,7" 5 = true <->
        (exists p, p ∈ split_byte 44 "1-8,12" /\ week_in_part p 5) /\ week_parity 1 5 = true).
Proof.
  split; [reflexivity|].
  apply (anchor_weeks_stored 20 "1-8单,12【3-4节】" 2 "1,3,5,7" "1-8,12" "3-4节" 1 5); reflexivity.
Defined.

(** expanding a week expression ends with the sorted list of the weeks it
    denotes whenever no range ends at the largest int, however long the ranges. *)
Theorem expandWeeksToArray_total raw :
  Forall part_bounded (split_byte 44 raw) ->
  exists n0, forall fuel, (n0 <= fuel)%nat ->
    exists ws, expandWeeksToArray fuel raw = Some ws /\ StronglySorted Z.le ws
      /\ forall w, w ∈ ws <-> exists p, p ∈ split_byte 44 raw /\ week_in_part p w.
Proof.
  intros H. destruct (expand_week_parts_spec _ H) as (n0 & Hn0). exists n0. intros fuel Hf.
  destruct (Hn0 fuel Hf) as (l & El & Hl). exists (sort_Z l).
  unfold expandWeeksToArray. rewrite El. split; [done|].
  split; [apply sort_Z_StronglySorted|]. intros w. by rewrite sort_Z_elem.
Qed.

Lemma expandWeeksToArray_total_witness :
  exists n0, forall fuel, (n0 <= fuel)%nat ->
    exists ws, expandWeeksToArray fuel "1-8,12" = Some ws /\ StronglySorted Z.le ws
      /\ forall w, w ∈ ws <-> exists p, p ∈ split_byte 44 "1-8,12" /\ week_in_part p w.
Proof.
  apply (expandWeeksToArray_total "1-8,12").
  change (split_byte 44 "1-8,12") with ["1-8"; "12"]%string.
  repeat constructor; intros rs re H; vm_compute in H; [injection H as <- <-|discriminate].
  reflexivity.
Defined.

(** A range part whose upper bound reads as the largest int never ends. *)
Lemma expand_week_parts_diverge fuel ps p rs re :
  p ∈ ps -> contains p "-" = true -> split_byte 45 p = [rs; re] ->
  atoi_value re = max_int64 -> expand_week_parts fuel ps = None.
Proof.
  intros Hp Hc Hs He. induction ps as [|q ps IH]; [set_solver|].
  cbn. apply elem_of_cons in Hp as [<-|Hp].
  - unfold expand_week_part. rewrite Hc, Hs, He, week_range_loop_diverges by apply atoi_value_bounds.
    done.
  - rewrite (IH Hp). by destruct (expand_week_part fuel q).
Qed.

(** a week range whose upper bound reaches the largest int, which is what
    [strconv.Atoi] returns for any longer digit string, makes the import loop
    forever: no fuel is enough. *)
Theorem expandWeeksToArray_diverges fuel raw p rs re :
  p ∈ split_byte 44 raw -> contains p "-" = true -> split_byte 45 p = [rs; re] ->
  atoi_value re = max_int64 -> expandWeeksToArray fuel raw = None.
Proof.
  intros Hp Hc Hs He. unfold expandWeeksToArray. by erewrite expand_week_parts_diverge.
Qed.

Lemma expandWeeksToArray_diverges_witness :
  expandWeeksToArray 1000 "1-99999999999999999999" = None.
Proof.
  apply (expandWeeksToArray_diverges 1000 "1-99999999999999999999"
           "1-99999999999999999999" "1" "99999999999999999999"); [|reflexivity..].
  apply list_elem_of_singleton. reflexivity.
Defined.

(** ** Properties of the sheet *)

Definition course_ok (c : CourseInput) : Prop := 1 <= DayOfWeek c <= 7.

Lemma header_day_range txt d : header_day txt = Some d -> 1 <= d <= 7.
Proof. unfold header_day. repeat case_if; intros [= <-]; lia. Qed.

Lemma scan_header_row_days cIdx row :
  map_Forall (fun _ d => 1 <= d <= 7) (scan_header_row cIdx row).2.
Proof.
  revert cIdx. induction row as [|cell row IH]; intros cIdx; cbn.
  { apply map_Forall_empty. }
  specialize (IH (S cIdx)). destruct (scan_header_row (S cIdx) row) as [n m]. cbn in IH.
  destruct (contains _ _); [|done]. cbn. destruct (header_day _) as [d|] eqn:E; [|done].
  apply map_Forall_insert_2; [by eapply header_day_range|done].
Qed.

Lemma find_header_days rows m :
  find_header rows = Some m -> map_Forall (fun _ d => 1 <= d <= 7) m.
Proof.
  induction rows as [|row rows IH]; [done|]. cbn [find_header].
  pose proof (scan_header_row_days 0 row) as H.
  destruct (scan_header_row 0 row) as [n m']. destruct (3 <=? n)%nat; [|done].
  by intros [= <-].
Qed.

Lemma column_day_range rows colIdx d :
  column_day (find_header rows) colIdx = Some d -> 1 <= d <= 7.
Proof.
  unfold column_day. destruct (find_header rows) as [m|] eqn:E.
  - intros H. exact (find_header_days _ _ E _ _ H).
  - destruct (Nat.ltb_spec colIdx 2); [done|]. intros [= <-]. lia.
Qed.

Lemma parse_row_days fuel rows colIdx row cs :
  parse_row fuel (find_header rows) colIdx row = Some cs -> Forall course_ok cs.
Proof.
  revert colIdx cs. induction row as [|cell row IH]; intros colIdx cs; cbn.
  { intros [= <-]. constructor. }
  destruct (parse_row fuel (find_header rows) (S colIdx) row) as [rest|] eqn:E; [|done].
  apply IH in E. cbn. destruct (column_day (find_header rows) colIdx) as [d|] eqn:Ed.
  - apply column_day_range in Ed. case_bool_decide; [by intros [= <-]|].
    destruct (parse_cell fuel (trim_space cell)) as [rs|]; [|done]. cbn. intros [= <-].
    apply Forall_app. split; [|done]. apply Forall_fmap, Forall_forall. intros r _. exact Ed.
  - by intros [= <-].
Qed.

(** every course an import yields lies on one of the seven weekdays,
    whether the column's day came from the header row or was guessed. *)
Theorem ParseCourses_days fuel rows cs :
  ParseCourses fuel rows = Some cs -> Forall course_ok cs.
Proof.
  unfold ParseCourses. generalize (take 10 rows). intros hdr.
  revert cs. induction rows as [|row rows IH]; intros cs; cbn.
  { intros [= <-]. constructor. }
  destruct (existsb _ row); [apply IH|].
  destruct (parse_row fuel (find_header hdr) 0 row) as [c1|] eqn:E1; [|done]. cbn.
  destruct (parse_rows fuel (find_header hdr) rows) as [c2|]; [|done]. cbn.
  intros [= <-]. apply Forall_app. split; [by eapply parse_row_days|by apply IH].
Qed.

Lemma ParseCourses_days_witness :
  exists cs, ParseCourses 30 [["时间"; "节次"; "高等数学 张三 1-16【1-2】A101"]] = Some cs
    /\ Forall course_ok cs.
Proof.
  eexists. split; [vm_compute; reflexivity|].
  apply (ParseCourses_days 30 [["时间"; "节次"; "高等数学 张三 1-16【1-2】A101"]]).
  vm_compute. reflexivity.
Defined.

(** ** Properties of the table layout *)

(** Where the layout writes, what it writes, and what a row of cells holds. *)
Definition written_at (ws : list (Z * Z * string)) : list (Z * Z) := fst <$> ws.
Definition written_text (ws : list (Z * Z * string)) : list string := snd <$> ws.
Definition row_texts (cells : list htmlCell) : list string :=
  (fun c => trim_space (cellText c)) <$> cells.

Lemma skip_occupied_spec fuel occ row col :
  exists k, (k <= fuel)%nat /\ skip_occupied fuel occ row col = col + Z.of_nat k
    /\ (forall j, (j < k)%nat -> (row, col + Z.of_nat j) ∈ occ)
    /\ ((k < fuel)%nat -> (row, col + Z.of_nat k) ∉ occ).
Proof.
  revert col. induction fuel as [|f IH]; intros col; cbn [skip_occupied].
  { exists 0%nat. split; [lia|]. split; [lia|]. split; intros; lia. }
  case_decide as Hin.
  - destruct (IH (col + 1)) as (k & Hk & E & Hocc & Hfree). exists (S k).
    split; [lia|]. split; [lia|]. split.
    + intros [|j] Hj; [by rewrite Z.add_0_r|].
      replace (col + Z.of_nat (S j)) with (col + 1 + Z.of_nat j) by lia. apply Hocc. lia.
    + intros Hlt. replace (col + Z.of_nat (S k)) with (col + 1 + Z.of_nat k) by lia.
      apply Hfree. lia.
  - exists 0%nat. split; [lia|]. split; [lia|]. split; [intros; lia|].
    intros _. by rewrite Z.add_0_r.
Qed.

(** Skipping as many columns as there are occupied cells leaves all of them. *)
Lemma skip_occupied_free occ row col :
  (row, skip_occupied (size occ) occ row col) ∉ occ.
Proof.
  destruct (skip_occupied_spec (size occ) occ row col) as (k & Hk & -> & Hocc & Hfree).
  destruct (decide (k < size occ)%nat) as [Hlt|Hge]; [by apply Hfree|].
  assert (k = size occ) as -> by lia. intros Hin.
  pose (cells := (fun j => (row, col + Z.of_nat j)) <$> seq 0 (S (size occ))).
  assert (Hnd : NoDup cells).
  { apply NoDup_fmap_2; [|apply NoDup_ListNoDup, seq_NoDup].
    intros i j [= H]. lia. }
  assert (Hsub : (list_to_set cells : gset (Z * Z)) ⊆ occ).
  { intros x. rewrite elem_of_list_to_set. unfold cells. rewrite list_elem_of_fmap.
    intros (j & -> & Hj). apply elem_of_seq in Hj.
    destruct (decide (j = size occ)) as [->|]; [done|]. apply Hocc. lia. }
  apply subseteq_size in Hsub. rewrite size_list_to_set in Hsub by done.
  unfold cells in Hsub. rewrite length_fmap, length_seq in Hsub. lia.
Qed.

Lemma mark_row_spec n row col occ x :
  x ∈ occ \/ (x = (row, col) /\ n <> 0%nat) -> x ∈ mark_row n row col occ.
Proof.
  revert col occ. induction n as [|n IH]; intros col occ; cbn; [naive_solver|].
  intros [Hx|[-> _]]; apply IH; left; set_solver.
Qed.

Lemma mark_block_spec rs cs row col occ x :
  x ∈ occ \/ (x = (row, col) /\ rs <> 0%nat /\ cs <> 0%nat) -> x ∈ mark_block rs cs row col occ.
Proof.
  revert row occ. induction rs as [|rs IH]; intros row occ; cbn; [naive_solver|].
  intros [Hx|(-> & _ & Hcs)]; apply IH; left; apply mark_row_spec; auto.
Qed.

Lemma span_value_pos attr : 1 <= span_value attr.
Proof. unfold span_value. case_if; b2p; lia. Qed.

Lemma layout_row_spec cells row col occ ws occ' :
  layout_row cells row col occ = (ws, occ') ->
  NoDup (written_at ws) /\ (forall x, x ∈ (written_at ws) -> x ∉ occ /\ x ∈ occ')
  /\ occ ⊆ occ' /\ written_text ws = row_texts cells.
Proof.
  revert col occ ws occ'. induction cells as [|c cells IH]; intros col occ ws occ'; cbn.
  { intros [= <- <-]. split; [constructor|]. split; [set_solver|done]. }
  set (col' := skip_occupied (size occ) occ row col).
  set (rs := Z.to_nat (span_value (rowspanAttr c))).
  set (cs := Z.to_nat (span_value (colspanAttr c))).
  destruct (layout_row cells row (col' + _) _) as [ws1 occ1] eqn:E. intros [= <- <-].
  destruct (IH _ _ _ _ E) as (Hnd & Hfree & Hsub & Htxt).
  pose proof (skip_occupied_free occ row col) as Hnew. fold col' in Hnew.
  assert (Hrs : rs <> 0%nat) by (pose proof (span_value_pos (rowspanAttr c)); unfold rs; lia).
  assert (Hcs : cs <> 0%nat) by (pose proof (span_value_pos (colspanAttr c)); unfold cs; lia).
  assert (Hm : (row, col') ∈ mark_block rs cs row col' occ) by (apply mark_block_spec; auto).
  assert (Hmono : occ ⊆ mark_block rs cs row col' occ)
    by (intros x Hx; apply mark_block_spec; auto).
  unfold written_at, written_text, row_texts in *. rewrite !fmap_cons. cbn [fst snd].
  split; [|split; [|split]].
  - constructor; [|done]. intros Hin. by destruct (Hfree _ Hin).
  - intros x [->|Hin]%elem_of_cons; [set_solver|]. destruct (Hfree _ Hin). set_solver.
  - set_solver.
  - by rewrite Htxt.
Qed.

Lemma layout_rows_spec rows row occ :
  NoDup (written_at (layout_rows rows row occ))
  /\ (forall x, x ∈ written_at (layout_rows rows row occ) -> x ∉ occ)
  /\ written_text (layout_rows rows row occ) = concat (row_texts <$> rows).
Proof.
  revert row occ. induction rows as [|cells rows IH]; intros row occ; cbn.
  { split; [constructor|]. split; [set_solver|done]. }
  destruct (layout_row cells row 1 occ) as [ws occ'] eqn:E.
  destruct (layout_row_spec _ _ _ _ _ _ E) as (Hnd & Hfree & Hsub & Htxt).
  destruct (IH (row + 1) occ') as (Hnd' & Hfree' & Htxt').
  unfold written_at, written_text in *. rewrite !fmap_app. split; [|split].
  - apply NoDup_app. split; [done|]. split; [|done].
    intros x Hx Hx'. destruct (Hfree x Hx). by apply (Hfree' x Hx').
  - intros x [Hx|Hx]%elem_of_app; [by destruct (Hfree x Hx)|].
    intros Hin. apply (Hfree' x Hx). set_solver.
  - by rewrite Htxt, Htxt'.
Qed.

(** converting an HTML table keeps every cell: whatever the row and column
    spans, no two cells are written to the same sheet coordinates, so none
    overwrites another, and the texts written are those of the cells in order. *)
Theorem layoutTable_keeps_cells rows :
  NoDup (written_at (layoutTable rows))
  /\ written_text (layoutTable rows) = concat (row_texts <$> rows).
Proof. destruct (layout_rows_spec rows 1 ∅) as (? & _ & ?). done. Qed.
