(* ===== verification/Catalog.v ===== *)
(** * The operation catalogue

    internal/agent/operation_catalog.go (types, the shipped catalogue, lookups,
    the prompt and evaluation views and the catalogue lint),
    operation_recognition.go and workflow_operation_catalog.go, with the
    dispatch and executor binding names of protocol_live_dispatch.go and
    operation_executor_bindings.go the lint consults. *)
From Stdlib Require Import ZArith Lia Bool String.
From stdpp Require Import base list strings gmap.
From S2P Require Import Prelude GoStrings Contract.

Open Scope Z_scope.

(** ** Constants *)

Definition SlotDefaultNone : string := "".
Definition SlotDefaultToday : string := "today".
Definition SlotDefaultCurrentWeek : string := "current_week".

Definition RiskRead : string := "read".
Definition RiskWriteLow : string := "write_low".
Definition RiskWriteMedium : string := "write_medium".
Definition RiskWriteHigh : string := "write_high".

Definition ConversationScopeBoth : string := "both".
Definition ConversationScopeDM : string := "dm".
Definition ConversationScopeGroup : string := "group".

Definition WorkflowModeSingleTurn : string := "single_turn".
Definition WorkflowModeMultiTurn : string := "multi_turn".
Definition WorkflowModeAuxiliary : string := "auxiliary".

Definition ProtocolLiveDispatchAttendance : string := "attendance_request".
Definition ProtocolLiveDispatchSubscriptionWorkflow : string := "subscription_workflow".
Definition ProtocolLiveDispatchRuntimeConversation : string := "runtime_conversation".
Definition ProtocolLiveDispatchCapability : string := "capability_answer".
Definition ProtocolLiveDispatchRuleExplain : string := "rule_explain".
Definition ProtocolLiveDispatchSchedule : string := "schedule_request".
Definition WriteGuardBindingNotRequired : string := "not_required".
Definition WriteGuardBindingDefault : string := "write_guard".

Definition IdempotencyGuaranteeRepositoryUniqueUpsert : string := "repository_unique_upsert".
Definition IdempotencyGuaranteeRepositorySoftDelete : string := "repository_soft_delete".

Definition ExecutorBindingSystemDescribeCapability : string := "executor.system.describe_capability".
Definition ExecutorBindingAttendanceQueryStatus : string := "executor.attendance.query_status".
Definition ExecutorBindingAttendanceDescribeCapability : string := "executor.attendance.describe_capability".
Definition ExecutorBindingAttendanceRuleExplain : string := "executor.attendance.rule_explain".
Definition ExecutorBindingScheduleQueryMySchedule : string := "executor.schedule.query_my_schedule".
Definition ExecutorBindingScheduleQueryUserSchedule : string := "executor.schedule.query_user_schedule".
Definition ExecutorBindingScheduleDescribeCapability : string := "executor.schedule.describe_capability".
Definition ExecutorBindingScheduleRuleExplain : string := "executor.schedule.rule_explain".
Definition ExecutorBindingSubscriptionStart : string := "executor.subscription.start".
Definition ExecutorBindingSubscriptionCancel : string := "executor.subscription.cancel".
Definition ExecutorBindingSubscriptionQueryStatus : string := "executor.subscription.query_status".
Definition ExecutorBindingSubscriptionListDepartments : string := "executor.subscription.list_departments".
Definition ExecutorBindingSubscriptionDescribeCapability : string := "executor.subscription.describe_capability".
Definition ExecutorBindingSubscriptionRuleExplain : string := "executor.subscription.rule_explain".
Definition ExecutorBindingManualSignDescribeCapability : string := "executor.manual_sign.describe_capability".

(** ** Manifests *)

Record ParamSpec := mkParam { param_Name : string }.
Record QueryShapeMetadata := mkQueryShape {
  qs_Name : string; qs_RequiredTrustedParams : list ParamSpec }.
Record WorkflowSpec := mkWorkflowSpec {
  ws_Type : string; ws_Mode : string; ws_CollectStates : list string;
  ws_RequiredTrustedParams : list ParamSpec; ws_AuxiliaryOperations : list string }.
Record ResolverSpec := mkResolver { rv_Param : string; rv_Name : string }.
Record PolicySpec := mkPolicy { pol_Name : string }.
Record IdempotencySpec := mkIdempotency { id_KeyFields : list string; id_Guarantee : string }.
Record ProtocolLiveDispatchBinding := mkDispatch { dispatch_Name : string }.
Record WriteGuardBinding := mkWriteGuard { guard_Name : string }.
Record ExecutorBinding := mkExecutor { executor_Name : string }.
Record RendererBinding := mkRenderer { rn_Name : string; rn_Kind : string }.
Record EvalBinding := mkEval { ev_CaseIDs : list string; ev_ReplayTags : list string }.
Record CapabilityBinding := mkCapability {
  cap_Title : string; cap_Description : string; cap_AnswerOnly : bool; cap_DirectlyUsable : bool }.

Record RawSlotSpec := mkRawSlot {
  rs_RawName : string; rs_TargetParam : string; rs_Resolver : string; rs_Shape : string;
  rs_Required : bool }.
Record ContinueShape := mkContinueShape {
  cs_WorkflowType : string; cs_States : list string; cs_Fields : list string; cs_Source : string }.
Record RecognitionSpec := mkRecognition {
  rec_Description : string; rec_Aliases : list string; rec_Examples : list string;
  rec_NegativeExamples : list string; rec_RawSlots : list RawSlotSpec;
  rec_ContinueShapes : list ContinueShape }.

(** [nil] workflow and capability pointers are [None]; a nil map or slice is
    the empty one. *)
Record OperationManifest := mkManifest {
  om_Name : string;
  om_AllowedActs : list string;
  om_Domain : string;
  om_IsWrite : bool;
  om_Risk : string;
  om_Scope : string;
  om_MinRole : Z;
  om_RequiredTrustedParams : list ParamSpec;
  om_OptionalTrustedParams : list ParamSpec;
  om_QueryShapes : list QueryShapeMetadata;
  om_Defaults : gmap string string;
  om_Recognition : RecognitionSpec;
  om_Workflow : option WorkflowSpec;
  om_Dispatch : ProtocolLiveDispatchBinding;
  om_Resolvers : list ResolverSpec;
  om_Policies : list PolicySpec;
  om_Idempotency : IdempotencySpec;
  om_WriteGuard : WriteGuardBinding;
  om_Executor : ExecutorBinding;
  om_Renderer : RendererBinding;
  om_Eval : EvalBinding;
  om_Capability : option CapabilityBinding
}.

Definition params (names : list string) : list ParamSpec := List.map mkParam names.
Definition singleTurnWorkflowSpec : WorkflowSpec := mkWorkflowSpec "" WorkflowModeSingleTurn [] [] [].

(** [{[k := v]}] map literals *)
Notation "{[ k := v ]}" := (<[k := v]> (∅ : gmap string string)) : go_scope.
Open Scope go_scope.

(** ** The shipped catalogue *)

Definition op_attendance_query_status : OperationManifest := {|
  om_Name := "attendance.query_status";
  om_AllowedActs := [ActReadQuery];
  om_Domain := DomainAttendance;
  om_IsWrite := false;
  om_Risk := RiskRead;
  om_Scope := ConversationScopeBoth;
  om_MinRole := 0;
  om_RequiredTrustedParams := (params ["date"; "section"]);
  om_OptionalTrustedParams := (params ["user_id"; "query_shape"]);
  om_QueryShapes := [mkQueryShape "slot_status" (params ["date"; "section"]);
     mkQueryShape "user_day_status" (params ["date"; "user_id"])];
  om_Defaults := {["date" := SlotDefaultToday]};
  om_Recognition := (mkRecognition
      "查询指定日期和节次的考勤状态，或查询指定用户某天的考勤状态"
      []
      ["查询今天第二节考勤状态"; "张三今天考勤怎么样"]
      ["考勤迟到规则是什么"; "开启本群考勤订阅"]
      [mkRawSlot "date" "date" "date_slot" "" false;
       mkRawSlot "section" "section" "section_slot" "" false;
       mkRawSlot "user_name" "user_id" "user_resolver" "" false;
       mkRawSlot "user" "user_id" "user_resolver" "" false;
       mkRawSlot "query_shape" "query_shape" "query_shape_slot" "" false]
      []);
  om_Workflow := (Some singleTurnWorkflowSpec);
  om_Dispatch := (mkDispatch ProtocolLiveDispatchAttendance);
  om_Resolvers := [mkResolver "date" "date_slot";
     mkResolver "section" "section_slot";
     mkResolver "user_id" "user_resolver";
     mkResolver "week" "semester_default";
     mkResolver "query_shape" "query_shape_slot"];
  om_Policies := [mkPolicy "conversation_scope"];
  om_Idempotency := (mkIdempotency [] "");
  om_WriteGuard := (mkWriteGuard WriteGuardBindingNotRequired);
  om_Executor := (mkExecutor ExecutorBindingAttendanceQueryStatus);
  om_Renderer := (mkRenderer "response_renderer" ResponseResult);
  om_Eval := (mkEval ["protocol-attendance-slot-status"] ["attendance"]);
  om_Capability := None
|}.

Definition op_subscription_start : OperationManifest := {|
  om_Name := "subscription.start";
  om_AllowedActs := [ActWriteRequest];
  om_Domain := DomainSubscription;
  om_IsWrite := true;
  om_Risk := RiskWriteLow;
  om_Scope := ConversationScopeGroup;
  om_MinRole := 1;
  om_RequiredTrustedParams := (params ["conversation_id"; "scope"]);
  om_OptionalTrustedParams := (params ["dept_ids"]);
  om_QueryShapes := [];
  om_Defaults := ∅;
  om_Recognition := (mkRecognition
      "在当前群开启考勤推送订阅；这是写操作，需要管理员权限，并可能继续询问订阅范围或部门"
      ["开启考勤订阅"; "开启本群考勤订阅"; "打开本群考勤推送"; "开通考勤订阅"]
      ["开启本群全部人员考勤订阅"; "给本群开启信工25级考勤推送"]
      ["本群订阅开了吗"; "关闭本群考勤推送"]
      [mkRawSlot "scope" "scope" "subscription_scope" "subscription_scope" false;
       mkRawSlot "dept_names" "dept_ids" "department_resolver" "department_name_or_candidate" false;
       mkRawSlot "dept_name" "dept_ids" "department_resolver" "department_name_or_candidate" false;
       mkRawSlot "department" "dept_ids" "department_resolver" "department_name_or_candidate" false;
       mkRawSlot "department_name" "dept_ids" "department_resolver" "department_name_or_candidate" false]
      []);
  om_Workflow := (Some (mkWorkflowSpec
      WorkflowSubscriptionStart
      WorkflowModeMultiTurn
      [WorkflowCollectScope; WorkflowCollectDepartments]
      (params ["scope"; "dept_ids"])
      ["subscription.list_departments"]));
  om_Dispatch := (mkDispatch ProtocolLiveDispatchSubscriptionWorkflow);
  om_Resolvers := [mkResolver "conversation_id" "runtime_conversation";
     mkResolver "scope" "subscription_scope";
     mkResolver "dept_ids" "department_resolver"];
  om_Policies := [mkPolicy "admin_role"; mkPolicy "group_conversation"; mkPolicy "subscription_scope"];
  om_Idempotency := (mkIdempotency
      ["tenant_id"; "conversation_id"; "actor_user_id"; "operation"; "scope"; "dept_ids"; "workflow_id"]
      IdempotencyGuaranteeRepositoryUniqueUpsert);
  om_WriteGuard := (mkWriteGuard WriteGuardBindingDefault);
  om_Executor := (mkExecutor ExecutorBindingSubscriptionStart);
  om_Renderer := (mkRenderer "response_renderer" ResponseResult);
  om_Eval := (mkEval
      ["protocol-subscription-missing-scope";
       "protocol-subscription-first-turn-all";
       "protocol-workflow-cancel-active-subscription"]
      ["subscription"; "write_low"]);
  om_Capability := None
|}.

Definition op_subscription_cancel : OperationManifest := {|
  om_Name := "subscription.cancel";
  om_AllowedActs := [ActWriteRequest];
  om_Domain := DomainSubscription;
  om_IsWrite := true;
  om_Risk := RiskWriteLow;
  om_Scope := ConversationScopeGroup;
  om_MinRole := 1;
  om_RequiredTrustedParams := (params ["conversation_id"]);
  om_OptionalTrustedParams := [];
  om_QueryShapes := [];
  om_Defaults := ∅;
  om_Recognition := (mkRecognition
      "取消当前群已经开启的考勤推送订阅；这是需要管理员权限的写操作"
      ["取消考勤推送";
       "取消本群考勤推送";
       "取消考勤订阅";
       "关闭考勤订阅";
       "关闭本群考勤推送"]
      ["关闭这个群的考勤推送"; "取消本群考勤订阅"]
      ["本群订阅状态是什么"; "开启本群考勤订阅"]
      []
      []);
  om_Workflow := (Some (mkWorkflowSpec "subscription.cancel" WorkflowModeSingleTurn [] (params ["conversation_id"]) []));
  om_Dispatch := (mkDispatch ProtocolLiveDispatchRuntimeConversation);
  om_Resolvers := [mkResolver "conversation_id" "runtime_conversation"];
  om_Policies := [mkPolicy "admin_role"; mkPolicy "group_conversation"];
  om_Idempotency := (mkIdempotency
      ["tenant_id"; "conversation_id"; "actor_user_id"; "operation"]
      IdempotencyGuaranteeRepositorySoftDelete);
  om_WriteGuard := (mkWriteGuard WriteGuardBindingDefault);
  om_Executor := (mkExecutor ExecutorBindingSubscriptionCancel);
  om_Renderer := (mkRenderer "response_renderer" ResponseResult);
  om_Eval := (mkEval ["catalog-subscription-cancel"] ["subscription"; "write_low"]);
  om_Capability := None
|}.

Definition op_subscription_query_status : OperationManifest := {|
  om_Name := "subscription.query_status";
  om_AllowedActs := [ActReadQuery];
  om_Domain := DomainSubscription;
  om_IsWrite := false;
  om_Risk := RiskRead;
  om_Scope := ConversationScopeGroup;
  om_MinRole := 0;
  om_RequiredTrustedParams := (params ["conversation_id"]);
  om_OptionalTrustedParams := [];
  om_QueryShapes := [];
  om_Defaults := ∅;
  om_Recognition := (mkRecognition
      "查询当前群是否已开启考勤推送订阅以及订阅范围"
      ["查本群订阅状态";
       "当前群有没有订阅";
       "有没有开启考勤订阅";
       "查这个群有没有开启考勤订阅";
       "订阅状态";
       "有没有订阅"]
      ["这个群考勤订阅开了没"; "查一下本群订阅状态"]
      ["开启本群考勤订阅"; "群考勤订阅规则是什么"]
      []
      []);
  om_Workflow := (Some singleTurnWorkflowSpec);
  om_Dispatch := (mkDispatch ProtocolLiveDispatchRuntimeConversation);
  om_Resolvers := [mkResolver "conversation_id" "runtime_conversation"];
  om_Policies := [mkPolicy "group_conversation"];
  om_Idempotency := (mkIdempotency [] "");
  om_WriteGuard := (mkWriteGuard WriteGuardBindingNotRequired);
  om_Executor := (mkExecutor ExecutorBindingSubscriptionQueryStatus);
  om_Renderer := (mkRenderer "response_renderer" ResponseResult);
  om_Eval := (mkEval ["catalog-subscription-query-status"] ["subscription"]);
  om_Capability := None
|}.

Definition op_subscription_list_departments : OperationManifest := {|
  om_Name := "subscription.list_departments";
  om_AllowedActs := [ActReadQuery; ActWorkflowContinue];
  om_Domain := DomainSubscription;
  om_IsWrite := false;
  om_Risk := RiskRead;
  om_Scope := ConversationScopeBoth;
  om_MinRole := 0;
  om_RequiredTrustedParams := [];
  om_OptionalTrustedParams := [];
  om_QueryShapes := [];
  om_Defaults := ∅;
  om_Recognition := (mkRecognition
      "列出群考勤订阅流程中可以选择的部门，不代表执行开启订阅"
      ["当前都有哪些部门";
       "都有哪些部门";
       "有哪些部门";
       "部门列表";
       "部门有哪些";
       "哪些部门"]
      ["先看看有哪些部门"; "显示部门列表"]
      ["订阅信工25级"; "开启全部人员订阅"]
      []
      [mkContinueShape
         WorkflowSubscriptionStart
         [WorkflowCollectScope; WorkflowCollectDepartments]
         []
         "auxiliary_operation"]);
  om_Workflow := (Some (mkWorkflowSpec WorkflowSubscriptionStart WorkflowModeAuxiliary [] [] ["subscription.start"]));
  om_Dispatch := (mkDispatch ProtocolLiveDispatchSubscriptionWorkflow);
  om_Resolvers := [];
  om_Policies := [mkPolicy "conversation_scope"];
  om_Idempotency := (mkIdempotency [] "");
  om_WriteGuard := (mkWriteGuard WriteGuardBindingNotRequired);
  om_Executor := (mkExecutor ExecutorBindingSubscriptionListDepartments);
  om_Renderer := (mkRenderer "response_renderer" ResponseSelectOptions);
  om_Eval := (mkEval ["protocol-subscription-list-departments-workflow-meta"] ["subscription"; "workflow"]);
  om_Capability := None
|}.

Definition op_system_describe_capability : OperationManifest := {|
  om_Name := "system.describe_capability";
  om_AllowedActs := [ActHelp];
  om_Domain := DomainSystem;
  om_IsWrite := false;
  om_Risk := RiskRead;
  om_Scope := ConversationScopeBoth;
  om_MinRole := 0;
  om_RequiredTrustedParams := [];
  om_OptionalTrustedParams := [];
  om_QueryShapes := [];
  om_Defaults := ∅;
  om_Recognition := (mkRecognition
      "概览智能助手当前支持的全部功能"
      []
      ["你有什么功能"; "你能帮我做什么"]
      ["考勤能做什么"; "查询我的课表"]
      []
      []);
  om_Workflow := (Some singleTurnWorkflowSpec);
  om_Dispatch := (mkDispatch ProtocolLiveDispatchCapability);
  om_Resolvers := [];
  om_Policies := [mkPolicy "conversation_scope"];
  om_Idempotency := (mkIdempotency [] "");
  om_WriteGuard := (mkWriteGuard WriteGuardBindingNotRequired);
  om_Executor := (mkExecutor ExecutorBindingSystemDescribeCapability);
  om_Renderer := (mkRenderer "response_renderer" ResponseAnswer);
  om_Eval := (mkEval ["protocol-help-overview"] ["capability"]);
  om_Capability := (Some (mkCapability
      "功能说明"
      "说明我当前可以处理的考勤、订阅、规则和课表能力。"
      true
      true))
|}.

Definition op_attendance_describe_capability : OperationManifest := {|
  om_Name := "attendance.describe_capability";
  om_AllowedActs := [ActCapabilityQuestion];
  om_Domain := DomainAttendance;
  om_IsWrite := false;
  om_Risk := RiskRead;
  om_Scope := ConversationScopeBoth;
  om_MinRole := 0;
  om_RequiredTrustedParams := [];
  om_OptionalTrustedParams := [];
  om_QueryShapes := [];
  om_Defaults := ∅;
  om_Recognition := (mkRecognition
      "说明考勤查询能力，不执行具体考勤查询"
      []
      ["考勤能做什么"; "支持哪些考勤查询"]
      ["查询今天第二节考勤状态"; "迟到规则是什么"]
      []
      []);
  om_Workflow := (Some singleTurnWorkflowSpec);
  om_Dispatch := (mkDispatch ProtocolLiveDispatchCapability);
  om_Resolvers := [];
  om_Policies := [mkPolicy "conversation_scope"];
  om_Idempotency := (mkIdempotency [] "");
  om_WriteGuard := (mkWriteGuard WriteGuardBindingNotRequired);
  om_Executor := (mkExecutor ExecutorBindingAttendanceDescribeCapability);
  om_Renderer := (mkRenderer "response_renderer" ResponseAnswer);
  om_Eval := (mkEval ["catalog-attendance-describe-capability"] ["capability"; "attendance"]);
  om_Capability := (Some (mkCapability "考勤查询" "查询指定日期和节次的考勤状态。" true true))
|}.

Definition op_schedule_describe_capability : OperationManifest := {|
  om_Name := "schedule.describe_capability";
  om_AllowedActs := [ActCapabilityQuestion];
  om_Domain := DomainSchedule;
  om_IsWrite := false;
  om_Risk := RiskRead;
  om_Scope := ConversationScopeBoth;
  om_MinRole := 0;
  om_RequiredTrustedParams := [];
  om_OptionalTrustedParams := [];
  om_QueryShapes := [];
  om_Defaults := ∅;
  om_Recognition := (mkRecognition
      "说明课表查询能力和可查询对象，不执行具体课表查询"
      []
      ["课表能查什么"; "可以查别人的课程吗"]
      ["查询杨思见的课程信息"; "课表规则是什么"]
      []
      []);
  om_Workflow := (Some singleTurnWorkflowSpec);
  om_Dispatch := (mkDispatch ProtocolLiveDispatchCapability);
  om_Resolvers := [];
  om_Policies := [mkPolicy "conversation_scope"];
  om_Idempotency := (mkIdempotency [] "");
  om_WriteGuard := (mkWriteGuard WriteGuardBindingNotRequired);
  om_Executor := (mkExecutor ExecutorBindingScheduleDescribeCapability);
  om_Renderer := (mkRenderer "response_renderer" ResponseAnswer);
  om_Eval := (mkEval ["catalog-schedule-describe-capability"] ["capability"; "schedule"]);
  om_Capability := (Some (mkCapability
      "课表查询"
      "查询自己的课表，也可以查询指定姓名用户的课表。"
      true
      true))
|}.

Definition op_subscription_describe_capability : OperationManifest := {|
  om_Name := "subscription.describe_capability";
  om_AllowedActs := [ActCapabilityQuestion];
  om_Domain := DomainSubscription;
  om_IsWrite := false;
  om_Risk := RiskRead;
  om_Scope := ConversationScopeGroup;
  om_MinRole := 0;
  om_RequiredTrustedParams := [];
  om_OptionalTrustedParams := [];
  om_QueryShapes := [];
  om_Defaults := ∅;
  om_Recognition := (mkRecognition
      "说明群考勤订阅支持的查询、开启、取消和按部门管理能力，不执行写操作"
      []
      ["考勤订阅能做什么"; "群推送支持哪些功能"]
      ["开启本群考勤订阅"; "本群订阅开了吗"]
      []
      []);
  om_Workflow := (Some singleTurnWorkflowSpec);
  om_Dispatch := (mkDispatch ProtocolLiveDispatchCapability);
  om_Resolvers := [];
  om_Policies := [mkPolicy "group_conversation"];
  om_Idempotency := (mkIdempotency [] "");
  om_WriteGuard := (mkWriteGuard WriteGuardBindingNotRequired);
  om_Executor := (mkExecutor ExecutorBindingSubscriptionDescribeCapability);
  om_Renderer := (mkRenderer "response_renderer" ResponseAnswer);
  om_Eval := (mkEval ["catalog-subscription-describe-capability"] ["capability"; "subscription"]);
  om_Capability := (Some (mkCapability
      "群考勤订阅"
      "在群聊里可以查询当前群考勤推送订阅状态；管理员还可以开启、取消或按部门管理订阅。"
      true
      true))
|}.

Definition op_manual_sign_describe_capability : OperationManifest := {|
  om_Name := "manual_sign.describe_capability";
  om_AllowedActs := [ActCapabilityQuestion];
  om_Domain := DomainManualSign;
  om_IsWrite := false;
  om_Risk := RiskRead;
  om_Scope := ConversationScopeBoth;
  om_MinRole := 0;
  om_RequiredTrustedParams := [];
  om_OptionalTrustedParams := [];
  om_QueryShapes := [];
  om_Defaults := ∅;
  om_Recognition := (mkRecognition
      "说明补签或代签所需信息和当前聊天能力边界；当前聊天不能直接执行补签"
      []
      ["可以补签吗"; "补签支持什么流程"]
      ["给张三补签今天第一节"; "查询张三今天考勤"]
      []
      []);
  om_Workflow := (Some singleTurnWorkflowSpec);
  om_Dispatch := (mkDispatch ProtocolLiveDispatchCapability);
  om_Resolvers := [];
  om_Policies := [mkPolicy "conversation_scope"];
  om_Idempotency := (mkIdempotency [] "");
  om_WriteGuard := (mkWriteGuard WriteGuardBindingNotRequired);
  om_Executor := (mkExecutor ExecutorBindingManualSignDescribeCapability);
  om_Renderer := (mkRenderer "response_renderer" ResponseAnswer);
  om_Eval := (mkEval
      ["protocol-manual-sign-capability"; "protocol-workflow-interrupted-by-capability"]
      ["capability"; "manual_sign"]);
  om_Capability := (Some (mkCapability
      "管理员补签"
      "说明代签/补签能力和所需信息；当前聊天路径不直接执行补签。"
      true
      false))
|}.

Definition op_attendance_rule_explain : OperationManifest := {|
  om_Name := "attendance.rule_explain";
  om_AllowedActs := [ActRuleQuestion];
  om_Domain := DomainAttendance;
  om_IsWrite := false;
  om_Risk := RiskRead;
  om_Scope := ConversationScopeBoth;
  om_MinRole := 0;
  om_RequiredTrustedParams := (params ["rule_topic"]);
  om_OptionalTrustedParams := [];
  om_QueryShapes := [];
  om_Defaults := ∅;
  om_Recognition := (mkRecognition
      "解释考勤、迟到、缺勤、打卡或休息日相关规则，不查询实时考勤结果"
      []
      ["迟到规则是什么"; "休息日和考勤冲突怎么判"]
      ["查询今天第二节考勤状态"; "考勤能做什么"]
      [mkRawSlot "rule_topic" "rule_topic" "rule_topic_slot" "" false]
      []);
  om_Workflow := (Some singleTurnWorkflowSpec);
  om_Dispatch := (mkDispatch ProtocolLiveDispatchRuleExplain);
  om_Resolvers := [mkResolver "rule_topic" "rule_topic_slot"];
  om_Policies := [mkPolicy "conversation_scope"];
  om_Idempotency := (mkIdempotency [] "");
  om_WriteGuard := (mkWriteGuard WriteGuardBindingNotRequired);
  om_Executor := (mkExecutor ExecutorBindingAttendanceRuleExplain);
  om_Renderer := (mkRenderer "response_renderer" ResponseAnswer);
  om_Eval := (mkEval ["protocol-rule-no-hit"] ["rule"; "attendance"]);
  om_Capability := None
|}.

Definition op_schedule_rule_explain : OperationManifest := {|
  om_Name := "schedule.rule_explain";
  om_AllowedActs := [ActRuleQuestion];
  om_Domain := DomainSchedule;
  om_IsWrite := false;
  om_Risk := RiskRead;
  om_Scope := ConversationScopeBoth;
  om_MinRole := 0;
  om_RequiredTrustedParams := (params ["rule_topic"]);
  om_OptionalTrustedParams := [];
  om_QueryShapes := [];
  om_Defaults := ∅;
  om_Recognition := (mkRecognition
      "解释课表、排课或课程可见性规则，不查询具体课表"
      []
      ["课表规则是什么"; "排课规则按什么口径生效"]
      ["查询杨思见的课程信息"; "课表能查什么"]
      [mkRawSlot "rule_topic" "rule_topic" "rule_topic_slot" "" false]
      []);
  om_Workflow := (Some singleTurnWorkflowSpec);
  om_Dispatch := (mkDispatch ProtocolLiveDispatchRuleExplain);
  om_Resolvers := [mkResolver "rule_topic" "rule_topic_slot"];
  om_Policies := [mkPolicy "conversation_scope"];
  om_Idempotency := (mkIdempotency [] "");
  om_WriteGuard := (mkWriteGuard WriteGuardBindingNotRequired);
  om_Executor := (mkExecutor ExecutorBindingScheduleRuleExplain);
  om_Renderer := (mkRenderer "response_renderer" ResponseAnswer);
  om_Eval := (mkEval ["catalog-schedule-rule-explain"] ["rule"; "schedule"]);
  om_Capability := None
|}.

Definition op_subscription_rule_explain : OperationManifest := {|
  om_Name := "subscription.rule_explain";
  om_AllowedActs := [ActRuleQuestion];
  om_Domain := DomainSubscription;
  om_IsWrite := false;
  om_Risk := RiskRead;
  om_Scope := ConversationScopeBoth;
  om_MinRole := 0;
  om_RequiredTrustedParams := (params ["rule_topic"]);
  om_OptionalTrustedParams := [];
  om_QueryShapes := [];
  om_Defaults := ∅;
  om_Recognition := (mkRecognition
      "解释群考勤订阅、推送范围和部门订阅规则，不查询或修改当前订阅"
      []
      ["群订阅规则是什么"; "按部门订阅如何生效"]
      ["本群订阅开了吗"; "关闭本群考勤推送"]
      [mkRawSlot "rule_topic" "rule_topic" "rule_topic_slot" "" false]
      []);
  om_Workflow := (Some singleTurnWorkflowSpec);
  om_Dispatch := (mkDispatch ProtocolLiveDispatchRuleExplain);
  om_Resolvers := [mkResolver "rule_topic" "rule_topic_slot"];
  om_Policies := [mkPolicy "conversation_scope"];
  om_Idempotency := (mkIdempotency [] "");
  om_WriteGuard := (mkWriteGuard WriteGuardBindingNotRequired);
  om_Executor := (mkExecutor ExecutorBindingSubscriptionRuleExplain);
  om_Renderer := (mkRenderer "response_renderer" ResponseAnswer);
  om_Eval := (mkEval ["catalog-subscription-rule-explain"] ["rule"; "subscription"]);
  om_Capability := None
|}.

Definition op_schedule_query_my_schedule : OperationManifest := {|
  om_Name := "schedule.query_my_schedule";
  om_AllowedActs := [ActReadQuery];
  om_Domain := DomainSchedule;
  om_IsWrite := false;
  om_Risk := RiskRead;
  om_Scope := ConversationScopeBoth;
  om_MinRole := 0;
  om_RequiredTrustedParams := (params ["week"]);
  om_OptionalTrustedParams := [];
  om_QueryShapes := [];
  om_Defaults := {["week" := SlotDefaultCurrentWeek]};
  om_Recognition := (mkRecognition
      "查询当前用户自己在指定教学周的课程安排"
      []
      ["查我的课表"; "我这周课程安排看一下"]
      ["查询张三的课表"; "课表规则是什么"]
      [mkRawSlot "week" "week" "week_slot" "" false]
      []);
  om_Workflow := (Some singleTurnWorkflowSpec);
  om_Dispatch := (mkDispatch ProtocolLiveDispatchSchedule);
  om_Resolvers := [mkResolver "week" "week_slot"];
  om_Policies := [mkPolicy "conversation_scope"];
  om_Idempotency := (mkIdempotency [] "");
  om_WriteGuard := (mkWriteGuard WriteGuardBindingNotRequired);
  om_Executor := (mkExecutor ExecutorBindingScheduleQueryMySchedule);
  om_Renderer := (mkRenderer "response_renderer" ResponseResult);
  om_Eval := (mkEval ["protocol-my-schedule"] ["schedule"]);
  om_Capability := None
|}.

Definition op_schedule_query_user_schedule : OperationManifest := {|
  om_Name := "schedule.query_user_schedule";
  om_AllowedActs := [ActReadQuery];
  om_Domain := DomainSchedule;
  om_IsWrite := false;
  om_Risk := RiskRead;
  om_Scope := ConversationScopeBoth;
  om_MinRole := 0;
  om_RequiredTrustedParams := (params ["user_id"; "week"]);
  om_OptionalTrustedParams := [];
  om_QueryShapes := [];
  om_Defaults := {["week" := SlotDefaultCurrentWeek]};
  om_Recognition := (mkRecognition
      "查询指定用户在指定教学周的课程安排"
      []
      ["查询一下杨思见的课程信息"; "查张三本周课表"]
      ["查我的课表"; "课表规则是什么"]
      [mkRawSlot "user_name" "user_id" "user_resolver" "" true;
       mkRawSlot "user" "user_id" "user_resolver" "" false;
       mkRawSlot "week" "week" "week_slot" "" false]
      []);
  om_Workflow := (Some singleTurnWorkflowSpec);
  om_Dispatch := (mkDispatch ProtocolLiveDispatchSchedule);
  om_Resolvers := [mkResolver "user_id" "user_resolver"; mkResolver "week" "week_slot"];
  om_Policies := [mkPolicy "conversation_scope"; mkPolicy "schedule_user_visibility"];
  om_Idempotency := (mkIdempotency [] "");
  om_WriteGuard := (mkWriteGuard WriteGuardBindingNotRequired);
  om_Executor := (mkExecutor ExecutorBindingScheduleQueryUserSchedule);
  om_Renderer := (mkRenderer "response_renderer" ResponseResult);
  om_Eval := (mkEval ["catalog-schedule-query-user-schedule"] ["schedule"]);
  om_Capability := None
|}.

Definition operationCatalogEntries : list OperationManifest := [
  op_attendance_query_status;
  op_subscription_start;
  op_subscription_cancel;
  op_subscription_query_status;
  op_subscription_list_departments;
  op_system_describe_capability;
  op_attendance_describe_capability;
  op_schedule_describe_capability;
  op_subscription_describe_capability;
  op_manual_sign_describe_capability;
  op_attendance_rule_explain;
  op_schedule_rule_explain;
  op_subscription_rule_explain;
  op_schedule_query_my_schedule;
  op_schedule_query_user_schedule
].

(** ** Lookups *)

Definition paramNames (specs : list ParamSpec) : list string :=
  List.filter (fun n => negb (eqs n "")) (List.map param_Name specs).

Definition operationManifests : list OperationManifest := operationCatalogEntries.
Definition operationNames : list string := List.map om_Name operationCatalogEntries.

Definition lookup_in (entries : list OperationManifest) (name : string) : option OperationManifest :=
  List.find (fun m => eqs (om_Name m) name) entries.
Definition lookupOperation (name : string) : option OperationManifest :=
  lookup_in operationCatalogEntries name.

Definition actAllowed (act : string) (allowed : list string) : bool := existsb (eqs act) allowed.

Definition operationNameForActDomain (act domain : string) : option string :=
  om_Name <$> List.find (fun m => eqs (om_Domain m) domain && actAllowed act (om_AllowedActs m))
                operationCatalogEntries.

Record QueryShapePromptEntry := mkShapeEntry {
  qe_Name : string; qe_RequiredTrustedParams : list string }.
Record OperationPromptEntry := mkPromptEntry {
  pe_Name : string; pe_Domain : string; pe_AllowedActs : list string; pe_IsWrite : bool;
  pe_Description : string; pe_RequiredTrustedParams : list string;
  pe_OptionalTrustedParams : list string; pe_QueryShapes : list QueryShapePromptEntry;
  pe_Defaults : gmap string string; pe_Aliases : list string; pe_Examples : list string;
  pe_NegativeExamples : list string; pe_RawSlots : list RawSlotSpec }.
Record EvalOperationEntry := mkEvalEntry {
  ee_Name : string; ee_CaseIDs : list string; ee_ReplayTags : list string }.

Definition cloneSlotDefaults (defaults : gmap string string) : gmap string string := defaults.

Definition promptOperationEntry (m : OperationManifest) : OperationPromptEntry :=
  mkPromptEntry (om_Name m) (om_Domain m) (om_AllowedActs m) (om_IsWrite m)
    (rec_Description (om_Recognition m))
    (paramNames (om_RequiredTrustedParams m)) (paramNames (om_OptionalTrustedParams m))
    (List.map (fun s => mkShapeEntry (qs_Name s) (paramNames (qs_RequiredTrustedParams s)))
       (om_QueryShapes m))
    (cloneSlotDefaults (om_Defaults m))
    (rec_Aliases (om_Recognition m)) (rec_Examples (om_Recognition m))
    (rec_NegativeExamples (om_Recognition m)) (rec_RawSlots (om_Recognition m)).
Definition promptOperationEntries : list OperationPromptEntry :=
  List.map promptOperationEntry operationCatalogEntries.
Definition evalOperationEntries : list EvalOperationEntry :=
  List.map (fun m => mkEvalEntry (om_Name m) (ev_CaseIDs (om_Eval m)) (ev_ReplayTags (om_Eval m)))
    operationCatalogEntries.

Definition lookupWorkflowPrimaryOperation (workflowType : string) : option OperationManifest :=
  List.find (fun m => match om_Workflow m with
                      | Some w => eqs (ws_Type w) workflowType && eqs (ws_Mode w) WorkflowModeMultiTurn
                      | None => false
                      end) operationManifests.
Definition workflowPrimaryOperationName (workflowType : string) : string :=
  match lookupWorkflowPrimaryOperation workflowType with Some m => om_Name m | None => "" end.
Definition workflowAuxiliaryOperationName (workflowType executorBinding : string) : string :=
  match lookupWorkflowPrimaryOperation workflowType with
  | Some primary =>
      match om_Workflow primary with
      | Some w =>
          match List.find (fun op => match lookupOperation op with
                                     | Some m => eqs (executor_Name (om_Executor m)) executorBinding
                                     | None => false
                                     end) (ws_AuxiliaryOperations w) with
          | Some op => match lookupOperation op with Some m => om_Name m | None => "" end
          | None => ""
          end
      | None => ""
      end
  | None => ""
  end.

Definition rawSlotMapsTo (specs : list RawSlotSpec) (rawName targetParam resolver : string) : bool :=
  existsb (fun s => eqs (rs_RawName s) rawName && eqs (rs_TargetParam s) targetParam
                    && eqs (rs_Resolver s) resolver) specs.
Definition lookupRawSlotSpec (specs : list RawSlotSpec) (rawName : string) : option RawSlotSpec :=
  List.find (fun s => eqs (rs_RawName s) rawName) specs.
Definition rawSlotDeclared (specs : list RawSlotSpec) (rawName : string) : bool :=
  match lookupRawSlotSpec specs rawName with Some _ => true | None => false end.

Definition paramSpecListContains (l : list ParamSpec) (field : string) : bool :=
  existsb (fun p => eqs (param_Name p) field) l.
Definition queryShapesRequireTrustedParam (shapes : list QueryShapeMetadata) (field : string) : bool :=
  existsb (fun s => paramSpecListContains (qs_RequiredTrustedParams s) field) shapes.
Definition operationRequiresTrustedParam (m : OperationManifest) (field : string) : bool :=
  paramSpecListContains (om_RequiredTrustedParams m) field
  || queryShapesRequireTrustedParam (om_QueryShapes m) field.

(** ** The catalogue lint

    The lint reports messages; a message with formatted arguments is [EFmt],
    the others are [EMsg]. *)

Definition protocolLiveDispatchNames : list string :=
  [ProtocolLiveDispatchAttendance; ProtocolLiveDispatchSubscriptionWorkflow;
   ProtocolLiveDispatchRuntimeConversation; ProtocolLiveDispatchCapability;
   ProtocolLiveDispatchRuleExplain; ProtocolLiveDispatchSchedule].
(** whether [lookupProtocolLiveDispatch] finds a binding *)
Definition lookupProtocolLiveDispatch (name : string) : bool :=
  existsb (eqs name) protocolLiveDispatchNames.

Definition operationExecutorBindingNames : list string :=
  [ExecutorBindingSystemDescribeCapability; ExecutorBindingAttendanceQueryStatus;
   ExecutorBindingAttendanceDescribeCapability; ExecutorBindingAttendanceRuleExplain;
   ExecutorBindingScheduleQueryMySchedule; ExecutorBindingScheduleQueryUserSchedule;
   ExecutorBindingScheduleDescribeCapability; ExecutorBindingScheduleRuleExplain;
   ExecutorBindingSubscriptionStart; ExecutorBindingSubscriptionCancel;
   ExecutorBindingSubscriptionQueryStatus; ExecutorBindingSubscriptionListDepartments;
   ExecutorBindingSubscriptionDescribeCapability; ExecutorBindingSubscriptionRuleExplain;
   ExecutorBindingManualSignDescribeCapability].
(** whether [lookupOperationExecutorBinding] finds a binding *)
Definition operationExecutorBound (name : string) : bool :=
  existsb (eqs name) operationExecutorBindingNames.

Definition trustedIDSlotField (field : string) : bool :=
  let normalized := to_lower (trim_space field) in
  existsb (eqs normalized)
    ["id"; "user_id"; "userid"; "dept_id"; "department_id"; "dept_ids"; "department_ids"]
  || has_suffix normalized "_id" || has_suffix normalized "_ids".

Definition report (b : bool) (e : err) : list err := if b then [e] else [].

Definition lintWriteManifest (m : OperationManifest) : list err :=
  let prefix := om_Name m in
  report (eqs (om_Risk m) RiskRead) (EMsg (prefix +:+ ": write operation cannot use read risk"))
  ++ report (negb (eqs (guard_Name (om_WriteGuard m)) WriteGuardBindingDefault))
       (EMsg (prefix +:+ ": write operation must bind write_guard"))
  ++ report (bool_decide (om_Workflow m = None)) (EMsg (prefix +:+ ": write workflow is required"))
  ++ report (bool_decide (om_Policies m = [])) (EMsg (prefix +:+ ": write policies are required"))
  ++ report (bool_decide (id_KeyFields (om_Idempotency m) = []))
       (EMsg (prefix +:+ ": write idempotency key fields are required"))
  ++ report (eqs (id_Guarantee (om_Idempotency m)) "")
       (EMsg (prefix +:+ ": write idempotency guarantee is required")).

Definition paramResolvable (m : OperationManifest) (name : string) : bool :=
  bool_decide (is_Some (om_Defaults m !! name))
  || existsb (fun r => eqs (rv_Param r) name && negb (eqs (rv_Name r) "")) (om_Resolvers m)
  || match om_Workflow m with
     | Some w => existsb (fun p => eqs (param_Name p) name) (ws_RequiredTrustedParams w)
     | None => false
     end.

Definition lintParamResolution (m : OperationManifest) (l : list ParamSpec) : list err :=
  List.flat_map (fun p =>
    if eqs (param_Name p) "" then [EMsg (om_Name m +:+ ": required param name is empty")]
    else report (negb (paramResolvable m (param_Name p)))
           (EFmt "%s: required param %q has no resolver, default, or workflow source"
              [om_Name m; param_Name p])) l.

Definition rawSlotTargetDeclared (m : OperationManifest) (target : string) : bool :=
  paramSpecListContains (om_RequiredTrustedParams m) target
  || paramSpecListContains (om_OptionalTrustedParams m) target
  || queryShapesRequireTrustedParam (om_QueryShapes m) target.
Definition rawSlotResolverDeclared (m : OperationManifest) (slot : RawSlotSpec) : bool :=
  existsb (fun r => eqs (rv_Param r) (rs_TargetParam slot) && eqs (rv_Name r) (rs_Resolver slot))
    (om_Resolvers m).
Definition knownRawSlotShape (shape : string) : bool :=
  eqs shape "" || eqs shape "subscription_scope" || eqs shape "department_name_or_candidate".

Definition lintRawSlotDefinition (m : OperationManifest) (slot : RawSlotSpec) : list err :=
  report (trustedIDSlotField (rs_RawName slot))
    (EFmt "%s: raw slot %q must not be a trusted id" [om_Name m; rs_RawName slot])
  ++ report (negb (rawSlotTargetDeclared m (rs_TargetParam slot)))
       (EFmt "%s: raw slot %q targets undeclared param %q"
          [om_Name m; rs_RawName slot; rs_TargetParam slot])
  ++ report (rs_Required slot
             && negb (paramSpecListContains (om_RequiredTrustedParams m) (rs_TargetParam slot)))
       (EFmt "%s: required raw slot %q must target a required trusted param"
          [om_Name m; rs_RawName slot])
  ++ report (negb (rawSlotResolverDeclared m slot))
       (EFmt "%s: raw slot %q resolver %q does not match target param %q"
          [om_Name m; rs_RawName slot; rs_Resolver slot; rs_TargetParam slot])
  ++ report (negb (knownRawSlotShape (rs_Shape slot)))
       (EFmt "%s: raw slot %q has unknown workflow shape %q"
          [om_Name m; rs_RawName slot; rs_Shape slot]).

Definition blank_name (s : string) : bool := eqs (trim_space s) "".

(** The loop over the raw slots with its set of names seen. *)
Fixpoint raw_slots_loop (m : OperationManifest) (seen : list string) (l : list RawSlotSpec) : list err :=
  match l with
  | [] => []
  | slot :: l' =>
      if blank_name (rs_RawName slot) || blank_name (rs_TargetParam slot) || blank_name (rs_Resolver slot)
      then EMsg (om_Name m +:+ ": raw slot requires raw name, target param, and resolver")
           :: raw_slots_loop m seen l'
      else report (existsb (eqs (rs_RawName slot)) seen)
             (EFmt "%s: duplicate raw slot %q" [om_Name m; rs_RawName slot])
           ++ lintRawSlotDefinition m slot ++ raw_slots_loop m (rs_RawName slot :: seen) l'
  end.
Definition lintRawSlotContract (m : OperationManifest) : list err :=
  raw_slots_loop m [] (rec_RawSlots (om_Recognition m)).

(** The checks of one manifest that has a name. *)
Definition lint_manifest (m : OperationManifest) (duplicate : bool) : list err :=
  let prefix := om_Name m in
  report (blank_name (rec_Description (om_Recognition m)))
    (EMsg (prefix +:+ ": recognition description is required"))
  ++ report duplicate (EMsg (prefix +:+ ": duplicate name"))
  ++ report (eqs (om_Domain m) "" || eqs (om_Domain m) DomainUnknown)
       (EMsg (prefix +:+ ": domain is required"))
  ++ report (bool_decide (om_AllowedActs m = [])) (EMsg (prefix +:+ ": allowed acts are required"))
  ++ report (eqs (om_Risk m) "") (EMsg (prefix +:+ ": risk is required"))
  ++ report (eqs (om_Scope m) "") (EMsg (prefix +:+ ": conversation scope is required"))
  ++ match om_Workflow m with
     | None => [EMsg (prefix +:+ ": workflow binding is required")]
     | Some w => report (eqs (ws_Mode w) "") (EMsg (prefix +:+ ": workflow mode is required"))
     end
  ++ (if eqs (dispatch_Name (om_Dispatch m)) ""
      then [EMsg (prefix +:+ ": protocol_live dispatch binding is required")]
      else report (negb (lookupProtocolLiveDispatch (dispatch_Name (om_Dispatch m))))
             (EMsg (prefix +:+ ": protocol_live dispatch binding is unknown")))
  ++ report (eqs (guard_Name (om_WriteGuard m)) "")
       (EMsg (prefix +:+ ": write guard binding is required"))
  ++ (if eqs (executor_Name (om_Executor m)) ""
      then [EMsg (prefix +:+ ": executor binding is required")]
      else report (negb (operationExecutorBound (executor_Name (om_Executor m))))
             (EMsg (prefix +:+ ": executor binding is unknown")))
  ++ report (eqs (rn_Name (om_Renderer m)) "") (EMsg (prefix +:+ ": renderer binding is required"))
  ++ report (bool_decide (ev_CaseIDs (om_Eval m) = [])) (EMsg (prefix +:+ ": eval binding is required"))
  ++ (if om_IsWrite m then lintWriteManifest m
      else report (negb (eqs (guard_Name (om_WriteGuard m)) WriteGuardBindingNotRequired))
             (EMsg (prefix +:+ ": read operation write guard must be not_required")))
  ++ lintParamResolution m (om_RequiredTrustedParams m)
  ++ lintRawSlotContract m
  ++ List.flat_map (fun s => lintParamResolution m (qs_RequiredTrustedParams s)) (om_QueryShapes m).

Fixpoint lint_loop (i : Z) (seen : list string) (entries : list OperationManifest) : list err :=
  match entries with
  | [] => []
  | m :: rest =>
      if blank_name (om_Name m)
      then EFmt "operation[%d]: name is required" [itoa i] :: lint_loop (i + 1) seen rest
      else lint_manifest m (existsb (eqs (om_Name m)) seen)
           ++ lint_loop (i + 1) (om_Name m :: seen) rest
  end.
Definition lintOperationCatalog (entries : list OperationManifest) : list err := lint_loop 0 [] entries.

(** ** What a catalogue without lint reports satisfies *)

Definition resolvable (m : OperationManifest) (name : string) : Prop :=
  name <> "" /\
  (is_Some (om_Defaults m !! name)
   \/ (exists r, r ∈ om_Resolvers m /\ rv_Param r = name /\ rv_Name r <> "")
   \/ (exists w, om_Workflow m = Some w /\ mkParam name ∈ ws_RequiredTrustedParams w)).

Record slot_ok (m : OperationManifest) (s : RawSlotSpec) : Prop := {
  slot_named : trim_space (rs_RawName s) <> "" /\ trim_space (rs_TargetParam s) <> ""
               /\ trim_space (rs_Resolver s) <> "";
  slot_untrusted : trustedIDSlotField (rs_RawName s) = false;
  slot_target : mkParam (rs_TargetParam s) ∈ om_RequiredTrustedParams m
                \/ mkParam (rs_TargetParam s) ∈ om_OptionalTrustedParams m
                \/ (exists q, q ∈ om_QueryShapes m
                              /\ mkParam (rs_TargetParam s) ∈ qs_RequiredTrustedParams q);
  slot_required : rs_Required s = true -> mkParam (rs_TargetParam s) ∈ om_RequiredTrustedParams m;
  slot_resolver : mkResolver (rs_TargetParam s) (rs_Resolver s) ∈ om_Resolvers m;
  slot_shape : knownRawSlotShape (rs_Shape s) = true
}.

Record write_ok (m : OperationManifest) : Prop := {
  write_risk : om_Risk m <> RiskRead;
  write_guarded : guard_Name (om_WriteGuard m) = WriteGuardBindingDefault;
  write_policies : om_Policies m <> [];
  write_keyed : id_KeyFields (om_Idempotency m) <> [];
  write_guarantee : id_Guarantee (om_Idempotency m) <> ""
}.

Record manifest_ok (m : OperationManifest) : Prop := {
  ok_name : trim_space (om_Name m) <> "";
  ok_description : trim_space (rec_Description (om_Recognition m)) <> "";
  ok_domain : om_Domain m <> "" /\ om_Domain m <> DomainUnknown;
  ok_acts : om_AllowedActs m <> [];
  ok_risk : om_Risk m <> "";
  ok_scope : om_Scope m <> "";
  ok_workflow : exists w, om_Workflow m = Some w /\ ws_Mode w <> "";
  ok_dispatch : dispatch_Name (om_Dispatch m) ∈ protocolLiveDispatchNames;
  ok_executor : executor_Name (om_Executor m) ∈ operationExecutorBindingNames;
  ok_renderer : rn_Name (om_Renderer m) <> "";
  ok_eval : ev_CaseIDs (om_Eval m) <> [];
  ok_write : om_IsWrite m = true -> write_ok m;
  ok_read : om_IsWrite m = false -> guard_Name (om_WriteGuard m) = WriteGuardBindingNotRequired;
  ok_params : Forall (fun p => resolvable m (param_Name p)) (om_RequiredTrustedParams m);
  ok_shapes : Forall (fun q => Forall (fun p => resolvable m (param_Name p))
                                 (qs_RequiredTrustedParams q)) (om_QueryShapes m);
  ok_slots : Forall (slot_ok m) (rec_RawSlots (om_Recognition m));
  ok_slot_names : NoDup (rs_RawName <$> rec_RawSlots (om_Recognition m))
}.

Definition catalog_ok (entries : list OperationManifest) : Prop :=
  Forall manifest_ok entries /\ NoDup (om_Name <$> entries).

(** ** Lemmas *)

(** Decide the comparisons of closed strings in the goal. *)
Ltac eqs_red :=
  repeat match goal with
  | |- context [ eqs ?a ?b ] =>
      let v := eval vm_compute in (eqs a b) in
      lazymatch v with true => idtac | false => idtac end;
      change (eqs a b) with v
  end; cbv match.

Lemma report_nil b e : report b e = [] <-> b = false.
Proof. by destruct b. Qed.

Lemma existsb_elem {A} (p : A -> bool) l : existsb p l = true <-> exists x, x ∈ l /\ p x = true.
Proof. rewrite existsb_exists. by setoid_rewrite list_elem_of_In. Qed.

Lemma existsb_eqs x l : existsb (eqs x) l = true <-> x ∈ l.
Proof.
  rewrite existsb_elem. setoid_rewrite eqs_true. split; [|eauto].
  by intros (y & ? & ->).
Qed.
Lemma existsb_eqs_false x l : existsb (eqs x) l = false <-> x ∉ l.
Proof. rewrite <- existsb_eqs. by destruct (existsb _ l). Qed.

Lemma flat_map_nil {A B} (f : A -> list B) l : List.flat_map f l = [] <-> Forall (fun a => f a = []) l.
Proof.
  induction l as [|a l IH]; cbn; [by split|].
  rewrite app_nil, IH, Forall_cons. done.
Qed.

Lemma blank_name_true s : blank_name s = true <-> trim_space s = "".
Proof. apply eqs_true. Qed.
Lemma blank_name_false s : blank_name s = false <-> trim_space s <> "".
Proof. apply eqs_false. Qed.

Lemma param_contains l f : paramSpecListContains l f = true <-> mkParam f ∈ l.
Proof.
  unfold paramSpecListContains. rewrite existsb_elem. setoid_rewrite eqs_true. split.
  - by intros ([?] & ? & <-).
  - intros ?. by exists (mkParam f).
Qed.

Lemma shapes_require l f :
  queryShapesRequireTrustedParam l f = true <-> exists q, q ∈ l /\ mkParam f ∈ qs_RequiredTrustedParams q.
Proof. unfold queryShapesRequireTrustedParam. rewrite existsb_elem. by setoid_rewrite param_contains. Qed.

Lemma paramResolvable_spec m n : n <> "" -> paramResolvable m n = true <-> resolvable m n.
Proof.
  intros Hn. unfold paramResolvable, resolvable.
  rewrite !orb_true_iff, bool_decide_eq_true, existsb_elem.
  setoid_rewrite andb_true_iff. setoid_rewrite negb_true_iff. setoid_rewrite eqs_true.
  setoid_rewrite eqs_false.
  assert ((match om_Workflow m with
           | Some w => paramSpecListContains (ws_RequiredTrustedParams w) n
           | None => false end) = true
          <-> exists w, om_Workflow m = Some w /\ mkParam n ∈ ws_RequiredTrustedParams w) as Hw.
  { destruct (om_Workflow m) as [w|]; [rewrite param_contains|]; naive_solver. }
  unfold paramSpecListContains in Hw. rewrite Hw. naive_solver.
Qed.

Lemma lintParamResolution_nil m l :
  lintParamResolution m l = [] <-> Forall (fun p => resolvable m (param_Name p)) l.
Proof.
  unfold lintParamResolution. rewrite flat_map_nil. apply Forall_iff. intros p.
  destruct (eqs (param_Name p) "") eqn:E.
  - apply eqs_true in E. unfold resolvable. split; [done|tauto].
  - apply eqs_false in E. by rewrite report_nil, negb_false_iff, paramResolvable_spec.
Qed.

Lemma lintRawSlotDefinition_nil m s :
  trim_space (rs_RawName s) <> "" /\ trim_space (rs_TargetParam s) <> ""
    /\ trim_space (rs_Resolver s) <> "" ->
  lintRawSlotDefinition m s = [] <-> slot_ok m s.
Proof.
  intros Hn. unfold lintRawSlotDefinition.
  rewrite !app_nil, !report_nil, !negb_false_iff.
  unfold rawSlotTargetDeclared, rawSlotResolverDeclared.
  rewrite !orb_true_iff, !param_contains, shapes_require, existsb_elem, andb_false_iff,
    negb_false_iff, param_contains.
  setoid_rewrite andb_true_iff. setoid_rewrite eqs_true.
  split.
  - intros (? & Ht & ? & ([p n] & Hr & Hp & Hs) & ?). cbn in Hp, Hs. subst p n.
    constructor; [tauto..| |done|done]. destruct (rs_Required s); naive_solver.
  - intros []. split_and!; try tauto.
    + destruct (rs_Required s); tauto.
    + eexists. split; [done|done].
Qed.

Lemma raw_slots_loop_nil m seen l :
  raw_slots_loop m seen l = [] <->
  Forall (slot_ok m) l /\ NoDup (rs_RawName <$> l) /\ (forall s, s ∈ l -> rs_RawName s ∉ seen).
Proof.
  revert seen. induction l as [|s l IH]; intros seen; cbn.
  { split; [|done]. intros _. split_and!; [done|constructor|set_solver]. }
  destruct (blank_name (rs_RawName s) || blank_name (rs_TargetParam s)
            || blank_name (rs_Resolver s)) eqn:E.
  { split; [done|]. intros ([[] _]%Forall_cons & _ & _).
    rewrite !orb_true_iff, !blank_name_true in E. tauto. }
  rewrite !orb_false_iff, !blank_name_false in E. destruct E as [[??]?].
  rewrite !app_nil, report_nil, lintRawSlotDefinition_nil, IH, Forall_cons, NoDup_cons,
    existsb_eqs_false by done.
  rewrite (list_elem_of_fmap rs_RawName l (rs_RawName s)).
  split.
  - intros (Hs & ? & ? & Hnd & Hl). split_and!; [done|done| |done|].
    + intros (y & Hy & Hin). apply (Hl y Hin). rewrite <- Hy. left.
    + intros y [->|Hy]%elem_of_cons; [done|]. intros ?. apply (Hl y Hy). by right.
  - intros ([??] & [Hx ?] & Hl). split_and!; try done.
    + apply Hl. left.
    + intros y Hy [Heq|Hin]%elem_of_cons.
      * apply Hx. by exists y.
      * apply (Hl y); [by right|done].
Qed.

Lemma lintRawSlotContract_nil m :
  lintRawSlotContract m = [] <->
  Forall (slot_ok m) (rec_RawSlots (om_Recognition m))
  /\ NoDup (rs_RawName <$> rec_RawSlots (om_Recognition m)).
Proof.
  unfold lintRawSlotContract. rewrite raw_slots_loop_nil.
  split; [tauto|]. intros [??]. split_and!; [done..|set_solver].
Qed.

Lemma lint_write_nil m :
  is_Some (om_Workflow m) -> lintWriteManifest m = [] <-> write_ok m.
Proof.
  intros [w Hw]. unfold lintWriteManifest.
  rewrite !app_nil, !report_nil, negb_false_iff, !eqs_false, eqs_true, !bool_decide_eq_false, Hw.
  split; [intros; constructor; tauto|]. intros []. by split_and!.
Qed.

Lemma lint_manifest_nil m d :
  trim_space (om_Name m) <> "" -> lint_manifest m d = [] <-> manifest_ok m /\ d = false.
Proof.
  intros Hn. unfold lint_manifest.
  rewrite !app_nil, !report_nil, !eqs_false, blank_name_false, orb_false_iff, !eqs_false,
    lintRawSlotContract_nil, lintParamResolution_nil, flat_map_nil, !bool_decide_eq_false.
  setoid_rewrite lintParamResolution_nil.
  assert (match om_Workflow m with
          | Some w => report (eqs (ws_Mode w) "") (EMsg (om_Name m +:+ ": workflow mode is required"))
          | None => [EMsg (om_Name m +:+ ": workflow binding is required")] end = []
          <-> exists w, om_Workflow m = Some w /\ ws_Mode w <> "") as ->.
  { destruct (om_Workflow m); [rewrite report_nil, eqs_false|]; naive_solver. }
  assert (forall b (x y : list err), x <> [] -> (if eqs b "" then x else y) = [] <-> (b <> "" /\ y = []))
    as Hif.
  { intros b x y Hx. destruct (eqs b "") eqn:E; [apply eqs_true in E|apply eqs_false in E]; tauto. }
  rewrite !Hif, !report_nil, !negb_false_iff by done. clear Hif.
  unfold lookupProtocolLiveDispatch, operationExecutorBound. rewrite !existsb_eqs.
  split.
  - intros (? & ? & ? & ? & ? & ? & Hw & ? & ? & ? & ? & ? & Hwr & ? & ? & ?).
    split; [|done]. constructor; try tauto.
    + intros Hi. rewrite Hi in Hwr. apply lint_write_nil; [|done]. destruct Hw as (w & -> & _). by eexists.
    + intros Hi. rewrite Hi, report_nil, negb_false_iff, eqs_true in Hwr. done.
  - intros [[] ->]. split_and!; try tauto.
    + intros E. rewrite E in ok_dispatch0. by apply existsb_eqs in ok_dispatch0.
    + intros E. destruct (om_IsWrite m).
      * destruct (ok_write0 eq_refl) as [_ Hg _ _ _]. by rewrite Hg in E.
      * by rewrite ok_read0 in E.
    + intros E. rewrite E in ok_executor0. by apply existsb_eqs in ok_executor0.
    + destruct (om_IsWrite m).
      * apply lint_write_nil; [|auto]. destruct ok_workflow0 as (w & -> & _). by eexists.
      * rewrite report_nil, negb_false_iff, eqs_true. auto.
Qed.

Lemma lint_loop_nil i seen entries :
  lint_loop i seen entries = [] <->
  Forall manifest_ok entries /\ NoDup (om_Name <$> entries)
  /\ (forall m, m ∈ entries -> om_Name m ∉ seen).
Proof.
  revert i seen. induction entries as [|m l IH]; intros i seen; cbn.
  { split; [|done]. intros _. split_and!; [done|constructor|set_solver]. }
  destruct (blank_name (om_Name m)) eqn:E.
  { split; [done|]. intros ([[] _]%Forall_cons & _ & _). by apply blank_name_true in E. }
  apply blank_name_false in E.
  rewrite app_nil, lint_manifest_nil, IH, Forall_cons, NoDup_cons, existsb_eqs_false by done.
  rewrite (list_elem_of_fmap om_Name l (om_Name m)).
  split.
  - intros ([Hm Hx] & ? & ? & Hl). split_and!; [done|done| |done|].
    + intros (y & Hy & Hin). apply (Hl y Hin). rewrite <- Hy. left.
    + intros y [->|Hy]%elem_of_cons; [done|]. intros ?. apply (Hl y Hy). by right.
  - intros ([??] & [Hx ?] & Hl). split_and!; try done.
    + apply Hl. left.
    + intros y Hy [Heq|Hin]%elem_of_cons.
      * apply Hx. by exists y.
      * apply (Hl y); [by right|done].
Qed.

Lemma shipped_catalog_ok : catalog_ok operationCatalogEntries.
Proof.
  assert (lintOperationCatalog operationCatalogEntries = []) as H by reflexivity.
  unfold lintOperationCatalog in H. apply lint_loop_nil in H. split; tauto.
Qed.

Lemma lookup_in_elem entries name m :
  NoDup (om_Name <$> entries) ->
  lookup_in entries name = Some m <-> m ∈ entries /\ om_Name m = name.
Proof.
  intros Hnd. split.
  - intros [Hin Heq]%List.find_some. split; [by apply list_elem_of_In|by apply eqs_true].
  - unfold lookup_in. induction entries as [|m' l IH]; cbn; [by intros [?%elem_of_nil _]|].
    apply NoDup_cons in Hnd as [Hx Hnd].
    intros [[->|Hin]%elem_of_cons Hn].
    + by rewrite (proj2 (eqs_true _ _) Hn).
    + destruct (eqs (om_Name m') name) eqn:E; [|by apply IH].
      apply eqs_true in E. destruct Hx. rewrite E, <- Hn. by apply list_elem_of_fmap_2.
Qed.

Lemma lookupOperation_elem name m :
  lookupOperation name = Some m <-> m ∈ operationCatalogEntries /\ om_Name m = name.
Proof. apply lookup_in_elem, shipped_catalog_ok. Qed.

Lemma lookupOperation_ok name m : lookupOperation name = Some m -> manifest_ok m.
Proof.
  intros [Hin _]%lookupOperation_elem.
  by apply (proj1 (Forall_forall _ _) (proj1 shipped_catalog_ok)).
Qed.

Lemma lookupOperation_name name m : lookupOperation name = Some m -> om_Name m = name.
Proof. intros ?%lookupOperation_elem. tauto. Qed.

(** A boolean check on every shipped manifest holds of every lookup. *)
Lemma lookupOperation_forallb (p : OperationManifest -> bool) name m :
  forallb p operationCatalogEntries = true -> lookupOperation name = Some m -> p m = true.
Proof.
  rewrite forallb_forall. intros Hp [Hin _]%lookupOperation_elem.
  by apply Hp, list_elem_of_In.
Qed.

(** ** Properties *)

(** The catalogue lint reports nothing exactly on the catalogues in which
    every manifest is well formed (named, described, with domain, acts, risk,
    scope, workflow mode, known dispatch and executor bindings; writes guarded
    and keyed, reads not guarded; every required parameter resolvable; every
    raw slot a declared, resolvable, untrusted input under its own name) and no
    operation name is used twice. *)
Theorem lintOperationCatalog_complete entries :
  lintOperationCatalog entries = [] <-> catalog_ok entries.
Proof.
  unfold lintOperationCatalog, catalog_ok. rewrite lint_loop_nil.
  split; [tauto|]. intros [??]. split_and!; [done..|set_solver].
Qed.

(** In the shipped catalogue every lookup returns the one manifest of
    that name, and the manifests it returns are well formed: the lint is clean
    on it. *)
Theorem shipped_catalog_lookup name :
  (forall m, lookupOperation name = Some m <-> m ∈ operationCatalogEntries /\ om_Name m = name)
  /\ (forall m, lookupOperation name = Some m -> manifest_ok m)
  /\ (lookupOperation name = None <-> name ∉ operationNames).
Proof.
  split; [apply lookupOperation_elem|]. split.
  - apply lookupOperation_ok.
  - unfold operationNames. split.
    + intros Hn (m & -> & Hin)%list_elem_of_fmap.
      by rewrite (proj2 (lookupOperation_elem (om_Name m) m) (conj Hin eq_refl)) in Hn.
    + intros Hn. destruct (lookupOperation name) as [m|] eqn:E; [|done].
      apply lookupOperation_elem in E as [Hin <-]. destruct Hn. by apply list_elem_of_fmap_2.
Qed.

(** Every write operation of the shipped catalogue is answered only to a
    write request, needs the administrator role and a group conversation, is
    bound to the write guard, and keys its idempotency on tenant, conversation,
    actor and operation. *)
Theorem write_operations_guarded name m :
  lookupOperation name = Some m -> om_IsWrite m = true ->
  om_AllowedActs m = [ActWriteRequest] /\ 1 <= om_MinRole m
  /\ om_Scope m = ConversationScopeGroup /\ guard_Name (om_WriteGuard m) = WriteGuardBindingDefault
  /\ mkPolicy "admin_role" ∈ om_Policies m /\ mkPolicy "group_conversation" ∈ om_Policies m
  /\ mkParam "conversation_id" ∈ om_RequiredTrustedParams m
  /\ Forall (fun f => f ∈ id_KeyFields (om_Idempotency m))
       ["tenant_id"; "conversation_id"; "actor_user_id"; "operation"].
Proof.
  intros Hl Hw. pose proof (lookupOperation_elem name m) as [He _].
  destruct (He Hl) as [Hin _]. clear He Hl. unfold operationCatalogEntries in Hin.
  repeat (apply elem_of_cons in Hin as [->|Hin]; [try discriminate Hw; split_and!;
    solve [done | repeat constructor | cbn; lia]|]).
  by apply elem_of_nil in Hin.
Qed.

Lemma write_operations_guarded_witness :
  lookupOperation "subscription.start" = Some op_subscription_start
  /\ 1 <= om_MinRole op_subscription_start.
Proof.
  split; [reflexivity|].
  apply (write_operations_guarded "subscription.start" op_subscription_start); reflexivity.
Defined.
