(* ===== verification/Request.v ===== *)
(** * Operation requests and the write guard

    internal/agent/execution_gate.go (trusted parameters, request building,
    the write guard and its idempotency key), operation_request_context.go, the
    user context of tools/tool.go and the parameter accessors of agent.go and
    operation_executor.go. *)
From Stdlib Require Import ZArith QArith Lia Bool String.
From stdpp Require Import base list strings gmap.
From S2P Require Import Prelude GoStrings GoTime Sha256 Contract Codec Catalog.

Open Scope Z_scope.

(** ** The user of a turn *)
Record UserContext := mkUser {
  uc_TenantID : Z;
  uc_UserID : Z;
  uc_UserRole : Z;
  uc_DingUserID : string;
  uc_Name : string;
  uc_ConversationType : string;
  uc_ConversationID : string;
  uc_ConversationTitle : string
}.

(** ** Trusted parameters *)

Definition trustedParam (field : string) (v : value) (tenantID : Z) (source : TrustedParamSource)
  : TrustedParam := mkTrustedParam field v source tenantID.

(** The value of a field in its canonical dynamic type, when it has one. *)
Definition nonempty_string (v : value) : option value :=
  match v with VString s => if eqs s "" then None else Some (VString s) | _ => None end.
Definition positive_int (v : value) : option value :=
  match v with VInt z => if 0 <? z then Some (VInt z) else None | _ => None end.

Definition canonicalTrustedParamValue (field : string) (v : value) : option value :=
  if eqs field "conversation_id" then nonempty_string v
  else if eqs field "scope" then nonempty_string v
  else if eqs field "dept_ids" then
    match v with VInt64s [] => None | VInt64s l => Some (VInt64s l) | _ => None end
  else if eqs field "user_id" then
    match v with VUint z => if z =? 0 then None else Some (VUint z) | _ => None end
  else if eqs field "date" then
    match v with
    | VString s => if eqs s "" then None
                   else match parse_date s with Some _ => Some (VString s) | None => None end
    | _ => None
    end
  else if eqs field "section" then positive_int v
  else if eqs field "week" then positive_int v
  else if eqs field "rule_topic" then nonempty_string v
  else if eqs field "query_shape" then nonempty_string v
  else if eqs field operationParamActorRole then
    match v with VInt z => if 0 <=? z then Some (VInt z) else None | _ => None end
  else if eqs field operationParamConversationType then nonempty_string v
  else if eqs field operationParamConversationTitle then
    match v with VString s => Some (VString s) | _ => None end
  else None.

Definition trustedParamFromTrustedEntity (trusted : trustedEntities) (field : string) (v : value)
  (source resolver : string) : option TrustedParam :=
  canonical ← canonicalTrustedParamValue field v;
  Some (trustedParam field canonical (te_TenantID trusted) (mkSource source "" resolver)).

Definition trustedParamValue (trusted : trustedEntities) (field : string) : option TrustedParam :=
  match te_TrustedParams trusted !! field with
  | Some param =>
      if negb (te_TenantID trusted =? 0) && negb (tp_TenantID param =? te_TenantID trusted) then None
      else
        v ← canonicalTrustedParamValue field (tp_Value param);
        Some (mkTrustedParam field v
                (if eqs (src_Kind (tp_Source param)) ""
                 then mkSource TrustedParamSourceWorkflow "" "trusted_params"
                 else tp_Source param)
                (if tp_TenantID param =? 0 then te_TenantID trusted else tp_TenantID param))
  | None =>
      let from v source resolver := trustedParamFromTrustedEntity trusted field v source resolver in
      if eqs field "conversation_id" then
        from (VString (te_ConversationID trusted)) TrustedParamSourceRuntime "conversation_runtime"
      else if eqs field "scope" then
        from (VString (te_Scope trusted)) TrustedParamSourceWorkflow "subscription_scope"
      else if eqs field "dept_ids" then
        if negb (bool_decide (te_DeptIDs trusted = [])) then
          from (VInt64s (te_DeptIDs trusted)) TrustedParamSourceWorkflow "department_resolver"
        else if negb (te_DepartmentID trusted =? 0) then
          from (VInt64s [te_DepartmentID trusted]) TrustedParamSourceWorkflow "department_resolver"
        else None
      else if eqs field "user_id" then
        from (VUint (te_UserID trusted)) TrustedParamSourceWorkflow "user_resolver"
      else if eqs field "date" then
        from (VString (te_Date trusted)) TrustedParamSourceWorkflow "date_slot"
      else if eqs field "section" then
        from (VInt (te_Section trusted)) TrustedParamSourceWorkflow "section_slot"
      else if eqs field "week" then
        from (VInt (te_Week trusted)) TrustedParamSourceWorkflow "week_slot"
      else None
  end.

Definition trustedHasRequiredParams (trusted : trustedEntities) (fields : list string) : bool :=
  forallb (fun f => bool_decide (is_Some (trustedParamValue trusted f))) fields.

Definition trustedParamsFromValues (tenantID : Z) (source : TrustedParamSource)
  (values : gmap string value) : gmap string TrustedParam :=
  map_imap (fun field v =>
    Some (trustedParam field (default v (canonicalTrustedParamValue field v)) tenantID source)) values.

Definition trustedParamConcreteValue (ps : gmap string TrustedParam) (field : string) : option value :=
  param ← ps !! field; canonicalTrustedParamValue field (tp_Value param).

(** agent.go, operation_executor.go: typed accessors. A float64 is truncated. *)
Definition q_trunc (q : Q) : Z := Z.quot (Qnum q) (Zpos (Qden q)).

Definition extractParamString (ps : gmap string TrustedParam) (key : string) : option string :=
  match trustedParamConcreteValue ps key with Some (VString s) => Some s | _ => None end.
Definition extractParamInt (ps : gmap string TrustedParam) (key : string) : option Z :=
  match trustedParamConcreteValue ps key with
  | Some (VInt z) => Some z
  | Some (VFloat64 q) => Some (q_trunc q)
  | _ => None
  end.
Definition extractParamUint (ps : gmap string TrustedParam) (key : string) : option Z :=
  match trustedParamConcreteValue ps key with
  | Some (VUint z) => Some z
  | Some (VInt z) => if z <? 0 then None else Some z
  | Some (VFloat64 q) => if Qnum q <? 0 then None else Some (q_trunc q)
  | _ => None
  end.
Definition extractParamInt64Slice (ps : gmap string TrustedParam) (key : string) : option (list Z) :=
  match trustedParamConcreteValue ps key with
  | Some (VInt64s []) | Some (VInts []) => None
  | Some (VInt64s l) | Some (VInts l) => Some l
  | _ => None
  end.

(** ** Building a request from trusted entities *)

Definition selectQueryShape (metadata : OperationManifest) (trusted : trustedEntities)
  : option QueryShapeMetadata :=
  if negb (eqs (te_QueryShape trusted) "") then
    List.find (fun s => eqs (qs_Name s) (te_QueryShape trusted)) (om_QueryShapes metadata)
  else
    List.find (fun s => trustedHasRequiredParams trusted (paramNames (qs_RequiredTrustedParams s)))
      (om_QueryShapes metadata).

Definition subscriptionScopeValid (operation : string) (ps : gmap string TrustedParam) : bool :=
  if negb (eqs operation "subscription.start") then true
  else match ps !! "scope" with
       | None => false
       | Some scopeParam =>
           match tp_Value scopeParam with
           | VString scope =>
               if eqs scope "all" then true
               else if eqs scope "department" then
                 match ps !! "dept_ids" with
                 | None => false
                 | Some deptParam =>
                     match tp_Value deptParam with VInt64s (_ :: _) => true | _ => false end
                 end
               else false
           | _ => false
           end
       end.

(** The loops over the required fields (all must have a value) and over the
    optional ones. *)
Fixpoint require_params (trusted : trustedEntities) (fields : list string)
  (ps : gmap string TrustedParam) : option (gmap string TrustedParam) :=
  match fields with
  | [] => Some ps
  | f :: fs => v ← trustedParamValue trusted f; require_params trusted fs (<[f := v]> ps)
  end.
Fixpoint optional_params (trusted : trustedEntities) (fields : list string)
  (ps : gmap string TrustedParam) : gmap string TrustedParam :=
  match fields with
  | [] => ps
  | f :: fs => optional_params trusted fs
                 match trustedParamValue trusted f with Some v => <[f := v]> ps | None => ps end
  end.

(** [None] is the blocked result. *)
Definition buildOperationRequest (draft : ProtocolDraft) (trusted : trustedEntities)
  : option OperationRequest :=
  metadata ← lookupOperation (draft_Operation draft);
  if om_IsWrite metadata && (te_UserRole trusted <? om_MinRole metadata) then None
  else
    let optionalParams := paramNames (om_OptionalTrustedParams metadata) in
    '(requiredParams, ps) ←
      match om_QueryShapes metadata with
      | [] => Some (paramNames (om_RequiredTrustedParams metadata), ∅)
      | _ =>
          shape ← selectQueryShape metadata trusted;
          Some (paramNames (qs_RequiredTrustedParams shape),
                <["query_shape" := trustedParam "query_shape" (VString (qs_Name shape))
                   (te_TenantID trusted)
                   (mkSource TrustedParamSourceDerived "" "query_shape_selector")]>
                  (∅ : gmap string TrustedParam))
      end;
    ps ← require_params trusted requiredParams ps;
    let ps := optional_params trusted optionalParams ps in
    if subscriptionScopeValid (draft_Operation draft) ps
    then Some (mkOperationRequest (draft_Operation draft) 0 0 "" ps "") else None.

Definition missingRequiredTrustedParams (manifest : OperationManifest) (trusted : trustedEntities)
  : list string :=
  let required := match om_QueryShapes manifest with
                  | [] => om_RequiredTrustedParams manifest
                  | _ => match selectQueryShape manifest trusted with
                         | Some shape => qs_RequiredTrustedParams shape
                         | None => om_RequiredTrustedParams manifest
                         end
                  end in
  List.filter (fun f => bool_decide (trustedParamValue trusted f = None)) (List.map param_Name required).

(** ** operation_request_context.go *)

Definition with_params (ps : gmap string TrustedParam) (req : OperationRequest) : OperationRequest :=
  mkOperationRequest (req_Operation req) (req_TenantID req) (req_ActorUserID req)
    (req_ConversationID req) ps (req_IdempotencyKey req).
Definition with_key (key : string) (req : OperationRequest) : OperationRequest :=
  mkOperationRequest (req_Operation req) (req_TenantID req) (req_ActorUserID req)
    (req_ConversationID req) (req_TrustedParams req) key.

(** [if _, ok := params[field]; !ok && cond { params[field] = param }] *)
Definition add_param (cond : bool) (field : string) (p : TrustedParam) (ps : gmap string TrustedParam)
  : gmap string TrustedParam :=
  match ps !! field with
  | Some _ => ps
  | None => if cond then <[field := p]> ps else ps
  end.

Definition enrichOperationRequestFromUser (req : OperationRequest) (uctx : option UserContext)
  : OperationRequest :=
  match uctx with
  | None => req
  | Some u =>
      let ps := req_TrustedParams req in
      let conversationID :=
        if eqs (trim_space (req_ConversationID req)) "" then
          if negb (eqs (trim_space (uc_ConversationID u)) "") then trim_space (uc_ConversationID u)
          else match extractParamString ps "conversation_id" with
               | Some v => v
               | None => req_ConversationID req
               end
        else req_ConversationID req in
      let source := mkSource TrustedParamSourceRuntime "" "user_context_runtime" in
      let conversationType := trim_space (uc_ConversationType u) in
      let conversationTitle := trim_space (uc_ConversationTitle u) in
      let ps := add_param true operationParamActorRole
                  (trustedParam operationParamActorRole (VInt (uc_UserRole u)) (uc_TenantID u) source) ps in
      let ps := add_param (negb (eqs conversationType "")) operationParamConversationType
                  (trustedParam operationParamConversationType (VString conversationType)
                     (uc_TenantID u) source) ps in
      let ps := add_param (negb (eqs conversationTitle "")) operationParamConversationTitle
                  (trustedParam operationParamConversationTitle (VString conversationTitle)
                     (uc_TenantID u) source) ps in
      mkOperationRequest (req_Operation req)
        (if req_TenantID req =? 0 then uc_TenantID u else req_TenantID req)
        (if req_ActorUserID req =? 0 then uc_UserID u else req_ActorUserID req)
        conversationID ps (req_IdempotencyKey req)
  end.

Definition operationRequestActorRole (req : OperationRequest) : Z :=
  default 0 (extractParamInt (req_TrustedParams req) operationParamActorRole).
Definition operationRequestConversationType (req : OperationRequest) : string :=
  trim_space (default "" (extractParamString (req_TrustedParams req) operationParamConversationType)).
Definition operationRequestConversationTitle (req : OperationRequest) : string :=
  trim_space (default "" (extractParamString (req_TrustedParams req) operationParamConversationTitle)).

(** ** The write guard *)

Record WriteGuardInput := mkGuardInput {
  wg_User : option UserContext;
  wg_Manifest : OperationManifest;
  wg_Request : OperationRequest;
  wg_Workflow : option WorkflowSnapshot;
  wg_Confirmed : bool
}.
Record WriteGuardResult := mkGuardResult {
  wgr_Allow : bool;
  wgr_ResponseKind : string;
  wgr_BlockedReason : string;
  wgr_IdempotencyKey : string
}.

Definition writeGuardManifest (input : WriteGuardInput) : option OperationManifest :=
  if negb (eqs (om_Name (wg_Manifest input)) "") then Some (wg_Manifest input)
  else lookupOperation (req_Operation (wg_Request input)).
Definition writeRequiresConfirmation (risk : string) : bool :=
  eqs risk RiskWriteMedium || eqs risk RiskWriteHigh.
Definition manifestResponseKind (m : OperationManifest) : string :=
  if negb (eqs (rn_Kind (om_Renderer m)) "") then rn_Kind (om_Renderer m) else ResponseResult.

(** [fmt.Sprint]; [other] renders the dynamic types no trusted parameter has
    once it is canonical. *)
Definition fmt_Sprint (other : value -> string) (v : value) : string :=
  match v with
  | VString s => s
  | VInt z | VInt64 z | VUint z | VUint64 z => itoa z
  | VBool b => if b then "true" else "false"
  | v => other v
  end.

Section guard.
Context (other : value -> string).

Definition canonicalIdempotencyValue (v : value) : string :=
  match v with
  | VInt64s l | VInts l => join "," (List.map itoa (sort_Z l))
  | v => fmt_Sprint other v
  end.

Definition idempotencyFieldValue (field : string) (input : WriteGuardInput) : option string :=
  let req := wg_Request input in
  if eqs field "tenant_id" then
    if negb (req_TenantID req =? 0) then Some (itoa (req_TenantID req))
    else match wg_User input with
         | Some u => if negb (uc_TenantID u =? 0) then Some (itoa (uc_TenantID u)) else None
         | None => None
         end
  else if eqs field "actor_user_id" then
    if negb (req_ActorUserID req =? 0) then Some (itoa (req_ActorUserID req))
    else match wg_User input with
         | Some u => if negb (uc_UserID u =? 0) then Some (itoa (uc_UserID u)) else None
         | None => None
         end
  else if eqs field "conversation_id" then
    if negb (blank (req_ConversationID req)) then Some (trim_space (req_ConversationID req))
    else match extractParamString (req_TrustedParams req) "conversation_id" with
         | Some v => Some v
         | None =>
             match wg_User input with
             | Some u => if negb (blank (uc_ConversationID u))
                         then Some (trim_space (uc_ConversationID u)) else None
             | None => None
             end
         end
  else if eqs field "operation" then
    if negb (blank (req_Operation req)) then Some (trim_space (req_Operation req)) else None
  else if eqs field "workflow_id" then
    match wg_Workflow input with
    | Some w => if negb (blank (wf_ID w)) then Some (trim_space (wf_ID w)) else None
    | None => None
    end
  else if eqs field "dept_ids" then
    match trustedParamConcreteValue (req_TrustedParams req) field with
    | None => Some "none"
    | Some v => Some (canonicalIdempotencyValue v)
    end
  else
    v ← trustedParamConcreteValue (req_TrustedParams req) field;
    Some (canonicalIdempotencyValue v).

Fixpoint idempotency_parts (fields : list string) (input : WriteGuardInput) : option (list string) :=
  match fields with
  | [] => Some []
  | f :: fs => v ← idempotencyFieldValue f input;
               parts ← idempotency_parts fs input;
               Some ((f +:+ "=" +:+ v) :: parts)
  end.

Definition buildIdempotencyKey (m : OperationManifest) (input : WriteGuardInput) : string :=
  match id_KeyFields (om_Idempotency m) with
  | [] => ""
  | fields =>
      match idempotency_parts fields input with
      | None => ""
      | Some parts =>
          om_Name m +:+ ":" +:+ substring 0 16 (sha256_hex (join "|" parts))
      end
  end.

(** [writeGuard.Check] *)
Definition Check_write (input : WriteGuardInput) : WriteGuardResult :=
  match writeGuardManifest input with
  | None => mkGuardResult false ResponseRefuse "operation_not_allowed" ""
  | Some m =>
      if negb (om_IsWrite m) then mkGuardResult true (manifestResponseKind m) "" ""
      else if writeRequiresConfirmation (om_Risk m) && negb (wg_Confirmed input) then
        mkGuardResult false ResponseConfirm "write_confirmation_required"
          (buildIdempotencyKey m input)
      else
        let key := buildIdempotencyKey m input in
        if eqs key "" then mkGuardResult false ResponseRefuse "idempotency_key_missing" ""
        else mkGuardResult true (manifestResponseKind m) "" key
  end.

End guard.

(** ** Lemmas *)

(** The canonical value of a field is the value itself, when it qualifies. *)
Lemma canonical_same field v v' : canonicalTrustedParamValue field v = Some v' -> v' = v.
Proof.
  unfold canonicalTrustedParamValue. intros H.
  assert (forall w, nonempty_string v = Some w -> w = v) as Hs.
  { intros w. unfold nonempty_string. destruct v; try discriminate. case_if; congruence. }
  assert (forall w, positive_int v = Some w -> w = v) as Hi.
  { intros w. unfold positive_int. destruct v; try discriminate. case_if; congruence. }
  repeat match type of H with
  | (if _ then nonempty_string v else _) = _ => case_if_in H; [by apply Hs|]
  | (if _ then positive_int v else _) = _ => case_if_in H; [by apply Hi|]
  | (if _ then _ else _) = _ => case_if_in H; [by destruct v as [| | | | | | | |[]| | | | |]; repeat case_match; simplify_eq|]
  end.
  discriminate.
Qed.

Lemma concrete_value ps f p v :
  ps !! f = Some p -> trustedParamConcreteValue ps f = Some v -> v = tp_Value p.
Proof.
  unfold trustedParamConcreteValue. intros ->. cbn. apply canonical_same.
Qed.

(** A trusted parameter is well typed for its field and belongs to the tenant
    the entities were resolved for. *)
Definition param_ok (tenant : Z) (field : string) (p : TrustedParam) : Prop :=
  tp_Field p = field
  /\ canonicalTrustedParamValue field (tp_Value p) = Some (tp_Value p)
  /\ (tenant <> 0 -> tp_TenantID p = tenant).

Lemma trustedParamFromTrustedEntity_ok trusted f v s r p :
  trustedParamFromTrustedEntity trusted f v s r = Some p -> param_ok (te_TenantID trusted) f p.
Proof.
  unfold trustedParamFromTrustedEntity. intros H.
  destruct (canonicalTrustedParamValue f v) as [c|] eqn:E; [|done]. cbn in H. simplify_eq.
  pose proof (canonical_same _ _ _ E) as ->. done.
Qed.

Lemma trustedParamValue_ok trusted f p :
  trustedParamValue trusted f = Some p -> param_ok (te_TenantID trusted) f p.
Proof.
  unfold trustedParamValue. intros H.
  destruct (te_TrustedParams trusted !! f) as [q|].
  - case_if_in H; [done|].
    destruct (canonicalTrustedParamValue f (tp_Value q)) as [c|] eqn:Ec; [|done].
    cbn in H. simplify_eq. pose proof (canonical_same _ _ _ Ec) as ->.
    split_and!; [done..|]. cbn. intros Ht.
    apply Z.eqb_neq in Ht. rewrite Ht in E. cbn in E. b2p. rewrite E. by case_if.
  - repeat match type of H with
    | (if _ then _ else _) = _ =>
        case_if_in H; [first [by apply trustedParamFromTrustedEntity_ok in H | idtac]|]
    end; try done;
    repeat (case_if_in H; try by apply trustedParamFromTrustedEntity_ok in H); done.
Qed.

Lemma require_params_spec trusted fields ps ps' (P : string -> TrustedParam -> Prop) :
  require_params trusted fields ps = Some ps' ->
  map_Forall P ps ->
  (forall f p, trustedParamValue trusted f = Some p -> f ∈ fields -> P f p) ->
  map_Forall P ps' /\ (forall f, f ∈ fields \/ is_Some (ps !! f) -> is_Some (ps' !! f)).
Proof.
  revert ps. induction fields as [|f fs IH]; cbn; intros ps H HP Hv.
  { simplify_eq. split; [done|]. intros f [?%elem_of_nil|?]; done. }
  destruct (trustedParamValue trusted f) as [p|] eqn:E; [|done]. cbn in H.
  apply IH in H as [? Hs].
  - split; [done|]. intros g Hg. apply Hs. destruct (decide (f = g)) as [->|].
    + right. rewrite lookup_insert_eq. by eexists.
    + rewrite lookup_insert_ne by done. set_solver.
  - apply map_Forall_insert_2; [|done]. apply Hv; [done|left].
  - intros. apply Hv; [done|by right].
Qed.

Lemma optional_params_spec trusted fields ps (P : string -> TrustedParam -> Prop) :
  map_Forall P ps ->
  (forall f p, trustedParamValue trusted f = Some p -> f ∈ fields -> P f p) ->
  map_Forall P (optional_params trusted fields ps)
  /\ (forall f, is_Some (ps !! f) -> is_Some (optional_params trusted fields ps !! f)).
Proof.
  revert ps. induction fields as [|f fs IH]; cbn; intros ps HP Hv; [by split|].
  destruct (trustedParamValue trusted f) as [p|] eqn:E.
  - destruct (IH (<[f:=p]> ps)) as [? Hs].
    + apply map_Forall_insert_2; [|done]. apply Hv; [done|left].
    + intros. apply Hv; [done|by right].
    + split; [done|]. intros g Hg. apply Hs. destruct (decide (f = g)) as [->|].
      * rewrite lookup_insert_eq. by eexists.
      * by rewrite lookup_insert_ne.
  - apply IH; [done|]. intros. apply Hv; [done|by right].
Qed.

Lemma paramNames_elem l f : f ∈ paramNames l <-> f <> "" /\ mkParam f ∈ l.
Proof.
  unfold paramNames. rewrite list_elem_of_In, filter_In, <- list_elem_of_In, negb_true_iff, eqs_false.
  change (List.map param_Name l) with (param_Name <$> l). rewrite list_elem_of_fmap.
  transitivity (f <> "" /\ exists x, f = param_Name x /\ x ∈ l); [tauto|]. f_equiv. split.
  - by intros ([] & -> & ?).
  - intros ?. by exists (mkParam f).
Qed.

(** The parameters a request of the operation may carry. *)
Definition declared_param (m : OperationManifest) (f : string) : Prop :=
  mkParam f ∈ om_RequiredTrustedParams m \/ mkParam f ∈ om_OptionalTrustedParams m
  \/ (exists q, q ∈ om_QueryShapes m /\ mkParam f ∈ qs_RequiredTrustedParams q)
  \/ (f = "query_shape" /\ om_QueryShapes m <> []).

(** The parameters it must carry, given the query shape selected. *)
Definition required_params (m : OperationManifest) (trusted : trustedEntities) : list string :=
  match om_QueryShapes m with
  | [] => paramNames (om_RequiredTrustedParams m)
  | _ => match selectQueryShape m trusted with
         | Some s => "query_shape" :: paramNames (qs_RequiredTrustedParams s)
         | None => []
         end
  end.

Lemma selectQueryShape_elem m trusted s :
  selectQueryShape m trusted = Some s -> s ∈ om_QueryShapes m.
Proof.
  unfold selectQueryShape. case_if; intros [? _]%List.find_some; by apply list_elem_of_In.
Qed.

Lemma shipped_shapes_named name m s :
  lookupOperation name = Some m -> s ∈ om_QueryShapes m -> qs_Name s <> "".
Proof.
  intros Hl Hs.
  assert (forallb (fun s => negb (eqs (qs_Name s) "")) (om_QueryShapes m) = true) as H.
  { revert Hl. apply (lookupOperation_forallb
      (fun m => forallb (fun s => negb (eqs (qs_Name s) "")) (om_QueryShapes m))). reflexivity. }
  rewrite forallb_forall in H. by apply eqs_false, negb_true_iff, H, list_elem_of_In.
Qed.

Lemma require_params_None trusted fields ps :
  require_params trusted fields ps = None <-> exists f, f ∈ fields /\ trustedParamValue trusted f = None.
Proof.
  revert ps. induction fields as [|f fs IH]; cbn; intros ps.
  { split; [done|]. by intros (f & ?%elem_of_nil & _). }
  destruct (trustedParamValue trusted f) as [p|] eqn:E; cbn.
  - rewrite IH. split; intros (g & Hg & ?); exists g; [set_solver|].
    apply elem_of_cons in Hg as [->|]; [congruence|done].
  - split; [|done]. intros _. exists f. split; [left|done].
Qed.

Lemma missing_nil m trusted :
  om_QueryShapes m = [] ->
  missingRequiredTrustedParams m trusted = [] <->
  (forall p, p ∈ om_RequiredTrustedParams m -> trustedParamValue trusted (param_Name p) <> None).
Proof.
  intros Hq. unfold missingRequiredTrustedParams. rewrite Hq. split.
  - intros H p Hp E. apply (elem_of_nil (param_Name p)). rewrite <- H.
    rewrite list_elem_of_In. apply filter_In. split; [by apply in_map, list_elem_of_In|].
    by apply bool_decide_eq_true.
  - intros H. destruct (List.filter _ _) as [|f l] eqn:E; [done|].
    assert (In f (f :: l)) as Hf by by left. rewrite <- E in Hf.
    apply filter_In in Hf as [Hf Hd%bool_decide_eq_true].
    apply in_map_iff in Hf as (p & <- & Hp). exfalso. eapply H; [|exact Hd]. by apply list_elem_of_In.
Qed.


(** ** Properties *)

(** A request built from a draft carries only parameters its operation
    declares, each of the dynamic type of its field and of the tenant the
    entities were resolved for, carries every required one, has a valid
    subscription scope, and a write is only built for a user of the
    operation's minimal role: nothing the language model drafted reaches the
    request. *)
Theorem buildOperationRequest_sound draft trusted req :
  buildOperationRequest draft trusted = Some req ->
  exists m, lookupOperation (draft_Operation draft) = Some m
    /\ req_Operation req = draft_Operation draft
    /\ (om_IsWrite m = true -> om_MinRole m <= te_UserRole trusted)
    /\ map_Forall (fun f p => param_ok (te_TenantID trusted) f p /\ declared_param m f)
         (req_TrustedParams req)
    /\ (forall f, f ∈ required_params m trusted -> is_Some (req_TrustedParams req !! f))
    /\ subscriptionScopeValid (draft_Operation draft) (req_TrustedParams req) = true.
Proof.
  unfold buildOperationRequest. intros H.
  destruct (lookupOperation (draft_Operation draft)) as [m|] eqn:Hm; [|done]. cbn in H.
  case_if_in H; [done|].
  set (P := fun f p => param_ok (te_TenantID trusted) f p /\ declared_param m f).
  match type of H with (_ ← ?x; _) = _ => destruct x as [[rq ps0]|] eqn:Hx end; [|done]. cbn in H.
  destruct (require_params trusted rq ps0) as [ps1|] eqn:Hr; [|done]. cbn in H.
  case_if_in H; [|done]. simplify_eq. exists m. cbn.
  assert (map_Forall P ps0 /\ (forall f, f ∈ rq -> declared_param m f)
          /\ (forall f, f ∈ required_params m trusted -> f ∈ rq \/ is_Some (ps0 !! f))) as (Hp0 & Hd & Hc).
  { unfold required_params.
    destruct (om_QueryShapes m) as [|s0 ss] eqn:Hq.
    - simplify_eq. split_and!; [apply map_Forall_empty| |by left].
      intros f [_ ?]%paramNames_elem. by left.
    - destruct (selectQueryShape m trusted) as [s|] eqn:Hs; [|done]. cbn in Hx. simplify_eq.
      pose proof (selectQueryShape_elem _ _ _ Hs) as Hin.
      split_and!.
      + apply map_Forall_insert_2; [|apply map_Forall_empty]. unfold P, param_ok, declared_param. cbn.
        pose proof (shipped_shapes_named _ _ _ Hm Hin) as Hne.
        split_and!; [done| |done|].
        * unfold canonicalTrustedParamValue, nonempty_string. cbn.
          by rewrite (proj2 (eqs_false _ _) Hne).
        * right; right; right. by rewrite Hq.
      + intros f [_ ?]%paramNames_elem. right; right; left. by exists s.
      + intros f [->|?]%elem_of_cons; [right|by left]. rewrite lookup_insert_eq. by eexists. }
  apply (require_params_spec _ _ _ _ P) in Hr as [Hp1 Hs1]; [|done|].
  2:{ intros f p Hv Hf. split; [by eapply trustedParamValue_ok|by apply Hd]. }
  destruct (optional_params_spec trusted (paramNames (om_OptionalTrustedParams m)) ps1 P) as [Hp2 Hs2];
    [done| |].
  { intros f p Hv [_ Hf]%paramNames_elem. split; [by eapply trustedParamValue_ok|].
    right. by left. }
  split_and!; try done.
  - intros Hw. rewrite Hw in E. cbn in E. by b2p.
  - intros f Hf. apply Hs2, Hs1, Hc, Hf.
Qed.

Definition group_admin : UserContext := mkUser 7 42 1 "ding42" "Li" "2" "cid-1" "Room".
Definition start_draft : ProtocolDraft :=
  mkIntentDraft ActWriteRequest DomainSubscription "subscription.start" (9 # 10) ∅ "" ∅ [] "".
Definition start_trusted : trustedEntities :=
  mkTrusted 7 0 [30; 10] 0 "" "" 0 0 "cid-1" "department" "" 1 ∅.

Lemma buildOperationRequest_sound_witness :
  exists req, buildOperationRequest start_draft start_trusted = Some req
    /\ map_Forall (fun f p => param_ok 7 f p /\ declared_param op_subscription_start f)
         (req_TrustedParams req).
Proof.
  destruct (buildOperationRequest start_draft start_trusted) as [req|] eqn:E; [|vm_compute in E; discriminate].
  exists req. split; [reflexivity|].
  destruct (buildOperationRequest_sound _ _ _ E) as (m & Hm & _ & _ & H & _).
  vm_compute in Hm. injection Hm as <-. exact H.
Defined.

(** For an operation without query shapes other than the subscription
    start, building the request is refused exactly when the user lacks the role
    of the write or when the list of missing parameters shown to the user is
    not empty. *)
Theorem buildOperationRequest_blocked draft trusted m :
  lookupOperation (draft_Operation draft) = Some m -> om_QueryShapes m = [] ->
  draft_Operation draft <> "subscription.start" ->
  buildOperationRequest draft trusted = None <->
  (om_IsWrite m = true /\ te_UserRole trusted < om_MinRole m)
  \/ missingRequiredTrustedParams m trusted <> [].
Proof.
  intros Hm Hq Hop. pose proof (lookupOperation_ok _ _ Hm) as Hok.
  unfold buildOperationRequest. rewrite Hm. cbn. rewrite Hq. cbn.
  rewrite missing_nil by done.
  destruct (om_IsWrite m && (te_UserRole trusted <? om_MinRole m)) eqn:E.
  { b2p. split; [by left|done]. }
  destruct (require_params trusted (paramNames (om_RequiredTrustedParams m)) ∅) as [ps|] eqn:Hr; cbn.
  - unfold subscriptionScopeValid. rewrite (proj2 (eqs_false _ _) Hop). cbn.
    split; [done|]. intros [[Hw Hlt]|Hx].
    + rewrite Hw in E. cbn in E. b2p. lia.
    + destruct Hx. intros [f] Hf Hn. cbn in Hn.
      enough (require_params trusted (paramNames (om_RequiredTrustedParams m)) ∅ = None) by congruence.
      apply require_params_None. exists f. split; [|done]. apply paramNames_elem. split; [|done].
      pose proof (ok_params _ Hok) as Hp. rewrite Forall_forall in Hp. by apply (Hp _ Hf).
  - split; [|done]. intros _. right. intros Hx.
    apply require_params_None in Hr as (f & [_ Hf]%paramNames_elem & Hn). by apply (Hx (mkParam f) Hf).
Qed.

Definition my_schedule_draft : ProtocolDraft :=
  mkIntentDraft ActReadQuery DomainSchedule "schedule.query_my_schedule" (9 # 10) ∅ "" ∅ [] "".

Lemma buildOperationRequest_blocked_witness :
  buildOperationRequest my_schedule_draft no_trusted = None
  /\ missingRequiredTrustedParams op_schedule_query_my_schedule no_trusted = ["week"].
Proof.
  split; [|reflexivity].
  apply (buildOperationRequest_blocked my_schedule_draft no_trusted op_schedule_query_my_schedule);
    [reflexivity|reflexivity|discriminate|]. right. vm_compute. discriminate.
Defined.

Lemma idempotency_parts_Some other fields input :
  is_Some (idempotency_parts other fields input)
  <-> Forall (fun f => is_Some (idempotencyFieldValue other f input)) fields.
Proof.
  induction fields as [|f fs IH]; cbn; [split; [constructor|by eexists]|].
  rewrite Forall_cons, <- IH.
  destruct (idempotencyFieldValue other f input); cbn.
  - destruct (idempotency_parts other fs input); cbn; [|by split; [intros []|intros [_ []]]].
    split; [split; by eexists|by eexists].
  - by split; [intros []|intros [[] _]].
Qed.

Lemma string_snoc_nonempty a b c : a +:+ String b c <> "".
Proof. by destruct a. Qed.

Lemma buildIdempotencyKey_nonempty other m input :
  buildIdempotencyKey other m input <> "" <->
  id_KeyFields (om_Idempotency m) <> []
  /\ Forall (fun f => is_Some (idempotencyFieldValue other f input)) (id_KeyFields (om_Idempotency m)).
Proof.
  unfold buildIdempotencyKey. destruct (id_KeyFields (om_Idempotency m)) as [|f fs]; [tauto|].
  rewrite <- idempotency_parts_Some. destruct (idempotency_parts other (f :: fs) input).
  - split; [intros _; split; [done|by eexists]|]. intros _. apply string_snoc_nonempty.
  - split; [done|]. by intros [_ []].
Qed.

(** The write guard lets a write through exactly when a medium or high
    risk write is confirmed and every field of its idempotency key has a value,
    and then hands out a non-empty key; a read passes without one. *)
Theorem write_guard_allows other input m :
  writeGuardManifest input = Some m ->
  (wgr_Allow (Check_write other input) = true <->
   om_IsWrite m = false
   \/ ((writeRequiresConfirmation (om_Risk m) = true -> wg_Confirmed input = true)
       /\ id_KeyFields (om_Idempotency m) <> []
       /\ Forall (fun f => is_Some (idempotencyFieldValue other f input))
            (id_KeyFields (om_Idempotency m))))
  /\ (om_IsWrite m = true -> wgr_Allow (Check_write other input) = true ->
      wgr_IdempotencyKey (Check_write other input) <> "").
Proof.
  intros Hm. unfold Check_write. rewrite Hm, <- buildIdempotencyKey_nonempty.
  destruct (om_IsWrite m); cbn; [|split; [tauto|done]].
  set (key := buildIdempotencyKey other m input). clearbody key.
  destruct (eqs key "") eqn:E; (apply eqs_true in E || apply eqs_false in E);
    destruct (writeRequiresConfirmation (om_Risk m)), (wg_Confirmed input); cbn; naive_solver.
Qed.

Definition start_request : OperationRequest :=
  mkOperationRequest "subscription.start" 7 42 "cid-1"
    (<["scope" := trustedParam "scope" (VString "all") 7 (mkSource "workflow" "" "subscription_scope")]> ∅)
    "".
Definition start_workflow : WorkflowSnapshot :=
  mkSnapshot "wf-1" 7 42 "cid-1" WorkflowSubscriptionStart WorkflowReady [] ∅ ∅ "" 0 0 0 0 [] no_trusted.

Lemma write_guard_allows_witness :
  wgr_Allow (Check_write (fun _ => "") (mkGuardInput (Some group_admin) op_subscription_start start_request
               (Some start_workflow) false)) = true.
Proof.
  apply (proj1 (write_guard_allows (fun _ => "") (mkGuardInput (Some group_admin) op_subscription_start
     start_request (Some start_workflow) false) op_subscription_start eq_refl)).
  right. split; [discriminate|]. split; [discriminate|].
  repeat constructor; by eexists.
Defined.

(** A request whose department list is [l]. *)
Definition with_depts (p : TrustedParam) (l : list Z) (req : OperationRequest) : OperationRequest :=
  with_params (<["dept_ids" := mkTrustedParam (tp_Field p) (VInt64s l) (tp_Source p) (tp_TenantID p)]>
                 (req_TrustedParams req)) req.
Definition with_request (req : OperationRequest) (input : WriteGuardInput) : WriteGuardInput :=
  mkGuardInput (wg_User input) (wg_Manifest input) req (wg_Workflow input) (wg_Confirmed input).

Lemma concrete_other_depts f (p : TrustedParam) ps :
  f <> "dept_ids" ->
  trustedParamConcreteValue (<["dept_ids" := p]> ps) f = trustedParamConcreteValue ps f.
Proof. intros H. unfold trustedParamConcreteValue. by rewrite lookup_insert_ne by congruence. Qed.

Lemma canonical_depts_perm other l1 l2 : l1 ≡ₚ l2 ->
  canonicalIdempotencyValue other <$> canonicalTrustedParamValue "dept_ids" (VInt64s l1)
  = canonicalIdempotencyValue other <$> canonicalTrustedParamValue "dept_ids" (VInt64s l2).
Proof.
  intros Hp. destruct l1 as [|a l1].
  { apply Permutation_nil_l in Hp as ->. done. }
  destruct l2 as [|b l2]; [by apply Permutation_nil_r in Hp|].
  change (Some (join "," (List.map itoa (sort_Z (a :: l1))))
          = Some (join "," (List.map itoa (sort_Z (b :: l2))))).
  by rewrite (sort_Z_unique _ _ Hp).
Qed.

Lemma idempotencyFieldValue_depts other f p l1 l2 req input :
  l1 ≡ₚ l2 ->
  idempotencyFieldValue other f (with_request (with_depts p l1 req) input)
  = idempotencyFieldValue other f (with_request (with_depts p l2 req) input).
Proof.
  intros Hp. unfold idempotencyFieldValue, extractParamString. cbn.
  destruct (decide (f = "dept_ids")) as [->|Hf].
  - eqs_red. unfold trustedParamConcreteValue. rewrite !lookup_insert_eq.
    apply (canonical_depts_perm other) in Hp. revert Hp.
    cbn -[canonicalTrustedParamValue canonicalIdempotencyValue].
    destruct (canonicalTrustedParamValue "dept_ids" (VInt64s l1)),
      (canonicalTrustedParamValue "dept_ids" (VInt64s l2)); cbn -[canonicalIdempotencyValue]; congruence.
  - unfold trustedParamConcreteValue. by rewrite !lookup_insert_ne by congruence.
Qed.

(** The verdict of the write guard and the idempotency key it hands out do
    not depend on the order in which the departments of a request are listed. *)
Theorem guard_key_dept_order other p l1 l2 req input :
  l1 ≡ₚ l2 ->
  Check_write other (with_request (with_depts p l1 req) input)
  = Check_write other (with_request (with_depts p l2 req) input).
Proof.
  intros Hp.
  assert (forall fs, idempotency_parts other fs (with_request (with_depts p l1 req) input)
                     = idempotency_parts other fs (with_request (with_depts p l2 req) input)) as Hparts.
  { induction fs as [|f fs IH]; [done|]. cbn [idempotency_parts].
    by rewrite (idempotencyFieldValue_depts other f p l1 l2), IH. }
  set (i1 := with_request (with_depts p l1 req) input) in *.
  set (i2 := with_request (with_depts p l2 req) input) in *.
  assert (forall m, buildIdempotencyKey other m i1 = buildIdempotencyKey other m i2) as Hkey.
  { intros m. unfold buildIdempotencyKey. destruct (id_KeyFields _); [done|]. by rewrite Hparts. }
  unfold Check_write. change (writeGuardManifest i1) with (writeGuardManifest i2).
  change (wg_Confirmed i1) with (wg_Confirmed i2).
  destruct (writeGuardManifest i2); [|done]. by rewrite !Hkey.
Qed.

Definition dept_param : TrustedParam :=
  trustedParam "dept_ids" VNil 7 (mkSource "workflow" "" "department_resolver").
Lemma guard_key_dept_order_witness :
  [30; 10] ≡ₚ [10; 30]
  /\ Check_write (fun _ => "") (with_request (with_depts dept_param [30; 10] start_request)
       (mkGuardInput (Some group_admin) op_subscription_start start_request (Some start_workflow) false))
   = Check_write (fun _ => "") (with_request (with_depts dept_param [10; 30] start_request)
       (mkGuardInput (Some group_admin) op_subscription_start start_request (Some start_workflow) false)).
Proof.
  assert ([30; 10] ≡ₚ [10; 30]) as H by constructor.
  split; [exact H|]. apply (guard_key_dept_order (fun _ => "") dept_param [30; 10] [10; 30]). exact H.
Defined.

(** A float64 parameter is never read back as a number: it is not canonical
    for any field. *)
Lemma float_param_rejected ps key p q :
  ps !! key = Some p -> tp_Value p = VFloat64 q ->
  extractParamInt ps key = None /\ extractParamUint ps key = None.
Proof.
  intros Hp Hq. unfold extractParamInt, extractParamUint, trustedParamConcreteValue.
  rewrite Hp. cbn. rewrite Hq. unfold canonicalTrustedParamValue, nonempty_string, positive_int.
  by repeat case_match.
Qed.
