(* ===== verification/Policy.v ===== *)
(** * The policy gates

    internal/agent/policy_gate.go: the pre-resolution gate over the untrusted
    draft ([prePolicyGate.Validate]) and the resource gate over the resolved
    request ([resourcePolicyGate.Validate]), with [protocolWorkflowContext] and
    [hasMissingField] of protocol_compiler.go. *)
From Stdlib Require Import ZArith QArith Lia Bool String.
From stdpp Require Import base list strings gmap.
From S2P Require Import Prelude GoStrings Contract Codec Catalog Request.

Open Scope Z_scope.

Definition lowConfidenceWriteThreshold : Q := 3 # 4.
Definition low_confidence (c : Q) : bool := negb (Qle_bool lowConfidenceWriteThreshold c).

Record ProtocolValidationResult := mkValidation {
  pv_AllowExecution : bool;
  pv_ValidationCode : string;
  pv_UseActiveWorkflow : bool;
  pv_InterruptActiveWorkflow : bool;
  pv_ResponseKind : string
}.

Record protocolWorkflowContext := mkWorkflowContext {
  wc_Type : string;
  wc_State : string;
  wc_MissingFields : list string;
  wc_Candidates : gmap string (list Candidate);
  wc_CollectedLabels : gmap string string
}.

Record PrePolicyGateInput := mkPreInput {
  pi_Draft : ProtocolDraft;
  pi_ActiveWorkflow : option protocolWorkflowContext;
  pi_ConversationType : string;
  pi_UserRole : Z;
  pi_HasUserContext : bool
}.

(** A result that does not allow execution. *)
Definition deny_validation (code : string) (use interrupt : bool) (kind : string)
  : ProtocolValidationResult := mkValidation false code use interrupt kind.

Definition catalogResponseKind (m : OperationManifest) (fallback : string) : string :=
  if negb (eqs (rn_Kind (om_Renderer m)) "") then rn_Kind (om_Renderer m) else fallback.

Definition policyExplicitNewRequest (act : string) : bool :=
  existsb (eqs act) [ActHelp; ActCapabilityQuestion; ActRuleQuestion; ActReadQuery; ActWriteRequest].

Definition workflowAllowsAuxiliaryOperation (workflowType operation : string) : bool :=
  match lookupOperation workflowType with
  | Some m => match om_Workflow m with
              | Some w => existsb (fun a => eqs a operation) (ws_AuxiliaryOperations w)
              | None => false
              end
  | None => false
  end.

Definition hasMissingField (fields : list string) (target : string) : bool :=
  existsb (fun f => eqs f target) fields.
Definition workflowParamMissingAliases (param : string) : list string :=
  if eqs param "dept_ids" then ["dept_names"] else [].
Definition workflowHasMissingParam (fields : list string) (param : string) : bool :=
  hasMissingField fields param
  || existsb (hasMissingField fields) (workflowParamMissingAliases param).

Definition workflowContinueTargetsActiveWorkflow (operation workflowType : string) : bool :=
  eqs operation workflowType || workflowAllowsAuxiliaryOperation workflowType operation.

Definition workflowContinueShapeAllowed (operation : string) (workflow : option protocolWorkflowContext)
  : bool :=
  match workflow with
  | None => false
  | Some w =>
      if workflowAllowsAuxiliaryOperation (wc_Type w) operation then true
      else if negb (eqs operation (wc_Type w)) then false
      else match lookupOperation (wc_Type w) with
           | Some m => match om_Workflow m with
                       | Some ws => existsb (fun p => workflowHasMissingParam (wc_MissingFields w)
                                                        (param_Name p))
                                      (ws_RequiredTrustedParams ws)
                       | None => false
                       end
           | None => false
           end
  end.

Definition conversationScopeAllowed (scope conversationType : string) : bool :=
  if eqs scope ConversationScopeBoth || eqs scope "" then true
  else if eqs scope ConversationScopeGroup then eqs (trim_space conversationType) "2"
  else if eqs scope ConversationScopeDM then negb (eqs (trim_space conversationType) "2")
  else false.

(** [Some result] when the user is denied. *)
Definition enforcePreUserPolicy (input : PrePolicyGateInput) (m : OperationManifest) (interrupt : bool)
  : option ProtocolValidationResult :=
  if negb (pi_HasUserContext input) then None
  else if negb (conversationScopeAllowed (om_Scope m) (pi_ConversationType input)) then
    Some (deny_validation "conversation_scope_denied" false interrupt ResponseRefuse)
  else if pi_UserRole input <? om_MinRole m then
    Some (deny_validation "role_denied" false interrupt ResponseRefuse)
  else None.

Definition use_active (r : ProtocolValidationResult) : ProtocolValidationResult :=
  mkValidation (pv_AllowExecution r) (pv_ValidationCode r) true (pv_InterruptActiveWorkflow r)
    (pv_ResponseKind r).

Definition validateWorkflowContinue (input : PrePolicyGateInput) : ProtocolValidationResult :=
  let draft := pi_Draft input in
  match pi_ActiveWorkflow input with
  | None => deny_validation "workflow_missing" false false ResponseClarify
  | Some aw =>
      if negb (workflowContinueTargetsActiveWorkflow (draft_Operation draft) (wc_Type aw)) then
        deny_validation "workflow_operation_mismatch" true false ResponseRefuse
      else match lookupOperation (draft_Operation draft) with
      | None => deny_validation "operation_not_allowed" true false ResponseRefuse
      | Some m =>
          if negb (eqs (draft_Domain draft) (om_Domain m)) then
            deny_validation "domain_operation_mismatch" true false ResponseRefuse
          else if negb (workflowContinueShapeAllowed (draft_Operation draft) (Some aw)) then
            deny_validation "workflow_operation_mismatch" true false ResponseRefuse
          else match enforcePreUserPolicy input m false with
          | Some result => use_active result
          | None => mkValidation true "workflow_continue_allowed" true false
                      (catalogResponseKind m ResponseResult)
          end
      end
  end.

(** [prePolicyGate.Validate] *)
Definition Validate_pre (input : PrePolicyGateInput) : ProtocolValidationResult :=
  let draft := pi_Draft input in
  let act := draft_Act draft in
  if eqs act ActUnknown then deny_validation "unknown_intent" false false ResponseClarify
  else if eqs act ActWorkflowContinue then validateWorkflowContinue input
  else if eqs act ActWorkflowCancel then
    match pi_ActiveWorkflow input with
    | None => deny_validation "workflow_missing" false false ResponseClarify
    | Some _ => deny_validation "workflow_cancel_non_executable" true false ResponseResult
    end
  else
    let interrupt := bool_decide (is_Some (pi_ActiveWorkflow input)) && policyExplicitNewRequest act in
    match lookupOperation (draft_Operation draft) with
    | None =>
        deny_validation "operation_not_allowed" false
          (if eqs act ActWriteRequest && low_confidence (draft_Confidence draft) then false
           else interrupt) ResponseRefuse
    | Some m =>
        let responseKind := catalogResponseKind m ResponseResult in
        if negb (eqs (draft_Domain draft) (om_Domain m)) then
          deny_validation "domain_operation_mismatch" false interrupt ResponseRefuse
        else if eqs act ActReadQuery && om_IsWrite m then
          deny_validation "read_query_cannot_write" false interrupt ResponseRefuse
        else if eqs act ActWriteRequest && negb (om_IsWrite m) then
          deny_validation "write_request_cannot_read" false interrupt ResponseRefuse
        else if negb (actAllowed act (om_AllowedActs m)) then
          deny_validation "act_operation_mismatch" false interrupt ResponseRefuse
        else if eqs act ActCapabilityQuestion then
          match enforcePreUserPolicy input m interrupt with
          | Some result => result
          | None => match om_Capability m with
                    | None => deny_validation "act_operation_mismatch" false false ResponseRefuse
                    | Some _ => deny_validation "capability_non_executable" false interrupt responseKind
                    end
          end
        else if eqs act ActRuleQuestion then
          match enforcePreUserPolicy input m interrupt with
          | Some result => result
          | None => deny_validation "rule_non_executable" false interrupt responseKind
          end
        else if eqs act ActHelp then
          match enforcePreUserPolicy input m interrupt with
          | Some result => result
          | None =>
              if bool_decide (om_Capability m = None) || negb (eqs (om_Domain m) DomainSystem)
              then deny_validation "act_operation_mismatch" false false ResponseRefuse
              else deny_validation "help_non_executable" false interrupt responseKind
          end
        else if eqs act ActReadQuery then
          match enforcePreUserPolicy input m interrupt with
          | Some result => result
          | None => mkValidation true "allowed_read_query" false interrupt responseKind
          end
        else if eqs act ActWriteRequest then
          if low_confidence (draft_Confidence draft) then
            deny_validation "low_confidence_write" false false ResponseClarify
          else match enforcePreUserPolicy input m interrupt with
          | Some result => result
          | None => mkValidation true "allowed_write_request" false interrupt responseKind
          end
        else deny_validation "unsupported_act" false false ResponseRefuse
    end.

(** [validateProtocol], [catalogValidator.Validate]: the gate without a user. *)
Definition validateProtocol (draft : ProtocolDraft) (activeWorkflow : option protocolWorkflowContext)
  : ProtocolValidationResult :=
  Validate_pre (mkPreInput draft activeWorkflow "" 0 false).

(** ** The resource gate

    The department port answers [ListDepts]; [None] is a nil port. *)
Record DeptItem := mkDept { dept_DeptID : Z; dept_Name : string; dept_TenantID : Z }.

Record ResourcePolicyGateInput := mkResourceInput {
  ri_User : option UserContext;
  ri_Request : OperationRequest;
  ri_Dept : option (res (list DeptItem))
}.
Record ResourcePolicyGateResult := mkResourceResult {
  rr_Allow : bool; rr_BlockedReason : string; rr_ResponseKind : string }.

Definition denyResourcePolicy (reason : string) : ResourcePolicyGateResult :=
  mkResourceResult false reason ResponseRefuse.

Definition subscriptionOperationRequiresCurrentConversation (operation : string) : bool :=
  match lookupOperation operation with
  | Some m => eqs (om_Domain m) DomainSubscription
              && existsb (fun p => eqs (param_Name p) "conversation_id") (om_RequiredTrustedParams m)
  | None => false
  end.

Definition requestConversationMatchesUser (user : option UserContext) (req : OperationRequest) : bool :=
  match user with
  | None => false
  | Some u =>
      let conversationID := match extractParamString (req_TrustedParams req) "conversation_id" with
                            | Some c => c
                            | None => trim_space (req_ConversationID req)
                            end in
      negb (eqs conversationID "") && eqs conversationID (trim_space (uc_ConversationID u))
  end.

Definition scheduleUserVisible (user : option UserContext) (ps : gmap string TrustedParam) : bool :=
  match user with
  | None => false
  | Some u => match extractParamUint ps "user_id" with
              | None => false
              | Some target => (target =? uc_UserID u) || (1 <=? uc_UserRole u)
              end
  end.

(** The zero [TrustedParam] stands for a missing key. *)
Definition zero_trusted_param : TrustedParam := mkTrustedParam "" VNil (mkSource "" "" "") 0.

Definition candidateDeptParamAllowed (user : option UserContext) (param : TrustedParam) : bool :=
  if negb (eqs (src_Kind (tp_Source param)) TrustedParamSourceCandidate) then false
  else match user with
       | None => negb (tp_TenantID param =? 0)
       | Some u => if uc_TenantID u =? 0 then negb (tp_TenantID param =? 0)
                   else tp_TenantID param =? uc_TenantID u
       end.

(** Departments of another tenant do not count. *)
Definition foreign_dept (user : option UserContext) (d : DeptItem) : bool :=
  match user with
  | Some u => negb (uc_TenantID u =? 0) && negb (dept_TenantID d =? 0)
              && negb (dept_TenantID d =? uc_TenantID u)
  | None => false
  end.

(** [None] is the empty result, with no blocked reason. *)
Definition validateDepartmentScope (input : ResourcePolicyGateInput) : option ResourcePolicyGateResult :=
  let ps := req_TrustedParams (ri_Request input) in
  match extractParamString ps "scope", ri_Dept input with
  | Some scope, Some listDepts =>
      if negb (eqs scope "department") then None
      else match extractParamInt64Slice ps "dept_ids" with
      | None => Some (denyResourcePolicy "department_scope_denied")
      | Some deptIDs =>
          if candidateDeptParamAllowed (ri_User input) (default zero_trusted_param (ps !! "dept_ids"))
          then None
          else match listDepts with
          | Err _ => Some (denyResourcePolicy "department_scope_unverified")
          | Ok depts =>
              let allowed := List.map dept_DeptID
                               (List.filter (fun d => negb (foreign_dept (ri_User input) d)) depts) in
              if forallb (fun i => existsb (Z.eqb i) allowed) deptIDs then None
              else Some (denyResourcePolicy "department_scope_denied")
          end
      end
  | _, _ => None
  end.

(** The switch over one policy of the manifest. *)
Definition enforce_policy (input : ResourcePolicyGateInput) (policy : PolicySpec)
  : option ResourcePolicyGateResult :=
  let req := ri_Request input in
  if eqs (pol_Name policy) "group_conversation" then
    match ri_User input with
    | Some u => if eqs (trim_space (uc_ConversationType u)) "2" then None
                else Some (denyResourcePolicy "group_chat_required")
    | None => Some (denyResourcePolicy "group_chat_required")
    end
  else if eqs (pol_Name policy) "subscription_scope" then
    if negb (subscriptionScopeValid (req_Operation req) (req_TrustedParams req))
    then Some (denyResourcePolicy "subscription_scope_invalid")
    else validateDepartmentScope input
  else if eqs (pol_Name policy) "schedule_user_visibility" then
    if scheduleUserVisible (ri_User input) (req_TrustedParams req) then None
    else Some (denyResourcePolicy "schedule_user_visibility_denied")
  else None.

Fixpoint enforce_policies (input : ResourcePolicyGateInput) (l : list PolicySpec)
  : option ResourcePolicyGateResult :=
  match l with
  | [] => None
  | p :: l' => match enforce_policy input p with
               | Some denied => Some denied
               | None => enforce_policies input l'
               end
  end.

(** [resourcePolicyGate.Validate] *)
Definition Validate_resource (input : ResourcePolicyGateInput) : ResourcePolicyGateResult :=
  let req := ri_Request input in
  match lookupOperation (req_Operation req) with
  | None => denyResourcePolicy "operation_not_allowed"
  | Some m =>
      match enforce_policies input (om_Policies m) with
      | Some denied => denied
      | None =>
          if subscriptionOperationRequiresCurrentConversation (req_Operation req)
             && negb (requestConversationMatchesUser (ri_User input) req)
          then denyResourcePolicy "subscription_conversation_mismatch"
          else mkResourceResult true "" ResponseResult
      end
  end.

(** ** Lemmas *)

Lemma low_confidence_false c : low_confidence c = false <-> (lowConfidenceWriteThreshold <= c)%Q.
Proof. unfold low_confidence. by rewrite negb_false_iff, Qle_bool_iff. Qed.

(** A user in the conversation and with the role the operation asks for. *)
Definition user_admitted (input : PrePolicyGateInput) (m : OperationManifest) : Prop :=
  pi_HasUserContext input = true ->
  conversationScopeAllowed (om_Scope m) (pi_ConversationType input) = true
  /\ om_MinRole m <= pi_UserRole input.

Lemma enforcePreUserPolicy_None input m i :
  enforcePreUserPolicy input m i = None <-> user_admitted input m.
Proof.
  unfold enforcePreUserPolicy, user_admitted.
  destruct (pi_HasUserContext input); cbn; [|split; done].
  destruct (conversationScopeAllowed (om_Scope m) (pi_ConversationType input)); cbn;
    [|split; [done|intros H; by destruct (H eq_refl)]].
  destruct (pi_UserRole input <? om_MinRole m) eqn:E; b2p; [|by split].
  split; [done|]. intros H. destruct (H eq_refl). lia.
Qed.

Lemma enforcePreUserPolicy_denies input m i r :
  enforcePreUserPolicy input m i = Some r -> pv_AllowExecution r = false.
Proof. unfold enforcePreUserPolicy. intros. repeat case_match; by simplify_eq. Qed.

Lemma enforce_or_deny input m i k :
  pv_AllowExecution k = false ->
  pv_AllowExecution match enforcePreUserPolicy input m i with Some r => r | None => k end = false.
Proof.
  intros Hk. destruct (enforcePreUserPolicy input m i) eqn:Hp; [|done].
  by apply enforcePreUserPolicy_denies in Hp.
Qed.

(** The turns whose draft may go on to entity resolution and execution. *)
Inductive allowed_turn (input : PrePolicyGateInput) : Prop :=
  | allowed_continue aw m :
      draft_Act (pi_Draft input) = ActWorkflowContinue ->
      pi_ActiveWorkflow input = Some aw ->
      workflowContinueTargetsActiveWorkflow (draft_Operation (pi_Draft input)) (wc_Type aw) = true ->
      lookupOperation (draft_Operation (pi_Draft input)) = Some m ->
      draft_Domain (pi_Draft input) = om_Domain m ->
      workflowContinueShapeAllowed (draft_Operation (pi_Draft input)) (Some aw) = true ->
      user_admitted input m -> allowed_turn input
  | allowed_read m :
      draft_Act (pi_Draft input) = ActReadQuery ->
      lookupOperation (draft_Operation (pi_Draft input)) = Some m ->
      draft_Domain (pi_Draft input) = om_Domain m ->
      om_IsWrite m = false -> ActReadQuery ∈ om_AllowedActs m ->
      user_admitted input m -> allowed_turn input
  | allowed_write m :
      draft_Act (pi_Draft input) = ActWriteRequest ->
      lookupOperation (draft_Operation (pi_Draft input)) = Some m ->
      draft_Domain (pi_Draft input) = om_Domain m ->
      om_IsWrite m = true -> ActWriteRequest ∈ om_AllowedActs m ->
      (lowConfidenceWriteThreshold <= draft_Confidence (pi_Draft input))%Q ->
      user_admitted input m -> allowed_turn input.

Lemma validateWorkflowContinue_allows input :
  draft_Act (pi_Draft input) = ActWorkflowContinue ->
  pv_AllowExecution (validateWorkflowContinue input) = true <-> allowed_turn input.
Proof.
  intros Hact. unfold validateWorkflowContinue. split.
  - intros H. destruct (pi_ActiveWorkflow input) as [aw|] eqn:Ha; [|done].
    case_if_in H; [done|]. destruct (lookupOperation _) as [m|] eqn:Hm; [|done].
    case_if_in H; [done|]. case_if_in H; [done|].
    destruct (enforcePreUserPolicy input m false) as [r|] eqn:Hp.
    { apply enforcePreUserPolicy_denies in Hp. cbn in H. congruence. }
    apply enforcePreUserPolicy_None in Hp. rewrite negb_false_iff, ?eqs_true in *.
    by eapply allowed_continue.
  - intros [aw m _ Ha Ht Hm Hd Hs Hu|m Ha|m Ha]; [|by rewrite Hact in Ha..].
    rewrite Ha, Ht, Hm, Hd. cbn -[workflowContinueShapeAllowed].
    rewrite (proj2 (eqs_true _ _) eq_refl), Hs. cbn.
    by rewrite (proj2 (enforcePreUserPolicy_None input m false) Hu).
Qed.

Lemma enforce_policies_None input l :
  enforce_policies input l = None <-> forall p, p ∈ l -> enforce_policy input p = None.
Proof.
  induction l as [|p l IH]; cbn; [split; [by intros _ p ?%elem_of_nil|done]|].
  destruct (enforce_policy input p) eqn:E.
  - split; [done|]. intros H. rewrite H in E; [done|left].
  - rewrite IH. split; [|intros H q Hq; apply H; by right].
    intros H q [->|Hq]%elem_of_cons; auto.
Qed.

Lemma enforce_policies_denies input l r : enforce_policies input l = Some r -> rr_Allow r = false.
Proof.
  induction l as [|p l IH]; cbn; [done|].
  destruct (enforce_policy input p) as [r'|] eqn:E; [|done]. intros [= <-].
  unfold enforce_policy, validateDepartmentScope, denyResourcePolicy in E.
  by repeat case_match; simplify_eq.
Qed.

Lemma resource_allowed input m :
  lookupOperation (req_Operation (ri_Request input)) = Some m ->
  rr_Allow (Validate_resource input) = true <->
  (forall p, p ∈ om_Policies m -> enforce_policy input p = None)
  /\ (subscriptionOperationRequiresCurrentConversation (req_Operation (ri_Request input)) = true ->
      requestConversationMatchesUser (ri_User input) (ri_Request input) = true).
Proof.
  intros Hm. rewrite <- enforce_policies_None.
  unfold Validate_resource. rewrite Hm.
  destruct (enforce_policies input (om_Policies m)) as [r|] eqn:Hd.
  { apply enforce_policies_denies in Hd. split; [congruence|by intros []]. }
  destruct (subscriptionOperationRequiresCurrentConversation _),
    (requestConversationMatchesUser _ _); cbn; naive_solver.
Qed.

(** The shipped write operations are subscription operations that take the
    conversation and are limited to group conversations. *)
Definition write_in_group (m : OperationManifest) : bool :=
  negb (om_IsWrite m)
  || (existsb (fun p => eqs (pol_Name p) "group_conversation") (om_Policies m)
      && eqs (om_Domain m) DomainSubscription
      && existsb (fun p => eqs (param_Name p) "conversation_id") (om_RequiredTrustedParams m)).

Lemma shipped_write_in_group name m :
  lookupOperation name = Some m -> om_IsWrite m = true ->
  mkPolicy "group_conversation" ∈ om_Policies m
  /\ subscriptionOperationRequiresCurrentConversation name = true.
Proof.
  intros Hm Hw.
  assert (write_in_group m = true) as H by (eapply lookupOperation_forallb; [reflexivity|exact Hm]).
  unfold write_in_group in H. rewrite Hw in H. cbn -[eqs] in H. b2p.
  unfold subscriptionOperationRequiresCurrentConversation. rewrite Hm. split; [|by apply andb_true_iff].
  apply existsb_elem in H as ([n] & Hin & Hn%eqs_true). cbn in Hn. by subst n.
Qed.

(** ** Properties *)

(** The pre-resolution gate allows execution exactly for three kinds of
    turns: a continuation of the active workflow that targets it (or one of
    its auxiliary operations) and answers a missing slot, a read query for a
    read operation of its domain, and a write request of at least 0.75
    confidence for a write operation of its domain; in each case the
    conversation type and the role of a known user must satisfy the manifest. *)
Theorem pre_policy_allows input :
  pv_AllowExecution (Validate_pre input) = true <-> allowed_turn input.
Proof.
  unfold Validate_pre.
  destruct (eqs (draft_Act (pi_Draft input)) ActUnknown) eqn:E1.
  { apply eqs_true in E1. split; [done|]. by intros []; rewrite E1 in *. }
  destruct (eqs (draft_Act (pi_Draft input)) ActWorkflowContinue) eqn:E2.
  { apply eqs_true in E2. by apply validateWorkflowContinue_allows. }
  destruct (eqs (draft_Act (pi_Draft input)) ActWorkflowCancel) eqn:E3.
  { apply eqs_true in E3. split; [by case_match|]. by intros []; rewrite E3 in *. }
  split.
  - intros H. destruct (lookupOperation _) as [m|] eqn:Hm; [|done].
    destruct (eqs (draft_Domain (pi_Draft input)) (om_Domain m)) eqn:Hd; cbn in H; [|done].
    apply eqs_true in Hd.
    destruct (eqs (draft_Act (pi_Draft input)) ActReadQuery && om_IsWrite m) eqn:Hr; [done|].
    destruct (eqs (draft_Act (pi_Draft input)) ActWriteRequest && negb (om_IsWrite m)) eqn:Hw; [done|].
    destruct (actAllowed (draft_Act (pi_Draft input)) (om_AllowedActs m)) eqn:Hal; cbn in H; [|done].
    apply existsb_eqs in Hal.
    destruct (eqs (draft_Act (pi_Draft input)) ActCapabilityQuestion).
    { rewrite enforce_or_deny in H; [done|]. by destruct (om_Capability m). }
    destruct (eqs (draft_Act (pi_Draft input)) ActRuleQuestion).
    { by rewrite enforce_or_deny in H. }
    destruct (eqs (draft_Act (pi_Draft input)) ActHelp).
    { rewrite enforce_or_deny in H; [done|]. by case_if. }
    destruct (eqs (draft_Act (pi_Draft input)) ActReadQuery) eqn:Er.
    { apply eqs_true in Er. rewrite Er in Hal.
      destruct (enforcePreUserPolicy input m _) eqn:Hp.
      { apply enforcePreUserPolicy_denies in Hp. congruence. }
      apply enforcePreUserPolicy_None in Hp. by eapply allowed_read. }
    destruct (eqs (draft_Act (pi_Draft input)) ActWriteRequest) eqn:Ew; [|done].
    apply eqs_true in Ew. rewrite Ew in Hal.
    destruct (low_confidence (draft_Confidence (pi_Draft input))) eqn:Hc; [done|].
    apply low_confidence_false in Hc.
    destruct (enforcePreUserPolicy input m _) eqn:Hp.
    { apply enforcePreUserPolicy_denies in Hp. congruence. }
    apply enforcePreUserPolicy_None in Hp. cbn in Hw. apply negb_false_iff in Hw.
    by eapply allowed_write.
  - intros [aw m Ha|m Ha Hm Hd Hwr Hal Hu|m Ha Hm Hd Hwr Hal Hc Hu].
    + by rewrite Ha in E2.
    + rewrite Ha, Hm, Hd, Hwr, (proj2 (eqs_true _ _) eq_refl). eqs_red.
      unfold actAllowed. rewrite (proj2 (existsb_eqs _ _) Hal). cbn.
      by rewrite (proj2 (enforcePreUserPolicy_None input m _) Hu).
    + rewrite Ha, Hm, Hd, Hwr, (proj2 (eqs_true _ _) eq_refl). eqs_red.
      unfold actAllowed. rewrite (proj2 (existsb_eqs _ _) Hal), (proj2 (low_confidence_false _) Hc). cbn.
      by rewrite (proj2 (enforcePreUserPolicy_None input m _) Hu).
Qed.

(** The departments the request names, and those the port lists for the
    user's tenant. *)
Definition dept_allowed (input : ResourcePolicyGateInput) (d : Z) : Prop :=
  candidateDeptParamAllowed (ri_User input)
    (default zero_trusted_param (req_TrustedParams (ri_Request input) !! "dept_ids")) = true
  \/ exists depts item, ri_Dept input = Some (Ok depts) /\ item ∈ depts
       /\ dept_DeptID item = d /\ foreign_dept (ri_User input) item = false.

Lemma department_scope_allowed input ids :
  validateDepartmentScope input = None ->
  extractParamString (req_TrustedParams (ri_Request input)) "scope" = Some "department" ->
  extractParamInt64Slice (req_TrustedParams (ri_Request input)) "dept_ids" = Some ids ->
  ri_Dept input <> None -> Forall (dept_allowed input) ids.
Proof.
  unfold validateDepartmentScope, dept_allowed. intros H Hs Hids Hd. revert H. rewrite Hs, Hids.
  destruct (ri_Dept input) as [ld|]; [|done]. eqs_red. cbn [negb].
  destruct (candidateDeptParamAllowed _ _); [intros _; apply Forall_forall; by left|].
  destruct ld as [depts|]; [|done].
  case_if; [|done]. intros _. rewrite forallb_forall in E. apply Forall_forall. intros d Hin.
  right. apply list_elem_of_In, E, existsb_elem in Hin as (x & Hx & ->%Z.eqb_eq).
  apply list_elem_of_In, in_map_iff in Hx as (item & <- & [Hi Hf]%filter_In).
  exists depts, item. split_and!; [done|by apply list_elem_of_In|done|by apply negb_true_iff].
Qed.

(** A write the gate lets through is in the group conversation of its user. *)
Lemma resource_write_in_group input m :
  lookupOperation (req_Operation (ri_Request input)) = Some m ->
  rr_Allow (Validate_resource input) = true -> om_IsWrite m = true ->
  exists u, ri_User input = Some u /\ trim_space (uc_ConversationType u) = "2"
    /\ requestConversationMatchesUser (Some u) (ri_Request input) = true.
Proof.
  intros Hm Ha Hw. apply (resource_allowed input m Hm) in Ha as [Hp Hc].
  destruct (shipped_write_in_group _ _ Hm Hw) as [Hg Hr].
  specialize (Hp _ Hg). specialize (Hc Hr). unfold enforce_policy in Hp. cbn -[eqs] in Hp.
  revert Hp. eqs_red. destruct (ri_User input) as [u|]; [|done]. case_if; [|done]. intros _.
  exists u. apply eqs_true in E. done.
Qed.

(** C39: A request the resource gate lets through can only write in the group
    conversation of its user; a subscription start has a valid scope, whose
    departments the department port lists for the user's tenant unless they
    were chosen from a stored candidate of that tenant; and another user's
    schedule is only shown to an administrator. *)
Theorem resource_gate_safe input m :
  lookupOperation (req_Operation (ri_Request input)) = Some m ->
  rr_Allow (Validate_resource input) = true ->
  (om_IsWrite m = true ->
   exists u, ri_User input = Some u /\ trim_space (uc_ConversationType u) = "2"
     /\ requestConversationMatchesUser (Some u) (ri_Request input) = true)
  /\ (om_Name m = "subscription.start" ->
      subscriptionScopeValid "subscription.start" (req_TrustedParams (ri_Request input)) = true
      /\ forall ids, extractParamString (req_TrustedParams (ri_Request input)) "scope" = Some "department" ->
         extractParamInt64Slice (req_TrustedParams (ri_Request input)) "dept_ids" = Some ids ->
         ri_Dept input <> None -> Forall (dept_allowed input) ids)
  /\ (om_Name m = "schedule.query_user_schedule" ->
      exists u target, ri_User input = Some u
        /\ extractParamUint (req_TrustedParams (ri_Request input)) "user_id" = Some target
        /\ (target = uc_UserID u \/ 1 <= uc_UserRole u)).
Proof.
  intros Hm Ha. pose proof (resource_write_in_group input m Hm Ha) as Hg.
  apply (resource_allowed input m Hm) in Ha as [Hp Hc].
  pose proof (lookupOperation_name _ _ Hm) as Hn. split_and!; [exact Hg|..].
  - intros Hs. rewrite Hs in Hn. rewrite <- Hn in Hm. injection Hm as <-.
    assert (enforce_policy input (mkPolicy "subscription_scope") = None) as Hv.
    { apply Hp. right; right; left. }
    revert Hv. unfold enforce_policy. cbn -[eqs]. eqs_red. rewrite <- Hn. case_if; [done|]. intros Hv.
    apply negb_false_iff in E. split; [done|]. intros ids. by apply department_scope_allowed.
  - intros Hs. rewrite Hs in Hn. rewrite <- Hn in Hm. injection Hm as <-.
    assert (enforce_policy input (mkPolicy "schedule_user_visibility") = None) as Hv.
    { apply Hp. right; left. }
    revert Hv. unfold enforce_policy, scheduleUserVisible. cbn -[eqs]. eqs_red.
    destruct (ri_User input) as [u|]; [|done].
    destruct (extractParamUint _ _) as [t|]; [|done].
    case_if; [|done]. intros _. exists u, t. split_and!; [done..|].
    apply orb_true_iff in E as [?%Z.eqb_eq|?%Z.leb_le]; tauto.
Qed.

Definition start_all_request : OperationRequest :=
  mkOperationRequest "subscription.start" 7 42 "cid-1"
    (<["scope" := trustedParam "scope" (VString "all") 7 (mkSource "workflow" "" "subscription_scope")]>
     (<["conversation_id" := trustedParam "conversation_id" (VString "cid-1") 7
          (mkSource "runtime" "" "conversation_runtime")]> ∅)) "".

Lemma resource_gate_safe_witness :
  exists u, Some group_admin = Some u /\ trim_space (uc_ConversationType u) = "2".
Proof.
  destruct (resource_gate_safe (mkResourceInput (Some group_admin) start_all_request None)
              op_subscription_start) as [H _]; [reflexivity|reflexivity|].
  destruct (H eq_refl) as (u & Hu & Ht & _). exists u. split; [exact Hu|exact Ht].
Defined.
