(* ===== verification/Workflow.v ===== *)
(** * The workflow engine and the arbiters

    internal/agent/workflow_engine.go (multi-turn subscription and manual sign
    workflows), [WorkflowArbiter] of workflow_store.go (what a turn does to the
    active workflow) and operation_arbiter.go (which of the recognised
    candidates the turn is about).

    [continueWorkflow] takes the snapshot by value but shares the map of its
    trusted parameters with the caller, who passes a snapshot it owns; the
    model returns the updated snapshot. *)
From Stdlib Require Import ZArith QArith Lia Bool String.
From stdpp Require Import base list strings gmap sets.
From S2P Require Import Prelude GoStrings GoTime Contract Codec Catalog Store Request Policy.

Open Scope Z_scope.

(** ** workflow_engine.go *)

(** [unixNano] is [time.Now().UnixNano()]. *)
Definition startWorkflow (unixNano : Z) (draft : ProtocolDraft) : option WorkflowSnapshot :=
  if eqs (draft_Operation draft) (workflowPrimaryOperationName WorkflowSubscriptionStart) then
    Some (mkSnapshot ("wf-" +:+ itoa unixNano) 0 0 "" WorkflowSubscriptionStart WorkflowCollectScope
            ["scope"] ∅ ∅ "" 0 0 0 0 ["scope"] no_trusted)
  else None.

(** Field updates of the trusted state. *)
Definition te_with_scope (s : string) (t : trustedEntities) : trustedEntities :=
  mkTrusted (te_TenantID t) (te_DepartmentID t) (te_DeptIDs t) (te_UserID t) (te_UserName t)
    (te_Date t) (te_Section t) (te_Week t) (te_ConversationID t) s (te_QueryShape t) (te_UserRole t)
    (te_TrustedParams t).
Definition te_with_depts (d : Z) (l : list Z) (t : trustedEntities) : trustedEntities :=
  mkTrusted (te_TenantID t) d l (te_UserID t) (te_UserName t)
    (te_Date t) (te_Section t) (te_Week t) (te_ConversationID t) (te_Scope t) (te_QueryShape t)
    (te_UserRole t) (te_TrustedParams t).
Definition te_with_params (ps : gmap string TrustedParam) (t : trustedEntities) : trustedEntities :=
  mkTrusted (te_TenantID t) (te_DepartmentID t) (te_DeptIDs t) (te_UserID t) (te_UserName t)
    (te_Date t) (te_Section t) (te_Week t) (te_ConversationID t) (te_Scope t) (te_QueryShape t)
    (te_UserRole t) ps.
Definition te_with_slots (user : Z) (name date : string) (section : Z) (t : trustedEntities)
  : trustedEntities :=
  mkTrusted (te_TenantID t) (te_DepartmentID t) (te_DeptIDs t) user name date section
    (te_Week t) (te_ConversationID t) (te_Scope t) (te_QueryShape t) (te_UserRole t)
    (te_TrustedParams t).

(** Entries of [ps] replace those of [dst]. *)
Definition mergeTrustedParams (ps : gmap string TrustedParam) (dst : trustedEntities) : trustedEntities :=
  te_with_params (ps ∪ te_TrustedParams dst) dst.

Definition isExplicitNewRequest (act : string) : bool :=
  existsb (eqs act) [ActCapabilityQuestion; ActRuleQuestion; ActReadQuery; ActWriteRequest; ActHelp].

Definition workflowMissingSlots (t : trustedEntities) : list string :=
  (if te_UserID t =? 0 then ["user_id"] else [])
  ++ (if eqs (te_Date t) "" then ["date"] else [])
  ++ (if te_Section t =? 0 then ["section"] else []).

Definition nextManualSignState (slot : string) : string :=
  if eqs slot "user_id" then WorkflowCollectUser
  else if eqs slot "date" then WorkflowCollectDate
  else if eqs slot "section" then WorkflowCollectSection
  else WorkflowCollectUser.

(** The snapshot [workflow] with the trusted state [t], in [state], missing
    [fields]. *)
Definition advance (t : trustedEntities) (state : string) (fields : list string)
  (workflow : WorkflowSnapshot) : WorkflowSnapshot :=
  setWorkflowMissingFields fields (with_state state (with_trusted t workflow)).
Definition result_of (d : WorkflowDecision) (w : WorkflowSnapshot) : WorkflowResult :=
  mkWorkflowResult d (Some w).

Definition resolved_depts (trusted : trustedEntities) : list Z :=
  match te_DeptIDs trusted with
  | [] => if negb (te_DepartmentID trusted =? 0) then [te_DepartmentID trusted] else []
  | l => l
  end.

(** The scope parameter collected earlier is overwritten with the new scope. *)
Definition refresh_scope_param (trusted : trustedEntities) (t : trustedEntities)
  : gmap string TrustedParam :=
  match te_TrustedParams t !! "scope" with
  | None => te_TrustedParams t
  | Some p =>
      let tenant := if tp_TenantID p =? 0 then
                      (if te_TenantID trusted =? 0 then te_TenantID t else te_TenantID trusted)
                    else tp_TenantID p in
      <["scope" := mkTrustedParam "scope" (VString (te_Scope trusted)) (tp_Source p) tenant]>
        (te_TrustedParams t)
  end.

Definition continueSubscriptionWorkflow (workflow : WorkflowSnapshot) (draft : ProtocolDraft)
  (trusted : trustedEntities) : WorkflowResult :=
  let t := wf_Trusted workflow in
  if eqs (draft_Operation draft)
       (workflowAuxiliaryOperationName WorkflowSubscriptionStart ExecutorBindingSubscriptionListDepartments)
     && eqs (wf_State workflow) WorkflowCollectDepartments
  then result_of WorkflowMetaResult workflow
  else if negb (eqs (draft_Operation draft) (workflowPrimaryOperationName WorkflowSubscriptionStart))
  then result_of WorkflowRejectInvalidShape workflow
  else if eqs (wf_State workflow) WorkflowCollectScope then
    if eqs (te_Scope trusted) "all" then
      result_of WorkflowReadyToExecute
        (advance (mergeTrustedParams (te_TrustedParams trusted) (te_with_scope (te_Scope trusted) t))
           WorkflowReady [] workflow)
    else if eqs (te_Scope trusted) "department" then
      let t1 := mergeTrustedParams (te_TrustedParams trusted) (te_with_scope (te_Scope trusted) t) in
      match resolved_depts trusted with
      | (d :: _) as deptIDs =>
          result_of WorkflowReadyToExecute (advance (te_with_depts d deptIDs t1) WorkflowReady [] workflow)
      | [] =>
          result_of WorkflowContinueDecision
            (advance t1 WorkflowCollectDepartments ["dept_names"] workflow)
      end
    else result_of WorkflowRejectInvalidShape workflow
  else if eqs (wf_State workflow) WorkflowCollectDepartments then
    if eqs (te_Scope trusted) "all" then
      let t1 := mergeTrustedParams (te_TrustedParams trusted) (te_with_scope (te_Scope trusted) t) in
      let t2 := te_with_params (refresh_scope_param trusted t1) t1 in
      let t3 := te_with_depts 0 [] t2 in
      let t4 := te_with_params (delete "dept_ids" (te_TrustedParams t3)) t3 in
      result_of WorkflowReadyToExecute (advance t4 WorkflowReady [] workflow)
    else match resolved_depts trusted with
      | [] => result_of WorkflowRejectInvalidShape workflow
      | (d :: _) as deptIDs =>
          result_of WorkflowReadyToExecute
            (advance (mergeTrustedParams (te_TrustedParams trusted) (te_with_depts d deptIDs t))
               WorkflowReady [] workflow)
      end
  else result_of WorkflowRejectInvalidShape workflow.

Definition continueManualSignWorkflow (workflow : WorkflowSnapshot) (trusted : trustedEntities)
  : WorkflowResult :=
  let t := wf_Trusted workflow in
  let t1 := mergeTrustedParams (te_TrustedParams trusted)
              (te_with_slots
                 (if te_UserID trusted =? 0 then te_UserID t else te_UserID trusted)
                 (if eqs (te_UserName trusted) "" then te_UserName t else te_UserName trusted)
                 (if eqs (te_Date trusted) "" then te_Date t else te_Date trusted)
                 (if te_Section trusted =? 0 then te_Section t else te_Section trusted) t) in
  match workflowMissingSlots t1 with
  | [] => result_of WorkflowReadyToExecute (advance t1 WorkflowReady [] workflow)
  | (slot :: _) as missing =>
      result_of WorkflowContinueDecision (advance t1 (nextManualSignState slot) missing workflow)
  end.

Definition continueWorkflow (workflow : WorkflowSnapshot) (draft : ProtocolDraft)
  (trusted : trustedEntities) : WorkflowResult :=
  if eqs (draft_Act draft) ActWorkflowCancel then
    result_of WorkflowCanceled (setWorkflowMissingFields [] (with_state WorkflowCancelled workflow))
  else if isExplicitNewRequest (draft_Act draft) then
    result_of WorkflowInterrupted
      (setWorkflowMissingFields [] (with_state WorkflowInterruptedState workflow))
  else if eqs (wf_Type workflow) WorkflowSubscriptionStart then
    continueSubscriptionWorkflow workflow draft trusted
  else if eqs (wf_Type workflow) WorkflowManualSignCreate then
    continueManualSignWorkflow workflow trusted
  else result_of WorkflowRejectInvalidShape workflow.

Definition completeWorkflow (workflow : WorkflowSnapshot) : WorkflowResult :=
  result_of WorkflowCompletedDecision
    (setWorkflowMissingFields [] (with_state WorkflowCompleted workflow)).

#[global] Instance WorkflowDecision_eq_dec : EqDecision WorkflowDecision.
Proof. solve_decision. Defined.

(** [interruptActiveWorkflow], without the session it also updates *)
Definition interruptActiveWorkflow (workflow : option WorkflowSnapshot) (draft : ProtocolDraft)
  : WorkflowResult :=
  match workflow with
  | None => mkWorkflowResult WorkflowInterrupted None
  | Some w =>
      let result := continueWorkflow w draft no_trusted in
      if bool_decide (wr_Decision result = WorkflowInterrupted) then result
      else result_of WorkflowInterrupted
             (setWorkflowMissingFields [] (with_state WorkflowInterruptedState (cloneWorkflowSnapshot w)))
  end.

(** ** [WorkflowArbiter] *)

Record WorkflowArbiterResult := mkArbiterResult {
  ar_Decision : WorkflowDecision;
  ar_ActiveWorkflow : option WorkflowSnapshot;
  ar_ClearWorkflow : bool;
  ar_Expired : bool;
  ar_Reason : string
}.

Definition workflowDecisionWithoutActiveWorkflow (draft : ProtocolDraft) : WorkflowDecision :=
  if eqs (draft_Act draft) ActWriteRequest then
    match lookupOperation (draft_Operation draft) with
    | Some m => match om_Workflow m with
                | Some w => if eqs (ws_Mode w) WorkflowModeMultiTurn then WorkflowStartNew
                            else WorkflowSingleTurn
                | None => WorkflowSingleTurn
                end
    | None => WorkflowSingleTurn
    end
  else WorkflowSingleTurn.

(** [WorkflowArbiter.Decide] at the time [now] *)
Definition Decide_workflow (draft : ProtocolDraft) (activeWorkflow : option WorkflowSnapshot) (now : Z)
  : WorkflowArbiterResult :=
  match cloneWorkflowSnapshot <$> activeWorkflow with
  | None => mkArbiterResult (workflowDecisionWithoutActiveWorkflow draft) None false false ""
  | Some active =>
      if workflowExpired active now then
        mkArbiterResult (workflowDecisionWithoutActiveWorkflow draft) None true true "workflow_expired"
      else if eqs (draft_Act draft) ActWorkflowCancel then
        mkArbiterResult WorkflowCanceled (Some active) true false "workflow_cancel"
      else if eqs (draft_Act draft) ActWorkflowContinue then
        mkArbiterResult WorkflowContinueDecision (Some active) false false ""
      else if policyExplicitNewRequest (draft_Act draft) then
        mkArbiterResult WorkflowInterrupted (Some active) true false "new_request"
      else mkArbiterResult WorkflowContinueDecision (Some active) false false ""
  end.

(** ** operation_arbiter.go *)

Definition OperationCandidateSourceLLM : string := "llm".
Definition OperationCandidateSourceCatalogAlias : string := "catalog_alias".
Definition OperationCandidateSourceWorkflowSlot : string := "workflow_slot".
Definition OperationCandidateSourceWorkflowCtrl : string := "workflow_control".
Definition OperationCandidateSourceLegacy : string := "legacy_deterministic".

Definition MatchExactAlias : string := "exact_alias".
Definition MatchContainedAlias : string := "contained_alias".
Definition MatchExactWorkflowControl : string := "exact_workflow_control".
Definition MatchExactCandidate : string := "exact_candidate".
Definition MatchStructuredSlot : string := "structured_slot".
Definition MatchLegacyRule : string := "legacy_rule".
Definition MatchLLM : string := "llm".

Record OperationCandidate := mkCandidateOp {
  oc_Draft : ProtocolDraft;
  oc_Source : string;
  oc_MatchKind : string;
  oc_ShortCircuit : bool;
  oc_Confidence : Q;
  oc_Evidence : string
}.

Inductive OperationArbiterDecisionKind : Type :=
  | DecisionUnknown | DecisionNewOperation | DecisionWorkflowContinue
  | DecisionWorkflowAuxiliary | DecisionWorkflowCancel | DecisionAmbiguous.

Record OperationArbiterDecision := mkDecision {
  ad_Kind : OperationArbiterDecisionKind;
  ad_Draft : ProtocolDraft;
  ad_Source : string;
  ad_InterruptWorkflow : bool;
  ad_Reason : string
}.

Definition unknownIntentDraft (reason : string) : IntentDraft :=
  mkIntentDraft ActUnknown DomainUnknown "" 0 ∅ reason ∅ [] reason.
(** [ProtocolDraft{Act: ActUnknown, Domain: DomainUnknown, ClarifyReason: "unknown_intent"}] *)
Definition unknown_draft : ProtocolDraft :=
  mkIntentDraft ActUnknown DomainUnknown "" 0 ∅ "" ∅ [] "unknown_intent".

Definition operationCandidateRank (c : OperationCandidate) : Z :=
  let k := oc_MatchKind c in
  if existsb (eqs k) [MatchExactAlias; MatchExactWorkflowControl; MatchExactCandidate] then 100
  else if eqs k MatchLLM then 80
  else if eqs k MatchStructuredSlot then 70
  else if eqs k MatchContainedAlias then 20
  else if eqs k MatchLegacyRule then 10
  else
    let s := oc_Source c in
    if eqs s OperationCandidateSourceCatalogAlias then 50
    else if eqs s OperationCandidateSourceLLM then 40
    else if eqs s OperationCandidateSourceWorkflowSlot then 30
    else if eqs s OperationCandidateSourceWorkflowCtrl then 20
    else if eqs s OperationCandidateSourceLegacy then 10
    else 0.

(** [a > b] on confidences *)
Definition q_gt (a b : Q) : bool := negb (Qle_bool a b).

Definition better (candidate best : OperationCandidate) : bool :=
  (operationCandidateRank best <? operationCandidateRank candidate)
  || ((operationCandidateRank candidate =? operationCandidateRank best)
      && q_gt (oc_Confidence candidate) (oc_Confidence best)).

Definition best_step (accept : OperationCandidate -> bool) (best : option OperationCandidate)
  (candidate : OperationCandidate) : option OperationCandidate :=
  if negb (accept candidate) then best
  else match best with
       | None => Some candidate
       | Some b => if better candidate b then Some candidate else best
       end.
Definition bestCandidate (candidates : list OperationCandidate) (accept : OperationCandidate -> bool)
  : option OperationCandidate := fold_left (best_step accept) candidates None.

Definition candidateIdentity (c : OperationCandidate) : string :=
  draft_Act (oc_Draft c) +:+ String Ascii.zero (draft_Operation (oc_Draft c)).

(** The loop that keeps the top rank and the identities found at it. *)
Definition ambiguous_step (st : Z * gset string) (c : OperationCandidate) : Z * gset string :=
  let '(topRank, operations) := st in
  if eqs (draft_Act (oc_Draft c)) ActUnknown then st
  else
    let rank := operationCandidateRank c in
    if topRank <? rank then (rank, {[candidateIdentity c]})
    else if rank =? topRank then (topRank, {[candidateIdentity c]} ∪ operations)
    else st.
Definition ambiguousOperationCandidates (candidates : list OperationCandidate) : bool :=
  (1 <? Z.of_nat (size (fold_left ambiguous_step candidates (-1, ∅)).2)).

Definition operationIsAuxiliaryForActiveWorkflow (operation : string)
  (workflow : option protocolWorkflowContext) : bool :=
  match workflow with
  | None => false
  | Some w => match lookupOperation (wc_Type w) with
              | Some m => match om_Workflow m with
                          | Some ws => existsb (fun a => eqs a operation) (ws_AuxiliaryOperations ws)
                          | None => false
                          end
              | None => false
              end
  end.

Definition explicit_act (c : OperationCandidate) : bool :=
  let act := draft_Act (oc_Draft c) in
  eqs act ActWriteRequest || eqs act ActReadQuery || eqs act ActCapabilityQuestion
  || eqs act ActRuleQuestion || eqs act ActHelp.
Definition act_is (act : string) (c : OperationCandidate) : bool := eqs (draft_Act (oc_Draft c)) act.

Definition with_act (act : string) (d : ProtocolDraft) : ProtocolDraft :=
  mkIntentDraft act (draft_Domain d) (draft_Operation d) (draft_Confidence d) (draft_Slots d)
    (draft_Reason d) (draft_Params d) (draft_MissingFields d) (draft_ClarifyReason d).

(** [operationArbiter.Decide] *)
Definition Decide_operation (activeWorkflow : option protocolWorkflowContext)
  (candidates : list OperationCandidate) : OperationArbiterDecision :=
  match candidates with
  | [] => mkDecision DecisionUnknown unknown_draft "" false "no_candidates"
  | first :: _ =>
      if ambiguousOperationCandidates candidates then
        mkDecision DecisionAmbiguous (unknownIntentDraft "ambiguous_intent") "" false
          "ambiguous_candidates"
      else match bestCandidate candidates explicit_act with
      | Some c =>
          if operationIsAuxiliaryForActiveWorkflow (draft_Operation (oc_Draft c)) activeWorkflow then
            mkDecision DecisionWorkflowAuxiliary (with_act ActWorkflowContinue (oc_Draft c))
              (oc_Source c) false "active_workflow_auxiliary_operation"
          else
            mkDecision DecisionNewOperation (oc_Draft c) (oc_Source c)
              (bool_decide (is_Some activeWorkflow)
               && policyExplicitNewRequest (draft_Act (oc_Draft c))) "explicit_operation"
      | None =>
      match bestCandidate candidates (act_is ActWorkflowCancel) with
      | Some c => mkDecision DecisionWorkflowCancel (oc_Draft c) (oc_Source c) false "workflow_control"
      | None =>
      match bestCandidate candidates (act_is ActWorkflowContinue) with
      | Some c => mkDecision DecisionWorkflowContinue (oc_Draft c) (oc_Source c) false
                    "workflow_slot_value"
      | None =>
          if eqs (draft_Act (oc_Draft first)) ActUnknown then
            mkDecision DecisionUnknown (oc_Draft first) (oc_Source first) false "unknown_candidate"
          else mkDecision DecisionUnknown unknown_draft (oc_Source first) false "unsupported_candidate"
      end end end
  end.

(** ** The subscription dialogue *)

Definition no_depts (t : trustedEntities) : Prop := te_DeptIDs t = [] /\ te_DepartmentID t = 0.
Definition missing_is (fields : list string) (w : WorkflowSnapshot) : Prop :=
  wf_MissingFields w = fields /\ wf_MissingSlots w = fields.

(** What the trusted state of a subscription workflow holds in each state. *)
Inductive subscription_state (w : WorkflowSnapshot) : Prop :=
  | in_collect_scope :
      wf_State w = WorkflowCollectScope -> missing_is ["scope"] w -> no_depts (wf_Trusted w) ->
      subscription_state w
  | in_collect_departments :
      wf_State w = WorkflowCollectDepartments -> missing_is ["dept_names"] w ->
      te_Scope (wf_Trusted w) = "department" -> no_depts (wf_Trusted w) -> subscription_state w
  | in_ready_all :
      wf_State w = WorkflowReady -> missing_is [] w ->
      te_Scope (wf_Trusted w) = "all" -> no_depts (wf_Trusted w) -> subscription_state w
  | in_ready_departments d l :
      wf_State w = WorkflowReady -> missing_is [] w ->
      te_Scope (wf_Trusted w) = "department" ->
      te_DeptIDs (wf_Trusted w) = d :: l -> te_DepartmentID (wf_Trusted w) = d ->
      subscription_state w
  | is_over :
      wf_State w = WorkflowCancelled \/ wf_State w = WorkflowInterruptedState ->
      missing_is [] w -> subscription_state w.

(** How far the dialogue is. *)
Definition progress (w : WorkflowSnapshot) : nat :=
  if eqs (wf_State w) WorkflowCollectScope then 0
  else if eqs (wf_State w) WorkflowCollectDepartments then 1
  else if eqs (wf_State w) WorkflowReady then 2 else 3.

(** The turns that move a workflow forward. *)
Definition advancing (d : WorkflowDecision) : bool :=
  match d with WorkflowContinueDecision | WorkflowReadyToExecute => true | _ => false end.

Lemma continue_subscription_step w draft trusted :
  subscription_state w ->
  exists w', wr_Workflow (continueSubscriptionWorkflow w draft trusted) = Some w'
  /\ wf_Type w' = wf_Type w /\ subscription_state w'
  /\ (if advancing (wr_Decision (continueSubscriptionWorkflow w draft trusted))
      then (progress w < progress w' <= 2)%nat else w' = w)
  /\ (wr_Decision (continueSubscriptionWorkflow w draft trusted) = WorkflowReadyToExecute ->
      wf_State w' = WorkflowReady).
Proof.
  intros Hw. unfold continueSubscriptionWorkflow.
  case_if; [exists w; split_and!; auto; done|].
  case_if; [exists w; split_and!; auto; done|]. clear E E0.
  destruct (eqs (wf_State w) WorkflowCollectScope) eqn:Es.
  { apply eqs_true in Es.
    assert (no_depts (wf_Trusted w)) as [Hd1 Hd2].
    { destruct Hw as [H|H|H|?? H|[H|H]]; try done; rewrite Es in H; discriminate H. }
    destruct (eqs (te_Scope trusted) "all") eqn:Ea.
    { apply eqs_true in Ea. eexists. split; [reflexivity|]. unfold progress. rewrite Es. cbn -[eqs].
      eqs_red. split_and!; [done| |lia|lia|done].
      by apply in_ready_all. }
    destruct (eqs (te_Scope trusted) "department") eqn:Edp.
    - apply eqs_true in Edp. destruct (resolved_depts trusted) as [|d l].
      + eexists. split; [reflexivity|]. unfold progress. rewrite Es. cbn -[eqs]. eqs_red.
        split_and!; [done| |lia|lia|done]. by apply in_collect_departments.
      + eexists. split; [reflexivity|]. unfold progress. rewrite Es. cbn -[eqs]. eqs_red.
        split_and!; [done| |lia|lia|done]. by apply (in_ready_departments _ d l).
    - exists w. split_and!; auto; done. }
  destruct (eqs (wf_State w) WorkflowCollectDepartments) eqn:Ec; [|exists w; split_and!; auto; done].
  apply eqs_true in Ec.
  assert (te_Scope (wf_Trusted w) = "department") as Hs.
  { destruct Hw as [H|H|H|?? H|[H|H]]; try done; rewrite Ec in H; discriminate H. }
  destruct (eqs (te_Scope trusted) "all") eqn:Ea.
  { apply eqs_true in Ea. eexists. split; [reflexivity|]. unfold progress. rewrite Ec. cbn -[eqs].
    eqs_red. split_and!; [done| |lia|lia|done]. by apply in_ready_all. }
  destruct (resolved_depts trusted) as [|d l]; [exists w; split_and!; auto; done|].
  eexists. split; [reflexivity|]. unfold progress. rewrite Ec. cbn -[eqs]. eqs_red.
  split_and!; [done| |lia|lia|done]. by apply (in_ready_departments _ d l).
Qed.


(** A dialogue: the workflows reached from a started subscription by turns, and
    how many of the turns advanced it. *)
Inductive dialogue : nat -> WorkflowSnapshot -> Prop :=
  | dialogue_start nano draft w : startWorkflow nano draft = Some w -> dialogue 0 w
  | dialogue_turn n w draft trusted d w' :
      dialogue n w -> continueWorkflow w draft trusted = mkWorkflowResult d (Some w') ->
      dialogue (if advancing d then S n else n) w'.

Lemma dialogue_ok n w :
  dialogue n w ->
  wf_Type w = WorkflowSubscriptionStart /\ subscription_state w /\ (n <= progress w /\ n <= 2)%nat.
Proof.
  induction 1 as [nano draft w Hs|n w draft trusted d w' _ (Ht & Hw & Hn & Hn2) Hc].
  - unfold startWorkflow in Hs. case_if_in Hs; [|done]. simplify_eq.
    split; [done|]. split; [by apply in_collect_scope|lia].
  - unfold continueWorkflow in Hc. rewrite Ht in Hc.
    case_if_in Hc.
    { injection Hc as <- <-. split_and!; [done|apply is_over; [by left|done]|unfold progress; cbn -[eqs]; eqs_red; lia|cbn; lia]. }
    case_if_in Hc.
    { injection Hc as <- <-. split_and!; [done|apply is_over; [by right|done]|unfold progress; cbn -[eqs]; eqs_red; lia|cbn; lia]. }
    change (continueSubscriptionWorkflow w draft trusted = mkWorkflowResult d (Some w')) in Hc.
    destruct (continue_subscription_step w draft trusted Hw) as (v & Hv & Htv & Hsv & Hp & _).
    rewrite Hc in Hv, Hp. cbn in Hv, Hp. injection Hv as <-.
    rewrite Htv. destruct (advancing d); [split_and!; try done; lia|]. by subst w'.
Qed.

(** ** Ranking candidates *)

Definition known (c : OperationCandidate) : Prop := draft_Act (oc_Draft c) <> ActUnknown.
Definition rank_le (l : list OperationCandidate) (r : Z) : Prop :=
  forall c, c ∈ l -> known c -> operationCandidateRank c <= r.

Lemma rank_nonneg c : 0 <= operationCandidateRank c.
Proof. unfold operationCandidateRank. repeat case_if; lia. Qed.

Lemma better_rank c b :
  (better c b = true -> operationCandidateRank b <= operationCandidateRank c)
  /\ (better c b = false -> operationCandidateRank c <= operationCandidateRank b).
Proof.
  unfold better. split.
  - intros [H%Z.ltb_lt|[H%Z.eqb_eq _]%andb_true_iff]%orb_true_iff; lia.
  - intros [H%Z.ltb_ge _]%orb_false_iff. done.
Qed.

(** The best candidate is one of the accepted ones of maximal rank. *)
Lemma bestCandidate_spec l accept :
  match bestCandidate l accept with
  | Some b => b ∈ l /\ accept b = true
              /\ (forall c, c ∈ l -> accept c = true ->
                           operationCandidateRank c <= operationCandidateRank b)
  | None => forall c, c ∈ l -> accept c = false
  end.
Proof.
  unfold bestCandidate. induction l as [|x l IH] using rev_ind.
  { by intros c ?%elem_of_nil. }
  rewrite fold_left_app. cbn [fold_left]. unfold best_step at 1.
  destruct (accept x) eqn:Hx; cbn [negb].
  - destruct (fold_left (best_step accept) l None) as [b|].
    + destruct IH as (Hb & Ha & Hr). destruct (better_rank x b) as [Ht Hf].
      destruct (better x b); (split_and!; [set_solver|done|]);
        intros c [Hc| ->%list_elem_of_singleton]%elem_of_app Hac.
      * specialize (Hr c Hc Hac). specialize (Ht eq_refl). lia.
      * lia.
      * by apply Hr.
      * by apply Hf.
    + split_and!; [set_solver|done|].
      intros c [Hc| ->%list_elem_of_singleton]%elem_of_app Hac; [|lia].
      by rewrite (IH c Hc) in Hac.
  - destruct (fold_left (best_step accept) l None) as [b|].
    + destruct IH as (Hb & Ha & Hr). split_and!; [set_solver|done|].
      intros c [Hc| ->%list_elem_of_singleton]%elem_of_app Hac; [by apply Hr|congruence].
    + intros c [Hc| ->%list_elem_of_singleton]%elem_of_app; [by apply IH|done].
Qed.

(** The loop over the candidates keeps the top rank of the known ones and the
    identities found at that rank. *)
Lemma ambiguous_fold_spec l :
  let '(top, ids) := fold_left ambiguous_step l (-1, ∅) in
  (0 <= top -> ids <> ∅) /\ rank_le l top
  /\ (forall i, i ∈ ids <->
        exists c, c ∈ l /\ known c /\ operationCandidateRank c = top /\ candidateIdentity c = i).
Proof.
  induction l as [|x l IH] using rev_ind.
  { cbn. split_and!; [done|by intros c ?%elem_of_nil|]. intros i. split; [set_solver|].
    by intros (c & ?%elem_of_nil & _). }
  rewrite fold_left_app. cbn [fold_left].
  destruct (fold_left ambiguous_step l (-1, ∅)) as [top ids]. destruct IH as (Ht & Hle & Hi).
  pose proof (rank_nonneg x) as Hx0. unfold ambiguous_step.
  destruct (eqs (draft_Act (oc_Draft x)) ActUnknown) eqn:Hx.
  { apply eqs_true in Hx. split_and!; [done| |].
    - intros c [Hc| ->%list_elem_of_singleton]%elem_of_app Hk; [by apply Hle|done].
    - intros i. rewrite Hi. split; intros (c & Hc & Hk & Hr); exists c; [set_solver|].
      apply elem_of_app in Hc as [Hc| ->%list_elem_of_singleton]; done. }
  apply eqs_false in Hx.
  destruct (top <? operationCandidateRank x) eqn:E1; b2p.
  { split_and!; [set_solver| |].
    - intros c [Hc| ->%list_elem_of_singleton]%elem_of_app Hk; [|lia]. specialize (Hle c Hc Hk). lia.
    - intros i. rewrite elem_of_singleton. split.
      + intros ->. exists x. split_and!; [set_solver|done..].
      + intros (c & [Hc| ->%list_elem_of_singleton]%elem_of_app & Hk & Hr & <-); [|done].
        specialize (Hle c Hc Hk). lia. }
  destruct (operationCandidateRank x =? top) eqn:E2; b2p.
  - split_and!; [set_solver| |].
    + intros c [Hc| ->%list_elem_of_singleton]%elem_of_app Hk; [by apply Hle|lia].
    + intros i. rewrite elem_of_union, elem_of_singleton, Hi. split.
      * intros [->|(c & Hc & ?)]; [exists x|exists c]; set_solver.
      * intros (c & [Hc| ->%list_elem_of_singleton]%elem_of_app & Hk & Hr & <-); [|by left].
        right. by exists c.
  - split_and!; [done| |].
    + intros c [Hc| ->%list_elem_of_singleton]%elem_of_app Hk; [by apply Hle|lia].
    + intros i. rewrite Hi. split.
      * intros (c & Hc & ?). exists c. set_solver.
      * intros (c & [Hc| ->%list_elem_of_singleton]%elem_of_app & Hk & Hr & <-); [|lia].
        by exists c.
Qed.

(** Two known candidates of the highest rank that disagree. *)
Definition disagree (l : list OperationCandidate) : Prop :=
  exists c1 c2, c1 ∈ l /\ c2 ∈ l /\ known c1 /\ known c2
    /\ candidateIdentity c1 <> candidateIdentity c2
    /\ operationCandidateRank c1 = operationCandidateRank c2
    /\ rank_le l (operationCandidateRank c1).

Lemma ambiguous_iff l : ambiguousOperationCandidates l = true <-> disagree l.
Proof.
  unfold ambiguousOperationCandidates, disagree. pose proof (ambiguous_fold_spec l) as H.
  destruct (fold_left ambiguous_step l (-1, ∅)) as [top ids]. cbn.
  destruct H as (Ht & Hle & Hi). split.
  - intros Hs%Z.ltb_lt.
    destruct (set_choose_L ids) as [i1 Hi1]; [intros ->; rewrite size_empty in Hs; lia|].
    destruct (set_choose_L (ids ∖ {[i1]})) as [i2 Hi2].
    { intros He. assert (ids ⊆ {[i1]}) as Hsub.
      { intros x Hx. destruct (decide (x = i1)) as [->|Hne]; [by apply elem_of_singleton|].
        destruct (not_elem_of_empty (C := gset string) x). rewrite <- He.
        apply elem_of_difference. by rewrite elem_of_singleton. }
      apply subseteq_size in Hsub. rewrite size_singleton in Hsub. lia. }
    apply elem_of_difference in Hi2 as [Hi2 Hne].
    apply Hi in Hi1 as (c1 & ? & ? & Hr1 & <-). apply Hi in Hi2 as (c2 & ? & ? & Hr2 & <-).
    exists c1, c2. rewrite Hr1, Hr2. split_and!; try done. set_solver.
  - intros (c1 & c2 & Hc1 & Hc2 & Hk1 & Hk2 & Hne & Hr & Htop). apply Z.ltb_lt.
    assert (candidateIdentity c1 ∈ ids /\ candidateIdentity c2 ∈ ids) as [H1 H2].
    { assert (forall c, c ∈ l -> known c -> operationCandidateRank c = operationCandidateRank c1 ->
               candidateIdentity c ∈ ids) as Hin.
      { intros c Hc Hk Hrc. apply Hi. exists c. split_and!; try done.
        apply Z.le_antisymm; [by apply Hle|]. rewrite Hrc.
        destruct (set_choose_L ids) as [i Hi0].
        { apply Ht. pose proof (Hle c1 Hc1 Hk1). pose proof (rank_nonneg c1). lia. }
        apply Hi in Hi0 as (c' & Hc' & Hk' & <- & _). by apply Htop. }
      split; apply Hin; done. }
    assert ({[candidateIdentity c1; candidateIdentity c2]} ⊆ ids) as Hsub by set_solver.
    apply subseteq_size in Hsub. rewrite size_union in Hsub by set_solver.
    rewrite !size_singleton in Hsub. lia.
Qed.

(** ** Properties *)

(** Every workflow a subscription dialogue reaches has the missing fields
    and the trusted scope and departments of its state: the scope is asked
    first, a ready workflow either covers everybody and names no department or
    names at least one, and at most two turns advance it before it is ready. *)
Theorem subscription_dialogue n w :
  dialogue n w ->
  subscription_state w /\ (n <= 2)%nat
  /\ (wf_State w = WorkflowReady ->
      workflowMissingFields w = []
      /\ ((te_Scope (wf_Trusted w) = "all" /\ te_DeptIDs (wf_Trusted w) = [])
          \/ (te_Scope (wf_Trusted w) = "department" /\ te_DeptIDs (wf_Trusted w) <> []))).
Proof.
  intros H. apply dialogue_ok in H as (_ & Hw & _ & Hn). split_and!; [done|done|].
  intros Hr. destruct Hw as [H|H|H [Hm1 Hm2] Hs [Hd _]|d l H [Hm1 Hm2] Hs Hd _|[H|H]];
    try (rewrite Hr in H; discriminate H); unfold workflowMissingFields; rewrite Hm1; split; try done.
  - by left.
  - right. by rewrite Hd.
Qed.

Definition answer_draft : ProtocolDraft :=
  mkIntentDraft ActWorkflowContinue DomainSubscription "subscription.start" (9 # 10) ∅ "" ∅ [] "".

Lemma subscription_dialogue_witness :
  exists w, dialogue 2 w /\ wf_State w = WorkflowReady /\ workflowMissingFields w = [].
Proof.
  destruct (startWorkflow 5 answer_draft) as [w0|] eqn:E0; [|discriminate E0].
  destruct (continueWorkflow w0 answer_draft (te_with_scope "department" no_trusted)) as [d1 [w1|]] eqn:E1;
    [|vm_compute in E0; injection E0 as <-; discriminate E1].
  destruct (continueWorkflow w1 answer_draft (te_with_depts 30 [30] no_trusted)) as [d2 [w2|]] eqn:E2;
    [|vm_compute in E0; injection E0 as <-; vm_compute in E1; injection E1 as <- <-; discriminate E2].
  pose proof (dialogue_start _ _ _ E0) as D0.
  pose proof (dialogue_turn _ _ _ _ _ _ D0 E1) as D1.
  pose proof (dialogue_turn _ _ _ _ _ _ D1 E2) as D2.
  assert (wf_State w2 = WorkflowReady /\ d1 = WorkflowContinueDecision /\ d2 = WorkflowReadyToExecute)
    as (Hr & -> & ->).
  { vm_compute in E0. injection E0 as <-. vm_compute in E1. injection E1 as <- <-.
    vm_compute in E2. injection E2 as <- <-. repeat split. }
  exists w2. split; [exact D2|]. split; [exact Hr|].
  apply (subscription_dialogue _ _ D2). exact Hr.
Defined.

(** A manual sign turn keeps every slot already collected, and is ready to
    execute exactly when user, date and section are all known; otherwise it
    asks for the first missing one. *)
Theorem manual_sign_turn w trusted :
  let r := continueManualSignWorkflow w trusted in
  let t := wf_Trusted w in
  exists w', wr_Workflow r = Some w'
    /\ (te_UserID t <> 0 -> te_UserID (wf_Trusted w') <> 0)
    /\ (te_Date t <> "" -> te_Date (wf_Trusted w') <> "")
    /\ (te_Section t <> 0 -> te_Section (wf_Trusted w') <> 0)
    /\ workflowMissingFields w' = workflowMissingSlots (wf_Trusted w')
    /\ (wr_Decision r = WorkflowReadyToExecute <->
        te_UserID (wf_Trusted w') <> 0 /\ te_Date (wf_Trusted w') <> ""
        /\ te_Section (wf_Trusted w') <> 0)
    /\ (wr_Decision r <> WorkflowReadyToExecute ->
        exists slot rest, workflowMissingFields w' = slot :: rest
                          /\ wf_State w' = nextManualSignState slot).
Proof.
  intros r t. unfold r, continueManualSignWorkflow. fold t.
  set (t1 := mergeTrustedParams _ _).
  assert ((te_UserID t <> 0 -> te_UserID t1 <> 0) /\ (te_Date t <> "" -> te_Date t1 <> "")
          /\ (te_Section t <> 0 -> te_Section t1 <> 0)) as (Hu & Hd & Hs).
  { unfold t1. cbn -[eqs]. split_and!; intros ?.
    - destruct (te_UserID trusted =? 0) eqn:E; b2p; done.
    - destruct (eqs (te_Date trusted) "") eqn:E; [done|by apply eqs_false in E].
    - destruct (te_Section trusted =? 0) eqn:E; b2p; done. }
  assert (workflowMissingSlots t1 = [] <->
          te_UserID t1 <> 0 /\ te_Date t1 <> "" /\ te_Section t1 <> 0) as Hm.
  { unfold workflowMissingSlots. rewrite !app_nil, <- Z.eqb_neq, <- (Z.eqb_neq (te_Section t1)), <- eqs_false.
    destruct (te_UserID t1 =? 0), (eqs (te_Date t1) ""), (te_Section t1 =? 0); intuition discriminate. }
  destruct (workflowMissingSlots t1) as [|slot rest] eqn:E; eexists; (split; [reflexivity|]);
    cbn -[eqs]; split_and!; try done.
  - split; [intros _; by apply Hm|done].
  - split; [done|]. intros H. by apply Hm in H.
  - intros _. by exists slot, rest.
Qed.

(** The workflow arbiter never hands an expired workflow to a turn: it
    clears it and decides as if there were none; a live workflow is cleared
    exactly by a cancel or an explicit new request. *)
Theorem decide_workflow_spec draft active now :
  let r := Decide_workflow draft active now in
  (forall a, ar_ActiveWorkflow r = Some a ->
     workflowExpired a now = false /\ exists w, active = Some w /\ a = cloneWorkflowSnapshot w)
  /\ (ar_Expired r = true <->
      exists w, active = Some w /\ workflowExpired (cloneWorkflowSnapshot w) now = true)
  /\ (forall a, ar_ActiveWorkflow r = Some a ->
      ar_ClearWorkflow r = true <->
      draft_Act draft = ActWorkflowCancel \/ policyExplicitNewRequest (draft_Act draft) = true)
  /\ (ar_ActiveWorkflow r = None -> ar_Decision r = workflowDecisionWithoutActiveWorkflow draft).
Proof.
  intros r. unfold r, Decide_workflow. destruct active as [w|]; cbn [fmap option_fmap option_map].
  2:{ split_and!; try done. split; [done|]. by intros (? & ? & _). }
  destruct (workflowExpired (cloneWorkflowSnapshot w) now) eqn:E; cbn -[policyExplicitNewRequest eqs].
  { split_and!; try done. split; [intros _; by exists w|done]. }
  assert (~ (exists v, Some w = Some v /\ workflowExpired (cloneWorkflowSnapshot v) now = true)) as Hn.
  { intros (v & [= <-] & ?). congruence. }
  destruct (eqs (draft_Act draft) ActWorkflowCancel) eqn:Ec;
    [apply eqs_true in Ec|apply eqs_false in Ec;
     destruct (eqs (draft_Act draft) ActWorkflowContinue) eqn:Ec2;
      [apply eqs_true in Ec2|destruct (policyExplicitNewRequest (draft_Act draft)) eqn:Ep]];
    cbn -[policyExplicitNewRequest]; (split_and!; [intros a [= <-]; split; [done|by exists w]|split; [done|intros ?; by destruct Hn]
                      |intros a _|done]).
  - split; [by left|done].
  - rewrite Ec2. split; [done|intros [H|H]; discriminate H].
  - split; [by right|done].
  - split; [done|intros [H|H]; congruence].
Qed.

(** The operation arbiter reports an ambiguous turn exactly when two known
    candidates of the highest rank propose different acts or operations; and
    when an explicit operation outranks every candidate that disagrees with it,
    the turn is about that operation whatever the order of the candidates: as
    an auxiliary step of the active workflow when it is one of its auxiliary
    operations, as a new request that interrupts it otherwise. *)
Theorem operation_arbiter_decides aw l c :
  l <> [] ->
  (ad_Kind (Decide_operation aw l) = DecisionAmbiguous <-> disagree l)
  /\ (c ∈ l -> explicit_act c = true ->
      (forall c', c' ∈ l -> known c' -> operationCandidateRank c' < operationCandidateRank c
                                      \/ candidateIdentity c' = candidateIdentity c) ->
      exists b, b ∈ l /\ candidateIdentity b = candidateIdentity c /\
        if operationIsAuxiliaryForActiveWorkflow (draft_Operation (oc_Draft b)) aw
        then ad_Kind (Decide_operation aw l) = DecisionWorkflowAuxiliary
             /\ ad_Draft (Decide_operation aw l) = with_act ActWorkflowContinue (oc_Draft b)
             /\ ad_InterruptWorkflow (Decide_operation aw l) = false
        else ad_Kind (Decide_operation aw l) = DecisionNewOperation
             /\ ad_Draft (Decide_operation aw l) = oc_Draft b
             /\ ad_InterruptWorkflow (Decide_operation aw l) = bool_decide (is_Some aw)).
Proof.
  intros Hne. destruct l as [|x xs]; [done|]. set (l := x :: xs).
  rewrite <- ambiguous_iff. unfold Decide_operation. fold l. split.
  - destruct (ambiguousOperationCandidates l); [done|].
    repeat case_match; done.
  - intros Hc He Htop.
    assert (forall b, explicit_act b = true -> known b /\ policyExplicitNewRequest (draft_Act (oc_Draft b)) = true)
      as Hexp.
    { intros b Hb. unfold explicit_act in Hb. rewrite !orb_true_iff, !eqs_true in Hb. unfold known.
      destruct Hb as [[[[Hb | Hb] | Hb] | Hb] | Hb]; rewrite Hb; split; done. }
    destruct (ambiguousOperationCandidates l) eqn:Ha.
    { apply ambiguous_iff in Ha as (c1 & c2 & H1 & H2 & Hk1 & Hk2 & Hd & Hr & Hm).
      specialize (Hm c Hc (proj1 (Hexp c He))). destruct Hd.
      destruct (Htop c1 H1 Hk1) as [? | ->], (Htop c2 H2 Hk2) as [? | ->]; [lia..|done]. }
    pose proof (bestCandidate_spec l explicit_act) as Hb.
    destruct (bestCandidate l explicit_act) as [b|]; [|by rewrite (Hb c Hc) in He].
    destruct Hb as (Hin & Hbe & Hbr). destruct (Hexp b Hbe) as [Hk Hp].
    exists b. split; [done|]. split.
    { destruct (Htop b Hin Hk) as [?|]; [|done]. specialize (Hbr c Hc He). lia. }
    destruct (operationIsAuxiliaryForActiveWorkflow (draft_Operation (oc_Draft b)) aw); [done|].
    split_and!; [done..|]. cbn -[policyExplicitNewRequest]. by rewrite Hp, andb_true_r.
Qed.

Definition start_alias : OperationCandidate :=
  mkCandidateOp start_draft OperationCandidateSourceCatalogAlias MatchExactAlias true 1 "".
Definition read_guess : OperationCandidate :=
  mkCandidateOp my_schedule_draft OperationCandidateSourceLLM MatchLLM false (9 # 10) "".

Lemma operation_arbiter_decides_witness :
  ad_Kind (Decide_operation None [read_guess; start_alias]) = DecisionNewOperation
  /\ ad_Draft (Decide_operation None [read_guess; start_alias]) = start_draft.
Proof.
  destruct (operation_arbiter_decides None [read_guess; start_alias] start_alias) as [_ H];
    [discriminate|].
  destruct H as (b & Hb & Hi & Hd).
  - right. left.
  - reflexivity.
  - intros c' [-> | [-> | Hn%elem_of_nil]%elem_of_cons]%elem_of_cons _; [left; reflexivity|right; reflexivity|done].
  - apply elem_of_cons in Hb as [-> | [-> | Hn%elem_of_nil]%elem_of_cons]; [discriminate Hi| |destruct Hn].
    cbn -[Decide_operation] in Hd. split; apply Hd.
Defined.
