(* ===== verification/BusinessKey.v ===== *)
(** * Business keys of subscription writes

    internal/agent/subscription_business_key.go: the canonical identity of a
    subscription write, hashed into the key the stores and the subscription
    service deduplicate on. *)
From Stdlib Require Import ZArith Lia Bool String.
From stdpp Require Import base list strings gmap sorting.
From S2P Require Import Prelude GoStrings Json Sha256 Contract Codec Catalog Request.

Open Scope Z_scope.
Open Scope go_scope.

Definition subscriptionBusinessKeyVersion : Z := 1.

Record SubscriptionBusinessKeyV1 := mkBusinessKey {
  bk_Version : Z;
  bk_TenantID : Z;
  bk_ConversationID : string;
  bk_Operation : string;
  bk_Scope : string;
  bk_DeptIDs : list Z
}.

Definition check_dept_id (id : Z) : res unit :=
  if id <=? 0 then Err (EFmt "invalid department id %d" [itoa id]) else Ok tt.

(** The ids end up sorted and without duplicates; the set they pass through
    does not matter. *)
Definition normalizeBusinessKeyDeptIDs (ids : list Z) : res (list Z) :=
  list_checkM check_dept_id ids ;;; Ok (dedup_adjacent (sort_Z ids)).

(** The key of a request, before it is printed and hashed. *)
Definition subscriptionBusinessKey (req : OperationRequest) : res SubscriptionBusinessKeyV1 :=
  let conversation := trim_space (req_ConversationID req) in
  let operation := trim_space (req_Operation req) in
  let key := mkBusinessKey subscriptionBusinessKeyVersion (req_TenantID req) conversation operation in
  if (req_TenantID req =? 0) || eqs conversation "" then
    Err (EMsg "subscription business key identity is incomplete")
  else if eqs operation "subscription.start" then
    match extractParamString (req_TrustedParams req) "scope" with
    | None => Err (EMsg "subscription business key scope is missing")
    | Some scope =>
        let scope := trim_space scope in
        normalized <- normalizeBusinessKeyDeptIDs
                        (default [] (extractParamInt64Slice (req_TrustedParams req) "dept_ids")) ;;
        if eqs scope "all" then
          if negb (bool_decide (normalized = []))
          then Err (EMsg "all scope cannot include department ids") else Ok (key scope [])
        else if eqs scope "department" then
          if bool_decide (normalized = [])
          then Err (EMsg "department scope requires department ids") else Ok (key scope normalized)
        else Err (EFmt "unsupported subscription scope %q" [scope])
    end
  else if eqs operation "subscription.cancel" then Ok (key "" [])
  else Err (EFmt "unsupported subscription write operation %q" [operation]).

Definition json_of_business_key (k : SubscriptionBusinessKeyV1) : json :=
  obj [(false, "version", json_int (bk_Version k));
       (false, "tenant_id", json_int (bk_TenantID k));
       (false, "conversation_id", JStr (bk_ConversationID k));
       (false, "operation", JStr (bk_Operation k));
       (eqs (bk_Scope k) "", "scope", JStr (bk_Scope k));
       (bool_decide (bk_DeptIDs k = []), "dept_ids", JArr (List.map json_int (bk_DeptIDs k)))].

(** What is hashed: a version line and the printed key. *)
Definition business_key_text (k : SubscriptionBusinessKeyV1) : string :=
  "v1" +:+ String (Ascii.ascii_of_nat 10) (marshal (json_of_business_key k)).

Definition subscriptionBusinessKeyForRequest (req : OperationRequest) : res string :=
  k <- subscriptionBusinessKey req ;; Ok (sha256_hex (business_key_text k)).

(** ** Lemmas *)

Lemma check_dept_id_Ok d : check_dept_id d = Ok tt <-> 0 < d.
Proof.
  unfold check_dept_id. destruct (Z.leb_spec d 0); split; done || lia || auto.
Qed.

Lemma normalize_dept_ids_Ok ids l :
  normalizeBusinessKeyDeptIDs ids = Ok l <->
  Forall (fun d => 0 < d) ids /\ l = dedup_adjacent (sort_Z ids).
Proof.
  unfold normalizeBusinessKeyDeptIDs. rewrite res_bind_Ok. split.
  - intros ([] & Hc & [= <-]). split; [|done]. apply list_checkM_Ok in Hc.
    eapply Forall_impl; [exact Hc|]. by intros d ?%check_dept_id_Ok.
  - intros [Hf ->]. exists tt. split; [|done]. apply list_checkM_Ok.
    eapply Forall_impl; [exact Hf|]. intros d Hd. by apply check_dept_id_Ok.
Qed.

(** Two lists of ids normalise alike exactly when they name the same set. *)
Lemma normalize_set l1 l2 :
  dedup_adjacent (sort_Z l1) = dedup_adjacent (sort_Z l2) <-> (forall d, d ∈ l1 <-> d ∈ l2).
Proof.
  split.
  - intros H d. by rewrite <- (sort_Z_elem d l1), <- dedup_adjacent_elem, H, dedup_adjacent_elem, sort_Z_elem.
  - intros H. apply StronglySorted_lt_ext; [apply dedup_adjacent_sorted, sort_Z_StronglySorted..|].
    intros d. by rewrite !dedup_adjacent_elem, !sort_Z_elem.
Qed.

(** The fields of a request that name the write. *)
Definition scope_of (req : OperationRequest) : string :=
  trim_space (default "" (extractParamString (req_TrustedParams req) "scope")).
Definition depts_of (req : OperationRequest) : list Z :=
  default [] (extractParamInt64Slice (req_TrustedParams req) "dept_ids").

(** Machine widths and a conversation id that is valid UTF-8. *)
Definition request_wide (req : OperationRequest) : Prop :=
  in_uint64 (req_TenantID req) = true
  /\ valid_string (trim_space (req_ConversationID req)) = true
  /\ Forall (fun d => in_uint64 d = true) (depts_of req).

(** What a request that has a key looks like. *)
Lemma subscriptionBusinessKey_Ok req k :
  subscriptionBusinessKey req = Ok k ->
  bk_Version k = subscriptionBusinessKeyVersion /\ bk_TenantID k = req_TenantID req
  /\ bk_ConversationID k = trim_space (req_ConversationID req)
  /\ bk_Operation k = trim_space (req_Operation req)
  /\ req_TenantID req <> 0 /\ trim_space (req_ConversationID req) <> ""
  /\ ((bk_Operation k = "subscription.start"
       /\ bk_Scope k = scope_of req
       /\ bk_DeptIDs k = dedup_adjacent (sort_Z (depts_of req))
       /\ Forall (fun d => 0 < d) (depts_of req)
       /\ ((bk_Scope k = "all" /\ bk_DeptIDs k = [])
           \/ (bk_Scope k = "department" /\ bk_DeptIDs k <> [])))
      \/ (bk_Operation k = "subscription.cancel" /\ bk_Scope k = "" /\ bk_DeptIDs k = [])).
Proof.
  unfold subscriptionBusinessKey, scope_of, depts_of. intros H.
  case_if_in H; [discriminate|]. b2p. apply eqs_false in H1.
  destruct (eqs (trim_space (req_Operation req)) "subscription.start") eqn:Es.
  - apply eqs_true in Es.
    destruct (extractParamString (req_TrustedParams req) "scope") as [s|] eqn:Ex; [|discriminate].
    apply res_bind_Ok in H as (l & Hl & H). apply normalize_dept_ids_Ok in Hl as [Hp Hl].
    destruct (eqs (trim_space s) "all") eqn:Ea.
    + apply eqs_true in Ea. case_if_in H; [discriminate|]. injection H as <-. b2p. cbn.
      split_and!; try done. left. rewrite <- Hl, E. split_and!; try done. by left.
    + destruct (eqs (trim_space s) "department") eqn:Ed; [|discriminate].
      apply eqs_true in Ed. case_if_in H; [discriminate|]. injection H as <-. b2p. cbn.
      split_and!; try done. left. rewrite <- Hl. split_and!; try done. by right.
  - destruct (eqs (trim_space (req_Operation req)) "subscription.cancel") eqn:Ec; [|discriminate].
    apply eqs_true in Ec. injection H as <-. cbn. split_and!; try done. by right.
Qed.

(** ** Printing keys is injective *)

Lemma marshal_inj j1 j2 : printable 0 j1 -> printable 0 j2 -> marshal j1 = marshal j2 -> j1 = j2.
Proof.
  intros H1 H2 H. pose proof (decode_strict_marshal dec_raw None j1 H1) as E1.
  rewrite H, decode_strict_marshal in E1 by done. by injection E1.
Qed.

Lemma itoa_inj a b : in_uint64 a = true -> in_uint64 b = true -> itoa a = itoa b -> a = b.
Proof.
  intros Ha Hb H. pose proof (parse_uint_itoa a Ha) as E. rewrite H, parse_uint_itoa in E by done.
  by injection E.
Qed.

Lemma json_ints_inj l1 l2 :
  Forall (fun d => in_uint64 d = true) l1 -> Forall (fun d => in_uint64 d = true) l2 ->
  List.map json_int l1 = List.map json_int l2 -> l1 = l2.
Proof.
  intros H1. revert l2. induction H1 as [|a l Ha Hl IH]; intros [|b l2] H2 H; try discriminate; [done|].
  apply Forall_cons in H2 as [Hb H2]. cbn in H. injection H as Hab H. f_equal; [by apply itoa_inj|by apply IH].
Qed.

Lemma printable_business_key k :
  valid_string (bk_ConversationID k) = true -> valid_string (bk_Operation k) = true ->
  valid_string (bk_Scope k) = true -> printable 0 (json_of_business_key k).
Proof.
  intros Hc Ho Hs. apply printable_obj_members; [done|].
  repeat (apply Forall_cons; split); [..|apply Forall_nil_2]; intros _; cbn [fst snd];
    (split; [reflexivity|]); try (constructor; done).
  constructor; [done|]. apply Forall_map, Forall_forall. intros z _. constructor.
Qed.

Lemma json_of_business_key_inj k1 k2 :
  bk_Version k1 = bk_Version k2 ->
  in_uint64 (bk_TenantID k1) = true -> in_uint64 (bk_TenantID k2) = true ->
  Forall (fun d => in_uint64 d = true) (bk_DeptIDs k1) ->
  Forall (fun d => in_uint64 d = true) (bk_DeptIDs k2) ->
  json_of_business_key k1 = json_of_business_key k2 -> k1 = k2.
Proof.
  destruct k1 as [v1 t1 c1 o1 s1 d1], k2 as [v2 t2 c2 o2 s2 d2]. cbn [bk_Version bk_TenantID bk_DeptIDs].
  intros -> Ht1 Ht2 Hd1 Hd2 H. unfold json_of_business_key, obj, members in H.
  cbn -[eqs bool_decide json_int] in H.
  destruct (eqs s1 "") eqn:E1, (eqs s2 "") eqn:E2,
    (bool_decide (d1 = [])) eqn:E3, (bool_decide (d2 = [])) eqn:E4; b2p;
    rewrite ?eqs_true, ?eqs_false in *; cbn -[json_int List.map] in H; try discriminate H;
    injection H; intros; subst; f_equal; try done;
    first [by apply itoa_inj | by apply json_ints_inj].
Qed.

(** The same write: tenant, conversation, operation and, for a start, scope and
    set of departments. *)
Definition same_write (r1 r2 : OperationRequest) : Prop :=
  req_TenantID r1 = req_TenantID r2
  /\ trim_space (req_ConversationID r1) = trim_space (req_ConversationID r2)
  /\ trim_space (req_Operation r1) = trim_space (req_Operation r2)
  /\ (trim_space (req_Operation r1) = "subscription.start" ->
      scope_of r1 = scope_of r2 /\ (forall d, d ∈ depts_of r1 <-> d ∈ depts_of r2)).

Lemma business_key_struct r1 r2 k1 k2 :
  subscriptionBusinessKey r1 = Ok k1 -> subscriptionBusinessKey r2 = Ok k2 ->
  k1 = k2 <-> same_write r1 r2.
Proof.
  intros (V1 & T1 & C1 & O1 & _ & _ & R1)%subscriptionBusinessKey_Ok
    (V2 & T2 & C2 & O2 & _ & _ & R2)%subscriptionBusinessKey_Ok.
  unfold same_write. rewrite <- T1, <- T2, <- C1, <- C2, <- O1, <- O2.
  destruct k1 as [v1 t1 c1 o1 s1 d1], k2 as [v2 t2 c2 o2 s2 d2]. cbn in *. split.
  - intros [= -> -> -> -> -> ->]. split_and!; try done. intros Ho.
    destruct R1 as [(_ & S1 & D1 & _)|(Ho' & _)]; [|congruence].
    destruct R2 as [(_ & S2 & D2 & _)|(Ho' & _)]; [|congruence].
    split; [congruence|]. apply normalize_set. congruence.
  - intros (-> & -> & -> & Hs). subst v1 v2.
    destruct R1 as [(Ho & S1 & D1 & _)|(Ho & S1 & D1)], R2 as [(Ho2 & S2 & D2 & _)|(Ho2 & S2 & D2)];
      try congruence.
    destruct (Hs Ho) as [Hsc Hd]. apply normalize_set in Hd. congruence.
Qed.

Lemma key_printable req k :
  request_wide req -> subscriptionBusinessKey req = Ok k ->
  printable 0 (json_of_business_key k) /\ in_uint64 (bk_TenantID k) = true
  /\ Forall (fun d => in_uint64 d = true) (bk_DeptIDs k).
Proof.
  intros (Ht & Hc & Hd) (_ & T & C & O & _ & _ & R)%subscriptionBusinessKey_Ok. split_and!.
  - apply printable_business_key; [by rewrite C|..].
    + destruct R as [(Ho & _)|(Ho & _)]; rewrite Ho; reflexivity.
    + destruct R as [(_ & _ & _ & _ & [[Hs _]|[Hs _]])|(_ & Hs & _)]; rewrite Hs; reflexivity.
  - by rewrite T.
  - destruct R as [(_ & _ & -> & _)|(_ & _ & ->)]; [|constructor].
    rewrite Forall_forall in *. intros d. rewrite dedup_adjacent_elem, sort_Z_elem. apply Hd.
Qed.

(** ** Properties *)

(** The text hashed into the business key of a subscription write is the
    same for two requests exactly when they are the same write: the same
    tenant, conversation and operation and, for a start, the same scope and the
    same set of departments, whoever asks, however often and in whatever order
    the departments are listed. *)
Theorem business_key_identity r1 r2 k1 k2 :
  request_wide r1 -> request_wide r2 ->
  subscriptionBusinessKey r1 = Ok k1 -> subscriptionBusinessKey r2 = Ok k2 ->
  business_key_text k1 = business_key_text k2 <-> same_write r1 r2.
Proof.
  intros Hw1 Hw2 H1 H2. rewrite <- (business_key_struct r1 r2 k1 k2) by done.
  split; [|by intros ->]. unfold business_key_text. intros H.
  destruct (key_printable _ _ Hw1 H1) as (P1 & T1 & D1), (key_printable _ _ Hw2 H2) as (P2 & T2 & D2).
  apply json_of_business_key_inj; try done.
  - apply subscriptionBusinessKey_Ok in H1 as [-> _], H2 as [-> _]. done.
  - apply marshal_inj; [done..|].
    exact (f_equal (fun s => match s with String _ (String _ (String _ r)) => r | _ => s end) H).
Qed.

Definition depts_request (actor : Z) (depts : list Z) : OperationRequest :=
  mkOperationRequest "subscription.start" 7 actor " cid-1"
    (<["scope" := trustedParam "scope" (VString "department") 7 (mkSource "workflow" "" "subscription_scope")]>
     (<["dept_ids" := trustedParam "dept_ids" (VInt64s depts) 7 (mkSource "workflow" "" "department_resolver")]> ∅)) "".

Lemma business_key_identity_witness :
  exists k1 k2, subscriptionBusinessKey (depts_request 42 [30; 10; 30]) = Ok k1
    /\ subscriptionBusinessKey (depts_request 43 [10; 30]) = Ok k2
    /\ business_key_text k1 = business_key_text k2.
Proof.
  eexists _, _. split; [reflexivity|]. split; [reflexivity|].
  apply (business_key_identity (depts_request 42 [30; 10; 30]) (depts_request 43 [10; 30])).
  - split; [reflexivity|]. split; [reflexivity|]. repeat constructor.
  - split; [reflexivity|]. split; [reflexivity|]. repeat constructor.
  - reflexivity.
  - reflexivity.
  - split; [reflexivity|]. split; [reflexivity|]. split; [reflexivity|]. intros _.
    split; [reflexivity|]. intros d. change (d ∈ [30; 10; 30] <-> d ∈ [10; 30]). set_solver.
Defined.
