(* ===== verification/Executor.v ===== *)
(** * The operation executor

    internal/agent/operation_executor.go and operation_executor_bindings.go:
    how a validated request is executed against the service ports, with the
    response models of response_renderer.go and the port types of
    tools/types.go.

    The ports are services behind interfaces: each operation of a port is a
    function of a world state [W] of any type, and the data it returns that the
    executor does not look into has any type [D].  A nil port is [None]. *)
From Stdlib Require Import ZArith Lia Bool String.
From stdpp Require Import base list strings gmap.
From S2P Require Import Prelude GoStrings Contract Codec Catalog Request Policy.

Open Scope Z_scope.

(** ** Port data *)

Definition GroupSubWriteCreated : string := "created".
Definition GroupSubWriteUpdated : string := "updated".
Definition GroupSubWriteNoOp : string := "no_op".
Definition GroupSubWriteCancelled : string := "cancelled".

Record GroupSubInfo := mkSubInfo {
  gs_Subscribed : bool; gs_GroupName : string; gs_DeptIDs : list Z; gs_CreatedAt : string;
  gs_PushEnabled : bool }.
Record GroupSubMutationResult := mkMutation {
  gm_Effect : string; gm_Subscription : option GroupSubInfo }.

Record KnowledgeHit := mkHit {
  kh_Title : string; kh_SourcePath : string; kh_DocType : string; kh_Audience : string;
  kh_Intent : string; kh_ChunkIndex : Z; kh_Heading : string; kh_Body : string;
  kh_SourceRef : string; kh_Score : Z }.

Section executor.
Context {W D : Type}.

(** A call of a port: its result or error, and the world after it. *)
Definition call (A : Type) : Type := ST W A.

Record SchedulePort := mkSchedulePort {
  ListMyScheduleByWeek : Z -> Z -> call (list D);
  ListUserScheduleByWeek : Z -> Z -> Z -> Z -> call (list D) }.
Record GroupSubPort := mkGroupSubPort {
  Subscribe : Z -> string -> string -> Z -> list Z -> string -> call GroupSubMutationResult;
  Unsubscribe : Z -> string -> string -> call GroupSubMutationResult;
  GetSubscription : Z -> string -> call (option GroupSubInfo) }.

Record operationExecutorDeps := mkDeps {
  dep_Schedule : option SchedulePort;
  dep_Attendance : option (string -> Z -> Z -> call D);
  dep_AttendanceUserDayStatus : option (string -> Z -> call D);
  dep_GroupSub : option GroupSubPort;
  dep_Dept : option (call (list DeptItem));
  dep_Knowledge : option (Z -> string -> Z -> call (list KnowledgeHit)) }.

(** ** Responses *)

Inductive payload : Type :=
  | NoPayload
  | AttendanceStatusPayload (result : D)
  | UserDayAttendanceStatusPayload (status : D)
  | ScheduleResultPayload (week : Z) (userName : string) (courses : list D)
  | SubscriptionStatusPayload (info : option GroupSubInfo)
  | OperationStatusPayload (code status : string) (pushEnabled : option bool)
  | KnowledgeAnswerPayload (hits : list KnowledgeHit)
  | CapabilityAnswerPayload (domain : string) (userRole : Z) (conversationType : string).

Record ResponseOption := mkOption { ro_Label : string; ro_Value : string }.

Record ResponseModel := mkResponse {
  rm_Kind : string;
  rm_Operation : string;
  rm_Message : string;
  rm_Answer : string;
  rm_ClarifyReason : string;
  rm_MissingFields : list string;
  rm_Options : list ResponseOption;
  rm_ResultText : string;
  rm_RefusalReason : string;
  rm_BusinessError : string;
  rm_Payload : payload }.

Definition refuse (reason : string) : ResponseModel :=
  mkResponse ResponseRefuse "" "" "" "" [] [] "" reason "" NoPayload.
Definition result_payload (p : payload) : ResponseModel :=
  mkResponse ResponseResult "" "" "" "" [] [] "" "" "" p.
Definition answer_payload (p : payload) : ResponseModel :=
  mkResponse ResponseAnswer "" "" "" "" [] [] "" "" "" p.
Definition select_options (o : list ResponseOption) : ResponseModel :=
  mkResponse ResponseSelectOptions "" "" "" "" [] o "" "" "" NoPayload.

Definition missingOperationParamsResponse (operation : string) (fields : list string) : ResponseModel :=
  mkResponse ResponseClarify operation "" "" "" fields [] "" "" "" NoPayload.
Definition unavailableOperationResponse : ResponseModel := refuse "抱歉，我当前不能直接执行这个请求。".
Definition unsupportedOperationResponse : ResponseModel := refuse "抱歉，我当前不能直接执行这个请求。".
Definition operationErrorResponse : ResponseModel := refuse "执行请求时遇到问题，请稍后再试。".
Definition subscriptionConversationMismatchResponse : ResponseModel :=
  refuse "只能操作当前群聊的考勤订阅。请在对应群聊里再告诉我。".

Definition answerModeKnowledgeOnly : string := "knowledge-only".
Definition answerModeToolFirst : string := "tool-first".
Definition answerModeReject : string := "reject".

Record OperationExecutionMetrics := mkMetrics {
  em_ExecutorName : string;
  em_ToolPool : string;
  em_AnswerMode : string;
  em_RetrievalHitCount : Z;
  em_RetrievalCandidateCount : Z;
  em_SourceRefs : list string }.

Record OperationExecutionResult := mkExecResult {
  oe_Response : ResponseModel;
  oe_Metrics : OperationExecutionMetrics;
  oe_Effect : string }.

Definition operationExecutionResult (response : ResponseModel) (mode : string)
  : OperationExecutionResult :=
  mkExecResult response (mkMetrics "operation_executor" "operation" mode 0 0 []) "".
Definition operationWriteExecutionResult (response : ResponseModel) (mode effect : string)
  : OperationExecutionResult :=
  let r := operationExecutionResult response mode in
  mkExecResult (oe_Response r) (oe_Metrics r) effect.

Definition WriteStatusCreated : string := "created".
Definition WriteStatusAlreadyExists : string := "already_exists".
Definition WriteStatusUpdated : string := "updated".
Definition WriteStatusNoOp : string := "no_op".

Definition subscriptionStartMutationStatus (effect : string) : option (string * string) :=
  if eqs effect GroupSubWriteCreated then Some (WriteStatusCreated, WriteEffectCreated)
  else if eqs effect GroupSubWriteUpdated then Some (WriteStatusUpdated, WriteEffectUpdated)
  else if eqs effect GroupSubWriteNoOp then Some (WriteStatusAlreadyExists, WriteEffectNoOp)
  else None.
Definition subscriptionCancelMutationStatus (effect : string) : option (string * string) :=
  if eqs effect GroupSubWriteCancelled then Some (WriteStatusUpdated, WriteEffectCancelled)
  else if eqs effect GroupSubWriteNoOp then Some (WriteStatusNoOp, WriteEffectNoOp)
  else None.

Definition normalizedSubscriptionDeptIDs (ids : list Z) : list Z := sort_Z ids.
Definition sameSubscriptionDeptScope (left right : list Z) : bool :=
  bool_decide (normalizedSubscriptionDeptIDs left = normalizedSubscriptionDeptIDs right).

(** eval.go: [collectSourceRefs] *)
Definition source_ref (h : KnowledgeHit) : string :=
  if blank (kh_SourceRef h) then trim_space (kh_Title h) else trim_space (kh_SourceRef h).
Definition collectSourceRefs (hits : list KnowledgeHit) : list string :=
  List.filter (fun s => negb (eqs s "")) (List.map source_ref hits).

Definition operationExecutorKnowledgeTopK : Z := 3.

(** ** Executing: the computation of one operation

    An executor reads the world through the ports and always produces a
    result, so it is a function from the world to the result and the world
    after it. *)
Definition exec : Type := W -> OperationExecutionResult * W.
Definition finish (r : ResponseModel) (mode : string) : exec :=
  fun w => (operationExecutionResult r mode, w).
Definition missing (req : OperationRequest) (field : string) : exec :=
  finish (missingOperationParamsResponse (req_Operation req) [field]) answerModeToolFirst.
Definition unavailable : exec := finish unavailableOperationResponse answerModeReject.
(** the call of a port, whose error becomes the error response *)
Definition run {A} (c : call A) (k : A -> exec) : exec := fun w =>
  match c w with
  | (Ok a, w') => k a w'
  | (Err _, w') => finish operationErrorResponse answerModeReject w'
  end.

Section operations.
Context (deps : operationExecutorDeps).

Definition executeAttendanceUserDayQuery (req : OperationRequest) : exec :=
  match dep_AttendanceUserDayStatus deps with
  | None => unavailable
  | Some port =>
      match extractParamString (req_TrustedParams req) "date" with
      | None => missing req "date"
      | Some date =>
          match extractParamUint (req_TrustedParams req) "user_id" with
          | None => missing req "user_id"
          | Some userID =>
              run (port date userID) (fun status =>
                finish (result_payload (UserDayAttendanceStatusPayload status)) answerModeToolFirst)
          end
      end
  end.

Definition executeAttendanceQuery (req : OperationRequest) : exec :=
  let shape := default "" (extractParamString (req_TrustedParams req) "query_shape") in
  if eqs shape "user_day_status" then executeAttendanceUserDayQuery req
  else if negb (eqs shape "") && negb (eqs shape "slot_status") then
    finish unsupportedOperationResponse answerModeReject
  else match dep_Attendance deps with
  | None => unavailable
  | Some port =>
      match extractParamString (req_TrustedParams req) "date" with
      | None => missing req "date"
      | Some date =>
          match extractParamInt (req_TrustedParams req) "week" with
          | None => missing req "week"
          | Some week =>
              match extractParamInt (req_TrustedParams req) "section" with
              | None => missing req "section"
              | Some section =>
                  run (port date week section) (fun result =>
                    finish (result_payload (AttendanceStatusPayload result)) answerModeToolFirst)
              end
          end
      end
  end.

Definition executeMyScheduleQuery (req : OperationRequest) : exec :=
  match dep_Schedule deps with
  | None => unavailable
  | Some port =>
      if req_ActorUserID req =? 0 then unavailable
      else match extractParamInt (req_TrustedParams req) "week" with
      | None => missing req "week"
      | Some week =>
          run (ListMyScheduleByWeek port (req_ActorUserID req) week) (fun courses =>
            finish (result_payload (ScheduleResultPayload week "" courses)) answerModeToolFirst)
      end
  end.

Definition executeUserScheduleQuery (req : OperationRequest) : exec :=
  match dep_Schedule deps with
  | None => unavailable
  | Some port =>
      if req_ActorUserID req =? 0 then unavailable
      else match extractParamInt (req_TrustedParams req) "week" with
      | None => missing req "week"
      | Some week =>
          match extractParamUint (req_TrustedParams req) "user_id" with
          | None => missing req "user_id"
          | Some userID =>
              run (ListUserScheduleByWeek port (req_ActorUserID req) (operationRequestActorRole req)
                     userID week) (fun courses =>
                finish (result_payload (ScheduleResultPayload week "" courses)) answerModeToolFirst)
          end
      end
  end.

(** The checks a subscription operation makes before it calls the port: the
    refusal text for a conversation that is not a group, then the conversation
    the request names. *)
Definition foreign_conversation_type (req : OperationRequest) : bool :=
  let t := operationRequestConversationType req in negb (eqs t "") && negb (eqs t "2").
Definition with_conversation (req : OperationRequest) (k : string -> exec) : exec :=
  match extractParamString (req_TrustedParams req) "conversation_id" with
  | None => missing req "conversation_id"
  | Some conversationID =>
      if negb (eqs (req_ConversationID req) "")
         && negb (eqs conversationID (trim_space (req_ConversationID req)))
      then finish subscriptionConversationMismatchResponse answerModeReject
      else k conversationID
  end.

(** What the answer of the port to a start or a cancellation becomes. *)
Definition subscription_started (mutation : GroupSubMutationResult) : exec :=
  match subscriptionStartMutationStatus (gm_Effect mutation) with
  | None => finish operationErrorResponse answerModeReject
  | Some (status, effect) => fun w =>
      let pushEnabled := match gm_Subscription mutation with
                         | Some s => gs_PushEnabled s
                         | None => true
                         end in
      (operationWriteExecutionResult
         (result_payload (OperationStatusPayload "subscription_started" status (Some pushEnabled)))
         answerModeToolFirst effect, w)
  end.
Definition subscription_cancelled (mutation : GroupSubMutationResult) : exec :=
  match subscriptionCancelMutationStatus (gm_Effect mutation) with
  | None => finish operationErrorResponse answerModeReject
  | Some (status, effect) => fun w =>
      (operationWriteExecutionResult
         (result_payload (OperationStatusPayload "subscription_cancelled" status None))
         answerModeToolFirst effect, w)
  end.

Definition executeSubscriptionStart (req : OperationRequest) : exec :=
  match dep_GroupSub deps with
  | None => unavailable
  | Some port =>
      if foreign_conversation_type req then
        finish (refuse "群考勤订阅只能在群聊中开启。请在对应群聊里再告诉我。") answerModeReject
      else with_conversation req (fun conversationID =>
        match extractParamString (req_TrustedParams req) "scope" with
        | None => missing req "scope"
        | Some scope =>
            let subscribe deptIDs :=
              run (Subscribe port (req_TenantID req) conversationID
                     (operationRequestConversationTitle req) (req_ActorUserID req) deptIDs
                     (req_IdempotencyKey req)) subscription_started in
            if eqs scope "all" then subscribe []
            else if eqs scope "department" then
              match extractParamInt64Slice (req_TrustedParams req) "dept_ids" with
              | None => missing req "dept_ids"
              | Some deptIDs => subscribe deptIDs
              end
            else finish (refuse "订阅范围只能是全部人员或指定部门。请重新说明要订阅的范围。")
                   answerModeReject
        end)
  end.

Definition executeSubscriptionCancel (req : OperationRequest) : exec :=
  match dep_GroupSub deps with
  | None => unavailable
  | Some port =>
      if foreign_conversation_type req then
        finish (refuse "群考勤订阅只能在群聊中取消。请在对应群聊里再告诉我。") answerModeReject
      else with_conversation req (fun conversationID =>
        run (Unsubscribe port (req_TenantID req) conversationID (req_IdempotencyKey req))
          subscription_cancelled)
  end.

Definition executeSubscriptionStatus (req : OperationRequest) : exec :=
  if foreign_conversation_type req then
    finish (refuse "群考勤订阅状态只能在群聊中查询。请在对应群聊里再问我。") answerModeReject
  else match dep_GroupSub deps with
  | None => unavailable
  | Some port =>
      with_conversation req (fun conversationID =>
        run (GetSubscription port (req_TenantID req) conversationID) (fun info =>
          finish (result_payload (SubscriptionStatusPayload info)) answerModeToolFirst))
  end.

Definition executeListDepartments : exec :=
  match dep_Dept deps with
  | None => unavailable
  | Some listDepts =>
      run listDepts (fun depts =>
        let named := List.filter (fun d => negb (blank (dept_Name d))) depts in
        finish (select_options
                  (List.map (fun d => mkOption (trim_space (dept_Name d)) (itoa (dept_DeptID d))) named))
          answerModeToolFirst)
  end.

Definition executeRuleExplain (req : OperationRequest) : exec :=
  match dep_Knowledge deps with
  | None => unavailable
  | Some search =>
      if req_TenantID req =? 0 then unavailable
      else match extractParamString (req_TrustedParams req) "rule_topic" with
      | None => missing req "rule_topic"
      | Some topic =>
          run (search (req_TenantID req) topic operationExecutorKnowledgeTopK) (fun hits w =>
            match hits with
            | [] =>
                (operationExecutionResult
                   (mkResponse ResponseAnswer "" "" "" "" [] [] "" "" "no_knowledge_hit" NoPayload)
                   answerModeKnowledgeOnly, w)
            | _ =>
                let n := Z.of_nat (length hits) in
                (mkExecResult (answer_payload (KnowledgeAnswerPayload hits))
                   (mkMetrics "operation_executor" "operation" answerModeKnowledgeOnly n n
                      (collectSourceRefs hits)) "", w)
            end)
      end
  end.

Definition executeCapabilityOperation (manifest : OperationManifest) (req : OperationRequest) : exec :=
  finish (answer_payload (CapabilityAnswerPayload (om_Domain manifest) (operationRequestActorRole req)
                            (operationRequestConversationType req))) answerModeToolFirst.

(** The executor bound to a binding name. *)
Definition operationExecutorBindings (name : string)
  : option (OperationManifest -> OperationRequest -> exec) :=
  if existsb (eqs name)
       [ExecutorBindingSystemDescribeCapability; ExecutorBindingAttendanceDescribeCapability;
        ExecutorBindingScheduleDescribeCapability; ExecutorBindingSubscriptionDescribeCapability;
        ExecutorBindingManualSignDescribeCapability]
  then Some executeCapabilityOperation
  else if eqs name ExecutorBindingAttendanceQueryStatus then Some (fun _ => executeAttendanceQuery)
  else if existsb (eqs name)
            [ExecutorBindingAttendanceRuleExplain; ExecutorBindingScheduleRuleExplain;
             ExecutorBindingSubscriptionRuleExplain]
  then Some (fun _ => executeRuleExplain)
  else if eqs name ExecutorBindingScheduleQueryMySchedule then Some (fun _ => executeMyScheduleQuery)
  else if eqs name ExecutorBindingScheduleQueryUserSchedule then Some (fun _ => executeUserScheduleQuery)
  else if eqs name ExecutorBindingSubscriptionStart then Some (fun _ => executeSubscriptionStart)
  else if eqs name ExecutorBindingSubscriptionCancel then Some (fun _ => executeSubscriptionCancel)
  else if eqs name ExecutorBindingSubscriptionQueryStatus then Some (fun _ => executeSubscriptionStatus)
  else if eqs name ExecutorBindingSubscriptionListDepartments
  then Some (fun _ _ => executeListDepartments)
  else None.

(** [operationExecutor.Execute] *)
Definition Execute (req : OperationRequest) : exec :=
  match lookupOperation (req_Operation req) with
  | None => finish unsupportedOperationResponse answerModeReject
  | Some manifest =>
      match operationExecutorBindings (executor_Name (om_Executor manifest)) with
      | None => finish unsupportedOperationResponse answerModeReject
      | Some binding => binding manifest req
      end
  end.

End operations.
(** ** Properties *)

(** The same ports with other mutations. *)
Definition with_mutations sub unsub (deps : operationExecutorDeps) : operationExecutorDeps :=
  mkDeps (dep_Schedule deps) (dep_Attendance deps) (dep_AttendanceUserDayStatus deps)
    ((fun p => mkGroupSubPort sub unsub (GetSubscription p)) <$> dep_GroupSub deps)
    (dep_Dept deps) (dep_Knowledge deps).

(** An execution that mutates no subscription: its result has no write effect
    and would be the same over a port with any other mutations. *)
Definition no_mutation (deps : operationExecutorDeps) (req : OperationRequest) (w : W) : Prop :=
  oe_Effect (Execute deps req w).1 = ""
  /\ forall sub unsub, Execute (with_mutations sub unsub deps) req w = Execute deps req w.

(** The conversation of a request whose two notions of it agree. *)
Definition request_conversation (req : OperationRequest) (conversationID : string) : Prop :=
  extractParamString (req_TrustedParams req) "conversation_id" = Some conversationID
  /\ (req_ConversationID req = "" \/ conversationID = trim_space (req_ConversationID req)).

(** The departments a start subscribes: none for everybody. *)
Definition request_departments (req : OperationRequest) (deptIDs : list Z) : Prop :=
  (extractParamString (req_TrustedParams req) "scope" = Some "all" /\ deptIDs = [])
  \/ (extractParamString (req_TrustedParams req) "scope" = Some "department"
      /\ extractParamInt64Slice (req_TrustedParams req) "dept_ids" = Some deptIDs).

(** The outcome of one request: one subscribe call, one unsubscribe call, or no
    mutation. *)
Inductive one_mutation (deps : operationExecutorDeps) (req : OperationRequest) (w : W) : Prop :=
  | one_subscribe port conversationID deptIDs :
      req_Operation req = "subscription.start" -> dep_GroupSub deps = Some port ->
      request_conversation req conversationID -> request_departments req deptIDs ->
      Execute deps req w
      = run (Subscribe port (req_TenantID req) conversationID (operationRequestConversationTitle req)
               (req_ActorUserID req) deptIDs (req_IdempotencyKey req)) subscription_started w ->
      one_mutation deps req w
  | one_unsubscribe port conversationID :
      req_Operation req = "subscription.cancel" -> dep_GroupSub deps = Some port ->
      request_conversation req conversationID ->
      Execute deps req w
      = run (Unsubscribe port (req_TenantID req) conversationID (req_IdempotencyKey req))
          subscription_cancelled w ->
      one_mutation deps req w
  | no_mutation_call : no_mutation deps req w -> one_mutation deps req w.

(** An executor that calls no mutation of the subscription port. *)
Definition reads (f : operationExecutorDeps -> exec) : Prop := forall deps w,
  oe_Effect (f deps w).1 = "" /\ forall sub unsub, f (with_mutations sub unsub deps) w = f deps w.

Lemma reads_finish r mode : reads (fun _ => finish r mode).
Proof. done. Qed.

Lemma reads_run {A} (c : call A) (k : A -> exec) :
  (forall a w, oe_Effect (k a w).1 = "") -> reads (fun _ => run c k).
Proof. intros Hk deps w. split; [|done]. unfold run. destruct (c w) as [[a|e] w']; [apply Hk|done]. Qed.

Ltac reads_case :=
  match goal with
  | |- oe_Effect (run _ _ _).1 = "" => apply reads_run; [|exact (mkDeps None None None None None None)]; intros
  | |- context [ match ?x with Some _ => _ | None => _ end ] => destruct x
  | |- context [ if ?b then _ else _ ] => destruct b
  end.

Lemma reads_capability m req : reads (fun deps => executeCapabilityOperation m req).
Proof. done. Qed.
Lemma reads_attendance req : reads (fun deps => executeAttendanceQuery deps req).
Proof.
  intros deps w. split; [|done].
  unfold executeAttendanceQuery, executeAttendanceUserDayQuery. by repeat reads_case.
Qed.
Lemma reads_my_schedule req : reads (fun deps => executeMyScheduleQuery deps req).
Proof. intros deps w. split; [|done]. unfold executeMyScheduleQuery. by repeat reads_case. Qed.
Lemma reads_user_schedule req : reads (fun deps => executeUserScheduleQuery deps req).
Proof. intros deps w. split; [|done]. unfold executeUserScheduleQuery. by repeat reads_case. Qed.
Lemma reads_status req : reads (fun deps => executeSubscriptionStatus deps req).
Proof.
  intros deps w. split.
  - unfold executeSubscriptionStatus, with_conversation. by repeat reads_case.
  - intros sub unsub. unfold executeSubscriptionStatus. cbn. by destruct (dep_GroupSub deps).
Qed.
Lemma reads_departments : reads (fun deps => executeListDepartments deps).
Proof. intros deps w. split; [|done]. unfold executeListDepartments. by repeat reads_case. Qed.
Lemma reads_rule req : reads (fun deps => executeRuleExplain deps req).
Proof.
  intros deps w. split; [|done]. unfold executeRuleExplain. by repeat reads_case.
Qed.

(** The conversation check either refuses or goes on with the request's conversation. *)
Lemma with_conversation_cases req :
  (exists c, request_conversation req c /\ forall k, with_conversation req k = k c)
  \/ (exists r mode, forall k, with_conversation req k = finish r mode).
Proof.
  unfold with_conversation.
  destruct (extractParamString (req_TrustedParams req) "conversation_id") as [c|] eqn:Ec;
    [|right; by eexists _, _].
  destruct (negb (eqs (req_ConversationID req) "") && _) eqn:E; [right; by eexists _, _|].
  left. exists c. split; [|done]. split; [done|].
  apply andb_false_iff in E. rewrite !negb_false_iff, !eqs_true in E. done.
Qed.

Lemma no_mutation_reads f deps req w :
  (forall d, Execute d req = f d) -> reads f -> no_mutation deps req w.
Proof.
  intros He Hf. destruct (Hf deps w) as [H1 H2].
  split; [by rewrite He|]. intros. rewrite !He. apply H2.
Qed.

(** A refusal that only depends on whether there is a subscription port. *)
Lemma no_mutation_refusal f deps req w r mode :
  (forall d, Execute d req = f d) ->
  (forall d, is_Some (dep_GroupSub d) <-> is_Some (dep_GroupSub deps) -> f d = finish r mode) ->
  no_mutation deps req w.
Proof.
  intros He Hf. split; [rewrite He, Hf; done|].
  intros. rewrite !He, !Hf; [done|done|]. cbn. by rewrite fmap_is_Some.
Qed.

Ltac refusal f He :=
  apply no_mutation_call; eapply (no_mutation_refusal f); [exact He|];
  let d := fresh "d" in let Hd := fresh "Hd" in intros d Hd; unfold f.

Lemma start_one_mutation deps req w :
  req_Operation req = "subscription.start" -> one_mutation deps req w.
Proof.
  intros Hop.
  assert (forall d, Execute d req = executeSubscriptionStart d req) as He.
  { intros d. unfold Execute. rewrite Hop. reflexivity. }
  set (f := fun d => executeSubscriptionStart d req).
  destruct (dep_GroupSub deps) as [port|] eqn:Hp.
  2:{ refusal f He. unfold executeSubscriptionStart. rewrite Hp in Hd.
      destruct (dep_GroupSub d); [|reflexivity]. by destruct (proj1 Hd (mk_is_Some _ _ eq_refl)). }
  assert (forall d, is_Some (dep_GroupSub d) <-> is_Some (dep_GroupSub deps) -> exists p, dep_GroupSub d = Some p)
    as Hsome.
  { intros d Hd. rewrite Hp in Hd. destruct (proj2 Hd (mk_is_Some _ _ eq_refl)) as [p Hpd]. by exists p. }
  destruct (foreign_conversation_type req) eqn:Hf.
  { refusal f He. destruct (Hsome d Hd) as [p Hpd]. unfold executeSubscriptionStart.
    rewrite Hpd, Hf. reflexivity. }
  destruct (with_conversation_cases req) as [(c & Hc & Hk)|(r & mode & Hk)].
  2:{ refusal f He. destruct (Hsome d Hd) as [p Hpd]. unfold executeSubscriptionStart.
      rewrite Hpd, Hf, Hk. reflexivity. }
  destruct (extractParamString (req_TrustedParams req) "scope") as [scope|] eqn:Hs.
  2:{ refusal f He. destruct (Hsome d Hd) as [p Hpd]. unfold executeSubscriptionStart.
      rewrite Hpd, Hf, Hk, Hs. reflexivity. }
  destruct (eqs scope "all") eqn:Ha.
  { apply (one_subscribe _ _ _ port c []); try done.
    - left. apply eqs_true in Ha. by subst.
    - rewrite He. unfold executeSubscriptionStart. by rewrite Hp, Hf, Hk, Hs, Ha. }
  destruct (eqs scope "department") eqn:Hde.
  2:{ refusal f He. destruct (Hsome d Hd) as [p Hpd]. unfold executeSubscriptionStart.
      rewrite Hpd, Hf, Hk, Hs, Ha, Hde. reflexivity. }
  destruct (extractParamInt64Slice (req_TrustedParams req) "dept_ids") as [ids|] eqn:Hi.
  2:{ refusal f He. destruct (Hsome d Hd) as [p Hpd]. unfold executeSubscriptionStart.
      rewrite Hpd, Hf, Hk, Hs, Ha, Hde, Hi. reflexivity. }
  apply (one_subscribe _ _ _ port c ids); try done.
  - right. apply eqs_true in Hde. by subst.
  - rewrite He. unfold executeSubscriptionStart. by rewrite Hp, Hf, Hk, Hs, Ha, Hde, Hi.
Qed.

Lemma cancel_one_mutation deps req w :
  req_Operation req = "subscription.cancel" -> one_mutation deps req w.
Proof.
  intros Hop.
  assert (forall d, Execute d req = executeSubscriptionCancel d req) as He.
  { intros d. unfold Execute. rewrite Hop. reflexivity. }
  set (f := fun d => executeSubscriptionCancel d req).
  destruct (dep_GroupSub deps) as [port|] eqn:Hp.
  2:{ refusal f He. unfold executeSubscriptionCancel. rewrite Hp in Hd.
      destruct (dep_GroupSub d); [|reflexivity]. by destruct (proj1 Hd (mk_is_Some _ _ eq_refl)). }
  assert (forall d, is_Some (dep_GroupSub d) <-> is_Some (dep_GroupSub deps) -> exists p, dep_GroupSub d = Some p)
    as Hsome.
  { intros d Hd. rewrite Hp in Hd. destruct (proj2 Hd (mk_is_Some _ _ eq_refl)) as [p Hpd]. by exists p. }
  destruct (foreign_conversation_type req) eqn:Hf.
  { refusal f He. destruct (Hsome d Hd) as [p Hpd]. unfold executeSubscriptionCancel.
    rewrite Hpd, Hf. reflexivity. }
  destruct (with_conversation_cases req) as [(c & Hc & Hk)|(r & mode & Hk)].
  2:{ refusal f He. destruct (Hsome d Hd) as [p Hpd]. unfold executeSubscriptionCancel.
      rewrite Hpd, Hf, Hk. reflexivity. }
  apply (one_unsubscribe _ _ _ port c); try done.
  rewrite He. unfold executeSubscriptionCancel. by rewrite Hp, Hf, Hk.
Qed.

Lemma read_no_mutation deps req w m :
  lookupOperation (req_Operation req) = Some m ->
  om_Name m <> "subscription.start" -> om_Name m <> "subscription.cancel" ->
  no_mutation deps req w.
Proof.
  intros Hm H1 H2. pose proof Hm as [Hin _]%lookupOperation_elem. unfold operationCatalogEntries in Hin.
  repeat (apply elem_of_cons in Hin as [E|Hin];
    [rewrite E in *; try (exfalso; by apply H1); try (exfalso; by apply H2);
     first
      [ eapply no_mutation_reads; [intros d; unfold Execute; rewrite Hm; reflexivity|apply reads_capability]
      | eapply no_mutation_reads; [intros d; unfold Execute; rewrite Hm; reflexivity|apply reads_attendance]
      | eapply no_mutation_reads; [intros d; unfold Execute; rewrite Hm; reflexivity|apply reads_rule]
      | eapply no_mutation_reads; [intros d; unfold Execute; rewrite Hm; reflexivity|apply reads_my_schedule]
      | eapply no_mutation_reads; [intros d; unfold Execute; rewrite Hm; reflexivity|apply reads_user_schedule]
      | eapply no_mutation_reads; [intros d; unfold Execute; rewrite Hm; reflexivity|apply reads_status]
      | eapply no_mutation_reads; [intros d; unfold Execute; rewrite Hm; reflexivity|apply reads_departments] ]
    |]).
  by apply elem_of_nil in Hin.
Qed.

Lemma execute_cases deps req w : one_mutation deps req w.
Proof.
  destruct (lookupOperation (req_Operation req)) as [m|] eqn:Hm.
  2:{ apply no_mutation_call. eapply no_mutation_reads; [|apply reads_finish].
      intros d. unfold Execute. rewrite Hm. reflexivity. }
  pose proof (lookupOperation_name _ _ Hm) as Hn.
  destruct (decide (om_Name m = "subscription.start")) as [H1|H1]; [apply start_one_mutation; congruence|].
  destruct (decide (om_Name m = "subscription.cancel")) as [H2|H2]; [apply cancel_one_mutation; congruence|].
  apply no_mutation_call. by eapply read_no_mutation.
Qed.

(** A subscription write either calls its mutation or ends without a call of any
    port. *)
Inductive write_execution (deps : operationExecutorDeps) (req : OperationRequest) (w : W) : Prop :=
  | write_subscribes port conversationID deptIDs :
      req_Operation req = "subscription.start" -> dep_GroupSub deps = Some port ->
      request_conversation req conversationID -> request_departments req deptIDs ->
      Execute deps req w
      = run (Subscribe port (req_TenantID req) conversationID (operationRequestConversationTitle req)
               (req_ActorUserID req) deptIDs (req_IdempotencyKey req)) subscription_started w ->
      write_execution deps req w
  | write_unsubscribes port conversationID :
      req_Operation req = "subscription.cancel" -> dep_GroupSub deps = Some port ->
      request_conversation req conversationID ->
      Execute deps req w
      = run (Unsubscribe port (req_TenantID req) conversationID (req_IdempotencyKey req))
          subscription_cancelled w ->
      write_execution deps req w
  | write_refused r mode : Execute deps req w = finish r mode w -> write_execution deps req w.

Lemma execute_write_cases deps req w :
  req_Operation req = "subscription.start" \/ req_Operation req = "subscription.cancel" ->
  write_execution deps req w.
Proof.
  intros [Hop|Hop].
  - assert (Execute deps req w = executeSubscriptionStart deps req w) as E
      by (unfold Execute; rewrite Hop; reflexivity).
    unfold executeSubscriptionStart in E. destruct (dep_GroupSub deps) as [port|] eqn:Hp; [|by eapply write_refused].
    case_if_in E; [by eapply write_refused|].
    destruct (with_conversation_cases req) as [(c & Hc & Hk)|(r & mode & Hk)]; rewrite Hk in E;
      [|by eapply write_refused].
    destruct (extractParamString (req_TrustedParams req) "scope") as [scope|] eqn:Hs; [|by eapply write_refused].
    case_if_in E; [apply eqs_true in E1 as ->; by apply (write_subscribes _ _ _ port c []); [..|left|]|].
    case_if_in E; [|by eapply write_refused]. apply eqs_true in E2 as ->.
    destruct (extractParamInt64Slice (req_TrustedParams req) "dept_ids") as [ids|] eqn:Hi; [|by eapply write_refused].
    by apply (write_subscribes _ _ _ port c ids); [..|right|].
  - assert (Execute deps req w = executeSubscriptionCancel deps req w) as E
      by (unfold Execute; rewrite Hop; reflexivity).
    unfold executeSubscriptionCancel in E. destruct (dep_GroupSub deps) as [port|] eqn:Hp; [|by eapply write_refused].
    case_if_in E; [by eapply write_refused|].
    destruct (with_conversation_cases req) as [(c & Hc & Hk)|(r & mode & Hk)]; rewrite Hk in E;
      [|by eapply write_refused].
    by apply (write_unsubscribes _ _ _ port c).
Qed.

(** Executing a request calls at most one mutation of the subscription
    port, once: a start subscribes the request's conversation to its
    departments under its idempotency key, a cancellation unsubscribes it, and
    nothing else mutates; a write effect is only reported with a result
    response, and is one of the four known effects. *)
Theorem execute_one_mutation deps req w :
  one_mutation deps req w
  /\ (oe_Effect (Execute deps req w).1 <> "" ->
      rm_Kind (oe_Response (Execute deps req w).1) = ResponseResult
      /\ oe_Effect (Execute deps req w).1 ∈ writeEffects).
Proof.
  split; [apply execute_cases|].
  destruct (execute_cases deps req w) as [port c ids _ _ _ _ E|port c _ _ _ E|[E _]]; rewrite E; [| |done].
  - unfold run. destruct (Subscribe _ _ _ _ _ _ _ _) as [[mu|e] w']; [|done].
    unfold subscription_started, subscriptionStartMutationStatus. repeat case_if; try done;
      intros _; (split; [done|unfold writeEffects; set_solver]).
  - unfold run. destruct (Unsubscribe _ _ _ _ _) as [[mu|e] w']; [|done].
    unfold subscription_cancelled, subscriptionCancelMutationStatus. repeat case_if; try done;
      intros _; (split; [done|unfold writeEffects; set_solver]).
Qed.

End executor.

Arguments operationExecutorDeps : clear implicits.
Arguments payload : clear implicits.
Arguments ResponseModel : clear implicits.
Arguments OperationExecutionResult : clear implicits.
Arguments GroupSubPort : clear implicits.
Arguments SchedulePort : clear implicits.
