(* ===== verification/Outcome.v ===== *)
(** * Turn outcomes and live execution

    internal/agent/protocol_live_pipeline.go (the outcome record),
    protocol_live_outcome.go (how an outcome is filled in and finalised) and
    protocol_live_execution.go (the gates a request passes before a read is
    executed or a write is prepared). *)
From Stdlib Require Import ZArith QArith Lia Bool String.
From stdpp Require Import base list strings gmap.
From coqutil Require Import Datatypes.RecordSettersUsingExistingGetters.
From S2P Require Import Prelude GoStrings Contract Codec Catalog Request Policy Workflow.
From S2P Require Import BusinessKey Executor.
Import RecordSetNotations1.

#[local] Open Scope go_scope.

(** ** Data *)

Definition FailureIntent : string := "intent_failed".
Definition FailureCatalog : string := "catalog_failed".
Definition FailureWorkflow : string := "workflow_failed".
Definition FailureEntityAmbiguous : string := "entity_ambiguous".
Definition FailureEntityNotFound : string := "entity_not_found".
Definition FailurePrePolicyDenied : string := "pre_policy_denied".
Definition FailureResourcePolicyDenied : string := "resource_policy_denied".
Definition FailureWriteGuardBlocked : string := "write_guard_blocked".
Definition FailureExecutor : string := "executor_failed".

Definition ResolveResolved : string := "resolved".
Definition ResolveAmbiguous : string := "ambiguous".
Definition ResolveNotFound : string := "not_found".

Record preparedWriteExecution := mkPrepared {
  pw_Request : OperationRequest; pw_BusinessKey : string; pw_ClearWorkflowOnSuccess : bool }.

Section outcome.
Context {W D : Type}.

(** [WorkflowDecision] is [None] for the empty string. *)
Record protocolLiveOutcome := mkOutcome {
  po_RequestID : string;
  po_Draft : ProtocolDraft;
  po_Validation : ProtocolValidationResult;
  po_Response : ResponseModel D;
  po_ExecutionMetrics : OperationExecutionMetrics;
  po_AnswerMode : string;
  po_BlockedReason : string;
  po_CompilerStatus : string;
  po_CompilerSource : string;
  po_CompilerFallbackReason : string;
  po_CompilerCandidateCount : Z;
  po_LLMInvoked : bool;
  po_LLMAttempts : Z;
  po_CompilerLatencyMs : Z;
  po_IntentDraftJSON : string;
  po_CatalogValidationCode : string;
  po_ResolvedSlots : gmap string value;
  po_CandidateCount : Z;
  po_IdempotencyKey : string;
  po_EntityResolutionStatus : string;
  po_PrePolicyResult : string;
  po_ResourcePolicyResult : string;
  po_WriteGuardResult : string;
  po_ExecutorStatus : string;
  po_RendererName : string;
  po_FailureLayer : string;
  po_LegacyCalled : bool;
  po_WorkflowDecision : option WorkflowDecision;
  po_WorkflowInterruptReason : string;
  po_WorkflowAfter : option WorkflowSnapshot;
  po_ClearWorkflow : bool;
  po_PreparedWrite : option preparedWriteExecution
}.

(** [protocolLiveOutcome{}] *)
Definition zero_outcome : protocolLiveOutcome :=
  mkOutcome "" (mkIntentDraft "" "" "" (0 # 1) ∅ "" ∅ [] "") (mkValidation false "" false false "")
    (mkResponse "" "" "" "" "" [] [] "" "" "" NoPayload) (mkMetrics "" "" "" 0 0 []) "" "" "" "" "" 0
    false 0 0 "" "" ∅ 0 "" "" "" "" "" "" "" "" false None "" None false None.

(** ** Filling in an outcome *)

Definition protocolResponseBlockedReason (response : ResponseModel D)
    (validation : ProtocolValidationResult) : string :=
  if eqs (rm_Kind response) ResponseClarify then
    match rm_MissingFields response with
    | f :: _ => "missing_" +:+ f
    | [] =>
        let reason := trim_space (rm_ClarifyReason response) in
        if negb (eqs reason "") then reason
        else if negb (eqs (pv_ValidationCode validation) "") && negb (pv_AllowExecution validation)
        then pv_ValidationCode validation else ""
    end
  else if eqs (rm_Kind response) ResponseRefuse then
    if negb (eqs (pv_ValidationCode validation) "") then pv_ValidationCode validation else "refused"
  else "".

Definition setProtocolOutcomeResponse (response : ResponseModel D) (mode : string)
    (o : protocolLiveOutcome) : protocolLiveOutcome :=
  let o := o <| po_Response := response |> <| po_AnswerMode := mode |> in
  let o := if eqs (po_BlockedReason o) ""
           then o <| po_BlockedReason := protocolResponseBlockedReason response (po_Validation o) |>
           else o in
  if po_CandidateCount o =? 0
  then o <| po_CandidateCount := Z.of_nat (length (rm_Options response)) |> else o.

Definition protocolExecutorStatus (response : ResponseModel D) : string :=
  if existsb (eqs (rm_Kind response)) [ResponseResult; ResponseAnswer; ResponseSelectOptions]
  then "success"
  else if eqs (rm_Kind response) ResponseRefuse then "failed"
  else if existsb (eqs (rm_Kind response)) [ResponseClarify; ResponseConfirm] then "skipped"
  else "".

(** Later slots win. *)
Definition mergeProtocolResolvedSlots (base next : gmap string value) : gmap string value :=
  next ∪ base.

Definition resolved_slot_fields : list string :=
  ["date"; "week"; "section"; "user_id"; "scope"; "dept_ids"; "rule_topic"; "query_shape"].
Definition protocolResolvedSlotsFromParams (ps : gmap string TrustedParam) : gmap string value :=
  tp_Value <$> filter (fun p : string * TrustedParam => p.1 ∈ resolved_slot_fields) ps.

(** ** Finalising an outcome *)

Definition protocolPrePolicyResult (v : ProtocolValidationResult) : string :=
  if pv_AllowExecution v || eqs (pv_ResponseKind v) ResponseAnswer || pv_UseActiveWorkflow v
  then "allow"
  else if blank (pv_ValidationCode v) then "" else "deny:" +:+ pv_ValidationCode v.

Definition protocolEntityResolutionStatus (o : protocolLiveOutcome) : string :=
  if negb (bool_decide (po_ResolvedSlots o = ∅)) then ResolveResolved
  else if eqs (rm_Kind (po_Response o)) ResponseSelectOptions || (0 <? po_CandidateCount o)
  then ResolveAmbiguous
  else if has_prefix (po_BlockedReason o) "missing_" then ResolveNotFound
  else "not_required".

Definition protocolWriteGuardResult (o : protocolLiveOutcome) : string :=
  match lookupOperation (draft_Operation (po_Draft o)) with
  | None => "not_evaluated"
  | Some m =>
      if negb (om_IsWrite m) then "not_required"
      else if negb (blank (po_IdempotencyKey o))
              && negb (eqs (po_FailureLayer o) FailureWriteGuardBlocked) then "allow"
      else if eqs (po_FailureLayer o) FailureWriteGuardBlocked
      then "block:" +:+ po_BlockedReason o
      else "not_evaluated"
  end.

Definition firstNonEmpty (values : list string) : string :=
  match List.filter (fun v => negb (blank v)) values with
  | v :: _ => trim_space v
  | [] => ""
  end.

Definition inferFailureLayer (o : protocolLiveOutcome) : string :=
  let kind := rm_Kind (po_Response o) in
  if eqs kind ResponseResult || eqs kind ResponseAnswer then ""
  else
    let reason := firstNonEmpty [po_BlockedReason o; pv_ValidationCode (po_Validation o)] in
    let one_of := existsb (eqs reason) in
    if one_of [""; "missing_scope"; "subscription_missing_fields"] then ""
    else if one_of ["empty_message"; "unknown_intent"; "intent_parse_failed"; "intent_timeout";
                    "intent_compiler_unavailable"] then FailureIntent
    else if one_of ["operation_not_allowed"; "act_operation_mismatch"; "read_query_cannot_write";
                    "write_request_cannot_read"; "unsupported_act"; "domain_operation_mismatch"]
    then FailureCatalog
    else if one_of ["workflow_missing"; "workflow_operation_mismatch"; "workflow_store_failed";
                    "subscription_invalid_shape"] then FailureWorkflow
    else if one_of ["role_denied"; "conversation_scope_denied"] then FailurePrePolicyDenied
    else if one_of ["subscription_conversation_mismatch"; "schedule_user_visibility_denied";
                    "department_scope_denied"; "department_scope_unverified"; "group_chat_required";
                    "subscription_scope_invalid"] then FailureResourcePolicyDenied
    else if one_of ["write_confirmation_required"; "idempotency_key_missing"]
    then FailureWriteGuardBlocked
    else if contains reason "ambiguous" then FailureEntityAmbiguous
    else if contains reason "not_found" || has_prefix reason "missing_user"
            || has_prefix reason "missing_dept" then FailureEntityNotFound
    else if eqs kind ResponseRefuse then FailureExecutor
    else "".

(** Set a field that is still empty. *)
Definition or_else (current fallback : string) : string :=
  if eqs current "" then fallback else current.

(** [freshID] is what [newProtocolLiveRequestID] would answer. *)
Definition finalizeProtocolLiveOutcome (freshID : string) (o : protocolLiveOutcome)
  : protocolLiveOutcome :=
  let o := o <| po_RequestID := or_else (po_RequestID o) freshID |> in
  let o := o <| po_RendererName := or_else (po_RendererName o) "response_renderer" |> in
  let o := o <| po_CatalogValidationCode :=
                  or_else (po_CatalogValidationCode o) (pv_ValidationCode (po_Validation o)) |> in
  let o := o <| po_PrePolicyResult :=
                  or_else (po_PrePolicyResult o) (protocolPrePolicyResult (po_Validation o)) |> in
  let o := o <| po_ResourcePolicyResult := or_else (po_ResourcePolicyResult o) "not_evaluated" |> in
  let o := o <| po_WorkflowDecision :=
                  match po_WorkflowDecision o with None => Some WorkflowSingleTurn | d => d end |> in
  let o := o <| po_BlockedReason :=
                  or_else (po_BlockedReason o)
                    (protocolResponseBlockedReason (po_Response o) (po_Validation o)) |> in
  let o := o <| po_EntityResolutionStatus :=
                  or_else (po_EntityResolutionStatus o) (protocolEntityResolutionStatus o) |> in
  let o := o <| po_WriteGuardResult :=
                  or_else (po_WriteGuardResult o) (protocolWriteGuardResult o) |> in
  let o := o <| po_ExecutorStatus :=
                  or_else (po_ExecutorStatus o) (protocolExecutorStatus (po_Response o)) |> in
  o <| po_FailureLayer := or_else (po_FailureLayer o) (inferFailureLayer o) |>.

(** ** Live execution *)

Definition message_response (kind message : string) : ResponseModel D :=
  mkResponse kind "" message "" "" [] [] "" "" "" NoPayload.
Definition refusal_response (kind reason : string) : ResponseModel D :=
  mkResponse kind "" "" "" "" [] [] "" reason "" NoPayload.

Definition preparedWriteResponse (operation : string) : ResponseModel D :=
  if eqs operation "subscription.start" then
    result_payload (OperationStatusPayload "subscription_started" WriteStatusCreated None)
  else if eqs operation "subscription.cancel" then
    result_payload (OperationStatusPayload "subscription_cancelled" WriteStatusUpdated None)
  else refuse "当前写操作暂不支持安全执行。".

Definition resourceRefusalText (reason : string) : string :=
  if eqs reason "subscription_conversation_mismatch" then
    "只能操作当前群聊的考勤订阅。请在对应群聊里再告诉我。"
  else if eqs reason "schedule_user_visibility_denied" then "抱歉，你当前不能查看该用户的课表。"
  else if eqs reason "department_scope_denied" then "只能选择当前租户可访问的部门。请重新选择部门。"
  else if eqs reason "group_chat_required" then "该操作只能在群聊中使用。请在对应群聊里再告诉我。"
  else "抱歉，我当前不能直接执行这个请求。".

Definition writeGuardResponseText (reason : string) : string :=
  if eqs reason "write_confirmation_required" then "请确认是否执行该写操作。"
  else "抱歉，我当前不能直接执行这个请求。".

Definition add_resolved_slots (req : OperationRequest) (o : protocolLiveOutcome)
  : protocolLiveOutcome :=
  if bool_decide (req_TrustedParams req = ∅) then o
  else o <| po_ResolvedSlots :=
              mergeProtocolResolvedSlots (po_ResolvedSlots o)
                (protocolResolvedSlotsFromParams (req_TrustedParams req)) |>.

Definition or_refuse (kind : string) : string := if eqs kind "" then ResponseRefuse else kind.

(** The write branch of [execute]: guard, business key, prepared write. *)
Definition prepare_write (other : value -> string) (uctx : option UserContext)
    (manifest : OperationManifest) (req : OperationRequest) (o : protocolLiveOutcome)
  : protocolLiveOutcome :=
  let guard := Check_write other
                 (mkGuardInput uctx manifest req (po_WorkflowAfter o) false) in
  let o := o <| po_IdempotencyKey := wgr_IdempotencyKey guard |> in
  let req := with_key (wgr_IdempotencyKey guard) req in
  if negb (wgr_Allow guard) then
    let o := o <| po_WriteGuardResult := "block:" +:+ wgr_BlockedReason guard |>
               <| po_FailureLayer := FailureWriteGuardBlocked |> in
    let o := setProtocolOutcomeResponse
               (message_response (or_refuse (wgr_ResponseKind guard))
                  (writeGuardResponseText (wgr_BlockedReason guard))) answerModeReject o in
    o <| po_BlockedReason := wgr_BlockedReason guard |>
  else
    let o := o <| po_WriteGuardResult := "allow" |> in
    match subscriptionBusinessKeyForRequest req with
    | Err _ =>
        let o := o <| po_FailureLayer := FailureWriteGuardBlocked |>
                   <| po_WriteGuardResult := "block:invalid_business_key" |>
                   <| po_BlockedReason := "invalid_business_key" |> in
        setProtocolOutcomeResponse
          (message_response ResponseRefuse "写操作参数校验失败，请重新发起请求。") answerModeReject o
    | Ok businessKey =>
        let req := with_key businessKey req in
        let o := o <| po_IdempotencyKey := businessKey |>
                   <| po_PreparedWrite := Some (mkPrepared req businessKey false) |> in
        let o := setProtocolOutcomeResponse (preparedWriteResponse (req_Operation req))
                   answerModeToolFirst o in
        add_resolved_slots req (o <| po_ExecutorStatus := "prepared" |>)
    end.

(** [protocolLivePipeline.execute].  [dept] is what the pipeline's department
    port answers; the executor's ports act on the world. *)
Definition execute (other : value -> string) (deps : operationExecutorDeps W D)
    (dept : option (res (list DeptItem))) (uctx : option UserContext) (req : OperationRequest)
    (o : protocolLiveOutcome) (w : W) : protocolLiveOutcome * W :=
  let req := enrichOperationRequestFromUser req uctx in
  let resource := Validate_resource (mkResourceInput uctx req dept) in
  if negb (rr_Allow resource) then
    let o := o <| po_ResourcePolicyResult := "deny:" +:+ rr_BlockedReason resource |>
               <| po_FailureLayer := FailureResourcePolicyDenied |> in
    let o := setProtocolOutcomeResponse
               (refusal_response (or_refuse (rr_ResponseKind resource))
                  (resourceRefusalText (rr_BlockedReason resource))) answerModeReject o in
    (o <| po_BlockedReason := rr_BlockedReason resource |>, w)
  else
    let o := o <| po_ResourcePolicyResult := "allow" |> in
    let read o :=
      let '(result, w) := Execute deps req w in
      let o := setProtocolOutcomeResponse (oe_Response result)
                 (em_AnswerMode (oe_Metrics result)) o in
      let o := add_resolved_slots req o in
      (o <| po_ExecutionMetrics := oe_Metrics result |>
         <| po_ExecutorStatus := protocolExecutorStatus (oe_Response result) |>, w) in
    match lookupOperation (req_Operation req) with
    | Some manifest =>
        if om_IsWrite manifest then (prepare_write other uctx manifest req o, w)
        else read (o <| po_WriteGuardResult := or_else (po_WriteGuardResult o) "not_required" |>)
    | None => read (o <| po_WriteGuardResult := or_else (po_WriteGuardResult o) "not_required" |>)
    end.

(** ** Properties *)

Create Rewrite HintDb outcome.

(** Which writes of an outcome touch the prepared write. *)
Lemma prepared_Response o x : po_PreparedWrite (o <| po_Response := x |>) = po_PreparedWrite o.
Proof. done. Qed.
Lemma prepared_AnswerMode o x : po_PreparedWrite (o <| po_AnswerMode := x |>) = po_PreparedWrite o.
Proof. done. Qed.
Lemma prepared_BlockedReason o x : po_PreparedWrite (o <| po_BlockedReason := x |>) = po_PreparedWrite o.
Proof. done. Qed.
Lemma prepared_CandidateCount o x : po_PreparedWrite (o <| po_CandidateCount := x |>) = po_PreparedWrite o.
Proof. done. Qed.
Lemma prepared_IdempotencyKey o x : po_PreparedWrite (o <| po_IdempotencyKey := x |>) = po_PreparedWrite o.
Proof. done. Qed.
Lemma prepared_ResourcePolicyResult o x : po_PreparedWrite (o <| po_ResourcePolicyResult := x |>) = po_PreparedWrite o.
Proof. done. Qed.
Lemma prepared_WriteGuardResult o x : po_PreparedWrite (o <| po_WriteGuardResult := x |>) = po_PreparedWrite o.
Proof. done. Qed.
Lemma prepared_FailureLayer o x : po_PreparedWrite (o <| po_FailureLayer := x |>) = po_PreparedWrite o.
Proof. done. Qed.
Lemma prepared_ExecutorStatus o x : po_PreparedWrite (o <| po_ExecutorStatus := x |>) = po_PreparedWrite o.
Proof. done. Qed.
Lemma prepared_ResolvedSlots o x : po_PreparedWrite (o <| po_ResolvedSlots := x |>) = po_PreparedWrite o.
Proof. done. Qed.
Lemma prepared_PreparedWrite o x : po_PreparedWrite (o <| po_PreparedWrite := x |>) = x.
Proof. done. Qed.
Lemma after_ResourcePolicyResult o x :
  po_WorkflowAfter (o <| po_ResourcePolicyResult := x |>) = po_WorkflowAfter o.
Proof. done. Qed.
#[local] Hint Rewrite prepared_Response prepared_AnswerMode prepared_BlockedReason prepared_CandidateCount prepared_IdempotencyKey
  prepared_ResourcePolicyResult prepared_WriteGuardResult prepared_FailureLayer prepared_ExecutorStatus prepared_ResolvedSlots prepared_PreparedWrite
  after_ResourcePolicyResult : outcome.

Lemma setOutcome_prepared response mode o :
  po_PreparedWrite (setProtocolOutcomeResponse response mode o) = po_PreparedWrite o.
Proof. unfold setProtocolOutcomeResponse. cbv zeta. repeat case_if; by autorewrite with outcome. Qed.

Lemma add_slots_prepared req o : po_PreparedWrite (add_resolved_slots req o) = po_PreparedWrite o.
Proof. unfold add_resolved_slots. case_if; by autorewrite with outcome. Qed.

#[local] Hint Rewrite setOutcome_prepared add_slots_prepared : outcome.

Lemma business_key_with_key k req :
  subscriptionBusinessKeyForRequest (with_key k req) = subscriptionBusinessKeyForRequest req.
Proof.
  unfold subscriptionBusinessKeyForRequest.
  assert (subscriptionBusinessKey (with_key k req) = subscriptionBusinessKey req) as -> by reflexivity.
  reflexivity.
Qed.

(** The guard and the business key decide whether a write is prepared. *)
Lemma prepare_write_spec other uctx m req o p :
  po_PreparedWrite o = None ->
  po_PreparedWrite (prepare_write other uctx m req o) = Some p <->
  wgr_Allow (Check_write other (mkGuardInput uctx m req (po_WorkflowAfter o) false)) = true
  /\ subscriptionBusinessKeyForRequest req = Ok (pw_BusinessKey p)
  /\ p = mkPrepared (with_key (pw_BusinessKey p) req) (pw_BusinessKey p) false.
Proof.
  intros Ho. unfold prepare_write. cbv zeta. rewrite business_key_with_key.
  generalize (Check_write other (mkGuardInput uctx m req (po_WorkflowAfter o) false)). intros g.
  generalize (subscriptionBusinessKeyForRequest req). intros key.
  destruct (wgr_Allow g); cbn [negb].
  - destruct key as [bk|e]; autorewrite with outcome.
    + split; [intros [= <-]; cbn; by split_and!|]. by intros (_ & [= <-] & ->).
    + rewrite Ho. split; [done|]. by intros (_ & [=] & _).
  - autorewrite with outcome. rewrite Ho. split; [done|]. by intros ([=] & _).
Qed.

(** Live execution never executes a write: for a write operation no port
    of the executor is called whatever the request, and the write is prepared
    exactly when the resource gate and the write guard let the enriched request
    through and it has a business key, which is then the idempotency key the
    executor will be given. *)
Theorem live_execute_prepares other deps dept uctx req o w m :
  lookupOperation (req_Operation req) = Some m -> om_IsWrite m = true -> po_PreparedWrite o = None ->
  let req' := enrichOperationRequestFromUser req uctx in
  (forall deps', execute other deps' dept uctx req o w = ((execute other deps dept uctx req o w).1, w))
  /\ forall p, po_PreparedWrite (execute other deps dept uctx req o w).1 = Some p <->
       rr_Allow (Validate_resource (mkResourceInput uctx req' dept)) = true
       /\ wgr_Allow (Check_write other (mkGuardInput uctx m req' (po_WorkflowAfter o) false)) = true
       /\ subscriptionBusinessKeyForRequest req' = Ok (pw_BusinessKey p)
       /\ p = mkPrepared (with_key (pw_BusinessKey p) req') (pw_BusinessKey p) false.
Proof.
  intros Hm Hw Ho req'. unfold execute. fold req'.
  assert (req_Operation req' = req_Operation req) as -> by (unfold req'; by destruct uctx).
  rewrite Hm, Hw. cbv zeta. destruct (rr_Allow _); cbn [negb fst].
  - split; [done|]. intros p. rewrite prepare_write_spec, after_ResourcePolicyResult
      by (by autorewrite with outcome). tauto.
  - split; [done|]. intros p. autorewrite with outcome. rewrite Ho. split; [done|]. by intros ([=] & _).
Qed.

End outcome.

Arguments protocolLiveOutcome : clear implicits.

(** A group administrator starts a subscription. *)
Definition start_outcome : protocolLiveOutcome unit :=
  zero_outcome <| po_WorkflowAfter := Some start_workflow |>.

Lemma live_execute_prepares_witness :
  exists p, po_PreparedWrite (execute (W := nat) (D := unit) (fun _ => "") (mkDeps None None None None None None) None
      (Some group_admin) start_all_request start_outcome O).1
    = Some p.
Proof.
  exists (mkPrepared (with_key "33aee3aaeb3ef7a1ba455c4f2b99a2c2a12f9fb373dd5b67cfc42e96fccbe8bc"
            (enrichOperationRequestFromUser start_all_request (Some group_admin)))
            "33aee3aaeb3ef7a1ba455c4f2b99a2c2a12f9fb373dd5b67cfc42e96fccbe8bc" false).
  apply (live_execute_prepares (W := nat) (D := unit) (fun _ => "") (mkDeps None None None None None None) None
           (Some group_admin) start_all_request start_outcome O
           op_subscription_start eq_refl eq_refl eq_refl).
  split_and!; [reflexivity|vm_compute; reflexivity|vm_compute; reflexivity|reflexivity].
Defined.
