(* ===== verification/Coordinator.v ===== *)
(** * The write coordinator

    internal/agent/protocol_live_write_coordinator.go: a prepared write is
    reserved in the workflow store, executed, its result recorded, and the
    reservation deleted, in that order.  Parameters: the workflow store
    ([StoreApi.WorkflowStore]), the executor's ports over a world [W], and what
    the environment answers during one attempt. *)
From Stdlib Require Import ZArith Lia Bool String.
From stdpp Require Import base list strings gmap.
From coqutil Require Import Datatypes.RecordSettersUsingExistingGetters.
From S2P Require Import Prelude GoStrings GoTime Sha256 Contract Codec CodecSpec Store.
From S2P Require Import StoreSpec StoreApi Catalog Request Policy Workflow BusinessKey Executor.
From S2P Require Import Outcome.
Import RecordSetNotations1.
#[local] Open Scope go_scope.

Definition protocolWriteLeaseDuration : Z := 2 * ns_min.

(** One attempt: the clock when it starts, the random bytes of its token (or
    the error of reading them), the clock when the result is recorded, and the
    error of the context at each call of the store. *)
Record attempt := mkAttempt {
  at_now : Z;
  at_random : res (list Z);
  at_completed : Z;
  at_reserve_ctx : option err;
  at_record_ctx : option err;
  at_delete_ctx : option err
}.

Definition newExecutionToken (random : res (list Z)) : res string :=
  raw <- wrap_err "generate execution token: %w" random ;; Ok (hex_encode raw).

Definition persistedTrustedParam (field : string) (param : TrustedParam) : res value :=
  match canonicalTrustedParamValue field (tp_Value param) with
  | Some v => Ok v
  | None => Err (EFmt "trusted parameter %q is not persistable" [field])
  end.
Definition persistedTrustedParams (params : gmap string TrustedParam) : res (gmap string value) :=
  map_mapM persistedTrustedParam params.

Definition validWriteEffect (effect : string) : bool := existsb (eqs effect) writeEffects.

Definition workflowHasActiveExecution (versioned : option VersionedWorkflow) : bool :=
  match versioned with
  | Some v => match vw_Execution v with
              | Some e => negb (blank (re_ExecutionToken (ex_Reservation e)))
              | None => false
              end
  | None => false
  end.

Section coordinator.
Context {W D : Type} {S : Type} `{HS : WorkflowStore S}.

Definition reservationSnapshot (o : protocolLiveOutcome D) (key : WorkflowKey) (now : Z)
  : res WorkflowSnapshot :=
  match po_PreparedWrite o with
  | None => Err (EMsg "prepared write is required")
  | Some prepared =>
      match po_WorkflowAfter o with
      | Some w => Ok (cloneWorkflowSnapshot w)
      | None =>
          if negb (eqs (req_Operation (pw_Request prepared)) "subscription.cancel")
          then Err (EMsg "write operation requires a workflow snapshot")
          else Ok (mkSnapshot ("execution-" +:+ po_RequestID o) (key_TenantID key)
                     (key_ActorUserID key) (key_ConversationID key) WorkflowSubscriptionCancel
                     WorkflowReady [] ∅ ∅ "" 0 0 (now + protocolWriteLeaseDuration) 0 [] no_trusted)
      end
  end.

Definition workflowExecutionPendingOutcome (o : protocolLiveOutcome D) : protocolLiveOutcome D :=
  let o := o <| po_PreparedWrite := None |> <| po_BlockedReason := "write_result_pending" |>
             <| po_ExecutorStatus := "pending" |> <| po_FailureLayer := FailureExecutor |> in
  setProtocolOutcomeResponse (refuse "操作结果仍在确认中，请稍后查询当前订阅状态，不要重复提交。")
    answerModeReject o.

(** What the attempt writes into the store, or the error that stops it. *)
Definition attempt_reservation (at_ : attempt) (key : WorkflowKey) (o : protocolLiveOutcome D)
    (prepared : preparedWriteExecution) : res (string * WorkflowSnapshot * ReservedExecutionV1) :=
  token <- newExecutionToken (at_random at_) ;;
  snapshot <- reservationSnapshot o key (at_now at_) ;;
  params <- persistedTrustedParams (req_TrustedParams (pw_Request prepared)) ;;
  Ok (token, snapshot,
      mkReserved (req_Operation (pw_Request prepared)) (pw_BusinessKey prepared) params token
        (po_RequestID o) (at_now at_) (at_now at_ + protocolWriteLeaseDuration)).

Definition reserve_for (at_ : attempt) (key : WorkflowKey) (current : option VersionedWorkflow)
    (snapshot : WorkflowSnapshot) (reservation : ReservedExecutionV1) : ST S VersionedWorkflow :=
  match current with
  | None => ws_create_reserved (at_reserve_ctx at_) key (Some snapshot) reservation
  | Some c => ws_reserve (at_reserve_ctx at_) key (vw_Version c) (Some snapshot) reservation
  end.

(** The four results of [coordinatePreparedWrite]. *)
Record coordination := mkCoordination {
  co_Outcome : protocolLiveOutcome D;
  co_Current : option VersionedWorkflow;
  co_Started : bool;
  co_Err : option err
}.

(** The outcome after the executor has answered. *)
Definition with_execution (result : OperationExecutionResult D) (o : protocolLiveOutcome D)
  : protocolLiveOutcome D :=
  setProtocolOutcomeResponse (oe_Response result) (em_AnswerMode (oe_Metrics result)) o
    <| po_ExecutionMetrics := oe_Metrics result |>
    <| po_ExecutorStatus := protocolExecutorStatus (oe_Response result) |>.

Definition completed_outcome (o : protocolLiveOutcome D) : protocolLiveOutcome D :=
  o <| po_WorkflowDecision := Some WorkflowCompletedDecision |> <| po_ClearWorkflow := true |>
    <| po_WorkflowAfter := None |> <| po_PreparedWrite := None |>.

(** [result.Response.Kind == ResponseResult && validWriteEffect(result.Effect)] *)
Definition authoritative (result : OperationExecutionResult D) : bool :=
  eqs (rm_Kind (oe_Response result)) ResponseResult && validWriteEffect (oe_Effect result).

(** After the executor: record the result and delete the reservation. *)
Definition settle_write (at_ : attempt) (key : WorkflowKey) (prepared : preparedWriteExecution)
    (reserved : VersionedWorkflow) (token : string) (result : OperationExecutionResult D)
    (o : protocolLiveOutcome D) (s : S) : coordination * S :=
  let o := with_execution result o in
  let pending current e := mkCoordination (workflowExecutionPendingOutcome o) (Some current) true (Some e) in
  if negb (authoritative result)
  then (pending reserved (EMsg "write execution result is not authoritative"), s)
  else
    match ws_record (at_record_ctx at_) key (vw_Version reserved) token
            (mkResult (pw_BusinessKey prepared) (oe_Effect result) (at_completed at_)) s with
    | (Err e, s) => (pending reserved e, s)
    | (Ok recorded, s) =>
        match ws_delete_reserved (at_delete_ctx at_) key (vw_Version recorded) token s with
        | (Err e, s) => (pending recorded e, s)
        | (Ok _, s) => (mkCoordination (completed_outcome o) None true None, s)
        end
    end.

Definition coordinatePreparedWrite (deps : operationExecutorDeps W D) (at_ : attempt)
    (key : WorkflowKey) (current : option VersionedWorkflow) (o : protocolLiveOutcome D)
    (s : S) (w : W) : coordination * S * W :=
  let refuse_with o e := mkCoordination o current false (Some e) in
  match po_PreparedWrite o with
  | None => (refuse_with o (EMsg "prepared write coordinator is unavailable"), s, w)
  | Some prepared =>
      if bool_decide (is_Some (c ← current; vw_Execution c))
      then (refuse_with (workflowExecutionPendingOutcome o) ErrExecutionInProgress, s, w)
      else
        match attempt_reservation at_ key o prepared with
        | Err e => (refuse_with o e, s, w)
        | Ok (token, snapshot, reservation) =>
            match reserve_for at_ key current snapshot reservation s with
            | (Err e, s) => (refuse_with o e, s, w)
            | (Ok reserved, s) =>
                let '(result, w) := Execute deps (pw_Request prepared) w in
                let '(c, s) := settle_write at_ key prepared reserved token result o s in
                (c, s, w)
            end
        end
  end.


(** ** Properties *)

Section laws.
Context `{HL : !WorkflowStoreLaws S}.

(** The parameters fit their machine types and the instants of the attempt
    survive the database's millisecond precision and four-digit years. *)
Definition attempt_recordable (at_ : attempt) (prepared : preparedWriteExecution) : Prop :=
  map_Forall (fun _ p => value_wide (tp_Value p) = true) (req_TrustedParams (pw_Request prepared))
  /\ reservation_times_ok (mkReserved "" "" ∅ "" "" (at_now at_) (at_now at_ + protocolWriteLeaseDuration)).

Lemma persisted_wide ps m :
  persistedTrustedParams ps = Ok m -> map_Forall (fun _ p => value_wide (tp_Value p) = true) ps ->
  map_Forall (fun _ v => value_wide v = true) m.
Proof.
  intros H Hw f v Hv. pose proof (proj1 (map_mapM_Ok _ _ _) H f) as Hf. rewrite Hv in Hf.
  destruct (ps !! f) as [p|] eqn:Hp; [|done]. unfold persistedTrustedParam in Hf.
  destruct (canonicalTrustedParamValue f (tp_Value p)) as [v'|] eqn:Hc; [|done].
  injection Hf as <-. rewrite (canonical_same _ _ _ Hc). by apply (Hw f).
Qed.

Lemma attempt_reservation_canonical at_ key o prepared token snapshot rv norm :
  attempt_reservation at_ key o prepared = Ok (token, snapshot, rv) ->
  attempt_recordable at_ prepared -> canonicalReservedExecution rv = Ok norm ->
  re_Operation norm = req_Operation (pw_Request prepared) /\ re_BusinessKey norm = pw_BusinessKey prepared
  /\ re_ExecutionToken norm = token.
Proof.
  unfold attempt_reservation. intros H [Hw Ht] Hc.
  apply res_bind_Ok in H as (tok & _ & H). apply res_bind_Ok in H as (sn & _ & H).
  apply res_bind_Ok in H as (ps & Hps & [= <- <- <-]).
  apply canonicalReservedExecution_Ok in Hc as [-> _]; [done|by eapply persisted_wide|exact Ht].
Qed.

Lemma reserve_for_kept at_ key current snapshot rv s vw s' :
  reserve_for at_ key current snapshot rv s = (Ok vw, s') ->
  exists norm, canonicalReservedExecution rv = Ok norm
    /\ ws_kept key (re_Operation norm) (re_BusinessKey norm) s'.
Proof. unfold reserve_for. destruct current; [apply ws_reserve_kept|apply ws_create_kept]. Qed.

(** The answers the user gets: done, or wait. *)
Definition write_completed (c : coordination) : Prop :=
  co_Current c = None /\ po_WorkflowDecision (co_Outcome c) = Some WorkflowCompletedDecision
  /\ po_ClearWorkflow (co_Outcome c) = true /\ po_WorkflowAfter (co_Outcome c) = None
  /\ po_PreparedWrite (co_Outcome c) = None /\ rm_Kind (po_Response (co_Outcome c)) = ResponseResult.
Definition write_pending (c : coordination) : Prop :=
  po_BlockedReason (co_Outcome c) = "write_result_pending" /\ po_PreparedWrite (co_Outcome c) = None
  /\ rm_Kind (po_Response (co_Outcome c)) = ResponseRefuse.

Lemma response_set r m (o : protocolLiveOutcome D) : po_Response (setProtocolOutcomeResponse r m o) = r.
Proof. unfold setProtocolOutcomeResponse. repeat case_if; reflexivity. Qed.
Lemma blocked_set r m (o : protocolLiveOutcome D) :
  po_BlockedReason o <> "" -> po_BlockedReason (setProtocolOutcomeResponse r m o) = po_BlockedReason o.
Proof.
  intros H. apply eqs_false in H. unfold setProtocolOutcomeResponse. cbn -[eqs]. rewrite H.
  case_if; reflexivity.
Qed.

Lemma pending_outcome o current b e :
  write_pending (mkCoordination (workflowExecutionPendingOutcome o) current b e).
Proof.
  unfold write_pending, workflowExecutionPendingOutcome. cbn [co_Outcome].
  rewrite response_set, setOutcome_prepared, blocked_set by done. done.
Qed.

(** Settling a write that is on record. *)
Lemma settle_write_spec at_ key prepared reserved token result o op bk s c s' :
  ws_kept key op bk s -> settle_write at_ key prepared reserved token result o s = (c, s') ->
  co_Started c = true
  /\ match co_Err c with
     | None => authoritative result = true /\ ws_recorded key op bk s' /\ write_completed c
     | Some _ => ws_kept key op bk s' /\ write_pending c
     end.
Proof.
  intros Hk. unfold settle_write.
  destruct (authoritative result) eqn:Ha; cbn [negb].
  2:{ intros [= <- <-]. split; [done|]. cbn [co_Err]. split; [done|apply pending_outcome]. }
  destruct (ws_record _ _ _ _ _ s) as [[recorded|e] s1] eqn:Er.
  2:{ intros [= <- <-]. split; [done|]. cbn [co_Err]. split; [|apply pending_outcome].
      eapply ws_record_kept in Hk. by rewrite Er in Hk. }
  assert (ws_kept key op bk s1) as Hk1.
  { eapply ws_record_kept in Hk. by rewrite Er in Hk. }
  destruct (ws_delete_reserved _ _ _ _ s1) as [[[]|e] s2] eqn:Ed; intros [= <- <-].
  - split; [done|]. cbn [co_Err]. split; [done|]. split; [by eapply ws_delete_recorded|].
    unfold write_completed, completed_outcome, with_execution. cbn.
    split_and!; try done. rewrite response_set.
    unfold authoritative in Ha. b2p. by apply eqs_true.
  - split; [done|]. cbn [co_Err]. split; [by eapply ws_delete_kept|apply pending_outcome].
Qed.

(** The two ways an attempt ends. *)
Inductive coordinated (deps : operationExecutorDeps W D) (at_ : attempt) (key : WorkflowKey)
    (current : option VersionedWorkflow) (o : protocolLiveOutcome D) (s : S) (w : W)
  : coordination * S * W -> Prop :=
  | attempt_refused c s' :
      co_Started c = false -> co_Err c <> None -> co_Current c = current ->
      (forall deps', coordinatePreparedWrite deps' at_ key current o s w = (c, s', w)) ->
      coordinated deps at_ key current o s w (c, s', w)
  | attempt_executed prepared token snapshot rv reserved s1 c s' :
      po_PreparedWrite o = Some prepared ->
      attempt_reservation at_ key o prepared = Ok (token, snapshot, rv) ->
      reserve_for at_ key current snapshot rv s = (Ok reserved, s1) ->
      ws_kept key (req_Operation (pw_Request prepared)) (pw_BusinessKey prepared) s1 ->
      co_Started c = true ->
      match co_Err c with
      | None => authoritative (Execute deps (pw_Request prepared) w).1 = true
                /\ ws_recorded key (req_Operation (pw_Request prepared)) (pw_BusinessKey prepared) s'
                /\ write_completed c
      | Some _ => ws_kept key (req_Operation (pw_Request prepared)) (pw_BusinessKey prepared) s'
                  /\ write_pending c
      end ->
      coordinated deps at_ key current o s w (c, s', (Execute deps (pw_Request prepared) w).2).

(** C2: A prepared write is executed only after its reservation has been stored,
    and then exactly once.  If the attempt reports success, the executor
    answered with an authoritative effect and its result was recorded; if it
    reports a failure after executing, the write is still on record, for the
    recovery to settle, and the user is told to wait; and if it is refused
    before, no port was called. *)
Theorem write_reserved_before_executed deps at_ key current o s w :
  (forall prepared, po_PreparedWrite o = Some prepared -> attempt_recordable at_ prepared) ->
  coordinated deps at_ key current o s w (coordinatePreparedWrite deps at_ key current o s w).
Proof.
  intros Hw. unfold coordinatePreparedWrite.
  destruct (po_PreparedWrite o) as [prepared|] eqn:Hp.
  2:{ apply attempt_refused; try done. intros deps'. unfold coordinatePreparedWrite. by rewrite Hp. }
  destruct (bool_decide _) eqn:Hb.
  { apply attempt_refused; try done. intros deps'. unfold coordinatePreparedWrite. by rewrite Hp, Hb. }
  destruct (attempt_reservation at_ key o prepared) as [[[token snapshot] rv]|e] eqn:Ha.
  2:{ apply attempt_refused; try done. intros deps'. unfold coordinatePreparedWrite. by rewrite Hp, Hb, Ha. }
  destruct (reserve_for at_ key current snapshot rv s) as [[reserved|e] s1] eqn:Hr.
  2:{ apply attempt_refused; try done. intros deps'. unfold coordinatePreparedWrite. by rewrite Hp, Hb, Ha, Hr. }
  destruct (Execute deps (pw_Request prepared) w) as [result w'] eqn:He.
  destruct (settle_write _ _ _ _ _ _ _ s1) as [c s'] eqn:Hs.
  assert (ws_kept key (req_Operation (pw_Request prepared)) (pw_BusinessKey prepared) s1) as Hk.
  { destruct (reserve_for_kept _ _ _ _ _ _ _ _ Hr) as (norm & Hc & Hk).
    by destruct (attempt_reservation_canonical _ _ _ _ _ _ _ _ Ha (Hw _ eq_refl) Hc) as (<- & <- & _). }
  destruct (settle_write_spec _ _ _ _ _ _ _ _ _ _ _ _ Hk Hs) as [Hst Hc].
  replace w' with (Execute deps (pw_Request prepared) w).2 by by rewrite He.
  eapply attempt_executed; try done. by rewrite He.
Qed.

End laws.
End coordinator.
Arguments coordination : clear implicits.

(** ** An undisturbed attempt completes *)

Section undisturbed.
Context {W D : Type} (clock : nat -> Z).

Lemma canonical_input rv norm :
  canonicalReservedExecution rv = Ok norm ->
  blank (re_ExecutionToken rv) = false /\ trimmed (re_ExecutionToken rv) = true
  /\ trimmed (re_BusinessKey rv) = true
  /\ forall effect t, effect ∈ writeEffects -> t <> 0 ->
     validatePersistedExecutionResult (mkResult (re_BusinessKey rv) effect t) = Ok tt.
Proof.
  unfold canonicalReservedExecution, MarshalReservedExecution. intros H.
  apply res_bind_Ok in H as (p & H & _). apply res_bind_Ok in H as (d & H & _).
  apply reservedExecutionToV1_Ok in H as (Hv & Ht & _). b2p.
  unfold validateReservedExecution in Hv.
  repeat (apply res_bind_Ok in Hv as ([] & ?%guard_Ok & Hv)). b2p.
  split_and!; [done..|]. intros effect t He Hnz. unfold validatePersistedExecutionResult, guard.
  cbn [er_BusinessKey er_WriteEffect er_CompletedAt]. unfold is_zero.
  assert (blank (re_BusinessKey rv) = false) as -> by done.
  assert (runeLengthWithin (trim_space (re_BusinessKey rv)) executionMaxProjectionRunes = true) as -> by done.
  rewrite bool_decide_eq_true_2 by done. apply Z.eqb_neq in Hnz. by rewrite Hnz.
Qed.

(** The record a reservation leaves behind. *)
Definition reserved_record (key : WorkflowKey) (norm : ReservedExecutionV1) (v : Z)
    (m : gmap WorkflowKey memoryWorkflowRecord) : Prop :=
  exists snap, m !! key = Some (mkRecord snap v (Some (mkExecution WorkflowExecutionExecuting norm None))).

(** The workflow an attempt starts from: none, or an idle one it has loaded
    and that has not run out. *)
Definition free_for (key : WorkflowKey) (current : option VersionedWorkflow) (s : memoryWorkflowStore)
  : Prop :=
  match current with
  | None => ms_workflows s !! key = None
  | Some c => exists r, ms_workflows s !! key = Some r /\ mr_execution r = None
                /\ mr_version r = vw_Version c
                /\ workflowExpired (mr_snapshot r) (clock (ms_ticks s)) = false
  end.

Lemma create_completes key w rv norm s :
  validateWorkflowKey key = Ok tt -> canonicalReservedExecution rv = Ok norm ->
  ms_workflows s !! key = None ->
  exists vw s', CreateReservedExecution clock None key (Some w) rv s = (Ok vw, s')
    /\ reserved_record key norm (vw_Version vw) (ms_workflows s').
Proof.
  intros Hk Hc Hf. unfold CreateReservedExecution, check_call, check_next, activeRecordLocked,
    prepareSnapshotLocked, put_record, now, st_bind, st_lift, st_get, st_ret.
  rewrite Hk, Hc, Hf. eexists _, _. split; [reflexivity|]. cbn.
  eexists. apply lookup_insert_eq.
Qed.

Lemma reserve_completes key v w rv norm s r :
  validateWorkflowKey key = Ok tt -> canonicalReservedExecution rv = Ok norm ->
  ms_workflows s !! key = Some r -> mr_execution r = None -> mr_version r = v ->
  workflowExpired (mr_snapshot r) (clock (ms_ticks s)) = false ->
  exists vw s', ReserveExecution clock None key v (Some w) rv s = (Ok vw, s')
    /\ reserved_record key norm (vw_Version vw) (ms_workflows s').
Proof.
  intros Hk Hc Hf He Hv Hx. unfold ReserveExecution, check_call, check_next,
    recordForVersionedMutationLocked, activeRecordLocked,
    prepareSnapshotLocked, put_record, now, st_bind, st_lift, st_get, st_ret.
  rewrite Hk, Hc, Hf, He, Hx, Hv, Z.eqb_refl, He. eexists _, _. split; [reflexivity|]. cbn.
  eexists. apply lookup_insert_eq.
Qed.

Lemma record_completes key v token norm result s :
  validateWorkflowKey key = Ok tt -> validatePersistedExecutionResult result = Ok tt ->
  blank token = false -> re_ExecutionToken norm = trim_space token ->
  re_BusinessKey norm = trim_space (er_BusinessKey result) ->
  reserved_record key norm v (ms_workflows s) ->
  exists vw s' snap e, RecordExecutionResult clock None key v token result s = (Ok vw, s')
    /\ ms_workflows s' !! key = Some (mkRecord snap (vw_Version vw) (Some e))
    /\ ex_Reservation e = norm /\ result_recorded e = true.
Proof.
  intros Hk Hr Hb Ht Hbk (snap & Hm). unfold RecordExecutionResult, check_call,
    recordForExecutionMutationLocked, recordForVersionedMutationLocked, activeRecordLocked, put_record,
    st_bind, st_lift, st_get, st_ret.
  rewrite Hk, Hr, Hm. cbn [mr_execution mr_version]. rewrite Z.eqb_refl. cbn [mr_execution ex_Reservation].
  rewrite Hb, bool_decide_eq_true_2 by done. cbn. rewrite bool_decide_eq_true_2 by done.
  eexists _, _, _, _. split; [reflexivity|]. cbn. split; [apply lookup_insert_eq|]. done.
Qed.

Lemma delete_completes key v token snap e s :
  validateWorkflowKey key = Ok tt -> blank token = false ->
  re_ExecutionToken (ex_Reservation e) = trim_space token -> result_recorded e = true ->
  ms_workflows s !! key = Some (mkRecord snap v (Some e)) ->
  exists s', DeleteReservedExecution clock None key v token s = (Ok tt, s')
    /\ ms_workflows s' = delete key (ms_workflows s).
Proof.
  intros Hk Hb Ht Hr Hm. unfold DeleteReservedExecution, check_call,
    recordForExecutionMutationLocked, recordForVersionedMutationLocked, activeRecordLocked, delete_record,
    st_bind, st_lift, st_get, st_ret.
  rewrite Hk, Hm. cbn [mr_execution mr_version]. rewrite Z.eqb_refl. cbn [mr_execution].
  rewrite Hb, bool_decide_eq_true_2 by done. cbn. rewrite Hr. eexists. by split.
Qed.

Lemma shared_alone {A} (m : ST memoryWorkflowStore A) (s : shared_store) r s2 :
  sh_others s = [] -> m (sh_store s) = (r, s2) ->
  shared_call clock m s = (r, mkShared s2 [] (sh_seen s ++ [sh_store s])).
Proof. intros Ho Hm. unfold shared_call. rewrite Ho. cbn. by rewrite Hm. Qed.

(** Every context of the attempt is alive and it has its own random bytes. *)
Definition attempt_alive (at_ : attempt) : Prop :=
  at_reserve_ctx at_ = None /\ at_record_ctx at_ = None /\ at_delete_ctx at_ = None
  /\ at_completed at_ <> 0.

Lemma reserve_for_completes at_ key current snapshot rv norm (s : shared_store) :
  attempt_alive at_ -> validateWorkflowKey key = Ok tt -> canonicalReservedExecution rv = Ok norm ->
  free_for key current (sh_store s) -> sh_others s = [] ->
  exists vw s', reserve_for (HS := shared_WorkflowStore clock) at_ key current snapshot rv s = (Ok vw, s')
    /\ sh_others s' = [] /\ reserved_record key norm (vw_Version vw) (ms_workflows (sh_store s')).
Proof.
  intros (Hc & _) Hk Hn Hf Ho. unfold reserve_for. rewrite Hc. destruct current as [c|].
  - destruct Hf as (r & Hr & He & Hv & Hx).
    destruct (reserve_completes key (vw_Version c) snapshot rv norm (sh_store s) r) as (vw & s' & H & Hm);
      try done.
    exists vw. eexists. split; [by apply shared_alone|]. done.
  - destruct (create_completes key snapshot rv norm (sh_store s)) as (vw & s' & H & Hm); try done.
    exists vw. eexists. split; [by apply shared_alone|]. done.
Qed.

(** The key's workflow is gone and the user told of the result. *)
Lemma settle_completes at_ key prepared token norm reserved (result : OperationExecutionResult D) o
    (s : shared_store) :
  attempt_alive at_ -> validateWorkflowKey key = Ok tt -> authoritative result = true ->
  (forall effect t, effect ∈ writeEffects -> t <> 0 ->
     validatePersistedExecutionResult (mkResult (pw_BusinessKey prepared) effect t) = Ok tt) ->
  blank token = false -> re_ExecutionToken norm = trim_space token ->
  re_BusinessKey norm = trim_space (pw_BusinessKey prepared) ->
  sh_others s = [] -> reserved_record key norm (vw_Version reserved) (ms_workflows (sh_store s)) ->
  exists c s', settle_write (HS := shared_WorkflowStore clock) at_ key prepared reserved token result o s
      = (c, s')
    /\ co_Err c = None /\ ms_workflows (sh_store s') !! key = None.
Proof.
  intros (_ & Hrc & Hdc & Hnz) Hk Ha Hv Hb Ht Hbk Ho Hr. unfold settle_write. rewrite Ha, Hrc, Hdc.
  cbn [negb]. unfold authoritative, validWriteEffect in Ha. b2p.
  apply existsb_eqs in H0.
  destruct (record_completes key (vw_Version reserved) token norm
              (mkResult (pw_BusinessKey prepared) (oe_Effect result) (at_completed at_)) (sh_store s))
    as (vw & s1 & snap & e & H1 & Hm1 & He & Hrec); [by auto..|].
  cbn [ws_record ws_delete_reserved shared_WorkflowStore].
  rewrite (shared_alone _ s _ _ Ho H1).
  destruct (delete_completes key (vw_Version vw) token snap e s1) as (s2 & H2 & Hm2); try done.
  { by rewrite He. }
  rewrite (shared_alone _ (mkShared s1 [] (sh_seen s ++ [sh_store s])) _ _ eq_refl H2).
  eexists _, _. split; [reflexivity|]. split; [done|]. cbn. by rewrite Hm2, lookup_delete_eq.
Qed.

(** An undisturbed attempt completes: if the workflow is free, the
    reservation can be persisted, the contexts live and the executor answers
    with an authoritative effect, the write is executed once, its result is
    recorded, no error is reported and no workflow remains under the key. *)
Theorem undisturbed_write_completes (deps : operationExecutorDeps W D) at_ key current o (s : shared_store) w
    prepared token snapshot rv norm :
  po_PreparedWrite o = Some prepared ->
  attempt_reservation at_ key o prepared = Ok (token, snapshot, rv) ->
  attempt_recordable at_ prepared -> canonicalReservedExecution rv = Ok norm ->
  attempt_alive at_ -> validateWorkflowKey key = Ok tt ->
  sh_others s = [] -> free_for key current (sh_store s) ->
  (forall c, current = Some c -> vw_Execution c = None) ->
  authoritative (Execute deps (pw_Request prepared) w).1 = true ->
  exists c s', coordinatePreparedWrite (HS := shared_WorkflowStore clock) deps at_ key current o s w
      = (c, s', (Execute deps (pw_Request prepared) w).2)
    /\ co_Err c = None /\ ms_workflows (sh_store s') !! key = None.
Proof.
  intros Hp Ha Hw Hc Hal Hk Ho Hf Hcur Hx. unfold coordinatePreparedWrite. rewrite Hp, Ha.
  rewrite bool_decide_eq_false_2.
  2:{ destruct current as [c|]; cbn; [rewrite (Hcur c) by done|]; by intros []. }
  destruct (reserve_for_completes at_ key current snapshot rv norm s) as (vw & s1 & -> & Ho1 & Hm1); try done.
  destruct (Execute deps (pw_Request prepared) w) as [result w'].
  destruct (attempt_reservation_canonical _ _ _ _ _ _ _ _ Ha Hw Hc) as (_ & Hbk & Ht).
  destruct (canonical_input _ _ Hc) as (Hb & Htt & Htb & Hv).
  assert (re_ExecutionToken rv = token /\ re_BusinessKey rv = pw_BusinessKey prepared) as [E1 E2].
  { unfold attempt_reservation in Ha. apply res_bind_Ok in Ha as (? & _ & Ha).
    apply res_bind_Ok in Ha as (? & _ & Ha). by apply res_bind_Ok in Ha as (? & _ & [= <- <- <-]). }
  rewrite E1, E2 in *. unfold trimmed in *. b2p.
  destruct (settle_completes at_ key prepared token norm vw result o s1) as (c & s2 & -> & He & Hm2);
    try done; try congruence.
  eexists _, _. split; [reflexivity|]. done.
Qed.

End undisturbed.

(** ** Witnesses *)

(** Ports that count the subscriptions they make. *)
Definition counting_port : GroupSubPort nat :=
  mkGroupSubPort (fun _ _ _ _ _ _ n => (Ok (mkMutation GroupSubWriteCreated None), S n))
    (fun _ _ _ n => (Ok (mkMutation GroupSubWriteCancelled None), S n)) (fun _ _ n => (Ok None, n)).
Definition counting_deps : operationExecutorDeps nat unit :=
  mkDeps None None None (Some counting_port) None None.

Definition prepared_start : preparedWriteExecution := mkPrepared start_all_request "key-1" false.
Definition prepared_outcome : protocolLiveOutcome unit :=
  zero_outcome <| po_RequestID := "req-1" |> <| po_WorkflowAfter := Some draft_snapshot |>
    <| po_PreparedWrite := Some prepared_start |>.
Definition attempt7 : attempt := mkAttempt (tick 0) (Ok [1; 2; 254]) (tick 3) None None None.
Definition fresh_store (others : list (list (option err * store_call))) : shared_store :=
  mkShared newMemoryWorkflowStore others [].

Lemma attempt7_recordable : attempt_recordable attempt7 prepared_start.
Proof.
  split.
  - unfold prepared_start, start_all_request. cbn [pw_Request req_TrustedParams].
    repeat (apply map_Forall_insert_2; [reflexivity|]). apply map_Forall_empty.
  - repeat split; vm_compute; congruence.
Qed.

(** Another client loads the workflow, and tries to delete and to take over the
    reserved one. *)
Definition busy_store : shared_store :=
  fresh_store [[]; [(None, CLoad key7); (None, CDeleteIfVersion key7 1)];
               [(None, CTakeover key7 1 "0102fe" reservation7)]].

Lemma write_reserved_before_executed_witness :
  coordinated (HS := shared_WorkflowStore tick) (HL := shared_WorkflowStoreLaws tick) counting_deps attempt7 key7 None prepared_outcome busy_store O
    (coordinatePreparedWrite (HS := shared_WorkflowStore tick) counting_deps attempt7 key7 None prepared_outcome busy_store O).
Proof.
  apply (write_reserved_before_executed (HS := shared_WorkflowStore tick) counting_deps attempt7 key7 None
           prepared_outcome busy_store O).
  intros prepared [= <-]. exact attempt7_recordable.
Defined.

Lemma undisturbed_write_completes_witness :
  exists c s', coordinatePreparedWrite (HS := shared_WorkflowStore tick) counting_deps attempt7 key7 None
      prepared_outcome (fresh_store []) O = (c, s', 1%nat)
    /\ co_Err c = None /\ ms_workflows (sh_store s') !! key7 = None.
Proof.
  eapply (undisturbed_write_completes tick counting_deps attempt7 key7 None prepared_outcome (fresh_store []) O
           prepared_start).
  - reflexivity.
  - reflexivity.
  - exact attempt7_recordable.
  - vm_compute. reflexivity.
  - split; [reflexivity|]. split; [reflexivity|]. split; [reflexivity|discriminate].
  - reflexivity.
  - reflexivity.
  - reflexivity.
  - discriminate.
  - reflexivity.
Defined.
