(* ===== verification/Recovery.v ===== *)
(** * Recovery of unfinished writes

    internal/agent/workflow_recovery.go: executions whose lease has run out are
    taken over under a new token, the request is rebuilt from the reservation,
    executed again under its business key and settled; recorded results are
    only finalised.  The loop that polls (a goroutine and a ticker) is not
    modelled; one poll is [RecoverExpiredExecutions]. *)
From Stdlib Require Import ZArith Lia Bool String.
From stdpp Require Import base list strings gmap.
From S2P Require Import Prelude GoStrings GoTime Contract Codec CodecSpec Store StoreSpec.
From S2P Require Import StoreApi Catalog Request Policy Workflow BusinessKey Executor Outcome.
From S2P Require Import Coordinator.
#[local] Open Scope go_scope.

Record RecoverableWorkflowExecution := mkRecoverable {
  rc_Key : WorkflowKey; rc_Workflow : option VersionedWorkflow }.

(** The two operations the recovery needs beyond those of [WorkflowStore]. *)
Class WorkflowRecoveryStore (S : Type) `{WorkflowStore S} := {
  ws_list_recoverable : option err -> Z -> Z -> ST S (list RecoverableWorkflowExecution);
  ws_mark_recovery_required : option err -> WorkflowKey -> Z -> string -> Z ->
    ST S (option VersionedWorkflow)
}.
Class WorkflowRecoveryLaws (S : Type) `{WorkflowRecoveryStore S, !WorkflowStoreLaws S} := {
  ws_list_kept c now limit key op bk s :
    ws_kept key op bk s -> ws_kept key op bk (ws_list_recoverable c now limit s).2;
  ws_mark_kept c k v t at_ key op bk s :
    ws_kept key op bk s -> ws_kept key op bk (ws_mark_recovery_required c k v t at_ s).2
}.

(** What the environment answers while one candidate is recovered. *)
Record recovery_attempt := mkRecovery {
  ra_random : res (list Z);
  ra_requestID : string;
  ra_completed : Z;
  ra_takeover_ctx : option err;
  ra_record_ctx : option err;
  ra_delete_ctx : option err;
  ra_mark_ctx : option err
}.

(** ** Rebuilding the request *)

Definition recovered_source : TrustedParamSource :=
  mkSource TrustedParamSourceWorkflow "" "execution_recovery".
Definition recovered_param (tenantID : Z) (field : string) (v : value) : res TrustedParam :=
  match canonicalTrustedParamValue field v with
  | Some canonical => Ok (mkTrustedParam field canonical recovered_source tenantID)
  | None => Err (EFmt "invalid recovered trusted parameter %q" [field])
  end.

Definition operationRequestFromReservation (key : WorkflowKey) (reservation : ReservedExecutionV1)
  : res OperationRequest :=
  params <- map_mapM (recovered_param (key_TenantID key)) (re_TrustedParams reservation) ;;
  guard (match extractParamString params "conversation_id" with
         | Some c => eqs (trim_space c) (trim_space (key_ConversationID key))
         | None => false
         end) (EMsg "recovered conversation does not match workflow key") ;;;
  let request := mkOperationRequest (re_Operation reservation) (key_TenantID key) (key_ActorUserID key)
                   (key_ConversationID key) params (re_BusinessKey reservation) in
  businessKey <- subscriptionBusinessKeyForRequest request ;;
  guard (eqs businessKey (re_BusinessKey reservation))
    (EMsg "recovered business key does not match canonical request") ;;;
  Ok request.

Section recovery.
Context {W D : Type} {S : Type} `{HS : WorkflowStore S} `{HR : !WorkflowRecoveryStore S}.

(** [deferWorkflowRecovery] for a workflow that was taken over. *)
Definition deferWorkflowRecovery (ra : recovery_attempt) (key : WorkflowKey) (taken : VersionedWorkflow)
    (token : string) (now : Z) (cause : err) (s : S) : err * S :=
  match ws_mark_recovery_required (ra_mark_ctx ra) key (vw_Version taken) token
          (now + protocolWriteLeaseDuration) s with
  | (Ok _, s) => (cause, s)
  | (Err markErr, s) => (EJoin cause (EWrap "mark recovery required: %w" markErr), s)
  end.

Definition next_reservation (ra : recovery_attempt) (token : string) (now : Z) (r : ReservedExecutionV1)
  : ReservedExecutionV1 :=
  let next := cloneReservedExecution r in
  mkReserved (re_Operation next) (re_BusinessKey next) (re_TrustedParams next) token (ra_requestID ra)
    now (now + protocolWriteLeaseDuration).

(** After the takeover: rebuild the request, execute it, record and delete. *)
Definition execute_recovered (deps : operationExecutorDeps W D) (ra : recovery_attempt)
    (key : WorkflowKey) (taken : VersionedWorkflow) (reservation : ReservedExecutionV1)
    (token : string) (now : Z) (s : S) (w : W) : option err * S * W :=
  let defer cause s w :=
    let '(e, s) := deferWorkflowRecovery ra key taken token now cause s in (Some e, s, w) in
  match operationRequestFromReservation key reservation with
  | Err e => defer e s w
  | Ok request =>
      let '(result, w) := Execute deps request w in
      if negb (authoritative result)
      then defer (EMsg "recovered write did not return an authoritative result") s w
      else
        match ws_record (ra_record_ctx ra) key (vw_Version taken) token
                (mkResult (req_IdempotencyKey request) (oe_Effect result) (ra_completed ra)) s with
        | (Err e, s) => defer e s w
        | (Ok recorded, s) =>
            match ws_delete_reserved (ra_delete_ctx ra) key (vw_Version recorded) token s with
            | (Err e, s) => (Some e, s, w)
            | (Ok _, s) => (None, s, w)
            end
        end
  end.

(** A store that took an execution over hands it out: the nil dereference of
    the source is an error here, which the laws of the store rule out. *)
Definition recoverWorkflowExecution (deps : operationExecutorDeps W D) (ra : recovery_attempt)
    (candidate : RecoverableWorkflowExecution) (now : Z) (s : S) (w : W) : option err * S * W :=
  match rc_Workflow candidate with
  | None => (Some (EMsg "recoverable workflow has no execution"), s, w)
  | Some workflow =>
  match vw_Execution workflow with
  | None => (Some (EMsg "recoverable workflow has no execution"), s, w)
  | Some execution =>
      let key := rc_Key candidate in
      let reservation := ex_Reservation execution in
      if eqs (ex_Status execution) WorkflowExecutionResultRecorded then
        match ex_Result execution with
        | None => (Some (EMsg "result-recorded execution has no result"), s, w)
        | Some _ =>
            match ws_delete_reserved (ra_delete_ctx ra) key (vw_Version workflow)
                    (re_ExecutionToken reservation) s with
            | (Err e, s) => (Some e, s, w)
            | (Ok _, s) => (None, s, w)
            end
        end
      else if negb (eqs (ex_Status execution) WorkflowExecutionExecuting)
              && negb (eqs (ex_Status execution) WorkflowExecutionRecoveryRequired)
      then (Some (EFmt "unsupported recovery status %q" [ex_Status execution]), s, w)
      else if after (re_LeaseExpiresAt reservation) now
      then (Some ErrExecutionInProgress, s, w)
      else
        match newExecutionToken (ra_random ra) with
        | Err e => (Some e, s, w)
        | Ok token =>
            match ws_takeover (ra_takeover_ctx ra) key (vw_Version workflow)
                    (re_ExecutionToken reservation) (next_reservation ra token now reservation) s with
            | (Err e, s) => (Some e, s, w)
            | (Ok taken, s) =>
                match vw_Execution taken with
                | None => (Some (ESentinel "panic: nil execution"), s, w)
                | Some e => execute_recovered deps ra key taken (ex_Reservation e) token now s w
                end
            end
        end
  end
  end.

Fixpoint recover_candidates (deps : operationExecutorDeps W D) (ras : list recovery_attempt)
    (candidates : list RecoverableWorkflowExecution) (now : Z) (s : S) (w : W)
  : Z * list err * S * W :=
  match candidates, ras with
  | candidate :: cs, ra :: ras =>
      let '(r, s, w) := recoverWorkflowExecution deps ra candidate now s w in
      let '(completed, errs, s, w) := recover_candidates deps ras cs now s w in
      match r with
      | Some e => (completed, EWrap "recover tenant=%d conversation=%q actor=%d: %w" e :: errs, s, w)
      | None => (completed + 1, errs, s, w)
      end
  | _, _ => (0, [], s, w)
  end.

(** [errors.Join] *)
Fixpoint join_errors (errs : list err) : option err :=
  match errs with
  | [] => None
  | [e] => Some e
  | e :: es => match join_errors es with Some e' => Some (EJoin e e') | None => Some e end
  end.

(** One poll; [ras] answers for each candidate in turn, one at least for each. *)
Definition RecoverExpiredExecutions (deps : operationExecutorDeps W D) (listCtx : option err)
    (ras : list recovery_attempt) (now limit : Z) (s : S) (w : W) : res (Z * option err) * S * W :=
  match ws_list_recoverable listCtx now limit s with
  | (Err e, s) => (Err e, s, w)
  | (Ok candidates, s) =>
      let '(completed, errs, s, w) := recover_candidates deps ras candidates now s w in
      (Ok (completed, join_errors errs), s, w)
  end.

(** ** Laws of the store under recovery *)

Section laws.
Context `{HL : !WorkflowStoreLaws S} `{HRL : !WorkflowRecoveryLaws S}.

Lemma request_from_reservation key r request :
  operationRequestFromReservation key r = Ok request ->
  req_Operation request = re_Operation r /\ req_IdempotencyKey request = re_BusinessKey r
  /\ subscriptionBusinessKeyForRequest request = Ok (re_BusinessKey r)
  /\ req_TenantID request = key_TenantID key /\ req_ActorUserID request = key_ActorUserID key
  /\ req_ConversationID request = key_ConversationID key.
Proof.
  unfold operationRequestFromReservation. intros H.
  apply res_bind_Ok in H as (ps & _ & H). apply res_bind_Ok in H as ([] & _ & H).
  apply res_bind_Ok in H as (bk & Hb & H). apply res_bind_Ok in H as ([] & Hg & [= <-]).
  apply guard_Ok, eqs_true in Hg. subst bk. cbn [req_Operation]. by split_and!.
Qed.

Lemma defer_kept ra key taken token now cause k op bk s :
  ws_kept k op bk s -> ws_kept k op bk (deferWorkflowRecovery ra key taken token now cause s).2.
Proof.
  intros H. unfold deferWorkflowRecovery.
  pose proof (ws_mark_kept (ra_mark_ctx ra) key (vw_Version taken) token (now + protocolWriteLeaseDuration)
                k op bk s H) as H'.
  by destruct (ws_mark_recovery_required _ _ _ _ _ s) as [[?|?] s'].
Qed.

(** After the takeover, a request that can be rebuilt is executed once; one that
    cannot is deferred without executing. *)
Lemma execute_recovered_spec deps ra key taken r token now s w :
  ws_kept key (re_Operation r) (re_BusinessKey r) s ->
  (exists e s', (forall deps', execute_recovered deps' ra key taken r token now s w = (Some e, s', w))
     /\ forall k op bk, ws_kept k op bk s -> ws_kept k op bk s')
  \/ exists request result s', operationRequestFromReservation key r = Ok request
     /\ execute_recovered deps ra key taken r token now s w = (result, s', (Execute deps request w).2)
     /\ match result with
        | None => authoritative (Execute deps request w).1 = true
                  /\ ws_recorded key (re_Operation r) (re_BusinessKey r) s'
        | Some _ => ws_kept key (re_Operation r) (re_BusinessKey r) s'
        end.
Proof.
  intros Hk. unfold execute_recovered.
  destruct (operationRequestFromReservation key r) as [request|e] eqn:Hr.
  2:{ left. destruct (deferWorkflowRecovery _ _ _ _ _ e s) as [e' s'] eqn:Ed. exists e', s'.
      split; [done|]. intros k op bk H.
      eapply (defer_kept ra key taken token now e) in H. by rewrite Ed in H. }
  right. exists request. destruct (Execute deps request w) as [answer w'].
  destruct (authoritative answer) eqn:Ha; cbn [negb].
  2:{ destruct (deferWorkflowRecovery _ _ _ _ _ (EMsg _) s) as [e' s'] eqn:Ed.
      eexists _, s'. split; [done|]. split; [done|]. cbn.
      eapply (defer_kept ra key taken token now) in Hk. by rewrite Ed in Hk. }
  destruct (ws_record _ _ _ _ _ s) as [[recorded|e] s1] eqn:Er.
  2:{ destruct (deferWorkflowRecovery _ _ _ _ _ e s1) as [e' s'] eqn:Ed.
      eexists _, s'. split; [done|]. split; [done|]. cbn.
      eapply ws_record_kept in Hk. rewrite Er in Hk.
      eapply (defer_kept ra key taken token now e) in Hk. cbn [snd] in Hk. by rewrite Ed in Hk. }
  eapply ws_record_kept in Hk. rewrite Er in Hk. cbn [snd] in Hk.
  destruct (ws_delete_reserved _ _ _ _ s1) as [[[]|e] s2] eqn:Ed; eexists _, s2;
    (split; [done|]); (split; [done|]).
  - split; [done|]. by eapply ws_delete_recorded.
  - by eapply ws_delete_kept.
Qed.

(** The parameters of the candidate fit their types, and the poll's clock
    survives the database. *)
Definition candidate_recordable (now : Z) (r : ReservedExecutionV1) : Prop :=
  reservation_wide r
  /\ reservation_times_ok (mkReserved "" "" ∅ "" "" now (now + protocolWriteLeaseDuration)).

(** The three ways the recovery of a candidate ends. *)
Inductive recovered (deps : operationExecutorDeps W D) (ra : recovery_attempt)
    (candidate : RecoverableWorkflowExecution) (now : Z) (s : S) (w : W) : option err * S * W -> Prop :=
  | recovery_refused e s' :
      (forall deps', recoverWorkflowExecution deps' ra candidate now s w = (Some e, s', w)) ->
      (forall k op bk, ws_kept k op bk s -> ws_kept k op bk s') ->
      recovered deps ra candidate now s w (Some e, s', w)
  | recovery_finalized workflow e s' :
      rc_Workflow candidate = Some workflow -> vw_Execution workflow = Some e ->
      ex_Status e = WorkflowExecutionResultRecorded ->
      (forall deps', recoverWorkflowExecution deps' ra candidate now s w = (None, s', w)) ->
      (forall op bk, ws_kept (rc_Key candidate) op bk s -> ws_recorded (rc_Key candidate) op bk s') ->
      recovered deps ra candidate now s w (None, s', w)
  | recovery_executed workflow e request result s' :
      rc_Workflow candidate = Some workflow -> vw_Execution workflow = Some e ->
      re_LeaseExpiresAt (ex_Reservation e) <= now ->
      req_Operation request = trim_space (re_Operation (ex_Reservation e)) ->
      req_IdempotencyKey request = trim_space (re_BusinessKey (ex_Reservation e)) ->
      subscriptionBusinessKeyForRequest request = Ok (req_IdempotencyKey request) ->
      match result with
      | None => authoritative (Execute deps request w).1 = true
                /\ ws_recorded (rc_Key candidate) (req_Operation request) (req_IdempotencyKey request) s'
      | Some _ => ws_kept (rc_Key candidate) (req_Operation request) (req_IdempotencyKey request) s'
      end ->
      recovered deps ra candidate now s w (result, s', (Execute deps request w).2).

Lemma takeover_reservation c k v t ra token now r s vw s' :
  candidate_recordable now r ->
  ws_takeover c k v t (next_reservation ra token now r) s = (Ok vw, s') ->
  exists e, vw_Execution vw = Some e
    /\ re_Operation (ex_Reservation e) = trim_space (re_Operation r)
    /\ re_BusinessKey (ex_Reservation e) = trim_space (re_BusinessKey r)
    /\ ws_kept k (re_Operation (ex_Reservation e)) (re_BusinessKey (ex_Reservation e)) s'.
Proof.
  intros [Hw Ht] H. apply ws_takeover_execution in H as (norm & e & Hc & He & Ho & Hb & _ & Hk).
  exists e. split; [done|]. rewrite Ho, Hb.
  apply canonicalReservedExecution_Ok in Hc as [-> _]; [|exact Hw|exact Ht]. done.
Qed.

(** The branch the equations in the context select. *)
Ltac unfold_recovery :=
  intros; unfold recoverWorkflowExecution;
  repeat match goal with H : ?b = _ |- context [match ?b with _ => _ end] => rewrite H end.

(** C7: Recovering a candidate never loses or repeats a write beyond its
    business key: a recorded result is only finalised, without executing; an
    execution is repeated at most once, only after its lease has run out and
    it was taken over, with a request rebuilt for the same operation whose
    recomputed business key is the reserved one; success means the result was
    recorded, and any failure leaves the write on record. *)
Theorem recovery_settles_or_keeps deps ra candidate now s w :
  (forall workflow e, rc_Workflow candidate = Some workflow -> vw_Execution workflow = Some e ->
     candidate_recordable now (ex_Reservation e)) ->
  recovered deps ra candidate now s w (recoverWorkflowExecution deps ra candidate now s w).
Proof.
  intros Hw. unfold recoverWorkflowExecution.
  destruct (rc_Workflow candidate) as [workflow|] eqn:Hwf.
  2:{ apply recovery_refused; [|done]. by unfold_recovery. }
  destruct (vw_Execution workflow) as [e|] eqn:Hex.
  2:{ apply recovery_refused; [|done]. by unfold_recovery. }
  specialize (Hw _ _ eq_refl Hex).
  destruct (eqs (ex_Status e) WorkflowExecutionResultRecorded) eqn:Hst.
  { destruct (ex_Result e) eqn:Hres.
    2:{ apply recovery_refused; [|done]. by unfold_recovery. }
    destruct (ws_delete_reserved _ _ _ _ s) as [[[]|e1] s1] eqn:Ed.
    - eapply recovery_finalized; try done; [by apply eqs_true| |].
      + by unfold_recovery.
      + intros op bk Hk. by eapply ws_delete_recorded.
    - apply recovery_refused.
      + by unfold_recovery.
      + intros k op bk Hk. by eapply ws_delete_kept. }
  destruct (negb _ && negb _) eqn:Hs2.
  { apply recovery_refused; [|done]. by unfold_recovery. }
  destruct (after _ now) eqn:Hl.
  { apply recovery_refused; [|done]. by unfold_recovery. }
  destruct (newExecutionToken _) as [token|e1] eqn:Htok.
  2:{ apply recovery_refused; [|done]. by unfold_recovery. }
  destruct (ws_takeover _ _ _ _ _ s) as [[taken|e1] s1] eqn:Et.
  2:{ apply recovery_refused.
      - by unfold_recovery.
      - intros k op bk Hk. eapply ws_takeover_kept in Hk. by rewrite Et in Hk. }
  destruct (takeover_reservation _ _ _ _ _ _ _ _ _ _ _ Hw Et) as (e1 & He1 & Hop & Hbk & Hk).
  rewrite He1.
  destruct (execute_recovered_spec deps ra (rc_Key candidate) taken (ex_Reservation e1) token now s1 w Hk)
    as [(er & s2 & Hd & Hkeep)|(request & result & s2 & Hreq & Hd & Hres)]; rewrite Hd.
  - apply recovery_refused.
    + by unfold_recovery.
    + intros k op bk Hk0. apply Hkeep. eapply ws_takeover_kept in Hk0. by rewrite Et in Hk0.
  - apply request_from_reservation in Hreq as (Ho & Hi & Hb & _).
    eapply recovery_executed; try done; try congruence.
    + unfold after in Hl. by b2p.
    + by rewrite Ho, Hi.
Qed.

End laws.
End recovery.

(** ** What a reservation keeps of the request *)

Lemma canonical_norm field v :
  canonicalTrustedParamValue field v = Some v ->
  canonicalTrustedParamValue field (norm_value v) = Some (norm_value v).
Proof.
  destruct v; try done. cbn [norm_value]. unfold canonicalTrustedParamValue.
  destruct l as [|x l]; [by repeat case_if|].
  assert (x ∈ sortedUniqueInt64s (x :: l)) as H by (apply sortedUnique_elem; by left).
  destruct (sortedUniqueInt64s (x :: l)); [by apply elem_of_nil in H|]. repeat case_if; done.
Qed.

(** A field of the recovered parameters is the normal form of the field of the
    prepared ones. *)
Lemma recovered_concrete tenant ps m params field :
  persistedTrustedParams ps = Ok m -> map_mapM (recovered_param tenant) (norm_value <$> m) = Ok params ->
  trustedParamConcreteValue params field = norm_value <$> trustedParamConcreteValue ps field.
Proof.
  intros Hm Hp. pose proof (proj1 (map_mapM_Ok _ _ _) Hm field) as H1.
  pose proof (proj1 (map_mapM_Ok _ _ _) Hp field) as H2. rewrite lookup_fmap in H2.
  unfold trustedParamConcreteValue. unfold persistedTrustedParam, recovered_param in *.
  destruct (ps !! field) as [p|]; destruct (m !! field) as [v|]; try done; cbn in *.
  2:{ by destruct (params !! field). }
  destruct (canonicalTrustedParamValue field (tp_Value p)) as [v'|] eqn:Hc; [|done]. injection H1 as ->.
  pose proof (canonical_same _ _ _ Hc) as ->.
  destruct (params !! field) as [q|]; [|done]. rewrite (canonical_norm _ _ Hc) in H2.
  injection H2 as <-. cbn. by apply canonical_norm.
Qed.

Lemma recovered_params_ok tenant ps m :
  persistedTrustedParams ps = Ok m -> exists params, map_mapM (recovered_param tenant) (norm_value <$> m) = Ok params.
Proof.
  intros Hm. exists (map_imap (fun f v => Some (mkTrustedParam f v recovered_source tenant)) (norm_value <$> m)).
  apply map_mapM_Ok. intros f. pose proof (proj1 (map_mapM_Ok _ _ _) Hm f) as H1.
  rewrite map_lookup_imap, lookup_fmap.
  destruct (ps !! f) as [p|], (m !! f) as [v|]; try done. cbn.
  unfold persistedTrustedParam, recovered_param in *.
  destruct (canonicalTrustedParamValue f (tp_Value p)) as [v'|] eqn:Hc; [|done]. injection H1 as ->.
  pose proof (canonical_same _ _ _ Hc) as ->. by rewrite (canonical_norm _ _ Hc).
Qed.

Lemma recovered_string ps m tenant params field :
  persistedTrustedParams ps = Ok m -> map_mapM (recovered_param tenant) (norm_value <$> m) = Ok params ->
  extractParamString params field = extractParamString ps field.
Proof.
  intros Hm Hp. unfold extractParamString. rewrite (recovered_concrete tenant ps m params) by done.
  by destruct (trustedParamConcreteValue ps field) as [[]|].
Qed.

Lemma recovered_ids ps m tenant params :
  persistedTrustedParams ps = Ok m -> map_mapM (recovered_param tenant) (norm_value <$> m) = Ok params ->
  default [] (extractParamInt64Slice params "dept_ids")
  = sortedUniqueInt64s (default [] (extractParamInt64Slice ps "dept_ids")).
Proof.
  intros Hm Hp. unfold extractParamInt64Slice. rewrite (recovered_concrete tenant ps m params) by done.
  unfold trustedParamConcreteValue. destruct (ps !! "dept_ids") as [p|]; [|done]. cbn [option_bind mbind].
  destruct (canonicalTrustedParamValue "dept_ids" (tp_Value p)) as [v|] eqn:Hc; [|done].
  pose proof (canonical_same _ _ _ Hc) as ->.
  destruct (tp_Value p) as [| | | | | | | |[|x l]| | | | |]; try done; try discriminate Hc.
  cbn [fmap option_fmap option_map norm_value default].
  change (default [] (match sortedUniqueInt64s (x :: l) with [] => None | _ => Some (sortedUniqueInt64s (x :: l)) end)
          = sortedUniqueInt64s (x :: l)).
  by destruct (sortedUniqueInt64s (x :: l)).
Qed.

Lemma normalize_sorted ids l :
  normalizeBusinessKeyDeptIDs ids = Ok l ->
  normalizeBusinessKeyDeptIDs (sortedUniqueInt64s ids) = Ok l.
Proof.
  rewrite !normalize_dept_ids_Ok. intros [Hp ->]. split.
  - rewrite Forall_forall in *. intros d Hd. by apply Hp, sortedUnique_elem.
  - fold (sortedUniqueInt64s ids) (sortedUniqueInt64s (sortedUniqueInt64s ids)).
    by rewrite sortedUnique_idem.
Qed.

(** The key of a request that names the same write is the same key. *)
Lemma recovered_key r1 r2 k :
  req_TenantID r2 = req_TenantID r1 ->
  trim_space (req_ConversationID r2) = trim_space (req_ConversationID r1) ->
  trim_space (req_Operation r2) = trim_space (req_Operation r1) ->
  extractParamString (req_TrustedParams r2) "scope" = extractParamString (req_TrustedParams r1) "scope" ->
  default [] (extractParamInt64Slice (req_TrustedParams r2) "dept_ids")
  = sortedUniqueInt64s (default [] (extractParamInt64Slice (req_TrustedParams r1) "dept_ids")) ->
  subscriptionBusinessKey r1 = Ok k -> subscriptionBusinessKey r2 = Ok k.
Proof.
  intros Ht Hc Ho Hs Hd. unfold subscriptionBusinessKey. rewrite Ht, Hc, Ho, Hs, Hd. case_if; [done|].
  case_if; [|done].
  destruct (extractParamString (req_TrustedParams r1) "scope") as [sc|]; [|done].
  intros (l & Hl & H)%res_bind_Ok. by rewrite (normalize_sorted _ _ Hl).
Qed.

(** The conversation of the workflow key is the one the write is for. *)
Definition key_matches (key : WorkflowKey) (req : OperationRequest) : Prop :=
  key_TenantID key = req_TenantID req
  /\ trim_space (key_ConversationID key) = trim_space (req_ConversationID req)
  /\ exists c, extractParamString (req_TrustedParams req) "conversation_id" = Some c
       /\ trim_space c = trim_space (key_ConversationID key).

(** What the store keeps of a reserved write is enough to recover it: the
    request rebuilt from the stored reservation is accepted, carries the
    business key the write was reserved under, and names the same write as the
    prepared request. *)
Theorem recovered_request_complete {D} at_ key (o : protocolLiveOutcome D) prepared token snapshot rv norm :
  attempt_reservation at_ key o prepared = Ok (token, snapshot, rv) ->
  attempt_recordable at_ prepared -> canonicalReservedExecution rv = Ok norm ->
  subscriptionBusinessKeyForRequest (pw_Request prepared) = Ok (pw_BusinessKey prepared) ->
  key_matches key (pw_Request prepared) ->
  exists request, operationRequestFromReservation key (cloneReservedExecution norm) = Ok request
    /\ req_IdempotencyKey request = pw_BusinessKey prepared /\ same_write request (pw_Request prepared).
Proof.
  intros Ha Hw Hc Hbk (Ht & Hconv & c & Hcid & Hck).
  destruct (attempt_reservation_canonical _ _ _ _ _ _ _ _ Ha Hw Hc) as (Ho & Hb & _).
  destruct (clone_identifiers _ _ Hc) as [Eo Eb].
  unfold attempt_reservation in Ha. apply res_bind_Ok in Ha as (tok & _ & Ha).
  apply res_bind_Ok in Ha as (sn & _ & Ha). apply res_bind_Ok in Ha as (m & Hm & [= <- <- <-]).
  assert (re_TrustedParams (cloneReservedExecution norm) = norm_value <$> m) as Ep.
  { apply canonicalReservedExecution_Ok in Hc as [-> _]; [done| |exact (proj2 Hw)].
    exact (persisted_wide _ _ Hm (proj1 Hw)). }
  destruct (recovered_params_ok (key_TenantID key) _ _ Hm) as (params & Hp).
  pose proof (fun f => recovered_string _ _ _ _ f Hm Hp) as Hstr.
  pose proof (recovered_ids _ _ _ _ Hm Hp) as Hids.
  set (request := mkOperationRequest (re_Operation (cloneReservedExecution norm)) (key_TenantID key)
                    (key_ActorUserID key) (key_ConversationID key) params
                    (re_BusinessKey (cloneReservedExecution norm))).
  exists request. split_and!.
  - unfold operationRequestFromReservation. rewrite Ep, Hp. cbn [res_bind].
    rewrite Hstr, Hcid, Hck, (proj2 (eqs_true _ _) eq_refl). cbn [guard res_bind]. fold request.
    unfold subscriptionBusinessKeyForRequest in *. apply res_bind_Ok in Hbk as (k & Hk & Hkey).
    rewrite (recovered_key (pw_Request prepared) request k Ht Hconv
               (f_equal trim_space (eq_trans Eo Ho)) (Hstr "scope") Hids Hk).
    cbn [res_bind]. injection Hkey as Hkey. rewrite Hkey, Eb, Hb, (proj2 (eqs_true _ _) eq_refl). done.
  - exact (eq_trans Eb Hb).
  - split_and!; [done|done|exact (f_equal trim_space (eq_trans Eo Ho))|]. intros _. unfold scope_of, depts_of. split.
    + cbn [request req_TrustedParams]. by rewrite Hstr.
    + intros d. cbn [request req_TrustedParams]. rewrite Hids. apply sortedUnique_elem.
Qed.

(** ** Witnesses *)

(** The write of [start_all_request] under its own business key. *)
Definition start_key : string := "33aee3aaeb3ef7a1ba455c4f2b99a2c2a12f9fb373dd5b67cfc42e96fccbe8bc".
Definition prepared_all : preparedWriteExecution := mkPrepared start_all_request start_key false.
Definition all_outcome : protocolLiveOutcome unit :=
  mkOutcome "req-1" (po_Draft prepared_outcome) (po_Validation prepared_outcome)
    (po_Response prepared_outcome) (po_ExecutionMetrics prepared_outcome) "" "" "" "" "" 0 false 0 0 ""
    "" ∅ 0 "" "" "" "" "" "" "" "" false None "" (Some draft_snapshot) false (Some prepared_all).
Definition reservation_all : ReservedExecutionV1 :=
  mkReserved "subscription.start" start_key {[ "conversation_id" := VString "cid-1"; "scope" := VString "all" ]}
    "0102fe" "req-1" (tick 0) (tick 120).

Lemma recovered_request_complete_witness :
  exists request, operationRequestFromReservation key7 (cloneReservedExecution reservation_all) = Ok request
    /\ req_IdempotencyKey request = start_key /\ same_write request start_all_request.
Proof.
  eapply (recovered_request_complete attempt7 key7 all_outcome prepared_all).
  - vm_compute. reflexivity.
  - exact attempt7_recordable.
  - vm_compute. reflexivity.
  - vm_compute. reflexivity.
  - split; [reflexivity|]. split; [reflexivity|]. exists "cid-1". split; reflexivity.
Defined.

(** A recovery store over the shared one that knows the executions of one key. *)
Section fixed.
Context (clock : nat -> Z) (k : WorkflowKey).

Definition fixed_load (c : option err) : ST shared_store (option VersionedWorkflow) :=
  shared_call clock (Load clock c k).

Definition fixed_recovery : @WorkflowRecoveryStore shared_store (shared_WorkflowStore clock) := {|
  ws_list_recoverable c now limit :=
    o <~ fixed_load c ;; st_ret (match o with Some w => [mkRecoverable k (Some w)] | None => [] end);
  ws_mark_recovery_required c _ v t at_ :=
    o <~ fixed_load c ;; match o with Some w => st_ret (Some w) | None => st_fail ErrWorkflowConflict end
|}.

Lemma fixed_load_kept c key op bk s :
  on_record key op bk s -> on_record key op bk (fixed_load c s).2.
Proof.
  apply (shared_call_kept clock _ c (CLoad k)). intros s0. symmetry. apply forget_state.
Qed.

Lemma fixed_laws :
  @WorkflowRecoveryLaws shared_store (shared_WorkflowStore clock) fixed_recovery
    (shared_WorkflowStoreLaws clock).
Proof.
  split.
  - intros c now limit key op bk s H. apply (fixed_load_kept c) in H. cbn. unfold st_bind.
    by destruct (fixed_load c s) as [[o|e] s'].
  - intros c k0 v t at_ key op bk s H. apply (fixed_load_kept c) in H. cbn. unfold st_bind.
    by destruct (fixed_load c s) as [[[w|]|e] s'].
Qed.
End fixed.

(** The executor dies after the reservation; the candidate is recovered two
    minutes later. *)
Definition expired_candidate : RecoverableWorkflowExecution :=
  mkRecoverable key7 (Some (mkVersioned draft_snapshot 1
    (Some (mkExecution WorkflowExecutionExecuting reservation_all None)))).
Definition recovery7 : recovery_attempt := mkRecovery (Ok [7; 8]) "plive-1-1" (tick 130) None None None None.
Definition dead_store : shared_store :=
  mkShared (run_call tick None (CCreateReserved key7 (Some draft_snapshot) reservation_all)
              newMemoryWorkflowStore).2 [] [].

Lemma recovery_settles_or_keeps_witness :
  recovered (HL := shared_WorkflowStoreLaws tick) (HR := fixed_recovery tick key7) counting_deps recovery7
    expired_candidate (tick 125) dead_store O
    (recoverWorkflowExecution (HS := shared_WorkflowStore tick) (HR := fixed_recovery tick key7)
       counting_deps recovery7 expired_candidate (tick 125) dead_store O).
Proof.
  apply (recovery_settles_or_keeps (HRL := fixed_laws tick key7)).
  intros workflow e [= <-] [= <-]. split.
  - unfold reservation_wide. cbn [ex_Reservation reservation_all re_TrustedParams].
    repeat (apply map_Forall_insert_2; [reflexivity|]). apply map_Forall_empty.
  - repeat split; vm_compute; congruence.
Defined.
