(* ===== verification/Repository.v ===== *)
(** * The workflow table (internal/repository/agent_workflow_repository.go)

    The rows of agent_workflows and the repository's methods: their checks, the
    WHERE predicate and the SET list of each statement, and the tenant plugin
    (tenant_gorm_plugin.go) that scopes every statement.  The database and the
    ORM are parameters: a type class of statements with the behaviour the
    repository relies on. *)
From Stdlib Require Import ZArith Lia Bool String.
From stdpp Require Import base list strings gmap.
From S2P Require Import Prelude GoStrings GoTime Contract Codec.
#[local] Open Scope go_scope.

(** ** Rows

    The columns are grouped as the repository's own structs group them: the
    unique key, the snapshot projection and the execution authority.  The
    surrogate primary key is never read and left out. *)

Record AgentWorkflowKey := mkRowKey {
  rk_TenantID : Z; rk_ConversationID : string; rk_ActorUserID : Z }.
#[global] Instance AgentWorkflowKey_eq_dec : EqDecision AgentWorkflowKey.
Proof. solve_decision. Defined.
#[global] Instance AgentWorkflowKey_countable : Countable AgentWorkflowKey.
Proof.
  apply (inj_countable' (fun k => (rk_TenantID k, rk_ConversationID k, rk_ActorUserID k))
           (fun '(a, b, c) => mkRowKey a b c)).
  by intros [].
Defined.

Record AgentWorkflowSnapshotUpdate := mkUpdate {
  su_WorkflowID : string; su_WorkflowType : string; su_WorkflowState : string;
  su_SnapshotSchemaVersion : Z; su_SnapshotJSON : string; su_ExpiresAt : Z }.

Record AgentWorkflowReservation := mkRowReservation {
  rr_ExecutionToken : string; rr_ExecutionOperation : string; rr_BusinessKey : string;
  rr_RequestID : string; rr_RequestSchemaVersion : Z; rr_RequestJSON : string;
  rr_LeaseExpiresAt : Z }.

Record AgentWorkflowExecutionResult := mkRowResult {
  xr_ResultSchemaVersion : Z; xr_ResultJSON : string; xr_BusinessKey : string;
  xr_WriteEffect : string; xr_CompletedAt : Z }.

(** The execution columns; a nil pointer is [None]. *)
Record execution_columns := mkExec {
  ec_Status : string;
  ec_Token : option string; ec_Operation : option string; ec_BusinessKey : option string;
  ec_RequestID : option string; ec_RequestSchemaVersion : option Z; ec_RequestJSON : option string;
  ec_ResultSchemaVersion : option Z; ec_ResultJSON : option string; ec_WriteEffect : option string;
  ec_LeaseExpiresAt : option Z }.

Record AgentWorkflow := mkRow {
  aw_Key : AgentWorkflowKey; aw_Snapshot : AgentWorkflowSnapshotUpdate; aw_Version : Z;
  aw_Exec : execution_columns; aw_CreatedAt : Z; aw_UpdatedAt : Z }.

Definition AgentWorkflowExecutionIdle : string := "idle".
Definition AgentWorkflowExecutionExecuting : string := "executing".
Definition AgentWorkflowExecutionResultRecorded : string := "result_recorded".
Definition AgentWorkflowExecutionRecoveryRequired : string := "recovery_required".

Definition ErrAgentWorkflowConflict : err := ESentinel "ErrAgentWorkflowConflict".
Definition ErrAgentWorkflowTenantMismatch : err := ESentinel "ErrAgentWorkflowTenantMismatch".
Definition ErrTenantMissing : err := ESentinel "ErrTenantMissing".

Definition keyFromWorkflow (w : AgentWorkflow) : AgentWorkflowKey := aw_Key w.

(** ** Contexts (internal/tenantctx) *)

Record db_ctx := mkCtx { cx_Err : option err; cx_Tenant : option Z; cx_Skip : bool }.

Definition TenantIDFrom (ctx : db_ctx) : option Z :=
  match cx_Tenant ctx with Some id => if id =? 0 then None else Some id | None => None end.
Definition SkipTenantScopeFrom (ctx : db_ctx) : bool := cx_Skip ctx.
Definition WithSkipTenantScope (ctx : db_ctx) : db_ctx := mkCtx (cx_Err ctx) (cx_Tenant ctx) true.
Definition WithTenantID (ctx : db_ctx) (id : Z) : db_ctx := mkCtx (cx_Err ctx) (Some id) (cx_Skip ctx).
Definition tenantIDFromCtx (ctx : db_ctx) : res Z :=
  match TenantIDFrom ctx with
  | Some id => if id =? 0 then Err ErrTenantMissing else Ok id
  | None => Err ErrTenantMissing
  end.

(** ** Checks *)

Definition repo_validate (ctx : db_ctx) (key : AgentWorkflowKey) : res unit :=
  tenantID <- tenantIDFromCtx ctx ;;
  guard (tenantID =? rk_TenantID key) ErrAgentWorkflowTenantMismatch ;;;
  guard (negb ((rk_TenantID key =? 0) || blank (rk_ConversationID key)))
    (EMsg "repository: agent workflow key is incomplete").

Definition validateMutation (ctx : db_ctx) (key : AgentWorkflowKey) (expectedVersion : Z) : res unit :=
  repo_validate ctx key ;;;
  guard (negb (expectedVersion =? 0)) (EMsg "repository: expected workflow version is zero").

Definition validateReservation (r : AgentWorkflowReservation) : res unit :=
  guard (negb (blank (rr_ExecutionToken r) || blank (rr_ExecutionOperation r)
               || blank (rr_BusinessKey r) || blank (rr_RequestID r)
               || (rr_RequestSchemaVersion r =? 0) || blank (rr_RequestJSON r)
               || is_zero (rr_LeaseExpiresAt r)))
    (EMsg "repository: execution reservation is incomplete").

Definition validateSnapshotUpdate (next : AgentWorkflowSnapshotUpdate) : res unit :=
  guard (negb (blank (su_WorkflowID next) || blank (su_WorkflowType next)
               || blank (su_WorkflowState next) || (su_SnapshotSchemaVersion next =? 0)
               || blank (su_SnapshotJSON next) || is_zero (su_ExpiresAt next)))
    (EMsg "repository: workflow snapshot update is incomplete").

Definition validateWorkflowForCreate (w : AgentWorkflow) : res unit :=
  validateSnapshotUpdate (aw_Snapshot w).

(** ** SET lists *)

Definition nullableString (value : string) : option string := if blank value then None else Some value.

Definition set_snapshot (next : AgentWorkflowSnapshotUpdate) (w : AgentWorkflow) : AgentWorkflow :=
  mkRow (aw_Key w) next (aw_Version w) (aw_Exec w) (aw_CreatedAt w) (aw_UpdatedAt w).
Definition set_exec (x : execution_columns) (w : AgentWorkflow) : AgentWorkflow :=
  mkRow (aw_Key w) (aw_Snapshot w) (aw_Version w) x (aw_CreatedAt w) (aw_UpdatedAt w).
Definition set_version (v : Z) (w : AgentWorkflow) : AgentWorkflow :=
  mkRow (aw_Key w) (aw_Snapshot w) v (aw_Exec w) (aw_CreatedAt w) (aw_UpdatedAt w).
(** [gorm.Expr("version + ?", 1)] *)
Definition bump (w : AgentWorkflow) : AgentWorkflow := set_version (aw_Version w + 1) w.

Definition no_execution : execution_columns :=
  mkExec AgentWorkflowExecutionIdle None None None None None None None None None None.
(** A reservation with its result columns reset, as executing. *)
Definition reserved_columns (r : AgentWorkflowReservation) : execution_columns :=
  mkExec AgentWorkflowExecutionExecuting (Some (rr_ExecutionToken r)) (Some (rr_ExecutionOperation r))
    (Some (rr_BusinessKey r)) (Some (rr_RequestID r)) (Some (rr_RequestSchemaVersion r))
    (Some (rr_RequestJSON r)) None None None (Some (rr_LeaseExpiresAt r)).
Definition recorded_columns (result : AgentWorkflowExecutionResult) (x : execution_columns)
  : execution_columns :=
  mkExec AgentWorkflowExecutionResultRecorded (ec_Token x) (ec_Operation x) (ec_BusinessKey x)
    (ec_RequestID x) (ec_RequestSchemaVersion x) (ec_RequestJSON x)
    (Some (xr_ResultSchemaVersion result)) (Some (xr_ResultJSON result))
    (nullableString (xr_WriteEffect result)) (ec_LeaseExpiresAt x).
Definition deferred_columns (retryAt : Z) (x : execution_columns) : execution_columns :=
  mkExec AgentWorkflowExecutionRecoveryRequired (ec_Token x) (ec_Operation x) (ec_BusinessKey x)
    (ec_RequestID x) (ec_RequestSchemaVersion x) (ec_RequestJSON x)
    (ec_ResultSchemaVersion x) (ec_ResultJSON x) (ec_WriteEffect x) (Some retryAt).

Definition prepareNewWorkflow (w : AgentWorkflow) (x : execution_columns) : AgentWorkflow :=
  let s := aw_Snapshot w in
  mkRow (aw_Key w)
    (mkUpdate (su_WorkflowID s) (su_WorkflowType s) (su_WorkflowState s)
       (if su_SnapshotSchemaVersion s =? 0 then 1 else su_SnapshotSchemaVersion s)
       (su_SnapshotJSON s) (su_ExpiresAt s))
    1 x (aw_CreatedAt w) (aw_UpdatedAt w).

(** ** The database *)

Notation workflow_table := (gmap AgentWorkflowKey AgentWorkflow).

(** What the schema and the driver fix.  Text is compared through its collation
    weight ([db_collate]: the production schema declares utf8mb4_unicode_ci); a
    time column keeps [db_time] of what it is given; [db_duplicate] is whether
    a driver's error reports a duplicate key. *)
Class DatabaseConventions := {
  db_collate : string -> string;
  db_time : Z -> Z;
  db_duplicate : err -> bool
}.

(** Statements on the rows of one unique key, and the recovery scan.  [db_rows]
    and [db_past] are ghosts: the table, and the states it went through. *)
Class WorkflowDatabase (D : Type) := {
  db_rows : D -> workflow_table;
  db_past : D -> list workflow_table;
  db_first : option err -> AgentWorkflowKey -> (AgentWorkflow -> bool) -> ST D AgentWorkflow;
  db_insert : option err -> AgentWorkflow -> ST D (Z * AgentWorkflow);
  db_update : option err -> AgentWorkflowKey -> (AgentWorkflow -> bool) -> (AgentWorkflow -> AgentWorkflow) ->
    ST D Z;
  db_remove : option err -> AgentWorkflowKey -> (AgentWorkflow -> bool) -> ST D Z;
  db_find : option err -> (AgentWorkflow -> bool) -> Z -> ST D (list AgentWorkflow)
}.

Definition ErrRecordNotFound : err := ESentinel "gorm.ErrRecordNotFound".

Section repository.
Context `{DC : DatabaseConventions} {D : Type} `{DB : WorkflowDatabase D}.

Definition text_eq (a b : string) : bool := bool_decide (db_collate a = db_collate b).
(** [column = ?] on a nullable column *)
Definition col_eq (column : option string) (v : string) : bool :=
  match column with Some x => text_eq x v | None => false end.
Definition is_null {A} (column : option A) : bool := match column with Some _ => false | None => true end.

(** The unique key, as the index compares it. *)
Definition index_key (k : AgentWorkflowKey) : AgentWorkflowKey :=
  mkRowKey (rk_TenantID k) (db_collate (rk_ConversationID k)) (rk_ActorUserID k).

(** ** The tenant plugin (tenant_gorm_plugin.go) *)

Definition tenantScopeWhere (ctx : db_ctx) (p : AgentWorkflow -> bool) : res (AgentWorkflow -> bool) :=
  if SkipTenantScopeFrom ctx then Ok p
  else
    tenantID <- tenantIDFromCtx ctx ;;
    Ok (fun w => (rk_TenantID (aw_Key w) =? tenantID) && p w).

Definition forceSetTenantID (tenantID : Z) (w : AgentWorkflow) : AgentWorkflow :=
  let k := aw_Key w in
  mkRow (mkRowKey tenantID (rk_ConversationID k) (rk_ActorUserID k)) (aw_Snapshot w) (aw_Version w)
    (aw_Exec w) (aw_CreatedAt w) (aw_UpdatedAt w).

Definition tenantScopeUpdate (ctx : db_ctx) (set : AgentWorkflow -> AgentWorkflow)
  : res (AgentWorkflow -> AgentWorkflow) :=
  if SkipTenantScopeFrom ctx then Ok set
  else
    tenantID <- tenantIDFromCtx ctx ;;
    Ok (fun w => forceSetTenantID tenantID (set w)).

Definition tenantScopeCreate (ctx : db_ctx) (w : AgentWorkflow) : res AgentWorkflow :=
  if SkipTenantScopeFrom ctx then Ok w
  else tenantID <- tenantIDFromCtx ctx ;; Ok (forceSetTenantID tenantID w).

(** A statement as the plugin lets it through. *)
Definition scoped_first (ctx : db_ctx) (key : AgentWorkflowKey) : ST D AgentWorkflow :=
  p <~ st_lift (tenantScopeWhere ctx (fun _ => true)) ;;
  db_first (cx_Err ctx) key p.
Definition scoped_insert (ctx : db_ctx) (w : AgentWorkflow) : ST D (Z * AgentWorkflow) :=
  w <~ st_lift (tenantScopeCreate ctx w) ;;
  db_insert (cx_Err ctx) w.
Definition scoped_update (ctx : db_ctx) (key : AgentWorkflowKey) (where_ : AgentWorkflow -> bool)
    (set : AgentWorkflow -> AgentWorkflow) : ST D Z :=
  p <~ st_lift (tenantScopeWhere ctx where_) ;;
  set <~ st_lift (tenantScopeUpdate ctx set) ;;
  db_update (cx_Err ctx) key p set.
Definition scoped_remove (ctx : db_ctx) (key : AgentWorkflowKey) (where_ : AgentWorkflow -> bool) : ST D Z :=
  p <~ st_lift (tenantScopeWhere ctx where_) ;;
  db_remove (cx_Err ctx) key p.

(** ** WHERE predicates *)

Definition idleExecutionPredicate (x : execution_columns) : bool :=
  text_eq (ec_Status x) AgentWorkflowExecutionIdle
  && is_null (ec_Token x) && is_null (ec_Operation x) && is_null (ec_BusinessKey x)
  && is_null (ec_RequestID x) && is_null (ec_RequestSchemaVersion x) && is_null (ec_RequestJSON x)
  && is_null (ec_ResultSchemaVersion x) && is_null (ec_ResultJSON x) && is_null (ec_WriteEffect x)
  && is_null (ec_LeaseExpiresAt x).

Definition where_idle (v : Z) (w : AgentWorkflow) : bool :=
  (aw_Version w =? v) && idleExecutionPredicate (aw_Exec w).

Definition where_executing (v : Z) (token businessKey : string) (w : AgentWorkflow) : bool :=
  let x := aw_Exec w in
  (aw_Version w =? v) && text_eq (ec_Status x) AgentWorkflowExecutionExecuting
  && col_eq (ec_Token x) token && col_eq (ec_BusinessKey x) businessKey
  && negb (is_null (ec_LeaseExpiresAt x)) && negb (is_null (ec_RequestSchemaVersion x))
  && negb (is_null (ec_RequestJSON x)).

Definition where_recorded (v : Z) (token : string) (w : AgentWorkflow) : bool :=
  let x := aw_Exec w in
  (aw_Version w =? v) && text_eq (ec_Status x) AgentWorkflowExecutionResultRecorded
  && col_eq (ec_Token x) token
  && negb (is_null (ec_ResultSchemaVersion x)) && negb (is_null (ec_ResultJSON x)).

Definition where_expired (v : Z) (token operation businessKey : string) (expiredBefore : Z)
    (w : AgentWorkflow) : bool :=
  let x := aw_Exec w in
  (aw_Version w =? v) && col_eq (ec_Token x) token
  && (text_eq (ec_Status x) AgentWorkflowExecutionExecuting
      || text_eq (ec_Status x) AgentWorkflowExecutionRecoveryRequired)
  && col_eq (ec_Operation x) operation && col_eq (ec_BusinessKey x) businessKey
  && negb (is_null (ec_RequestSchemaVersion x)) && negb (is_null (ec_RequestJSON x))
  && match ec_LeaseExpiresAt x with Some l => l <=? expiredBefore | None => false end.

Definition where_held (v : Z) (token : string) (w : AgentWorkflow) : bool :=
  let x := aw_Exec w in
  (aw_Version w =? v) && col_eq (ec_Token x) token
  && text_eq (ec_Status x) AgentWorkflowExecutionExecuting.

Definition where_recoverable (now : Z) (w : AgentWorkflow) : bool :=
  let x := aw_Exec w in
  text_eq (ec_Status x) AgentWorkflowExecutionResultRecorded
  || (text_eq (ec_Status x) AgentWorkflowExecutionExecuting
      || text_eq (ec_Status x) AgentWorkflowExecutionRecoveryRequired)
     && match ec_LeaseExpiresAt x with Some l => l <=? now | None => false end.

(** ** Answers *)

Definition requireOneRow (m : ST D Z) : ST D unit :=
  n <~ m ;;
  if n =? 1 then st_ret tt else st_fail ErrAgentWorkflowConflict.

Definition mapAgentWorkflowCreateError {A} (r : res A) : res A :=
  match r with
  | Ok a => Ok a
  | Err e => if db_duplicate e then Err ErrAgentWorkflowConflict else Err e
  end.

(** The ORM leaves the row it inserted in the caller's struct. *)
Definition requireOneCreatedRow (m : ST D (Z * AgentWorkflow)) : ST D AgentWorkflow :=
  fun d =>
    let '(r, d) := m d in
    match mapAgentWorkflowCreateError r with
    | Ok (n, w) => if n =? 1 then (Ok w, d) else (Err ErrAgentWorkflowConflict, d)
    | Err e => (Err e, d)
    end.

(** ** Methods *)

Definition repo_Load (ctx : db_ctx) (key : AgentWorkflowKey) : ST D (option AgentWorkflow) :=
  st_lift (repo_validate ctx key) ~;;
  fun d =>
    match scoped_first ctx key d with
    | (Ok w, d) => (Ok (Some w), d)
    | (Err e, d) => if errors_Is e "gorm.ErrRecordNotFound" then (Ok None, d) else (Err e, d)
    end.

Definition repo_Create (ctx : db_ctx) (workflow : option AgentWorkflow) : ST D AgentWorkflow :=
  match workflow with
  | None => st_fail (EMsg "repository: agent workflow is nil")
  | Some w =>
      st_lift (repo_validate ctx (keyFromWorkflow w)) ~;;
      st_lift (validateWorkflowForCreate w) ~;;
      requireOneCreatedRow (scoped_insert ctx (prepareNewWorkflow w no_execution))
  end.

Definition repo_CompareAndSwap (ctx : db_ctx) (key : AgentWorkflowKey) (expectedVersion : Z)
    (next : AgentWorkflowSnapshotUpdate) : ST D unit :=
  st_lift (validateMutation ctx key expectedVersion) ~;;
  st_lift (validateSnapshotUpdate next) ~;;
  requireOneRow (scoped_update ctx key (where_idle expectedVersion)
                   (fun w => bump (set_snapshot next w))).

Definition repo_DeleteIfVersion (ctx : db_ctx) (key : AgentWorkflowKey) (expectedVersion : Z) : ST D unit :=
  st_lift (validateMutation ctx key expectedVersion) ~;;
  requireOneRow (scoped_remove ctx key (where_idle expectedVersion)).

Definition repo_CreateReservedExecution (ctx : db_ctx) (workflow : option AgentWorkflow)
    (reservation : AgentWorkflowReservation) : ST D AgentWorkflow :=
  match workflow with
  | None => st_fail (EMsg "repository: agent workflow is nil")
  | Some w =>
      st_lift (repo_validate ctx (keyFromWorkflow w)) ~;;
      st_lift (validateWorkflowForCreate w) ~;;
      st_lift (validateReservation reservation) ~;;
      requireOneCreatedRow (scoped_insert ctx (prepareNewWorkflow w (reserved_columns reservation)))
  end.

Definition repo_ReserveExecution (ctx : db_ctx) (key : AgentWorkflowKey) (expectedVersion : Z)
    (next : AgentWorkflowSnapshotUpdate) (reservation : AgentWorkflowReservation) : ST D unit :=
  st_lift (validateMutation ctx key expectedVersion) ~;;
  st_lift (validateSnapshotUpdate next) ~;;
  st_lift (validateReservation reservation) ~;;
  requireOneRow (scoped_update ctx key (where_idle expectedVersion)
                   (fun w => bump (set_exec (reserved_columns reservation) (set_snapshot next w)))).

Definition repo_RecordExecutionResult (ctx : db_ctx) (key : AgentWorkflowKey) (expectedVersion : Z)
    (executionToken : string) (result : AgentWorkflowExecutionResult) : ST D unit :=
  st_lift (validateMutation ctx key expectedVersion) ~;;
  st_lift (guard (negb (blank executionToken)) (EMsg "repository: execution token is empty")) ~;;
  st_lift (guard (negb ((xr_ResultSchemaVersion result =? 0) || blank (xr_ResultJSON result)
                        || blank (xr_BusinessKey result) || blank (xr_WriteEffect result)
                        || is_zero (xr_CompletedAt result)))
             (EMsg "repository: execution result is incomplete")) ~;;
  requireOneRow (scoped_update ctx key (where_executing expectedVersion executionToken (xr_BusinessKey result))
                   (fun w => bump (set_exec (recorded_columns result (aw_Exec w)) w))).

Definition repo_FinalizeExecution (ctx : db_ctx) (key : AgentWorkflowKey) (expectedVersion : Z)
    (executionToken : string) (next : AgentWorkflowSnapshotUpdate) : ST D unit :=
  st_lift (validateMutation ctx key expectedVersion) ~;;
  st_lift (validateSnapshotUpdate next) ~;;
  st_lift (guard (negb (blank executionToken)) (EMsg "repository: execution token is empty")) ~;;
  requireOneRow (scoped_update ctx key (where_recorded expectedVersion executionToken)
                   (fun w => bump (set_exec no_execution (set_snapshot next w)))).

Definition repo_DeleteReservedExecution (ctx : db_ctx) (key : AgentWorkflowKey) (expectedVersion : Z)
    (executionToken : string) : ST D unit :=
  st_lift (validateMutation ctx key expectedVersion) ~;;
  st_lift (guard (negb (blank executionToken)) (EMsg "repository: execution token is empty")) ~;;
  requireOneRow (scoped_remove ctx key (where_recorded expectedVersion executionToken)).

Definition repo_TakeoverExpiredExecution (ctx : db_ctx) (key : AgentWorkflowKey) (expectedVersion : Z)
    (previousToken : string) (expiredBefore : Z) (next : AgentWorkflowReservation) : ST D unit :=
  st_lift (validateMutation ctx key expectedVersion) ~;;
  st_lift (guard (negb (blank previousToken || is_zero expiredBefore))
             (EMsg "repository: takeover predicate is incomplete")) ~;;
  st_lift (validateReservation next) ~;;
  requireOneRow (scoped_update ctx key
                   (where_expired expectedVersion previousToken (rr_ExecutionOperation next)
                      (rr_BusinessKey next) expiredBefore)
                   (fun w => bump (set_exec (reserved_columns next) w))).

Definition repo_ListRecoverableExecutions (ctx : db_ctx) (now limit : Z) : ST D (list AgentWorkflow) :=
  st_lift (match cx_Err ctx with Some e => Err e | None => Ok tt end) ~;;
  st_lift (guard (negb (is_zero now || (limit <=? 0) || (100 <? limit)))
             (EMsg "repository: invalid workflow recovery scan")) ~;;
  (p <~ st_lift (tenantScopeWhere (WithSkipTenantScope ctx) (where_recoverable now)) ;;
   db_find (cx_Err ctx) p limit).

Definition repo_MarkExecutionRecoveryRequired (ctx : db_ctx) (key : AgentWorkflowKey)
    (expectedVersion : Z) (executionToken : string) (retryAt : Z) : ST D unit :=
  st_lift (validateMutation ctx key expectedVersion) ~;;
  st_lift (guard (negb (blank executionToken || is_zero retryAt))
             (EMsg "repository: recovery deferral predicate is incomplete")) ~;;
  requireOneRow (scoped_update ctx key (where_held expectedVersion executionToken)
                   (fun w => bump (set_exec (deferred_columns retryAt (aw_Exec w)) w))).

End repository.
