(* ===== verification/RepositorySpec.v ===== *)
(** * Properties of the workflow table

    What the repository relies on from the database, the changes its statements
    make to a row, and what follows for any interleaving of its clients: writes
    on record are never lost, and a tenant's statements stay in its rows. *)
From Stdlib Require Import ZArith Lia Bool String.
From stdpp Require Import base list strings gmap.
From S2P Require Import Prelude GoStrings GoTime Contract Codec Repository.
#[local] Open Scope go_scope.

(** ** Changes of one row *)

Section changes.
Context `{DC : DatabaseConventions}.

(** Time columns as the table keeps them. *)
Definition store_times (w : AgentWorkflow) : AgentWorkflow :=
  let s := aw_Snapshot w in let x := aw_Exec w in
  mkRow (aw_Key w)
    (mkUpdate (su_WorkflowID s) (su_WorkflowType s) (su_WorkflowState s) (su_SnapshotSchemaVersion s)
       (su_SnapshotJSON s) (db_time (su_ExpiresAt s)))
    (aw_Version w)
    (mkExec (ec_Status x) (ec_Token x) (ec_Operation x) (ec_BusinessKey x) (ec_RequestID x)
       (ec_RequestSchemaVersion x) (ec_RequestJSON x) (ec_ResultSchemaVersion x) (ec_ResultJSON x)
       (ec_WriteEffect x) (db_time <$> ec_LeaseExpiresAt x))
    (db_time (aw_CreatedAt w)) (db_time (aw_UpdatedAt w)).

(** The ORM stamps updated_at on an update, and the zero times of a new row. *)
Definition touched (now : Z) (w : AgentWorkflow) : AgentWorkflow :=
  mkRow (aw_Key w) (aw_Snapshot w) (aw_Version w) (aw_Exec w) (aw_CreatedAt w) now.
Definition created (now : Z) (w : AgentWorkflow) : AgentWorkflow :=
  let stamp t := if is_zero t then now else t in
  mkRow (aw_Key w) (aw_Snapshot w) (aw_Version w) (aw_Exec w) (stamp (aw_CreatedAt w))
    (stamp (aw_UpdatedAt w)).

(** The rows the repository inserts, and its statements on existing ones. *)
Definition insertable (w : AgentWorkflow) : Prop :=
  aw_Version w = 1 /\ (aw_Exec w = no_execution \/ exists r, aw_Exec w = reserved_columns r).

Inductive repository_update : (AgentWorkflow -> bool) -> (AgentWorkflow -> AgentWorkflow) -> Prop :=
  | update_idle v next : repository_update (where_idle v) (fun w => bump (set_snapshot next w))
  | update_reserve v next r :
      repository_update (where_idle v) (fun w => bump (set_exec (reserved_columns r) (set_snapshot next w)))
  | update_record v t result :
      repository_update (where_executing v t (xr_BusinessKey result))
        (fun w => bump (set_exec (recorded_columns result (aw_Exec w)) w))
  | update_finalize v t next :
      repository_update (where_recorded v t) (fun w => bump (set_exec no_execution (set_snapshot next w)))
  | update_takeover v t before r :
      repository_update (where_expired v t (rr_ExecutionOperation r) (rr_BusinessKey r) before)
        (fun w => bump (set_exec (reserved_columns r) w))
  | update_defer v t retryAt :
      repository_update (where_held v t) (fun w => bump (set_exec (deferred_columns retryAt (aw_Exec w)) w)).

Inductive repository_remove : (AgentWorkflow -> bool) -> Prop :=
  | remove_idle v : repository_remove (where_idle v)
  | remove_recorded v t : repository_remove (where_recorded v t).

Inductive row_change : option AgentWorkflow -> option AgentWorkflow -> Prop :=
  | change_insert w now : insertable w -> row_change None (Some (store_times (created now w)))
  | change_update p set w now :
      repository_update p set -> p w = true ->
      row_change (Some w) (Some (store_times (touched now (set w))))
  | change_remove p w : repository_remove p -> p w = true -> row_change (Some w) None.

Definition set_row (k : AgentWorkflowKey) (o : option AgentWorkflow) (m : workflow_table) : workflow_table :=
  match o with Some w => <[k := w]> m | None => delete k m end.

Lemma lookup_set_row k o m : set_row k o m !! k = o.
Proof. destruct o; cbn; [apply lookup_insert_eq|apply lookup_delete_eq]. Qed.
Lemma lookup_set_row_ne k k' o m : k <> k' -> set_row k o m !! k' = m !! k'.
Proof. intros. destruct o; cbn; [by apply lookup_insert_ne|by apply lookup_delete_ne]. Qed.

(** One statement of a client, which may find nothing to change. *)
Definition repository_step (m m' : workflow_table) : Prop :=
  m' = m \/ exists k o, row_change (m !! k) o /\ m' = set_row k o m.

(** Steps of any clients, with the states they visit. *)
Inductive ran : workflow_table -> list workflow_table -> workflow_table -> Prop :=
  | ran_done m : ran m [m] m
  | ran_step m m1 l m' : repository_step m m1 -> ran m1 l m' -> ran m (m :: l) m'.

(** Between two statements of one client, others bring the table to [m]. *)
Definition between {D} `{WorkflowDatabase D} (d d' : D) (m : workflow_table) : Prop :=
  exists l, ran (db_rows d) l m /\ db_past d' = db_past d ++ l.

(** What a statement does to the table it finds. *)
Definition inserted (w : AgentWorkflow) (m m' : workflow_table) : Prop :=
  exists now, m !! index_key (aw_Key w) = None
    /\ m' = <[index_key (aw_Key w) := store_times (created now w)]> m.
Definition updated (k : AgentWorkflowKey) (p : AgentWorkflow -> bool) (set : AgentWorkflow -> AgentWorkflow)
    (m m' : workflow_table) : Prop :=
  exists w now, m !! index_key k = Some w /\ p w = true /\ in_uint64 (aw_Version (set w)) = true
    /\ m' = <[index_key k := store_times (touched now (set w))]> m.
Definition removed (k : AgentWorkflowKey) (p : AgentWorkflow -> bool) (m m' : workflow_table) : Prop :=
  exists w, m !! index_key k = Some w /\ p w = true /\ m' = delete (index_key k) m.
Definition unmatched (k : AgentWorkflowKey) (p : AgentWorkflow -> bool) (m : workflow_table) : Prop :=
  forall w, m !! index_key k = Some w -> p w = false.
End changes.

(** ** What the repository relies on

    A DATETIME(3) column keeps a time to the millisecond; statements are atomic
    and other clients' statements come in between; a statement that failed may
    nevertheless have been applied (its answer was lost). *)
Class WorkflowDatabaseLaws (D : Type) `{DatabaseConventions} `{WorkflowDatabase D} := {
  db_time_exact t : t mod ns_ms = 0 -> db_time t = t;
  db_time_ms t : db_time t mod ns_ms = 0;
  db_first_law c k p d r d' :
    db_first c k p d = (r, d') -> between d d' (db_rows d')
    /\ match r with
       | Ok w => db_rows d' !! index_key k = Some w /\ p w = true
       | Err e => errors_Is e "gorm.ErrRecordNotFound" = true -> unmatched k p (db_rows d')
       end;
  db_insert_law c w d r d' :
    db_insert c w d = (r, d') -> exists m, between d d' m
    /\ match r with
       | Ok (n, w') => (exists now, w' = created now w)
                       /\ ((n = 1 /\ inserted w m (db_rows d')) \/ (n <> 1 /\ db_rows d' = m))
       | Err e => (inserted w m (db_rows d') \/ db_rows d' = m)
                  /\ (db_duplicate e = true -> is_Some (m !! index_key (aw_Key w)))
       end;
  db_update_law c k p set d r d' :
    db_update c k p set d = (r, d') -> exists m, between d d' m
    /\ match r with
       | Ok n => (n = 1 /\ updated k p set m (db_rows d'))
                 \/ (n = 0 /\ unmatched k p m /\ db_rows d' = m)
       | Err _ => updated k p set m (db_rows d') \/ db_rows d' = m
       end;
  db_remove_law c k p d r d' :
    db_remove c k p d = (r, d') -> exists m, between d d' m
    /\ match r with
       | Ok n => (n = 1 /\ removed k p m (db_rows d'))
                 \/ (n = 0 /\ unmatched k p m /\ db_rows d' = m)
       | Err _ => removed k p m (db_rows d') \/ db_rows d' = m
       end;
  db_find_law c p limit d r d' :
    db_find c p limit d = (r, d') -> between d d' (db_rows d')
    /\ match r with
       | Ok l => len l <= Z.max 0 limit
                 /\ Forall (fun w => p w = true /\ exists k, db_rows d' !! k = Some w) l
       | Err _ => True
       end
}.

(** ** Writes on record *)

Section record.
Context `{DC : DatabaseConventions}.

(** An execution of this operation for this business key. *)
Definition row_for (op bk : string) (w : AgentWorkflow) : Prop :=
  col_eq (ec_Operation (aw_Exec w)) op = true /\ col_eq (ec_BusinessKey (aw_Exec w)) bk = true.
Definition recorded_row (w : AgentWorkflow) : Prop :=
  text_eq (ec_Status (aw_Exec w)) AgentWorkflowExecutionResultRecorded = true
  /\ is_Some (ec_ResultJSON (aw_Exec w)).

Definition holds_row (k : AgentWorkflowKey) (op bk : string) (m : workflow_table) : Prop :=
  exists w, m !! index_key k = Some w /\ row_for op bk w.
Definition holds_recorded_row (k : AgentWorkflowKey) (op bk : string) (m : workflow_table) : Prop :=
  exists w, m !! index_key k = Some w /\ row_for op bk w /\ recorded_row w.

Lemma text_eq_true a b : text_eq a b = true <-> db_collate a = db_collate b.
Proof. apply bool_decide_eq_true. Qed.

Lemma text_eq_refl a : text_eq a a = true.
Proof. by apply text_eq_true. Qed.

Lemma col_eq_trans o a b : col_eq o a = true -> col_eq o b = true -> text_eq a b = true.
Proof. destruct o as [x|]; [|done]. cbn. rewrite !text_eq_true. congruence. Qed.

Lemma is_null_true {A} (o : option A) : is_null o = true <-> o = None.
Proof. by destruct o. Qed.
Lemma is_null_false {A} (o : option A) : is_null o = false <-> is_Some o.
Proof. destruct o; cbn; [split; eauto|split; [done|by intros [? ?]]]. Qed.

Lemma row_for_stored op bk now w : row_for op bk (store_times (touched now w)) <-> row_for op bk w.
Proof. done. Qed.

Lemma idle_not_for op bk v w : where_idle v w = true -> ~ row_for op bk w.
Proof.
  unfold where_idle, idleExecutionPredicate. intros H [Ho _]. b2p.
  match goal with H : is_null (ec_Operation _) = true |- _ => apply is_null_true in H; rewrite H in Ho end.
  done.
Qed.

Lemma recorded_where v t w : where_recorded v t w = true -> recorded_row w.
Proof. unfold where_recorded. intros H. b2p. split; [done|]. by apply is_null_false. Qed.

(** A change leaves a held write held, unless its result was recorded. *)
Lemma row_change_keeps w o op bk :
  row_change (Some w) o -> row_for op bk w ->
  (exists w', o = Some w' /\ row_for op bk w') \/ recorded_row w.
Proof.
  intros Hc Hw. inversion Hc as [|p set w0 now Hu Hp|p w0 Hr Hp]; subst.
  - destruct Hu; cbn beta in Hp;
      try (exfalso; by eapply idle_not_for); try (right; by eapply recorded_where);
      left; eexists; (split; [done|]); rewrite row_for_stored; try done.
    unfold where_expired in Hp. b2p. destruct Hw as [Ho Hb]. split; cbn.
    + by eapply col_eq_trans.
    + by eapply col_eq_trans.
  - destruct Hr; [exfalso; by eapply idle_not_for|right; by eapply recorded_where].
Qed.

Lemma ran_last m l m' : ran m l m' -> m' ∈ l.
Proof. induction 1; [by left|by right]. Qed.

Lemma step_keeps k op bk m m' :
  repository_step m m' -> holds_row k op bk m -> holds_row k op bk m' \/ holds_recorded_row k op bk m.
Proof.
  intros [->|(k' & o & Hc & ->)]; [by left|]. intros (w & Hw & Hf). destruct (decide (k' = index_key k)) as [->|Hne].
  - rewrite Hw in Hc. destruct (row_change_keeps _ _ _ _ Hc Hf) as [(w' & -> & Hf')|Hr].
    + left. exists w'. by rewrite lookup_set_row.
    + right. by exists w.
  - left. exists w. by rewrite lookup_set_row_ne.
Qed.

Lemma ran_keeps k op bk m l m' :
  ran m l m' -> holds_row k op bk m -> holds_row k op bk m' \/ Exists (holds_recorded_row k op bk) l.
Proof.
  induction 1 as [|m m1 l m' Hs _ IH]; intros Hm; [by left|].
  destruct (step_keeps _ _ _ _ _ Hs Hm) as [H1|H1]; [|right; by left].
  destruct (IH H1) as [?|?]; [by left|right; by right].
Qed.

End record.

(** ** Calls of one client *)

Section calls.
Context `{DC : DatabaseConventions} {D : Type} `{DB : WorkflowDatabase D} {DBL : WorkflowDatabaseLaws D}.

(** A statement is a step of the table, when it is one of the repository's. *)
Lemma ran_snoc m l m1 m2 : ran m l m1 -> repository_step m1 m2 -> ran m (l ++ [m2]) m2.
Proof.
  induction 1 as [m|m m1' l m' Hs _ IH]; intros H; cbn.
  - eapply ran_step; [exact H|apply ran_done].
  - eapply ran_step; [exact Hs|by apply IH].
Qed.

Definition preserved (P : workflow_table -> Prop) : Prop :=
  forall m m', repository_step m m' -> P m -> P m'.

Definition was_recorded_row (k : AgentWorkflowKey) (op bk : string) (d : D) : Prop :=
  Exists (holds_recorded_row k op bk) (db_past d).
Definition row_kept (k : AgentWorkflowKey) (op bk : string) (d : D) : Prop :=
  holds_row k op bk (db_rows d) \/ was_recorded_row k op bk d.

Lemma between_kept k op bk d d' m :
  between d d' m -> row_kept k op bk d -> holds_row k op bk m \/ was_recorded_row k op bk d'.
Proof.
  intros (l & Hr & Hp) H. unfold was_recorded_row. rewrite Hp, Exists_app.
  destruct H as [H|H]; [|by right; left]. destruct (ran_keeps _ _ _ _ _ _ Hr H); tauto.
Qed.

(** Others ran, then possibly one step of this client's own. *)
Lemma statement_keeps k op bk d d' m :
  between d d' m -> (repository_step m (db_rows d') \/ db_rows d' = m) ->
  row_kept k op bk d -> row_kept k op bk d'.
Proof.
  intros Hb Hs H. destruct (between_kept _ _ _ _ _ _ Hb H) as [Hm|Hr]; [|by right].
  destruct Hs as [Hs|Hs]; [|left; by rewrite Hs].
  destruct (step_keeps _ _ _ _ _ Hs Hm) as [?|Hr]; [by left|right].
  destruct Hb as (l & Hran & Hp). unfold was_recorded_row. rewrite Hp, Exists_app. right.
  apply Exists_exists. exists m. split; [by eapply ran_last|done].
Qed.

(** Under the plugin a statement on a row of the context's tenant is the
    repository's own. *)
Lemma scoped_set_same t set w p :
  repository_update p set -> rk_TenantID (aw_Key w) = t -> forceSetTenantID t (set w) = set w.
Proof. intros H Ht. destruct H, w as [[] ? ? ? ? ?]; cbn in *; by subst. Qed.

Lemma updated_step k ctx p set p' set' m m' :
  repository_update p set -> tenantScopeWhere ctx p = Ok p' -> tenantScopeUpdate ctx set = Ok set' ->
  updated k p' set' m m' -> repository_step m m'.
Proof.
  unfold tenantScopeWhere, tenantScopeUpdate. intros Hu Hp Hs (w & now & Hw & Hpw & _ & ->).
  right. exists (index_key k), (Some (store_times (touched now (set w)))).
  rewrite Hw. destruct (SkipTenantScopeFrom ctx).
  - injection Hp as <-. injection Hs as <-. split; [by econstructor|done].
  - destruct (tenantIDFromCtx ctx) as [t|]; [|done]. injection Hp as <-. injection Hs as <-.
    cbn beta in Hpw. b2p. split; [by econstructor|]. cbn [set_row]. by rewrite (scoped_set_same t set w p).
Qed.

Lemma removed_step k ctx p p' m m' :
  repository_remove p -> tenantScopeWhere ctx p = Ok p' -> removed k p' m m' -> repository_step m m'.
Proof.
  unfold tenantScopeWhere. intros Hr Hp (w & Hw & Hpw & ->). right. exists (index_key k), None. rewrite Hw.
  split; [|done]. econstructor; [exact Hr|]. destruct (SkipTenantScopeFrom ctx).
  - by injection Hp as <-.
  - destruct (tenantIDFromCtx ctx) as [t|]; [|done]. injection Hp as <-. cbn beta in Hpw. by b2p.
Qed.

Lemma inserted_step w m m' : insertable w -> inserted w m m' -> repository_step m m'.
Proof.
  intros Hi (now & Hn & ->). right. exists (index_key (aw_Key w)), (Some (store_times (created now w))).
  rewrite Hn. split; [by constructor|done].
Qed.

Lemma keeps_lift_bind {A B} (P : D -> Prop) (r : res A) (k : A -> ST D B) :
  (forall a, r = Ok a -> st_keeps P (k a)) -> st_keeps P (a <~ st_lift r ;; k a).
Proof. intros H s Hs. unfold st_bind, st_lift. destruct r as [a|e]; [by apply (H a)|done]. Qed.

Section keeps.
Context (k : AgentWorkflowKey) (op bk : string).

Lemma scoped_first_keeps ctx key : st_keeps (row_kept k op bk) (scoped_first ctx key).
Proof.
  apply keeps_lift_bind. intros p _ d Hd. destruct (db_first _ _ _ d) as [r d'] eqn:E.
  apply db_first_law in E as [Hb _]. by eapply statement_keeps; [exact Hb|right|].
Qed.

Lemma scoped_update_keeps ctx key p set :
  repository_update p set -> st_keeps (row_kept k op bk) (scoped_update ctx key p set).
Proof.
  intros Hu. apply keeps_lift_bind. intros p' Hp. apply keeps_lift_bind. intros set' Hs d Hd.
  destruct (db_update _ _ _ _ d) as [r d'] eqn:E. apply db_update_law in E as (m & Hb & H).
  eapply statement_keeps; [exact Hb| |exact Hd]. pose proof (updated_step key ctx p set p' set' m (db_rows d') Hu Hp Hs).
  destruct r as [n|e]; naive_solver.
Qed.

Lemma scoped_remove_keeps ctx key p :
  repository_remove p -> st_keeps (row_kept k op bk) (scoped_remove ctx key p).
Proof.
  intros Hr. apply keeps_lift_bind. intros p' Hp d Hd.
  destruct (db_remove _ _ _ d) as [r d'] eqn:E. apply db_remove_law in E as (m & Hb & H).
  eapply statement_keeps; [exact Hb| |exact Hd]. pose proof (removed_step key ctx p p' m (db_rows d') Hr Hp).
  destruct r as [n|e]; naive_solver.
Qed.

Lemma insertable_scoped ctx w w' : insertable w -> tenantScopeCreate ctx w = Ok w' -> insertable w'.
Proof.
  unfold tenantScopeCreate. intros H Hw. destruct (SkipTenantScopeFrom ctx); [by injection Hw as <-|].
  destruct (tenantIDFromCtx ctx); [|done]. by injection Hw as <-.
Qed.

Lemma scoped_insert_keeps ctx w : insertable w -> st_keeps (row_kept k op bk) (scoped_insert ctx w).
Proof.
  intros Hi. apply keeps_lift_bind. intros w' Hw d Hd.
  destruct (db_insert _ _ d) as [r d'] eqn:E. apply db_insert_law in E as (m & Hb & H).
  eapply statement_keeps; [exact Hb| |exact Hd].
  pose proof (inserted_step w' m (db_rows d') (insertable_scoped _ _ _ Hi Hw)).
  destruct r as [[n w2]|e]; naive_solver.
Qed.

End keeps.
End calls.

(** ** Any call of the repository *)

Inductive repository_call : Type :=
  | RLoad (key : AgentWorkflowKey)
  | RCreate (w : option AgentWorkflow)
  | RCompareAndSwap (key : AgentWorkflowKey) (v : Z) (next : AgentWorkflowSnapshotUpdate)
  | RDeleteIfVersion (key : AgentWorkflowKey) (v : Z)
  | RCreateReserved (w : option AgentWorkflow) (r : AgentWorkflowReservation)
  | RReserve (key : AgentWorkflowKey) (v : Z) (next : AgentWorkflowSnapshotUpdate) (r : AgentWorkflowReservation)
  | RRecord (key : AgentWorkflowKey) (v : Z) (token : string) (result : AgentWorkflowExecutionResult)
  | RFinalize (key : AgentWorkflowKey) (v : Z) (token : string) (next : AgentWorkflowSnapshotUpdate)
  | RDeleteReserved (key : AgentWorkflowKey) (v : Z) (token : string)
  | RTakeover (key : AgentWorkflowKey) (v : Z) (token : string) (before : Z) (r : AgentWorkflowReservation)
  | RListRecoverable (now limit : Z)
  | RMark (key : AgentWorkflowKey) (v : Z) (token : string) (retryAt : Z).

Section any_call.
Context `{DC : DatabaseConventions} {D : Type} `{DB : WorkflowDatabase D} {DBL : WorkflowDatabaseLaws D}.

Definition ignore {A} (m : ST D A) : ST D unit := m ~;; st_ret tt.

(** The call, its answer reduced to success or the error. *)
Definition run_repository_call (ctx : db_ctx) (c : repository_call) : ST D unit :=
  match c with
  | RLoad k => ignore (repo_Load ctx k)
  | RCreate w => ignore (repo_Create ctx w)
  | RCompareAndSwap k v next => repo_CompareAndSwap ctx k v next
  | RDeleteIfVersion k v => repo_DeleteIfVersion ctx k v
  | RCreateReserved w r => ignore (repo_CreateReservedExecution ctx w r)
  | RReserve k v next r => repo_ReserveExecution ctx k v next r
  | RRecord k v t result => repo_RecordExecutionResult ctx k v t result
  | RFinalize k v t next => repo_FinalizeExecution ctx k v t next
  | RDeleteReserved k v t => repo_DeleteReservedExecution ctx k v t
  | RTakeover k v t before r => repo_TakeoverExpiredExecution ctx k v t before r
  | RListRecoverable now limit => ignore (repo_ListRecoverableExecutions ctx now limit)
  | RMark k v t retryAt => repo_MarkExecutionRecoveryRequired ctx k v t retryAt
  end.

(** Every call is checks, then at most one statement: a relation between the
    states before and after that holds of the statements, given the checks, and
    of doing nothing, holds of the calls. *)
Definition moves {A} (R : D -> D -> Prop) (m : ST D A) : Prop := forall d, R d (m d).2.

Lemma moves_lift_bind {A B} (R : D -> D -> Prop) (r : res A) (k : A -> ST D B) :
  (forall d, R d d) -> (forall a, r = Ok a -> moves R (k a)) -> moves R (a <~ st_lift r ;; k a).
Proof. intros Hr H d. unfold st_bind, st_lift. destruct r as [a|e]; [by apply (H a)|apply Hr]. Qed.

Lemma moves_then {A B} (R : D -> D -> Prop) (m : ST D A) (m' : ST D B) :
  (forall d, (m' d).2 = (m d).2) -> moves R m -> moves R m'.
Proof. intros He H d. rewrite He. apply H. Qed.

Lemma ignore_state {A} (m : ST D A) d : (ignore m d).2 = (m d).2.
Proof. unfold ignore, st_bind. by destruct (m d) as [[a|e] d']. Qed.
Lemma requireOneRow_state (m : ST D Z) d : (requireOneRow m d).2 = (m d).2.
Proof. unfold requireOneRow, st_bind. destruct (m d) as [[n|e] d']; [by case_if|done]. Qed.
Lemma requireOneCreatedRow_state (m : ST D (Z * AgentWorkflow)) d : (requireOneCreatedRow m d).2 = (m d).2.
Proof. unfold requireOneCreatedRow. destruct (m d) as [[[n w]|e] d']; cbn; by case_if. Qed.
Lemma load_state ctx key d :
  (match scoped_first ctx key d with
   | (Ok w, d) => (Ok (Some w), d)
   | (Err e, d) => if errors_Is e "gorm.ErrRecordNotFound" then (Ok None, d) else (Err e, d)
   end).2 = (scoped_first ctx key d).2.
Proof. destruct (scoped_first ctx key d) as [[w|e] d']; [done|by case_if]. Qed.

Lemma call_moves (R : D -> D -> Prop) ctx :
  (forall d, R d d) ->
  (forall key, repo_validate ctx key = Ok tt -> moves R (scoped_first ctx key)) ->
  (forall w, repo_validate ctx (aw_Key w) = Ok tt -> insertable w -> moves R (scoped_insert ctx w)) ->
  (forall key p set, repo_validate ctx key = Ok tt -> repository_update p set ->
     moves R (scoped_update ctx key p set)) ->
  (forall key p, repo_validate ctx key = Ok tt -> repository_remove p -> moves R (scoped_remove ctx key p)) ->
  (forall p limit, moves R (db_find (cx_Err ctx) p limit)) ->
  forall c, moves R (run_repository_call ctx c).
Proof.
  intros Hrefl Hf Hi Hu Hr Hs c.
  assert (Hv : forall key v u, validateMutation ctx key v = Ok u -> repo_validate ctx key = Ok tt).
  { intros key v u H. unfold validateMutation in H. by apply res_bind_Ok in H as ([] & ? & _). }
  destruct c; cbn [run_repository_call]; try (destruct w as [w|]; [|intros d; apply Hrefl]);
    try (eapply moves_then; [intros d; apply ignore_state|]);
    repeat (apply moves_lift_bind; [exact Hrefl|intros [] ?]); try (intros d; apply Hrefl);
    (eapply moves_then; [intros d; first [apply requireOneRow_state|apply requireOneCreatedRow_state|apply load_state]|])
    || (apply moves_lift_bind; [exact Hrefl|intros p Hp]);
    eauto using repository_update, repository_remove;
    apply Hi; try done; split; eauto.
Qed.

Lemma call_row_kept ctx k op bk c : st_keeps (row_kept k op bk) (run_repository_call ctx c).
Proof.
  apply (call_moves (fun d d' => row_kept k op bk d -> row_kept k op bk d')); try done.
  - intros key _. apply scoped_first_keeps.
  - intros w _. apply scoped_insert_keeps.
  - intros key p set _. apply scoped_update_keeps.
  - intros key p _. apply scoped_remove_keeps.
  - intros p limit d Hd. destruct (db_find _ _ _ d) as [r d'] eqn:E. apply db_find_law in E as [Hb _].
    by eapply statement_keeps; [exact Hb|right|].
Qed.

(** Calls one after the other. *)
Fixpoint run_repository_calls (cs : list (db_ctx * repository_call)) (d : D) : D :=
  match cs with
  | [] => d
  | (ctx, c) :: cs' => run_repository_calls cs' (run_repository_call ctx c d).2
  end.

(** A write the table has on record stays on record: whatever calls a
    client makes, whatever other clients do between its statements, and also
    when statements fail or their answers are lost, the row keeps an execution
    of that operation for that business key until a state in which the row
    carried its recorded result. *)
Theorem row_never_lost cs k op bk d :
  holds_row k op bk (db_rows d) ->
  holds_row k op bk (db_rows (run_repository_calls cs d))
  \/ Exists (holds_recorded_row k op bk) (db_past (run_repository_calls cs d)).
Proof.
  intros H. assert (row_kept k op bk d) as Hk by (by left). clear H. revert d Hk.
  induction cs as [|[ctx c] cs IH]; intros d Hk; [exact Hk|].
  apply IH. by apply call_row_kept.
Qed.

(** ** Tenants *)

(** Since [d0], this client has touched only rows of the context's tenant. *)
Definition confined (ctx : db_ctx) (d0 d : D) : Prop :=
  d = d0 \/ exists m, between d0 d m
    /\ forall k, TenantIDFrom ctx <> Some (rk_TenantID k) -> db_rows d !! k = m !! k.

Lemma validated_tenant ctx key u : repo_validate ctx key = Ok u -> TenantIDFrom ctx = Some (rk_TenantID key).
Proof.
  unfold repo_validate, tenantIDFromCtx. intros H. apply res_bind_Ok in H as (t & Ht & H).
  apply res_bind_Ok in H as (? & ?%guard_Ok & _). b2p. subst.
  destruct (TenantIDFrom ctx) as [t'|]; [|done]. destruct (t' =? 0); [done|]. congruence.
Qed.

Lemma confined_set ctx key d0 d m :
  TenantIDFrom ctx = Some (rk_TenantID key) -> between d0 d m ->
  (exists o, db_rows d = set_row (index_key key) o m) \/ db_rows d = m -> confined ctx d0 d.
Proof.
  intros Ht Hb Hd. right. exists m. split; [done|]. intros k Hk.
  destruct Hd as [[o ->]| ->]; [|done]. apply lookup_set_row_ne. intros <-. by rewrite Ht in Hk.
Qed.

Lemma updated_set k p set m m' : updated k p set m m' -> exists o, m' = set_row (index_key k) o m.
Proof. intros (w & now & _ & _ & _ & ->). by exists (Some (store_times (touched now (set w)))). Qed.
Lemma removed_set k p m m' : removed k p m m' -> exists o, m' = set_row (index_key k) o m.
Proof. intros (w & _ & _ & ->). by exists None. Qed.
Lemma inserted_set w m m' : inserted w m m' -> exists o, m' = set_row (index_key (aw_Key w)) o m.
Proof. intros (now & _ & ->). by exists (Some (store_times (created now w))). Qed.

Lemma scoped_create_tenant ctx w w' :
  TenantIDFrom ctx = Some (rk_TenantID (aw_Key w)) -> tenantScopeCreate ctx w = Ok w' -> aw_Key w' = aw_Key w.
Proof.
  unfold tenantScopeCreate, tenantIDFromCtx. intros ->. destruct (SkipTenantScopeFrom ctx); [by intros [= <-]|].
  destruct (_ =? 0); [done|]. intros [= <-]. by destruct w as [[] ? ? ? ? ?].
Qed.

(** C15: A repository call touches no row of another tenant than its context's:
    apart from what other clients do in between, every such row is as it was,
    for any call and any error; and a row that is loaded is of the tenant. *)
Theorem tenant_isolation ctx c d :
  confined ctx d (run_repository_call ctx c d).2
  /\ forall key w, (repo_Load ctx key d).1 = Ok (Some w) -> cx_Skip ctx = false ->
       TenantIDFrom ctx = Some (rk_TenantID (aw_Key w)).
Proof.
  split.
  - apply call_moves; clear d c; try by left.
    + intros key _. intros d. unfold scoped_first, st_bind, st_lift.
      destruct (tenantScopeWhere _ _) as [p|e]; [|by left].
      destruct (db_first _ _ _ d) as [r d'] eqn:E. apply db_first_law in E as [Hb _].
      right. eauto.
    + intros w Hv _. apply moves_lift_bind; [by left|]. intros w' Hw d.
      apply validated_tenant in Hv. pose proof (scoped_create_tenant _ _ _ Hv Hw) as Hk.
      destruct (db_insert _ _ d) as [r d'] eqn:E. apply db_insert_law in E as (m & Hb & H).
      rewrite <- Hk in Hv. pose proof (inserted_set w' m (db_rows d')).
      eapply confined_set; [exact Hv|exact Hb|]. destruct r as [[n w2]|]; naive_solver.
    + intros key p set Hv _. apply moves_lift_bind; [by left|]. intros p' Hp.
      apply moves_lift_bind; [by left|]. intros set' Hs d. apply validated_tenant in Hv.
      destruct (db_update _ _ _ _ d) as [r d'] eqn:E. apply db_update_law in E as (m & Hb & H).
      pose proof (updated_set key p' set' m (db_rows d')).
      eapply confined_set; [exact Hv|exact Hb|]. cbn [snd] in *. destruct r; tauto.
    + intros key p Hv _. apply moves_lift_bind; [by left|]. intros p' Hp d. apply validated_tenant in Hv.
      destruct (db_remove _ _ _ d) as [r d'] eqn:E. apply db_remove_law in E as (m & Hb & H).
      pose proof (removed_set key p' m (db_rows d')).
      eapply confined_set; [exact Hv|exact Hb|]. cbn [snd] in *. destruct r; tauto.
    + intros p limit d. destruct (db_find _ _ _ d) as [r d'] eqn:E. apply db_find_law in E as [Hb _].
      right. eauto.
  - intros key w H Hs. unfold repo_Load, scoped_first, st_bind, st_lift, tenantScopeWhere, SkipTenantScopeFrom in H.
    destruct (repo_validate ctx key); [|discriminate H]. rewrite Hs in H.
    destruct (tenantIDFromCtx ctx) as [t|] eqn:Et; [|cbn in H; by case_if_in H]. cbn [res_bind] in H.
    destruct (db_first _ _ _ d) as [[w'|e] d'] eqn:E; [|by case_if_in H].
    cbn [fst] in H. injection H as ->. apply db_first_law in E as (_ & _ & Hp). b2p.
    unfold tenantIDFromCtx in Et. destruct (TenantIDFrom ctx) as [t'|]; [|done].
    destruct (t' =? 0); [done|]. congruence.
Qed.
End any_call.

(** ** A concrete database

    A table in memory with scripted surroundings: before each statement that
    writes, other clients' steps run; a statement may fail, applied or not. *)

Record client_step `{DatabaseConventions} := mkStep {
  cs_run : workflow_table -> workflow_table;
  cs_ok : forall m, repository_step m (cs_run m) }.

Record table_db `{DatabaseConventions} := mkTableDB {
  td_rows : workflow_table; td_past : list workflow_table; td_now : Z;
  td_faults : list (option (bool * string)); td_others : list (list client_step) }.
Arguments mkStep {_} _ _.
Arguments mkTableDB {_} _ _ _ _ _.

Section table_db.
Context `{DC : DatabaseConventions}.

Fixpoint run_steps (cs : list client_step) (m : workflow_table) : list workflow_table * workflow_table :=
  match cs with
  | [] => ([m], m)
  | c :: cs' => let '(l, m') := run_steps cs' (cs_run c m) in (m :: l, m')
  end.

(** A statement that writes: others first, then [run], which answers and
    changes the table, unless the context or the script says it failed. *)
Definition table_write {A} (c : option err) (run : Z -> workflow_table -> res A * workflow_table)
  : ST table_db A := fun d =>
  let '(l, m) := run_steps (default [] (head (td_others d))) (td_rows d) in
  let '(r, m') := run (td_now d) m in
  let answer r m := (r, mkTableDB m (td_past d ++ l) (td_now d) (tail (td_faults d)) (tail (td_others d))) in
  match c, default None (head (td_faults d)) with
  | Some _, _ => answer (Err (EMsg "context done")) m
  | None, Some (true, e) => answer (Err (EMsg e)) m'
  | None, Some (false, e) => answer (Err (EMsg e)) m
  | None, None => answer r m'
  end.

(** A statement that reads. *)
Definition table_read {A} (c : option err) (answer : workflow_table -> res A) : ST table_db A := fun d =>
  let d' := mkTableDB (td_rows d) (td_past d ++ [td_rows d]) (td_now d) (tail (td_faults d)) (td_others d) in
  match c, default None (head (td_faults d)) with
  | Some _, _ => (Err (EMsg "context done"), d')
  | None, Some (_, e) => (Err (EMsg e), d')
  | None, None => (answer (td_rows d), d')
  end.

Definition duplicate_entry : err := ESentinel "gorm.ErrDuplicatedKey".

Definition matching (k : AgentWorkflowKey) (p : AgentWorkflow -> bool) (m : workflow_table)
  : option AgentWorkflow :=
  match m !! index_key k with Some w => if p w then Some w else None | None => None end.

#[global] Instance table_WorkflowDatabase : WorkflowDatabase table_db := {
  db_rows := td_rows;
  db_past := td_past;
  db_first c k p := table_read c (fun m =>
    match matching k p m with Some w => Ok w | None => Err ErrRecordNotFound end);
  db_insert c w := table_write c (fun now m =>
    let k := index_key (aw_Key w) in
    match m !! k with
    | Some _ => (Err duplicate_entry, m)
    | None => (Ok (1, created now w), <[k := store_times (created now w)]> m)
    end);
  db_update c k p set := table_write c (fun now m =>
    match matching k p m with
    | Some w =>
        if in_uint64 (aw_Version (set w))
        then (Ok 1, <[index_key k := store_times (touched now (set w))]> m)
        else (Err (EMsg "BIGINT UNSIGNED value is out of range"), m)
    | None => (Ok 0, m)
    end);
  db_remove c k p := table_write c (fun _ m =>
    match matching k p m with
    | Some _ => (Ok 1, delete (index_key k) m)
    | None => (Ok 0, m)
    end);
  db_find c p limit := table_read c (fun m =>
    Ok (take (Z.to_nat limit) (List.filter p (map_to_list m).*2)))
}.

Lemma run_steps_ran cs m : ran m (run_steps cs m).1 (run_steps cs m).2.
Proof.
  revert m. induction cs as [|c cs IH]; intros m; [apply ran_done|]. cbn.
  specialize (IH (cs_run c m)). destruct (run_steps cs (cs_run c m)) as [l m']. cbn in *.
  eapply ran_step; [apply cs_ok|exact IH].
Qed.

Lemma matching_Some k p m w : matching k p m = Some w <-> m !! index_key k = Some w /\ p w = true.
Proof.
  unfold matching. destruct (m !! index_key k) as [w'|]; [|naive_solver].
  destruct (p w') eqn:E; naive_solver congruence.
Qed.
Lemma matching_None k p m : matching k p m = None <-> unmatched k p m.
Proof.
  unfold matching, unmatched. destruct (m !! index_key k) as [w'|]; [|naive_solver].
  destruct (p w') eqn:E; naive_solver congruence.
Qed.

Lemma table_write_spec {A} c (run : Z -> workflow_table -> res A * workflow_table) d r d' :
  table_write c run d = (r, d') ->
  exists m, between d d' m
    /\ ((r, td_rows d') = run (td_now d) m
        \/ exists e, r = Err (EMsg e) /\ (td_rows d' = m \/ td_rows d' = (run (td_now d) m).2)).
Proof.
  unfold table_write. pose proof (run_steps_ran (default [] (head (td_others d))) (td_rows d)) as Hr.
  destruct (run_steps _ _) as [l m]. cbn [fst snd] in Hr. destruct (run (td_now d) m) as [r0 m0] eqn:Er.
  intros H. exists m. rewrite Er. split.
  - exists l. split; [exact Hr|].
    destruct c; [|destruct (default None _) as [[[] ?]|]]; by injection H as _ <-.
  - destruct c; [|destruct (default None _) as [[[] ?]|] eqn:Ef]; injection H as <- <-; cbn; naive_solver.
Qed.

Lemma between_self d d' : td_rows d' = td_rows d -> td_past d' = td_past d ++ [td_rows d] -> between d d' (td_rows d').
Proof. intros Hr Hp. exists [td_rows d]. cbn. rewrite Hr. split; [apply ran_done|done]. Qed.

Lemma table_read_spec {A} c (answer : workflow_table -> res A) d r d' :
  table_read c answer d = (r, d') ->
  between d d' (td_rows d') /\ td_rows d' = td_rows d
  /\ (r = answer (td_rows d)
      \/ exists e, r = Err (EMsg e)).
Proof.
  unfold table_read. intros H.
  destruct c; [|destruct (default None _) as [[? ?]|]]; injection H as <- <-;
    (split; [by apply between_self|]); (split; [done|]); naive_solver.
Qed.
End table_db.

(** The production conventions, for a collation and a way to keep times. *)
Definition mysql_conventions (collate : string -> string) (time : Z -> Z) : DatabaseConventions :=
  {| db_collate := collate; db_time := time;
     db_duplicate e := errors_Is e "gorm.ErrDuplicatedKey" |}.

(** A DATETIME(3) column is given a time with a finer fraction: MySQL rounds it
    to the millisecond. *)
Definition round_ms (t : Z) : Z := truncate_ms (t + ns_ms / 2).

Section table_laws.
Context (collate : string -> string) (time : Z -> Z)
  (Hexact : forall t, t mod ns_ms = 0 -> time t = t) (Hms : forall t, time t mod ns_ms = 0).
Let DC : DatabaseConventions := mysql_conventions collate time.
Existing Instance DC.

Lemma table_WorkflowDatabaseLaws : WorkflowDatabaseLaws table_db.
Proof.
  split; [exact Hexact|exact Hms|..].
  - intros c k p d r d' (Hb & Hr & H)%table_read_spec. split; [exact Hb|]. cbn in *. rewrite Hr.
    destruct H as [->|(e & ->)]; [|done].
    destruct (matching k p (td_rows d)) as [w|] eqn:E; [by apply matching_Some|by apply matching_None in E].
  - intros c w d r d' (m & Hb & H)%table_write_spec. exists m. split; [exact Hb|]. cbn in *.
    destruct H as [H|(e & -> & H)].
    + destruct (m !! index_key (aw_Key w)) as [w0|] eqn:E; injection H as -> ->; [by eauto|].
      split; [by eexists|]. left. split; [done|]. by exists (td_now d).
    + split; [|done]. destruct H as [->| ->]; [by right|].
      destruct (m !! index_key (aw_Key w)) as [w0|] eqn:E; [by right|left]. by exists (td_now d).
  - intros c k p set d r d' (m & Hb & H)%table_write_spec. exists m. split; [exact Hb|]. cbn in *.
    destruct (matching k p m) as [w|] eqn:E.
    + apply matching_Some in E as [Hw Hp]. destruct (in_uint64 (aw_Version (set w))) eqn:Ev.
      2:{ destruct H as [[= -> ->]|(e & -> & [->| ->])]; eauto. }
      assert (updated k p set m (<[index_key k:=store_times (touched (td_now d) (set w))]> m))
        by (by exists w, (td_now d)).
      destruct H as [[= -> ->]|(e & -> & [->| ->])]; eauto.
    + apply matching_None in E. destruct H as [[= -> ->]|(e & -> & [->| ->])]; eauto.
  - intros c k p d r d' (m & Hb & H)%table_write_spec. exists m. split; [exact Hb|]. cbn in *.
    destruct (matching k p m) as [w|] eqn:E.
    + apply matching_Some in E as [Hw Hp].
      assert (removed k p m (delete (index_key k) m)) by (by exists w).
      destruct H as [[= -> ->]|(e & -> & [->| ->])]; eauto.
    + apply matching_None in E. destruct H as [[= -> ->]|(e & -> & [->| ->])]; eauto.
  - intros c p limit d r d' (Hb & Hr & H)%table_read_spec. split; [exact Hb|]. cbn in *. rewrite Hr.
    destruct H as [->|(e & ->)]; [|done]. split.
    + unfold len. rewrite length_take. lia.
    + apply Forall_take, Forall_forall. intros w Hw%list_elem_of_In%filter_In.
      destruct Hw as [Hw%list_elem_of_In Hp]. split; [done|].
      apply list_elem_of_fmap in Hw as ([k0 w0] & -> & Hk%elem_of_map_to_list). by exists k0.
Qed.
End table_laws.

(** ** Witnesses *)

Lemma truncate_ms_mod t : truncate_ms t mod ns_ms = 0.
Proof. unfold truncate_ms. rewrite Zminus_mod_idemp_r. by rewrite Z.sub_diag. Qed.
Lemma round_ms_mod t : round_ms t mod ns_ms = 0.
Proof. apply truncate_ms_mod. Qed.
Lemma round_ms_exact t : t mod ns_ms = 0 -> round_ms t = t.
Proof.
  intros H. unfold round_ms, truncate_ms. rewrite <- Z.add_mod_idemp_l, H by done.
  change ((0 + ns_ms / 2) mod ns_ms) with (ns_ms / 2). lia.
Qed.

(** A collation that ignores case, and rounding times. *)
Definition mysql : DatabaseConventions := mysql_conventions to_lower round_ms.
Definition mysql_laws : @WorkflowDatabaseLaws (@table_db mysql) mysql _ :=
  table_WorkflowDatabaseLaws to_lower round_ms round_ms_exact round_ms_mod.

Definition row_key7 : AgentWorkflowKey := mkRowKey 7 "cid-1" 42.
Definition ctx7 : db_ctx := mkCtx None (Some 7) false.
Definition row_reservation : AgentWorkflowReservation :=
  mkRowReservation "tok-1" "subscription.start" "key-1" "req-1" 1 "{}" (instant 2026 3 1 9 2 0 0).
Definition row7 : AgentWorkflow :=
  mkRow row_key7 (mkUpdate "wf-1" "subscription.start" "ready" 1 "{}" (instant 2026 3 1 9 30 0 0)) 1
    (reserved_columns row_reservation) (instant 2026 3 1 9 0 0 0) (instant 2026 3 1 9 0 0 0).
Definition row8 : AgentWorkflow :=
  mkRow (mkRowKey 8 "cid-1" 42) (aw_Snapshot row7) 3 no_execution (aw_CreatedAt row7) (aw_UpdatedAt row7).

(** Two tenants' rows; the answer of the second statement is lost. *)
Definition table7 : @table_db mysql :=
  mkTableDB (H := mysql) {[ row_key7 := row7; mkRowKey 8 "cid-1" 42 := row8 ]} []
    (instant 2026 3 1 9 1 0 0) [None; Some (true, "bad connection")] [].

Definition result7 : AgentWorkflowExecutionResult :=
  mkRowResult 1 "{}" "key-1" "created" (instant 2026 3 1 9 1 0 0).

Lemma row_never_lost_witness :
  let cs := [(ctx7, RDeleteReserved row_key7 1 "tok-1"); (ctx7, RRecord row_key7 1 "tok-1" result7);
             (ctx7, RDeleteReserved row_key7 2 "tok-1")] in
  let d := run_repository_calls (DC := mysql) cs table7 in
  td_rows d !! row_key7 = None
  /\ (holds_row (DC := mysql) row_key7 "subscription.start" "key-1" (td_rows d)
      \/ Exists (holds_recorded_row (DC := mysql) row_key7 "subscription.start" "key-1") (td_past d)).
Proof.
  split; [vm_compute; reflexivity|].
  apply (row_never_lost (DC := mysql) (DBL := mysql_laws)).
  exists row7. split; [vm_compute; reflexivity|]. split; vm_compute; reflexivity.
Defined.

Lemma tenant_isolation_witness :
  confined (DC := mysql) ctx7 table7
    (run_repository_call (DC := mysql) ctx7 (RDeleteIfVersion (mkRowKey 8 "cid-1" 42) 3) table7).2
  /\ (repo_Load ctx7 row_key7 table7).1 = Ok (Some row7).
Proof.
  split; [|vm_compute; reflexivity].
  apply (tenant_isolation (DC := mysql) (DBL := mysql_laws)).
Defined.
