(* ===== verification/DbStore.v ===== *)
(** * The database workflow store (internal/app/agent_workflow_store.go)

    The production implementation of the [WorkflowStore] and
    [WorkflowRecoveryStore] interfaces: snapshots and reservations are encoded
    into rows, rows are decoded with every projected column checked against the
    JSON it was taken from, and the repository's conflicts are told apart by
    reading the row again. *)
From Stdlib Require Import ZArith Lia Bool String.
From stdpp Require Import base list strings gmap.
From S2P Require Import Prelude GoStrings GoTime Contract Codec CodecSpec SnapshotSpec Store StoreSpec.
From S2P Require Import StoreApi Catalog Recovery Repository RepositorySpec.
#[local] Open Scope go_scope.

Definition workflowCodecVersion : Z := 1.

Definition repositoryWorkflowKey (k : WorkflowKey) : AgentWorkflowKey :=
  mkRowKey (key_TenantID k) (key_ConversationID k) (key_ActorUserID k).

Definition mapWorkflowRepositoryError (e : err) : err :=
  if errors_Is e "ErrAgentWorkflowConflict" then ErrWorkflowConflict else e.

(** ** Encoding *)

(** The snapshot under its key and times, before it is marshalled. *)
Definition stored_snapshot (key : WorkflowKey) (snapshot : WorkflowSnapshot) (now : Z) : WorkflowSnapshot :=
  let now := truncate_ms now in
  let created := if is_zero (wf_CreatedAt snapshot) then now else wf_CreatedAt snapshot in
  let expires := if is_zero (wf_ExpiresAt snapshot) then now + 30 * ns_min else wf_ExpiresAt snapshot in
  stamp_snapshot key created now expires (wf_Version snapshot) snapshot.

Definition encodeSnapshotUpdate (key : WorkflowKey) (snapshot : option WorkflowSnapshot) (now : Z)
  : res (AgentWorkflowSnapshotUpdate * WorkflowSnapshot) :=
  match snapshot with
  | None => Err (EMsg "workflow snapshot is required")
  | Some snapshot =>
      payload <- MarshalWorkflowSnapshot (stored_snapshot key snapshot now) ;;
      canonical <- UnmarshalWorkflowSnapshot payload ;;
      Ok (mkUpdate (wf_ID canonical) (wf_Type canonical) (wf_State canonical) workflowCodecVersion payload
            (wf_ExpiresAt canonical), canonical)
  end.

Definition encodeAgentWorkflowRow (key : WorkflowKey) (snapshot : option WorkflowSnapshot) (now : Z)
  : res AgentWorkflow :=
  p <- encodeSnapshotUpdate key snapshot now ;;
  let '(update, normalized) := p in
  Ok (mkRow (repositoryWorkflowKey key)
        (mkUpdate (su_WorkflowID update) (su_WorkflowType update) (su_WorkflowState update)
           (su_SnapshotSchemaVersion update) (su_SnapshotJSON update) (wf_ExpiresAt normalized))
        1 no_execution (wf_CreatedAt normalized) (wf_UpdatedAt normalized)).

Definition encodeRepositoryReservation (reservation : ReservedExecutionV1)
  : res (AgentWorkflowReservation * ReservedExecutionV1) :=
  payload <- MarshalReservedExecution reservation ;;
  normalized <- UnmarshalReservedExecution payload ;;
  Ok (mkRowReservation (re_ExecutionToken normalized) (re_Operation normalized) (re_BusinessKey normalized)
        (re_AttemptRequestID normalized) workflowCodecVersion payload (re_LeaseExpiresAt normalized),
      normalized).

Definition versionedSnapshot (snapshot : WorkflowSnapshot) (version : Z)
    (execution : option PersistedExecutionV1) : VersionedWorkflow :=
  mkVersioned (with_version version snapshot) version execution.

(** ** Decoding *)

Definition hasAnyExecutionAuthority (x : execution_columns) : bool :=
  negb (is_null (ec_Token x) && is_null (ec_Operation x) && is_null (ec_BusinessKey x)
        && is_null (ec_RequestID x) && is_null (ec_RequestSchemaVersion x) && is_null (ec_RequestJSON x)
        && is_null (ec_ResultSchemaVersion x) && is_null (ec_ResultJSON x) && is_null (ec_WriteEffect x)
        && is_null (ec_LeaseExpiresAt x)).

Definition same (a b : string) : bool := bool_decide (a = b).

(** The result columns of a row whose execution was decoded. *)
Definition decode_result (x : execution_columns) (businessKey : string)
  : res (option PersistedExecutionResultV1) :=
  let hasResult := negb (is_null (ec_ResultSchemaVersion x) && is_null (ec_ResultJSON x)
                         && is_null (ec_WriteEffect x)) in
  guard (negb (same (ec_Status x) AgentWorkflowExecutionExecuting && hasResult))
    (EMsg "executing workflow contains result authority") ;;;
  guard (negb (same (ec_Status x) AgentWorkflowExecutionResultRecorded && negb hasResult))
    (EMsg "recorded execution is missing result authority") ;;;
  if negb hasResult then Ok None
  else
    match ec_ResultSchemaVersion x, ec_ResultJSON x, ec_WriteEffect x with
    | Some version, Some payload, Some effect =>
        guard (version =? workflowCodecVersion) (EMsg "unsupported execution result schema version") ;;;
        result <- UnmarshalPersistedExecutionResult payload ;;
        guard (same (er_BusinessKey result) businessKey && same (er_WriteEffect result) effect)
          (EMsg "execution result projection mismatch") ;;;
        Ok (Some result)
    | _, _, _ => Err (EMsg "execution contains partial result authority")
    end.

Definition decodeExecution (x : execution_columns) : res (option PersistedExecutionV1) :=
  if same (ec_Status x) AgentWorkflowExecutionIdle then
    guard (negb (hasAnyExecutionAuthority x)) (EMsg "idle workflow contains execution authority") ;;;
    Ok None
  else
    guard (same (ec_Status x) AgentWorkflowExecutionExecuting
           || same (ec_Status x) AgentWorkflowExecutionResultRecorded
           || same (ec_Status x) AgentWorkflowExecutionRecoveryRequired)
      (EFmt "unsupported execution status %q" [ec_Status x]) ;;;
    match ec_Token x, ec_Operation x, ec_BusinessKey x, ec_RequestID x, ec_RequestSchemaVersion x,
          ec_RequestJSON x, ec_LeaseExpiresAt x with
    | Some token, Some operation, Some businessKey, Some requestID, Some version, Some payload, Some lease =>
        guard (version =? workflowCodecVersion) (EMsg "unsupported execution request schema version") ;;;
        reservation <- UnmarshalReservedExecution payload ;;
        guard (same (re_ExecutionToken reservation) token && same (re_Operation reservation) operation
               && same (re_BusinessKey reservation) businessKey
               && same (re_AttemptRequestID reservation) requestID
               && (re_LeaseExpiresAt reservation =? truncate_ms lease))
          (EMsg "execution request projection mismatch") ;;;
        result <- decode_result x businessKey ;;
        Ok (Some (mkExecution (ec_Status x) reservation result))
    | _, _, _, _, _, _, _ => Err (EMsg "active workflow is missing execution authority")
    end.

Definition decodeAgentWorkflowRow (w : AgentWorkflow) : res VersionedWorkflow :=
  let s := aw_Snapshot w in let k := aw_Key w in
  guard (su_SnapshotSchemaVersion s =? workflowCodecVersion)
    (EFmt "unsupported workflow snapshot schema version %d" [itoa (su_SnapshotSchemaVersion s)]) ;;;
  snapshot <- UnmarshalWorkflowSnapshot (su_SnapshotJSON s) ;;
  guard (same (wf_ID snapshot) (su_WorkflowID s) && same (wf_Type snapshot) (su_WorkflowType s)
         && same (wf_State snapshot) (su_WorkflowState s))
    (EMsg "workflow snapshot projection mismatch") ;;;
  guard ((wf_TenantID snapshot =? rk_TenantID k) && same (wf_ConversationID snapshot) (rk_ConversationID k)
         && (wf_ActorUserID snapshot =? rk_ActorUserID k))
    (EMsg "workflow snapshot identity does not match database key") ;;;
  execution <- decodeExecution (aw_Exec w) ;;
  Ok (mkVersioned
        (stamp_snapshot (mkKey (rk_TenantID k) (rk_ConversationID k) (rk_ActorUserID k)) (aw_CreatedAt w)
           (aw_UpdatedAt w) (su_ExpiresAt s) (aw_Version w) snapshot)
        (aw_Version w) execution).

(** ** The store *)

(** The repository's database and the number of clock readings made. *)
Record agentWorkflowStore (D : Type) := mkDbStore { as_db : D; as_ticks : nat }.
Arguments mkDbStore {D} _ _.
Arguments as_db {D} _.
Arguments as_ticks {D} _.

Section db_store.
Context `{DC : DatabaseConventions} {D : Type} `{DB : WorkflowDatabase D} (clock : nat -> Z).

Definition dbs (A : Type) : Type := ST (agentWorkflowStore D) A.

Definition db_now : dbs Z := fun s => (Ok (clock (as_ticks s)), mkDbStore (as_db s) (S (as_ticks s))).
Definition with_db {A} (m : ST D A) : dbs A := fun s =>
  let '(r, d) := m (as_db s) in (r, mkDbStore d (as_ticks s)).

(** The error of a call, passed through a function that may look at the store. *)
Definition on_error {A} (m : dbs A) (f : err -> dbs err) : dbs A := fun s =>
  match m s with
  | (Ok a, s) => (Ok a, s)
  | (Err e, s) => match f e s with (Ok e', s) => (Err e', s) | (Err e', s) => (Err e', s) end
  end.
Definition mapped {A} (m : dbs A) : dbs A := on_error m (fun e => st_ret (mapWorkflowRepositoryError e)).

(** The row as it is now, [None] also when it cannot be read. *)
Definition current_row (ctx : db_ctx) (key : WorkflowKey) : dbs (option AgentWorkflow) := fun s =>
  match with_db (repo_Load ctx (repositoryWorkflowKey key)) s with
  | (Ok o, s) => (Ok o, s)
  | (Err _, s) => (Ok None, s)
  end.

(** What the three error mappings share: a conflict is looked into by reading
    the row again. *)
Definition map_conflict (ctx : db_ctx) (key : WorkflowKey) (in_progress : AgentWorkflow -> bool) (e : err)
  : dbs err :=
  if negb (errors_Is e "ErrAgentWorkflowConflict") then st_ret e
  else
    o <~ current_row ctx key ;;
    match o with
    | Some w => if in_progress w then st_ret ErrExecutionInProgress else st_ret ErrWorkflowConflict
    | None => st_ret ErrWorkflowConflict
    end.

Definition mapIdleMutationError (ctx : db_ctx) (key : WorkflowKey) (expectedVersion : Z) : err -> dbs err :=
  map_conflict ctx key (fun w =>
    (aw_Version w =? expectedVersion) && negb (same (ec_Status (aw_Exec w)) AgentWorkflowExecutionIdle)).

Definition mapFinalizeError (ctx : db_ctx) (key : WorkflowKey) (expectedVersion : Z) (executionToken : string)
  : err -> dbs err :=
  map_conflict ctx key (fun w =>
    (aw_Version w =? expectedVersion) && bool_decide (ec_Token (aw_Exec w) = Some executionToken)
    && same (ec_Status (aw_Exec w)) AgentWorkflowExecutionExecuting).

Definition mapTakeoverError (ctx : db_ctx) (key : WorkflowKey) (expectedVersion : Z) (previousToken : string)
    (now : Z) : err -> dbs err :=
  map_conflict ctx key (fun w =>
    (aw_Version w =? expectedVersion) && bool_decide (ec_Token (aw_Exec w) = Some previousToken)
    && match ec_LeaseExpiresAt (aw_Exec w) with Some l => after l now | None => false end).

Definition dbs_Load (ctx : db_ctx) (key : WorkflowKey) : dbs (option VersionedWorkflow) :=
  o <~ with_db (repo_Load ctx (repositoryWorkflowKey key)) ;;
  match o with
  | None => st_ret None
  | Some w =>
      expired <~ (if same (ec_Status (aw_Exec w)) AgentWorkflowExecutionIdle
                  then t <~ db_now ;; st_ret (negb (after (su_ExpiresAt (aw_Snapshot w)) t))
                  else st_ret false) ;;
      if expired
      then mapped (with_db (repo_DeleteIfVersion ctx (repositoryWorkflowKey key) (aw_Version w))) ~;;
           st_ret None
      else vw <~ st_lift (decodeAgentWorkflowRow w) ;; st_ret (Some vw)
  end.

Definition loadExpectedVersion (ctx : db_ctx) (key : WorkflowKey) (expectedVersion : Z) : dbs VersionedWorkflow :=
  o <~ dbs_Load ctx key ;;
  match o with
  | Some loaded => if vw_Version loaded =? expectedVersion then st_ret loaded else st_fail ErrWorkflowConflict
  | None => st_fail ErrWorkflowConflict
  end.

(** Rows that cannot be decoded are skipped. *)
Fixpoint decode_recoverable (ws : list AgentWorkflow) : list RecoverableWorkflowExecution :=
  match ws with
  | [] => []
  | w :: ws =>
      match decodeAgentWorkflowRow w with
      | Err _ => decode_recoverable ws
      | Ok vw =>
          let k := aw_Key w in
          mkRecoverable (mkKey (rk_TenantID k) (rk_ConversationID k) (rk_ActorUserID k)) (Some vw)
          :: decode_recoverable ws
      end
  end.

Definition dbs_ListRecoverableExecutions (ctx : db_ctx) (now limit : Z) : dbs (list RecoverableWorkflowExecution) :=
  rows <~ mapped (with_db (repo_ListRecoverableExecutions ctx now limit)) ;;
  st_ret (decode_recoverable rows).

Definition dbs_MarkExecutionRecoveryRequired (ctx : db_ctx) (key : WorkflowKey) (expectedVersion : Z)
    (executionToken : string) (retryAt : Z) : dbs (option VersionedWorkflow) :=
  mapped (with_db (repo_MarkExecutionRecoveryRequired ctx (repositoryWorkflowKey key) expectedVersion
                     executionToken retryAt)) ~;;
  o <~ mapped (with_db (repo_Load ctx (repositoryWorkflowKey key))) ;;
  match o with
  | None => st_ret None
  | Some w => vw <~ st_lift (decodeAgentWorkflowRow w) ;; st_ret (Some vw)
  end.

Definition dbs_Create (ctx : db_ctx) (key : WorkflowKey) (next : option WorkflowSnapshot) : dbs VersionedWorkflow :=
  t <~ db_now ;;
  row <~ st_lift (encodeAgentWorkflowRow key next t) ;;
  row <~ mapped (with_db (repo_Create ctx (Some row))) ;;
  st_lift (decodeAgentWorkflowRow row).

Definition dbs_CompareAndSwap (ctx : db_ctx) (key : WorkflowKey) (expectedVersion : Z)
    (next : option WorkflowSnapshot) : dbs VersionedWorkflow :=
  t <~ db_now ;;
  p <~ st_lift (encodeSnapshotUpdate key next t) ;;
  let '(update, normalized) := p in
  on_error (with_db (repo_CompareAndSwap ctx (repositoryWorkflowKey key) expectedVersion update))
    (mapIdleMutationError ctx key expectedVersion) ~;;
  st_ret (versionedSnapshot normalized (next_version expectedVersion) None).

Definition dbs_DeleteIfVersion (ctx : db_ctx) (key : WorkflowKey) (expectedVersion : Z) : dbs unit :=
  on_error (with_db (repo_DeleteIfVersion ctx (repositoryWorkflowKey key) expectedVersion))
    (mapIdleMutationError ctx key expectedVersion).

Definition dbs_CreateReservedExecution (ctx : db_ctx) (key : WorkflowKey) (next : option WorkflowSnapshot)
    (reservation : ReservedExecutionV1) : dbs VersionedWorkflow :=
  t <~ db_now ;;
  row <~ st_lift (encodeAgentWorkflowRow key next t) ;;
  p <~ st_lift (encodeRepositoryReservation reservation) ;;
  row <~ mapped (with_db (repo_CreateReservedExecution ctx (Some row) p.1)) ;;
  st_lift (decodeAgentWorkflowRow row).

Definition dbs_ReserveExecution (ctx : db_ctx) (key : WorkflowKey) (expectedVersion : Z)
    (next : option WorkflowSnapshot) (reservation : ReservedExecutionV1) : dbs VersionedWorkflow :=
  t <~ db_now ;;
  u <~ st_lift (encodeSnapshotUpdate key next t) ;;
  let '(update, normalized) := u in
  p <~ st_lift (encodeRepositoryReservation reservation) ;;
  on_error (with_db (repo_ReserveExecution ctx (repositoryWorkflowKey key) expectedVersion update p.1))
    (mapIdleMutationError ctx key expectedVersion) ~;;
  st_ret (versionedSnapshot normalized (next_version expectedVersion)
            (Some (mkExecution WorkflowExecutionExecuting p.2 None))).

Definition dbs_RecordExecutionResult (ctx : db_ctx) (key : WorkflowKey) (expectedVersion : Z)
    (executionToken : string) (result : PersistedExecutionResultV1) : dbs VersionedWorkflow :=
  resultJSON <~ st_lift (MarshalPersistedExecutionResult result) ;;
  mapped (with_db (repo_RecordExecutionResult ctx (repositoryWorkflowKey key) expectedVersion executionToken
                     (mkRowResult workflowCodecVersion resultJSON (er_BusinessKey result)
                        (er_WriteEffect result) (er_CompletedAt result)))) ~;;
  loadExpectedVersion ctx key (next_version expectedVersion).

Definition dbs_FinalizeExecution (ctx : db_ctx) (key : WorkflowKey) (expectedVersion : Z)
    (executionToken : string) (next : option WorkflowSnapshot) : dbs VersionedWorkflow :=
  t <~ db_now ;;
  u <~ st_lift (encodeSnapshotUpdate key next t) ;;
  let '(update, normalized) := u in
  on_error (with_db (repo_FinalizeExecution ctx (repositoryWorkflowKey key) expectedVersion executionToken update))
    (mapFinalizeError ctx key expectedVersion executionToken) ~;;
  st_ret (versionedSnapshot normalized (next_version expectedVersion) None).

Definition dbs_DeleteReservedExecution (ctx : db_ctx) (key : WorkflowKey) (expectedVersion : Z)
    (executionToken : string) : dbs unit :=
  mapped (with_db (repo_DeleteReservedExecution ctx (repositoryWorkflowKey key) expectedVersion executionToken)).

Definition dbs_TakeoverExpiredExecution (ctx : db_ctx) (key : WorkflowKey) (expectedVersion : Z)
    (previousToken : string) (next : ReservedExecutionV1) : dbs VersionedWorkflow :=
  p <~ st_lift (encodeRepositoryReservation next) ;;
  t <~ db_now ;;
  on_error (with_db (repo_TakeoverExpiredExecution ctx (repositoryWorkflowKey key) expectedVersion previousToken
                       t p.1))
    (mapTakeoverError ctx key expectedVersion previousToken t) ~;;
  loadExpectedVersion ctx key (next_version expectedVersion).

End db_store.
