(* ===== verification/DbStoreSpec.v ===== *)
(** * Properties of the database workflow store

    The store satisfies the laws of the [WorkflowStore] and
    [WorkflowRecoveryStore] interfaces, so what is proved of the write
    coordinator and of the recovery against those interfaces holds in
    production; what is written reads back; and an execution that recovery
    deferred may not. *)
From Stdlib Require Import ZArith Lia Bool String.
From stdpp Require Import base list strings gmap.
From S2P Require Import Prelude GoStrings GoTime Contract Codec CodecSpec SnapshotSpec Store StoreSpec.
From S2P Require Import StoreApi Catalog Recovery Repository RepositorySpec DbStore.
#[local] Open Scope go_scope.

(** ** What a successful statement did *)

Section statements.
Context `{DC : DatabaseConventions} {D : Type} `{DB : WorkflowDatabase D} {DBL : WorkflowDatabaseLaws D}.

Lemma set_same_key p set w : repository_update p set -> aw_Key (set w) = aw_Key w.
Proof. by destruct 1. Qed.

Lemma update_succeeded ctx key p set d d' :
  repository_update p set ->
  requireOneRow (scoped_update ctx key p set) d = (Ok tt, d') ->
  exists m w now, between d d' m /\ m !! index_key key = Some w /\ p w = true
    /\ in_uint64 (aw_Version (set w)) = true
    /\ db_rows d' !! index_key key = Some (store_times (touched now (set w))).
Proof.
  intros Hu H. unfold requireOneRow, scoped_update in H.
  apply st_bind_Ok in H as (n & d1 & H & Hn). case_if_in Hn; [|done].
  apply st_ret_Ok in Hn as [_ ->]. b2p. subst n.
  apply st_bind_Ok in H as (p' & ? & [Hp ->]%st_lift_Ok & H).
  apply st_bind_Ok in H as (set' & ? & [Hs ->]%st_lift_Ok & H).
  apply db_update_law in H as (m & Hb & [(_ & w & now & Hw & Hpw & Hin & Hm)|(? & _)]); [|done].
  exists m, w, now. rewrite Hm, lookup_insert_eq.
  assert (set' w = set w) as Hset; [|rewrite <- Hset; split_and!; try done].
  - unfold tenantScopeWhere, tenantScopeUpdate in *. destruct (SkipTenantScopeFrom ctx).
    + by injection Hs as <-.
    + destruct (tenantIDFromCtx ctx) as [t|]; [|done]. injection Hp as <-. injection Hs as <-.
      cbn in Hpw. b2p. by rewrite (scoped_set_same t set w p).
  - unfold tenantScopeWhere in Hp. destruct (SkipTenantScopeFrom ctx); [by injection Hp as <-|].
    destruct (tenantIDFromCtx ctx) as [t|]; [|done]. injection Hp as <-. cbn in Hpw. by b2p.
Qed.

Lemma remove_succeeded ctx key p d d' :
  requireOneRow (scoped_remove ctx key p) d = (Ok tt, d') ->
  exists m w, between d d' m /\ m !! index_key key = Some w /\ p w = true
    /\ db_rows d' = delete (index_key key) m.
Proof.
  intros H. unfold requireOneRow, scoped_remove in H.
  apply st_bind_Ok in H as (n & d1 & H & Hn). case_if_in Hn; [|done].
  apply st_ret_Ok in Hn as [_ ->]. b2p. subst n.
  apply st_bind_Ok in H as (p' & ? & [Hp ->]%st_lift_Ok & H).
  apply db_remove_law in H as (m & Hb & [(_ & w & Hw & Hpw & Hm)|(? & _)]); [|done].
  exists m, w. split_and!; try done.
  unfold tenantScopeWhere in Hp. destruct (SkipTenantScopeFrom ctx); [by injection Hp as <-|].
  destruct (tenantIDFromCtx ctx) as [t|]; [|done]. injection Hp as <-. cbn in Hpw. by b2p.
Qed.

Lemma insert_succeeded ctx w d w' d' :
  repo_validate ctx (aw_Key w) = Ok tt ->
  requireOneCreatedRow (scoped_insert ctx w) d = (Ok w', d') ->
  exists m now, between d d' m /\ m !! index_key (aw_Key w) = None /\ w' = created now w
    /\ exists now', db_rows d' = <[index_key (aw_Key w) := store_times (created now' w)]> m.
Proof.
  intros Hv%validated_tenant H. unfold requireOneCreatedRow, scoped_insert, st_bind, st_lift in H.
  destruct (tenantScopeCreate ctx w) as [w1|e] eqn:Ew; [|cbn in H; by case_if_in H].
  assert (w1 = w) as ->.
  { unfold tenantScopeCreate, tenantIDFromCtx in Ew. rewrite Hv in Ew.
    destruct (SkipTenantScopeFrom ctx); [by injection Ew|]. destruct (_ =? 0); [done|].
    injection Ew as <-. by destruct w as [[] ? ? ? ? ?]. }
  destruct (db_insert _ w d) as [[[n w2]|e] d1] eqn:E; cbn in H; [|by case_if_in H].
  case_if_in H; [|done]. injection H as <- <-. b2p. subst n.
  apply db_insert_law in E as (m & Hb & (now & ->) & [(_ & now' & Hn & Hm)|[? _]]); [|done].
  exists m, now. split_and!; try done. by exists now'.
Qed.
End statements.

(** ** Encoding *)

Lemma encode_reservation r rr norm :
  encodeRepositoryReservation r = Ok (rr, norm) ->
  canonicalReservedExecution r = Ok norm
  /\ rr_ExecutionOperation rr = re_Operation norm /\ rr_BusinessKey rr = re_BusinessKey norm
  /\ UnmarshalReservedExecution (rr_RequestJSON rr) = Ok norm.
Proof.
  unfold encodeRepositoryReservation, canonicalReservedExecution. intros H.
  apply res_bind_Ok in H as (payload & Hp & H). apply res_bind_Ok in H as (n & Hn & [= <- <-]).
  by rewrite Hp.
Qed.

(** ** The interfaces *)

(** A version identifies a row: while an operation reads back the row it wrote,
    no other client deletes it and brings a new row to the same version.  That
    would take the lease to run out, another process to finish the write, and
    the conversation to start over, all between two statements. *)
Class QuietReadBack (D : Type) `{DatabaseConventions} `{WorkflowDatabase D} := read_back :
  forall (d : D) c k p w w0 d',
    db_rows d !! index_key k = Some w0 -> db_first c k p d = (Ok w, d') ->
    aw_Version w = aw_Version w0 -> w = w0.

Section laws.
Context `{DC : DatabaseConventions} {D : Type} `{DB : WorkflowDatabase D} {DBL : WorkflowDatabaseLaws D}.
Context {RB : QuietReadBack D} (clock : nat -> Z) (ambient : option Z).

(** internal/agent/session.go: [workflowStoreContext], for the tenant the
    caller's context carries, if any *)
Definition workflowStoreContext (c : option err) (key : WorkflowKey) : db_ctx :=
  let ctx := mkCtx c ambient false in
  match TenantIDFrom ctx with Some _ => ctx | None => WithTenantID ctx (key_TenantID key) end.

#[global] Instance db_WorkflowStore : WorkflowStore (agentWorkflowStore D) := {
  ws_create_reserved c k n rv := dbs_CreateReservedExecution clock (workflowStoreContext c k) k n rv;
  ws_reserve c k v n rv := dbs_ReserveExecution clock (workflowStoreContext c k) k v n rv;
  ws_record c k v t r := dbs_RecordExecutionResult clock (workflowStoreContext c k) k v t r;
  ws_delete_reserved c k v t := dbs_DeleteReservedExecution (workflowStoreContext c k) k v t;
  ws_takeover c k v t rv := dbs_TakeoverExpiredExecution clock (workflowStoreContext c k) k v t rv
}.

#[global] Instance db_ConversationStore : ConversationStore (agentWorkflowStore D) := {
  cs_load c k := dbs_Load clock (workflowStoreContext c k) k;
  cs_create c k n := dbs_Create clock (workflowStoreContext c k) k n;
  cs_compare_and_swap c k v n := dbs_CompareAndSwap clock (workflowStoreContext c k) k v n;
  cs_delete_if_version c k v := dbs_DeleteIfVersion (workflowStoreContext c k) k v
}.

#[global] Instance db_WorkflowRecoveryStore : WorkflowRecoveryStore (agentWorkflowStore D) := {
  ws_list_recoverable c now limit := dbs_ListRecoverableExecutions (mkCtx c ambient false) now limit;
  ws_mark_recovery_required c k v t at_ :=
    dbs_MarkExecutionRecoveryRequired (workflowStoreContext c k) k v t at_
}.

Definition db_kept (k : WorkflowKey) (op bk : string) (s : agentWorkflowStore D) : Prop :=
  row_kept (repositoryWorkflowKey k) op bk (as_db s).
Definition db_recorded (k : WorkflowKey) (op bk : string) (s : agentWorkflowStore D) : Prop :=
  was_recorded_row (repositoryWorkflowKey k) op bk (as_db s).

Section keeps.
Context (k : WorkflowKey) (op bk : string).
Notation kept := (db_kept k op bk).

Lemma with_db_keeps {A} (m : ST D A) c ctx :
  (forall d, (m d).2 = (run_repository_call ctx c d).2) -> st_keeps kept (with_db m).
Proof.
  intros Hm s Hs. unfold with_db. specialize (Hm (as_db s)).
  pose proof (call_row_kept ctx (repositoryWorkflowKey k) op bk c (as_db s) Hs) as H.
  destruct (m (as_db s)) as [r d]. cbn in *. unfold db_kept. cbn. by subst d.
Qed.

Lemma load_keeps ctx key : st_keeps kept (with_db (repo_Load ctx key)).
Proof. eapply (with_db_keeps _ (RLoad key) ctx). intros d. symmetry. apply ignore_state. Qed.

Lemma now_keeps : st_keeps kept (db_now clock).
Proof. by intros s. Qed.

Lemma on_error_keeps {A} (m : dbs A) f :
  st_keeps kept m -> (forall e, st_keeps kept (f e)) -> st_keeps kept (on_error m f).
Proof.
  intros Hm Hf s Hs. unfold on_error. specialize (Hm s Hs). destruct (m s) as [[a|e] s1]; [done|].
  specialize (Hf e s1 Hm). by destruct (f e s1) as [[e'|e'] s2].
Qed.

Lemma mapped_keeps {A} (m : dbs A) : st_keeps kept m -> st_keeps kept (mapped m).
Proof. intros H. apply on_error_keeps; [done|]. intros e. apply keeps_ret. Qed.

Lemma map_conflict_keeps ctx key f e : st_keeps kept (map_conflict ctx key f e).
Proof.
  unfold map_conflict. case_if; [apply keeps_ret|]. apply keeps_bind.
  - intros s Hs. pose proof (load_keeps ctx (repositoryWorkflowKey key) s Hs) as H.
    unfold current_row. by destruct (with_db _ s) as [[o|e'] s'].
  - intros [w|]; [case_if|]; apply keeps_ret.
Qed.

#[local] Hint Resolve load_keeps now_keeps on_error_keeps mapped_keeps map_conflict_keeps : keeps.

Lemma dbs_load_keeps ctx key : st_keeps kept (dbs_Load clock ctx key).
Proof.
  unfold dbs_Load. apply keeps_bind; [apply load_keeps|]. intros [w|]; [|apply keeps_ret].
  apply keeps_bind; [case_if; auto with keeps|]. intros b. case_if; [|auto with keeps].
  apply keeps_bind; [|auto with keeps]. apply mapped_keeps.
  by eapply (with_db_keeps _ (RDeleteIfVersion (repositoryWorkflowKey key) (aw_Version w)) ctx).
Qed.

Lemma expected_keeps ctx key v : st_keeps kept (loadExpectedVersion clock ctx key v).
Proof.
  apply keeps_bind; [apply dbs_load_keeps|]. intros [vw|]; [case_if|]; auto with keeps.
Qed.

(** The one statement of an operation, by the repository call it makes. *)
Ltac keeps_call c ctx := apply (with_db_keeps _ c ctx); intros d; symmetry; apply ignore_state.

Lemma create_reserved_keeps ctx key n rv : st_keeps kept (dbs_CreateReservedExecution clock ctx key n rv).
Proof.
  apply keeps_bind; [apply now_keeps|]. intros t. apply keeps_bind; [apply keeps_lift|]. intros row.
  apply keeps_bind; [apply keeps_lift|]. intros [rr norm]. apply keeps_bind; [|intros; apply keeps_lift].
  apply mapped_keeps. keeps_call (RCreateReserved (Some row) rr) ctx.
Qed.

Lemma reserve_keeps ctx key v n rv : st_keeps kept (dbs_ReserveExecution clock ctx key v n rv).
Proof.
  apply keeps_bind; [apply now_keeps|]. intros t. apply keeps_bind; [apply keeps_lift|]. intros [u norm].
  apply keeps_bind; [apply keeps_lift|]. intros [rr norm']. apply keeps_bind; [|intros; apply keeps_ret].
  apply on_error_keeps; [|intros; apply map_conflict_keeps].
  by apply (with_db_keeps _ (RReserve (repositoryWorkflowKey key) v u rr) ctx).
Qed.

Lemma record_keeps ctx key v t result : st_keeps kept (dbs_RecordExecutionResult clock ctx key v t result).
Proof.
  apply keeps_bind; [apply keeps_lift|]. intros payload. apply keeps_bind; [|intros; apply expected_keeps].
  apply mapped_keeps.
  by apply (with_db_keeps _ (RRecord (repositoryWorkflowKey key) v t
              (mkRowResult workflowCodecVersion payload (er_BusinessKey result) (er_WriteEffect result)
                 (er_CompletedAt result))) ctx).
Qed.

Lemma delete_reserved_keeps ctx key v t : st_keeps kept (dbs_DeleteReservedExecution ctx key v t).
Proof.
  apply mapped_keeps. by apply (with_db_keeps _ (RDeleteReserved (repositoryWorkflowKey key) v t) ctx).
Qed.

Lemma takeover_keeps ctx key v t rv : st_keeps kept (dbs_TakeoverExpiredExecution clock ctx key v t rv).
Proof.
  apply keeps_bind; [apply keeps_lift|]. intros [rr norm]. apply keeps_bind; [apply now_keeps|]. intros n.
  apply keeps_bind; [|intros; apply expected_keeps].
  apply on_error_keeps; [|intros; apply map_conflict_keeps].
  by apply (with_db_keeps _ (RTakeover (repositoryWorkflowKey key) v t n rr) ctx).
Qed.

Lemma list_keeps ctx n limit : st_keeps kept (dbs_ListRecoverableExecutions ctx n limit).
Proof.
  apply keeps_bind; [|intros; apply keeps_ret]. apply mapped_keeps. keeps_call (RListRecoverable n limit) ctx.
Qed.

Lemma mark_keeps ctx key v t at_ : st_keeps kept (dbs_MarkExecutionRecoveryRequired ctx key v t at_).
Proof.
  apply keeps_bind.
  - apply mapped_keeps. by apply (with_db_keeps _ (RMark (repositoryWorkflowKey key) v t at_) ctx).
  - intros _. apply keeps_bind; [apply mapped_keeps, load_keeps|].
    intros [w|]; [|apply keeps_ret]. apply keeps_bind; [apply keeps_lift|intros; apply keeps_ret].
Qed.
End keeps.

(** ** Successful operations *)

Lemma with_db_Ok {A} (m : ST D A) s a s' :
  with_db m s = (Ok a, s') <-> m (as_db s) = (Ok a, as_db s') /\ as_ticks s' = as_ticks s.
Proof.
  unfold with_db. destruct (m (as_db s)) as [r d], s' as [d' n]. cbn. naive_solver.
Qed.

Lemma on_error_Ok {A} (m : dbs (D := D) A) f s a s' : on_error m f s = (Ok a, s') <-> m s = (Ok a, s').
Proof.
  unfold on_error. destruct (m s) as [[b|e] s1]; [done|]. split; [|done].
  by destruct (f e s1) as [[?|?] ?].
Qed.

Lemma now_Ok s a s' : db_now (D := D) clock s = (Ok a, s') -> as_db s' = as_db s.
Proof. by intros [= _ <-]. Qed.

Lemma reserved_row_for r w :
  ec_Operation (aw_Exec w) = Some (rr_ExecutionOperation r) ->
  ec_BusinessKey (aw_Exec w) = Some (rr_BusinessKey r) ->
  row_for (rr_ExecutionOperation r) (rr_BusinessKey r) w.
Proof. intros Ho Hb. unfold row_for. rewrite Ho, Hb. cbn. by rewrite !text_eq_refl. Qed.

Lemma create_reserved_Ok c k n rv s vw s' :
  dbs_CreateReservedExecution clock (workflowStoreContext c k) k n rv s = (Ok vw, s') ->
  exists norm, canonicalReservedExecution rv = Ok norm
    /\ db_kept k (re_Operation norm) (re_BusinessKey norm) s'.
Proof.
  unfold dbs_CreateReservedExecution. intros H.
  apply st_bind_Ok in H as (t & s1 & _ & H).
  apply st_bind_Ok in H as (row & s2 & [Hrow ->]%st_lift_Ok & H).
  apply st_bind_Ok in H as ([rr norm] & s3 & [Hrr ->]%st_lift_Ok & H).
  apply st_bind_Ok in H as (w & s4 & Hc & [_ ->]%st_lift_Ok).
  apply on_error_Ok, with_db_Ok in Hc as [Hc _]. cbn [fst repo_CreateReservedExecution] in Hc.
  apply st_bind_Ok in Hc as ([] & d1 & [Hv ->]%st_lift_Ok & Hc).
  apply st_bind_Ok in Hc as ([] & d2 & [_ ->]%st_lift_Ok & Hc).
  apply st_bind_Ok in Hc as ([] & d3 & [_ ->]%st_lift_Ok & Hc).
  apply insert_succeeded in Hc as (m & now & _ & _ & _ & now' & Hm); [|exact Hv].
  apply encode_reservation in Hrr as (Hn & Ho & Hb & _). exists norm. split; [done|]. left.
  eexists. rewrite Hm. rewrite <- Ho, <- Hb. unfold encodeAgentWorkflowRow in Hrow.
  apply res_bind_Ok in Hrow as ([u canonical] & _ & [= <-]).
  split; [apply lookup_insert_eq|]. by apply reserved_row_for.
Qed.

Lemma reserve_Ok c k v n rv s vw s' :
  dbs_ReserveExecution clock (workflowStoreContext c k) k v n rv s = (Ok vw, s') ->
  exists norm, canonicalReservedExecution rv = Ok norm
    /\ db_kept k (re_Operation norm) (re_BusinessKey norm) s'.
Proof.
  unfold dbs_ReserveExecution. intros H.
  apply st_bind_Ok in H as (t & s1 & _ & H).
  apply st_bind_Ok in H as ([u normalized] & s2 & [_ ->]%st_lift_Ok & H).
  apply st_bind_Ok in H as ([rr norm] & s3 & [Hrr ->]%st_lift_Ok & H).
  apply st_bind_Ok in H as ([] & s4 & Hc & [_ ->]%st_ret_Ok).
  apply on_error_Ok, with_db_Ok in Hc as [Hc _]. unfold repo_ReserveExecution in Hc.
  do 3 (apply st_bind_Ok in Hc as ([] & ? & [_ ->]%st_lift_Ok & Hc)).
  apply update_succeeded in Hc as (m & w & now & _ & _ & _ & _ & Hw); [|constructor].
  apply encode_reservation in Hrr as (Hn & Ho & Hb & _). exists norm. split; [done|]. left.
  eexists. split; [exact Hw|]. rewrite <- Ho, <- Hb. by apply reserved_row_for.
Qed.

Lemma delete_reserved_Ok c k v t op bk s s' :
  db_kept k op bk s -> dbs_DeleteReservedExecution (workflowStoreContext c k) k v t s = (Ok tt, s') ->
  db_recorded k op bk s'.
Proof.
  unfold dbs_DeleteReservedExecution. intros Hk Hc.
  apply on_error_Ok, with_db_Ok in Hc as [Hc _]. unfold repo_DeleteReservedExecution in Hc.
  do 2 (apply st_bind_Ok in Hc as ([] & ? & [_ ->]%st_lift_Ok & Hc)).
  apply remove_succeeded in Hc as (m & w & Hb & Hw & Hp & _).
  destruct (between_kept _ _ _ _ _ _ Hb Hk) as [(w' & Hw' & Hf)|Hr]; [|exact Hr].
  assert (w' = w) as -> by congruence. destruct Hb as (l & Hran & Hpast).
  unfold db_recorded, was_recorded_row. rewrite Hpast, Exists_app. right. apply Exists_exists.
  exists m. split; [by eapply ran_last|]. exists w. split; [done|]. split; [done|]. by eapply recorded_where.
Qed.

Lemma decode_versions w vw : decodeAgentWorkflowRow w = Ok vw ->
  vw_Version vw = aw_Version w /\ decodeExecution (aw_Exec w) = Ok (vw_Execution vw).
Proof.
  unfold decodeAgentWorkflowRow. intros H.
  do 4 (apply res_bind_Ok in H as (? & ? & H)). apply res_bind_Ok in H as (e & He & [= <-]). done.
Qed.

(** What [loadExpectedVersion] hands out is the row the statement wrote. *)
Lemma expected_Ok ctx k v s vw s' w0 :
  db_rows (as_db s) !! index_key (repositoryWorkflowKey k) = Some w0 -> aw_Version w0 = v ->
  loadExpectedVersion clock ctx k v s = (Ok vw, s') ->
  decodeAgentWorkflowRow w0 = Ok vw.
Proof.
  intros Hw Hv H. unfold loadExpectedVersion in H.
  apply st_bind_Ok in H as ([loaded|] & s1 & Hl & H); [|done].
  case_if_in H; [|done]. apply st_ret_Ok in H as [-> ->]. b2p.
  unfold dbs_Load in Hl. apply st_bind_Ok in Hl as (o & s2 & Ho & Hl).
  destruct o as [w|]; [|by apply st_ret_Ok in Hl as [? _]].
  apply st_bind_Ok in Hl as (expired & s3 & _ & Hl). destruct expired.
  { apply st_bind_Ok in Hl as (? & ? & _ & Hl). by apply st_ret_Ok in Hl as [? _]. }
  apply st_bind_Ok in Hl as (vw' & s4 & [Hd ->]%st_lift_Ok & Hl). apply st_ret_Ok in Hl as [[= ->] ->].
  apply with_db_Ok in Ho as [Ho _]. unfold repo_Load in Ho.
  apply st_bind_Ok in Ho as (? & ? & [_ ->]%st_lift_Ok & Ho).
  destruct (scoped_first _ _ _) as [[w1|e] d1] eqn:Ef; [|by case_if_in Ho].
  injection Ho as -> _. unfold scoped_first in Ef.
  apply st_bind_Ok in Ef as (p & ? & [_ ->]%st_lift_Ok & Ef).
  apply decode_versions in Hd as Hver. rewrite <- (read_back _ _ _ _ _ _ _ Hw Ef); [done|].
  destruct Hver as [<- _]. congruence.
Qed.

Lemma next_version_small v : in_uint64 (v + 1) = true -> next_version v = v + 1.
Proof.
  unfold in_uint64, next_version, wrap_uint64, max_uint64. intros H. b2p. apply Z.mod_small. lia.
Qed.

Lemma takeover_Ok c k v t rv s vw s' :
  dbs_TakeoverExpiredExecution clock (workflowStoreContext c k) k v t rv s = (Ok vw, s') ->
  exists norm e, canonicalReservedExecution rv = Ok norm /\ vw_Execution vw = Some e
    /\ ex_Reservation e = norm /\ db_kept k (re_Operation norm) (re_BusinessKey norm) s'.
Proof.
  unfold dbs_TakeoverExpiredExecution. intros H.
  apply st_bind_Ok in H as ([rr norm] & s1 & [Hrr ->]%st_lift_Ok & H).
  apply st_bind_Ok in H as (n & s2 & Hn & H). apply st_bind_Ok in H as ([] & s3 & Hc & H).
  apply on_error_Ok, with_db_Ok in Hc as [Hc _]. unfold repo_TakeoverExpiredExecution in Hc.
  do 3 (apply st_bind_Ok in Hc as ([] & ? & [_ ->]%st_lift_Ok & Hc)).
  apply update_succeeded in Hc as (m & w & now & _ & _ & Hp & Hin & Hw); [|constructor].
  apply encode_reservation in Hrr as (Hnorm & Ho & Hb & Hu). cbn [fst] in *.
  assert (Hkept : db_kept k (re_Operation norm) (re_BusinessKey norm) s3).
  { left. eexists. split; [exact Hw|]. rewrite <- Ho, <- Hb. by apply reserved_row_for. }
  pose proof (expected_keeps k (re_Operation norm) (re_BusinessKey norm)
                (workflowStoreContext c k) k (next_version v) s3 Hkept) as Hkept'.
  rewrite H in Hkept'. cbn [snd] in Hkept'.
  apply (expected_Ok _ _ _ _ _ _ _ Hw) in H.
  2:{ unfold where_expired in Hp. b2p. cbn in *. subst v. by rewrite next_version_small. }
  apply decode_versions in H as [_ H]. unfold decodeExecution in H. cbn in H.
  apply res_bind_Ok in H as (? & _ & H). rewrite Hu in H. cbn [res_bind] in H.
  apply res_bind_Ok in H as (? & _ & H). apply res_bind_Ok in H as (r & _ & [= He]).
  exists norm. eexists. split_and!; done.
Qed.

(** ** The laws of the interfaces *)

#[global] Instance db_WorkflowStoreLaws : WorkflowStoreLaws (agentWorkflowStore D).
Proof.
  refine {| ws_kept := db_kept; ws_recorded := db_recorded |}.
  - intros c k n rv s vw s'. apply create_reserved_Ok.
  - intros c k v n rv s vw s'. apply reserve_Ok.
  - intros c k v t result key op bk s. apply record_keeps.
  - intros c k v t key op bk s e s' Hk H.
    pose proof (delete_reserved_keeps key op bk (workflowStoreContext c k) k v t s Hk) as Hk'.
    cbn in H. by rewrite H in Hk'.
  - intros c k v t op bk s s'. apply delete_reserved_Ok.
  - intros c k v t rv key op bk s. apply takeover_keeps.
  - intros c k v t rv s vw s' (norm & e & ? & ? & <- & ?)%takeover_Ok. by exists (ex_Reservation e), e.
Defined.

#[global] Instance db_WorkflowRecoveryLaws : WorkflowRecoveryLaws (agentWorkflowStore D).
Proof.
  split.
  - intros c n limit key op bk s. apply list_keeps.
  - intros c k v t at_ key op bk s. apply mark_keeps.
Qed.
End laws.

(** ** What is written reads back *)

Section roundtrip.
Context `{DC : DatabaseConventions} {D : Type} `{DB : WorkflowDatabase D} {DBL : WorkflowDatabaseLaws D}.

(** A snapshot within the machine's widths and the printable years, its
    parameters under their own names. *)
Definition storable (w : WorkflowSnapshot) : Prop :=
  snapshot_wide w /\ snapshot_times_ok w /\ trusted_keyed (wf_Trusted w).

(** The snapshot a row yields: its business fields from the JSON, its version
    and times from the columns. *)
Definition row_snapshot (key : WorkflowKey) (w : WorkflowSnapshot) (row : AgentWorkflow) : WorkflowSnapshot :=
  stamp_snapshot key (aw_CreatedAt row) (aw_UpdatedAt row) (su_ExpiresAt (aw_Snapshot row)) (aw_Version row)
    (persisted_view w).

Lemma encode_snapshot_Ok key next now u canonical :
  encodeSnapshotUpdate key (Some next) now = Ok (u, canonical) -> storable (stored_snapshot key next now) ->
  canonical = persisted_view (stored_snapshot key next now)
  /\ u = mkUpdate (wf_ID next) (wf_Type next) (wf_State next) workflowCodecVersion (su_SnapshotJSON u)
           (wf_ExpiresAt (stored_snapshot key next now))
  /\ UnmarshalWorkflowSnapshot (su_SnapshotJSON u) = Ok canonical.
Proof.
  intros H (Hw & Ht & Hk). unfold encodeSnapshotUpdate in H.
  apply res_bind_Ok in H as (payload & Hp & H). apply res_bind_Ok in H as (c & Hc & [= <- <-]).
  pose proof (snapshot_marshal_ok _ _ Hp Hw Ht Hk) as Hc'.
  assert (c = persisted_view (stored_snapshot key next now)) as -> by congruence. done.
Qed.

Lemma decode_stored key next now u canonical row e :
  encodeSnapshotUpdate key (Some next) now = Ok (u, canonical) -> storable (stored_snapshot key next now) ->
  aw_Key row = repositoryWorkflowKey key -> aw_Snapshot row = u ->
  decodeExecution (aw_Exec (store_times row)) = Ok e ->
  decodeAgentWorkflowRow (store_times row)
  = Ok (mkVersioned (row_snapshot key (stored_snapshot key next now) (store_times row)) (aw_Version row) e).
Proof.
  intros He Hs Hk Hu Hd. destruct (encode_snapshot_Ok _ _ _ _ _ He Hs) as (-> & Eu & Hun).
  destruct row as [rk s v x ca ua]. cbn [aw_Key aw_Snapshot aw_Exec] in *. subst rk s. rewrite Eu.
  unfold decodeAgentWorkflowRow. cbn [store_times aw_Key aw_Snapshot aw_Exec aw_Version aw_CreatedAt aw_UpdatedAt
    su_SnapshotSchemaVersion su_SnapshotJSON su_WorkflowID su_WorkflowType su_WorkflowState su_ExpiresAt
    Z.eqb workflowCodecVersion Pos.eqb guard res_bind].
  rewrite Hun. cbn [store_times aw_Exec] in Hd. rewrite Hd. unfold same.
  cbn [persisted_view stored_snapshot stamp_snapshot wf_ID wf_Type wf_State wf_TenantID wf_ConversationID
       wf_ActorUserID repositoryWorkflowKey rk_TenantID rk_ConversationID rk_ActorUserID res_bind].
  rewrite !bool_decide_eq_true_2, !Z.eqb_refl by done. cbn [andb guard res_bind].
  by destruct key.
Qed.

Lemma decode_no_execution x : x = no_execution -> decodeExecution x = Ok None.
Proof. by intros ->. Qed.

Definition lease_stored (x : execution_columns) : execution_columns :=
  mkExec (ec_Status x) (ec_Token x) (ec_Operation x) (ec_BusinessKey x) (ec_RequestID x)
    (ec_RequestSchemaVersion x) (ec_RequestJSON x) (ec_ResultSchemaVersion x) (ec_ResultJSON x)
    (ec_WriteEffect x) (db_time <$> ec_LeaseExpiresAt x).

(** The canonical lease is a millisecond, which every column keeps. *)
Lemma encode_reservation_lease r rr norm :
  encodeRepositoryReservation r = Ok (rr, norm) -> reservation_wide r -> reservation_times_ok r ->
  norm = canonical_form r /\ db_time (re_LeaseExpiresAt norm) = re_LeaseExpiresAt norm
  /\ truncate_ms (re_LeaseExpiresAt norm) = re_LeaseExpiresAt norm
  /\ rr = mkRowReservation (re_ExecutionToken norm) (re_Operation norm) (re_BusinessKey norm)
             (re_AttemptRequestID norm) workflowCodecVersion (rr_RequestJSON rr) (re_LeaseExpiresAt norm).
Proof.
  intros H Hw Ht. pose proof H as (Hc & _)%encode_reservation.
  apply canonicalReservedExecution_Ok in Hc as [-> _]; [|done..].
  unfold encodeRepositoryReservation in H.
  apply res_bind_Ok in H as (payload & _ & H). apply res_bind_Ok in H as (n & _ & H).
  injection H as <- ->. cbn. split_and!; try done; [|by rewrite truncate_ms_idem].
  apply db_time_exact, truncate_ms_mod.
Qed.

Lemma decode_reserved_columns r rr norm status (result : option PersistedExecutionResultV1) schema payload effect :
  encodeRepositoryReservation r = Ok (rr, norm) -> reservation_wide r -> reservation_times_ok r ->
  status <> AgentWorkflowExecutionIdle ->
  same status AgentWorkflowExecutionExecuting || same status AgentWorkflowExecutionResultRecorded
  || same status AgentWorkflowExecutionRecoveryRequired = true ->
  let x := mkExec status (Some (re_ExecutionToken norm)) (Some (re_Operation norm)) (Some (re_BusinessKey norm))
             (Some (re_AttemptRequestID norm)) (Some workflowCodecVersion) (Some (rr_RequestJSON rr))
             schema payload effect (Some (re_LeaseExpiresAt norm)) in
  decode_result (lease_stored x) (re_BusinessKey norm) = Ok result ->
  decodeExecution (lease_stored x) = Ok (Some (mkExecution status norm result)).
Proof.
  intros H Hw Ht Hi Hst x Hr. pose proof H as (_ & _ & _ & Hu)%encode_reservation.
  destruct (encode_reservation_lease _ _ _ H Hw Ht) as (_ & Hl & Htr & _).
  set (y := lease_stored x) in *. unfold decodeExecution.
  change (ec_Status y) with status. change (ec_Token y) with (Some (re_ExecutionToken norm)).
  change (ec_Operation y) with (Some (re_Operation norm)).
  change (ec_BusinessKey y) with (Some (re_BusinessKey norm)).
  change (ec_RequestID y) with (Some (re_AttemptRequestID norm)).
  change (ec_RequestSchemaVersion y) with (Some workflowCodecVersion).
  change (ec_RequestJSON y) with (Some (rr_RequestJSON rr)).
  change (ec_LeaseExpiresAt y) with (Some (db_time (re_LeaseExpiresAt norm))).
  unfold same at 1. rewrite bool_decide_eq_false_2, Hst by done.
  cbn [Z.eqb workflowCodecVersion Pos.eqb guard res_bind]. rewrite Hu. cbn [res_bind].
  rewrite Hr, Hl, Htr, Z.eqb_refl. unfold same. by rewrite !bool_decide_eq_true_2 by done.
Qed.

Lemma marshal_effect result payload :
  MarshalPersistedExecutionResult result = Ok payload -> er_WriteEffect result ∈ writeEffects.
Proof.
  unfold MarshalPersistedExecutionResult. intros H. apply res_bind_Ok in H as (d & Hd & _).
  apply persistedExecutionResultToV1_Ok in Hd as (Hv & _). unfold validatePersistedExecutionResult in Hv.
  do 2 (apply res_bind_Ok in Hv as (? & _ & Hv)). apply res_bind_Ok in Hv as (? & Hw%guard_Ok & _). by b2p.
Qed.

Lemma effect_not_blank e : e ∈ writeEffects -> blank e = false.
Proof. intros H. repeat (apply elem_of_cons in H as [->|H]; [reflexivity|]). by apply elem_of_nil in H. Qed.

(** C38: What the production store writes reads back: a row holding an encoded
    snapshot decodes to that snapshot's business fields under the row's version
    and stored times, and to no execution when idle, to the canonical
    reservation when reserved, and to the reservation with its result once the
    result is recorded. *)
Theorem stored_workflow_reads_back key next now u canonical rv rr norm row :
  encodeSnapshotUpdate key (Some next) now = Ok (u, canonical) -> storable (stored_snapshot key next now) ->
  encodeRepositoryReservation rv = Ok (rr, norm) -> reservation_wide rv -> reservation_times_ok rv ->
  aw_Key row = repositoryWorkflowKey key -> aw_Snapshot row = u ->
  let reads e := decodeAgentWorkflowRow (store_times row)
    = Ok (mkVersioned (row_snapshot key (stored_snapshot key next now) (store_times row)) (aw_Version row) e) in
  norm = canonical_form rv
  /\ (aw_Exec row = no_execution -> reads None)
  /\ (aw_Exec row = reserved_columns rr ->
      reads (Some (mkExecution WorkflowExecutionExecuting norm None)))
  /\ forall result payload,
      MarshalPersistedExecutionResult result = Ok payload -> year_printable (er_CompletedAt result) ->
      er_BusinessKey result = re_BusinessKey norm ->
      aw_Exec row = recorded_columns (mkRowResult workflowCodecVersion payload (er_BusinessKey result)
                      (er_WriteEffect result) (er_CompletedAt result)) (reserved_columns rr) ->
      reads (Some (mkExecution WorkflowExecutionResultRecorded norm (Some result))).
Proof.
  intros He Hs Hr Hw Ht Hk Hu reads.
  assert (Hd : forall e, decodeExecution (lease_stored (aw_Exec row)) = Ok e -> reads e)
    by (intros e; by eapply decode_stored).
  destruct (encode_reservation_lease _ _ _ Hr Hw Ht) as (Hn & _ & _ & Err).
  split; [done|]. split; [|split].
  - intros Hx. apply Hd. by rewrite Hx.
  - intros Hx. apply Hd. rewrite Hx, Err.
    by apply (decode_reserved_columns rv rr norm WorkflowExecutionExecuting None None None None).
  - intros result payload Hm Hy Hbk Hx. apply Hd. rewrite Hx, Err.
    apply (decode_reserved_columns rv rr norm WorkflowExecutionResultRecorded (Some result)
             (Some workflowCodecVersion) (Some payload) (nullableString (er_WriteEffect result))); try done.
    unfold decode_result, nullableString. cbn. pose proof (result_marshal_ok _ _ Hm Hy) as ->.
    rewrite effect_not_blank by (by eapply marshal_effect). cbn. unfold same.
    change (bool_decide (WorkflowExecutionResultRecorded = AgentWorkflowExecutionExecuting)) with false.
    by rewrite Hbk, !bool_decide_eq_true_2 by done.
Qed.
End roundtrip.

(** ** Deferred executions *)

(** The time from which a half millisecond counts as a whole one. *)
Lemma round_ms_down t : t mod ns_ms < ns_ms / 2 -> round_ms t = truncate_ms t.
Proof. unfold round_ms, truncate_ms, ns_ms. intros H. Z.div_mod_to_equations. lia. Qed.
Lemma round_ms_up t : ns_ms / 2 <= t mod ns_ms -> round_ms t = truncate_ms t + ns_ms.
Proof. unfold round_ms, truncate_ms, ns_ms. intros H. Z.div_mod_to_equations. lia. Qed.

Section deferral.
Context (collate : string -> string).
Let DC : DatabaseConventions := mysql_conventions collate round_ms.
Existing Instance DC.

(** The row once [MarkExecutionRecoveryRequired] was stored. *)
Definition deferred_row (now t : Z) (w : AgentWorkflow) : AgentWorkflow :=
  store_times (touched now (bump (set_exec (deferred_columns t (aw_Exec w)) w))).

(** What a decodable executing row consists of. *)
Lemma decode_executing x e :
  decodeExecution x = Ok (Some e) -> ec_Status x = AgentWorkflowExecutionExecuting ->
  exists token operation businessKey requestID payload lease,
    x = mkExec AgentWorkflowExecutionExecuting (Some token) (Some operation) (Some businessKey) (Some requestID)
          (Some workflowCodecVersion) (Some payload) None None None (Some lease)
    /\ UnmarshalReservedExecution payload = Ok (ex_Reservation e)
    /\ token = re_ExecutionToken (ex_Reservation e) /\ operation = re_Operation (ex_Reservation e)
    /\ businessKey = re_BusinessKey (ex_Reservation e) /\ requestID = re_AttemptRequestID (ex_Reservation e).
Proof.
  destruct x as [st tok op bk rid sv js rsv rjs we le]. cbn [ec_Status]. intros H ->.
  unfold decodeExecution in H. cbn [ec_Status ec_Token ec_Operation ec_BusinessKey ec_RequestID
    ec_RequestSchemaVersion ec_RequestJSON ec_LeaseExpiresAt] in H.
  change (same AgentWorkflowExecutionExecuting AgentWorkflowExecutionIdle) with false in H. cbn iota in H.
  apply res_bind_Ok in H as (? & _ & H).
  destruct tok as [tok|], op as [op|], bk as [bk|], rid as [rid|], sv as [sv|], js as [js|], le as [le|];
    try discriminate H.
  apply res_bind_Ok in H as (? & Hsv%guard_Ok & H). apply res_bind_Ok in H as (rv & Hu & H).
  apply res_bind_Ok in H as (? & Hg%guard_Ok & H). apply res_bind_Ok in H as (result & Hr & [= <-]).
  unfold same in Hg. b2p. subst. cbn [ex_Reservation]. unfold decode_result in Hr.
  cbn [ec_Status ec_ResultSchemaVersion ec_ResultJSON ec_WriteEffect] in Hr.
  apply res_bind_Ok in Hr as (? & Hn%guard_Ok & _).
  change (same AgentWorkflowExecutionExecuting AgentWorkflowExecutionExecuting) with true in Hn.
  destruct rsv, rjs, we; try discriminate Hn. by eexists _, _, _, _, js, le.
Qed.

(** Rows that differ in their execution, version and times decode alike but for
    the execution. *)
Lemma decode_other_execution w w' vw :
  decodeAgentWorkflowRow w = Ok vw -> aw_Key w' = aw_Key w ->
  su_SnapshotSchemaVersion (aw_Snapshot w') = su_SnapshotSchemaVersion (aw_Snapshot w) ->
  su_SnapshotJSON (aw_Snapshot w') = su_SnapshotJSON (aw_Snapshot w) ->
  su_WorkflowID (aw_Snapshot w') = su_WorkflowID (aw_Snapshot w) ->
  su_WorkflowType (aw_Snapshot w') = su_WorkflowType (aw_Snapshot w) ->
  su_WorkflowState (aw_Snapshot w') = su_WorkflowState (aw_Snapshot w) ->
  decodeExecution (aw_Exec w) = Ok (vw_Execution vw)
  /\ match decodeExecution (aw_Exec w') with
     | Ok e' => exists vw', decodeAgentWorkflowRow w' = Ok vw' /\ vw_Execution vw' = e'
     | Err er => decodeAgentWorkflowRow w' = Err er
     end.
Proof.
  destruct w as [k [i ty st sv js ea] v x ca ua], w' as [k' [i' ty' st' sv' js' ea'] v' x' ca' ua'].
  cbn [aw_Key aw_Snapshot aw_Exec su_SnapshotSchemaVersion su_SnapshotJSON su_WorkflowID su_WorkflowType
       su_WorkflowState]. intros H -> -> -> -> -> ->.
  unfold decodeAgentWorkflowRow in *. cbn [aw_Key aw_Snapshot aw_Exec su_SnapshotSchemaVersion su_SnapshotJSON
    su_WorkflowID su_WorkflowType su_WorkflowState] in *.
  apply res_bind_Ok in H as (? & -> & H). apply res_bind_Ok in H as (sn & -> & H).
  apply res_bind_Ok in H as (? & Hg & H). apply res_bind_Ok in H as (? & Hg' & H).
  apply res_bind_Ok in H as (e & He & [= <-]). cbn [res_bind]. rewrite Hg. cbn [res_bind]. rewrite Hg'.
  cbn [res_bind]. split; [done|]. destruct (decodeExecution x'); cbn [res_bind]; eauto.
Qed.

Lemma deferred_columns_read w e now t :
  decodeExecution (aw_Exec w) = Ok (Some e) -> ec_Status (aw_Exec w) = AgentWorkflowExecutionExecuting ->
  decodeExecution (aw_Exec (deferred_row now t w))
  = guard (re_LeaseExpiresAt (ex_Reservation e) =? round_ms t) (EMsg "execution request projection mismatch") ;;;
    Ok (Some (mkExecution WorkflowExecutionRecoveryRequired (ex_Reservation e) None)).
Proof.
  intros Hex Hst.
  destruct (decode_executing _ _ Hex Hst) as (tok & op & bk & rid & js & le & Hx & Hu & -> & -> & -> & ->).
  unfold deferred_row. cbn [aw_Exec store_times touched bump set_version set_exec]. rewrite Hx.
  unfold decodeExecution. cbn [deferred_columns ec_Status ec_Token ec_Operation ec_BusinessKey ec_RequestID
    ec_RequestSchemaVersion ec_RequestJSON ec_LeaseExpiresAt fmap option_fmap option_map].
  change (same AgentWorkflowExecutionRecoveryRequired AgentWorkflowExecutionIdle) with false.
  cbn [guard res_bind Z.eqb workflowCodecVersion Pos.eqb]. rewrite Hu. cbn [res_bind].
  change (db_time t) with (round_ms t). unfold same at 4 5 6 7.
  rewrite !bool_decide_eq_true_2 by done. unfold round_ms. rewrite truncate_ms_idem. done.
Qed.

(** C37: Deferring a recovery keeps the write readable or makes it unreadable,
    by the sub-millisecond part of the clock: the retry time is written to the
    lease column as it is, while the stored request keeps the lease cut to
    milliseconds, and MySQL rounds.  From half a millisecond on, every later
    load of the conversation and every recovery scan fails to decode the row. *)
Theorem deferred_execution_readable w vw e now t :
  decodeAgentWorkflowRow w = Ok vw -> vw_Execution vw = Some e ->
  ec_Status (aw_Exec w) = AgentWorkflowExecutionExecuting ->
  re_LeaseExpiresAt (ex_Reservation e) = truncate_ms t ->
  (t mod ns_ms < ns_ms / 2 ->
   exists vw', decodeAgentWorkflowRow (deferred_row now t w) = Ok vw'
     /\ vw_Execution vw' = Some (mkExecution WorkflowExecutionRecoveryRequired (ex_Reservation e) None))
  /\ (ns_ms / 2 <= t mod ns_ms ->
      decodeAgentWorkflowRow (deferred_row now t w) = Err (EMsg "execution request projection mismatch")).
Proof.
  intros Hd He Hst Hl.
  destruct (decode_other_execution w (deferred_row now t w) vw Hd) as [Hex H]; try done.
  rewrite He in Hex. rewrite (deferred_columns_read w e now t Hex Hst), Hl in H. split; intros Hf.
  - rewrite (round_ms_down t Hf), Z.eqb_refl in H. exact H.
  - rewrite (round_ms_up t Hf) in H.
    replace (truncate_ms t =? truncate_ms t + ns_ms) with false in H by (symmetry; apply Z.eqb_neq; unfold ns_ms; lia).
    exact H.
Qed.
End deferral.

(** ** The contract of the store *)

(** C12: The database store implements the contract the write coordinator and
    the recovery are verified against: on any database that behaves as the
    repository relies on, with other clients in between and statements failing
    or losing their answers, a write is on record exactly when its row holds the
    execution or held its recorded result. *)
Theorem database_store_implements `{DC : DatabaseConventions} {D : Type} `{DB : WorkflowDatabase D}
    {DBL : WorkflowDatabaseLaws D} {RB : QuietReadBack D} clock ambient :
  exists L : @WorkflowStoreLaws (agentWorkflowStore D) (db_WorkflowStore clock ambient),
    @WorkflowRecoveryLaws (agentWorkflowStore D) (db_WorkflowStore clock ambient)
      (db_WorkflowRecoveryStore clock ambient) L
    /\ forall k op bk s,
         (@ws_kept _ _ L k op bk s <->
          holds_row (repositoryWorkflowKey k) op bk (db_rows (as_db s))
          \/ Exists (holds_recorded_row (repositoryWorkflowKey k) op bk) (db_past (as_db s)))
         /\ (@ws_recorded _ _ L k op bk s <->
             Exists (holds_recorded_row (repositoryWorkflowKey k) op bk) (db_past (as_db s))).
Proof.
  exists (db_WorkflowStoreLaws clock ambient). split; [apply db_WorkflowRecoveryLaws|]. done.
Qed.

(** ** Witnesses *)

#[local] Instance mysql_read_back : @QuietReadBack (@table_db mysql) mysql _.
Proof.
  intros d c k p w w0 d' Hw H Hv.
  pose proof (db_first_law (WorkflowDatabaseLaws := mysql_laws) c k p d (Ok w) d' H) as (_ & H1 & _).
  apply table_read_spec in H as (_ & Hr & _). cbn in *. congruence.
Qed.

Definition empty_table : @table_db mysql := mkTableDB (H := mysql) ∅ [] (tick 0) [] [].

Definition mysql_store : WorkflowStore (agentWorkflowStore (@table_db mysql)) :=
  db_WorkflowStore (DC := mysql) tick None.

Lemma database_store_implements_witness :
  exists L : @WorkflowStoreLaws (agentWorkflowStore (@table_db mysql)) mysql_store,
    @ws_kept _ _ L key7 "subscription.start" "key-1"
      (@ws_create_reserved _ mysql_store None key7 (Some draft_snapshot) reservation7
         (mkDbStore empty_table 0)).2.
Proof.
  destruct (@database_store_implements mysql (@table_db mysql) _ mysql_laws _ tick None) as (L & _ & HL).
  exists L. apply HL. left. eexists. split; [vm_compute; reflexivity|]. split; vm_compute; reflexivity.
Defined.

(** A row with a reservation, as the store writes it. *)
Definition encoded_update : AgentWorkflowSnapshotUpdate :=
  match encodeSnapshotUpdate key7 (Some draft_snapshot) (tick 0) with
  | Ok p => p.1 | Err _ => mkUpdate "" "" "" 0 "" 0 end.
Definition encoded_snapshot : WorkflowSnapshot :=
  match encodeSnapshotUpdate key7 (Some draft_snapshot) (tick 0) with
  | Ok p => p.2 | Err _ => draft_snapshot end.
Definition encoded_reservation : AgentWorkflowReservation :=
  match encodeRepositoryReservation reservation7 with Ok p => p.1 | Err _ => row_reservation end.
Definition reserved_row : AgentWorkflow :=
  mkRow row_key7 encoded_update 2 (reserved_columns encoded_reservation) (tick 0) (tick 0).

Lemma reservation7_wide : reservation_wide reservation7.
Proof. apply map_Forall_insert_2; [reflexivity|apply map_Forall_empty]. Qed.
Lemma reservation7_times : reservation_times_ok reservation7.
Proof. repeat split; vm_compute; congruence. Qed.

Lemma stored_workflow_reads_back_witness :
  decodeAgentWorkflowRow (store_times (DC := mysql) reserved_row)
  = Ok (mkVersioned (row_snapshot key7 (stored_snapshot key7 draft_snapshot (tick 0))
                       (store_times (DC := mysql) reserved_row)) 2
          (Some (mkExecution WorkflowExecutionExecuting (canonical_form reservation7) None))).
Proof.
  apply (stored_workflow_reads_back (DC := mysql) (DBL := mysql_laws) key7 draft_snapshot (tick 0) encoded_update
           encoded_snapshot reservation7 encoded_reservation (canonical_form reservation7)).
  - vm_compute. reflexivity.
  - split; [|split].
    + do 3 (split; [reflexivity|]). split; [|split; apply map_Forall_empty].
      do 7 (split; [reflexivity|]). apply map_Forall_empty.
    + repeat split; vm_compute; congruence.
    + apply map_Forall_empty.
  - vm_compute. reflexivity.
  - apply reservation7_wide.
  - apply reservation7_times.
  - reflexivity.
  - reflexivity.
  - reflexivity.
Defined.

(** The retry time is six tenths of a millisecond past a whole one. *)
Definition late_retry : Z := re_LeaseExpiresAt reservation7 + 600000.

Lemma deferred_execution_readable_witness :
  decodeAgentWorkflowRow (deferred_row to_lower (tick 1) late_retry reserved_row)
  = Err (EMsg "execution request projection mismatch").
Proof.
  assert (exists vw e, decodeAgentWorkflowRow reserved_row = Ok vw /\ vw_Execution vw = Some e
            /\ re_LeaseExpiresAt (ex_Reservation e) = truncate_ms late_retry) as (vw & e & Hd & He & Hl).
  { eexists _, _. split; [vm_compute; reflexivity|]. split; vm_compute; reflexivity. }
  apply (deferred_execution_readable to_lower reserved_row vw e (tick 1) late_retry Hd He); [reflexivity|exact Hl|].
  vm_compute. congruence.
Defined.
