(* ===== verification/Shadow.v ===== *)
(** * The shadow store

    internal/agent/workflow_shadow_store.go: a primary store that answers and a
    mirror that repeats every successful call with what the primary stored, and
    reports where the two differ.  Both are stores of [StoreApi] over states of
    their own; the events are the calls of the observer. *)
From Stdlib Require Import ZArith Lia Bool String.
From stdpp Require Import base list strings gmap.
From S2P Require Import Prelude GoStrings GoTime Contract Codec CodecSpec Store StoreSpec StoreApi.
#[local] Open Scope go_scope.

Record WorkflowShadowEvent := mkShadowEvent {
  sv_Operation : string; sv_Code : string; sv_PrimaryVersion : Z; sv_MirrorVersion : Z }.

(** [FinalizeExecution] of the interface. *)
Class FinalizingStore (S : Type) := {
  fs_finalize : option err -> WorkflowKey -> Z -> string -> option WorkflowSnapshot -> ST S VersionedWorkflow
}.

(** ** Comparing two answers *)

Definition version_of (v : option VersionedWorkflow) : Z := match v with Some v => vw_Version v | None => 0 end.
Definition shadow_event (operation code : string) (primary mirror : option VersionedWorkflow) : WorkflowShadowEvent :=
  mkShadowEvent operation code (version_of primary) (version_of mirror).

Definition canonicalExecutionEqual (left right : option PersistedExecutionV1) : res bool :=
  match left, right with
  | Some l, Some r =>
      if negb (bool_decide (ex_Status l = ex_Status r)) then Ok false
      else
        lr <- MarshalReservedExecution (ex_Reservation l) ;;
        rr <- MarshalReservedExecution (ex_Reservation r) ;;
        if negb (eqs lr rr) then Ok false
        else
          match ex_Result l, ex_Result r with
          | Some a, Some b =>
              la <- MarshalPersistedExecutionResult a ;;
              lb <- MarshalPersistedExecutionResult b ;;
              Ok (eqs la lb)
          | None, None => Ok true
          | _, _ => Ok false
          end
  | None, None => Ok true
  | _, _ => Ok false
  end.

(** [compare]: the code of the difference it reports, if any. *)
Definition difference (primary mirror : option VersionedWorkflow) : option string :=
  match primary, mirror with
  | None, None => None
  | Some p, Some m =>
      if negb (vw_Version p =? vw_Version m) then Some "version_diff"
      else
        match WorkflowSnapshotHash (vw_Snapshot p), WorkflowSnapshotHash (vw_Snapshot m) with
        | Ok hp, Ok hm =>
            if negb (eqs hp hm) then Some "snapshot_diff"
            else match canonicalExecutionEqual (vw_Execution p) (vw_Execution m) with
                 | Err _ => Some "execution_hash_error"
                 | Ok true => None
                 | Ok false => Some "execution_diff"
                 end
        | _, _ => Some "snapshot_hash_error"
        end
  | _, _ => Some "presence_diff"
  end.

(** ** The store *)

(** The two stores, the errors of the contexts the coming mirror calls run under
    (each has a timeout of its own), whether there is an observer, and what it
    was told. *)
Record workflowShadowStore (S1 S2 : Type) := mkShadow {
  sw_primary : S1;
  sw_mirror : S2;
  sw_mirror_ctx : list (option err);
  sw_observe : bool;
  sw_events : list WorkflowShadowEvent
}.
Arguments mkShadow {S1 S2} _ _ _ _ _.
Arguments sw_primary {S1 S2} _.
Arguments sw_mirror {S1 S2} _.
Arguments sw_mirror_ctx {S1 S2} _.
Arguments sw_observe {S1 S2} _.
Arguments sw_events {S1 S2} _.

Definition nil_dereference : err := EMsg "runtime error: invalid memory address or nil pointer dereference".

Section shadow.
Context {S1 S2 : Type}.
Context `{W1 : WorkflowStore S1} `{C1 : ConversationStore S1} `{F1 : FinalizingStore S1}.
Context `{W2 : WorkflowStore S2} `{C2 : ConversationStore S2} `{F2 : FinalizingStore S2}.

Notation shadow := (workflowShadowStore S1 S2).

(** A call that succeeded on the primary, repeated on the mirror; a failed one is
    not.  [mirror] is [None] where the code would follow a nil pointer to find
    what to repeat. *)
Definition mirrored {A B} (primary : ST S1 A) (mirror : option err -> A -> option (ST S2 B))
    (after : A -> res B -> list WorkflowShadowEvent) : ST shadow A := fun s =>
  match primary (sw_primary s) with
  | (Err e, p) => (Err e, mkShadow p (sw_mirror s) (sw_mirror_ctx s) (sw_observe s) (sw_events s))
  | (Ok a, p) =>
      match mirror (default None (head (sw_mirror_ctx s))) a with
      | None => (Err nil_dereference, mkShadow p (sw_mirror s) (sw_mirror_ctx s) (sw_observe s) (sw_events s))
      | Some call =>
          let '(b, m) := call (sw_mirror s) in
          (Ok a, mkShadow p m (tail (sw_mirror_ctx s)) (sw_observe s)
                   (sw_events s ++ if sw_observe s then after a b else []))
      end
  end.

Definition compare_answers (operation : string) (primary mirror : option VersionedWorkflow) : list WorkflowShadowEvent :=
  match difference primary mirror with Some code => [shadow_event operation code primary mirror] | None => [] end.
Definition afterLoad (current : option VersionedWorkflow) (r : res (option VersionedWorkflow))
  : list WorkflowShadowEvent :=
  match r with
  | Err _ => [shadow_event "load" "shadow_error" current None]
  | Ok m => compare_answers "load" current m
  end.
Definition afterMutation (operation : string) (primary : VersionedWorkflow) (r : res VersionedWorkflow)
  : list WorkflowShadowEvent :=
  match r with
  | Err _ => [shadow_event operation "shadow_error" (Some primary) None]
  | Ok m => compare_answers operation (Some primary) (Some m)
  end.
Definition afterDelete (operation : string) (r : res unit) : list WorkflowShadowEvent :=
  match r with Err _ => [shadow_event operation "shadow_error" None None] | Ok _ => [] end.

Definition shadow_Load (c : option err) (k : WorkflowKey) : ST shadow (option VersionedWorkflow) :=
  mirrored (cs_load c k) (fun mc _ => Some (cs_load mc k)) afterLoad.
Definition shadow_Create (c : option err) (k : WorkflowKey) (next : option WorkflowSnapshot) : ST shadow VersionedWorkflow :=
  mirrored (cs_create c k next) (fun mc current => Some (cs_create mc k (Some (vw_Snapshot current)))) (afterMutation "create").
Definition shadow_CompareAndSwap (c : option err) (k : WorkflowKey) (v : Z) (next : option WorkflowSnapshot)
  : ST shadow VersionedWorkflow :=
  mirrored (cs_compare_and_swap c k v next)
    (fun mc current => Some (cs_compare_and_swap mc k v (Some (vw_Snapshot current)))) (afterMutation "compare_and_swap").
Definition shadow_DeleteIfVersion (c : option err) (k : WorkflowKey) (v : Z) : ST shadow unit :=
  mirrored (cs_delete_if_version c k v) (fun mc _ => Some (cs_delete_if_version mc k v)) (fun _ => afterDelete "delete").

Definition shadow_CreateReservedExecution (c : option err) (k : WorkflowKey) (next : option WorkflowSnapshot)
    (reservation : ReservedExecutionV1) : ST shadow VersionedWorkflow :=
  mirrored (ws_create_reserved c k next reservation)
    (fun mc current => e ← vw_Execution current;
       Some (ws_create_reserved mc k (Some (vw_Snapshot current)) (ex_Reservation e))) (afterMutation "create_reserved").
Definition shadow_ReserveExecution (c : option err) (k : WorkflowKey) (v : Z) (next : option WorkflowSnapshot)
    (reservation : ReservedExecutionV1) : ST shadow VersionedWorkflow :=
  mirrored (ws_reserve c k v next reservation)
    (fun mc current => e ← vw_Execution current;
       Some (ws_reserve mc k v (Some (vw_Snapshot current)) (ex_Reservation e))) (afterMutation "reserve").
Definition shadow_RecordExecutionResult (c : option err) (k : WorkflowKey) (v : Z) (token : string)
    (result : PersistedExecutionResultV1) : ST shadow VersionedWorkflow :=
  mirrored (ws_record c k v token result)
    (fun mc current => e ← vw_Execution current; r ← ex_Result e; Some (ws_record mc k v token r))
    (afterMutation "record_result").
Definition shadow_FinalizeExecution (c : option err) (k : WorkflowKey) (v : Z) (token : string)
    (next : option WorkflowSnapshot) : ST shadow VersionedWorkflow :=
  mirrored (fs_finalize c k v token next)
    (fun mc current => Some (fs_finalize mc k v token (Some (vw_Snapshot current)))) (afterMutation "finalize").
Definition shadow_DeleteReservedExecution (c : option err) (k : WorkflowKey) (v : Z) (token : string) : ST shadow unit :=
  mirrored (ws_delete_reserved c k v token) (fun mc _ => Some (ws_delete_reserved mc k v token))
    (fun _ => afterDelete "delete_reserved").
Definition shadow_TakeoverExpiredExecution (c : option err) (k : WorkflowKey) (v : Z) (previousToken : string)
    (next : ReservedExecutionV1) : ST shadow VersionedWorkflow :=
  mirrored (ws_takeover c k v previousToken next)
    (fun mc current => e ← vw_Execution current;
       Some (ws_takeover mc k v previousToken (ex_Reservation e))) (afterMutation "takeover").

#[global] Instance shadow_WorkflowStore : WorkflowStore shadow := {
  ws_create_reserved := shadow_CreateReservedExecution;
  ws_reserve := shadow_ReserveExecution;
  ws_record := shadow_RecordExecutionResult;
  ws_delete_reserved := shadow_DeleteReservedExecution;
  ws_takeover := shadow_TakeoverExpiredExecution
}.
#[global] Instance shadow_ConversationStore : ConversationStore shadow := {
  cs_load := shadow_Load;
  cs_create := shadow_Create;
  cs_compare_and_swap := shadow_CompareAndSwap;
  cs_delete_if_version := shadow_DeleteIfVersion
}.
#[global] Instance shadow_FinalizingStore : FinalizingStore shadow := { fs_finalize := shadow_FinalizeExecution }.
End shadow.
