(* ===== verification/JsonLax.v ===== *)
(** * json.Unmarshal without its error

    Much of the attendance code drops the error of json.Unmarshal and goes on
    with what was stored: encoding/json skips a value of the wrong type, keeps
    going, and reports the first such value at the end; only a syntax error
    stores nothing.  A [lax] decoder returns what is stored and whether an
    error is reported. *)
From Stdlib Require Import ZArith Lia Bool String.
From stdpp Require Import base list strings.
From S2P Require Import Prelude GoStrings Json.

Definition lax (A : Type) : Type := json -> A -> A * bool.

(** A number, a string or a bool is stored whole or not at all. *)
Definition lax_of {A} (dec : decoder A) : lax A := fun j cur =>
  match dec j cur with Ok a => (a, false) | Err _ => (cur, true) end.

Fixpoint lax_elems {A} (d : lax A) (zero : A) (l : list json) (cur : list A) : list A * bool :=
  match l with
  | [] => ([], false)
  | j :: l =>
      let '(a, e1) := d j (hd zero cur) in
      let '(rest, e2) := lax_elems d zero l (tl cur) in (a :: rest, e1 || e2)
  end.
Definition lax_list {A} (d : lax A) (zero : A) : lax (list A) := fun j cur =>
  match j with
  | JNull => ([], false)
  | JArr l => lax_elems d zero l cur
  | _ => (cur, true)
  end.

(** The members that name a field, one after the other; unknown keys are
    ignored. *)
Fixpoint lax_field {A} (names : list string) (name : string) (d : lax A) (ms : list (string * json)) (cur : A)
  : A * bool :=
  match ms with
  | [] => (cur, false)
  | (k, j) :: ms =>
      if decide (resolve names k = Some name)
      then let '(cur, e1) := d j cur in let '(cur, e2) := lax_field names name d ms cur in (cur, e1 || e2)
      else lax_field names name d ms cur
  end.

Definition lax_struct {A} (build : list (string * json) -> A -> A * bool) : lax A := fun j cur =>
  match j with
  | JNull => (cur, false)
  | JObj ms => build ms cur
  | _ => (cur, true)
  end.

Definition unmarshal {A} (d : lax A) (zero : A) (s : string) : A * bool :=
  match parse_document (bytes s) with Some j => d j zero | None => (zero, true) end.

(** ** Reading what was printed *)

Lemma unmarshal_marshal {A} (d : lax A) zero j :
  printable 0 j -> unmarshal d zero (marshal j) = d j zero.
Proof.
  intros Hp. pose proof (decode_strict_marshal dec_raw None j Hp) as H.
  unfold decode_strict in H. unfold unmarshal. destruct (parse_document _); [|done].
  by injection H as ->.
Qed.

Lemma lax_of_Ok {A} (dec : decoder A) j cur a : dec j cur = Ok a -> lax_of dec j cur = (a, false).
Proof. intros H. unfold lax_of. by rewrite H. Qed.

Lemma lax_list_map {A} (d : lax A) zero (enc : A -> json) l :
  Forall (fun a => d (enc a) zero = (a, false)) l ->
  lax_list d zero (JArr (List.map enc l)) [] = (l, false).
Proof.
  intros H. cbn [lax_list]. induction H as [|a l Ha Hl IH]; cbn; [done|]. by rewrite Ha, IH.
Qed.

(** Members that are not the field's leave it alone. *)
Lemma lax_field_other {A} names n (d : lax A) ms cur :
  Forall (fun m : string * json => m.1 ∈ names /\ m.1 <> n) ms -> lax_field names n d ms cur = (cur, false).
Proof.
  induction 1 as [|[k j] ms [Hk Hn] _ IH]; [done|]. cbn in *. rewrite resolve_exact by done.
  by rewrite decide_False by congruence.
Qed.

Lemma lax_field_at {A} names n (d : lax A) ms1 j ms2 cur :
  n ∈ names ->
  Forall (fun m : string * json => m.1 ∈ names /\ m.1 <> n) ms1 ->
  Forall (fun m : string * json => m.1 ∈ names /\ m.1 <> n) ms2 ->
  lax_field names n d (ms1 ++ (n, j) :: ms2) cur = d j cur.
Proof.
  intros Hn H1 H2. induction H1 as [|[k j'] ms [Hk Hne] _ IH]; cbn in *.
  - rewrite resolve_exact, decide_True by done. destruct (d j cur) as [a e].
    rewrite lax_field_other by done. by rewrite orb_false_r.
  - rewrite resolve_exact by done. by rewrite decide_False by congruence.
Qed.
