(* ===== verification/Calendar.v ===== *)
(** * Local time, periods and semesters

    pkg/scheduleutil, config.Period, and internal/service/semester_service.go:
    dates and clock times in the server's zone, the slot of a section, the week
    of a date.  An instant is read and built in the local zone through a
    [Location]; all times the services handle are in that zone, since the
    database connection uses loc=Local. *)
From Stdlib Require Import ZArith Lia Bool String.
From stdpp Require Import base list strings.
From S2P Require Import Prelude GoStrings GoTime.
#[local] Open Scope go_scope.

(** ** The local zone

    [local_civil t] is the wall clock at [t], [local_instant c] the instant
    [time.Date] gives the wall clock [c]; both count nanoseconds from the same
    date. *)
Class Location := { local_civil : Z -> Z; local_instant : Z -> Z }.

(** A zone that is always the same offset east of UTC. *)
Class FixedZone `{Location} := {
  zone_offset : Z;
  civil_offset : forall t, local_civil t = t + zone_offset;
  instant_offset : forall c, local_instant c = c - zone_offset
}.

(** [t.Sub(u)] saturates at the range of a Duration. *)
Definition time_sub (t u : Z) : Z := Z.max min_int64 (Z.min max_int64 (t - u)).

(** [time.Duration(n) * time.Minute] *)
Definition minutes (n : Z) : Z := wrap_int64 (n * ns_min).

(** ** Clock times: [time.Parse("15:04", s)] *)
Definition parse_hm_bytes (l : list Z) : option (Z * Z) :=
  '(h, l) ← get_range 0 23 (getnum false l); l ← expect 58 l;
  '(mi, l) ← get_range 0 59 (getnum true l);
  match l with [] => Some (h, mi) | _ => None end.
Definition parse_hm (s : string) : option (Z * Z) := parse_hm_bytes (bytes s).

Record Period := mkPeriod { pd_Name : string; pd_Start : string; pd_End : string }.

Section calendar.
Context `{Location}.

(** The local date of an instant, as a wall clock at midnight. *)
Definition civil_midnight (t : Z) : Z := local_civil t / ns_day * ns_day.

(** [time.Date(t.Year(), t.Month(), t.Day(), h, mi, 0, 0, t.Location())] *)
Definition at_clock (t h mi : Z) : Z := local_instant (civil_midnight t + (h * 60 + mi) * ns_min).
Definition normalizeAttendanceDate (date : Z) : Z := at_clock date 0 0.

(** [time.ParseInLocation("2006-01-02", s, time.Local)] and its inverse *)
Definition parse_local_date (s : string) : option Z := local_instant <$> parse_date s.
Definition format_date (t : Z) : string :=
  let '(y, m, d) := date_of (local_civil t) in
  of_bytes (pad_year y ++ [45] ++ pad2 m ++ [45] ++ pad2 d).

(** [t.AddDate(0, 0, n)] *)
Definition add_days (t n : Z) : Z := local_instant (local_civil t + n * ns_day).

Definition WeekdayMon1Sun7 (date : Z) : Z :=
  let wd := weekday (local_civil date) in if wd =? 0 then 7 else wd.

(** [periods[section-1]] *)
Definition period_at (section : Z) (periods : list Period) : option Period :=
  if section <=? 0 then None else periods !! Z.to_nat (section - 1).

Definition CalculateSlotTime (date section : Z) (periods : list Period) : res (Z * Z) :=
  guard (negb (is_zero date)) (EMsg "日期不能为空") ;;;
  guard (0 <? section) (EMsg "节次无效") ;;;
  match period_at section periods with
  | None => Err (EMsg "节次作息配置缺失")
  | Some period =>
      match parse_hm (pd_Start period) with
      | None => Err (EMsg "节次作息配置开始时间格式错误")
      | Some (h1, m1) =>
          match parse_hm (pd_End period) with
          | None => Err (EMsg "节次作息配置结束时间格式错误")
          | Some (h2, m2) =>
              let slotStart := at_clock date h1 m1 in
              let slotEnd := at_clock date h2 m2 in
              Ok (slotStart, if before slotEnd slotStart then slotEnd + 24 * ns_hour else slotEnd)
          end
      end
  end.

Definition TimeOverlaps (startA endA startB endB : Z) : bool := before startA endB && after endA startB.

Definition minTime (left right : Z) : Z := if before left right then left else right.

(** ** Semesters *)

Record Semester := mkSemester { sem_StartDate : Z; sem_TotalWeeks : Z }.

(** The week and the error, which comes with a week when the date is too late.
    Hours()/24 truncated to an int is the quotient of the duration by a day. *)
Definition CalculateWeekFromDate (semester : option Semester) (date : Z) : Z * option err :=
  match semester with
  | None => (0, Some (EMsg "学期未配置"))
  | Some sem =>
      let startDate := at_clock (sem_StartDate sem) 0 0 in
      let checkDate := at_clock date 0 0 in
      let days := Z.quot (time_sub checkDate startDate) ns_day in
      if days <? 0 then (0, Some (EMsg "日期在学期开始之前"))
      else
        let week := Z.quot days 7 + 1 in
        if sem_TotalWeeks sem <? week then (week, Some (EMsg "日期超出学期范围")) else (week, None)
  end.

Section semesters.
Context {W : Type} (GetActiveSemester : ST W Semester).

Definition GetWeekDateRange (week : Z) : ST W (Z * Z) :=
  semester <~ GetActiveSemester ;;
  let semStart := at_clock (sem_StartDate semester) 0 0 in
  let weekStart := add_days semStart ((week - 1) * 7) in
  st_ret (weekStart, add_days weekStart 7).

Definition ValidateWeekDate (date week : Z) : ST W unit := fun w =>
  match GetActiveSemester w with
  | (Err e, w) => if errors_Is e "gorm.ErrRecordNotFound" then (Ok tt, w) else (Err e, w)
  | (Ok semester, w) =>
      match CalculateWeekFromDate (Some semester) date with
      | (_, Some _) => (Ok tt, w)
      | (derivedWeek, None) =>
          if derivedWeek =? week then (Ok tt, w) else (Err (EMsg "周数与日期不一致"), w)
      end
  end.

Definition IsMonday (date : Z) : bool := weekday (local_civil date) =? 1.

(** The week is returned with the error. *)
Definition GetCurrentWeek (now : Z) : W -> (Z * option err) * W := fun w =>
  match GetActiveSemester w with
  | (Err e, w) => ((0, Some e), w)
  | (Ok semester, w) => (CalculateWeekFromDate (Some semester) now, w)
  end.
End semesters.
End calendar.

(** ** Properties *)

Section fixed_zone.
Context `{FZ : FixedZone}.

Lemma civil_instant c : local_civil (local_instant c) = c.
Proof. rewrite civil_offset, instant_offset. lia. Qed.

Lemma civil_midnight_instant d n : 0 <= n < ns_day -> civil_midnight (local_instant (d * ns_day + n)) = d * ns_day.
Proof.
  intros Hn. unfold civil_midnight. rewrite civil_instant. f_equal.
  rewrite Z.div_add_l by done. rewrite (Z.div_small n) by done. lia.
Qed.

Lemma civil_midnight_clock t : civil_midnight (at_clock t 0 0) = civil_midnight t.
Proof.
  unfold at_clock, civil_midnight at 2. rewrite civil_midnight_instant; [done|].
  by unfold ns_min, ns_day, ns_sec.
Qed.

Lemma clock_midnight t : at_clock t 0 0 = civil_midnight t - zone_offset.
Proof. unfold at_clock. rewrite instant_offset. lia. Qed.

Lemma day_of_instant t : civil_midnight t <= t + zone_offset < civil_midnight t + ns_day.
Proof.
  unfold civil_midnight. rewrite civil_offset.
  pose proof (Z.mod_pos_bound (t + zone_offset) ns_day ltac:(done)).
  pose proof (Z.div_mod (t + zone_offset) ns_day ltac:(done)). lia.
Qed.

Lemma slot_of_day date h mi : 0 <= h < 24 -> 0 <= mi < 60 ->
  civil_midnight date <= local_civil (at_clock date h mi) < civil_midnight date + ns_day.
Proof.
  intros. unfold at_clock. rewrite civil_instant. unfold ns_min, ns_day, ns_sec. lia.
Qed.

(** The start and the end of a week, for a semester that is there. *)
Lemma week_range {W} sem week (w : W) :
  GetWeekDateRange (st_ret sem) week w
  = (Ok (civil_midnight (sem_StartDate sem) + (week - 1) * 7 * ns_day - zone_offset,
         civil_midnight (sem_StartDate sem) + week * 7 * ns_day - zone_offset), w).
Proof.
  unfold GetWeekDateRange, st_bind, st_ret, add_days. rewrite clock_midnight, !civil_offset, !instant_offset.
  cbn zeta. do 3 f_equal; lia.
Qed.

(** Both dates are within the range of a Duration. *)
Definition near (sem : Semester) (date : Z) : Prop :=
  Z.abs (civil_midnight date - civil_midnight (sem_StartDate sem)) <= max_int64.

Lemma week_of_days sem date :
  near sem date ->
  let days := (civil_midnight date - civil_midnight (sem_StartDate sem)) / ns_day in
  CalculateWeekFromDate (Some sem) date
  = if days <? 0 then (0, Some (EMsg "日期在学期开始之前"))
    else if sem_TotalWeeks sem <? days / 7 + 1 then (days / 7 + 1, Some (EMsg "日期超出学期范围"))
    else (days / 7 + 1, None).
Proof.
  intros Hn days. unfold CalculateWeekFromDate. rewrite !clock_midnight.
  replace (time_sub _ _) with (civil_midnight date - civil_midnight (sem_StartDate sem))
    by (unfold near, time_sub in *; change min_int64 with (- max_int64 - 1); lia).
  assert (E : civil_midnight date - civil_midnight (sem_StartDate sem) = days * ns_day).
  { unfold days, civil_midnight. rewrite <- Z.mul_sub_distr_r, Z.div_mul by done. done. }
  rewrite E, Z.quot_mul by done. destruct (Z.ltb_spec days 0); [done|].
  by rewrite Z.quot_div_nonneg by lia.
Qed.

(** The week of a date and the dates of a week are inverse: a date is in
    week [week] of the semester exactly when the week is one of the semester's
    and the date lies in that week's range. *)
Theorem week_of_date_iff_range {W} sem date week (w : W) :
  near sem date ->
  CalculateWeekFromDate (Some sem) date = (week, None)
  <-> 1 <= week <= sem_TotalWeeks sem
      /\ exists a b, GetWeekDateRange (st_ret sem) week w = (Ok (a, b), w) /\ a <= date < b.
Proof.
  intros Hn. rewrite week_of_days by done. rewrite week_range.
  pose proof (day_of_instant date) as Hd.
  set (days := (civil_midnight date - civil_midnight (sem_StartDate sem)) / ns_day).
  assert (E : civil_midnight date = civil_midnight (sem_StartDate sem) + days * ns_day).
  { unfold days, civil_midnight. rewrite <- Z.mul_sub_distr_r, Z.div_mul by done. lia. }
  assert (Hr : forall n, (exists a b, (Ok (civil_midnight (sem_StartDate sem) + (n - 1) * 7 * ns_day - zone_offset,
         civil_midnight (sem_StartDate sem) + n * 7 * ns_day - zone_offset), w) = (Ok (a, b), w) /\ a <= date < b)
     <-> (n - 1) * 7 <= days < n * 7).
  { intros n. unfold ns_day, ns_sec in *. split; [intros (a & b & [= <- <-] & H'); lia|].
    intros H'. eexists _, _. split; [done|]. lia. }
  rewrite Hr. destruct (Z.ltb_spec days 0); [split; [done|lia]|].
  pose proof (Z.div_mod days 7 ltac:(lia)). pose proof (Z.mod_pos_bound days 7 ltac:(lia)).
  destruct (Z.ltb_spec (sem_TotalWeeks sem) (days / 7 + 1)); (split; [intros [= <-]; lia|intros; try lia]).
  f_equal. lia.
Qed.
End fixed_zone.

(** China Standard Time *)
Definition shanghai : Location := {| local_civil t := t + 8 * ns_hour; local_instant c := c - 8 * ns_hour |}.
#[export] Instance shanghai_fixed : @FixedZone shanghai.
Proof. exists (8 * ns_hour); intros; reflexivity. Defined.

Definition semester_2026 : Semester := mkSemester (local_instant (Location := shanghai) (instant 2026 3 2 0 0 0 0)) 20.

Lemma week_of_date_iff_range_witness :
  exists a b, GetWeekDateRange (H := shanghai) (st_ret semester_2026) 3 tt = (Ok (a, b), tt)
    /\ a <= instant 2026 3 18 1 30 0 0 < b.
Proof.
  assert (Hn : near (H := shanghai) semester_2026 (instant 2026 3 18 1 30 0 0))
    by (apply Z.leb_le; vm_compute; reflexivity).
  assert (E : CalculateWeekFromDate (H := shanghai) (Some semester_2026) (instant 2026 3 18 1 30 0 0) = (3, None))
    by (vm_compute; reflexivity).
  pose proof (week_of_date_iff_range (FZ := shanghai_fixed) semester_2026 _ 3 tt Hn) as [H _].
  exact (proj2 (H E)).
Defined.
