(* ===== verification/Settings.v ===== *)
(** * Schedule settings

    internal/service/schedule_period_service.go with the repositories it uses
    (internal/repository/schedule_setting_repository.go and
    schedule_period_repository.go): which mode, season and periods are in
    force, the switches between them, and the attendance switches.  The rows
    are those of the context's tenant, as the tenant plugin selects them. *)
From Stdlib Require Import ZArith Lia Bool String.
From stdpp Require Import base list strings.
From S2P Require Import Prelude GoStrings GoTime Contract Calendar.
#[local] Open Scope go_scope.

(** [response.NewBizError] and its shorthands (internal/response). *)
Definition BizError (code : Z) (msg : string) : err := EFmt msg [itoa code].
Definition CodeUnauthorized : Z := 10000.
Definition CodeInvalidParam : Z := 20001.
Definition CodeNotFound : Z := 30001.
Definition CodeOperationFailed : Z := 30003.
Definition CodeInternalError : Z := 40001.
Definition ErrInvalidParamWithMsg (msg : string) : err := BizError CodeInvalidParam msg.
Definition ErrNotFoundWithMsg (msg : string) : err := BizError CodeNotFound msg.

Definition ScheduleModeSchool : string := "school".
Definition ScheduleModeHoliday : string := "holiday".
Definition SchoolSeasonSummer : string := "summer".
Definition SchoolSeasonWinter : string := "winter".
Definition SchedulePeriodModeSchoolSummer : string := "school_summer".
Definition SchedulePeriodModeSchoolWinter : string := "school_winter".
Definition SchedulePeriodModeHoliday : string := "holiday".

Record SchedulePeriod := mkSchedulePeriod {
  sp_Mode : string; sp_Name : string; sp_StartTime : string; sp_EndTime : string;
  sp_SortOrder : Z; sp_IsActive : bool; sp_ID : Z }.

Record ScheduleSetting := mkSetting {
  ss_CurrentMode : string; ss_SchoolSeason : string; ss_AttendanceEnabled : bool;
  ss_ScheduleChangeNotifyEnabled : bool; ss_LateNotifyEnabled : bool;
  ss_RestDayEditingAllowed : bool; ss_RestDayAttendanceEnabled : bool }.
Definition zero_setting : ScheduleSetting := mkSetting "" "" false false false false false.

(** The statements on the tenant's rows: the first setting row, an update of
    all of them, and the periods a predicate selects by sort order. *)
Class SettingsDatabase (W : Type) := {
  sdb_First : ST W ScheduleSetting;
  sdb_Update : (ScheduleSetting -> ScheduleSetting) -> ST W unit;
  sdb_Periods : (SchedulePeriod -> bool) -> ST W (list SchedulePeriod)
}.

Section settings.
Context {W : Type} `{DB : SettingsDatabase W}.

(** ** The setting row *)

(** The pointer is never nil: on an error it points to a zero row. *)
Definition GetByTenantID : W -> (ScheduleSetting * option err) * W := fun w =>
  match sdb_First w with
  | (Ok s, w) => ((s, None), w)
  | (Err e, w) => ((zero_setting, Some e), w)
  end.

Definition repo_SwitchMode (mode : string) : ST W unit :=
  sdb_Update (fun s => mkSetting mode (ss_SchoolSeason s) (ss_AttendanceEnabled s)
    (ss_ScheduleChangeNotifyEnabled s) (ss_LateNotifyEnabled s) (ss_RestDayEditingAllowed s)
    (ss_RestDayAttendanceEnabled s)).
Definition repo_SwitchSeason (season : string) : ST W unit :=
  sdb_Update (fun s => mkSetting (ss_CurrentMode s) season (ss_AttendanceEnabled s)
    (ss_ScheduleChangeNotifyEnabled s) (ss_LateNotifyEnabled s) (ss_RestDayEditingAllowed s)
    (ss_RestDayAttendanceEnabled s)).
Definition SetAttendanceEnabled (enabled : bool) : ST W unit :=
  sdb_Update (fun s => mkSetting (ss_CurrentMode s) (ss_SchoolSeason s) enabled
    (ss_ScheduleChangeNotifyEnabled s) (ss_LateNotifyEnabled s) (ss_RestDayEditingAllowed s)
    (ss_RestDayAttendanceEnabled s)).
Definition SetScheduleChangeNotifyEnabled (enabled : bool) : ST W unit :=
  sdb_Update (fun s => mkSetting (ss_CurrentMode s) (ss_SchoolSeason s) (ss_AttendanceEnabled s)
    enabled (ss_LateNotifyEnabled s) (ss_RestDayEditingAllowed s) (ss_RestDayAttendanceEnabled s)).
Definition SetLateNotifyEnabled (enabled : bool) : ST W unit :=
  sdb_Update (fun s => mkSetting (ss_CurrentMode s) (ss_SchoolSeason s) (ss_AttendanceEnabled s)
    (ss_ScheduleChangeNotifyEnabled s) enabled (ss_RestDayEditingAllowed s) (ss_RestDayAttendanceEnabled s)).
Definition SetRestDayEditingAllowed (allowed : bool) : ST W unit :=
  sdb_Update (fun s => mkSetting (ss_CurrentMode s) (ss_SchoolSeason s) (ss_AttendanceEnabled s)
    (ss_ScheduleChangeNotifyEnabled s) (ss_LateNotifyEnabled s) allowed (ss_RestDayAttendanceEnabled s)).
Definition SetRestDayAttendanceEnabled (enabled : bool) : ST W unit :=
  sdb_Update (fun s => mkSetting (ss_CurrentMode s) (ss_SchoolSeason s) (ss_AttendanceEnabled s)
    (ss_ScheduleChangeNotifyEnabled s) (ss_LateNotifyEnabled s) (ss_RestDayEditingAllowed s) enabled).

(** A switch is read as on when the row cannot be read, with the error. *)
Definition setting_flag (flag : ScheduleSetting -> bool) : W -> (bool * option err) * W := fun w =>
  let '((s, e), w) := GetByTenantID w in
  match e with Some e => ((true, Some e), w) | None => ((flag s, None), w) end.
Definition IsAttendanceEnabled := setting_flag ss_AttendanceEnabled.
Definition IsScheduleChangeNotifyEnabled := setting_flag ss_ScheduleChangeNotifyEnabled.
Definition IsLateNotifyEnabled := setting_flag ss_LateNotifyEnabled.
Definition IsRestDayEditingAllowed := setting_flag ss_RestDayEditingAllowed.
Definition IsRestDayAttendanceEnabled := setting_flag ss_RestDayAttendanceEnabled.

(** ** Periods *)

Definition ListActiveByMode (mode : string) : ST W (list SchedulePeriod) :=
  sdb_Periods (fun p => eqs (sp_Mode p) mode && sp_IsActive p).
Definition ListAllByMode (mode : string) : ST W (list SchedulePeriod) :=
  sdb_Periods (fun p => eqs (sp_Mode p) mode).

Definition resolvePeriodMode (setting : ScheduleSetting) : string :=
  if eqs (ss_CurrentMode setting) ScheduleModeHoliday then SchedulePeriodModeHoliday
  else if eqs (ss_SchoolSeason setting) SchoolSeasonSummer then SchedulePeriodModeSchoolSummer
  else SchedulePeriodModeSchoolWinter.

Definition ListActive : ST W (list SchedulePeriod) := fun w =>
  let '((setting, e), w) := GetByTenantID w in
  match e with
  | Some _ => ListActiveByMode SchedulePeriodModeSchoolWinter w
  | None => ListActiveByMode (resolvePeriodMode setting) w
  end.

(** ** The service *)

Context (fallbackConfig : option (list Period)).

Definition trimTimeSeconds (timeStr : string) : string :=
  if 5 <=? str_len timeStr then of_bytes (take 5 (bytes timeStr)) else timeStr.
Definition period_of_row (p : SchedulePeriod) : Period :=
  mkPeriod (sp_Name p) (trimTimeSeconds (sp_StartTime p)) (trimTimeSeconds (sp_EndTime p)).

Definition GetCurrentMode : W -> string * W := fun w =>
  let '((setting, e), w) := GetByTenantID w in
  (match e with Some _ => ScheduleModeSchool | None => ss_CurrentMode setting end, w).

Definition GetCurrentSeason : W -> string * W := fun w =>
  let '((setting, e), w) := GetByTenantID w in
  (match e with
   | Some _ => SchoolSeasonWinter
   | None => if eqs (ss_SchoolSeason setting) "" then SchoolSeasonWinter else ss_SchoolSeason setting
   end, w).

Definition seasonToPeriodMode (season : string) : string :=
  if eqs season SchoolSeasonSummer then SchedulePeriodModeSchoolSummer else SchedulePeriodModeSchoolWinter.

Definition resolveSchoolPeriodMode (mode : string) : W -> string * W := fun w =>
  if eqs mode ScheduleModeHoliday then (SchedulePeriodModeHoliday, w)
  else let '(season, w) := GetCurrentSeason w in (seasonToPeriodMode season, w).

Definition GetActivePeriods : ST W (list Period) := fun w =>
  let '(currentMode, w) := GetCurrentMode w in
  let '(periodMode, w) := resolveSchoolPeriodMode currentMode w in
  match ListActiveByMode periodMode w with
  | (Err e, w) => (Err e, w)
  | (Ok [], w) => (Ok (default [] fallbackConfig), w)
  | (Ok dbPeriods, w) => (Ok (List.map period_of_row dbPeriods), w)
  end.

Definition GetPeriodsByMode (mode : string) : ST W (list Period) :=
  if negb (eqs mode SchedulePeriodModeSchoolSummer) && negb (eqs mode SchedulePeriodModeSchoolWinter)
     && negb (eqs mode SchedulePeriodModeHoliday)
  then st_fail (ErrInvalidParamWithMsg "无效的作息模式")
  else dbPeriods <~ ListActiveByMode mode ;; st_ret (List.map period_of_row dbPeriods).

Definition SwitchMode (mode : string) : ST W unit := fun w =>
  if negb (eqs mode ScheduleModeSchool) && negb (eqs mode ScheduleModeHoliday)
  then (Err (ErrInvalidParamWithMsg "无效的作息模式，可选值: school, holiday"), w)
  else
    let '(periodMode, w) := resolveSchoolPeriodMode mode w in
    match ListActiveByMode periodMode w with
    | (Err e, w) => (Err e, w)
    | (Ok [], w) => (Err (ErrInvalidParamWithMsg "目标模式暂无作息配置，请先添加配置"), w)
    | (Ok _, w) => repo_SwitchMode mode w
    end.

Definition SwitchSeason (season : string) : ST W unit := fun w =>
  if negb (eqs season SchoolSeasonSummer) && negb (eqs season SchoolSeasonWinter)
  then (Err (ErrInvalidParamWithMsg "无效的季节，可选值: summer, winter"), w)
  else
    match ListActiveByMode (seasonToPeriodMode season) w with
    | (Err e, w) => (Err e, w)
    | (Ok [], w) => (Err (ErrInvalidParamWithMsg "目标季节暂无作息配置，请先添加配置"), w)
    | (Ok _, w) => repo_SwitchSeason season w
    end.

Record ScheduleInfo := mkInfo {
  si_CurrentMode : string; si_SchoolSeason : string; si_AttendanceEnabled : bool;
  si_RestDayEditingAllowed : bool; si_RestDayAttendanceEnabled : bool;
  si_ActivePeriods : list Period; si_SchoolSummerPeriods : list Period;
  si_SchoolWinterPeriods : list Period; si_HolidayPeriods : list Period }.

(** The value of a result whose error is dropped. *)
Definition ok_or_nil {A} (r : res (list A)) : list A := match r with Ok l => l | Err _ => [] end.

(** The test [setting != nil] always holds. *)
Definition GetScheduleInfo : W -> ScheduleInfo * W := fun w =>
  let '((setting, _), w) := GetByTenantID w in
  let currentSeason := if eqs (ss_SchoolSeason setting) "" then SchoolSeasonWinter else ss_SchoolSeason setting in
  let '(summer, w) := GetPeriodsByMode SchedulePeriodModeSchoolSummer w in
  let '(winter, w) := GetPeriodsByMode SchedulePeriodModeSchoolWinter w in
  let '(holiday, w) := GetPeriodsByMode SchedulePeriodModeHoliday w in
  let '(active, w) := GetActivePeriods w in
  (mkInfo (ss_CurrentMode setting) currentSeason (ss_AttendanceEnabled setting)
     (ss_RestDayEditingAllowed setting) (ss_RestDayAttendanceEnabled setting)
     (ok_or_nil active) (ok_or_nil summer) (ok_or_nil winter) (ok_or_nil holiday), w).

(** ** Properties *)

(** A database whose statements succeed: [row] and [periods] are its contents. *)
Class SettingsLaws (row : W -> option ScheduleSetting) (periods : W -> list SchedulePeriod) := {
  first_reads w : sdb_First w = (match row w with Some s => Ok s | None => Err (ESentinel "gorm.ErrRecordNotFound") end, w);
  update_writes f w : exists w', sdb_Update f w = (Ok tt, w') /\ row w' = f <$> row w /\ periods w' = periods w;
  periods_read p w : exists l, sdb_Periods p w = (Ok l, w) /\ l ≡ₚ List.filter p (periods w)
}.

Section laws.
Context (row : W -> option ScheduleSetting) (periods : W -> list SchedulePeriod) {L : SettingsLaws row periods}.

Lemma season_mode s :
  seasonToPeriodMode (if eqs (ss_SchoolSeason s) "" then SchoolSeasonWinter else ss_SchoolSeason s)
  = seasonToPeriodMode (ss_SchoolSeason s).
Proof. destruct (eqs (ss_SchoolSeason s) "") eqn:E; [|done]. by apply eqs_true in E as ->. Qed.

(** The mode in force, from the row. *)
Lemma mode_in_force w s :
  row w = Some s ->
  resolveSchoolPeriodMode (GetCurrentMode w).1 w = (resolvePeriodMode s, w) /\ (GetCurrentMode w).2 = w.
Proof.
  intros Hr. unfold GetCurrentMode, GetByTenantID. rewrite first_reads, Hr. cbn. split; [|done].
  unfold resolveSchoolPeriodMode, resolvePeriodMode. destruct (eqs (ss_CurrentMode s) _); [done|].
  unfold GetCurrentSeason, GetByTenantID. rewrite first_reads, Hr. by rewrite season_mode.
Qed.

Lemma active_periods w s l :
  row w = Some s -> ListActiveByMode (resolvePeriodMode s) w = (Ok l, w) -> l <> [] ->
  GetActivePeriods w = (Ok (List.map period_of_row l), w).
Proof.
  intros Hr Hl Hne. destruct (mode_in_force w s Hr) as [H1 H2]. unfold GetActivePeriods.
  destruct (GetCurrentMode w) as [mode w1]. cbn in *. subst w1. rewrite H1, Hl. by destruct l.
Qed.

Lemma list_active w mode :
  exists l, ListActiveByMode mode w = (Ok l, w)
    /\ l ≡ₚ List.filter (fun p => eqs (sp_Mode p) mode && sp_IsActive p) (periods w).
Proof. apply periods_read. Qed.

(** Which periods rows are in force for a setting. *)
Definition in_force (s : ScheduleSetting) (p : SchedulePeriod) : bool :=
  eqs (sp_Mode p) (resolvePeriodMode s) && sp_IsActive p.

Lemma resolve_target w s mode :
  row w = Some s ->
  resolveSchoolPeriodMode mode w
  = (resolvePeriodMode (mkSetting mode (ss_SchoolSeason s) (ss_AttendanceEnabled s)
      (ss_ScheduleChangeNotifyEnabled s) (ss_LateNotifyEnabled s) (ss_RestDayEditingAllowed s)
      (ss_RestDayAttendanceEnabled s)), w).
Proof.
  intros Hr. unfold resolveSchoolPeriodMode, resolvePeriodMode. cbn. destruct (eqs mode _); [done|].
  unfold GetCurrentSeason, GetByTenantID. rewrite first_reads, Hr. by rewrite season_mode.
Qed.

(** A setting with an active period for its mode and season is followed. *)
Lemma follows_setting w s p :
  row w = Some s -> p ∈ periods w -> in_force s p = true ->
  exists l, GetActivePeriods w = (Ok (List.map period_of_row l), w)
    /\ l ≡ₚ List.filter (in_force s) (periods w).
Proof.
  intros Hr Hp Hf. destruct (list_active w (resolvePeriodMode s)) as (l & Hl & Hperm).
  exists l. split; [|exact Hperm]. apply (active_periods w s); [done..|]. intros ->.
  assert (p ∈ @nil SchedulePeriod) as H; [|by apply elem_of_nil in H].
  rewrite Hperm. apply list_elem_of_In, filter_In. split; [by apply list_elem_of_In|exact Hf].
Qed.

(** A query that found rows found one that is there. *)
Lemma active_row w mode l :
  ListActiveByMode mode w = (Ok l, w) -> l <> [] ->
  exists p, p ∈ periods w /\ eqs (sp_Mode p) mode && sp_IsActive p = true.
Proof.
  intros Hl Hne. destruct (list_active w mode) as (l' & Hl' & Hperm). rewrite Hl' in Hl. injection Hl as ->.
  destruct l as [|p l]; [done|]. exists p.
  assert (p ∈ p :: l) as Hp by (by left). rewrite Hperm in Hp.
  apply list_elem_of_In, filter_In in Hp as [Hp Hf]. by rewrite list_elem_of_In.
Qed.

(** What a successful switch does to the rows. *)
Lemma switched w s w' (mode season : string) (to_mode : bool) :
  row w = Some s ->
  (if to_mode then SwitchMode mode w else SwitchSeason season w) = (Ok tt, w') ->
  (to_mode = false -> ss_CurrentMode s <> ScheduleModeHoliday) ->
  let s' := mkSetting (if to_mode then mode else ss_CurrentMode s)
               (if to_mode then ss_SchoolSeason s else season) (ss_AttendanceEnabled s)
               (ss_ScheduleChangeNotifyEnabled s) (ss_LateNotifyEnabled s) (ss_RestDayEditingAllowed s)
               (ss_RestDayAttendanceEnabled s) in
  row w' = Some s' /\ periods w' = periods w /\ exists p, p ∈ periods w /\ in_force s' p = true.
Proof.
  intros Hr H Hholiday s'.
  assert (Hw : forall f, sdb_Update f w = (Ok tt, w') -> row w' = Some (f s) /\ periods w' = periods w).
  { intros f E. destruct (update_writes f w) as (w1 & E1 & H1 & H2). rewrite E1 in E. injection E as <-.
    by rewrite H1, Hr. }
  destruct to_mode.
  - unfold SwitchMode in H. case_if_in H; [done|]. rewrite (resolve_target w s mode Hr) in H.
    fold s' in H. destruct (list_active w (resolvePeriodMode s')) as (l & Hl & _). rewrite Hl in H.
    destruct l as [|p l]; [done|]. apply Hw in H as [H1 H2]. split; [exact H1|split; [exact H2|]].
    by apply (active_row w _ (p :: l)).
  - unfold SwitchSeason in H. case_if_in H; [done|].
    destruct (list_active w (seasonToPeriodMode season)) as (l & Hl & _). rewrite Hl in H.
    destruct l as [|p l]; [done|]. apply Hw in H as [H1 H2]. split; [exact H1|split; [exact H2|]].
    unfold in_force, resolvePeriodMode. cbn.
    destruct (eqs (ss_CurrentMode s) ScheduleModeHoliday) eqn:Eh; [|by apply (active_row w _ (p :: l))].
    apply eqs_true in Eh. by destruct (Hholiday eq_refl).
Qed.

(** A switch of mode or season that succeeds takes effect and cannot leave
    the tenant without a timetable: afterwards the active periods are the
    active rows of the new mode and season, and there is at least one; nothing
    else of the setting changes. *)
Theorem switch_takes_effect w s w' (mode season : string) (to_mode : bool) :
  row w = Some s ->
  (if to_mode then SwitchMode mode w else SwitchSeason season w) = (Ok tt, w') ->
  (to_mode = false -> ss_CurrentMode s <> ScheduleModeHoliday) ->
  exists s' l, row w' = Some s'
    /\ s' = mkSetting (if to_mode then mode else ss_CurrentMode s)
               (if to_mode then ss_SchoolSeason s else season) (ss_AttendanceEnabled s)
               (ss_ScheduleChangeNotifyEnabled s) (ss_LateNotifyEnabled s) (ss_RestDayEditingAllowed s)
               (ss_RestDayAttendanceEnabled s)
    /\ GetActivePeriods w' = (Ok (List.map period_of_row l), w')
    /\ l ≡ₚ List.filter (in_force s') (periods w) /\ l <> [].
Proof.
  intros Hr H Hholiday. destruct (switched w s w' mode season to_mode Hr H Hholiday) as (Hr' & Hper & p & Hp & Hf).
  pose proof Hp as Hp'. rewrite <- Hper in Hp'. destruct (follows_setting w' _ p Hr' Hp' Hf) as (l & Hl & Hperm).
  rewrite Hper in Hperm. eexists _, l. split_and!; try done. intros ->.
  assert (p ∈ @nil SchedulePeriod) as H'; [|by apply elem_of_nil in H'].
  rewrite Hperm, list_elem_of_In, filter_In, <- list_elem_of_In. done.
Qed.

(** For a tenant without a setting row the services run on the defaults
    (school mode, attendance and rest days on), but the settings page is told
    the zero values: no mode and every switch off. *)
Theorem schedule_info_unset w :
  row w = None ->
  let info := (GetScheduleInfo w).1 in
  ((GetCurrentMode w).1 = ScheduleModeSchool /\ si_CurrentMode info = "")
  /\ ((IsAttendanceEnabled w).1.1 = true /\ si_AttendanceEnabled info = false)
  /\ ((IsRestDayEditingAllowed w).1.1 = true /\ si_RestDayEditingAllowed info = false)
  /\ ((IsRestDayAttendanceEnabled w).1.1 = true /\ si_RestDayAttendanceEnabled info = false)
  /\ si_SchoolSeason info = SchoolSeasonWinter.
Proof.
  intros Hr.
  assert (E : GetByTenantID w = ((zero_setting, Some (ESentinel "gorm.ErrRecordNotFound")), w))
    by (unfold GetByTenantID; by rewrite first_reads, Hr).
  unfold GetScheduleInfo, GetCurrentMode, IsAttendanceEnabled, IsRestDayEditingAllowed,
    IsRestDayAttendanceEnabled, setting_flag. rewrite E. cbn.
  repeat match goal with |- context [let '(_, _) := ?x in _] => destruct x end. cbn. done.
Qed.
End laws.
End settings.

(** ** A concrete database, and witnesses *)

Record settings_rows := mkSettingsRows { sr_row : option ScheduleSetting; sr_periods : list SchedulePeriod }.

#[export] Instance rows_database : SettingsDatabase settings_rows :=
  { sdb_First w := (match sr_row w with Some s => Ok s | None => Err (ESentinel "gorm.ErrRecordNotFound") end, w);
    sdb_Update f w := (Ok tt, mkSettingsRows (f <$> sr_row w) (sr_periods w));
    sdb_Periods p w := (Ok (List.filter p (sr_periods w)), w) }.
#[export] Instance rows_laws : SettingsLaws sr_row sr_periods.
Proof. split; [done|by eexists|]. intros p w. eexists. by split. Qed.

Definition rows7 : settings_rows :=
  mkSettingsRows (Some (mkSetting "school" "winter" true true true true true))
    [mkSchedulePeriod "school_winter" "one" "08:00:00" "09:40:00" 1 true 1;
     mkSchedulePeriod "holiday" "morning" "09:00:00" "12:00:00" 1 true 2;
     mkSchedulePeriod "holiday" "old" "09:00:00" "11:00:00" 2 false 3].

Lemma switch_takes_effect_witness :
  exists w' l, SwitchMode "holiday" rows7 = (Ok tt, w') /\ GetActivePeriods None w' = (Ok l, w') /\ l <> [].
Proof.
  destruct (SwitchMode "holiday" rows7) as [r w'] eqn:E.
  assert (r = Ok tt) as -> by (vm_compute in E; congruence).
  destruct (switch_takes_effect None sr_row sr_periods rows7 _ w' "holiday" "" true eq_refl E ltac:(done))
    as (s' & l & _ & _ & Hl & _ & Hne).
  exists w', (List.map period_of_row l). split; [done|]. split; [exact Hl|]. by destruct l.
Defined.

Lemma schedule_info_unset_witness :
  si_CurrentMode (GetScheduleInfo None (mkSettingsRows None [])).1 = "".
Proof. apply (schedule_info_unset None sr_row sr_periods (mkSettingsRows None []) eq_refl). Defined.
