(* ===== verification/Attendance.v ===== *)
(** * Attendance records

    internal/service/attendance_record_service.go with the response types of
    internal/dto/attendance_record.go: who has to attend a section of a day, who
    did, how the result is stored, read back and corrected by hand.  The
    repositories and the DingTalk client are ports over a world [W]; a nil
    port is [None].  The statistics over many
    records and the rankings are in [Analytics]. *)
From Stdlib Require Import ZArith Lia Bool String.
From stdpp Require Import base list strings gmap.
From S2P Require Import Prelude GoStrings GoTime Json JsonLax Contract ScheduleParse Calendar Settings.
#[local] Open Scope go_scope.

(** ** Data (internal/model, internal/dto, pkg/dingtalk) *)

Record User := mkUser {
  us_ID : Z; us_TenantID : Z; us_DingUserID : string; us_Name : string; us_Avatar : string;
  us_Phone : string }.
Record Course := mkCourse { co_UserID : Z; co_DayOfWeek : Z; co_Section : Z; co_WeekList : string }.
Record LeaveApproval := mkLeaveApproval {
  la_UserID : Z; la_UserName : string; la_LeaveType : string; la_Reason : string; la_StartAt : Z; la_EndAt : Z;
  la_ApproveStatus : string; la_Result : string }.
(** A rest day that is set; the repository selects no others. *)
Record UserRestDay := mkRestDay { rd_UserID : Z; rd_DayOfWeek : Z }.
Record CheckRecord := mkCheckRecord { ck_DingUserID : string; ck_CheckTime : Z; ck_CheckType : string }.

Record AttendanceUserBasic := mkBasic {
  ab_ID : Z; ab_Name : string; ab_Avatar : string; ab_DeptName : string }.
Record AttendanceUserCheck := mkCheck {
  ak_ID : Z; ak_Name : string; ak_Avatar : string; ak_DeptName : string; ak_CheckTime : Z }.
Record AttendanceUserLeave := mkLeave {
  al_ID : Z; al_Name : string; al_Avatar : string; al_DeptName : string; al_LeaveType : string;
  al_Reason : string }.

Record AttendanceStatistics := mkStatistics {
  as_ShouldAttend : Z; as_OnTime : Z; as_Late : Z; as_Leave : Z; as_NotArrived : Z; as_RestDay : Z;
  as_HasCourse : Z }.
Record AttendanceUserLists := mkLists {
  li_ShouldAttend : list AttendanceUserBasic; li_OnTime : list AttendanceUserCheck;
  li_Late : list AttendanceUserCheck; li_Leave : list AttendanceUserLeave;
  li_NotArrived : list AttendanceUserBasic; li_RestDay : list AttendanceUserBasic;
  li_HasCourse : list AttendanceUserBasic }.
Record AttendanceDetailResponse := mkDetail {
  dr_RecordID : Z; dr_Date : string; dr_Week : Z; dr_Section : Z; dr_ViewMode : string;
  dr_IsFinalized : bool; dr_FinalizeAt : Z; dr_SlotTime : string * string;
  dr_Statistics : AttendanceStatistics; dr_Users : AttendanceUserLists }.

Record AttendanceRecord := mkAttendanceRecord {
  ar_ID : Z; ar_TenantID : Z; ar_Date : Z; ar_Week : Z; ar_Section : Z; ar_OnTimeIDs : string;
  ar_LateIDs : string; ar_LeaveIDs : string; ar_NotArrivedIDs : string; ar_RestDayIDs : string;
  ar_HasCourseIDs : string }.
Record AttendanceManualOverride := mkOverride {
  mo_TenantID : Z; mo_Date : Z; mo_Week : Z; mo_Section : Z; mo_UserID : Z; mo_OverrideType : string;
  mo_OperatorID : Z; mo_AppliedAt : Z }.
Record StoredUserCheck := mkStoredCheck { sc_ID : Z; sc_CheckTime : Z }.
Record StoredUserLeave := mkStoredLeave { sl_ID : Z; sl_LeaveType : string; sl_Reason : string }.

Record AttendanceDetailRequest := mkDetailRequest {
  dq_Date : string; dq_Week : Z; dq_Section : Z; dq_DeptIDs : list Z }.
Record SignForUserRequest := mkSignRequest {
  sr_RecordID : Z; sr_Date : string; sr_Section : Z; sr_OperatorID : Z; sr_TargetUserIDs : list Z }.
Record SignForUserResponse := mkSignResponse { sr_SuccessIDs : list Z; sr_FailedIDs : list Z }.

Record attendanceWindow := mkWindow {
  aw_date : Z; aw_periods : list Period; aw_slotStart : Z; aw_slotEnd : Z; aw_lateDeadline : Z;
  aw_finalizeAt : Z }.
Record attendanceSignSlot := mkSlot {
  as_date : Z; as_week : Z; as_section : Z; as_record : option AttendanceRecord }.

Definition attendanceOverrideTypeForceOnTime : string := "force_on_time".

(** [t.Unix()] and [time.Unix(sec, 0)], with the int64 seconds they compute in. *)
Definition unix_seconds (t : Z) : Z := wrap_int64 (t / ns_sec - 62135596800).
Definition unix_time (sec : Z) : Z := wrap_int64 (sec + 62135596800) * ns_sec.

(** Go leaves the order of a map loop open: [range] is some enumeration. *)
Class MapOrder := {
  range : forall A, gmap string A -> list (string * A);
  range_entries : forall A (m : gmap string A), range A m ≡ₚ map_to_list m
}.
Arguments range {_ A} _.

(** A nil pointer dereference or an index out of range panics. *)
Definition deref {W P A} (p : option P) (k : P -> ST W A) : ST W A := fun w =>
  match p with Some p => k p w | None => (Panic, w) end.

(** ** Sets of users *)

Definition userIDBoolSet (users : list User) : gset Z := list_to_set (List.map us_ID users).
Definition attendanceLeaveIDBoolSet (users : list AttendanceUserLeave) : gset Z :=
  list_to_set (List.map al_ID users).
Definition mergeBoolSets (sets : list (gset Z)) : gset Z := ⋃ sets.

(** The three loops that leave out the users of a set. *)
Definition filter_out {A} (id : A -> Z) (users : list A) (excluded : gset Z) : list A :=
  if decide (excluded = ∅) then users
  else List.filter (fun u => negb (bool_decide (id u ∈ excluded))) users.
Definition filterAttendanceBasics := filter_out ab_ID.
Definition filterModelUsers := filter_out us_ID.
Definition filterAttendanceChecks := filter_out ak_ID.

Definition toBasicList (users : list User) : list AttendanceUserBasic :=
  List.map (fun u => mkBasic (us_ID u) (us_Name u) (us_Avatar u) "") users.
Definition toRestDayBasicList (users : list User) : list AttendanceUserBasic :=
  List.map (fun u => mkBasic (us_ID u) (us_Name u) "" "") users.

Definition calculateNotArrivedWithLate (shouldAttend : list User) (onTime late : list AttendanceUserCheck)
    (leave : list AttendanceUserLeave) : list AttendanceUserBasic :=
  let processed : gset Z :=
    list_to_set (List.map ak_ID onTime) ∪ list_to_set (List.map ak_ID late)
    ∪ list_to_set (List.map al_ID leave) in
  List.map (fun u => mkBasic (us_ID u) (us_Name u) "" "")
    (List.filter (fun u => negb (bool_decide (us_ID u ∈ processed))) shouldAttend).
Definition calculateNotArrived (shouldAttend : list User) (onTime : list AttendanceUserCheck)
    (leave : list AttendanceUserLeave) : list AttendanceUserBasic :=
  calculateNotArrivedWithLate shouldAttend onTime [] leave.

Definition buildNotifyList (shouldAttend : list User) (onTime : list AttendanceUserCheck)
    (leave : list AttendanceUserLeave) : list User :=
  let processed : gset Z := list_to_set (List.map ak_ID onTime) ∪ list_to_set (List.map al_ID leave) in
  List.filter (fun u => negb (bool_decide (us_ID u ∈ processed))) shouldAttend.

(** ** Responses *)

Definition NewAttendanceDetailResponse (date : string) (week section : Z) (slotStart slotEnd : string)
    (shouldAttend : list User) (onTime : list AttendanceUserCheck) (leave : list AttendanceUserLeave)
    (notArrived restDay hasCourse : list AttendanceUserBasic) : AttendanceDetailResponse :=
  mkDetail 0 date week section "" false 0 (slotStart, slotEnd)
    (mkStatistics (len shouldAttend) (len onTime) 0 (len leave) (len notArrived) (len restDay) (len hasCourse))
    (mkLists (List.map (fun u => mkBasic (us_ID u) (us_Name u) "" "") shouldAttend) onTime [] leave notArrived
       restDay hasCourse).

Definition with_users (r : AttendanceDetailResponse) (st : AttendanceStatistics) (u : AttendanceUserLists)
  : AttendanceDetailResponse :=
  mkDetail (dr_RecordID r) (dr_Date r) (dr_Week r) (dr_Section r) (dr_ViewMode r) (dr_IsFinalized r)
    (dr_FinalizeAt r) (dr_SlotTime r) st u.
Definition SetViewMetadata (r : AttendanceDetailResponse) (viewMode : string) (isFinalized : bool) (finalizeAt : Z)
  : AttendanceDetailResponse :=
  mkDetail (dr_RecordID r) (dr_Date r) (dr_Week r) (dr_Section r) viewMode isFinalized finalizeAt
    (dr_SlotTime r) (dr_Statistics r) (dr_Users r).
Definition with_record_id (r : AttendanceDetailResponse) (id : Z) : AttendanceDetailResponse :=
  mkDetail id (dr_Date r) (dr_Week r) (dr_Section r) (dr_ViewMode r) (dr_IsFinalized r) (dr_FinalizeAt r)
    (dr_SlotTime r) (dr_Statistics r) (dr_Users r).

(** The late users of a view that separates them. *)
Definition with_late (late : list AttendanceUserCheck) (r : AttendanceDetailResponse) : AttendanceDetailResponse :=
  let st := dr_Statistics r in let u := dr_Users r in
  with_users r
    (mkStatistics (as_ShouldAttend st) (as_OnTime st) (len late) (as_Leave st) (as_NotArrived st)
       (as_RestDay st) (as_HasCourse st))
    (mkLists (li_ShouldAttend u) (li_OnTime u) late (li_Leave u) (li_NotArrived u) (li_RestDay u)
       (li_HasCourse u)).

(** ** Stored lists *)

Definition json_of_check (u : StoredUserCheck) : json :=
  obj [(false, "id", json_int (sc_ID u)); (false, "check_time", json_int (sc_CheckTime u))].
Definition json_of_leave (u : StoredUserLeave) : json :=
  obj [(false, "id", json_int (sl_ID u)); (false, "leave_type", JStr (sl_LeaveType u));
       (false, "reason", JStr (sl_Reason u))].

Definition serializeOnTimeUsers (users : list AttendanceUserCheck) : string :=
  marshal (JArr (List.map (fun u => json_of_check (mkStoredCheck (ak_ID u) (unix_seconds (ak_CheckTime u)))) users)).
Definition serializeLeaveUsers (users : list AttendanceUserLeave) : string :=
  marshal (JArr (List.map (fun u => json_of_leave (mkStoredLeave (al_ID u) (al_LeaveType u) (al_Reason u))) users)).
Definition serializeBasicUsers (users : list AttendanceUserBasic) : string :=
  marshal (JArr (List.map (fun u => json_int (ab_ID u)) users)).
Definition serializeNotArrivedUsers := serializeBasicUsers.
Definition serializeRestDayUsers := serializeBasicUsers.

Definition check_names : list string := ["id"; "check_time"].
Definition leave_names : list string := ["id"; "leave_type"; "reason"].
Definition lax_check : lax StoredUserCheck := lax_struct (fun ms cur =>
  let '(id, e1) := lax_field check_names "id" (lax_of dec_uint64) ms (sc_ID cur) in
  let '(t, e2) := lax_field check_names "check_time" (lax_of dec_int64) ms (sc_CheckTime cur) in
  (mkStoredCheck id t, e1 || e2)).
Definition lax_leave : lax StoredUserLeave := lax_struct (fun ms cur =>
  let '(id, e1) := lax_field leave_names "id" (lax_of dec_uint64) ms (sl_ID cur) in
  let '(ty, e2) := lax_field leave_names "leave_type" (lax_of dec_string) ms (sl_LeaveType cur) in
  let '(re, e3) := lax_field leave_names "reason" (lax_of dec_string) ms (sl_Reason cur) in
  (mkStoredLeave id ty re, e1 || e2 || e3)).

Definition read_checks (raw : string) : list StoredUserCheck * bool :=
  unmarshal (lax_list lax_check (mkStoredCheck 0 0)) [] raw.
Definition read_leaves (raw : string) : list StoredUserLeave * bool :=
  unmarshal (lax_list lax_leave (mkStoredLeave 0 "" "")) [] raw.
Definition read_ids (raw : string) : list Z * bool := unmarshal (lax_list (lax_of dec_uint64) 0) [] raw.

(** [raw != "" && raw != "[]"] before decoding makes no difference to the value. *)
Definition stored_or_nil {A} (read : string -> list A * bool) (raw : string) : list A :=
  if eqs raw "" || eqs raw "[]" then [] else (read raw).1.

(** The loop that collects the should-attend list: known users, once each. *)
Fixpoint collect_known (known : Z -> bool) (seen : gset Z) (ids : list Z) : list Z :=
  match ids with
  | [] => []
  | id :: ids =>
      if bool_decide (id ∈ seen) || negb (known id) then collect_known known seen ids
      else id :: collect_known known ({[id]} ∪ seen) ids
  end.

Section from_record.
Context `{Location}.

Definition NewAttendanceDetailResponseFromRecord (record : AttendanceRecord) (slotStart slotEnd : string)
    (userMap : gmap Z User) (userDeptNames : gmap Z string) : AttendanceDetailResponse :=
  let name id := match userMap !! id with Some u => us_Name u | None => "Unknown" end in
  let avatar id := match userMap !! id with Some u => us_Avatar u | None => "" end in
  let dept id := default "" (userDeptNames !! id) in
  let known id := bool_decide (is_Some (userMap !! id)) in
  let basic id := mkBasic id (name id) (avatar id) (dept id) in
  let check u := mkCheck (sc_ID u) (name (sc_ID u)) (avatar (sc_ID u)) (dept (sc_ID u)) (unix_time (sc_CheckTime u)) in
  let leave u := mkLeave (sl_ID u) (name (sl_ID u)) (avatar (sl_ID u)) (dept (sl_ID u)) (sl_LeaveType u) (sl_Reason u) in
  let onTimeUsers := stored_or_nil read_checks (ar_OnTimeIDs record) in
  let leaveUsers := stored_or_nil read_leaves (ar_LeaveIDs record) in
  let lateUsers := stored_or_nil read_checks (ar_LateIDs record) in
  let notArrivedIDs := stored_or_nil read_ids (ar_NotArrivedIDs record) in
  let restDayIDs := stored_or_nil read_ids (ar_RestDayIDs record) in
  let hasCourseIDs := stored_or_nil read_ids (ar_HasCourseIDs record) in
  let onTimeList := List.map check (List.filter (fun u => known (sc_ID u)) onTimeUsers) in
  let leaveList := List.map leave (List.filter (fun u => known (sl_ID u)) leaveUsers) in
  let lateList := List.map check (List.filter (fun u => known (sc_ID u)) lateUsers) in
  let notArrivedList := List.map basic (List.filter known notArrivedIDs) in
  let restDayList := List.map basic (List.filter known restDayIDs) in
  let hasCourseList := List.map basic (List.filter known hasCourseIDs) in
  let shouldAttendList :=
    List.map basic (collect_known known ∅
      (List.map sc_ID onTimeUsers ++ List.map sc_ID lateUsers ++ List.map sl_ID leaveUsers ++ notArrivedIDs)) in
  mkDetail (ar_ID record) (format_date (ar_Date record)) (ar_Week record) (ar_Section record) "" false 0
    (slotStart, slotEnd)
    (mkStatistics (len shouldAttendList) (len onTimeList) (len lateList) (len leaveList) (len notArrivedList)
       (len restDayList) (len hasCourseList))
    (mkLists shouldAttendList onTimeList lateList leaveList notArrivedList restDayList hasCourseList).
End from_record.

(** ** Ports *)

Record UserRepository W := mkUserRepo {
  ur_ListAttendanceCandidates : list Z -> ST W (list User);
  ur_ListByIDs : list Z -> ST W (list User);
  ur_ListByScope : list Z -> list Z -> ST W (list User);
  ur_GetUserDepartmentNames : list Z -> ST W (gmap Z string) }.
Arguments ur_ListAttendanceCandidates {W}. Arguments ur_ListByIDs {W}. Arguments ur_ListByScope {W}.
Arguments ur_GetUserDepartmentNames {W}.

Record AttendanceRecordRepository W := mkRecordRepo {
  rr_Upsert : AttendanceRecord -> ST W unit;
  rr_FindByDateSection : Z -> Z -> ST W AttendanceRecord;
  rr_FindByID : Z -> ST W AttendanceRecord;
  rr_ListByDate : Z -> ST W (list AttendanceRecord);
  rr_ListByDateRange : Z -> Z -> ST W (list AttendanceRecord) }.
Arguments rr_Upsert {W}. Arguments rr_FindByDateSection {W}. Arguments rr_FindByID {W}.
Arguments rr_ListByDate {W}. Arguments rr_ListByDateRange {W}.

Record ManualOverrideRepository W := mkOverrideRepo {
  or_UpsertForceOnTime : AttendanceManualOverride -> ST W unit;
  or_ListByDateSection : Z -> Z -> ST W (list AttendanceManualOverride) }.
Arguments or_UpsertForceOnTime {W}. Arguments or_ListByDateSection {W}.

(** The DingTalk client of the context's tenant, with the tenant's agent. *)
Record DingClient W := mkDing {
  dc_AgentID : string;
  dc_GetAttendanceRecords : list string -> Z -> Z -> ST W (list CheckRecord);
  dc_SendWorkNoticeText : string -> list string -> string -> ST W unit }.
Arguments dc_AgentID {W}. Arguments dc_GetAttendanceRecords {W}. Arguments dc_SendWorkNoticeText {W}.

Record SchedulePeriodService W := mkPeriodService {
  ps_database : SettingsDatabase W; ps_fallback : option (list Period) }.
Arguments ps_database {W}. Arguments ps_fallback {W}.

Record ScheduleConfig := mkScheduleConfig {
  sc_Periods : list Period; sc_LateGraceMinutes : Z; sc_MaxCarryForwardGapMinutes : Z }.

Record AttendanceRecordService W := mkAttendanceService {
  srv_userRepo : option (UserRepository W);
  srv_courseRepo : list Z -> Z -> Z -> ST W (list Course);
  srv_leaveRepo : option (list Z -> Z -> Z -> ST W (list LeaveApproval));
  srv_attendanceRecordRepo : AttendanceRecordRepository W;
  srv_manualOverrideRepo : option (ManualOverrideRepository W);
  srv_scheduleSettingRepo : option (SettingsDatabase W);
  srv_restDayRepo : option (list Z -> ST W (list UserRestDay));
  srv_dingMgr : option (ST W (DingClient W));
  srv_scheduleCfg : ScheduleConfig;
  srv_schedulePeriodSrv : option (SchedulePeriodService W);
  srv_semesterSrv : option (ST W Semester);
  srv_now : W -> Z * W;
  srv_fetchAttendanceRecords : option (list string -> Z -> Z -> ST W (list CheckRecord)) }.
Arguments srv_userRepo {W}. Arguments srv_courseRepo {W}. Arguments srv_leaveRepo {W}.
Arguments srv_attendanceRecordRepo {W}. Arguments srv_manualOverrideRepo {W}.
Arguments srv_scheduleSettingRepo {W}. Arguments srv_restDayRepo {W}. Arguments srv_dingMgr {W}.
Arguments srv_scheduleCfg {W}. Arguments srv_schedulePeriodSrv {W}. Arguments srv_semesterSrv {W}.
Arguments srv_now {W}. Arguments srv_fetchAttendanceRecords {W}.

(** [err.Error()] of an error made by fmt.Errorf without arguments *)
Definition error_text (e : err) : string := match e with EMsg m => m | _ => "" end.

Definition ErrRecordNotFound : string := "gorm.ErrRecordNotFound".

Section service.
Context `{LOC : Location} `{MO : MapOrder} {W : Type} (s : AttendanceRecordService W).

Definition currentTime : ST W Z := fun w => let '(t, w) := srv_now s w in (Ok t, w).

(** ** Periods and windows *)

Definition period_service_periods (p : SchedulePeriodService W) : ST W (list Period) :=
  @GetActivePeriods W (ps_database p) (ps_fallback p).
Definition period_service_mode (p : SchedulePeriodService W) : W -> string * W :=
  @GetCurrentMode W (ps_database p).

Definition resolveActivePeriods : W -> list Period * W := fun w =>
  match srv_schedulePeriodSrv s with
  | None => (sc_Periods (srv_scheduleCfg s), w)
  | Some p =>
      match period_service_periods p w with
      | (Ok (x :: l), w) => (x :: l, w)
      | (_, w) => (sc_Periods (srv_scheduleCfg s), w)
      end
  end.

(** The periods and the error, which comes with the configured periods. *)
Definition getActivePeriods : W -> (list Period * option err) * W := fun w =>
  match srv_schedulePeriodSrv s with
  | None => ((sc_Periods (srv_scheduleCfg s), None), w)
  | Some p =>
      match period_service_periods p w with
      | (Ok (x :: l), w) => ((x :: l, None), w)
      | (Ok [], w) => ((sc_Periods (srv_scheduleCfg s), None), w)
      | (Err e, w) => ((sc_Periods (srv_scheduleCfg s), Some e), w)
      end
  end.

Definition calculateFinalizeAt (slotStart : Z) : Z := slotStart + minutes 30.
Definition shouldUseRealtimeView (now finalizeAt : Z) : bool := before now finalizeAt.

Definition resolveAttendanceWindow (req : AttendanceDetailRequest) : ST W attendanceWindow := fun w =>
  match parse_local_date (dq_Date req) with
  | None => (Err (ErrInvalidParamWithMsg "日期格式错误"), w)
  | Some date =>
      let '(periods, w) := resolveActivePeriods w in
      if (dq_Section req <=? 0) || (len periods <? dq_Section req)
      then (Err (ErrInvalidParamWithMsg "节次无效"), w)
      else
        match CalculateSlotTime date (dq_Section req) periods with
        | Err e => (Err (BizError CodeInternalError (error_text e)), w)
        | Ok (slotStart, slotEnd) =>
            (Ok (mkWindow date periods slotStart slotEnd
                   (slotStart + minutes (sc_LateGraceMinutes (srv_scheduleCfg s)))
                   (calculateFinalizeAt slotStart)), w)
        end
  end.

(** The first section is checked in from midnight, a later one from the end of
    the one before. *)
Definition calculateCheckWindowStart (date section : Z) : ST W Z := fun w =>
  if section <=? 1 then (Ok (at_clock date 0 0), w)
  else
    let '(periods, w) := resolveActivePeriods w in
    match period_at (section - 1) periods with
    | None => (Err (BizError CodeInvalidParam "无效的节次"), w)
    | Some prevPeriod =>
        match parse_hm (pd_End prevPeriod) with
        | None => (Err (BizError CodeInternalError "解析上一节下课时间失败"), w)
        | Some (h, m) => (Ok (at_clock date h m), w)
        end
    end.

(** ** Who has to attend *)

Definition shouldUseAllAttendMode (date : Z) : W -> bool * W := fun w =>
  let '(holiday, w) :=
    match srv_schedulePeriodSrv s with
    | None => (false, w)
    | Some p => let '(mode, w) := period_service_mode p w in (eqs mode ScheduleModeHoliday, w)
    end in
  if holiday : bool then (true, w)
  else
    match srv_semesterSrv s with
    | None => (false, w)
    | Some GetActiveSemester =>
        match GetActiveSemester w with
        | (Err _, w) => (true, w)
        | (Ok semester, w) =>
            (match CalculateWeekFromDate (Some semester) date with (_, Some _) => true | (_, None) => false end, w)
        end
    end.

Definition getAttendanceCandidatesWithCourseUsers (date week section : Z) (deptIDs : list Z)
  : ST W (list User * list User) := deref (srv_userRepo s) (fun userRepo w =>
  match ur_ListAttendanceCandidates userRepo deptIDs w with
  | (Err e, w) => (Err (EWrap "获取候选用户失败" e), w)
  | (Ok [], w) => (Ok ([], []), w)
  | (Ok activeUsers, w) =>
      let '(all, w) := shouldUseAllAttendMode date w in
      if all : bool then (Ok (activeUsers, []), w)
      else
        match srv_courseRepo s (List.map us_ID activeUsers) (WeekdayMon1Sun7 date) section w with
        | (Err e, w) => (Err (EWrap "获取用户课表失败" e), w)
        | (Ok courses, w) =>
            let busy : gset Z :=
              list_to_set (List.map co_UserID (List.filter (fun c => ContainsWeek (co_WeekList c) week) courses)) in
            (Ok (activeUsers, List.filter (fun u => bool_decide (us_ID u ∈ busy)) activeUsers), w)
        end
  end).

Definition getShouldAttendUsers (date week section : Z) (deptIDs : list Z) : ST W (list User * list User) :=
  candidates <~ getAttendanceCandidatesWithCourseUsers date week section deptIDs ;;
  let '(activeUsers, hasCourse) := candidates in
  st_ret (filterModelUsers activeUsers (userIDBoolSet hasCourse), hasCourse).

Definition isRestDayAttendanceEnabled : W -> bool * W := fun w =>
  match srv_scheduleSettingRepo s with
  | None => (true, w)
  | Some db => let '((enabled, _), w) := @IsRestDayAttendanceEnabled W db w in (enabled, w)
  end.

Definition filterRestDayUsers (users : list User) (dayOfWeek : Z) : W -> list User * W := fun w =>
  match users, srv_restDayRepo s with
  | [], _ | _, None => ([], w)
  | users, Some ListByUserIDs =>
      let '(enabled, w) := isRestDayAttendanceEnabled w in
      if negb enabled then ([], w)
      else
        match ListByUserIDs (List.map us_ID users) w with
        | (Err _, w) => ([], w)
        | (Ok restDays, w) =>
            let rest : gset Z :=
              list_to_set (List.map rd_UserID (List.filter (fun rd => rd_DayOfWeek rd =? dayOfWeek) restDays)) in
            (List.filter (fun u => bool_decide (us_ID u ∈ rest)) users, w)
        end
  end.

(** The user an id names: the last one of the list. *)
Definition user_map (users : list User) : gmap Z User :=
  foldl (fun m u => <[us_ID u := u]> m) ∅ users.

(** The first approval of each user, in the order of the approvals. *)
Fixpoint leave_users (users : gmap Z User) (seen : gset Z) (leaves : list LeaveApproval)
  : list AttendanceUserLeave :=
  match leaves with
  | [] => []
  | leave :: leaves =>
      let id := la_UserID leave in
      if bool_decide (id ∈ seen) then leave_users users seen leaves
      else
        match users !! id with
        | None => leave_users users ({[id]} ∪ seen) leaves
        | Some user =>
            mkLeave (us_ID user) (us_Name user) "" "" (la_LeaveType leave) (la_Reason leave)
            :: leave_users users ({[id]} ∪ seen) leaves
        end
  end.

Definition getLeaveUsers (users : list User) (slotStart slotEnd : Z) : ST W (list AttendanceUserLeave) := fun w =>
  match users with
  | [] => (Ok [], w)
  | _ => deref (srv_leaveRepo s) (fun ListApprovedByUserIDs w =>
      match ListApprovedByUserIDs (List.map us_ID users) slotStart slotEnd w with
      | (Err e, w) => (Err (EWrap "获取请假记录失败" e), w)
      | (Ok leaveRecords, w) => (Ok (leave_users (user_map users) ∅ leaveRecords), w)
      end) w
  end.

(** ** Who checked in *)

Definition loadAttendanceRecords (dingUserIDs : list string) (startAt endAt : Z) : ST W (list CheckRecord) := fun w =>
  match srv_fetchAttendanceRecords s with
  | Some fetch => fetch dingUserIDs startAt endAt w
  | None =>
      match srv_dingMgr s with
      | None => (Err (BizError CodeInternalError "钉钉租户管理器未初始化"), w)
      | Some FromContext =>
          match FromContext w with
          | (Err _, w) => (Err (BizError CodeUnauthorized "缺少租户信息"), w)
          | (Ok dingClient, w) => dc_GetAttendanceRecords dingClient dingUserIDs startAt endAt w
          end
      end
  end.

Definition users_by_ding_id (users : list User) : gmap string User :=
  foldl (fun m u => if eqs (us_DingUserID u) "" then m else <[us_DingUserID u := u]> m) ∅ users.

(** The earliest check-in of each DingTalk user. *)
Definition earliest_checks (records : list CheckRecord) : gmap string Z :=
  foldl (fun m r =>
    if negb (eqs (ck_CheckType r) "OnDuty") then m
    else
      match m !! ck_DingUserID r with
      | Some existing => if before (ck_CheckTime r) existing then <[ck_DingUserID r := ck_CheckTime r]> m else m
      | None => <[ck_DingUserID r := ck_CheckTime r]> m
      end) ∅ records.

(** The check-ins that count, on time or late by the deadline. *)
Definition counted_checks (users : gmap string User) (windowStart : Z) (keep : Z -> bool)
    (earliest : list (string * Z)) : list AttendanceUserCheck :=
  flat_map (fun '(dingUserID, checkTime) =>
    match users !! dingUserID with
    | None => []
    | Some user =>
        if before checkTime windowStart then []
        else if keep checkTime then [mkCheck (us_ID user) (us_Name user) "" "" checkTime] else []
    end) earliest.

Definition getOnTimeUsers (users : list User) (date section deadline queryEnd : Z)
  : ST W (list AttendanceUserCheck * list AttendanceUserCheck) := fun w =>
  let dingUserIDs := List.filter (fun id => negb (eqs id "")) (List.map us_DingUserID users) in
  match dingUserIDs with
  | [] => (Ok ([], []), w)
  | _ =>
      match calculateCheckWindowStart date section w with
      | (Err e, w) => (Err (EWrap "计算打卡窗口失败" e), w)
      | (Ok windowStart, w) =>
          match loadAttendanceRecords dingUserIDs windowStart queryEnd w with
          | (Err e, w) => (Err (EWrap "获取钉钉打卡记录失败" e), w)
          | (Ok records, w) =>
              let earliest := range (earliest_checks records) in
              let on_time t := before t deadline || (t =? deadline) in
              (Ok (counted_checks (users_by_ding_id users) windowStart on_time earliest,
                   counted_checks (users_by_ding_id users) windowStart (fun t => negb (on_time t)) earliest), w)
          end
      end
  end.

(** ** Carrying a check-in forward *)

Definition append_unique (raw : string) (acc : gset Z * list StoredUserCheck) : gset Z * list StoredUserCheck :=
  if eqs raw "" || eqs raw "[]" || eqs raw "null" then acc
  else
    match read_checks raw with
    | (_, true) => acc
    | (parsed, false) =>
        foldl (fun '(seen, users) user =>
          if bool_decide (sc_ID user ∈ seen) then (seen, users)
          else ({[sc_ID user]} ∪ seen, users ++ [user])) acc parsed
    end.
Definition loadCarryForwardUsers (record : AttendanceRecord) : list StoredUserCheck :=
  (append_unique (ar_LateIDs record) (append_unique (ar_OnTimeIDs record) (∅, []))).2.

(** The loop over the users of the section before: those who attend this one
    and have not checked in on time are added. *)
Definition carry_forward (shouldAttend : gmap Z User) (prev : list StoredUserCheck)
    (onTime : list AttendanceUserCheck) : list AttendanceUserCheck :=
  (foldl (fun '(current, onTime) p =>
    if bool_decide (sc_ID p ∈ current) then (current, onTime)
    else
      match shouldAttend !! sc_ID p with
      | None => (current, onTime)
      | Some u =>
          ({[us_ID u]} ∪ current,
           onTime ++ [mkCheck (us_ID u) (us_Name u) (us_Avatar u) "" (unix_time (sc_CheckTime p))])
      end) (list_to_set (List.map ak_ID onTime) : gset Z, onTime) prev).2.

(** Minutes from the end of the section before to the start of this one. *)
Definition gap_minutes (section : Z) (periods : list Period) : option Z :=
  prev ← period_at (section - 1) periods; curr ← period_at section periods;
  '(h1, m1) ← parse_hm (pd_End prev); '(h2, m2) ← parse_hm (pd_Start curr);
  Some ((h2 * 60 + m2) - (h1 * 60 + m1)).

Definition applyCarryForward (date section : Z) (periods : list Period) (shouldAttend : list User)
    (onTime : list AttendanceUserCheck) : W -> list AttendanceUserCheck * W := fun w =>
  if section <=? 1 then (onTime, w)
  else if sc_MaxCarryForwardGapMinutes (srv_scheduleCfg s) <=? 0 then (onTime, w)
  else if len periods <? section then (onTime, w)
  else
    match gap_minutes section periods with
    | None => (onTime, w)
    | Some gapMinutes =>
        if sc_MaxCarryForwardGapMinutes (srv_scheduleCfg s) <? gapMinutes then (onTime, w)
        else
          match rr_FindByDateSection (srv_attendanceRecordRepo s) date (section - 1) w with
          | (Err _, w) => (onTime, w)
          | (Ok prevRecord, w) =>
              (carry_forward (user_map shouldAttend) (loadCarryForwardUsers prevRecord) onTime, w)
          end
    end.

(** ** The detail of a section *)

(** The first user with an id. *)
Definition first_user_map (users : list User) : gmap Z User :=
  foldl (fun m u => match m !! us_ID u with Some _ => m | None => <[us_ID u := u]> m end) ∅ users.

Definition fill_basic (users : gmap Z User) (depts : gmap Z string) (b : AttendanceUserBasic) : AttendanceUserBasic :=
  match users !! ab_ID b with
  | Some u => mkBasic (ab_ID b) (us_Name u) (us_Avatar u) (default "" (depts !! ab_ID b))
  | None => b
  end.
Definition fill_check (users : gmap Z User) (depts : gmap Z string) (c : AttendanceUserCheck) : AttendanceUserCheck :=
  match users !! ak_ID c with
  | Some u => mkCheck (ak_ID c) (us_Name u) (us_Avatar u) (default "" (depts !! ak_ID c)) (ak_CheckTime c)
  | None => c
  end.
Definition fill_leave (users : gmap Z User) (depts : gmap Z string) (l : AttendanceUserLeave) : AttendanceUserLeave :=
  match users !! al_ID l with
  | Some u => mkLeave (al_ID l) (us_Name u) (us_Avatar u) (default "" (depts !! al_ID l)) (al_LeaveType l) (al_Reason l)
  | None => l
  end.

Definition enrichAttendanceDetailUsers (users : list User) (resp : AttendanceDetailResponse)
  : W -> AttendanceDetailResponse * W := fun w =>
  match users with
  | [] => (resp, w)
  | _ =>
      let '(depts, w) :=
        match srv_userRepo s with
        | None => (∅, w)
        | Some userRepo =>
            match ur_GetUserDepartmentNames userRepo (remove_dups (List.map us_ID users)) w with
            | (Ok deptNames, w) => (deptNames, w)
            | (Err _, w) => (∅, w)
            end
        end in
      let m := first_user_map users in
      let u := dr_Users resp in
      (with_users resp (dr_Statistics resp)
         (mkLists (List.map (fill_basic m depts) (li_ShouldAttend u)) (List.map (fill_check m depts) (li_OnTime u))
            (List.map (fill_check m depts) (li_Late u)) (List.map (fill_leave m depts) (li_Leave u))
            (List.map (fill_basic m depts) (li_NotArrived u)) (List.map (fill_basic m depts) (li_RestDay u))
            (List.map (fill_basic m depts) (li_HasCourse u))), w)
  end.

(** Rest day before leave before course: the groups of the candidates. *)
Record attendance_groups := mkGroups {
  ag_active : list User; ag_rest : list User; ag_leave : list AttendanceUserLeave; ag_course : list User;
  ag_should : list User }.

Definition attendance_groups_of (date week section slotStart slotEnd : Z) (deptIDs : list Z)
  : ST W attendance_groups := fun w =>
  match getAttendanceCandidatesWithCourseUsers date week section deptIDs w with
  | (Err e, w) => (Err e, w)
  | (Ok (activeUsers, hasCourseUsers), w) =>
      let '(restDayUsers, w) := filterRestDayUsers activeUsers (WeekdayMon1Sun7 date) w in
      let restDaySet := userIDBoolSet restDayUsers in
      match getLeaveUsers (filterModelUsers activeUsers restDaySet) slotStart slotEnd w with
      | (Err e, w) => (Err e, w)
      | (Ok leave, w) =>
          let filteredHasCourseUsers :=
            filterModelUsers hasCourseUsers (mergeBoolSets [restDaySet; attendanceLeaveIDBoolSet leave]) in
          (Ok (mkGroups activeUsers restDayUsers leave filteredHasCourseUsers
                 (filterModelUsers activeUsers
                    (mergeBoolSets [restDaySet; userIDBoolSet filteredHasCourseUsers]))), w)
      end
  end.

(** The response when nobody has to attend. *)
Definition empty_detail (req : AttendanceDetailRequest) (p : Period) (g : attendance_groups)
  : AttendanceDetailResponse :=
  NewAttendanceDetailResponse (dq_Date req) (dq_Week req) (dq_Section req) (pd_Start p) (pd_End p) (ag_should g)
    [] [] [] (toRestDayBasicList (ag_rest g)) (toBasicList (ag_course g)).

Definition buildAttendanceDetail (req : AttendanceDetailRequest) (window : attendanceWindow) (attendanceEnd : Z)
    (splitLate : bool) : ST W (AttendanceDetailResponse * list User) := fun w =>
  match attendance_groups_of (aw_date window) (dq_Week req) (dq_Section req) (aw_slotStart window)
          (aw_slotEnd window) (dq_DeptIDs req) w with
  | (Err e, w) => (Err e, w)
  | (Ok g, w) =>
      match period_at (dq_Section req) (aw_periods window) with
      | None => (Panic, w)
      | Some p =>
          match ag_should g with
          | [] =>
              let '(resp, w) := enrichAttendanceDetailUsers (ag_active g) (empty_detail req p g) w in
              (Ok (resp, []), w)
          | shouldAttend =>
              match getOnTimeUsers shouldAttend (aw_date window) (dq_Section req) (aw_lateDeadline window)
                      attendanceEnd w with
              | (Err e, w) => (Err e, w)
              | (Ok (onTime, late), w) =>
                  let '(onTime, w) :=
                    applyCarryForward (aw_date window) (dq_Section req) (aw_periods window) shouldAttend onTime w in
                  let excluded :=
                    mergeBoolSets [attendanceLeaveIDBoolSet (ag_leave g); userIDBoolSet (ag_rest g)] in
                  let onTime := filterAttendanceChecks onTime excluded in
                  let late := filterAttendanceChecks late excluded in
                  let notArrived :=
                    if splitLate then calculateNotArrivedWithLate shouldAttend onTime late (ag_leave g)
                    else calculateNotArrived shouldAttend onTime (ag_leave g) in
                  let resp :=
                    NewAttendanceDetailResponse (dq_Date req) (dq_Week req) (dq_Section req) (pd_Start p) (pd_End p)
                      shouldAttend onTime (ag_leave g) notArrived (toRestDayBasicList (ag_rest g))
                      (toBasicList (ag_course g)) in
                  let resp := if splitLate then with_late late resp else resp in
                  let '(resp, w) := enrichAttendanceDetailUsers (ag_active g) resp w in
                  (Ok (resp, buildNotifyList shouldAttend onTime (ag_leave g)), w)
              end
          end
      end
  end.

(** ** Corrections by hand *)

Definition basic_of_check (c : AttendanceUserCheck) : AttendanceUserBasic :=
  mkBasic (ak_ID c) (ak_Name c) (ak_Avatar c) (ak_DeptName c).
Definition basic_of_leave (l : AttendanceUserLeave) : AttendanceUserBasic :=
  mkBasic (al_ID l) (al_Name l) (al_Avatar l) (al_DeptName l).

(** The profile kept for each id: of those who have to attend, the last; of
    the others, the first, when there is none yet. *)
Definition override_sources (u : AttendanceUserLists) : gmap Z AttendanceUserBasic :=
  let put := fun m b => <[ab_ID b := b]> m in
  let put_new := fun m b => match m !! ab_ID b with Some _ => m | None => <[ab_ID b := b]> m end in
  let attending := li_ShouldAttend u ++ List.map basic_of_check (li_OnTime u)
                   ++ List.map basic_of_check (li_Late u) ++ li_NotArrived u in
  let others := List.map basic_of_leave (li_Leave u) ++ li_RestDay u ++ li_HasCourse u in
  foldl put_new (foldl put ∅ attending) others.
Definition override_allowed (u : AttendanceUserLists) : gset Z :=
  list_to_set (List.map ab_ID (li_ShouldAttend u) ++ List.map ak_ID (li_OnTime u)
    ++ List.map ak_ID (li_Late u) ++ List.map ab_ID (li_NotArrived u)).
Definition override_excluded (u : AttendanceUserLists) : gset Z :=
  list_to_set (List.map al_ID (li_Leave u) ++ List.map ab_ID (li_RestDay u) ++ List.map ab_ID (li_HasCourse u)).

(** The index of each user on time, the last when there are several. *)
Fixpoint on_time_index (i : nat) (users : list AttendanceUserCheck) (m : gmap Z nat) : gmap Z nat :=
  match users with
  | [] => m
  | c :: users => on_time_index (S i) users (<[ak_ID c := i]> m)
  end.

Record override_state := mkOverrideState {
  os_OnTime : list AttendanceUserCheck; os_Late : list AttendanceUserCheck;
  os_NotArrived : list AttendanceUserBasic; os_index : gmap Z nat; os_applied : bool }.

Definition set_check_time (t : Z) (c : AttendanceUserCheck) : AttendanceUserCheck :=
  mkCheck (ak_ID c) (ak_Name c) (ak_Avatar c) (ak_DeptName c) t.
Definition check_of_basic (t : Z) (b : AttendanceUserBasic) : AttendanceUserCheck :=
  mkCheck (ab_ID b) (ab_Name b) (ab_Avatar b) (ab_DeptName b) t.

Definition apply_override (sources : gmap Z AttendanceUserBasic) (allowed excluded : gset Z)
    (st : override_state) (o : AttendanceManualOverride) : override_state :=
  if negb (eqs (mo_OverrideType o) attendanceOverrideTypeForceOnTime) then st
  else if bool_decide (mo_UserID o ∈ excluded) || negb (bool_decide (mo_UserID o ∈ allowed)) then st
  else
    let late := filterAttendanceChecks (os_Late st) {[mo_UserID o]} in
    let notArrived := filterAttendanceBasics (os_NotArrived st) {[mo_UserID o]} in
    match os_index st !! mo_UserID o with
    | Some idx =>
        mkOverrideState (alter (set_check_time (mo_AppliedAt o)) idx (os_OnTime st)) late notArrived
          (os_index st) true
    | None =>
        let source := default (mkBasic 0 "" "" "") (sources !! mo_UserID o) in
        mkOverrideState (os_OnTime st ++ [check_of_basic (mo_AppliedAt o) source]) late notArrived
          (<[mo_UserID o := length (os_OnTime st)]> (os_index st)) true
    end.

Definition apply_overrides (overrides : list AttendanceManualOverride) (resp : AttendanceDetailResponse)
  : AttendanceDetailResponse :=
  let u := dr_Users resp in let st := dr_Statistics resp in
  let o := foldl (apply_override (override_sources u) (override_allowed u) (override_excluded u))
             (mkOverrideState (li_OnTime u) (li_Late u) (li_NotArrived u) (on_time_index 0 (li_OnTime u) ∅) false)
             overrides in
  if os_applied o then
    with_users resp
      (mkStatistics (as_ShouldAttend st) (len (os_OnTime o)) (len (os_Late o)) (as_Leave st)
         (len (os_NotArrived o)) (as_RestDay st) (as_HasCourse st))
      (mkLists (li_ShouldAttend u) (os_OnTime o) (os_Late o) (li_Leave u) (os_NotArrived o) (li_RestDay u)
         (li_HasCourse u))
  else resp.

Definition applyManualOverridesToDetail (date section : Z) (resp : AttendanceDetailResponse)
  : ST W AttendanceDetailResponse := fun w =>
  match srv_manualOverrideRepo s with
  | None => (Ok resp, w)
  | Some repo =>
      match or_ListByDateSection repo (normalizeAttendanceDate date) section w with
      | (Err e, w) => (Err (EWrap "获取人工代签覆盖失败" e), w)
      | (Ok overrides, w) => (Ok (apply_overrides overrides resp), w)
      end
  end.

(** ** Saving and reading back *)

Definition record_of_detail (resp : AttendanceDetailResponse) : AttendanceRecord :=
  let u := dr_Users resp in
  mkAttendanceRecord 0 0 (default 0 (parse_local_date (dr_Date resp))) (dr_Week resp) (dr_Section resp)
    (serializeOnTimeUsers (li_OnTime u)) (serializeOnTimeUsers (li_Late u)) (serializeLeaveUsers (li_Leave u))
    (serializeNotArrivedUsers (li_NotArrived u)) (serializeRestDayUsers (li_RestDay u))
    (serializeBasicUsers (li_HasCourse u)).
Definition SaveAttendanceRecord (resp : AttendanceDetailResponse) : ST W unit :=
  rr_Upsert (srv_attendanceRecordRepo s) (record_of_detail resp).

(** The users a record names; the order of the ids does not matter. *)
Definition extractAllUserIDs (record : AttendanceRecord) : list Z :=
  elements (list_to_set (
    List.map sc_ID (read_checks (ar_OnTimeIDs record)).1 ++ List.map sc_ID (read_checks (ar_LateIDs record)).1
    ++ List.map sl_ID (read_leaves (ar_LeaveIDs record)).1 ++ (read_ids (ar_NotArrivedIDs record)).1
    ++ (read_ids (ar_RestDayIDs record)).1 ++ (read_ids (ar_HasCourseIDs record)).1) : gset Z).

Definition buildUserMapWithDeptFilter (users : list User) (deptIDs : list Z) : ST W (gmap Z User) := fun w =>
  match deptIDs with
  | [] => (Ok (user_map users), w)
  | _ => deref (srv_userRepo s) (fun userRepo w =>
      match ur_ListAttendanceCandidates userRepo deptIDs w with
      | (Err e, w) => (Err (EWrap "获取部门考勤候选人失败" e), w)
      | (Ok deptUsers, w) =>
          (Ok (user_map (List.filter (fun u => bool_decide (us_ID u ∈ userIDBoolSet deptUsers)) users)), w)
      end) w
  end.

(** Leaves of a stored record that are no longer approved: those users are
    judged by their check-ins again. *)
Definition fill_check_profile (userMap : gmap Z User) (userDeptNames : gmap Z string) (c : AttendanceUserCheck)
  : AttendanceUserCheck :=
  let dept := default "" (userDeptNames !! ak_ID c) in
  match userMap !! ak_ID c with
  | Some u => mkCheck (ak_ID c) (us_Name u) (us_Avatar u) dept (ak_CheckTime c)
  | None => mkCheck (ak_ID c) (ak_Name c) (ak_Avatar c) dept (ak_CheckTime c)
  end.

Definition reconciled (userDeptNames : gmap Z string) (stillLeave : list AttendanceUserLeave)
    (recheckUsers : list User) (onTime late : list AttendanceUserCheck) (resp : AttendanceDetailResponse)
  : AttendanceDetailResponse :=
  let u := dr_Users resp in let st := dr_Statistics resp in
  let skip : gset Z :=
    list_to_set (List.map ak_ID onTime ++ List.map ak_ID late ++ List.map ab_ID (li_NotArrived u)) in
  let notArrived :=
    li_NotArrived u ++
    List.map (fun m => mkBasic (us_ID m) (us_Name m) (us_Avatar m) (default "" (userDeptNames !! us_ID m)))
      (List.filter (fun m => negb (bool_decide (us_ID m ∈ skip))) recheckUsers) in
  with_users resp
    (mkStatistics (as_ShouldAttend st) (len (li_OnTime u ++ onTime)) (len (li_Late u ++ late)) (len stillLeave)
       (len notArrived) (as_RestDay st) (as_HasCourse st))
    (mkLists (li_ShouldAttend u) (li_OnTime u ++ onTime) (li_Late u ++ late) stillLeave notArrived (li_RestDay u)
       (li_HasCourse u)).

Definition reconcileSnapshotRefusedLeaves (date section : Z) (periods : list Period) (slotStart slotEnd : Z)
    (userMap : gmap Z User) (userDeptNames : gmap Z string) (resp : AttendanceDetailResponse)
  : ST W AttendanceDetailResponse := fun w =>
  let u := dr_Users resp in let st := dr_Statistics resp in
  match li_Leave u, srv_leaveRepo s with
  | [], _ | _, None => (Ok resp, w)
  | leaves, Some ListApprovedByUserIDs =>
      match ListApprovedByUserIDs (List.map al_ID leaves) slotStart slotEnd w with
      | (Err e, w) => (Err (EWrap "获取快照请假记录失败" e), w)
      | (Ok currentLeaves, w) =>
          let current : gset Z := list_to_set (List.map la_UserID currentLeaves) in
          let still l := bool_decide (al_ID l ∈ current) in
          let stillLeave := List.filter still leaves in
          let recheckUsers :=
            omap (fun l => if still l then None else userMap !! al_ID l) leaves in
          match recheckUsers with
          | [] =>
              (Ok (with_users resp
                     (mkStatistics (as_ShouldAttend st) (as_OnTime st) (as_Late st) (len stillLeave)
                        (as_NotArrived st) (as_RestDay st) (as_HasCourse st))
                     (mkLists (li_ShouldAttend u) (li_OnTime u) (li_Late u) stillLeave (li_NotArrived u)
                        (li_RestDay u) (li_HasCourse u))), w)
          | _ =>
              let finalizeAt := minTime (calculateFinalizeAt slotStart) slotEnd in
              let lateDeadline := slotStart + minutes (sc_LateGraceMinutes (srv_scheduleCfg s)) in
              match getOnTimeUsers recheckUsers date section lateDeadline finalizeAt w with
              | (Err e, w) => (Err e, w)
              | (Ok (onTime, late), w) =>
                  let '(onTime, w) := applyCarryForward date section periods recheckUsers onTime w in
                  let fill := List.map (fill_check_profile userMap userDeptNames) in
                  (Ok (reconciled userDeptNames stillLeave recheckUsers (fill onTime) (fill late) resp), w)
              end
          end
      end
  end.

Definition buildFinalAttendanceDetailForRead (req : AttendanceDetailRequest) (recordID : Z)
  : ST W AttendanceDetailResponse :=
  window <~ resolveAttendanceWindow req ;;
  built <~ buildAttendanceDetail req window (minTime (aw_finalizeAt window) (aw_slotEnd window)) true ;;
  resp <~ applyManualOverridesToDetail (aw_date window) (dq_Section req) built.1 ;;
  st_ret (SetViewMetadata (with_record_id resp recordID) "final" true (aw_finalizeAt window)).

(** A stored record as it is shown. *)
Definition detail_of_record (req : AttendanceDetailRequest) (date : Z) (record : AttendanceRecord)
  : ST W AttendanceDetailResponse := deref (srv_userRepo s) (fun userRepo =>
  let userIDs := extractAllUserIDs record in
  users <~ ur_ListByIDs userRepo userIDs ;;
  userMap <~ buildUserMapWithDeptFilter users (dq_DeptIDs req) ;;
  userDeptNames <~ ur_GetUserDepartmentNames userRepo userIDs ;;
  fun w =>
  let '((periods, e), w) := getActivePeriods w in
  let periods :=
    if (match e with Some _ => true | None => false end) || (len periods <? dq_Section req)
    then sc_Periods (srv_scheduleCfg s) else periods in
  match period_at (dq_Section req) periods with
  | None => (Panic, w)
  | Some p =>
      let resp := NewAttendanceDetailResponseFromRecord record (pd_Start p) (pd_End p) userMap userDeptNames in
      match CalculateSlotTime date (dq_Section req) periods with
      | Err _ => applyManualOverridesToDetail date (dq_Section req) resp w
      | Ok (slotStartAt, slotEndAt) =>
          (resp <~ reconcileSnapshotRefusedLeaves date (dq_Section req) periods slotStartAt slotEndAt userMap
                     userDeptNames resp ;;
           resp <~ applyManualOverridesToDetail date (dq_Section req) resp ;;
           st_ret (SetViewMetadata resp "final" true (calculateFinalizeAt slotStartAt))) w
      end
  end).

Definition GetAttendanceRecordFromDB (req : AttendanceDetailRequest) : ST W AttendanceDetailResponse := fun w =>
  match parse_local_date (dq_Date req) with
  | None => (Err (ErrInvalidParamWithMsg "日期格式错误"), w)
  | Some date =>
      match rr_FindByDateSection (srv_attendanceRecordRepo s) date (dq_Section req) w with
      | (Err e, w) =>
          (Err (if errors_Is e ErrRecordNotFound then ErrNotFoundWithMsg "该时段暂无考勤记录" else e), w)
      | (Ok record, w) =>
          let '(enabled, w) := isRestDayAttendanceEnabled w in
          if negb enabled then buildFinalAttendanceDetailForRead req (ar_ID record) w
          else detail_of_record req date record w
      end
  end.

Definition GetAttendanceDetail (req : AttendanceDetailRequest) : ST W AttendanceDetailResponse :=
  window <~ resolveAttendanceWindow req ;;
  now <~ currentTime ;;
  if shouldUseRealtimeView now (aw_finalizeAt window) then
    built <~ buildAttendanceDetail req window
               (minTime now (minTime (aw_finalizeAt window) (aw_slotEnd window))) true ;;
    resp <~ applyManualOverridesToDetail (aw_date window) (dq_Section req) built.1 ;;
    st_ret (SetViewMetadata resp "current" false (aw_finalizeAt window))
  else GetAttendanceRecordFromDB req.

(** The statistics run: like a detail up to the end of the slot, without late
    users, and the users to notify. *)
Definition getAttendanceDetailWithLateUsers (req : AttendanceDetailRequest)
  : ST W (AttendanceDetailResponse * list User) := fun w =>
  match resolveAttendanceWindow req w with
  | (Err e, w) => (Err e, w)
  | (Ok window, w) =>
      let date := aw_date window in
      match attendance_groups_of date (dq_Week req) (dq_Section req) (aw_slotStart window) (aw_slotEnd window)
              (dq_DeptIDs req) w with
      | (Err e, w) => (Err e, w)
      | (Ok g, w) =>
          match period_at (dq_Section req) (aw_periods window) with
          | None => (Panic, w)
          | Some p =>
              match ag_should g with
              | [] =>
                  let '(resp, w) := enrichAttendanceDetailUsers (ag_active g) (empty_detail req p g) w in
                  (Ok (resp, []), w)
              | shouldAttend =>
                  (checks <~ getOnTimeUsers shouldAttend date (dq_Section req) (aw_lateDeadline window)
                               (aw_slotEnd window) ;;
                   fun w =>
                   let '(onTime, w) :=
                     applyCarryForward date (dq_Section req) (aw_periods window) shouldAttend checks.1 w in
                   let onTime := filterAttendanceChecks onTime
                     (mergeBoolSets [attendanceLeaveIDBoolSet (ag_leave g); userIDBoolSet (ag_rest g)]) in
                   let notArrived := calculateNotArrived shouldAttend onTime (ag_leave g) in
                   let resp :=
                     NewAttendanceDetailResponse (dq_Date req) (dq_Week req) (dq_Section req) (pd_Start p)
                       (pd_End p) shouldAttend onTime (ag_leave g) notArrived (toRestDayBasicList (ag_rest g))
                       (toBasicList (ag_course g)) in
                   let '(resp, w) := enrichAttendanceDetailUsers (ag_active g) resp w in
                   (resp <~ applyManualOverridesToDetail date (dq_Section req) resp ;;
                    st_ret (resp, buildNotifyList shouldAttend (li_OnTime (dr_Users resp))
                                    (li_Leave (dr_Users resp)))) w) w
              end
          end
      end
  end.

Definition FinalizeAttendanceRecord (req : AttendanceDetailRequest) : ST W AttendanceDetailResponse :=
  window <~ resolveAttendanceWindow req ;;
  built <~ buildAttendanceDetail req window (minTime (aw_finalizeAt window) (aw_slotEnd window)) true ;;
  resp <~ applyManualOverridesToDetail (aw_date window) (dq_Section req) built.1 ;;
  let resp := SetViewMetadata resp "final" true (aw_finalizeAt window) in
  SaveAttendanceRecord resp ~;; st_ret resp.

(** *** All sections of a day *)

Fixpoint st_mapM {A B} (f : A -> ST W B) (l : list A) : ST W (list B) :=
  match l with
  | [] => st_ret []
  | a :: l => b <~ f a ;; bs <~ st_mapM f l ;; st_ret (b :: bs)
  end.

Definition GetAttendanceRecordsByDate (date : Z) (deptIDs : list Z) : ST W (list AttendanceDetailResponse) := fun w =>
  match rr_ListByDate (srv_attendanceRecordRepo s) date w with
  | (Err e, w) => (Err (EWrap "获取考勤记录失败" e), w)
  | (Ok [], w) => (Err (ErrNotFoundWithMsg "该日期暂无考勤记录"), w)
  | (Ok records, w) =>
      let '(enabled, w) := isRestDayAttendanceEnabled w in
      if negb enabled then
        st_mapM (fun r => buildFinalAttendanceDetailForRead
          (mkDetailRequest (format_date date) (ar_Week r) (ar_Section r) deptIDs) (ar_ID r)) records w
      else
        deref (srv_userRepo s) (fun userRepo =>
          let userIDList := elements (list_to_set (flat_map extractAllUserIDs records) : gset Z) in
          fun w =>
          match ur_ListByIDs userRepo userIDList w with
          | (Err e, w) => (Err (EWrap "获取用户信息失败" e), w)
          | (Ok users, w) =>
              (userMap <~ buildUserMapWithDeptFilter users deptIDs ;;
               userDeptNames <~ ur_GetUserDepartmentNames userRepo userIDList ;;
               fun w =>
               let '((periods, e), w) := getActivePeriods w in
               let periods := match e with Some _ => sc_Periods (srv_scheduleCfg s) | None => periods end in
               (Ok (omap (fun record =>
                  match period_at (ar_Section record) periods with
                  | None => None
                  | Some p => Some (NewAttendanceDetailResponseFromRecord record (pd_Start p) (pd_End p) userMap
                                      userDeptNames)
                  end) records), w)) w
          end) w
  end.

(** ** Signing for users *)

Definition sign_request_ok (req : SignForUserRequest) : res unit :=
  guard (negb (bool_decide (sr_TargetUserIDs req = []))) (EMsg "target_user_ids is required") ;;;
  if negb (sr_RecordID req =? 0) then Ok tt
  else guard (match parse_date (sr_Date req) with Some _ => negb (sr_Section req <? 1) | None => false end)
         (EMsg "record_id or date and section is required").

Definition deriveAttendanceWeek (date : Z) : W -> Z * W := fun w =>
  match srv_semesterSrv s with
  | None => (1, w)
  | Some GetActiveSemester =>
      match GetActiveSemester w with
      | (Err _, w) => (1, w)
      | (Ok semester, w) =>
          (match CalculateWeekFromDate (Some semester) date with
           | (week, None) => if 0 <? week then week else 1
           | (_, Some _) => 1
           end, w)
      end
  end.

Definition resolveSignSlot (req : option SignForUserRequest) : ST W attendanceSignSlot := fun w =>
  match req with
  | None => (Err (ErrInvalidParamWithMsg "请求参数不能为空"), w)
  | Some req =>
      match sign_request_ok req with
      | Err e => (Err (ErrInvalidParamWithMsg (error_text e)), w)
      | Ok _ =>
          if negb (sr_RecordID req =? 0) then
            match rr_FindByID (srv_attendanceRecordRepo s) (sr_RecordID req) w with
            | (Err e, w) =>
                (Err (if errors_Is e ErrRecordNotFound then ErrNotFoundWithMsg "未找到考勤记录" else e), w)
            | (Ok record, w) =>
                (Ok (mkSlot (normalizeAttendanceDate (ar_Date record)) (ar_Week record) (ar_Section record)
                       (Some record)), w)
            end
          else
            match parse_local_date (sr_Date req) with
            | None => (Err (ErrInvalidParamWithMsg "日期格式错误"), w)
            | Some date =>
                let date := normalizeAttendanceDate date in
                let '(periods, w) := resolveActivePeriods w in
                if (sr_Section req <=? 0) || (len periods <? sr_Section req)
                then (Err (ErrInvalidParamWithMsg "节次无效"), w)
                else
                  let '(week, w) := deriveAttendanceWeek date w in
                  match rr_FindByDateSection (srv_attendanceRecordRepo s) date (sr_Section req) w with
                  | (Ok record, w) =>
                      (Ok (mkSlot date (if 0 <? ar_Week record then ar_Week record else week) (sr_Section req)
                             (Some record)), w)
                  | (Err e, w) =>
                      if errors_Is e ErrRecordNotFound then (Ok (mkSlot date week (sr_Section req) None), w)
                      else (Err e, w)
                  end
            end
      end
  end.

Definition loadAttendanceDetailForSign (slot : attendanceSignSlot) : ST W AttendanceDetailResponse :=
  let req := mkDetailRequest (format_date (as_date slot)) (as_week slot) (as_section slot) [] in
  match as_record slot with
  | Some _ => GetAttendanceRecordFromDB req
  | None =>
      window <~ resolveAttendanceWindow req ;;
      now <~ currentTime ;;
      built <~ buildAttendanceDetail req window
                 (minTime now (minTime (aw_finalizeAt window) (aw_slotEnd window))) true ;;
      applyManualOverridesToDetail (as_date slot) (as_section slot) built.1
  end.

(** [tenant] is the context's. *)
Definition resolveOverrideTenantID (tenant : option Z) (slot : attendanceSignSlot) (targetUserIDs : list Z)
  : W -> Z * W := fun w =>
  let of_users w :=
    match srv_userRepo s, targetUserIDs with
    | None, _ | _, [] => (0, w)
    | Some userRepo, _ =>
        match ur_ListByIDs userRepo targetUserIDs w with
        | (Ok (u :: _), w) => (us_TenantID u, w)
        | (_, w) => (0, w)
        end
    end in
  let of_context w := match tenant with Some t => (t, w) | None => of_users w end in
  match as_record slot with
  | Some record => if negb (ar_TenantID record =? 0) then (ar_TenantID record, w) else of_context w
  | None => of_context w
  end.

(** Nobody outside the late and the absent, or those already signed for. *)
Definition check_signable (detail : AttendanceDetailResponse) (overrides : list AttendanceManualOverride)
    (targets : list Z) : res unit :=
  let signable : gset Z :=
    list_to_set (List.map ak_ID (li_Late (dr_Users detail)) ++ List.map ab_ID (li_NotArrived (dr_Users detail))) in
  let overrideSet : gset Z :=
    list_to_set (List.map mo_UserID
      (List.filter (fun o => eqs (mo_OverrideType o) attendanceOverrideTypeForceOnTime) overrides)) in
  list_checkM (fun id =>
    guard (bool_decide (id ∈ signable) || bool_decide (id ∈ overrideSet))
      (BizError CodeOperationFailed "目标用户不在当前可代签范围内")) targets.

Fixpoint upsert_all (repo : ManualOverrideRepository W) (overrides : list AttendanceManualOverride) : ST W unit :=
  match overrides with
  | [] => st_ret tt
  | o :: overrides => fun w =>
      match or_UpsertForceOnTime repo o w with
      | (Err e, w) => (Err (EWrap "写入人工代签覆盖失败" e), w)
      | (Ok _, w) => upsert_all repo overrides w
      end
  end.

(** The record of the slot, looked up again after the overrides are written,
    and the week it has. *)
Definition slot_record (slot : attendanceSignSlot) (slotDate : Z) : ST W (option AttendanceRecord * Z) := fun w =>
  match as_record slot with
  | Some record => (Ok (Some record, as_week slot), w)
  | None =>
      match rr_FindByDateSection (srv_attendanceRecordRepo s) slotDate (as_section slot) w with
      | (Ok record, w) => (Ok (Some record, if 0 <? ar_Week record then ar_Week record else as_week slot), w)
      | (Err e, w) => if errors_Is e ErrRecordNotFound then (Ok (None, as_week slot), w) else (Err e, w)
      end
  end.

Definition SignForUsers (tenant : option Z) (request : option SignForUserRequest) : ST W SignForUserResponse :=
  slot <~ resolveSignSlot request ;;
  detail <~ loadAttendanceDetailForSign slot ;;
  let targets := match request with Some r => sr_TargetUserIDs r | None => [] end in
  let operator := match request with Some r => sr_OperatorID r | None => 0 end in
  match srv_manualOverrideRepo s with
  | None => st_fail (BizError CodeInternalError "人工代签覆盖仓储未初始化")
  | Some repo =>
      overrides <~ (fun w => let '(r, w) := or_ListByDateSection repo (as_date slot) (as_section slot) w in
                             (wrap_err "获取人工代签覆盖失败" r, w)) ;;
      st_lift (check_signable detail overrides targets) ~;;
      appliedAt <~ currentTime ;;
      let slotDate := normalizeAttendanceDate (as_date slot) in
      tenantID <~ (fun w => let '(t, w) := resolveOverrideTenantID tenant slot targets w in (Ok t, w)) ;;
      upsert_all repo (List.map (fun id =>
        mkOverride tenantID slotDate (as_week slot) (as_section slot) id attendanceOverrideTypeForceOnTime
          operator appliedAt) targets) ~;;
      found <~ slot_record slot slotDate ;;
      (match found.1 with
       | None => st_ret tt
       | Some _ =>
           snapshotResp <~ GetAttendanceRecordFromDB
             (mkDetailRequest (format_date slotDate) found.2 (as_section slot) []) ;;
           SaveAttendanceRecord snapshotResp
       end) ~;;
      st_ret (mkSignResponse targets [])
  end.

(** ** Notices *)

Definition holiday_label (section : Z) (other : string) : string :=
  if section =? 1 then "上午" else if section =? 2 then "下午" else if section =? 3 then "晚上" else other.

Definition late_notice (date : string) (section : Z) (slotStart slotEnd mode : string) : string :=
  let periodLabel :=
    if eqs mode ScheduleModeHoliday then holiday_label section ("第" +:+ itoa section +:+ "次")
    else "第" +:+ itoa section +:+ "节" in
  "你在" +:+ date +:+ " " +:+ periodLabel +:+ "考勤(" +:+ slotStart +:+ "-" +:+ slotEnd
  +:+ ")未正常打卡，请及时补签或联系管理员。".

Definition SendLateNotifications (date : string) (section : Z) (slotStart slotEnd mode : string)
    (lateUsers : list User) : ST W unit := fun w =>
  match lateUsers with
  | [] => (Ok tt, w)
  | _ =>
      let '(enabled, w) :=
        match srv_scheduleSettingRepo s with
        | None => (true, w)
        | Some db => let '((enabled, _), w) := @IsLateNotifyEnabled W db w in (enabled, w)
        end in
      if negb enabled then (Ok tt, w)
      else
        match srv_dingMgr s with
        | None => (Err (BizError CodeInternalError "钉钉租户管理器未初始化"), w)
        | Some FromContext =>
            match FromContext w with
            | (Err _, w) => (Err (BizError CodeUnauthorized "缺少租户信息"), w)
            | (Ok dingClient, w) =>
                if eqs (dc_AgentID dingClient) "" then (Err (BizError CodeInvalidParam "钉钉AgentID未配置"), w)
                else
                  match List.filter (fun id => negb (eqs id "")) (List.map us_DingUserID lateUsers) with
                  | [] => (Ok tt, w)
                  | dingUserIDs =>
                      let '(r, w) := dc_SendWorkNoticeText dingClient (dc_AgentID dingClient) dingUserIDs
                                       (late_notice date section slotStart slotEnd mode) w in
                      (wrap_err "发送钉钉迟到提醒失败" r, w)
                  end
            end
        end
  end.
End service.
