(* ===== verification/AttendanceSpec.v ===== *)
(** * Properties of attendance records

    Everybody who has to attend a section is accounted for exactly as the
    lists and the statistics say; corrections by hand move users to the
    on-time list and nothing else; stored records read back. *)
From Stdlib Require Import ZArith Lia Bool String.
From stdpp Require Import base list strings gmap.
From S2P Require Import Prelude GoStrings GoTime Json JsonLax Contract ScheduleParse Calendar Settings Attendance.
#[local] Open Scope go_scope.

(** ** Sets of ids *)

Definition user_ids (l : list User) : gset Z := userIDBoolSet l.
Definition basic_ids (l : list AttendanceUserBasic) : gset Z := list_to_set (List.map ab_ID l).
Definition check_ids (l : list AttendanceUserCheck) : gset Z := list_to_set (List.map ak_ID l).
Definition leave_ids (l : list AttendanceUserLeave) : gset Z := attendanceLeaveIDBoolSet l.

Lemma elem_ids {A} (id : A -> Z) (l : list A) k :
  k ∈ (list_to_set (List.map id l) : gset Z) <-> exists x, x ∈ l /\ id x = k.
Proof.
  rewrite elem_of_list_to_set, list_elem_of_In, in_map_iff. setoid_rewrite list_elem_of_In. naive_solver.
Qed.

Lemma filter_out_elem {A} (id : A -> Z) l ex x : x ∈ filter_out id l ex <-> x ∈ l /\ id x ∉ ex.
Proof.
  unfold filter_out. case_decide as E; [subst; set_solver|].
  rewrite list_elem_of_In, filter_In, <- list_elem_of_In. destruct (bool_decide_reflect (id x ∈ ex)); cbn; naive_solver.
Qed.

Lemma filter_out_ids {A} (id : A -> Z) l ex :
  (list_to_set (List.map id (filter_out id l ex)) : gset Z) = list_to_set (List.map id l) ∖ ex.
Proof. apply set_eq. intros k. rewrite elem_of_difference, !elem_ids. setoid_rewrite filter_out_elem. naive_solver. Qed.

Lemma filter_not_in {A} (id : A -> Z) (X : gset Z) l :
  (list_to_set (List.map id (List.filter (fun x => negb (bool_decide (id x ∈ X))) l)) : gset Z)
  = list_to_set (List.map id l) ∖ X.
Proof.
  apply set_eq. intros k. rewrite elem_of_difference, !elem_ids. setoid_rewrite list_elem_of_In.
  setoid_rewrite filter_In. setoid_rewrite negb_true_iff. setoid_rewrite bool_decide_eq_false. naive_solver.
Qed.

Lemma filter_sub {A} (id : A -> Z) p (l : list A) :
  (list_to_set (List.map id (List.filter p l)) : gset Z) ⊆ list_to_set (List.map id l).
Proof.
  intros k. rewrite !elem_ids. setoid_rewrite list_elem_of_In. setoid_rewrite filter_In. naive_solver.
Qed.

Lemma map_map_ids {A B} (id : B -> Z) (f : A -> B) (l : list A) :
  List.map id (List.map f l) = List.map (fun x => id (f x)) l.
Proof. apply map_map. Qed.

Lemma merge_two (a b : gset Z) : mergeBoolSets [a; b] = a ∪ b.
Proof. unfold mergeBoolSets. cbn. by rewrite (right_id_L ∅ (∪)). Qed.

Lemma user_map_elem users k u :
  user_map users !! k = Some u -> u ∈ users /\ us_ID u = k.
Proof.
  unfold user_map. enough (H : forall m, foldl (fun m u => <[us_ID u := u]> m) m users !! k = Some u ->
    m !! k = Some u \/ (u ∈ users /\ us_ID u = k)) by (intros E; apply H in E as [E|E]; [by rewrite lookup_empty in E|done]).
  induction users as [|v users IH]; intros m; cbn; [by left|]. intros E. apply IH in E as [E|[E1 E2]]; [|set_solver].
  apply lookup_insert_Some in E as [[<- <-]|[_ E]]; [right; set_solver|by left].
Qed.

Lemma user_map_dom users : dom (user_map users) = user_ids users.
Proof.
  unfold user_map, user_ids, userIDBoolSet.
  enough (H : forall m : gmap Z User, dom (foldl (fun m u => <[us_ID u := u]> m) m users)
            = dom m ∪ list_to_set (List.map us_ID users)) by (rewrite H, dom_empty_L; set_solver).
  induction users as [|v users IH]; intros m; cbn; [set_solver|]. rewrite IH, dom_insert_L. set_solver.
Qed.

(** ** The groups of the candidates *)

Lemma leave_users_ids users seen leaves :
  (forall k u, users !! k = Some u -> us_ID u = k) ->
  leave_ids (leave_users users seen leaves) ⊆ dom users ∖ seen.
Proof.
  intros Hu. revert seen. induction leaves as [|l leaves IH]; intros seen; cbn -[union]; [set_solver|].
  case_bool_decide as Hs; [apply IH|]. destruct (users !! la_UserID l) as [u|] eqn:E.
  - pose proof (Hu _ _ E) as Hid. apply elem_of_dom_2 in E. specialize (IH ({[la_UserID l]} ∪ seen)).
    unfold leave_ids, attendanceLeaveIDBoolSet in *. cbn. rewrite Hid. set_solver.
  - specialize (IH ({[la_UserID l]} ∪ seen)). set_solver.
Qed.

Section groups.
Context `{LOC : Location} `{MO : MapOrder} {W : Type} (s : AttendanceRecordService W).

(** What the groups of a day and section are to each other. *)
Record groups_ok (g : attendance_groups) : Prop := {
  go_rest : user_ids (ag_rest g) ⊆ user_ids (ag_active g);
  go_course : user_ids (ag_course g) ⊆ user_ids (ag_active g);
  go_leave : leave_ids (ag_leave g) ⊆ user_ids (ag_active g);
  go_rest_leave : leave_ids (ag_leave g) ## user_ids (ag_rest g);
  go_rest_course : user_ids (ag_course g) ## user_ids (ag_rest g);
  go_leave_course : leave_ids (ag_leave g) ## user_ids (ag_course g);
  go_should : user_ids (ag_should g) = user_ids (ag_active g) ∖ (user_ids (ag_rest g) ∪ user_ids (ag_course g)) }.

Lemma candidates_course date week section deptIDs w active course w' :
  getAttendanceCandidatesWithCourseUsers s date week section deptIDs w = (Ok (active, course), w') ->
  user_ids course ⊆ user_ids active.
Proof.
  unfold getAttendanceCandidatesWithCourseUsers, deref.
  destruct (srv_userRepo s) as [repo|]; [|done].
  destruct (ur_ListAttendanceCandidates repo deptIDs w) as [[[|u l]|e] w1]; [by intros [= <- <- <-]| |done].
  destruct (shouldUseAllAttendMode s date w1) as [[] w2]; [by intros [= <- <- <-]; set_solver|].
  destruct (srv_courseRepo s _ _ _ w2) as [[courses|e] w3]; [|done]. intros [= <- <- <-].
  exact (filter_sub us_ID _ (u :: l)).
Qed.

Lemma rest_days users day w : user_ids (filterRestDayUsers s users day w).1 ⊆ user_ids users.
Proof.
  unfold filterRestDayUsers. destruct users as [|u users]; [done|].
  destruct (srv_restDayRepo s) as [rows|]; [|set_solver]. destruct (isRestDayAttendanceEnabled s w) as [[] w1]; [|set_solver].
  cbn [negb]. destruct (rows _ w1) as [[restDays|e] w2]; [|set_solver].
  exact (filter_sub us_ID _ (u :: users)).
Qed.

Lemma leave_of users a b w leave w' :
  getLeaveUsers s users a b w = (Ok leave, w') -> leave_ids leave ⊆ user_ids users.
Proof.
  unfold getLeaveUsers, deref. destruct users as [|u users]; [by intros [= <- <-]|].
  destruct (srv_leaveRepo s) as [rows|]; [|done]. destruct (rows _ _ _ w) as [[leaves|e] w1]; [|done]. intros [= <- <-].
  pose proof (leave_users_ids (user_map (u :: users)) ∅ leaves) as H.
  rewrite user_map_dom in H. rewrite H; [set_solver|]. intros k v Hv. by apply user_map_elem in Hv as [_ ?].
Qed.

Lemma groups_partition date week section a b deptIDs w g w' :
  attendance_groups_of s date week section a b deptIDs w = (Ok g, w') -> groups_ok g.
Proof.
  unfold attendance_groups_of.
  destruct (getAttendanceCandidatesWithCourseUsers s date week section deptIDs w) as [[[active course]|e] w1] eqn:E1; [|done].
  apply candidates_course in E1. pose proof (rest_days active (WeekdayMon1Sun7 date) w1) as Hr.
  destruct (filterRestDayUsers s active _ w1) as [rest w2]. cbn in Hr.
  destruct (getLeaveUsers s _ a b w2) as [[leave|e] w3] eqn:E3; [|done]. intros [= <- <-].
  apply leave_of in E3. rewrite !(right_id_L ∅ (∪)).
  unfold user_ids, filterModelUsers, userIDBoolSet in *. rewrite filter_out_ids in E3.
  split; cbn; unfold user_ids, userIDBoolSet, filterModelUsers; rewrite ?filter_out_ids;
    fold (leave_ids leave); set_solver.
Qed.

(** ** Who checked in *)

Lemma users_by_ding_elem users d u :
  users_by_ding_id users !! d = Some u -> u ∈ users /\ us_DingUserID u = d /\ d <> "".
Proof.
  unfold users_by_ding_id.
  enough (H : forall m, foldl (fun m u => if eqs (us_DingUserID u) "" then m else <[us_DingUserID u := u]> m) m users !! d
      = Some u -> m !! d = Some u \/ (u ∈ users /\ us_DingUserID u = d /\ d <> ""))
    by (intros E; apply H in E as [E|E]; [by rewrite lookup_empty in E|done]).
  induction users as [|v users IH]; intros m; cbn; [by left|]. intros E. apply IH in E as [E|(E1 & E2)]; [|set_solver].
  destruct (eqs (us_DingUserID v) "") eqn:Ev; [by left|]. apply eqs_false in Ev.
  apply lookup_insert_Some in E as [[<- <-]|[_ E]]; [right; set_solver|by left].
Qed.

Lemma counted_elem users start keep l c :
  c ∈ counted_checks users start keep l
  <-> exists d u, (d, ak_CheckTime c) ∈ l /\ users !! d = Some u /\ start <= ak_CheckTime c
        /\ keep (ak_CheckTime c) = true /\ c = mkCheck (us_ID u) (us_Name u) "" "" (ak_CheckTime c).
Proof.
  unfold counted_checks. rewrite list_elem_of_In, in_flat_map. setoid_rewrite <- list_elem_of_In. split.
  - intros ([d t] & Hd & H). destruct (users !! d) as [u|] eqn:Eu; [|by apply elem_of_nil in H].
    unfold before in H. destruct (Z.ltb_spec t start); [by apply elem_of_nil in H|].
    destruct (keep t) eqn:Ek; [|by apply elem_of_nil in H]. apply list_elem_of_singleton in H as ->.
    exists d, u. cbn. split_and!; try done; lia.
  - intros (d & u & Hd & Hu & Ht & Hk & ->). exists (d, ak_CheckTime c). split; [done|]. cbn. rewrite Hu. cbn in *.
    unfold before. destruct (Z.ltb_spec (ak_CheckTime c) start); [lia|]. rewrite Hk. by left.
Qed.

Lemma on_time_users users date section deadline queryEnd w onTime late w' :
  getOnTimeUsers s users date section deadline queryEnd w = (Ok (onTime, late), w') ->
  check_ids onTime ⊆ user_ids users /\ check_ids late ⊆ user_ids users.
Proof.
  unfold getOnTimeUsers.
  destruct (List.filter _ _) as [|d ds]; [intros [= <- <- <-]; set_solver|].
  destruct (calculateCheckWindowStart s date section w) as [[start|e] w1]; [|done].
  destruct (loadAttendanceRecords s (d :: ds) start queryEnd w1) as [[records|e] w2]; [|done]. intros [= <- <- <-].
  split; intros k Hk; unfold check_ids, user_ids, userIDBoolSet in *; apply elem_ids in Hk as (c & Hc & <-); apply elem_ids; apply counted_elem in Hc as (d' & u & _ & Hu & _ & _ & Ec);
    apply users_by_ding_elem in Hu as (Hu & _); exists u; (split; [done|by rewrite Ec]).
Qed.

(** The users of the section before who are carried into this one. *)
Lemma carry_forward_ids should prev onTime :
  (forall k u, should !! k = Some u -> us_ID u = k) ->
  check_ids (carry_forward should prev onTime)
  = check_ids onTime ∪ (list_to_set (List.map sc_ID prev) ∩ dom should).
Proof.
  intros Hs. unfold carry_forward.
  enough (H : forall current l, check_ids l = current ->
    check_ids (foldl (fun '(current, onTime) p =>
      if bool_decide (sc_ID p ∈ current) then (current, onTime)
      else match should !! sc_ID p with
           | None => (current, onTime)
           | Some u => ({[us_ID u]} ∪ current,
               onTime ++ [mkCheck (us_ID u) (us_Name u) (us_Avatar u) "" (unix_time (sc_CheckTime p))])
           end) (current, l) prev).2
    = check_ids l ∪ (list_to_set (List.map sc_ID prev) ∩ dom should)) by (by apply H).
  induction prev as [|p prev IH]; intros current l Hc; cbn -[union]; [set_solver|].
  case_bool_decide as Hp; [rewrite IH by done; set_solver|].
  destruct (should !! sc_ID p) as [u|] eqn:E.
  - pose proof (Hs _ _ E) as Hid. apply elem_of_dom_2 in E.
    assert (Hl : check_ids (l ++ [mkCheck (us_ID u) (us_Name u) (us_Avatar u) "" (unix_time (sc_CheckTime p))])
                 = {[us_ID u]} ∪ check_ids l)
      by (unfold check_ids; rewrite map_app, list_to_set_app_L; cbn; set_solver).
    rewrite IH by (by rewrite Hl, Hc). rewrite Hl, Hid. set_solver.
  - apply not_elem_of_dom_2 in E. rewrite IH by done. set_solver.
Qed.

Lemma carried date section periods should onTime w :
  let onTime' := (applyCarryForward s date section periods should onTime w).1 in
  check_ids onTime ⊆ check_ids onTime' /\ check_ids onTime' ⊆ check_ids onTime ∪ user_ids should.
Proof.
  unfold applyCarryForward. repeat (case_if; [set_solver|]).
  destruct (gap_minutes section periods) as [g|]; [|set_solver]. case_if; [set_solver|].
  destruct (rr_FindByDateSection _ _ _ w) as [[prev|e] w1]; [|set_solver]. cbn [fst].
  rewrite carry_forward_ids by (intros k u Hu; by apply user_map_elem in Hu as [_ ?]).
  rewrite user_map_dom. set_solver.
Qed.

Lemma not_arrived_ids should onTime late leave :
  basic_ids (calculateNotArrivedWithLate should onTime late leave)
  = user_ids should ∖ (check_ids onTime ∪ check_ids late ∪ leave_ids leave).
Proof.
  unfold basic_ids, calculateNotArrivedWithLate. rewrite map_map_ids. cbn [ab_ID].
  apply filter_not_in.
Qed.

Lemma notify_ids should onTime leave :
  user_ids (buildNotifyList should onTime leave) = user_ids should ∖ (check_ids onTime ∪ leave_ids leave).
Proof.
  unfold user_ids at 1, userIDBoolSet, buildNotifyList. apply filter_not_in.
Qed.

(** ** The detail *)

(** Every candidate has to attend, rests or has a course, and is exactly one of
    these; those who have to attend are the on time, the late, those on leave
    and the absent, where leave and absence exclude all else; the statistics
    count the lists. *)
Record accounted (active : gset Z) (resp : AttendanceDetailResponse) : Prop := {
  ac_candidates : active = basic_ids (li_ShouldAttend (dr_Users resp)) ∪ basic_ids (li_RestDay (dr_Users resp))
                           ∪ basic_ids (li_HasCourse (dr_Users resp));
  ac_rest : basic_ids (li_RestDay (dr_Users resp)) ## basic_ids (li_ShouldAttend (dr_Users resp));
  ac_course : basic_ids (li_HasCourse (dr_Users resp)) ##
              basic_ids (li_ShouldAttend (dr_Users resp)) ∪ basic_ids (li_RestDay (dr_Users resp));
  ac_should : basic_ids (li_ShouldAttend (dr_Users resp))
    = check_ids (li_OnTime (dr_Users resp)) ∪ check_ids (li_Late (dr_Users resp))
      ∪ leave_ids (li_Leave (dr_Users resp)) ∪ basic_ids (li_NotArrived (dr_Users resp));
  ac_leave : leave_ids (li_Leave (dr_Users resp)) ##
             check_ids (li_OnTime (dr_Users resp)) ∪ check_ids (li_Late (dr_Users resp));
  ac_absent : basic_ids (li_NotArrived (dr_Users resp)) ##
    check_ids (li_OnTime (dr_Users resp)) ∪ check_ids (li_Late (dr_Users resp))
    ∪ leave_ids (li_Leave (dr_Users resp));
  ac_counts : dr_Statistics resp = mkStatistics (len (li_ShouldAttend (dr_Users resp)))
    (len (li_OnTime (dr_Users resp))) (len (li_Late (dr_Users resp))) (len (li_Leave (dr_Users resp)))
    (len (li_NotArrived (dr_Users resp))) (len (li_RestDay (dr_Users resp))) (len (li_HasCourse (dr_Users resp))) }.

Lemma fill_ids {A} (id : A -> Z) (f : A -> A) l :
  (forall x, id (f x) = id x) -> (list_to_set (List.map id (List.map f l)) : gset Z) = list_to_set (List.map id l).
Proof. intros H. rewrite map_map. by rewrite (map_ext _ id). Qed.

Lemma len_map {A B} (f : A -> B) l : len (List.map f l) = len l.
Proof. unfold len. by rewrite length_map. Qed.

Lemma fill_basic_id m d b : ab_ID (fill_basic m d b) = ab_ID b.
Proof. unfold fill_basic. by destruct (m !! _). Qed.
Lemma fill_check_id m d c : ak_ID (fill_check m d c) = ak_ID c.
Proof. unfold fill_check. by destruct (m !! _). Qed.
Lemma fill_leave_id m d l : al_ID (fill_leave m d l) = al_ID l.
Proof. unfold fill_leave. by destruct (m !! _). Qed.

(** Filling in profiles changes nobody. *)
Lemma enrich_accounted users resp w active :
  accounted active resp -> accounted active (enrichAttendanceDetailUsers s users resp w).1.
Proof.
  intros H. unfold enrichAttendanceDetailUsers. destruct users as [|u users]; [done|].
  destruct (match srv_userRepo s with Some _ => _ | None => _ end) as [depts w1]. cbn [fst].
  destruct H. split; cbn; unfold basic_ids, check_ids, leave_ids, attendanceLeaveIDBoolSet in *;
    rewrite ?(fill_ids ab_ID) by (apply fill_basic_id); rewrite ?(fill_ids ak_ID) by (apply fill_check_id);
    rewrite ?(fill_ids al_ID) by (apply fill_leave_id); rewrite ?len_map; done.
Qed.

Lemma enrich_lists users resp w :
  let u := dr_Users resp in let u' := dr_Users (enrichAttendanceDetailUsers s users resp w).1 in
  check_ids (li_OnTime u') = check_ids (li_OnTime u) /\ leave_ids (li_Leave u') = leave_ids (li_Leave u)
  /\ basic_ids (li_ShouldAttend u') = basic_ids (li_ShouldAttend u).
Proof.
  unfold enrichAttendanceDetailUsers. destruct users as [|v users]; [done|].
  destruct (match srv_userRepo s with Some _ => _ | None => _ end) as [depts w1]. cbn.
  unfold basic_ids, check_ids, leave_ids, attendanceLeaveIDBoolSet.
  rewrite (fill_ids ab_ID) by (apply fill_basic_id). rewrite (fill_ids ak_ID) by (apply fill_check_id).
  by rewrite (fill_ids al_ID) by (apply fill_leave_id).
Qed.

(** The same in sets: candidates, rest, course, leave, on time and late. *)
Lemma partition_sets (A R C L O T : gset Z) :
  let S := A ∖ (R ∪ C) in
  R ⊆ A -> C ⊆ A -> L ⊆ A -> L ## R -> C ## R -> L ## C -> O ⊆ S -> T ⊆ S -> O ## L -> T ## L ->
  A = S ∪ R ∪ C /\ R ## S /\ C ## S ∪ R /\ S = O ∪ T ∪ L ∪ S ∖ (O ∪ T ∪ L) /\ L ## O ∪ T
  /\ S ∖ (O ∪ T ∪ L) ## O ∪ T ∪ L.
Proof.
  intros S HR HC HL HLR HCR HLC HO HT HOL HTL.
  assert (HS : forall k, k ∈ S <-> k ∈ A /\ k ∉ R /\ k ∉ C)
    by (intros k; unfold S; rewrite elem_of_difference, elem_of_union; tauto).
  split_and!.
  - apply set_eq. intros k. rewrite !elem_of_union, HS. specialize (HR k). specialize (HC k).
    destruct (decide (k ∈ R)), (decide (k ∈ C)); tauto.
  - intros k. rewrite HS. tauto.
  - intros k Hk. rewrite elem_of_union, HS. specialize (HCR k). tauto.
  - apply set_eq. intros k. rewrite !elem_of_union, elem_of_difference, !elem_of_union.
    specialize (HO k). specialize (HT k).
    assert (k ∈ L -> k ∈ S) by (rewrite HS; specialize (HL k); specialize (HLR k); specialize (HLC k); tauto).
    destruct (decide (k ∈ O)), (decide (k ∈ T)), (decide (k ∈ L)); tauto.
  - intros k Hk. rewrite elem_of_union. specialize (HOL k). specialize (HTL k). tauto.
  - intros k. rewrite elem_of_difference. tauto.
Qed.

Lemma basic_ids_map f (l : list User) : (forall u, ab_ID (f u) = us_ID u) -> basic_ids (List.map f l) = user_ids l.
Proof. intros Hf. unfold basic_ids. rewrite map_map. by rewrite (map_ext _ us_ID). Qed.

(** The detail before the profiles, from the groups and the check-ins. *)
Lemma raw_accounted g date week section a b onTime late (split : bool) :
  groups_ok g ->
  check_ids onTime ⊆ user_ids (ag_should g) -> check_ids late ⊆ user_ids (ag_should g) ->
  check_ids onTime ## leave_ids (ag_leave g) -> check_ids late ## leave_ids (ag_leave g) ->
  let notArrived := if split then calculateNotArrivedWithLate (ag_should g) onTime late (ag_leave g)
                    else calculateNotArrived (ag_should g) onTime (ag_leave g) in
  let resp := NewAttendanceDetailResponse date week section a b (ag_should g) onTime (ag_leave g) notArrived
                (toRestDayBasicList (ag_rest g)) (toBasicList (ag_course g)) in
  accounted (user_ids (ag_active g)) (if split then with_late late resp else resp).
Proof.
  intros [H1 H2 H3 H4 H5 H6 H7] Ho Hl Hol Hll. rewrite H7 in Ho, Hl.
  assert (Hn : check_ids [] = ∅) by done.
  pose proof (partition_sets _ _ _ _ _ _ H1 H2 H3 H4 H5 H6 Ho Hl Hol Hll) as P1.
  pose proof (partition_sets _ _ _ _ _ (@empty (gset Z) gset_empty) H1 H2 H3 H4 H5 H6 Ho ltac:(set_solver) Hol ltac:(set_solver)) as P2.
  destruct P1 as (A1 & A2 & A3 & A4 & A5 & A6), P2 as (B1 & B2 & B3 & B4 & B5 & B6).
  destruct split; split; cbn -[len calculateNotArrived calculateNotArrivedWithLate basic_ids check_ids leave_ids user_ids];
    unfold toRestDayBasicList, toBasicList, calculateNotArrived;
    rewrite ?basic_ids_map, ?not_arrived_ids, ?len_map by done; rewrite ?Hn, ?H7; done.
Qed.

Lemma groups_active date week section a b deptIDs w g w' :
  attendance_groups_of s date week section a b deptIDs w = (Ok g, w') ->
  exists course w1, getAttendanceCandidatesWithCourseUsers s date week section deptIDs w = (Ok (ag_active g, course), w1).
Proof.
  unfold attendance_groups_of.
  destruct (getAttendanceCandidatesWithCourseUsers s date week section deptIDs w) as [[[active course]|e] w1]; [|done].
  destruct (filterRestDayUsers s active _ w1) as [rest w2].
  destruct (getLeaveUsers s _ a b w2) as [[leave|e] w3]; [|done]. intros [= <- <-]. by exists course, w1.
Qed.

Lemma filter_checks_ids l ex : check_ids (filterAttendanceChecks l ex) = check_ids l ∖ ex.
Proof. apply filter_out_ids. Qed.

(** Those to notify: who has to attend and is neither on time nor on leave. *)
Definition notifies (notify : list User) (resp : AttendanceDetailResponse) : Prop :=
  user_ids notify = basic_ids (li_ShouldAttend (dr_Users resp))
                    ∖ (check_ids (li_OnTime (dr_Users resp)) ∪ leave_ids (li_Leave (dr_Users resp))).

Lemma nobody_on_leave g : groups_ok g -> ag_should g = [] -> ag_leave g = [].
Proof.
  intros [_ _ H3 H4 _ H6 H7] Es. rewrite Es in H7. unfold user_ids at 1 in H7. cbn in H7.
  destruct (ag_leave g) as [|x l]; [done|]. exfalso.
  assert (al_ID x ∈ leave_ids (x :: l)) as Hk by (unfold leave_ids, attendanceLeaveIDBoolSet; cbn; set_solver).
  specialize (H3 _ Hk). specialize (H4 _ Hk). specialize (H6 _ Hk).
  assert (al_ID x ∈ (∅ : gset Z)); [|set_solver]. rewrite H7, elem_of_difference, elem_of_union. tauto.
Qed.

Lemma empty_accounted g req p :
  groups_ok g -> ag_should g = [] ->
  accounted (user_ids (ag_active g)) (empty_detail req p g) /\ notifies [] (empty_detail req p g).
Proof.
  intros Hg Es. pose proof (nobody_on_leave g Hg Es) as Hnil.
  pose proof (raw_accounted g (dq_Date req) (dq_Week req) (dq_Section req) (pd_Start p) (pd_End p) [] [] false Hg
    ltac:(done) ltac:(done) ltac:(done) ltac:(done)) as H.
  cbv zeta in H. unfold empty_detail. rewrite Es, Hnil in H. rewrite Es. split; [exact H|].
  unfold notifies. cbn. set_solver.
Qed.

(** The detail before the profiles, when somebody has to attend. *)
Definition raw_detail (req : AttendanceDetailRequest) (p : Period) (g : attendance_groups) (split : bool)
    (onTime late : list AttendanceUserCheck) : AttendanceDetailResponse :=
  let excluded := mergeBoolSets [attendanceLeaveIDBoolSet (ag_leave g); userIDBoolSet (ag_rest g)] in
  let onTime := filterAttendanceChecks onTime excluded in
  let late := filterAttendanceChecks late excluded in
  let notArrived := if split then calculateNotArrivedWithLate (ag_should g) onTime late (ag_leave g)
                    else calculateNotArrived (ag_should g) onTime (ag_leave g) in
  let resp := NewAttendanceDetailResponse (dq_Date req) (dq_Week req) (dq_Section req) (pd_Start p) (pd_End p)
                (ag_should g) onTime (ag_leave g) notArrived (toRestDayBasicList (ag_rest g))
                (toBasicList (ag_course g)) in
  if split then with_late late resp else resp.

Lemma full_accounted g req p split date section periods deadline queryEnd w onTime late w' w'' :
  groups_ok g ->
  getOnTimeUsers s (ag_should g) date section deadline queryEnd w = (Ok (onTime, late), w') ->
  let onTime' := (applyCarryForward s date section periods (ag_should g) onTime w'').1 in
  let raw := raw_detail req p g split onTime' late in
  accounted (user_ids (ag_active g)) raw
  /\ notifies (buildNotifyList (ag_should g) (li_OnTime (dr_Users raw)) (ag_leave g)) raw.
Proof.
  intros Hg Eo onTime' raw. apply on_time_users in Eo as [Ho Hl].
  pose proof (carried date section periods (ag_should g) onTime w'') as [_ Hc]. fold onTime' in Hc.
  assert (Hex : leave_ids (ag_leave g) ⊆ mergeBoolSets [attendanceLeaveIDBoolSet (ag_leave g); userIDBoolSet (ag_rest g)])
    by (rewrite merge_two; set_solver).
  split.
  - apply raw_accounted; [done|..]; rewrite filter_checks_ids; set_solver.
  - unfold notifies. rewrite notify_ids. subst raw. unfold raw_detail.
    destruct split; cbn -[basic_ids check_ids leave_ids user_ids mergeBoolSets]; by rewrite basic_ids_map.
Qed.

Lemma enrich_keeps users resp w r w' active notify :
  enrichAttendanceDetailUsers s users resp w = (r, w') ->
  accounted active resp /\ notifies notify resp -> accounted active r /\ notifies notify r.
Proof.
  intros E [Ha Hn]. pose proof (enrich_accounted users resp w _ Ha) as H.
  destruct (enrich_lists users resp w) as (H1 & H2 & H3). rewrite E in *. cbn in *.
  split; [done|]. unfold notifies in *. by rewrite H1, H2, H3.
Qed.

(** What the detail is built to satisfy. *)
Lemma detail_accounted req window attendanceEnd split w resp notify w' :
  buildAttendanceDetail s req window attendanceEnd split w = (Ok (resp, notify), w') ->
  exists active course w1,
    getAttendanceCandidatesWithCourseUsers s (aw_date window) (dq_Week req) (dq_Section req) (dq_DeptIDs req) w
      = (Ok (active, course), w1)
    /\ accounted (user_ids active) resp /\ notifies notify resp.
Proof.
  unfold buildAttendanceDetail.
  destruct (attendance_groups_of s _ _ _ _ _ _ w) as [[g|e] w1] eqn:Eg; [|done].
  pose proof (groups_partition _ _ _ _ _ _ _ _ _ Eg) as Hg.
  destruct (groups_active _ _ _ _ _ _ _ _ _ Eg) as (course & w0 & Ec).
  destruct (period_at (dq_Section req) (aw_periods window)) as [p|]; [|done].
  destruct (ag_should g) as [|u0 rest0] eqn:Es.
  - destruct (enrichAttendanceDetailUsers s _ _ w1) as [r w3] eqn:Er.
    intros [= <- <- <-]. exists (ag_active g), course, w0. split; [exact Ec|].
    eapply enrich_keeps; [exact Er|by apply empty_accounted].
  - rewrite <- Es. destruct (getOnTimeUsers s (ag_should g) _ _ _ attendanceEnd w1) as [[[onTime late]|e] w2] eqn:Eo; [|done].
    pose proof (full_accounted g req p split _ _ (aw_periods window) _ _ _ _ _ _ w2 Hg Eo) as H. cbv zeta in H.
    destruct (applyCarryForward s _ _ _ _ onTime w2) as [onTime' w3]. cbn [fst] in H.
    destruct (enrichAttendanceDetailUsers s (ag_active g) _ w3) as [r w4] eqn:Er. intros [= <- <- <-].
    exists (ag_active g), course, w0. split; [exact Ec|].
    eapply enrich_keeps; [exact Er|]. unfold raw_detail in H. destruct split; exact H.
Qed.
End groups.

(** ** Corrections by hand *)

Lemma on_time_index_snoc i l c m :
  on_time_index i (l ++ [c]) m = <[ak_ID c := (i + length l)%nat]> (on_time_index i l m).
Proof.
  revert i m. induction l as [|x l IH]; intros i m; cbn; [by rewrite Nat.add_0_r|].
  rewrite IH. by rewrite Nat.add_succ_r.
Qed.

(** The index of a user points at it, and every user on time has one. *)
Lemma on_time_index_lookup l k :
  match on_time_index 0 l ∅ !! k with
  | Some n => exists c, l !! n = Some c /\ ak_ID c = k
  | None => k ∉ check_ids l
  end.
Proof.
  induction l as [|c l IH] using rev_ind; [cbn [on_time_index]; rewrite lookup_empty; apply not_elem_of_empty|].
  rewrite on_time_index_snoc. cbn [Nat.add]. destruct (decide (ak_ID c = k)) as [<-|Hne].
  - rewrite lookup_insert_eq. exists c. split; [|done]. by apply list_lookup_middle.
  - rewrite lookup_insert_ne by done. destruct (on_time_index 0 l ∅ !! k) as [n|].
    + destruct IH as (c' & Hc' & Hid). exists c'. split; [|done]. by apply lookup_app_l_Some.
    + unfold check_ids in *. rewrite map_app, list_to_set_app_L. cbn. set_solver.
Qed.

Lemma alter_ids f n (l : list AttendanceUserCheck) :
  (forall c, ak_ID (f c) = ak_ID c) -> List.map ak_ID (alter f n l) = List.map ak_ID l.
Proof.
  intros Hf. revert n. induction l as [|c l IH]; intros [|n]; cbn; [done..| |]; [by rewrite Hf|].
  f_equal. apply IH.
Qed.

Lemma on_time_index_ids i l1 l2 m :
  List.map ak_ID l1 = List.map ak_ID l2 -> on_time_index i l1 m = on_time_index i l2 m.
Proof.
  revert i l2 m. induction l1 as [|c l1 IH]; intros i [|c2 l2] m; cbn; try done.
  intros [= E1 E2]. rewrite E1. by apply IH.
Qed.

Section overrides.
Context (u0 : AttendanceUserLists).

(** The overrides that apply. *)
Definition applies (o : AttendanceManualOverride) : Prop :=
  mo_OverrideType o = attendanceOverrideTypeForceOnTime
  /\ mo_UserID o ∈ override_allowed u0 /\ mo_UserID o ∉ override_excluded u0.
#[global] Instance applies_dec o : Decision (applies o).
Proof. unfold applies. apply _. Defined.
Definition forced (os : list AttendanceManualOverride) : gset Z :=
  list_to_set (List.map mo_UserID (filter applies os)).

Definition override_step : override_state -> AttendanceManualOverride -> override_state :=
  apply_override (override_sources u0) (override_allowed u0) (override_excluded u0).

(** The user of a profile that may be used is the one it is kept for. *)
Lemma sources_allowed id : id ∈ override_allowed u0 -> ab_ID (default (mkBasic 0 "" "" "") (override_sources u0 !! id)) = id.
Proof.
  intros Hid.
  set (put := fun (m : gmap Z AttendanceUserBasic) b => <[ab_ID b := b]> m).
  set (put_new := fun (m : gmap Z AttendanceUserBasic) b => match m !! ab_ID b with Some _ => m | None => <[ab_ID b := b]> m end).
  assert (H1 : forall l m, (forall k b, m !! k = Some b -> ab_ID b = k) -> forall k b, foldl put m l !! k = Some b -> ab_ID b = k).
  { induction l as [|x l IH]; intros m Hm k b; [apply Hm|]. apply IH. intros k' b' [[<- <-]|[_ E]]%lookup_insert_Some; eauto. }
  assert (H2 : forall l m, (forall k b, m !! k = Some b -> ab_ID b = k) -> forall k b, foldl put_new m l !! k = Some b -> ab_ID b = k).
  { induction l as [|x l IH]; intros m Hm k b; [apply Hm|]. apply IH. intros k' b'. unfold put_new.
    destruct (m !! ab_ID x); [by apply Hm|]. intros [[<- <-]|[_ E]]%lookup_insert_Some; eauto. }
  assert (H3 : forall l m, dom (foldl put m l) = dom m ∪ basic_ids l).
  { induction l as [|x l IH]; intros m; cbn; [set_solver|]. rewrite IH. unfold put, basic_ids. cbn. set_solver. }
  assert (H4 : forall l m, dom m ⊆ dom (foldl put_new m l)).
  { induction l as [|x l IH]; intros m; cbn; [done|]. etrans; [|apply IH]. unfold put_new.
    destruct (m !! ab_ID x); set_solver. }
  set (attending := li_ShouldAttend u0 ++ List.map basic_of_check (li_OnTime u0)
                   ++ List.map basic_of_check (li_Late u0) ++ li_NotArrived u0).
  assert (Hin : id ∈ dom (override_sources u0)).
  { apply (H4 _ (foldl put ∅ attending)). rewrite H3. apply elem_of_union. right.
    unfold override_allowed in Hid. unfold basic_ids, attending. rewrite !map_app, !map_map. exact Hid. }
  apply elem_of_dom in Hin as [b Hb]. rewrite Hb. cbn. eapply (H2 _ (foldl put ∅ attending)); [|exact Hb].
  apply H1. intros k b' E. by rewrite lookup_empty in E.
Qed.

(** The state after the overrides [os]. *)
Record overridden (os : list AttendanceManualOverride) (st : override_state) : Prop := {
  ov_index : os_index st = on_time_index 0 (os_OnTime st) ∅;
  ov_on_time : check_ids (os_OnTime st) = check_ids (li_OnTime u0) ∪ forced os;
  ov_late : os_Late st = filterAttendanceChecks (li_Late u0) (forced os);
  ov_absent : os_NotArrived st = filterAttendanceBasics (li_NotArrived u0) (forced os);
  ov_applied : os_applied st = bool_decide (forced os <> ∅) }.

Lemma filter_out_twice {A} (id : A -> Z) l X Y : filter_out id (filter_out id l X) Y = filter_out id l (X ∪ Y).
Proof.
  assert (E : forall l Z, filter_out id l Z = List.filter (fun u => negb (bool_decide (id u ∈ Z))) l).
  { intros l' Z. unfold filter_out. case_decide as Ez; [|done]. subst. symmetry.
    induction l' as [|x l' IH]; [done|]. cbn. by rewrite IH. }
  rewrite !E. induction l as [|x l IH]; [done|]. cbn.
  destruct (bool_decide_reflect (id x ∈ X)), (bool_decide_reflect (id x ∈ X ∪ Y)); cbn; rewrite ?IH; try done.
  - set_solver.
  - by rewrite bool_decide_eq_true_2 by set_solver.
  - by rewrite bool_decide_eq_false_2 by set_solver.
Qed.

Lemma forced_snoc os o : forced (os ++ [o]) = forced os ∪ (if decide (applies o) then {[mo_UserID o]} else ∅).
Proof.
  unfold forced. rewrite filter_app, map_app, list_to_set_app_L. f_equal.
  rewrite filter_cons, filter_nil. case_decide; cbn; set_solver.
Qed.

Lemma override_overridden os st o : overridden os st -> overridden (os ++ [o]) (override_step st o).
Proof.
  intros Hov. pose proof Hov as [Hi Ho Hl Ha Hp]. unfold override_step, apply_override.
  assert (same : ~ applies o -> overridden (os ++ [o]) st).
  { intros Hn. assert (E : forced (os ++ [o]) = forced os)
      by (rewrite forced_snoc, decide_False by done; by rewrite (right_id_L ∅ (∪))).
    by split; rewrite ?E. }
  destruct (eqs (mo_OverrideType o) attendanceOverrideTypeForceOnTime) eqn:Et; cbn [negb].
  2:{ apply eqs_false in Et. assert (~ applies o) by (unfold applies; tauto).
      by apply same. }
  apply eqs_true in Et.
  destruct (bool_decide (mo_UserID o ∈ override_excluded u0) || negb (bool_decide (mo_UserID o ∈ override_allowed u0))) eqn:Ee.
  { assert (~ applies o).
    { unfold applies. intros (_ & H1 & H2). apply orb_true_iff in Ee as [E|E]; b2p; tauto. }
    by apply same. }
  b2p. assert (applies o) as Happ by done.
  assert (Hf : forced (os ++ [o]) = forced os ∪ {[mo_UserID o]}) by (rewrite forced_snoc; by rewrite decide_True).
  pose proof (on_time_index_lookup (os_OnTime st) (mo_UserID o)) as Hx. rewrite <- Hi in Hx.
  destruct (os_index st !! mo_UserID o) as [n|] eqn:En; split; cbn -[check_ids].
  - rewrite Hi. apply on_time_index_ids. by rewrite alter_ids.
  - destruct Hx as (c & Hc & Hid). unfold check_ids in *. rewrite alter_ids by done. rewrite Ho, Hf.
    assert (mo_UserID o ∈ (list_to_set (List.map ak_ID (os_OnTime st)) : gset Z)) as Hin
      by (apply elem_ids; exists c; split; [by eapply list_elem_of_lookup_2|done]).
    rewrite Ho in Hin. set_solver.
  - rewrite Hl, Hf. apply filter_out_twice.
  - rewrite Ha, Hf. apply filter_out_twice.
  - symmetry. apply bool_decide_eq_true. rewrite Hf. set_solver.
  - rewrite on_time_index_snoc, Hi. cbn. by rewrite sources_allowed.
  - unfold check_ids in *. rewrite map_app, list_to_set_app_L, Ho, Hf. cbn. rewrite sources_allowed by done. set_solver.
  - rewrite Hl, Hf. apply filter_out_twice.
  - rewrite Ha, Hf. apply filter_out_twice.
  - symmetry. apply bool_decide_eq_true. rewrite Hf. set_solver.
Qed.

Definition override_start : override_state :=
  mkOverrideState (li_OnTime u0) (li_Late u0) (li_NotArrived u0) (on_time_index 0 (li_OnTime u0) ∅) false.

Lemma overrides_overridden os : overridden os (foldl override_step override_start os).
Proof.
  induction os as [|o os IH] using rev_ind.
  - split; cbn; try done. set_solver.
  - rewrite foldl_app. by apply override_overridden.
Qed.

End overrides.

(** The forced users of a detail, and the detail after the overrides, by lists. *)
Lemma apply_overrides_lists os resp :
  let u := dr_Users resp in let u' := dr_Users (apply_overrides os resp) in let F := forced u os in
  check_ids (li_OnTime u') = check_ids (li_OnTime u) ∪ F
  /\ li_Late u' = filterAttendanceChecks (li_Late u) F
  /\ li_NotArrived u' = filterAttendanceBasics (li_NotArrived u) F
  /\ li_ShouldAttend u' = li_ShouldAttend u /\ li_Leave u' = li_Leave u
  /\ li_RestDay u' = li_RestDay u /\ li_HasCourse u' = li_HasCourse u.
Proof.
  intros u u' F. pose proof (overrides_overridden u os) as [Hi Ho Hl Ha Hp].
  subst u'. unfold apply_overrides. fold u. unfold override_step, override_start in *.
  destruct (os_applied _) eqn:E.
  - cbn -[check_ids]. by rewrite Ho, Hl, Ha.
  - symmetry in Hp. apply bool_decide_eq_false in Hp.
    assert (F = ∅) as ->; [|by split_and!; try done; set_solver].
    unfold F. destruct (decide (forced u os = ∅)); [done|]. by destruct Hp.
Qed.

Lemma apply_overrides_accounted active os resp :
  accounted active resp -> accounted active (apply_overrides os resp).
Proof.
  intros H. pose proof (apply_overrides_lists os resp) as (E1 & E2 & E3 & E4 & E5 & E6 & E7).
  set (u' := dr_Users (apply_overrides os resp)) in *. set (F := forced (dr_Users resp) os) in *.
  destruct H as [H1 H2 H3 H4 H5 H6 H7].
  assert (HF : F ⊆ basic_ids (li_ShouldAttend (dr_Users resp)) /\ F ## leave_ids (li_Leave (dr_Users resp))).
  { assert (Hf : forall k, k ∈ F -> k ∈ override_allowed (dr_Users resp) /\ k ∉ override_excluded (dr_Users resp)).
    { intros k Hk. unfold F, forced in Hk. apply elem_ids in Hk as (o & Ho & <-).
      apply list_elem_of_filter in Ho as [(_ & Ha & Hn) _]. done. }
    unfold override_allowed, override_excluded in Hf. rewrite !list_to_set_app_L in Hf.
    unfold leave_ids, check_ids, basic_ids, attendanceLeaveIDBoolSet in *.
    split; intros k Hk; specialize (Hf k Hk); [rewrite H4|]; set_solver. }
  destruct HF as [HF1 HF2].
  assert (Hl : check_ids (li_Late u') = check_ids (li_Late (dr_Users resp)) ∖ F) by (rewrite E2; apply filter_checks_ids).
  assert (Ha : basic_ids (li_NotArrived u') = basic_ids (li_NotArrived (dr_Users resp)) ∖ F)
    by (rewrite E3; apply filter_out_ids).
  split; fold u'; rewrite ?E4, ?E5, ?E6, ?E7, ?E1, ?Hl, ?Ha; try done.
  - rewrite H4 in *. clear -HF1. apply set_eq. intros k. specialize (HF1 k).
    rewrite !elem_of_union in *. rewrite !elem_of_difference. destruct (decide (k ∈ F)); tauto.
  - intros k Hk. specialize (H5 k Hk). specialize (HF2 k). rewrite !elem_of_union, elem_of_difference in *. tauto.
  - intros k. rewrite elem_of_difference. intros [Hk Hn]. specialize (H6 k Hk).
    rewrite !elem_of_union, elem_of_difference in *. tauto.
  - unfold u', apply_overrides in *. destruct (os_applied _) eqn:E; [|done]. cbn. rewrite H7. done.
Qed.

(** ** What is shown *)

Section shown.
Context `{LOC : Location} `{MO : MapOrder} {W : Type} (s : AttendanceRecordService W).

(** The detail of the request's slot, for the candidates the repository names. *)
Definition shown (req : AttendanceDetailRequest) (w : W) (resp : AttendanceDetailResponse) : Prop :=
  exists window w1 w2 active course w3,
    resolveAttendanceWindow s req w = (Ok window, w1)
    /\ getAttendanceCandidatesWithCourseUsers s (aw_date window) (dq_Week req) (dq_Section req) (dq_DeptIDs req) w2
       = (Ok (active, course), w3)
    /\ accounted (user_ids active) resp.

Lemma metadata_accounted active resp mode final t :
  accounted active resp -> accounted active (SetViewMetadata resp mode final t).
Proof. by intros []. Qed.
Lemma record_id_accounted active resp id : accounted active resp -> accounted active (with_record_id resp id).
Proof. by intros []. Qed.

Lemma manual_accounted date section resp w resp' w' active :
  applyManualOverridesToDetail s date section resp w = (Ok resp', w') ->
  accounted active resp -> accounted active resp'.
Proof.
  unfold applyManualOverridesToDetail. destruct (srv_manualOverrideRepo s) as [repo|]; [|by intros [= <- <-]].
  destruct (or_ListByDateSection repo _ section w) as [[os|e] w1]; [|done]. intros [= <- <-].
  apply apply_overrides_accounted.
Qed.

(** Built and corrected: what every live view does. *)
Lemma built_shown req window attendanceEnd w w1 w2 w3 built resp w4 :
  resolveAttendanceWindow s req w = (Ok window, w1) ->
  buildAttendanceDetail s req window attendanceEnd true w2 = (Ok built, w3) ->
  applyManualOverridesToDetail s (aw_date window) (dq_Section req) built.1 w3 = (Ok resp, w4) ->
  shown req w resp.
Proof.
  intros Hw Hb Hm. destruct built as [raw notify].
  destruct (detail_accounted s _ _ _ _ _ _ _ _ Hb) as (active & course & w0 & Hc & Ha & _).
  exists window, w1, w2, active, course, w0. split_and!; try done. by eapply manual_accounted.
Qed.

Lemma manual_should date section resp w resp' w' :
  applyManualOverridesToDetail s date section resp w = (Ok resp', w') ->
  li_ShouldAttend (dr_Users resp') = li_ShouldAttend (dr_Users resp).
Proof.
  unfold applyManualOverridesToDetail. destruct (srv_manualOverrideRepo s) as [repo|]; [|by intros [= <- <-]].
  destruct (or_ListByDateSection repo _ section w) as [[os|e] w1]; [|done]. intros [= <- <-].
  apply apply_overrides_lists.
Qed.

Lemma manual_view date section resp w resp' w' :
  applyManualOverridesToDetail s date section resp w = (Ok resp', w') -> dr_ViewMode resp' = dr_ViewMode resp.
Proof.
  unfold applyManualOverridesToDetail. destruct (srv_manualOverrideRepo s) as [repo|]; [|by intros [= <- <-]].
  destruct (or_ListByDateSection repo _ section w) as [[os|e] w1]; [|done]. intros [= <- <-].
  unfold apply_overrides. by case_if.
Qed.

(** A stored record is never shown as a live view. *)
Lemma from_db_view req w resp w' :
  GetAttendanceRecordFromDB s req w = (Ok resp, w') -> dr_ViewMode resp <> "current".
Proof.
  unfold GetAttendanceRecordFromDB. destruct (parse_local_date _) as [date|]; [|done].
  destruct (rr_FindByDateSection _ _ _ w) as [[record|e] w1]; [|done].
  destruct (isRestDayAttendanceEnabled s w1) as [[] w2]; cbn [negb].
  - unfold detail_of_record, deref. destruct (srv_userRepo s) as [repo|]; [|done]. intros H.
    apply st_bind_Ok in H as (users & w3 & _ & H). apply st_bind_Ok in H as (m & w4 & _ & H).
    apply st_bind_Ok in H as (names & w5 & _ & H). destruct (getActivePeriods s w5) as [[periods e] w6].
    destruct (period_at _ _) as [p|]; [|done]. destruct (CalculateSlotTime _ _ _) as [[a b]|e'].
    + apply st_bind_Ok in H as (r1 & w7 & _ & H). apply st_bind_Ok in H as (r2 & w8 & _ & H). by injection H as <- <-.
    + apply manual_view in H as ->. done.
  - unfold buildFinalAttendanceDetailForRead. intros H.
    apply st_bind_Ok in H as (window & w3 & _ & H). apply st_bind_Ok in H as (built & w4 & _ & H).
    apply st_bind_Ok in H as (r & w5 & _ & H). by injection H as <- <-.
Qed.

(** The statistics run. *)
Lemma stats_run_shown req w resp notify w' :
  getAttendanceDetailWithLateUsers s req w = (Ok (resp, notify), w') -> shown req w resp /\ notifies notify resp.
Proof.
  unfold getAttendanceDetailWithLateUsers.
  destruct (resolveAttendanceWindow s req w) as [[window|e] w1] eqn:Ew; [|done].
  destruct (attendance_groups_of s _ _ _ _ _ _ w1) as [[g|e] w2] eqn:Eg; [|done].
  pose proof (groups_partition s _ _ _ _ _ _ _ _ _ Eg) as Hg.
  destruct (groups_active s _ _ _ _ _ _ _ _ _ Eg) as (course & w0 & Ec).
  destruct (period_at (dq_Section req) (aw_periods window)) as [p|]; [|done].
  assert (Hs : forall r, accounted (user_ids (ag_active g)) r -> shown req w r)
    by (intros r Hr; by exists window, w1, w1, (ag_active g), course, w0).
  destruct (ag_should g) as [|u0 rest0] eqn:Es.
  - destruct (enrichAttendanceDetailUsers s _ _ w2) as [r w3] eqn:Er. intros [= <- <- <-].
    destruct (enrich_keeps s _ _ _ _ _ _ _ Er (empty_accounted g req p Hg Es)). split; [by apply Hs|done].
  - rewrite <- Es. intros H. apply st_bind_Ok in H as ([onTime late] & w3 & Eo & H). cbn [fst] in H.
    pose proof (full_accounted s g req p false _ _ (aw_periods window) _ _ _ _ _ _ w3 Hg Eo) as [Ha _].
    destruct (applyCarryForward s _ _ _ _ onTime w3) as [onTime' w4]. cbn [fst] in Ha.
    unfold raw_detail in Ha.
    destruct (enrichAttendanceDetailUsers s _ _ w4) as [r w5] eqn:Er.
    pose proof (enrich_accounted s (ag_active g) _ w4 _ Ha) as Hr. rewrite Er in Hr. cbn [fst] in Hr.
    match type of Er with enrichAttendanceDetailUsers _ _ ?raw _ = _ =>
      destruct (enrich_lists s (ag_active g) raw w4) as (_ & _ & H1) end. rewrite Er in H1. cbn [fst] in H1.
    apply st_bind_Ok in H as (r' & w6 & Hm & H). injection H as <- <- <-.
    pose proof (manual_accounted _ _ _ _ _ _ _ Hm Hr) as Hr'. split; [by apply Hs|].
    unfold notifies. rewrite notify_ids, (manual_should _ _ _ _ _ _ Hm), H1.
    cbn -[basic_ids check_ids leave_ids user_ids]. by rewrite basic_ids_map.
Qed.

(** C18: Nobody is lost or invented: in a live view, a final view, the record
    that is saved and the statistics run, every candidate either has to attend,
    rests or has a course, and is exactly one of these; those who have to
    attend are exactly the on time, the late, those on leave and the absent;
    leave and absence exclude everything else; the statistics count the lists;
    and the statistics run notifies exactly those who have to attend and are
    neither on time nor on leave. *)
Theorem attendance_accounted req w :
  (forall resp w', GetAttendanceDetail s req w = (Ok resp, w') -> dr_ViewMode resp = "current" -> shown req w resp)
  /\ (forall id resp w', buildFinalAttendanceDetailForRead s req id w = (Ok resp, w') -> shown req w resp)
  /\ (forall resp w', FinalizeAttendanceRecord s req w = (Ok resp, w') -> shown req w resp)
  /\ (forall resp notify w', getAttendanceDetailWithLateUsers s req w = (Ok (resp, notify), w') ->
        shown req w resp /\ notifies notify resp).
Proof.
  split_and!.
  - intros resp w' H Hv. unfold GetAttendanceDetail in H.
    apply st_bind_Ok in H as (window & w1 & Hw & H). apply st_bind_Ok in H as (now & w2 & Hn & H).
    case_if_in H.
    + apply st_bind_Ok in H as (built & w3 & Hb & H). apply st_bind_Ok in H as (r & w4 & Hm & H).
      injection H as <- <-. destruct (built_shown _ _ _ _ _ _ _ _ _ _ Hw Hb Hm) as (x1 & x2 & x3 & x4 & x5 & x6 & H1 & H2 & H3).
      exists x1, x2, x3, x4, x5, x6. split_and!; try done. by apply metadata_accounted.
    + by destruct (from_db_view _ _ _ _ H).
  - intros id resp w' H. unfold buildFinalAttendanceDetailForRead in H.
    apply st_bind_Ok in H as (window & w1 & Hw & H). apply st_bind_Ok in H as (built & w3 & Hb & H).
    apply st_bind_Ok in H as (r & w4 & Hm & H). injection H as <- <-.
    destruct (built_shown _ _ _ _ _ _ _ _ _ _ Hw Hb Hm) as (x1 & x2 & x3 & x4 & x5 & x6 & H1 & H2 & H3).
    exists x1, x2, x3, x4, x5, x6. split_and!; try done. by apply metadata_accounted, record_id_accounted.
  - intros resp w' H. unfold FinalizeAttendanceRecord in H.
    apply st_bind_Ok in H as (window & w1 & Hw & H). apply st_bind_Ok in H as (built & w3 & Hb & H).
    apply st_bind_Ok in H as (r & w4 & Hm & H). apply st_bind_Ok in H as (u & w5 & _ & H). injection H as <- <-.
    destruct (built_shown _ _ _ _ _ _ _ _ _ _ Hw Hb Hm) as (x1 & x2 & x3 & x4 & x5 & x6 & H1 & H2 & H3).
    exists x1, x2, x3, x4, x5, x6. split_and!; try done. by apply metadata_accounted.
  - intros resp notify w'. apply stats_run_shown.
Qed.
End shown.
