(* ===== verification/AttendanceLaws.v ===== *)
(** * Statistics, saved records and signing by hand

    The statistics of a detail add up except for the users who are both carried
    forward and late; corrections by hand are idempotent; a saved record reads
    back; signing for users checks everybody before it writes. *)
From Stdlib Require Import ZArith Lia Bool String.
From stdpp Require Import base list strings gmap.
From S2P Require Import Prelude GoStrings GoTime Json JsonLax Contract ScheduleParse Calendar Settings Attendance AttendanceSpec.
#[local] Open Scope go_scope.

(** ** Lists of ids without duplicates *)

Lemma ids_size {A} (id : A -> Z) l :
  NoDup (List.map id l) -> len l = Z.of_nat (size (list_to_set (List.map id l) : gset Z)).
Proof. intros H. rewrite size_list_to_set by done. unfold len. by rewrite length_map. Qed.

Lemma NoDup_filter_ids {A} (id : A -> Z) p l : NoDup (List.map id l) -> NoDup (List.map id (List.filter p l)).
Proof.
  induction l as [|x l IH]; [done|]. cbn. intros [Hx Hl]%NoDup_cons.
  destruct (p x); [|by apply IH]. cbn. apply NoDup_cons. split; [|by apply IH].
  intros E. apply Hx. apply list_elem_of_In in E. apply in_map_iff in E as (y & <- & Hy).
  apply filter_In in Hy as [Hy _]. apply list_elem_of_In. by apply in_map.
Qed.

Lemma NoDup_filter_out {A} (id : A -> Z) l ex : NoDup (List.map id l) -> NoDup (List.map id (filter_out id l ex)).
Proof. unfold filter_out. case_decide; [done|apply NoDup_filter_ids]. Qed.

Lemma leave_users_NoDup users seen leaves :
  (forall k u, users !! k = Some u -> us_ID u = k) -> NoDup (List.map al_ID (leave_users users seen leaves)).
Proof.
  intros Hu. revert seen. induction leaves as [|l leaves IH]; intros seen; cbn -[union]; [by apply NoDup_nil|].
  case_bool_decide as Hs; [apply IH|]. destruct (users !! la_UserID l) as [u|] eqn:E; [|apply IH].
  cbn -[union]. apply NoDup_cons. split; [|apply IH].
  pose proof (leave_users_ids users ({[la_UserID l]} ∪ seen) leaves Hu) as H. rewrite (Hu _ _ E).
  intros Hin. assert (la_UserID l ∈ leave_ids (leave_users users ({[la_UserID l]} ∪ seen) leaves)) as Hk
    by (unfold leave_ids, attendanceLeaveIDBoolSet; by apply elem_of_list_to_set). specialize (H _ Hk). set_solver.
Qed.

Section counts.
Context `{LOC : Location} `{MO : MapOrder} {W : Type} (s : AttendanceRecordService W).

(** Distinct check-ins come from distinct DingTalk users, so from distinct users. *)
Lemma counted_NoDup users start keep l :
  NoDup (List.map us_ID users) -> NoDup (List.map fst l) ->
  NoDup (List.map ak_ID (counted_checks (users_by_ding_id users) start keep l)).
Proof.
  intros Hu. induction l as [|[d t] l IH]; cbn; [by intros _; apply NoDup_nil|]. intros [Hd Hl]%NoDup_cons.
  specialize (IH Hl). rewrite map_app. apply NoDup_app. split_and!; [| |done].
  - destruct (users_by_ding_id users !! d) as [u|]; [|by apply NoDup_nil].
    repeat case_if; cbn; try (by apply NoDup_nil). by apply NoDup_singleton.
  - intros k Hk Hk'. apply list_elem_of_In in Hk, Hk'. apply in_map_iff in Hk as (c & <- & Hc).
    apply in_map_iff in Hk' as (c' & Hid & Hc').
    assert (Hc2 : c ∈ counted_checks (users_by_ding_id users) start keep [(d, t)]).
    { unfold counted_checks. cbn. rewrite app_nil_r. by apply list_elem_of_In. }
    apply list_elem_of_In in Hc'. apply counted_elem in Hc2 as (d1 & u1 & H1 & E1 & _ & _ & Ec).
    apply counted_elem in Hc' as (d2 & u2 & H2 & E2 & _ & _ & Ec').
    apply list_elem_of_singleton in H1. injection H1 as -> _.
    apply users_by_ding_elem in E1 as (I1 & D1 & _). apply users_by_ding_elem in E2 as (I2 & D2 & _).
    rewrite Ec, Ec' in Hid. cbn in Hid.
    assert (u1 = u2) as <-.
    { apply list_elem_of_lookup in I1 as [i Hi]. apply list_elem_of_lookup in I2 as [j Hj].
      assert (i = j); [|congruence].
      eapply NoDup_lookup; [exact Hu| |]; rewrite list_lookup_fmap; [by rewrite Hi|rewrite Hj; cbn; by rewrite Hid]. }
    rewrite D1 in D2. subst d2. apply Hd. apply list_elem_of_In. apply list_elem_of_In in H2.
    apply in_map_iff. by exists (d, ak_CheckTime c').
Qed.

Lemma range_NoDup {A} (m : gmap string A) : NoDup (List.map fst (range m)).
Proof. rewrite (range_entries A m). apply NoDup_fst_map_to_list. Qed.

Lemma carry_forward_NoDup should prev onTime :
  (forall k u, should !! k = Some u -> us_ID u = k) ->
  NoDup (List.map ak_ID onTime) -> NoDup (List.map ak_ID (carry_forward should prev onTime)).
Proof.
  intros Hs. unfold carry_forward.
  enough (H : forall (current : gset Z) l, current = list_to_set (List.map ak_ID l) -> NoDup (List.map ak_ID l) ->
    NoDup (List.map ak_ID (foldl (fun '(current, onTime) p =>
      if bool_decide (sc_ID p ∈ current) then (current, onTime)
      else match should !! sc_ID p with
           | None => (current, onTime)
           | Some u => ({[us_ID u]} ∪ current,
               onTime ++ [mkCheck (us_ID u) (us_Name u) (us_Avatar u) "" (unix_time (sc_CheckTime p))])
           end) (current, l) prev).2)) by (by apply H).
  induction prev as [|p prev IH]; intros current l Hc Hl; cbn -[union]; [done|].
  case_bool_decide as Hp; [by apply IH|]. destruct (should !! sc_ID p) as [u|] eqn:E; [|by apply IH].
  pose proof (Hs _ _ E) as Hid. apply IH.
  - rewrite map_app, list_to_set_app_L, Hc. cbn. set_solver.
  - rewrite map_app. apply NoDup_app. split_and!; [done| |by apply NoDup_singleton].
    cbn. intros k Hk ->%list_elem_of_singleton. apply Hp. rewrite Hc, <- Hid. by apply elem_of_list_to_set.
Qed.

(** No user is twice in one list. *)
Record distinct (u : AttendanceUserLists) : Prop := {
  di_should : NoDup (List.map ab_ID (li_ShouldAttend u)); di_on_time : NoDup (List.map ak_ID (li_OnTime u));
  di_late : NoDup (List.map ak_ID (li_Late u)); di_leave : NoDup (List.map al_ID (li_Leave u));
  di_absent : NoDup (List.map ab_ID (li_NotArrived u)) }.

(** Users that are both on time and late. *)
Definition twice (u : AttendanceUserLists) : gset Z := check_ids (li_OnTime u) ∩ check_ids (li_Late u).

Definition adds_up (resp : AttendanceDetailResponse) : Prop :=
  let st := dr_Statistics resp in
  as_OnTime st + as_Late st + as_Leave st + as_NotArrived st
  = as_ShouldAttend st + Z.of_nat (size (twice (dr_Users resp))).

Lemma size_union_inter (A B : gset Z) : Z.of_nat (size A) + Z.of_nat (size B) = Z.of_nat (size (A ∪ B)) + Z.of_nat (size (A ∩ B)).
Proof.
  rewrite size_union_alt. assert (B = (B ∖ A) ∪ (A ∩ B)) as E.
  { apply set_eq. intros k. rewrite elem_of_union, elem_of_difference, elem_of_intersection.
    destruct (decide (k ∈ A)); tauto. }
  assert (size B = (size (B ∖ A) + size (A ∩ B))%nat) as ->.
  { rewrite E at 1. apply size_union. set_solver. }
  lia.
Qed.

Lemma accounted_adds_up active resp : accounted active resp -> distinct (dr_Users resp) -> adds_up resp.
Proof.
  intros [_ _ _ H4 H5 H6 H7] [D1 D2 D3 D4 D5]. unfold adds_up. rewrite H7. cbn -[len].
  apply ids_size in D1, D2, D3, D4, D5. rewrite D1, D2, D3, D4, D5. clear D1 D2 D3 D4 D5.
  fold (basic_ids (li_ShouldAttend (dr_Users resp))) (check_ids (li_OnTime (dr_Users resp)))
    (check_ids (li_Late (dr_Users resp))) (basic_ids (li_NotArrived (dr_Users resp))).
  change (list_to_set (List.map al_ID (li_Leave (dr_Users resp)))) with (leave_ids (li_Leave (dr_Users resp))).
  rewrite H4. rewrite (size_union _ (basic_ids _)) by set_solver. rewrite (size_union _ (leave_ids _)) by set_solver.
  pose proof (size_union_inter (check_ids (li_OnTime (dr_Users resp))) (check_ids (li_Late (dr_Users resp)))).
  unfold twice. lia.
Qed.

Lemma filled_distinct (fb : AttendanceUserBasic -> AttendanceUserBasic) fc (fl : AttendanceUserLeave -> AttendanceUserLeave) u :
  (forall x, ab_ID (fb x) = ab_ID x) -> (forall x, ak_ID (fc x) = ak_ID x) -> (forall x, al_ID (fl x) = al_ID x) ->
  distinct u -> distinct (mkLists (List.map fb (li_ShouldAttend u)) (List.map fc (li_OnTime u))
    (List.map fc (li_Late u)) (List.map fl (li_Leave u)) (List.map fb (li_NotArrived u))
    (List.map fb (li_RestDay u)) (List.map fb (li_HasCourse u))).
Proof.
  intros Hb Hc Hl []. split; cbn; rewrite map_map; by erewrite map_ext by (intros; first [apply Hb|apply Hc|apply Hl]).
Qed.

Lemma enrich_distinct users resp w :
  distinct (dr_Users resp) -> distinct (dr_Users (enrichAttendanceDetailUsers s users resp w).1).
Proof.
  intros H. unfold enrichAttendanceDetailUsers. destruct users as [|u users]; [done|].
  destruct (match srv_userRepo s with Some _ => _ | None => _ end) as [depts w1]. cbn.
  by apply filled_distinct; [apply fill_basic_id|apply fill_check_id|apply fill_leave_id|].
Qed.

Lemma override_distinct u0 os st o :
  overridden u0 os st ->
  NoDup (List.map ak_ID (os_OnTime st)) -> NoDup (List.map ak_ID (os_OnTime (override_step u0 st o))).
Proof.
  intros [Hi _ _ _ _] Hn. unfold override_step, apply_override. repeat (case_if; [done|]).
  pose proof (on_time_index_lookup (os_OnTime st) (mo_UserID o)) as Hx. rewrite <- Hi in Hx.
  destruct (os_index st !! mo_UserID o) as [n|]; cbn.
  - by rewrite alter_ids.
  - rewrite map_app. apply NoDup_app. split_and!; [done| |by apply NoDup_singleton].
    cbn. intros k Hk ->%list_elem_of_singleton. apply Hx. apply elem_of_list_to_set.
    rewrite sources_allowed in Hk; [done|]. b2p. tauto.
Qed.

Lemma apply_overrides_distinct os resp : distinct (dr_Users resp) -> distinct (dr_Users (apply_overrides os resp)).
Proof.
  intros [D1 D2 D3 D4 D5]. pose proof (apply_overrides_lists os resp) as (_ & E2 & E3 & E4 & E5 & _).
  split; rewrite ?E2, ?E3, ?E4, ?E5; try done; try by apply NoDup_filter_out.
  unfold apply_overrides. destruct (os_applied _); [|done]. cbn [dr_Users with_users li_OnTime].
  clear E2 E3 E4 E5. set (u0 := dr_Users resp) in *. fold (override_step u0). fold (override_start u0).
  induction os as [|o os IH] using rev_ind; [done|]. rewrite foldl_app. cbn [foldl].
  eapply override_distinct; [apply overrides_overridden|done].
Qed.

(** What the user repository promises: no row twice. *)
Definition distinct_candidates : Prop := forall repo ids w users w',
  srv_userRepo s = Some repo -> ur_ListAttendanceCandidates repo ids w = (Ok users, w') ->
  NoDup (List.map us_ID users).

Lemma groups_distinct date week section a b deptIDs w g w' :
  distinct_candidates -> attendance_groups_of s date week section a b deptIDs w = (Ok g, w') ->
  NoDup (List.map us_ID (ag_should g)) /\ NoDup (List.map al_ID (ag_leave g)).
Proof.
  intros Hd. unfold attendance_groups_of.
  destruct (getAttendanceCandidatesWithCourseUsers s date week section deptIDs w) as [[[active course]|e] w1] eqn:E; [|done].
  assert (Ha : NoDup (List.map us_ID active)).
  { unfold getAttendanceCandidatesWithCourseUsers, deref in E. destruct (srv_userRepo s) as [repo|] eqn:Er; [|done].
    destruct (ur_ListAttendanceCandidates repo deptIDs w) as [[users|e] w2] eqn:Ec; [|done].
    apply (Hd _ _ _ _ _ Er) in Ec. destruct users as [|u users]; [by injection E as <- <- <-|].
    destruct (shouldUseAllAttendMode s date w2) as [[] w3]; [by injection E as <- <- <-|].
    destruct (srv_courseRepo s _ _ _ w3) as [[courses|e] w4]; [by injection E as <- <- <-|done]. }
  destruct (filterRestDayUsers s active _ w1) as [rest w2].
  destruct (getLeaveUsers s _ a b w2) as [[leave|e] w3] eqn:El; [|done]. intros [= <- <-]. cbn.
  split; [by apply NoDup_filter_out|]. unfold getLeaveUsers, deref in El.
  destruct (filterModelUsers active (userIDBoolSet rest)) as [|u users]; [injection El as <- <-; by apply NoDup_nil|].
  destruct (srv_leaveRepo s) as [rows|]; [|done]. destruct (rows _ _ _ w2) as [[leaves|e] w4]; [|done].
  injection El as <- <-. apply leave_users_NoDup. intros k v Hv. by apply user_map_elem in Hv as [_ ?].
Qed.

Lemma on_time_distinct users date section deadline queryEnd w onTime late w' :
  NoDup (List.map us_ID users) ->
  getOnTimeUsers s users date section deadline queryEnd w = (Ok (onTime, late), w') ->
  NoDup (List.map ak_ID onTime) /\ NoDup (List.map ak_ID late).
Proof.
  intros Hu. unfold getOnTimeUsers.
  destruct (List.filter _ _) as [|d ds]; [intros [= <- <- <-]; split; by apply NoDup_nil|].
  destruct (calculateCheckWindowStart s date section w) as [[start|e] w1]; [|done].
  destruct (loadAttendanceRecords s (d :: ds) start queryEnd w1) as [[records|e] w2]; [|done]. intros [= <- <- <-].
  split; (apply counted_NoDup; [done|apply range_NoDup]).
Qed.

Lemma carried_distinct date section periods should onTime w :
  NoDup (List.map ak_ID onTime) ->
  NoDup (List.map ak_ID (applyCarryForward s date section periods should onTime w).1).
Proof.
  intros H. unfold applyCarryForward. repeat (case_if; [done|]).
  destruct (gap_minutes section periods) as [g|]; [|done]. case_if; [done|].
  destruct (rr_FindByDateSection _ _ _ w) as [[prev|e] w1]; [|done]. cbn [fst].
  apply carry_forward_NoDup; [|done]. intros k u Hu. by apply user_map_elem in Hu as [_ ?].
Qed.

Lemma should_distinct (users : list User) (f : User -> AttendanceUserBasic) :
  (forall u, ab_ID (f u) = us_ID u) -> NoDup (List.map us_ID users) -> NoDup (List.map ab_ID (List.map f users)).
Proof. intros Hf H. rewrite map_map. by rewrite (map_ext _ us_ID). Qed.

Lemma not_arrived_distinct should onTime late leave :
  NoDup (List.map us_ID should) -> NoDup (List.map ab_ID (calculateNotArrivedWithLate should onTime late leave)).
Proof. intros H. unfold calculateNotArrivedWithLate. apply should_distinct; [done|by apply NoDup_filter_ids]. Qed.

Lemma built_distinct req window attendanceEnd split w resp notify w' :
  distinct_candidates -> buildAttendanceDetail s req window attendanceEnd split w = (Ok (resp, notify), w') ->
  distinct (dr_Users resp).
Proof.
  intros Hd. unfold buildAttendanceDetail.
  destruct (attendance_groups_of s _ _ _ _ _ _ w) as [[g|e] w1] eqn:Eg; [|done].
  destruct (groups_distinct _ _ _ _ _ _ _ _ _ Hd Eg) as [Hs Hl].
  destruct (period_at (dq_Section req) (aw_periods window)) as [p|]; [|done].
  destruct (ag_should g) as [|u0 rest0] eqn:Es.
  - destruct (enrichAttendanceDetailUsers s _ _ w1) as [r w3] eqn:Er. intros [= <- <- <-].
    pose proof (enrich_distinct (ag_active g) (empty_detail req p g) w1) as H. rewrite Er in H. apply H.
    unfold empty_detail. rewrite Es. split; by apply NoDup_nil.
  - rewrite <- Es. destruct (getOnTimeUsers s (ag_should g) _ _ _ attendanceEnd w1) as [[[onTime late]|e] w2] eqn:Eo; [|done].
    rewrite <- Es in Hs. apply (on_time_distinct _ _ _ _ _ _ _ _ _ Hs) in Eo as [Ho Ht].
    pose proof (carried_distinct (aw_date window) (dq_Section req) (aw_periods window) (ag_should g) onTime w2 Ho) as Hc.
    destruct (applyCarryForward s _ _ _ _ onTime w2) as [onTime' w3]. cbn [fst] in Hc.
    match goal with |- context [enrichAttendanceDetailUsers _ _ ?raw _] =>
      destruct (enrichAttendanceDetailUsers s (ag_active g) raw w3) as [r w4] eqn:Er;
      assert (Hraw : distinct (dr_Users raw)) end.
    { destruct split; split; cbn -[mergeBoolSets calculateNotArrived calculateNotArrivedWithLate];
        try (by apply should_distinct); try (by apply NoDup_filter_out); try (by apply NoDup_nil); try done;
        by apply not_arrived_distinct. }
    intros [= <- <- <-]. pose proof (enrich_distinct (ag_active g) _ w3 Hraw) as H. by rewrite Er in H.
Qed.

Lemma manual_distinct date section resp w resp' w' :
  applyManualOverridesToDetail s date section resp w = (Ok resp', w') ->
  distinct (dr_Users resp) -> distinct (dr_Users resp').
Proof.
  unfold applyManualOverridesToDetail. destruct (srv_manualOverrideRepo s) as [repo|]; [|by intros [= <- <-]].
  destruct (or_ListByDateSection repo _ section w) as [[os|e] w1]; [|done]. intros [= <- <-].
  apply apply_overrides_distinct.
Qed.

(** The statistics add up: in the record that is saved, on time, late, on
    leave and absent together are those who have to attend, except that a user
    who is both on time and late counts twice; no list names a user twice. *)
Theorem statistics_add_up req w resp w' :
  distinct_candidates -> FinalizeAttendanceRecord s req w = (Ok resp, w') ->
  adds_up resp /\ distinct (dr_Users resp).
Proof.
  intros Hd H. unfold FinalizeAttendanceRecord in H.
  apply st_bind_Ok in H as (window & w1 & _ & H). apply st_bind_Ok in H as ([built notify] & w3 & Hb & H).
  apply st_bind_Ok in H as (r & w4 & Hm & H). apply st_bind_Ok in H as (u & w5 & _ & H). injection H as <- <-.
  destruct (detail_accounted s _ _ _ _ _ _ _ _ Hb) as (active & course & w0 & _ & Ha & _).
  pose proof (manual_accounted s _ _ _ _ _ _ _ Hm Ha) as Hr.
  pose proof (manual_distinct _ _ _ _ _ _ Hm (built_distinct _ _ _ _ _ _ _ _ Hd Hb)) as Hd'.
  split; [|done]. exact (accounted_adds_up _ r Hr Hd').
Qed.
End counts.

(** ** A service in memory *)

#[local] Instance list_order : MapOrder := { range A m := map_to_list m; range_entries A m := reflexivity _ }.
#[local] Existing Instance shanghai.

(** The records, the overrides, and what was written, the last write first. *)
Record memory := mkMemory {
  me_records : list AttendanceRecord; me_overrides : list AttendanceManualOverride }.

Definition memory_find (date section : Z) : ST memory AttendanceRecord := fun w =>
  match List.find (fun r => (ar_Date r =? date) && (ar_Section r =? section)) (me_records w) with
  | Some r => (Ok r, w)
  | None => (Err (ESentinel ErrRecordNotFound), w)
  end.
Definition memory_users : list User :=
  [mkUser 1 7 "d1" "A" "" ""; mkUser 2 7 "d2" "B" "" ""; mkUser 3 7 "d3" "C" "" ""; mkUser 4 7 "d4" "D" "" ""].
Definition memory_service : AttendanceRecordService memory :=
  mkAttendanceService memory
    (Some (mkUserRepo memory (fun _ => st_ret memory_users) (fun _ => st_ret memory_users)
       (fun _ _ => st_ret memory_users) (fun _ => st_ret ∅)))
    (fun _ _ _ => st_ret [])
    (Some (fun _ _ _ => st_ret [mkLeaveApproval 4 "D" "annual" "trip" 0 0 "COMPLETED" "agree"]))
    (mkRecordRepo memory (fun r w => (Ok tt, mkMemory (r :: me_records w) (me_overrides w)))
       memory_find (fun id w => memory_find 0 id w) (fun _ => st_ret []) (fun _ _ => st_ret []))
    (Some (mkOverrideRepo memory (fun o w => (Ok tt, mkMemory (me_records w) (o :: me_overrides w)))
       (fun date section w => (Ok (List.filter (fun o => (mo_Date o =? date) && (mo_Section o =? section))
                                     (me_overrides w)), w))))
    None None None
    (mkScheduleConfig [mkPeriod "1" "08:00" "09:40"; mkPeriod "2" "10:00" "11:40"] 15 30)
    None None (fun w => (at_clock 0 0 0, w))
    (Some (fun _ start _ => st_ret [mkCheckRecord "d1" (start + minutes 5) "OnDuty";
                                     mkCheckRecord "d2" (start + minutes 40) "OnDuty"])).

(** Users 1 and 2 were on time in the first section of the day. *)
Definition memory_day : Z := local_instant (instant 2026 3 2 0 0 0 0).
Definition memory_start : memory :=
  mkMemory [mkAttendanceRecord 5 7 memory_day 1 1
    (serializeOnTimeUsers [mkCheck 1 "" "" "" memory_day; mkCheck 2 "" "" "" memory_day]) "[]" "[]" "[]" "[]" "[]"] [].
Definition memory_request : AttendanceDetailRequest := mkDetailRequest "2026-03-02" 1 2 [].

Lemma memory_candidates : distinct_candidates memory_service.
Proof.
  intros repo ids w users w' [= <-] [= <- <-]. cbn. repeat (apply NoDup_cons; split; [set_solver|]). by apply NoDup_nil.
Qed.

Definition finalized_memory : AttendanceDetailResponse :=
  match (FinalizeAttendanceRecord memory_service memory_request memory_start).1 with
  | Ok r => r | Err _ => empty_detail memory_request (mkPeriod "" "" "") (mkGroups [] [] [] [] []) end.

Ltac decide_now := apply (bool_decide_unpack _); vm_compute; exact I.

Lemma finalized_memory_run : exists w,
  FinalizeAttendanceRecord memory_service memory_request memory_start = (Ok finalized_memory, w).
Proof. eexists. vm_compute. reflexivity. Qed.

Lemma statistics_add_up_witness :
  exists resp w, FinalizeAttendanceRecord memory_service memory_request memory_start = (Ok resp, w)
    /\ adds_up resp /\ as_ShouldAttend (dr_Statistics resp) = 4.
Proof.
  destruct finalized_memory_run as [w E]. exists finalized_memory, w. split; [done|].
  destruct (statistics_add_up memory_service memory_request memory_start finalized_memory w memory_candidates E) as [H _].
  split; [exact H|]. vm_compute. reflexivity.
Defined.

Lemma attendance_accounted_witness : shown memory_service memory_request memory_start finalized_memory.
Proof.
  destruct finalized_memory_run as [w E].
  destruct (attendance_accounted memory_service memory_request memory_start) as (_ & _ & H & _). exact (H _ _ E).
Defined.

(** User 2 was on time in the first section and checks in late in the second:
    the check-in carried forward makes them on time, but they stay late, and
    the four groups add up to one more than have to attend. *)
Lemma carried_user_counted_twice :
  let st := dr_Statistics finalized_memory in
  2 ∈ twice (dr_Users finalized_memory) /\ as_ShouldAttend st = 4
  /\ as_OnTime st + as_Late st + as_Leave st + as_NotArrived st = 5.
Proof.
  split; [decide_now|by vm_compute].
Qed.

(** ** Corrections by hand *)

Lemma override_sets u os :
  let F := forced u os in
  F ⊆ override_allowed u /\ F ## override_excluded u.
Proof.
  intros F. split; intros k Hk; unfold F, forced in Hk; apply elem_ids in Hk as (o & Ho & <-);
    apply list_elem_of_filter in Ho as [(_ & Ha & Hn) _]; done.
Qed.

Lemma forced_ext u u' os :
  override_allowed u = override_allowed u' -> override_excluded u = override_excluded u' -> forced u os = forced u' os.
Proof.
  intros E1 E2. unfold forced. do 2 f_equal.
  apply list_filter_iff. intros o. unfold applies. by rewrite E1, E2.
Qed.

(** A correction by hand moves users and nobody else: the users forced on
    time are those of an override of that kind who have to attend and are
    neither on leave nor excused; afterwards they are on time and neither late
    nor absent, everybody else stays where they were, who has to attend, leave,
    rest and courses are untouched, an account that was complete stays
    complete, and applying the same overrides again changes nobody. *)
Theorem overrides_force_on_time os resp :
  let u := dr_Users resp in let u' := dr_Users (apply_overrides os resp) in let F := forced u os in
  (forall k, k ∈ F <-> exists o, o ∈ os /\ mo_UserID o = k /\ mo_OverrideType o = attendanceOverrideTypeForceOnTime
      /\ k ∈ override_allowed u /\ k ∉ override_excluded u)
  /\ check_ids (li_OnTime u') = check_ids (li_OnTime u) ∪ F
  /\ li_Late u' = filterAttendanceChecks (li_Late u) F /\ check_ids (li_Late u') ## F
  /\ li_NotArrived u' = filterAttendanceBasics (li_NotArrived u) F /\ basic_ids (li_NotArrived u') ## F
  /\ li_ShouldAttend u' = li_ShouldAttend u /\ li_Leave u' = li_Leave u
  /\ li_RestDay u' = li_RestDay u /\ li_HasCourse u' = li_HasCourse u
  /\ (forall active, accounted active resp -> accounted active (apply_overrides os resp))
  /\ (let u'' := dr_Users (apply_overrides os (apply_overrides os resp)) in
      check_ids (li_OnTime u'') = check_ids (li_OnTime u')
      /\ li_Late u'' = li_Late u' /\ li_NotArrived u'' = li_NotArrived u').
Proof.
  intros u u' F. pose proof (apply_overrides_lists os resp) as (E1 & E2 & E3 & E4 & E5 & E6 & E7).
  fold u u' F in E1, E2, E3, E4, E5, E6, E7. destruct (override_sets u os) as [Ha Hx]. fold F in Ha, Hx.
  assert (Hl : check_ids (li_Late u') = check_ids (li_Late u) ∖ F) by (rewrite E2; apply filter_out_ids).
  assert (Hn : basic_ids (li_NotArrived u') = basic_ids (li_NotArrived u) ∖ F) by (rewrite E3; apply filter_out_ids).
  split_and!; try done.
  - intros k. unfold F, forced. rewrite elem_ids. setoid_rewrite list_elem_of_filter. unfold applies. naive_solver.
  - rewrite Hl. set_solver.
  - rewrite Hn. set_solver.
  - intros active. apply apply_overrides_accounted.
  - pose proof (apply_overrides_lists os (apply_overrides os resp)) as (G1 & G2 & G3 & _). fold u' in G1, G2, G3.
    assert (EF : forced u' os = F).
    { apply forced_ext; [|unfold override_excluded; by rewrite E5, E6, E7].
      unfold override_allowed in *. rewrite !list_to_set_app_L in *. rewrite E4.
      fold (check_ids (li_OnTime u')) (check_ids (li_Late u')) (basic_ids (li_NotArrived u')).
      rewrite E1, Hl, Hn. unfold check_ids, basic_ids. apply set_eq. intros k. specialize (Ha k).
      rewrite !elem_of_union in *. rewrite !elem_of_difference. destruct (decide (k ∈ F)); tauto. }
    rewrite EF in G1, G2, G3. split_and!.
    + rewrite G1, E1. set_solver.
    + rewrite G2, E2. unfold filterAttendanceChecks. rewrite filter_out_twice. by rewrite (idemp_L (∪)).
    + rewrite G3, E3. unfold filterAttendanceBasics. rewrite filter_out_twice. by rewrite (idemp_L (∪)).
Qed.

Lemma overrides_force_on_time_witness :
  let o := mkOverride 7 memory_day 1 2 3 attendanceOverrideTypeForceOnTime 1 memory_day in
  3 ∈ forced (dr_Users finalized_memory) [o]
  /\ 3 ∈ check_ids (li_OnTime (dr_Users (apply_overrides [o] finalized_memory)))
  /\ 3 ∉ basic_ids (li_NotArrived (dr_Users (apply_overrides [o] finalized_memory))).
Proof.
  intros o. destruct (overrides_force_on_time [o] finalized_memory) as (H & Ho & _ & _ & _ & Hn & _).
  assert (Hf : 3 ∈ forced (dr_Users finalized_memory) [o]).
  { apply H. exists o. split; [by left|]. split; [done|]. split; [done|]. split.
    - decide_now.
    - decide_now. }
  split_and!; [done|rewrite Ho; apply elem_of_union; by right|]. intros Hk. exact (Hn _ Hk Hf).
Defined.

(** ** Saving and reading back *)

Lemma stored_or_nil_read {A} (d : lax A) zero raw :
  stored_or_nil (unmarshal (lax_list d zero) []) raw = (unmarshal (lax_list d zero) [] raw).1.
Proof.
  unfold stored_or_nil. destruct (eqs raw "") eqn:E1; [apply eqs_true in E1 as ->; by vm_compute|].
  destruct (eqs raw "[]") eqn:E2; [apply eqs_true in E2 as ->; by vm_compute|]. done.
Qed.

Lemma wrap_int64_in z : in_int64 (wrap_int64 z) = true.
Proof.
  unfold in_int64, wrap_int64, min_int64, max_int64, two64, two63. apply andb_true_iff. rewrite !Z.leb_le.
  pose proof (Z.mod_pos_bound (z + 2 ^ 63) (2 ^ 64)). lia.
Qed.

Lemma wrap_int64_same z : in_int64 z = true -> wrap_int64 z = z.
Proof.
  unfold in_int64, wrap_int64, min_int64, max_int64, two64, two63. intros H. b2p. rewrite Z.mod_small by lia. lia.
Qed.

Lemma unix_round t : in_int64 (t / ns_sec) = true -> unix_time (unix_seconds t) = t / ns_sec * ns_sec.
Proof.
  intros H. unfold unix_time, unix_seconds. f_equal. rewrite <- (wrap_int64_same (t / ns_sec)) at 2 by done.
  unfold wrap_int64, two64, two63. f_equal. rewrite <- Z.add_assoc.
  set (x := t / ns_sec). set (c := 62135596800).
  replace ((x - c + 2 ^ 63) mod 2 ^ 64 - 2 ^ 63 + (c + 2 ^ 63)) with ((x - c + 2 ^ 63) mod 2 ^ 64 + c) by lia.
  rewrite Z.add_mod_idemp_l by lia. f_equal. lia.
Qed.

Lemma printable_list {A} (enc : A -> json) l :
  Forall (fun a => printable 1 (enc a)) l -> printable 0 (JArr (List.map enc l)).
Proof. intros H. constructor; [done|]. induction H; cbn; by constructor. Qed.

Lemma read_back {A} (d : lax A) zero (enc : A -> json) l :
  Forall (fun a => printable 1 (enc a) /\ d (enc a) zero = (a, false)) l ->
  stored_or_nil (unmarshal (lax_list d zero) []) (marshal (JArr (List.map enc l))) = l.
Proof.
  intros H. rewrite stored_or_nil_read, unmarshal_marshal.
  - rewrite lax_list_map; [done|]. eapply Forall_impl; [exact H|]. by intros a [].
  - apply printable_list. eapply Forall_impl; [exact H|]. by intros a [].
Qed.

Definition stored_check (c : AttendanceUserCheck) : StoredUserCheck :=
  mkStoredCheck (ak_ID c) (unix_seconds (ak_CheckTime c)).
Definition stored_leave (l : AttendanceUserLeave) : StoredUserLeave :=
  mkStoredLeave (al_ID l) (al_LeaveType l) (al_Reason l).

Lemma checks_read_back l :
  Forall (fun c => in_uint64 (ak_ID c) = true) l ->
  stored_or_nil read_checks (serializeOnTimeUsers l) = List.map stored_check l.
Proof.
  intros H. unfold serializeOnTimeUsers. rewrite <- (map_map stored_check json_of_check). apply read_back.
  apply Forall_fmap. eapply Forall_impl; [exact H|]. intros c Hc. cbn. split.
  - apply printable_obj_members; [done|]. repeat (apply Forall_cons; split; [intros _; split; [done|apply printable_num]|]). by apply Forall_nil.
  - unfold lax_check, json_of_check. cbn -[lax_of json_int unix_seconds].
    rewrite !(lax_of_Ok _ _ _ _ (dec_uint64_int _ _ Hc)).
    by rewrite !(lax_of_Ok _ _ _ _ (dec_int64_int _ _ (wrap_int64_in _ : in_int64 (unix_seconds _) = true))).
Qed.

Lemma leaves_read_back l :
  Forall (fun c => in_uint64 (al_ID c) = true /\ valid_string (al_LeaveType c) = true /\ valid_string (al_Reason c) = true) l ->
  stored_or_nil read_leaves (serializeLeaveUsers l) = List.map stored_leave l.
Proof.
  intros H. unfold serializeLeaveUsers. rewrite <- (map_map stored_leave json_of_leave). apply read_back.
  apply Forall_fmap. eapply Forall_impl; [exact H|]. intros c (Hc & Ht & Hr). cbn. split.
  - apply printable_obj_members; [done|].
    apply Forall_cons; split; [intros _; split; [done|apply printable_num]|].
    repeat (apply Forall_cons; split; [intros _; split; [done|by apply printable_str]|]). by apply Forall_nil.
  - unfold lax_leave, json_of_leave. cbn -[lax_of json_int]. by rewrite !(lax_of_Ok _ _ _ _ (dec_uint64_int _ _ Hc)).
Qed.

Lemma basics_read_back l :
  Forall (fun c => in_uint64 (ab_ID c) = true) l ->
  stored_or_nil read_ids (serializeBasicUsers l) = List.map ab_ID l.
Proof.
  intros H. unfold serializeBasicUsers. rewrite <- (map_map ab_ID json_int). apply read_back.
  apply Forall_fmap. eapply Forall_impl; [exact H|]. intros c Hc. split; [apply printable_num|].
  apply lax_of_Ok. by apply dec_uint64_int.
Qed.

(** What can be stored: ids are unsigned, texts are UTF-8, times have int64 seconds. *)
Definition storable_check (c : AttendanceUserCheck) : Prop :=
  in_uint64 (ak_ID c) = true /\ in_int64 (ak_CheckTime c / ns_sec) = true.
#[export] Instance storable_check_dec c : Decision (storable_check c).
Proof. unfold storable_check. apply _. Defined.

Record storable (u : AttendanceUserLists) : Prop := {
  st_on_time : Forall storable_check (li_OnTime u);
  st_late : Forall storable_check (li_Late u);
  st_leave : Forall (fun c => in_uint64 (al_ID c) = true /\ valid_string (al_LeaveType c) = true
                              /\ valid_string (al_Reason c) = true) (li_Leave u);
  st_absent : Forall (fun c => in_uint64 (ab_ID c) = true) (li_NotArrived u);
  st_rest : Forall (fun c => in_uint64 (ab_ID c) = true) (li_RestDay u);
  st_course : Forall (fun c => in_uint64 (ab_ID c) = true) (li_HasCourse u) }.

(** Every user of the detail is still there. *)
Definition all_known (m : gmap Z User) (u : AttendanceUserLists) : Prop :=
  check_ids (li_OnTime u) ∪ check_ids (li_Late u) ∪ leave_ids (li_Leave u) ∪ basic_ids (li_NotArrived u)
  ∪ basic_ids (li_RestDay u) ∪ basic_ids (li_HasCourse u) ⊆ dom m.

(** The record the repository stores gives it a number. *)
Definition stored_as (id tenant : Z) (r : AttendanceRecord) : AttendanceRecord :=
  mkAttendanceRecord id tenant (ar_Date r) (ar_Week r) (ar_Section r) (ar_OnTimeIDs r) (ar_LateIDs r)
    (ar_LeaveIDs r) (ar_NotArrivedIDs r) (ar_RestDayIDs r) (ar_HasCourseIDs r).

Lemma collect_known_ids known seen ids :
  Forall (fun id => known id = true) ids ->
  (list_to_set (collect_known known seen ids) : gset Z) = list_to_set ids ∖ seen.
Proof.
  intros H. revert seen. induction H as [|id ids Hid Hids IH]; intros seen; cbn -[union]; [set_solver|].
  rewrite Hid. cbn [negb]. rewrite orb_false_r. case_bool_decide as Hs.
  - rewrite IH. set_solver.
  - cbn -[union]. rewrite IH. apply set_eq. intros k. rewrite elem_of_union, !elem_of_difference, !elem_of_union.
    rewrite elem_of_singleton. destruct (decide (k = id)) as [->|]; tauto.
Qed.

Lemma filter_known {A} (id : A -> Z) (m : gmap Z User) l :
  (list_to_set (List.map id l) : gset Z) ⊆ dom m ->
  List.filter (fun x => bool_decide (is_Some (m !! id x))) l = l.
Proof.
  induction l as [|x l IH]; cbn; [done|]. intros H. rewrite bool_decide_eq_true_2, IH; [done|set_solver|].
  apply elem_of_dom. set_solver.
Qed.

Lemma stored_check_ids l : List.map sc_ID (List.map stored_check l) = List.map ak_ID l.
Proof. by rewrite map_map. Qed.
Lemma stored_leave_ids l : List.map sl_ID (List.map stored_leave l) = List.map al_ID l.
Proof. by rewrite map_map. Qed.

(** A detail with the same users in every list is complete when the other is. *)
Lemma same_users_accounted active (r1 r2 : AttendanceDetailResponse) :
  let u1 := dr_Users r1 in let u2 := dr_Users r2 in
  basic_ids (li_ShouldAttend u2) = basic_ids (li_ShouldAttend u1) ->
  check_ids (li_OnTime u2) = check_ids (li_OnTime u1) -> check_ids (li_Late u2) = check_ids (li_Late u1) ->
  leave_ids (li_Leave u2) = leave_ids (li_Leave u1) -> basic_ids (li_NotArrived u2) = basic_ids (li_NotArrived u1) ->
  basic_ids (li_RestDay u2) = basic_ids (li_RestDay u1) -> basic_ids (li_HasCourse u2) = basic_ids (li_HasCourse u1) ->
  dr_Statistics r2 = mkStatistics (len (li_ShouldAttend u2)) (len (li_OnTime u2)) (len (li_Late u2))
    (len (li_Leave u2)) (len (li_NotArrived u2)) (len (li_RestDay u2)) (len (li_HasCourse u2)) ->
  accounted active r1 -> accounted active r2.
Proof. intros u1 u2 E1 E2 E3 E4 E5 E6 E7 E8 []. subst u1 u2. split; rewrite ?E1, ?E2, ?E3, ?E4, ?E5, ?E6, ?E7; done. Qed.

(** A check-in as it is shown again. *)
Definition read_check (m : gmap Z User) (depts : gmap Z string) (c : StoredUserCheck) : AttendanceUserCheck :=
  mkCheck (sc_ID c) (match m !! sc_ID c with Some v => us_Name v | None => "Unknown" end)
    (match m !! sc_ID c with Some v => us_Avatar v | None => "" end) (default "" (depts !! sc_ID c))
    (unix_time (sc_CheckTime c)).

Lemma read_check_stored m depts l :
  Forall storable_check l ->
  List.map stored_check (List.map (read_check m depts) (List.map stored_check l)) = List.map stored_check l
  /\ List.map ak_CheckTime (List.map (read_check m depts) (List.map stored_check l))
     = List.map (fun c => ak_CheckTime c / ns_sec * ns_sec) l.
Proof.
  intros Hl. rewrite !map_map. split; apply map_ext_Forall; (eapply Forall_impl; [exact Hl|]); intros c [_ Hc].
  - unfold stored_check. cbn -[unix_seconds unix_time]. rewrite unix_round by done. f_equal.
    unfold unix_seconds. do 2 f_equal. by rewrite Z.div_mul by done.
  - by apply unix_round.
Qed.

(** The lists that are read back. *)
Lemma lists_read_back id tenant resp a b m depts :
  storable (dr_Users resp) -> all_known m (dr_Users resp) ->
  let u := dr_Users resp in
  let u' := dr_Users (NewAttendanceDetailResponseFromRecord (stored_as id tenant (record_of_detail resp)) a b m depts) in
  List.map stored_check (li_OnTime u') = List.map stored_check (li_OnTime u)
  /\ List.map ak_CheckTime (li_OnTime u') = List.map (fun c => ak_CheckTime c / ns_sec * ns_sec) (li_OnTime u)
  /\ List.map stored_check (li_Late u') = List.map stored_check (li_Late u)
  /\ List.map ak_CheckTime (li_Late u') = List.map (fun c => ak_CheckTime c / ns_sec * ns_sec) (li_Late u)
  /\ List.map stored_leave (li_Leave u') = List.map stored_leave (li_Leave u)
  /\ List.map ab_ID (li_NotArrived u') = List.map ab_ID (li_NotArrived u)
  /\ List.map ab_ID (li_RestDay u') = List.map ab_ID (li_RestDay u)
  /\ List.map ab_ID (li_HasCourse u') = List.map ab_ID (li_HasCourse u)
  /\ basic_ids (li_ShouldAttend u') = check_ids (li_OnTime u) ∪ check_ids (li_Late u) ∪ leave_ids (li_Leave u)
                                      ∪ basic_ids (li_NotArrived u).
Proof.
  intros [S1 S2 S3 S4 S5 S6] Hk u u'. unfold all_known in Hk. fold u in S1, S2, S3, S4, S5, S6, Hk.
  assert (Hid : forall l, Forall storable_check l -> Forall (fun c => in_uint64 (ak_ID c) = true) l)
    by (intros l Hl; eapply Forall_impl; [exact Hl|]; by intros c []).
  subst u'. unfold NewAttendanceDetailResponseFromRecord, stored_as, record_of_detail. fold u.
  cbn -[stored_or_nil serializeOnTimeUsers serializeLeaveUsers serializeBasicUsers collect_known len].
  unfold serializeNotArrivedUsers, serializeRestDayUsers.
  rewrite !checks_read_back by auto. rewrite leaves_read_back by done. rewrite !basics_read_back by done.
  rewrite stored_check_ids, stored_check_ids, stored_leave_ids.
  unfold check_ids, leave_ids, basic_ids, attendanceLeaveIDBoolSet in *.
  rewrite (filter_known sc_ID m (List.map stored_check (li_OnTime u))) by (rewrite stored_check_ids; set_solver).
  rewrite (filter_known sc_ID m (List.map stored_check (li_Late u))) by (rewrite stored_check_ids; set_solver).
  rewrite (filter_known sl_ID m) by (rewrite stored_leave_ids; set_solver).
  rewrite !(filter_known (fun x => x) m) by (rewrite map_id; set_solver).
  pose proof (read_check_stored m depts _ S1) as [T1 T2]. pose proof (read_check_stored m depts _ S2) as [T3 T4].
  split_and!; try done; try (by rewrite !map_map).
  rewrite map_map. cbn [ab_ID]. rewrite map_id, collect_known_ids.
  - rewrite difference_empty_L, !list_to_set_app_L. set_solver.
  - apply Forall_forall. intros k Hin. apply bool_decide_eq_true, elem_of_dom, Hk.
    apply (elem_of_list_to_set (C := gset Z)) in Hin. rewrite !list_to_set_app_L in Hin. set_solver.
Qed.

Lemma map_eq_sets {A B} (f : A -> B) (id : A -> Z) (id' : B -> Z) l l' :
  (forall x, id' (f x) = id x) -> List.map f l = List.map f l' ->
  (list_to_set (List.map id l) : gset Z) = list_to_set (List.map id l').
Proof.
  intros Hf H. rewrite <- (map_ext (fun x => id' (f x)) id Hf), <- (map_ext (fun x => id' (f x)) id Hf).
  by rewrite <- !(map_map f id'), H.
Qed.

(** C35: A saved record reads back: shown again while all its users are there,
    every list has the same users in the same order, check-in times are those
    of before cut to whole seconds, leaves keep their kind and reason, those who
    have to attend are put together again from the lists, and an account that
    was complete is complete again. *)
Theorem saved_record_reads_back id tenant resp a b m depts active :
  storable (dr_Users resp) -> all_known m (dr_Users resp) -> accounted active resp ->
  let u := dr_Users resp in
  let resp' := NewAttendanceDetailResponseFromRecord (stored_as id tenant (record_of_detail resp)) a b m depts in
  let u' := dr_Users resp' in
  List.map ak_ID (li_OnTime u') = List.map ak_ID (li_OnTime u)
  /\ List.map ak_CheckTime (li_OnTime u') = List.map (fun c => ak_CheckTime c / ns_sec * ns_sec) (li_OnTime u)
  /\ List.map ak_ID (li_Late u') = List.map ak_ID (li_Late u)
  /\ List.map ak_CheckTime (li_Late u') = List.map (fun c => ak_CheckTime c / ns_sec * ns_sec) (li_Late u)
  /\ List.map (fun l => (al_ID l, al_LeaveType l, al_Reason l)) (li_Leave u')
     = List.map (fun l => (al_ID l, al_LeaveType l, al_Reason l)) (li_Leave u)
  /\ List.map ab_ID (li_NotArrived u') = List.map ab_ID (li_NotArrived u)
  /\ List.map ab_ID (li_RestDay u') = List.map ab_ID (li_RestDay u)
  /\ List.map ab_ID (li_HasCourse u') = List.map ab_ID (li_HasCourse u)
  /\ basic_ids (li_ShouldAttend u') = basic_ids (li_ShouldAttend u)
  /\ accounted active resp'.
Proof.
  intros Hs Hk Ha u resp' u'.
  destruct (lists_read_back id tenant resp a b m depts Hs Hk) as (E1 & T1 & E2 & T2 & E3 & E4 & E5 & E6 & E7).
  fold u resp' in E1, T1, E2, T2, E3, E4, E5, E6, E7. fold u' in E1, T1, E2, T2, E3, E4, E5, E6, E7.
  assert (E8 : basic_ids (li_ShouldAttend u') = basic_ids (li_ShouldAttend u)).
  { rewrite E7. symmetry. apply (ac_should _ _ Ha). }
  assert (Hi : forall l l', List.map stored_check l = List.map stored_check l' -> List.map ak_ID l = List.map ak_ID l')
    by (intros l l' H; rewrite <- !stored_check_ids; by rewrite H).
  split_and!; try done; try (by apply Hi).
  - change (List.map (fun l => (sl_ID (stored_leave l), sl_LeaveType (stored_leave l), sl_Reason (stored_leave l))) (li_Leave u')
      = List.map (fun l => (sl_ID (stored_leave l), sl_LeaveType (stored_leave l), sl_Reason (stored_leave l))) (li_Leave u)).
    rewrite <- !(map_map stored_leave (fun l => (sl_ID l, sl_LeaveType l, sl_Reason l))). by rewrite E3.
  - apply (same_users_accounted active resp); [exact E8|..]; try done; fold u' u;
      unfold check_ids, leave_ids, basic_ids, attendanceLeaveIDBoolSet.
    + by rewrite (Hi _ _ E1).
    + by rewrite (Hi _ _ E2).
    + by apply (map_eq_sets stored_leave al_ID sl_ID).
    + by rewrite E4.
    + by rewrite E5.
    + by rewrite E6.
Qed.

Lemma finalized_accounted : accounted {[1; 2; 3; 4]} finalized_memory.
Proof. split; try decide_now. vm_compute. reflexivity. Qed.
Lemma finalized_storable : storable (dr_Users finalized_memory).
Proof. split; decide_now. Qed.
Lemma finalized_known : all_known (user_map memory_users) (dr_Users finalized_memory).
Proof. unfold all_known. decide_now. Qed.

Lemma saved_record_reads_back_witness :
  let resp' := NewAttendanceDetailResponseFromRecord (stored_as 9 7 (record_of_detail finalized_memory)) "10:00" "11:40"
                 (user_map memory_users) ∅ in
  List.map ak_ID (li_OnTime (dr_Users resp')) = [1; 2] /\ accounted {[1; 2; 3; 4]} resp'.
Proof.
  intros resp'.
  destruct (saved_record_reads_back 9 7 finalized_memory "10:00" "11:40" (user_map memory_users) ∅ {[1; 2; 3; 4]}
    finalized_storable finalized_known finalized_accounted) as (H1 & _ & _ & _ & _ & _ & _ & _ & _ & H2).
  split; [|exact H2]. etrans; [exact H1|]. vm_compute. reflexivity.
Defined.

(** ** Signing for users *)

Section signing.
Context `{LOC : Location} `{MO : MapOrder} {W : Type} (s : AttendanceRecordService W).

(** The service with other ports for writing records and overrides. *)
Definition with_writes (put : AttendanceRecord -> ST W unit) (force : AttendanceManualOverride -> ST W unit)
  : AttendanceRecordService W :=
  let r := srv_attendanceRecordRepo s in
  mkAttendanceService W (srv_userRepo s) (srv_courseRepo s) (srv_leaveRepo s)
    (mkRecordRepo W put (rr_FindByDateSection r) (rr_FindByID r) (rr_ListByDate r) (rr_ListByDateRange r))
    (option_map (fun o => mkOverrideRepo W force (or_ListByDateSection o)) (srv_manualOverrideRepo s))
    (srv_scheduleSettingRepo s) (srv_restDayRepo s) (srv_dingMgr s) (srv_scheduleCfg s)
    (srv_schedulePeriodSrv s) (srv_semesterSrv s) (srv_now s) (srv_fetchAttendanceRecords s).

Lemma check_refused {A} (p : A -> bool) (e e' : err) l : list_checkM (fun a => guard (p a) e) l = Err e' -> e' = e.
Proof. induction l as [|a l IH]; cbn; [done|]. unfold guard at 1. destruct (p a); cbn; [apply IH|by intros [= <-]]. Qed.

(** May be signed for: late, absent, or signed for before. *)
Definition signable (detail : AttendanceDetailResponse) (overrides : list AttendanceManualOverride) (id : Z) : Prop :=
  id ∈ check_ids (li_Late (dr_Users detail)) \/ id ∈ basic_ids (li_NotArrived (dr_Users detail))
  \/ exists o, o ∈ overrides /\ mo_UserID o = id /\ mo_OverrideType o = attendanceOverrideTypeForceOnTime.

Definition not_signable : err := BizError CodeOperationFailed "目标用户不在当前可代签范围内".

Lemma check_signable_Ok detail overrides targets :
  check_signable detail overrides targets = Ok tt <-> Forall (signable detail overrides) targets.
Proof.
  unfold check_signable. rewrite list_checkM_Ok. apply Forall_iff. intros id. rewrite guard_Ok, orb_true_iff.
  rewrite !bool_decide_eq_true, list_to_set_app_L, elem_of_union, (elem_ids mo_UserID). unfold signable, check_ids, basic_ids.
  assert (Hf : forall o, o ∈ List.filter (fun o => eqs (mo_OverrideType o) attendanceOverrideTypeForceOnTime) overrides
    <-> o ∈ overrides /\ mo_OverrideType o = attendanceOverrideTypeForceOnTime)
    by (intros o; by rewrite list_elem_of_In, filter_In, eqs_true, <- list_elem_of_In).
  setoid_rewrite Hf. naive_solver.
Qed.

End signing.

(** Reading does not depend on the ports for writing. *)
Lemma reads_slot `{LOC : Location} `{MO : MapOrder} {W} (s : AttendanceRecordService W) put force request :
  resolveSignSlot (with_writes s put force) request = resolveSignSlot s request.
Proof. reflexivity. Qed.
Lemma reads_detail `{LOC : Location} `{MO : MapOrder} {W} (s : AttendanceRecordService W) put force slot :
  loadAttendanceDetailForSign (with_writes s put force) slot = loadAttendanceDetailForSign s slot.
Proof.
  destruct s as [users courses leaves [up find byid bydate byrange] [[uo lo]|] settings rest ding cfg periods semester now fetch].
  all: cbv beta iota delta [currentTime resolveActivePeriods getActivePeriods resolveAttendanceWindow
    calculateCheckWindowStart shouldUseAllAttendMode getAttendanceCandidatesWithCourseUsers
    isRestDayAttendanceEnabled filterRestDayUsers getLeaveUsers loadAttendanceRecords getOnTimeUsers
    applyCarryForward enrichAttendanceDetailUsers attendance_groups_of buildAttendanceDetail
    applyManualOverridesToDetail buildUserMapWithDeptFilter reconcileSnapshotRefusedLeaves
    buildFinalAttendanceDetailForRead detail_of_record GetAttendanceRecordFromDB loadAttendanceDetailForSign
    srv_userRepo srv_courseRepo srv_leaveRepo srv_attendanceRecordRepo srv_manualOverrideRepo
    srv_scheduleSettingRepo srv_restDayRepo srv_dingMgr srv_scheduleCfg srv_schedulePeriodSrv
    srv_semesterSrv srv_now srv_fetchAttendanceRecords rr_FindByDateSection rr_Upsert rr_FindByID
    rr_ListByDate rr_ListByDateRange or_ListByDateSection or_UpsertForceOnTime with_writes option_map].
  all: reflexivity.
Qed.

Section signed.
Context `{LOC : Location} `{MO : MapOrder} {W : Type} (s : AttendanceRecordService W).

(** C34: Signing for users checks everybody before it writes anything: a
    request is refused as soon as one of its users is neither late nor absent
    nor signed for before, with the same answer and the same world whatever the
    ports for writing do; a request that succeeds names only such users, writes
    one override for each of them, in order, and reports all of them. *)
Theorem sign_checks_before_writing tenant request w :
  (forall slot w1 detail w2 repo overrides w3 put force,
     resolveSignSlot s request w = (Ok slot, w1) ->
     loadAttendanceDetailForSign s slot w1 = (Ok detail, w2) ->
     srv_manualOverrideRepo s = Some repo ->
     or_ListByDateSection repo (as_date slot) (as_section slot) w2 = (Ok overrides, w3) ->
     ~ Forall (signable detail overrides) (match request with Some r => sr_TargetUserIDs r | None => [] end) ->
     SignForUsers (with_writes s put force) tenant request w = (Err not_signable, w3))
  /\ (forall answer w', SignForUsers s tenant request w = (Ok answer, w') ->
     exists req slot w1 detail w2 repo overrides w3 w4 w5 owner now,
       request = Some req /\ sr_TargetUserIDs req <> []
       /\ resolveSignSlot s request w = (Ok slot, w1)
       /\ loadAttendanceDetailForSign s slot w1 = (Ok detail, w2)
       /\ srv_manualOverrideRepo s = Some repo
       /\ or_ListByDateSection repo (as_date slot) (as_section slot) w2 = (Ok overrides, w3)
       /\ Forall (signable detail overrides) (sr_TargetUserIDs req)
       /\ upsert_all repo (List.map (fun id =>
            mkOverride owner (normalizeAttendanceDate (as_date slot)) (as_week slot) (as_section slot) id
              attendanceOverrideTypeForceOnTime (sr_OperatorID req) now) (sr_TargetUserIDs req)) w4 = (Ok tt, w5)
       /\ answer = mkSignResponse (sr_TargetUserIDs req) []).
Proof.
  split.
  - intros slot w1 detail w2 repo overrides w3 put force Hs Hd Hr Ho Hn.
    unfold SignForUsers, st_bind at 1. rewrite reads_slot, Hs. unfold st_bind at 1. rewrite reads_detail, Hd.
    cbn [with_writes srv_manualOverrideRepo]. rewrite Hr. cbn [option_map]. unfold st_bind at 1.
    cbn [or_ListByDateSection]. rewrite Ho. cbn [wrap_err]. unfold st_bind at 1, st_lift.
    destruct (check_signable detail overrides _) as [[]|e] eqn:E; [by apply check_signable_Ok in E|].
    unfold check_signable in E. by apply check_refused in E as ->.
  - intros answer w' H. unfold SignForUsers in H.
    apply st_bind_Ok in H as (slot & w1 & Hs & H). apply st_bind_Ok in H as (detail & w2 & Hd & H).
    destruct (srv_manualOverrideRepo s) as [repo|] eqn:Er; [|done].
    apply st_bind_Ok in H as (overrides & w3 & Ho & H). apply st_bind_Ok in H as ([] & w3' & Hc & H).
    apply st_bind_Ok in H as (now & w6 & Hnow & H). apply st_bind_Ok in H as (owner & w4 & Hten & H).
    apply st_bind_Ok in H as ([] & w5 & Hu & H). apply st_bind_Ok in H as (found & w7 & _ & H).
    apply st_bind_Ok in H as (u & w8 & _ & H). injection H as <- <-.
    destruct request as [req|]; [|done].
    exists req, slot, w1, detail, w2, repo, overrides, w3, w4, w5, owner, now.
    injection Hc as Hc <-. split_and!; try done.
    + intros E. unfold resolveSignSlot, sign_request_ok in Hs. rewrite E in Hs. done.
    + destruct (or_ListByDateSection repo _ _ w2) as [[l|e] w9]; [by injection Ho as <- <-|done].
    + by apply check_signable_Ok.
Qed.
End signed.

Definition memory_sign (targets : list Z) : SignForUserRequest := mkSignRequest 0 "2026-03-02" 2 9 targets.

Lemma sign_checks_before_writing_witness :
  (exists w, SignForUsers (with_writes memory_service (fun _ => st_fail (EMsg "down")) (fun _ => st_fail (EMsg "down")))
     None (Some (memory_sign [1])) memory_start = (Err not_signable, w))
  /\ exists answer w, SignForUsers memory_service None (Some (memory_sign [3; 2])) memory_start = (Ok answer, w)
     /\ sr_SuccessIDs answer = [3; 2].
Proof.
  split.
  - destruct (sign_checks_before_writing memory_service None (Some (memory_sign [1])) memory_start) as [H _].
    eexists. eapply H; [vm_compute; reflexivity..|].
    intros [[Hl|[Hn|(o & Ho & _)]] _]%Forall_cons; [| |by apply elem_of_nil in Ho];
      [apply (bool_decide_pack _) in Hl; vm_compute in Hl; exact Hl
      |apply (bool_decide_pack _) in Hn; vm_compute in Hn; exact Hn].
  - destruct (SignForUsers memory_service None (Some (memory_sign [3; 2])) memory_start) as [[answer|e] w] eqn:E.
    + exists answer, w. split; [done|].
      destruct (sign_checks_before_writing memory_service None (Some (memory_sign [3; 2])) memory_start) as [_ H].
      destruct (H answer w E) as (req & slot & w1 & detail & w2 & repo & os & w3 & w4 & w5 & ow & now & [= <-] & _ & _ & _ & _ & _ & _ & _ & ->).
      reflexivity.
    + vm_compute in E. discriminate E.
Defined.
