(* ===== verification/Analytics.v ===== *)
(** * Attendance statistics and rankings

    internal/service/attendance_analytics.go (the statistics and the cross query
    the agent's tools call) and the two weekly rankings of
    attendance_record_service.go, over the ports of [Attendance].  [now] is what
    time.Now answers.  sort.Slice leaves the order of equal items open and a map
    loop the order of its entries; here sorting is stable and the enumeration of
    a map is that of [MapOrder]. *)
From Stdlib Require Import ZArith QArith Lia Bool String.
From stdpp Require Import base list sorting strings gmap.
From S2P Require Import Prelude GoStrings GoTime Json JsonLax Floats Contract ScheduleParse Calendar Settings Attendance.
#[local] Open Scope Z_scope.
#[local] Open Scope go_scope.

(** ** Data (internal/agent/tools/types.go, internal/dto) *)

Record AttendanceStatsQuery := mkStatsQuery {
  aq_Week : Z;
  aq_WeekRange : Z * Z;
  aq_Date : string;
  aq_DateRange : string * string;
  aq_Section : Z;
  aq_Sections : list Z;
  aq_UserName : string;
  aq_DeptID : Z;
  aq_GroupBy : string;
  aq_MinAbsentCount : Z;
  aq_MaxOnTimeRate : Q;
  aq_SortBy : string;
  aq_SortOrder : string;
  aq_Limit : Z
}.
Record AttendanceStatItem := mkStatItem {
  ai_Label : string;
  ai_AbsentCount : Z;
  ai_OnTimeCount : Z;
  ai_LeaveCount : Z;
  ai_TotalCount : Z;
  ai_OnTimeRate : string
}.
Record SlotCondition := mkSlotCondition { sq_Week : Z; sq_DayOfWeek : Z; sq_Section : Z }.
Record AbsentCondition := mkAbsentCondition { bq_Date : string; bq_Week : Z; bq_Section : Z }.
Record UserCrossQuery := mkCrossQuery {
  cq_FreeSlots : list SlotCondition;
  cq_BusySlots : list SlotCondition;
  cq_AbsentOn : list AbsentCondition;
  cq_DeptID : Z;
  cq_UserNames : list string
}.
Record WeeklyAttendanceRankingRequest := mkRankingRequest { rq_WeekOffset : Z; rq_DeptIDs : list Z }.
Record AttendanceRankingItem := mkRankingItem { ri_UserID : Z; ri_Name : string; ri_Avatar : string; ri_LateCount : Z }.
Record AttendanceRateRankingItem := mkRateItem {
  rt_UserID : Z; rt_Name : string; rt_Avatar : string; rt_OnTimeCount : Z; rt_TotalCount : Z; rt_Rate : string }.

(** The enumeration of a map keyed by users. *)
Class UserMapOrder := {
  range_users : forall A, gmap Z A -> list (Z * A);
  range_users_entries : forall A (m : gmap Z A), range_users A m ≡ₚ map_to_list m
}.
Arguments range_users {_ A} _.

(** [sort.Slice(l, less)]. *)
Definition sort_slice {A} (less : A -> A -> bool) : list A -> list A :=
  merge_sort (fun a b => Is_true (negb (less b a))).

(** ** Helpers *)

Definition parseAttendIDs (raw : string) : list Z := if eqs raw "" then [] else (read_ids raw).1.

Definition percent (onTime total : Z) : SpecFloat.spec_float :=
  float_mul (float_div (float_of_int onTime) (float_of_int total)) (float_of_int 100).
Definition formatAttendRate (onTime total : Z) : string :=
  if total =? 0 then "0.0%" else format_fixed 1 (percent onTime total) +:+ "%".
(** The only texts it is given are formatted rates. *)
Definition trim_percent (s : string) : string :=
  if has_suffix s "%" then of_bytes (take (length (bytes s) - 1) (bytes s)) else s.
Definition parseRateFloat (s : string) : Q :=
  float_value (float_div (parse_fixed (trim_percent s)) (float_of_int 100)).

(** ** Statistics *)

Record statsAccum := mkAccum { sa_onTime : Z; sa_leave : Z; sa_absent : Z }.
Definition no_stats : statsAccum := mkAccum 0 0 0.
Definition stats_total (a : statsAccum) : Z := sa_onTime a + sa_leave a + sa_absent a.
Definition count_onTime (a : statsAccum) : statsAccum := mkAccum (sa_onTime a + 1) (sa_leave a) (sa_absent a).
Definition count_leave (a : statsAccum) : statsAccum := mkAccum (sa_onTime a) (sa_leave a + 1) (sa_absent a).
Definition count_absent (a : statsAccum) : statsAccum := mkAccum (sa_onTime a) (sa_leave a) (sa_absent a + 1).

Definition accumToStatItem (label : string) (acc : statsAccum) : AttendanceStatItem :=
  let total := stats_total acc in
  mkStatItem label (sa_absent acc) (sa_onTime acc) (sa_leave acc) total (formatAttendRate (sa_onTime acc) total).

(** [add] of [collectStatsAccum]: one counter for every listed user who is
    allowed (an empty set allows all) and has a key. *)
Definition add_ids (allowed : gset Z) (key : Z -> string) (inc : statsAccum -> statsAccum) (raw : string)
    (accum : gmap string statsAccum) : gmap string statsAccum :=
  fold_left (fun accum uid =>
    if (0 <? Z.of_nat (size allowed)) && negb (bool_decide (uid ∈ allowed)) then accum
    else let k := key uid in
         if eqs k "" then accum else <[k := inc (default no_stats (accum !! k))]> accum)
    (parseAttendIDs raw) accum.
Definition collectStatsAccum (allowed : gset Z) (key : Z -> string) (record : AttendanceRecord)
    (accum : gmap string statsAccum) : gmap string statsAccum :=
  add_ids allowed key count_absent (ar_NotArrivedIDs record)
    (add_ids allowed key count_leave (ar_LeaveIDs record)
       (add_ids allowed key count_onTime (ar_OnTimeIDs record) accum)).

(** [key] is the label of a user of a record. *)
Definition accumulate (allowed : gset Z) (key : AttendanceRecord -> Z -> string) (records : list AttendanceRecord)
  : gmap string statsAccum :=
  fold_left (fun accum r => collectStatsAccum allowed (key r) r accum) records ∅.

Section analytics.
Context `{LOC : Location} `{MO : MapOrder} `{UO : UserMapOrder} {W : Type} (s : AttendanceRecordService W).

Definition stat_items (accum : gmap string statsAccum) : list AttendanceStatItem :=
  List.map (fun e => accumToStatItem e.1 e.2) (range accum).

Definition aggregateStatsByUser (records : list AttendanceRecord) (allowed : gset Z) (names : gmap Z string)
  : list AttendanceStatItem := stat_items (accumulate allowed (fun _ uid => default "" (names !! uid)) records).
Definition aggregateStatsByDept (records : list AttendanceRecord) (allowed : gset Z) (depts : gmap Z string)
  : list AttendanceStatItem :=
  stat_items (accumulate allowed (fun _ uid =>
    let name := default "" (depts !! uid) in if eqs name "" then "未知部门" else name) records).
Definition aggregateStatsByWeek (records : list AttendanceRecord) (allowed : gset Z) : list AttendanceStatItem :=
  stat_items (accumulate allowed (fun r _ => "第" +:+ itoa (ar_Week r) +:+ "周") records).
Definition aggregateStatsBySection (records : list AttendanceRecord) (allowed : gset Z) : list AttendanceStatItem :=
  stat_items (accumulate allowed (fun r _ => "第" +:+ itoa (ar_Section r) +:+ "节") records).

Definition weekdayNames : list string := [""; "周一"; "周二"; "周三"; "周四"; "周五"; "周六"; "周日"].
Definition day_label (r : AttendanceRecord) : string :=
  let mon1 := weekday (local_civil (ar_Date r)) - 1 in
  let mon1 := if mon1 <? 0 then 6 else mon1 in
  default "" (weekdayNames !! Z.to_nat (mon1 + 1)).
Definition aggregateStatsByDay (records : list AttendanceRecord) (allowed : gset Z) : list AttendanceStatItem :=
  stat_items (accumulate allowed (fun r _ => day_label r) records).

Definition record_label (r : AttendanceRecord) : string :=
  format_date (ar_Date r) +:+ " 第" +:+ itoa (ar_Section r) +:+ "节".
Definition aggregateStatsPerRecord (records : list AttendanceRecord) (allowed : gset Z) : list AttendanceStatItem :=
  List.map (fun r =>
    let label := record_label r in
    accumToStatItem label
      (default no_stats (collectStatsAccum allowed (fun _ => label) r {[label := no_stats]} !! label))) records.

Definition dispatchStatsGroupBy (records : list AttendanceRecord) (allowed : gset Z) (names : gmap Z string)
    (groupBy : string) : ST W (list AttendanceStatItem) := fun w =>
  if eqs groupBy "user" then (Ok (aggregateStatsByUser records allowed names), w)
  else if eqs groupBy "dept" then
    deref (srv_userRepo s) (fun userRepo w =>
      match ur_GetUserDepartmentNames userRepo (elements allowed) w with
      | (Err e, w) => (Err (EWrap "查询部门信息失败: %w" e), w)
      | (Ok depts, w) => (Ok (aggregateStatsByDept records allowed depts), w)
      end) w
  else if eqs groupBy "week" then (Ok (aggregateStatsByWeek records allowed), w)
  else if eqs groupBy "section" then (Ok (aggregateStatsBySection records allowed), w)
  else if eqs groupBy "day" then (Ok (aggregateStatsByDay records allowed), w)
  else (Ok (aggregateStatsPerRecord records allowed), w).

(** [time.ParseInLocation] of a date and the midnight after it. *)
Definition parsed_day (date : string) : option (Z * Z) :=
  d ← parse_local_date date; Some (d, add_days d 1).
Definition parsed_range (range : string * string) : option (Z * Z) :=
  if eqs range.1 "" || eqs range.2 "" then None
  else d1 ← parse_local_date range.1; d2 ← parse_local_date range.2; Some (d1, add_days d2 1).

Definition resolveStatsDateRange (now : Z) (req : AttendanceStatsQuery) : ST W (Z * Z) :=
  let today := at_clock now 0 0 in
  let by_default := st_ret (today, add_days today 1) in
  match parsed_range (aq_DateRange req) with
  | Some dates => st_ret dates
  | None =>
      match (if eqs (aq_Date req) "" then None else parsed_day (aq_Date req)) with
      | Some dates => st_ret dates
      | None =>
          match srv_semesterSrv s with
          | None => by_default
          | Some semester =>
              let '(w1, w2) := aq_WeekRange req in
              if (0 <? w1) && (0 <? w2) then
                a <~ GetWeekDateRange semester w1 ;;
                b <~ GetWeekDateRange semester w2 ;;
                st_ret (a.1, b.2)
              else if 0 <? aq_Week req then GetWeekDateRange semester (aq_Week req)
              else by_default
          end
      end
  end.

Definition dept_scope (deptID : Z) : list Z := if 0 <? deptID then [deptID] else [].
Definition loadStatsUsers (userName : string) (deptID : Z) : ST W (list User) :=
  deref (srv_userRepo s) (fun userRepo =>
    users <~ ur_ListAttendanceCandidates userRepo (dept_scope deptID) ;;
    st_ret (List.filter (fun u => eqs userName "" || contains (us_Name u) userName) users)).

Definition filterStatRecordsBySection (records : list AttendanceRecord) (section : Z) (sections : list Z)
  : list AttendanceRecord :=
  if (section =? 0) && (len sections =? 0) then records
  else
    let allow := (if 0 <? section then [section] else []) ++ sections in
    List.filter (fun r => existsb (Z.eqb (ar_Section r)) allow) records.

Definition applyStatHaving (items : list AttendanceStatItem) (req : AttendanceStatsQuery) : list AttendanceStatItem :=
  let by_absent := 0 <? aq_MinAbsentCount req in
  let by_rate := negb (Qle_bool (aq_MaxOnTimeRate req) 0) in
  if negb by_absent && negb by_rate then items
  else
    List.filter (fun item =>
      negb (by_absent && (ai_AbsentCount item <? aq_MinAbsentCount req))
      && negb (by_rate && negb (Qle_bool (parseRateFloat (ai_OnTimeRate item)) (aq_MaxOnTimeRate req)))) items.

Definition stat_key (sortBy : string) (item : AttendanceStatItem) : Q :=
  if eqs sortBy "on_time_count" then inject_Z (ai_OnTimeCount item)
  else if eqs sortBy "on_time_rate" then parseRateFloat (ai_OnTimeRate item)
  else if eqs sortBy "leave_count" then inject_Z (ai_LeaveCount item)
  else inject_Z (ai_AbsentCount item).
Definition Qless (a b : Q) : bool := negb (Qle_bool b a).
Definition sortStatItems (sortBy sortOrder : string) : list AttendanceStatItem -> list AttendanceStatItem :=
  let key := stat_key sortBy in
  if eqs sortOrder "asc" then sort_slice (fun a b => Qless (key a) (key b))
  else sort_slice (fun a b => Qless (key b) (key a)).

Definition QueryStats (now : Z) (req : AttendanceStatsQuery) : ST W (list AttendanceStatItem) := fun w =>
  match resolveStatsDateRange now req w with
  | (Err e, w) => (Err (EWrap "解析时间范围失败: %w" e), w)
  | (Ok (startDate, endDate), w) =>
      match rr_ListByDateRange (srv_attendanceRecordRepo s) startDate endDate w with
      | (Err e, w) => (Err (EWrap "查询考勤记录失败: %w" e), w)
      | (Ok records, w) =>
          match filterStatRecordsBySection records (aq_Section req) (aq_Sections req) with
          | [] => (Ok [], w)
          | records =>
              match loadStatsUsers (aq_UserName req) (aq_DeptID req) w with
              | (Err e, w) => (Err (EWrap "查询用户信息失败: %w" e), w)
              | (Ok users, w) =>
                  match dispatchStatsGroupBy records (userIDBoolSet users) (us_Name <$> user_map users)
                          (aq_GroupBy req) w with
                  | (Err e, w) => (Err e, w)
                  | (Ok items, w) =>
                      let items := sortStatItems (aq_SortBy req) (aq_SortOrder req) (applyStatHaving items req) in
                      let limit := if aq_Limit req <=? 0 then 20 else aq_Limit req in
                      (Ok (take (Z.to_nat limit) items), w)
                  end
              end
          end
      end
  end.

(** ** The cross query *)

Definition loadCrossUsers (deptID : Z) (userNames : list string) : ST W (list User) :=
  deref (srv_userRepo s) (fun userRepo =>
    users <~ ur_ListAttendanceCandidates userRepo (dept_scope deptID) ;;
    st_ret (match userNames with
            | [] => users
            | _ => List.filter (fun u => existsb (eqs (us_Name u)) userNames) users
            end)).

Definition busy_course (slot : SlotCondition) (c : Course) : bool :=
  negb ((0 <? sq_Week slot) && negb (ContainsWeek (co_WeekList c) (sq_Week slot))).
Definition getBusyUserSet (userIDs : list Z) (slot : SlotCondition) : ST W (gset Z) :=
  courses <~ srv_courseRepo s userIDs (sq_DayOfWeek slot) (sq_Section slot) ;;
  st_ret (list_to_set (List.map co_UserID (List.filter (busy_course slot) courses))).

(** The users absent under one condition; its errors skip the condition. *)
Definition absent_under (cond : AbsentCondition) : W -> gset Z * W := fun w =>
  if negb (eqs (bq_Date cond) "") then
    match parse_local_date (bq_Date cond) with
    | None => (∅, w)
    | Some t =>
        match rr_FindByDateSection (srv_attendanceRecordRepo s) t (bq_Section cond) w with
        | (Err _, w) => (∅, w)
        | (Ok record, w) => (list_to_set (parseAttendIDs (ar_NotArrivedIDs record)), w)
        end
    end
  else
    match srv_semesterSrv s with
    | None => (∅, w)
    | Some semester =>
        if 0 <? bq_Week cond then
          match GetWeekDateRange semester (bq_Week cond) w with
          | (Err _, w) => (∅, w)
          | (Ok (startDate, endDate), w) =>
              match rr_ListByDateRange (srv_attendanceRecordRepo s) startDate endDate w with
              | (Err _, w) => (∅, w)
              | (Ok records, w) =>
                  let kept := List.filter (fun r => ar_Section r =? bq_Section cond) records in
                  (list_to_set (concat (List.map (fun r => parseAttendIDs (ar_NotArrivedIDs r)) kept)), w)
              end
          end
        else (∅, w)
    end.
Fixpoint getAbsentUserSet (conditions : list AbsentCondition) : W -> gset Z * W := fun w =>
  match conditions with
  | [] => (∅, w)
  | cond :: conditions =>
      let '(a, w) := absent_under cond w in
      let '(b, w) := getAbsentUserSet conditions w in (a ∪ b, w)
  end.

(** The loop over the slots: [keep] is what a slot leaves of the candidates. *)
Fixpoint narrow (keep : gset Z -> gset Z -> gset Z) (userIDs : list Z) (slots : list SlotCondition)
    (candidates : gset Z) : ST W (gset Z) := fun w =>
  match slots with
  | [] => (Ok candidates, w)
  | slot :: slots =>
      if bool_decide (candidates = ∅) then (Ok candidates, w)
      else match getBusyUserSet userIDs slot w with
           | (Err e, w) => (Err (EWrap "查询有课用户失败: %w" e), w)
           | (Ok busy, w) => narrow keep userIDs slots (keep candidates busy) w
           end
  end.

Definition QueryUserCross (req : UserCrossQuery) : ST W (list string) := fun w =>
  match loadCrossUsers (cq_DeptID req) (cq_UserNames req) w with
  | (Err e, w) => (Err (EWrap "查询候选用户失败: %w" e), w)
  | (Ok candidates, w) =>
      match candidates with
      | [] => (Ok [], w)
      | _ =>
          let userIDs := List.map us_ID candidates in
          match (set <~ narrow difference userIDs (cq_FreeSlots req) (list_to_set userIDs) ;;
                 narrow intersection userIDs (cq_BusySlots req) set) w with
          | (Err e, w) => (Err e, w)
          | (Ok set, w) =>
              let '(set, w) :=
                match cq_AbsentOn req with
                | [] => (set, w)
                | conditions =>
                    if bool_decide (set = ∅) then (set, w)
                    else let '(absent, w) := getAbsentUserSet conditions w in (absent ∩ set, w)
                end in
              (Ok (List.map us_Name (List.filter (fun u => bool_decide (us_ID u ∈ set)) candidates)), w)
          end
      end
  end.

(** ** The weekly rankings *)

(** Monday and Sunday of the week of [now], or of an earlier one. *)
Definition ranking_week (now weekOffset : Z) : Z * Z :=
  let offset := 1 - weekday (local_civil now) in
  let offset := if 0 <? offset then -6 else offset in
  let weekStart := add_days (at_clock now 0 0) (offset - weekOffset * 7) in
  (weekStart, add_days weekStart 6).

(** One more for every listed user. *)
Definition tally (ids : list Z) (counts : gmap Z Z) : gmap Z Z :=
  fold_left (fun m id => <[id := default 0 (m !! id) + 1]> m) ids counts.

(** The late users of a record; a list that cannot be decoded is skipped. *)
Definition late_ids (r : AttendanceRecord) : list Z :=
  if eqs (ar_LateIDs r) "" || eqs (ar_LateIDs r) "[]" then []
  else match read_checks (ar_LateIDs r) with
       | (lateUsers, false) => List.map sc_ID lateUsers
       | (_, true) => []
       end.
Definition late_counts (records : list AttendanceRecord) : gmap Z Z :=
  fold_left (fun counts r => tally (late_ids r) counts) records ∅.

Definition ranking_item (counts : gmap Z Z) (u : User) : AttendanceRankingItem :=
  mkRankingItem (us_ID u) (us_Name u) (us_Avatar u) (default 0 (counts !! us_ID u)).
Definition st_wrap {A} (fmt : string) (m : ST W A) : ST W A := fun w => let '(r, w) := m w in (wrap_err fmt r, w).

(** The users of a ranking: the late ones, of some departments if there are any. *)
Definition ranking_users (depts ids : list Z) : ST W (list User) :=
  deref (srv_userRepo s) (fun userRepo =>
    match depts with
    | [] => st_wrap "获取用户信息失败" (ur_ListByIDs userRepo ids)
    | _ => st_wrap "获取部门用户失败" (ur_ListByScope userRepo depts ids)
    end).
Definition sort_by_late : list AttendanceRankingItem -> list AttendanceRankingItem :=
  sort_slice (fun a b => ri_LateCount b <? ri_LateCount a).
Definition GetWeeklyRanking (now : Z) (req : WeeklyAttendanceRankingRequest) : ST W (list AttendanceRankingItem) :=
  let '(weekStart, weekEnd) := ranking_week now (rq_WeekOffset req) in
  records <~ st_wrap "获取考勤记录失败"
    (rr_ListByDateRange (srv_attendanceRecordRepo s) weekStart weekEnd) ;;
  let counts := late_counts records in
  if bool_decide (counts = ∅) then st_ret []
  else
    users <~ ranking_users (rq_DeptIDs req) (List.map fst (range_users counts)) ;;
    st_ret (sort_by_late (List.map (ranking_item counts) users)).

(** The sections a user should have attended and those the user did. *)
Definition rate_totals (r : AttendanceRecord) (totals : gmap Z Z) : gmap Z Z :=
  tally (List.map sl_ID (stored_or_nil read_leaves (ar_LeaveIDs r)))
    (tally (List.map sc_ID (stored_or_nil read_checks (ar_LateIDs r)))
       (tally (stored_or_nil read_ids (ar_NotArrivedIDs r))
          (tally (List.map sc_ID (stored_or_nil read_checks (ar_OnTimeIDs r))) totals))).
Definition total_slots (records : list AttendanceRecord) : gmap Z Z :=
  fold_left (fun totals r => rate_totals r totals) records ∅.
Definition onTime_slots (records : list AttendanceRecord) : gmap Z Z :=
  fold_left (fun totals r => tally (List.map sc_ID (stored_or_nil read_checks (ar_OnTimeIDs r))) totals) records ∅.

Record rateEntry := mkRateEntry { re_userID : Z; re_onTime : Z; re_total : Z; re_rate : SpecFloat.spec_float }.
Definition rate_entries (totals onTime : gmap Z Z) : list rateEntry :=
  List.map (fun e => let n := default 0 (onTime !! e.1) in mkRateEntry e.1 n e.2 (percent n e.2))
    (List.filter (fun e => negb (e.2 =? 0)) (range_users totals)).
Definition top_entries (entries : list rateEntry) : list rateEntry :=
  take 10 (sort_slice (fun a b => Qless (float_value (re_rate b)) (float_value (re_rate a))) entries).
Definition rate_item (users : gmap Z User) (e : rateEntry) : option AttendanceRateRankingItem :=
  u ← users !! re_userID e;
  Some (mkRateItem (us_ID u) (us_Name u) (us_Avatar u) (re_onTime e) (re_total e) (format_fixed 0 (re_rate e) +:+ "%")).
Definition GetWeeklyAttendanceRateRanking (now : Z) (req : WeeklyAttendanceRankingRequest)
  : ST W (list AttendanceRateRankingItem) :=
  let '(weekStart, weekEnd) := ranking_week now (rq_WeekOffset req) in
  records <~ st_wrap "获取考勤记录失败"
    (rr_ListByDateRange (srv_attendanceRecordRepo s) weekStart weekEnd) ;;
  let totals := total_slots records in
  if bool_decide (totals = ∅) then st_ret []
  else
    let entries := top_entries (rate_entries totals (onTime_slots records)) in
    users <~ deref (srv_userRepo s) (fun userRepo =>
               st_wrap "获取用户信息失败" (ur_ListByIDs userRepo (List.map re_userID entries))) ;;
    st_ret (omap (rate_item (user_map users)) entries).
End analytics.

(** ** The records table

    internal/repository/attendance_record_repository.go: [ListByDateRange] over
    the rows of the tenant, both ends included. *)
Definition row_before (a b : AttendanceRecord) : bool :=
  (ar_Date a <? ar_Date b) || (ar_Date a =? ar_Date b) && (ar_Section a <? ar_Section b).
Definition ListByDateRange (rows : list AttendanceRecord) (startDate endDate : Z) : list AttendanceRecord :=
  sort_slice row_before (List.filter (fun r => (startDate <=? ar_Date r) && (ar_Date r <=? endDate)) rows).
