(* ===== verification/AnalyticsSpec.v ===== *)
(** * Properties of the statistics and rankings

    What the statistics count of the records the service saves; that the cross
    query answers the set-theoretic question it is asked; that the ranking counts
    every lateness of the week and sorts by it. *)
From Stdlib Require Import ZArith QArith Lia Bool String.
From stdpp Require Import base list sorting strings gmap.
From S2P Require Import Prelude GoStrings GoTime Json JsonLax Floats Contract CodecSpec ScheduleParse Calendar Settings.
From S2P Require Import Attendance AttendanceSpec AttendanceLaws Analytics.
#[local] Open Scope Z_scope.
#[local] Open Scope go_scope.

(** ** Sorting *)

Lemma sort_slice_perm {A} (less : A -> A -> bool) l : sort_slice less l ≡ₚ l.
Proof. apply merge_sort_Permutation. Qed.

(** Sorting by an integer, greatest first. *)
Lemma sort_desc_sorted {A} (key : A -> Z) l :
  StronglySorted (fun a b => key b <= key a) (sort_slice (fun a b => key b <? key a) l).
Proof.
  unfold sort_slice. set (R := fun a b => Is_true (negb (key a <? key b))).
  assert (HR : forall a b, R a b <-> key b <= key a).
  { intros a b. unfold R. rewrite Is_true_true, negb_true_iff, Z.ltb_ge. done. }
  assert (H : StronglySorted R (merge_sort R l)).
  { assert (Transitive R) by (intros a b c; rewrite !HR; lia).
    assert (Total R) by (intros a b; rewrite !HR; lia). apply (StronglySorted_merge_sort R). }
  induction H as [|a l' _ IH Ha]; constructor; [done|]. eapply Forall_impl; [exact Ha|]. intros b. apply HR.
Qed.

(** ** What the statistics count *)

(** A record as the service saves it. *)
Definition saved (r : AttendanceRecord) : Prop :=
  exists resp, storable (dr_Users resp)
    /\ ar_OnTimeIDs r = serializeOnTimeUsers (li_OnTime (dr_Users resp))
    /\ ar_LeaveIDs r = serializeLeaveUsers (li_Leave (dr_Users resp)).

(** Objects read as ids are zeros. *)
Lemma objects_as_ids l :
  Forall (fun j => exists ms, j = JObj ms) l -> Forall (eq 0) (lax_elems (lax_of dec_uint64) 0 l []).1.
Proof.
  induction 1 as [|j l (ms & ->) _ IH]; cbn; [constructor|].
  destruct (lax_elems (lax_of dec_uint64) 0 l []) as [rest e]. cbn in *. by constructor.
Qed.

Lemma parse_objects {A} (enc : A -> json) l :
  Forall (fun a => printable 1 (enc a) /\ exists ms, enc a = JObj ms) l ->
  Forall (eq 0) (parseAttendIDs (marshal (JArr (List.map enc l)))).
Proof.
  intros H. unfold parseAttendIDs. case_if; [constructor|]. unfold read_ids. rewrite unmarshal_marshal.
  - cbn [lax_list]. apply objects_as_ids. apply Forall_fmap. eapply Forall_impl; [exact H|]. by intros a [].
  - apply printable_list. eapply Forall_impl; [exact H|]. by intros a [].
Qed.

Lemma checks_as_ids l : Forall (eq 0) (parseAttendIDs (serializeOnTimeUsers l)).
Proof.
  unfold serializeOnTimeUsers. apply parse_objects. apply Forall_forall. intros c _. split; [|by eexists].
  apply printable_obj_members; [done|].
  repeat (apply Forall_cons; split; [intros _; split; [done|apply printable_num]|]). by apply Forall_nil.
Qed.
Lemma leaves_as_ids l :
  Forall (fun c => in_uint64 (al_ID c) = true /\ valid_string (al_LeaveType c) = true
                   /\ valid_string (al_Reason c) = true) l ->
  Forall (eq 0) (parseAttendIDs (serializeLeaveUsers l)).
Proof.
  intros H. unfold serializeLeaveUsers. apply parse_objects. eapply Forall_impl; [exact H|].
  intros c (_ & Ht & Hr). split; [|by eexists]. apply printable_obj_members; [done|].
  apply Forall_cons; split; [intros _; split; [done|apply printable_num]|].
  repeat (apply Forall_cons; split; [intros _; split; [done|by apply printable_str]|]). by apply Forall_nil.
Qed.

(** Counters that only ever counted absences. *)
Definition absences_only (accum : gmap string statsAccum) : Prop :=
  map_Forall (fun _ a => sa_onTime a = 0 /\ sa_leave a = 0 /\ 0 <= sa_absent a) accum.

Section counting.
Variable allowed : gset Z.
Hypothesis Hsome : allowed <> ∅.
Hypothesis Hzero : 0 ∉ allowed.

Lemma add_zeros key inc raw accum : Forall (eq 0) (parseAttendIDs raw) -> add_ids allowed key inc raw accum = accum.
Proof.
  intros H. assert (0 <? Z.of_nat (size allowed) = true) as Hsize.
  { apply Z.ltb_lt. assert (size allowed <> 0%nat); [|lia]. intros H0. apply Hsome, leibniz_equiv_iff.
    by apply size_empty_iff. }
  unfold add_ids. rewrite Hsize. induction H as [|id ids <- _ IH]; cbn [fold_left]; [done|].
  rewrite (bool_decide_eq_false_2 _ Hzero). exact IH.
Qed.

Lemma add_absences key raw accum :
  absences_only accum -> absences_only (add_ids allowed key count_absent raw accum).
Proof.
  unfold add_ids. generalize (parseAttendIDs raw). intros ids. revert accum.
  induction ids as [|id ids IH]; intros accum H; [exact H|]. cbn [fold_left]. apply IH.
  case_if; [exact H|]. cbv zeta. case_if; [exact H|]. apply map_Forall_insert_2; [|exact H].
  destruct (accum !! key id) as [a|] eqn:Ea; cbn; [|lia]. destruct (H _ _ Ea) as (? & ? & ?). lia.
Qed.

Lemma collect_saved key r accum :
  saved r -> absences_only accum -> absences_only (collectStatsAccum allowed key r accum).
Proof.
  intros (resp & Hs & Ho & Hl) H. unfold collectStatsAccum. rewrite Ho, Hl.
  rewrite (add_zeros _ count_onTime) by apply checks_as_ids.
  rewrite (add_zeros _ count_leave) by apply leaves_as_ids, Hs. by apply add_absences.
Qed.

Lemma accumulate_saved key records : Forall saved records -> absences_only (accumulate allowed key records).
Proof.
  unfold accumulate. intros H. assert (H0 : absences_only ∅) by apply map_Forall_empty. revert H0.
  generalize (∅ : gmap string statsAccum). induction H as [|r records Hr _ IH]; intros accum Ha; [exact Ha|].
  cbn [fold_left]. apply IH. by apply collect_saved.
Qed.
End counting.

(** An item that reports nothing but absences. *)
Definition absences_item (i : AttendanceStatItem) : Prop :=
  ai_OnTimeCount i = 0 /\ ai_LeaveCount i = 0 /\ ai_TotalCount i = ai_AbsentCount i /\ ai_OnTimeRate i = "0.0%".

Lemma accum_item label a :
  sa_onTime a = 0 /\ sa_leave a = 0 /\ 0 <= sa_absent a -> absences_item (accumToStatItem label a).
Proof.
  destruct a as [o l n]. cbn. intros (-> & -> & Hn). unfold absences_item, accumToStatItem, stats_total. cbn -[formatAttendRate].
  split_and!; [done..|]. unfold formatAttendRate. case_if; [done|]. b2p.
  destruct n as [|n|n]; [done| |lia]. reflexivity.
Qed.

Section query.
Context `{LOC : Location} `{MO : MapOrder} {W : Type} (s : AttendanceRecordService W).

Lemma range_absences accum :
  absences_only accum -> Forall absences_item (stat_items accum).
Proof.
  intros H. unfold stat_items. apply Forall_fmap, Forall_forall. intros [k a] Hin. cbn. apply accum_item.
  apply (H k). apply elem_of_map_to_list. by rewrite <- (range_entries _ accum).
Qed.

Lemma dispatch_absences records allowed names groupBy w items w' :
  allowed <> ∅ -> 0 ∉ allowed -> Forall saved records ->
  dispatchStatsGroupBy s records allowed names groupBy w = (Ok items, w') -> Forall absences_item items.
Proof.
  intros Hne Hz Hs. unfold dispatchStatsGroupBy.
  assert (HA : forall key, Forall absences_item (stat_items (accumulate allowed key records))).
  { intros key. by apply range_absences, accumulate_saved. }
  case_if; [intros [= <- _]; apply HA|].
  case_if.
  { unfold deref. destruct (srv_userRepo s) as [repo|]; [|done].
    destruct (ur_GetUserDepartmentNames repo _ w) as [[depts|e] w1]; [|done]. intros [= <- _]. apply HA. }
  do 3 (case_if; [intros [= <- _]; apply HA|]). intros [= <- _].
  unfold aggregateStatsPerRecord. apply Forall_fmap. eapply Forall_impl; [exact Hs|]. intros r Hr. cbn.
  apply accum_item.
  assert (H : absences_only (collectStatsAccum allowed (fun _ => record_label r) r {[record_label r := no_stats]})).
  { apply collect_saved; [done..|]. by apply map_Forall_singleton. }
  destruct (_ !! record_label r) as [a|] eqn:Ea; [by apply (H _ _ Ea)|done].
Qed.

(** C36: The statistics count absences only.  Over records as the service saves
    them (where who was on time and who was on leave are lists of objects, and
    only who was absent is a list of ids), every item of every query, by any
    grouping, range, section and order, reports nobody on time, nobody on leave, a
    total that is the number of absences, and an attendance rate of 0.0%, provided
    the name and department of the query leave at least one user and no user has
    the id 0.  A filter that leaves nobody is dropped instead, and then the ids
    that could not be read count after all ([unknown_name_counts_onTime]). *)
Theorem statistics_count_only_absences now req w items w' :
  (forall a b w records w', rr_ListByDateRange (srv_attendanceRecordRepo s) a b w = (Ok records, w') ->
     Forall saved records) ->
  (forall w users w', loadStatsUsers s (aq_UserName req) (aq_DeptID req) w = (Ok users, w') ->
     users <> [] /\ Forall (fun u => us_ID u <> 0) users) ->
  QueryStats s now req w = (Ok items, w') ->
  Forall absences_item items.
Proof.
  intros Hrec Husers. unfold QueryStats.
  destruct (resolveStatsDateRange s now req w) as [[[a b]|e] w1]; [|done].
  destruct (rr_ListByDateRange _ a b w1) as [[records|e] w2] eqn:Er; [|done]. apply Hrec in Er.
  destruct (filterStatRecordsBySection _ _ _) as [|r rs] eqn:Ef; [by intros [= <- _]|].
  assert (Hf : Forall saved (r :: rs)).
  { rewrite <- Ef. unfold filterStatRecordsBySection. case_if; [done|]. apply Forall_forall. intros x Hx.
    apply list_elem_of_In, List.filter_In in Hx as [Hx _].
    rewrite Forall_forall in Er. by apply Er, list_elem_of_In. }
  destruct (loadStatsUsers s _ _ w2) as [[users|e] w3] eqn:Eu; [|done]. apply Husers in Eu as [Hne Hz].
  destruct (dispatchStatsGroupBy s _ _ _ _ w3) as [[items0|e] w4] eqn:Ed; [|done]. intros [= <- _].
  apply dispatch_absences in Ed; [| | |exact Hf].
  - apply Forall_take. unfold sortStatItems. rewrite Forall_forall in Ed.
    apply Forall_forall. intros i Hi.
    assert (i ∈ applyStatHaving items0 req) as Hi'.
    { case_if_in Hi; by rewrite sort_slice_perm in Hi. }
    apply Ed. unfold applyStatHaving in Hi'. case_if_in Hi'; [done|].
    apply list_elem_of_In, List.filter_In in Hi' as [Hi' _]. by apply list_elem_of_In.
  - destruct users as [|u users]; [done|]. unfold userIDBoolSet. cbn. set_solver.
  - unfold userIDBoolSet. rewrite elem_of_list_to_set, list_elem_of_In, in_map_iff.
    intros (u & Hu & Hin). rewrite Forall_forall in Hz. apply (Hz u); [by rewrite list_elem_of_In|done].
Qed.
End query.

(** ** The cross query *)

Section cross.
Context `{LOC : Location} {W : Type} (s : AttendanceRecordService W).

Lemma narrow_free ids slots busy cands w :
  (forall slot, slot ∈ slots -> getBusyUserSet s ids slot w = (Ok (busy slot), w)) ->
  exists set, narrow s difference ids slots cands w = (Ok set, w)
    /\ forall x, x ∈ set <-> x ∈ cands /\ forallb (fun slot => negb (bool_decide (x ∈ (busy slot : gset Z)))) slots = true.
Proof.
  revert cands. induction slots as [|slot slots IH]; intros cands H; cbn [narrow].
  { exists cands. split; [done|]. intros x. cbn. tauto. }
  case_bool_decide as Hc.
  { exists cands. split; [done|]. subst. intros x. set_solver. }
  rewrite H by by left. destruct (IH (cands ∖ busy slot)) as (set & -> & Hset); [intros; apply H; by right|].
  exists set. split; [done|]. intros x. rewrite Hset, elem_of_difference. cbn [forallb].
  rewrite andb_true_iff, negb_true_iff, bool_decide_eq_false. tauto.
Qed.

Lemma narrow_busy ids slots busy cands w :
  (forall slot, slot ∈ slots -> getBusyUserSet s ids slot w = (Ok (busy slot), w)) ->
  exists set, narrow s intersection ids slots cands w = (Ok set, w)
    /\ forall x, x ∈ set <-> x ∈ cands /\ forallb (fun slot => bool_decide (x ∈ (busy slot : gset Z))) slots = true.
Proof.
  revert cands. induction slots as [|slot slots IH]; intros cands H; cbn [narrow].
  { exists cands. split; [done|]. intros x. cbn. tauto. }
  case_bool_decide as Hc.
  { exists cands. split; [done|]. subst. intros x. set_solver. }
  rewrite H by by left. destruct (IH (cands ∩ busy slot)) as (set & -> & Hset); [intros; apply H; by right|].
  exists set. split; [done|]. intros x. rewrite Hset, elem_of_intersection. cbn [forallb].
  rewrite andb_true_iff, bool_decide_eq_true. tauto.
Qed.

Lemma absent_union conds absent w :
  (forall cond, cond ∈ conds -> absent_under s cond w = (absent cond, w)) ->
  exists set, getAbsentUserSet s conds w = (set, w)
    /\ forall x, x ∈ set <-> existsb (fun cond => bool_decide (x ∈ (absent cond : gset Z))) conds = true.
Proof.
  induction conds as [|cond conds IH]; intros H; cbn [getAbsentUserSet].
  { exists ∅. split; [done|]. intros x. cbn. set_solver. }
  rewrite H by by left. destruct IH as (set & -> & Hset); [intros; apply H; by right|].
  exists (absent cond ∪ set). split; [done|]. intros x. rewrite elem_of_union, Hset. cbn [existsb].
  by rewrite orb_true_iff, bool_decide_eq_true.
Qed.

(** The question: free in all of some slots, busy in all of others, and absent
    under at least one of some conditions, if there are any. *)
Definition asked (req : UserCrossQuery) (busy : SlotCondition -> gset Z) (absent : AbsentCondition -> gset Z) (u : User)
  : bool :=
  forallb (fun slot => negb (bool_decide (us_ID u ∈ busy slot))) (cq_FreeSlots req)
  && forallb (fun slot => bool_decide (us_ID u ∈ busy slot)) (cq_BusySlots req)
  && match cq_AbsentOn req with
     | [] => true
     | conds => existsb (fun cond => bool_decide (us_ID u ∈ absent cond)) conds
     end.

(** The cross query answers the question it is asked: when the ports answer,
    the names are those of the candidates who have no course in any of the free
    slots, have one in every busy slot, and were absent under at least one of the
    conditions (if there are any), in the order of the candidates, nobody else
    and nobody left out, although the loops stop as soon as no candidate is
    left. *)
Theorem cross_query_exact req candidates busy absent w :
  loadCrossUsers s (cq_DeptID req) (cq_UserNames req) w = (Ok candidates, w) ->
  (forall slot, slot ∈ cq_FreeSlots req ++ cq_BusySlots req ->
     getBusyUserSet s (List.map us_ID candidates) slot w = (Ok (busy slot), w)) ->
  (forall cond, cond ∈ cq_AbsentOn req -> absent_under s cond w = (absent cond, w)) ->
  QueryUserCross s req w = (Ok (List.map us_Name (List.filter (asked req busy absent) candidates)), w).
Proof.
  intros Hu Hb Ha. unfold QueryUserCross. rewrite Hu. destruct candidates as [|u0 us]; [done|].
  set (cands := u0 :: us) in *. unfold st_bind.
  destruct (narrow_free (List.map us_ID cands) (cq_FreeSlots req) busy (list_to_set (List.map us_ID cands)) w)
    as (free & -> & Hfree); [intros; apply Hb, elem_of_app; by left|].
  destruct (narrow_busy (List.map us_ID cands) (cq_BusySlots req) busy free w)
    as (kept & -> & Hkept); [intros; apply Hb, elem_of_app; by right|].
  assert (Hin : forall u, u ∈ cands -> us_ID u ∈ kept <->
    forallb (fun slot => negb (bool_decide (us_ID u ∈ busy slot))) (cq_FreeSlots req) = true
    /\ forallb (fun slot => bool_decide (us_ID u ∈ busy slot)) (cq_BusySlots req) = true).
  { intros u Hu'. rewrite Hkept, Hfree, elem_of_list_to_set.
    assert (us_ID u ∈ List.map us_ID cands) by (apply list_elem_of_In, in_map; by apply list_elem_of_In). tauto. }
  destruct (absent_union (cq_AbsentOn req) absent w Ha) as (away & Haway & Hx).
  unfold asked. destruct (cq_AbsentOn req) as [|cond conds] eqn:Ec.
  - do 2 f_equal. f_equal. apply List.filter_ext_in. intros u Hu'%list_elem_of_In. specialize (Hin u Hu').
    apply eq_bool_prop_intro. rewrite !Is_true_true, bool_decide_eq_true, !andb_true_iff. tauto.
  - case_bool_decide as He.
    + do 2 f_equal. f_equal. apply List.filter_ext_in. intros u Hu'%list_elem_of_In. specialize (Hin u Hu').
      apply eq_bool_prop_intro. rewrite !Is_true_true, bool_decide_eq_true, !andb_true_iff. set_solver.
    + rewrite Haway. do 2 f_equal. f_equal. apply List.filter_ext_in. intros u Hu'%list_elem_of_In.
      specialize (Hin u Hu'). specialize (Hx (us_ID u)).
      apply eq_bool_prop_intro. rewrite !Is_true_true, bool_decide_eq_true, !andb_true_iff, elem_of_intersection. tauto.
Qed.
End cross.

(** ** The weekly ranking *)

Lemma tally_count ids m x : default 0 (tally ids m !! x) = default 0 (m !! x) + len (List.filter (Z.eqb x) ids).
Proof.
  unfold tally. revert m. induction ids as [|id ids IH]; intros m; cbn [fold_left List.filter]; [unfold len; cbn; lia|].
  rewrite IH. unfold len. destruct (Z.eqb_spec x id) as [->|Hne].
  - rewrite lookup_insert_eq. cbn. lia.
  - by rewrite lookup_insert_ne by done.
Qed.

Lemma late_counts_count records x :
  default 0 (late_counts records !! x) = len (List.filter (Z.eqb x) (concat (List.map late_ids records))).
Proof.
  unfold late_counts. rewrite <- (Z.add_0_l (len _)). change 0 with (default 0 ((∅ : gmap Z Z) !! x)) at 2.
  generalize (∅ : gmap Z Z). induction records as [|r records IH]; intros m; cbn [fold_left List.map concat List.filter].
  { unfold len. cbn. lia. }
  rewrite IH, tally_count, List.filter_app. unfold len. rewrite List.length_app. lia.
Qed.

Lemma tally_dom ids m : dom (tally ids m) = dom m ∪ list_to_set ids.
Proof.
  unfold tally. revert m. induction ids as [|id ids IH]; intros m; cbn [fold_left]; [set_solver|].
  rewrite IH, dom_insert_L. set_solver.
Qed.
Lemma late_counts_dom records : dom (late_counts records) = list_to_set (concat (List.map late_ids records)).
Proof.
  unfold late_counts. rewrite <- (union_empty_l_L (list_to_set _)), <- (dom_empty_L (D := gset Z) (M := gmap Z) (A := Z)).
  generalize (∅ : gmap Z Z). induction records as [|r records IH]; intros m; cbn [fold_left List.map concat]; [set_solver|].
  rewrite IH, tally_dom, list_to_set_app_L. set_solver.
Qed.
Lemma late_users_queried `{UO : UserMapOrder} records x :
  x ∈ List.map fst (range_users (late_counts records)) <-> x ∈ concat (List.map late_ids records).
Proof.
  rewrite range_users_entries. change (List.map fst) with (@fmap list _ _ _ (@fst Z Z)). rewrite list_elem_of_fmap.
  rewrite <- (elem_of_list_to_set (C := gset Z)), <- late_counts_dom, elem_of_dom. split.
  - intros ([i n] & -> & H%elem_of_map_to_list). by exists n.
  - intros [n H]. exists (x, n). split; [done|]. by apply elem_of_map_to_list.
Qed.

Section ranking.
Context `{LOC : Location} `{UO : UserMapOrder} {W : Type} (s : AttendanceRecordService W).

(** The weekly ranking counts every lateness.  With nobody late in the
    week's records it is empty.  Otherwise the repository is asked for exactly the
    users the late lists name (a record whose list cannot be read names nobody);
    every user it finds is listed, as often as found, with the number of times the
    lists name the user, and nobody precedes a user who was late more often. *)
Theorem ranking_counts_lateness now req w items w' :
  GetWeeklyRanking s now req w = (Ok items, w') ->
  exists records w1,
    rr_ListByDateRange (srv_attendanceRecordRepo s) (ranking_week now (rq_WeekOffset req)).1
      (ranking_week now (rq_WeekOffset req)).2 w = (Ok records, w1)
    /\ (concat (List.map late_ids records) = [] /\ items = []
        \/ exists ids users, (forall id, id ∈ ids <-> id ∈ concat (List.map late_ids records))
             /\ ranking_users s (rq_DeptIDs req) ids w1 = (Ok users, w')
             /\ List.map ri_UserID items ≡ₚ List.map us_ID users)
    /\ Forall (fun i => ri_LateCount i = len (List.filter (Z.eqb (ri_UserID i)) (concat (List.map late_ids records)))) items
    /\ StronglySorted (fun a b => ri_LateCount b <= ri_LateCount a) items.
Proof.
  unfold GetWeeklyRanking. destruct (ranking_week now (rq_WeekOffset req)) as [a b]. cbn [fst snd].
  unfold st_bind, st_wrap. destruct (rr_ListByDateRange _ a b w) as [[records|e] w1]; cbn [wrap_err]; [|done].
  intros H. exists records, w1. split; [done|]. revert H. case_bool_decide as Hc.
  { intros [= <- _]. split; [left; split; [|done]|split; constructor].
    pose proof (late_counts_dom records) as Hd. rewrite Hc, dom_empty_L in Hd.
    destruct (concat _) as [|x l]; [done|set_solver]. }
  destruct (ranking_users s _ _ w1) as [[users|e] w2] eqn:Eu; [|done]. intros [= <- <-].
  unfold sort_by_late. split; [|split].
  - right. eexists _, users. split; [intros id; apply late_users_queried|]. split; [exact Eu|].
    rewrite sort_slice_perm, List.map_map. done.
  - rewrite sort_slice_perm. apply Forall_fmap, Forall_forall. intros u _. cbn. apply late_counts_count.
  - apply sort_desc_sorted.
Qed.
End ranking.

(** The week of a ranking begins on a Monday and, without an offset, is the one
    the moment lies in. *)
Theorem ranking_week_of_now `{FZ : FixedZone} now offset :
  let start := local_civil (ranking_week now offset).1 in
  weekday start = 1 /\ start mod ns_day = 0
  /\ start + offset * 7 * ns_day <= local_civil now < start + (offset * 7 + 7) * ns_day
  /\ local_civil (ranking_week now offset).2 = start + 6 * ns_day.
Proof.
  cbv zeta. unfold ranking_week, add_days, at_clock, civil_midnight. cbn [fst snd]. rewrite !civil_instant.
  set (d := local_civil now / ns_day) in *.
  assert (Hd : d * ns_day <= local_civil now < (d + 1) * ns_day).
  { unfold d. pose proof (Z.mul_div_le (local_civil now) ns_day eq_refl).
    pose proof (Z.mul_succ_div_gt (local_civil now) ns_day eq_refl). lia. }
  replace ((0 * 60 + 0) * ns_min) with 0 by done. rewrite !Z.add_0_r.
  change (weekday (local_civil now)) with ((d + 1) mod 7).
  assert (Hw : 0 <= (d + 1) mod 7 < 7) by (apply Z.mod_pos_bound; lia).
  set (o := if 0 <? 1 - (d + 1) mod 7 then -6 else 1 - (d + 1) mod 7).
  assert (Ho : -6 <= o <= 0 /\ (d + o) mod 7 = 0).
  { unfold o. case_if; b2p; (split; [lia|]).
    - assert ((d + 1) mod 7 = 0) by lia. replace (d + -6) with (d + 1 + (-1) * 7) by lia. by rewrite Z.mod_add.
    - replace (d + (1 - (d + 1) mod 7)) with (d + 1 - (d + 1) mod 7) by lia.
      rewrite Zminus_mod, Z.mod_mod, Z.sub_diag by lia. done. }
  destruct Ho as [Ho Hm].
  replace (d * ns_day + (o - offset * 7) * ns_day) with ((d + o - offset * 7) * ns_day) by lia.
  clearbody o d. assert (0 < ns_day) by done. split_and!.
  - unfold weekday. rewrite Z.div_mul by done.
    replace (d + o - offset * 7 + 1) with (d + o + 1 + (- offset) * 7) by lia. rewrite Z.mod_add by done.
    rewrite <- Z.add_mod_idemp_l, Hm by lia. done.
  - by rewrite Z.mod_mul.
  - nia.
  - nia.
  - lia.
Qed.

(** ** A school of two in memory *)

#[local] Instance listed_texts : MapOrder := { range A m := map_to_list m; range_entries A m := reflexivity _ }.
#[local] Instance listed_users : UserMapOrder :=
  { range_users A m := map_to_list m; range_users_entries A m := reflexivity _ }.
#[local] Existing Instance shanghai.

Definition day (d : Z) : Z := local_instant (instant 2026 3 d 0 0 0 0).
Definition two_users : list User := [mkUser 1 7 "d1" "An" "" ""; mkUser 2 7 "d2" "Bo" "" ""].
(** A detail with one user on time, one late and one absent, as saved. *)
Definition saved_detail (date : Z) (onTime late absent : list Z) : AttendanceDetailResponse :=
  mkDetail 0 (format_date date) 1 1 "" true 0 ("", "") (mkStatistics 0 0 0 0 0 0 0)
    (mkLists [] (List.map (fun id => mkCheck id "" "" "" date) onTime) (List.map (fun id => mkCheck id "" "" "" date) late) []
       (List.map (fun id => mkBasic id "" "" "") absent) [] []).
Definition saved_row (date : Z) (onTime late absent : list Z) : AttendanceRecord :=
  record_of_detail (saved_detail date onTime late absent).
Definition school (rows : list AttendanceRecord) : AttendanceRecordService unit :=
  mkAttendanceService unit
    (Some (mkUserRepo unit (fun _ => st_ret two_users) (fun ids => st_ret (List.filter (fun u => existsb (Z.eqb (us_ID u)) ids) two_users))
             (fun _ _ => st_ret two_users) (fun _ => st_ret ∅)))
    (fun _ day section => st_ret (if (day =? 1) && (section =? 1) then [mkCourse 1 1 1 "1,2"] else [])) None
    (mkRecordRepo unit (fun _ => st_ret tt)
       (fun date section => match List.find (fun r => (ar_Date r =? date) && (ar_Section r =? section)) rows with
                            | Some r => st_ret r | None => st_fail (ESentinel ErrRecordNotFound) end)
       (fun _ => st_fail (ESentinel ErrRecordNotFound)) (fun _ => st_ret [])
       (fun a b => st_ret (ListByDateRange rows a b)))
    None None None None (mkScheduleConfig [] 15 30) None None (fun w => (day 2, w)) None.
Definition by_section (date userName : string) : AttendanceStatsQuery :=
  mkStatsQuery 0 (0, 0) date ("", "") 0 [] userName 0 "section" 0 0 "" "" 0.

Lemma saved_rows date onTime absent : Forall (fun id => in_uint64 id = true) (onTime ++ absent) ->
  in_int64 (date / ns_sec) = true -> saved (saved_row date onTime [] absent).
Proof.
  intros [Ho Ha]%Forall_app Hd. exists (saved_detail date onTime [] absent). split; [|done].
  split; cbn; try constructor; apply Forall_fmap; (eapply Forall_impl; [eassumption|]); intros id Hid; done.
Qed.

(** An was on time and Bo was absent; the statistics see only Bo. *)
Definition one_row : list AttendanceRecord := [saved_row (day 2) [1] [] [2]].
Lemma statistics_count_only_absences_witness :
  exists items, (QueryStats (school one_row) (day 2) (by_section "2026-03-02" "") tt).1 = Ok items
    /\ ai_AbsentCount <$> items = [1] /\ Forall absences_item items.
Proof.
  assert (E : exists items w', QueryStats (school one_row) (day 2) (by_section "2026-03-02" "") tt = (Ok items, w')
              /\ ai_AbsentCount <$> items = [1]) by (do 2 eexists; split; vm_compute; reflexivity).
  destruct E as (items & w' & E & Hn). exists items. split; [by rewrite E|]. split; [exact Hn|].
  apply (statistics_count_only_absences (school one_row) (day 2) (by_section "2026-03-02" "") tt items w'); [| |exact E].
  - intros a b w records w'' [= <- _]. unfold ListByDateRange. rewrite sort_slice_perm.
    apply Forall_forall. intros r [Hr _]%list_elem_of_In%List.filter_In. cbn in Hr. destruct Hr as [<-|[]].
    apply saved_rows; [repeat constructor|reflexivity].
  - intros w users w'' H. vm_compute in H. injection H as <- _. split; [done|]. repeat constructor; done.
Defined.

(** The statistics of a single day take in the records of the day after, which
    the repository's range includes. *)
Theorem day_takes_in_next_day :
  (QueryStats (school [saved_row (day 2) [] [] [1]; saved_row (day 3) [] [] [1; 2]]) (day 3) (by_section "2026-03-02" "") tt).1
  = Ok [mkStatItem "第1节" 3 0 0 3 "0.0%"].
Proof. vm_compute. reflexivity. Qed.

(** A name nobody has is no filter: the statistics are everybody's. *)
Theorem unknown_name_counts_everybody :
  (QueryStats (school [saved_row (day 2) [] [] [1; 2]]) (day 2) (by_section "2026-03-02" "Cy") tt).1
  = Ok [mkStatItem "第1节" 2 0 0 2 "0.0%"].
Proof. vm_compute. reflexivity. Qed.

(** Then even the lists of objects are counted: each entry is read as the id 0,
    which nobody is filtered out by, so who was on time counts. *)
Theorem unknown_name_counts_onTime :
  (QueryStats (school one_row) (day 2) (by_section "2026-03-02" "Cy") tt).1
  = Ok [mkStatItem "第1节" 1 1 0 2 "50.0%"].
Proof. vm_compute. reflexivity. Qed.

(** Who has the first section of Monday free in week 2, or was absent on the
    second of March: Bo. *)
Definition free_monday : UserCrossQuery :=
  mkCrossQuery [mkSlotCondition 2 1 1] [] [mkAbsentCondition "2026-03-02" 0 1] 0 [].
Lemma cross_query_exact_witness :
  QueryUserCross (school one_row) free_monday tt = (Ok ["Bo"], tt).
Proof.
  refine (cross_query_exact (school one_row) free_monday two_users (fun _ => {[1]}) (fun _ => {[2]}) tt _ _ _).
  - reflexivity.
  - intros slot [->|H]%elem_of_cons; [vm_compute; reflexivity|by apply elem_of_nil in H].
  - intros cond [->|H]%elem_of_cons; [vm_compute; reflexivity|by apply elem_of_nil in H].
Defined.

Definition late_rows : list AttendanceRecord := [saved_row (day 2) [] [2] []; saved_row (day 3) [] [1; 2] []].
Lemma ranking_counts_lateness_witness :
  exists items, GetWeeklyRanking (school late_rows) (day 4) (mkRankingRequest 0 []) tt = (Ok items, tt)
    /\ (fun i => (ri_Name i, ri_LateCount i)) <$> items = [("Bo", 2); ("An", 1)]
    /\ Forall (fun i => ri_LateCount i = len (List.filter (Z.eqb (ri_UserID i)) (concat (List.map late_ids late_rows)))) items.
Proof.
  assert (E : exists items, GetWeeklyRanking (school late_rows) (day 4) (mkRankingRequest 0 []) tt = (Ok items, tt)
              /\ (fun i => (ri_Name i, ri_LateCount i)) <$> items = [("Bo", 2); ("An", 1)])
    by (eexists; split; vm_compute; reflexivity).
  destruct E as (items & E & Hn). exists items. split; [exact E|]. split; [exact Hn|].
  destruct (ranking_counts_lateness (school late_rows) (day 4) (mkRankingRequest 0 []) tt items tt E)
    as (records & w1 & Hr & _ & Hc & _).
  assert (records = late_rows) as -> by (vm_compute in Hr; injection Hr as <- _; vm_compute; reflexivity). exact Hc.
Defined.
