(* ===== verification/Slots.v ===== *)
(** * The status of a section and of a week

    internal/service/attendance_service.go: who has to attend a section, who is
    on leave, rests or has a course, the counts of all sections of a week, and
    the leave of one user during a section.  The repositories are ports over a
    world [W]; a port the code tests for nil is an option. *)
From Stdlib Require Import ZArith Lia Bool String.
From stdpp Require Import base list strings gmap.
From S2P Require Import Prelude GoStrings GoTime Contract ScheduleParse Calendar Settings Attendance.
#[local] Open Scope Z_scope.
#[local] Open Scope go_scope.

(** ** Data (internal/dto, pkg/dingtalk) *)

Record CourseAttendanceUserItem := mkUserItem {
  ci_ID : Z; ci_Name : string; ci_Avatar : string; ci_Phone : string; ci_DeptName : string }.
Record SlotSummaryItem := mkSummary {
  sm_Date : string; sm_DayOfWeek : Z; sm_Section : Z; sm_ShouldArriveCount : Z; sm_OnLeaveCount : Z;
  sm_OnRestDayCount : Z; sm_HasCourseCount : Z }.
Record WeekSlotsSummaryResponse := mkWeekSummary { wk_Week : Z; wk_Slots : list SlotSummaryItem }.
Record SlotAttendanceStatusResponse := mkSlotStatus {
  st_Date : string; st_Week : Z; st_DayOfWeek : Z; st_Section : Z;
  st_ShouldArrive : list CourseAttendanceUserItem; st_OnLeave : list CourseAttendanceUserItem;
  st_OnRestDay : list CourseAttendanceUserItem; st_HasCourse : list CourseAttendanceUserItem }.
Record CourseLeaveRecordItem := mkLeaveItem {
  li_UserName : string; li_LeaveType : string; li_StartAt : Z; li_EndAt : Z; li_DurationSeconds : Z;
  li_Status : string; li_Remark : string }.
Record SlotUserLeaveDetailResponse := mkLeaveDetail {
  ld_UserID : Z; ld_Week : Z; ld_Date : string; ld_DayOfWeek : Z; ld_Section : Z; ld_SessionStart : Z;
  ld_SessionEnd : Z; ld_Items : list CourseLeaveRecordItem }.
(** A leave record of DingTalk's own interface. *)
Record LeaveRecord := mkLeaveRecord {
  lr_DingUserID : string; lr_LeaveType : string; lr_StartAt : Z; lr_EndAt : Z; lr_DurationSeconds : Z;
  lr_Status : string; lr_Remark : string }.

Definition RoleAdmin : Z := 1.
Definition ErrForbidden : err := BizError 10004 "无权限访问".
Definition ErrUserNotFound : err := BizError 31001 "用户不存在".
Definition CodeDingUserUnbind : Z := 10002.

Definition timeOverlaps (startA endA startB endB : Z) : bool := before startA endB && after endA startB.

Definition user_item (u : User) : CourseAttendanceUserItem :=
  mkUserItem (us_ID u) (us_Name u) (us_Avatar u) (us_Phone u) "".
Definition toAttendanceUserItems (users : list User) (exclude : gset Z) : list CourseAttendanceUserItem :=
  List.map user_item (List.filter (fun u => negb (bool_decide (us_ID u ∈ exclude))) users).
Definition filterUsersByExclude : list User -> gset Z -> list User := filter_out us_ID.
Definition item_ids (items : list CourseAttendanceUserItem) : gset Z := list_to_set (List.map ci_ID items).
Definition with_dept (depts : gmap Z string) (i : CourseAttendanceUserItem) : CourseAttendanceUserItem :=
  mkUserItem (ci_ID i) (ci_Name i) (ci_Avatar i) (ci_Phone i) (default "" (depts !! ci_ID i)).

(** The leave that overlaps a session, with the seconds of the overlap.  The
    quotient is what int64(d.Seconds()) is for sessions of less than a day. *)
Definition overlap_seconds (startAt endAt sessionStart sessionEnd : Z) : Z :=
  let overlapStart := if after sessionStart startAt then sessionStart else startAt in
  let overlapEnd := if before sessionEnd endAt then sessionEnd else endAt in
  Z.quot (time_sub overlapEnd overlapStart) ns_sec.
Definition toLeaveRecordItems (records : list LeaveApproval) (sessionStart sessionEnd : Z) : list CourseLeaveRecordItem :=
  List.map (fun r => mkLeaveItem (la_UserName r) (la_LeaveType r) (la_StartAt r) (la_EndAt r)
                       (overlap_seconds (la_StartAt r) (la_EndAt r) sessionStart sessionEnd) (la_ApproveStatus r)
                       (la_Reason r))
    (List.filter (fun r => timeOverlaps (la_StartAt r) (la_EndAt r) sessionStart sessionEnd) records).
Definition toCourseLeaveRecordItems (records : list LeaveRecord) (dingUserID : string) (sessionStart sessionEnd : Z)
  : list CourseLeaveRecordItem :=
  List.map (fun r => mkLeaveItem "" (lr_LeaveType r) (lr_StartAt r) (lr_EndAt r) (lr_DurationSeconds r) (lr_Status r)
                       (lr_Remark r))
    (List.filter (fun r => negb (negb (eqs dingUserID "") && negb (eqs (lr_DingUserID r) dingUserID))
                           && timeOverlaps (lr_StartAt r) (lr_EndAt r) sessionStart sessionEnd) records).

(** ** The service *)

Record AttendanceService W := mkSlotService {
  sl_ListCoursesByUsersDaySection : list Z -> Z -> Z -> ST W (list Course);
  sl_ListCoursesByUsersDays : list Z -> list Z -> ST W (list Course);
  sl_FindUserByID : Z -> ST W User;
  sl_ListApprovedByUserIDs : list Z -> Z -> Z -> ST W (list LeaveApproval);
  sl_ListOverlappingByUserID : Z -> Z -> Z -> ST W (list LeaveApproval);
  sl_userRepo : UserRepository W;
  sl_restDayRepo : option (list Z -> ST W (list UserRestDay));
  sl_dingMgr : bool;
  sl_schedulePeriodSrv : option (SchedulePeriodService W);
  sl_semesterSrv : option (ST W Semester);
  sl_scheduleCfg : list Period }.
Arguments sl_ListCoursesByUsersDaySection {W}. Arguments sl_ListCoursesByUsersDays {W}. Arguments sl_FindUserByID {W}.
Arguments sl_ListApprovedByUserIDs {W}. Arguments sl_ListOverlappingByUserID {W}. Arguments sl_userRepo {W}.
Arguments sl_restDayRepo {W}. Arguments sl_dingMgr {W}. Arguments sl_schedulePeriodSrv {W}.
Arguments sl_semesterSrv {W}. Arguments sl_scheduleCfg {W}.

(** A call that cannot fail. *)
Definition st_value {W A} (m : W -> A * W) : ST W A := fun w => let '(a, w) := m w in (Ok a, w).

Section service.
Context `{LOC : Location} {W : Type} (s : AttendanceService W).

Definition validateSlotParams (date week section : Z) : res unit :=
  guard (sl_dingMgr s) (BizError CodeInternalError "钉钉租户管理器未初始化") ;;;
  guard (negb (is_zero date)) (ErrInvalidParamWithMsg "date 不能为空") ;;;
  guard (0 <? week) (ErrInvalidParamWithMsg "week 不能为空") ;;;
  guard (0 <? section) (ErrInvalidParamWithMsg "section 无效") ;;;
  Ok tt.

Definition slot_active_periods : W -> list Period * W := fun w =>
  match sl_schedulePeriodSrv s with
  | None => (sl_scheduleCfg s, w)
  | Some p => match period_service_periods p w with
              | (Ok (x :: l), w) => (x :: l, w)
              | (_, w) => (sl_scheduleCfg s, w)
              end
  end.

Definition slot_all_attend_mode (date : Z) : W -> bool * W := fun w =>
  let '(holiday, w) :=
    match sl_schedulePeriodSrv s with
    | None => (false, w)
    | Some p => let '(mode, w) := period_service_mode p w in (eqs mode ScheduleModeHoliday, w)
    end in
  if holiday : bool then (true, w)
  else
    match sl_semesterSrv s with
    | None => (false, w)
    | Some GetActiveSemester =>
        match GetActiveSemester w with
        | (Err _, w) => (true, w)
        | (Ok semester, w) =>
            (match CalculateWeekFromDate (Some semester) date with (_, Some _) => true | (_, None) => false end, w)
        end
    end.

Definition slot_rest_day_enabled : W -> bool * W := fun w =>
  match sl_schedulePeriodSrv s with
  | None => (true, w)
  | Some p => let '((enabled, e), w) := @IsRestDayAttendanceEnabled W (ps_database p) w in
              (match e with Some _ => true | None => enabled end, w)
  end.

Definition listActiveUsersByDeptIDs (deptIDs : list Z) : ST W (list User) := fun w =>
  let '(r, w) := ur_ListAttendanceCandidates (sl_userRepo s) deptIDs w in (wrap_err "获取用户列表失败" r, w).

Definition busy_in_week (week : Z) (courses : list Course) : gset Z :=
  list_to_set (List.map co_UserID (List.filter (fun c => ContainsWeek (co_WeekList c) week) courses)).

Definition busyUserSetForSlot (users : list User) (dayOfWeek section week : Z) : ST W (gset Z) := fun w =>
  match users with
  | [] => (Ok ∅, w)
  | _ =>
      match sl_ListCoursesByUsersDaySection s (List.map us_ID users) dayOfWeek section w with
      | (Err e, w) => (Err (EWrap "获取用户课表失败" e), w)
      | (Ok courses, w) => (Ok (busy_in_week week courses), w)
      end
  end.

(** The candidates, those without a course and those with one. *)
Definition computeShouldArriveUsersByDeptFilter (dayOfWeek section week : Z) (deptIDs : list Z)
  : ST W (list User * list User * list User) :=
  activeUsers <~ listActiveUsersByDeptIDs deptIDs ;;
  busySet <~ busyUserSetForSlot activeUsers dayOfWeek section week ;;
  st_ret (activeUsers, filterUsersByExclude activeUsers busySet,
          List.filter (fun u => bool_decide (us_ID u ∈ busySet)) activeUsers).

Definition computeOnRestDayUserItems (users : list User) (dayOfWeek : Z) : W -> list CourseAttendanceUserItem * W := fun w =>
  match users, sl_restDayRepo s with
  | [], _ | _, None => ([], w)
  | users, Some ListByUserIDs =>
      let '(enabled, w) := slot_rest_day_enabled w in
      if negb enabled then ([], w)
      else
        match ListByUserIDs (List.map us_ID users) w with
        | (Err _, w) => ([], w)
        | (Ok restDays, w) =>
            let rest : gset Z :=
              list_to_set (List.map rd_UserID (List.filter (fun rd => rd_DayOfWeek rd =? dayOfWeek) restDays)) in
            (List.map user_item (List.filter (fun u => bool_decide (us_ID u ∈ rest)) users), w)
        end
  end.

Definition computeOnLeaveUserItems (users : list User) (sessionStart sessionEnd : Z)
  : ST W (list CourseAttendanceUserItem) := fun w =>
  match users with
  | [] => (Ok [], w)
  | _ =>
      match sl_ListApprovedByUserIDs s (List.map us_ID users) sessionStart sessionEnd w with
      | (Err e, w) => (Err (EWrap "查询请假记录失败" e), w)
      | (Ok leaveRecords, w) =>
          let onLeave : gset Z :=
            list_to_set (List.map la_UserID
              (List.filter (fun r => timeOverlaps (la_StartAt r) (la_EndAt r) sessionStart sessionEnd) leaveRecords)) in
          (Ok (List.map user_item (List.filter (fun u => bool_decide (us_ID u ∈ onLeave)) users)), w)
      end
  end.

(** What both views begin with: the session of a section. *)
Definition session_of (date section : Z) : ST W (Z * Z) := fun w =>
  let '(periods, w) := slot_active_periods w in
  if (len periods =? 0) || (len periods <? section)
  then (Err (ErrInvalidParamWithMsg "节次无效或作息配置缺失"), w)
  else match CalculateSlotTime date section periods with
       | Err e => (Err (BizError CodeInternalError (error_text e)), w)
       | Ok session => (Ok session, w)
       end.

Definition department_names (ids : list Z) : W -> gmap Z string * W := fun w =>
  match ur_GetUserDepartmentNames (sl_userRepo s) ids w with
  | (Ok depts, w) => (depts, w)
  | (Err _, w) => (∅, w)
  end.

Definition GetSlotAttendanceStatus (viewerID date week section : Z) (deptIDs : list Z)
  : ST W SlotAttendanceStatusResponse :=
  st_lift (guard (negb (viewerID =? 0)) ErrForbidden) ~;;
  st_lift (validateSlotParams date week section) ~;;
  session <~ session_of date section ;;
  let dayOfWeek := WeekdayMon1Sun7 date in
  all <~ st_value (slot_all_attend_mode date) ;;
  groups <~ (if all : bool then
               activeUsers <~ listActiveUsersByDeptIDs deptIDs ;; st_ret (activeUsers, activeUsers, [])
             else computeShouldArriveUsersByDeptFilter dayOfWeek section week deptIDs) ;;
  let '(activeUsers, shouldArriveUsers, hasCourseUsers) := groups in
  onRestDay <~ st_value (computeOnRestDayUserItems activeUsers dayOfWeek) ;;
  let restDaySet := item_ids onRestDay in
  onLeave <~ computeOnLeaveUserItems (filterUsersByExclude activeUsers restDaySet) session.1 session.2 ;;
  let leaveSet := item_ids onLeave in
  let hasCourseUsers := filterUsersByExclude (filterUsersByExclude hasCourseUsers restDaySet) leaveSet in
  let shouldArriveUsers := filterUsersByExclude (filterUsersByExclude shouldArriveUsers restDaySet) leaveSet in
  depts <~ st_value (department_names (List.map us_ID shouldArriveUsers ++ List.map ci_ID onLeave
                                       ++ List.map ci_ID onRestDay ++ List.map us_ID hasCourseUsers)) ;;
  let named := List.map (with_dept depts) in
  st_ret (mkSlotStatus (format_date date) week dayOfWeek section
            (named (toAttendanceUserItems shouldArriveUsers ∅)) (named onLeave) (named onRestDay)
            (named (toAttendanceUserItems hasCourseUsers ∅))).

(** ** The week *)

(** Course before rest day before leave: what a user counts as in a section. *)
Inductive slot_class := HasCourse | OnRestDay | OnLeave | ShouldArrive.
Definition classify (busy rest : gset Z) (leaves : list LeaveApproval) (sessionStart sessionEnd : Z) (u : User)
  : slot_class :=
  if bool_decide (us_ID u ∈ busy) then HasCourse
  else if bool_decide (us_ID u ∈ rest) then OnRestDay
  else if existsb (fun r => (la_UserID r =? us_ID u) && timeOverlaps (la_StartAt r) (la_EndAt r) sessionStart sessionEnd) leaves
  then OnLeave else ShouldArrive.

#[global] Instance slot_class_eq_dec : EqDecision slot_class.
Proof. solve_decision. Defined.
Definition count_class (c : slot_class) (f : User -> slot_class) (users : list User) : Z :=
  len (List.filter (fun u => bool_decide (f u = c)) users).

(** What the week's queries answered. *)
Record week_data := mkWeekData {
  wd_periods : list Period; wd_all : bool; wd_users : list User; wd_courses : list Course;
  wd_leaves : list LeaveApproval; wd_rest : list UserRestDay }.

Definition busy_of_slot (d : week_data) (week day sec : Z) : gset Z :=
  if wd_all d then ∅
  else busy_in_week week (List.filter (fun c => (co_DayOfWeek c =? day) && (co_Section c =? sec)) (wd_courses d)).
Definition rest_of_day (d : week_data) (day : Z) : gset Z :=
  list_to_set (List.map rd_UserID (List.filter (fun rd => rd_DayOfWeek rd =? day) (wd_rest d))).

(** A section whose times cannot be computed is left out. *)
Definition slot_summary (d : week_data) (week startDate day sec : Z) : list SlotSummaryItem :=
  let date := add_days startDate (day - 1) in
  match CalculateSlotTime date sec (wd_periods d) with
  | Err _ => []
  | Ok (sessionStart, sessionEnd) =>
      let f := classify (busy_of_slot d week day sec) (rest_of_day d day) (wd_leaves d) sessionStart sessionEnd in
      let count c := count_class c f (wd_users d) in
      [mkSummary (format_date date) day sec (count ShouldArrive) (count OnLeave) (count OnRestDay) (count HasCourse)]
  end.

Definition days_of_week : list Z := [1; 2; 3; 4; 5; 6; 7].
Definition sections_of (periods : list Period) : list Z := List.map Z.of_nat (List.seq 1 (length periods)).
Definition each_slot {A} (periods : list Period) (f : Z -> Z -> list A) : list A :=
  flat_map (fun day => flat_map (f day) (sections_of periods)) days_of_week.

Definition empty_summary (startDate day sec : Z) : list SlotSummaryItem :=
  [mkSummary (format_date (add_days startDate (day - 1))) day sec 0 0 0 0].

Definition GetWeekSlotsAttendanceSummary (viewerID week startDate : Z) (deptIDs : list Z)
  : ST W WeekSlotsSummaryResponse :=
  st_lift (guard (negb (viewerID =? 0)) ErrForbidden) ~;;
  st_lift (guard (negb (is_zero startDate || (week <=? 0))) (ErrInvalidParamWithMsg "参数无效")) ~;;
  periods <~ st_value slot_active_periods ;;
  st_lift (guard (negb (len periods =? 0)) (ErrInvalidParamWithMsg "作息配置缺失")) ~;;
  all <~ st_value (slot_all_attend_mode startDate) ;;
  activeUsers <~ listActiveUsersByDeptIDs deptIDs ;;
  match activeUsers with
  | [] => st_ret (mkWeekSummary week (each_slot periods (empty_summary startDate)))
  | _ => fun w =>
      let userIDs := List.map us_ID activeUsers in
      match sl_ListCoursesByUsersDays s userIDs days_of_week w with
      | (Err e, w) => (Err (EWrap "获取整周课表失败" e), w)
      | (Ok courses, w) =>
          match sl_ListApprovedByUserIDs s userIDs startDate (add_days startDate 7) w with
          | (Err e, w) => (Err (EWrap "获取整周请假记录失败" e), w)
          | (Ok leaves, w) =>
              let '(enabled, w) := slot_rest_day_enabled w in
              let answer (rest : list UserRestDay) (w : W) :=
                (Ok (mkWeekSummary week
                       (each_slot periods
                          (slot_summary (mkWeekData periods all activeUsers courses leaves rest) week startDate))), w) in
              if negb enabled then answer [] w
              else deref (sl_restDayRepo s) (fun ListByUserIDs w =>
                     match ListByUserIDs userIDs w with
                     | (Ok rest, w) => answer rest w
                     | (Err _, w) => answer [] w
                     end) w
          end
      end
  end.

(** ** The leave of a user *)

Definition GetSlotUserLeaveDetail (viewerID viewerRole userID week date section : Z)
  : ST W SlotUserLeaveDetailResponse :=
  st_lift (guard (negb ((viewerID =? 0) || (viewerRole <? RoleAdmin))) ErrForbidden) ~;;
  st_lift (validateSlotParams date week section) ~;;
  session <~ session_of date section ;;
  fun w =>
    match sl_ListOverlappingByUserID s userID session.1 session.2 w with
    | (Err e, w) => (Err (EWrap "查询请假记录失败" e), w)
    | (Ok leaveRecords, w) =>
        (Ok (mkLeaveDetail userID week (format_date date) (WeekdayMon1Sun7 date) section session.1 session.2
               (toLeaveRecordItems leaveRecords session.1 session.2)), w)
    end.

Definition getUserDingUserID (userID : Z) : ST W string := fun w =>
  match sl_FindUserByID s userID w with
  | (Err e, w) => (Err (if errors_Is e "ErrUserNotFound" then ErrUserNotFound else EWrap "查询用户失败" e), w)
  | (Ok u, w) =>
      if eqs (us_DingUserID u) "" then (Err (BizError CodeDingUserUnbind "用户未绑定钉钉"), w)
      else (Ok (us_DingUserID u), w)
  end.
End service.
