(* ===== verification/SlotsSpec.v ===== *)
(** * Properties of the section and week views

    Against a database that is only read, each view is the classification of
    the candidates it means to be; the two views and the record's detail are
    compared with each other, and a week in which the two views differ is
    given. *)
From Stdlib Require Import ZArith Lia Bool String.
From stdpp Require Import base list strings gmap.
From S2P Require Import Prelude GoStrings GoTime Contract ScheduleParse Calendar Settings Attendance AttendanceSpec Slots.
#[local] Open Scope Z_scope.
#[local] Open Scope go_scope.

(** ** Lists and sets *)

(** Some row of a query names a user. *)
Definition names {A} (id : A -> Z) (p : A -> bool) (l : list A) (u : User) : bool :=
  existsb (fun x => (id x =? us_ID u) && p x) l.

Lemma in_rows {A} (id : A -> Z) p (l : list A) (u : User) :
  bool_decide (us_ID u ∈ (list_to_set (List.map id (List.filter p l)) : gset Z)) = names id p l u.
Proof.
  unfold names. apply eq_bool_prop_intro. rewrite !Is_true_true, bool_decide_eq_true, elem_of_list_to_set, existsb_exists.
  rewrite list_elem_of_In, in_map_iff. setoid_rewrite filter_In. setoid_rewrite andb_true_iff. setoid_rewrite Z.eqb_eq.
  firstorder.
Qed.

Lemma elem_rows {A} (id : A -> Z) p (l : list A) (u : User) :
  us_ID u ∈ (list_to_set (List.map id (List.filter p l)) : gset Z) <-> names id p l u = true.
Proof. rewrite <- in_rows. symmetry. apply bool_decide_eq_true. Qed.

Lemma names_ext {A} (id : A -> Z) p q (l : list A) u :
  (forall x, x ∈ l -> id x = us_ID u -> p x = q x) -> names id p l u = names id q l u.
Proof.
  unfold names. induction l as [|x l IH]; intros H; cbn; [done|].
  rewrite IH by (intros y Hy; apply H; by right).
  destruct (Z.eqb_spec (id x) (us_ID u)) as [E|]; [|done]. cbn. by rewrite (H x (list_elem_of_here x l) E).
Qed.

(** A query restricted to the users asked for names the same of them. *)
Lemma names_asked {A} (id : A -> Z) p q (l : list A) users u :
  u ∈ users ->
  names id p (List.filter (fun x => bool_decide (id x ∈ List.map us_ID users) && q x) l) u
  = names id (fun x => q x && p x) l u.
Proof.
  intros Hu. unfold names. induction l as [|x l IH]; cbn; [done|].
  destruct (Z.eqb_spec (id x) (us_ID u)) as [E|E]; cbn [andb].
  - rewrite bool_decide_eq_true_2 by (rewrite E; by apply list_elem_of_In, in_map, list_elem_of_In).
    destruct (q x); cbn; [|exact IH]. rewrite E, Z.eqb_refl. by rewrite IH.
  - destruct (_ && q x); cbn; [|exact IH]. rewrite (proj2 (Z.eqb_neq _ _) E). by rewrite IH.
Qed.

Lemma filter_and {A} (p q : A -> bool) l : List.filter p (List.filter q l) = List.filter (fun x => q x && p x) l.
Proof. induction l as [|x l IH]; cbn; [done|]. destruct (q x); cbn; [destruct (p x)|]; by rewrite IH. Qed.

Lemma excluded_filter users ex :
  filterUsersByExclude users ex = List.filter (fun u => negb (bool_decide (us_ID u ∈ ex))) users.
Proof.
  unfold filterUsersByExclude, filter_out. case_decide as E; [|done]. subst.
  induction users as [|u l IH]; cbn; [done|]. rewrite bool_decide_eq_false_2 by set_solver. cbn. by rewrite <- IH.
Qed.

Lemma filter_nobody {A} (l : list A) : List.filter (fun _ => false) l = [].
Proof. by induction l. Qed.

Lemma filter_everybody {A} (l : list A) : List.filter (fun _ => true) l = l.
Proof. induction l; cbn; congruence. Qed.
Lemma list_filter_sub {A} p (l : list A) : List.filter p l ⊆ l.
Proof. intros x [H _]%list_elem_of_In%filter_In. by apply list_elem_of_In. Qed.
Lemma sub_filter {A} p (l l' : list A) : l ⊆ l' -> List.filter p l ⊆ List.filter p l'.
Proof.
  intros H x [Hx Hp]%list_elem_of_In%filter_In. apply list_elem_of_In, filter_In. split; [|done].
  by apply list_elem_of_In, H, list_elem_of_In.
Qed.

Lemma items_ids users : List.map ci_ID (List.map user_item users) = List.map us_ID users.
Proof. by rewrite map_map. Qed.
Lemma with_dept_ids depts items : List.map ci_ID (List.map (with_dept depts) items) = List.map ci_ID items.
Proof. by rewrite map_map. Qed.

(** A selection by a property of the id names exactly the selected. *)
Lemma selected (p : User -> bool) users u :
  (forall u v, us_ID u = us_ID v -> p u = p v) ->
  u ∈ users -> us_ID u ∈ user_ids (List.filter p users) <-> p u = true.
Proof.
  intros Hp Hu. unfold user_ids, userIDBoolSet. rewrite elem_rows. unfold names. rewrite existsb_exists. split.
  - intros (v & _ & H). b2p. by rewrite (Hp u v) by lia.
  - intros H. exists u. split; [by apply list_elem_of_In|]. by rewrite Z.eqb_refl, H.
Qed.

(** Among the users a selection was made from, its items name the selected. *)
Lemma selected_ids (p : User -> bool) users u :
  (forall u v, us_ID u = us_ID v -> p u = p v) ->
  u ∈ users -> bool_decide (us_ID u ∈ item_ids (List.map user_item (List.filter p users))) = p u.
Proof.
  intros Hp Hu. unfold item_ids. rewrite items_ids. apply eq_bool_prop_intro.
  rewrite !Is_true_true, bool_decide_eq_true. by apply selected.
Qed.

Lemma exclude_nothing users : toAttendanceUserItems users ∅ = List.map user_item users.
Proof.
  unfold toAttendanceUserItems. f_equal. induction users as [|u l IH]; cbn; [done|].
  rewrite bool_decide_eq_false_2 by set_solver. cbn. by rewrite IH.
Qed.

(** ** The data the views read *)

Record slot_db := mkSlotDb {
  db_periods : list Period;
  db_all_attend : Z -> bool;
  db_rest_enabled : bool;
  db_users : list Z -> list User;
  db_courses : list Course;
  db_leaves : list LeaveApproval;
  db_rests : list UserRestDay
}.

(** The row is asked for by a query for [ids]. *)
Definition asked_for {A} (id : A -> Z) (ids : list Z) (x : A) : bool := bool_decide (id x ∈ ids).

(** Ports that answer from the database and leave it alone: the queries with
    their WHERE clauses. *)
Class SlotReads `{LOC : Location} {W} (s : AttendanceService W) (db : slot_db) := {
  rd_periods w : slot_active_periods s w = (db_periods db, w);
  rd_all date w : slot_all_attend_mode s date w = (db_all_attend db date, w);
  rd_enabled w : slot_rest_day_enabled s w = (db_rest_enabled db, w);
  rd_users depts w : ur_ListAttendanceCandidates (sl_userRepo s) depts w = (Ok (db_users db depts), w);
  rd_day ids day sec w : sl_ListCoursesByUsersDaySection s ids day sec w
    = (Ok (List.filter (fun c => asked_for co_UserID ids c && ((co_DayOfWeek c =? day) && (co_Section c =? sec)))
             (db_courses db)), w);
  rd_week ids days w : sl_ListCoursesByUsersDays s ids days w
    = (Ok (List.filter (fun c => asked_for co_UserID ids c && bool_decide (co_DayOfWeek c ∈ days)) (db_courses db)), w);
  rd_leaves ids a b w : a <= b -> sl_ListApprovedByUserIDs s ids a b w
    = (Ok (List.filter (fun l => asked_for la_UserID ids l && timeOverlaps (la_StartAt l) (la_EndAt l) a b)
             (db_leaves db)), w);
  rd_rests : exists f, sl_restDayRepo s = Some f
    /\ forall ids w, f ids w = (Ok (List.filter (fun r => asked_for rd_UserID ids r && true) (db_rests db)), w);
  rd_names ids w : exists m, ur_GetUserDepartmentNames (sl_userRepo s) ids w = (Ok m, w)
}.

(** What holds of a user in a section of a date. *)
Section classes.
Context (db : slot_db) (date day week sec a b : Z).

Definition resting : User -> bool := fun u =>
  db_rest_enabled db && names rd_UserID (fun r => rd_DayOfWeek r =? day) (db_rests db) u.
Definition leaving : User -> bool :=
  names la_UserID (fun l => timeOverlaps (la_StartAt l) (la_EndAt l) a b) (db_leaves db).
Definition attending_class : User -> bool := fun u =>
  negb (db_all_attend db date)
  && names co_UserID (fun c => (co_DayOfWeek c =? day) && (co_Section c =? sec) && ContainsWeek (co_WeekList c) week)
       (db_courses db) u.

(** Rest day before leave before course: the order of a section's view. *)
Definition section_class (u : User) : slot_class :=
  if resting u then OnRestDay else if leaving u then OnLeave
  else if attending_class u then HasCourse else ShouldArrive.
(** Course before rest day before leave: the order of the week's view. *)
Definition week_class (u : User) : slot_class :=
  if attending_class u then HasCourse else if resting u then OnRestDay
  else if leaving u then OnLeave else ShouldArrive.

Definition of_class (f : User -> slot_class) (c : slot_class) (users : list User) : list User :=
  List.filter (fun u => bool_decide (f u = c)) users.

Lemma names_id {A} (id : A -> Z) p l u v : us_ID u = us_ID v -> names id p l u = names id p l v.
Proof. intros E. unfold names. by rewrite E. Qed.
Lemma resting_id u v : us_ID u = us_ID v -> resting u = resting v.
Proof. intros E. unfold resting. f_equal. by apply names_id. Qed.
Lemma leaving_id u v : us_ID u = us_ID v -> leaving u = leaving v.
Proof. apply names_id. Qed.

Lemma section_class_id u v : us_ID u = us_ID v -> section_class u = section_class v.
Proof.
  intros E. unfold section_class, attending_class.
  by rewrite (resting_id _ _ E), (leaving_id _ _ E), (names_id _ _ _ _ _ E).
Qed.

(** The four lists of a section from the three questions. *)
Lemma of_class_rest users : List.filter resting users = of_class section_class OnRestDay users.
Proof. apply List.filter_ext. intros u. unfold section_class. by destruct (resting u), (leaving u), (attending_class u). Qed.
Lemma of_class_leave users :
  List.filter leaving (List.filter (fun u => negb (resting u)) users) = of_class section_class OnLeave users.
Proof. rewrite filter_and. apply List.filter_ext. intros u. unfold section_class. by destruct (resting u), (leaving u), (attending_class u). Qed.
Lemma of_class_course users :
  List.filter (fun u => negb (leaving u)) (List.filter (fun u => negb (resting u)) (List.filter attending_class users))
  = of_class section_class HasCourse users.
Proof. rewrite !filter_and. apply List.filter_ext. intros u. unfold section_class. by destruct (resting u), (leaving u), (attending_class u). Qed.
Lemma of_class_should users :
  List.filter (fun u => negb (leaving u)) (List.filter (fun u => negb (resting u)) (List.filter (fun u => negb (attending_class u)) users))
  = of_class section_class ShouldArrive users.
Proof. rewrite !filter_and. apply List.filter_ext. intros u. unfold section_class. by destruct (resting u), (leaving u), (attending_class u). Qed.
End classes.

(** ** The section's view *)

Section views.
Context `{LOC : Location} {W : Type} (s : AttendanceService W) (db : slot_db) {R : SlotReads s db}.

Lemma busy_reads users day sec week w :
  exists busy, busyUserSetForSlot s users day sec week w = (Ok busy, w)
    /\ forall u, u ∈ users ->
       bool_decide (us_ID u ∈ busy)
       = names co_UserID (fun c => (co_DayOfWeek c =? day) && (co_Section c =? sec) && ContainsWeek (co_WeekList c) week)
           (db_courses db) u.
Proof.
  unfold busyUserSetForSlot. destruct users as [|u0 us]; [eexists; split; [done|set_solver]|].
  rewrite rd_day. eexists. split; [done|]. intros u Hu. unfold busy_in_week, asked_for. rewrite in_rows.
  by rewrite names_asked.
Qed.

Lemma rest_reads users day w :
  computeOnRestDayUserItems s users day w = (List.map user_item (List.filter (resting db day) users), w).
Proof.
  unfold computeOnRestDayUserItems. destruct users as [|u0 us]; [done|].
  destruct rd_rests as (f & -> & Hf). rewrite rd_enabled. unfold resting.
  destruct (db_rest_enabled db); cbn [negb andb].
  - rewrite Hf. f_equal. f_equal. apply List.filter_ext_in. intros u Hu%list_elem_of_In.
    rewrite in_rows. unfold asked_for. by rewrite names_asked.
  - by rewrite filter_nobody.
Qed.

Lemma leave_reads users a b w : a <= b ->
  computeOnLeaveUserItems s users a b w = (Ok (List.map user_item (List.filter (leaving db a b) users)), w).
Proof.
  intros Hab. unfold computeOnLeaveUserItems. destruct users as [|u0 us]; [done|].
  rewrite rd_leaves by done. do 3 f_equal. apply List.filter_ext_in. intros u Hu%list_elem_of_In.
  rewrite in_rows. unfold asked_for. rewrite names_asked by done. unfold leaving. apply names_ext. intros. by rewrite andb_diag.
Qed.

Definition items_of (depts : gmap Z string) (f : User -> slot_class) (c : slot_class) (users : list User)
  : list CourseAttendanceUserItem := List.map (with_dept depts) (List.map user_item (of_class f c users)).

Lemma excluded_rest day users l :
  l ⊆ users ->
  filterUsersByExclude l (item_ids (List.map user_item (List.filter (resting db day) users)))
  = List.filter (fun u => negb (resting db day u)) l.
Proof.
  intros Hl. rewrite excluded_filter. apply List.filter_ext_in. intros u Hu%list_elem_of_In.
  rewrite selected_ids; [done|intros ? ? E; by apply resting_id|by apply Hl].
Qed.
Lemma excluded_leave day a b users l :
  l ⊆ List.filter (fun u => negb (resting db day u)) users ->
  filterUsersByExclude l (item_ids (List.map user_item
     (List.filter (leaving db a b) (List.filter (fun u => negb (resting db day u)) users))))
  = List.filter (fun u => negb (leaving db a b u)) l.
Proof.
  intros Hl. rewrite excluded_filter. apply List.filter_ext_in. intros u Hu%list_elem_of_In.
  rewrite selected_ids; [done|intros ? ? E; by apply leaving_id|by apply Hl].
Qed.

Lemma session_reads date sec w r w' :
  session_of s date sec w = (Ok r, w') -> w' = w /\ CalculateSlotTime date sec (db_periods db) = Ok r.
Proof.
  unfold session_of. rewrite rd_periods. case_if; [done|].
  destruct (CalculateSlotTime date sec (db_periods db)) as [x|e]; [|done]. by intros [= <- <-].
Qed.

(** The candidates are put into the four lists by their class, in their order. *)
Lemma section_view viewer date week sec depts w st w' a b :
  CalculateSlotTime date sec (db_periods db) = Ok (a, b) -> a <= b ->
  GetSlotAttendanceStatus s viewer date week sec depts w = (Ok st, w') ->
  let day := WeekdayMon1Sun7 date in
  let items := fun names c => items_of names (section_class db date day week sec a b) c (db_users db depts) in
  w' = w /\ exists names, st = mkSlotStatus (format_date date) week day sec (items names ShouldArrive)
    (items names OnLeave) (items names OnRestDay) (items names HasCourse).
Proof.
  intros Hs Hab H day items. unfold GetSlotAttendanceStatus in H.
  apply st_bind_Ok in H as ([] & w1 & H1 & H). apply st_lift_Ok in H1 as [_ ->].
  apply st_bind_Ok in H as ([] & w1 & H1 & H). apply st_lift_Ok in H1 as [_ ->].
  apply st_bind_Ok in H as (r & w1 & H1 & H). apply session_reads in H1 as [-> H1]. rewrite Hs in H1. injection H1 as <-.
  set (users := db_users db depts) in *. cbn [fst snd] in H.
  unfold st_value at 1, st_bind at 1 in H. rewrite rd_all in H.
  set (groups := fun course should => (users, List.filter should users, List.filter course users)).
  assert (Hg : exists course should, (if db_all_attend db date then
               activeUsers <~ listActiveUsersByDeptIDs s depts ;; st_ret (activeUsers, activeUsers, [])
             else computeShouldArriveUsersByDeptFilter s day sec week depts) w = (Ok (groups course should), w)
             /\ (forall u, u ∈ users -> course u = attending_class db date day week sec u)
             /\ (forall u, u ∈ users -> should u = negb (attending_class db date day week sec u))).
  { unfold groups, attending_class. destruct (db_all_attend db date); cbn [negb andb].
    - exists (fun _ => false), (fun _ => true). rewrite filter_nobody, filter_everybody.
      unfold st_bind, listActiveUsersByDeptIDs. by rewrite rd_users.
    - destruct (busy_reads users day sec week w) as (busy & Hw & Hb).
      unfold computeShouldArriveUsersByDeptFilter, st_bind, listActiveUsersByDeptIDs. rewrite rd_users. cbn [wrap_err].
      fold users. rewrite Hw.
      eexists _, _. rewrite excluded_filter. split; [reflexivity|]. split; intros u Hu; cbn beta; by rewrite Hb. }
  destruct Hg as (course & should & Hg & Hcourse & Hshould). apply st_bind_Ok in H as (g & w1 & H1 & H).
  pose proof (eq_trans (eq_sym H1) Hg) as E. injection E as -> ->. clear H1. unfold groups in H. fold day in H.
  unfold st_value at 1, st_bind at 1 in H. rewrite rest_reads in H.
  rewrite (excluded_rest day users users) in H by done.
  apply st_bind_Ok in H as (leave & w1 & H1 & H). rewrite leave_reads in H1 by done. injection H1 as <- <-.
  rewrite !(excluded_rest day users) in H by apply list_filter_sub.
  rewrite !(excluded_leave day a b users) in H by (intros u Hu; exact (sub_filter _ _ _ (list_filter_sub _ _) u Hu)).
  unfold st_value, st_bind, department_names in H.
  match type of H with context [ur_GetUserDepartmentNames _ ?ids w] => destruct (rd_names ids w) as (names & Hn) end.
  rewrite Hn in H. injection H as <- <-. split; [done|]. exists names. rewrite !exclude_nothing.
  rewrite (List.filter_ext_in should (fun u => negb (attending_class db date day week sec u)) users)
    by (intros u Hu; apply Hshould; by apply list_elem_of_In).
  rewrite (List.filter_ext_in course (attending_class db date day week sec) users)
    by (intros u Hu; apply Hcourse; by apply list_elem_of_In).
  by rewrite (of_class_should db date), (of_class_leave db date day week sec), (of_class_rest db date day week sec a b),
    (of_class_course db date).
Qed.

(** ** The week's view *)

Lemma each_slot_elem {A} periods (f : Z -> Z -> list A) i :
  i ∈ each_slot periods f -> exists day sec, 1 <= day <= 7 /\ i ∈ f day sec.
Proof.
  unfold each_slot. rewrite list_elem_of_In, in_flat_map. intros (day & Hd & H).
  apply in_flat_map in H as (sec & _ & H). exists day, sec. split; [|by apply list_elem_of_In].
  unfold days_of_week in Hd. cbn in Hd. lia.
Qed.

(** What the week's queries answer. *)
Definition week_answers (startDate : Z) (users : list User) : week_data :=
  mkWeekData (db_periods db) (db_all_attend db startDate) users
    (List.filter (fun c => asked_for co_UserID (List.map us_ID users) c && bool_decide (co_DayOfWeek c ∈ days_of_week))
       (db_courses db))
    (List.filter (fun l => asked_for la_UserID (List.map us_ID users) l
                           && timeOverlaps (la_StartAt l) (la_EndAt l) startDate (add_days startDate 7)) (db_leaves db))
    (if db_rest_enabled db then List.filter (fun r => asked_for rd_UserID (List.map us_ID users) r && true) (db_rests db)
     else []).

Lemma week_classifies startDate users day week sec a b u :
  u ∈ users -> 1 <= day <= 7 -> startDate <= a -> b <= add_days startDate 7 ->
  let d := week_answers startDate users in
  classify (busy_of_slot d week day sec) (rest_of_day d day) (wd_leaves d) a b u
  = week_class db startDate day week sec a b u.
Proof.
  intros Hu Hday Ha Hb d. unfold classify, week_class, attending_class, resting, leaving.
  replace (bool_decide (us_ID u ∈ busy_of_slot d week day sec)) with
    (negb (db_all_attend db startDate)
     && names co_UserID (fun c => (co_DayOfWeek c =? day) && (co_Section c =? sec) && ContainsWeek (co_WeekList c) week)
          (db_courses db) u).
  2:{ unfold busy_of_slot, busy_in_week, d, week_answers, asked_for. cbn [wd_all wd_courses].
      destruct (db_all_attend db startDate); cbn [negb andb]; [symmetry; apply bool_decide_eq_false_2; set_solver|].
      rewrite in_rows. rewrite filter_and.
      rewrite (List.filter_ext _ (fun c => bool_decide (co_UserID c ∈ List.map us_ID users)
        && (bool_decide (co_DayOfWeek c ∈ days_of_week) && ((co_DayOfWeek c =? day) && (co_Section c =? sec)))))
        by (intros c; symmetry; apply andb_assoc).
      rewrite names_asked by done. apply names_ext. intros c _ _.
      destruct (Z.eqb_spec (co_DayOfWeek c) day) as [->|]; [|by rewrite andb_false_r].
      rewrite bool_decide_eq_true_2; [done|]. unfold days_of_week. rewrite list_elem_of_In. cbn. lia. }
  replace (bool_decide (us_ID u ∈ rest_of_day d day)) with
    (db_rest_enabled db && names rd_UserID (fun r => rd_DayOfWeek r =? day) (db_rests db) u).
  2:{ unfold rest_of_day, d, week_answers, asked_for. cbn [wd_rest]. rewrite in_rows.
      destruct (db_rest_enabled db); cbn [andb]; [by rewrite names_asked|done]. }
  assert (E : existsb (fun r => (la_UserID r =? us_ID u) && timeOverlaps (la_StartAt r) (la_EndAt r) a b) (wd_leaves d)
    = names la_UserID (fun l => timeOverlaps (la_StartAt l) (la_EndAt l) a b) (db_leaves db) u).
  { unfold d, week_answers, asked_for. cbn [wd_leaves].
    match goal with |- existsb _ ?rows = _ =>
      change (names la_UserID (fun l => timeOverlaps (la_StartAt l) (la_EndAt l) a b) rows u
              = names la_UserID (fun l => timeOverlaps (la_StartAt l) (la_EndAt l) a b) (db_leaves db) u) end.
    rewrite names_asked by done. apply names_ext. intros l _ _. unfold timeOverlaps, before, after. lia. }
  by rewrite E.
Qed.

Lemma summary_counts startDate users day week sec a b c :
  1 <= day <= 7 -> startDate <= a -> b <= add_days startDate 7 ->
  let d := week_answers startDate users in
  count_class c (classify (busy_of_slot d week day sec) (rest_of_day d day) (wd_leaves d) a b) users
  = len (of_class (week_class db startDate day week sec a b) c users).
Proof.
  intros Hd Ha Hb d. unfold count_class, of_class. f_equal. apply List.filter_ext_in. intros u Hu%list_elem_of_In.
  unfold d. by rewrite week_classifies.
Qed.

Lemma week_view viewer week startDate depts w resp w' i :
  startDate <= add_days startDate 7 ->
  GetWeekSlotsAttendanceSummary s viewer week startDate depts w = (Ok resp, w') -> i ∈ wk_Slots resp ->
  let day := sm_DayOfWeek i in let sec := sm_Section i in let date := add_days startDate (day - 1) in
  1 <= day <= 7 /\ sm_Date i = format_date date
  /\ forall a b, CalculateSlotTime date sec (db_periods db) = Ok (a, b) ->
     startDate <= a -> b <= add_days startDate 7 ->
     let count c := len (of_class (week_class db startDate day week sec a b) c (db_users db depts)) in
     sm_ShouldArriveCount i = count ShouldArrive /\ sm_OnLeaveCount i = count OnLeave
     /\ sm_OnRestDayCount i = count OnRestDay /\ sm_HasCourseCount i = count HasCourse.
Proof.
  intros Hweek H Hi. unfold GetWeekSlotsAttendanceSummary in H.
  apply st_bind_Ok in H as ([] & w1 & H1 & H). apply st_lift_Ok in H1 as [_ ->].
  apply st_bind_Ok in H as ([] & w1 & H1 & H). apply st_lift_Ok in H1 as [_ ->].
  unfold st_value at 1, st_bind at 1 in H. rewrite rd_periods in H.
  apply st_bind_Ok in H as ([] & w1 & H1 & H). apply st_lift_Ok in H1 as [_ ->].
  unfold st_value at 1, st_bind at 1 in H. rewrite rd_all in H.
  unfold st_bind, listActiveUsersByDeptIDs in H. rewrite rd_users in H. cbn [wrap_err] in H.
  destruct (db_users db depts) as [|u0 us] eqn:Eu.
  { injection H as <- <-. cbn [wk_Slots] in Hi. apply each_slot_elem in Hi as (day & sec & Hd & Hi).
    unfold empty_summary in Hi. apply list_elem_of_singleton in Hi as ->. cbn. done. }
  set (users := u0 :: us) in *.
  assert (Hr : wk_Slots resp = each_slot (db_periods db) (slot_summary (week_answers startDate users) week startDate)).
  { rewrite rd_week, rd_leaves, rd_enabled in H by done. unfold week_answers.
    destruct rd_rests as (f & Ef & Hf). rewrite Ef in H. unfold deref in H.
    destruct (db_rest_enabled db); cbn [negb] in H; [rewrite Hf in H|]; by injection H as <- <-. }
  rewrite Hr in Hi. apply each_slot_elem in Hi as (day & sec & Hd & Hi). unfold slot_summary in Hi.
  destruct (CalculateSlotTime (add_days startDate (day - 1)) sec (wd_periods (week_answers startDate users)))
    as [[a b]|e] eqn:Es; [|by apply elem_of_nil in Hi].
  apply list_elem_of_singleton in Hi as ->. cbn -[of_class count_class week_answers]. split; [done|]. split; [done|].
  intros a' b' Hs Ha Hb. cbn [week_answers wd_periods] in Es. rewrite Hs in Es. injection Es as -> ->.
  cbn [week_answers wd_users]. by rewrite !summary_counts.
Qed.
End views.

(** ** The two views of a section *)

Lemma len_filter_le {A} (p q : A -> bool) l :
  (forall x, p x = true -> q x = true) -> len (List.filter p l) <= len (List.filter q l).
Proof.
  intros H. unfold len. induction l as [|x l IH]; cbn; [lia|]. specialize (H x).
  destruct (p x), (q x); cbn; try lia; by specialize (H eq_refl).
Qed.

Lemma classes_add_up f users :
  len (of_class f ShouldArrive users) + len (of_class f OnLeave users)
  + len (of_class f OnRestDay users) + len (of_class f HasCourse users) = len users.
Proof.
  unfold of_class, len. induction users as [|u l IH]; cbn; [done|].
  destruct (f u); repeat match goal with |- context [bool_decide (?x = ?y)] =>
    let r := eval vm_compute in (bool_decide (x = y)) in change (bool_decide (x = y)) with r end; cbn; lia.
Qed.

Lemma len_items_of names f c users : len (items_of names f c users) = len (of_class f c users).
Proof. unfold items_of, len. by rewrite !List.length_map. Qed.

(** The orders in which the two views ask their questions. *)
Lemma orders_agree db date start day week sec a b users :
  db_all_attend db date = db_all_attend db start ->
  let S c := len (of_class (section_class db date day week sec a b) c users) in
  let K c := len (of_class (week_class db start day week sec a b) c users) in
  K ShouldArrive = S ShouldArrive
  /\ K OnLeave + K OnRestDay + K HasCourse = S OnLeave + S OnRestDay + S HasCourse
  /\ S HasCourse <= K HasCourse /\ K OnRestDay <= S OnRestDay /\ K OnLeave <= S OnLeave.
Proof.
  intros Hall. set (att := attending_class db start day week sec).
  set (sc := section_class db date day week sec a b). set (wk := week_class db start day week sec a b). cbn zeta.
  assert (Hsec : forall u, sc u = if resting db day u then OnRestDay else if leaving db a b u then OnLeave
                                  else if att u then HasCourse else ShouldArrive).
  { intros u. unfold sc, section_class, att, attending_class. by rewrite Hall. }
  assert (Hk : forall u, wk u = if att u then HasCourse else sc u).
  { intros u. rewrite Hsec. unfold wk, week_class. fold att. by destruct (att u), (resting db day u), (leaving db a b u). }
  assert (Hk' : forall u, att u = true -> sc u <> ShouldArrive).
  { intros u Hu. rewrite Hsec, Hu. by destruct (resting db day u), (leaving db a b u). }
  assert (Es : len (of_class wk ShouldArrive users) = len (of_class sc ShouldArrive users)).
  { unfold of_class. f_equal. apply List.filter_ext. intros u. rewrite Hk. specialize (Hk' u).
    destruct (att u); [|done]. by rewrite !bool_decide_eq_false_2 by auto. }
  pose proof (classes_add_up wk users). pose proof (classes_add_up sc users).
  assert (Hle : forall c, c <> HasCourse -> len (of_class wk c users) <= len (of_class sc c users)).
  { intros c Hne. apply len_filter_le. intros u Hu%bool_decide_eq_true. rewrite Hk in Hu. apply bool_decide_eq_true.
    by destruct (att u); subst. }
  split; [exact Es|]. split; [lia|]. split; [|split; by apply Hle].
  apply len_filter_le. intros u Hu%bool_decide_eq_true. apply bool_decide_eq_true. rewrite Hk, Hu. by destruct (att u).
Qed.

Section agreement.
Context `{FZ : FixedZone}.

Lemma parse_hm_range t h m : parse_hm t = Some (h, m) -> 0 <= h < 24 /\ 0 <= m < 60.
Proof.
  unfold parse_hm, parse_hm_bytes, get_range. destruct (getnum false (bytes t)) as [[n l]|]; cbn; [|done].
  destruct ((0 <=? n) && (n <=? 23)) eqn:E1; cbn; [|done]. destruct (expect 58 l) as [l'|]; cbn; [|done].
  destruct (getnum true l') as [[k l'']|]; cbn; [|done]. destruct ((0 <=? k) && (k <=? 59)) eqn:E2; cbn; [|done].
  destruct l''; [|done]. intros [= <- <-]. b2p. lia.
Qed.

(** A session begins on its date and does not end before it begins. *)
Lemma session_range date sec periods a b :
  CalculateSlotTime date sec periods = Ok (a, b) -> at_clock date 0 0 <= a /\ a <= b.
Proof.
  unfold CalculateSlotTime, guard. destruct (negb (is_zero date)); cbn; [|done]. destruct (0 <? sec); cbn; [|done].
  destruct (period_at sec periods) as [p|]; [|done].
  destruct (parse_hm (pd_Start p)) as [[h1 m1]|] eqn:E1; [|done].
  destruct (parse_hm (pd_End p)) as [[h2 m2]|] eqn:E2; [|done].
  apply parse_hm_range in E1, E2. intros [= <- <-]. unfold at_clock. rewrite !instant_offset.
  unfold before. case_if; b2p; unfold ns_min, ns_hour, ns_sec in *; lia.
Qed.

(** The days of a week that begins at a local midnight on a Monday. *)
Lemma day_of_week start day :
  WeekdayMon1Sun7 start = 1 -> 1 <= day <= 7 -> WeekdayMon1Sun7 (add_days start (day - 1)) = day.
Proof.
  unfold WeekdayMon1Sun7, add_days, weekday. rewrite civil_instant.
  rewrite Z.div_add by done. set (d := local_civil start / ns_day).
  intros Hm Hd. assert (Hd1 : (d + 1) mod 7 = 1).
  { pose proof (Z.mod_pos_bound (d + 1) 7 eq_refl). destruct (Z.eqb_spec ((d + 1) mod 7) 0); lia. }
  replace (d + (day - 1) + 1) with (d + 1 + (day - 1)) by lia.
  rewrite <- Z.add_mod_idemp_l, Hd1 by lia.
  destruct (decide (day = 7)) as [->|]; [done|]. replace (1 + (day - 1)) with day by lia.
  rewrite Z.mod_small by lia. rewrite (proj2 (Z.eqb_neq _ _)) by lia. done.
Qed.

Lemma midnight_of_day start day :
  normalizeAttendanceDate start = start -> 1 <= day -> start <= at_clock (add_days start (day - 1)) 0 0.
Proof.
  unfold normalizeAttendanceDate. rewrite !clock_midnight. intros Hs Hd.
  unfold add_days, civil_midnight in *. rewrite civil_instant, Z.div_add by done.
  rewrite Z.mul_add_distr_r. unfold ns_day, ns_sec in *. lia.
Qed.

(** C19: The week's view agrees with the section's, in a week that begins on a
    Monday and for every entry whose session ends within the week and on whose
    date everybody has to attend if and only if everybody has to on the Monday
    (the summary asks only then): the entry counts as many users who have to
    attend as the status of that section lists, and as many users altogether.
    There the two disagree only on why a user does not have to attend: the summary
    counts a course before a rest day or leave, the status lists it after them,
    so the summary never shows fewer courses and never more rest days or leave.
    Where the second proviso fails they do not agree
    ([straddling_week_disagrees]). *)
Theorem week_agrees_with_sections {W} (s : AttendanceService W) db `{R : !SlotReads s db}
    viewer week start depts w resp w1 i st w2 :
  WeekdayMon1Sun7 start = 1 -> normalizeAttendanceDate start = start ->
  GetWeekSlotsAttendanceSummary s viewer week start depts w = (Ok resp, w1) -> i ∈ wk_Slots resp ->
  let date := add_days start (sm_DayOfWeek i - 1) in
  db_all_attend db date = db_all_attend db start ->
  (forall a b, CalculateSlotTime date (sm_Section i) (db_periods db) = Ok (a, b) -> b <= add_days start 7) ->
  GetSlotAttendanceStatus s viewer date week (sm_Section i) depts w = (Ok st, w2) ->
  (sm_Date i, sm_DayOfWeek i, sm_Section i) = (st_Date st, st_DayOfWeek st, st_Section st)
  /\ sm_ShouldArriveCount i = len (st_ShouldArrive st)
  /\ sm_OnLeaveCount i + sm_OnRestDayCount i + sm_HasCourseCount i
     = len (st_OnLeave st) + len (st_OnRestDay st) + len (st_HasCourse st)
  /\ len (st_HasCourse st) <= sm_HasCourseCount i
  /\ sm_OnRestDayCount i <= len (st_OnRestDay st) /\ sm_OnLeaveCount i <= len (st_OnLeave st).
Proof.
  intros Hm Hn Hw Hi date Hall Hend Hst.
  destruct (week_view s db _ _ _ _ _ _ _ i ltac:(unfold add_days; rewrite civil_offset, instant_offset; unfold ns_day, ns_sec; lia) Hw Hi)
    as (Hday & Hd & Hc). fold date in Hd, Hc.
  assert (Hs : exists a b, CalculateSlotTime date (sm_Section i) (db_periods db) = Ok (a, b)).
  { pose proof Hst as E. unfold GetSlotAttendanceStatus in E.
    apply st_bind_Ok in E as ([] & w3 & H1 & E). apply st_lift_Ok in H1 as [_ ->].
    apply st_bind_Ok in E as ([] & w3 & H1 & E). apply st_lift_Ok in H1 as [_ ->].
    apply st_bind_Ok in E as ([a b] & w3 & H1 & E). apply (session_reads s db) in H1 as [_ H1]. by exists a, b. }
  destruct Hs as (a & b & Hs). pose proof (session_range _ _ _ _ _ Hs) as [Ha Hab].
  pose proof (midnight_of_day start (sm_DayOfWeek i) Hn ltac:(lia)) as H0. fold date in H0.
  destruct (Hc a b Hs ltac:(lia) (Hend _ _ Hs)) as (E1 & E2 & E3 & E4).
  destruct (section_view s db _ _ _ _ _ _ _ _ a b Hs Hab Hst) as (_ & names & ->).
  unfold date in *. rewrite (day_of_week start (sm_DayOfWeek i) Hm Hday) in *. fold date in Hall, Hs |- *.
  cbn [st_Date st_DayOfWeek st_Section st_ShouldArrive st_OnLeave st_OnRestDay st_HasCourse].
  rewrite !len_items_of, E1, E2, E3, E4, Hd.
  split; [done|]. by apply orders_agree.
Qed.
End agreement.

(** ** The section's view and the record's detail *)

(** The ports of the record service over the same database. *)
Class RecordReads `{LOC : Location} {W} (s : AttendanceRecordService W) (db : slot_db) := {
  rc_all date w : shouldUseAllAttendMode s date w = (db_all_attend db date, w);
  rc_enabled w : isRestDayAttendanceEnabled s w = (db_rest_enabled db, w);
  rc_users : exists repo, srv_userRepo s = Some repo
    /\ forall depts w, ur_ListAttendanceCandidates repo depts w = (Ok (db_users db depts), w);
  rc_day ids day sec w : srv_courseRepo s ids day sec w
    = (Ok (List.filter (fun c => asked_for co_UserID ids c && ((co_DayOfWeek c =? day) && (co_Section c =? sec)))
             (db_courses db)), w);
  rc_leaves : exists f, srv_leaveRepo s = Some f
    /\ forall ids a b w, a <= b -> f ids a b w
       = (Ok (List.filter (fun l => asked_for la_UserID ids l && timeOverlaps (la_StartAt l) (la_EndAt l) a b)
                (db_leaves db)), w);
  rc_rests : exists f, srv_restDayRepo s = Some f
    /\ forall ids w, f ids w = (Ok (List.filter (fun r => asked_for rd_UserID ids r && true) (db_rests db)), w)
}.

Lemma leave_users_exact users seen leaves :
  (forall k u, users !! k = Some u -> us_ID u = k) ->
  leave_ids (leave_users users seen leaves) = (dom users ∖ seen) ∩ list_to_set (List.map la_UserID leaves).
Proof.
  intros Hu. revert seen. induction leaves as [|l leaves IH]; intros seen; cbn -[union leave_ids]; [unfold leave_ids; set_solver|].
  case_bool_decide as Hs; [rewrite IH; set_solver|]. destruct (users !! la_UserID l) as [u|] eqn:E.
  - pose proof (Hu _ _ E) as Hid. apply elem_of_dom_2 in E. specialize (IH ({[la_UserID l]} ∪ seen)).
    unfold leave_ids, attendanceLeaveIDBoolSet in *. cbn -[union]. rewrite Hid, IH. apply set_eq. intros x.
    destruct (decide (x = la_UserID l)); set_solver.
  - rewrite IH. apply not_elem_of_dom in E. apply set_eq. intros x. destruct (decide (x = la_UserID l)); set_solver.
Qed.

Section detail.
Context `{LOC : Location} {W : Type} (s : AttendanceRecordService W) (db : slot_db) {R : RecordReads s db}.

Lemma record_rest users day w :
  filterRestDayUsers s users day w = (List.filter (resting db day) users, w).
Proof.
  unfold filterRestDayUsers. destruct users as [|u0 us]; [done|].
  destruct rc_rests as (f & -> & Hf). rewrite rc_enabled. unfold resting.
  destruct (db_rest_enabled db); cbn [negb andb]; [|by rewrite filter_nobody].
  rewrite Hf. f_equal. apply List.filter_ext_in. intros u Hu%list_elem_of_In.
  rewrite in_rows. unfold asked_for. by rewrite names_asked.
Qed.

Lemma record_candidates date week sec depts w :
  exists course, getAttendanceCandidatesWithCourseUsers s date week sec depts w = (Ok (db_users db depts, course), w)
    /\ course = List.filter (attending_class db date (WeekdayMon1Sun7 date) week sec) (db_users db depts).
Proof.
  unfold getAttendanceCandidatesWithCourseUsers, deref. destruct rc_users as (repo & -> & Hu). rewrite Hu.
  destruct (db_users db depts) as [|u0 us] eqn:Eu; [by eexists|]. rewrite rc_all. unfold attending_class.
  destruct (db_all_attend db date); cbn [negb andb]; [eexists; split; [done|by rewrite filter_nobody]|].
  rewrite rc_day. eexists. split; [done|]. apply List.filter_ext_in. intros u Hu'%list_elem_of_In.
  rewrite in_rows. unfold asked_for. by rewrite names_asked.
Qed.

(** The leave of the users asked for, whichever approval names them. *)
Lemma record_leave users a b w : a <= b ->
  exists leave, getLeaveUsers s users a b w = (Ok leave, w)
    /\ leave_ids leave = user_ids (List.filter (leaving db a b) users).
Proof.
  intros Hab. unfold getLeaveUsers. destruct users as [|u0 us] eqn:Eu; [by eexists|]. rewrite <- Eu.
  unfold deref. destruct rc_leaves as (f & -> & Hf). rewrite Hf by done. eexists. split; [done|].
  rewrite leave_users_exact by (intros k u H; by apply user_map_elem in H as [_ ?]).
  rewrite user_map_dom, difference_empty_L. apply set_eq. intros x.
  unfold user_ids, userIDBoolSet. rewrite elem_of_intersection, !(elem_ids us_ID). split.
  - intros [(u & Hu & <-) Hx]. exists u. split; [|done]. apply list_elem_of_In, filter_In. split; [by apply list_elem_of_In|].
    apply elem_rows in Hx. unfold leaving. rewrite <- Hx. symmetry.
    apply names_ext. intros l _ El. unfold asked_for.
    by rewrite bool_decide_eq_true_2 by (rewrite El; by apply list_elem_of_In, in_map, list_elem_of_In).
  - intros (u & Hu & <-). apply list_elem_of_In, filter_In in Hu as [Hu Hl]. apply list_elem_of_In in Hu.
    split; [by exists u|]. apply elem_rows. unfold leaving in Hl. rewrite <- Hl.
    apply names_ext. intros l _ El. unfold asked_for.
    by rewrite bool_decide_eq_true_2 by (rewrite El; by apply list_elem_of_In, in_map, list_elem_of_In).
Qed.
End detail.

(** Those who should arrive are the users of no other class. *)
Lemma should_arrive_rest (sc : User -> slot_class) users :
  (forall u1 u2, us_ID u1 = us_ID u2 -> sc u1 = sc u2) ->
  user_ids (of_class sc ShouldArrive users)
  = list_to_set (List.map us_ID users)
    ∖ (list_to_set (List.map us_ID (of_class sc OnRestDay users)) ∪ list_to_set (List.map us_ID (of_class sc HasCourse users)))
    ∖ user_ids (of_class sc OnLeave users).
Proof.
  intros Hsc.
  assert (Hc : forall c u, u ∈ users -> us_ID u ∈ user_ids (of_class sc c users) <-> sc u = c).
  { intros c u Hu. unfold of_class. rewrite selected; [apply bool_decide_eq_true| |done]. intros u1 u2 E. by rewrite (Hsc _ _ E). }
  apply set_eq. intros x. rewrite !elem_of_difference, elem_of_union.
  change (list_to_set (List.map us_ID ?l)) with (user_ids l). change (userIDBoolSet ?l) with (user_ids l).
  split.
  - intros Hs1. pose proof (filter_sub us_ID _ users x Hs1) as Hu. apply elem_ids in Hu as (u & Hu & <-).
    apply Hc in Hs1; [|done]. rewrite !Hc, Hs1 by done. split; [|done]. split; [apply elem_ids; by exists u|by intros [?|?]].
  - intros [[Hu H1] H2]. apply elem_ids in Hu as (u & Hu & <-). rewrite !Hc in H1 by done. rewrite Hc in H2 by done.
    apply Hc; [done|]. destruct (sc u); [exfalso; apply H1; by right|exfalso; apply H1; by left|by exfalso; apply H2|done].
Qed.

(** C20: The section's view is the record's.  Over the same database, the status
    of a section lists as resting and as having a course exactly the users the
    attendance detail of that section groups so, in the same order, as on leave
    the same users, and as having to attend those of the detail who are not on
    leave. *)
Theorem section_view_is_the_records `{FZ : FixedZone} {W V} (s : AttendanceService W) (s' : AttendanceRecordService V) db
    `{R : !SlotReads s db} `{R' : !RecordReads s' db} viewer date week sec depts w st w' a b v :
  CalculateSlotTime date sec (db_periods db) = Ok (a, b) ->
  GetSlotAttendanceStatus s viewer date week sec depts w = (Ok st, w') ->
  exists g, attendance_groups_of s' date week sec a b depts v = (Ok g, v)
    /\ List.map ci_ID (st_OnRestDay st) = List.map us_ID (ag_rest g)
    /\ List.map ci_ID (st_HasCourse st) = List.map us_ID (ag_course g)
    /\ item_ids (st_OnLeave st) = leave_ids (ag_leave g)
    /\ item_ids (st_ShouldArrive st) = user_ids (ag_should g) ∖ leave_ids (ag_leave g).
Proof.
  intros Hs Hst. pose proof (session_range _ _ _ _ _ Hs) as [_ Hab].
  destruct (section_view s db _ _ _ _ _ _ _ _ a b Hs Hab Hst) as (_ & names & ->). clear Hst.
  destruct (record_candidates s' db date week sec depts v) as (course & Hcand & Hcourse).
  set (day := WeekdayMon1Sun7 date) in *. set (users := db_users db depts) in *.
  set (free := List.filter (fun u => negb (resting db day u)) users).
  destruct (record_leave s' db free a b v Hab) as (leave & Hleave & Hids).
  assert (Hrest : forall u, u ∈ users -> us_ID u ∈ user_ids (List.filter (resting db day) users) <-> resting db day u = true)
    by (intros; apply selected; [intros ??; apply resting_id|done]).
  assert (Hfree : filterModelUsers users (userIDBoolSet (List.filter (resting db day) users)) = free).
  { change filterModelUsers with filterUsersByExclude. rewrite excluded_filter. apply List.filter_ext_in.
    intros u Hu%list_elem_of_In. f_equal. apply eq_bool_prop_intro. rewrite !Is_true_true, bool_decide_eq_true. by apply Hrest. }
  assert (Hl : forall u, u ∈ users -> us_ID u ∈ leave_ids leave <-> resting db day u = false /\ leaving db a b u = true).
  { intros u Hu. rewrite Hids. unfold free. rewrite filter_and, selected by
      (try done; intros ?? E; by rewrite (resting_id _ _ _ _ E), (leaving_id _ _ _ _ _ E)).
    destruct (resting db day u), (leaving db a b u); cbn; naive_solver. }
  set (ex := mergeBoolSets [userIDBoolSet (List.filter (resting db day) users); attendanceLeaveIDBoolSet leave]).
  assert (Hex : forall u, u ∈ users -> bool_decide (us_ID u ∈ ex) = resting db day u || leaving db a b u).
  { intros u Hu. apply eq_bool_prop_intro. rewrite !Is_true_true, bool_decide_eq_true. unfold ex. rewrite merge_two, elem_of_union.
    fold (user_ids (List.filter (resting db day) users)) (leave_ids leave). rewrite Hrest, Hl by done.
    destruct (resting db day u), (leaving db a b u); cbn; naive_solver. }
  assert (Hgc : filterModelUsers course ex = of_class (section_class db date day week sec a b) HasCourse users).
  { change filterModelUsers with filterUsersByExclude. rewrite excluded_filter, Hcourse, filter_and.
    apply List.filter_ext_in. intros u Hu%list_elem_of_In. rewrite Hex by done. unfold section_class.
    by destruct (resting db day u), (leaving db a b u), (attending_class db date day week sec u). }
  eexists. split.
  { unfold attendance_groups_of. rewrite Hcand. fold day. rewrite (record_rest s' db), Hfree, Hleave. reflexivity. }
  cbn [ag_rest ag_course ag_leave ag_should st_OnRestDay st_HasCourse st_OnLeave st_ShouldArrive]. fold ex.
  unfold items_of. rewrite !with_dept_ids, !items_ids, Hgc, (of_class_rest db date day week sec a b).
  split; [done|]. split; [done|]. unfold item_ids. rewrite !with_dept_ids, !items_ids, Hids. unfold free.
  rewrite (of_class_leave db date day week sec). split; [done|].
  change (list_to_set (List.map us_ID ?l)) with (user_ids l). unfold user_ids at 2, userIDBoolSet.
  change filterModelUsers with (filter_out us_ID). rewrite filter_out_ids, merge_two.
  change (list_to_set (List.map us_ID (of_class _ ?c _))) with (user_ids (of_class (section_class db date day week sec a b) c users)).
  apply should_arrive_rest. intros u1 u2 E. by rewrite (section_class_id _ _ _ _ _ _ _ _ _ E).
Qed.

(** ** A concrete week *)

#[local] Existing Instance shanghai.

Definition monday : Z := local_instant (instant 2026 3 2 0 0 0 0).
Definition four_users : list User :=
  [mkUser 1 7 "d1" "An" "" "1"; mkUser 2 7 "d2" "Bo" "" "2"; mkUser 3 7 "d3" "Cy" "" "3"; mkUser 4 7 "d4" "Di" "" "4"].
Definition two_periods : list Period := [mkPeriod "one" "08:00" "09:40"; mkPeriod "two" "10:00" "11:40"].
(** Bo has a course on Monday and rests that day; Cy is on leave that morning. *)
Definition week_db : slot_db :=
  mkSlotDb two_periods
    (fun date => match CalculateWeekFromDate (Some semester_2026) date with (_, Some _) => true | (_, None) => false end)
    true (fun _ => four_users) [mkCourse 2 1 1 "1,2"]
    [mkLeaveApproval 3 "Cy" "annual" "trip" (monday + 7 * ns_hour) (monday + 9 * ns_hour) "COMPLETED" "agree"]
    [mkRestDay 2 1; mkRestDay 4 7].

Definition in_ids {A} (id : A -> Z) (ids : list Z) (p : A -> bool) : list A -> list A :=
  List.filter (fun x => asked_for id ids x && p x).
Definition user_repo_of (db : slot_db) : UserRepository unit :=
  mkUserRepo unit (fun depts => st_ret (db_users db depts)) (fun _ => st_ret []) (fun _ _ => st_ret [])
    (fun _ => st_ret ∅).
Definition day_courses_of (db : slot_db) (ids : list Z) (day sec : Z) : ST unit (list Course) :=
  st_ret (in_ids co_UserID ids (fun c => (co_DayOfWeek c =? day) && (co_Section c =? sec)) (db_courses db)).
Definition leaves_of (db : slot_db) (ids : list Z) (a b : Z) : ST unit (list LeaveApproval) :=
  st_ret (in_ids la_UserID ids (fun l => timeOverlaps (la_StartAt l) (la_EndAt l) a b) (db_leaves db)).
Definition rests_of (db : slot_db) (ids : list Z) : ST unit (list UserRestDay) :=
  st_ret (in_ids rd_UserID ids (fun _ => true) (db_rests db)).

Definition slot_service : AttendanceService unit :=
  mkSlotService unit (day_courses_of week_db)
    (fun ids days => st_ret (in_ids co_UserID ids (fun c => bool_decide (co_DayOfWeek c ∈ days)) (db_courses week_db)))
    (fun _ => st_fail (ESentinel "ErrUserNotFound")) (leaves_of week_db) (fun id => leaves_of week_db [id])
    (user_repo_of week_db) (Some (rests_of week_db)) true None (Some (st_ret semester_2026)) two_periods.
Definition record_service : AttendanceRecordService unit :=
  mkAttendanceService unit (Some (user_repo_of week_db)) (day_courses_of week_db) (Some (leaves_of week_db))
    (mkRecordRepo unit (fun _ => st_ret tt) (fun _ _ => st_fail (ESentinel ErrRecordNotFound))
       (fun _ => st_fail (ESentinel ErrRecordNotFound)) (fun _ => st_ret []) (fun _ _ => st_ret []))
    None None (Some (rests_of week_db)) None (mkScheduleConfig two_periods 15 30) None (Some (st_ret semester_2026))
    (fun w => (monday, w)) None.

#[local] Instance slot_service_reads : SlotReads slot_service week_db.
Proof. split; try done; intros; by eexists. Qed.
#[local] Instance record_service_reads : RecordReads record_service week_db.
Proof. split; try done; intros; by eexists. Qed.

(** The first entry of the week: An and Di have to attend.  The summary counts
    Bo under courses, the status lists Bo as resting. *)
Lemma week_agrees_with_sections_witness :
  exists resp i st,
    GetWeekSlotsAttendanceSummary slot_service 9 1 monday [] tt = (Ok resp, tt) /\ i ∈ wk_Slots resp
    /\ GetSlotAttendanceStatus slot_service 9 monday 1 1 [] tt = (Ok st, tt)
    /\ List.map ci_Name (st_ShouldArrive st) = ["An"; "Di"]
    /\ (sm_HasCourseCount i, len (st_HasCourse st)) = (1, 0)
    /\ sm_ShouldArriveCount i = len (st_ShouldArrive st).
Proof.
  assert (E : exists resp i st, GetWeekSlotsAttendanceSummary slot_service 9 1 monday [] tt = (Ok resp, tt)
    /\ wk_Slots resp !! 0%nat = Some i /\ GetSlotAttendanceStatus slot_service 9 monday 1 1 [] tt = (Ok st, tt)
    /\ List.map ci_Name (st_ShouldArrive st) = ["An"; "Di"] /\ (sm_HasCourseCount i, len (st_HasCourse st)) = (1, 0)
    /\ (sm_DayOfWeek i, sm_Section i) = (1, 1))
    by (do 3 eexists; split_and!; vm_compute; reflexivity).
  destruct E as (resp & i & st & Hw & Hi & Hst & Hn & Hc & Hd). injection Hd as Hd Hs.
  apply list_elem_of_lookup_2 in Hi. exists resp, i, st.
  refine (conj Hw (conj Hi (conj Hst (conj Hn (conj Hc _))))).
  assert (Hdate : add_days monday (sm_DayOfWeek i - 1) = monday) by (rewrite Hd; vm_compute; reflexivity).
  refine (proj1 (proj2 (week_agrees_with_sections slot_service week_db 9 1 monday [] tt resp tt i st tt _ _ Hw Hi _ _ _))).
  - vm_compute. reflexivity.
  - vm_compute. reflexivity.
  - rewrite Hdate. reflexivity.
  - rewrite Hdate, Hs. intros a b E. vm_compute in E. injection E as <- <-. apply Z.leb_le. vm_compute. reflexivity.
  - rewrite Hdate, Hs. exact Hst.
Defined.

Lemma section_view_is_the_records_witness :
  exists st g, GetSlotAttendanceStatus slot_service 9 monday 1 1 [] tt = (Ok st, tt)
    /\ attendance_groups_of record_service monday 1 1 (monday + 8 * ns_hour) (monday + 100 * ns_min + 8 * ns_hour) [] tt = (Ok g, tt)
    /\ List.map ci_ID (st_OnRestDay st) = List.map us_ID (ag_rest g)
    /\ item_ids (st_ShouldArrive st) = user_ids (ag_should g) ∖ leave_ids (ag_leave g).
Proof.
  assert (E : exists st, GetSlotAttendanceStatus slot_service 9 monday 1 1 [] tt = (Ok st, tt))
    by (eexists; vm_compute; reflexivity).
  destruct E as (st & Hst).
  assert (Hs : CalculateSlotTime monday 1 (db_periods week_db)
               = Ok (monday + 8 * ns_hour, monday + 100 * ns_min + 8 * ns_hour)) by (vm_compute; reflexivity).
  pose proof (section_view_is_the_records slot_service record_service week_db 9 monday 1 1 [] tt st tt _ _ tt Hs Hst)
    as (g & Hg & H1 & _ & _ & H4).
  exists st, g. split; [exact Hst|]. split; [exact Hg|]. split; [exact H1|exact H4].
Defined.

(** The two views name different reasons for the same user. *)
Theorem views_name_different_reasons :
  exists resp i st, GetWeekSlotsAttendanceSummary slot_service 9 1 monday [] tt = (Ok resp, tt)
    /\ wk_Slots resp !! 0%nat = Some i /\ GetSlotAttendanceStatus slot_service 9 monday 1 1 [] tt = (Ok st, tt)
    /\ (sm_HasCourseCount i, sm_OnRestDayCount i) = (1, 0)
    /\ (List.map ci_Name (st_HasCourse st), List.map ci_Name (st_OnRestDay st)) = ([], ["Bo"]).
Proof. do 3 eexists. split_and!; vm_compute; reflexivity. Qed.

(** A week in which the semester begins, on the Wednesday: the summary asks on
    the Monday whether everybody has to attend, the status on the day.  Bo's
    course of the Wednesday excuses him in the status only. *)
Definition wednesday : Z := add_days monday 2.
Definition starts_midweek : Semester := mkSemester wednesday 20.
Definition midweek_courses : list Course := [mkCourse 2 3 1 "1,2"].
Definition midweek_service : AttendanceService unit :=
  mkSlotService unit
    (fun ids day sec => st_ret (in_ids co_UserID ids (fun c => (co_DayOfWeek c =? day) && (co_Section c =? sec)) midweek_courses))
    (fun ids days => st_ret (in_ids co_UserID ids (fun c => bool_decide (co_DayOfWeek c ∈ days)) midweek_courses))
    (fun _ => st_fail (ESentinel "ErrUserNotFound")) (fun _ _ _ => st_ret []) (fun _ _ _ => st_ret [])
    (user_repo_of week_db) (Some (fun _ => st_ret [])) true None (Some (st_ret starts_midweek)) two_periods.
Theorem straddling_week_disagrees :
  exists resp i st, GetWeekSlotsAttendanceSummary midweek_service 9 1 monday [] tt = (Ok resp, tt)
    /\ i ∈ wk_Slots resp /\ GetSlotAttendanceStatus midweek_service 9 wednesday 1 1 [] tt = (Ok st, tt)
    /\ (sm_Date i, sm_Section i) = (st_Date st, st_Section st)
    /\ (sm_ShouldArriveCount i, len (st_ShouldArrive st)) = (4, 3).
Proof.
  assert (E : exists resp i st, GetWeekSlotsAttendanceSummary midweek_service 9 1 monday [] tt = (Ok resp, tt)
    /\ wk_Slots resp !! 4%nat = Some i /\ GetSlotAttendanceStatus midweek_service 9 wednesday 1 1 [] tt = (Ok st, tt)
    /\ (sm_Date i, sm_Section i) = (st_Date st, st_Section st)
    /\ (sm_ShouldArriveCount i, len (st_ShouldArrive st)) = (4, 3)).
  { do 3 eexists. split_and!; vm_compute; reflexivity. }
  destruct E as (resp & i & st & H1 & H2 & H). exists resp, i, st. split; [done|]. split; [|done].
  by eapply list_elem_of_lookup_2.
Qed.
