(* ===== verification/AttendanceText.v ===== *)
(** * The text of a section's attendance

    internal/service/attendance_record_service.go, GetAttendanceText and what it
    calls: the text that is copied or pushed to a group, of the whole tenant or
    of some departments. *)
From Stdlib Require Import ZArith Lia Bool String.
From stdpp Require Import base list strings gmap.
From S2P Require Import Prelude GoStrings GoTime Contract Calendar Settings Attendance AttendanceSpec.
#[local] Open Scope Z_scope.
#[local] Open Scope go_scope.

Record AttendanceTextRequest := mkTextRequest {
  tq_Date : string; tq_Week : Z; tq_Section : Z; tq_DeptIDs : list Z }.
Record AttendanceTextResponse := mkText {
  tx_Title : string; tx_Statistics : string; tx_Content : list string; tx_FullText : string }.

(** ** Numbers and names *)

(** The loop of [intToString]; an int has nineteen digits at most. *)
Fixpoint int_digits (fuel : nat) (n : Z) (digits : list Z) : list Z :=
  match fuel with
  | O => digits
  | S fuel => if 0 <? n then int_digits fuel (n / 10) (48 + n mod 10 :: digits) else digits
  end.
(** The smallest int is its own negation: the code recurses on it without end,
    which is left out here. *)
Definition intToString (n : Z) : string :=
  if n =? 0 then "0"
  else if n <? 0 then "-" +:+ of_bytes (int_digits 20 (- n) [])
  else of_bytes (int_digits 20 n []).

(** [for i, name := range names]: the separator goes before every name but the
    first. *)
Definition joinNames (names : list string) : string :=
  match names with
  | [] => ""
  | name :: names => fold_left (fun result name => result +:+ "、" +:+ name) names name
  end.

Definition getWeekdayName (weekday : Z) : string :=
  if (1 <=? weekday) && (weekday <=? 7)
  then default "" (["周一"; "周二"; "周三"; "周四"; "周五"; "周六"; "周日"] !! Z.to_nat (weekday - 1))
  else "周?".

Definition notArrivedLabel (detail : AttendanceDetailResponse) : string :=
  if eqs (dr_ViewMode detail) "current" then "当前未到" else "未到".

(** ** One department's detail *)

Definition in_dept {A} (id : A -> Z) (deptSet : gset Z) : list A -> list A :=
  List.filter (fun u => bool_decide (id u ∈ deptSet)).
Definition filterDetailByDeptSet (result : AttendanceDetailResponse) (deptSet : gset Z) : AttendanceDetailResponse :=
  let u := dr_Users result in
  let onTime := in_dept ak_ID deptSet (li_OnTime u) in
  let late := in_dept ak_ID deptSet (li_Late u) in
  let leave := in_dept al_ID deptSet (li_Leave u) in
  let notArrived := in_dept ab_ID deptSet (li_NotArrived u) in
  let restDay := in_dept ab_ID deptSet (li_RestDay u) in
  let shouldAttend := in_dept ab_ID deptSet (li_ShouldAttend u) in
  with_users result
    (mkStatistics (len shouldAttend) (len onTime) (len late) (len leave) (len notArrived) (len restDay)
       (len (li_HasCourse u)))
    (mkLists shouldAttend onTime late leave notArrived restDay (li_HasCourse u)).

(** ** The text *)

Definition period_label (mode : string) (section : Z) (periods : list Period) : string :=
  if eqs mode ScheduleModeHoliday then
    if section =? 1 then "上午" else if section =? 2 then "下午" else if section =? 3 then "晚上"
    else "第" +:+ intToString section +:+ "次"
  else
    match period_at section periods with
    | Some p => pd_Name p
    | None => "第" +:+ intToString section +:+ "节"
    end.

Definition statistics_line (detail : AttendanceDetailResponse) : string :=
  let st := dr_Statistics detail in
  "⬇️应到" +:+ intToString (as_ShouldAttend st) +:+ "人，"
  +:+ "准时打卡" +:+ intToString (as_OnTime st) +:+ "人，"
  +:+ "请假" +:+ intToString (as_Leave st) +:+ "人"
  +:+ (if eqs (dr_ViewMode detail) "" then "，未到" +:+ intToString (as_NotArrived st) +:+ "人"
       else "，迟到" +:+ intToString (as_Late st) +:+ "人，"
            +:+ notArrivedLabel detail +:+ intToString (as_NotArrived st) +:+ "人")
  +:+ (if 0 <? as_RestDay st then "，休息" +:+ intToString (as_RestDay st) +:+ "人" else "").

(** A list of people, left out when it is empty. *)
Definition names_line (label : string) (names : list string) : list string :=
  match names with
  | [] => []
  | _ => [label +:+ "(" +:+ intToString (len names) +:+ "人)：" +:+ joinNames names]
  end.
Definition content_lines (detail : AttendanceDetailResponse) : list string :=
  let u := dr_Users detail in
  names_line "🌟准时到" (List.map ak_Name (li_OnTime u))
  ++ names_line "⏳请假" (List.map al_Name (li_Leave u))
  ++ names_line "😴休息日" (List.map ab_Name (li_RestDay u))
  ++ names_line "❗迟到" (List.map ak_Name (li_Late u))
  ++ names_line (if eqs (dr_ViewMode detail) "" then "❗️️迟到" else "⏳" +:+ notArrivedLabel detail)
       (List.map ab_Name (li_NotArrived u)).

Definition line_break : string := of_bytes [10].

Section text.
Context `{LOC : Location} `{MO : MapOrder} {W : Type} (s : AttendanceRecordService W).

Definition formatAttendanceText (detail : AttendanceDetailResponse) (mode : string) (periods : list Period)
  : AttendanceTextResponse :=
  (* the zero time is a Monday *)
  let weekdayNum := match parse_local_date (dr_Date detail) with Some d => WeekdayMon1Sun7 d | None => 1 end in
  let weekdayStr := getWeekdayName weekdayNum in
  let periodLabel := period_label mode (dr_Section detail) periods in
  let title :=
    if eqs mode ScheduleModeHoliday
    then "📅 " +:+ dr_Date detail +:+ " " +:+ weekdayStr +:+ " " +:+ periodLabel +:+ " 考勤"
    else "📅 " +:+ dr_Date detail +:+ " " +:+ weekdayStr +:+ " 第" +:+ intToString (dr_Week detail) +:+ "周 "
         +:+ periodLabel +:+ " 考勤" in
  let statistics := statistics_line detail in
  let content := content_lines detail in
  mkText title statistics content
    (fold_left (fun text line => text +:+ line_break +:+ line) content (title +:+ line_break +:+ statistics)).

Definition text_of_detail (detail : AttendanceDetailResponse) : ST W AttendanceTextResponse :=
  deref (srv_schedulePeriodSrv s) (fun p w =>
    let '(mode, w) := period_service_mode p w in
    let '(periods, w) := resolveActivePeriods s w in
    (Ok (formatAttendanceText detail mode periods), w)).

Definition GetAttendanceText (req : AttendanceTextRequest) : ST W AttendanceTextResponse :=
  detail <~ GetAttendanceDetail s (mkDetailRequest (tq_Date req) (tq_Week req) (tq_Section req) (tq_DeptIDs req)) ;;
  text_of_detail detail.

Definition FormatAttendanceTextFromDetail (result : AttendanceDetailResponse) (deptIDs : list Z)
  : ST W AttendanceTextResponse :=
  match deptIDs with
  | [] => text_of_detail result
  | _ =>
      deref (srv_userRepo s) (fun userRepo w =>
        match ur_ListByScope userRepo deptIDs [] w with
        | (Err e, w) => (Err (EWrap "获取部门用户失败" e), w)
        | (Ok deptUsers, w) => text_of_detail (filterDetailByDeptSet result (userIDBoolSet deptUsers)) w
        end)
  end.
End text.

(** ** Properties *)

(** The loop prints what [strconv.Itoa] prints, whatever the fuels. *)
Lemma int_digits_dec f g n acc :
  0 < n -> n < 10 ^ Z.of_nat f -> n < 10 ^ Z.of_nat g -> int_digits f n acc = dec_digits g n acc.
Proof.
  revert g n acc. induction f as [|f IH]; intros g n acc Hn Hf Hg; [cbn in Hf; lia|].
  destruct g as [|g]; [cbn in Hg; lia|].
  rewrite Nat2Z.inj_succ, Z.pow_succ_r in Hf, Hg by lia.
  cbn [int_digits dec_digits]. rewrite (proj2 (Z.ltb_lt 0 n) Hn).
  pose proof (Z.div_mod n 10 ltac:(lia)). pose proof (Z.mod_pos_bound n 10 ltac:(lia)).
  destruct (Z.ltb_spec n 10).
  - rewrite Z.div_small by lia. by destruct f.
  - apply IH; [apply Z.div_str_pos; lia|apply Z.div_lt_upper_bound; lia..].
Qed.

Lemma intToString_itoa n : min_int64 < n <= max_int64 -> intToString n = itoa n.
Proof.
  intros Hn. assert (Hb : max_int64 < 10 ^ Z.of_nat 20) by done. unfold min_int64, max_int64 in *.
  unfold intToString, itoa, itoa_bytes. destruct (Z.eqb_spec n 0) as [->|]; [done|].
  assert (H : forall m, 0 < m < two63 -> int_digits 20 m [] = dec_digits (dec_fuel m) m []).
  { intros m Hm. apply int_digits_dec; [lia..|]. apply dec_fuel_bound. lia. }
  destruct (Z.ltb_spec n 0); rewrite H by lia; done.
Qed.

Lemma in_dept_ids {A} (id : A -> Z) D l :
  (list_to_set (List.map id (in_dept id D l)) : gset Z) = list_to_set (List.map id l) ∩ D.
Proof.
  apply set_eq. intros k. rewrite elem_of_intersection, !elem_ids. unfold in_dept.
  setoid_rewrite list_elem_of_In. setoid_rewrite filter_In. setoid_rewrite bool_decide_eq_true.
  split; [intros (x & (Hx & HD) & <-)|intros ((x & Hx & <-) & HD)]; eauto.
Qed.

(** The numbers and lists of a section among the members of some departments. *)
Record told (D : gset Z) (whole detail : AttendanceDetailResponse) : Prop := {
  td_should : basic_ids (li_ShouldAttend (dr_Users detail)) = basic_ids (li_ShouldAttend (dr_Users whole)) ∩ D;
  td_split : basic_ids (li_ShouldAttend (dr_Users detail))
    = check_ids (li_OnTime (dr_Users detail)) ∪ check_ids (li_Late (dr_Users detail))
      ∪ leave_ids (li_Leave (dr_Users detail)) ∪ basic_ids (li_NotArrived (dr_Users detail));
  td_leave : leave_ids (li_Leave (dr_Users detail)) ##
             check_ids (li_OnTime (dr_Users detail)) ∪ check_ids (li_Late (dr_Users detail));
  td_absent : basic_ids (li_NotArrived (dr_Users detail)) ##
    check_ids (li_OnTime (dr_Users detail)) ∪ check_ids (li_Late (dr_Users detail))
    ∪ leave_ids (li_Leave (dr_Users detail));
  td_rest : basic_ids (li_RestDay (dr_Users detail)) = basic_ids (li_RestDay (dr_Users whole)) ∩ D;
  td_counts : dr_Statistics detail = mkStatistics (len (li_ShouldAttend (dr_Users detail)))
    (len (li_OnTime (dr_Users detail))) (len (li_Late (dr_Users detail))) (len (li_Leave (dr_Users detail)))
    (len (li_NotArrived (dr_Users detail))) (len (li_RestDay (dr_Users detail)))
    (len (li_HasCourse (dr_Users detail))) }.

Lemma filtered_detail D active whole : accounted active whole -> told D whole (filterDetailByDeptSet whole D).
Proof.
  intros [_ _ _ Hs Hl Ha _]. unfold basic_ids, check_ids, leave_ids, attendanceLeaveIDBoolSet in *.
  split; cbn [filterDetailByDeptSet with_users dr_Users dr_Statistics li_ShouldAttend li_OnTime li_Late li_Leave
    li_NotArrived li_RestDay li_HasCourse]; unfold basic_ids, check_ids, leave_ids, attendanceLeaveIDBoolSet;
    rewrite ?in_dept_ids; try reflexivity; rewrite ?Hs; set_solver.
Qed.

Section texts.
Context `{LOC : Location} `{MO : MapOrder} {W : Type} (s : AttendanceRecordService W).

(** A text is made of the whole detail, or of that of the members of the
    departments it is asked for. *)
Lemma text_made active whole deptIDs (w : W) text w' :
  accounted active whole -> FormatAttendanceTextFromDetail s whole deptIDs w = (Ok text, w') ->
  exists detail mode periods, text = formatAttendanceText detail mode periods
    /\ if decide (deptIDs = []) then detail = whole
       else exists users deptUsers w1, srv_userRepo s = Some users
              /\ ur_ListByScope users deptIDs [] w = (Ok deptUsers, w1) /\ told (user_ids deptUsers) whole detail.
Proof.
  assert (Ht : forall d w0 w0', text_of_detail s d w0 = (Ok text, w0') ->
    exists mode periods, text = formatAttendanceText d mode periods).
  { intros d w0 w0'. unfold text_of_detail, deref. destruct (srv_schedulePeriodSrv s) as [p|]; [|done].
    destruct (period_service_mode p w0) as [mode w2]. destruct (resolveActivePeriods s w2) as [periods w3].
    intros [= <- _]. by exists mode, periods. }
  intros Ha. unfold FormatAttendanceTextFromDetail, deref. destruct deptIDs as [|d deptIDs].
  - intros H. destruct (Ht _ _ _ H) as (mode & periods & ->). by exists whole, mode, periods.
  - destruct (srv_userRepo s) as [users|]; [|done].
    destruct (ur_ListByScope users (d :: deptIDs) [] w) as [[deptUsers|e] w1] eqn:EL; [|done]. intros H.
    destruct (Ht _ _ _ H) as (mode & periods & ->). eexists _, mode, periods. split; [done|].
    rewrite decide_False by done. exists users, deptUsers, w1. split_and!; [done..|]. by eapply filtered_detail.
Qed.
End texts.

(** ** A group that follows one department *)

#[local] Existing Instance shanghai.
#[local] Instance text_order : MapOrder := { range A m := map_to_list m; range_entries A m := reflexivity _ }.

(** A has checked in, B is on leave, C is late, D is missing; B and D are the
    members of department 12. *)
Definition whole_section : AttendanceDetailResponse :=
  mkDetail 5 "2026-03-02" 1 1 "" false 0 ("08:00", "09:40") (mkStatistics 4 1 1 1 1 0 0)
    (mkLists [mkBasic 1 "A" "" ""; mkBasic 2 "B" "" ""; mkBasic 3 "C" "" ""; mkBasic 4 "D" "" ""]
       [mkCheck 1 "A" "" "" 0] [mkCheck 3 "C" "" "" 0] [mkLeave 2 "B" "" "" "" ""] [mkBasic 4 "D" "" ""] [] []).
Definition department_repo : UserRepository unit :=
  mkUserRepo unit (fun _ => st_ret []) (fun _ => st_ret [])
    (fun depts _ => st_ret (if bool_decide (12 ∈ depts) then [mkUser 2 7 "d2" "B" "" ""; mkUser 4 7 "d4" "D" "" ""]
                            else []))
    (fun _ => st_ret ∅).
Definition school_periods : SchedulePeriodService unit :=
  mkPeriodService unit {| sdb_First := st_ret (mkSetting "school" "winter" true true true true true);
                          sdb_Update _ := st_ret tt; sdb_Periods _ := st_ret [] |}
    (Some [mkPeriod "one" "08:00" "09:40"]).
Definition text_service : AttendanceRecordService unit :=
  mkAttendanceService unit (Some department_repo) (fun _ _ _ => st_ret []) None
    (mkRecordRepo unit (fun _ => st_ret tt) (fun _ _ => st_fail (ESentinel ErrRecordNotFound))
       (fun _ => st_fail (ESentinel ErrRecordNotFound)) (fun _ => st_ret []) (fun _ _ => st_ret []))
    None None None None (mkScheduleConfig [] 15 30) (Some school_periods) None (fun w => (0, w)) None.

Lemma whole_section_accounted : accounted (list_to_set [1; 2; 3; 4]) whole_section.
Proof. split; first [reflexivity | unfold basic_ids, check_ids, leave_ids, attendanceLeaveIDBoolSet; cbn; set_solver]. Qed.

(** What the group of department 12 reads. *)
Example department_text :
  (FormatAttendanceTextFromDetail text_service whole_section [12] tt).1
  = Ok (mkText "📅 2026-03-02 周一 第1周 one 考勤" "⬇️应到2人，准时打卡0人，请假1人，未到1人"
          ["⏳请假(1人)：B"; "❗️️迟到(1人)：D"]
          ("📅 2026-03-02 周一 第1周 one 考勤" +:+ line_break +:+ "⬇️应到2人，准时打卡0人，请假1人，未到1人"
           +:+ line_break +:+ "⏳请假(1人)：B" +:+ line_break +:+ "❗️️迟到(1人)：D")).
Proof. vm_compute. reflexivity. Qed.
