(* ===== verification/Text.v ===== *)
(** * Text of a conversation

    What internal/agent uses of package strings beyond GoStrings.v, and the
    text helpers the agent's stages share: [normalizeQuery] and the keyword
    signals of query_router.go, Chinese numerals and the normal form of entity
    names of entity_resolver.go, [truncateRunes] of intent_compiler.go. *)
From Stdlib Require Import ZArith Lia Bool String.
From stdpp Require Import base list strings.
From S2P Require Import Prelude GoStrings GoTime.
#[local] Open Scope go_scope.

(** ** Package strings *)

(** [strings.Replacer] with empty replacements: at each position the first of
    [olds] that is a prefix is dropped, else one byte is kept.  [skip] bytes are
    still to be dropped. *)
Fixpoint remove_loop (olds : list (list Z)) (skip : nat) (l : list Z) : list Z :=
  match l with
  | [] => []
  | b :: l' =>
      match skip with
      | S k => remove_loop olds k l'
      | O => match List.find (fun o => prefix_of o l) olds with
             | Some o => remove_loop olds (length o - 1) l'
             | None => b :: remove_loop olds 0 l'
             end
      end
  end.
Definition remove_all (olds : list string) (s : string) : string :=
  of_bytes (remove_loop (bytes <$> olds) 0 (bytes s)).

(** [strings.Split] on a non-empty separator; [cur] is the piece so far. *)
Fixpoint split_loop (sep : list Z) (skip : nat) (cur l : list Z) : list (list Z) :=
  match l with
  | [] => [cur]
  | b :: l' =>
      match skip with
      | S k => split_loop sep k cur l'
      | O => if prefix_of sep l then cur :: split_loop sep (length sep - 1) [] l'
             else split_loop sep 0 (cur ++ [b]) l'
      end
  end.
Definition split_str (sep s : string) : list string := of_bytes <$> split_loop (bytes sep) 0 [] (bytes s).

(** [strings.Index] and [strings.LastIndex]: a byte position. *)
Fixpoint index_bytes (sub l : list Z) : option nat :=
  if prefix_of sub l then Some O
  else match l with [] => None | _ :: l' => S <$> index_bytes sub l' end.
Definition index (s sub : string) : option nat := index_bytes (bytes sub) (bytes s).
Fixpoint last_index_bytes (sub l : list Z) : option nat :=
  match l with
  | [] => if prefix_of sub [] then Some O else None
  | _ :: l' => match last_index_bytes sub l' with
               | Some i => Some (S i)
               | None => if prefix_of sub l then Some O else None
               end
  end.
Definition last_index (s sub : string) : option nat := last_index_bytes (bytes sub) (bytes s).

(** [s[:n]] and [s[n:]] for a position in range *)
Definition slice_to (s : string) (n : nat) : string := of_bytes (take n (bytes s)).
Definition slice_from (s : string) (n : nat) : string := of_bytes (drop n (bytes s)).

Definition trim_prefix (s p : string) : string :=
  if has_prefix s p then slice_from s (String.length p) else s.
Definition trim_suffix (s p : string) : string :=
  if has_suffix s p then slice_to s (String.length s - String.length p) else s.

(** [strings.Trim(s, cutset)] *)
Definition trim_cutset (s cutset : string) : string :=
  let cut (c : Z * list Z) := existsb (Z.eqb c.1) (rune_list cutset) in
  of_bytes (concat (snd <$> drop_while_end cut (drop_while cut (runes (bytes s))))).

(** The lower case of the runes beyond ASCII that have one, by ranges: first,
    last, step, difference (the Unicode character database). *)
Definition lower_ranges : list (Z * Z * Z * Z) := [
   (192, 214, 1, 32); (216, 222, 1, 32); (256, 302, 2, 1); (304, 304, 1, (-199)); (306, 310, 2,
   1); (313, 327, 2, 1); (330, 374, 2, 1); (376, 376, 1, (-121)); (377, 381, 2, 1); (385, 385,
   1, 210); (386, 388, 2, 1); (390, 390, 1, 206); (391, 391, 1, 1); (393, 394, 1, 205); (395,
   395, 1, 1); (398, 398, 1, 79); (399, 399, 1, 202); (400, 400, 1, 203); (401, 401, 1, 1);
   (403, 403, 1, 205); (404, 404, 1, 207); (406, 406, 1, 211); (407, 407, 1, 209); (408, 408, 1,
   1); (412, 412, 1, 211); (413, 413, 1, 213); (415, 415, 1, 214); (416, 420, 2, 1); (422, 422,
   1, 218); (423, 423, 1, 1); (425, 425, 1, 218); (428, 428, 1, 1); (430, 430, 1, 218); (431,
   431, 1, 1); (433, 434, 1, 217); (435, 437, 2, 1); (439, 439, 1, 219); (440, 440, 1, 1); (444,
   444, 1, 1); (452, 452, 1, 2); (453, 453, 1, 1); (455, 455, 1, 2); (456, 456, 1, 1); (458,
   458, 1, 2); (459, 475, 2, 1); (478, 494, 2, 1); (497, 497, 1, 2); (498, 500, 2, 1); (502,
   502, 1, (-97)); (503, 503, 1, (-56)); (504, 542, 2, 1); (544, 544, 1, (-130)); (546, 562, 2,
   1); (570, 570, 1, 10795); (571, 571, 1, 1); (573, 573, 1, (-163)); (574, 574, 1, 10792);
   (577, 577, 1, 1); (579, 579, 1, (-195)); (580, 580, 1, 69); (581, 581, 1, 71); (582, 590, 2,
   1); (880, 882, 2, 1); (886, 886, 1, 1); (895, 895, 1, 116); (902, 902, 1, 38); (904, 906, 1,
   37); (908, 908, 1, 64); (910, 911, 1, 63); (913, 929, 1, 32); (931, 939, 1, 32); (975, 975,
   1, 8); (984, 1006, 2, 1); (1012, 1012, 1, (-60)); (1015, 1015, 1, 1); (1017, 1017, 1, (-7));
   (1018, 1018, 1, 1); (1021, 1023, 1, (-130)); (1024, 1039, 1, 80); (1040, 1071, 1, 32); (1120,
   1152, 2, 1); (1162, 1214, 2, 1); (1216, 1216, 1, 15); (1217, 1229, 2, 1); (1232, 1326, 2, 1);
   (1329, 1366, 1, 48); (4256, 4293, 1, 7264); (4295, 4295, 1, 7264); (4301, 4301, 1, 7264);
   (5024, 5103, 1, 38864); (5104, 5109, 1, 8); (7312, 7354, 1, (-3008)); (7357, 7359, 1,
   (-3008)); (7680, 7828, 2, 1); (7838, 7838, 1, (-7615)); (7840, 7934, 2, 1); (7944, 7951, 1,
   (-8)); (7960, 7965, 1, (-8)); (7976, 7983, 1, (-8)); (7992, 7999, 1, (-8)); (8008, 8013, 1,
   (-8)); (8025, 8031, 2, (-8)); (8040, 8047, 1, (-8)); (8072, 8079, 1, (-8)); (8088, 8095, 1,
   (-8)); (8104, 8111, 1, (-8)); (8120, 8121, 1, (-8)); (8122, 8123, 1, (-74)); (8124, 8124, 1,
   (-9)); (8136, 8139, 1, (-86)); (8140, 8140, 1, (-9)); (8152, 8153, 1, (-8)); (8154, 8155, 1,
   (-100)); (8168, 8169, 1, (-8)); (8170, 8171, 1, (-112)); (8172, 8172, 1, (-7)); (8184, 8185,
   1, (-128)); (8186, 8187, 1, (-126)); (8188, 8188, 1, (-9)); (8486, 8486, 1, (-7517)); (8490,
   8490, 1, (-8383)); (8491, 8491, 1, (-8262)); (8498, 8498, 1, 28); (8544, 8559, 1, 16); (8579,
   8579, 1, 1); (9398, 9423, 1, 26); (11264, 11311, 1, 48); (11360, 11360, 1, 1); (11362, 11362,
   1, (-10743)); (11363, 11363, 1, (-3814)); (11364, 11364, 1, (-10727)); (11367, 11371, 2, 1);
   (11373, 11373, 1, (-10780)); (11374, 11374, 1, (-10749)); (11375, 11375, 1, (-10783));
   (11376, 11376, 1, (-10782)); (11378, 11378, 1, 1); (11381, 11381, 1, 1); (11390, 11391, 1,
   (-10815)); (11392, 11490, 2, 1); (11499, 11501, 2, 1); (11506, 11506, 1, 1); (42560, 42604,
   2, 1); (42624, 42650, 2, 1); (42786, 42798, 2, 1); (42802, 42862, 2, 1); (42873, 42875, 2,
   1); (42877, 42877, 1, (-35332)); (42878, 42886, 2, 1); (42891, 42891, 1, 1); (42893, 42893,
   1, (-42280)); (42896, 42898, 2, 1); (42902, 42920, 2, 1); (42922, 42922, 1, (-42308));
   (42923, 42923, 1, (-42319)); (42924, 42924, 1, (-42315)); (42925, 42925, 1, (-42305));
   (42926, 42926, 1, (-42308)); (42928, 42928, 1, (-42258)); (42929, 42929, 1, (-42282));
   (42930, 42930, 1, (-42261)); (42931, 42931, 1, 928); (42932, 42946, 2, 1); (42948, 42948, 1,
   (-48)); (42949, 42949, 1, (-42307)); (42950, 42950, 1, (-35384)); (42951, 42953, 2, 1);
   (42960, 42960, 1, 1); (42966, 42968, 2, 1); (42997, 42997, 1, 1); (65313, 65338, 1, 32);
   (66560, 66599, 1, 40); (66736, 66771, 1, 40); (66928, 66938, 1, 39); (66940, 66954, 1, 39);
   (66956, 66962, 1, 39); (66964, 66965, 1, 39); (68736, 68786, 1, 64); (71840, 71871, 1, 32);
   (93760, 93791, 1, 32); (125184, 125217, 1, 34)].
Definition unicode_lower (r : Z) : Z :=
  if r <? 128 then (if in_range 65 90 r then r + 32 else r)
  else match List.find (fun e => let '(lo, hi, st, _) := e in in_range lo hi r && ((r - lo) mod st =? 0))
               lower_ranges with
       | Some (_, _, _, d) => r + d
       | None => r
       end.

(** [strings.ToLower]; invalid bytes become U+FFFD unless the text is ASCII. *)
Definition ToLower (s : string) : string :=
  if forallb (fun b => b <? 128) (bytes s) then of_bytes (unicode_lower <$> bytes s)
  else of_runes (unicode_lower <$> rune_list s).

(** [strings.Contains] for one of several keywords *)
Definition containsAny (question : string) (keywords : list string) : bool := existsb (contains question) keywords.

(** [truncateRunes] *)
Definition truncateRunes (value : string) (limit : Z) : string :=
  let runes := rune_list value in
  if len runes <=? limit then value else of_runes (take (Z.to_nat limit) runes).

(** ** query_router.go *)

Definition query_noise : list string :=
  [" "; of_bytes [9]; of_bytes [10]; of_bytes [13]; "，"; "。"; "？"; "！"; ","; "."; "?"; "!"].
Definition normalizeQuery (question : string) : string := ToLower (remove_all query_noise (trim_space question)).

Definition hasRuleSignal (question : string) : bool :=
  containsAny question
    ["规则"; "判定"; "说明"; "流程"; "口径"; "依据"; "配置"; "手册"; "文档"; "怎么判"; "如何判"; "为什么"; "区别";
     "影响"; "优先"; "优先级"; "生效"; "顺延"; "实时视图"; "最终结算"].
Definition hasHelpIntent (question : string) : bool :=
  containsAny question ["你有什么功能"; "有什么功能"; "你能做什么"; "能做什么"; "怎么用你"; "如何使用你"; "你会什么"].
Definition hasLiveSignal (question : string) : bool :=
  if containsAny question ["按谁优先"; "谁优先"; "什么优先"] then false
  else if containsAny question
            ["今天"; "昨天"; "昨日"; "明天"; "本周"; "这周"; "下周"; "周一"; "周二"; "周三"; "周四"; "周五"; "周六";
             "周日"; "星期一"; "星期二"; "星期三"; "星期四"; "星期五"; "星期六"; "星期日"]
       || containsAny question
            ["哪些"; "多少"; "名单"; "有没有"; "帮我看"; "查一下"; "查"; "看一下"; "看看"; "统计"; "排行"]
  then true
  else if contains question "谁"
       && containsAny question
            ["今天"; "昨天"; "本周"; "这周"; "下周"; "第"; "节"; "未到"; "有课"; "没课"; "无课"; "请假"; "缺勤";
             "出勤"; "名单"]
  then true
  else contains question "第" && contains question "节".

Definition hasExplanatoryIntent (question : string) : bool :=
  containsAny question
    ["为什么"; "原因"; "失败"; "报错"; "异常"; "说明"; "流程"; "如何"; "怎么"; "是什么"; "含义"; "作用"; "介绍"].
Definition hasSubscriptionActionSignal (question : string) : bool :=
  (containsAny question ["订阅状态"; "有没有订阅"; "是否订阅"] && containsAny question ["考勤"; "推送"])
  || (containsAny question ["有开"; "开了没"; "开没开"] && containsAny question ["考勤推送"; "考勤订阅"])
  || (containsAny question ["订阅"; "开启"; "开通"; "打开"; "取消"; "关闭"; "查询"]
      && containsAny question ["考勤"; "推送"])
  || (containsAny question ["帮我"; "给我"; "请"; "麻烦"]
      && containsAny question ["考勤订阅"; "考勤推送"; "订阅状态"; "指定部门考勤"]).
Definition hasManualSignActionSignal (question : string) : bool :=
  (containsAny question ["帮我"; "给我"; "请"; "麻烦"] && containsAny question ["补签"; "代签"])
  || ((has_prefix question "补签" || has_prefix question "代签" || has_prefix question "给")
      && containsAny question ["补签"; "代签"]).
Definition hasActionIntent (question : string) : bool :=
  if hasExplanatoryIntent question then false
  else hasSubscriptionActionSignal question || hasManualSignActionSignal question.

Definition isExplicitUnsubscribeAttendancePushText (question : string) : bool :=
  if hasExplanatoryIntent question then false
  else if negb (containsAny question ["取消"; "关闭"]) then false
  else if containsAny question ["当前任务"; "这个任务"] then false
  else if containsAny question ["考勤订阅"; "考勤推送"] then true
  else containsAny question ["订阅"; "推送"] && containsAny question ["考勤"; "本群"; "当前群"; "此群"].

Definition hasSubscriptionScopeIntent (question : string) : bool :=
  containsAny question ["指定部门"; "部分部门"; "某些部门"; "几个部门"]
  && containsAny question ["订阅"; "推送"; "考勤"].
(** the straight double quote, code 34 *)
Definition containsQuotedOrEnumeratedDeptHints (question : string) : bool :=
  containsAny question ["、"; ","; "，"; "和"; "以及"; of_bytes [34]; "“"; "教务处"; "学工处"].
Definition hasClarifyIntent (question : string) : bool :=
  (containsAny question ["订阅状态"; "有没有订阅"; "是否订阅"; "有开"; "开了没"; "开没开"]
   && containsAny question ["考勤"; "推送"])
  || (hasSubscriptionScopeIntent question && negb (containsQuotedOrEnumeratedDeptHints question))
  || (hasManualSignActionSignal question
      && negb (containsAny question ["今天"; "昨天"; "明天"; "第"; "节"; "-"])).
