(* ===== verification/Entity.v ===== *)
(** * Entity and candidate resolution

    internal/agent/entity_resolver.go, candidate_resolver.go and the candidate
    helpers of protocol_live_subscription_workflow.go: from the raw words of a
    slot to the date, week, section, user or department they name within a
    tenant, or to the candidates to choose from; and from the user's choice to
    one of the candidates offered. *)
From Stdlib Require Import ZArith QArith Lia Bool String.
From stdpp Require Import base list strings gmap.
From S2P Require Import Prelude GoStrings GoTime Contract Codec Catalog Request Policy Executor Outcome Calendar Text.
#[local] Open Scope go_scope.

(** ** Chinese numerals *)

Definition chinese_digit (r : Z) : option Z :=
  if r =? 19968 then Some 1 else if r =? 20108 then Some 2 else if r =? 19977 then Some 3
  else if r =? 22235 then Some 4 else if r =? 20116 then Some 5 else if r =? 20845 then Some 6
  else if r =? 19971 then Some 7 else if r =? 20843 then Some 8 else if r =? 20061 then Some 9 else None.

(** [digits[[]rune(s)[0]]], [empty] when the text is empty *)
Definition numeral_part (empty : Z) (s : string) : option Z :=
  match rune_list s with [] => Some empty | r :: _ => chinese_digit r end.

Definition parseChinesePositiveInt (value : string) : option Z :=
  if eqs value "十" then Some 10
  else match rune_list value with
  | [r] => chinese_digit r
  | _ => match split_str "十" value with
         | [p0; p1] => tens ← numeral_part 1 p0; ones ← numeral_part 0 p1; Some (tens * 10 + ones)
         | _ => None
         end
  end.

Definition isChineseNumberRune (r : Z) : bool :=
  existsb (Z.eqb r) [19968; 20108; 19977; 22235; 20116; 20845; 19971; 20843; 20061; 21313].

(** A maximal run of numeral runes, as it is written back. *)
Definition number_run (token : list Z) : list Z :=
  match token with
  | [] => []
  | _ => match parseChinesePositiveInt (of_runes token) with
         | Some n => bytes (itoa n)
         | None => bytes (of_runes token)
         end
  end.
(** [token] is the run being read. *)
Fixpoint number_runs_loop (token l : list Z) : list Z :=
  match l with
  | [] => number_run token
  | r :: l => if isChineseNumberRune r then number_runs_loop (token ++ [r]) l
              else number_run token ++ encode_rune r ++ number_runs_loop [] l
  end.
Definition normalizeChineseNumberRuns (value : string) : string := of_bytes (number_runs_loop [] (rune_list value)).

(** ** Names *)

Definition name_noise : list string := [" "; of_bytes [9]; of_bytes [10]; "-"; "_"].
Definition normalizeEntityName (value : string) : string :=
  normalizeChineseNumberRuns (remove_all name_noise (trim_space value)).

Definition stringSliceContains (values : list string) (target : string) : bool := existsb (fun v => eqs v target) values.

(** [append] of a variant that is new and not empty *)
Definition add_variant (variants : list string) (variant : string) : list string :=
  if negb (eqs variant "") && negb (stringSliceContains variants variant) then variants ++ [variant] else variants.

Definition entityNameVariants (value : string) : list string :=
  let base := normalizeEntityName value in
  if eqs base "" then []
  else fold_left (fun variants prefix =>
         if has_prefix base prefix && (str_len prefix <? str_len base)
         then add_variant variants (trim_prefix base prefix) else variants)
       ["就选"; "选择"; "选"; "就"; "要"] [base].

Definition departmentNameVariants (value : string) : list string :=
  let variants := entityNameVariants value in
  fold_left (fun acc variant =>
    let trimmed := trim_suffix variant "部门" in
    if negb (eqs trimmed variant) then add_variant acc trimmed else acc) variants variants.

Definition containsEntityVariant (normalizedName raw : string) : bool :=
  existsb (fun variant => negb (eqs variant "") && contains normalizedName variant) (entityNameVariants raw).
Definition containsDepartmentVariant (normalizedName raw : string) : bool :=
  existsb (fun variant => negb (eqs variant "") && contains normalizedName variant) (departmentNameVariants raw).

Definition looksLikeEntityInput (raw : string) : bool :=
  negb (blank raw) && negb (containsAny raw ["功能"; "吗"; "查询"; "执行"; "可以"; "能否"; "能不能"]).

(** ** Dates, weeks and sections *)

Record UserInfo := mkUserInfo { ui_ID : Z; ui_Name : string; ui_DingUserID : string; ui_Role : Z; ui_TenantID : Z }.
Record PeriodInfo := mkPeriodInfo { pf_Name : string; pf_Start : string; pf_End : string }.

Section dates.
Context `{Location}.

(** [now] is what the clock answers. *)
Definition resolveDateWithClock (raw : string) (now : Z) : option string :=
  let v := trim_space raw in
  if eqs v "" then None
  else if eqs v "今天" then Some (format_date now)
  else if eqs v "昨天" then Some (format_date (add_days now (-1)))
  else if eqs v "明天" then Some (format_date (add_days now 1))
  else match parse_date v with Some _ => Some v | None => None end.

Definition clockTimeOnDate (base : Z) (value : string) : option Z :=
  '(h, mi) ← parse_hm (trim_space value); Some (at_clock base h mi).

(** [idx] is the index of the first period of [periods]. *)
Fixpoint currentSection_from (idx : Z) (periods : list PeriodInfo) (now : Z) : option Z :=
  match periods with
  | [] => None
  | period :: periods =>
      match clockTimeOnDate now (pf_Start period), clockTimeOnDate now (pf_End period) with
      | Some start, Some stop =>
          if negb (before now start) && negb (after now stop) then Some (idx + 1)
          else currentSection_from (idx + 1) periods now
      | _, _ => currentSection_from (idx + 1) periods now
      end
  end.
Definition currentSection (periods : list PeriodInfo) (now : Z) : option Z := currentSection_from 0 periods now.
End dates.

(** A positive decimal, as [strconv.Atoi] reads it *)
Definition positive_atoi (s : string) : option Z :=
  match atoi s with (n, None) => if 0 <? n then Some n else None | _ => None end.

Definition parseWeekNumber (raw : string) : option Z :=
  positive_atoi (trim_suffix (trim_prefix (trim_space raw) "第") "周").
Definition parseSectionNumber (raw : string) : option Z :=
  let v := trim_suffix (trim_prefix (trim_space raw) "第") "节" in
  match positive_atoi v with Some n => Some n | None => parseChinesePositiveInt v end.

(** ** Results *)

Definition ResolveInvalidShape : string := "invalid_shape".

Record EntityCandidate := mkEntityCandidate {
  ec_ID : string; ec_Label : string; ec_Value : value; ec_TenantID : Z; ec_Source : TrustedParamSource }.

(** A [Param] that is not filled in is [None]. *)
Record ResolveResult := mkResolve {
  rz_Field : string;
  rz_Status : string;
  rz_Value : value;
  rz_Values : gmap string value;
  rz_Param : option TrustedParam;
  rz_Candidates : list EntityCandidate;
  rz_Reason : string
}.
Definition no_resolve : ResolveResult := mkResolve "" "" VNil ∅ None [] "".
Definition unresolved (field status reason : string) : ResolveResult := mkResolve field status VNil ∅ None [] reason.
Definition resolved_to (field : string) (v : value) : ResolveResult := mkResolve field ResolveResolved v ∅ None [] "".
Definition with_param (p : TrustedParam) (r : ResolveResult) : ResolveResult :=
  mkResolve (rz_Field r) (rz_Status r) (rz_Value r) (rz_Values r) (Some p) (rz_Candidates r) (rz_Reason r).

Record EntityResolveContext := mkResolveContext {
  rx_TenantID : Z; rx_Field : string; rx_Raw : string; rx_Source : string }.
Definition resolve_ctx (tenantID : Z) : EntityResolveContext := mkResolveContext tenantID "" "" "".
Definition RawSlot (field raw : string) (ctx : EntityResolveContext) : EntityResolveContext :=
  mkResolveContext (rx_TenantID ctx) field (trim_space raw) TrustedParamSourceRawSlot.
Definition Default_slot (field : string) (ctx : EntityResolveContext) : EntityResolveContext :=
  mkResolveContext (rx_TenantID ctx) field "" TrustedParamSourceDefault.
Definition Runtime_slot (field v : string) (ctx : EntityResolveContext) : EntityResolveContext :=
  mkResolveContext (rx_TenantID ctx) field (trim_space v) TrustedParamSourceRuntime.
Definition Candidate_slot (field v : string) (ctx : EntityResolveContext) : EntityResolveContext :=
  mkResolveContext (rx_TenantID ctx) field (trim_space v) TrustedParamSourceCandidate.

Definition rawForTrustedSource (source raw : string) : string :=
  if eqs source TrustedParamSourceRawSlot || eqs source TrustedParamSourceCandidate then raw else "".
Definition trustedParamFromContext (ctx : EntityResolveContext) (field : string) (v : value) (resolver : string)
  : TrustedParam :=
  let source := if eqs (rx_Source ctx) "" then TrustedParamSourceRawSlot else rx_Source ctx in
  trustedParam field v (rx_TenantID ctx) (mkSource source (rawForTrustedSource source (rx_Raw ctx)) resolver).

(** [if result.Status == ResolveResolved { result.Param = ... }] *)
Definition fill_param (ctx : EntityResolveContext) (field resolver : string) (r : ResolveResult) : ResolveResult :=
  if eqs (rz_Status r) ResolveResolved
  then with_param (trustedParamFromContext ctx field (rz_Value r) resolver) r else r.

Section resolve.
Context `{Location}.

Definition resolveDateSlot (raw defaultValue : string) (now : Z) : ResolveResult :=
  let v := trim_space raw in
  if eqs v "" then
    if eqs defaultValue SlotDefaultToday then resolved_to "date" (VString (format_date now))
    else unresolved "date" ResolveNotFound "missing_date"
  else match resolveDateWithClock v now with
       | None => unresolved "date" ResolveInvalidShape "invalid_date"
       | Some d => resolved_to "date" (VString d)
       end.
Definition resolveDateParam (ctx : EntityResolveContext) (defaultValue : string) (now : Z) : ResolveResult :=
  fill_param ctx "date" "date_slot" (resolveDateSlot (rx_Raw ctx) defaultValue now).

Definition resolveSectionSlot (raw : string) (periods : list PeriodInfo) (now : Z) : ResolveResult :=
  let v := trim_space raw in
  if eqs v "" then unresolved "section" ResolveNotFound "missing_section"
  else if eqs v "本节" then
    match currentSection periods now with
    | None => unresolved "section" ResolveNotFound "current_section_unavailable"
    | Some n => resolved_to "section" (VInt n)
    end
  else match parseSectionNumber v with
       | None => unresolved "section" ResolveInvalidShape "invalid_section"
       | Some n => resolved_to "section" (VInt n)
       end.
Definition resolveSectionParam (ctx : EntityResolveContext) (periods : list PeriodInfo) (now : Z) : ResolveResult :=
  fill_param ctx "section" "section_slot" (resolveSectionSlot (rx_Raw ctx) periods now).
End resolve.

Section weeks.
Context {W : Type}.

(** [semester.GetCurrentWeek]: the week and the number of weeks, or an error *)
Definition weekProvider : Type := ST W (Z * Z).

Definition resolveWeekSlot (raw defaultValue : string) (semester : option weekProvider) (w : W) : ResolveResult * W :=
  let v := trim_space raw in
  if existsb (eqs v) [""; "本周"; "这周"; "下周"] then
    if negb (eqs defaultValue SlotDefaultCurrentWeek) && eqs v "" then
      (unresolved "week" ResolveNotFound "missing_week", w)
    else match semester with
    | None => (unresolved "week" ResolveNotFound "missing_semester_provider", w)
    | Some GetCurrentWeek =>
        match GetCurrentWeek w with
        | (Err _, w) => (unresolved "week" ResolveNotFound "current_week_unavailable", w)
        | (Ok (week, totalWeeks), w) =>
            if week <=? 0 then (unresolved "week" ResolveNotFound "current_week_unavailable", w)
            else if eqs v "下周" then
              let week := wrap_int64 (week + 1) in
              if (0 <? totalWeeks) && (totalWeeks <? week)
              then (unresolved "week" ResolveNotFound "next_week_unavailable", w)
              else (resolved_to "week" (VInt week), w)
            else (resolved_to "week" (VInt week), w)
        end
    end
  else match parseWeekNumber v with
       | None => (unresolved "week" ResolveInvalidShape "invalid_week", w)
       | Some n => (resolved_to "week" (VInt n), w)
       end.
Definition resolveWeekParam (input : EntityResolveContext) (defaultValue : string) (semester : option weekProvider)
  (w : W) : ResolveResult * W :=
  let '(result, w) := resolveWeekSlot (rx_Raw input) defaultValue semester w in
  (fill_param input "week" "week_slot" result, w).
End weeks.

Definition resolveConversationParam (ctx : EntityResolveContext) : ResolveResult :=
  let v := trim_space (rx_Raw ctx) in
  if eqs v "" then unresolved (rx_Field ctx) ResolveNotFound "conversation_not_found"
  else with_param (trustedParamFromContext ctx (rx_Field ctx) (VString v) "conversation_runtime")
         (resolved_to (rx_Field ctx) (VString v)).

(** ** Users and departments *)

Definition filterUsersByTenant (users : list UserInfo) (tenantID : Z) : list UserInfo :=
  if tenantID =? 0 then users else List.filter (fun u => ui_TenantID u =? tenantID) users.
Definition filterDepartmentsByTenant (departments : list DeptItem) (tenantID : Z) : list DeptItem :=
  if tenantID =? 0 then departments else List.filter (fun d => dept_TenantID d =? tenantID) departments.

Definition exactUserMatches (raw : string) (users : list UserInfo) : list UserInfo :=
  List.filter (fun u => eqs (trim_space (ui_Name u)) raw) users.
Definition exactDepartmentMatches (raw : string) (departments : list DeptItem) : list DeptItem :=
  List.filter (fun d => eqs (trim_space (dept_Name d)) raw) departments.

Definition normalizedDepartmentMatchesForVariants (variants : list string) (departments : list DeptItem)
  : list DeptItem :=
  List.filter (fun d => let name := normalizeEntityName (dept_Name d) in existsb (eqs name) variants) departments.
(** The variants without the word for department, where it was there. *)
Definition department_aliases (variants : list string) : list string :=
  fold_left (fun aliases variant =>
    let alias := trim_suffix variant "部门" in
    if negb (eqs alias variant) then add_variant aliases alias else aliases) variants [].
Definition normalizedDepartmentMatches (raw : string) (departments : list DeptItem) : list DeptItem :=
  let variants := entityNameVariants raw in
  match normalizedDepartmentMatchesForVariants variants departments with
  | [] => normalizedDepartmentMatchesForVariants (department_aliases variants) departments
  | matches => matches
  end.
Definition departmentCandidates (raw : string) (departments : list DeptItem) : list DeptItem :=
  List.filter (fun d => containsDepartmentVariant (normalizeEntityName (dept_Name d)) raw) departments.

(** [exactDepartmentMatch], [normalizedDepartmentMatch]: the match when it is
    the only one *)
Definition only {A} (l : list A) : option A := match l with [a] => Some a | _ => None end.
Definition exactDepartmentMatch (raw : string) (departments : list DeptItem) : option DeptItem :=
  only (exactDepartmentMatches raw departments).
Definition normalizedDepartmentMatch (raw : string) (departments : list DeptItem) : option DeptItem :=
  only (normalizedDepartmentMatches raw departments).

(** The matches of the first of three criteria that has any. *)
Definition first_matches {A} (l1 l2 l3 : list A) : list A :=
  match l1 with [] => match l2 with [] => l3 | _ => l2 end | _ => l1 end.

Record entityResolution (A : Type) := mkResolution {
  er_Status : string; er_Match : option A; er_Candidates : list string }.
Arguments mkResolution {A} _ _ _.
Arguments er_Status {A} _.
Arguments er_Match {A} _.
Arguments er_Candidates {A} _.

Definition resolution_of {A} (name : A -> string) (matches : list A) : entityResolution A :=
  match matches with
  | [] => mkResolution ResolveNotFound None []
  | [a] => mkResolution ResolveResolved (Some a) []
  | _ => mkResolution ResolveAmbiguous None (name <$> matches)
  end.
Definition userResolution : list UserInfo -> entityResolution UserInfo := resolution_of ui_Name.
Definition departmentResolution : list DeptItem -> entityResolution DeptItem := resolution_of dept_Name.

Definition resolveDepartment (tenantID : Z) (Raw : string) (departments : list DeptItem) : entityResolution DeptItem :=
  let raw := trim_space Raw in
  if negb (looksLikeEntityInput raw) then mkResolution ResolveInvalidShape None []
  else
    let departments := filterDepartmentsByTenant departments tenantID in
    departmentResolution
      (first_matches (exactDepartmentMatches raw departments) (normalizedDepartmentMatches raw departments)
         (departmentCandidates raw departments)).
Definition resolveUser (tenantID : Z) (Raw : string) (users : list UserInfo) : entityResolution UserInfo :=
  let raw := trim_space Raw in
  if negb (looksLikeEntityInput raw) then mkResolution ResolveInvalidShape None []
  else
    let users := filterUsersByTenant users tenantID in
    userResolution
      (first_matches (exactUserMatches raw users)
         (List.filter (fun u => containsEntityVariant (normalizeEntityName (ui_Name u)) raw) users) []).

(** *** Resolving a slot *)

Definition user_candidate (ctx : EntityResolveContext) (u : UserInfo) : EntityCandidate :=
  mkEntityCandidate (itoa (ui_ID u)) (ui_Name u) (VUint (ui_ID u)) (ui_TenantID u)
    (mkSource TrustedParamSourceRawSlot (rx_Raw ctx) "user_resolver").
Definition userSlotResolution (ctx : EntityResolveContext) (matches : list UserInfo) : ResolveResult :=
  let field := firstNonEmpty [rx_Field ctx; "user_id"] in
  match matches with
  | [] => unresolved field ResolveNotFound "user_not_found"
  | [u] =>
      let v := VUint (ui_ID u) in
      mkResolve field ResolveResolved v (<["user_id" := v]> (<["user_name" := VString (ui_Name u)]> ∅))
        (Some (trustedParamFromContext ctx field v "user_resolver")) [] ""
  | _ => mkResolve field ResolveAmbiguous VNil ∅ None (user_candidate ctx <$> matches) "user_ambiguous"
  end.

Definition department_candidate (ctx : EntityResolveContext) (d : DeptItem) : EntityCandidate :=
  mkEntityCandidate (itoa (dept_DeptID d)) (dept_Name d) (VInt64 (dept_DeptID d)) (dept_TenantID d)
    (mkSource TrustedParamSourceRawSlot (rx_Raw ctx) "department_resolver").
Definition departmentSlotResolution (ctx : EntityResolveContext) (matches : list DeptItem) : ResolveResult :=
  let field := firstNonEmpty [rx_Field ctx; "dept_ids"] in
  match matches with
  | [] => unresolved field ResolveNotFound "department_not_found"
  | [d] =>
      let v := VInt64s [dept_DeptID d] in
      mkResolve field ResolveResolved v (<["dept_ids" := v]> ∅)
        (Some (trustedParamFromContext ctx field v "department_resolver")) [] ""
  | _ => mkResolve field ResolveAmbiguous VNil ∅ None (department_candidate ctx <$> matches) "department_ambiguous"
  end.

(** The users, and the departments, a word stands for. *)
Definition user_matches (value : string) (users : list UserInfo) : list UserInfo :=
  first_matches (exactUserMatches value users)
    (List.filter (fun u => contains (normalizeEntityName (ui_Name u)) (normalizeEntityName value)) users) [].
Definition department_matches (value : string) (departments : list DeptItem) : list DeptItem :=
  first_matches (exactDepartmentMatches value departments) (normalizedDepartmentMatches value departments)
    (departmentCandidates value departments).

Definition resolveUserSlotWithContext (ctx : EntityResolveContext) (users : list UserInfo) : ResolveResult :=
  let v := trim_space (rx_Raw ctx) in
  if negb (looksLikeEntityInput v) then unresolved (rx_Field ctx) ResolveInvalidShape "invalid_user_shape"
  else userSlotResolution ctx (user_matches v (filterUsersByTenant users (rx_TenantID ctx))).
Definition resolveDepartmentSlotWithContext (ctx : EntityResolveContext) (departments : list DeptItem) : ResolveResult :=
  let v := trim_space (rx_Raw ctx) in
  if negb (looksLikeEntityInput v) then unresolved (rx_Field ctx) ResolveInvalidShape "invalid_department_shape"
  else departmentSlotResolution ctx (department_matches v (filterDepartmentsByTenant departments (rx_TenantID ctx))).

Definition resolveUserSlot (raw : string) (users : list UserInfo) : ResolveResult :=
  resolveUserSlotWithContext (RawSlot "user_id" raw (resolve_ctx 0)) users.
Definition resolveDepartmentSlot (raw : string) (departments : list DeptItem) : ResolveResult :=
  resolveDepartmentSlotWithContext (RawSlot "dept_ids" raw (resolve_ctx 0)) departments.
Definition resolveUserParam := resolveUserSlotWithContext.
Definition resolveDepartmentParam := resolveDepartmentSlotWithContext.

(** ** Choosing one of the candidates offered *)

(** [parseCandidateOrdinal]; [strconv.Atoi] accepts a sign. *)
Definition parseCandidateOrdinal (message : string) : option Z :=
  let n := trim_prefix (trim_prefix (trim_prefix (normalizeQuery message) "选择") "选") "第" in
  let n := trim_suffix (trim_suffix (trim_suffix n "个") "项") "号" in
  if eqs n "" then None
  else match positive_atoi n with Some v => Some v | None => parseChinesePositiveInt n end.

(** The separators of a rendered option: full stop, enumeration comma, the two
    colons, closing bracket. *)
Definition is_option_separator (r : Z) : bool := existsb (Z.eqb r) [46; 12289; 58; 65306; 41].
(** The runes before the first separator, and the bytes after it. *)
Fixpoint split_option (before : list Z) (l : list (Z * list Z)) : option (list Z * list Z) :=
  match l with
  | [] => None
  | (r, bs) :: l => if is_option_separator r then Some (before, concat (snd <$> l))
                    else split_option (before ++ bs) l
  end.
Definition parseRenderedCandidateSelection (message : string) : option (Z * string) :=
  '(before, after) ← split_option [] (runes (bytes (trim_space message)));
  ordinal ← parseCandidateOrdinal (trim_space (of_bytes before));
  Some (ordinal, trim_space (of_bytes after)).

Definition isCandidateSelectionShape (message : string) : bool :=
  bool_decide (is_Some (parseCandidateOrdinal message))
  || match parseRenderedCandidateSelection message with Some (_, label) => negb (blank label) | None => false end.

(** [Candidate] is [None] where the result carries none. *)
Record CandidateSelectionResult := mkSelection {
  sl_Handled : bool; sl_OK : bool; sl_Candidate : option Candidate; sl_reason : string }.
Definition selection_refused (c : option Candidate) (reason : string) : CandidateSelectionResult :=
  mkSelection true false c reason.

Definition validateCandidateTenant (c : Candidate) (tenantID : Z) : CandidateSelectionResult :=
  if negb (tenantID =? 0) && negb (cand_TenantID c =? tenantID)
  then selection_refused (Some c) "candidate_tenant_mismatch"
  else mkSelection true true (Some c) "".

Definition label_is (variant : string) (c : Candidate) : bool := eqs (normalizeEntityName (cand_Label c)) variant.
(** The position of the first candidate a variant names, of the first variant
    that names one. *)
Fixpoint position {A} (p : A -> bool) (l : list A) : option nat :=
  match l with [] => None | a :: l => if p a then Some O else S <$> position p l end.
Fixpoint fullLabelIndex (variants : list string) (candidates : list Candidate) : option nat :=
  match variants with
  | [] => None
  | v :: variants => match position (label_is v) candidates with
                     | Some i => Some i
                     | None => fullLabelIndex variants candidates
                     end
  end.

(** [candidates[ordinal-1]], for an ordinal of at least one *)
Definition nth_candidate (candidates : list Candidate) (ordinal : Z) : option Candidate :=
  if len candidates <? ordinal then None else candidates !! Z.to_nat (ordinal - 1).

Definition resolveCandidateSelection (message : string) (tenantID : Z) (candidates : list Candidate)
  : CandidateSelectionResult :=
  let full := fullLabelIndex (entityNameVariants message) candidates in
  let by_label := i ← full; candidates !! i in
  match parseRenderedCandidateSelection message with
  | Some (ordinal, label) =>
      match nth_candidate candidates ordinal with
      | None => match by_label with
                | Some c => validateCandidateTenant c tenantID
                | None => selection_refused None "candidate_ordinal_out_of_range"
                end
      | Some c =>
          match full with
          | Some i => if negb (Z.of_nat i =? ordinal - 1)
                      then selection_refused None "candidate_ordinal_label_mismatch"
                      else validateCandidateTenant c tenantID
          | None =>
              if negb (eqs label "") && negb (existsb (fun v => label_is v c) (entityNameVariants label))
              then selection_refused (Some c) "candidate_ordinal_label_mismatch"
              else validateCandidateTenant c tenantID
          end
      end
  | None =>
      match parseCandidateOrdinal message with
      | Some ordinal =>
          match nth_candidate candidates ordinal with
          | None => selection_refused None "candidate_ordinal_out_of_range"
          | Some c => validateCandidateTenant c tenantID
          end
      | None => match by_label with
                | Some c => validateCandidateTenant c tenantID
                | None => mkSelection false false None "candidate_not_found"
                end
      end
  end.

(** [candidateInt64]; the conversion of a uint wraps. *)
Definition candidateInt64 (c : Candidate) : option Z :=
  let from_value := match cand_Value c with
                    | VInt64 z | VInt z => Some z
                    | VUint z => Some (wrap_int64 z)
                    | VString s => match atoi (trim_space s) with (z, None) => Some z | _ => None end
                    | _ => None
                    end in
  let id := trim_space (cand_ID c) in
  if negb (eqs id "")
  then match atoi id with (z, None) => Some z | _ => from_value end
  else from_value.
