(* ===== verification/Llm.v ===== *)
(** * The language model client

    internal/agent/client.go: one HTTP attempt and how its answer is judged
    ([doChat]), the retry loops of [Chat] and [ChatStructured], and the reading
    of tool calls that leak into the text ([parseDSMLToolCalls]). *)
From Stdlib Require Import ZArith QArith Lia Bool String.
From stdpp Require Import base list strings.
From S2P Require Import Prelude GoStrings GoTime Json JsonLax Text.
#[local] Open Scope go_scope.

(** ** Data *)

Record ToolCall := mkToolCall { tc_ID : string; tc_Type : string; tc_Name : string; tc_Arguments : string }.
Record Message := mkMessage {
  msg_Role : string; msg_Content : string; msg_ToolCallID : string; msg_ToolCalls : list ToolCall }.
Definition no_message : Message := mkMessage "" "" "" [].

Record StructuredOutputSpec := mkOutputSpec {
  os_Mode : string; os_Temperature : Q; os_MaxTokens : Z; os_TransportMaxAttempts : Z; os_ParseRepairAttempts : Z }.

(** [chatRequest]; the tool definitions are opaque. *)
Record chatRequest (T : Type) := mkChatRequest {
  rq_Model : string; rq_Messages : list Message; rq_Tools : list T; rq_ResponseFormat : option string;
  rq_Temperature : option Q; rq_MaxTokens : option Z }.
Arguments mkChatRequest {T} _ _ _ _ _ _.

Inductive chatError : Type :=
  | ErrContext (e : err)
  | ErrRequest
  | ErrTransport
  | ErrStatus (code : Z)
  | ErrResponse
  | ErrSpec (message : string)
  | ErrExhausted (last : option chatError).

(** ** Tool calls that leak into the text *)

Definition blockOpen : string := "<｜DSML｜function_calls>".
Definition blockClose : string := "</｜DSML｜function_calls>".
(** the straight double quote *)
Definition dquote : string := of_bytes [34].
Definition invokeOpen : string := "<｜DSML｜invoke name=" +:+ dquote.
Definition invokeClose : string := "</｜DSML｜invoke>".
Definition argOpen : string := "<arguments>".
Definition argClose : string := "</arguments>".

(** [s[lo:hi]]; [None] is the panic of bounds out of order. *)
Definition slice (s : string) (lo hi : nat) : option string :=
  if (lo <=? hi)%nat && (hi <=? String.length s)%nat then Some (slice_from (slice_to s hi) lo) else None.

Definition dsml_arguments (invokeBody : string) : option string :=
  match index invokeBody argOpen, last_index invokeBody argClose with
  | Some aStart, Some aEnd =>
      if (aStart <? aEnd)%nat
      then trim_space <$> slice invokeBody (aStart + String.length argOpen) aEnd
      else Some "{}"
  | _, _ => Some "{}"
  end.

(** The calls of a block.  [fuel] bounds the turns of the loop, each of which
    drops at least the closing tag. *)
Fixpoint dsml_calls (fuel : nat) (idSeq : Z) (remaining : string) : option (list ToolCall) :=
  match fuel with
  | O => Some []
  | S fuel =>
      match index remaining invokeOpen with
      | None => Some []
      | Some iStart =>
          let after_name := slice_from remaining (iStart + String.length invokeOpen) in
          match index after_name dquote with
          | None => Some []
          | Some nameEnd =>
              let from_invoke := slice_from remaining iStart in
              match index from_invoke invokeClose with
              | None => Some []
              | Some iClose =>
                  let stop := (iClose + String.length invokeClose)%nat in
                  args ← dsml_arguments (slice_to from_invoke stop);
                  calls ← dsml_calls fuel (idSeq + 1) (slice_from from_invoke stop);
                  Some (mkToolCall ("dsml_" +:+ itoa (idSeq + 1)) "function" (slice_to after_name nameEnd) args :: calls)
              end
          end
      end
  end.

(** [None] is a panic. *)
Definition parseDSMLToolCalls (content : string) : option (list ToolCall * string) :=
  match index content blockOpen, index content blockClose with
  | Some bStart, Some bEnd =>
      let bEnd := (bEnd + String.length blockClose)%nat in
      block ← slice content bStart bEnd;
      calls ← dsml_calls (S (String.length block)) 0 block;
      Some (calls, trim_space (slice_to content bStart +:+ slice_from content bEnd))
  | _, _ => Some ([], content)
  end.

(** ** Reading a response *)

Definition lax_string : lax string := lax_of dec_string.
Definition tool_function_names : list string := ["name"; "arguments"].
Definition lax_function : lax (string * string) := lax_struct (fun ms cur =>
  let '(n, e1) := lax_field tool_function_names "name" lax_string ms cur.1 in
  let '(a, e2) := lax_field tool_function_names "arguments" lax_string ms cur.2 in ((n, a), e1 || e2)).
Definition tool_call_names : list string := ["id"; "type"; "function"].
Definition lax_tool_call : lax ToolCall := lax_struct (fun ms cur =>
  let '(i, e1) := lax_field tool_call_names "id" lax_string ms (tc_ID cur) in
  let '(t, e2) := lax_field tool_call_names "type" lax_string ms (tc_Type cur) in
  let '(f, e3) := lax_field tool_call_names "function" lax_function ms (tc_Name cur, tc_Arguments cur) in
  (mkToolCall i t f.1 f.2, e1 || e2 || e3)).
Definition choice_message_names : list string := ["role"; "content"; "tool_calls"].
Definition lax_choice_message : lax Message := lax_struct (fun ms cur =>
  let '(r, e1) := lax_field choice_message_names "role" lax_string ms (msg_Role cur) in
  let '(c, e2) := lax_field choice_message_names "content" lax_string ms (msg_Content cur) in
  let '(t, e3) := lax_field choice_message_names "tool_calls" (lax_list lax_tool_call (mkToolCall "" "" "" "")) ms
                    (msg_ToolCalls cur) in
  (mkMessage r c "" t, e1 || e2 || e3)).
Definition choice_names : list string := ["message"; "finish_reason"].
Definition lax_choice : lax (Message * string) := lax_struct (fun ms cur =>
  let '(m, e1) := lax_field choice_names "message" lax_choice_message ms cur.1 in
  let '(f, e2) := lax_field choice_names "finish_reason" lax_string ms cur.2 in ((m, f), e1 || e2)).
(** A pointer: null clears it, anything else is stored into what it points to. *)
Definition lax_pointer {A} (d : lax A) (zero : A) : lax (option A) := fun j cur =>
  match j with
  | JNull => (None, false)
  | _ => let '(a, e) := d j (default zero cur) in (Some a, e)
  end.
Definition lax_api_error : lax string := lax_struct (lax_field ["message"] "message" lax_string).
Definition response_names : list string := ["choices"; "error"].
Definition lax_chat_response : lax (list (Message * string) * option string) := lax_struct (fun ms cur =>
  let '(c, e1) := lax_field response_names "choices" (lax_list lax_choice (no_message, "")) ms cur.1 in
  let '(e, e2) := lax_field response_names "error" (lax_pointer lax_api_error "") ms cur.2 in ((c, e), e1 || e2)).

(** Tool calls in the text replace none at all.  [None] is a panic. *)
Definition recover_tool_calls (m : Message) : option Message :=
  if bool_decide (msg_ToolCalls m = []) && contains (msg_Content m) blockOpen then
    '(calls, clean) ← parseDSMLToolCalls (msg_Content m);
    Some match calls with
         | [] => m
         | _ => mkMessage (msg_Role m) clean (msg_ToolCallID m) calls
         end
  else Some m.

(** ** One attempt *)

(** What the transport answers: no request could be made, the call failed, the
    body could not be read, or a status and what was read of the body, ten
    megabytes at most. *)
Inductive http_answer : Type :=
  | HttpBadRequest
  | HttpFailed (timeout : bool)
  | HttpUnreadable
  | HttpAnswer (status : Z) (body : string).

(** The message or an error, and whether the error is worth another attempt. *)
Inductive chat_result : Type :=
  | ChatOk (m : Message)
  | ChatErr (e : chatError) (retryable : bool)
  | ChatPanic.

Definition read_answer (status : Z) (body : string) : chat_result :=
  if (status =? 429) || (500 <=? status) then ChatErr (ErrStatus status) true
  else if negb (status =? 200) then ChatErr (ErrStatus status) false
  else
    let '((choices, api_error), failed) := unmarshal lax_chat_response ([], None) body in
    if failed then ChatErr ErrResponse false
    else match api_error with
    | Some _ => ChatErr ErrResponse false
    | None =>
        match choices with
        | [] => ChatErr ErrResponse false
        | (m, _) :: _ => match recover_tool_calls m with Some m => ChatOk m | None => ChatPanic end
        end
    end.

Section client.
Context {W T : Type}.

(** [ctx.Err()], the transport, and the wait of some seconds, which answers
    whether the context was done first *)
Variable ctx_err : W -> option err.
Variable http : chatRequest T -> W -> http_answer * W.
Variable wait : Z -> W -> bool * W.
(** the model name *)
Variable model : string.

Definition doChat (req : chatRequest T) (w : W) : chat_result * W :=
  match ctx_err w with
  | Some e => (ChatErr (ErrContext e) false, w)
  | None =>
      let '(answer, w) := http req w in
      (match answer with
       | HttpBadRequest => ChatErr ErrRequest false
       | HttpFailed timeout => match ctx_err w with
                               | Some _ => ChatErr ErrTransport false
                               | None => ChatErr ErrTransport (negb timeout)
                               end
       | HttpUnreadable => ChatErr ErrTransport true
       | HttpAnswer status body => read_answer status body
       end, w)
  end.

(** ** The retry loops *)

(** The outcome of a call: a message, an error, or a panic, with the number of
    attempts. *)
Inductive chat_outcome : Type :=
  | Answered (m : Message) (attempts : Z)
  | Failed (e : chatError) (attempts : Z)
  | Panicked.

(** The error of a context that is done. *)
Definition context_error (w : W) : chatError :=
  match ctx_err w with Some e => ErrContext e | None => ErrContext (EMsg "context canceled") end.

(** [tries] attempts are left; [attempt] is the next one, counted from 0. *)
Fixpoint chat_loop (tries : nat) (attempt : Z) (last : option chatError) (req : chatRequest T) (w : W) : chat_outcome * W :=
  match tries with
  | O => (Failed (ErrExhausted last) attempt, w)
  | S tries =>
      let '(done, w) := if 0 <? attempt then wait (2 ^ (attempt - 1)) w else (false, w) in
      if done then (Failed (context_error w) attempt, w)
      else match doChat req w with
      | (ChatOk m, w) => (Answered m (attempt + 1), w)
      | (ChatPanic, w) => (Panicked, w)
      | (ChatErr e true, w) => chat_loop tries (attempt + 1) (Some e) req w
      | (ChatErr e false, w) => (Failed e (attempt + 1), w)
      end
  end.
Definition Chat (messages : list Message) (toolDefs : list T) : W -> chat_outcome * W :=
  chat_loop 3 0 None (mkChatRequest model messages toolDefs None None None).

Definition structuredTransportRetryable (retryable : bool) (e : chatError) : bool :=
  if negb retryable then false
  else match e with
       | ErrStatus code => existsb (Z.eqb code) [429; 502; 503; 504]
       | _ => true
       end.

(** Attempt [attempt], counted from 1, and those after it. *)
Fixpoint structured_attempts (tries : nat) (attempt : Z) (last : option chatError) (req : chatRequest T) (w : W)
  : chat_outcome * W :=
  match tries with
  | O => (Failed (ErrExhausted last) (attempt - 1), w)
  | S tries =>
      let '(done, w) := if 1 <? attempt then wait 1 w else (false, w) in
      if done then (Failed (context_error w) (attempt - 1), w)
      else match doChat req w with
      | (ChatOk m, w) => (Answered m attempt, w)
      | (ChatPanic, w) => (Panicked, w)
      | (ChatErr e retryable, w) =>
          if structuredTransportRetryable retryable e
          then structured_attempts tries (attempt + 1) (Some e) req w
          else (Failed e attempt, w)
      end
  end.

Definition ChatStructured (messages : list Message) (spec : StructuredOutputSpec) (w : W) : chat_outcome * W :=
  let refuse message := (Failed (ErrSpec message) 0, w) in
  if negb (os_ParseRepairAttempts spec =? 0) then refuse "structured parse repair is not supported"
  else if os_MaxTokens spec <=? 0 then refuse "structured max tokens must be positive"
  else
    let maxAttempts := if os_TransportMaxAttempts spec <=? 0 then 1 else os_TransportMaxAttempts spec in
    if 2 <? maxAttempts then refuse "structured transport attempts must not exceed 2"
    else
      let mode := trim_space (os_Mode spec) in
      if negb (existsb (eqs mode) ["json_object"; "prompt_only"]) then refuse "unsupported structured output mode %q"
      else
        structured_attempts (Z.to_nat maxAttempts) 1 None
          (mkChatRequest model messages [] (if eqs mode "json_object" then Some mode else None)
             (Some (os_Temperature spec)) (Some (os_MaxTokens spec))) w.
End client.
