(* ===== verification/Compiler.v ===== *)
(** * The operation compiler

    internal/agent/operation_compiler.go and protocol_compiler.go: what a message
    is about, from the deterministic candidates of the active workflow and the
    draft of the intent compiler, in the three modes; the keyword classifier
    [compileProtocol]; the subject of a schedule question
    (protocol_live_request_builder.go) and the name in a manual sign message
    (manual_sign_task.go). *)
From Stdlib Require Import ZArith QArith Lia Bool String.
From stdpp Require Import base list strings gmap sets.
From S2P Require Import Prelude GoStrings GoTime Contract Codec Catalog Policy Workflow Text Entity Llm Intent.
#[local] Open Scope go_scope.

(** ** Tokens of a message *)

(** The first ten bytes in a row that are a date. *)
Fixpoint date_token (l : list Z) : option (list Z) :=
  match parse_date_bytes (take 10 l) with
  | Some _ => Some (take 10 l)
  | None => match l with [] => None | _ :: l => date_token l end
  end.
Definition extractDateToken (message : string) : string := default "" (of_bytes <$> date_token (bytes message)).

Definition first_token (text : string) (tokens : list string) : string :=
  default "" (List.find (contains text) tokens).
Definition messageDateSignal (message : string) : string := first_token message ["今天"; "昨天"; "明天"].
Definition extractSectionToken (message : string) : string :=
  first_token message
    (((fun i => "第" +:+ itoa i +:+ "节") <$> seqZ 1 12)
     ++ ["第一节"; "第二节"; "第三节"; "第四节"; "第五节"; "第六节"; "第七节"; "第八节"; "第九节"; "第十节"]).
Definition extractWeekToken (message : string) : string :=
  first_token (normalizeQuery message)
    (((fun i => "第" +:+ itoa i +:+ "周") <$> seqZ 1 30) ++ ["本周"; "这周"; "下周"]).

(** ** The subject of a schedule question *)

Inductive scheduleSubject : Type :=
  | scheduleSubjectUnspecified
  | scheduleSubjectSelf
  | scheduleSubjectNamed (name : string)
  | scheduleSubjectUnresolved.

Definition trimScheduleCourseSuffix (value : string) : string :=
  let cut := fold_left (fun cut token => match index value token with
                                          | Some i => Nat.min i cut
                                          | None => cut
                                          end)
               ["课程信息"; "课程安排"; "上什么课"; "有哪些课"; "课表"; "课程"] (String.length value) in
  trim_suffix (slice_to value cut) "的".
Definition trimScheduleQueryAction (value : string) : string :=
  let last := fold_left (fun (last : option nat) action =>
                match last_index value action with
                | Some i => let e := (i + String.length action)%nat in
                            match last with Some l => Some (Nat.max l e) | None => Some e end
                | None => last
                end) ["查询"; "查看"; "看看"; "想知道"; "知道"; "了解"; "查"; "看"] None in
  match last with Some e => slice_from value e | None => value end.
Definition trimScheduleSubjectContext (value : string) : string :=
  let value := fold_left (fun v week => if eqs week "" then v else remove_all [week] v)
                 [extractWeekToken value; "本周"; "这周"; "下周"] value in
  let value := trimScheduleQueryAction (trimScheduleCourseSuffix value) in
  let value := fold_left trim_prefix ["一下"; "下"; "一查"; "一看"] value in
  trim_cutset value "，。！？,.!?：: ".
Definition unresolvedScheduleSubject (value : string) : bool :=
  containsAny value ["你"; "他"; "她"; "他们"; "她们"; "对方"; "谁"; "某人"]
  || containsAny value ["查询"; "查看"; "看看"; "课程"; "课表"; "规则"; "什么"; "如何"; "怎么"]
  || (32 <? rune_count value).
Definition parseScheduleSubject (message : string) : scheduleSubject :=
  let value := normalizeQuery message in
  if eqs value "" then scheduleSubjectUnspecified
  else
    let explicitSelf := containsAny value ["我的"; "我这周"; "我本周"; "给我查"; "帮我查下自己"] in
    let value := trimScheduleSubjectContext value in
    if eqs value "" then if explicitSelf then scheduleSubjectSelf else scheduleSubjectUnspecified
    else if existsb (eqs value) ["我"; "本人"; "自己"] then scheduleSubjectSelf
    else if unresolvedScheduleSubject value then scheduleSubjectUnresolved
    else scheduleSubjectNamed value.
Definition extractScheduleUserName (message : string) : string :=
  match parseScheduleSubject message with scheduleSubjectNamed name => name | _ => "" end.

(** ** The name in a manual sign message *)

Definition name_after (prefix marker : string) : option string :=
  pos ← last_index prefix marker;
  let candidate := trim_space (slice_from prefix (pos + String.length marker)) in
  let candidate := trim_cutset candidate " ，。！？,!." in
  Some (if existsb (eqs candidate) [""; "我"; "我自己"] then "" else candidate).
Definition extractManualSignUserName (message : string) : string :=
  let trimmed := trim_space message in
  if eqs trimmed "" then ""
  else
    let named := match index trimmed "补签" with
                 | Some (S i) => first_some (name_after (trim_space (slice_to trimmed (S i)))) ["给"; "帮"; "为"]
                 | _ => None
                 end in
    match named with
    | Some name => name
    | None =>
        if containsAny (normalizeQuery trimmed)
             ["今天"; "昨天"; "明天"; "第一节"; "第二节"; "第三节"; "第四节"; "第五节"; "补签"; "代签"; "考勤"]
        then "" else trimmed
    end.

(** ** protocol_compiler.go *)

Record protocolInput := mkProtocolInput {
  pin_Message : string; pin_RecentMessages : list Message; pin_ActiveWorkflow : option protocolWorkflowContext }.

(** A draft with the given act, domain and operation; the rest is zero. *)
Definition simple_draft (act domain operation : string) (confidence : Q) (reason : string) : ProtocolDraft :=
  mkIntentDraft act domain operation confidence ∅ reason ∅ [] "".
Definition with_slots (slots : gmap string SlotDraft) (d : ProtocolDraft) : ProtocolDraft :=
  mkIntentDraft (draft_Act d) (draft_Domain d) (draft_Operation d) (draft_Confidence d) slots (draft_Reason d)
    (draft_Params d) (draft_MissingFields d) (draft_ClarifyReason d).
Definition unknown_because (reason : string) : ProtocolDraft :=
  mkIntentDraft ActUnknown DomainUnknown "" 0 ∅ "" ∅ [] reason.

(** Ten labels at most for each field. *)
Definition workflowCandidateLabels (candidates : gmap string (list Candidate)) : gmap string (list string) :=
  filter (fun e : string * list string => e.2 <> [])
    ((fun cs => take 10 (List.filter (fun l => negb (eqs l "")) ((fun c => trim_space (cand_Label c)) <$> cs)))
       <$> candidates).
Definition cloneStringMap (source : gmap string string) : gmap string string :=
  (fun v => truncateRunes v 128) <$> filter (fun e : string * string => e.2 <> "") (trim_space <$> source).
Definition intentCompileWorkflowContext (w : protocolWorkflowContext) : IntentCompileWorkflowContext :=
  mkIntentWorkflow (wc_Type w) (wc_State w) (wc_MissingFields w) (workflowCandidateLabels (wc_Candidates w))
    (cloneStringMap (wc_CollectedLabels w)).

Definition workflowDomain (workflowType : string) : string :=
  match lookupOperation workflowType with
  | Some m => om_Domain m
  | None => if has_prefix workflowType "subscription." then DomainSubscription
            else if has_prefix workflowType "manual_sign." then DomainManualSign else DomainUnknown
  end.

Definition cancel_words : list string := ["取消"; "算了"; "不用了"; "停止"; "退出"].
Definition compileWorkflowCancel (message : string) (workflow : option protocolWorkflowContext) : option ProtocolDraft :=
  match workflow with
  | None => None
  | Some w =>
      if existsb (eqs (normalizeQuery message)) cancel_words
      then Some (simple_draft ActWorkflowCancel (workflowDomain (wc_Type w)) (wc_Type w) 0 "workflow_cancel")
      else None
  end.

(** *** The keyword classifier *)

Definition looksLikeSubscriptionDepartmentListQuestion (message : string) : bool :=
  containsAny (normalizeQuery message) ["有哪些部门"; "都有哪些部门"; "部门列表"; "部门有哪些"; "哪些部门"].
Definition list_departments_draft : ProtocolDraft :=
  simple_draft ActWorkflowContinue DomainSubscription "subscription.list_departments" 0 "".
Definition compileWorkflowMeta (message : string) (workflow : option protocolWorkflowContext) : option ProtocolDraft :=
  match workflow with
  | Some w => if eqs (wc_Type w) "subscription.start" && looksLikeSubscriptionDepartmentListQuestion message
              then Some list_departments_draft else None
  | None => None
  end.

Definition compileCapabilityQuestion (message : string) : option ProtocolDraft :=
  let normalized := normalizeQuery message in
  if negb (containsAny normalized ["有什么功能"; "能做什么"; "可以做什么"; "支持什么"; "能力"; "功能"]) then None
  else (fun e : list string * string * string => simple_draft ActCapabilityQuestion e.1.2 e.2 1 "") <$>
       List.find (fun e : list string * string * string => containsAny normalized e.1.1)
         [(["订阅"; "推送"], DomainSubscription, "subscription.describe_capability");
          (["考勤"], DomainAttendance, "attendance.describe_capability");
          (["课表"; "课程"], DomainSchedule, "schedule.describe_capability");
          (["补签"; "代签"], DomainManualSign, "manual_sign.describe_capability")].

Definition looksLikeManualSignCapabilityQuestion (message : string) : bool :=
  let normalized := normalizeQuery message in
  if negb (containsAny normalized ["代签"; "补签"]) then false
  else if hasManualSignActionSignal normalized
          && negb (containsAny normalized ["功能"; "规则"; "流程"; "怎么"; "如何"; "是什么"; "支持"]) then false
  else containsAny normalized ["功能"; "可以"; "能否"; "能不能"; "支持"; "规则"; "流程"; "怎么"; "如何"; "是什么"].

Definition compileRuleQuestion (message : string) : option ProtocolDraft :=
  let normalized := normalizeQuery message in
  if negb (hasRuleSignal normalized) then None
  else
    let draft domain operation :=
      Some (with_slots (<["rule_topic" := mkSlotDraft "rule_topic" (trim_space message)]> ∅)
              (simple_draft ActRuleQuestion domain operation 1 "")) in
    if containsAny normalized ["订阅"; "推送"] then draft DomainSubscription "subscription.rule_explain"
    else if containsAny normalized ["课表"; "课程"; "排课"] then draft DomainSchedule "schedule.rule_explain"
    else if containsAny normalized ["考勤"; "迟到"; "缺勤"; "未到"; "打卡"; "出勤"; "旷课"]
    then draft DomainAttendance "attendance.rule_explain"
    else None.

Definition compileScheduleReadQuery (message : string) : option ProtocolDraft :=
  let normalized := normalizeQuery message in
  if negb (containsAny normalized ["课表"; "课程"; "上什么课"; "有哪些课"]) then None
  else if negb (containsAny normalized ["查"; "查询"; "看"; "看看"; "想知道"; "了解"; "上什么课"; "有哪些课"; "本周";
                                        "这周"; "下周"; "第"]) then None
  else if containsAny normalized ["规则"; "怎么生效"; "如何生效"; "能做什么"; "支持什么"] then None
  else if containsAny normalized ["不要查"; "不要查询"; "不用查"; "不用查询"; "别查"; "别查询"; "不想查"; "不想查询";
                                  "不是查"; "不是查询"] then None
  else
    let week := extractWeekToken message in
    let slots := if eqs week "" then ∅ else <["week" := mkSlotDraft "week" week]> (∅ : gmap string SlotDraft) in
    match parseScheduleSubject message with
    | scheduleSubjectNamed userName =>
        Some (with_slots (<["user_name" := mkSlotDraft "user_name" userName]> slots)
                (simple_draft ActReadQuery DomainSchedule "schedule.query_user_schedule" 1 ""))
    | scheduleSubjectUnresolved => None
    | _ => Some (with_slots slots (simple_draft ActReadQuery DomainSchedule "schedule.query_my_schedule" 1 ""))
    end.

Definition looksLikeManualSignWriteRequest (message : string) : bool :=
  if negb (contains message "代签") && negb (contains message "补签") then false
  else negb (looksLikeManualSignCapabilityQuestion message).
Definition looksLikeAttendanceReadQuery (message : string) : bool :=
  contains message "考勤" && containsAny message ["查询"; "状态"; "谁未到"].
Definition looksLikeSubscriptionStatusQuery (message : string) : bool :=
  let normalized := normalizeQuery message in
  let statusSignal := containsAny normalized ["订阅状态"; "有没有订阅"; "是否订阅"]
                      || (containsAny normalized ["有开"; "开了没"; "开没开"] && containsAny normalized ["订阅"; "推送"]) in
  statusSignal && containsAny normalized ["本群"; "当前群"; "这个群"; "此群"; "群聊"; "考勤"; "推送"].
Definition looksLikeSubscriptionCancelRequest (message : string) : bool :=
  if negb (contains message "订阅") && negb (contains message "推送") then false
  else contains message "取消" || contains message "关闭".
Definition looksLikeSubscriptionWriteRequest (message : string) : bool :=
  contains message "订阅" && negb (looksLikeSubscriptionCancelRequest message)
  && containsAny message ["开启"; "开通"; "打开"; "帮我"].

Definition hasDateSignal (message : string) : bool :=
  containsAny message ["今天"; "昨天"; "明天"] || negb (eqs (extractDateToken message) "").
Definition hasSectionSignal (message : string) : bool :=
  containsAny message ["第一节"; "第二节"; "第三节"; "第四节"; "第五节"].

Definition scope_words : list string := ["全部人员"; "全部"; "指定部门"; "部分部门"].
Definition compileWorkflowContinue (message : string) (workflow : option protocolWorkflowContext) : option ProtocolDraft :=
  match workflow with
  | None => None
  | Some w =>
      let missing := hasMissingField (wc_MissingFields w) in
      let start := Some (simple_draft ActWorkflowContinue DomainSubscription "subscription.start" 0 "") in
      let sign := Some (simple_draft ActWorkflowContinue DomainManualSign "manual_sign.create" 0 "") in
      if eqs (wc_Type w) "subscription.start" then
        if looksLikeSubscriptionDepartmentListQuestion message then Some list_departments_draft
        else if missing "scope" && (containsAny (normalizeQuery message) scope_words || looksLikeEntityInput message)
        then start
        else if missing "dept_names" then
          if containsAny message ["有哪些部门"; "都有哪些部门"] then Some list_departments_draft
          else if looksLikeEntityInput message then start else None
        else None
      else if eqs (wc_Type w) "manual_sign.create" then
        if missing "user_id" && negb (eqs (extractManualSignUserName message) "") then sign
        else if missing "date" && hasDateSignal message then sign
        else if missing "section" && hasSectionSignal message then sign
        else None
      else None
  end.

(** The first classifier that recognises the message. *)
Definition when (b : bool) (d : ProtocolDraft) : option ProtocolDraft := if b then Some d else None.
Definition compileProtocol (input : protocolInput) : ProtocolDraft :=
  let message := trim_space (pin_Message input) in
  let workflow := pin_ActiveWorkflow input in
  if eqs message "" then unknown_because "empty_message"
  else default (unknown_because "unknown_intent") (first_some id
    [compileWorkflowCancel message workflow;
     compileWorkflowMeta message workflow;
     compileCapabilityQuestion message;
     when (looksLikeManualSignCapabilityQuestion message)
       (simple_draft ActCapabilityQuestion DomainManualSign "manual_sign.describe_capability" 0 "");
     compileRuleQuestion message;
     compileScheduleReadQuery message;
     when (looksLikeManualSignWriteRequest message)
       (simple_draft ActWriteRequest DomainManualSign "manual_sign.create" 1 "");
     when (looksLikeSubscriptionStatusQuery message)
       (simple_draft ActReadQuery DomainSubscription "subscription.query_status" 0 "");
     when (looksLikeSubscriptionDepartmentListQuestion message)
       (simple_draft ActReadQuery DomainSubscription "subscription.list_departments" 0 "");
     when (looksLikeAttendanceReadQuery message)
       (simple_draft ActReadQuery DomainAttendance "attendance.query_status" 0 "");
     when (looksLikeSubscriptionCancelRequest message)
       (simple_draft ActWriteRequest DomainSubscription "subscription.cancel" 1 "");
     when (looksLikeSubscriptionWriteRequest message)
       (simple_draft ActWriteRequest DomainSubscription "subscription.start" 1 "");
     compileWorkflowContinue message workflow]).

(** ** operation_compiler.go *)

Definition CompilerSourceDeterministic : string := "deterministic".
Definition CompilerSourceLLM : string := "llm".
Definition CompilerSourceFallback : string := "fallback".

Record OperationCompileResult := mkCompileResult {
  cp_Draft : ProtocolDraft;
  cp_Candidates : list OperationCandidate;
  cp_Decision : OperationArbiterDecision;
  cp_Source : string;
  cp_LLMInvoked : bool;
  cp_LLMStatus : string;
  cp_LLMAttempts : Z;
  cp_FallbackReason : string
}.
Definition zero_draft : ProtocolDraft := simple_draft "" "" "" 0 "".
Definition unknown_decision (d : ProtocolDraft) (reason : string) : OperationArbiterDecision :=
  mkDecision DecisionUnknown d "" false reason.
(** [OperationCompileResult{}]: the decision kind is not read. *)
Definition zero_compile_result : OperationCompileResult :=
  mkCompileResult zero_draft [] (unknown_decision zero_draft "") "" false "" 0 "".

(** The mode, normalised *)
Definition compiler_modes : list string := ["observe"; "fallback"; "short_circuit"].
Definition compiler_mode (mode : string) : string :=
  if existsb (eqs (trim_space mode)) compiler_modes then mode else "short_circuit".

Definition hasExactOperationCandidate (candidates : list OperationCandidate) : bool :=
  existsb (fun c => eqs (oc_MatchKind c) MatchExactAlias || eqs (oc_MatchKind c) MatchExactWorkflowControl) candidates.
Definition safeDeterministicMatch (kind : string) : bool :=
  eqs kind MatchExactWorkflowControl || eqs kind MatchExactCandidate.

(** The identities of all known candidates, and the last safe candidate of each
    identity. *)
Definition known_candidate (c : OperationCandidate) : bool := negb (draft_is_unknown (oc_Draft c)).
Definition safe_candidate (requireShortCircuit : bool) (c : OperationCandidate) : bool :=
  safeDeterministicMatch (oc_MatchKind c) && (negb requireShortCircuit || oc_ShortCircuit c).
Definition allIdentities (candidates : list OperationCandidate) : gset string :=
  list_to_set (candidateIdentity <$> List.filter known_candidate candidates).
Definition byIdentity (requireShortCircuit : bool) (candidates : list OperationCandidate) : gmap string OperationCandidate :=
  fold_left (fun m c => <[candidateIdentity c := c]> m) (List.filter (safe_candidate requireShortCircuit) candidates) ∅.
Definition uniqueSafeDeterministicCandidates (candidates : list OperationCandidate) (requireShortCircuit : bool)
  : list OperationCandidate :=
  let m := byIdentity requireShortCircuit candidates in
  if bool_decide (size m = 1%nat) && bool_decide (size (allIdentities candidates) = 1%nat)
  then (map_to_list m).*2 else [].

Definition fallbackReasonForStatus (status : string) : string :=
  if eqs status IntentCompileTimeout then "intent_timeout"
  else if eqs status IntentCompileTransportError then "intent_transport_error"
  else if eqs status IntentCompileInvalidOutput then "intent_parse_failed"
  else if eqs status IntentCompileUnknown then "unknown_intent" else "".
Definition compilerSourceFromDecision (decision : OperationArbiterDecision) : string :=
  if eqs (ad_Source decision) OperationCandidateSourceLLM then CompilerSourceLLM
  else if negb (eqs (ad_Source decision) "") then CompilerSourceDeterministic else "".
Definition deterministicFallbackSource (draft : ProtocolDraft) : string :=
  if eqs (draft_Act draft) ActWorkflowContinue then OperationCandidateSourceWorkflowSlot
  else if eqs (draft_Act draft) ActWorkflowCancel then OperationCandidateSourceWorkflowCtrl
  else OperationCandidateSourceLegacy.

(** *** The candidates of the active workflow *)

Definition workflowControlMatchKind (message : string) : string :=
  if existsb (eqs (normalizeQuery message)) cancel_words then MatchExactWorkflowControl else MatchContainedAlias.
Definition workflowControlCandidates (message : string) (workflow : option protocolWorkflowContext)
  : list OperationCandidate :=
  match compileWorkflowCancel message workflow with
  | None => []
  | Some draft =>
      let matchKind := workflowControlMatchKind message in
      [mkCandidateOp draft OperationCandidateSourceWorkflowCtrl matchKind
         (eqs matchKind MatchExactWorkflowControl) 1 "workflow_cancel"]
  end.

Definition plainWorkflowSlotValue (normalized : string) : bool :=
  negb (eqs normalized "")
  && negb (containsAny normalized
       ["什么"; "怎么"; "为什么"; "能否"; "能不能"; "可以吗"; "支持"; "流程"; "规则"; "查询"; "查看"; "看看"; "列表";
        "帮助"; "功能"; "不要"; "不是"; "取消"; "停止"]).
Definition is_label_of (normalized : string) (candidates : gmap string (list Candidate)) : bool :=
  bool_decide (Exists (fun c => normalizeQuery (cand_Label c) = normalized) (concat (map_to_list candidates).*2)).
Definition workflowSlotMatchKind (message : string) (workflow : protocolWorkflowContext) : string :=
  let normalized := normalizeQuery message in
  if isCandidateSelectionShape message then MatchExactCandidate
  else if is_label_of normalized (wc_Candidates workflow) then MatchExactCandidate
  else if existsb (eqs normalized) ["全部人员"; "全部"; "指定部门"; "部分部门"] then MatchStructuredSlot
  else if plainWorkflowSlotValue normalized then MatchStructuredSlot
  else MatchLegacyRule.
Definition slot_shape_matches (message : string) (workflow : protocolWorkflowContext) (slot : RawSlotSpec) : bool :=
  if eqs (rs_Shape slot) "" || negb (workflowHasMissingParam (wc_MissingFields workflow) (rs_TargetParam slot)) then false
  else if eqs (rs_Shape slot) "subscription_scope" then
    containsAny (normalizeQuery message) scope_words || looksLikeEntityInput message
  else if eqs (rs_Shape slot) "department_name_or_candidate" then
    looksLikeEntityInput message || bool_decide (is_Some (parseCandidateOrdinal message))
  else false.
Definition messageMatchesWorkflowSlotShape (message : string) (workflow : protocolWorkflowContext)
  (manifest : OperationManifest) : bool :=
  existsb (slot_shape_matches message workflow) (rec_RawSlots (om_Recognition manifest)).
Definition workflowSlotCanShortCircuit (kind : string) : bool := eqs kind MatchExactCandidate.
Definition workflowSlotCandidates (message : string) (workflow : option protocolWorkflowContext)
  : list OperationCandidate :=
  match workflow with
  | None => []
  | Some w =>
      match lookupOperation (wc_Type w) with
      | Some manifest =>
          if bool_decide (om_Workflow manifest = None) then []
          else if negb (messageMatchesWorkflowSlotShape message w manifest) then []
          else
            let matchKind := workflowSlotMatchKind message w in
            [mkCandidateOp
               (simple_draft ActWorkflowContinue (om_Domain manifest) (om_Name manifest) 1 "workflow_slot_shape")
               OperationCandidateSourceWorkflowSlot matchKind (workflowSlotCanShortCircuit matchKind) 1
               "workflow_slot_shape"]
      | None => []
      end
  end.

(** *** Compiling a message *)

Section compile.
Context {W : Type}.
Variable ctx_err : W -> option err.

Definition empty_message_result : OperationCompileResult :=
  let draft := unknownIntentDraft "empty_message" in
  mkCompileResult draft [] (unknown_decision draft "empty_message") CompilerSourceDeterministic false
    IntentCompileSkipped 0 "".
Definition compiler_unavailable (candidates : list OperationCandidate) : OperationCompileResult :=
  let draft := unknownIntentDraft "intent_compiler_unavailable" in
  mkCompileResult draft candidates (unknown_decision draft "compiler_unavailable") "" false IntentCompileSkipped 0 "".

Definition workflow_candidates (message : string) (workflow : option protocolWorkflowContext) : list OperationCandidate :=
  let candidates := workflowControlCandidates message workflow in
  if hasExactOperationCandidate candidates then candidates
  else candidates ++ workflowSlotCandidates message workflow.

(** What the reply of the intent compiler leads to. *)
Definition decide_reply (mode : string) (workflow : option protocolWorkflowContext)
  (candidates : list OperationCandidate) (reply : IntentCompileResult) : OperationCompileResult :=
  let draft := ir_Draft reply in
  let status := ir_Status reply in
  if eqs status IntentCompileOK && negb (draft_is_unknown draft) then
    let llm := mkCandidateOp draft OperationCandidateSourceLLM MatchLLM false (draft_Confidence draft)
                 (trim_space (draft_Reason draft)) in
    let candidates := candidates ++ [llm] in
    let decision := Decide_operation workflow
                      (if eqs mode "observe" || eqs mode "fallback" then [llm] else candidates) in
    mkCompileResult (ad_Draft decision) candidates decision (compilerSourceFromDecision decision) true status
      (ir_Attempts reply) ""
  else
    let safe := if eqs mode "observe" then [] else uniqueSafeDeterministicCandidates candidates false in
    match safe with
    | _ :: _ =>
        let decision := Decide_operation workflow safe in
        mkCompileResult (ad_Draft decision) candidates decision CompilerSourceFallback true status
          (ir_Attempts reply) (fallbackReasonForStatus status)
    | [] =>
        let draft := if eqs (draft_Act draft) "" then unknownIntentDraft "unknown_intent" else draft in
        let draft := if existsb (eqs status) [IntentCompileInvalidOutput; IntentCompileTimeout;
                                              IntentCompileTransportError]
                     then unknownIntentDraft (fallbackReasonForStatus status) else draft in
        mkCompileResult draft candidates (unknown_decision draft "no_safe_candidate") "" true status
          (ir_Attempts reply) (fallbackReasonForStatus status)
    end.

(** [operationCompiler.Compile]; the error comes with a zero result. *)
Definition Compile_operation (intent : option (IntentCompiler (W := W))) (mode : string) (input : protocolInput)
  : ST W OperationCompileResult := fun w =>
  let message := trim_space (pin_Message input) in
  let workflow := pin_ActiveWorkflow input in
  if eqs message "" then (Ok empty_message_result, w)
  else match ctx_err w with
  | Some e => (Err e, w)
  | None =>
      let candidates := workflow_candidates message workflow in
      match (if eqs mode "short_circuit" then uniqueSafeDeterministicCandidates candidates true else []) with
      | (_ :: _) as exact =>
          let decision := Decide_operation workflow exact in
          (Ok (mkCompileResult (ad_Draft decision) candidates decision CompilerSourceDeterministic false
                 IntentCompileSkipped 0 ""), w)
      | [] =>
          match intent with
          | None => (Ok (compiler_unavailable candidates), w)
          | Some Compile =>
              match Compile (mkIntentRequest message (pin_RecentMessages input)
                               (intentCompileWorkflowContext <$> workflow)) w with
              | (Err e, w) => (Err e, w)
              | (Ok reply, w) =>
                  match ctx_err w with
                  | Some e => (Err e, w)
                  | None => (Ok (decide_reply mode workflow candidates reply), w)
                  end
              end
          end
      end
  end.

Definition compileProtocolWithCompilerMode (input : protocolInput) (compiler : option (IntentCompiler (W := W)))
  (mode : string) : ST W OperationCompileResult := fun w =>
  if eqs (trim_space (pin_Message input)) "" then (Ok empty_message_result, w)
  else match compiler with
  | None => (Ok (compiler_unavailable []), w)
  | Some _ => Compile_operation compiler (compiler_mode mode) input w
  end.
Definition compileProtocolWithCompiler (input : protocolInput) (compiler : option (IntentCompiler (W := W)))
  : ST W OperationCompileResult := compileProtocolWithCompilerMode input compiler "short_circuit".
End compile.
