(* ===== verification/Renderer.v ===== *)
(** * Capabilities and the response renderer

    internal/agent/capability_catalog.go, capabilities.go, the capability reply
    of agent.go and response_renderer.go: the text of a structured response.

    A port's data is one of the shapes of tools/types.go the renderer reads. *)
From Stdlib Require Import ZArith Lia Bool String.
From stdpp Require Import base list strings gmap.
From S2P Require Import Prelude GoStrings Contract Codec Catalog Request Policy Executor Text.
#[local] Open Scope go_scope.

(** ** The capability view of the catalogue *)

Record CapabilityEntry := mkCapabilityEntry {
  ce_OperationScope : string; ce_Title : string; ce_Description : string; ce_MinRole : Z;
  ce_ConversationScope : string; ce_AnswerOnly : bool }.
Definition capability_entry (m : OperationManifest) : option CapabilityEntry :=
  cap ← om_Capability m;
  Some (mkCapabilityEntry (om_Name m) (cap_Title cap) (cap_Description cap) (om_MinRole m) (om_Scope m)
          (cap_AnswerOnly cap)).
Definition capabilityCatalogEntries : list CapabilityEntry := omap capability_entry operationManifests.
Definition lookupCapability (operation : string) : option CapabilityEntry :=
  List.find (fun e => eqs (ce_OperationScope e) operation) capabilityCatalogEntries.

Definition matchesConversationScope (scope conversationType : string) : bool :=
  if eqs scope "both" || eqs scope "" then true
  else if eqs scope "dm" then negb (eqs conversationType "2")
  else if eqs scope "group" then eqs conversationType "2"
  else false.
Definition capabilityEntriesFor (role : Z) (conversationType : string) : list CapabilityEntry :=
  List.filter (fun e => negb (role <? ce_MinRole e) && matchesConversationScope (ce_ConversationScope e) conversationType)
    capabilityCatalogEntries.

(** *** capabilities.go *)

Record capability := mkCap {
  cb_Title : string; cb_Description : string; cb_ToolNames : list string; cb_MinRole : Z;
  cb_ConversationScope : string; cb_FollowUpHint : string }.
Definition listCapabilities : list capability := [
  mkCap "课表查询" "查询自己的课表、指定姓名用户的课表、空闲人员和作息时间。"
    ["query_my_schedule"; "query_user_schedule"; "query_free_users_by_slot"; "query_schedule_info"] 0 "both" "";
  mkCap "考勤与请假查询" "查询考勤状态、请假记录、休息日和周排行。"
    ["query_attendance_status"; "query_my_leave"; "query_rest_days"; "query_weekly_absence_ranking";
     "query_weekly_attendance_ranking"] 0 "both" "";
  mkCap "人员交叉筛选" "按课表、缺勤和部门条件交叉查询人员。" ["query_user_cross"] 0 "both" "";
  mkCap "考勤统计分析" "按周次、日期、用户或部门查看考勤统计。" ["query_attendance_stats"] 1 "both" "";
  mkCap "管理员补签" "为指定用户补签某节次考勤。" ["sign_for_user"] 1 "both" "";
  mkCap "群考勤订阅管理" "在群聊里开启、取消或查询考勤推送订阅，并可先查看可选部门。"
    ["subscribe_attendance_push"; "unsubscribe_attendance_push"; "query_subscription_status"; "list_departments"]
    1 "group" "如果要按部门订阅，我会先列出可选部门再让你确认。"].
Definition filterCapabilities (caps : list capability) (role : Z) (conversationType : string) : list capability :=
  List.filter (fun c => negb (role <? cb_MinRole c) && matchesConversationScope (cb_ConversationScope c) conversationType)
    caps.

Definition newline : string := of_bytes [10].
(** [fmt.Sprintf("- %s：%s\n", title, description)] *)
Definition bullet (title description : string) : string := "- " +:+ title +:+ "：" +:+ description +:+ newline.
Definition concat_text (l : list string) : string := String.concat "" l.

Definition directlyUsableCapability (e : CapabilityEntry) : bool :=
  match lookupOperation (ce_OperationScope e) with
  | Some m => match om_Capability m with Some cap => cap_DirectlyUsable cap | None => false end
  | None => false
  end.
Definition no_direct_capability : string := "- 当前没有可直接执行的聊天能力" +:+ newline.

(** [user] is the role and the kind of conversation, when there is a user. *)
Definition buildHelpReply (user : option (Z * string)) : string :=
  let '(role, convType) := default (0, "1") user in
  let caps := capabilityEntriesFor role convType in
  let line e := bullet (ce_Title e) (ce_Description e) in
  let direct := List.filter directlyUsableCapability caps in
  trim_space
    ("我可以帮助处理这些系统能力：" +:+ newline +:+ concat_text (line <$> caps)
     +:+ (match caps with
          | [] => concat_text ((fun c => bullet (cb_Title c) (cb_Description c))
                                 <$> filterCapabilities listCapabilities role convType)
          | _ => ""
          end)
     +:+ newline +:+ "你当前在这个会话里可直接使用：" +:+ newline
     +:+ match direct with [] => no_direct_capability | _ => concat_text (line <$> direct) end).

Definition buildManualSignCapabilityReply (user : option (Z * string)) : string :=
  if match user with Some (role, _) => 1 <=? role | None => false end
  then "代签（补签）属于管理员能力；当前聊天路径只说明权限、规则和所需信息，不直接执行代签。"
  else "代签（补签）属于管理员能力；普通用户不能通过当前聊天路径执行代签。".
Definition capabilityOperationForDomain (domain : string) : string :=
  match List.find (fun m => eqs (om_Domain m) domain && negb (bool_decide (om_Capability m = None))) operationManifests with
  | Some m => om_Name m
  | None => ""
  end.
Definition in_group (user : option (Z * string)) : bool := match user with Some (_, t) => eqs t "2" | None => false end.
Definition buildProtocolCapabilityReply (domain : string) (user : option (Z * string)) : string :=
  match lookupCapability (capabilityOperationForDomain domain) with
  | Some entry =>
      if eqs domain DomainSubscription && negb (in_group user)
      then "群考勤订阅只能在群聊中使用；在群聊里管理员可以开启、取消或查询考勤推送订阅。"
      else if eqs domain DomainSubscription && match user with Some (role, _) => role <? 1 | None => false end
      then "你可以在群聊里查询当前群的考勤订阅状态；开启、取消或按部门管理订阅需要管理员权限。"
      else if eqs domain DomainManualSign then buildManualSignCapabilityReply user
      else ce_Description entry
  | None => buildHelpReply user
  end.

(** ** The data the renderer reads *)

Record AttendanceResult := mkAttendanceResult {
  at_Date : string; at_Section : Z; at_ViewMode : string; at_ShouldAttend : Z; at_OnTimeCount : Z;
  at_LateCount : Z; at_LeaveCount : Z; at_AbsentCount : Z }.
Record UserDayAttendanceSlot := mkDaySlot { ds_Section : Z; ds_Status : string; ds_LeaveType : string }.
Record UserDayAttendanceStatus := mkDayStatus {
  dy_Date : string; dy_UserID : Z; dy_UserName : string; dy_Slots : list UserDayAttendanceSlot }.
Record CourseItem := mkCourseItem { cr_CourseName : string; cr_DayOfWeek : Z; cr_Section : Z; cr_Location : string }.

(** What the ports of the executor return; a nil pointer is [None]. *)
Inductive port_data : Type :=
  | AttendanceData (r : option AttendanceResult)
  | UserDayData (s : option UserDayAttendanceStatus)
  | CourseData (c : CourseItem).

(** ** response_renderer.go *)

Definition weekdayName (day : Z) : string :=
  if day =? 1 then "周一" else if day =? 2 then "周二" else if day =? 3 then "周三" else if day =? 4 then "周四"
  else if day =? 5 then "周五" else if day =? 6 then "周六" else if day =? 7 then "周日"
  else "周" +:+ itoa day.

Definition buildAttendanceStatusReply (result : option AttendanceResult) : string :=
  match result with
  | None => "未查询到相关考勤数据。"
  | Some r =>
      at_Date r +:+ "第" +:+ itoa (at_Section r) +:+ "节考勤状态：应到" +:+ itoa (at_ShouldAttend r) +:+ "人，正常"
      +:+ itoa (at_OnTimeCount r) +:+ "人，迟到" +:+ itoa (at_LateCount r) +:+ "人，请假" +:+ itoa (at_LeaveCount r)
      +:+ "人，" +:+ (if eqs (at_ViewMode r) "current" then "当前未到" else "未到") +:+ itoa (at_AbsentCount r) +:+ "人。"
  end.

Definition course_detail (c : CourseItem) : string :=
  let name := if blank (cr_CourseName c) then "未命名课程" else trim_space (cr_CourseName c) in
  let location := trim_space (cr_Location c) in
  if (0 <? cr_DayOfWeek c) || (0 <? cr_Section c) || negb (eqs location "") then
    name +:+ "（" +:+ join " " ((if 0 <? cr_DayOfWeek c then [weekdayName (cr_DayOfWeek c)] else [])
                                ++ (if 0 <? cr_Section c then ["第" +:+ itoa (cr_Section c) +:+ "节"] else [])
                                ++ (if eqs location "" then [] else [location])) +:+ "）"
  else name.
Definition buildScheduleResultReply (week : Z) (userName : string) (courses : list CourseItem) : string :=
  let prefix := trim_space userName +:+ "第" +:+ itoa week +:+ "周课表" in
  match courses with
  | [] => prefix +:+ "没有查询到课程。"
  | _ => prefix +:+ "：" +:+ join "；" (course_detail <$> courses)
  end.

Definition no_knowledge : string := "当前租户还没有配置可用于回答这个问题的规则说明。".
Definition knowledge_part (h : KnowledgeHit) : option string :=
  let body := trim_space (kh_Body h) in
  if eqs body "" then None
  else
    let ref := trim_space (kh_SourceRef h) in
    Some (if eqs ref "" then body else body +:+ "（来源：" +:+ ref +:+ "）").
Definition buildKnowledgeAnswer (hits : list KnowledgeHit) : string :=
  match omap knowledge_part hits with [] => no_knowledge | parts => join newline parts end.

Definition userDayAttendanceStatusLabel (s : UserDayAttendanceSlot) : string :=
  let st := ds_Status s in
  if eqs st "on_time" then "正常"
  else if eqs st "late" then "迟到"
  else if eqs st "leave" then
    if blank (ds_LeaveType s) then "请假" else "请假（" +:+ trim_space (ds_LeaveType s) +:+ "）"
  else if eqs st "not_arrived" then "未到"
  else if eqs st "rest_day" then "休息日"
  else if eqs st "has_course" then "有课"
  else if eqs st "should_attend" then "应到" else "".
Definition day_part (s : UserDayAttendanceSlot) : option string :=
  let label := userDayAttendanceStatusLabel s in
  if eqs label "" then None else Some ("第" +:+ itoa (ds_Section s) +:+ "节" +:+ label).
Definition buildUserDayAttendanceStatusReply (status : option UserDayAttendanceStatus) : string :=
  match status with
  | None => "未查询到该用户当天考勤状态。"
  | Some s =>
      let name := if blank (dy_UserName s) then "用户" +:+ itoa (dy_UserID s) else trim_space (dy_UserName s) in
      match omap day_part (dy_Slots s) with
      | [] => name +:+ " " +:+ dy_Date s +:+ " 未查询到考勤状态。"
      | parts => name +:+ " " +:+ dy_Date s +:+ " 考勤状态：" +:+ join "，" parts +:+ "。"
      end
  end.

Definition buildSubscriptionStatusReply (info : option GroupSubInfo) : string :=
  match info with
  | None => "当前群还没有订阅考勤推送。"
  | Some i =>
      if negb (gs_Subscribed i) then "当前群还没有订阅考勤推送。"
      else if negb (gs_PushEnabled i) then "当前群已订阅考勤推送，但后台已暂停自动推送。请联系管理员在后台恢复。"
      else "当前群已订阅考勤推送。" +:+ match gs_DeptIDs i with [] => "" | _ => "目前是按指定部门范围推送。" end
  end.

Definition renderOperationStatus (code status : string) (pushEnabled : option bool) : string :=
  if eqs code "subscription_started" then
    match pushEnabled with
    | Some false =>
        if eqs status WriteStatusUpdated
        then "已更新此群考勤推送范围，但后台已暂停自动推送。请联系管理员在后台恢复。"
        else "此群已订阅考勤推送，但后台已暂停自动推送。请联系管理员在后台恢复。"
    | _ =>
        if eqs status WriteStatusAlreadyExists then "此群已经开启考勤推送，无需重复开启。"
        else if eqs status WriteStatusUpdated then "已更新此群考勤推送范围。"
        else if eqs status WriteStatusNoOp then "此群考勤推送未发生变化。"
        else "已为此群开启考勤推送"
    end
  else if eqs code "subscription_cancelled" then
    if eqs status WriteStatusNoOp then "当前群还没有开启考勤自动推送，无需取消。" else "已取消此群的考勤自动推送"
  else "".

Definition containsField (fields : list string) (target : string) : bool := existsb (fun f => eqs f target) fields.
Definition renderMissingFieldsClarify (operation : string) (fields : list string) : string :=
  let has := containsField fields in
  match fields with
  | [] => ""
  | _ =>
      if eqs operation "schedule.query_user_schedule" && has "user_id"
      then "请告诉我要查询哪位用户的课程信息，例如：查询杨思见的课程信息。"
      else if eqs operation "attendance.query_status" && has "date" && has "section" then "请补充要查询哪一天和第几节。"
      else if eqs operation "subscription.start" && has "scope" then "请选择订阅范围：全部人员 / 指定部门。"
      else if eqs operation "subscription.start" && has "dept_names" then "请从部门选项中选择，或输入准确部门名。"
      else if eqs operation "attendance.query_status" && has "section" then "请补充要查询第几节。"
      else if eqs operation "attendance.query_status" && has "date" then "请补充要查询哪一天。"
      else ""
  end.

Definition looksLikeInternalPayload (text : string) : bool :=
  let lower := ToLower text in
  contains lower "error_code" || contains lower "internalerror"
  || (has_prefix text "{" && has_suffix text "}") || (has_prefix text "[" && has_suffix text "]").
Definition safeProtocolText (v : string) : string :=
  let text := trim_space v in
  if eqs text "" || looksLikeInternalPayload text then "" else text.

(** [idx] is the index of the first label. *)
Fixpoint numbered (idx : Z) (labels : list string) : list string :=
  match labels with [] => [] | l :: labels => (itoa (idx + 1) +:+ ". " +:+ l) :: numbered (idx + 1) labels end.
Definition renderNumberedOptions (labels : list string) : string := join newline (numbered 0 labels).
Definition option_label (o : ResponseOption) : string :=
  let label := trim_space (ro_Label o) in if eqs label "" then trim_space (ro_Value o) else label.
Definition option_labels (options : list ResponseOption) : list string :=
  List.filter (fun l => negb (eqs l "")) (option_label <$> options).

Definition course_of (d : port_data) : option CourseItem := match d with CourseData c => Some c | _ => None end.
Definition renderAnswerPayload (p : payload port_data) : string :=
  match p with
  | CapabilityAnswerPayload domain role conversationType =>
      if eqs domain DomainSystem then buildHelpReply (Some (role, conversationType))
      else buildProtocolCapabilityReply domain (Some (role, conversationType))
  | KnowledgeAnswerPayload hits => buildKnowledgeAnswer hits
  | _ => ""
  end.
Definition renderResultPayload (p : payload port_data) : string :=
  match p with
  | AttendanceStatusPayload (AttendanceData r) => buildAttendanceStatusReply r
  | UserDayAttendanceStatusPayload (UserDayData s) => buildUserDayAttendanceStatusReply s
  | ScheduleResultPayload week userName courses => buildScheduleResultReply week userName (omap course_of courses)
  | SubscriptionStatusPayload info => buildSubscriptionStatusReply info
  | OperationStatusPayload code status pushEnabled => renderOperationStatus code status pushEnabled
  | _ => ""
  end.

(** The first text that is not empty. *)
Definition first_text (fallback : string) (texts : list string) : string :=
  default fallback (List.find (fun t => negb (eqs t "")) texts).
Definition choose_again : string := "请从可选项中明确选择后再继续。".

Definition renderProtocolResponse (model : ResponseModel port_data) : string :=
  let kind := rm_Kind model in
  if eqs kind ResponseAnswer then
    if eqs (trim_space (rm_BusinessError model)) "no_knowledge_hit" then no_knowledge
    else first_text "我可以先回答你的能力、规则或查询问题。"
           [renderAnswerPayload (rm_Payload model); safeProtocolText (rm_Message model);
            safeProtocolText (rm_Answer model)]
  else if eqs kind ResponseClarify then
    let reason := trim_space (rm_ClarifyReason model) in
    first_text
      (if eqs reason "intent_timeout" then "意图理解服务响应超时，请稍后重试。"
       else if eqs reason "intent_parse_failed" then "意图理解服务返回异常，请稍后重试。"
       else if eqs reason "intent_compiler_unavailable" then "意图理解服务暂时不可用，请稍后重试。"
       else if eqs reason "unknown_intent" then
         "请再明确一下你的问题。你可以说：查询今天第二节考勤状态、查我的课表、开启本群考勤订阅。"
       else if eqs reason "subscription_missing_fields" then "请选择订阅范围：全部人员 / 指定部门。"
       else if eqs reason "missing_attendance_fields" then "请补充要查询的日期和第几节。"
       else "请再明确一下你的需求。")
      [renderMissingFieldsClarify (rm_Operation model) (rm_MissingFields model); safeProtocolText (rm_Message model)]
  else if eqs kind ResponseSelectOptions then
    match option_labels (rm_Options model) with
    | [] => choose_again
    | labels => "请从这些选项中明确选择：" +:+ newline +:+ renderNumberedOptions labels
    end
  else if eqs kind ResponseResult then
    first_text "操作已完成。"
      [safeProtocolText (rm_Message model); renderResultPayload (rm_Payload model);
       safeProtocolText (rm_ResultText model)]
  else if eqs kind ResponseRefuse then
    first_text "抱歉，我当前不能直接执行这个请求。"
      [safeProtocolText (rm_Message model); safeProtocolText (rm_RefusalReason model)]
  else if eqs kind ResponseConfirm then first_text "请确认是否执行该操作。" [safeProtocolText (rm_Message model)]
  else "请再明确一下你的需求。".
