(* ===== verification/Live.v ===== *)
(** * The live pipeline

    internal/agent/protocol_live_pipeline.go (the handler), and the parts it is
    made of: protocol_live_context.go, protocol_live_guardrail.go,
    protocol_live_request_builder.go, protocol_live_subscription_workflow.go and
    protocol_live_dispatch.go, on top of the outcome record and [execute] of
    Outcome.v.

    The ports act on a world of any type.  The department list is a read, which
    leaves the world as it is: the resource gate and the resolver both make it.
    The clocks, the request identifier, the latency and the diagnostic text of a
    draft are functions of the world. *)
From Stdlib Require Import ZArith QArith Lia Bool String.
From stdpp Require Import base list strings gmap.
From coqutil Require Import Datatypes.RecordSettersUsingExistingGetters.
From S2P Require Import Prelude GoStrings GoTime Contract Codec Catalog Store Request Policy Workflow.
From S2P Require Import BusinessKey Executor Outcome Calendar Text Entity Llm Intent Compiler Renderer.
Import RecordSetNotations1.
#[local] Open Scope go_scope.

(** ** protocol_live_context.go *)

Definition from_user {A} (f : UserContext -> A) (zero : A) (uctx : option UserContext) : A :=
  match uctx with Some u => f u | None => zero end.
Definition inputUserRole : option UserContext -> Z := from_user uc_UserRole 0.
Definition userTenantID : option UserContext -> Z := from_user uc_TenantID 0.
Definition userConversationID : option UserContext -> string := from_user uc_ConversationID "".
Definition userConversationType : option UserContext -> string := from_user uc_ConversationType "".
Definition userActorUserID : option UserContext -> Z := from_user uc_UserID 0.
(** What a capability reply looks at. *)
Definition user_view (uctx : option UserContext) : option (Z * string) :=
  (fun u => (uc_UserRole u, uc_ConversationType u)) <$> uctx.

(** ** Slots of a draft *)

Definition draftSlotRaw (draft : ProtocolDraft) (field : string) : string :=
  match draft_Slots draft !! field with Some slot => trim_space (slot_Raw slot) | None => "" end.
(** The first slot declared for the parameter that has text. *)
Definition draftRawSlotForTarget (manifest : OperationManifest) (draft : ProtocolDraft) (targetParam : string) : string :=
  default "" (List.find (fun raw => negb (eqs raw ""))
    ((fun spec => draftSlotRaw draft (rs_RawName spec)) <$>
       List.filter (fun spec => eqs (rs_TargetParam spec) targetParam) (rec_RawSlots (om_Recognition manifest)))).
Definition protocolRuleTopic (message : string) (draft : ProtocolDraft) : string :=
  let raw := match lookupOperation (draft_Operation draft) with
             | Some m => draftRawSlotForTarget m draft "rule_topic"
             | None => ""
             end in
  if eqs raw "" then trim_space message else raw.

Definition normalizeSubscriptionScope (raw : string) : string :=
  let normalized := normalizeQuery raw in
  if containsAny normalized ["全部人员"; "全部"] then "all"
  else if containsAny normalized ["指定部门"; "部分部门"; "部门"] then "department" else "".

(** ** Candidates of a workflow *)

Definition workflowCollectedLabels (w : WorkflowSnapshot) : gmap string string :=
  filter (fun e : string * string => e.2 <> "") ((fun e => trim_space (ent_Label e)) <$> wf_TrustedEntities w).
Definition protocolWorkflowContextFromWorkflowSnapshot (w : WorkflowSnapshot) : protocolWorkflowContext :=
  mkWorkflowContext (wf_Type w) (wf_State w) (workflowMissingFields w) (cloneWorkflowCandidates (wf_Candidates w))
    (workflowCollectedLabels w).

(** A candidate to keep, unless it has neither id nor label. *)
Definition kept_candidate (id label : string) (v : string -> value) (tenantID : Z) : option Candidate :=
  let id := trim_space id in
  let label := trim_space label in
  if eqs id "" && eqs label "" then None
  else Some (mkCandidate id (firstNonEmpty [label; id]) (v id) tenantID).
Definition set_candidates (field : string) (candidates : list Candidate) (w : WorkflowSnapshot) : WorkflowSnapshot :=
  match candidates with [] => w | _ => with_candidates (<[field := candidates]> (wf_Candidates w)) w end.
Definition persistWorkflowCandidatesFromResponse (field : string) (options : list ResponseOption) (tenantID : Z)
  (w : WorkflowSnapshot) : WorkflowSnapshot :=
  set_candidates field (omap (fun o => kept_candidate (ro_Value o) (ro_Label o) VString tenantID) options) w.
Definition entity_option_candidate (o : EntityCandidate) : option Candidate :=
  kept_candidate (ec_ID o) (ec_Label o) (fun _ => ec_Value o) (ec_TenantID o).
Definition persistWorkflowCandidatesFromEntityCandidates (field : string) (options : list EntityCandidate)
  (w : WorkflowSnapshot) : WorkflowSnapshot := set_candidates field (omap entity_option_candidate options) w.
Definition responseOptionsFromEntityCandidates (candidates : list EntityCandidate) : list ResponseOption :=
  (fun c => mkOption (ec_Label c) (ec_ID c)) <$> candidates.

(** The trusted entities of a turn, from the few a step fills in. *)
Definition trusted_scope (tenantID : Z) (scope : string) : trustedEntities :=
  te_with_scope scope (mkTrusted tenantID 0 [] 0 "" "" 0 0 "" "" "" 0 ∅).
Definition trusted_depts (tenantID d : Z) (l : list Z) (ps : gmap string TrustedParam) : trustedEntities :=
  te_with_params ps (te_with_depts d l (trusted_scope tenantID "department")).

Definition trustedEntitiesFromDepartmentCandidate (c : Candidate) (message : string) (tenantID : Z)
  : option trustedEntities :=
  if negb (tenantID =? 0) && negb (cand_TenantID c =? tenantID) then None
  else
    deptID ← candidateInt64 c;
    if deptID =? 0 then None
    else
      let source := mkSource TrustedParamSourceCandidate message "workflow_candidate" in
      Some (trusted_depts 0 deptID [deptID]
              (<["scope" := trustedParam "scope" (VString "department") (cand_TenantID c) source]>
                 (<["dept_ids" := trustedParam "dept_ids" (VInt64s [deptID]) (cand_TenantID c) source]> ∅))).
(** [None] when the message chooses nothing, [Some None] when it does and is
    refused. *)
Definition workflowDepartmentCandidateSelection (w : WorkflowSnapshot) (message : string) (tenantID : Z)
  : option (option trustedEntities) :=
  let selection := resolveCandidateSelection message tenantID (default [] (wf_Candidates w !! "dept_ids")) in
  if negb (sl_Handled selection) then None
  else if negb (sl_OK selection) then Some None
  else Some (c ← sl_Candidate selection; trustedEntitiesFromDepartmentCandidate c message tenantID).

Definition subscriptionDeptIDsFromTrusted (t : trustedEntities) : list Z :=
  match te_DeptIDs t with
  | [] => if eqs (te_Scope t) "department" && negb (te_DepartmentID t =? 0) then [te_DepartmentID t] else []
  | l => l
  end.
(** Zero tenants are filled in. *)
Definition tenant_param (tenantID : Z) (p : TrustedParam) : TrustedParam :=
  if tp_TenantID p =? 0 then mkTrustedParam (tp_Field p) (tp_Value p) (tp_Source p) tenantID else p.
Definition subscriptionStartTrustedParams (uctx : option UserContext) (trusted : trustedEntities) (deptIDs : list Z)
  : gmap string TrustedParam :=
  let tenantID := userTenantID uctx in
  let source := mkSource TrustedParamSourceWorkflow "" "subscription_workflow" in
  let ps := trustedParamsFromValues tenantID (mkSource TrustedParamSourceRuntime "" "conversation_runtime")
              (<["conversation_id" := VString (userConversationID uctx)]> ∅) in
  let ps := (tenant_param tenantID <$> te_TrustedParams trusted) ∪ ps in
  let ps := add_param (negb (eqs (te_Scope trusted) "")) "scope"
              (trustedParam "scope" (VString (te_Scope trusted)) tenantID source) ps in
  add_param (negb (bool_decide (deptIDs = []))) "dept_ids" (trustedParam "dept_ids" (VInt64s deptIDs) tenantID source) ps.

Definition protocolResolvedSlotsFromTrusted (t : trustedEntities) : gmap string value :=
  let put (b : bool) (field : string) (v : value) (m : gmap string value) := if b then <[field := v]> m else m in
  put (negb (eqs (te_Date t) "")) "date" (VString (te_Date t))
  (put (negb (te_Week t =? 0)) "week" (VInt (te_Week t))
  (put (negb (te_Section t =? 0)) "section" (VInt (te_Section t))
  (put (negb (te_UserID t =? 0)) "user_id" (VUint (te_UserID t))
  (put (negb (eqs (te_Scope t) "")) "scope" (VString (te_Scope t))
  (put (negb (bool_decide (te_DeptIDs t = [])) || negb (te_DepartmentID t =? 0)) "dept_ids"
     (VInt64s match te_DeptIDs t with [] => [te_DepartmentID t] | l => l end)
  (put (negb (eqs (te_QueryShape t) "")) "query_shape" (VString (te_QueryShape t)) ∅)))))).

(** session.go *)
Definition workflowResultTerminal (r : WorkflowResult) : bool :=
  match wr_Decision r with
  | WorkflowCompletedDecision | WorkflowCanceled | WorkflowInterrupted => true
  | _ => match wr_Workflow r with
         | Some w => existsb (eqs (wf_State w)) [WorkflowCompleted; WorkflowCancelled; WorkflowInterruptedState]
         | None => false
         end
  end.

(** ** Refusals: protocol_live_guardrail.go *)

Section guardrail.
Context {D : Type}.

Definition clarify_response (operation reason : string) (fields : list string) : ResponseModel D :=
  mkResponse ResponseClarify operation "" "" reason fields [] "" "" "" NoPayload.
Definition answer_response (answer : string) : ResponseModel D :=
  mkResponse ResponseAnswer "" "" answer "" [] [] "" "" "" NoPayload.
Definition group_only : string := "群考勤订阅只能在群聊中使用。请在对应群聊里再告诉我。".

(** [Some response] when the role is too low. *)
Definition protocolLiveRoleRefusal (uctx : option UserContext) (draft : ProtocolDraft) : option (ResponseModel D) :=
  if eqs (draft_Act draft) ActWorkflowCancel then None
  else match lookupOperation (draft_Operation draft) with
  | None => None
  | Some m =>
      if om_MinRole m <=? 0 then None
      else if match uctx with Some u => om_MinRole m <=? uc_UserRole u | None => false end then None
      else Some (refuse "该操作需要管理员权限。")
  end.

Definition protocolUnknownIntentReasonCode (draft : ProtocolDraft) : string :=
  let reason := trim_space (firstNonEmpty [draft_ClarifyReason draft; draft_Reason draft]) in
  if existsb (eqs reason) ["empty_message"; "intent_parse_failed"; "intent_timeout"; "intent_compiler_unavailable";
                           "operation_not_allowed"] then reason else "unknown_intent".

Definition protocolLiveGuardrailResponse (draft : ProtocolDraft) (validation : ProtocolValidationResult)
  (uctx : option UserContext) : ResponseModel D * string :=
  let act := draft_Act draft in
  let code := pv_ValidationCode validation in
  let refused := (refuse "抱歉，我当前不能直接执行这个请求。", answerModeReject) in
  if eqs act ActCapabilityQuestion then
    (answer_response (buildProtocolCapabilityReply (draft_Domain draft) (user_view uctx)), answerModeToolFirst)
  else if eqs act ActHelp then (answer_response (buildHelpReply (user_view uctx)), answerModeToolFirst)
  else if eqs act ActUnknown then
    (clarify_response "" (protocolUnknownIntentReasonCode draft) [], answerModeReject)
  else if eqs code "conversation_scope_denied" then
    if eqs (draft_Domain draft) DomainSubscription then (refuse group_only, answerModeReject) else refused
  else if existsb (eqs code) ["operation_not_allowed"; "act_operation_mismatch"; "read_query_cannot_write";
                              "unsupported_act"; "domain_operation_mismatch"; "workflow_operation_mismatch";
                              "role_denied"] then refused
  else (clarify_response "" "unknown_intent" [], answerModeReject).
End guardrail.

(** ** The pipeline *)

Section pipeline.
Context {W D : Type} `{Location}.

Record protocolLivePipelineDeps := mkLiveDeps {
  pd_Compiler : option (IntentCompiler (W := W));
  pd_CompilerMode : string;
  pd_Executor : operationExecutorDeps W D;
  pd_User : option (string -> ST W (list UserInfo));
  pd_Dept : option (W -> res (list DeptItem));
  pd_Semester : option (weekProvider (W := W));
  pd_SchedulePeriod : option (ST W (list PeriodInfo));
  pd_Clock : W -> Z
}.
Record protocolLiveInput := mkLiveInput {
  li_Message : string;
  li_RecentMessages : list Message;
  li_User : option UserContext;
  li_ActiveWorkflow : option WorkflowSnapshot
}.

Variable ctx_err : W -> option err.
(** [time.Now().UnixNano()] *)
Variable unix_nano : W -> Z.
(** [newProtocolLiveRequestID] *)
Variable request_id : W -> string.
Variable elapsed_ms : W -> W -> Z.
(** [json.Marshal] of a draft *)
Variable draft_json : ProtocolDraft -> string.
(** [fmt.Sprint] of the dynamic types the idempotency key does not expect *)
Variable other : value -> string.
Variable p : protocolLivePipelineDeps.

Notation outcome := (protocolLiveOutcome D).
Notation respond := (setProtocolOutcomeResponse (D := D)).

Definition dept_answer (w : W) : option (res (list DeptItem)) := (fun ListDepts => ListDepts w) <$> pd_Dept p.
Definition live_execute (uctx : option UserContext) (req : OperationRequest) (o : outcome) (w : W) : outcome * W :=
  execute other (pd_Executor p) (dept_answer w) uctx req o w.
(** A request with nothing but the operation. *)
Definition plain_request (operation : string) : OperationRequest := mkOperationRequest operation 0 0 "" ∅ "".
Definition guardrail (draft : ProtocolDraft) (validation : ProtocolValidationResult) (uctx : option UserContext)
  (o : outcome) : outcome :=
  let '(response, mode) := protocolLiveGuardrailResponse draft validation uctx in respond response mode o.

(** *** Building a read request *)

Definition schedulePeriods (w : W) : list PeriodInfo * W :=
  match pd_SchedulePeriod p with
  | None => ([], w)
  | Some GetScheduleInfo => match GetScheduleInfo w with (Ok periods, w) => (periods, w) | (Err _, w) => ([], w) end
  end.

(** [Ok req], or the response that ends the turn. *)
Definition built : Type := OperationRequest + ResponseModel D.

Definition set_trusted_param (field : string) (o : option TrustedParam) (ps : gmap string TrustedParam)
  : gmap string TrustedParam := match o with Some q => <[field := q]> ps | None => ps end.
Definition rz_ok (r : ResolveResult) : bool := eqs (rz_Status r) ResolveResolved.

(** The user a raw name stands for, in an attendance question: the identifier
    and its parameter, nothing, or the options to choose from. *)
Definition attendance_user (tenantID : Z) (userRaw : string) (w : W)
  : (option (Z * option TrustedParam) + ResponseModel D) * W :=
  match pd_User p with
  | Some SearchByName =>
      if eqs userRaw "" then (inl None, w)
      else match SearchByName userRaw w with
      | (Err _, w) => (inl None, w)
      | (Ok users, w) =>
          let resolved := resolveUserParam (RawSlot "user_id" userRaw (resolve_ctx tenantID)) users in
          if eqs (rz_Status resolved) ResolveResolved then
            match rz_Value resolved with
            | VUint userID => (inl (Some (userID, rz_Param resolved)), w)
            | _ => (inl None, w)
            end
          else if eqs (rz_Status resolved) ResolveAmbiguous then
            (inr (select_options (responseOptionsFromEntityCandidates (rz_Candidates resolved))), w)
          else (inl None, w)
      end
  | None => (inl None, w)
  end.

(** The week of today, when the request has none. *)
Definition default_week (tenantID : Z) (req : OperationRequest) (w : W) : OperationRequest * W :=
  match req_TrustedParams req !! "week", pd_Semester p with
  | None, Some GetCurrentWeek =>
      match GetCurrentWeek w with
      | (Ok (week, _), w) =>
          (if 0 <? week
           then with_params (<["week" := trustedParam "week" (VInt week) tenantID
                                          (mkSource TrustedParamSourceDefault "" "semester_default")]>
                               (req_TrustedParams req)) req
           else req, w)
      | (Err _, w) => (req, w)
      end
  | _, _ => (req, w)
  end.

Definition attendanceRequest (draft : ProtocolDraft) (tenantID : Z) (w : W) : built * W :=
  match lookupOperation (draft_Operation draft) with
  | None => (inr unsupportedOperationResponse, w)
  | Some manifest =>
      let raw := draftRawSlotForTarget manifest draft in
      let ctx := resolve_ctx tenantID in
      let shape := raw "query_shape" in
      let ps := if eqs shape "" then ∅
                else <["query_shape" := trustedParamFromContext (RawSlot "query_shape" shape ctx) "query_shape"
                                          (VString shape) "query_shape_slot"]> (∅ : gmap string TrustedParam) in
      let now := pd_Clock p w in
      let dateInput := if eqs (raw "date") "" then Default_slot "date" ctx else RawSlot "date" (raw "date") ctx in
      let date := resolveDateParam dateInput SlotDefaultToday now in
      let ps := if rz_ok date then set_trusted_param "date" (rz_Param date) ps else ps in
      let dateText := match rz_Value date with VString s => if rz_ok date then s else "" | _ => "" end in
      let '(periods, w) := schedulePeriods w in
      let section := resolveSectionParam (RawSlot "section" (raw "section") ctx) periods now in
      let '(n, ps) := match rz_ok section, rz_Value section with
                      | true, VInt n => (n, set_trusted_param "section" (rz_Param section) ps)
                      | _, _ => (0, ps)
                      end in
      match attendance_user tenantID (raw "user_id") w with
      | (inr response, w) => (inr response, w)
      | (inl user, w) =>
          let '(userID, shape, ps) :=
            match user with
            | Some (userID, param) =>
                (userID, "user_day_status",
                 <["query_shape" := trustedParam "query_shape" (VString "user_day_status") tenantID
                                      (mkSource TrustedParamSourceDerived "" "attendance_user_resolver")]>
                   (set_trusted_param "user_id" param ps))
            | None => (0, shape, ps)
            end in
          let trusted := mkTrusted tenantID 0 [] userID "" dateText n 0 "" "" shape 0 ps in
          match buildOperationRequest draft trusted with
          | None => (inr (clarify_response "" "missing_attendance_fields" []), w)
          | Some req => let '(req, w) := default_week tenantID req w in (inl req, w)
          end
      end
  end.

Definition schedule_user (draft : ProtocolDraft) (tenantID : Z) (userRaw : string) (w : W)
  : (Z * option TrustedParam + ResponseModel D) * W :=
  let missing := inr (missingOperationParamsResponse (draft_Operation draft) ["user_id"]) in
  match pd_User p with
  | None => (missing, w)
  | Some SearchByName =>
      if eqs userRaw "" then (missing, w)
      else match SearchByName userRaw w with
      | (Err _, w) => (inr operationErrorResponse, w)
      | (Ok users, w) =>
          let resolved := resolveUserParam (RawSlot "user_id" userRaw (resolve_ctx tenantID)) users in
          if eqs (rz_Status resolved) ResolveResolved then
            match rz_Value resolved with
            | VUint userID => (inl (userID, rz_Param resolved), w)
            | _ => (inl (0, None), w)
            end
          else if eqs (rz_Status resolved) ResolveAmbiguous then
            (inr (select_options (responseOptionsFromEntityCandidates (rz_Candidates resolved))), w)
          else (missing, w)
      end
  end.

Definition scheduleRequest (draft : ProtocolDraft) (tenantID : Z) (w : W) : built * W :=
  match lookupOperation (draft_Operation draft) with
  | None => (inr unsupportedOperationResponse, w)
  | Some manifest =>
      let raw := draftRawSlotForTarget manifest draft in
      let ctx := resolve_ctx tenantID in
      let weekInput := if eqs (raw "week") "" then Default_slot "week" ctx else RawSlot "week" (raw "week") ctx in
      let '(week, w) := resolveWeekParam weekInput SlotDefaultCurrentWeek (pd_Semester p) w in
      let '(n, ps) := match rz_ok week, rz_Value week with
                      | true, VInt n => (n, set_trusted_param "week" (rz_Param week) ∅)
                      | _, _ => (0, ∅)
                      end in
      let '(user, w) := if operationRequiresTrustedParam manifest "user_id"
                        then schedule_user draft tenantID (raw "user_id") w else (inl (0, None), w) in
      match user with
      | inr response => (inr response, w)
      | inl (userID, param) =>
          let trusted := mkTrusted tenantID 0 [] userID "" "" 0 n "" "" "" 0 (set_trusted_param "user_id" param ps) in
          match buildOperationRequest draft trusted with
          | Some req => (inl req, w)
          | None =>
              let missing := missingRequiredTrustedParams manifest trusted in
              (inr (missingOperationParamsResponse (draft_Operation draft)
                      match missing with [] => paramNames (om_RequiredTrustedParams manifest) | _ => missing end), w)
          end
      end
  end.

(** *** The subscription dialogue *)

Definition resolveSubscriptionDepartmentSelection (message : string) (tenantID : Z) (w : W)
  : option trustedEntities * ResolveResult :=
  match dept_answer w with
  | Some (Ok depts) =>
      let resolved := resolveDepartmentParam (RawSlot "dept_ids" message (resolve_ctx tenantID)) depts in
      match rz_ok resolved, rz_Value resolved with
      | true, VInt64s ((d :: _) as deptIDs) =>
          (Some (trusted_depts tenantID d deptIDs (set_trusted_param "dept_ids" (rz_Param resolved) ∅)), resolved)
      | _, _ => (None, resolved)
      end
  | _ => (None, no_resolve)
  end.

Definition resolveSubscriptionTrustedEntities (message : string) (draft : ProtocolDraft) (workflow : WorkflowSnapshot)
  (tenantID : Z) (w : W) : option trustedEntities * ResolveResult :=
  match lookupOperation (wf_Type workflow) with
  | None => (None, no_resolve)
  | Some manifest =>
      let scopeRaw := draftRawSlotForTarget manifest draft "scope" in
      let departmentRaw := draftRawSlotForTarget manifest draft "dept_ids" in
      let by_department := if eqs departmentRaw "" then (None, no_resolve)
                           else resolveSubscriptionDepartmentSelection departmentRaw tenantID w in
      if eqs (wf_State workflow) WorkflowCollectScope then
        let scope := normalizeSubscriptionScope scopeRaw in
        if negb (eqs scope "") then (Some (trusted_scope tenantID scope), no_resolve) else by_department
      else if eqs (wf_State workflow) WorkflowCollectDepartments then
        if eqs (normalizeSubscriptionScope scopeRaw) "all" then (Some (trusted_scope tenantID "all"), no_resolve)
        else match workflowDepartmentCandidateSelection workflow message tenantID with
        | Some None => (None, no_resolve)
        | Some (Some t) => (Some (mkTrusted tenantID (te_DepartmentID t) (te_DeptIDs t) 0 "" "" 0 0 "" (te_Scope t) ""
                                   0 (te_TrustedParams t)), no_resolve)
        | None => by_department
        end
      else (None, no_resolve)
  end.

Definition resolveInitialSubscriptionTrustedEntities (draft : ProtocolDraft) (tenantID : Z) (w : W)
  : option trustedEntities :=
  manifest ← lookupOperation (draft_Operation draft);
  let scope := normalizeSubscriptionScope (draftRawSlotForTarget manifest draft "scope") in
  if eqs scope "" then None
  else
    let trusted := trusted_scope tenantID scope in
    let deptName := draftRawSlotForTarget manifest draft "dept_ids" in
    if eqs scope "all" || eqs deptName "" then Some trusted
    else match resolveSubscriptionDepartmentSelection deptName tenantID w with
    | (Some t, _) => Some (te_with_params (te_TrustedParams t)
                             (te_with_depts (te_DepartmentID t) (te_DeptIDs t) trusted))
    | (None, _) => Some trusted
    end.

(** What the options of a response leave in the workflow after the turn. *)
Definition persist_options (uctx : option UserContext) (o : outcome) : outcome :=
  o <| po_WorkflowAfter := persistWorkflowCandidatesFromResponse "dept_ids" (rm_Options (po_Response o))
                             (userTenantID uctx) <$> po_WorkflowAfter o |>.
Definition list_departments : string :=
  workflowAuxiliaryOperationName WorkflowSubscriptionStart ExecutorBindingSubscriptionListDepartments.
Definition start_operation : string := workflowPrimaryOperationName WorkflowSubscriptionStart.
Definition clear_on_success (pw : preparedWriteExecution) : preparedWriteExecution :=
  mkPrepared (pw_Request pw) (pw_BusinessKey pw) true.

Definition continueSubscription (input : protocolLiveInput) (draft : ProtocolDraft) (activeWorkflow : WorkflowSnapshot)
  (trusted : trustedEntities) (o : outcome) (w : W) : outcome * W :=
  let uctx := li_User input in
  let result := continueWorkflow activeWorkflow draft trusted in
  let o := o <| po_WorkflowDecision := Some (wr_Decision result) |> in
  match wr_Decision result, wr_Workflow result with
  | WorkflowContinueDecision, None | WorkflowReadyToExecute, None => (guardrail draft (po_Validation o) uctx o, w)
  | WorkflowContinueDecision, Some after =>
      let o := o <| po_WorkflowAfter := Some after |>
                 <| po_ResolvedSlots := protocolResolvedSlotsFromTrusted (wf_Trusted after) |> in
      let '(executed, w) := live_execute uctx (plain_request list_departments) o w in
      (persist_options uctx executed, w)
  | WorkflowReadyToExecute, Some after =>
      let o := o <| po_WorkflowAfter := Some after |> in
      let req := mkOperationRequest start_operation (userTenantID uctx) (userActorUserID uctx) (userConversationID uctx)
                   (subscriptionStartTrustedParams uctx (wf_Trusted after)
                      (subscriptionDeptIDsFromTrusted (wf_Trusted after))) "" in
      let '(executed, w) := live_execute uctx req o w in
      (executed <| po_WorkflowAfter := Some after |>
                <| po_PreparedWrite := clear_on_success <$> po_PreparedWrite executed |>, w)
  | _, _ =>
      (respond (clarify_response "" "subscription_invalid_shape" []) answerModeToolFirst
         (o <| po_WorkflowAfter := Some (cloneWorkflowSnapshot activeWorkflow) |>), w)
  end.

(** A list of departments: an answer during the dialogue, or a read. *)
Definition handle_list_departments (input : protocolLiveInput) (draft : ProtocolDraft)
  (activeWorkflow : option WorkflowSnapshot) (o : outcome) (w : W) : outcome * W :=
  let uctx := li_User input in
  let read o :=
    let '(executed, w) := live_execute uctx (plain_request list_departments) o w in (persist_options uctx executed, w) in
  match activeWorkflow with
  | None => read o
  | Some active =>
      if eqs (wf_Type active) WorkflowSubscriptionStart && eqs (wf_State active) WorkflowCollectScope then
        continueSubscription input (with_domain_operation (draft_Domain draft) start_operation draft) active
          (trusted_scope 0 "department") o w
      else read (o <| po_WorkflowAfter := Some (cloneWorkflowSnapshot active) |>
                   <| po_WorkflowDecision := Some WorkflowMetaResult |>)
  end.

(** No workflow is active: only a write request starts one. *)
Definition handle_subscription_start (input : protocolLiveInput) (draft : ProtocolDraft) (o : outcome) (w : W)
  : outcome * W :=
  let uctx := li_User input in
  let refused := (guardrail draft (po_Validation o) uctx o, w) in
  if negb (eqs (draft_Act draft) ActWriteRequest) || negb (eqs (draft_Operation draft) start_operation) then refused
  else match startWorkflow (unix_nano w) draft with
  | None => refused
  | Some workflow =>
      match resolveInitialSubscriptionTrustedEntities draft (userTenantID uctx) w with
      | Some trusted => continueSubscription input (with_act ActWorkflowContinue draft) workflow trusted o w
      | None =>
          let o := o <| po_WorkflowDecision := Some WorkflowStartNew |> <| po_WorkflowAfter := Some workflow |> in
          let o := respond (clarify_response "" "subscription_missing_fields" []) answerModeToolFirst o in
          (o <| po_BlockedReason := "missing_scope" |>, w)
      end
  end.

(** The words of the turn name no scope and no department. *)
Definition unresolved_turn (active : WorkflowSnapshot) (resolved : ResolveResult) (o : outcome) : outcome :=
  let after := cloneWorkflowSnapshot active in
  if eqs (rz_Status resolved) ResolveAmbiguous then
    respond (select_options (responseOptionsFromEntityCandidates (rz_Candidates resolved))) answerModeToolFirst
      (o <| po_WorkflowAfter :=
              Some (persistWorkflowCandidatesFromEntityCandidates "dept_ids" (rz_Candidates resolved) after) |>)
  else
    let o := respond (clarify_response start_operation "subscription_missing_fields" (workflowMissingFields active))
               answerModeToolFirst (o <| po_WorkflowAfter := Some after |>) in
    match wf_MissingSlots active with
    | f :: _ => o <| po_BlockedReason := "missing_" +:+ f |>
    | [] => o
    end.

Definition handleSubscription (input : protocolLiveInput) (draft : ProtocolDraft)
  (activeWorkflow : option WorkflowSnapshot) (o : outcome) (w : W) : outcome * W :=
  let uctx := li_User input in
  let refused := (guardrail draft (po_Validation o) uctx o, w) in
  if eqs (draft_Operation draft) list_departments then handle_list_departments input draft activeWorkflow o w
  else if negb (in_group (user_view uctx)) then
    ((respond (refuse group_only) answerModeReject o) <| po_BlockedReason := "group_chat_required" |>, w)
  else match activeWorkflow with
  | None => handle_subscription_start input draft o w
  | Some active =>
      if negb (eqs (wf_Type active) WorkflowSubscriptionStart) then refused
      else if negb (eqs (draft_Act draft) ActWorkflowContinue) then refused
      else match resolveSubscriptionTrustedEntities (li_Message input) draft active (userTenantID uctx) w with
      | (None, resolved) => (unresolved_turn active resolved o, w)
      | (Some trusted, _) => continueSubscription input draft active trusted o w
      end
  end.

(** ** protocol_live_dispatch.go *)

Definition dispatchCapabilityOperation (input : protocolLiveInput) (manifest : OperationManifest) (o : outcome) (w : W)
  : outcome * W := live_execute (li_User input) (plain_request (om_Name manifest)) o w.
Definition dispatchRuntimeConversationOperation (input : protocolLiveInput) (manifest : OperationManifest) (o : outcome)
  (w : W) : outcome * W :=
  let uctx := li_User input in
  live_execute uctx
    (mkOperationRequest (om_Name manifest) (userTenantID uctx) (userActorUserID uctx) (userConversationID uctx)
       (trustedParamsFromValues (userTenantID uctx) (mkSource TrustedParamSourceRuntime "" "conversation_runtime")
          (<["conversation_id" := VString (userConversationID uctx)]> ∅)) "") o w.
(** A built request is executed, a response ends the turn. *)
Definition execute_built (input : protocolLiveInput) (b : built * W) (o : outcome) : outcome * W :=
  match b with
  | (inr response, w) => (respond response answerModeToolFirst o, w)
  | (inl req, w) => live_execute (li_User input) req o w
  end.
Definition dispatchAttendanceOperation (input : protocolLiveInput) (draft : ProtocolDraft) (o : outcome) (w : W)
  : outcome * W := execute_built input (attendanceRequest draft (userTenantID (li_User input)) w) o.
Definition dispatchScheduleOperation (input : protocolLiveInput) (draft : ProtocolDraft) (o : outcome) (w : W)
  : outcome * W := execute_built input (scheduleRequest draft (userTenantID (li_User input)) w) o.
Definition dispatchRuleExplainOperation (input : protocolLiveInput) (draft : ProtocolDraft) (o : outcome) (w : W)
  : outcome * W :=
  let uctx := li_User input in
  let topic := protocolRuleTopic (li_Message input) draft in
  let trusted := mkTrusted (userTenantID uctx) 0 [] 0 "" "" 0 0 "" "" "" (inputUserRole uctx)
                   (trustedParamsFromValues (userTenantID uctx)
                      (mkSource TrustedParamSourceRawSlot topic "rule_topic_slot") (<["rule_topic" := VString topic]> ∅)) in
  execute_built input
    (match buildOperationRequest draft trusted with
     | None => inr (missingOperationParamsResponse (draft_Operation draft) ["rule_topic"])
     | Some req => inl req
     end, w) o.

(** [None] for a dispatch that is not bound. *)
Definition live_dispatch (input : protocolLiveInput) (draft : ProtocolDraft) (manifest : OperationManifest)
  (activeWorkflow : option WorkflowSnapshot) (o : outcome) (w : W) : option (outcome * W) :=
  let name := dispatch_Name (om_Dispatch manifest) in
  if eqs name ProtocolLiveDispatchAttendance then Some (dispatchAttendanceOperation input draft o w)
  else if eqs name ProtocolLiveDispatchSubscriptionWorkflow then
    Some (handleSubscription input draft activeWorkflow o w)
  else if eqs name ProtocolLiveDispatchRuntimeConversation then
    Some (dispatchRuntimeConversationOperation input manifest o w)
  else if eqs name ProtocolLiveDispatchCapability then Some (dispatchCapabilityOperation input manifest o w)
  else if eqs name ProtocolLiveDispatchRuleExplain then Some (dispatchRuleExplainOperation input draft o w)
  else if eqs name ProtocolLiveDispatchSchedule then Some (dispatchScheduleOperation input draft o w)
  else None.

(** ** The handler *)

Definition protocolPrimaryDispatchAllowed (v : ProtocolValidationResult) : bool :=
  pv_AllowExecution v || (pv_UseActiveWorkflow v && eqs (pv_ResponseKind v) ResponseResult)
  || eqs (pv_ResponseKind v) ResponseAnswer.

Definition terminated : ResponseModel D := refuse "本次请求已终止，请稍后重试。".

(** Reading the message failed. *)
Definition compile_failed (e : err) (w : W) (o : outcome) : outcome :=
  let canceled := errors_Is e "context.Canceled" || errors_Is e "context.DeadlineExceeded"
                  || bool_decide (is_Some (ctx_err w)) in
  let o := o <| po_CompilerStatus := IntentCompileSkipped |> in
  let o := if canceled then o <| po_BlockedReason := "request_canceled" |> else o in
  let draft := unknownIntentDraft (if canceled then "request_canceled" else "intent_compile_failed") in
  respond terminated answerModeReject
    (o <| po_Draft := draft |> <| po_IntentDraftJSON := draft_json draft |>
       <| po_Validation := mkValidation false "intent_compile_failed" false false ResponseRefuse |>
       <| po_FailureLayer := FailureIntent |>).

Definition compiled_outcome (r : OperationCompileResult) (o : outcome) : outcome :=
  o <| po_CompilerStatus := cp_LLMStatus r |> <| po_CompilerSource := cp_Source r |>
    <| po_CompilerFallbackReason := cp_FallbackReason r |>
    <| po_CompilerCandidateCount := len (cp_Candidates r) |>
    <| po_LLMInvoked := cp_LLMInvoked r |> <| po_LLMAttempts := cp_LLMAttempts r |>.

Definition cancel_workflow (draft : ProtocolDraft) (active : WorkflowSnapshot) (o : outcome) : outcome :=
  let result := continueWorkflow active draft no_trusted in
  respond (mkResponse ResponseResult "" "" "" "" [] [] "已取消当前任务。如需继续，请重新告诉我。" "" "" NoPayload)
    answerModeToolFirst
    (o <| po_WorkflowDecision := Some (wr_Decision result) |> <| po_ClearWorkflow := workflowResultTerminal result |>).

(** The dispatch of an allowed draft. *)
Definition dispatch_draft (input : protocolLiveInput) (draft : ProtocolDraft) (validation : ProtocolValidationResult)
  (activeWorkflow : option WorkflowSnapshot) (o : outcome) (w : W) : outcome * W :=
  let refused o := (guardrail draft validation (li_User input) o, w) in
  match lookupOperation (draft_Operation draft) with
  | None => refused o
  | Some manifest =>
      if bool_decide (is_Some (ctx_err w)) then
        (respond terminated answerModeReject
           (o <| po_BlockedReason := "request_canceled" |> <| po_FailureLayer := FailureIntent |>), w)
      else
        let name := rn_Name (om_Renderer manifest) in
        let o := if eqs name "" then o else o <| po_RendererName := name |> in
        match live_dispatch input draft manifest activeWorkflow o w with Some r => r | None => refused o end
  end.

(** What follows the reading of the message, with the workflow that is not
    expired. *)
Definition handle_draft (input : protocolLiveInput) (draft : ProtocolDraft) (activeWorkflow : option WorkflowSnapshot)
  (o : outcome) (w : W) : outcome * W :=
  let uctx := li_User input in
  let o := o <| po_IntentDraftJSON := draft_json draft |> in
  let validation := Validate_pre
    (mkPreInput draft (protocolWorkflowContextFromWorkflowSnapshot <$> activeWorkflow) (userConversationType uctx)
       (inputUserRole uctx) (bool_decide (is_Some uctx))) in
  let o := o <| po_Draft := draft |> <| po_Validation := validation |> <| po_AnswerMode := answerModeReject |>
             <| po_CatalogValidationCode := pv_ValidationCode validation |>
             <| po_PrePolicyResult := protocolPrePolicyResult validation |> in
  let arbiter := Decide_workflow draft (li_ActiveWorkflow input) (pd_Clock p w) in
  let o := if ar_Expired arbiter
           then o <| po_WorkflowDecision := Some (ar_Decision arbiter) |> <| po_WorkflowInterruptReason := "expired" |>
                  <| po_ClearWorkflow := true |>
           else o in
  let '(activeWorkflow, o) :=
    if pv_InterruptActiveWorkflow validation then
      let result := interruptActiveWorkflow activeWorkflow draft in
      (None, o <| po_WorkflowDecision := Some (wr_Decision result) |>
               <| po_WorkflowInterruptReason := draft_Act draft |>
               <| po_ClearWorkflow := workflowResultTerminal result |>)
    else (activeWorkflow, o) in
  match protocolLiveRoleRefusal uctx draft with
  | Some response =>
      let v := po_Validation o in
      let o := o <| po_Validation := mkValidation false (pv_ValidationCode v) (pv_UseActiveWorkflow v)
                                       (pv_InterruptActiveWorkflow v) ResponseRefuse |> in
      ((respond response answerModeReject o) <| po_BlockedReason := "role_denied" |>
         <| po_PrePolicyResult := "deny:role_denied" |> <| po_FailureLayer := FailurePrePolicyDenied |>, w)
  | None =>
      if negb (protocolPrimaryDispatchAllowed validation) then (guardrail draft validation uctx o, w)
      else if eqs (draft_Act draft) ActWorkflowCancel then
        match activeWorkflow with
        | None => (guardrail draft validation uctx o, w)
        | Some active => (cancel_workflow draft active o, w)
        end
      else dispatch_draft input draft validation activeWorkflow o w
  end.

Definition not_expired (input : protocolLiveInput) (w : W) : option WorkflowSnapshot :=
  match li_ActiveWorkflow input with
  | Some active => if workflowExpired active (pd_Clock p w) then None else Some active
  | None => None
  end.
(** Reading the message. *)
Definition compile_message (input : protocolLiveInput) : ST W OperationCompileResult := fun w =>
  compileProtocolWithCompilerMode ctx_err
    (mkProtocolInput (li_Message input) (li_RecentMessages input)
       (protocolWorkflowContextFromWorkflowSnapshot <$> not_expired input w)) (pd_Compiler p) (pd_CompilerMode p) w.
(** It may panic, in the client of the model: then [Handle] has no outcome. *)
Definition HandlePanics (input : protocolLiveInput) (w : W) : bool := is_panic (compile_message input w).1.

(** [protocolLivePipeline.Handle], when it returns; the deferred finalisation runs on every
    return. *)
Definition Handle (input : protocolLiveInput) (w : W) : outcome * W :=
  let finish (r : outcome * W) := (finalizeProtocolLiveOutcome (request_id w) r.1, r.2) in
  let o := zero_outcome <| po_RequestID := request_id w |> <| po_RendererName := "response_renderer" |> in
  let activeWorkflow := not_expired input w in
  let '(compiled, w') := compile_message input w in
  let o := o <| po_CompilerLatencyMs := elapsed_ms w w' |> in
  finish match compiled with
         | Err e => (compile_failed e w' (compiled_outcome zero_compile_result o), w')
         | Ok r => handle_draft input (cp_Draft r) activeWorkflow (compiled_outcome r o) w'
         end.
End pipeline.
