(* ===== verification/EntitySpec.v ===== *)
(** * Properties of entity and candidate resolution

    A resolver answers with entities of the tenant it was asked for; a choice is
    one of the candidates offered, and the options as they are rendered choose
    themselves; Chinese numerals. *)
From Stdlib Require Import ZArith Lia Bool String.
From stdpp Require Import base list strings gmap.
From S2P Require Import Prelude GoStrings GoTime Contract Codec Catalog Request Policy Executor Outcome Calendar Text Entity.
From S2P Require Import Renderer.
#[local] Open Scope go_scope.

(** ** Chinese numerals *)

(** The written form of 1 to 99. *)
Definition chinese_digits : list string := ["一"; "二"; "三"; "四"; "五"; "六"; "七"; "八"; "九"].
Definition chinese_digit_text (d : Z) : string := default "" (chinese_digits !! Z.to_nat (d - 1)).
Definition chinese_numeral (n : Z) : string :=
  (if n <? 10 then "" else (if n / 10 =? 1 then "" else chinese_digit_text (n / 10)) +:+ "十")
  +:+ (if n mod 10 =? 0 then "" else chinese_digit_text (n mod 10)).

Definition numeral_reads (n : Z) : bool :=
  bool_decide (parseChinesePositiveInt (chinese_numeral n) = Some n)
  && bool_decide (parseSectionNumber ("第" +:+ chinese_numeral n +:+ "节") = Some n)
  && bool_decide (parseCandidateOrdinal ("第" +:+ chinese_numeral n +:+ "个") = Some n).
Lemma numerals_read : forallb numeral_reads (seqZ 1 99) = true.
Proof. vm_compute. reflexivity. Qed.

Lemma chinese_digit_range r d : chinese_digit r = Some d -> 1 <= d <= 9.
Proof. unfold chinese_digit. intros H. repeat case_if_in H; by simplify_eq. Qed.
Lemma numeral_part_range empty s d : numeral_part empty s = Some d -> d = empty \/ 1 <= d <= 9.
Proof. unfold numeral_part. destruct (rune_list s); [intros [= <-]; by left|]. intros H%chinese_digit_range. by right. Qed.

Lemma parseChinesePositiveInt_range s n : parseChinesePositiveInt s = Some n -> 1 <= n <= 99.
Proof.
  unfold parseChinesePositiveInt. case_if; [intros [= <-]; lia|].
  assert (Hs : match split_str "十" s with
               | [p0; p1] => tens ← numeral_part 1 p0; ones ← numeral_part 0 p1; Some (tens * 10 + ones)
               | _ => None
               end = Some n -> 1 <= n <= 99).
  { destruct (split_str "十" s) as [|p0 [|p1 [|]]]; try done. intros H.
    apply bind_Some in H as (t & Ht & H). apply bind_Some in H as (o & Ho & [= <-]).
    apply numeral_part_range in Ht, Ho. lia. }
  destruct (rune_list s) as [|r [|]]; try done. intros H%chinese_digit_range. lia.
Qed.

(** Chinese numerals: each number from 1 to 99 is read from its written
    form, alone, as a section and as an ordinal; and whatever text is read as a
    numeral stands for a number from 1 to 99. *)
Theorem chinese_numerals :
  (forall n, 1 <= n <= 99 ->
     parseChinesePositiveInt (chinese_numeral n) = Some n
     /\ parseSectionNumber ("第" +:+ chinese_numeral n +:+ "节") = Some n
     /\ parseCandidateOrdinal ("第" +:+ chinese_numeral n +:+ "个") = Some n)
  /\ forall s n, parseChinesePositiveInt s = Some n -> 1 <= n <= 99.
Proof.
  split; [|exact parseChinesePositiveInt_range].
  intros n Hn. pose proof (proj1 (forallb_forall _ _) numerals_read n) as H.
  assert (numeral_reads n = true) as Hr by (apply H, list_elem_of_In, elem_of_seqZ; lia).
  unfold numeral_reads in Hr. b2p. done.
Qed.

Lemma chinese_numerals_witness : parseSectionNumber ("第" +:+ chinese_numeral 23 +:+ "节") = Some 23.
Proof. apply chinese_numerals. lia. Defined.

(** The second digit of a run is not looked at: 二三十 is read as 20, and a name
    that holds it takes the normal form of the name with 二十. *)
Lemma numeral_skips_digits :
  parseChinesePositiveInt "二三十" = Some 20 /\ normalizeEntityName "二三十班" = normalizeEntityName "二十班".
Proof. split; vm_compute; reflexivity. Qed.

(** ** Tenants *)

Definition user_in (tenantID : Z) (users : list UserInfo) (u : UserInfo) : Prop :=
  u ∈ users /\ (tenantID = 0 \/ ui_TenantID u = tenantID).
Definition department_in (tenantID : Z) (departments : list DeptItem) (d : DeptItem) : Prop :=
  d ∈ departments /\ (tenantID = 0 \/ dept_TenantID d = tenantID).

Lemma elem_of_filter_List {A} (f : A -> bool) l x : x ∈ List.filter f l <-> x ∈ l /\ f x = true.
Proof. by rewrite !list_elem_of_In, filter_In. Qed.

Lemma filterUsersByTenant_in users t u : u ∈ filterUsersByTenant users t -> user_in t users u.
Proof.
  unfold filterUsersByTenant. destruct (Z.eqb_spec t 0); [by split; [|left]|].
  rewrite elem_of_filter_List. intros [? ?%Z.eqb_eq]. by split; [|right].
Qed.
Lemma filterDepartmentsByTenant_in ds t d : d ∈ filterDepartmentsByTenant ds t -> department_in t ds d.
Proof.
  unfold filterDepartmentsByTenant. destruct (Z.eqb_spec t 0); [by split; [|left]|].
  rewrite elem_of_filter_List. intros [? ?%Z.eqb_eq]. by split; [|right].
Qed.

Lemma first_matches_elem {A} (l1 l2 l3 : list A) x : x ∈ first_matches l1 l2 l3 -> x ∈ l1 \/ x ∈ l2 \/ x ∈ l3.
Proof. unfold first_matches. destruct l1, l2; set_solver. Qed.

Lemma user_matches_in v users u : u ∈ user_matches v users -> u ∈ users.
Proof.
  unfold user_matches, exactUserMatches. intros H%first_matches_elem. rewrite !elem_of_filter_List in H.
  rewrite elem_of_nil in H. tauto.
Qed.
Lemma normalizedDepartmentMatches_in v ds d : d ∈ normalizedDepartmentMatches v ds -> d ∈ ds.
Proof.
  unfold normalizedDepartmentMatches, normalizedDepartmentMatchesForVariants.
  destruct (List.filter _ ds) as [|x l] eqn:E; [rewrite elem_of_filter_List; tauto|].
  rewrite <- E, elem_of_filter_List. tauto.
Qed.
Lemma department_matches_in v ds d : d ∈ department_matches v ds -> d ∈ ds.
Proof.
  unfold department_matches, exactDepartmentMatches, departmentCandidates. intros H%first_matches_elem.
  rewrite !elem_of_filter_List in H. destruct H as [H|[H|H]]; [tauto| |tauto]. by eapply normalizedDepartmentMatches_in.
Qed.

(** What a resolver says of [p]: resolved to [p]'s value under a parameter of the
    tenant, or candidates that all satisfy [q]; nothing otherwise. *)
Definition resolves_within (t : Z) (found : value -> Prop) (q : EntityCandidate -> Prop) (r : ResolveResult) : Prop :=
  (rz_Status r = ResolveResolved ->
     found (rz_Value r)
     /\ exists p, rz_Param r = Some p /\ tp_Value p = rz_Value r /\ tp_TenantID p = t /\ rz_Candidates r = [])
  /\ Forall q (rz_Candidates r)
  /\ (rz_Candidates r <> [] -> rz_Status r = ResolveAmbiguous /\ (2 <= length (rz_Candidates r))%nat).

Lemma resolves_within_none t found q field status reason :
  status <> ResolveResolved -> resolves_within t found q (unresolved field status reason).
Proof. intros Hs. split_and!; cbn; [by intros ?|constructor|by intros []]. Qed.

Lemma userSlotResolution_within ctx matches users t :
  rx_TenantID ctx = t -> (forall u, u ∈ matches -> user_in t users u) ->
  resolves_within t (fun v => exists u, user_in t users u /\ v = VUint (ui_ID u))
    (fun c => exists u, user_in t users u /\ ec_Value c = VUint (ui_ID u) /\ ec_TenantID c = ui_TenantID u)
    (userSlotResolution ctx matches).
Proof.
  intros Ht Hm. unfold userSlotResolution. destruct matches as [|u [|u' l]].
  - by apply resolves_within_none.
  - split_and!; cbn; [|constructor|by intros []]. intros _. split; [exists u; split; [apply Hm; set_solver|done]|].
    eexists. by split_and!.
  - remember (u :: u' :: l) as us eqn:E. split_and!; cbn; [by intros ?| |intros _; split; [done|]].
    + apply Forall_forall. intros c (x & -> & Hx)%list_elem_of_fmap. exists x. split_and!; [by apply Hm|done..].
    + rewrite length_fmap. subst us. cbn. lia.
Qed.

Lemma departmentSlotResolution_within ctx matches ds t :
  rx_TenantID ctx = t -> (forall d, d ∈ matches -> department_in t ds d) ->
  resolves_within t (fun v => exists d, department_in t ds d /\ v = VInt64s [dept_DeptID d])
    (fun c => exists d, department_in t ds d /\ ec_Value c = VInt64 (dept_DeptID d) /\ ec_TenantID c = dept_TenantID d)
    (departmentSlotResolution ctx matches).
Proof.
  intros Ht Hm. unfold departmentSlotResolution. destruct matches as [|d [|d' l]].
  - by apply resolves_within_none.
  - split_and!; cbn; [|constructor|by intros []]. intros _. split; [exists d; split; [apply Hm; set_solver|done]|].
    eexists. by split_and!.
  - remember (d :: d' :: l) as us eqn:E. split_and!; cbn; [by intros ?| |intros _; split; [done|]].
    + apply Forall_forall. intros c (x & -> & Hx)%list_elem_of_fmap. exists x. split_and!; [by apply Hm|done..].
    + rewrite length_fmap. subst us. cbn. lia.
Qed.

(** Resolving a name stays in the tenant: whatever users or departments
    the directory returns, a name is resolved only to one of them that belongs
    to the tenant of the request, under a parameter of that tenant, and the
    candidates offered otherwise are at least two and all belong to it. *)
Theorem entities_stay_in_tenant ctx users departments :
  resolves_within (rx_TenantID ctx)
    (fun v => exists u, user_in (rx_TenantID ctx) users u /\ v = VUint (ui_ID u))
    (fun c => exists u, user_in (rx_TenantID ctx) users u /\ ec_Value c = VUint (ui_ID u)
                        /\ ec_TenantID c = ui_TenantID u)
    (resolveUserParam ctx users)
  /\ resolves_within (rx_TenantID ctx)
    (fun v => exists d, department_in (rx_TenantID ctx) departments d /\ v = VInt64s [dept_DeptID d])
    (fun c => exists d, department_in (rx_TenantID ctx) departments d /\ ec_Value c = VInt64 (dept_DeptID d)
                        /\ ec_TenantID c = dept_TenantID d)
    (resolveDepartmentParam ctx departments).
Proof.
  split.
  - unfold resolveUserParam, resolveUserSlotWithContext. case_if; [by apply resolves_within_none|].
    apply userSlotResolution_within; [done|].
    intros u Hu%user_matches_in. by apply filterUsersByTenant_in.
  - unfold resolveDepartmentParam, resolveDepartmentSlotWithContext. case_if; [by apply resolves_within_none|].
    apply departmentSlotResolution_within; [done|].
    intros d Hd%department_matches_in. by apply filterDepartmentsByTenant_in.
Qed.

(** ** Exact names *)

(** A department whose name, and only whose name, is the text. *)
Lemma filter_unique {A} (f : A -> bool) l x :
  NoDup l -> x ∈ l -> f x = true -> (forall y, y ∈ l -> f y = true -> y = x) -> List.filter f l = [x].
Proof.
  induction l as [|a l IH]; intros Hnd Hx Hf Hu; [by apply elem_of_nil in Hx|].
  apply NoDup_cons in Hnd as [Ha Hnd]. cbn. destruct (f a) eqn:Ea.
  - assert (a = x) as -> by (apply Hu; [left|done]). f_equal.
    destruct (List.filter f l) as [|b m] eqn:E; [done|]. exfalso.
    assert (b ∈ List.filter f l) as Hb by (rewrite E; left). apply elem_of_filter_List in Hb as [Hb Hfb].
    apply Ha. rewrite <- (Hu b); [done|by right|done].
  - apply IH; [done| |done|]; [by apply elem_of_cons in Hx as [->|]; [congruence|]|].
    intros y Hy. apply Hu. by right.
Qed.

(** An exact name wins: when one department of the tenant, and no other,
    has the name the user gave, the name resolves to it whatever other names it
    is part of or could be an abbreviation of. *)
Theorem exact_department_wins ctx departments d :
  NoDup departments -> d ∈ filterDepartmentsByTenant departments (rx_TenantID ctx) ->
  looksLikeEntityInput (trim_space (rx_Raw ctx)) = true -> trim_space (dept_Name d) = trim_space (rx_Raw ctx) ->
  (forall d', d' ∈ filterDepartmentsByTenant departments (rx_TenantID ctx) ->
              trim_space (dept_Name d') = trim_space (rx_Raw ctx) -> d' = d) ->
  rz_Status (resolveDepartmentParam ctx departments) = ResolveResolved
  /\ rz_Value (resolveDepartmentParam ctx departments) = VInt64s [dept_DeptID d].
Proof.
  intros Hnd Hd Hl Hn Hu. unfold resolveDepartmentParam, resolveDepartmentSlotWithContext. rewrite Hl. cbn [negb].
  unfold department_matches, exactDepartmentMatches. rewrite (filter_unique _ _ d); [done| |done| |].
  - unfold filterDepartmentsByTenant. case_if; [done|]. by apply NoDup_ListNoDup, List.NoDup_filter, NoDup_ListNoDup.
  - by apply eqs_true.
  - intros y Hy ?%eqs_true. by apply Hu.
Qed.

#[local] Instance DeptItem_eq_dec : EqDecision DeptItem.
Proof. solve_decision. Defined.
Definition depts_demo : list DeptItem := [mkDept 11 "教务处" 7; mkDept 12 "教务处二科" 7; mkDept 13 "教务处" 8].
Lemma exact_department_wins_witness :
  rz_Value (resolveDepartmentParam (RawSlot "dept_ids" " 教务处" (resolve_ctx 7)) depts_demo) = VInt64s [11].
Proof.
  refine (proj2 (exact_department_wins (RawSlot "dept_ids" " 教务处" (resolve_ctx 7)) depts_demo (mkDept 11 "教务处" 7)
                   _ _ _ _ _)).
  - apply (bool_decide_unpack _). vm_compute. exact I.
  - apply (bool_decide_unpack _). vm_compute. exact I.
  - vm_compute. reflexivity.
  - vm_compute. reflexivity.
  - apply (proj1 (Forall_forall (fun d => trim_space (dept_Name d) = "教务处" -> d = mkDept 11 "教务处" 7)
                    (filterDepartmentsByTenant depts_demo 7))).
    apply (bool_decide_unpack _). vm_compute. exact I.
Defined.

(** ** Text lemmas *)

Lemma trimmed_runes s :
  trim_space s = s ->
  drop_while space_rune (runes (bytes s)) = runes (bytes s)
  /\ drop_while space_rune (rev (runes (bytes s))) = rev (runes (bytes s)).
Proof.
  intros Hs. destruct (trim_runes_spec (bytes s)) as (c & E & Hr & Hd & Hd' & HP).
  assert (bytes s = concat (snd <$> c)) as ->.
  { rewrite <- Hs at 1. unfold trim_space. rewrite E. apply bytes_of_bytes, HP, bytes_is_byte. }
  by rewrite Hr.
Qed.

(** [trim_space] with the runes of both ends in view. *)
Lemma trim_space_keep l :
  Forall is_byte l ->
  match runes l with c :: _ => space_rune c = false | [] => True end ->
  match rev (runes l) with c :: _ => space_rune c = false | [] => True end ->
  trim_space (of_bytes l) = of_bytes l.
Proof.
  intros Hl H1 H2. unfold trim_space. rewrite bytes_of_bytes by done. rewrite drop_while_none by done.
  unfold drop_while_end. rewrite drop_while_none by done. by rewrite rev_involutive, runes_concat.
Qed.

Lemma runes_ascii_app l1 l2 : Forall is_ascii l1 -> runes (l1 ++ l2) = ((fun b => (b, [b])) <$> l1) ++ runes l2.
Proof.
  induction 1 as [|b l Hb _ IH]; [done|]. unfold is_ascii in Hb. cbn [app]. rewrite runes_ascii_cons by lia.
  by rewrite IH.
Qed.
Lemma runes_of_ascii l : Forall is_ascii l -> runes l = (fun b => (b, [b])) <$> l.
Proof. intros H. rewrite <- (app_nil_r l) at 1. rewrite runes_ascii_app by done. apply app_nil_r. Qed.

(** Visible ASCII *)
Definition visible (b : Z) : Prop := 33 <= b < 127.
Lemma visible_ascii b : visible b -> is_ascii b.
Proof. unfold visible, is_ascii. lia. Qed.
Lemma visible_byte b : visible b -> is_byte b.
Proof. unfold visible, is_byte. lia. Qed.
Lemma visible_space b : visible b -> is_space b = false.
Proof.
  intros Hb. unfold visible, is_space, in_range in *. rewrite !orb_false_iff, !andb_false_iff, !Z.eqb_neq, !Z.leb_gt. lia.
Qed.

Lemma trim_space_visible l : Forall visible l -> trim_space (of_bytes l) = of_bytes l.
Proof.
  intros H. assert (Ha : Forall is_ascii l) by (eapply Forall_impl; [exact H|apply visible_ascii]).
  apply trim_space_keep; [eapply Forall_impl; [exact H|apply visible_byte]| |];
    rewrite (runes_of_ascii l Ha).
  - destruct H as [|b l Hb]; [done|]. by apply visible_space.
  - assert (rev ((fun b => (b, [b])) <$> l) = (fun b => (b, [b])) <$> rev l) as -> by (symmetry; apply map_rev).
    apply Forall_rev in H. destruct H as [|b l' Hb]; [done|]. by apply visible_space.
Qed.

(** Visible text, anything, and trimmed text that is not empty. *)
Lemma trim_space_around b l s :
  visible b -> Forall is_ascii l -> trim_space s = s -> s <> "" ->
  trim_space (of_bytes (b :: l ++ bytes s)) = of_bytes (b :: l ++ bytes s).
Proof.
  intros Hb Hl Hs Hne. destruct (trimmed_runes s Hs) as [_ He].
  assert (Ha : is_ascii b) by by apply visible_ascii.
  apply trim_space_keep.
  - constructor; [by apply visible_byte|]. apply Forall_app. split; [|apply bytes_is_byte].
    eapply Forall_impl; [exact Hl|apply is_ascii_byte].
  - rewrite runes_ascii_cons by (unfold is_ascii in Ha; lia). by apply visible_space.
  - change (b :: l ++ bytes s) with ((b :: l) ++ bytes s). rewrite runes_ascii_app by by constructor.
    rewrite rev_app_distr. pose proof (drop_while_head space_rune (rev (runes (bytes s)))) as Hh. rewrite He in Hh.
    destruct (rev (runes (bytes s))) as [|c r] eqn:E; [|done]. exfalso. apply Hne.
    apply (f_equal (@rev _)) in E. rewrite rev_involutive in E. cbn in E.
    rewrite <- (of_bytes_bytes s), <- (runes_concat (bytes s)), E. done.
Qed.

Lemma trim_space_space s : trim_space s = s -> trim_space (of_bytes (32 :: bytes s)) = s.
Proof.
  intros Hs. destruct (trimmed_runes s Hs) as [Hd He]. unfold trim_space.
  rewrite bytes_of_bytes by (constructor; [unfold is_byte; lia|apply bytes_is_byte]).
  rewrite runes_ascii_cons by lia. cbn [drop_while]. change (space_rune (32, [32])) with true. cbn match.
  rewrite Hd. unfold drop_while_end. rewrite He, rev_involutive, runes_concat. apply of_bytes_bytes.
Qed.

Definition digit (b : Z) : Prop := 48 <= b <= 57.
Lemma itoa_digits n : 0 <= n -> exists d ds, itoa_bytes n = d :: ds /\ Forall digit (d :: ds).
Proof.
  intros Hn. unfold itoa_bytes. destruct (Z.ltb_spec n 0); [lia|].
  destruct (dec_digits_cons n Hn) as (d & ds & E & _).
  pose proof (dec_digits_digit (dec_fuel n) n [] ltac:(constructor)) as H'. exists d, ds. split; [done|].
  rewrite E in H'. eapply Forall_impl; [exact H'|]. intros b Hb. unfold is_digit, in_range in Hb. unfold digit.
  b2p. lia.
Qed.
Lemma digit_visible b : digit b -> visible b.
Proof. unfold digit, visible. lia. Qed.

(** ** Ordinals and rendered options *)

Lemma remove_loop_none olds l :
  Forall (fun b => Forall (fun o => match o with c :: _ => c <> b | [] => False end) olds) l ->
  remove_loop olds 0 l = l.
Proof.
  induction 1 as [|b l Hb _ IH]; [done|]. cbn [remove_loop].
  destruct (List.find _ olds) as [o|] eqn:E; [|by rewrite IH].
  apply find_some in E as [Ho Hp]. apply list_elem_of_In in Ho. rewrite Forall_forall in Hb. specialize (Hb o Ho).
  destruct o as [|c o]; [done|]. cbn in Hp. apply andb_true_iff in Hp as [Hp%Z.eqb_eq _]. by subst.
Qed.

Lemma normalizeQuery_digits l : Forall digit l -> normalizeQuery (of_bytes l) = of_bytes l.
Proof.
  intros Hl. unfold normalizeQuery. rewrite trim_space_visible by (eapply Forall_impl; [exact Hl|apply digit_visible]).
  assert (Hb : bytes (of_bytes l) = l).
  { apply bytes_of_bytes. eapply Forall_impl; [exact Hl|]. unfold digit, is_byte. lia. }
  unfold remove_all. rewrite Hb, remove_loop_none.
  - unfold ToLower. rewrite Hb.
    assert (forallb (fun b => b <? 128) l = true) as ->.
    { apply forallb_forall. intros b Hin. apply list_elem_of_In in Hin. rewrite Forall_forall in Hl.
      specialize (Hl b Hin). unfold digit in Hl. lia. }
    f_equal. clear Hb. induction Hl as [|b l Hd _ IH]; [done|]. rewrite fmap_cons, IH. f_equal.
    unfold unicode_lower, in_range, digit in *. destruct (Z.ltb_spec b 128); [|lia].
    destruct (Z.leb_spec 65 b); [lia|done].
  - eapply Forall_impl; [exact Hl|]. intros b Hd. unfold digit in Hd.
    let x := eval vm_compute in (bytes <$> query_noise) in change (bytes <$> query_noise) with x.
    rewrite !Forall_cons. split_and!; try lia. constructor.
Qed.

Lemma trim_prefix_other b l p : Forall is_byte (b :: l) ->
  match bytes p with c :: _ => c <> b | [] => False end -> trim_prefix (of_bytes (b :: l)) p = of_bytes (b :: l).
Proof.
  intros Hl Hp. unfold trim_prefix, has_prefix. rewrite bytes_of_bytes by done.
  destruct (bytes p) as [|c p']; [done|]. cbn [prefix_of]. by rewrite (proj2 (Z.eqb_neq c b)).
Qed.
Lemma trim_suffix_other l p : Forall is_byte l ->
  match rev (bytes p), rev l with c :: _, b :: _ => c <> b | _, _ => False end ->
  trim_suffix (of_bytes l) p = of_bytes l.
Proof.
  intros Hl Hp. unfold trim_suffix, has_suffix. rewrite bytes_of_bytes by done.
  destruct (rev (bytes p)) as [|c p']; [done|]. destruct (rev l) as [|b l']; [done|]. cbn [prefix_of].
  by rewrite (proj2 (Z.eqb_neq c b)).
Qed.

Lemma parseCandidateOrdinal_itoa n :
  0 < n -> in_int64 n = true -> parseCandidateOrdinal (itoa n) = Some n.
Proof.
  intros Hn Hi. destruct (itoa_digits n ltac:(lia)) as (d & ds & E & Hd).
  assert (Hb : Forall is_byte (d :: ds)) by (eapply Forall_impl; [exact Hd|unfold digit, is_byte; lia]).
  assert (Hp : forall p, match bytes p with c :: _ => 128 <= c | [] => False end ->
               trim_prefix (itoa n) p = itoa n).
  { intros p Hp. unfold itoa. rewrite E. apply trim_prefix_other; [done|]. inversion_clear Hd. unfold digit in *.
    destruct (bytes p); [done|]. lia. }
  assert (Hs : forall p, match rev (bytes p) with c :: _ => 128 <= c | [] => False end ->
               trim_suffix (itoa n) p = itoa n).
  { intros p Hp'. unfold itoa. rewrite E. apply trim_suffix_other; [done|]. apply Forall_rev in Hd.
    destruct (rev (bytes p)); [done|]. destruct (rev (d :: ds)) as [|x r] eqn:Er.
    - apply (f_equal length) in Er. by rewrite length_rev in Er.
    - inversion_clear Hd. unfold digit in *. lia. }
  unfold parseCandidateOrdinal.
  assert (normalizeQuery (itoa n) = itoa n) as -> by (unfold itoa; rewrite E; by apply normalizeQuery_digits).
  rewrite !Hp, !Hs by (vm_compute; discriminate).
  unfold positive_atoi. rewrite atoi_itoa by done. rewrite (proj2 (Z.ltb_lt 0 n)) by done.
  destruct (eqs (itoa n) "") eqn:Ee; [|done]. apply eqs_true in Ee. unfold itoa in Ee. by rewrite E in Ee.
Qed.

Lemma split_option_digits before ds rest :
  Forall digit ds ->
  split_option before (((fun b => (b, [b])) <$> ds) ++ (46, [46]) :: rest)
  = Some (before ++ ds, concat (snd <$> rest)).
Proof.
  intros Hd. revert before. induction Hd as [|d ds Hd _ IH]; intros before.
  - cbn. by rewrite app_nil_r.
  - cbn [fmap list_fmap app split_option]. unfold is_option_separator, existsb. unfold digit in Hd.
    rewrite !(proj2 (Z.eqb_neq d _)) by lia. cbn [orb]. rewrite IH. by rewrite <- app_assoc.
Qed.

Lemma line_bytes n label : 0 <= n -> bytes (itoa n +:+ ". " +:+ label) = itoa_bytes n ++ 46 :: 32 :: bytes label.
Proof.
  intros Hn. rewrite !bytes_app. unfold itoa. by rewrite bytes_of_bytes by apply itoa_bytes_is_byte.
Qed.
Lemma split_line n label :
  0 <= n -> split_option [] (runes (bytes (itoa n +:+ ". " +:+ label))) = Some (itoa_bytes n, 32 :: bytes label).
Proof.
  intros Hn. rewrite line_bytes by done. destruct (itoa_digits n Hn) as (d & ds & E & Hd). rewrite E.
  rewrite runes_ascii_app by (eapply Forall_impl; [exact Hd|unfold digit, is_ascii; lia]).
  rewrite !runes_ascii_cons by lia. rewrite split_option_digits by done. rewrite !fmap_cons. cbn [concat snd app].
  by rewrite runes_concat.
Qed.
Lemma trim_line n label :
  0 <= n -> trim_space label = label -> label <> "" ->
  trim_space (itoa n +:+ ". " +:+ label) = itoa n +:+ ". " +:+ label.
Proof.
  intros Hn Hl Hne. destruct (itoa_digits n Hn) as (d & ds & E & Hd).
  assert (itoa n +:+ ". " +:+ label = of_bytes (d :: (ds ++ [46; 32]) ++ bytes label)) as ->.
  { rewrite <- (of_bytes_bytes (itoa n +:+ ". " +:+ label)), line_bytes, E by done. by rewrite <- app_assoc. }
  apply Forall_cons in Hd as [Hd Hds]. apply trim_space_around; [by apply digit_visible| |done..].
  rewrite Forall_app. split; [|repeat constructor; unfold is_ascii; lia].
  eapply Forall_impl; [exact Hds|unfold digit, is_ascii; lia].
Qed.
Lemma trim_itoa n : 0 <= n -> trim_space (itoa n) = itoa n.
Proof.
  intros Hn. destruct (itoa_digits n Hn) as (d & ds & E & Hd). unfold itoa. rewrite E. apply trim_space_visible.
  eapply Forall_impl; [exact Hd|apply digit_visible].
Qed.

(** The line of an option is read as its number and its label. *)
Lemma parse_rendered_line n label :
  0 < n -> in_int64 n = true -> trim_space label = label -> label <> "" ->
  parseRenderedCandidateSelection (itoa n +:+ ". " +:+ label) = Some (n, label).
Proof.
  intros Hn Hi Hl Hne. apply bind_Some. exists (itoa_bytes n, 32 :: bytes label). split.
  - rewrite trim_line by (done || lia). apply split_line. lia.
  - apply bind_Some. exists n. split.
    + change (of_bytes (itoa_bytes n)) with (itoa n). rewrite trim_itoa by lia. by apply parseCandidateOrdinal_itoa.
    + f_equal. f_equal. by apply trim_space_space.
Qed.

(** ** Selecting a candidate *)

(** Why a candidate is the one a message chooses. *)
Inductive chosen (message : string) (candidates : list Candidate) (c : Candidate) : Prop :=
  | chosen_by_line n label :
      parseRenderedCandidateSelection message = Some (n, label) -> nth_candidate candidates n = Some c ->
      label = "" \/ normalizeEntityName (cand_Label c) ∈ entityNameVariants label
        \/ normalizeEntityName (cand_Label c) ∈ entityNameVariants message ->
      chosen message candidates c
  | chosen_by_ordinal n :
      parseCandidateOrdinal message = Some n -> nth_candidate candidates n = Some c -> chosen message candidates c
  | chosen_by_name :
      normalizeEntityName (cand_Label c) ∈ entityNameVariants message -> c ∈ candidates -> chosen message candidates c.

Lemma position_Some {A} (f : A -> bool) l i : position f l = Some i -> exists x, l !! i = Some x /\ f x = true.
Proof.
  revert i. induction l as [|a l IH]; intros i; [done|]. cbn. destruct (f a) eqn:E; [intros [= <-]; by exists a|].
  intros (j & H & ->)%fmap_Some. destruct (IH j) as (x & ? & ?); [done|]. by exists x.
Qed.
Lemma fullLabelIndex_Some vs cs i :
  fullLabelIndex vs cs = Some i -> exists c, cs !! i = Some c /\ normalizeEntityName (cand_Label c) ∈ vs.
Proof.
  induction vs as [|v vs IH]; [done|]. cbn. destruct (position (label_is v) cs) as [j|] eqn:E.
  - intros [= ->]. apply position_Some in E as (c & ? & Hc). unfold label_is in Hc. apply eqs_true in Hc.
    exists c. split; [done|]. set_solver.
  - intros H. destruct (IH H) as (c & ? & ?). exists c. split; [done|]. set_solver.
Qed.

Lemma nth_candidate_elem cs n c : nth_candidate cs n = Some c -> c ∈ cs.
Proof. unfold nth_candidate. case_if; [done|]. apply list_elem_of_lookup_2. Qed.

Lemma validateCandidateTenant_OK c t :
  sl_OK (validateCandidateTenant c t) = true ->
  sl_Candidate (validateCandidateTenant c t) = Some c /\ (t = 0 \/ cand_TenantID c = t).
Proof.
  unfold validateCandidateTenant. destruct (Z.eqb_spec t 0), (Z.eqb_spec (cand_TenantID c) t); cbn; try done; auto.
Qed.

(** A choice is one of the offered candidates: a selection that is accepted
    names a candidate of the list, of the tenant of the request, which the
    message singles out by its number, by its number with a label that does not
    contradict it, or by its name. *)
Theorem selection_is_offered message t candidates :
  sl_OK (resolveCandidateSelection message t candidates) = true ->
  exists c, sl_Candidate (resolveCandidateSelection message t candidates) = Some c
    /\ c ∈ candidates /\ (t = 0 \/ cand_TenantID c = t) /\ chosen message candidates c.
Proof.
  unfold resolveCandidateSelection.
  destruct (fullLabelIndex (entityNameVariants message) candidates) as [i|] eqn:Ef; cbn [mbind option_bind].
  - apply fullLabelIndex_Some in Ef as (cf & Hcf & Hn).
    assert (Hin : cf ∈ candidates) by by eapply list_elem_of_lookup_2.
    rewrite Hcf.
    destruct (parseRenderedCandidateSelection message) as [[n label]|] eqn:Er.
    + destruct (nth_candidate candidates n) as [c|] eqn:Ec.
      * destruct (Z.eqb_spec (Z.of_nat i) (n - 1)) as [En|]; cbn [negb]; [|done].
        intros [H1 H2]%validateCandidateTenant_OK. exists c. split_and!; [done|by eapply nth_candidate_elem|done|].
        eapply chosen_by_line; [done..|]. right; right. unfold nth_candidate in Ec. case_if_in Ec; [done|].
        rewrite <- En, Nat2Z.id in Ec. congruence.
      * intros [H1 H2]%validateCandidateTenant_OK. exists cf. split_and!; [done..|]. by apply chosen_by_name.
    + destruct (parseCandidateOrdinal message) as [n|] eqn:Eo.
      * destruct (nth_candidate candidates n) as [c|] eqn:Ec; [|done].
        intros [H1 H2]%validateCandidateTenant_OK. exists c.
        split_and!; [done|by eapply nth_candidate_elem|done|by eapply chosen_by_ordinal].
      * intros [H1 H2]%validateCandidateTenant_OK. exists cf. split_and!; [done..|]. by apply chosen_by_name.
  - destruct (parseRenderedCandidateSelection message) as [[n label]|] eqn:Er.
    + destruct (nth_candidate candidates n) as [c|] eqn:Ec; [|done].
      destruct (eqs label "" || existsb (fun v => label_is v c) (entityNameVariants label)) eqn:El.
      * replace (negb (eqs label "") && negb (existsb (fun v => label_is v c) (entityNameVariants label))) with false
          by (by rewrite <- negb_orb, El).
        intros [H1 H2]%validateCandidateTenant_OK. exists c. split_and!; [done|by eapply nth_candidate_elem|done|].
        eapply chosen_by_line; [done..|]. apply orb_true_iff in El as [El%eqs_true|El]; [by left|right; left].
        apply existsb_exists in El as (v & Hv & Hc). unfold label_is in Hc. apply eqs_true in Hc.
        rewrite Hc. by apply list_elem_of_In.
      * replace (negb (eqs label "") && negb (existsb (fun v => label_is v c) (entityNameVariants label))) with true
          by (by rewrite <- negb_orb, El). done.
    + destruct (parseCandidateOrdinal message) as [n|] eqn:Eo; [|done].
      destruct (nth_candidate candidates n) as [c|] eqn:Ec; [|done].
      intros [H1 H2]%validateCandidateTenant_OK. exists c.
      split_and!; [done|by eapply nth_candidate_elem|done|by eapply chosen_by_ordinal].
Qed.

Definition candidates_demo : list Candidate :=
  [mkCandidate "11" "教务一科" (VString "11") 7; mkCandidate "12" "教务二科" (VString "12") 7].
Lemma selection_is_offered_witness :
  exists c, sl_Candidate (resolveCandidateSelection "就选第二个" 7 candidates_demo) = None
    /\ sl_Candidate (resolveCandidateSelection "选第二个" 7 candidates_demo) = Some c /\ cand_ID c = "12" /\ c ∈ candidates_demo.
Proof.
  destruct (selection_is_offered "选第二个" 7 candidates_demo) as (c & Hc & Hin & _); [vm_compute; reflexivity|].
  exists c. split; [vm_compute; reflexivity|]. split; [exact Hc|]. split; [|exact Hin].
  vm_compute in Hc. injection Hc as <-. reflexivity.
Defined.

(** ** Options as they are rendered *)

Lemma fullLabelIndex_None vs cs :
  (forall c, c ∈ cs -> normalizeEntityName (cand_Label c) ∉ vs) -> fullLabelIndex vs cs = None.
Proof.
  intros H. destruct (fullLabelIndex vs cs) as [i|] eqn:E; [|done].
  apply fullLabelIndex_Some in E as (c & Hc & Hn). by apply list_elem_of_lookup_2, H in Hc.
Qed.

Lemma add_variant_keeps base vs v : base ∈ vs -> base ∈ add_variant vs v.
Proof. unfold add_variant. case_if; set_solver. Qed.
Lemma entityNameVariants_base s : normalizeEntityName s <> "" -> normalizeEntityName s ∈ entityNameVariants s.
Proof.
  intros Hb%eqs_false. unfold entityNameVariants. rewrite Hb. generalize ["就选"; "选择"; "选"; "就"; "要"]. intros l.
  enough (forall vs, normalizeEntityName s ∈ vs -> normalizeEntityName s ∈ fold_left (fun variants prefix =>
     if has_prefix (normalizeEntityName s) prefix && (str_len prefix <? str_len (normalizeEntityName s))
     then add_variant variants (trim_prefix (normalizeEntityName s) prefix) else variants) l vs) as H
    by (apply H; set_solver).
  induction l as [|p l IH]; intros vs Hv; [done|]. cbn [fold_left]. apply IH. case_if; [|done]. by apply add_variant_keeps.
Qed.

(** The line of the candidate at a position chooses that candidate, unless a
    candidate is named like the line. *)
Lemma rendered_line_selects i candidates c t :
  candidates !! i = Some c -> Z.of_nat i + 1 <= max_int64 ->
  trim_space (cand_Label c) = cand_Label c -> normalizeEntityName (cand_Label c) <> "" ->
  (t = 0 \/ cand_TenantID c = t) ->
  (forall c', c' ∈ candidates ->
     normalizeEntityName (cand_Label c') ∉ entityNameVariants (itoa (Z.of_nat i + 1) +:+ ". " +:+ cand_Label c)) ->
  resolveCandidateSelection (itoa (Z.of_nat i + 1) +:+ ". " +:+ cand_Label c) t candidates
  = mkSelection true true (Some c) "".
Proof.
  intros Hi Hm Ht Hn Htn Hu. unfold resolveCandidateSelection. rewrite fullLabelIndex_None by done.
  rewrite parse_rendered_line; [|lia| |done|].
  2:{ unfold in_int64, min_int64, max_int64, two63 in *. lia. }
  2:{ intros E. rewrite E in Hn. by vm_compute in Hn. }
  assert (nth_candidate candidates (Z.of_nat i + 1) = Some c) as ->.
  { unfold nth_candidate, len. pose proof (lookup_lt_Some _ _ _ Hi).
    destruct (Z.ltb_spec (Z.of_nat (length candidates)) (Z.of_nat i + 1)); [lia|].
    replace (Z.to_nat (Z.of_nat i + 1 - 1)) with i by lia. done. }
  assert (existsb (fun v => label_is v c) (entityNameVariants (cand_Label c)) = true) as ->.
  { apply existsb_exists. exists (normalizeEntityName (cand_Label c)). split.
    - by apply list_elem_of_In, entityNameVariants_base.
    - unfold label_is. by apply eqs_true. }
  rewrite andb_false_r. unfold validateCandidateTenant.
  destruct (Z.eqb_spec t 0); [done|]. destruct Htn as [|Htn]; [done|]. rewrite Htn, Z.eqb_refl. done.
Qed.

Lemma numbered_lookup idx labels i :
  numbered idx labels !! i = (fun l => itoa (idx + Z.of_nat i + 1) +:+ ". " +:+ l) <$> labels !! i.
Proof.
  revert idx i. induction labels as [|l labels IH]; intros idx i; [done|]. destruct i as [|i]; cbn [numbered lookup list_lookup].
  - by rewrite Z.add_0_r.
  - rewrite IH. f_equal. by replace (idx + 1 + Z.of_nat i + 1) with (idx + Z.of_nat (S i) + 1) by lia.
Qed.
