(* ===== verification/LlmSpec.v ===== *)
(** * Properties of the model client

    A structured call is bounded: at most two attempts reach the model.  Reading
    the tool calls that leak into a text goes wrong in exactly one way. *)
From Stdlib Require Import ZArith QArith Lia Bool String.
From stdpp Require Import base list strings gmap.
From S2P Require Import Prelude GoStrings Json JsonLax Text Llm.
#[local] Open Scope go_scope.

(** ** Searching *)

Lemma prefix_of_split p l : prefix_of p l = true -> exists r, l = p ++ r.
Proof.
  revert l. induction p as [|a p IH]; intros l H; [by exists l|]. destruct l as [|b l]; [done|]. cbn in H. b2p.
  destruct (IH l) as [r ->]; [done|]. exists r. cbn. by f_equal.
Qed.
Lemma index_bytes_Some sub l i : index_bytes sub l = Some i -> exists r, drop i l = sub ++ r /\ (i <= length l)%nat.
Proof.
  revert i. induction l as [|b l IH]; intros i; cbn [index_bytes].
  - destruct (prefix_of sub []) eqn:E; [|done]. intros [= <-]. apply prefix_of_split in E as [r E]. exists r. split; [exact E|done].
  - destruct (prefix_of sub (b :: l)) eqn:E.
    + intros [= <-]. apply prefix_of_split in E as [r E]. exists r. split; [done|cbn; lia].
    + intros (j & Hj & ->)%fmap_Some. destruct (IH j Hj) as (r & Hr & Hl). exists r. split; [done|cbn; lia].
Qed.
Lemma last_index_bytes_Some sub l i : last_index_bytes sub l = Some i -> exists r, drop i l = sub ++ r /\ (i <= length l)%nat.
Proof.
  revert i. induction l as [|b l IH]; intros i; cbn [last_index_bytes].
  - destruct (prefix_of sub []) eqn:E; [|done]. intros [= <-]. apply prefix_of_split in E as [r E]. exists r. split; [exact E|done].
  - destruct (last_index_bytes sub l) as [j|].
    + intros [= <-]. destruct (IH j eq_refl) as (r & Hr & Hl). exists r. split; [done|cbn; lia].
    + destruct (prefix_of sub (b :: l)) eqn:E; [|done]. intros [= <-]. apply prefix_of_split in E as [r E]. exists r. split; [done|cbn; lia].
Qed.

Lemma length_bytes_string s : length (bytes s) = String.length s.
Proof. induction s as [|a s IH]; [done|]. cbn. by f_equal. Qed.

(** An opening tag and a later closing tag do not overlap. *)
Lemma tags_apart body aStart aEnd :
  index body argOpen = Some aStart -> last_index body argClose = Some aEnd -> (aStart < aEnd)%nat ->
  (aStart + String.length argOpen <= aEnd)%nat.
Proof.
  unfold index, last_index. intros (r1 & H1 & _)%index_bytes_Some (r2 & H2 & _)%last_index_bytes_Some Hlt.
  destruct (Nat.le_gt_cases (aStart + String.length argOpen) aEnd) as [|Hgt]; [done|exfalso].
  change (String.length argOpen) with 11%nat in Hgt.
  assert (Hc : bytes body !! aEnd = Some 60).
  { pose proof (f_equal (lookup 0%nat) H2) as E. rewrite lookup_drop, Nat.add_0_r in E. rewrite E. reflexivity. }
  pose proof (f_equal (lookup (aEnd - aStart)%nat) H1) as E. rewrite lookup_drop in E.
  replace (aStart + (aEnd - aStart))%nat with aEnd in E by lia. rewrite Hc in E.
  assert (Hk : (1 <= aEnd - aStart <= 10)%nat) by lia. remember (aEnd - aStart)%nat as k eqn:Ek. clear -E Hk.
  do 11 (destruct k as [|k]; [try lia; discriminate E|]). lia.
Qed.

Lemma dsml_arguments_total body : is_Some (dsml_arguments body).
Proof.
  unfold dsml_arguments. destruct (index body argOpen) as [aStart|] eqn:E1; [|done].
  destruct (last_index body argClose) as [aEnd|] eqn:E2; [|done].
  destruct (Nat.ltb_spec aStart aEnd) as [Hlt|]; [|done]. pose proof (tags_apart _ _ _ E1 E2 Hlt) as Hle.
  unfold last_index in E2. apply last_index_bytes_Some in E2 as (r & _ & Hl). rewrite length_bytes_string in Hl.
  unfold slice. apply Nat.leb_le in Hle, Hl. rewrite Hle, Hl. done.
Qed.

Lemma dsml_calls_total fuel n remaining : is_Some (dsml_calls fuel n remaining).
Proof.
  revert n remaining. induction fuel as [|fuel IH]; intros n remaining; [done|]. cbn [dsml_calls]. cbv zeta.
  destruct (index remaining invokeOpen); [|done]. destruct (index _ dquote); [|done]. destruct (index _ invokeClose) as [j|]; [|done].
  match goal with |- context [dsml_arguments ?b] => destruct (dsml_arguments_total b) as [a ->] end. cbn [mbind option_bind].
  match goal with |- context [dsml_calls fuel ?m ?r] => destruct (IH m r) as [l ->] end. done.
Qed.

(** Reading the tool calls that leak into a text panics exactly when the
    first closing tag of a block ends before the first opening tag: then the
    bounds of the slice are out of order.  In every other case it answers, and
    the arguments of a call never cross their tags. *)
Definition crossed (content : string) : Prop :=
  exists bStart bEnd, index content blockOpen = Some bStart /\ index content blockClose = Some bEnd
    /\ (bEnd + String.length blockClose < bStart)%nat.
Theorem dsml_panics content : parseDSMLToolCalls content = None <-> crossed content.
Proof.
  unfold parseDSMLToolCalls, crossed. split.
  - destruct (index content blockOpen) as [bStart|] eqn:E1; [|done]. destruct (index content blockClose) as [bEnd|] eqn:E2; [|done].
    cbv zeta. intros H. exists bStart, bEnd. split_and!; [done..|]. apply Nat.nle_gt. intros Hle.
    assert (Hl : (bEnd + String.length blockClose <= String.length content)%nat).
    { unfold index in E2. apply index_bytes_Some in E2 as (r & Hr & Hl). apply (f_equal length) in Hr.
      rewrite length_drop, length_app in Hr. rewrite !length_bytes_string in *. lia. }
    unfold slice in H. apply Nat.leb_le in Hle, Hl. rewrite Hle, Hl in H. cbn [andb mbind option_bind] in H.
    match type of H with context [dsml_calls ?f ?n ?r] => destruct (dsml_calls_total f n r) as [l El]; rewrite El in H end. done.
  - intros (bStart & bEnd & -> & -> & Hlt). cbv zeta. unfold slice. apply Nat.leb_gt in Hlt. by rewrite Hlt.
Qed.

(** A reply of a model that panics. *)
Definition crossed_reply : string :=
  "{" +:+ dquote +:+ "choices" +:+ dquote +:+ ":[{" +:+ dquote +:+ "message" +:+ dquote +:+ ":{" +:+ dquote +:+ "content"
  +:+ dquote +:+ ":" +:+ dquote +:+ blockClose +:+ " " +:+ blockOpen +:+ dquote +:+ "}}]}".
Lemma crossed_reply_panics : read_answer 200 crossed_reply = ChatPanic.
Proof. vm_compute. reflexivity. Qed.

(** The first message of a body, as it is decoded. *)
Definition first_message (body : string) : option Message :=
  match (unmarshal lax_chat_response ([], None) body).1.1 with (m, _) :: _ => Some m | [] => None end.
Lemma read_panics status body :
  read_answer status body = ChatPanic ->
  status = 200 /\ exists m, first_message body = Some m /\ crossed (msg_Content m).
Proof.
  unfold read_answer, first_message. case_if; [done|]. destruct (Z.eqb_spec status 200) as [->|]; [|done]. cbn [negb].
  destruct (unmarshal _ _ body) as [[choices api_error] failed]. cbn [fst].
  destruct failed, api_error, choices as [|[m fin] rest]; try done.
  destruct (recover_tool_calls m) as [|] eqn:Er; [done|]. intros _. split; [done|]. exists m. split; [done|].
  apply dsml_panics. unfold recover_tool_calls in Er. case_if_in Er; [|done].
  destruct (parseDSMLToolCalls (msg_Content m)) as [[calls clean]|]; [|done]. cbn in Er. by destruct calls.
Qed.

(** The transport gave an answer of which the client panics. *)
Definition crossed_answer {W T} (http : chatRequest T -> W -> http_answer * W) : Prop :=
  exists req w body w' m, http req w = (HttpAnswer 200 body, w') /\ first_message body = Some m /\ crossed (msg_Content m).

Section panics.
Context {W T : Type}.
Variable ctx_err : W -> option err.
Variable http : chatRequest T -> W -> http_answer * W.
Variable wait : Z -> W -> bool * W.
Variable model : string.

Lemma doChat_panics req w w' : doChat ctx_err http req w = (ChatPanic, w') -> crossed_answer http.
Proof.
  unfold doChat. destruct (ctx_err w); [done|]. destruct (http req w) as [answer w1] eqn:E. intros [= H _].
  destruct answer as [|timeout| |status body]; try done; [by destruct (ctx_err w1)|].
  apply read_panics in H as [-> (m & Hm & Hc)]. by exists req, w, body, w1, m.
Qed.
Lemma attempts_panic tries attempt last req w w' :
  structured_attempts ctx_err http wait tries attempt last req w = (Panicked, w') -> crossed_answer http.
Proof.
  revert attempt last w. induction tries as [|tries IH]; intros attempt last w; cbn [structured_attempts]; [done|].
  destruct (if 1 <? attempt then _ else _) as [[] w1]; [done|].
  destruct (doChat ctx_err http req w1) as [[m|e retryable|] w2] eqn:E; [done| |intros _; by eapply doChat_panics].
  case_if; [apply IH|done].
Qed.
Lemma structured_panics messages spec w w' :
  ChatStructured ctx_err http wait model messages spec w = (Panicked, w') -> crossed_answer http.
Proof. unfold ChatStructured. cbv zeta. repeat (case_if; [done|]). apply attempts_panic. Qed.
End panics.

(** ** The attempts of a structured call *)

Section attempts.
Context {W T : Type}.
Variable ctx_err : W -> option err.
Variable http : chatRequest T -> W -> http_answer * W.
Variable wait : Z -> W -> bool * W.
Variable model : string.

(** How often the transport was called, read off the world. *)
Variable calls : W -> Z.
Hypothesis http_calls : forall req w, calls (http req w).2 = calls w + 1.
Hypothesis wait_calls : forall n w, calls (wait n w).2 = calls w.

Definition attempts_of (r : chat_outcome) : option Z :=
  match r with Answered _ n => Some n | Failed _ n => Some n | Panicked => None end.

Lemma doChat_calls req w : calls w <= calls (doChat ctx_err http req w).2 <= calls w + 1.
Proof.
  unfold doChat. destruct (ctx_err w); [cbn; lia|]. pose proof (http_calls req w) as H.
  destruct (http req w) as [answer w']. cbn in *. lia.
Qed.

(** The loop makes no more calls than the attempts it has, and reports at least
    as many attempts as it made calls. *)
Lemma structured_attempts_spec tries attempt last req w :
  1 <= attempt ->
  let r := structured_attempts ctx_err http wait tries attempt last req w in
  calls w <= calls r.2 <= calls w + Z.of_nat tries
  /\ forall n, attempts_of r.1 = Some n -> n <= attempt - 1 + Z.of_nat tries /\ calls r.2 <= calls w + (n - (attempt - 1)).
Proof.
  revert attempt last w. induction tries as [|tries IH]; intros attempt last w Ha; cbn [structured_attempts].
  { cbn. split; [lia|]. intros n [= <-]. lia. }
  pose proof (wait_calls 1 w) as Hw.
  destruct (if 1 <? attempt then wait 1 w else (false, w)) as [d w1] eqn:Ew.
  assert (Hw1 : calls w1 = calls w).
  { destruct (1 <? attempt); [rewrite Ew in Hw; exact Hw|by injection Ew as _ <-]. }
  destruct d; [cbn; split; [lia|]; intros n [= <-]; lia|].
  pose proof (doChat_calls req w1) as Hd. destruct (doChat ctx_err http req w1) as [[m|e retryable|] w2]; cbn [snd] in Hd.
  - cbn. split; [lia|]. intros n [= <-]. lia.
  - destruct (structuredTransportRetryable retryable e).
    + destruct (IH (attempt + 1) (Some e) w2) as [H1 H2]; [lia|]. cbv zeta in *. split; [lia|].
      intros n Hn. specialize (H2 n Hn). lia.
    + cbn. split; [lia|]. intros n [= <-]. lia.
  - cbn. split; [lia|done].
Qed.

(** A structured call is bounded: whatever the transport answers, it calls
    the model at most twice, and never more often than its specification asks
    for; the number of attempts it reports is at most two and at least the number
    of calls it made. *)
Theorem structured_call_bounded messages spec w :
  let r := ChatStructured ctx_err http wait model messages spec w in
  calls r.2 <= calls w + Z.min 2 (Z.max 1 (os_TransportMaxAttempts spec))
  /\ forall n, attempts_of r.1 = Some n -> n <= 2 /\ calls r.2 - calls w <= n.
Proof.
  unfold ChatStructured. cbv zeta. repeat (case_if; [cbn; split; [lia|]; intros n [= <-]; lia|]).
  set (k := if os_TransportMaxAttempts spec <=? 0 then 1 else os_TransportMaxAttempts spec) in *.
  assert (Hk : 1 <= k <= 2 /\ k = Z.max 1 (os_TransportMaxAttempts spec)).
  { unfold k in *. destruct (Z.leb_spec (os_TransportMaxAttempts spec) 0); [lia|]. apply Z.ltb_ge in E1. lia. }
  set (req := mkChatRequest _ _ _ _ _ _).
  destruct (structured_attempts_spec (Z.to_nat k) 1 None req w) as [H1 H2]; [lia|]. cbv zeta in *. split; [lia|].
  intros n Hn. specialize (H2 n Hn). lia.
Qed.
End attempts.

(** A transport that fails twice. *)
Definition failing_http : chatRequest unit -> Z -> http_answer * Z := fun _ w => (HttpFailed false, w + 1).
Lemma structured_call_bounded_witness :
  let r := ChatStructured (fun _ => None) failing_http (fun _ w => (false, w)) "m" [] (mkOutputSpec "json_object" 0 512 2 0) 0 in
  attempts_of r.1 = Some 2 /\ r.2 = 2 /\ r.2 <= 0 + Z.min 2 (Z.max 1 2).
Proof.
  split; [reflexivity|]. split; [reflexivity|].
  exact (proj1 (structured_call_bounded (fun _ => None) failing_http (fun _ w => (false, w)) "m" (fun w => w)
    (fun _ _ => eq_refl) (fun _ _ => eq_refl) [] (mkOutputSpec "json_object" 0 512 2 0) 0)).
Defined.

(** The comment of the response promises the exact number of HTTP attempts; a
    context that is done counts as one although nothing was sent. *)
Lemma attempts_count_no_call :
  let r := ChatStructured (fun _ => Some (EMsg "context canceled")) failing_http (fun _ w => (false, w)) "m" []
             (mkOutputSpec "json_object" 0 512 2 0) 0 in
  attempts_of r.1 = Some 1 /\ r.2 = 0.
Proof. split; reflexivity. Qed.
