(* ===== verification/IntentSpec.v ===== *)
(** * Properties of the intent compiler

    The history sent to the model is bounded and recent; whatever the model
    answers, a draft that is accepted is well formed: known acts and domains,
    slots that are declared, distinct and never a trusted identifier. *)
From Stdlib Require Import ZArith QArith Lia Bool String.
From stdpp Require Import base list strings gmap.
From S2P Require Import Prelude GoStrings GoTime Json Contract Codec Catalog Workflow Text Llm LlmSpec Intent.
#[local] Open Scope go_scope.

(** ** The reply *)

Lemma guard_bind {B} b e (k : unit -> res B) y :
  res_bind (guard b e) k = Ok y -> b = true /\ k tt = Ok y.
Proof. intros (u & Hg & Hk)%res_bind_Ok. apply guard_Ok in Hg. by destruct u. Qed.

(** What a slot of an accepted draft is. *)
Record slot_checked (manifest : option OperationManifest) (field : string) (slot : SlotDraft) : Prop := {
  sc_field : slot_Field slot = field;
  sc_trimmed : trim_space field = field;
  sc_named : field <> "";
  sc_raw : blank (slot_Raw slot) = false;
  sc_untrusted : trustedIDSlotText field = false;
  sc_declared : forall m, manifest = Some m -> is_Some (lookupRawSlotSpec (rec_RawSlots (om_Recognition m)) field)
}.

(** The parameter a declared slot is for. *)
Definition slot_target (m : OperationManifest) (field : string) : option string :=
  rs_TargetParam <$> lookupRawSlotSpec (rec_RawSlots (om_Recognition m)) field.

(** Slots and targets agree. *)
Definition slots_checked (manifest : option OperationManifest) (st : gmap string SlotDraft * gmap string string) : Prop :=
  map_Forall (slot_checked manifest) st.1
  /\ forall m, manifest = Some m ->
       forall field, is_Some (st.1 !! field) -> exists t, slot_target m field = Some t /\ st.2 !! t = Some field.

Lemma add_slot_checked manifest st slot st' :
  slots_checked manifest st -> add_slot manifest st slot = Ok st' -> slots_checked manifest st'.
Proof.
  destruct st as [slots targets]. intros [Hs Ht]. cbn [fst snd] in Hs, Ht. unfold add_slot. set (field := trim_space (is_Field slot)).
  intros (Hf & H)%guard_bind. apply guard_bind in H as (Hid & H). apply guard_bind in H as (Hraw & H).
  apply negb_true_iff, eqs_false in Hf. apply negb_true_iff in Hid, Hraw.
  apply res_bind_Ok in H as (targets' & Ht' & H).
  destruct (slots !! field) as [s0|] eqn:Ef; [done|]. injection H as <-.
  assert (Htrim : trim_space field = field) by apply trim_space_idem.
  destruct manifest as [m|]; cbn in Ht'.
  - destruct (lookupRawSlotSpec (rec_RawSlots (om_Recognition m)) field) as [spec|] eqn:El; [|done].
    destruct (targets !! rs_TargetParam spec) as [prev|] eqn:Ep; [done|]. injection Ht' as <-. split; cbn [fst snd].
    + apply map_Forall_insert_2; [|done]. split; cbn; try done. intros ? [= <-]. by rewrite El.
    + intros ? [= <-] g Hg. destruct (decide (g = field)) as [->|Hne].
      * exists (rs_TargetParam spec). unfold slot_target. rewrite El. split; [done|]. apply lookup_insert_eq.
      * rewrite lookup_insert_ne in Hg by done. destruct (Ht m eq_refl g Hg) as (t & H1 & H2).
        exists t. split; [done|]. rewrite lookup_insert_ne; [done|]. intros <-. congruence.
  - injection Ht' as <-. split; cbn [fst snd]; [|done]. apply map_Forall_insert_2; [|done]. by split.
Qed.

Lemma add_slots_checked manifest items st st' :
  slots_checked manifest st -> add_slots manifest items st = Ok st' -> slots_checked manifest st'.
Proof.
  revert st. induction items as [|slot items IH]; intros st Hst; cbn [add_slots]; [by intros [= <-]|].
  intros (st1 & H1 & H2)%res_bind_Ok. eapply IH; [|exact H2]. by eapply add_slot_checked.
Qed.

(** What an accepted draft is. *)
Record draft_checked (d : IntentDraft) : Prop := {
  dc_act : knownIntentAct (draft_Act d) = true;
  dc_domain : knownBusinessDomain (draft_Domain d) = true;
  dc_operation : draft_Act d <> ActUnknown -> draft_Operation d <> "";
  dc_trimmed : trim_space (draft_Operation d) = draft_Operation d;
  dc_slots : map_Forall (slot_checked (lookupOperation (draft_Operation d))) (draft_Slots d);
  dc_targets : forall m f1 f2, lookupOperation (draft_Operation d) = Some m ->
    is_Some (draft_Slots d !! f1) -> is_Some (draft_Slots d !! f2) -> slot_target m f1 = slot_target m f2 -> f1 = f2;
  dc_params : draft_Params d = ∅ /\ draft_MissingFields d = [] /\ draft_ClarifyReason d = ""
}.

Lemma parsed_draft_checked content d : parseIntentCompilerResponse content = Ok d -> draft_checked d.
Proof.
  unfold parseIntentCompilerResponse. intros (fields & _ & H)%res_bind_Ok. apply guard_bind in H as (_ & H).
  apply res_bind_Ok in H as (act & _ & H). apply res_bind_Ok in H as (domain & _ & H).
  apply res_bind_Ok in H as (op & _ & H). apply res_bind_Ok in H as (conf & _ & H).
  apply res_bind_Ok in H as (items & _ & H). apply res_bind_Ok in H as (reason & _ & H).
  apply guard_bind in H as (Hk & H). apply guard_bind in H as (Ho & H). apply res_bind_Ok in H as (st & Hst & H).
  injection H as <-. apply andb_true_iff in Hk as [Ha Hd].
  apply add_slots_checked in Hst as [Hs Ht]; [|split; [apply map_Forall_empty|]; intros ? _ g [y Hy]; cbn in Hy; by rewrite lookup_empty in Hy].
  split; cbn -[lookupOperation]; try done.
  - intros Hne. apply orb_true_iff in Ho as [->%eqs_true|Ho]; [done|]. by apply negb_true_iff, eqs_false in Ho.
  - apply trim_space_idem.
  - intros m f1 f2 Hm H1 H2 He. destruct (Ht m Hm f1 H1) as (t1 & E1 & L1). destruct (Ht m Hm f2 H2) as (t2 & E2 & L2).
    congruence.
Qed.

(** What the status of a reply says of its draft. *)
Lemma compile_intent_checked {W} ctx_err (c : llmIntentCompiler W) req w r w' :
  Compile_intent ctx_err c req w = (Ok r, w') ->
  (ir_Status r = IntentCompileOK ->
     draft_checked (ir_Draft r) /\ draft_Act (ir_Draft r) <> ActUnknown /\ draft_Operation (ir_Draft r) <> "")
  /\ (ir_Status r <> IntentCompileOK ->
     draft_Act (ir_Draft r) = ActUnknown /\ draft_Domain (ir_Draft r) = DomainUnknown
     /\ draft_Operation (ir_Draft r) = "").
Proof.
  unfold Compile_intent. destruct (lc_client c) as [chat|]; [|done]. cbv zeta. case_if; [by intros [= <- _]|].
  destruct (chat _ _ _ w) as [[reply|] w1]; [|done]. destruct (cr_Message reply) as [m|].
  - intros [= <- _]. unfold judge_reply. destruct (parseIntentCompilerResponse (msg_Content m)) as [d|e] eqn:Ed.
    + apply parsed_draft_checked in Ed. unfold draft_is_unknown. destruct (eqs (draft_Act d) ActUnknown) eqn:Eu.
      * apply eqs_true in Eu. split; [done|]. by intros _.
      * apply eqs_false in Eu. case_if; [split; [done|]; by intros _|]. split; [|by intros ?]. intros _.
        apply eqs_false in E0. done.
    + split; [done|]. by intros _.
  - destruct (ctx_err w1); [done|]. case_if; intros [= <- _]; (split; [done|]; by intros _).
Qed.

(** The compiler panics only of an answer of the transport. *)
Lemma compile_intent_panics {W T} ctx_err call_err (http : chatRequest T -> W -> http_answer * W) wait model
    (c : llmIntentCompiler W) req w :
  lc_client c = Some (structured_client call_err http wait model) -> (forall w, ctx_err w <> Some panic_error) ->
  is_panic (Compile_intent ctx_err c req w).1 = true -> crossed_answer http.
Proof.
  intros Hc Hctx. unfold Compile_intent. rewrite Hc. cbv zeta. case_if; [done|]. unfold structured_client.
  destruct (ChatStructured _ _ _ _ _ _ w) as [[m n|e n|] w1] eqn:Er; [done| |intros _; by eapply structured_panics].
  cbn [cr_Message cr_Expired cr_Attempts]. destruct (ctx_err w1) as [e1|] eqn:E1; [|by case_if].
  unfold is_panic. cbn [fst]. rewrite bool_decide_eq_true. intros ->. by destruct (Hctx w1).
Qed.

(** C6: Whatever text the model answers, a draft the intent compiler accepts is
    well formed: the act and the domain are known ones, an operation is named
    unless the act is unknown, every slot has a name and text, none is a trusted
    identifier, and for an operation of the catalogue every slot is declared by
    it and no two slots are for the same parameter; a failed call, a reply that
    cannot be read and a reply without an operation give an unknown draft and
    never the status ok. *)
Theorem intent_drafts_checked {W} ctx_err (c : llmIntentCompiler W) req w r w' :
  Compile_intent ctx_err c req w = (Ok r, w') ->
  (ir_Status r = IntentCompileOK ->
     draft_checked (ir_Draft r) /\ draft_Act (ir_Draft r) <> ActUnknown /\ draft_Operation (ir_Draft r) <> "")
  /\ (ir_Status r <> IntentCompileOK ->
     draft_Act (ir_Draft r) = ActUnknown /\ draft_Domain (ir_Draft r) = DomainUnknown
     /\ draft_Operation (ir_Draft r) = "").
Proof. apply compile_intent_checked. Qed.

(** A reply that is accepted. *)
Definition sample_reply : string :=
  marshal (obj [(false, "act", JStr ActReadQuery); (false, "domain", JStr DomainSchedule);
                (false, "operation", JStr "schedule.query_user_schedule"); (false, "confidence", JNum "0.9");
                (false, "slots", JArr [obj [(false, "field", JStr "user_name"); (false, "raw", JStr "张三")]]);
                (false, "reason", JStr "named user")]).
Definition sample_client : llmIntentCompiler unit :=
  newLLMIntentCompiler
    (Some (fun _ _ _ w => (ChatReturned (mkChatResponse (Some (mkMessage "assistant" sample_reply "" [])) 1 false), w)))
    "prompt" 0 (mkOutputSpec "" 0 0 0 0).

Lemma intent_drafts_checked_witness :
  exists r, Compile_intent (fun _ => None) sample_client (mkIntentRequest "查张三的课表" [] None) tt = (Ok r, tt)
    /\ draft_checked (ir_Draft r).
Proof.
  eexists. split; [vm_compute; reflexivity|].
  refine (proj1 (proj1 (intent_drafts_checked (fun _ => None) sample_client (mkIntentRequest "查张三的课表" [] None) tt
                          _ tt _) _)); vm_compute; reflexivity.
Defined.

(** ** The history *)

(** A rune of a byte string, encoded again, is one rune. *)
Lemma reencoded l : Forall is_byte l ->
  Forall (fun c => good_chunk (c.1, encode_rune c.1) /\ Forall is_byte (encode_rune c.1)) (runes l).
Proof.
  induction l as [|b0 l1 r bs l2 E1 E2 IH] using runes_ind; [constructor|].
  intros Hb. rewrite E1. rewrite E2 in Hb. apply Forall_app in Hb as [Hbs Hl2]. constructor; [|by apply IH]. cbn [fst].
  destruct (first_rune b0 l1) as (r' & bs' & l2' & E1' & _ & Hc). rewrite E1 in E1'. injection E1' as <- <- _.
  assert (Hgood : good_chunk (r, bs) -> good_chunk (r, encode_rune r) /\ Forall is_byte (encode_rune r)).
  { intros Hg. pose proof (good_encode _ Hg) as He. cbn in He. by rewrite He. }
  destruct Hc as [(Hlt&->&->)|[(?&->&->)|[(b1&?&->&->)|[(b1&b2&?&?&->&->)|(b1&b2&b3&?&?&?&->&->)]]]].
  - apply Hgood, good_chunk_ascii. apply Forall_cons in Hbs as [Hb0 _]. unfold is_byte in Hb0. lia.
  - split; [apply (good_chunk_3 239 191 189); reflexivity|]. apply (bool_decide_unpack _). vm_compute. exact I.
  - by apply Hgood, good_chunk_2.
  - by apply Hgood, good_chunk_3.
  - by apply Hgood, good_chunk_4.
Qed.

Lemma runes_of_good cs : Forall good_chunk cs -> runes (concat (snd <$> cs)) = cs.
Proof.
  induction 1 as [|c cs Hc Hcs IH]; [done|]. cbn [fmap list_fmap concat]. rewrite runes_app, IH, (good_runes _ Hc); [done|].
  destruct Hcs as [|c' cs Hc' _]; [done|]. cbn [fmap list_fmap concat].
  pose proof (good_start _ Hc') as Hs. pose proof (good_runes _ Hc') as Hr. destruct c'.2; [done|]. exact Hs.
Qed.

Lemma truncateRunes_count s n : 0 <= n -> rune_count (truncateRunes s n) <= n.
Proof.
  intros Hn. unfold truncateRunes. cbv zeta. unfold rune_count at 1, rune_list, len. rewrite length_fmap.
  case_if; [by apply Z.leb_le in E|]. pose proof (reencoded (bytes s) (bytes_is_byte s)) as Hr.
  set (cs := take (Z.to_nat n) (runes (bytes s))).
  assert (Hcs : Forall (fun c => good_chunk (c.1, encode_rune c.1) /\ Forall is_byte (encode_rune c.1)) cs)
    by by apply Forall_take.
  set (gs := (fun c : Z * list Z => (c.1, encode_rune c.1)) <$> cs).
  assert (of_runes (take (Z.to_nat n) (fst <$> runes (bytes s))) = of_bytes (concat (snd <$> gs))) as ->.
  { unfold of_runes, gs, cs. by rewrite <- fmap_take, <- !list_fmap_compose. }
  rewrite bytes_of_bytes.
  - rewrite runes_of_good.
    + unfold gs, cs. rewrite length_fmap, length_take. lia.
    + unfold gs. apply Forall_fmap. eapply Forall_impl; [exact Hcs|]. by intros c [? _].
  - unfold gs. rewrite <- list_fmap_compose. clear -Hcs. induction Hcs as [|c cs [_ Hc] _ IH]; cbn; [constructor|].
    by apply Forall_app.
Qed.

(** How many runes a history has. *)
Definition total_runes (l : list Message) : Z := foldr (fun m n => rune_count (msg_Content m) + n) 0 l.
Lemma rune_count_nonneg s : 0 <= rune_count s.
Proof. unfold rune_count. lia. Qed.
Lemma total_runes_cons m l : total_runes (m :: l) = rune_count (msg_Content m) + total_runes l.
Proof. reflexivity. Qed.
Lemma total_runes_app l1 l2 : total_runes (l1 ++ l2) = total_runes l1 + total_runes l2.
Proof. induction l1 as [|m l1 IH]; [done|]. cbn [app]. rewrite !total_runes_cons, IH. lia. Qed.
Lemma total_runes_rev l : total_runes (rev l) = total_runes l.
Proof. induction l as [|m l IH]; [done|]. cbn [rev]. rewrite total_runes_app, IH, !total_runes_cons. cbn. lia. Qed.
Lemma total_runes_nonneg l : 0 <= total_runes l.
Proof. induction l as [|m l IH]; [done|]. rewrite total_runes_cons. pose proof (rune_count_nonneg (msg_Content m)). lia. Qed.

(** [fit_total] keeps the longest prefix that fits. *)
Lemma fit_total_spec n l : 0 <= n <= 1200 ->
  exists rest, l = fit_total n l ++ rest /\ n + total_runes (fit_total n l) <= 1200
    /\ forall k, n + total_runes (take k l) <= 1200 -> (Nat.min k (length l) <= length (fit_total n l))%nat.
Proof.
  revert n. induction l as [|m l IH]; intros n Hn; cbn [fit_total].
  { exists []. split_and!; [done|cbn; lia|]. intros k _. cbn. lia. }
  cbv zeta. pose proof (rune_count_nonneg (msg_Content m)) as Hm.
  destruct (Z.ltb_spec 1200 (n + rune_count (msg_Content m))) as [Hlt|Hle].
  - exists (m :: l). split_and!; [done|cbn; lia|]. intros [|k]; cbn [take]; [cbn; lia|].
    rewrite total_runes_cons. pose proof (total_runes_nonneg (take k l)). lia.
  - destruct (IH (n + rune_count (msg_Content m))) as (rest & E & Ht & Hk); [lia|]. exists rest. split_and!.
    + cbn [app]. by f_equal.
    + rewrite total_runes_cons. lia.
    + intros [|k]; [cbn; lia|]. cbn [take length]. rewrite total_runes_cons. intros H.
      specialize (Hk k). lia.
Qed.

(** What a message of the history sent is. *)
Record history_message (m : Message) : Prop := {
  hm_role : msg_Role m = "user" \/ msg_Role m = "assistant";
  hm_content : msg_Content m <> "" /\ rune_count (msg_Content m) <= 256;
  hm_plain : msg_ToolCallID m = "" /\ msg_ToolCalls m = []
}.
Lemma history_content_spec m m' : history_content m = Some m' -> history_message m'.
Proof.
  unfold history_content. case_if; [done|]. cbv zeta. case_if; [done|]. intros [= <-]. apply eqs_false in E0.
  split; cbn; [|split; [done|]|done].
  - apply andb_false_iff in E as [E|E]; apply negb_false_iff, eqs_true in E; auto.
  - apply truncateRunes_count. lia.
Qed.

(** The history sent to the model is bounded and recent: it has at most six
    messages and 1200 runes, each a message of the user or of the assistant with
    1 to 256 runes and no tool call; it is a suffix of the conversation so
    filtered, and no longer suffix keeps within the bounds. *)
Theorem history_bounded messages :
  let filtered := omap history_content messages in
  let history := boundedIntentHistory messages in
  (length history <= 6)%nat /\ total_runes history <= 1200 /\ Forall history_message history
  /\ history `suffix_of` filtered
  /\ forall s, s `suffix_of` filtered -> (length s <= 6)%nat -> total_runes s <= 1200 -> (length s <= length history)%nat.
Proof.
  intros filtered history. set (recent := drop (length filtered - 6) filtered).
  assert (Hrl : length recent = Nat.min 6 (length filtered)) by (unfold recent; rewrite length_drop; lia).
  assert (Eh : history = rev (fit_total 0 (rev recent))) by done.
  destruct (fit_total_spec 0 (rev recent)) as (rest & E & Ht & Hk); [lia|].
  assert (Hs : history `suffix_of` recent).
  { exists (rev rest). rewrite Eh, <- rev_app_distr, <- E. by rewrite rev_involutive. }
  assert (Hsf : history `suffix_of` filtered).
  { etrans; [exact Hs|]. exists (take (length filtered - 6) filtered). unfold recent. by rewrite take_drop. }
  split_and!; [|..|exact Hsf|].
  - apply suffix_length in Hs. lia.
  - rewrite Eh, total_runes_rev. lia.
  - destruct Hsf as [l Hl]. assert (Forall history_message filtered) as Hf.
    { apply Forall_forall. intros m (m0 & _ & Hm)%list_elem_of_omap. by eapply history_content_spec. }
    rewrite Hl in Hf. by apply Forall_app in Hf as [_ ?].
  - intros s [l Hl] H6 Hts. rewrite Eh, length_rev.
    assert (Es : rev s = take (length s) (rev recent)).
    { unfold recent. rewrite Hl. rewrite drop_app_le by (rewrite length_app; lia). rewrite rev_app_distr.
      rewrite <- (length_rev s). symmetry. apply take_app_length. }
    specialize (Hk (length s)). rewrite <- Es, total_runes_rev, length_rev, Hrl in Hk.
    assert (length s <= length filtered)%nat by (rewrite Hl, length_app; lia). lia.
Qed.
