(* ===== verification/CompilerSpec.v ===== *)
(** * Properties of the operation compiler

    Only the model starts an operation: without it a turn can cancel or continue
    the active workflow, and nothing else; a word of cancellation is understood
    without the model. *)
From Stdlib Require Import ZArith QArith Lia Bool String.
From stdpp Require Import base list strings gmap.
From S2P Require Import Prelude GoStrings Contract Codec Catalog Request Policy Workflow Executor Calendar.
From S2P Require Import Text Entity Llm Intent Compiler IntentSpec.
#[local] Open Scope go_scope.

(** What a turn of the active workflow is: it has no slots of its own, and
    cancels or continues that workflow. *)
Definition turn_of_workflow (workflow : option protocolWorkflowContext) (d : ProtocolDraft) : Prop :=
  exists w, workflow = Some w /\ draft_Operation d = wc_Type w /\ draft_Slots d = ∅
    /\ (draft_Act d = ActWorkflowCancel \/ draft_Act d = ActWorkflowContinue).

(** ** The arbiter *)

(** The arbiter answers with the draft of a candidate, or is at a loss. *)
Inductive decided (l : list OperationCandidate) : ProtocolDraft -> Prop :=
  | decided_unknown d : draft_Act d = ActUnknown -> decided l d
  | decided_draft c : c ∈ l -> decided l (oc_Draft c)
  | decided_auxiliary c : c ∈ l -> explicit_act c = true -> decided l (with_act ActWorkflowContinue (oc_Draft c)).

Lemma bestCandidate_in l accept c : bestCandidate l accept = Some c -> c ∈ l /\ accept c = true.
Proof. intros E. pose proof (bestCandidate_spec l accept) as H. rewrite E in H. naive_solver. Qed.

Lemma arbiter_decided workflow l : decided l (ad_Draft (Decide_operation workflow l)).
Proof.
  unfold Decide_operation. destruct l as [|first l]; [by apply decided_unknown|]. set (cs := first :: l).
  case_if; [by apply decided_unknown|].
  destruct (bestCandidate cs explicit_act) as [c|] eqn:E1.
  { apply bestCandidate_in in E1 as [Hc Ha]. case_if; cbn; [by apply decided_auxiliary|by apply decided_draft]. }
  destruct (bestCandidate cs (act_is ActWorkflowCancel)) as [c|] eqn:E2.
  { apply bestCandidate_in in E2 as [Hc _]. by apply decided_draft. }
  destruct (bestCandidate cs (act_is ActWorkflowContinue)) as [c|] eqn:E3.
  { apply bestCandidate_in in E3 as [Hc _]. by apply decided_draft. }
  case_if; cbn; [|by apply decided_unknown]. apply decided_draft. unfold cs. set_solver.
Qed.

(** ** The candidates of a workflow *)

Definition workflow_turn (workflow : option protocolWorkflowContext) (c : OperationCandidate) : Prop :=
  turn_of_workflow workflow (oc_Draft c).

Lemma control_candidates message workflow : Forall (workflow_turn workflow) (workflowControlCandidates message workflow).
Proof.
  unfold workflowControlCandidates, compileWorkflowCancel. destruct workflow as [w|]; [|done]. case_if; [|done].
  apply Forall_singleton. exists w. split_and!; try done. by left.
Qed.
Lemma slot_candidates message workflow : Forall (workflow_turn workflow) (workflowSlotCandidates message workflow).
Proof.
  unfold workflowSlotCandidates. destruct workflow as [w|]; [|done].
  destruct (lookupOperation (wc_Type w)) as [m|] eqn:Hm; [|done]. case_if; [done|]. case_if; [done|].
  apply Forall_singleton. exists w. split_and!; try done; [by eapply lookupOperation_name|by right].
Qed.
Lemma workflow_candidates_turns message workflow : Forall (workflow_turn workflow) (workflow_candidates message workflow).
Proof.
  unfold workflow_candidates. cbv zeta. case_if; [apply control_candidates|].
  apply Forall_app. split; [apply control_candidates|apply slot_candidates].
Qed.

Lemma byIdentity_elem b cs i c : byIdentity b cs !! i = Some c -> c ∈ cs.
Proof.
  unfold byIdentity. enough (forall l (m : gmap string OperationCandidate), (forall i c, m !! i = Some c -> c ∈ cs) -> (forall c, c ∈ l -> c ∈ cs) ->
    forall i c, fold_left (fun m c => <[candidateIdentity c := c]> m) l m !! i = Some c -> c ∈ cs) as H.
  { apply H; [by intros ??; rewrite lookup_empty|]. intros x Hx. apply list_elem_of_In, filter_In in Hx as [Hx _].
    by apply list_elem_of_In. }
  clear. induction l as [|x l IH]; intros m Hm Hl i c; [apply Hm|]. cbn [fold_left]. apply IH; [|set_solver].
  intros j y. destruct (decide (candidateIdentity x = j)) as [<-|Hne].
  - rewrite lookup_insert_eq. intros [= <-]. apply Hl. set_solver.
  - rewrite lookup_insert_ne by done. apply Hm.
Qed.
Lemma unique_safe_elem cs b c : c ∈ uniqueSafeDeterministicCandidates cs b -> c ∈ cs.
Proof.
  unfold uniqueSafeDeterministicCandidates. cbv zeta. case_if; [|by intros ?%elem_of_nil].
  intros ([i x] & -> & Hx%elem_of_map_to_list)%list_elem_of_fmap. by eapply byIdentity_elem.
Qed.

(** A decision among turns of the workflow is one, or at a loss. *)
Lemma decided_turn workflow l d : Forall (workflow_turn workflow) l -> decided l d ->
  draft_Act d = ActUnknown \/ turn_of_workflow workflow d.
Proof.
  intros Hl [d' Hd|c Hc|c Hc He]; [by left|right..]; rewrite Forall_forall in Hl; specialize (Hl c Hc); [done|].
  destruct Hl as (w & _ & _ & _ & [Ha|Ha]); unfold explicit_act in He; by rewrite Ha in He.
Qed.

(** ** Compiling a message *)

(** The draft of the model a turn is about. *)
Record model_turn (workflow : option protocolWorkflowContext) (r : OperationCompileResult) (d : ProtocolDraft) : Prop := {
  mt_checked : draft_checked d;
  mt_known : draft_Act d <> ActUnknown /\ draft_Operation d <> "";
  mt_invoked : cp_LLMInvoked r = true /\ cp_LLMStatus r = IntentCompileOK;
  mt_draft : cp_Draft r = d \/ cp_Draft r = with_act ActWorkflowContinue d
}.

Lemma decide_reply_cases mode workflow candidates reply :
  Forall (workflow_turn workflow) candidates ->
  (ir_Status reply = IntentCompileOK -> draft_checked (ir_Draft reply) /\ draft_Act (ir_Draft reply) <> ActUnknown
                                        /\ draft_Operation (ir_Draft reply) <> "") ->
  (ir_Status reply <> IntentCompileOK -> draft_Act (ir_Draft reply) = ActUnknown) ->
  let r := decide_reply mode workflow candidates reply in
  draft_Act (cp_Draft r) = ActUnknown \/ turn_of_workflow workflow (cp_Draft r) \/ exists d, model_turn workflow r d.
Proof.
  intros Hc Hok Hno r. unfold r, decide_reply. cbv zeta.
  destruct (eqs (ir_Status reply) IntentCompileOK && negb (draft_is_unknown (ir_Draft reply))) eqn:E.
  - apply andb_true_iff in E as [Es%eqs_true _]. destruct (Hok Es) as (Hd & Hk). cbn [cp_Draft cp_LLMInvoked cp_LLMStatus].
    set (llm := mkCandidateOp _ _ _ _ _ _). set (cs := if _ || _ then [llm] else candidates ++ [llm]).
    assert (Hcs : forall c, c ∈ cs -> c = llm \/ workflow_turn workflow c).
    { intros c. unfold cs. rewrite Forall_forall in Hc. case_if; set_solver. }
    pose proof (arbiter_decided workflow cs) as Hdec.
    remember (ad_Draft (Decide_operation workflow cs)) as dd eqn:Edd. destruct Hdec as [d' Hu|c Hin|c Hin He].
    + by left.
    + destruct (Hcs c Hin) as [->|Ht]; [right; right|by right; left]. exists (ir_Draft reply). split; try done; by left.
    + destruct (Hcs c Hin) as [->|(w & _ & _ & _ & Ha)].
      * right; right. exists (ir_Draft reply). split; try done; by right.
      * unfold explicit_act in He. destruct Ha as [Ha|Ha]; by rewrite Ha in He.
  - assert (Hu : draft_Act (ir_Draft reply) = ActUnknown).
    { destruct (eqs (ir_Status reply) IntentCompileOK) eqn:Es; [apply eqs_true in Es|apply eqs_false in Es; by apply Hno].
      destruct (Hok Es) as (_ & Hk & _). cbn [andb] in E. apply negb_false_iff, eqs_true in E. done. }
    set (safe := if eqs mode "observe" then [] else _).
    assert (Hs : Forall (workflow_turn workflow) safe).
    { unfold safe. case_if; [done|]. rewrite Forall_forall in *. intros c Hx. by apply Hc; eapply unique_safe_elem. }
    destruct safe as [|c cs] eqn:Esafe.
    + left. cbn [cp_Draft]. case_if; [done|]. case_if; [done|]. exact Hu.
    + cbn [cp_Draft]. destruct (decided_turn workflow (c :: cs) _ Hs (arbiter_decided workflow (c :: cs))); auto.
Qed.

(** C5: Only the model starts an operation: whatever is said and whatever
    workflow is active, a turn that is understood either cancels or continues
    the active workflow, without any slot, or is about a draft of the model that
    passed every check, and then the model was called. *)
Theorem only_model_starts {W} ctx_err (c : llmIntentCompiler W) mode input w r w' :
  compileProtocolWithCompilerMode ctx_err input (Some (Compile_intent ctx_err c)) mode w = (Ok r, w') ->
  draft_Act (cp_Draft r) <> ActUnknown ->
  turn_of_workflow (pin_ActiveWorkflow input) (cp_Draft r) \/ exists d, model_turn (pin_ActiveWorkflow input) r d.
Proof.
  unfold compileProtocolWithCompilerMode, Compile_operation. cbv zeta. case_if; [by intros [= <- <-]|].
  destruct (ctx_err w); [done|]. set (candidates := workflow_candidates _ _).
  pose proof (workflow_candidates_turns (trim_space (pin_Message input)) (pin_ActiveWorkflow input)) as Hc.
  fold candidates in Hc. set (exact := if eqs _ "short_circuit" then _ else []).
  destruct exact as [|x xs] eqn:Ex.
  - destruct (Compile_intent ctx_err c _ w) as [[reply|e] w1] eqn:Ei; [|done]. destruct (ctx_err w1); [done|].
    intros [= <- <-] Hk. apply compile_intent_checked in Ei as [Hok Hno].
    destruct (decide_reply_cases (compiler_mode mode) (pin_ActiveWorkflow input) candidates reply Hc Hok) as [?|?]; [|done|done].
    intros Hs. by destruct (Hno Hs).
  - intros [= <- <-] Hk. left. cbn [cp_Draft] in *.
    assert (Hx : Forall (workflow_turn (pin_ActiveWorkflow input)) (x :: xs)).
    { rewrite <- Ex. unfold exact. case_if; [|done]. rewrite Forall_forall in *. intros y Hy.
      by apply Hc; eapply unique_safe_elem. }
    by destruct (decided_turn _ (x :: xs) _ Hx (arbiter_decided (pin_ActiveWorkflow input) (x :: xs))).
Qed.

(** The model asks for a schedule. *)
Definition schedule_message : protocolInput := mkProtocolInput "查张三的课表" [] None.
Lemma only_model_starts_witness :
  exists r, compileProtocolWithCompilerMode (fun _ => None) schedule_message
              (Some (Compile_intent (fun _ => None) sample_client)) "short_circuit" tt = (Ok r, tt)
    /\ exists d, model_turn None r d.
Proof.
  eexists. split; [vm_compute; reflexivity|].
  match goal with |- exists d, model_turn None ?r d =>
    destruct (only_model_starts (fun _ => None) sample_client "short_circuit" schedule_message tt r tt)
      as [(w & H & _)|H]
  end; [vm_compute; reflexivity|vm_compute; discriminate|vm_compute in H; discriminate H|exact H].
Defined.

(** ** Cancelling *)

Definition cancel_candidate (w : protocolWorkflowContext) : OperationCandidate :=
  mkCandidateOp (simple_draft ActWorkflowCancel (workflowDomain (wc_Type w)) (wc_Type w) 0 "workflow_cancel")
    OperationCandidateSourceWorkflowCtrl MatchExactWorkflowControl true 1 "workflow_cancel".

Lemma cancel_candidates message w : existsb (eqs (normalizeQuery message)) cancel_words = true ->
  workflow_candidates message (Some w) = [cancel_candidate w].
Proof.
  intros Hc. unfold workflow_candidates, workflowControlCandidates, compileWorkflowCancel, workflowControlMatchKind.
  by rewrite Hc.
Qed.

Lemma unique_safe_singleton c : known_candidate c = true -> safe_candidate true c = true ->
  uniqueSafeDeterministicCandidates [c] true = [c].
Proof.
  intros Hk Hs. unfold uniqueSafeDeterministicCandidates, byIdentity, allIdentities. cbn [List.filter]. rewrite Hk, Hs.
  cbn [fmap list_fmap fold_left list_to_set]. rewrite insert_empty, map_size_singleton, union_empty_r_L, size_singleton.
  cbn [bool_decide andb]. rewrite !bool_decide_true by done. by rewrite map_to_list_singleton.
Qed.

(** A word of cancellation cancels the active workflow without the model. *)
Lemma cancel_word_compiles {W} (ctx_err : W -> option err) compiler mode message recent aw w :
  compiler_mode mode = "short_circuit" -> ctx_err w = None ->
  existsb (eqs (normalizeQuery (trim_space message))) cancel_words = true ->
  exists r, compileProtocolWithCompilerMode ctx_err (mkProtocolInput message recent (Some aw)) (Some compiler) mode w = (Ok r, w)
    /\ cp_Draft r = oc_Draft (cancel_candidate aw) /\ cp_LLMInvoked r = false.
Proof.
  intros Hm He Hc. assert (Hne : eqs (trim_space message) "" = false).
  { destruct (eqs (trim_space message) "") eqn:E; [|done]. apply eqs_true in E. rewrite E in Hc. by vm_compute in Hc. }
  unfold compileProtocolWithCompilerMode, Compile_operation. cbn [pin_Message pin_ActiveWorkflow pin_RecentMessages].
  rewrite Hne. cbv zeta. rewrite He, Hm, (cancel_candidates _ aw Hc).
  replace (eqs "short_circuit" "short_circuit") with true by reflexivity.
  rewrite unique_safe_singleton by reflexivity.
  eexists. split; [reflexivity|]. split; [|reflexivity]. cbn [cp_Draft]. unfold Decide_operation.
  replace (ambiguousOperationCandidates [cancel_candidate aw]) with false; [reflexivity|].
  unfold ambiguousOperationCandidates.
  assert (fold_left ambiguous_step [cancel_candidate aw] (-1, ∅) = (100, {[candidateIdentity (cancel_candidate aw)]}))
    as -> by reflexivity.
  cbn [snd]. by rewrite size_singleton.
Qed.
