(* ===== verification/LiveSpec.v ===== *)
(** * Properties of the live pipeline

    A turn writes nothing itself, and what it prepares is a write of its own
    user in its own group; the options a workflow keeps from a question are the
    candidates the next turn chooses from; a workflow that has expired counts as
    none. *)
From Stdlib Require Import ZArith QArith Lia Bool String.
From stdpp Require Import base list strings gmap.
From coqutil Require Import Datatypes.RecordSettersUsingExistingGetters.
From S2P Require Import Prelude GoStrings GoTime Contract Codec Catalog Store Request Policy Workflow.
From S2P Require Import BusinessKey Executor Outcome Calendar Text Entity Llm Intent Compiler Renderer Live EntitySpec CompilerSpec.
Import RecordSetNotations1.
#[local] Open Scope go_scope.

(** ** What a turn may prepare *)

(** A prepared write of the user of the turn: a write operation the user's role
    allows, in the user's own group, for the user's own tenant and account, under
    the business key of the request. *)
Record own_write (uctx : option UserContext) (pw : preparedWriteExecution) : Prop := {
  ow_user : exists u, uctx = Some u /\ trim_space (uc_ConversationType u) = "2"
              /\ requestConversationMatchesUser (Some u) (pw_Request pw) = true
              /\ req_TenantID (pw_Request pw) = uc_TenantID u /\ req_ActorUserID (pw_Request pw) = uc_UserID u;
  ow_write : exists m, lookupOperation (req_Operation (pw_Request pw)) = Some m /\ om_IsWrite m = true;
  ow_key : subscriptionBusinessKeyForRequest (pw_Request pw) = Ok (pw_BusinessKey pw)
           /\ req_IdempotencyKey (pw_Request pw) = pw_BusinessKey pw
}.
Definition allowed_write (uctx : option UserContext) (pw : preparedWriteExecution) : Prop :=
  own_write uctx pw
  /\ exists u m, uctx = Some u /\ lookupOperation (req_Operation (pw_Request pw)) = Some m /\ om_MinRole m <= uc_UserRole u.

Definition own_request (uctx : option UserContext) (req : OperationRequest) : Prop :=
  req_TenantID req = userTenantID uctx /\ req_ActorUserID req = userActorUserID uctx.

Lemma enrich_own u req : own_request (Some u) req ->
  req_TenantID (enrichOperationRequestFromUser req (Some u)) = uc_TenantID u
  /\ req_ActorUserID (enrichOperationRequestFromUser req (Some u)) = uc_UserID u.
Proof. intros [Ht Ha]. cbn in *. rewrite Ht, Ha. by split; case_if. Qed.
Lemma enrich_operation req uctx : req_Operation (enrichOperationRequestFromUser req uctx) = req_Operation req.
Proof. by destruct uctx. Qed.

Section safety.
Context {W D : Type} `{Location}.
Variable ctx_err : W -> option err.
Variable unix_nano : W -> Z.
Variable request_id : W -> string.
Variable elapsed_ms : W -> W -> Z.
Variable draft_json : ProtocolDraft -> string.
Variable other : value -> string.
Variable p : protocolLivePipelineDeps (W := W) (D := D).

Notation outcome := (protocolLiveOutcome D).

(** The same pipeline over other mutations of the subscription port. *)
Definition with_port_mutations sub unsub : protocolLivePipelineDeps (W := W) (D := D) :=
  mkLiveDeps (pd_Compiler p) (pd_CompilerMode p) (with_mutations sub unsub (pd_Executor p)) (pd_User p) (pd_Dept p)
    (pd_Semester p) (pd_SchedulePeriod p) (pd_Clock p).

Variable sub : Z -> string -> string -> Z -> list Z -> string -> call (W := W) GroupSubMutationResult.
Variable unsub : Z -> string -> string -> call (W := W) GroupSubMutationResult.
Notation p' := (with_port_mutations sub unsub).

(** A step that calls no mutation, and prepares nothing but what [P] allows. *)
Definition safe (P : preparedWriteExecution -> Prop) (r r' : outcome * W) : Prop :=
  r' = r /\ forall pw, po_PreparedWrite r.1 = Some pw -> P pw.
Definition unprepared (o : outcome) : Prop := po_PreparedWrite o = None.

Lemma safe_done P o w : unprepared o -> safe P (o, w) (o, w).
Proof. intros Ho. split; [done|]. intros pw. cbn. by rewrite Ho. Qed.
Lemma safe_weaken (P Q : preparedWriteExecution -> Prop) r r' : (forall pw, P pw -> Q pw) -> safe P r r' -> safe Q r r'.
Proof. intros HPQ [E Hr]. split; [done|]. intros pw Hpw. by apply HPQ, Hr. Qed.
Lemma respond_unprepared response mode o : unprepared o -> unprepared (setProtocolOutcomeResponse response mode o).
Proof. unfold unprepared. by rewrite setOutcome_prepared. Qed.
Lemma guardrail_unprepared draft v uctx o : unprepared o -> unprepared (guardrail draft v uctx o).
Proof. unfold guardrail. destruct (protocolLiveGuardrailResponse _ _ _). apply respond_unprepared. Qed.

Lemma shipped_read name m : lookupOperation name = Some m -> om_IsWrite m = false ->
  om_Name m <> "subscription.start" /\ om_Name m <> "subscription.cancel".
Proof.
  intros Hm Hw.
  assert (om_IsWrite m || negb (eqs (om_Name m) "subscription.start") && negb (eqs (om_Name m) "subscription.cancel") = true)
    as Hr by (eapply (lookupOperation_forallb
                (fun m => om_IsWrite m || negb (eqs (om_Name m) "subscription.start")
                                          && negb (eqs (om_Name m) "subscription.cancel"))); [reflexivity|exact Hm]).
  rewrite Hw in Hr. cbn [orb] in Hr. apply andb_true_iff in Hr as [H1 H2].
  by rewrite !negb_true_iff, !eqs_false in *.
Qed.

Lemma live_execute_safe uctx req o w :
  unprepared o ->
  (forall m, lookupOperation (req_Operation req) = Some m -> om_IsWrite m = true -> own_request uctx req) ->
  safe (fun pw => own_write uctx pw /\ req_Operation (pw_Request pw) = req_Operation req)
    (live_execute other p uctx req o w) (live_execute other p' uctx req o w).
Proof.
  intros Ho Hown. unfold live_execute, execute. replace (dept_answer p' w) with (dept_answer p w) by done.
  cbn [pd_Executor with_port_mutations]. cbv zeta.
  set (req' := enrichOperationRequestFromUser req uctx).
  assert (Hop : req_Operation req' = req_Operation req) by apply enrich_operation.
  destruct (rr_Allow (Validate_resource _)) eqn:Hr; cbn [negb].
  2:{ apply safe_done. unfold unprepared. cbn. by rewrite setOutcome_prepared. }
  destruct (lookupOperation (req_Operation req')) as [m|] eqn:Hm.
  2:{ unfold Validate_resource in Hr. cbn [ri_Request] in Hr. by rewrite Hm in Hr. }
  destruct (om_IsWrite m) eqn:Hw.
  - split; [done|]. intros pw Hpw. cbn [fst] in Hpw.
    apply prepare_write_spec in Hpw as (_ & Hk & Ep); [|exact Ho].
    pose proof (resource_write_in_group (mkResourceInput uctx req' (dept_answer p w)) m Hm Hr Hw) as (u & Hu & Ht & Hc). cbn [ri_User ri_Request] in Hu, Hc.
    rewrite <- Hop in Hown. specialize (Hown m Hm Hw). rewrite Hu in Hown. apply enrich_own in Hown as [H1 H2].
    rewrite Ep. split; [|exact Hop]. split; cbn [pw_Request pw_BusinessKey].
    + exists u. split_and!; try done; unfold req'; rewrite Hu; done.
    + by exists m.
    + split; [|done]. by rewrite business_key_with_key.
  - destruct (shipped_read _ _ Hm Hw) as [N1 N2].
    destruct (read_no_mutation (pd_Executor p) req' w m Hm N1 N2) as [_ Hsame]. rewrite Hsame.
    destruct (Execute (pd_Executor p) req' w) as [result w2]. split; [done|]. intros pw. cbn.
    rewrite add_slots_prepared, setOutcome_prepared. intros E. unfold unprepared in Ho. cbn in E. congruence.
Qed.

(** *** The steps *)

Notation safe_in uctx op := (safe (fun pw => own_write uctx pw /\ req_Operation (pw_Request pw) = op)).

Lemma read_safe uctx req o w :
  unprepared o -> (forall m, lookupOperation (req_Operation req) = Some m -> om_IsWrite m = false) ->
  safe (fun _ => False) (live_execute other p uctx req o w) (live_execute other p' uctx req o w).
Proof.
  intros Ho Hr. destruct (live_execute_safe uctx req o w Ho) as [E Hs]; [intros m Hm; by rewrite (Hr m Hm)|].
  split; [done|]. intros pw Hpw. apply Hs in Hpw as [[_ (m & Hm & Hw) _] Hop]. rewrite Hop in Hm.
  by rewrite (Hr m Hm) in Hw.
Qed.

Lemma list_departments_read m : lookupOperation (req_Operation (plain_request list_departments)) = Some m ->
  om_IsWrite m = false.
Proof. intros Hm. vm_compute in Hm. by injection Hm as <-. Qed.

(** A change of the outcome after a step. *)
Lemma safe_map (f : outcome -> outcome) (P Q : preparedWriteExecution -> Prop) r r' :
  (forall o pw, po_PreparedWrite (f o) = Some pw -> exists pw0, po_PreparedWrite o = Some pw0 /\ (P pw0 -> Q pw)) ->
  safe P r r' -> safe Q (let '(o, w) := r in (f o, w)) (let '(o, w) := r' in (f o, w)).
Proof.
  intros Hf [-> Hs]. destruct r as [o w]. split; [done|]. intros pw Hpw. apply Hf in Hpw as (pw0 & H0 & HPQ).
  by apply HPQ, Hs.
Qed.

Lemma list_departments_safe P uctx o w : unprepared o ->
  safe P (let '(executed, w) := live_execute other p uctx (plain_request list_departments) o w in (persist_options uctx executed, w))
    (let '(executed, w) := live_execute other p' uctx (plain_request list_departments) o w in (persist_options uctx executed, w)).
Proof.
  intros Ho. eapply (safe_map (persist_options uctx)); [|apply read_safe; [exact Ho|apply list_departments_read]].
  intros o' pw Hpw. exists pw. split; [exact Hpw|done].
Qed.

Lemma cleared_own uctx op pw : own_write uctx pw /\ req_Operation (pw_Request pw) = op ->
  own_write uctx (clear_on_success pw) /\ req_Operation (pw_Request (clear_on_success pw)) = op.
Proof. intros [[Hu Hw Hk] Ho]. by split. Qed.

(** A continued dialogue that executes is of the start operation. *)
Lemma continueSubscription_safe input draft active trusted o w : unprepared o ->
  safe_in (li_User input) start_operation
    (continueSubscription other p input draft active trusted o w) (continueSubscription other p' input draft active trusted o w).
Proof.
  intros Ho. unfold continueSubscription. cbv zeta.
  destruct (wr_Decision (continueWorkflow active draft trusted)), (wr_Workflow (continueWorkflow active draft trusted)) as [after|];
    try (apply safe_done; apply respond_unprepared || apply guardrail_unprepared; exact Ho).
  - by apply list_departments_safe.
  - eapply safe_map; [|apply (live_execute_safe (li_User input)); [exact Ho|done]].
    intros o' pw Hpw. cbn in Hpw. destruct (po_PreparedWrite o') as [pw0|]; [|done].
    injection Hpw as <-. exists pw0. split; [done|]. apply cleared_own.
Qed.

(** Asking for the departments never ends a dialogue. *)
Lemma list_departments_continues active draft : wf_Type active = WorkflowSubscriptionStart ->
  wf_State active = WorkflowCollectScope -> draft_Operation draft = start_operation ->
  wr_Decision (continueWorkflow active draft (trusted_scope 0 "department")) <> WorkflowReadyToExecute.
Proof.
  intros Ht Hs Hd. unfold continueWorkflow. case_if; [done|]. case_if; [done|]. rewrite Ht.
  replace (eqs WorkflowSubscriptionStart WorkflowSubscriptionStart) with true by reflexivity.
  unfold continueSubscriptionWorkflow. rewrite Hs, Hd. vm_compute. congruence.
Qed.

Lemma continueSubscription_unready P input draft active trusted o w : unprepared o ->
  wr_Decision (continueWorkflow active draft trusted) <> WorkflowReadyToExecute ->
  safe P (continueSubscription other p input draft active trusted o w) (continueSubscription other p' input draft active trusted o w).
Proof.
  intros Ho Hn. unfold continueSubscription. cbv zeta.
  destruct (wr_Decision (continueWorkflow active draft trusted)), (wr_Workflow (continueWorkflow active draft trusted)) as [after|];
    try (apply safe_done; apply respond_unprepared || apply guardrail_unprepared; exact Ho); try done.
  by apply list_departments_safe.
Qed.

Lemma handle_list_departments_safe P input draft active o w : unprepared o ->
  safe P (handle_list_departments other p input draft active o w) (handle_list_departments other p' input draft active o w).
Proof.
  intros Ho. unfold handle_list_departments. cbv zeta. destruct active as [active|]; [|by apply list_departments_safe].
  case_if; [|by apply list_departments_safe]. apply andb_true_iff in E as [Et%eqs_true Es%eqs_true].
  apply continueSubscription_unready; [exact Ho|]. by apply list_departments_continues.
Qed.

Lemma handle_subscription_start_safe input draft o w : unprepared o ->
  safe (fun pw => (own_write (li_User input) pw /\ req_Operation (pw_Request pw) = start_operation)
                  /\ draft_Operation draft = start_operation)
    (handle_subscription_start unix_nano other p input draft o w)
    (handle_subscription_start unix_nano other p' input draft o w).
Proof.
  intros Ho. unfold handle_subscription_start. cbv zeta.
  destruct (negb (eqs (draft_Act draft) ActWriteRequest) || negb (eqs (draft_Operation draft) start_operation)) eqn:E.
  { apply safe_done. by apply guardrail_unprepared. }
  apply orb_false_iff in E as [_ E%negb_false_iff%eqs_true].
  destruct (startWorkflow (unix_nano w) draft) as [wf|]; [|apply safe_done; by apply guardrail_unprepared].
  replace (resolveInitialSubscriptionTrustedEntities p' draft) with (resolveInitialSubscriptionTrustedEntities p draft) by done.
  destruct (resolveInitialSubscriptionTrustedEntities p draft _ w) as [trusted|].
  - eapply safe_weaken; [|by apply continueSubscription_safe]. intros pw Hpw. by split.
  - apply safe_done. apply respond_unprepared. exact Ho.
Qed.

Lemma unresolved_unprepared active resolved o : unprepared o -> unprepared (unresolved_turn active resolved o).
Proof.
  intros Ho. unfold unresolved_turn. cbv zeta. case_if; [by apply respond_unprepared|].
  destruct (wf_MissingSlots active); by apply respond_unprepared.
Qed.

Lemma handleSubscription_safe input draft active o w :
  unprepared o -> draft_Operation draft = start_operation \/ draft_Operation draft = list_departments ->
  safe_in (li_User input) (draft_Operation draft)
    (handleSubscription unix_nano other p input draft active o w) (handleSubscription unix_nano other p' input draft active o w).
Proof.
  intros Ho Hd. unfold handleSubscription. cbv zeta.
  destruct (eqs (draft_Operation draft) list_departments) eqn:El; [by apply handle_list_departments_safe|].
  apply eqs_false in El. destruct Hd as [Hd|Hd]; [|done]. rewrite Hd.
  case_if; [apply safe_done; apply respond_unprepared; exact Ho|].
  destruct active as [active|].
  2:{ eapply safe_weaken; [|by apply handle_subscription_start_safe]. by intros pw [Hpw _]. }
  case_if; [apply safe_done; by apply guardrail_unprepared|].
  case_if; [apply safe_done; by apply guardrail_unprepared|].
  replace (resolveSubscriptionTrustedEntities p' (li_Message input) draft active)
    with (resolveSubscriptionTrustedEntities p (li_Message input) draft active) by done.
  destruct (resolveSubscriptionTrustedEntities p _ draft active _ w) as [[trusted|] resolved].
  - by apply continueSubscription_safe.
  - apply safe_done. by apply unresolved_unprepared.
Qed.

(** *** Reads *)

Lemma build_operation draft trusted req : buildOperationRequest draft trusted = Some req -> req_Operation req = draft_Operation draft.
Proof.
  unfold buildOperationRequest. intros H1. apply bind_Some in H1 as (m & _ & H1). case_if_in H1; [done|]. cbv zeta in H1.
  apply bind_Some in H1 as ([rp ps] & _ & H1). apply bind_Some in H1 as (ps2 & _ & H1). case_if_in H1; [|done].
  by injection H1 as <-.
Qed.

Definition builds (operation : string) (b : built (D := D) * W) : Prop :=
  match b.1 with inl req => req_Operation req = operation | inr _ => True end.

Lemma default_week_operation tenantID req w : req_Operation (default_week p tenantID req w).1 = req_Operation req.
Proof. unfold default_week. repeat case_match; try done; simplify_eq; by case_if. Qed.

Lemma attendance_builds draft t w : builds (draft_Operation draft) (attendanceRequest p draft t w).
Proof.
  unfold attendanceRequest. destruct (lookupOperation _) as [m|]; [|done]. cbv zeta.
  destruct (schedulePeriods p w) as [periods w1].
  destruct (match rz_ok _ with true => _ | false => _ end) as [n ps].
  destruct (attendance_user p t _ w1) as [[user|response] w2]; [|done].
  destruct (match user with Some _ => _ | None => _ end) as [[userID shape] ps2].
  destruct (buildOperationRequest draft _) as [req|] eqn:Eb; [|done].
  pose proof (default_week_operation t req w2) as Hq. destruct (default_week p t req w2) as [req2 w3]. unfold builds. cbn [fst] in *.
  rewrite Hq. by eapply build_operation.
Qed.
Lemma schedule_builds draft t w : builds (draft_Operation draft) (scheduleRequest p draft t w).
Proof.
  unfold scheduleRequest. destruct (lookupOperation _) as [m|]; [|done]. cbv zeta.
  destruct (resolveWeekParam _ _ _ w) as [week w1].
  destruct (match rz_ok week with true => _ | false => _ end) as [n ps].
  destruct (if operationRequiresTrustedParam m "user_id" then _ else _) as [[[userID param]|response] w2]; [|done].
  destruct (buildOperationRequest draft _) as [req|] eqn:Eb; [|done]. unfold builds. cbn [fst]. by eapply build_operation.
Qed.

Lemma execute_built_safe input operation b o : unprepared o -> builds operation b ->
  (forall m, lookupOperation operation = Some m -> om_IsWrite m = false) ->
  safe_in (li_User input) operation (execute_built other p input b o) (execute_built other p' input b o).
Proof.
  intros Ho Hb Hr. destruct b as [[req|response] w]; cbn [execute_built].
  - unfold builds in Hb. cbn in Hb. eapply safe_weaken; [|apply read_safe; [exact Ho|]]; [done|]. by rewrite Hb.
  - apply safe_done. by apply respond_unprepared.
Qed.

(** What the dispatch of a catalogue operation implies of it. *)
Definition dispatch_shape (m : OperationManifest) : bool :=
  let name := dispatch_Name (om_Dispatch m) in
  implb (eqs name ProtocolLiveDispatchSubscriptionWorkflow)
    (eqs (om_Name m) start_operation || eqs (om_Name m) list_departments)
  && implb (existsb (eqs name) [ProtocolLiveDispatchAttendance; ProtocolLiveDispatchSchedule;
                                ProtocolLiveDispatchRuleExplain; ProtocolLiveDispatchCapability]) (negb (om_IsWrite m)).
Lemma shipped_dispatch name m : lookupOperation name = Some m -> dispatch_shape m = true.
Proof. intros Hm. eapply lookupOperation_forallb; [|exact Hm]. vm_compute. reflexivity. Qed.

Lemma live_dispatch_safe input draft m active o w : unprepared o -> lookupOperation (draft_Operation draft) = Some m ->
  match live_dispatch unix_nano other p input draft m active o w, live_dispatch unix_nano other p' input draft m active o w with
  | Some r, Some r' => safe_in (li_User input) (draft_Operation draft) r r'
  | None, None => True
  | _, _ => False
  end.
Proof.
  intros Ho Hm. pose proof (shipped_dispatch _ _ Hm) as Hs. pose proof (lookupOperation_name _ _ Hm) as Hn.
  apply andb_true_iff in Hs as [Hs1 Hs2]. rewrite Hn in Hs1.
  unfold live_dispatch. cbv zeta. set (name := dispatch_Name (om_Dispatch m)) in *.
  assert (Hread : existsb (eqs name) [ProtocolLiveDispatchAttendance; ProtocolLiveDispatchSchedule;
                    ProtocolLiveDispatchRuleExplain; ProtocolLiveDispatchCapability] = true ->
                  forall m', lookupOperation (draft_Operation draft) = Some m' -> om_IsWrite m' = false).
  { intros He m' Hm'. rewrite He in Hs2. cbn [implb] in Hs2. apply negb_true_iff in Hs2. congruence. }
  destruct (eqs name ProtocolLiveDispatchAttendance) eqn:E1.
  { eapply execute_built_safe; [done|apply attendance_builds|apply Hread; cbn [existsb]; by rewrite E1]. }
  destruct (eqs name ProtocolLiveDispatchSubscriptionWorkflow) eqn:E2.
  { cbn [implb] in Hs1. apply orb_true_iff in Hs1 as [?%eqs_true|?%eqs_true]; apply handleSubscription_safe; auto. }
  destruct (eqs name ProtocolLiveDispatchRuntimeConversation) eqn:E3.
  { unfold dispatchRuntimeConversationOperation. cbv zeta. rewrite Hn. by apply live_execute_safe. }
  destruct (eqs name ProtocolLiveDispatchCapability) eqn:E4.
  { unfold dispatchCapabilityOperation. rewrite Hn. eapply safe_weaken; [|apply read_safe; [done|]]; [done|].
    cbn [req_Operation plain_request]. apply Hread. cbn [existsb]. rewrite E4. by rewrite !orb_true_r. }
  destruct (eqs name ProtocolLiveDispatchRuleExplain) eqn:E5.
  { unfold dispatchRuleExplainOperation. cbv zeta. eapply execute_built_safe; [done| |apply Hread; cbn [existsb]; rewrite E5; by rewrite !orb_true_r].
    unfold builds. destruct (buildOperationRequest draft _) eqn:Eb; [by eapply build_operation|done]. }
  destruct (eqs name ProtocolLiveDispatchSchedule) eqn:E6; [|done].
  eapply execute_built_safe; [done|apply schedule_builds|apply Hread; cbn [existsb]; rewrite E6; by rewrite !orb_true_r].
Qed.

Lemma dispatch_draft_safe input draft validation active o w : unprepared o ->
  safe_in (li_User input) (draft_Operation draft)
    (dispatch_draft ctx_err unix_nano other p input draft validation active o w)
    (dispatch_draft ctx_err unix_nano other p' input draft validation active o w).
Proof.
  intros Ho. unfold dispatch_draft. cbv zeta. destruct (lookupOperation (draft_Operation draft)) as [m|] eqn:Hm.
  2:{ apply safe_done. by apply guardrail_unprepared. }
  case_if; [apply safe_done; apply respond_unprepared; exact Ho|].
  set (o1 := if eqs _ "" then o else _). assert (Ho1 : unprepared o1) by (unfold o1; by case_if).
  pose proof (live_dispatch_safe input draft m active o1 w Ho1 Hm) as Hd.
  destruct (live_dispatch unix_nano other p input draft m active o1 w), (live_dispatch unix_nano other p' input draft m active o1 w); try done.
  apply safe_done. by apply guardrail_unprepared.
Qed.

(** A draft that is not refused for its role. *)
Lemma role_admitted uctx draft m : draft_Act draft <> ActWorkflowCancel ->
  protocolLiveRoleRefusal (D := D) uctx draft = None -> lookupOperation (draft_Operation draft) = Some m ->
  om_MinRole m <= 0 \/ exists u, uctx = Some u /\ om_MinRole m <= uc_UserRole u.
Proof.
  intros Ha%eqs_false. unfold protocolLiveRoleRefusal. rewrite Ha. intros H1 Hm. rewrite Hm in H1.
  destruct (Z.leb_spec (om_MinRole m) 0); [by left|]. right. destruct uctx as [u|]; [|done].
  destruct (Z.leb_spec (om_MinRole m) (uc_UserRole u)); [|done]. by exists u.
Qed.

Definition write_has_role (m : OperationManifest) : bool := negb (om_IsWrite m) || (1 <=? om_MinRole m).
Lemma shipped_write_role name m : lookupOperation name = Some m -> om_IsWrite m = true -> 1 <= om_MinRole m.
Proof.
  intros Hm Hw. assert (write_has_role m = true) as Hr by (eapply lookupOperation_forallb; [|exact Hm]; vm_compute; reflexivity).
  unfold write_has_role in Hr. rewrite Hw in Hr. by apply Z.leb_le in Hr.
Qed.

Lemma handle_draft_safe input draft active o w : unprepared o ->
  safe (allowed_write (li_User input))
    (handle_draft ctx_err unix_nano draft_json other p input draft active o w)
    (handle_draft ctx_err unix_nano draft_json other p' input draft active o w).
Proof.
  intros Ho. unfold handle_draft. cbv zeta. cbn [pd_Clock with_port_mutations].
  destruct (if pv_InterruptActiveWorkflow _ then _ else _) as [active2 o2] eqn:E2.
  assert (Ho2 : unprepared o2).
  { revert E2. case_if; intros [= <- <-]; case_if; exact Ho. }
  clear E2. destruct (protocolLiveRoleRefusal (li_User input) draft) as [response|] eqn:Er.
  { apply safe_done. by apply (respond_unprepared _ _ (o2 <| po_Validation := _ |>)). }
  case_if; [apply safe_done; by apply guardrail_unprepared|].
  case_if.
  { destruct active2; [|apply safe_done; by apply guardrail_unprepared]. apply safe_done.
    unfold cancel_workflow. cbv zeta. by apply respond_unprepared. }
  apply eqs_false in E0. eapply safe_weaken; [|by apply dispatch_draft_safe].
  intros pw [Hown Hop]. split; [done|]. destruct Hown as [_ (m & Hm & Hw) _].
  pose proof (shipped_write_role _ _ Hm Hw) as H1. rewrite Hop in Hm.
  destruct (role_admitted _ _ _ E0 Er Hm) as [H2|(u & Hu & H2)]; [lia|]. exists u, m. by rewrite Hop.
Qed.

Lemma finalize_prepared freshID (o : outcome) :
  po_PreparedWrite (finalizeProtocolLiveOutcome freshID o) = po_PreparedWrite o.
Proof. unfold finalizeProtocolLiveOutcome. cbv zeta. reflexivity. Qed.

Lemma handle_safe input w :
  safe (allowed_write (li_User input))
    (Handle ctx_err unix_nano request_id elapsed_ms draft_json other p input w)
    (Handle ctx_err unix_nano request_id elapsed_ms draft_json other p' input w).
Proof.
  unfold Handle, compile_message, not_expired. cbv zeta. cbn [pd_Clock pd_Compiler pd_CompilerMode with_port_mutations].
  destruct (compileProtocolWithCompilerMode _ _ _ _ w) as [[r|e] w'].
  - set (active := match li_ActiveWorkflow input with Some _ => _ | None => _ end).
    set (o := compiled_outcome r _). assert (Ho : unprepared o) by done.
    destruct (handle_draft_safe input (cp_Draft r) active o w' Ho) as [E Hs]. rewrite E. split; [done|].
    intros pw. cbn [fst]. rewrite finalize_prepared. apply Hs.
  - split; [done|]. intros pw. cbn [fst]. rewrite finalize_prepared. unfold compile_failed. cbv zeta.
    rewrite setOutcome_prepared. by case_if.
Qed.
End safety.

(** C3: A turn of the live pipeline executes no write: its outcome and its
    effects would be the same over any other mutations of the subscription port;
    and whatever the message, the model, the workflow and the answers of the
    ports are, the only write it can prepare is one of a shipped write operation,
    by a user whose role allows the operation, in that user's own group
    conversation, for that user's own tenant and account, under the business key
    of the very request, which is its idempotency key. *)
Theorem turn_prepares_own_write {W D} `{Location} ctx_err unix_nano request_id elapsed_ms draft_json other
    (p : protocolLivePipelineDeps (W := W) (D := D)) sub unsub input w :
  let turn p := Handle ctx_err unix_nano request_id elapsed_ms draft_json other p input w in
  turn (with_port_mutations p sub unsub) = turn p
  /\ forall pw, po_PreparedWrite (turn p).1 = Some pw -> allowed_write (li_User input) pw.
Proof. exact (handle_safe ctx_err unix_nano request_id elapsed_ms draft_json other p sub unsub input w). Qed.

(** An administrator cancels the subscription of a group. *)
Definition cancel_draft : ProtocolDraft :=
  simple_draft ActWriteRequest DomainSubscription "subscription.cancel" (9 # 10) "cancel".
Definition cancel_pipeline : protocolLivePipelineDeps (W := nat) (D := unit) :=
  mkLiveDeps (Some (fun _ w => (Ok (mkIntentResult cancel_draft IntentCompileOK 1), w))) "short_circuit"
    (mkDeps None None None None None None) None None None None (fun _ => 0).
Definition cancel_input : protocolLiveInput := mkLiveInput "取消本群的考勤推送" [] (Some group_admin) None.
Definition cancel_turn `{Location} :=
  Handle (fun _ => None) (fun _ => 0) (fun _ => "r1") (fun _ _ => 0) (fun _ => "") (fun _ => "") cancel_pipeline
    cancel_input O.

Lemma turn_prepares_own_write_witness :
  exists pw, po_PreparedWrite (cancel_turn (H := shanghai)).1 = Some pw
    /\ req_Operation (pw_Request pw) = "subscription.cancel"
    /\ allowed_write (Some group_admin) pw.
Proof.
  eexists. split; [vm_compute; reflexivity|]. split; [reflexivity|].
  apply (turn_prepares_own_write (H := shanghai) (fun _ => None) (fun _ => 0) (fun _ => "r1") (fun _ _ => 0)
           (fun _ => "") (fun _ => "") cancel_pipeline (fun _ _ _ _ _ _ w => (Err (EMsg ""), w))
           (fun _ _ _ w => (Err (EMsg ""), w)) cancel_input O).
  vm_compute. reflexivity.
Defined.

(** ** Leaving a dialogue *)

(** C17: A user can always leave a dialogue: when a workflow is active and the
    compiler short-circuits, a word of cancellation ends it on that very turn,
    without the model, whatever the state of the workflow, the role of the user
    and the kind of conversation; the stored workflow is to be deleted, nothing is
    prepared and no port is called. *)
Theorem cancel_word_ends_workflow {W D} `{Location} ctx_err unix_nano request_id elapsed_ms draft_json other
    (p : protocolLivePipelineDeps (W := W) (D := D)) compiler input aw w :
  pd_Compiler p = Some compiler -> compiler_mode (pd_CompilerMode p) = "short_circuit" -> ctx_err w = None ->
  li_ActiveWorkflow input = Some aw -> workflowExpired aw (pd_Clock p w) = false ->
  existsb (eqs (normalizeQuery (trim_space (li_Message input)))) cancel_words = true ->
  let turn := Handle ctx_err unix_nano request_id elapsed_ms draft_json other p input w in
  turn.2 = w /\ po_ClearWorkflow turn.1 = true /\ po_WorkflowDecision turn.1 = Some WorkflowCanceled
  /\ po_PreparedWrite turn.1 = None /\ po_WorkflowAfter turn.1 = None /\ po_LLMInvoked turn.1 = false
  /\ rm_Kind (po_Response turn.1) = ResponseResult.
Proof.
  intros Hp Hm He Ha Hx Hc turn. unfold turn, Handle, compile_message, not_expired. clear turn. rewrite Ha, Hx, Hp. cbn [fmap option_fmap option_map].
  destruct (cancel_word_compiles ctx_err compiler (pd_CompilerMode p) (li_Message input) (li_RecentMessages input)
              (protocolWorkflowContextFromWorkflowSnapshot aw) w Hm He Hc) as (r & -> & Hd & Hl).
  cbv zeta. unfold handle_draft. cbv zeta. rewrite Hd, Ha.
  assert (Hv : Validate_pre (mkPreInput (oc_Draft (cancel_candidate (protocolWorkflowContextFromWorkflowSnapshot aw)))
                 (protocolWorkflowContextFromWorkflowSnapshot <$> Some aw) (userConversationType (li_User input))
                 (inputUserRole (li_User input)) (bool_decide (is_Some (li_User input))))
               = deny_validation "workflow_cancel_non_executable" true false ResponseResult) by reflexivity.
  rewrite Hv. unfold Decide_workflow. cbn [fmap option_fmap option_map].
  assert (workflowExpired (cloneWorkflowSnapshot aw) (pd_Clock p w) = false) as -> by exact Hx.
  set (draft := oc_Draft _).
  assert (protocolLiveRoleRefusal (D := D) (li_User input) draft = None) as -> by reflexivity.
  split_and!; try reflexivity. exact Hl.
Qed.

(** A dialogue that waits for the scope of a subscription. *)
Definition scope_workflow : WorkflowSnapshot :=
  mkSnapshot "wf-1" 7 42 "cid-1" WorkflowSubscriptionStart WorkflowCollectScope ["scope"] ∅ ∅ "" 0 0 0 0 ["scope"] no_trusted.
Definition silent_pipeline depts (reply : string -> ProtocolDraft) : protocolLivePipelineDeps (W := nat) (D := unit) :=
  mkLiveDeps (Some (fun req w => (Ok (mkIntentResult (reply (iq_Message req)) IntentCompileOK 1), w))) "short_circuit"
    (mkDeps None None None None None None) None (Some (fun _ => Ok depts)) None None (fun _ => 0).
Definition demo_turn `{Location} p (active : option WorkflowSnapshot) (message : string) : protocolLiveOutcome unit :=
  (Handle (fun _ => None) (fun _ => 0) (fun _ => "r1") (fun _ _ => 0) (fun _ => "") (fun _ => "") p
    (mkLiveInput message [] (Some group_admin) active) O).1.

Lemma cancel_word_ends_workflow_witness :
  po_ClearWorkflow (demo_turn (H := shanghai) (silent_pipeline [] (fun _ => cancel_draft)) (Some scope_workflow) "算了！") = true.
Proof.
  refine (proj1 (proj2 (cancel_word_ends_workflow (H := shanghai) (fun _ => None) (fun _ => 0) (fun _ => "r1")
    (fun _ _ => 0) (fun _ => "") (fun _ => "") (silent_pipeline [] (fun _ => cancel_draft)) _
    (mkLiveInput "算了！" [] (Some group_admin) (Some scope_workflow)) scope_workflow O eq_refl eq_refl eq_refl
    eq_refl _ _))); vm_compute; reflexivity.
Defined.

(** ** The options of a question *)

Lemma firstNonEmpty_trimmed label id :
  firstNonEmpty [trim_space label; id] = if eqs (trim_space label) "" then firstNonEmpty [id] else trim_space label.
Proof.
  unfold firstNonEmpty. cbn [List.filter]. unfold blank, eqs. rewrite trim_space_idem.
  destruct (bool_decide (trim_space label = "")); [done|]. cbn [negb]. by rewrite trim_space_idem.
Qed.
Lemma firstNonEmpty_one id : firstNonEmpty [id] = trim_space id.
Proof.
  unfold firstNonEmpty. cbn [List.filter]. unfold blank. case_bool_decide as E; [|done]. by rewrite E.
Qed.

(** The candidates of the options are the labels that are rendered, in order. *)
Definition option_candidate (t : Z) (o : ResponseOption) : option Candidate :=
  kept_candidate (ro_Value o) (ro_Label o) VString t.
Lemma option_candidate_label t o : cand_Label <$> option_candidate t o
  = if eqs (option_label o) "" then None else Some (option_label o).
Proof.
  unfold option_candidate, kept_candidate, option_label. cbv zeta. rewrite firstNonEmpty_trimmed, firstNonEmpty_one, trim_space_idem.
  destruct (eqs (trim_space (ro_Label o)) "") eqn:E1; [|by rewrite E1, andb_false_r].
  rewrite andb_true_r. by destruct (eqs (trim_space (ro_Value o)) "").
Qed.
Lemma option_candidates_labels t options : cand_Label <$> omap (option_candidate t) options = option_labels options.
Proof.
  unfold option_labels. induction options as [|o options IH]; [done|]. cbn [omap list_omap fmap list_fmap List.filter].
  pose proof (option_candidate_label t o) as Ho. destruct (option_candidate t o) as [c|], (eqs (option_label o) ""); cbn in Ho |- *; try done.
  injection Ho as Ho. by rewrite Ho, <- IH.
Qed.
Lemma option_candidate_spec t o c : option_candidate t o = Some c ->
  cand_TenantID c = t /\ cand_ID c = trim_space (ro_Value o) /\ trim_space (cand_Label c) = cand_Label c.
Proof.
  unfold option_candidate, kept_candidate. cbv zeta. case_if; [done|]. intros [= <-]. split_and!; [done..|].
  cbn [cand_Label]. rewrite firstNonEmpty_trimmed, firstNonEmpty_one. case_if; by rewrite !trim_space_idem.
Qed.

(** The candidates a workflow keeps after the options were offered. *)
Definition offered (options : list ResponseOption) (t : Z) (w : WorkflowSnapshot) : list Candidate :=
  default [] (wf_Candidates (persistWorkflowCandidatesFromResponse "dept_ids" options t w) !! "dept_ids").
Lemma offered_options options t w : option_labels options <> [] -> offered options t w = omap (option_candidate t) options.
Proof.
  intros Hne. unfold offered, persistWorkflowCandidatesFromResponse, set_candidates. fold (option_candidate t).
  rewrite <- (option_candidates_labels t) in Hne.
  destruct (omap (option_candidate t) options) as [|c cs]; [done|]. cbn. by rewrite lookup_insert_eq.
Qed.

(** The workflow after the options were offered. *)
Definition offering (options : list ResponseOption) (t : Z) (w : WorkflowSnapshot) : WorkflowSnapshot :=
  persistWorkflowCandidatesFromResponse "dept_ids" options t w.
Lemma offering_keeps options t w :
  wf_State (offering options t w) = wf_State w /\ wf_Type (offering options t w) = wf_Type w.
Proof. unfold offering, persistWorkflowCandidatesFromResponse, set_candidates. by destruct (omap _ options). Qed.

(** A workflow that collects departments takes the candidate a message chooses. *)
Lemma selection_resolved {W D} `{Location} (p : protocolLivePipelineDeps (W := W) (D := D)) manifest draft workflow message t c d wd :
  wf_State workflow = WorkflowCollectDepartments -> lookupOperation (wf_Type workflow) = Some manifest ->
  normalizeSubscriptionScope (draftRawSlotForTarget manifest draft "scope") <> "all" ->
  resolveCandidateSelection message t (default [] (wf_Candidates workflow !! "dept_ids")) = mkSelection true true (Some c) "" ->
  cand_TenantID c = t -> candidateInt64 c = Some d -> d <> 0 ->
  exists te, resolveSubscriptionTrustedEntities p message draft workflow t wd = (Some te, no_resolve)
    /\ te_TenantID te = t /\ te_DeptIDs te = [d].
Proof.
  intros Hs Hm Ha Hr Ht Hd H0. unfold resolveSubscriptionTrustedEntities. rewrite Hm, Hs.
  apply eqs_false in Ha. rewrite Ha. unfold workflowDepartmentCandidateSelection. rewrite Hr.
  cbn [sl_Handled sl_OK sl_Candidate negb mbind option_bind]. unfold trustedEntitiesFromDepartmentCandidate.
  rewrite Ht, Z.eqb_refl, andb_false_r, Hd. cbn [mbind option_bind]. rewrite (proj2 (Z.eqb_neq _ _) H0).
  eexists. split; [reflexivity|]. by split.
Qed.

(** C16: An option that a workflow keeps from a response can be chosen by its
    line.  The lines of the question are the numbered labels of the candidates the
    workflow keeps, in the same order, and a line, sent back as it was shown,
    chooses the candidate of that option, of the user's tenant and with the value
    of the option, provided its label does not normalise to nothing and no
    candidate is itself named like the line; and when the workflow is collecting
    departments, and the turn's draft does not ask for all of them, the line is
    then read as the department of the option.  The candidates of a workflow that
    still asks for the scope are not looked at, so what is offered there cannot be
    chosen ([offered_departments_not_selectable]). *)
Theorem offered_line_selects {W D} `{Location} (p : protocolLivePipelineDeps (W := W) (D := D)) options t w i line :
  numbered 0 (option_labels options) !! i = Some line -> Z.of_nat i + 1 <= max_int64 ->
  (forall label, option_labels options !! i = Some label -> normalizeEntityName label <> "") ->
  Forall (fun l => normalizeEntityName l ∉ entityNameVariants line) (option_labels options) ->
  exists c o, o ∈ options /\ offered options t w !! i = Some c
    /\ option_labels options !! i = Some (cand_Label c) /\ cand_ID c = trim_space (ro_Value o) /\ cand_TenantID c = t
    /\ resolveCandidateSelection line t (offered options t w) = mkSelection true true (Some c) ""
    /\ (wf_State w = WorkflowCollectDepartments ->
        forall manifest draft d wd, lookupOperation (wf_Type w) = Some manifest ->
          normalizeSubscriptionScope (draftRawSlotForTarget manifest draft "scope") <> "all" ->
          atoi (trim_space (ro_Value o)) = (d, None) -> d <> 0 ->
          exists te, resolveSubscriptionTrustedEntities p line draft (offering options t w) t wd = (Some te, no_resolve)
            /\ te_TenantID te = t /\ te_DeptIDs te = [d]).
Proof.
  intros Hl Hi Hn Hu. rewrite numbered_lookup in Hl. apply fmap_Some in Hl as (label & Hlab & ->).
  assert (Hne : option_labels options <> []) by (by intros E; rewrite E in Hlab).
  pose proof (offered_options options t w Hne) as Hoff. pose proof (option_candidates_labels t options) as E.
  assert (Hc : (cand_Label <$> omap (option_candidate t) options) !! i = Some label) by (by rewrite E).
  rewrite list_lookup_fmap in Hc. apply fmap_Some in Hc as (c & Hc & ->).
  pose proof (list_elem_of_lookup_2 _ _ _ Hc) as (o & Ho & Hoc)%list_elem_of_omap.
  destruct (option_candidate_spec t o c Hoc) as (Ht & Hid & Htrim).
  assert (Hr : resolveCandidateSelection (itoa (0 + Z.of_nat i + 1) +:+ ". " +:+ cand_Label c) t (offered options t w)
               = mkSelection true true (Some c) "").
  { rewrite Hoff, Z.add_0_l. apply rendered_line_selects; try done; [by apply Hn|by right|].
    intros c' Hc'. rewrite Forall_forall in Hu. apply Hu. rewrite <- E. by apply list_elem_of_fmap_2. }
  exists c, o. split_and!; try done; [by rewrite Hoff|]. intros Hs manifest draft d wd Hm Ha Hd H0.
  destruct (offering_keeps options t w) as [Es Et].
  apply (selection_resolved p manifest draft _ _ t c d wd); rewrite ?Es, ?Et; try done.
  unfold candidateInt64. cbv zeta. rewrite Hid, trim_space_idem, Hd.
  destruct (eqs (trim_space (ro_Value o)) "") eqn:Hb; [|done]. apply eqs_true in Hb. by rewrite Hb in Hd.
Qed.

Definition sample_options : list ResponseOption := [mkOption " 教务处 " "11"; mkOption "" " "; mkOption "" "12"].
Definition departments_workflow : WorkflowSnapshot := with_state WorkflowCollectDepartments scope_workflow.
Definition line_draft : ProtocolDraft :=
  with_slots (<["dept_names" := mkSlotDraft "dept_names" "2. 12"]> ∅)
    (simple_draft ActWorkflowContinue DomainSubscription "subscription.start" 1 "").
Lemma offered_line_selects_witness :
  numbered 0 (option_labels sample_options) = ["1. 教务处"; "2. 12"]
  /\ (exists c, cand_ID c = "12"
       /\ resolveCandidateSelection "2. 12" 7 (offered sample_options 7 departments_workflow) = mkSelection true true (Some c) "")
  /\ exists te, resolveSubscriptionTrustedEntities (silent_pipeline [] (fun _ => cancel_draft)) "2. 12" line_draft
                  (offering sample_options 7 departments_workflow) 7 O = (Some te, no_resolve)
       /\ te_DeptIDs te = [12].
Proof.
  split; [vm_compute; reflexivity|].
  destruct (offered_line_selects (H := shanghai) (silent_pipeline [] (fun _ => cancel_draft)) sample_options 7 departments_workflow
              1 "2. 12") as (c & o & Ho & Hc & _ & Hid & _ & Hr & Hd).
  - vm_compute. reflexivity.
  - vm_compute. discriminate.
  - intros label E. vm_compute in E. injection E as <-. vm_compute. discriminate.
  - apply (bool_decide_unpack _). vm_compute. exact I.
  - assert (Hc12 : cand_ID c = "12") by (vm_compute in Hc; injection Hc as <-; reflexivity).
    split; [exists c; split; [exact Hc12|exact Hr]|].
    assert (Hm : exists m, lookupOperation (wf_Type departments_workflow) = Some m
              /\ normalizeSubscriptionScope (draftRawSlotForTarget m line_draft "scope") <> "all").
    { eexists. split; [vm_compute; reflexivity|vm_compute; discriminate]. }
    destruct Hm as (m & Hm & Hall).
    destruct (Hd eq_refl m line_draft 12 O Hm Hall) as (te & H1 & _ & H2).
    + rewrite <- Hid, Hc12. vm_compute. reflexivity.
    + discriminate.
    + exists te. split; [exact H1|exact H2].
Defined.

(** While the scope is being asked for, a department name that is ambiguous
    offers options, which the workflow keeps; but the next turn looks for a scope
    only, and the compiler takes the number, the line and the label of an option
    for an exact candidate without asking the model: none of the options that
    were offered can be chosen, the same question is asked again. *)
Definition two_depts : list DeptItem := [mkDept 11 "教务一科" 7; mkDept 12 "教务二科" 7].
Definition department_draft (message : string) : ProtocolDraft :=
  with_slots (<["dept_names" := mkSlotDraft "dept_names" message]> ∅)
    (simple_draft ActWorkflowContinue DomainSubscription "subscription.start" 1 "").
(** The choice is not understood: the same workflow, a question, no model. *)
Definition not_understood (active : option WorkflowSnapshot) (o : protocolLiveOutcome unit) : Prop :=
  rm_Kind (po_Response o) = ResponseClarify /\ po_WorkflowAfter o = active /\ po_LLMInvoked o = false.
Definition choice_turn := demo_turn (H := shanghai) (silent_pipeline two_depts department_draft).
Definition offer_turn : protocolLiveOutcome unit := choice_turn (Some scope_workflow) "教务".
Lemma offered_departments_not_selectable :
  rm_Kind (po_Response offer_turn) = ResponseSelectOptions
  /\ option_labels (rm_Options (po_Response offer_turn)) = ["教务一科"; "教务二科"]
  /\ (wf_State <$> po_WorkflowAfter offer_turn) = Some WorkflowCollectScope
  /\ Forall (fun choice => not_understood (po_WorkflowAfter offer_turn) (choice_turn (po_WorkflowAfter offer_turn) choice))
       ["1"; "1. 教务一科"; "教务一科"; "第二个"].
Proof.
  split; [vm_compute; reflexivity|]. split; [vm_compute; reflexivity|]. split; [vm_compute; reflexivity|].
  repeat (apply Forall_cons_2; [unfold not_understood; split; [|split]; vm_compute; reflexivity|]). apply Forall_nil_2.
Qed.
