(* ===== verification/Session.v ===== *)
(** * Sessions, the rate limit and the identity of a turn

    internal/agent/session.go, task_memory.go, conversation_state.go (the
    conversation kept in memory: recent messages, the task at hand, the workflow
    the session is bound to), ratelimit.go (the fixed-window counters) and
    resolveChatAuth of chat_pipeline.go.  The managers' mutexes make each
    operation atomic, so an interleaving of goroutines is a sequence of
    operations.  The sessions a pointer is handed out of are cloned by the code;
    here they are values. *)
From Stdlib Require Import ZArith Lia Bool String.
From stdpp Require Import base list strings gmap.
From coqutil Require Import Datatypes.RecordSettersUsingExistingGetters.
From S2P Require Import Prelude GoStrings GoTime Contract Codec Store StoreApi Request Workflow Entity Llm Live.
Import RecordSetNotations1.
#[local] Open Scope go_scope.

Definition maxHistory : nat := 20.
Definition sessionTTL : Z := 30 * ns_min.

(** ** Tasks *)

Definition taskStatusExpired : string := "expired".

Record ActiveTask := mkTask {
  tk_Type : string;
  tk_Status : string;
  tk_RequiredSlots : list string;
  tk_FilledSlots : gmap string string;
  tk_ExpiresAt : Z;
  tk_LastPrompt : string
}.
Record TaskInstance := mkInstance {
  ti_ID : string;
  ti_Type : string;
  ti_Status : string;
  ti_Slots : gmap string string;
  ti_MissingSlots : list string;
  ti_LastErrorCode : string;
  ti_LastErrorText : string;
  ti_CandidateCache : gmap string value;
  ti_ResultSummary : string;
  ti_UpdatedAt : Z;
  ti_ExpiresAt : Z
}.

(** [!ExpiresAt.IsZero() && !ExpiresAt.After(now)] *)
Definition run_out_at (expires now : Z) : bool := negb (is_zero expires) && negb (after expires now).
Definition IsExpired (t : ActiveTask) (now : Z) : bool := run_out_at (tk_ExpiresAt t) now.

Definition MissingSlots (t : ActiveTask) : list string :=
  List.filter (fun slot => negb (bool_decide (is_Some (tk_FilledSlots t !! slot)))) (tk_RequiredSlots t).

Definition taskInstanceFromActiveTask (t : ActiveTask) : TaskInstance :=
  mkInstance "" (tk_Type t) (tk_Status t) (tk_FilledSlots t) (MissingSlots t) "" "" ∅ "" 0 (tk_ExpiresAt t).
Definition activeTaskFromTaskInstance (t : TaskInstance) : ActiveTask :=
  mkTask (ti_Type t) (ti_Status t) (ti_MissingSlots t) (ti_Slots t) (ti_ExpiresAt t) "".

(** [taskApplySlot]: the task, and the matched slots with the key added when the
    slot changed. *)
Definition recordMatchedSlot (matched : list string) (key : string) : list string :=
  if existsb (eqs key) matched then matched else matched ++ [key].
Definition taskApplySlot (key v : string) (r : TaskInstance * list string) : TaskInstance * list string :=
  let '(t, matched) := r in
  if eqs key "" then r
  else if bool_decide (default "" (ti_Slots t !! key) = v) then r
  else (mkInstance (ti_ID t) (ti_Type t) (ti_Status t) (<[key := v]> (ti_Slots t)) (ti_MissingSlots t)
          (ti_LastErrorCode t) (ti_LastErrorText t) (ti_CandidateCache t) (ti_ResultSummary t) (ti_UpdatedAt t)
          (ti_ExpiresAt t), recordMatchedSlot matched key).

(** ** Sessions *)

Record session := mkSession {
  se_messages : list Message;
  se_activeTask : option ActiveTask;
  se_taskMemory : option TaskInstance;
  se_workflowKey : WorkflowKey;
  se_updatedAt : Z
}.
Notation sessions := (gmap string session).

Definition no_workflow_key : WorkflowKey := mkKey 0 "" 0.
(** The session an operation creates before it fills it. *)
Definition new_session : session := mkSession [] None None no_workflow_key 0.

(** What [getSessionState] and [getTaskState] do to the tasks of a session before
    they read it; each reads the clock anew, [now] and then [now']. *)
Definition live_task (now : Z) (t : option ActiveTask) : option ActiveTask :=
  match t with Some t => if IsExpired t now then None else Some t | None => None end.
Definition live_memory (now : Z) (t : option TaskInstance) : option TaskInstance :=
  match t with Some t => if run_out_at (ti_ExpiresAt t) now then None else Some t | None => None end.
Definition or_some {A} (o fallback : option A) : option A := match o with Some _ => o | None => fallback end.

Definition session_state (now now' : Z) (s : session) : session :=
  let task := live_task now (se_activeTask s) in
  let memory := live_memory now' (se_taskMemory s) in
  let task := or_some task (activeTaskFromTaskInstance <$> memory) in
  mkSession (se_messages s) task (or_some memory (taskInstanceFromActiveTask <$> task)) (se_workflowKey s)
    (se_updatedAt s).
Definition task_state (now now' : Z) (s : session) : session :=
  let memory := or_some (live_memory now (se_taskMemory s))
                  (taskInstanceFromActiveTask <$> live_task now' (se_activeTask s)) in
  mkSession (se_messages s) (or_some (se_activeTask s) (activeTaskFromTaskInstance <$> memory)) memory
    (se_workflowKey s) (se_updatedAt s).

Definition getSessionState (now now' : Z) (key : string) (sm : sessions)
  : (list Message * option ActiveTask) * sessions :=
  match sm !! key with
  | None => (([], None), sm)
  | Some s => let s := session_state now now' s in ((se_messages s, se_activeTask s), <[key := s]> sm)
  end.
Definition getTaskState (now now' : Z) (key : string) (sm : sessions)
  : (list Message * option TaskInstance) * sessions :=
  match sm !! key with
  | None => (([], None), sm)
  | Some s => let s := task_state now now' s in ((se_messages s, se_taskMemory s), <[key := s]> sm)
  end.
Definition recentMessages (key : string) (sm : sessions) : list Message :=
  match sm !! key with Some s => se_messages s | None => [] end.

(** A change of a session, which is created when there is none. *)
Definition on_session (now : Z) (key : string) (f : session -> session) (sm : sessions) : sessions :=
  <[key := (f (default new_session (sm !! key))) <| se_updatedAt := now |>]> sm.
(** A change of a session that exists. *)
Definition on_known_session (now : Z) (key : string) (f : session -> session) (sm : sessions) : sessions :=
  match sm !! key with Some s => <[key := (f s) <| se_updatedAt := now |>]> sm | None => sm end.

(** The last [n] elements. *)
Definition lastn {A} (n : nat) (l : list A) : list A := drop (length l - n) l.

Definition appendMessages (now : Z) (key : string) (msgs : list Message) : sessions -> sessions :=
  on_session now key (fun s => s <| se_messages := lastn maxHistory (se_messages s ++ msgs) |>).
Definition setActiveTask (now : Z) (key : string) (t : option ActiveTask) : sessions -> sessions :=
  on_session now key (fun s => s <| se_activeTask := t |>
                                 <| se_taskMemory := taskInstanceFromActiveTask <$> t |>).
Definition setTaskInstance (now : Z) (key : string) (t : option TaskInstance) : sessions -> sessions :=
  on_session now key (fun s => s <| se_taskMemory := t |>
                                 <| se_activeTask := activeTaskFromTaskInstance <$> t |>).
Definition clearActiveTask (now : Z) (key : string) : sessions -> sessions :=
  on_known_session now key (fun s => s <| se_activeTask := None |> <| se_taskMemory := None |>).
Definition clearTaskInstance (now : Z) (key : string) : sessions -> sessions :=
  on_known_session now key (fun s => s <| se_activeTask := None |> <| se_taskMemory := None |>).
Definition clearWorkflowBinding (now : Z) (key : string) : sessions -> sessions :=
  on_known_session now key (fun s => s <| se_workflowKey := no_workflow_key |>).
Definition cacheWorkflowBinding (now : Z) (key : string) (workflow : option WorkflowSnapshot) : sessions -> sessions :=
  match workflow with
  | None => clearWorkflowBinding now key
  | Some _ => on_session now key (fun s => s <| se_workflowKey := workflowKeyFromSessionKey key workflow |>)
  end.
Definition bindWorkflowKey (now : Z) (key : string) (workflowKey : WorkflowKey) (sm : sessions) : sessions :=
  match validateWorkflowKey workflowKey with
  | Err _ => sm
  | Ok _ => on_session now key (fun s => s <| se_workflowKey := workflowKey |>) sm
  end.

Definition purge_session (now : Z) (s : session) : option session :=
  if sessionTTL <? now - se_updatedAt s then None
  else Some (s <| se_activeTask := live_task now (se_activeTask s) |>
               <| se_taskMemory := live_memory now (se_taskMemory s) |>).
Definition purgeExpired (now : Z) (sm : sessions) : sessions := omap (purge_session now) sm.

(** *** The workflow of a session, in the workflow store *)

Section workflow.
Context {S : Type} `{CS : ConversationStore S}.

(** The key a session is bound to, or the one its own key spells. *)
Definition session_workflow_key (key : string) (s : session) : WorkflowKey :=
  match validateWorkflowKey (se_workflowKey s) with
  | Ok _ => se_workflowKey s
  | Err _ => workflowKeyFromSessionKey key None
  end.

Definition getWorkflowState (ctx : option err) (key : string) (sm : sessions) (s : S)
  : (list Message * option WorkflowSnapshot) * S :=
  let '(msgs, workflowKey) :=
    match sm !! key with
    | None => ([], workflowKeyFromSessionKey key None)
    | Some se => (se_messages se, session_workflow_key key se)
    end in
  match cs_load ctx workflowKey s with
  | (Err _, s) => ((msgs, None), s)
  | (Ok workflow, s) => ((msgs, vw_Snapshot <$> workflow), s)
  end.

Definition clearWorkflowState (ctx : option err) (now : Z) (key : string) (r : sessions * S) : sessions * S :=
  let '(sm, s) := r in
  let workflowKey := match sm !! key with
                     | Some se => session_workflow_key key se
                     | None => workflowKeyFromSessionKey key None
                     end in
  match cs_load ctx workflowKey s with
  | (Err _, s) => (sm, s)
  | (Ok None, s) => (clearWorkflowBinding now key sm, s)
  | (Ok (Some current), s) =>
      match cs_delete_if_version ctx workflowKey (vw_Version current) s with
      | (Err _, s) => (sm, s)
      | (Ok _, s) => (clearWorkflowBinding now key sm, s)
      end
  end.

(** A snapshot under the tenant, the conversation and the actor of a key. *)
Definition under_key (k : WorkflowKey) (w : WorkflowSnapshot) : WorkflowSnapshot :=
  let w := cloneWorkflowSnapshot w in
  mkSnapshot (wf_ID w) (key_TenantID k) (key_ActorUserID k) (key_ConversationID k) (wf_Type w) (wf_State w)
    (wf_MissingFields w) (wf_TrustedEntities w) (wf_Candidates w) (wf_LastUserMessage w) (wf_CreatedAt w)
    (wf_UpdatedAt w) (wf_ExpiresAt w) (wf_Version w) (wf_MissingSlots w) (wf_Trusted w).

Definition setWorkflowState (ctx : option err) (now : Z) (key : string) (workflow : option WorkflowSnapshot)
    (r : sessions * S) : sessions * S :=
  match workflow with
  | None => clearWorkflowState ctx now key r
  | Some w =>
      let '(sm, s) := r in
      let k := workflowKeyFromSessionKey key workflow in
      let next := under_key k w in
      match cs_load ctx k s with
      | (Err _, s) => (sm, s)
      | (Ok current, s) =>
          let '(stored, s) := match current with
                              | None => cs_create ctx k (Some next) s
                              | Some c => cs_compare_and_swap ctx k (vw_Version c) (Some next) s
                              end in
          match stored with
          | Err _ => (sm, s)
          | Ok _ => (cacheWorkflowBinding now key (Some next) sm, s)
          end
      end
  end.

Definition applyWorkflowResult (ctx : option err) (now : Z) (key : string) (result : WorkflowResult)
    (r : sessions * S) : sessions * S :=
  if workflowResultTerminal result then clearWorkflowState ctx now key r
  else match wr_Workflow result with
       | Some w => setWorkflowState ctx now key (Some w) r
       | None => r
       end.
End workflow.

(** ** The rate limit *)

Definition rateLimitWindow : Z := 1 * ns_min.
Definition rateLimitMax : Z := 10.

Record counter := mkCounter { ct_count : Z; ct_windowAt : Z }.
Notation rateLimiter := (gmap string counter).

Definition Allow (now : Z) (key : string) (r : rateLimiter) : bool * rateLimiter :=
  match r !! key with
  | None => (true, <[key := mkCounter 1 now]> r)
  | Some c =>
      if rateLimitWindow <? now - ct_windowAt c then (true, <[key := mkCounter 1 now]> r)
      else if rateLimitMax <=? ct_count c then (false, r)
      else (true, <[key := mkCounter (ct_count c + 1) (ct_windowAt c)]> r)
  end.
Definition purge_counters (now : Z) (r : rateLimiter) : rateLimiter :=
  omap (fun c => if rateLimitWindow <? now - ct_windowAt c then None else Some c) r.

(** ** Who is talking *)

Record ChatMessage := mkChat {
  cm_CorpID : string;
  cm_SenderID : string;
  cm_SenderNick : string;
  cm_Content : string;
  cm_ConversationID : string;
  cm_ConversationType : string;
  cm_ConversationTitle : string;
  cm_SessionWebhook : string
}.

Definition colon : string := ":".
Definition session_key (tenantID : Z) (msg : ChatMessage) : string :=
  if eqs (cm_ConversationType msg) "2"
  then itoa tenantID +:+ colon +:+ cm_ConversationID msg +:+ colon +:+ cm_SenderID msg
  else itoa tenantID +:+ colon +:+ cm_SenderID msg.

Definition system_error : string := "系统错误，请稍后重试".
Definition chat_user (user : UserInfo) (msg : ChatMessage) : UserContext :=
  mkUser (ui_TenantID user) (ui_ID user) (ui_Role user) (ui_DingUserID user) (ui_Name user)
    (cm_ConversationType msg) (cm_ConversationID msg) (cm_ConversationTitle msg).

Section auth.
Context {W : Type}.
(** The tenant and user ports; the tenant the context carries is the first
    argument of the latter. *)
Variable FindTenantIDByCorpID : string -> ST W Z.
Variable FindByDingUserID : Z -> string -> ST W (option UserInfo).

(** [inl] is who is talking, with the session's key; [inr] is the reply that
    ends the turn. *)
Definition resolveChatAuth (now : Z) (msg : ChatMessage) (r : rateLimiter) (w : W)
  : ((UserContext * string) + string) * rateLimiter * W :=
  match FindTenantIDByCorpID (cm_CorpID msg) w with
  | (Err _, w) => (inr system_error, r, w)
  | (Ok tenantID, w) =>
      if tenantID =? 0 then (inr "未找到对应的企业，请联系管理员", r, w)
      else
        match FindByDingUserID tenantID (cm_SenderID msg) w with
        | (Err _, w) => (inr system_error, r, w)
        | (Ok None, w) => (inr "您尚未绑定账户，请先通过小程序登录", r, w)
        | (Ok (Some user), w) =>
            let key := session_key (ui_TenantID user) msg in
            match Allow now key r with
            | (false, r) => (inr "你发消息太快了，请稍后再试", r, w)
            | (true, r) => (inl (chat_user user msg, key), r, w)
            end
        end
  end.
End auth.
