(* ===== verification/SessionSpec.v ===== *)
(** * Properties of the sessions and the rate limit

    The sliding history of a session refines the whole conversation; a task that
    has expired is never handed out; the fixed-window counters bound what a key
    sends in any minute and refuse nobody who has not used up a window; the
    sessions of two tenants never meet. *)
From Stdlib Require Import ZArith Lia Bool String ZifyBool.
From stdpp Require Import base list strings gmap.
From coqutil Require Import Datatypes.RecordSettersUsingExistingGetters.
From S2P Require Import Prelude GoStrings GoTime Contract Codec Store StoreApi Request Workflow BusinessKey Entity EntitySpec Llm Live Session.
Import RecordSetNotations1.
#[local] Open Scope go_scope.

(** ** The history of a session *)

Lemma lastn_length {A} n (l : list A) : (length (lastn n l) <= n)%nat.
Proof. unfold lastn. rewrite length_drop. lia. Qed.

Lemma lastn_app {A} n (l m : list A) : lastn n (lastn n l ++ m) = lastn n (l ++ m).
Proof.
  unfold lastn. rewrite length_app, length_drop, !drop_app, drop_drop, length_drop, length_app. f_equal; f_equal; lia.
Qed.

(** The operations on the sessions that touch no store, each with what the clock
    answers. *)
Inductive session_op : Type :=
  | OAppend (key : string) (msgs : list Message)
  | OSetTask (key : string) (t : option ActiveTask)
  | OSetInstance (key : string) (t : option TaskInstance)
  | OClearTask (key : string)
  | OClearInstance (key : string)
  | OBind (key : string) (k : WorkflowKey)
  | OCache (key : string) (w : option WorkflowSnapshot)
  | OUnbind (key : string)
  | OGetSession (key : string) (now' : Z)
  | OGetTask (key : string) (now' : Z)
  | OPurge.

Definition run_op (sm : sessions) (e : Z * session_op) : sessions :=
  let '(now, op) := e in
  match op with
  | OAppend key msgs => appendMessages now key msgs sm
  | OSetTask key t => setActiveTask now key t sm
  | OSetInstance key t => setTaskInstance now key t sm
  | OClearTask key => clearActiveTask now key sm
  | OClearInstance key => clearTaskInstance now key sm
  | OBind key k => bindWorkflowKey now key k sm
  | OCache key w => cacheWorkflowBinding now key w sm
  | OUnbind key => clearWorkflowBinding now key sm
  | OGetSession key now' => (getSessionState now now' key sm).2
  | OGetTask key now' => (getTaskState now now' key sm).2
  | OPurge => purgeExpired now sm
  end.

(** The specification: the whole conversation under each key, and when it was
    last written to. *)
Notation conversations := (gmap string (list Message * Z)).
Definition heard (key : string) (c : conversations) : list Message := default [] (fst <$> c !! key).

(** How an operation writes to its session: it says something, it creates the
    session, or it only writes to one that exists. *)
Inductive writing : Type :=
  | Says (key : string) (msgs : list Message)
  | Touches (key : string)
  | Reads
  | Forgets.
Definition writing_of (op : session_op) : writing :=
  match op with
  | OAppend key msgs => Says key msgs
  | OSetTask key _ | OSetInstance key _ | OCache key (Some _) => Says key []
  | OBind key k => if is_ok (validateWorkflowKey k) then Says key [] else Reads
  | OClearTask key | OClearInstance key | OUnbind key | OCache key None => Touches key
  | OGetSession _ _ | OGetTask _ _ => Reads
  | OPurge => Forgets
  end.
Definition hear (c : conversations) (e : Z * session_op) : conversations :=
  let '(now, op) := e in
  match writing_of op with
  | Says key msgs => <[key := (heard key c ++ msgs, now)]> c
  | Touches key => match c !! key with Some (h, _) => <[key := (h, now)]> c | None => c end
  | Reads => c
  | Forgets => omap (fun x => if sessionTTL <? now - x.2 then None else Some x) c
  end.

Definition remembers (s : option session) (c : option (list Message * Z)) : Prop :=
  match s, c with
  | Some s, Some (h, at_) => se_messages s = lastn maxHistory h /\ se_updatedAt s = at_
  | None, None => True
  | _, _ => False
  end.
Definition refines (sm : sessions) (c : conversations) : Prop := forall key, remembers (sm !! key) (c !! key).

(** What an operation does to the messages of a session. *)
Definition says (msgs : list Message) (f : session -> session) : Prop :=
  forall s h, se_messages s = lastn maxHistory h -> se_messages (f s) = lastn maxHistory (h ++ msgs).

Lemma says_nothing f : (forall s, se_messages (f s) = se_messages s) -> says [] f.
Proof. intros Hf s h Hs. by rewrite Hf, app_nil_r. Qed.

Lemma refines_says sm c now key f msgs :
  refines sm c -> says msgs f ->
  refines (on_session now key f sm) (<[key := (heard key c ++ msgs, now)]> c).
Proof.
  intros HR Hf k. unfold on_session. destruct (decide (k = key)) as [->|Hne].
  2:{ rewrite !lookup_insert_ne by done. apply HR. }
  rewrite !lookup_insert_eq. split; [|reflexivity]. cbn [se_messages set]. apply Hf. unfold heard.
  specialize (HR key). by destruct (sm !! key) as [s|], (c !! key) as [[h t]|]; try apply HR.
Qed.

Lemma refines_touches sm c now key f :
  refines sm c -> says [] f ->
  refines (on_known_session now key f sm) (match c !! key with Some (h, _) => <[key := (h, now)]> c | None => c end).
Proof.
  intros HR Hf k. unfold on_known_session. pose proof (HR key) as Hk.
  destruct (sm !! key) as [s|] eqn:Es, (c !! key) as [[h t]|] eqn:Ec; try done.
  destruct (decide (k = key)) as [->|Hne]; [|rewrite !lookup_insert_ne by done; apply HR].
  rewrite !lookup_insert_eq. split; [|reflexivity]. rewrite <- (app_nil_r h). apply Hf, Hk.
Qed.

Lemma refines_reads sm c key s s' :
  refines sm c -> sm !! key = Some s -> se_messages s' = se_messages s -> se_updatedAt s' = se_updatedAt s ->
  refines (<[key := s']> sm) c.
Proof.
  intros HR Hs Hm Hu k. destruct (decide (k = key)) as [->|Hne]; [|rewrite lookup_insert_ne by done; apply HR].
  rewrite lookup_insert_eq. specialize (HR key). rewrite Hs in HR. destruct (c !! key) as [[h t]|]; [|done].
  cbn in *. by rewrite Hm, Hu.
Qed.

Lemma refines_purge sm c now :
  refines sm c -> refines (purgeExpired now sm) (hear c (now, OPurge)).
Proof.
  intros HR k. unfold purgeExpired, hear, writing_of. rewrite !lookup_omap. specialize (HR k).
  destruct (sm !! k) as [s|], (c !! k) as [[h t]|]; try done. destruct HR as [Hm Hu].
  cbn [option_bind mbind]. unfold purge_session. cbn [snd]. rewrite Hu. by case_if.
Qed.

Lemma refines_step sm c e : refines sm c -> refines (run_op sm e) (hear c e).
Proof.
  intros HR. destruct e as [now op].
  destruct op; cbn [run_op]; try (apply refines_says; [done|by apply says_nothing]);
    try (apply refines_touches; [done|by apply says_nothing]).
  - apply refines_says; [done|]. intros s h Hs. cbn. by rewrite Hs, lastn_app.
  - unfold bindWorkflowKey, hear, writing_of. destruct (validateWorkflowKey k); cbn [is_ok]; [|exact HR].
    apply refines_says; [done|by apply says_nothing].
  - destruct w; [apply refines_says|apply refines_touches]; try done; by apply says_nothing.
  - unfold getSessionState. destruct (sm !! key) eqn:Es; [|exact HR]. cbn [snd]. by eapply refines_reads.
  - unfold getTaskState. destruct (sm !! key) eqn:Es; [|exact HR]. cbn [snd]. by eapply refines_reads.
  - by apply refines_purge.
Qed.

Definition run_session (ops : list (Z * session_op)) : sessions := fold_left run_op ops ∅.
Definition conversation (ops : list (Z * session_op)) : conversations := fold_left hear ops ∅.

Lemma run_refines ops sm c : refines sm c -> refines (fold_left run_op ops sm) (fold_left hear ops c).
Proof.
  revert sm c. induction ops as [|e ops IH]; intros sm c HR; [exact HR|]. cbn [fold_left]. by apply IH, refines_step.
Qed.

(** The history handed to the model is the last twenty messages of what was
    said: after any sequence of operations on the sessions, of any conversations
    and with any clock, the recent messages of a key are the last [maxHistory]
    messages appended to it since its session began or was forgotten, in their
    order; setting and clearing tasks, binding workflows, reading and purging
    change none, and no operation on one key touches the history of another. *)
Theorem history_is_recent_conversation ops key :
  recentMessages key (run_session ops) = lastn maxHistory (heard key (conversation ops)).
Proof.
  assert (HR : refines (run_session ops) (conversation ops)).
  { apply run_refines. intros k. by rewrite !lookup_empty. }
  specialize (HR key). unfold recentMessages, heard.
  destruct (run_session ops !! key), (conversation ops !! key) as [[h t]|]; try done. apply HR.
Qed.

(** ** Expired tasks *)

Lemma run_out_mono e now now' : now <= now' -> run_out_at e now' = false -> run_out_at e now = false.
Proof.
  unfold run_out_at, after, is_zero. intros Hle. rewrite !andb_false_iff, !negb_false_iff.
  intros [H|H]; [by left|right]. apply Z.ltb_lt in H. apply Z.ltb_lt. lia.
Qed.

Lemma live_task_live now o t : live_task now o = Some t -> run_out_at (tk_ExpiresAt t) now = false.
Proof. destruct o as [t0|]; [|done]. cbn. unfold IsExpired. case_if; [done|]. by intros [= <-]. Qed.
Lemma live_memory_live now o t : live_memory now o = Some t -> run_out_at (ti_ExpiresAt t) now = false.
Proof. destruct o as [t0|]; [|done]. cbn. case_if; [done|]. by intros [= <-]. Qed.

(** A task that has run out is never handed out: what [getSessionState] and
    [getTaskState] return has no expiry or expires after the moment of the call,
    whatever the session holds (either of its two forms of a task may have been
    left behind); reading may forget tasks but not messages. *)
Theorem expired_task_not_returned now now' key sm :
  now <= now' ->
  (forall t, (getSessionState now now' key sm).1.2 = Some t -> run_out_at (tk_ExpiresAt t) now = false)
  /\ (forall t, (getTaskState now now' key sm).1.2 = Some t -> run_out_at (ti_ExpiresAt t) now = false)
  /\ (getSessionState now now' key sm).1.1 = recentMessages key sm
  /\ (getTaskState now now' key sm).1.1 = recentMessages key sm.
Proof.
  intros Hle. unfold getSessionState, getTaskState, recentMessages.
  destruct (sm !! key) as [s|]; [|done]. cbn [fst snd]. unfold session_state, task_state.
  cbn [se_activeTask se_taskMemory se_messages]. split_and!; try done.
  - intros t. destruct (live_task now (se_activeTask s)) as [t0|] eqn:E; cbn [or_some].
    + intros [= <-]. by eapply live_task_live.
    + destruct (live_memory now' (se_taskMemory s)) as [m|] eqn:Em; [|done]. intros [= <-]. cbn.
      apply (run_out_mono _ _ now'); [done|]. by eapply live_memory_live.
  - intros t. destruct (live_memory now (se_taskMemory s)) as [m|] eqn:Em; cbn [or_some].
    + intros [= <-]. by eapply live_memory_live.
    + destruct (live_task now' (se_activeTask s)) as [t0|] eqn:E; [|done]. intros [= <-]. cbn.
      apply (run_out_mono _ _ now'); [done|]. by eapply live_task_live.
Qed.

Definition sample_task : ActiveTask := mkTask "subscribe" "waiting_slots" ["scope"] ∅ 100 "".
Definition sample_sessions : sessions :=
  run_session [(0, OSetTask "7:u" (Some sample_task)); (1, OAppend "7:u" [mkMessage "user" "hi" "" []])].
Lemma expired_task_not_returned_witness :
  (getSessionState 99 99 "7:u" sample_sessions).1.2 <> None
  /\ (getSessionState 99 100 "7:u" sample_sessions).1.1 = recentMessages "7:u" sample_sessions
  /\ (getSessionState 100 101 "7:u" sample_sessions).1.2 = None.
Proof.
  split; [by vm_compute|]. split; [|by vm_compute].
  apply (expired_task_not_returned 99 100 "7:u" sample_sessions). lia.
Defined.

(** ** The rate limit *)

(** Messages and purges, each with what the clock answers (the limiter reads it
    under its lock). *)
Inductive limiter_event : Type := EMessage (key : string) | EPurge.
(** What was answered: when, to which key, and whether it was admitted. *)
Definition verdict : Type := Z * string * bool.

Definition limiter_step (st : list verdict * rateLimiter) (e : Z * limiter_event) : list verdict * rateLimiter :=
  let '(log, r) := st in
  match e with
  | (now, EMessage key) => let '(ok, r) := Allow now key r in (log ++ [(now, key, ok)], r)
  | (now, EPurge) => (log, purge_counters now r)
  end.
Definition limiter_run (evs : list (Z * limiter_event)) : list verdict * rateLimiter :=
  fold_left limiter_step evs ([], ∅).

(** The messages of a key admitted at instants of a range. *)
Definition admitted_in (key : string) (from to : Z) (e : verdict) : bool :=
  let '(t, k, ok) := e in eqs k key && ok && (from <=? t) && (t <=? to).
Definition admitted_between (key : string) (from to : Z) (log : list verdict) : Z :=
  len (List.filter (admitted_in key from to) log).

Lemma admitted_snoc key from to log e :
  admitted_between key from to (log ++ [e])
  = admitted_between key from to log + (if admitted_in key from to e then 1 else 0).
Proof. unfold admitted_between, len. rewrite List.filter_app, List.length_app. cbn. case_if; cbn; lia. Qed.
Lemma admitted_nonneg key from to log : 0 <= admitted_between key from to log.
Proof. unfold admitted_between, len. lia. Qed.

(** [key]'s counter and log after the events up to [now]; [t] is where a minute
    begins. *)
Record limiter_inv (key : string) (t now : Z) (log : list verdict) (o : option counter) : Prop := {
  li_past : Forall (fun e : verdict => e.1.1 <= now) log;
  li_counter : forall c, o = Some c -> 1 <= ct_count c <= rateLimitMax /\ ct_windowAt c <= now
                 /\ forall to, now <= to -> admitted_between key (ct_windowAt c) to log = ct_count c;
  li_recent : forall from to, match o with Some c => ct_windowAt c + rateLimitWindow < from | None => now <= from end ->
                admitted_between key from to log = 0;
  li_before : now < t -> admitted_between key t (t + rateLimitWindow) log = 0;
  li_minute : admitted_between key t (t + rateLimitWindow) log
              <= match o with
                 | None => if t + rateLimitWindow <? now then 19 else 9
                 | Some c => if ct_windowAt c <? t then ct_count c - 1
                             else if ct_windowAt c <=? t + rateLimitWindow then 9 + ct_count c else 19
                 end
}.

Lemma admitted_future key from to now log :
  Forall (fun e : verdict => e.1.1 <= now) log -> now < from -> admitted_between key from to log = 0.
Proof.
  intros Hp Hlt. unfold admitted_between, len. induction Hp as [|[[t k] ok] log Ht _ IH]; [done|].
  cbn in Ht |- *. assert (from <=? t = false) as -> by (apply Z.leb_gt; lia).
  by rewrite andb_false_r.
Qed.

Lemma window_constants : rateLimitWindow = 60000000000 /\ rateLimitMax = 10.
Proof. done. Qed.

(** Messages of other keys leave a key's counter and its counts. *)
Lemma limiter_inv_other key t now now' log o k ok :
  limiter_inv key t now log o -> now <= now' -> k <> key ->
  limiter_inv key t now' (log ++ [(now', k, ok)]) o.
Proof.
  intros [Hp Hc Hr Hb Hm] Hle Hne.
  assert (He : forall from to, admitted_between key from to (log ++ [(now', k, ok)]) = admitted_between key from to log).
  { intros from to. rewrite admitted_snoc. cbn. apply eqs_false in Hne. rewrite Hne. cbn. lia. }
  split.
  - apply Forall_app. split; [|by constructor]. eapply Forall_impl; [exact Hp|]. cbn. lia.
  - intros c Ho. destruct (Hc c Ho) as (H1 & H2 & H3). split_and!; [lia..|].
    intros to Hto. rewrite He. apply H3. lia.
  - intros from to Hf. rewrite He. apply Hr. destruct o; lia.
  - intros Hlt. rewrite He. apply Hb. lia.
  - rewrite He. etransitivity; [exact Hm|]. destruct o; [done|].
    repeat case_if; b2p; lia.
Qed.

Lemma admitted_wider key from from' to log : from' <= from -> admitted_between key from to log <= admitted_between key from' to log.
Proof.
  intros Hle. unfold admitted_between, len. induction log as [|[[t k] ok] log IH]; [done|]. cbn.
  destruct (eqs k key && ok); cbn; [|exact IH].
  destruct (from <=? t) eqn:E1; cbn.
  - assert (from' <=? t = true) as -> by (b2p; apply Z.leb_le; lia). cbn. destruct (t <=? to); cbn; lia.
  - destruct (_ && _); cbn; lia.
Qed.

Lemma admitted_self key from to now log :
  admitted_between key from to (log ++ [(now, key, true)])
  = admitted_between key from to log + (if (from <=? now) && (now <=? to) then 1 else 0).
Proof. rewrite admitted_snoc. unfold admitted_in. assert (eqs key key = true) as -> by by apply eqs_true. done. Qed.
Lemma admitted_denied key from to now log :
  admitted_between key from to (log ++ [(now, key, false)]) = admitted_between key from to log.
Proof. rewrite admitted_snoc. unfold admitted_in. rewrite andb_false_r. cbn. lia. Qed.

Lemma past_snoc now now' log e :
  Forall (fun e : verdict => e.1.1 <= now) log -> now <= now' -> e.1.1 = now' ->
  Forall (fun e : verdict => e.1.1 <= now') (log ++ [e]).
Proof.
  intros Hp Hle He. apply Forall_app. split; [|constructor; [lia|constructor]].
  eapply Forall_impl; [exact Hp|]. cbn. lia.
Qed.

(** A message that opens a window. *)
Lemma limiter_inv_opens key t now now' log o :
  limiter_inv key t now log o -> now <= now' ->
  (forall c, o = Some c -> rateLimitWindow < now' - ct_windowAt c) ->
  limiter_inv key t now' (log ++ [(now', key, true)]) (Some (mkCounter 1 now')).
Proof.
  intros [Hp Hc Hr Hb Hm] Hle Hold. destruct window_constants as [HW HM].
  assert (H0 : forall to, admitted_between key now' to log = 0).
  { intros to. apply Hr. destruct o as [c|]; [specialize (Hold c eq_refl)|]; lia. }
  split.
  - by eapply past_snoc.
  - intros c [= <-]. cbn [ct_count ct_windowAt]. split; [lia|]. split; [lia|]. intros to Hto.
    rewrite admitted_self, H0, (proj2 (Z.leb_le now' now')), (proj2 (Z.leb_le now' to)) by lia. done.
  - intros from to Hf. cbn in Hf. apply (admitted_future _ _ _ now'); [|lia]. by eapply past_snoc.
  - intros Hlt. rewrite admitted_self, Hb, (proj2 (Z.leb_gt t now')) by lia. done.
  - rewrite admitted_self. cbn [ct_count ct_windowAt].
    pose proof (admitted_nonneg key t (t + rateLimitWindow) log).
    assert (now' < t -> admitted_between key t (t + rateLimitWindow) log = 0) as Hb' by (intros; apply Hb; lia).
    destruct o as [c|]; [destruct (Hc c eq_refl) as ([? ?] & _); specialize (Hold c eq_refl)|];
      repeat case_if; repeat case_if_in Hm; lia.
Qed.

(** A message the open window admits. *)
Lemma limiter_inv_counts key t now now' log c :
  limiter_inv key t now log (Some c) -> now <= now' -> now' - ct_windowAt c <= rateLimitWindow ->
  ct_count c < rateLimitMax ->
  limiter_inv key t now' (log ++ [(now', key, true)]) (Some (mkCounter (ct_count c + 1) (ct_windowAt c))).
Proof.
  intros [Hp Hc Hr Hb Hm] Hle Hin Hmax. destruct window_constants as [HW HM].
  destruct (Hc c eq_refl) as (H1 & H2 & H3).
  split.
  - by eapply past_snoc.
  - intros c' [= <-]. cbn [ct_count ct_windowAt]. split; [lia|]. split; [lia|]. intros to Hto.
    rewrite admitted_self, H3, (proj2 (Z.leb_le (ct_windowAt c) now')), (proj2 (Z.leb_le now' to)) by lia. done.
  - intros from to Hf. cbn [ct_windowAt] in Hf. rewrite admitted_self, Hr, (proj2 (Z.leb_gt from now')) by lia. done.
  - intros Hlt. rewrite admitted_self, Hb, (proj2 (Z.leb_gt t now')) by lia. done.
  - rewrite admitted_self. cbn [ct_count ct_windowAt].
    repeat case_if; repeat case_if_in Hm; lia.
Qed.

(** A message that is refused: ten were admitted within the last minute. *)
Lemma limiter_inv_refuses key t now now' log c :
  limiter_inv key t now log (Some c) -> now <= now' -> now' - ct_windowAt c <= rateLimitWindow ->
  rateLimitMax <= ct_count c ->
  limiter_inv key t now' (log ++ [(now', key, false)]) (Some c)
  /\ rateLimitMax <= admitted_between key (now' - rateLimitWindow) now' log.
Proof.
  intros [Hp Hc Hr Hb Hm] Hle Hin Hmax. destruct (Hc c eq_refl) as (H1 & H2 & H3). split.
  - split; try (intros; rewrite admitted_denied; first [apply Hr; done|apply Hb; lia]).
    + by eapply past_snoc.
    + intros c' [= <-]. split_and!; [lia..|]. intros to Hto. rewrite admitted_denied. apply H3. lia.
    + rewrite admitted_denied. exact Hm.
  - rewrite <- (H3 now') in Hmax by lia. etransitivity; [exact Hmax|]. apply admitted_wider. lia.
Qed.

Lemma limiter_inv_purge key t now now' log o :
  limiter_inv key t now log o -> now <= now' ->
  limiter_inv key t now' log (c ← o; if rateLimitWindow <? now' - ct_windowAt c then None else Some c).
Proof.
  intros [Hp Hc Hr Hb Hm] Hle. destruct window_constants as [HW HM].
  assert (Hp' : Forall (fun e : verdict => e.1.1 <= now') log).
  { eapply Forall_impl; [exact Hp|]. cbn. lia. }
  destruct o as [c|]; cbn [option_bind mbind].
  - destruct (Hc c eq_refl) as ((H0 & H1) & H2 & H3). case_if; b2p.
    + split; [done|done|intros; apply Hr; lia|intros; apply Hb; lia|].
      repeat case_if; repeat case_if_in Hm; lia.
    + split; [done| |done|intros; apply Hb; lia|done].
      intros c' [= <-]. split_and!; [lia..|]. intros to Hto. apply H3. lia.
  - split; [done|done|intros; apply Hr; lia|intros; apply Hb; lia|].
    repeat case_if; repeat case_if_in Hm; lia.
Qed.

(** Every refusal of the key was preceded by ten admissions within a minute. *)
Definition refusals_earned (key : string) (log : list verdict) : Prop :=
  forall pre now post, log = pre ++ (now, key, false) :: post ->
    rateLimitMax <= admitted_between key (now - rateLimitWindow) now pre.

Lemma refusals_snoc key log e :
  refusals_earned key log ->
  (forall now, e = (now, key, false) -> rateLimitMax <= admitted_between key (now - rateLimitWindow) now log) ->
  refusals_earned key (log ++ [e]).
Proof.
  intros Hl He pre now post. induction post as [|x post _] using rev_ind.
  - intros [-> [= E]]%app_inj_tail. by apply He.
  - rewrite app_comm_cons, app_assoc. intros [E _]%app_inj_tail. by eapply Hl.
Qed.

Lemma limiter_step_inv key now now' e log r :
  (forall t, limiter_inv key t now log (r !! key)) -> refusals_earned key log -> now <= now' ->
  let st := limiter_step (log, r) (now', e) in
  (forall t, limiter_inv key t now' st.1 (st.2 !! key)) /\ refusals_earned key st.1.
Proof.
  intros Hi Hr Hle. destruct e as [k|]; cbn [limiter_step].
  2:{ split; [|exact Hr]. intros t. unfold purge_counters. cbn [fst snd]. rewrite lookup_omap.
      by eapply limiter_inv_purge. }
  destruct (Allow now' k r) as [ok r'] eqn:Ea. cbn [fst snd].
  destruct (decide (k = key)) as [->|Hne].
  2:{ split; [|apply refusals_snoc; [done|by intros ? [= _ <-]]]. intros t.
      assert (r' !! key = r !! key) as ->; [|by eapply limiter_inv_other].
      unfold Allow in Ea. destruct (r !! k) as [c|]; [repeat case_if_in Ea|];
        injection Ea as _ <-; by rewrite ?lookup_insert_ne by done. }
  unfold Allow in Ea. destruct (r !! key) as [c|] eqn:Er.
  2:{ injection Ea as <- <-. split; [|by apply refusals_snoc]. intros t. rewrite lookup_insert_eq.
      by eapply limiter_inv_opens. }
  destruct (rateLimitWindow <? now' - ct_windowAt c) eqn:E1; [|destruct (rateLimitMax <=? ct_count c) eqn:E2];
    injection Ea as <- <-; b2p.
  - split; [|by apply refusals_snoc]. intros t. rewrite lookup_insert_eq. eapply limiter_inv_opens; [done..|].
    by intros c' [= <-].
  - rewrite Er. destruct (limiter_inv_refuses key 0 now now' log c (Hi 0)) as [_ Hten]; [done..|].
    split; [intros t; by apply (limiter_inv_refuses key t now now' log c (Hi t))|].
    apply refusals_snoc; [done|]. by intros ? [= <-].
  - split; [|by apply refusals_snoc]. intros t. rewrite lookup_insert_eq. by apply (limiter_inv_counts key t now).
Qed.

(** The clock does not run backwards. *)
Fixpoint in_order (now : Z) (evs : list (Z * limiter_event)) : Prop :=
  match evs with [] => True | (t, _) :: evs => now <= t /\ in_order t evs end.

Lemma limiter_run_inv key evs now log r :
  (forall t, limiter_inv key t now log (r !! key)) -> refusals_earned key log -> in_order now evs ->
  let st := fold_left limiter_step evs (log, r) in
  (exists now', forall t, limiter_inv key t now' st.1 (st.2 !! key)) /\ refusals_earned key st.1.
Proof.
  revert now log r. induction evs as [|[now' e] evs IH]; intros now log r Hi Hr Ho; [by split; [exists now|]|].
  destruct Ho as [Hle Ho]. destruct (limiter_step_inv key now now' e log r Hi Hr Hle) as [Hi' Hr'].
  cbn [fold_left]. destruct (limiter_step (log, r) (now', e)) as [log' r']. by apply (IH now').
Qed.

(** C14: The rate limit bounds what a key sends and refuses nobody else.  After
    any sequence of messages and purges, with a clock that does not run
    backwards: in any minute, wherever it begins, at most nineteen messages of a
    key are admitted (two windows that meet may share a minute); and a message is
    refused only when ten messages of its own key were admitted within the minute
    before, so neither other keys nor a purge ever cost a user a message. *)
Theorem rate_limit_bounds_minute evs start key from :
  in_order start evs ->
  admitted_between key from (from + rateLimitWindow) (limiter_run evs).1 <= 19
  /\ refusals_earned key (limiter_run evs).1.
Proof.
  intros Ho. destruct (limiter_run_inv key evs start [] ∅) as [(now & Hi) Hr]; [|by intros []|done|].
  - intros t. rewrite lookup_empty. split; [constructor|done|done|done|]. change (admitted_between _ _ _ []) with 0. case_if; lia.
  - split; [|exact Hr]. destruct (Hi from) as [_ Hc _ _ Hm]. fold (limiter_run evs) in *.
    destruct ((limiter_run evs).2 !! key) as [c|]; [destruct (Hc c eq_refl) as ([_ H10] & _)|];
      destruct window_constants as [_ HM]; repeat case_if_in Hm; lia.
Qed.

(** A user who starts a window and waits gets nineteen messages through within
    two seconds, and the eleventh of a window is refused. *)
Definition burst (start : Z) (n : nat) : list (Z * limiter_event) :=
  (fun i => (start + Z.of_nat i, EMessage "7:u")) <$> seq 0 n.
Definition burst_events : list (Z * limiter_event) :=
  (0, EMessage "7:u") :: burst (59 * ns_sec) 9 ++ burst (61 * ns_sec) 11.
Lemma rate_limit_bounds_minute_witness :
  admitted_between "7:u" (59 * ns_sec) (59 * ns_sec + rateLimitWindow) (limiter_run burst_events).1 = 19
  /\ last (limiter_run burst_events).1 = Some (61 * ns_sec + 10, "7:u", false)
  /\ refusals_earned "7:u" (limiter_run burst_events).1.
Proof.
  split; [by vm_compute|]. split; [by vm_compute|].
  apply (rate_limit_bounds_minute burst_events 0 "7:u" 0). vm_compute. repeat split; done.
Defined.

(** ** Sessions of different tenants *)

Lemma split_at_colon a b s t : Forall (fun c => c <> 58) a -> Forall (fun c => c <> 58) b ->
  a ++ 58 :: s = b ++ 58 :: t -> a = b /\ s = t.
Proof.
  intros Ha Hb. revert b Hb. induction Ha as [|x a Hx Ha IH]; intros [|y b] Hb; cbn.
  - by intros [= ->].
  - intros [= <- _]. by inversion Hb.
  - intros [= -> _]. done.
  - intros [= <- E]. inversion Hb; subst. by apply IH in E as [-> ->].
Qed.

Lemma itoa_no_colon t : 0 <= t -> Forall (fun c => c <> 58) (bytes (itoa t)).
Proof.
  intros Ht. unfold itoa. rewrite bytes_of_bytes by apply itoa_bytes_is_byte.
  destruct (itoa_digits t Ht) as (d & ds & -> & HF). eapply Forall_impl; [exact HF|].
  unfold digit. intros c Hc ->. cbn in Hc. lia.
Qed.

Lemma session_key_shape t msg : exists rest, bytes (session_key t msg) = bytes (itoa t) ++ 58 :: rest.
Proof. unfold session_key. case_if; rewrite bytes_app; eexists; f_equal; rewrite bytes_app; reflexivity. Qed.

(** No session is shared by two tenants, whatever the identifiers of the
    conversation and the sender are. *)
Theorem session_keys_of_tenants t1 t2 m1 m2 :
  in_uint64 t1 = true -> in_uint64 t2 = true -> session_key t1 m1 = session_key t2 m2 -> t1 = t2.
Proof.
  intros H1 H2 E%(f_equal bytes). destruct (session_key_shape t1 m1) as (r1 & E1), (session_key_shape t2 m2) as (r2 & E2).
  rewrite E1, E2 in E. apply split_at_colon in E as [E _]; try (apply itoa_no_colon; unfold in_uint64 in *; b2p; lia).
  apply itoa_inj; [done..|]. apply (f_equal of_bytes) in E. by rewrite !of_bytes_bytes in E.
Qed.
