(* ===== verification/Turn.v ===== *)
(** * A chat message in protocol_live mode

    internal/agent/agent.go: [Chat] and the branch of [chat] that runs when the
    protocol pipeline is the primary chain ([primaryDecisionChain]): the turn's
    workflow is loaded, the pipeline of [Live] handles the message, a prepared
    write goes through the coordinator, anything else that changes the workflow
    is stored, and a lost version race is tried once more.  Where the client of
    the model panics the turn has no reply.  The workflow and
    semantic-router chains of the other modes, the call log and the metrics are
    not modelled. *)
From Stdlib Require Import ZArith QArith Lia Bool String.
From stdpp Require Import base list strings gmap.
From coqutil Require Import Datatypes.RecordSettersUsingExistingGetters.
From S2P Require Import Prelude GoStrings GoTime Contract Codec Store StoreApi Catalog Request Policy Workflow.
From S2P Require Import BusinessKey Executor Outcome Coordinator Calendar Text Entity Llm Intent Compiler Renderer Live Session.
Import RecordSetNotations1.
#[local] Open Scope go_scope.

Definition FailurePersistence : string := "persistence_failed".

Definition strictProtocolMode (v : string) : res string :=
  let mode := trim_space v in
  if existsb (eqs mode) protocolModes then Ok mode else Err (EFmt "invalid protocol mode %q" [v]).

(** The three decision chains of a turn, by the agent's modes. *)
Definition decisionChainProtocol : string := "protocol".
Definition decisionChainRoute : string := "route".
Definition decisionChainLegacy : string := "legacy".
Definition RouteModeLive : string := "live".
Definition primaryDecisionChain (protocolMode routeMode : string) : string :=
  if eqs protocolMode ProtocolModeLive then decisionChainProtocol
  else if eqs routeMode RouteModeLive then decisionChainRoute else decisionChainLegacy.

Definition workflowKeyFromUserContext (uctx : UserContext) : WorkflowKey :=
  let conversationID := trim_space (uc_ConversationID uctx) in
  mkKey (uc_TenantID uctx)
    (if eqs conversationID "" then "direct:" +:+ trim_space (uc_DingUserID uctx) else conversationID)
    (uc_UserID uctx).

Section turn.
Context {W S : Type} `{Location} `{HS : WorkflowStore S} `{CS : ConversationStore S}.
Variable ctx_err : W -> option err.
Variable unix_nano : W -> Z.
Variable request_id : W -> string.
Variable elapsed_ms : W -> W -> Z.
Variable draft_json : ProtocolDraft -> string.
Variable other : value -> string.
Variable p : protocolLivePipelineDeps (W := W) (D := port_data).

Notation outcome := (protocolLiveOutcome port_data).

(** ** The outcomes of a store that fails *)

(** [requestID] is what [newProtocolLiveRequestID] answers. *)
Definition workflowStoreFailureOutcome (requestID : string) : outcome :=
  let draft := unknownIntentDraft "workflow_store_failed" in
  finalizeProtocolLiveOutcome requestID
    (zero_outcome <| po_Draft := draft |>
       <| po_Validation := mkValidation false "workflow_store_failed" false false ResponseRefuse |>
       <| po_Response := refuse "系统暂时无法处理当前任务状态，请稍后重试。" |>
       <| po_AnswerMode := answerModeReject |> <| po_BlockedReason := "workflow_store_failed" |>
       <| po_RequestID := requestID |> <| po_CompilerStatus := "skipped" |>
       <| po_IntentDraftJSON := draft_json draft |> <| po_FailureLayer := FailurePersistence |>
       <| po_RendererName := "response_renderer" |>).

Definition workflowConflictRetryOutcome (requestID : string) : outcome :=
  setProtocolOutcomeResponse (refuse "当前会话状态刚刚发生变化，请重新发送一次请求。") answerModeReject
    ((workflowStoreFailureOutcome requestID) <| po_BlockedReason := "workflow_conflict_retry" |>).

(** ** Storing what the turn did to the workflow *)

Definition persistProtocolLiveWorkflowOutcome (ctx : option err) (key : WorkflowKey)
    (current : option VersionedWorkflow) (o : outcome) (s : S) : res (option VersionedWorkflow) * S :=
  if po_ClearWorkflow o then
    match current with
    | None => (Ok None, s)
    | Some c => match cs_delete_if_version ctx key (vw_Version c) s with
                | (Ok _, s) => (Ok None, s)
                | (Err e, s) => (Err e, s)
                end
    end
  else
    match po_WorkflowAfter o with
    | None => (Ok current, s)
    | Some after =>
        let next := Some (under_key key after) in
        match (match current with
               | None => cs_create ctx key next s
               | Some c => cs_compare_and_swap ctx key (vw_Version c) next s
               end) with
        | (Ok stored, s) => (Ok (Some stored), s)
        | (Err e, s) => (Err e, s)
        end
    end.

(** ** The attempts of a turn *)

(** What the environment answers during one attempt: the errors of the context
    at the two calls of the store outside the coordinator, and the coordinator's
    own. *)
Record turn_attempt := mkTurnAttempt {
  ta_load_ctx : option err;
  ta_persist_ctx : option err;
  ta_write : attempt
}.

Definition live_input (msg : string) (recent : list Message) (uctx : UserContext)
    (active : option WorkflowSnapshot) : protocolLiveInput := mkLiveInput msg recent (Some uctx) active.
Definition live_handle (input : protocolLiveInput) (w : W) : outcome * W :=
  Handle ctx_err unix_nano request_id elapsed_ms draft_json other p input w.

Definition handle_panics (input : protocolLiveInput) (w : W) : bool := HandlePanics ctx_err p input w.

(** A prepared write goes to the coordinator, everything else to the store. *)
Definition settle_turn (ta : turn_attempt) (key : WorkflowKey) (current : option VersionedWorkflow)
    (o : outcome) (s : S) (w : W) : coordination port_data * S * W :=
  match po_PreparedWrite o with
  | Some _ => coordinatePreparedWrite (pd_Executor p) (ta_write ta) key current o s w
  | None =>
      match persistProtocolLiveWorkflowOutcome (ta_persist_ctx ta) key current o s with
      | (Ok persisted, s) => (mkCoordination o persisted false None, s, w)
      | (Err e, s) => (mkCoordination o None false (Some e), s, w)
      end
  end.

(** The outcome of the last attempt. *)
Definition settled_outcome (c : coordination port_data) (requestID : string) : outcome :=
  match co_Err c with
  | Some e =>
      if co_Started c then co_Outcome c
      else if errors_Is e "ErrWorkflowConflict" then workflowConflictRetryOutcome requestID
      else if errors_Is e "ErrExecutionInProgress" then workflowExecutionPendingOutcome (co_Outcome c)
      else workflowStoreFailureOutcome requestID
  | None =>
      match co_Current c, po_WorkflowAfter (co_Outcome c) with
      | Some persisted, Some _ => (co_Outcome c) <| po_WorkflowAfter := Some (cloneWorkflowSnapshot (vw_Snapshot persisted)) |>
      | _, _ => co_Outcome c
      end
  end.

(** The store refused a version before anything was executed. *)
Definition lost_race (c : coordination port_data) : bool :=
  match co_Err c with Some e => errors_Is e "ErrWorkflowConflict" && negb (co_Started c) | None => false end.

Definition pending_finalized (w : W) : outcome :=
  finalizeProtocolLiveOutcome (request_id w) (workflowExecutionPendingOutcome zero_outcome).

(** [for attempt := 0; attempt < len(attempts); attempt++]: an attempt that lost
    the race is repeated while there is a next one.  [None] is a panic of [Handle]:
    nothing after it runs. *)
Fixpoint live_attempts (attempts : list turn_attempt) (key : WorkflowKey) (msg : string) (recent : list Message)
    (uctx : UserContext) (s : S) (w : W) : option outcome * S * W :=
  match attempts with
  | [] => (Some zero_outcome, s, w)
  | ta :: rest =>
      match cs_load (ta_load_ctx ta) key s with
      | (Err _, s) => (Some (workflowStoreFailureOutcome (request_id w)), s, w)
      | (Ok versioned, s) =>
          if workflowHasActiveExecution versioned then (Some (pending_finalized w), s, w)
          else
            let input := live_input msg recent uctx (vw_Snapshot <$> versioned) in
            let panics := handle_panics input w in
            let '(o, w) := live_handle input w in
            if panics then (None, s, w)
            else
              let '(c, s, w) := settle_turn ta key versioned o s w in
              match rest with
              | _ :: _ => if lost_race c then live_attempts rest key msg recent uctx s w
                          else (Some (settled_outcome c (request_id w)), s, w)
              | [] => (Some (settled_outcome c (request_id w)), s, w)
              end
      end
  end.

(** The turn: two attempts at most. *)
Definition live_turn (ta0 ta1 : turn_attempt) (msg : string) (recent : list Message) (uctx : UserContext)
    (s : S) (w : W) : option outcome * S * W :=
  live_attempts [ta0; ta1] (workflowKeyFromUserContext uctx) msg recent uctx s w.

(** ** The entry point *)

Variable FindTenantIDByCorpID : string -> ST W Z.
Variable FindByDingUserID : Z -> string -> ST W (option UserInfo).
(** [deps.IntentContextEnabled] *)
Variable intentContextEnabled : bool.

(** The memory of the agent, the workflow store and the world. *)
Record agent_state := mkAgentState {
  ag_sessions : sessions;
  ag_limiter : rateLimiter;
  ag_store : S;
  ag_world : W
}.

(** What the clock and the environment answer during the turn: when the message
    is admitted, the two attempts, and when the session is bound and written. *)
Record chat_env := mkChatEnv {
  ce_admitted : Z;
  ce_first : turn_attempt;
  ce_second : turn_attempt;
  ce_bound : Z;
  ce_written : Z
}.

Definition user_message (content : string) : Message := mkMessage "user" content "" [].
Definition assistant_message (content : string) : Message := mkMessage "assistant" content "" [].

(** [chat] of an agent in protocol_live mode; no reply is a panic, and the
    session is as it was. *)
Definition chat (env : chat_env) (msg : option ChatMessage) (a : agent_state) : option string * agent_state :=
  match msg with
  | None => (Some "请输入您的问题", a)
  | Some m =>
      if eqs (cm_Content m) "" then (Some "请输入您的问题", a)
      else
        let '(auth, limiter, w) := resolveChatAuth FindTenantIDByCorpID FindByDingUserID (ce_admitted env) m
                                     (ag_limiter a) (ag_world a) in
        match auth with
        | inr reply => (Some reply, mkAgentState (ag_sessions a) limiter (ag_store a) w)
        | inl (uctx, key) =>
            let recent := if intentContextEnabled then recentMessages key (ag_sessions a) else [] in
            let '(o, s, w) := live_turn (ce_first env) (ce_second env) (cm_Content m) recent uctx (ag_store a) w in
            match o with
            | None => (None, mkAgentState (ag_sessions a) limiter s w)
            | Some o =>
                let reply := renderProtocolResponse (po_Response o) in
                let sm := bindWorkflowKey (ce_bound env) key (workflowKeyFromUserContext uctx) (ag_sessions a) in
                let sm := appendMessages (ce_written env) key
                            [user_message (cm_Content m); assistant_message reply] sm in
                (Some reply, mkAgentState sm limiter s w)
            end
        end
  end.

(** In a group the reply names the sender. *)
Definition mentioning (msg : option ChatMessage) (reply : string) : string :=
  match msg with
  | Some m => if eqs (cm_ConversationType m) "2" then "@" +:+ cm_SenderNick m +:+ newline +:+ reply else reply
  | None => reply
  end.
Definition Chat (env : chat_env) (msg : option ChatMessage) (a : agent_state) : option string * agent_state :=
  let '(reply, a) := chat env msg a in (mentioning msg <$> reply, a).
End turn.
