(* ===== verification/TurnSpec.v ===== *)
(** * Properties of a turn

    A chat message executes at most one write, one that was prepared for the user
    the ports identified and reserved under that user's key; every message is
    answered, unless the model's reply is one the client panics on. *)
From Stdlib Require Import ZArith QArith Lia Bool String.
From stdpp Require Import base list strings gmap.
From coqutil Require Import Datatypes.RecordSettersUsingExistingGetters.
From S2P Require Import Prelude GoStrings GoTime Contract Codec Store StoreSpec StoreApi Catalog Request Policy Workflow.
From S2P Require Import BusinessKey Executor Outcome Coordinator Calendar Text Entity Llm LlmSpec Intent IntentSpec Compiler Renderer Live LiveSpec Session SessionSpec Turn.
Import RecordSetNotations1.
#[local] Open Scope go_scope.

(** ** At most one write *)

Section writes.
Context {W S : Type} `{Location} `{HS : WorkflowStore S} `{CS : ConversationStore S}.
Variable ctx_err : W -> option err.
Variable unix_nano : W -> Z.
Variable request_id : W -> string.
Variable elapsed_ms : W -> W -> Z.
Variable draft_json : ProtocolDraft -> string.
Variable other : value -> string.

Notation deps := (protocolLivePipelineDeps (W := W) (D := port_data)).
Notation outcome := (protocolLiveOutcome port_data).

(** A write that was reserved: [prepared] under [key], whose reservation the
    store accepted. *)
Definition reserved_write (at_ : attempt) (key : WorkflowKey) (prepared : preparedWriteExecution) : Prop :=
  exists (o : outcome) current token snapshot rv (s s1 : S) reserved,
    po_PreparedWrite o = Some prepared
    /\ attempt_reservation at_ key o prepared = Ok (token, snapshot, rv)
    /\ reserve_for at_ key current snapshot rv s = (Ok reserved, s1).

(** The coordinator calls no port, or executes a reserved write once. *)
Lemma coordinate_cases (d : operationExecutorDeps W port_data) at_ key current (o : outcome) (s : S) w :
  (forall d', coordinatePreparedWrite d' at_ key current o s w = coordinatePreparedWrite d at_ key current o s w)
  /\ (coordinatePreparedWrite d at_ key current o s w).2 = w
  \/ exists prepared, po_PreparedWrite o = Some prepared /\ reserved_write at_ key prepared
       /\ forall d', let r := coordinatePreparedWrite d' at_ key current o s w in
                     co_Started r.1.1 = true /\ r.2 = (Execute d' (pw_Request prepared) w).2.
Proof.
  unfold coordinatePreparedWrite. destruct (po_PreparedWrite o) as [prepared|] eqn:Hp; [|by left].
  destruct (bool_decide _); [by left|].
  destruct (attempt_reservation at_ key o prepared) as [[[token snapshot] rv]|e] eqn:Ha; [|by left].
  destruct (reserve_for at_ key current snapshot rv s) as [[reserved|e] s1] eqn:Hr; [|by left].
  right. exists prepared. split; [done|]. split; [by eexists o, current, token, snapshot, rv, s, s1, reserved|].
  intros d'. destruct (Execute d' (pw_Request prepared) w) as [result w'].
  unfold settle_write. cbv zeta. case_if; [done|].
  destruct (ws_record _ _ _ _ _ s1) as [[recorded|e] s2]; [|done].
  by destruct (ws_delete_reserved _ _ _ _ s2) as [[[]|e] s3].
Qed.

(** Over all mutations of the subscription port, an attempt or a turn of a user
    does the same thing; or it ends in one execution of the same allowed write. *)
Definition variant (p q : deps) : Prop := q = p \/ exists sub unsub, q = with_port_mutations p sub unsub.
Definition at_most_one {R} (uctx : UserContext) (run : deps -> R) (world : R -> W) (p : deps) : Prop :=
  (forall q, variant p q -> run q = run p)
  \/ exists prepared at_ w1,
       allowed_write (Some uctx) prepared
       /\ reserved_write at_ (workflowKeyFromUserContext uctx) prepared
       /\ forall q, variant p q -> world (run q) = (Execute (pd_Executor q) (pw_Request prepared) w1).2.

(** The same of the call that settles an attempt. *)
Lemma settle_cases (p : deps) ta key current (o : outcome) (s : S) w :
  (forall q, settle_turn q ta key current o s w = settle_turn p ta key current o s w)
  \/ exists prepared, po_PreparedWrite o = Some prepared /\ reserved_write (ta_write ta) key prepared
       /\ forall q, let r := settle_turn q ta key current o s w in
                   lost_race r.1.1 = false /\ r.2 = (Execute (pd_Executor q) (pw_Request prepared) w).2.
Proof.
  unfold settle_turn. destruct (po_PreparedWrite o) as [prepared|] eqn:Ep; [|by left].
  destruct (coordinate_cases (pd_Executor p) (ta_write ta) key current o s w)
    as [[Hc _]|(prepared' & Ep' & Hr & Hc)]; [by left|right].
  exists prepared. assert (prepared' = prepared) as -> by congruence. split_and!; [done..|].
  intros q. destruct (Hc (pd_Executor q)) as [Hs Hw]. split; [|exact Hw].
  unfold lost_race. rewrite Hs. destruct (co_Err _); [apply andb_false_r|done].
Qed.

Lemma handle_variant (p q : deps) input w :
  variant p q ->
  live_handle ctx_err unix_nano request_id elapsed_ms draft_json other q input w
  = live_handle ctx_err unix_nano request_id elapsed_ms draft_json other p input w.
Proof.
  intros [->|(sub & unsub & ->)]; [done|]. unfold live_handle.
  exact (proj1 (handle_safe ctx_err unix_nano request_id elapsed_ms draft_json other p sub unsub input w)).
Qed.

Lemma handle_allowed (p : deps) msg recent uctx active w pw :
  po_PreparedWrite (live_handle ctx_err unix_nano request_id elapsed_ms draft_json other p
                      (live_input msg recent uctx active) w).1 = Some pw -> allowed_write (Some uctx) pw.
Proof.
  unfold live_handle. intros Hpw.
  exact (proj2 (handle_safe ctx_err unix_nano request_id elapsed_ms draft_json other p
    (fun _ _ _ _ _ _ w => (Err (EMsg ""), w)) (fun _ _ _ w => (Err (EMsg ""), w))
    (live_input msg recent uctx active) w) pw Hpw).
Qed.

Lemma attempts_at_most_one (p : deps) attempts msg recent uctx s w :
  at_most_one uctx
    (fun q => live_attempts ctx_err unix_nano request_id elapsed_ms draft_json other q attempts
                (workflowKeyFromUserContext uctx) msg recent uctx s w) snd p.
Proof.
  unfold at_most_one. revert s w. induction attempts as [|ta rest IH]; intros s w; [by left|].
  cbn [live_attempts]. set (key := workflowKeyFromUserContext uctx) in *.
  destruct (cs_load _ _ s) as [[versioned|e] s1]; [|by left].
  destruct (workflowHasActiveExecution versioned); [by left|].
  set (input := live_input msg recent uctx (vw_Snapshot <$> versioned)).
  pose proof (fun q => handle_variant p q input w) as Hv.
  pose proof (handle_allowed p msg recent uctx (vw_Snapshot <$> versioned) w) as Hown. fold input in Hown.
  assert (Hpan : forall q, variant p q -> handle_panics ctx_err q input w = handle_panics ctx_err p input w).
  { intros q [->|(sub & unsub & ->)]; done. }
  destruct (live_handle _ _ _ _ _ _ p input w) as [o w1] eqn:Eh. cbn [fst] in Hown.
  destruct (handle_panics ctx_err p input w).
  { left. intros q Hq. by rewrite (Hv q Hq), (Hpan q Hq). }
  destruct (settle_cases p ta key versioned o s1 w1) as [Hs|(pw & Ep & Hr & Hs)].
  - destruct (settle_turn p ta key versioned o s1 w1) as [[c s2] w2].
    destruct rest as [|ta' rest].
    { left. intros q Hq. by rewrite (Hv q Hq), (Hpan q Hq), Hs. }
    destruct (lost_race c) eqn:El.
    2:{ left. intros q Hq. by rewrite (Hv q Hq), (Hpan q Hq), Hs, El. }
    destruct (IH s2 w2) as [HI|(pw & at_ & wx & Ha & Hr & Hq')].
    + left. intros q Hq. rewrite (Hv q Hq), (Hpan q Hq), Hs, El. by apply HI.
    + right. exists pw, at_, wx. refine (conj Ha (conj Hr _)). intros q Hq. rewrite (Hv q Hq), (Hpan q Hq), Hs, El. by apply Hq'.
  - right. exists pw, (ta_write ta), w1. refine (conj (Hown pw Ep) (conj Hr _)). intros q Hq. rewrite (Hv q Hq), (Hpan q Hq). destruct (Hs q) as [Hl Hw].
    destruct (settle_turn q ta key versioned o s1 w1) as [[c s2] w2]. cbn [fst snd] in Hl, Hw. rewrite Hl.
    by destruct rest.
Qed.

(** ** A whole message *)

Variable FindTenantIDByCorpID : string -> ST W Z.
Variable FindByDingUserID : Z -> string -> ST W (option UserInfo).
Variable intentContextEnabled : bool.

Definition run_chat (env : chat_env) (msg : option ChatMessage) (a : agent_state (W := W) (S := S)) (p : deps)
  : option string * agent_state :=
  Chat ctx_err unix_nano request_id elapsed_ms draft_json other p FindTenantIDByCorpID FindByDingUserID
    intentContextEnabled env msg a.

(** The user the ports identified, and who was admitted. *)
Definition admitted (env : chat_env) (msg : option ChatMessage) (a : agent_state (W := W) (S := S)) (uctx : UserContext) : Prop :=
  exists m key limiter w, msg = Some m
    /\ resolveChatAuth FindTenantIDByCorpID FindByDingUserID (ce_admitted env) m (ag_limiter a) (ag_world a)
       = (inl (uctx, key), limiter, w).

(** One execution of a write that the admitted user may make, reserved before
    under that user's key; the same one over any mutations of the port. *)
Definition executes_own_write env msg a (p : deps) : Prop :=
  exists uctx prepared at_ w1,
    admitted env msg a uctx /\ allowed_write (Some uctx) prepared
    /\ reserved_write at_ (workflowKeyFromUserContext uctx) prepared
    /\ forall q, variant p q ->
         ag_world (run_chat env msg a q).2 = (Execute (pd_Executor q) (pw_Request prepared) w1).2.

Lemma chat_at_most_one env msg a (p : deps) :
  (forall q, variant p q -> run_chat env msg a q = run_chat env msg a p) \/ executes_own_write env msg a p.
Proof.
  unfold executes_own_write, run_chat, Chat, chat. destruct msg as [m|]; [|by left].
  destruct (eqs (cm_Content m) ""); [by left|].
  destruct (resolveChatAuth _ _ _ m _ _) as [[[[uctx key]|reply] limiter] w] eqn:Ea; [|by left].
  set (recent := if intentContextEnabled then _ else _).
  destruct (attempts_at_most_one p [ce_first env; ce_second env] (cm_Content m) recent uctx (ag_store a) w)
    as [Hq|(pw & at_ & w1 & Ha & Hr & Hq)].
  - left. intros q Hv. unfold live_turn. by rewrite (Hq q Hv).
  - right. exists uctx, pw, at_, w1. refine (conj _ (conj Ha (conj Hr _))); [by eexists m, key, limiter, w|].
    intros q Hv. specialize (Hq q Hv). unfold live_turn.
    by destruct (live_attempts _ _ _ _ _ _ q _ _ _ _ _ _ w) as [[[o|] s2] w2].
Qed.

(** C4: A chat message to an agent in protocol_live mode executes at most one
    write.  Either nothing the message does depends on the mutations of the
    subscription port, so none was called; or the message ends in exactly one
    execution, and it is a write of the user the tenant and user ports
    identified: for that user's tenant, account and group, allowed to the user's
    role, with a reservation the store had accepted before under that user's own
    key.  A retried version race, a failing store and a failing port included. *)
Theorem message_executes_one_own_write env msg a (p : deps) :
  (forall q, variant p q -> run_chat env msg a q = run_chat env msg a p) \/ executes_own_write env msg a p.
Proof. exact (chat_at_most_one env msg a p). Qed.

(** ** Every message is answered *)

Lemma first_text_answers fallback texts : fallback <> "" -> first_text fallback texts <> "".
Proof.
  intros Hf. unfold first_text. destruct (List.find _ texts) as [t|] eqn:E; [|exact Hf].
  apply List.find_some in E as [_ E]. cbn. by rewrite negb_true_iff, eqs_false in E.
Qed.

Lemma render_answers model : renderProtocolResponse model <> "".
Proof.
  unfold renderProtocolResponse. cbv zeta.
  repeat first [ apply first_text_answers | progress case_if
               | match goal with |- context [match option_labels ?l with _ => _ end] => destruct (option_labels l) end ];
    try done.
Qed.

Lemma recent_bound now key k sm : recentMessages key (bindWorkflowKey now key k sm) = recentMessages key sm.
Proof.
  unfold bindWorkflowKey, recentMessages, on_session. destruct (validateWorkflowKey k); [|done].
  rewrite lookup_insert_eq. by destruct (sm !! key).
Qed.
Lemma recent_appended now key msgs sm :
  recentMessages key (appendMessages now key msgs sm) = lastn maxHistory (recentMessages key sm ++ msgs).
Proof. unfold appendMessages, on_session, recentMessages. rewrite lookup_insert_eq. by destruct (sm !! key). Qed.

(** A turn without a reply read a message that panicked. *)
Lemma compile_panics (compiler : IntentCompiler (W := W)) mode input w :
  (forall w, ctx_err w <> Some panic_error) ->
  is_panic (Compile_operation ctx_err (Some compiler) mode input w).1 = true ->
  exists req w1, is_panic (compiler req w1).1 = true.
Proof.
  intros Hctx. assert (Hno : forall w e, ctx_err w = Some e -> is_panic (A := OperationCompileResult) (Err e) = false).
  { intros w1 e E. apply bool_decide_eq_false. intros ->. by apply (Hctx w1). }
  unfold Compile_operation. cbv zeta. case_if; [done|].
  destruct (ctx_err w) as [e|] eqn:Ee; [cbn [fst]; by rewrite (Hno _ _ Ee)|].
  destruct (if eqs mode "short_circuit" then _ else _); [|done].
  destruct (compiler _ w) as [[reply|e] w1] eqn:Er.
  - destruct (ctx_err w1) as [e|] eqn:Ee1; [cbn [fst]; by rewrite (Hno _ _ Ee1)|done].
  - intros He. eexists _, w. by rewrite Er.
Qed.
Lemma handle_panics_source (p : deps) input w :
  (forall w, ctx_err w <> Some panic_error) -> handle_panics ctx_err p input w = true ->
  exists compiler req w1, pd_Compiler p = Some compiler /\ is_panic (compiler req w1).1 = true.
Proof.
  intros Hctx. unfold handle_panics, HandlePanics, compile_message, compileProtocolWithCompilerMode.
  case_if; [done|]. destruct (pd_Compiler p) as [compiler|]; [|done]. intros Hc.
  apply compile_panics in Hc as (req & w1 & Hc); [|done]. by exists compiler, req, w1.
Qed.
Lemma attempts_without_reply (p : deps) attempts key msg recent uctx s w s' w' :
  live_attempts ctx_err unix_nano request_id elapsed_ms draft_json other p attempts key msg recent uctx s w = (None, s', w') ->
  exists input w1, handle_panics ctx_err p input w1 = true.
Proof.
  revert s w. induction attempts as [|ta rest IH]; intros s w; [done|]. cbn [live_attempts]. cbv zeta.
  destruct (cs_load _ _ s) as [[versioned|e] s1]; [|done]. destruct (workflowHasActiveExecution versioned); [done|].
  destruct (live_handle _ _ _ _ _ _ p _ w) as [o w1].
  destruct (handle_panics ctx_err p _ w) eqn:E; [intros _; by eexists _, _|].
  destruct (settle_turn p ta key versioned o s1 w1) as [[c s2] w2]. destruct rest; [done|]. case_if; [apply IH|done].
Qed.

(** C9: Every message is answered and remembered, unless the reading of the
    model's reply panics.  Whatever the message, the model, the store and the
    ports (which answer or fail) do: a reply is never empty, and the session of a
    user who was admitted then holds the message and the reply, the text without
    the mention of the sender, as its two latest entries.  There is no reply only
    if the client of the model panics, and, for the client the program has, only
    if the transport gave an answer whose first message closes a block of tool
    calls before it opens one; then the sessions are as they were. *)
Theorem every_message_answered env msg a (p : deps) :
  match run_chat env msg a p with
  | (Some reply, a') =>
      reply <> ""
      /\ forall m uctx key limiter w,
           msg = Some m -> cm_Content m <> "" ->
           resolveChatAuth FindTenantIDByCorpID FindByDingUserID (ce_admitted env) m (ag_limiter a) (ag_world a)
             = (inl (uctx, key), limiter, w) ->
           exists answer, answer <> ""
             /\ reply = (if eqs (cm_ConversationType m) "2" then "@" +:+ cm_SenderNick m +:+ newline +:+ answer else answer)
             /\ recentMessages key (ag_sessions a')
                = lastn maxHistory (recentMessages key (ag_sessions a)
                                    ++ [user_message (cm_Content m); assistant_message answer])
  | (None, a') =>
      ag_sessions a' = ag_sessions a
      /\ ((forall w, ctx_err w <> Some panic_error) ->
          (exists compiler req w, pd_Compiler p = Some compiler /\ is_panic (compiler req w).1 = true)
          /\ forall T call_err (http : chatRequest T -> W -> http_answer * W) wait model c,
               pd_Compiler p = Some (Compile_intent ctx_err c) ->
               lc_client c = Some (structured_client call_err http wait model) -> crossed_answer http)
  end.
Proof.
  unfold run_chat, Chat, chat. destruct msg as [m|]; [|by split].
  destruct (eqs (cm_Content m) "") eqn:Ec.
  { apply eqs_true in Ec. cbn. split; [by case_if|]. by intros ? ? ? ? ? [= <-]. }
  destruct (resolveChatAuth _ _ _ m _ _) as [[[[uctx key]|reply] limiter] w] eqn:Ea.
  - destruct (live_turn _ _ _ _ _ _ p _ _ _ _ _ _ w) as [[[o|] s2] w2] eqn:Et; cbn [fmap option_fmap option_map mentioning ag_sessions].
    + split; [case_if; [done|apply render_answers]|].
      intros m' u k l w' Hm _ Ha. injection Hm as <-. rewrite Ea in Ha. injection Ha as <- <- <- <-. exists (renderProtocolResponse (po_Response o)).
      split; [apply render_answers|]. split; [by case_if|]. by rewrite recent_appended, recent_bound.
    + split; [done|]. intros Hctx. unfold live_turn in Et. apply attempts_without_reply in Et as (input & w1 & Hh).
      apply handle_panics_source in Hh as (compiler & req & w3 & Hp & Hh); [|done].
      split; [by exists compiler, req, w3|]. intros T call_err http wait model c Hc Hl. rewrite Hp in Hc. injection Hc as ->.
      by eapply compile_intent_panics.
  - cbn. split; [|intros m' u k l w' Hm _ Ha; injection Hm as <-; by rewrite Ea in Ha].
    case_if; [done|]. revert Ea. unfold resolveChatAuth.
    repeat match goal with |- context [match ?x with _ => _ end] => destruct x end; by intros [= <- _ _].
Qed.
End writes.

(** ** Witnesses *)

Definition chat_port : GroupSubPort nat :=
  mkGroupSubPort (fun _ _ _ _ _ _ n => (Ok (mkMutation GroupSubWriteCreated None), S n))
    (fun _ _ _ n => (Ok (mkMutation GroupSubWriteCancelled None), S n)) (fun _ _ n => (Ok None, n)).
Definition chat_pipeline : protocolLivePipelineDeps (W := nat) (D := port_data) :=
  mkLiveDeps (Some (fun _ w => (Ok (mkIntentResult cancel_draft IntentCompileOK 1), w))) "short_circuit"
    (mkDeps None None None (Some chat_port) None None) None None None None (fun _ => 0).
Definition chat_message : ChatMessage :=
  mkChat "corp-7" "ding-42" "张三" "取消本群的考勤推送" (uc_ConversationID group_admin) "2" "" "".
Definition chat_turn_attempt : turn_attempt := mkTurnAttempt None None attempt7.
Definition chat_env7 : chat_env := mkChatEnv (tick 0) chat_turn_attempt chat_turn_attempt (tick 4) (tick 5).
Definition find_tenant : string -> ST nat Z := fun _ w => (Ok (uc_TenantID group_admin), w).
Definition find_user : Z -> string -> ST nat (option UserInfo) := fun t _ w =>
  (Ok (Some (mkUserInfo (uc_UserID group_admin) "张三" "ding-42" (uc_UserRole group_admin) t)), w).
Definition chat_agent : agent_state (W := nat) (S := shared_store) := mkAgentState ∅ ∅ (fresh_store []) O.
Definition demo_chat p := run_chat (H := shanghai) (HS := shared_WorkflowStore tick) (CS := shared_ConversationStore tick)
  (fun _ => None) (fun _ => 0) (fun _ => "r1") (fun _ _ => 0) (fun _ => "") (fun _ => "") find_tenant find_user true
  chat_env7 (Some chat_message) chat_agent p.

(** An administrator cancels the subscription of a group: the port is called
    once. *)
Lemma message_executes_one_own_write_witness :
  ag_world (demo_chat chat_pipeline).2 = 1%nat
  /\ ((forall q, variant chat_pipeline q -> demo_chat q = demo_chat chat_pipeline)
      \/ executes_own_write (H := shanghai) (HS := shared_WorkflowStore tick) (CS := shared_ConversationStore tick)
           (fun _ => None) (fun _ => 0) (fun _ => "r1") (fun _ _ => 0) (fun _ => "") (fun _ => "") find_tenant find_user
           true chat_env7 (Some chat_message) chat_agent chat_pipeline).
Proof.
  split; [vm_compute; reflexivity|].
  exact (message_executes_one_own_write (H := shanghai) (HS := shared_WorkflowStore tick)
           (CS := shared_ConversationStore tick) (fun _ => None) (fun _ => 0) (fun _ => "r1") (fun _ _ => 0)
           (fun _ => "") (fun _ => "") find_tenant find_user true chat_env7 (Some chat_message) chat_agent
           chat_pipeline).
Defined.

Definition demo_auth := resolveChatAuth find_tenant find_user (ce_admitted chat_env7) chat_message
  (ag_limiter chat_agent) (ag_world chat_agent).
Definition demo_user : UserContext := chat_user (mkUserInfo 42 "张三" "ding-42" 1 7) chat_message.
(** A model that answers a crossed block. *)
Definition crossed_http : chatRequest unit -> nat -> http_answer * nat := fun _ n => (HttpAnswer 200 crossed_reply, S n).
Definition crossed_compiler : llmIntentCompiler nat :=
  newLLMIntentCompiler (Some (structured_client (fun _ _ _ => None) crossed_http (fun _ n => (false, n)) "m")) "prompt" 0
    (mkOutputSpec "" 0 0 0 0).
Definition crossed_pipeline : protocolLivePipelineDeps (W := nat) (D := port_data) :=
  mkLiveDeps (Some (Compile_intent (fun _ => None) crossed_compiler)) "short_circuit"
    (mkDeps None None None (Some chat_port) None None) None None None None (fun _ => 0).
(** One message is answered; of another the reply of the model panics. *)
Lemma every_message_answered_witness :
  (exists reply, reply <> ""
    /\ (demo_chat chat_pipeline).1 = Some ("@" +:+ "张三" +:+ newline +:+ reply)
    /\ recentMessages "7:cid-1:ding-42" (ag_sessions (demo_chat chat_pipeline).2)
       = [user_message "取消本群的考勤推送"; assistant_message reply])
  /\ (demo_chat crossed_pipeline).1 = None /\ crossed_answer crossed_http.
Proof.
  assert (H := every_message_answered (H := shanghai) (HS := shared_WorkflowStore tick)
           (CS := shared_ConversationStore tick) (fun _ => None) (fun _ => 0) (fun _ => "r1") (fun _ _ => 0)
           (fun _ => "") (fun _ => "") find_tenant find_user true chat_env7 (Some chat_message) chat_agent).
  assert (Ha : demo_auth = (inl (demo_user, "7:cid-1:ding-42"), demo_auth.1.2, O)) by (vm_compute; reflexivity).
  split.
  - specialize (H chat_pipeline). fold (demo_chat chat_pipeline) in H.
    assert (Hr : is_Some (demo_chat chat_pipeline).1) by (vm_compute; eexists; reflexivity).
    destruct (demo_chat chat_pipeline) as [[reply|] a']; [|destruct Hr; discriminate].
    destruct (proj2 H chat_message demo_user "7:cid-1:ding-42" demo_auth.1.2 O eq_refl ltac:(done) Ha)
      as (answer & Hne & -> & Hh).
    exists answer. split; [exact Hne|]. split; [reflexivity|exact Hh].
  - specialize (H crossed_pipeline). fold (demo_chat crossed_pipeline) in H.
    assert (Hr : (demo_chat crossed_pipeline).1 = None) by (vm_compute; reflexivity).
    destruct (demo_chat crossed_pipeline) as [[reply|] a']; [discriminate Hr|]. split; [reflexivity|].
    refine (proj2 (proj2 H _) unit (fun _ _ _ => None) crossed_http (fun _ n => (false, n)) "m" crossed_compiler eq_refl eq_refl).
    discriminate.
Defined.
