(* ===== verification/ShadowSpec.v ===== *)
(** * Properties of the shadow store

    The mirror is only watched: the shadow store answers as its primary does,
    keeps its primary as the primary would be, and so keeps the primary's laws; a
    chat message over it has the reply and the effects it would have without a
    mirror. *)
From Stdlib Require Import ZArith QArith Lia Bool String.
From stdpp Require Import base list strings gmap.
From S2P Require Import Prelude GoStrings GoTime Contract Codec CodecSpec SnapshotSpec Store StoreSpec StoreApi.
From S2P Require Import Catalog Request Policy Workflow BusinessKey Executor Outcome Coordinator Shadow.
From S2P Require Import Calendar Text Entity Llm Intent Compiler Renderer Live LiveSpec Session Turn TurnSpec.
#[local] Open Scope go_scope.

(** A store whose successful calls on an execution answer with the execution,
    and a recorded one with its result. *)
Class ExecutionAnswers (S : Type) `{WorkflowStore S} := {
  ea_create c k n rv s vw s' : ws_create_reserved c k n rv s = (Ok vw, s') -> is_Some (vw_Execution vw);
  ea_reserve c k v n rv s vw s' : ws_reserve c k v n rv s = (Ok vw, s') -> is_Some (vw_Execution vw);
  ea_record c k v t result s vw s' :
    ws_record c k v t result s = (Ok vw, s') -> exists e r, vw_Execution vw = Some e /\ ex_Result e = Some r;
  ea_takeover c k v t rv s vw s' : ws_takeover c k v t rv s = (Ok vw, s') -> is_Some (vw_Execution vw)
}.

Section transparent.
Context {S1 S2 : Type}.
Context `{W1 : WorkflowStore S1} `{C1 : ConversationStore S1} `{F1 : FinalizingStore S1}.
Context `{W2 : WorkflowStore S2} `{C2 : ConversationStore S2} `{F2 : FinalizingStore S2}.
Context `{EA : !ExecutionAnswers S1}.

Notation shadow := (workflowShadowStore S1 S2).

(** A call of the shadow store and the call of its primary. *)
Definition answers_as {A} (m : ST shadow A) (m1 : ST S1 A) : Prop :=
  forall s, (m s).1 = (m1 (sw_primary s)).1 /\ sw_primary (m s).2 = (m1 (sw_primary s)).2.

Lemma mirrored_answers {A B} (primary : ST S1 A) (mirror : option err -> A -> option (ST S2 B)) after :
  (forall s a s', primary s = (Ok a, s') -> forall c, is_Some (mirror c a)) ->
  answers_as (mirrored primary mirror after) primary.
Proof.
  intros Hm s. unfold mirrored. destruct (primary (sw_primary s)) as [[a|e] p] eqn:E; [|done].
  destruct (Hm _ _ _ E (default None (head (sw_mirror_ctx s)))) as [call ->].
  by destruct (call (sw_mirror s)).
Qed.

(** One method of the interface: the store call it is, with its answer. *)
Definition interface_call {S} `{WorkflowStore S} `{ConversationStore S} `{FinalizingStore S}
    (c : option err) (call : store_call) : ST S (option VersionedWorkflow) :=
  let some m := vw <~ m ;; st_ret (Some vw) in
  let none (m : ST S unit) := m ~;; st_ret None in
  match call with
  | CLoad k => cs_load c k
  | CCreate k n => some (cs_create c k n)
  | CCompareAndSwap k v n => some (cs_compare_and_swap c k v n)
  | CDeleteIfVersion k v => none (cs_delete_if_version c k v)
  | CCreateReserved k n r => some (ws_create_reserved c k n r)
  | CReserve k v n r => some (ws_reserve c k v n r)
  | CRecord k v t r => some (ws_record c k v t r)
  | CFinalize k v t n => some (fs_finalize c k v t n)
  | CDeleteReserved k v t => none (ws_delete_reserved c k v t)
  | CTakeover k v t r => some (ws_takeover c k v t r)
  end.

Lemma answers_bind {A B} (m : ST shadow A) m1 (k : A -> ST shadow B) (k1 : A -> ST S1 B) :
  answers_as m m1 -> (forall a, answers_as (k a) (k1 a)) -> answers_as (st_bind m k) (st_bind m1 k1).
Proof.
  intros Hm Hk s. unfold st_bind. destruct (Hm s) as [H1 H2].
  destruct (m s) as [r s'], (m1 (sw_primary s)) as [r1 p]. cbn [fst snd] in H1, H2. subst.
  destruct r1; [apply Hk|done].
Qed.
Lemma answers_ret {A} (a : A) : answers_as (st_ret a) (st_ret a).
Proof. done. Qed.

Lemma shadow_load c k : answers_as (cs_load c k) (cs_load c k).
Proof. apply mirrored_answers. by intros. Qed.
Lemma shadow_create c k n : answers_as (cs_create c k n) (cs_create c k n).
Proof. apply mirrored_answers. by intros. Qed.
Lemma shadow_swap c k v n : answers_as (cs_compare_and_swap c k v n) (cs_compare_and_swap c k v n).
Proof. apply mirrored_answers. by intros. Qed.
Lemma shadow_delete c k v : answers_as (cs_delete_if_version c k v) (cs_delete_if_version c k v).
Proof. apply mirrored_answers. by intros. Qed.
Lemma shadow_create_reserved c k n rv : answers_as (ws_create_reserved c k n rv) (ws_create_reserved c k n rv).
Proof. apply mirrored_answers. intros s vw s' [e He]%ea_create mc. by rewrite He. Qed.
Lemma shadow_reserve c k v n rv : answers_as (ws_reserve c k v n rv) (ws_reserve c k v n rv).
Proof. apply mirrored_answers. intros s vw s' [e He]%ea_reserve mc. by rewrite He. Qed.
Lemma shadow_record c k v t r : answers_as (ws_record c k v t r) (ws_record c k v t r).
Proof. apply mirrored_answers. intros s vw s' (e & x & He & Hx)%ea_record mc. rewrite He. cbn. by rewrite Hx. Qed.
Lemma shadow_finalize c k v t n : answers_as (fs_finalize c k v t n) (fs_finalize c k v t n).
Proof. apply mirrored_answers. by intros. Qed.
Lemma shadow_delete_reserved c k v t : answers_as (ws_delete_reserved c k v t) (ws_delete_reserved c k v t).
Proof. apply mirrored_answers. by intros. Qed.
Lemma shadow_takeover c k v t rv : answers_as (ws_takeover c k v t rv) (ws_takeover c k v t rv).
Proof. apply mirrored_answers. intros s vw s' [e He]%ea_takeover mc. by rewrite He. Qed.

#[local] Hint Resolve shadow_load shadow_create shadow_swap shadow_delete shadow_create_reserved shadow_reserve
  shadow_record shadow_finalize shadow_delete_reserved shadow_takeover : keeps.

Lemma shadow_answers c call : answers_as (interface_call c call) (interface_call c call).
Proof. destruct call; cbn [interface_call]; try (apply answers_bind; [|intros; apply answers_ret]); auto with keeps. Qed.

(** The answers of a sequence of calls. *)
Fixpoint answers {S} `{WorkflowStore S} `{ConversationStore S} `{FinalizingStore S}
    (calls : list (option err * store_call)) (s : S) : list (res (option VersionedWorkflow)) * S :=
  match calls with
  | [] => ([], s)
  | (c, call) :: calls => let '(r, s) := interface_call c call s in let '(rs, s) := answers calls s in (r :: rs, s)
  end.

(** The shadow store is its primary.  Whatever the mirror holds, answers or
    fails with, and whether or not anybody observes, any sequence of calls of the
    store's interface is answered as the primary alone would answer it and leaves
    the primary as it would be. *)
Theorem shadow_answers_as_primary calls (s : shadow) :
  (answers calls s).1 = (answers calls (sw_primary s)).1
  /\ sw_primary (answers calls s).2 = (answers calls (sw_primary s)).2.
Proof.
  revert s. induction calls as [|[c call] calls IH]; intros s; [done|]. cbn [answers].
  destruct (shadow_answers c call s) as [H1 H2].
  destruct (interface_call c call s) as [r s'], (interface_call c call (sw_primary s)) as [r1 p].
  cbn [fst snd] in H1, H2. subst. destruct (IH s') as [H1 H2].
  destruct (answers calls s') as [rs s2], (answers calls (sw_primary s')) as [rs1 p2]. cbn [fst snd] in *.
  by subst.
Qed.

(** ** A chat message over the shadow store *)

Lemma answers_eq {A} (m : ST shadow A) m1 s :
  answers_as m m1 -> m1 (sw_primary s) = ((m s).1, sw_primary (m s).2).
Proof. intros Hm. destruct (Hm s) as [-> ->]. by destruct (m1 (sw_primary s)). Qed.

Section chat.
Context {W : Type} `{Location}.
Variable ctx_err : W -> option err.
Variable unix_nano : W -> Z.
Variable request_id : W -> string.
Variable elapsed_ms : W -> W -> Z.
Variable draft_json : ProtocolDraft -> string.
Variable other : value -> string.
Notation deps := (protocolLivePipelineDeps (W := W) (D := port_data)).
Notation outcome := (protocolLiveOutcome port_data).

Lemma settle_follows at_ key prepared reserved token result (o : outcome) (s : shadow) :
  let r := settle_write at_ key prepared reserved token result o s in
  settle_write at_ key prepared reserved token result o (sw_primary s) = (r.1, sw_primary r.2).
Proof.
  unfold settle_write. cbv zeta. case_if; [done|].
  rewrite (answers_eq _ _ s (shadow_record _ _ _ _ _)). destruct (ws_record _ _ _ _ _ s) as [[recorded|e] s1]; [|done].
  cbn [fst snd]. rewrite (answers_eq _ _ s1 (shadow_delete_reserved _ _ _ _)).
  by destruct (ws_delete_reserved _ _ _ _ s1) as [[[]|e] s2].
Qed.

Lemma reserve_follows at_ key current snapshot rv :
  answers_as (reserve_for at_ key current snapshot rv) (reserve_for at_ key current snapshot rv).
Proof. destruct current; [apply shadow_reserve|apply shadow_create_reserved]. Qed.

Lemma coordinate_follows d at_ key current (o : outcome) (s : shadow) (w : W) :
  let r := coordinatePreparedWrite d at_ key current o s w in
  coordinatePreparedWrite d at_ key current o (sw_primary s) w = (r.1.1, sw_primary r.1.2, r.2).
Proof.
  unfold coordinatePreparedWrite. destruct (po_PreparedWrite o) as [prepared|]; [|done]. case_if; [done|].
  destruct (attempt_reservation at_ key o prepared) as [[[token snapshot] rv]|e]; [|done].
  rewrite (answers_eq _ _ s (reserve_follows _ _ _ _ _)).
  destruct (reserve_for _ _ _ _ _ s) as [[reserved|e] s1]; [|done]. cbn [fst snd].
  destruct (Execute d _ w) as [result w1]. rewrite settle_follows.
  by destruct (settle_write _ _ _ _ _ _ _ s1).
Qed.

Lemma persist_follows ctx key current (o : outcome) :
  answers_as (persistProtocolLiveWorkflowOutcome ctx key current o) (persistProtocolLiveWorkflowOutcome ctx key current o).
Proof.
  intros s. unfold persistProtocolLiveWorkflowOutcome. destruct (po_ClearWorkflow o).
  - destruct current as [c|]; [|done]. rewrite (answers_eq _ _ s (shadow_delete _ _ _)).
    by destruct (cs_delete_if_version _ _ _ s) as [[[]|e] s1].
  - destruct (po_WorkflowAfter o); [|done]. destruct current as [c|].
    + rewrite (answers_eq _ _ s (shadow_swap _ _ _ _)). by destruct (cs_compare_and_swap _ _ _ _ s) as [[vw|e] s1].
    + rewrite (answers_eq _ _ s (shadow_create _ _ _)). by destruct (cs_create _ _ _ s) as [[vw|e] s1].
Qed.

Lemma settle_turn_follows (p : deps) ta key current o (s : shadow) w :
  let r := settle_turn p ta key current o s w in
  settle_turn p ta key current o (sw_primary s) w = (r.1.1, sw_primary r.1.2, r.2).
Proof.
  unfold settle_turn. destruct (po_PreparedWrite o) as [prepared|]; [apply coordinate_follows|].
  rewrite (answers_eq _ _ s (persist_follows _ _ _ _)).
  by destruct (persistProtocolLiveWorkflowOutcome _ _ _ _ s) as [[persisted|e] s1].
Qed.

Lemma attempts_follow (p : deps) attempts key msg recent uctx (s : shadow) w :
  let run {S} `{WorkflowStore S} `{ConversationStore S} (s : S) :=
    live_attempts ctx_err unix_nano request_id elapsed_ms draft_json other p attempts key msg recent uctx s w in
  run (sw_primary s) = ((run s).1.1, sw_primary (run s).1.2, (run s).2).
Proof.
  cbv zeta. revert s w. induction attempts as [|ta rest IH]; intros s w; [done|]. cbn [live_attempts].
  rewrite (answers_eq _ _ s (shadow_load _ _)). destruct (cs_load _ _ s) as [[versioned|e] s1]; cbn [fst snd]; [|reflexivity].
  destruct (workflowHasActiveExecution versioned); cbn [fst snd]; [reflexivity|].
  destruct (live_handle _ _ _ _ _ _ p _ w) as [o w1]. destruct (handle_panics _ p _ w); cbn [fst snd]; [reflexivity|].
  rewrite settle_turn_follows.
  destruct (settle_turn p ta key versioned o s1 w1) as [[c s2] w2]. cbn [fst snd].
  destruct rest; cbn [fst snd]; [reflexivity|]. destruct (lost_race c); cbn [fst snd]; [apply IH|reflexivity].
Qed.

Variable FindTenantIDByCorpID : string -> ST W Z.
Variable FindByDingUserID : Z -> string -> ST W (option UserInfo).
Variable intentContextEnabled : bool.

(** The agent without the mirror. *)
Definition primary_agent (a : agent_state (W := W) (S := shadow)) : agent_state (W := W) (S := S1) :=
  mkAgentState (ag_sessions a) (ag_limiter a) (sw_primary (ag_store a)) (ag_world a).

(** C8: Shadow mode is invisible.  A chat message to an agent over the shadow
    store gets the reply, and leaves the sessions, the rate limit, the world of
    the ports and the primary store, exactly as over the primary alone, whatever
    the mirror holds and however its calls fail or time out: through the load,
    the pipeline, the reservation, the execution, the record and the retry. *)
Theorem shadow_mode_invisible env msg (a : agent_state (W := W) (S := shadow)) (p : deps) :
  let run {S} `{WorkflowStore S} `{ConversationStore S} (a : agent_state (W := W) (S := S)) :=
    Chat ctx_err unix_nano request_id elapsed_ms draft_json other p FindTenantIDByCorpID FindByDingUserID
      intentContextEnabled env msg a in
  run (primary_agent a) = ((run a).1, primary_agent (run a).2).
Proof.
  cbv zeta. unfold Chat, chat. destruct msg as [m|]; [|by destruct a].
  destruct (eqs (cm_Content m) ""); [done|]. cbn [primary_agent ag_limiter ag_world ag_sessions ag_store].
  destruct (resolveChatAuth _ _ _ m _ _) as [[[[uctx key]|reply] limiter] w]; [|done].
  unfold live_turn. rewrite attempts_follow.
  by destruct (live_attempts _ _ _ _ _ _ p _ _ _ _ _ (ag_store a) w) as [[[o|] s] w1].
Qed.
End chat.
End transparent.

(** ** The primary's laws *)

Section laws.
Context {S1 S2 : Type}.
Context `{W1 : WorkflowStore S1} `{L1 : !WorkflowStoreLaws S1} `{W2 : WorkflowStore S2}.
Context `{EA : !ExecutionAnswers S1}.

Notation shadow := (workflowShadowStore S1 S2).

Lemma answered {A} (m : ST shadow A) m1 s r s' :
  answers_as m m1 -> m s = (r, s') -> m1 (sw_primary s) = (r, sw_primary s').
Proof. intros Hm E. rewrite (answers_eq m m1 s Hm). by rewrite E. Qed.

(** A write is on record as long as the primary has it: what is proved of the
    coordinator over the laws of [StoreApi] holds over the shadow store. *)
#[global] Instance shadow_WorkflowStoreLaws : WorkflowStoreLaws shadow.
Proof.
  refine {| ws_kept k op bk s := ws_kept k op bk (sw_primary s);
            ws_recorded k op bk s := ws_recorded k op bk (sw_primary s) |}.
  - intros c k n rv s vw s' H%(answered _ _ _ _ _ (shadow_create_reserved c k n rv)). by eapply ws_create_kept.
  - intros c k v n rv s vw s' H%(answered _ _ _ _ _ (shadow_reserve c k v n rv)). by eapply ws_reserve_kept.
  - intros c k v t result key op bk s Hk. rewrite (proj2 (shadow_record c k v t result s)). by apply ws_record_kept.
  - intros c k v t key op bk s e s' Hk H%(answered _ _ _ _ _ (shadow_delete_reserved c k v t)).
    by eapply ws_delete_kept.
  - intros c k v t op bk s s' Hk H%(answered _ _ _ _ _ (shadow_delete_reserved c k v t)).
    by eapply ws_delete_recorded.
  - intros c k v t rv key op bk s Hk. rewrite (proj2 (shadow_takeover c k v t rv s)). by apply ws_takeover_kept.
  - intros c k v t rv s vw s' H%(answered _ _ _ _ _ (shadow_takeover c k v t rv)). by eapply ws_takeover_execution.
Defined.
End laws.

(** ** The in-memory store as a primary *)

#[global] Instance shared_FinalizingStore (clock : nat -> Z) : FinalizingStore shared_store := {
  fs_finalize c k v t n := shared_call clock (FinalizeExecution clock c k v t n)
}.

Lemma shared_Ok {A} clock (m : store A) s a s' :
  shared_call clock m s = (Ok a, s') -> exists s0 s1, m s0 = (Ok a, s1).
Proof. unfold shared_call. destruct (m _) as [r s2] eqn:E. intros [= -> _]. by eexists _, _. Qed.

Ltac execution_answer :=
  unfold CreateReservedExecution, ReserveExecution, RecordExecutionResult, TakeoverExpiredExecution, st_bind, st_lift,
    st_ret, st_fail, now, put_record, prepareSnapshotLocked;
  repeat match goal with
         | |- context [match ?x with _ => _ end] => destruct x
         end; intros [= <- _]; eauto.

#[global] Instance shared_ExecutionAnswers (clock : nat -> Z) :
  ExecutionAnswers shared_store (H := shared_WorkflowStore clock).
Proof.
  split.
  - intros c k n rv s vw s' (s0 & s1 & H)%shared_Ok. revert H. execution_answer.
  - intros c k v n rv s vw s' (s0 & s1 & H)%shared_Ok. revert H. execution_answer.
  - intros c k v t result s vw s' (s0 & s1 & H)%shared_Ok. revert H. execution_answer.
  - intros c k v t rv s vw s' (s0 & s1 & H)%shared_Ok. revert H. execution_answer.
Qed.

(** ** Witnesses *)

Definition unavailable : option err := Some (EMsg "mirror unavailable").
Definition shadowed : workflowShadowStore shared_store shared_store :=
  mkShadow (fresh_store []) (fresh_store []) [None; unavailable] true [].
#[local] Existing Instances shadow_WorkflowStore shadow_ConversationStore shadow_FinalizingStore.
#[local] Instance memory_store : WorkflowStore shared_store := shared_WorkflowStore tick.
#[local] Instance memory_conversations : ConversationStore shared_store := shared_ConversationStore tick.
#[local] Instance memory_finalizes : FinalizingStore shared_store := shared_FinalizingStore tick.
#[local] Instance memory_answers : ExecutionAnswers shared_store := shared_ExecutionAnswers tick.

(** The mirror misses the second of three calls, and says so at the third. *)
Definition shadow_calls : list (option err * store_call) :=
  [(None, CCreate key7 (Some draft_snapshot)); (None, CCompareAndSwap key7 1 (Some draft_snapshot)); (None, CLoad key7)].
Lemma shadow_answers_as_primary_witness :
  sv_Code <$> sw_events (answers shadow_calls shadowed).2 = ["shadow_error"; "version_diff"]
  /\ (answers shadow_calls shadowed).1 = (answers shadow_calls (sw_primary shadowed)).1
  /\ sw_primary (answers shadow_calls shadowed).2 = (answers shadow_calls (sw_primary shadowed)).2.
Proof.
  split; [vm_compute; reflexivity|]. exact (shadow_answers_as_primary shadow_calls shadowed).
Defined.

Definition shadow_agent : agent_state (W := nat) (S := workflowShadowStore shared_store shared_store) :=
  mkAgentState ∅ ∅ shadowed O.
Definition chat_over {S} `{WorkflowStore S} `{ConversationStore S} (a : agent_state (W := nat) (S := S)) :=
  Chat (H := shanghai) (fun _ => None) (fun _ => 0) (fun _ => "r1") (fun _ _ => 0) (fun _ => "") (fun _ => "")
    chat_pipeline find_tenant find_user true chat_env7 (Some chat_message) a.
Lemma shadow_mode_invisible_witness :
  sw_events (ag_store (chat_over shadow_agent).2) <> []
  /\ chat_over (primary_agent shadow_agent) = ((chat_over shadow_agent).1, primary_agent (chat_over shadow_agent).2).
Proof.
  split; [by vm_compute|].
  exact (shadow_mode_invisible (H := shanghai) (fun _ => None) (fun _ => 0) (fun _ => "r1") (fun _ _ => 0)
           (fun _ => "") (fun _ => "") find_tenant find_user true chat_env7 (Some chat_message) shadow_agent
           chat_pipeline).
Defined.
