(* ===== verification/Subscription.v ===== *)
(** * Group subscriptions and the write ledger

    internal/repository/group_attendance_subscription_repository.go and the
    adapter of internal/app/agent_wiring.go that offers it to the executor as
    its subscription port.  A mutation and its ledger entry are one database
    transaction; a start is retried when MySQL reports a lock or a duplicate. *)
From Stdlib Require Import ZArith Lia Bool String.
From stdpp Require Import base list strings gmap.
From S2P Require Import Prelude GoStrings GoTime Json Sha256 Contract Codec Catalog BusinessKey.
From S2P Require Import Executor Repository.
#[local] Open Scope go_scope.

(** ** Rows (internal/model) *)

Record GroupAttendanceSubscription := mkSubscription {
  gr_TenantID : Z; gr_ConversationID : string; gr_GroupName : string; gr_EnabledByUID : Z;
  gr_DeptIDsJSON : string; gr_PushEnabled : bool; gr_CreatedAt : Z; gr_DeletedAt : option Z }.

Record AgentWriteLedger := mkLedger {
  lg_TenantID : Z; lg_BusinessKey : string; lg_Operation : string; lg_WriteEffect : string;
  lg_CreatedAt : Z; lg_UpdatedAt : Z }.

(** Both tables under their unique keys. *)
Record subscription_tables := mkTables {
  tb_subs : gmap (Z * string) GroupAttendanceSubscription;
  tb_ledger : gmap (Z * string) AgentWriteLedger }.

Definition GroupSubscriptionCreated : string := "created".
Definition GroupSubscriptionUpdated : string := "updated".
Definition GroupSubscriptionNoOp : string := "no_op".
Definition GroupSubscriptionCancelled : string := "cancelled".

Record GroupSubscriptionMutationResult := mkSubMutation {
  sm_Effect : string; sm_Subscription : option GroupAttendanceSubscription }.

(** ** Checks *)

Definition hex_digit_byte (b : Z) : bool :=
  in_range 48 57 b || in_range 97 102 b || in_range 65 70 b.

Definition validateAgentWriteBusinessKey (key : string) : res unit :=
  let key := trim_space key in
  if negb (str_len key =? 64)
  then Err (EMsg "repository: agent write business key must be 64 hex characters")
  else if negb (forallb hex_digit_byte (bytes key)) || negb (eqs key (to_lower key))
  then Err (EMsg "repository: agent write business key is invalid")
  else Ok tt.

Definition check_scope_id (id : Z) : res unit :=
  if id <=? 0 then Err (EFmt "department id must be positive: %d" [itoa id]) else Ok tt.

Definition json_int64s (ids : list Z) : string := marshal (JArr (List.map json_int ids)).
Definition decode_int64s (payload : string) : res (list Z) := decode_strict (dec_list dec_int64 0) [] payload.

Definition canonicalSubscriptionDeptIDsJSON (raw : string) : res string :=
  let raw := trim_space raw in
  if eqs raw "" || eqs raw "null" then Ok ""
  else
    ids <- wrap_err "decode department ids: %w" (decode_int64s raw) ;;
    if bool_decide (ids = []) then Ok ""
    else list_checkM check_scope_id ids ;;; Ok (json_int64s (dedup_adjacent (sort_Z ids))).

(** ** The database

    A transaction runs a body on the tables.  When the body fails, or the
    database does, nothing is kept; a commit whose answer is lost is an error
    all the same.  [sd_tables] and [sd_past] are ghosts. *)
Class SubscriptionDatabase (D : Type) := {
  sd_tables : D -> subscription_tables;
  sd_past : D -> list subscription_tables;
  sd_transaction : forall A, option err -> (subscription_tables -> res (A * subscription_tables)) -> ST D A;
  sd_read : forall A, option err -> (subscription_tables -> A) -> ST D A
}.
Arguments sd_transaction {D _ A} _ _ _.
Arguments sd_read {D _ A} _ _ _.

(** MySQL's error number behind a driver error. *)
Class MySQLErrors := mysql_error_number : err -> option Z.

Definition retryableGroupSubscriptionTransactionError `{MySQLErrors} (e : err) : bool :=
  match mysql_error_number e with
  | Some n => (n =? 1062) || (n =? 1205) || (n =? 1213)
  | None => false
  end.

Section subscriptions.
Context `{DC : DatabaseConventions} `{ME : MySQLErrors} {D : Type} `{DB : SubscriptionDatabase D}.

Definition sub_key (tenantID : Z) (conversationID : string) : Z * string := (tenantID, db_collate conversationID).

(** The insert-or-update on the ledger's unique key; [now] is the reading made
    for the entry. *)
Definition recordAgentWriteLedger (now : Z) (tenantID : Z) (businessKey operation effect : string)
    (tb : subscription_tables) : subscription_tables :=
  let k := sub_key tenantID businessKey in
  let entry :=
    match tb_ledger tb !! k with
    | Some l => mkLedger (lg_TenantID l) (lg_BusinessKey l) operation effect (lg_CreatedAt l) now
    | None => mkLedger tenantID businessKey operation effect now now
    end in
  mkTables (tb_subs tb) (<[k := entry]> (tb_ledger tb)).

(** [tx.Create]: the ORM stamps created_at and, the column's default being
    true, inserts push_enabled as true. *)
Definition create_subscription (orm_now : Z) (s : GroupAttendanceSubscription) : GroupAttendanceSubscription :=
  mkSubscription (gr_TenantID s) (gr_ConversationID s) (gr_GroupName s) (gr_EnabledByUID s) (gr_DeptIDsJSON s)
    true (if is_zero (gr_CreatedAt s) then orm_now else gr_CreatedAt s) (gr_DeletedAt s).

Definition put_subscription (k : Z * string) (s : GroupAttendanceSubscription) (tb : subscription_tables)
  : subscription_tables := mkTables (<[k := s]> (tb_subs tb)) (tb_ledger tb).

(** The body of the start's transaction. *)
Definition applyStartOnce (orm_now now : Z) (sub : GroupAttendanceSubscription) (canonicalDeptIDs : string)
    (businessKey : string) (tb : subscription_tables)
  : res (GroupSubscriptionMutationResult * subscription_tables) :=
  let conversation := trim_space (gr_ConversationID sub) in
  let k := sub_key (gr_TenantID sub) conversation in
  let finish effect s tb :=
    Ok (mkSubMutation effect (Some s),
        recordAgentWriteLedger now (gr_TenantID sub) businessKey "subscription.start" effect tb) in
  match tb_subs tb !! k with
  | None =>
      let next := create_subscription orm_now
                    (mkSubscription (gr_TenantID sub) conversation (gr_GroupName sub) (gr_EnabledByUID sub)
                       canonicalDeptIDs (gr_PushEnabled sub) (gr_CreatedAt sub) (gr_DeletedAt sub)) in
      finish GroupSubscriptionCreated next (put_subscription k next tb)
  | Some current =>
      currentDeptIDs <- wrap_err "repository: stored subscription department scope is invalid: %w"
                          (canonicalSubscriptionDeptIDsJSON (gr_DeptIDsJSON current)) ;;
      let deleted := match gr_DeletedAt current with Some _ => true | None => false end in
      if negb deleted && eqs currentDeptIDs canonicalDeptIDs
      then finish GroupSubscriptionNoOp current tb
      else
        let next := mkSubscription (gr_TenantID current) (gr_ConversationID current) (gr_GroupName sub)
                      (gr_EnabledByUID sub) canonicalDeptIDs (gr_PushEnabled current) (gr_CreatedAt current)
                      None in
        finish (if deleted then GroupSubscriptionCreated else GroupSubscriptionUpdated) next
          (put_subscription k next tb)
  end.

(** What the environment answers in one attempt: the context's error when the
    transaction starts, the clocks, and the context's error while waiting. *)
Record start_attempt := mkStartAttempt {
  sa_ctx : option err; sa_orm_now : Z; sa_now : Z; sa_wait : option err }.

Fixpoint start_attempts (attempts : nat) (env : nat -> start_attempt) (sub : GroupAttendanceSubscription)
    (canonicalDeptIDs businessKey : string) : ST D GroupSubscriptionMutationResult := fun d =>
  match attempts with
  | O => (Err (EMsg "repository: subscription transaction retry exhausted"), d)
  | S rest =>
      let a := env O in
      match sd_transaction (sa_ctx a)
              (applyStartOnce (sa_orm_now a) (sa_now a) sub canonicalDeptIDs businessKey) d with
      | (Ok mutation, d) => (Ok mutation, d)
      | (Err applyErr, d) =>
          if (match rest with O => true | S _ => false end)
             || negb (retryableGroupSubscriptionTransactionError applyErr)
          then (Err applyErr, d)
          else match sa_wait a with
               | Some e => (Err e, d)
               | None => start_attempts rest (fun n => env (S n)) sub canonicalDeptIDs businessKey d
               end
      end
  end.

Definition ApplyStart (ctx : db_ctx) (env : nat -> start_attempt) (sub : GroupAttendanceSubscription)
    (businessKey : string) : ST D GroupSubscriptionMutationResult :=
  st_lift (guard (negb ((gr_TenantID sub =? 0) || blank (gr_ConversationID sub)))
             (EMsg "repository: subscription start command is incomplete")) ~;;
  tenantID <~ st_lift (tenantIDFromCtx ctx) ;;
  st_lift (guard (tenantID =? gr_TenantID sub)
             (EMsg "repository: subscription tenant does not match context")) ~;;
  st_lift (validateAgentWriteBusinessKey businessKey) ~;;
  canonicalDeptIDs <~ st_lift (canonicalSubscriptionDeptIDsJSON (gr_DeptIDsJSON sub)) ;;
  start_attempts 3 env sub canonicalDeptIDs businessKey.

(** The body of the cancellation's transaction: a soft delete of the row that
    is not deleted yet. *)
Definition apply_cancel (orm_now now : Z) (tenantID : Z) (conversationID businessKey : string)
    (tb : subscription_tables) : res (GroupSubscriptionMutationResult * subscription_tables) :=
  let k := sub_key tenantID (trim_space conversationID) in
  let '(effect, tb) :=
    match tb_subs tb !! k with
    | Some s =>
        match gr_DeletedAt s with
        | None => (GroupSubscriptionCancelled,
                   put_subscription k (mkSubscription (gr_TenantID s) (gr_ConversationID s) (gr_GroupName s)
                     (gr_EnabledByUID s) (gr_DeptIDsJSON s) (gr_PushEnabled s) (gr_CreatedAt s) (Some orm_now)) tb)
        | Some _ => (GroupSubscriptionNoOp, tb)
        end
    | None => (GroupSubscriptionNoOp, tb)
    end in
  Ok (mkSubMutation effect None,
      recordAgentWriteLedger now tenantID businessKey "subscription.cancel" effect tb).

Definition ApplyCancel (ctx : db_ctx) (env : start_attempt) (tenantID : Z) (conversationID businessKey : string)
  : ST D GroupSubscriptionMutationResult :=
  contextTenantID <~ st_lift (tenantIDFromCtx ctx) ;;
  st_lift (guard (negb ((tenantID =? 0) || negb (contextTenantID =? tenantID)))
             (EMsg "repository: subscription tenant does not match context")) ~;;
  st_lift (validateAgentWriteBusinessKey businessKey) ~;;
  sd_transaction (sa_ctx env) (apply_cancel (sa_orm_now env) (sa_now env) tenantID conversationID businessKey).

Definition FindByConversationID (ctx : db_ctx) (tenantID : Z) (conversationID : string)
  : ST D (option GroupAttendanceSubscription) :=
  t <~ st_lift (tenantIDFromCtx ctx) ;;
  sd_read (cx_Err ctx) (fun tb =>
    match tb_subs tb !! sub_key tenantID conversationID with
    | Some s => if (gr_TenantID s =? t) && bool_decide (gr_DeletedAt s = None) then Some s else None
    | None => None
    end).

(** ** The executor's port (internal/app/agent_wiring.go) *)

Definition subscriptionStartOperationName : string := "subscription.start".
Definition subscriptionCancelOperationName : string := "subscription.cancel".

Definition legacySubscriptionBusinessKey (tenantID : Z) (conversationID operation : string) (deptIDs : list Z)
  : string :=
  let normalized := dedup_adjacent (sort_Z (List.filter (fun id => 0 <? id) deptIDs)) in
  let scope :=
    if eqs operation subscriptionStartOperationName
    then if bool_decide (normalized = []) then "all" else "department"
    else "" in
  sha256_hex (business_key_text (mkBusinessKey 1 tenantID (trim_space conversationID) operation scope normalized)).

(** [local_text] prints an instant in the server's time zone. *)
Context (local_text : Z -> string).

Definition groupSubInfoFromModel (sub : option GroupAttendanceSubscription) : res GroupSubInfo :=
  match sub with
  | None => Ok (mkSubInfo false "" [] "" false)
  | Some s =>
      deptIDs <- (if eqs (gr_DeptIDsJSON s) "" then Ok []
                  else wrap_err "decode subscription department scope: %w" (decode_int64s (gr_DeptIDsJSON s))) ;;
      Ok (mkSubInfo true (gr_GroupName s) deptIDs (local_text (gr_CreatedAt s)) (gr_PushEnabled s))
  end.

Definition adapter_Subscribe (ctx : db_ctx) (env : nat -> start_attempt) (tenantID : Z)
    (conversationID groupName : string) (enabledByUID : Z) (deptIDs : list Z) (businessKey : string)
  : ST D GroupSubMutationResult :=
  let deptIDsJSON := if bool_decide (deptIDs = []) then "" else json_int64s deptIDs in
  let businessKey :=
    if eqs businessKey ""
    then legacySubscriptionBusinessKey tenantID conversationID subscriptionStartOperationName deptIDs
    else businessKey in
  result <~ ApplyStart ctx env
              (mkSubscription tenantID conversationID groupName enabledByUID deptIDsJSON false 0 None) businessKey ;;
  info <~ st_lift (groupSubInfoFromModel (sm_Subscription result)) ;;
  st_ret (mkMutation (sm_Effect result) (Some info)).

Definition adapter_Unsubscribe (ctx : db_ctx) (env : start_attempt) (tenantID : Z)
    (conversationID businessKey : string) : ST D GroupSubMutationResult :=
  let businessKey :=
    if eqs businessKey ""
    then legacySubscriptionBusinessKey tenantID conversationID subscriptionCancelOperationName []
    else businessKey in
  result <~ ApplyCancel ctx env tenantID conversationID businessKey ;;
  st_ret (mkMutation (sm_Effect result) None).

Definition adapter_GetSubscription (ctx : db_ctx) (tenantID : Z) (conversationID : string)
  : ST D (option GroupSubInfo) :=
  sub <~ FindByConversationID ctx tenantID conversationID ;;
  info <~ st_lift (groupSubInfoFromModel sub) ;;
  st_ret (Some info).

Definition groupSubAdapter (ctx : db_ctx) (env : nat -> start_attempt) : GroupSubPort D :=
  mkGroupSubPort (adapter_Subscribe ctx env) (adapter_Unsubscribe ctx (env O)) (adapter_GetSubscription ctx).

End subscriptions.
