(* ===== verification/SubscriptionSpec.v ===== *)
(** * Properties of group subscriptions

    The transactions refine a map from conversations to department scopes, with
    the ledger entry of the business key written in the same step; repeated,
    retried and recovered writes converge. *)
From Stdlib Require Import ZArith Lia Bool String.
From stdpp Require Import base list strings gmap sorting.
From S2P Require Import Prelude GoStrings GoTime Json Sha256 Contract Codec CodecSpec Catalog Request.
From S2P Require Import BusinessKey Executor Repository RepositorySpec Subscription.
#[local] Open Scope go_scope.

(** ** Department scopes *)

Lemma dec_int64_range j cur z : in_int64 cur = true -> dec_int64 j cur = Ok z -> in_int64 z = true.
Proof.
  intros Hc. destruct j; cbn; try done; [by intros [= <-]|].
  destruct (atoi _) as [n [[]|]] eqn:E; try done. intros [= <-]. by eapply atoi_range.
Qed.

Lemma dec_int64s_range j l : dec_list dec_int64 0 j [] = Ok l -> forallb in_int64 l = true.
Proof.
  destruct j as [| | | |js|]; cbn; try done; [by intros [= <-]|].
  enough (H : forall cur l, forallb in_int64 cur = true -> dec_elems dec_int64 0 js cur = Ok l ->
                forallb in_int64 l = true) by (intros; by eapply H; [|done]).
  clear l. induction js as [|j js IH]; intros cur l Hc; cbn; [by intros [= <-]|].
  intros H. apply res_bind_Ok in H as (z & Hz & H). apply res_bind_Ok in H as (zs & Hzs & [= <-]).
  cbn. apply andb_true_iff. split.
  - eapply dec_int64_range; [|exact Hz]. destruct cur; cbn in *; [done|by b2p].
  - eapply IH; [|exact Hzs]. destruct cur; cbn in *; [done|by b2p].
Qed.

Lemma decode_int64s_range s l : decode_int64s s = Ok l -> forallb in_int64 l = true.
Proof.
  unfold decode_int64s, decode_strict. destruct (parse_document _); [|done]. apply dec_int64s_range.
Qed.

Lemma decode_json_int64s l : forallb in_int64 l = true -> decode_int64s (json_int64s l) = Ok l.
Proof.
  intros H. unfold decode_int64s, json_int64s. rewrite decode_strict_marshal by (by apply printable_ints).
  by apply dec_int64s_ok.
Qed.

Lemma json_int64s_trim l : trim_space (json_int64s l) = json_int64s l.
Proof.
  unfold json_int64s, marshal. cbn [print_json app]. apply trim_space_closed; try done.
  apply sep_by_Forall; [by repeat constructor|]. apply Forall_forall. intros x Hx.
  rewrite List.map_map in Hx. apply list_elem_of_In, in_map_iff in Hx as (z & <- & _). cbn.
  unfold itoa. rewrite bytes_of_bytes; apply itoa_bytes_is_byte.
Qed.

Lemma json_int64s_text l : json_int64s l <> "" /\ json_int64s l <> "null".
Proof. split; unfold json_int64s, marshal; cbn [print_json app]; unfold of_bytes; rewrite fmap_cons; discriminate. Qed.

(** A scope as the repository stores it: everybody, or departments in order. *)
Inductive canonical_scope : string -> Prop :=
  | scope_all : canonical_scope ""
  | scope_departments ids :
      ids <> [] -> forallb in_int64 ids = true -> Forall (fun d => 0 < d) ids -> StronglySorted Z.lt ids ->
      canonical_scope (json_int64s ids).

Lemma check_scope_Ok ids : list_checkM check_scope_id ids = Ok tt <-> Forall (fun d => 0 < d) ids.
Proof.
  rewrite list_checkM_Ok. apply Forall_iff. intros d. unfold check_scope_id.
  destruct (Z.leb_spec d 0); split; (done || lia).
Qed.

Lemma canonical_ids ids :
  ids <> [] -> forallb in_int64 ids = true ->
  canonicalSubscriptionDeptIDsJSON (json_int64s ids)
  = list_checkM check_scope_id ids ;;; Ok (json_int64s (dedup_adjacent (sort_Z ids))).
Proof.
  intros Hne Hr. unfold canonicalSubscriptionDeptIDsJSON. rewrite json_int64s_trim.
  destruct (json_int64s_text ids) as [H1 H2]. apply eqs_false in H1, H2. rewrite H1, H2. cbn [orb].
  rewrite decode_json_int64s by done. cbn [wrap_err res_bind]. by rewrite bool_decide_eq_false_2.
Qed.

Lemma dedup_sort_nonempty ids : ids <> [] -> dedup_adjacent (sort_Z ids) <> [].
Proof.
  destruct ids as [|x l]; [done|]. intros _ E.
  assert (x ∈ dedup_adjacent (sort_Z (x :: l))) as H by (apply dedup_adjacent_elem, sort_Z_elem; by left).
  rewrite E in H. by apply elem_of_nil in H.
Qed.

Lemma Forall_sorted_ids (P : Z -> Prop) ids : Forall P ids -> Forall P (dedup_adjacent (sort_Z ids)).
Proof. rewrite !Forall_forall. intros H x Hx. by apply H, sort_Z_elem, dedup_adjacent_elem. Qed.

Lemma canonical_is_scope raw c : canonicalSubscriptionDeptIDsJSON raw = Ok c -> canonical_scope c.
Proof.
  unfold canonicalSubscriptionDeptIDsJSON. case_if; [intros [= <-]; constructor|].
  intros H. apply res_bind_Ok in H as (ids & Hids & H). apply wrap_err_Ok, decode_int64s_range in Hids.
  case_if_in H; [injection H as <-; constructor|]. b2p.
  apply res_bind_Ok in H as ([] & Hp%check_scope_Ok & [= <-]).
  constructor; [by apply dedup_sort_nonempty|by apply sortedUnique_forallb|by apply Forall_sorted_ids|].
  apply sortedUnique_sorted.
Qed.

Lemma scope_canonical c : canonical_scope c -> canonicalSubscriptionDeptIDsJSON c = Ok c.
Proof.
  destruct 1 as [|ids Hne Hr Hp Hs]; [done|]. rewrite canonical_ids by done.
  apply check_scope_Ok in Hp as ->. cbn [res_bind].
  rewrite sort_Z_idem by (by apply StronglySorted_lt_le). by rewrite dedup_sorted_idem.
Qed.

(** ** The abstract map *)

Section refinement.
Context `{DC : DatabaseConventions}.

(** The tables hold canonical scopes. *)
Definition tables_ok (tb : subscription_tables) : Prop :=
  map_Forall (fun _ s => canonical_scope (gr_DeptIDsJSON s)) (tb_subs tb).

(** The conversations that are subscribed, and for whom. *)
Definition subscribed (tb : subscription_tables) : gmap (Z * string) string :=
  omap (fun s => match gr_DeletedAt s with None => Some (gr_DeptIDsJSON s) | Some _ => None end) (tb_subs tb).

(** What starting and cancelling promise of that map. *)
Definition start_effect (scope : string) (before : option string) : string :=
  match before with
  | None => GroupSubscriptionCreated
  | Some c => if eqs c scope then GroupSubscriptionNoOp else GroupSubscriptionUpdated
  end.
Definition cancel_effect (before : option string) : string :=
  match before with Some _ => GroupSubscriptionCancelled | None => GroupSubscriptionNoOp end.

(** The ledger has the operation and effect under the business key, and is
    otherwise unchanged. *)
Definition ledger_records (k : Z * string) (operation effect : string) (tb tb' : subscription_tables) : Prop :=
  (exists l, tb_ledger tb' !! k = Some l /\ lg_Operation l = operation /\ lg_WriteEffect l = effect)
  /\ forall k', k' <> k -> tb_ledger tb' !! k' = tb_ledger tb !! k'.

Lemma record_records now tenantID businessKey operation effect tb :
  ledger_records (sub_key tenantID businessKey) operation effect tb
    (recordAgentWriteLedger now tenantID businessKey operation effect tb).
Proof.
  split.
  - eexists. cbn. rewrite lookup_insert_eq. split; [done|]. by destruct (tb_ledger tb !! _).
  - intros k' Hk. cbn. by rewrite lookup_insert_ne.
Qed.

Lemma subscribed_put k s tb :
  subscribed (put_subscription k s tb)
  = match gr_DeletedAt s with
    | None => <[k := gr_DeptIDsJSON s]> (subscribed tb)
    | Some _ => delete k (subscribed tb)
    end.
Proof.
  unfold subscribed, put_subscription. cbn [tb_subs]. apply map_eq. intros k'.
  rewrite lookup_omap. destruct (decide (k = k')) as [<-|Hne].
  - rewrite lookup_insert_eq. cbn. destruct (gr_DeletedAt s); [by rewrite lookup_delete_eq|].
    by rewrite lookup_insert_eq.
  - rewrite lookup_insert_ne by done.
    destruct (gr_DeletedAt s); [rewrite lookup_delete_ne by done|rewrite lookup_insert_ne by done];
      by rewrite lookup_omap.
Qed.

Lemma subscribed_lookup tb k :
  subscribed tb !! k = match tb_subs tb !! k with
                       | Some s => match gr_DeletedAt s with None => Some (gr_DeptIDsJSON s) | Some _ => None end
                       | None => None
                       end.
Proof. unfold subscribed. rewrite lookup_omap. by destruct (tb_subs tb !! k). Qed.

Lemma put_ok k s tb : tables_ok tb -> canonical_scope (gr_DeptIDsJSON s) -> tables_ok (put_subscription k s tb).
Proof. intros H Hs. by apply map_Forall_insert_2. Qed.

Lemma record_same tb tb1 now tenantID businessKey operation effect :
  tb_ledger tb1 = tb_ledger tb ->
  ledger_records (sub_key tenantID businessKey) operation effect tb
    (recordAgentWriteLedger now tenantID businessKey operation effect tb1).
Proof.
  intros H. destruct (record_records now tenantID businessKey operation effect tb1) as [Hr Hr'].
  split; [exact Hr|]. intros k' Hk'. rewrite <- H. by apply Hr'.
Qed.

(** A start and a cancellation, each with its result, on tables the repository
    keeps. *)
Lemma start_refines orm_now now tb sub scope businessKey :
  tables_ok tb -> canonical_scope scope -> gr_DeletedAt sub = None ->
  let k := sub_key (gr_TenantID sub) (trim_space (gr_ConversationID sub)) in
  exists mutation tb', applyStartOnce orm_now now sub scope businessKey tb = Ok (mutation, tb')
     /\ tables_ok tb' /\ subscribed tb' = <[k := scope]> (subscribed tb)
     /\ sm_Effect mutation = start_effect scope (subscribed tb !! k)
     /\ sm_Subscription mutation = tb_subs tb' !! k
     /\ ledger_records (sub_key (gr_TenantID sub) businessKey) "subscription.start" (sm_Effect mutation) tb tb'.
Proof.
  intros Hok Hs Hsub k. unfold applyStartOnce. fold k. rewrite subscribed_lookup.
  destruct (tb_subs tb !! k) as [cur|] eqn:Ek.
  - pose proof (Hok k cur Ek) as Hc. rewrite (scope_canonical _ Hc). cbn [wrap_err res_bind].
    destruct (gr_DeletedAt cur) as [del|] eqn:Ed; cbn [negb andb].
    + eexists _, _. split; [done|]. split_and!; [by apply put_ok| |done| |by apply record_same].
      * pose proof (subscribed_put k (mkSubscription (gr_TenantID cur) (gr_ConversationID cur) (gr_GroupName sub)
                        (gr_EnabledByUID sub) scope (gr_PushEnabled cur) (gr_CreatedAt cur) None) tb) as H. exact H.
      * cbn. by rewrite lookup_insert_eq.
    + unfold start_effect. destruct (eqs (gr_DeptIDsJSON cur) scope) eqn:Es.
      * apply eqs_true in Es. eexists _, _. split; [done|]. split_and!; try done; [|by apply record_same].
        symmetry. apply insert_id. rewrite subscribed_lookup. cbn [recordAgentWriteLedger tb_subs]. by rewrite Ek, Ed, Es.
      * eexists _, _. split; [done|]. split_and!; [by apply put_ok| |done| |by apply record_same].
        -- pose proof (subscribed_put k (mkSubscription (gr_TenantID cur) (gr_ConversationID cur) (gr_GroupName sub)
                        (gr_EnabledByUID sub) scope (gr_PushEnabled cur) (gr_CreatedAt cur) None) tb) as H. exact H.
        -- cbn. by rewrite lookup_insert_eq.
  - eexists _, _. split; [done|]. split_and!; [by apply put_ok| |done| |by apply record_same].
    + etrans; [apply subscribed_put|]. cbn. by rewrite Hsub.
    + cbn. by rewrite lookup_insert_eq.
Qed.

Lemma cancel_refines orm_now now tb tenantID conversationID businessKey :
  tables_ok tb ->
  let k := sub_key tenantID (trim_space conversationID) in
  exists mutation tb', apply_cancel orm_now now tenantID conversationID businessKey tb = Ok (mutation, tb')
     /\ tables_ok tb' /\ subscribed tb' = delete k (subscribed tb)
     /\ sm_Effect mutation = cancel_effect (subscribed tb !! k)
     /\ ledger_records (sub_key tenantID businessKey) "subscription.cancel" (sm_Effect mutation) tb tb'.
Proof.
  intros Hok k. unfold apply_cancel. fold k.
  assert (Hid : subscribed tb !! k = None -> subscribed tb = delete k (subscribed tb)) by (intros; by rewrite delete_id).
  rewrite subscribed_lookup in *. destruct (tb_subs tb !! k) as [cur|] eqn:Ek;
    [destruct (gr_DeletedAt cur) as [del|] eqn:Ed|]; cbn [res_bind];
    (eexists _, _; split; [done|]; split_and!; [| |done|by apply record_same]); auto.
  - apply put_ok; [done|]. exact (Hok k cur Ek).
  - etrans; [apply subscribed_put|]. done.
Qed.

(** C13: The subscription transactions refine a map from conversations to
    scopes: a start enters the conversation's scope and a cancellation removes
    it, both reporting what they did to what they found, with the ledger entry
    of the business key written in the same step; on tables the repository
    keeps they always succeed, leave every other conversation alone and keep
    the tables well formed. *)
Theorem subscription_transactions_refine orm_now now tb sub scope businessKey :
  tables_ok tb -> canonical_scope scope -> gr_DeletedAt sub = None ->
  let k := sub_key (gr_TenantID sub) (trim_space (gr_ConversationID sub)) in
  let ledger_key := sub_key (gr_TenantID sub) businessKey in
  (exists mutation tb', applyStartOnce orm_now now sub scope businessKey tb = Ok (mutation, tb')
     /\ tables_ok tb' /\ subscribed tb' = <[k := scope]> (subscribed tb)
     /\ sm_Effect mutation = start_effect scope (subscribed tb !! k)
     /\ sm_Subscription mutation = tb_subs tb' !! k
     /\ ledger_records ledger_key "subscription.start" (sm_Effect mutation) tb tb')
  /\ (exists mutation tb',
        apply_cancel orm_now now (gr_TenantID sub) (gr_ConversationID sub) businessKey tb = Ok (mutation, tb')
     /\ tables_ok tb' /\ subscribed tb' = delete k (subscribed tb)
     /\ sm_Effect mutation = cancel_effect (subscribed tb !! k)
     /\ ledger_records ledger_key "subscription.cancel" (sm_Effect mutation) tb tb').
Proof. intros Hok Hs Hsub k ledger_key. split; [by apply start_refines|by apply cancel_refines]. Qed.

(** ** Convergence *)

(** What a caller's transaction may do to the tables: commit its body, on what
    the other clients left, and report it; commit it and lose the answer; or
    leave what the others left. *)
Definition transacted {A} (others : relation subscription_tables)
    (f : subscription_tables -> res (A * subscription_tables)) (r : res A) (tb tb' : subscription_tables) : Prop :=
  exists m, rtc others tb m
    /\ match r with
       | Ok a => f m = Ok (a, tb')
       | Err _ => tb' = m \/ exists a, f m = Ok (a, tb')
       end.

Class SubscriptionDatabaseLaws (D : Type) `{DB : SubscriptionDatabase D} (others : relation subscription_tables) := {
  transaction_atomic : forall A c (f : subscription_tables -> res (A * subscription_tables)) d r d',
    sd_transaction c f d = (r, d') -> transacted others f r (sd_tables d) (sd_tables d')
}.

(** A conversation the other clients leave alone; they keep the tables well
    formed. *)
Definition leaves (others : relation subscription_tables) (k : Z * string) : Prop :=
  forall tb tb', others tb tb' -> tables_ok tb -> tables_ok tb' /\ subscribed tb' !! k = subscribed tb !! k.

(** A write of conversation [k] to [v], carried out or not, among clients that
    leave [k0] alone. *)
Definition wrote (k : Z * string) (v : option string) (k0 : Z * string) (tb tb' : subscription_tables) : Prop :=
  tables_ok tb'
  /\ (subscribed tb' !! k0 = subscribed tb !! k0 \/ (k0 = k /\ subscribed tb' !! k0 = v)).

Lemma leaves_rtc others k tb tb' :
  leaves others k -> tables_ok tb -> rtc others tb tb' ->
  tables_ok tb' /\ subscribed tb' !! k = subscribed tb !! k.
Proof.
  intros Hl Hok H. revert Hok. induction H as [|x y z Hxy _ IH]; [done|]. intros Hok.
  destruct (Hl _ _ Hxy Hok) as [Hy <-]. by apply IH.
Qed.

Lemma wrote_refl k v k0 tb : tables_ok tb -> wrote k v k0 tb tb.
Proof. intros H. split; [done|by left]. Qed.
Lemma wrote_trans k v k0 tb1 tb2 tb3 : wrote k v k0 tb1 tb2 -> wrote k v k0 tb2 tb3 -> wrote k v k0 tb1 tb3.
Proof.
  intros [_ H2] [H3 H4]. split; [done|].
  destruct H2 as [H2|[E2 H2]], H4 as [H4|[E4 H4]]; [left; congruence|right..]; (split; [done|congruence]).
Qed.

(** A body that writes [k] to [v] on well-formed tables. *)
Definition writes {A} (k : Z * string) (v : option string)
    (f : subscription_tables -> res (A * subscription_tables)) : Prop :=
  forall tb a tb', tables_ok tb -> f tb = Ok (a, tb') ->
    tables_ok tb' /\ subscribed tb' = match v with Some c => <[k := c]> (subscribed tb) | None => delete k (subscribed tb) end.

Lemma writes_wrote {A} k v k0 (f : subscription_tables -> res (A * subscription_tables)) tb a tb' :
  writes k v f -> tables_ok tb -> f tb = Ok (a, tb') ->
  wrote k v k0 tb tb' /\ subscribed tb' !! k = v.
Proof.
  intros Hw Hok Hf. destruct (Hw _ _ _ Hok Hf) as [Hok' Hs].
  assert (Hk : subscribed tb' !! k = v)
    by (rewrite Hs; destruct v; [by rewrite lookup_insert_eq|by rewrite lookup_delete_eq]).
  split; [|done]. split; [done|]. destruct (decide (k0 = k)) as [->|Hne]; [by right|]. left.
  rewrite Hs. destruct v; [by rewrite lookup_insert_ne|by rewrite lookup_delete_ne].
Qed.

Lemma transacted_wrote {A} others k v k0 (f : subscription_tables -> res (A * subscription_tables)) r tb tb' :
  leaves others k0 -> writes k v f -> tables_ok tb -> transacted others f r tb tb' ->
  wrote k v k0 tb tb' /\ (match r with Ok _ => subscribed tb' !! k = v | Err _ => True end).
Proof.
  intros Hl Hw Hok (m & Hm & H). destruct (leaves_rtc _ _ _ _ Hl Hok Hm) as [Hokm Hs].
  assert (wrote k v k0 tb m) as H0 by (by split; [|left]).
  destruct r as [a|e].
  - destruct (writes_wrote k v k0 f m a tb' Hw Hokm H) as [H1 H2]. split; [by eapply wrote_trans|done].
  - split; [|done]. destruct H as [->|[a H]]; [done|].
    destruct (writes_wrote k v k0 f m a tb' Hw Hokm H) as [H1 H2]. by eapply wrote_trans.
Qed.

Lemma start_writes orm_now now sub scope businessKey :
  canonical_scope scope -> gr_DeletedAt sub = None ->
  writes (sub_key (gr_TenantID sub) (trim_space (gr_ConversationID sub))) (Some scope)
    (applyStartOnce orm_now now sub scope businessKey).
Proof.
  intros Hs Hd tb a tb' Hok Ha.
  destruct (start_refines orm_now now tb sub scope businessKey Hok Hs Hd) as (mu & tb1 & E & H1 & H2 & _).
  rewrite E in Ha. injection Ha as <- <-. done.
Qed.

Lemma cancel_writes orm_now now tenantID conversationID businessKey :
  writes (sub_key tenantID (trim_space conversationID)) None
    (apply_cancel orm_now now tenantID conversationID businessKey).
Proof.
  intros tb a tb' Hok Ha.
  destruct (cancel_refines orm_now now tb tenantID conversationID businessKey Hok) as (mu & tb1 & E & H1 & H2 & _).
  rewrite E in Ha. injection Ha as <- <-. done.
Qed.
End refinement.

(** ** Writes, retried and repeated *)

Section convergence.
Context `{DC : DatabaseConventions} `{ME : MySQLErrors} {D : Type} `{DB : SubscriptionDatabase D}.
Context (others : relation subscription_tables) {DBL : SubscriptionDatabaseLaws D others}.

(** A caller's write of [k] to [v] that ended with [r]. *)
Definition write_ran {A} (k : Z * string) (v : option string) (r : res A) (d d' : D) : Prop := forall k0,
  tables_ok (sd_tables d) -> leaves others k0 ->
  wrote k v k0 (sd_tables d) (sd_tables d')
  /\ (match r with Ok _ => k0 = k -> subscribed (sd_tables d') !! k = v | Err _ => True end).

Lemma write_ran_refused {A} k v e d : @write_ran A k v (Err e) d d.
Proof. intros k0 Hok _. split; [by apply wrote_refl|done]. Qed.

Lemma write_ran_err {A B} k v (e : err) d1 d2 d3 (r : res B) :
  @write_ran A k v (Err e) d1 d2 -> write_ran k v r d2 d3 -> write_ran k v r d1 d3.
Proof.
  intros H1 H2 k0 Hok Hl. destruct (H1 k0 Hok Hl) as [Hw _].
  destruct (H2 k0 (proj1 Hw) Hl) as [Hw2 Hr]. split; [by eapply wrote_trans|done].
Qed.

Lemma write_ran_map {A B} k v (r : res A) (r' : res B) d d' :
  write_ran k v r d d' -> (forall b, r' = Ok b -> exists a, r = Ok a) -> write_ran k v r' d d'.
Proof.
  intros H Hr k0 Hok Hl. destruct (H k0 Hok Hl) as [Hw Hv]. split; [done|].
  destruct r' as [b|]; [|done]. by destruct (Hr b eq_refl) as [a ->].
Qed.

Lemma transaction_write_ran {A} k v c (f : subscription_tables -> res (A * subscription_tables)) d :
  writes k v f -> write_ran k v (sd_transaction c f d).1 d (sd_transaction c f d).2.
Proof.
  intros Hw k0 Hok Hl. destruct (sd_transaction c f d) as [r d'] eqn:E.
  apply transaction_atomic in E. cbn.
  destruct (transacted_wrote others k v k0 f r _ _ Hl Hw Hok E) as [H1 H2]. split; [done|].
  destruct r; [by intros _|done].
Qed.

Lemma start_attempts_ran attempts env sub scope businessKey d :
  canonical_scope scope -> gr_DeletedAt sub = None ->
  let o := start_attempts attempts env sub scope businessKey d in
  write_ran (sub_key (gr_TenantID sub) (trim_space (gr_ConversationID sub))) (Some scope) o.1 d o.2.
Proof.
  intros Hs Hd. revert env d. induction attempts as [|rest IH]; intros env d; [apply write_ran_refused|].
  cbn [start_attempts].
  pose proof (transaction_write_ran _ _ (sa_ctx (env O)) _ d
    (start_writes (sa_orm_now (env O)) (sa_now (env O)) sub scope businessKey Hs Hd)) as H.
  destruct (sd_transaction _ _ d) as [[mu|e] d1]; [exact H|]. cbn in H.
  case_if; [exact H|]. destruct (sa_wait (env O)) as [e'|].
  - eapply write_ran_map; [exact H|done].
  - eapply write_ran_err; [exact H|apply IH].
Qed.

#[local] Arguments start_attempts : simpl never.

(** The scope a start stores. *)
Definition start_value (deptIDsJSON : string) : option string :=
  match canonicalSubscriptionDeptIDsJSON deptIDsJSON with Ok c => Some c | Err _ => None end.

Lemma ApplyStart_ran ctx env sub businessKey d :
  gr_DeletedAt sub = None ->
  let o := ApplyStart ctx env sub businessKey d in
  write_ran (sub_key (gr_TenantID sub) (trim_space (gr_ConversationID sub)))
    (start_value (gr_DeptIDsJSON sub)) o.1 d o.2.
Proof.
  intros Hd. unfold ApplyStart, st_bind, st_lift, start_value.
  destruct (guard _ _); [|apply write_ran_refused]. cbn.
  destruct (tenantIDFromCtx ctx); [|apply write_ran_refused]. cbn.
  destruct (guard _ _); [|apply write_ran_refused]. cbn.
  destruct (validateAgentWriteBusinessKey _); [|apply write_ran_refused]. cbn.
  destruct (canonicalSubscriptionDeptIDsJSON _) as [scope|] eqn:E; [|apply write_ran_refused].
  apply start_attempts_ran; [by eapply canonical_is_scope|done].
Qed.

Lemma ApplyCancel_ran ctx env tenantID conversationID businessKey d :
  let o := ApplyCancel ctx env tenantID conversationID businessKey d in
  write_ran (sub_key tenantID (trim_space conversationID)) None o.1 d o.2.
Proof.
  unfold ApplyCancel, st_bind, st_lift.
  destruct (tenantIDFromCtx ctx); [|apply write_ran_refused]. cbn.
  destruct (guard _ _); [|apply write_ran_refused]. cbn.
  destruct (validateAgentWriteBusinessKey _); [|apply write_ran_refused]. cbn.
  apply transaction_write_ran, cancel_writes.
Qed.

(** *** Through the executor *)

(** The text the adapter stores for a list of departments. *)
Definition request_dept_json (deptIDs : list Z) : string :=
  if bool_decide (deptIDs = []) then "" else json_int64s deptIDs.

(** What a request's write leaves for its conversation. *)
Definition request_value (req : OperationRequest) (deptIDs : list Z) : option string :=
  if eqs (req_Operation req) subscriptionStartOperationName then start_value (request_dept_json deptIDs) else None.

Context {P : Type} (local_text : Z -> string) (deps : operationExecutorDeps D P).

(** The executor over the subscription tables. *)
Definition over_subscriptions (ctx : db_ctx) (env : nat -> start_attempt) : operationExecutorDeps D P :=
  mkDeps (dep_Schedule deps) (dep_Attendance deps) (dep_AttendanceUserDayStatus deps)
    (Some (groupSubAdapter local_text ctx env)) (dep_Dept deps) (dep_Knowledge deps).

Lemma adapter_Subscribe_ran ctx env tenantID conversationID groupName uid deptIDs businessKey d :
  let o := adapter_Subscribe local_text ctx env tenantID conversationID groupName uid deptIDs businessKey d in
  write_ran (sub_key tenantID (trim_space conversationID)) (start_value (request_dept_json deptIDs)) o.1 d o.2.
Proof.
  unfold adapter_Subscribe. fold (request_dept_json deptIDs).
  set (sub := mkSubscription tenantID conversationID groupName uid (request_dept_json deptIDs) false 0 None).
  set (key := if eqs businessKey "" then _ else _).
  pose proof (ApplyStart_ran ctx env sub key d eq_refl) as H. unfold st_bind.
  destruct (ApplyStart ctx env sub key d) as [[mu|e] d']; cbn in *.
  - unfold st_lift. destruct (groupSubInfoFromModel _ _); cbn; (eapply write_ran_map; [exact H|eauto]).
  - eapply write_ran_map; [exact H|done].
Qed.

Lemma adapter_Unsubscribe_ran ctx env tenantID conversationID businessKey d :
  let o := adapter_Unsubscribe ctx env tenantID conversationID businessKey d in
  write_ran (sub_key tenantID (trim_space conversationID)) None o.1 d o.2.
Proof.
  unfold adapter_Unsubscribe, st_bind. set (key := if eqs businessKey "" then _ else _).
  pose proof (ApplyCancel_ran ctx env tenantID conversationID key d) as H.
  destruct (ApplyCancel ctx env tenantID conversationID key d) as [[mu|e] d']; cbn in *;
    (eapply write_ran_map; [exact H|eauto; done]).
Qed.

(** Execution attempts of the same request, each with its own environment. *)
Fixpoint execute_all (req : OperationRequest) (tries : list (db_ctx * (nat -> start_attempt))) (d : D)
  : list (OperationExecutionResult P) * D :=
  match tries with
  | [] => ([], d)
  | (ctx, env) :: tries =>
      let '(r, d) := Execute (over_subscriptions ctx env) req d in
      let '(rs, d) := execute_all req tries d in (r :: rs, d)
  end.

Lemma subscription_started_world mu (d : D) : (@subscription_started D P mu d).2 = d.
Proof. unfold subscription_started. by destruct (subscriptionStartMutationStatus _) as [[]|]. Qed.
Lemma subscription_cancelled_world mu (d : D) : (@subscription_cancelled D P mu d).2 = d.
Proof. unfold subscription_cancelled. by destruct (subscriptionCancelMutationStatus _) as [[]|]. Qed.

(** One execution of a write request. *)
Lemma execute_write_ran ctx env req d c deptIDs :
  req_Operation req = subscriptionStartOperationName \/ req_Operation req = subscriptionCancelOperationName ->
  request_conversation req c ->
  (req_Operation req = subscriptionStartOperationName -> request_departments req deptIDs) ->
  let o := Execute (over_subscriptions ctx env) req d in
  write_ran (sub_key (req_TenantID req) (trim_space c)) (request_value req deptIDs)
    (if eqs (oe_Effect o.1) "" then Err (EMsg "") else Ok tt) d o.2.
Proof.
  intros Hop Hc Hd. destruct (execute_write_cases (over_subscriptions ctx env) req d Hop) as
    [port c' ids Ho Hp Hc' Hd' E|port c' Ho Hp Hc' E|r mode E]; cbv zeta; rewrite E.
  3: apply write_ran_refused.
  - injection Hp as <-. cbn [Subscribe groupSubAdapter].
    assert (c' = c) as -> by (destruct Hc as [Hc _], Hc' as [Hc' _]; congruence).
    assert (ids = deptIDs) as ->
      by (destruct Hd' as [[H1 ->]|[H1 H2]], (Hd Ho) as [[H3 ->]|[H3 H4]]; congruence).
    unfold request_value, run. rewrite Ho.
    pose proof (adapter_Subscribe_ran ctx env (req_TenantID req) c (operationRequestConversationTitle req)
      (req_ActorUserID req) deptIDs (req_IdempotencyKey req) d) as H.
    destruct (adapter_Subscribe _ _ _ _ _ _ _ _ _ d) as [[mu|e] d']; cbn in H |- *.
    + rewrite subscription_started_world. eapply write_ran_map; [exact H|eauto].
    + exact H.
  - injection Hp as <-. cbn [Unsubscribe groupSubAdapter].
    assert (c' = c) as -> by (destruct Hc as [Hc _], Hc' as [Hc' _]; congruence).
    unfold request_value, run. rewrite Ho.
    pose proof (adapter_Unsubscribe_ran ctx (env O) (req_TenantID req) c (req_IdempotencyKey req) d) as H.
    destruct (adapter_Unsubscribe _ _ _ _ _ d) as [[mu|e] d']; cbn in H |- *.
    + rewrite subscription_cancelled_world. eapply write_ran_map; [exact H|eauto].
    + exact H.
Qed.

(** C10: However often a subscription write is executed, with crashes, lost
    answers, retries and other clients' writes between and during the
    executions, it leaves what one execution leaves: a conversation nobody else
    writes either still has what it had or, if it is the request's own, the
    request's value, and has that value once any execution reported success. *)
Theorem repeated_write_converges req c deptIDs tries d k0 :
  req_Operation req = subscriptionStartOperationName \/ req_Operation req = subscriptionCancelOperationName ->
  request_conversation req c ->
  (req_Operation req = subscriptionStartOperationName -> request_departments req deptIDs) ->
  tables_ok (sd_tables d) -> leaves others k0 ->
  let k := sub_key (req_TenantID req) (trim_space c) in
  let o := execute_all req tries d in
  wrote k (request_value req deptIDs) k0 (sd_tables d) (sd_tables o.2)
  /\ (k0 = k -> Exists (fun r => oe_Effect r <> "") o.1 ->
      subscribed (sd_tables o.2) !! k = request_value req deptIDs).
Proof.
  intros Hop Hc Hd Hok Hl. cbv zeta. revert d Hok.
  induction tries as [|[ctx env] tries IH]; intros d Hok.
  { split; [by apply wrote_refl|]. intros _ H. by apply Exists_nil in H. }
  cbn [execute_all]. pose proof (execute_write_ran ctx env req d c deptIDs Hop Hc Hd k0 Hok Hl) as [Hw Hv].
  destruct (Execute (over_subscriptions ctx env) req d) as [r d1]. cbn in Hw, Hv.
  destruct (IH d1 (proj1 Hw)) as [IHw IHv]. destruct (execute_all req tries d1) as [rs d2]. cbn in *.
  split; [by eapply wrote_trans|]. intros -> [Hr|Hr]%Exists_cons; [|by apply IHv].
  apply eqs_false in Hr. rewrite Hr in Hv. destruct (proj2 IHw) as [->|[_ ->]]; [by apply Hv|done].
Qed.
End convergence.

(** ** Keys of the older callers *)

Lemma filter_all_positive l : Forall (fun d => 0 < d) l -> List.filter (fun id => 0 <? id) l = l.
Proof.
  induction 1 as [|x l Hx _ IH]; [done|]. cbn. rewrite IH. by destruct (Z.ltb_spec 0 x); [|lia].
Qed.

(** A caller that names no business key writes under the key the workflow
    computes for the same write: both paths meet in one ledger entry. *)
Theorem legacy_key_agrees req key :
  subscriptionBusinessKeyForRequest req = Ok key ->
  legacySubscriptionBusinessKey (req_TenantID req) (req_ConversationID req) (trim_space (req_Operation req))
    (if eqs (trim_space (req_Operation req)) subscriptionStartOperationName then depts_of req else []) = key.
Proof.
  unfold subscriptionBusinessKeyForRequest. intros H. apply res_bind_Ok in H as (k & Hk & [= <-]).
  apply subscriptionBusinessKey_Ok in Hk as (Hv & Ht & Hc & Ho & _ & _ & Hk).
  unfold legacySubscriptionBusinessKey. do 2 f_equal. destruct k as [v t cv op sc ds]; cbn in *. subst.
  destruct Hk as [(-> & -> & -> & Hp & Hs)|(-> & -> & ->)]; [|reflexivity].
  change (eqs "subscription.start" subscriptionStartOperationName) with true. cbv iota.
  rewrite (filter_all_positive _ Hp).
  destruct Hs as [[-> Hd]|[-> Hd]]; rewrite ?Hd; [reflexivity|].
  by rewrite bool_decide_eq_false_2.
Qed.

(** ** A concrete database, and witnesses *)

(** Each transaction finds what another client may have stored for [cid-9] and
    how the commit ends: answered, or failed with or without effect. *)
Record memory_db := mkMemoryDB {
  my_tables : subscription_tables; my_past : list subscription_tables;
  my_script : list (option GroupAttendanceSubscription * option (bool * err)) }.

Section memory_db.
Context (other : Z * string).

(** What another client stores goes through the repository's scope check. *)
Definition arrive (arrives : option GroupAttendanceSubscription) (tb : subscription_tables) : subscription_tables :=
  match arrives with
  | None => tb
  | Some s =>
      match canonicalSubscriptionDeptIDsJSON (gr_DeptIDsJSON s) with
      | Err _ => tb
      | Ok c =>
          put_subscription other (mkSubscription (gr_TenantID s) (gr_ConversationID s) (gr_GroupName s)
            (gr_EnabledByUID s) c (gr_PushEnabled s) (gr_CreatedAt s) (gr_DeletedAt s)) tb
      end
  end.

Definition memory_transaction A (c : option err) (f : subscription_tables -> res (A * subscription_tables))
  : ST memory_db A := fun d =>
  match c with
  | Some e => (Err e, d)
  | None =>
      let '(arrives, fault) := default (None, None) (head (my_script d)) in
      let m := arrive arrives (my_tables d) in
      let kept tb := mkMemoryDB tb (my_tables d :: my_past d) (tail (my_script d)) in
      match f m, fault with
      | Ok (a, tb), None => (Ok a, kept tb)
      | Ok (a, tb), Some (committed, e) => (Err e, kept (if committed : bool then tb else m))
      | Err e, _ => (Err e, kept m)
      end
  end.

#[export] Instance memory_SubscriptionDatabase : SubscriptionDatabase memory_db :=
  { sd_tables := my_tables; sd_past := my_past; sd_transaction := memory_transaction;
    sd_read A c p d := (match c with Some e => Err e | None => Ok (p (my_tables d)) end, d) }.

Definition memory_others : relation subscription_tables := fun tb tb' => exists s, tb' = arrive s tb.

#[export] Instance memory_laws : SubscriptionDatabaseLaws memory_db memory_others.
Proof.
  split. intros A c f d r d' H. cbn in *. unfold memory_transaction in H.
  destruct c as [e|]; [injection H as <- <-; by exists (my_tables d); split; [|left]|].
  destruct (default (None, None) (head (my_script d))) as [arrives fault].
  set (m := arrive arrives (my_tables d)) in H. exists m. split; [apply rtc_once; by eexists|].
  destruct (f m) as [[a tb]|e] eqn:Ef; [destruct fault as [[[] e]|]|]; injection H as <- <-; cbn; eauto.
Qed.

Lemma memory_leaves k : k <> other -> leaves memory_others k.
Proof.
  intros Hk tb tb' [s ->] Hok. unfold arrive. destruct s as [s|]; [|done].
  destruct (canonicalSubscriptionDeptIDsJSON _) as [c|] eqn:E; [|done]. split.
  - apply put_ok; [done|]. by eapply canonical_is_scope.
  - rewrite subscribed_put. cbn. destruct (gr_DeletedAt s); [by rewrite lookup_delete_ne|by rewrite lookup_insert_ne].
Qed.
End memory_db.

Definition deadlock_number : MySQLErrors := fun e => match e with EMsg "Error 1213" => Some 1213 | _ => None end.
Definition key64 : string := "0123456789abcdef0123456789abcdef0123456789abcdef0123456789abcdef".
Definition sub_param (field : string) (v : value) : TrustedParam := mkTrustedParam field v (mkSource "system" "" "session") 7.
Definition scope_request : OperationRequest :=
  mkOperationRequest "subscription.start" 7 42 "cid-1"
    (<["conversation_id" := sub_param "conversation_id" (VString "cid-1")]>
     (<["scope" := sub_param "scope" (VString "department")]>
      (<["dept_ids" := sub_param "dept_ids" (VInt64s [9; 4; 9])]> ∅))) key64.
Definition env_at (t : Z) : nat -> start_attempt := fun n => mkStartAttempt None (t + Z.of_nat n) (t + Z.of_nat n) None.

(** A group that was subscribed for everybody, a new group, and [cid-9]'s
    owner at work; the first commit's answer is lost, the second deadlocks. *)
Definition old_subscription : GroupAttendanceSubscription :=
  mkSubscription 7 "cid-1" "room" 42 "" true (instant 2026 3 1 9 0 0 0) None.
Definition tables7 : subscription_tables := mkTables (<[sub_key (DC := mysql) 7 "cid-1" := old_subscription]> ∅) ∅.
Definition db7 : memory_db :=
  mkMemoryDB tables7 []
    [(Some (mkSubscription 7 "cid-9" "other" 1 "[3]" true 0 None), Some (true, EMsg "bad connection"));
     (None, Some (false, EMsg "Error 1213"))].
Definition deps7 : operationExecutorDeps memory_db unit := mkDeps None None None None None None.
Definition tries7 : list (db_ctx * (nat -> start_attempt)) :=
  [(ctx7, env_at 100); (ctx7, env_at 200); (ctx7, env_at 300)].

Lemma tables7_ok : tables_ok (sd_tables (SubscriptionDatabase := memory_SubscriptionDatabase (7, "cid-9")) db7).
Proof. apply map_Forall_insert_2; [constructor|apply map_Forall_empty]. Qed.

Lemma subscription_transactions_refine_witness :
  let sub := mkSubscription 7 " cid-1" "room" 42 "[9,4]" false 0 None in
  subscribed tables7 = <[(7, "cid-1") := ""]> ∅
  /\ exists mutation tb', applyStartOnce (DC := mysql) 5 6 sub "[4,9]" key64 tables7 = Ok (mutation, tb')
     /\ subscribed tb' = <[(7, "cid-1") := "[4,9]"]> ∅ /\ sm_Effect mutation = GroupSubscriptionUpdated.
Proof.
  split; [vm_compute; reflexivity|].
  destruct (subscription_transactions_refine (DC := mysql) 5 6 tables7
    (mkSubscription 7 " cid-1" "room" 42 "[9,4]" false 0 None) "[4,9]" key64 tables7_ok
    (scope_departments [4; 9] ltac:(done) eq_refl ltac:(repeat constructor) ltac:(repeat constructor)) eq_refl)
    as [(mu & tb' & E & _ & Hs & He & _) _].
  exists mu, tb'. split; [exact E|]. rewrite Hs, He. split; vm_compute; reflexivity.
Defined.

Lemma repeated_write_converges_witness :
  let DB := memory_SubscriptionDatabase (7, "cid-9") in
  let o := execute_all (DC := mysql) (ME := deadlock_number) (DB := DB) (fun _ => "") deps7 scope_request tries7 db7 in
  List.map oe_Effect o.1 = [""; "no_op"; "no_op"]
  /\ subscribed (sd_tables o.2) !! (7, "cid-1") = Some "[4,9]".
Proof.
  intros DB o. split; [vm_compute; reflexivity|].
  apply (repeated_write_converges (DC := mysql) (ME := deadlock_number) (DB := DB) (memory_others (7, "cid-9"))
    (DBL := memory_laws (7, "cid-9"))
    (fun _ => "") deps7 scope_request "cid-1" [9; 4; 9] tries7 db7 (7, "cid-1")).
  - by left.
  - split; [vm_compute; reflexivity|right; vm_compute; reflexivity].
  - intros _. right. split; vm_compute; reflexivity.
  - exact tables7_ok.
  - by apply memory_leaves.
  - reflexivity.
  - right. left. vm_compute. discriminate.
Defined.

Lemma legacy_key_agrees_witness :
  exists key, subscriptionBusinessKeyForRequest scope_request = Ok key
    /\ legacySubscriptionBusinessKey 7 "cid-1" "subscription.start" [9; 4; 9] = key.
Proof.
  assert (exists k, subscriptionBusinessKey scope_request = Ok k) as [k Hk] by (eexists; vm_compute; reflexivity).
  assert (subscriptionBusinessKeyForRequest scope_request = Ok (sha256_hex (business_key_text k))) as E
    by (unfold subscriptionBusinessKeyForRequest; by rewrite Hk).
  exists (sha256_hex (business_key_text k)). split; [exact E|exact (legacy_key_agrees scope_request _ E)].
Defined.
