(* ===== verification/Clients.v ===== *)
(** * DingTalk clients of tenants

    internal/service/dingtalk_client_manager.go, stream_client_manager.go and
    internal/repository/tenant_repository.go: a tenant's client is made once and
    kept; its stream connection is started, supervised and stopped.  What the
    code does between two locks is one step of a call, so that calls can be
    interleaved. *)
From Stdlib Require Import ZArith Lia Bool String.
From stdpp Require Import base list strings gmap sorting.
From S2P Require Import Prelude GoStrings GoTime Repository.
#[local] Open Scope Z_scope.
#[local] Open Scope go_scope.

(** ** Tenants *)

Record Tenant := mkTenant {
  tn_ID : Z; tn_CorpID : string; tn_Name : string; tn_AppKey : string; tn_AppSecret : string; tn_AgentID : string;
  tn_Status : Z }.
#[global] Instance tenant_eq_dec : EqDecision Tenant.
Proof. solve_decision. Defined.
Notation tenant_table := (gmap Z Tenant).

Definition ErrTenantNotFound : err := ESentinel "ErrTenantNotFound".

(** The rows a statement selects; [tdb_table] is the table behind it. *)
Class TenantDatabase (D : Type) := {
  tdb_table : D -> tenant_table;
  tdb_rows : (Tenant -> bool) -> ST D (list Tenant)
}.

Definition tenant_le (t1 t2 : Tenant) : Prop := tn_ID t1 <= tn_ID t2.
#[global] Instance tenant_le_dec t1 t2 : Decision (tenant_le t1 t2).
Proof. unfold tenant_le. apply _. Defined.

Section tenants.
Context `{DC : DatabaseConventions} {D : Type} `{TD : TenantDatabase D}.

(** [ORDER BY id], and the first of them. *)
Definition tenants_by_id (p : Tenant -> bool) : ST D (list Tenant) :=
  rows <~ tdb_rows p ;; st_ret (merge_sort tenant_le rows).
Definition first_tenant (p : Tenant -> bool) : ST D Tenant :=
  rows <~ tenants_by_id p ;; match rows with t :: _ => st_ret t | [] => st_fail ErrTenantNotFound end.

Definition FindActiveByCorpID (corpID : string) : ST D Tenant :=
  let corpID := trim_space corpID in
  if eqs corpID "" then st_fail ErrTenantNotFound
  else first_tenant (fun t => text_eq (tn_CorpID t) corpID && (tn_Status t =? 1)).
Definition FindTenantByID (id : Z) : ST D Tenant :=
  if id =? 0 then st_fail ErrTenantNotFound else first_tenant (fun t => (tn_ID t =? id) && (tn_Status t =? 1)).
Definition ListActiveTenants : ST D (list Tenant) := tenants_by_id (fun t => tn_Status t =? 1).
End tenants.

(** ** The client cache *)

(** A client is the object a pointer points to, made from credentials. *)
Record Client := mkClient { cl_pointer : Z; cl_appKey : string; cl_appSecret : string }.
Record dingTalkEntry := mkEntry { en_tenant : Tenant; en_client : Client }.
Record DingTalkClientManager := mkManager { dm_byTenant : gmap Z dingTalkEntry; dm_byCorpID : gmap string Z }.
Definition NewDingTalkClientManager : DingTalkClientManager := mkManager ∅ ∅.

Definition errTenantRequired : err := EMsg "钉钉租户: 缺少 tenant_id".
Definition errCorpRequired : err := EMsg "钉钉租户: 缺少 corp_id".
Definition ErrEmptyCredentials : err := ESentinel "ErrEmptyCredentials".

Definition NewClient (pointer : Z) (appKey appSecret : string) : res Client :=
  if eqs appKey "" || eqs appSecret "" then Err ErrEmptyCredentials else Ok (mkClient pointer appKey appSecret).

Inductive client_call : Type :=
  | ByCorpID (corpID : string)     (* GetByCorpID *)
  | ByTenantID (tenantID : Z).     (* GetByTenantID *)
(** Where a call is: before its first lookup, before its query, before the
    second lookup, before it makes a client, before it publishes it, done. *)
Inductive phase : Type :=
  | Called (c : client_call)
  | Missed (c : client_call)
  | Found (tenant : Tenant)
  | Absent (tenant : Tenant)
  | Created (entry : dingTalkEntry)
  | Answered (r : res dingTalkEntry).

Definition first_lookup (c : client_call) (m : DingTalkClientManager) : phase :=
  match c with
  | ByCorpID corpID =>
      let corpID := trim_space corpID in
      if eqs corpID "" then Answered (Err errCorpRequired)
      else match dm_byCorpID m !! corpID ≫= fun tenantID => dm_byTenant m !! tenantID with
           | Some e => Answered (Ok e)
           | None => Missed c
           end
  | ByTenantID tenantID =>
      if tenantID =? 0 then Answered (Err errTenantRequired)
      else match dm_byTenant m !! tenantID with Some e => Answered (Ok e) | None => Missed c end
  end.
Definition tenant_found (r : res Tenant) : phase :=
  match r with
  | Err e => Answered (Err e)
  | Ok tenant => if tn_ID tenant =? 0 then Answered (Err ErrTenantNotFound) else Found tenant
  end.
Definition double_check (tenant : Tenant) (m : DingTalkClientManager) : phase :=
  match dm_byTenant m !! tn_ID tenant with Some e => Answered (Ok e) | None => Absent tenant end.
(** Under the write lock: the entry of somebody who was faster, or one's own. *)
Definition publish (entry : dingTalkEntry) (m : DingTalkClientManager) : dingTalkEntry * DingTalkClientManager :=
  let tenant := en_tenant entry in
  match dm_byTenant m !! tn_ID tenant with
  | Some existing => (existing, m)
  | None =>
      let corpID := trim_space (tn_CorpID tenant) in
      (entry, mkManager (<[tn_ID tenant := entry]> (dm_byTenant m))
                (if eqs corpID "" then dm_byCorpID m else <[corpID := tn_ID tenant]> (dm_byCorpID m)))
  end.

Definition InvalidateByTenantID (tenantID : Z) (m : DingTalkClientManager) : DingTalkClientManager :=
  if tenantID =? 0 then m
  else
    mkManager (delete tenantID (dm_byTenant m))
      match dm_byTenant m !! tenantID with
      | Some e => let corpID := trim_space (tn_CorpID (en_tenant e)) in
                  if eqs corpID "" then dm_byCorpID m else delete corpID (dm_byCorpID m)
      | None => dm_byCorpID m
      end.
Definition InvalidateByCorpID (corpID : string) (m : DingTalkClientManager) : DingTalkClientManager :=
  let corpID := trim_space corpID in
  if eqs corpID "" then m
  else match dm_byCorpID m !! corpID with
       | Some tenantID => mkManager (delete tenantID (dm_byTenant m)) (delete corpID (dm_byCorpID m))
       | None => m
       end.

(** What calls share: the manager, the next pointer and the database. *)
Record shared D := mkShared { sh_manager : DingTalkClientManager; sh_next : Z; sh_world : D }.
Arguments mkShared {D}. Arguments sh_manager {D}. Arguments sh_next {D}. Arguments sh_world {D}.

Section calls.
Context `{DC : DatabaseConventions} {D : Type} `{TD : TenantDatabase D}.

Definition query (c : client_call) : ST D Tenant :=
  match c with ByCorpID corpID => FindActiveByCorpID corpID | ByTenantID tenantID => FindTenantByID tenantID end.

(** The next step of a call. *)
Definition call_step (p : phase) (s : shared D) : phase * shared D :=
  match p with
  | Called c => (first_lookup c (sh_manager s), s)
  | Missed c => let '(r, w) := query c (sh_world s) in (tenant_found r, mkShared (sh_manager s) (sh_next s) w)
  | Found tenant => (double_check tenant (sh_manager s), s)
  | Absent tenant =>
      match NewClient (sh_next s) (tn_AppKey tenant) (tn_AppSecret tenant) with
      | Err e => (Answered (Err e), s)
      | Ok client => (Created (mkEntry tenant client), mkShared (sh_manager s) (sh_next s + 1) (sh_world s))
      end
  | Created entry =>
      let '(e, m) := publish entry (sh_manager s) in (Answered (Ok e), mkShared m (sh_next s) (sh_world s))
  | Answered r => (Answered r, s)
  end.

(** A call by itself; five steps are enough ([ClientsSpec.call_answers]). *)
Fixpoint advances (n : nat) (p : phase) (s : shared D) : phase * shared D :=
  match n with O => (p, s) | S n => let '(p, s) := call_step p s in advances n p s end.
Definition run_client_call (c : client_call) : ST (shared D) dingTalkEntry := fun s =>
  match advances 5 (Called c) s with
  | (Answered r, s) => (r, s)
  | (_, s) => (Err (EMsg "unreachable"), s)
  end.
Definition manager_GetByCorpID (corpID : string) : ST (shared D) dingTalkEntry := run_client_call (ByCorpID corpID).
Definition manager_GetByTenantID (tenantID : Z) : ST (shared D) dingTalkEntry := run_client_call (ByTenantID tenantID).
(** [None]: the context has no tenant. *)
Definition FromContext (tenantID : option Z) : ST (shared D) dingTalkEntry :=
  match tenantID with
  | Some id => if id =? 0 then st_fail errTenantRequired else manager_GetByTenantID id
  | None => st_fail errTenantRequired
  end.

(** ** Calls side by side *)

Record system := mkSystem { sy_shared : shared D; sy_calls : gmap Z (client_call * phase) }.
Inductive event : Type :=
  | Begin (i : Z) (c : client_call)
  | Advance (i : Z)
  | Edit (world : D)
  | InvalidateTenant (tenantID : Z)
  | InvalidateCorp (corpID : string).

Definition with_manager (f : DingTalkClientManager -> DingTalkClientManager) (s : shared D) : shared D :=
  mkShared (f (sh_manager s)) (sh_next s) (sh_world s).
Definition happen (s : system) (ev : event) : system :=
  match ev with
  | Begin i c => match sy_calls s !! i with
                 | None => mkSystem (sy_shared s) (<[i := (c, Called c)]> (sy_calls s))
                 | Some _ => s
                 end
  | Advance i => match sy_calls s !! i with
                 | Some (c, p) => let '(p, sh) := call_step p (sy_shared s) in mkSystem sh (<[i := (c, p)]> (sy_calls s))
                 | None => s
                 end
  | Edit world => mkSystem (mkShared (sh_manager (sy_shared s)) (sh_next (sy_shared s)) world) (sy_calls s)
  | InvalidateTenant tenantID => mkSystem (with_manager (InvalidateByTenantID tenantID) (sy_shared s)) (sy_calls s)
  | InvalidateCorp corpID => mkSystem (with_manager (InvalidateByCorpID corpID) (sy_shared s)) (sy_calls s)
  end.
Definition start_system (world : D) : system := mkSystem (mkShared NewDingTalkClientManager 0 world) ∅.
End calls.
Arguments system D : clear implicits.
Arguments event D : clear implicits.

(** ** Stream connections *)

(** A connection with its goroutine; its number stands for the cancel function
    and the client object. *)
Record connection := mkConnection { cn_TenantID : Z; cn_Cancelled : bool }.
Record StreamClientManager := mkStreams {
  sm_clients : gmap Z Z; sm_cancels : gmap Z Z; sm_connections : gmap Z connection; sm_next : Z }.
Definition NewStreamClientManager : StreamClientManager := mkStreams ∅ ∅ ∅ 0.

(** [StartForTenant] up to the write lock, and under it. *)
Definition start_check (tenant : option Tenant) (m : StreamClientManager) : option Tenant :=
  match tenant with
  | None => None
  | Some t =>
      if tn_ID t =? 0 then None
      else match sm_clients m !! tn_ID t with
           | Some _ => None
           | None => if eqs (tn_AppKey t) "" || eqs (tn_AppSecret t) "" then None else Some t
           end
  end.
Definition start_insert (t : Tenant) (m : StreamClientManager) : StreamClientManager :=
  mkStreams (<[tn_ID t := sm_next m]> (sm_clients m)) (<[tn_ID t := sm_next m]> (sm_cancels m))
    (<[sm_next m := mkConnection (tn_ID t) false]> (sm_connections m)) (sm_next m + 1).
Definition StartForTenant (tenant : option Tenant) (m : StreamClientManager) : StreamClientManager :=
  match start_check tenant m with Some t => start_insert t m | None => m end.

Definition cancel (n : Z) (conns : gmap Z connection) : gmap Z connection :=
  alter (fun c => mkConnection (cn_TenantID c) true) n conns.
Definition StopForTenant (tenantID : Z) (m : StreamClientManager) : StreamClientManager :=
  match sm_cancels m !! tenantID with
  | Some n => mkStreams (delete tenantID (sm_clients m)) (delete tenantID (sm_cancels m))
                (cancel n (sm_connections m)) (sm_next m)
  | None => m
  end.
Definition StopAll (m : StreamClientManager) : StreamClientManager :=
  mkStreams ∅ ∅ (foldr cancel (sm_connections m) (List.map snd (map_to_list (sm_cancels m)))) (sm_next m).

Section streams.
Context {D : Type} `{TD : TenantDatabase D}.

Definition StartAll (x : StreamClientManager * D) : res unit * (StreamClientManager * D) :=
  match ListActiveTenants x.2 with
  | (Err e, w) => (Err e, (x.1, w))
  | (Ok tenants, w) => (Ok tt, (fold_left (fun m t => StartForTenant (Some t) m) tenants x.1, w))
  end.
Definition RestartForTenant (tenantID : Z) (x : StreamClientManager * D) : res unit * (StreamClientManager * D) :=
  let m := StopForTenant tenantID x.1 in
  match FindTenantByID tenantID x.2 with
  | (Err e, w) => (Err e, (m, w))
  | (Ok tenant, w) => (Ok tt, (StartForTenant (Some tenant) m, w))
  end.
End streams.

(** ** Supervision *)

Definition initBackoff : Z := 5 * ns_sec.
Definition maxBackoff : Z := 60 * ns_sec.
Definition next_backoff (backoff : Z) : Z :=
  let backoff := backoff * 2 in if maxBackoff <? backoff then maxBackoff else backoff.

(** One turn of the goroutine's loop: whether the context was done before the
    connection, what it ended with, whether the context was done then, and
    whether it was done before the wait was over. *)
Record connect_attempt := mkAttempt { at_DoneBefore : bool; at_Result : option err; at_DoneAfter : bool; at_DoneWaiting : bool }.
(** The waits between connections; [None] when the attempts given are used up
    and the loop goes on. *)
Fixpoint supervise (backoff : Z) (attempts : list connect_attempt) : list Z * bool :=
  match attempts with
  | [] => ([], false)
  | a :: attempts =>
      if at_DoneBefore a || at_DoneAfter a then ([], true)
      else match at_Result a with
           | None => ([], true)
           | Some _ =>
               let '(waits, ended) :=
                 supervise (if at_DoneWaiting a then backoff else next_backoff backoff) attempts in
               (backoff :: waits, ended)
           end
  end.
