(* ===== verification/ClientsSpec.v ===== *)
(** * One client per tenant

    Calls of the client cache, interleaved as they may be, agree on a tenant's
    client and are answered for the tenant they asked for; connections are
    recorded as long as starts do not overlap. *)
From Stdlib Require Import ZArith Lia Bool String.
From stdpp Require Import base list strings gmap sorting.
From S2P Require Import Prelude GoStrings GoTime Repository Clients.
#[local] Open Scope Z_scope.
#[local] Open Scope go_scope.

(** A select reads the table, whose rows are where their id says. *)
Class TenantLaws (D : Type) `{TenantDatabase D} : Prop := {
  tdb_ids : forall w k t, tdb_table w !! k = Some t -> tn_ID t = k;
  tdb_reads : forall p w r w', tdb_rows p w = (r, w') ->
    tdb_table w' = tdb_table w
    /\ forall rows, r = Ok rows -> rows ≡ₚ List.filter p (List.map snd (map_to_list (tdb_table w))) }.

Section calls.
Context `{DC : DatabaseConventions} {D : Type} `{TD : TenantDatabase D} `{TL : !TenantLaws D}.
Implicit Types (s : system D) (e : dingTalkEntry) (t : Tenant) (w : D).

(** ** What is read *)

Lemma first_tenant_is p w r w' :
  first_tenant p w = (r, w') ->
  tdb_table w' = tdb_table w
  /\ forall t, r = Ok t -> p t = true /\ tdb_table w !! tn_ID t = Some t.
Proof.
  unfold first_tenant, tenants_by_id. intros E. unfold st_bind in E.
  destruct (tdb_rows p w) as [[rows|e] w1] eqn:Er; destruct (tdb_reads _ _ _ _ Er) as [Ht Hr];
    [|injection E as <- <-; split; [done|discriminate]].
  specialize (Hr rows eq_refl). cbn in E. pose proof (merge_sort_Permutation tenant_le rows) as Hp.
  destruct (merge_sort tenant_le rows) as [|t l]; unfold st_fail, st_ret in E;
    injection E as <- <-; (split; [done|]); [discriminate|].
  intros t' [= <-].
  assert (Hin : t ∈ List.filter p (List.map snd (map_to_list (tdb_table w)))) by (rewrite <- Hr, <- Hp; by left).
  apply list_elem_of_In, filter_In in Hin as [Hin Hpt]. split; [done|].
  apply in_map_iff in Hin as ([k x] & <- & Hin). apply list_elem_of_In, elem_of_map_to_list in Hin. cbn [snd].
  by rewrite (tdb_ids _ _ _ Hin).
Qed.

(** A tenant that was in force in one of the tables. *)
Definition active_in (tbs : list tenant_table) t : Prop :=
  exists tb, tb ∈ tbs /\ tb !! tn_ID t = Some t /\ tn_Status t = 1.
(** The tenant's id and corp id are those that were asked for. *)
Definition asked_tenant (c : client_call) t : Prop :=
  match c with
  | ByTenantID id => tn_ID t = id
  | ByCorpID corpID =>
      text_eq (tn_CorpID t) (trim_space corpID) = true \/ trim_space (tn_CorpID t) = trim_space corpID
  end.
(** An answer is for a tenant that had what was asked for. *)
Definition asked_for tbs (c : client_call) e : Prop :=
  exists t, active_in tbs t /\ asked_tenant c t /\ tn_ID t = tn_ID (en_tenant e).
(** A client made from the credentials of a tenant in force. *)
Definition genuine tbs e : Prop :=
  active_in tbs (en_tenant e) /\ tn_ID (en_tenant e) <> 0
  /\ cl_appKey (en_client e) = tn_AppKey (en_tenant e) /\ cl_appSecret (en_client e) = tn_AppSecret (en_tenant e).

Lemma query_is c w r w' :
  query c w = (r, w') ->
  tdb_table w' = tdb_table w
  /\ forall t, r = Ok t -> asked_tenant c t /\ tn_Status t = 1 /\ tdb_table w !! tn_ID t = Some t.
Proof.
  destruct c as [corpID|id]; cbn [query]; unfold FindActiveByCorpID, FindTenantByID; (case_if; [intros [= <- <-]; done|]);
    intros Hf; destruct (first_tenant_is _ _ _ _ Hf) as [Ht Hr]; (split; [done|]); intros t ->;
    destruct (Hr t eq_refl) as [Hp Hl]; b2p; cbn [asked_tenant]; auto.
Qed.

(** ** The invariant *)

(** The clients in a state: cached, about to be published, answered. *)
Definition phase_entry (p : phase) : option dingTalkEntry :=
  match p with Created e | Answered (Ok e) => Some e | _ => None end.
Definition lives s e : Prop :=
  (exists id, dm_byTenant (sh_manager (sy_shared s)) !! id = Some e)
  \/ exists i c p, sy_calls s !! i = Some (c, p) /\ phase_entry p = Some e.

Definition phase_ok tbs (c : client_call) (p : phase) : Prop :=
  match p with
  | Called c' | Missed c' => c' = c
  | Found t | Absent t => active_in tbs t /\ asked_tenant c t /\ tn_ID t <> 0
  | Created e | Answered (Ok e) => asked_for tbs c e
  | Answered (Err _) => True
  end.

Record good tbs s : Prop := {
  g_world : tdb_table (sh_world (sy_shared s)) ∈ tbs;
  g_cached : forall id e, dm_byTenant (sh_manager (sy_shared s)) !! id = Some e -> tn_ID (en_tenant e) = id;
  g_corp : forall c id, dm_byCorpID (sh_manager (sy_shared s)) !! c = Some id ->
    c <> "" /\ exists e, dm_byTenant (sh_manager (sy_shared s)) !! id = Some e /\ trim_space (tn_CorpID (en_tenant e)) = c;
  g_calls : forall i c p, sy_calls s !! i = Some (c, p) -> phase_ok tbs c p;
  g_lives : forall e, lives s e -> genuine tbs e /\ cl_pointer (en_client e) < sh_next (sy_shared s);
  g_one : forall e1 e2, lives s e1 -> lives s e2 -> cl_pointer (en_client e1) = cl_pointer (en_client e2) -> e1 = e2 }.

Definition more (tbs tbs' : list tenant_table) : Prop := forall tb, tb ∈ tbs -> tb ∈ tbs'.
Lemma active_more tbs tbs' t : more tbs tbs' -> active_in tbs t -> active_in tbs' t.
Proof. intros H (tb & Htb & Ht). exists tb. split; [by apply H|done]. Qed.
Lemma phase_ok_more tbs tbs' c p : more tbs tbs' -> phase_ok tbs c p -> phase_ok tbs' c p.
Proof.
  intros H. destruct p as [| |t|t|e|[e|]]; cbn; try done.
  1,2: intros (H1 & H2 & H3); eauto using active_more.
  all: intros (t & H1 & H2); exists t; eauto using active_more.
Qed.
Lemma genuine_more tbs tbs' e : more tbs tbs' -> genuine tbs e -> genuine tbs' e.
Proof. intros H (Ha & Hr). split; [by eapply active_more|done]. Qed.

(** A call moves on while the cache stays: what it holds lived already or was
    made just now. *)
Lemma good_set tbs sh calls i c p sh' p' :
  good tbs (mkSystem sh calls) -> calls !! i = Some (c, p) ->
  sh_manager sh' = sh_manager sh -> tdb_table (sh_world sh') = tdb_table (sh_world sh) -> sh_next sh <= sh_next sh' ->
  phase_ok tbs c p' ->
  (forall e, phase_entry p' = Some e ->
     lives (mkSystem sh calls) e \/ genuine tbs e /\ cl_pointer (en_client e) = sh_next sh /\ sh_next sh < sh_next sh') ->
  good tbs (mkSystem sh' (<[i := (c, p')]> calls)).
Proof.
  intros [Gw Gc Gk Gp Gl Go] Hi Hm Ht Hn Hp He. cbn in *.
  assert (Hl : forall e, lives (mkSystem sh' (<[i := (c, p')]> calls)) e ->
            lives (mkSystem sh calls) e \/ genuine tbs e /\ cl_pointer (en_client e) = sh_next sh /\ sh_next sh < sh_next sh'
                                            /\ phase_entry p' = Some e).
  { intros e [[id Hid]|(j & d & q & Hj & Hq)]; cbn in *; [left; left; exists id; cbn; congruence|].
    destruct (decide (i = j)) as [<-|Hne].
    - rewrite lookup_insert_eq in Hj. injection Hj as <- <-. destruct (He e Hq) as [|(? & ? & ?)]; auto.
    - rewrite lookup_insert_ne in Hj by done. left. right. by exists j, d, q. }
  split; cbn.
  - by rewrite Ht.
  - intros id e. rewrite Hm. apply Gc.
  - intros k id. rewrite Hm. apply Gk.
  - intros j d q. destruct (decide (i = j)) as [<-|Hne].
    + rewrite lookup_insert_eq. by intros [= <- <-].
    + rewrite lookup_insert_ne by done. apply Gp.
  - intros e [Hle|(Hg & Hq & Hlt & _)]%Hl; [|split; [done|lia]]. destruct (Gl e Hle). split; [done|lia].
  - intros e1 e2 [H1|(_ & Q1 & _ & P1)]%Hl [H2|(_ & Q2 & _ & P2)]%Hl Hq.
    + by apply Go.
    + destruct (Gl _ H1). lia.
    + destruct (Gl _ H2). lia.
    + congruence.
Qed.

(** A change of the cache that drops entries, or adds one that lives. *)
Lemma good_manager tbs sh calls m :
  good tbs (mkSystem sh calls) ->
  (forall id e, dm_byTenant m !! id = Some e -> lives (mkSystem sh calls) e /\ tn_ID (en_tenant e) = id) ->
  (forall k id, dm_byCorpID m !! k = Some id ->
     k <> "" /\ exists e, dm_byTenant m !! id = Some e /\ trim_space (tn_CorpID (en_tenant e)) = k) ->
  good tbs (mkSystem (with_manager (fun _ => m) sh) calls).
Proof.
  intros [Gw Gc Gk Gp Gl Go] Ht Hk.
  assert (Hl : forall e, lives (mkSystem (with_manager (fun _ => m) sh) calls) e -> lives (mkSystem sh calls) e).
  { intros e [[id Hid]|H]; [by apply (Ht id)|by right]. }
  split; cbn; try done; [by intros id e [_ H]%Ht|by intros e H%Hl%Gl|intros e1 e2 H1%Hl H2%Hl; by apply Go].
Qed.

Lemma good_invalid_tenant tbs sh calls id :
  good tbs (mkSystem sh calls) -> good tbs (mkSystem (with_manager (InvalidateByTenantID id) sh) calls).
Proof.
  intros G. pose proof G as [Gw Gc Gk Gp Gl Go]. cbn in *. apply (good_manager tbs sh calls (InvalidateByTenantID id (sh_manager sh)) G).
  - unfold InvalidateByTenantID. case_if; cbn; [intros j e Hj|intros j e [Hne Hj]%lookup_delete_Some];
      (split; [left; by exists j|by apply Gc]).
  - unfold InvalidateByTenantID. case_if; [apply Gk|]. cbn. intros k j Hk.
    assert (Hj : dm_byCorpID (sh_manager sh) !! k = Some j
                 /\ forall e, dm_byTenant (sh_manager sh) !! id = Some e -> trim_space (tn_CorpID (en_tenant e)) = k -> k = "").
    { destruct (dm_byTenant (sh_manager sh) !! id) as [e|]; [|split; [done|done]].
      destruct (eqs (trim_space (tn_CorpID (en_tenant e))) "") eqn:Ee.
      - split; [done|]. intros e' [= <-] <-. by apply eqs_true in Ee.
      - apply lookup_delete_Some in Hk as [Hne Hk]. split; [done|]. by intros e' [= <-] Hc'. }
    destruct Hj as [Hj Hx]. destruct (Gk _ _ Hj) as [Hk0 (e & He & Hc)]. split; [done|]. exists e. split; [|done].
    rewrite lookup_delete_ne; [done|]. intros <-. by apply Hk0, (Hx _ He).
Qed.

Lemma good_invalid_corp tbs sh calls corp :
  good tbs (mkSystem sh calls) -> good tbs (mkSystem (with_manager (InvalidateByCorpID corp) sh) calls).
Proof.
  intros G. pose proof G as [Gw Gc Gk Gp Gl Go]. cbn in *. apply (good_manager tbs sh calls (InvalidateByCorpID corp (sh_manager sh)) G).
  - unfold InvalidateByCorpID. intros j e Hj. assert (Hj' : dm_byTenant (sh_manager sh) !! j = Some e).
    { destruct (eqs _ _); [done|]. destruct (dm_byCorpID _ !! _); [|done]. cbn in Hj. by apply lookup_delete_Some in Hj as [_ Hj]. }
    split; [left; by exists j|by apply Gc].
  - unfold InvalidateByCorpID. destruct (eqs _ _); [apply Gk|]. destruct (dm_byCorpID _ !! trim_space corp) as [id|] eqn:E; [|apply Gk].
    cbn. intros k j [Hne Hk]%lookup_delete_Some. destruct (Gk _ _ Hk) as [Hk0 (e & He & Hc)]. split; [done|].
    exists e. split; [|done]. rewrite lookup_delete_ne; [done|]. intros <-.
    destruct (Gk _ _ E) as [_ (e' & He' & Hc')]. congruence.
Qed.

(** ** The steps *)

Lemma good_lookup tbs sh calls c :
  good tbs (mkSystem sh calls) -> phase_ok tbs c (first_lookup c (sh_manager sh))
  /\ forall e, phase_entry (first_lookup c (sh_manager sh)) = Some e -> lives (mkSystem sh calls) e.
Proof.
  intros [Gw Gc Gk Gp Gl Go]. cbn in *.
  assert (Ha : forall id e, dm_byTenant (sh_manager sh) !! id = Some e -> asked_tenant c (en_tenant e) ->
            phase_ok tbs c (Answered (Ok e)) /\ lives (mkSystem sh calls) e).
  { intros id e He Hc. assert (Hl : lives (mkSystem sh calls) e) by (left; by exists id). split; [|done].
    exists (en_tenant e). by destruct (Gl e Hl) as [[Ht _] _]. }
  destruct c as [corpID|id]; cbn [first_lookup]; (case_if; [done|]).
  - destruct (dm_byCorpID _ !! _) as [id|] eqn:Ek; [|done]. cbn. destruct (dm_byTenant _ !! id) as [e|] eqn:Ee; [|done].
    destruct (Gk _ _ Ek) as [_ (e' & He' & Hc)]. destruct (Ha id e Ee) as [H1 H2]; [right; congruence|].
    split; [done|]. by intros ? [= <-].
  - destruct (dm_byTenant _ !! id) as [e|] eqn:Ee; [|done]. destruct (Ha id e Ee) as [H1 H2]; [by apply Gc|].
    split; [done|]. by intros ? [= <-].
Qed.

Lemma good_publish tbs sh calls i c e :
  good tbs (mkSystem sh calls) -> calls !! i = Some (c, Created e) ->
  let '(e', m) := publish e (sh_manager sh) in
  good tbs (mkSystem (with_manager (fun _ => m) sh) (<[i := (c, Answered (Ok e'))]> calls)).
Proof.
  intros G Hi. pose proof G as [Gw Gc Gk Gp Gl Go]. cbn in *. pose proof (Gp _ _ _ Hi) as (t & Ht & Ha & Eid).
  assert (Hl : lives (mkSystem sh calls) e) by (right; by exists i, c, (Created e)).
  unfold publish. destruct (dm_byTenant (sh_manager sh) !! tn_ID (en_tenant e)) as [e'|] eqn:Ee.
  - apply (good_set tbs sh calls i c (Created e)); try done.
    + exists t. by rewrite (Gc _ _ Ee).
    + intros x [= <-]. left. left. by exists (tn_ID (en_tenant e)).
  - set (m := mkManager _ _). assert (Gm : good tbs (mkSystem (with_manager (fun _ => m) sh) calls)).
    { apply good_manager; [done|..]; cbn.
      - intros id x [[<- <-]|[Hne Hx]]%lookup_insert_Some; [by split|]. split; [left; by exists id|by apply Gc].
      - assert (Hold : forall k id, dm_byCorpID (sh_manager sh) !! k = Some id -> k <> "" /\ exists x,
                  <[tn_ID (en_tenant e) := e]> (dm_byTenant (sh_manager sh)) !! id = Some x
                  /\ trim_space (tn_CorpID (en_tenant x)) = k).
        { intros k id Hk. destruct (Gk _ _ Hk) as [Hk0 (x & Hx & Hc)]. split; [done|]. exists x. split; [|done].
          rewrite lookup_insert_ne; [done|]. intros <-. congruence. }
        case_if; [apply Hold|]. intros k id [[<- <-]|[Hne Hk]]%lookup_insert_Some; [|by apply Hold].
        split; [by apply eqs_false|]. exists e. by rewrite lookup_insert_eq. }
    apply (good_set tbs (with_manager (fun _ => m) sh) calls i c (Created e)); try done.
    + by exists t.
    + intros x [= <-]. left. right. by exists i, c, (Created e).
Qed.

Lemma good_advance tbs sh calls i c p :
  good tbs (mkSystem sh calls) -> calls !! i = Some (c, p) ->
  let '(p', sh') := call_step p sh in good tbs (mkSystem sh' (<[i := (c, p')]> calls)).
Proof.
  intros G Hi. pose proof G as [Gw Gc Gk Gp Gl Go]. cbn in *. pose proof (Gp _ _ _ Hi) as Hp.
  destruct p as [c'|c'|t|t|e|r]; cbn [call_step phase_ok] in *; subst.
  - destruct (good_lookup tbs sh calls c G) as [H1 H2]. apply (good_set tbs sh calls i c (Called c)); auto using Z.le_refl.
  - destruct (query c (sh_world sh)) as [r w'] eqn:E. destruct (query_is _ _ _ _ E) as [Et Hr].
    apply (good_set tbs sh calls i c (Missed c)); cbn; auto using Z.le_refl.
    + destruct r as [t|e]; cbn; [|done]. case_if; [done|]. b2p. destruct (Hr t eq_refl) as (H1 & H2 & H3).
      split_and!; [by exists (tdb_table (sh_world sh))|done..].
    + intros e. destruct r as [t|e']; cbn; [|done]. by case_if.
  - apply (good_set tbs sh calls i c (Found t)); auto using Z.le_refl; unfold double_check;
      destruct (dm_byTenant _ !! _) as [e|] eqn:Ee; try done.
    + exists t. destruct Hp as (? & ? & ?). by rewrite (Gc _ _ Ee).
    + intros x [= <-]. left. left. by exists (tn_ID t).
  - destruct Hp as (Ha & Hc & Hz). unfold NewClient. case_if.
    + apply (good_set tbs sh calls i c (Absent t)); auto using Z.le_refl; done.
    + apply (good_set tbs sh calls i c (Absent t)); cbn; auto; [lia|by exists t|].
      intros x [= <-]. right. cbn. split_and!; [done..|lia].
  - pose proof (good_publish tbs sh calls i c e G Hi) as H. by destruct (publish e (sh_manager sh)).
  - apply (good_set tbs sh calls i c (Answered r)); auto using Z.le_refl. intros e He. left. right. by exists i, c, (Answered r).
Qed.

(** ** Runs *)

(** The tables the database has had. *)
Definition tables (w : D) (evs : list (event D)) : list tenant_table :=
  tdb_table w :: omap (fun ev => match ev with Edit w => Some (tdb_table w) | _ => None end) evs.
Definition run_events (w : D) (evs : list (event D)) : system D := fold_left happen evs (start_system w).

Lemma good_more tbs tbs' s : more tbs tbs' -> good tbs s -> good tbs' s.
Proof.
  intros Hm [Gw Gc Gk Gp Gl Go]. split; auto.
  - intros i c p Hi. eauto using phase_ok_more.
  - intros e He. destruct (Gl e He). eauto using genuine_more.
Qed.

Lemma good_happen tbs s ev :
  good tbs s -> good (tbs ++ omap (fun ev => match ev with Edit w => Some (tdb_table w) | _ => None end) [ev]) (happen s ev).
Proof.
  intros G. assert (G' : good (tbs ++ omap (fun ev => match ev with Edit w => Some (tdb_table w) | _ => None end) [ev]) s).
  { eapply good_more; [|exact G]. intros tb Htb. apply elem_of_app. by left. }
  destruct s as [sh calls]. destruct ev as [i c|i|w|id|corp]; cbn [happen sy_shared sy_calls].
  - destruct (calls !! i) eqn:Ei; [done|]. destruct G' as [Gw Gc Gk Gp Gl Go]. cbn in *.
    assert (Hl : forall e, lives (mkSystem sh (<[i := (c, Called c)]> calls)) e -> lives (mkSystem sh calls) e).
    { intros e [H|(j & d & q & Hj & Hq)]; [by left|]. cbn in Hj. apply lookup_insert_Some in Hj as [[<- Hj]|[Hne Hj]].
      - by injection Hj as <- <-.
      - right. by exists j, d, q. }
    split; cbn; auto. intros j d q [[<- Hj]|[Hne Hj]]%lookup_insert_Some; [by injection Hj as <- <-|by apply (Gp j)].
  - destruct (calls !! i) as [[c p]|] eqn:Ei; [|done]. pose proof (good_advance _ _ _ _ _ _ G' Ei) as H.
    by destruct (call_step p sh).
  - destruct G' as [Gw Gc Gk Gp Gl Go]. cbn in *. split; cbn; auto. apply elem_of_app. right. by left.
  - by apply good_invalid_tenant.
  - by apply good_invalid_corp.
Qed.

Lemma good_run w evs : good (tables w evs) (run_events w evs).
Proof.
  unfold run_events. induction evs as [|ev evs IH] using rev_ind.
  - split; cbn; try done; [by left|..]; intros e; [|intros e2]; intros [[id H]|(i & c & p & H & _)]; done.
  - rewrite fold_left_app. cbn [fold_left]. unfold tables in *. rewrite omap_app. by apply (good_happen _ _ ev) in IH.
Qed.

(** ** Without invalidation *)

Definition keeps_cache (ev : event D) : Prop :=
  match ev with InvalidateTenant _ | InvalidateCorp _ => False | _ => True end.
(** Every answer is what is cached for its tenant. *)
Definition answers_cached s : Prop := forall i c e,
  sy_calls s !! i = Some (c, Answered (Ok e)) -> dm_byTenant (sh_manager (sy_shared s)) !! tn_ID (en_tenant e) = Some e.

Lemma advance_cached tbs s p :
  good tbs s ->
  let '(p', sh') := call_step p (sy_shared s) in
  (forall id e, dm_byTenant (sh_manager (sy_shared s)) !! id = Some e -> dm_byTenant (sh_manager sh') !! id = Some e)
  /\ forall e, p' = Answered (Ok e) -> p = Answered (Ok e) \/ dm_byTenant (sh_manager sh') !! tn_ID (en_tenant e) = Some e.
Proof.
  intros G. pose proof (g_cached _ _ G) as Gc. destruct s as [sh calls]. cbn in *.
  destruct p as [c|c|t|t|e|r]; cbn [call_step].
  - split; [done|]. intros e He. right. destruct c as [corpID|id]; cbn [first_lookup] in He; case_if_in He; try done.
    + destruct (dm_byCorpID _ !! _) as [id|]; [|done]. cbn in He. destruct (dm_byTenant _ !! id) as [e'|] eqn:Ee; [|done].
      injection He as ->. by rewrite (Gc _ _ Ee).
    + destruct (dm_byTenant _ !! id) as [e'|] eqn:Ee; [|done]. injection He as ->. by rewrite (Gc _ _ Ee).
  - destruct (query c (sh_world sh)) as [r w']. cbn. split; [done|]. intros e He. destruct r as [t|]; cbn in He; [|done].
    by case_if_in He.
  - split; [done|]. intros e He. right. unfold double_check in He. destruct (dm_byTenant _ !! _) as [e'|] eqn:Ee; [|done].
    injection He as ->. by rewrite (Gc _ _ Ee).
  - destruct (NewClient _ _ _); cbn; (split; [done|]); by intros x Hx.
  - unfold publish. destruct (dm_byTenant _ !! tn_ID (en_tenant e)) as [e'|] eqn:Ee; cbn.
    + split; [done|]. intros x [= <-]. right. by rewrite (Gc _ _ Ee).
    + split; [|intros x [= <-]; right; by rewrite lookup_insert_eq].
      intros id x Hx. rewrite lookup_insert_ne; [done|]. intros <-. congruence.
  - split; [done|]. intros e ->. by left.
Qed.

Lemma cached_happen tbs s ev : good tbs s -> keeps_cache ev -> answers_cached s -> answers_cached (happen s ev).
Proof.
  intros G Hk Ha. destruct ev as [i c|i|w|id|corp]; cbn [happen]; try done.
  - destruct (sy_calls s !! i) eqn:Ei; [done|]. intros j d e. cbn.
    intros [[<- Hj]|[Hne Hj]]%lookup_insert_Some; [done|by apply (Ha j d)].
  - destruct (sy_calls s !! i) as [[c p]|] eqn:Ei; [|done]. pose proof (advance_cached tbs s p G) as H.
    destruct (call_step p (sy_shared s)) as [p' sh']. destruct H as [Hkeep Hans]. intros j d e. cbn.
    intros [[<- Hj]|[Hne Hj]]%lookup_insert_Some; [|by apply Hkeep, (Ha j d)].
    injection Hj as <- ->. destruct (Hans e eq_refl) as [->|H]; [|done]. by apply Hkeep, (Ha i c).
Qed.

Lemma cached_run w evs : Forall keeps_cache evs -> answers_cached (run_events w evs).
Proof.
  unfold run_events. induction evs as [|ev evs IH] using rev_ind; [done|].
  intros [H1 H2]%Forall_app. inversion_clear H2. rewrite fold_left_app. cbn [fold_left].
  eapply cached_happen; [apply good_run|done|by apply IH].
Qed.

(** C27: One client per tenant.  However calls interleave with each other, with
    changes of the tenants' table and with invalidations, an answer is for a
    tenant that had the id or corp id asked for, made from the credentials of a
    row that was in force; two tenants never share a client; and as long as
    nothing is invalidated all answers for a tenant are the same one client, so
    that there is one access token per tenant. *)
Theorem one_client_per_tenant w evs i j c d e1 e2 :
  let s := run_events w evs in
  sy_calls s !! i = Some (c, Answered (Ok e1)) -> sy_calls s !! j = Some (d, Answered (Ok e2)) ->
  asked_for (tables w evs) c e1 /\ genuine (tables w evs) e1
  /\ (cl_pointer (en_client e1) = cl_pointer (en_client e2) -> e1 = e2)
  /\ (Forall keeps_cache evs -> tn_ID (en_tenant e1) = tn_ID (en_tenant e2) -> e1 = e2).
Proof.
  intros s H1 H2. pose proof (good_run w evs) as G. fold s in G.
  assert (L1 : lives s e1) by (right; by exists i, c, (Answered (Ok e1))).
  assert (L2 : lives s e2) by (right; by exists j, d, (Answered (Ok e2))).
  split_and!; [exact (g_calls _ _ G _ _ _ H1)|by apply (g_lives _ _ G)|by apply (g_one _ _ G)|].
  intros Hk Hid. pose proof (cached_run w evs Hk) as Ha. apply Ha in H1, H2. fold s in H1, H2. congruence.
Qed.

(** ** Every call is answered *)

Definition rank (p : phase) : nat :=
  match p with Called _ => 5 | Missed _ => 4 | Found _ => 3 | Absent _ => 2 | Created _ => 1 | Answered _ => 0 end.
Lemma advance_rank p (sh : shared D) : (rank (call_step p sh).1 <= pred (rank p))%nat.
Proof.
  destruct p as [c|c|t|t|e|r]; cbn [call_step rank pred]; [..|done].
  - destruct c as [corpID|id]; cbn [first_lookup]; case_if; cbn; [lia|..].
    + destruct (_ ≫= _); cbn; lia.
    + lia.
    + destruct (dm_byTenant _ !! _); cbn; lia.
  - destruct (query c (sh_world sh)) as [[t|] w']; cbn; [case_if; cbn|]; lia.
  - cbn. unfold double_check. destruct (dm_byTenant _ !! _); cbn; lia.
  - destruct (NewClient _ _ _); cbn; lia.
  - destruct (publish e (sh_manager sh)); cbn; lia.
Qed.

(** Five steps of its own are enough for a call, whatever happens between them. *)
Theorem call_answers (i : Z) (c : client_call) s evs p :
  sy_calls s !! i = Some (c, p) ->
  (rank p <= length (List.filter (fun ev => match ev with Advance j => Z.eqb i j | _ => false end) evs))%nat ->
  exists r, sy_calls (fold_left happen evs s) !! i = Some (c, Answered r).
Proof.
  revert s p. induction evs as [|ev evs IH]; intros s p Hi Hn.
  - destruct p; cbn in Hn; try lia. by eexists.
  - cbn [fold_left]. destruct ev as [j d|j|w|id|corp]; cbn in Hn.
    + apply (IH _ p); [|done]. cbn. destruct (sy_calls s !! j) eqn:Ej; [done|]. cbn.
      rewrite lookup_insert_ne; [done|]. intros <-. congruence.
    + destruct (Z.eqb_spec i j) as [<-|Hne].
      * cbn [happen]. rewrite Hi. pose proof (advance_rank p (sy_shared s)) as Hr. destruct (call_step p (sy_shared s)) as [p' sh'].
        apply (IH _ p'); cbn in *; [by rewrite lookup_insert_eq|]. lia.
      * apply (IH _ p); [|done]. cbn. destruct (sy_calls s !! j) as [[d q]|] eqn:Ej; [|done].
        destruct (call_step q (sy_shared s)). cbn. by rewrite lookup_insert_ne.
    + by apply (IH _ p).
    + by apply (IH _ p).
    + by apply (IH _ p).
Qed.

(** A tenant that is cached is served from the cache, whatever its row says now:
    disabling a tenant, or changing its credentials, has no effect on a manager
    that has answered for it before; nothing in the program invalidates. *)
Theorem disabled_tenant_still_served (s : shared D) corp id e w :
  trim_space corp <> "" -> dm_byCorpID (sh_manager s) !! trim_space corp = Some id ->
  dm_byTenant (sh_manager s) !! id = Some e ->
  (manager_GetByCorpID corp (mkShared (sh_manager s) (sh_next s) w)).1 = Ok e.
Proof.
  intros Hc H1 H2. unfold manager_GetByCorpID, run_client_call. cbn [advances call_step first_lookup sh_manager].
  apply eqs_false in Hc. rewrite Hc, H1. cbn. by rewrite H2.
Qed.
End calls.

(** ** Stream connections *)

(** What is recorded for a tenant is its one running connection, and whatever
    runs is recorded. *)
Record recorded (m : StreamClientManager) : Prop := {
  rc_same : sm_clients m = sm_cancels m;
  rc_runs : forall t n, sm_cancels m !! t = Some n -> sm_connections m !! n = Some (mkConnection t false);
  rc_known : forall n c, sm_connections m !! n = Some c -> cn_Cancelled c = false -> sm_cancels m !! cn_TenantID c = Some n;
  rc_fresh : forall n, sm_next m <= n -> sm_connections m !! n = None }.

Lemma cancel_lookup n conns k :
  cancel n conns !! k
  = if decide (k = n) then (fun c => mkConnection (cn_TenantID c) true) <$> conns !! k else conns !! k.
Proof.
  unfold cancel. case_decide; subst; [by rewrite lookup_alter_eq|by rewrite lookup_alter_ne].
Qed.

Lemma recorded_insert t m : recorded m -> sm_clients m !! tn_ID t = None -> recorded (start_insert t m).
Proof.
  intros [Rs Rr Rk Rf] Hn. rewrite Rs in Hn. split; cbn.
  - by rewrite Rs.
  - intros u n [[<- <-]|[Hne Hu]]%lookup_insert_Some; [by rewrite lookup_insert_eq|]. apply Rr in Hu as Hc.
    rewrite lookup_insert_ne; [done|]. intros <-. by rewrite Rf in Hc.
  - intros n c [[<- <-]|[Hne Hc]]%lookup_insert_Some; cbn; [by rewrite lookup_insert_eq|]. intros Hf.
    pose proof (Rk _ _ Hc Hf) as Hx. rewrite lookup_insert_ne; [done|]. intros E. rewrite E in Hn. congruence.
  - intros n Hge. rewrite lookup_insert_ne by lia. apply Rf. lia.
Qed.

Lemma recorded_start tenant m : recorded m -> recorded (StartForTenant tenant m).
Proof.
  intros R. unfold StartForTenant, start_check. destruct tenant as [t|]; [|done]. case_if; [done|].
  destruct (sm_clients m !! tn_ID t) eqn:Ht; [done|]. case_if; [done|]. by apply recorded_insert.
Qed.

Lemma recorded_stop id m : recorded m -> recorded (StopForTenant id m).
Proof.
  intros R. pose proof R as [Rs Rr Rk Rf]. unfold StopForTenant. destruct (sm_cancels m !! id) as [n|] eqn:E; [|done].
  split; cbn.
  - by rewrite Rs.
  - intros t k [Hne Hk]%lookup_delete_Some. rewrite cancel_lookup. pose proof (Rr _ _ Hk) as Hc.
    case_decide; [subst k|done]. rewrite (Rr _ _ E) in Hc. congruence.
  - intros k c. rewrite cancel_lookup. case_decide as Hk; [destruct (sm_connections m !! k); [|done]; by intros [= <-]|].
    intros Hc Hf. pose proof (Rk _ _ Hc Hf) as Hx. rewrite lookup_delete_ne; [done|]. intros ->. congruence.
  - intros k Hge. rewrite cancel_lookup, Rf by done. by case_decide.
Qed.

Lemma cancels_lookup ns conns k :
  foldr cancel conns ns !! k
  = if decide (k ∈ ns) then (fun c => mkConnection (cn_TenantID c) true) <$> conns !! k else conns !! k.
Proof.
  induction ns as [|n ns IH]; cbn [foldr]; [done|]. rewrite cancel_lookup, IH.
  destruct (decide (k = n)) as [->|Hne].
  - rewrite (decide_True (P := n ∈ n :: ns)) by (by left). case_decide; [|done]. by destruct (conns !! n).
  - destruct (decide (k ∈ ns)) as [Hin|Hin].
    + by rewrite (decide_True (P := k ∈ n :: ns)) by (by right).
    + rewrite (decide_False (P := k ∈ n :: ns)); [done|]. intros [?|?]%elem_of_cons; done.
Qed.

(** Starts, stops and restarts, one after the other. *)
Inductive stream_op : Type :=
  | StreamStart (tenant : option Tenant)
  | StreamStop (tenantID : Z)
  | StreamStopAll.
Definition stream_step (m : StreamClientManager) (op : stream_op) : StreamClientManager :=
  match op with StreamStart t => StartForTenant t m | StreamStop id => StopForTenant id m | StreamStopAll => StopAll m end.

Lemma recorded_stop_all m : recorded m -> recorded (StopAll m).
Proof.
  intros [Rs Rr Rk Rf]. split; cbn; [done|done|..].
  - intros n c. rewrite cancels_lookup. case_decide as Hn; [destruct (sm_connections m !! n); [|done]; by intros [= <-]|].
    intros Hc Hf. exfalso. apply Hn. pose proof (Rk _ _ Hc Hf) as Hx. apply list_elem_of_In, in_map_iff.
    exists (cn_TenantID c, n). split; [done|]. by apply list_elem_of_In, elem_of_map_to_list.
  - intros n Hge. rewrite cancels_lookup, Rf by done. by case_decide.
Qed.

(** Every connection that runs is recorded, one per tenant, after any sequence of
    starts and stops that do not overlap; and stopping all leaves none. *)
Theorem connections_recorded ops :
  let m := fold_left stream_step ops NewStreamClientManager in
  recorded m /\ forall n c, sm_connections (StopAll m) !! n = Some c -> cn_Cancelled c = true.
Proof.
  intros m. assert (R : recorded m).
  { unfold m. clear m. assert (R0 : recorded NewStreamClientManager) by (by split).
    revert R0. generalize NewStreamClientManager. induction ops as [|op ops IH]; intros m R; cbn [fold_left]; [done|].
    apply IH. destruct op; cbn [stream_step]; [by apply recorded_start|by apply recorded_stop|by apply recorded_stop_all]. }
  split; [done|]. intros n c Hc. apply not_false_iff_true. intros Hf.
  pose proof (rc_known _ (recorded_stop_all _ R) _ _ Hc Hf) as Hx. cbn in Hx. by rewrite lookup_empty in Hx.
Qed.

(** Two starts that both pass the check before either is recorded leave a
    connection that nothing stops. *)
Theorem overlapping_starts_leak t m :
  tn_ID t <> 0 -> tn_AppKey t <> "" -> tn_AppSecret t <> "" -> recorded m -> sm_clients m !! tn_ID t = None ->
  start_check (Some t) m = Some t
  /\ exists n, sm_connections (StopAll (start_insert t (start_insert t m))) !! n = Some (mkConnection (tn_ID t) false).
Proof.
  intros Hid H1 H2 [Rs Rr Rk Rf] Hn. apply eqs_false in H1, H2. split.
  - unfold start_check. rewrite (proj2 (Z.eqb_neq _ _) Hid), Hn, H1, H2. done.
  - exists (sm_next m). cbn. rewrite cancels_lookup. rewrite decide_False.
    + rewrite lookup_insert_ne by lia. apply lookup_insert_eq.
    + intros [[u n] [E Hin]]%list_elem_of_In%in_map_iff. cbn in E. subst n.
      apply list_elem_of_In, elem_of_map_to_list in Hin. rewrite insert_insert_eq in Hin.
      apply lookup_insert_Some in Hin as [[_ E]|[_ Hin]]; [lia|]. apply Rr in Hin. by rewrite Rf in Hin.
Qed.

(** ** Backing off *)

(** The waits grow from five seconds to a minute and not beyond. *)
Theorem backoff_bounded attempts backoff :
  initBackoff <= backoff <= maxBackoff ->
  Forall (fun b => backoff <= b <= maxBackoff) (supervise backoff attempts).1.
Proof.
  revert backoff. induction attempts as [|a attempts IH]; intros backoff Hb; [constructor|]. cbn [supervise].
  case_if; [constructor|]. destruct (at_Result a); [|constructor].
  assert (Hn : backoff <= (if at_DoneWaiting a then backoff else next_backoff backoff) <= maxBackoff).
  { unfold next_backoff. unfold initBackoff, ns_sec in Hb. destruct (at_DoneWaiting a); [lia|].
    destruct (Z.ltb_spec maxBackoff (backoff * 2)); lia. }
  specialize (IH (if at_DoneWaiting a then backoff else next_backoff backoff)).
  destruct (supervise _ attempts) as [waits ended]. cbn in *. constructor; [lia|].
  eapply Forall_impl; [apply IH; lia|]. cbn. lia.
Qed.

(** ** Two callers of one tenant *)

#[local] Instance tenants_conventions : DatabaseConventions := { db_collate s := s; db_time t := t; db_duplicate _ := false }.
(** A table of at most one tenant, with id 1. *)
#[local] Instance one_tenant_database : TenantDatabase (option Tenant) := {
  tdb_table o := match o with Some t => if tn_ID t =? 1 then {[1 := t]} else ∅ | None => ∅ end;
  tdb_rows p o := (Ok (match o with Some t => if (tn_ID t =? 1) && p t then [t] else [] | None => [] end), o) }.
#[local] Instance one_tenant_laws : TenantLaws (option Tenant).
Proof.
  split.
  - intros [t|] k u; cbn; [|done]. destruct (Z.eqb_spec (tn_ID t) 1) as [E|]; [|done].
    intros [<- <-]%lookup_singleton_Some. done.
  - intros p [t|] r w' [= <- <-]; (split; [done|]); intros rows [= <-]; cbn; [|done].
    destruct (tn_ID t =? 1); [|done]. rewrite map_to_list_singleton. cbn. by destruct (p t).
Qed.

Definition school_tenant : Tenant := mkTenant 1 "corp" "school" "key" "secret" "agent" 1.
(** Both calls pass every lookup before either publishes. *)
Definition racing_calls : list (event (option Tenant)) :=
  [Begin 1 (ByCorpID " corp"); Begin 2 (ByTenantID 1); Advance 1; Advance 2; Advance 1; Advance 2;
   Edit None; Advance 1; Advance 2; Advance 1; Advance 2; Advance 2; Advance 1].
Definition racing_entry : dingTalkEntry := mkEntry school_tenant (mkClient 1 "key" "secret").

Lemma one_client_per_tenant_witness :
  sy_calls (run_events (Some school_tenant) racing_calls) !! 1 = Some (ByCorpID " corp", Answered (Ok racing_entry))
  /\ sy_calls (run_events (Some school_tenant) racing_calls) !! 2 = Some (ByTenantID 1, Answered (Ok racing_entry))
  /\ asked_for (tables (Some school_tenant) racing_calls) (ByCorpID " corp") racing_entry
  /\ sh_next (sy_shared (run_events (Some school_tenant) racing_calls)) = 2.
Proof.
  assert (H1 : sy_calls (run_events (Some school_tenant) racing_calls) !! 1
               = Some (ByCorpID " corp", Answered (Ok racing_entry))) by (vm_compute; reflexivity).
  assert (H2 : sy_calls (run_events (Some school_tenant) racing_calls) !! 2
               = Some (ByTenantID 1, Answered (Ok racing_entry))) by (vm_compute; reflexivity).
  split; [exact H1|]. split; [exact H2|].
  destruct (one_client_per_tenant (Some school_tenant) racing_calls 1 2 _ _ _ _ H1 H2) as [Ha _].
  split; [exact Ha|]. vm_compute. reflexivity.
Defined.
