(* ===== verification/Scheduler.v ===== *)
(** * The attendance scheduler

    internal/scheduler/attendance_scheduler.go: for every active tenant two
    daily jobs per section, the statistics run [delayAfterClassStart] minutes
    after the section starts and the final settlement thirty minutes after it,
    rebuilt when the tenant's timetable changes; and what the jobs do.  A reload
    is given twice: as the function it computes, and in the parts between which
    another goroutine may run, since the cron library fires every entry in a
    goroutine of its own and the scheduler has no lock.  The cron library is a
    class; its entries are what it runs and when. *)
From Stdlib Require Import ZArith Lia Bool String.
From stdpp Require Import base list strings gmap.
From S2P Require Import Prelude GoStrings GoTime Json JsonLax Contract Calendar Settings Attendance Subscription AttendanceText Clients.
#[local] Open Scope Z_scope.
#[local] Open Scope go_scope.

(** ** Jobs *)

(** The closures given to the cron library, with what they capture. *)
Inductive job : Type :=
  | TriggerJob (tenantID section : Z)
  | FinalizeJob (tenantID section : Z)
  | ReloadJob.
#[global] Instance job_eq_dec : EqDecision job.
Proof. solve_decision. Defined.

(** robfig/cron: [AddFunc] gives an entry its id or refuses the expression,
    [Remove] forgets an entry. *)
Class Cron (C : Type) := {
  cron_New : C;
  cron_AddFunc : string -> job -> C -> res Z * C;
  cron_Remove : Z -> C -> C;
  cron_Start : C -> C;
  cron_Entries : C -> gmap Z (string * job)
}.

(** The scheduler's own state. *)
Record AttendanceScheduler (C : Type) := mkScheduler {
  sch_cron : C; sch_tenantJobs : gmap Z (list Z); sch_tenantPeriodKeys : gmap Z string }.
Arguments mkScheduler {C}. Arguments sch_cron {C}. Arguments sch_tenantJobs {C}.
Arguments sch_tenantPeriodKeys {C}.

(** ** Cron expressions *)

(** [time.Parse("15:04:05", s)] as nanoseconds since midnight; a fraction is
    accepted after the seconds. *)
Definition parse_hms_bytes (l : list Z) : option Z :=
  '(h, l) ← get_range 0 23 (getnum false l); l ← expect 58 l;
  '(mi, l) ← get_range 0 59 (getnum true l); l ← expect 58 l;
  '(s, l) ← get_range 0 59 (getnum true l);
  let '(ns, l) := get_frac l in
  match l with [] => Some (h * ns_hour + mi * ns_min + s * ns_sec + ns) | _ => None end.
Definition hm_clock (s : string) : option Z := '(h, mi) ← parse_hm s; Some (h * ns_hour + mi * ns_min).

(** [Hour], [Minute] and [Second] of a time of day that may have left its day. *)
Definition clock_hour (t : Z) : Z := t / ns_hour mod 24.
Definition clock_minute (t : Z) : Z := t / ns_min mod 60.
Definition clock_second (t : Z) : Z := t / ns_sec mod 60.

Definition buildCronExpressionFromTimeWithOffset (timeStr : string) (offsetMinutes : Z) : res string :=
  let startClock :=
    if str_len timeStr =? 8 then
      match parse_hms_bytes (bytes timeStr) with
      | Some t => Ok t | None => Err (EWrap "解析时间失败: %w" (ESentinel "time.ParseError")) end
    else if str_len timeStr =? 5 then
      match hm_clock timeStr with Some t => Ok t | None => Err (EWrap "解析时间失败: %w" (ESentinel "time.ParseError")) end
    else Err (EFmt "无效的时间格式: %s" [timeStr]) in
  start <- startClock ;;
  let t := start + minutes offsetMinutes in
  Ok (itoa (clock_second t) +:+ " " +:+ itoa (clock_minute t) +:+ " " +:+ itoa (clock_hour t) +:+ " * * *").

Definition buildCronExpressionWithOffset (startTimeStr : string) (offsetMinutes : Z) : res string :=
  match hm_clock startTimeStr with
  | None => Err (EWrap "解析上课时间失败: %w" (ESentinel "time.ParseError"))
  | Some start =>
      let t := start + minutes offsetMinutes in
      Ok ("0 " +:+ itoa (clock_minute t) +:+ " " +:+ itoa (clock_hour t) +:+ " * * *")
  end.

(** ** Fingerprints *)

Definition buildPeriodsKey (periods : list SchedulePeriod) : string :=
  join "," (List.map (fun p => itoa (sp_ID p) +:+ ":" +:+ sp_StartTime p) periods).
Definition buildConfigPeriodsKey (periods : list Period) : string :=
  join "," (List.map (fun p => "cfg:" +:+ pd_Start p) periods).

(** Where the jobs of a tenant come from: rows of the database, or the
    configuration file. *)
Inductive timetable : Type :=
  | FromRows (rows : list SchedulePeriod)
  | FromConfig (periods : list Period).
Definition starts_of (t : timetable) : list string :=
  match t with FromRows rows => List.map sp_StartTime rows | FromConfig ps => List.map pd_Start ps end.
Definition key_of (t : timetable) : string :=
  match t with FromRows rows => buildPeriodsKey rows | FromConfig ps => buildConfigPeriodsKey ps end.

(** ** What the scheduler is given *)

(** The DingTalk client of a tenant, for messages of the robot. *)
Record RobotClient W := mkRobot { rc_SendGroupRobotMessage : string -> string -> string -> ST W unit }.
Arguments rc_SendGroupRobotMessage {W}.

Record SchedulerPorts W := mkPorts {
  po_delayAfterClassStart : Z;
  po_scheduleCfg : list Period;
  po_ListActiveTenants : ST W (list Tenant);
  po_FindTenant : Z -> ST W Tenant;
  (* the repositories and services under the tenant's context *)
  po_settings : Z -> SettingsDatabase W;
  po_records : Z -> AttendanceRecordService W;
  po_GetActiveSemester : Z -> ST W Semester;
  po_ListPushEnabled : Z -> ST W (list GroupAttendanceSubscription);
  po_GetByCorpID : string -> ST W (Tenant * RobotClient W);
  po_Now : W -> Z * W }.
Arguments po_delayAfterClassStart {W}. Arguments po_scheduleCfg {W}. Arguments po_ListActiveTenants {W}.
Arguments po_FindTenant {W}. Arguments po_settings {W}. Arguments po_records {W}.
Arguments po_GetActiveSemester {W}. Arguments po_ListPushEnabled {W}. Arguments po_GetByCorpID {W}.
Arguments po_Now {W}.

Section scheduler.
Context `{LOC : Location} `{MO : MapOrder} {C : Type} `{CR : Cron C} {W : Type} (s : SchedulerPorts W).

Definition buildCronExpressionFromTime (timeStr : string) : res string :=
  buildCronExpressionFromTimeWithOffset timeStr (po_delayAfterClassStart s).
Definition buildFinalizeCronExpressionFromTime (timeStr : string) : res string :=
  buildCronExpressionFromTimeWithOffset timeStr 30.
Definition buildCronExpression (startTimeStr : string) : res string :=
  buildCronExpressionWithOffset startTimeStr (po_delayAfterClassStart s).
Definition buildFinalizeCronExpression (startTimeStr : string) : res string :=
  buildCronExpressionWithOffset startTimeStr 30.

(** ** Reloading *)

Definition removeTenantJobs (tenantID : Z) (st : AttendanceScheduler C) : AttendanceScheduler C :=
  match sch_tenantJobs st !! tenantID with
  | None => st
  | Some entryIDs =>
      mkScheduler (fold_left (fun c entryID => cron_Remove entryID c) entryIDs (sch_cron st))
        (delete tenantID (sch_tenantJobs st)) (sch_tenantPeriodKeys st)
  end.

(** The body of the loop over the sections: an expression or an entry that is
    refused ends the section, and what was added stays. *)
Definition add_one (expr : res string) (j : job) (acc : C * list Z) : bool * (C * list Z) :=
  match expr with
  | Err _ => (false, acc)
  | Ok expr =>
      match cron_AddFunc expr j acc.1 with
      | (Err _, c) => (false, (c, acc.2))
      | (Ok entryID, c) => (true, (c, acc.2 ++ [entryID]))
      end
  end.
Definition add_job (expr : res string) (j : job) (next : C * list Z -> C * list Z) (acc : C * list Z) : C * list Z :=
  let '(added, acc) := add_one expr j acc in if added then next acc else acc.
Definition add_section (trigger final : string -> res string) (tenantID section : Z) (start : string)
  : C * list Z -> C * list Z :=
  add_job (trigger start) (TriggerJob tenantID section)
    (add_job (final start) (FinalizeJob tenantID section) id).
Fixpoint add_sections (trigger final : string -> res string) (tenantID section : Z) (starts : list string)
    (acc : C * list Z) : C * list Z :=
  match starts with
  | [] => acc
  | start :: starts =>
      add_sections trigger final tenantID (section + 1) starts
        (add_section trigger final tenantID section start acc)
  end.

(** A known fingerprint leaves everything as it is; a new one is noted, the
    tenant's jobs are removed and those of the new timetable added. *)
Definition rebuild (tenantID : Z) (newKey : string) (trigger final : string -> res string) (starts : list string)
    (st : AttendanceScheduler C) : AttendanceScheduler C :=
  if eqs (default "" (sch_tenantPeriodKeys st !! tenantID)) newKey then st
  else
    let st := removeTenantJobs tenantID
                (mkScheduler (sch_cron st) (sch_tenantJobs st) (<[tenantID := newKey]> (sch_tenantPeriodKeys st))) in
    let '(c, newEntryIDs) := add_sections trigger final tenantID 1 starts (sch_cron st, []) in
    mkScheduler c (<[tenantID := newEntryIDs]> (sch_tenantJobs st)) (sch_tenantPeriodKeys st).

Definition loadTenantScheduleFromConfig (tenantID : Z) (st : AttendanceScheduler C) : AttendanceScheduler C :=
  match po_scheduleCfg s with
  | [] => st
  | periods =>
      rebuild tenantID (buildConfigPeriodsKey periods) buildCronExpression buildFinalizeCronExpression
        (List.map pd_Start periods) st
  end.

Definition reloadTenantSchedule (tenantID : Z) (x : AttendanceScheduler C * W) : AttendanceScheduler C * W :=
  let '(st, w) := x in
  match @ListActive W (po_settings s tenantID) w with
  | (Err _, w) => (loadTenantScheduleFromConfig tenantID st, w)
  | (Ok [], w) => (loadTenantScheduleFromConfig tenantID st, w)
  | (Ok periods, w) =>
      (rebuild tenantID (buildPeriodsKey periods) buildCronExpressionFromTime buildFinalizeCronExpressionFromTime
         (List.map sp_StartTime periods) st, w)
  end.
Definition ReloadTenant := reloadTenantSchedule.

Definition reloadAllTenantSchedules (x : AttendanceScheduler C * W) : AttendanceScheduler C * W :=
  match po_ListActiveTenants s x.2 with
  | (Err _, w) => (x.1, w)
  | (Ok tenants, w) => fold_left (fun x tenant => reloadTenantSchedule (tn_ID tenant) x) tenants (x.1, w)
  end.

Definition NewAttendanceScheduler : AttendanceScheduler C := mkScheduler cron_New ∅ ∅.

Definition with_cron (c : C) (st : AttendanceScheduler C) : AttendanceScheduler C :=
  mkScheduler c (sch_tenantJobs st) (sch_tenantPeriodKeys st).
(** A fresh cron, the tenants' jobs, the reload every ten seconds, and go. *)
Definition Start (x : AttendanceScheduler C * W) : AttendanceScheduler C * W :=
  let '(st, w) := reloadAllTenantSchedules (with_cron cron_New x.1, x.2) in
  let '(_, c) := cron_AddFunc "*/10 * * * * *" ReloadJob (sch_cron st) in
  (with_cron (cron_Start c) st, w).

(** ** The jobs *)

Definition is_enabled (tenantID : Z) (w : W) : bool * W :=
  let '((enabled, _), w) := @IsAttendanceEnabled W (po_settings s tenantID) w in (enabled, w).

(** The week of today, 0 when there is none. *)
Definition week_or_zero (tenantID : Z) (w : W) : Z * W :=
  let '(now, w) := po_Now s w in
  let '((week, e), w) := GetCurrentWeek (po_GetActiveSemester s tenantID) now w in
  (match e with Some _ => 0 | None => week end, w).

(** The departments of a subscription; what was read before an error stays. *)
Definition subscribed_depts (sub : GroupAttendanceSubscription) : list Z :=
  if eqs (gr_DeptIDsJSON sub) "" then []
  else (unmarshal (lax_list (lax_of dec_int64) 0) [] (gr_DeptIDsJSON sub)).1.

Definition push_to (tenantID : Z) (tenant : Tenant) (client : RobotClient W) (result : AttendanceDetailResponse)
    (sub : GroupAttendanceSubscription) (w : W) : W :=
  match FormatAttendanceTextFromDetail (po_records s tenantID) result (subscribed_depts sub) w with
  | (Err _, w) => w
  | (Ok textResp, w) =>
      (rc_SendGroupRobotMessage client (tn_AppKey tenant) (gr_ConversationID sub) (tx_FullText textResp) w).2
  end.
(** Under the context of a tenant. *)
Definition pushToSubscribedGroups (tenantID : Z) (tenant : Tenant) (result : AttendanceDetailResponse) (w : W) : W :=
  match po_ListPushEnabled s (tn_ID tenant) w with
  | (Err _, w) => w
  | (Ok [], w) => w
  | (Ok subs, w) =>
      match po_GetByCorpID s (tn_CorpID tenant) w with
      | (Err _, w) => w
      | (Ok (_, client), w) => fold_left (fun w sub => push_to tenantID tenant client result sub w) subs w
      end
  end.

Definition triggerAttendanceForTenant (tenantID section now : Z) (w : W) : W :=
  let '(enabled, w) := is_enabled tenantID w in
  if negb enabled then w
  else
    match po_FindTenant s tenantID w with
    | (Err _, w) => w
    | (Ok tenant, w) =>
        let '((setting, _), w) := @GetByTenantID W (po_settings s tenantID) w in
        let currentMode := ss_CurrentMode setting in
        let '(week, w) := week_or_zero tenantID w in
        let req := mkDetailRequest (format_date now) week section [] in
        match getAttendanceDetailWithLateUsers (po_records s tenantID) req w with
        | (Err _, w) => w
        | (Ok (result, lateUsers), w) =>
            let '(_, w) := SaveAttendanceRecord (po_records s tenantID) result w in
            let w := pushToSubscribedGroups tenantID tenant result w in
            (SendLateNotifications (po_records s tenantID) (dr_Date result) (dr_Section result)
               (dr_SlotTime result).1 (dr_SlotTime result).2 currentMode lateUsers w).2
        end
    end.

Definition finalizeAttendanceForTenant (tenantID section now : Z) (w : W) : W :=
  let '(enabled, w) := is_enabled tenantID w in
  if negb enabled then w
  else
    match po_FindTenant s tenantID w with
    | (Err _, w) => w
    | (Ok _, w) =>
        let '(_, w) := @GetByTenantID W (po_settings s tenantID) w in
        let '(week, w) := week_or_zero tenantID w in
        (FinalizeAttendanceRecord (po_records s tenantID) (mkDetailRequest (format_date now) week section []) w).2
    end.

(** What an entry runs when it is due. *)
Definition run_job (j : job) (x : AttendanceScheduler C * W) : AttendanceScheduler C * W :=
  match j with
  | TriggerJob tid sec => let '(now, w) := po_Now s x.2 in (x.1, triggerAttendanceForTenant tid sec now w)
  | FinalizeJob tid sec => let '(now, w) := po_Now s x.2 in (x.1, finalizeAttendanceForTenant tid sec now w)
  | ReloadJob => reloadAllTenantSchedules x
  end.

(** ** A reload in parts *)

(** The timetable of a tenant as a reload finds it. *)
Definition timetable_now (tid : Z) (w : W) : option timetable * W :=
  let fallback := match po_scheduleCfg s with [] => None | ps => Some (FromConfig ps) end in
  match @ListActive W (po_settings s tid) w with
  | (Ok (p :: rows), w) => (Some (FromRows (p :: rows)), w)
  | (_, w) => (fallback, w)
  end.
Definition trigger_of (t : timetable) : string -> res string :=
  match t with FromRows _ => buildCronExpressionFromTime | FromConfig _ => buildCronExpression end.
Definition final_of (t : timetable) : string -> res string :=
  match t with FromRows _ => buildFinalizeCronExpressionFromTime | FromConfig _ => buildFinalizeCronExpression end.

(** Where a goroutine is that reloads, with its local variables: before it reads
    the tenants; before it reads the timetable of the next of them; before it
    compares the fingerprint; at the entries it has still to remove; at the
    section it adds, [final] when the settlement is next. *)
Inductive reload_stage : Type :=
  | Listing
  | NextTenant (todo : list Z)
  | Comparing (tid : Z) (t : timetable) (todo : list Z)
  | Removing (tid : Z) (t : timetable) (todo : list Z) (old : list Z)
  | Adding (tid : Z) (t : timetable) (todo : list Z) (section : Z) (starts : list string) (final : bool) (newEntryIDs : list Z).

(** The next part, and where it leaves the goroutine, [None] at its end. *)
Definition reload_part (g : reload_stage) (x : AttendanceScheduler C * W)
  : option reload_stage * (AttendanceScheduler C * W) :=
  let '(st, w) := x in
  match g with
  | Listing =>
      match po_ListActiveTenants s w with
      | (Err _, w) => (None, (st, w))
      | (Ok tenants, w) => (Some (NextTenant (List.map tn_ID tenants)), (st, w))
      end
  | NextTenant [] => (None, (st, w))
  | NextTenant (tid :: todo) =>
      match timetable_now tid w with
      | (None, w) => (Some (NextTenant todo), (st, w))
      | (Some t, w) => (Some (Comparing tid t todo), (st, w))
      end
  | Comparing tid t todo =>
      if eqs (default "" (sch_tenantPeriodKeys st !! tid)) (key_of t) then (Some (NextTenant todo), (st, w))
      else (Some (Removing tid t todo (default [] (sch_tenantJobs st !! tid))),
            (mkScheduler (sch_cron st) (sch_tenantJobs st) (<[tid := key_of t]> (sch_tenantPeriodKeys st)), w))
  | Removing tid t todo (entryID :: old) =>
      (Some (Removing tid t todo old),
       (mkScheduler (cron_Remove entryID (sch_cron st)) (sch_tenantJobs st) (sch_tenantPeriodKeys st), w))
  | Removing tid t todo [] =>
      (Some (Adding tid t todo 1 (starts_of t) false []),
       (mkScheduler (sch_cron st) (delete tid (sch_tenantJobs st)) (sch_tenantPeriodKeys st), w))
  | Adding tid t todo section [] _ newEntryIDs =>
      (Some (NextTenant todo),
       (mkScheduler (sch_cron st) (<[tid := newEntryIDs]> (sch_tenantJobs st)) (sch_tenantPeriodKeys st), w))
  | Adding tid t todo section (start :: starts) final newEntryIDs =>
      let '(added, (c, newEntryIDs)) :=
        if final then add_one (final_of t start) (FinalizeJob tid section) (sch_cron st, newEntryIDs)
        else add_one (trigger_of t start) (TriggerJob tid section) (sch_cron st, newEntryIDs) in
      (Some (if added && negb final then Adding tid t todo section (start :: starts) true newEntryIDs
             else Adding tid t todo (section + 1) starts false newEntryIDs),
       (mkScheduler c (sch_tenantJobs st) (sch_tenantPeriodKeys st), w))
  end.

(** The scheduler, the world and the reloads that are under way. *)
Definition scheduler_system : Type := AttendanceScheduler C * W * list reload_stage.
Definition settle_stage (i : nat) (g : option reload_stage) (pool : list reload_stage) : list reload_stage :=
  match g with Some g => <[i := g]> pool | None => delete i pool end.

(** What may happen next: the world changes; somebody asks for the reload of a
    tenant; an entry of the cron library fires, and the reload begins while the
    other jobs, which leave the scheduler alone, do to the world what they do; a
    reload goes on. *)
Inductive system_step : scheduler_system -> scheduler_system -> Prop :=
  | step_world st w w' pool : system_step (st, w, pool) (st, w', pool)
  | step_reload tid st w pool : system_step (st, w, pool) (st, w, pool ++ [NextTenant [tid]])
  | step_due n e st w pool :
      cron_Entries (sch_cron st) !! n = Some e ->
      system_step (st, w, pool)
        (match e.2 with ReloadJob => (st, w, pool ++ [Listing]) | j => (run_job j (st, w), pool) end)
  | step_part i g st w pool :
      pool !! i = Some g ->
      system_step (st, w, pool) ((reload_part g (st, w)).2, settle_stage i (reload_part g (st, w)).1 pool).
End scheduler.
