(* ===== verification/SchedulerSpec.v ===== *)
(** * The scheduler keeps the jobs of the timetables

    Whatever runs between the parts of a reload, as long as no two reloads
    overlap, the entries of the cron library are the jobs recorded for the
    tenants and nothing else but the jobs just being replaced, and the jobs of a
    tenant are those of the timetable whose fingerprint is recorded; two reloads
    that overlap leak jobs.  A run saves, pushes and notifies one and the same
    accounted detail. *)
From Stdlib Require Import ZArith Lia Bool String.
From stdpp Require Import base list strings gmap.
From S2P Require Import Prelude GoStrings GoTime Json JsonLax Contract CodecSpec Calendar Settings Attendance AttendanceSpec Subscription SubscriptionSpec AttendanceText Clients Scheduler.
#[local] Open Scope Z_scope.
#[local] Open Scope go_scope.

(** ** Joined fingerprints *)

Lemma before_separator {A} (c : A) a1 a2 r1 r2 :
  c ∉ a1 -> c ∉ a2 -> a1 ++ c :: r1 = a2 ++ c :: r2 -> a1 = a2 /\ r1 = r2.
Proof.
  revert a2. induction a1 as [|x a1 IH]; intros [|y a2] H1 H2 E; cbn in E; simplify_eq; [done|set_solver..|].
  destruct (IH a2) as [-> ->]; set_solver.
Qed.

Definition free_of (c : Z) (s : string) : Prop := c ∉ bytes s.

Lemma join_cons sep a b l : join sep (a :: b :: l) = a +:+ sep +:+ join sep (b :: l).
Proof. done. Qed.
Lemma comma_bytes : bytes "," = [44]. Proof. done. Qed.

Lemma join_inj l1 l2 :
  Forall (free_of 44) l1 -> Forall (free_of 44) l2 -> l1 <> [] -> l2 <> [] ->
  join "," l1 = join "," l2 -> l1 = l2.
Proof.
  intros H1 H2 N1 N2. revert l2 H2 N2. induction H1 as [|a l1 Ha H1 IH]; [done|]. intros l2 H2 N2.
  destruct H2 as [|b l2 Hb H2]; [done|]. unfold free_of in *.
  assert (Hsplit : forall x y s, 44 ∉ bytes x -> x = y +:+ "," +:+ s -> False).
  { intros x y s Hx ->. apply Hx. rewrite !bytes_app, comma_bytes. set_solver. }
  destruct l1 as [|a' l1], l2 as [|b' l2]; rewrite ?join_cons; cbn [join].
  - by intros ->.
  - intros E. exfalso. by eapply (Hsplit a).
  - intros E. exfalso. by eapply (Hsplit b).
  - intros E. apply (f_equal bytes) in E. rewrite !bytes_app, comma_bytes in E. cbn [app] in E.
    apply before_separator in E as [E1 E2]; [|done..]. f_equal; [by apply bytes_inj|].
    apply IH; [done..|by apply bytes_inj].
Qed.

Lemma itoa_chars n : Forall (fun b => b = 45 \/ 48 <= b <= 57) (bytes (itoa n)).
Proof.
  unfold itoa. rewrite bytes_of_bytes by apply itoa_bytes_is_byte. unfold itoa_bytes.
  assert (H : forall f m, Forall (fun b => b = 45 \/ 48 <= b <= 57) (dec_digits f m [])).
  { intros f m. eapply Forall_impl; [apply dec_digits_digit; constructor|]. unfold is_digit, in_range.
    intros b Hb. cbn in Hb. b2p. lia. }
  destruct (n <? 0); [constructor; [by left|]|]; apply H.
Qed.
Lemma itoa_free n c : c <> 45 -> ~ 48 <= c <= 57 -> free_of c (itoa n).
Proof. intros H1 H2 Hc. pose proof (proj1 (List.Forall_forall _ _) (itoa_chars n) c) as H.
  rewrite list_elem_of_In in Hc. specialize (H Hc). cbn in H. lia. Qed.

(** ** Timetables *)

(** Start times are clock times: no comma in them. *)
Definition proper (t : timetable) : Prop := starts_of t <> [] /\ Forall (free_of 44) (starts_of t).

Lemma row_part_inj n m a b : itoa n +:+ ":" +:+ a = itoa m +:+ ":" +:+ b -> a = b.
Proof.
  intros E. apply (f_equal bytes) in E. rewrite !bytes_app in E. change (bytes ":") with [58] in E. cbn [app] in E.
  apply before_separator in E as [_ E]; [by apply bytes_inj|by apply itoa_free; lia..].
Qed.
Lemma row_not_config n a b : itoa n +:+ ":" +:+ a <> "cfg:" +:+ b.
Proof.
  intros E. apply (f_equal bytes) in E. rewrite !bytes_app in E. change (bytes ":") with [58] in E.
  change (bytes "cfg:") with [99; 102; 103; 58] in E. pose proof (itoa_chars n) as H.
  destruct (bytes (itoa n)) as [|x l]; [done|]. injection E as -> _. apply Forall_cons in H as [H _]. lia.
Qed.
Lemma config_part_inj a b : "cfg:" +:+ a = "cfg:" +:+ b -> a = b.
Proof. intros E. apply (f_equal bytes) in E. rewrite !bytes_app in E. apply app_inv_head in E. by apply bytes_inj. Qed.

Definition parts_of (t : timetable) : list string :=
  match t with
  | FromRows rows => List.map (fun p => itoa (sp_ID p) +:+ ":" +:+ sp_StartTime p) rows
  | FromConfig ps => List.map (fun p => "cfg:" +:+ pd_Start p) ps
  end.
Lemma key_parts t : key_of t = join "," (parts_of t).
Proof. by destruct t. Qed.
Lemma parts_nonempty t : starts_of t <> [] -> parts_of t <> [].
Proof. destruct t as [[|]|[|]]; done. Qed.
Lemma free_app c a b : free_of c a -> free_of c b -> free_of c (a +:+ b).
Proof. unfold free_of. rewrite bytes_app. set_solver. Qed.
Lemma parts_free t : Forall (free_of 44) (starts_of t) -> Forall (free_of 44) (parts_of t).
Proof.
  destruct t as [rows|ps]; cbn; rewrite !List.Forall_map; intros H; (eapply Forall_impl; [exact H|]);
    intros p Hp; repeat apply free_app; first [done | by apply itoa_free; lia | vm_compute; set_solver].
Qed.

Lemma same_parts t1 t2 : parts_of t1 = parts_of t2 -> starts_of t1 <> [] -> starts_of t1 = starts_of t2
  /\ match t1, t2 with FromRows _, FromRows _ | FromConfig _, FromConfig _ => True | _, _ => False end.
Proof.
  destruct t1 as [l1|l1], t2 as [l2|l2]; intros E N; cbn [parts_of starts_of] in *.
  - split; [|done]. clear N. revert l2 E. induction l1 as [|a l1 IH]; intros [|b l2]; try done.
    intros E. cbn [List.map] in *. pose proof (f_equal (hd "") E) as E1. pose proof (f_equal (@tl _) E) as E2. f_equal; [by eapply row_part_inj|by apply IH].
  - destruct l1 as [|a l1], l2 as [|b l2]; try done.
    exfalso. apply (f_equal (hd "")) in E. exact (row_not_config _ _ _ E).
  - destruct l1 as [|a l1], l2 as [|b l2]; try done.
    exfalso. apply (f_equal (hd "")) in E. exact (row_not_config _ _ _ (eq_sym E)).
  - split; [|done]. clear N. revert l2 E. induction l1 as [|a l1 IH]; intros [|b l2]; try done.
    intros E. cbn [List.map] in *. pose proof (f_equal (hd "") E) as E1. pose proof (f_equal (@tl _) E) as E2. f_equal; [by apply config_part_inj|by apply IH].
Qed.

Lemma same_key t1 t2 :
  proper t1 -> proper t2 -> key_of t1 = key_of t2 -> parts_of t1 = parts_of t2.
Proof.
  intros [N1 F1] [N2 F2] E. rewrite !key_parts in E.
  by apply join_inj; [apply parts_free|apply parts_free|apply parts_nonempty|apply parts_nonempty|].
Qed.
Lemma key_nonempty t : starts_of t <> [] -> key_of t <> "".
Proof.
  intros N. rewrite key_parts. pose proof (parts_nonempty t N).
  assert (Hf : Forall (fun p => bytes p <> []) (parts_of t)).
  { destruct t as [rows|ps]; cbn; rewrite List.Forall_map; apply Forall_true; intros p; rewrite !bytes_app.
    - change (bytes ":") with [58]. by destruct (bytes (itoa (sp_ID p))).
    - done. }
  destruct Hf as [|p [|q l] Hp _]; [done|..]; rewrite ?join_cons; cbn [join]; intros E; apply (f_equal bytes) in E.
  - done.
  - rewrite !bytes_app in E. by destruct (bytes p).
Qed.

(** ** The entries a timetable asks for *)

Definition daily (sec mi h : Z) : string := itoa sec +:+ " " +:+ itoa mi +:+ " " +:+ itoa h +:+ " * * *".

Definition clock_of (t : timetable) (start : string) : option Z :=
  match t with
  | FromRows _ => if str_len start =? 8 then parse_hms_bytes (bytes start)
                  else if str_len start =? 5 then hm_clock start else None
  | FromConfig _ => hm_clock start
  end.
(** The configuration gives no seconds. *)
Definition fires (t : timetable) (clk : Z) : string :=
  daily (match t with FromRows _ => clock_second clk | FromConfig _ => 0 end) (clock_minute clk) (clock_hour clk).
Definition section_entries (delay : Z) (t : timetable) (tid n : Z) (start : string) : list (string * job) :=
  match clock_of t start with
  | None => []
  | Some clk => [(fires t (clk + minutes delay), TriggerJob tid n); (fires t (clk + minutes 30), FinalizeJob tid n)]
  end.
Fixpoint entries_from (delay : Z) (t : timetable) (tid n : Z) (starts : list string) : list (string * job) :=
  match starts with
  | [] => []
  | start :: starts => section_entries delay t tid n start ++ entries_from delay t tid (n + 1) starts
  end.
Definition prescribed (delay : Z) (t : timetable) (tid : Z) : list (string * job) :=
  entries_from delay t tid 1 (starts_of t).

(** Timetables with the same fingerprint ask for the same entries. *)
Lemma same_entries delay t1 t2 tid :
  proper t1 -> proper t2 -> key_of t1 = key_of t2 -> prescribed delay t1 tid = prescribed delay t2 tid.
Proof.
  intros H1 H2 E. destruct (same_parts t1 t2 (same_key _ _ H1 H2 E) (proj1 H1)) as [Es Ek].
  unfold prescribed. rewrite Es. generalize (starts_of t2), 1. intros l. induction l as [|a l IH]; intros n; [done|].
  cbn. rewrite IH. f_equal. unfold section_entries. by destruct t1, t2.
Qed.

(** ** What the cron library promises *)

Class CronLaws (C : Type) `{Cron C} : Prop := {
  cron_new : cron_Entries cron_New = ∅;
  cron_added : forall e j c n c', cron_AddFunc e j c = (Ok n, c') ->
    cron_Entries c !! n = None /\ cron_Entries c' = <[n := (e, j)]> (cron_Entries c);
  cron_refused : forall e j c x c', cron_AddFunc e j c = (Err x, c') -> cron_Entries c' = cron_Entries c;
  cron_daily : forall sec mi h j c, 0 <= sec < 60 -> 0 <= mi < 60 -> 0 <= h < 24 ->
    exists n c', cron_AddFunc (daily sec mi h) j c = (Ok n, c');
  cron_removed : forall n c, cron_Entries (cron_Remove n c) = delete n (cron_Entries c);
  cron_started : forall c, cron_Entries (cron_Start c) = cron_Entries c
}.

(** The entries of the library under some ids, one by one. *)
Definition holds {C} `{Cron C} (c : C) (ids : list Z) (l : list (string * job)) : Prop :=
  Forall2 (fun n e => cron_Entries c !! n = Some e) ids l.

Section entries.
Context {C : Type} {CR : Cron C} {CL : CronLaws C}.

Lemma remove_all ids (c : C) n :
  cron_Entries (fold_left (fun c m => cron_Remove m c) ids c) !! n
  = if decide (n ∈ ids) then None else cron_Entries c !! n.
Proof.
  revert c. induction ids as [|m ids IH]; intros c; cbn [fold_left].
  { by rewrite decide_False by apply not_elem_of_nil. }
  rewrite IH, cron_removed. destruct (decide (n ∈ ids)), (decide (n ∈ m :: ids)); try done.
  - set_solver.
  - assert (n = m) as -> by set_solver. apply lookup_delete_eq.
  - apply lookup_delete_ne. set_solver.
Qed.

(** [ids] were added for [l] and nothing else changed. *)
Record added (c : C) (ids : list Z) (l : list (string * job)) (c' : C) : Prop := {
  ad_fresh : Forall (fun n => cron_Entries c !! n = None) ids;
  ad_distinct : NoDup ids;
  ad_holds : holds c' ids l;
  ad_rest : forall n, n ∉ ids -> cron_Entries c' !! n = cron_Entries c !! n }.

Lemma added_nil c : added c [] [] c.
Proof. split; [constructor|constructor|constructor|done]. Qed.

Lemma added_app c1 ids1 l1 c2 ids2 l2 c3 :
  added c1 ids1 l1 c2 -> added c2 ids2 l2 c3 -> added c1 (ids1 ++ ids2) (l1 ++ l2) c3.
Proof.
  intros [F1 D1 H1 R1] [F2 D2 H2 R2].
  assert (Hd : forall n, n ∈ ids1 -> n ∉ ids2).
  { intros n Hn Hn2. apply list_elem_of_lookup in Hn as [i Hi].
    destruct (Forall2_lookup_l _ _ _ _ _ H1 Hi) as (e & _ & He).
    pose proof (proj1 (Forall_forall _ _) F2 n Hn2) as Hx. cbn in Hx. by rewrite Hx in He. }
  split.
  - apply Forall_app_2; [done|]. apply Forall_forall. intros n Hn. rewrite <- R1; [|intros Hn1; by apply (Hd n)].
    exact (proj1 (Forall_forall _ _) F2 n Hn).
  - apply NoDup_app. split_and!; [done|exact Hd|done].
  - apply Forall2_app; [|done]. apply Forall2_same_length_lookup in H1 as [Hl H1].
    apply Forall2_same_length_lookup. split; [done|]. intros i n e Hn He.
    rewrite R2; [by eapply H1|]. apply Hd. by eapply list_elem_of_lookup_2.
  - intros n Hn. rewrite R2, R1 by set_solver. done.
Qed.

Lemma added_one e j (c : C) n c' : cron_AddFunc e j c = (Ok n, c') -> added c [n] [(e, j)] c'.
Proof.
  intros E. apply cron_added in E as [Hn Hc]. split.
  - by constructor.
  - apply NoDup_singleton.
  - constructor; [|constructor]. rewrite Hc. by rewrite lookup_insert_eq.
  - intros m Hm. rewrite Hc. apply lookup_insert_ne. set_solver.
Qed.
End entries.

(** ** Building expressions *)

Lemma clock_ranges t : 0 <= clock_second t < 60 /\ 0 <= clock_minute t < 60 /\ 0 <= clock_hour t < 24.
Proof. unfold clock_second, clock_minute, clock_hour. split_and!; apply Z.mod_pos_bound; lia. Qed.

Definition build (t : timetable) (start : string) (offset : Z) : res string :=
  match t with
  | FromRows _ => buildCronExpressionFromTimeWithOffset start offset
  | FromConfig _ => buildCronExpressionWithOffset start offset
  end.

(** Both builders print the clock time plus the offset, or refuse the start. *)
Lemma build_prints t start offset :
  match clock_of t start with
  | Some clk => build t start offset = Ok (fires t (clk + minutes offset))
  | None => exists e, build t start offset = Err e
  end.
Proof.
  destruct t as [rows|ps]; cbn [clock_of build]; unfold fires, daily.
  - unfold buildCronExpressionFromTimeWithOffset. destruct (str_len start =? 8).
    + by destruct (parse_hms_bytes (bytes start)); [|eexists].
    + destruct (str_len start =? 5); [|by eexists]. by destruct (hm_clock start); [|eexists].
  - unfold buildCronExpressionWithOffset. by destruct (hm_clock start); [|eexists].
Qed.

Section building.
Context {C : Type} {CR : Cron C} {CL : CronLaws C}.

Lemma add_fires t clk j (c : C) : exists n c', cron_AddFunc (fires t clk) j c = (Ok n, c').
Proof.
  pose proof (clock_ranges clk) as (H1 & H2 & H3). unfold fires. apply cron_daily; [|done..].
  destruct t; [done|lia].
Qed.

Lemma section_added delay t tid n start (c : C) acc : exists ids c',
  add_section (fun x => build t x delay) (fun x => build t x 30) tid n start (c, acc) = (c', acc ++ ids)
  /\ added c ids (section_entries delay t tid n start) c'.
Proof.
  unfold add_section, add_job, add_one, section_entries.
  pose proof (build_prints t start delay) as H1. pose proof (build_prints t start 30) as H2.
  destruct (clock_of t start) as [clk|].
  - rewrite H1, H2. cbn [fst snd]. destruct (add_fires t (clk + minutes delay) (TriggerJob tid n) c) as (n1 & c1 & E1).
    destruct (add_fires t (clk + minutes 30) (FinalizeJob tid n) c1) as (n2 & c2 & E2).
    rewrite E1. cbn [fst snd]. rewrite E2. exists [n1; n2], c2. unfold id. rewrite <- app_assoc. split; [done|].
    apply (added_app c [n1] [_] c1 [n2] [_] c2); by apply added_one.
  - destruct H1 as [e ->]. exists [], c. rewrite app_nil_r. split; [done|apply added_nil].
Qed.

Lemma sections_added delay t tid starts n (c : C) acc : exists ids c',
  add_sections (fun x => build t x delay) (fun x => build t x 30) tid n starts (c, acc) = (c', acc ++ ids)
  /\ added c ids (entries_from delay t tid n starts) c'.
Proof.
  revert n c acc. induction starts as [|start starts IH]; intros n c acc; cbn [add_sections entries_from].
  { exists [], c. rewrite app_nil_r. split; [done|apply added_nil]. }
  destruct (section_added delay t tid n start c acc) as (ids1 & c1 & -> & H1).
  destruct (IH (n + 1) c1 (acc ++ ids1)) as (ids2 & c2 & -> & H2).
  exists (ids1 ++ ids2), c2. rewrite <- app_assoc. split; [done|by eapply added_app].
Qed.
End building.

(** ** The invariant *)

Definition job_tenant (j : job) : option Z :=
  match j with TriggerJob t _ | FinalizeJob t _ => Some t | ReloadJob => None end.

Lemma entries_tenant delay t tid n starts e : e ∈ entries_from delay t tid n starts -> job_tenant e.2 = Some tid.
Proof.
  revert n. induction starts as [|a starts IH]; intros n; cbn; [set_solver|]. intros H.
  apply elem_of_app in H as [H|H]; [|by eapply IH]. unfold section_entries in H.
  destruct (clock_of t a); [|set_solver]. apply elem_of_cons in H as [->|H]; [done|].
  by apply list_elem_of_singleton in H as ->.
Qed.

Section invariant.
Context {C : Type} {CR : Cron C} {CL : CronLaws C} (delay : Z).

(** The recorded jobs of a tenant are the entries of a timetable, which is
    known by its fingerprint. *)
Definition follows (st : AttendanceScheduler C) (t : timetable) (tid : Z) : Prop :=
  sch_tenantPeriodKeys st !! tid = Some (key_of t)
  /\ exists ids, sch_tenantJobs st !! tid = Some ids /\ NoDup ids /\ holds (sch_cron st) ids (prescribed delay t tid).

Record scheduled (st : AttendanceScheduler C) : Prop := {
  sd_owned : forall n e, cron_Entries (sch_cron st) !! n = Some e ->
    e.2 = ReloadJob \/ exists tid ids, sch_tenantJobs st !! tid = Some ids /\ n ∈ ids;
  sd_follows : forall tid ids, sch_tenantJobs st !! tid = Some ids -> exists t, proper t /\ follows st t tid;
  sd_keyed : forall tid k, sch_tenantPeriodKeys st !! tid = Some k -> is_Some (sch_tenantJobs st !! tid) }.

Lemma held_entry (c : C) ids l n : holds c ids l -> n ∈ ids -> exists e, cron_Entries c !! n = Some e /\ e ∈ l.
Proof.
  intros H Hn. apply list_elem_of_lookup in Hn as [i Hi].
  destruct (Forall2_lookup_l _ _ _ _ _ H Hi) as (e & He & Hc). exists e. split; [done|]. by eapply list_elem_of_lookup_2.
Qed.

(** A recorded job belongs to the tenant it is recorded for. *)
Lemma recorded_tenant st tid ids n :
  scheduled st -> sch_tenantJobs st !! tid = Some ids -> n ∈ ids ->
  exists e, cron_Entries (sch_cron st) !! n = Some e /\ job_tenant e.2 = Some tid.
Proof.
  intros Hs Hj Hn. destruct (sd_follows st Hs tid ids Hj) as (t & _ & _ & ids' & Hj' & _ & Hh).
  rewrite Hj in Hj'. injection Hj' as <-. destruct (held_entry _ _ _ _ Hh Hn) as (e & He & Hl).
  exists e. split; [done|]. by eapply entries_tenant.
Qed.

Lemma follows_known st t tid :
  scheduled st -> proper t -> sch_tenantPeriodKeys st !! tid = Some (key_of t) -> follows st t tid.
Proof.
  intros Hs Hp Hk. destruct (sd_keyed st Hs tid _ Hk) as [ids Hj].
  destruct (sd_follows st Hs tid ids Hj) as (t' & Hp' & Hk' & ids' & Hj' & Hd & Hh).
  rewrite Hk in Hk'. injection Hk' as Hk'. split; [done|]. exists ids'. split_and!; [done..|].
  by rewrite (same_entries delay t t' tid).
Qed.

Lemma removed_tenant st tid :
  let st' := removeTenantJobs tid st in
  (forall t, sch_tenantJobs st' !! t = if decide (t = tid) then None else sch_tenantJobs st !! t)
  /\ sch_tenantPeriodKeys st' = sch_tenantPeriodKeys st
  /\ (forall n, cron_Entries (sch_cron st') !! n
        = if decide (n ∈ default [] (sch_tenantJobs st !! tid)) then None else cron_Entries (sch_cron st) !! n).
Proof.
  unfold removeTenantJobs. destruct (sch_tenantJobs st !! tid) as [ids|] eqn:E; cbn; split_and!; try done.
  - intros t. destruct (decide (t = tid)) as [->|]; [apply lookup_delete_eq|by apply lookup_delete_ne].
  - intros n. apply remove_all.
  - intros t. destruct (decide (t = tid)) as [->|]; done.
Qed.

(** Tenants share no job. *)
Lemma jobs_disjoint st t1 t2 ids1 ids2 n :
  scheduled st -> sch_tenantJobs st !! t1 = Some ids1 -> sch_tenantJobs st !! t2 = Some ids2 ->
  n ∈ ids1 -> n ∈ ids2 -> t1 = t2.
Proof.
  intros Hs H1 H2 Hn1 Hn2. destruct (recorded_tenant _ _ _ _ Hs H1 Hn1) as (e & He & Ht).
  destruct (recorded_tenant _ _ _ _ Hs H2 Hn2) as (e' & He' & Ht'). congruence.
Qed.

Lemma holds_ext (c c' : C) ids l :
  (forall n, n ∈ ids -> cron_Entries c' !! n = cron_Entries c !! n) -> holds c ids l -> holds c' ids l.
Proof.
  intros E. unfold holds. induction 1 as [|n e ids l Hn Hh IH]; constructor.
  - rewrite E by set_solver. done.
  - apply IH. intros m Hm. apply E. set_solver.
Qed.

(** The jobs of a tenant are replaced; those of the others stay. *)
Lemma replaced st tid t c ids c' :
  scheduled st -> proper t ->
  (forall n, cron_Entries c !! n
     = if decide (n ∈ default [] (sch_tenantJobs st !! tid)) then None else cron_Entries (sch_cron st) !! n) ->
  added c ids (prescribed delay t tid) c' ->
  forall jobs, (forall u, jobs !! u = if decide (u = tid) then Some ids else sch_tenantJobs st !! u) ->
  let st' := mkScheduler c' jobs (<[tid := key_of t]> (sch_tenantPeriodKeys st)) in
  scheduled st' /\ follows st' t tid.
Proof.
  intros Hs Hp Hc [Hf Hd Hh Hr] jobs Hj st'.
  assert (Ht : follows st' t tid).
  { split; cbn; [apply lookup_insert_eq|]. exists ids. rewrite Hj, decide_True by done. done. }
  split; [|done]. split.
  - intros n e He. cbn in *. destruct (decide (n ∈ ids)) as [Hn|Hn].
    { right. exists tid, ids. rewrite Hj, decide_True by done. done. }
    rewrite Hr, Hc in He by done. destruct (decide _) as [|Hno]; [done|].
    destruct (sd_owned st Hs n e He) as [|(u & ids' & Hu & Hn')]; [by left|]. right. exists u, ids'.
    rewrite Hj. destruct (decide (u = tid)) as [->|]; [|done]. rewrite Hu in Hno. done.
  - intros u ids' Hu. cbn in Hu. rewrite Hj in Hu. destruct (decide (u = tid)) as [->|Hne]; [by exists t|].
    destruct (sd_follows st Hs u ids' Hu) as (t' & Hp' & Hk & ids2 & Hj2 & Hd2 & Hh2).
    exists t'. split; [done|]. split; cbn; [by rewrite lookup_insert_ne|].
    exists ids2. rewrite Hj, decide_False by done. split_and!; [done..|].
    eapply holds_ext; [|exact Hh2]. intros n Hn.
    destruct (recorded_tenant _ _ _ _ Hs Hj2 Hn) as (e & He & _).
    assert (Ho : n ∉ default [] (sch_tenantJobs st !! tid)).
    { destruct (sch_tenantJobs st !! tid) as [old|] eqn:Eo; cbn; [|apply not_elem_of_nil].
      intros Hn'. apply Hne. by eapply jobs_disjoint. }
    pose proof (Hc n) as Hcn. rewrite decide_False in Hcn by done. rewrite Hr; [done|].
    intros Hni. pose proof (proj1 (Forall_forall _ _) Hf n Hni) as Hno. cbn in Hno. rewrite Hcn in Hno. by rewrite He in Hno.
  - intros u k Hu. cbn in *. rewrite Hj. destruct (decide (u = tid)) as [->|]; [done|].
    rewrite lookup_insert_ne in Hu by done. by eapply sd_keyed.
Qed.

Lemma rebuild_follows st tid t :
  scheduled st -> proper t ->
  let st' := rebuild tid (key_of t) (fun x => build t x delay) (fun x => build t x 30) (starts_of t) st in
  scheduled st' /\ follows st' t tid.
Proof.
  intros Hs Hp. unfold rebuild. destruct (eqs _ (key_of t)) eqn:Ek.
  - apply eqs_true in Ek. split; [done|]. apply follows_known; [done..|].
    pose proof (key_nonempty t (proj1 Hp)). destruct (sch_tenantPeriodKeys st !! tid); cbn in Ek; congruence.
  - set (st1 := mkScheduler (sch_cron st) (sch_tenantJobs st) (<[tid := key_of t]> (sch_tenantPeriodKeys st))).
    destruct (removed_tenant st1 tid) as (Hj & Hk & Hc).
    destruct (sections_added delay t tid (starts_of t) 1 (sch_cron (removeTenantJobs tid st1)) []) as (ids & c' & -> & Ha).
    cbn zeta. rewrite Hk. refine (replaced st tid t _ ids c' Hs Hp Hc Ha _ _). intros u. rewrite app_nil_l.
    destruct (decide (u = tid)) as [->|]; [apply lookup_insert_eq|]. rewrite lookup_insert_ne by done.
    rewrite Hj. by rewrite decide_False.
Qed.

(** A tenant's timetable does not touch another's. *)
Lemma rebuild_other st tid u key f g l :
  u <> tid -> sch_tenantPeriodKeys (rebuild tid key f g l st) !! u = sch_tenantPeriodKeys st !! u.
Proof.
  intros Hne. unfold rebuild. destruct (eqs _ key); [done|].
  destruct (add_sections _ _ _ _ _ _) as [c ids]. cbn [sch_tenantPeriodKeys].
  rewrite (proj1 (proj2 (removed_tenant _ tid))). cbn. by rewrite lookup_insert_ne.
Qed.
End invariant.

(** ** The system *)

Section system.
Context `{LOC : Location} `{MO : MapOrder} {C : Type} {CR : Cron C} {CL : CronLaws C} {W : Type} (s : SchedulerPorts W).

(** Start times contain no comma: they are clock times, in the rows and in the
    configuration. *)
Class ProperTimes : Prop := {
  rows_proper : forall tid w rows w', @ListActive W (po_settings s tid) w = (Ok rows, w') ->
    Forall (fun p => free_of 44 (sp_StartTime p)) rows;
  config_proper : Forall (fun p => free_of 44 (pd_Start p)) (po_scheduleCfg s) }.
Context {PT : ProperTimes}.

Lemma reload_timetable tid st w :
  reloadTenantSchedule s tid (st, w)
  = let '(t, w) := timetable_now s tid w in
    (match t with
     | None => st
     | Some t => rebuild tid (key_of t) (fun x => build t x (po_delayAfterClassStart s)) (fun x => build t x 30)
                   (starts_of t) st
     end, w).
Proof.
  unfold reloadTenantSchedule, timetable_now, loadTenantScheduleFromConfig.
  destruct (@ListActive W (po_settings s tid) w) as [[[|p rows]|e] w1]; destruct (po_scheduleCfg s); reflexivity.
Qed.

Lemma timetable_proper tid w t w' : timetable_now s tid w = (Some t, w') -> proper t.
Proof.
  pose proof config_proper as Hc. unfold timetable_now.
  destruct (@ListActive W (po_settings s tid) w) as [[[|p rows]|e] w1] eqn:E; destruct (po_scheduleCfg s) as [|q ps];
    intros [= <- <-]; split; try done; cbn -[free_of]; try (change (pd_Start q :: List.map pd_Start ps) with (List.map pd_Start (q :: ps)); by rewrite List.Forall_map).
  all: change (sp_StartTime p :: List.map sp_StartTime rows) with (List.map sp_StartTime (p :: rows));
    rewrite List.Forall_map; by eapply rows_proper.
Qed.

Let follows' (st : AttendanceScheduler C) := follows (po_delayAfterClassStart s) st.
Let scheduled' := scheduled (C := C) (po_delayAfterClassStart s).

Lemma reload_keeps tid st w :
  scheduled' st ->
  let x := reloadTenantSchedule s tid (st, w) in
  scheduled' x.1
  /\ match timetable_now s tid w with
     | (Some t, w') => x.2 = w' /\ follows' x.1 t tid
     | (None, w') => x = (st, w')
     end.
Proof.
  intros Hs. cbn zeta. rewrite reload_timetable. destruct (timetable_now s tid w) as [[t|] w'] eqn:E; [|done].
  destruct (rebuild_follows (po_delayAfterClassStart s) st tid t Hs (timetable_proper _ _ _ _ E)) as [H1 H2].
  cbn [fst snd]. split; [exact H1|]. split; [done|exact H2].
Qed.

Lemma reload_all_keeps x : scheduled' x.1 -> scheduled' (reloadAllTenantSchedules s x).1.
Proof.
  unfold reloadAllTenantSchedules. destruct (po_ListActiveTenants s x.2) as [[tenants|e] w]; [|done].
  intros Hs. assert (Hx : scheduled' (x.1, w).1) by done. revert Hx. generalize (x.1, w).
  induction tenants as [|t tenants IH]; intros [st w1] Hx; [done|]. apply IH, (reload_keeps (tn_ID t) st w1 Hx).
Qed.

Lemma empty_scheduled : scheduled' (with_cron cron_New NewAttendanceScheduler).
Proof. split; cbn; intros until 1; [by rewrite cron_new in *|by rewrite lookup_empty in *..]. Qed.

(** The entry of the reload belongs to no tenant. *)
Lemma reload_entry_keeps st e r c :
  scheduled' st -> cron_AddFunc e ReloadJob (sch_cron st) = (r, c) -> scheduled' (with_cron (cron_Start c) st).
Proof.
  intros Hs Ha.
  assert (Hc : cron_Entries c = cron_Entries (sch_cron st) \/
    exists n, cron_Entries (sch_cron st) !! n = None /\ cron_Entries c = <[n := (e, ReloadJob)]> (cron_Entries (sch_cron st))).
  { destruct r as [n|x]; [right; exists n; by apply cron_added in Ha|left; by eapply cron_refused]. }
  split; cbn.
  - intros n e' He. rewrite cron_started in He. destruct Hc as [Hc|(m & _ & Hc)]; rewrite Hc in He; [by eapply sd_owned|].
    destruct (decide (m = n)) as [->|]; [rewrite lookup_insert_eq in He; injection He as <-; by left|].
    rewrite lookup_insert_ne in He by done. by eapply sd_owned.
  - intros tid ids Hj. destruct (sd_follows _ st Hs tid ids Hj) as (t & Hp & Hk & ids' & Hj' & Hd & Hh).
    exists t. split; [done|]. split; [done|]. exists ids'. split_and!; [done..|]. eapply holds_ext; [|exact Hh].
    intros n Hn. cbn [with_cron sch_cron]. rewrite cron_started. destruct Hc as [->|(m & Hm & ->)]; [done|].
    rewrite lookup_insert_ne; [done|]. intros ->. destruct (held_entry _ _ _ _ Hh Hn) as (e' & He' & _). congruence.
  - by apply (sd_keyed _ st Hs).
Qed.

Lemma start_keeps w : scheduled' (Start s (NewAttendanceScheduler (C := C), w)).1.
Proof.
  unfold Start. pose proof (reload_all_keeps (with_cron cron_New NewAttendanceScheduler, w)
    empty_scheduled) as Hs. cbn [fst snd].
  destruct (reloadAllTenantSchedules s _) as [st w1]. cbn [fst] in Hs.
  destruct (cron_AddFunc _ ReloadJob (sch_cron st)) as [r c] eqn:E. by eapply reload_entry_keeps.
Qed.

(** ** A reload in parts *)

(** A started scheduler, and what it reaches while reloads do not overlap: a
    state follows another when at most one reload is under way in it. *)
Definition one_at_a_time (x y : scheduler_system (C := C) (W := W)) : Prop := system_step s x y /\ (length y.2 <= 1)%nat.
Definition started_at (w : W) : scheduler_system (C := C) (W := W) := (Start s (NewAttendanceScheduler, w), []).
Definition reached (x : scheduler_system (C := C) (W := W)) : Prop := exists w, rtc one_at_a_time (started_at w) x.
(** Between two reloads. *)
Definition reachable (x : AttendanceScheduler C * W) : Prop := reached (x, []).

Lemma builders t start :
  trigger_of s t start = build t start (po_delayAfterClassStart s) /\ final_of t start = build t start 30.
Proof. by destruct t. Qed.

(** The tenant whose jobs a reload is replacing. *)
Definition rebuilding (g : reload_stage) : option Z :=
  match g with Removing tid _ _ _ | Adding tid _ _ _ _ _ _ => Some tid | _ => None end.

(** Outside a tenant's jobs [st] is as [st0] was. *)
Record apart (tid : Z) (st0 st : AttendanceScheduler C) : Prop := {
  ap_new : forall n e, cron_Entries (sch_cron st) !! n = Some e ->
    job_tenant e.2 = Some tid \/ cron_Entries (sch_cron st0) !! n = Some e;
  ap_old : forall n e, cron_Entries (sch_cron st0) !! n = Some e -> job_tenant e.2 <> Some tid ->
    cron_Entries (sch_cron st) !! n = Some e;
  ap_jobs : forall u ids, sch_tenantJobs st !! u = Some ids -> sch_tenantJobs st0 !! u = Some ids;
  ap_others : forall u, u <> tid -> sch_tenantJobs st !! u = sch_tenantJobs st0 !! u
    /\ sch_tenantPeriodKeys st !! u = sch_tenantPeriodKeys st0 !! u }.

(** What is still to be added. *)
Definition rest_entries (t : timetable) (tid n : Z) (starts : list string) (final : bool) : list (string * job) :=
  match final, starts with
  | true, start :: starts =>
      drop 1 (section_entries (po_delayAfterClassStart s) t tid n start) ++ entries_from (po_delayAfterClassStart s) t tid (n + 1) starts
  | _, _ => entries_from (po_delayAfterClassStart s) t tid n starts
  end.

(** The entries of [st0] but for some. *)
Definition without (ids : list Z) (st0 : AttendanceScheduler C) (c : C) : Prop :=
  forall n, cron_Entries c !! n = if decide (n ∈ ids) then None else cron_Entries (sch_cron st0) !! n.

Definition stage_ok (st : AttendanceScheduler C) (g : reload_stage) : Prop :=
  match g with
  | Listing | NextTenant _ => scheduled' st
  | Comparing tid t _ => proper t /\ scheduled' st
  | Removing tid t _ old => proper t /\ exists st0 gone,
      scheduled' st0 /\ default [] (sch_tenantJobs st0 !! tid) = gone ++ old /\ sch_tenantJobs st = sch_tenantJobs st0
      /\ sch_tenantPeriodKeys st = <[tid := key_of t]> (sch_tenantPeriodKeys st0) /\ without gone st0 (sch_cron st)
  | Adding tid t _ n starts final ids => proper t /\ exists st0 c l,
      scheduled' st0 /\ sch_tenantJobs st = delete tid (sch_tenantJobs st0)
      /\ sch_tenantPeriodKeys st = <[tid := key_of t]> (sch_tenantPeriodKeys st0)
      /\ without (default [] (sch_tenantJobs st0 !! tid)) st0 c /\ added c ids l (sch_cron st)
      /\ l ++ rest_entries t tid n starts final = prescribed (po_delayAfterClassStart s) t tid
  end.

Lemma prescribed_tenant delay t tid e l l' : l ++ l' = prescribed delay t tid -> e ∈ l -> job_tenant e.2 = Some tid.
Proof. intros E He. eapply (entries_tenant delay t tid 1 (starts_of t)). change (e ∈ prescribed delay t tid). rewrite <- E. set_solver. Qed.

(** The jobs a reload takes away are the tenant's own. *)
Lemma old_tenant st0 tid ids n e :
  scheduled' st0 -> ids ⊆ default [] (sch_tenantJobs st0 !! tid) -> n ∈ ids -> cron_Entries (sch_cron st0) !! n = Some e ->
  job_tenant e.2 = Some tid.
Proof.
  intros Hs Hi Hn He. destruct (sch_tenantJobs st0 !! tid) as [old|] eqn:Eo; [|by apply Hi, elem_of_nil in Hn].
  destruct (recorded_tenant _ st0 tid old n Hs Eo (Hi n Hn)) as (e' & He' & Ht). congruence.
Qed.

Lemma stage_apart st g tid : stage_ok st g -> rebuilding g = Some tid -> exists st0, scheduled' st0 /\ apart tid st0 st.
Proof.
  destruct g as [| | |tid' t todo old|tid' t todo n starts final ids]; try done; cbn; intros [_ H] [= ->].
  - destruct H as (st0 & gone & Hs & Hold & Hj & Hk & Hc). exists st0. split; [done|].
    assert (Hsub : gone ⊆ default [] (sch_tenantJobs st0 !! tid)) by (rewrite Hold; set_solver).
    split; [| |by intros u ids; rewrite Hj|intros u Hu; by rewrite Hj, Hk, lookup_insert_ne].
    + intros m e. rewrite Hc. destruct (decide _); [done|by right].
    + intros m e He Ht. rewrite Hc, decide_False; [done|]. intros Hm. by destruct (Ht (old_tenant _ _ _ _ _ Hs Hsub Hm He)).
  - destruct H as (st0 & c & l & Hs & Hj & Hk & Hc & [Hf _ Hh Hr] & El). exists st0. split; [done|].
    assert (Hold : forall m e, cron_Entries (sch_cron st0) !! m = Some e -> job_tenant e.2 <> Some tid -> cron_Entries c !! m = Some e).
    { intros m e He Ht. rewrite Hc, decide_False; [done|]. intros Hm.
      by destruct (Ht (old_tenant _ _ _ _ _ Hs (reflexivity _) Hm He)). }
    split.
    + intros m e He. destruct (decide (m ∈ ids)) as [Hm|Hm].
      * left. destruct (held_entry _ _ _ _ Hh Hm) as (e' & He' & Hl). rewrite He in He'. injection He' as <-.
        by eapply prescribed_tenant.
      * right. rewrite Hr, Hc in He by done. by destruct (decide _).
    + intros m e He Ht. pose proof (Hold _ _ He Ht) as Hm. rewrite Hr; [done|]. intros Hi.
      pose proof (proj1 (Forall_forall _ _) Hf m Hi) as Hx. cbn in Hx. by rewrite Hx in Hm.
    + intros u ids'. rewrite Hj. intros [_ ?]%lookup_delete_Some. done.
    + intros u Hu. by rewrite Hj, Hk, lookup_insert_ne, lookup_delete_ne.
Qed.
(** Between reloads: who an entry belongs to, and what is recorded. *)
Lemma entry_owned st n e :
  scheduled' st -> cron_Entries (sch_cron st) !! n = Some e ->
  e.2 = ReloadJob
  \/ exists tid ids, job_tenant e.2 = Some tid /\ sch_tenantJobs st !! tid = Some ids /\ n ∈ ids
       /\ forall u ids', sch_tenantJobs st !! u = Some ids' -> n ∈ ids' -> u = tid.
Proof.
  intros Hs He. destruct (sd_owned _ st Hs n e He) as [|(tid & ids & Hj & Hn)]; [by left|]. right. exists tid, ids.
  destruct (recorded_tenant _ _ _ _ _ Hs Hj Hn) as (e' & He' & Ht). split_and!; try congruence.
  intros u ids' Hu Hn'. by eapply jobs_disjoint.
Qed.
Lemma recorded_follow st tid ids :
  scheduled' st -> sch_tenantJobs st !! tid = Some ids ->
  NoDup ids /\ exists t, proper t /\ sch_tenantPeriodKeys st !! tid = Some (key_of t)
    /\ holds (sch_cron st) ids (prescribed (po_delayAfterClassStart s) t tid).
Proof.
  intros Hs Hj. destruct (sd_follows _ st Hs tid ids Hj) as (t & Hp & Hk & ids' & Hj' & Hd & Hh).
  rewrite Hj in Hj'. injection Hj' as <-. split; [done|]. by exists t.
Qed.
Lemma Forall2_impl_entries (c c' : C) ids l :
  holds c ids l -> (forall n e, n ∈ ids -> cron_Entries c !! n = Some e -> cron_Entries c' !! n = Some e) -> holds c' ids l.
Proof.
  unfold holds. induction 1 as [|n e ids l Hn Hh IH]; intros H; constructor; [apply H; [by left|done]|].
  apply IH. intros m e' Hm. apply H. by right.
Qed.

(** An attempt to add an entry adds the one that is prescribed, or there is none. *)
Lemma add_one_prints t start offset j (c : C) ids :
  match clock_of t start with
  | None => add_one (build t start offset) j (c, ids) = (false, (c, ids))
  | Some clk => exists n c', add_one (build t start offset) j (c, ids) = (true, (c', ids ++ [n]))
      /\ added c [n] [(fires t (clk + minutes offset), j)] c'
  end.
Proof.
  pose proof (build_prints t start offset) as H. destruct (clock_of t start) as [clk|]; unfold add_one.
  - rewrite H. cbn [fst snd]. destruct (add_fires t (clk + minutes offset) j c) as (n & c' & E). rewrite E.
    exists n, c'. split; [done|by apply added_one].
  - by destruct H as [e ->].
Qed.

Lemma removing_ok st tid t todo old w :
  stage_ok st (Removing tid t todo old) ->
  let '(g, x) := reload_part s (Removing tid t todo old) (st, w) in from_option (stage_ok x.1) False g.
Proof.
  intros (Hp & st0 & gone & Hs & Hold & Hj & Hk & Hc). destruct old as [|id old]; cbn -[without].
  - split; [done|]. exists st0, (sch_cron st), []. rewrite Hj. split_and!; try done; [|apply added_nil].
    rewrite Hold, app_nil_r. exact Hc.
  - split; [done|]. exists st0, (gone ++ [id]). split_and!; try done; [by rewrite Hold, <- app_assoc|].
    intros m. cbn. rewrite cron_removed. destruct (decide (m = id)) as [->|Hm].
    + rewrite lookup_delete_eq, decide_True by set_solver. done.
    + rewrite lookup_delete_ne, Hc by done. destruct (decide (m ∈ gone)), (decide (m ∈ gone ++ [id])); set_solver.
Qed.

Lemma adding_ok st tid t todo n starts final ids w :
  stage_ok st (Adding tid t todo n starts final ids) ->
  let '(g, x) := reload_part s (Adding tid t todo n starts final ids) (st, w) in from_option (stage_ok x.1) False g.
Proof.
  intros (Hp & st0 & c & l & Hs & Hj & Hk & Hc & Ha & El). destruct starts as [|start starts].
  - cbn. assert (l = prescribed (po_delayAfterClassStart s) t tid) as -> by (rewrite <- El; destruct final; by rewrite app_nil_r).
    rewrite Hk. refine (proj1 (replaced (po_delayAfterClassStart s) st0 tid t c ids (sch_cron st) Hs Hp Hc Ha _ _)).
    intros u. rewrite Hj. destruct (decide (u = tid)) as [->|Hu]; [by rewrite lookup_insert_eq|].
    by rewrite lookup_insert_ne, lookup_delete_ne.
  - cbn -[without rest_entries]. destruct (builders t start) as [-> ->].
    pose proof (add_one_prints t start (if final then 30 else po_delayAfterClassStart s)
                  (if final then FinalizeJob tid n else TriggerJob tid n) (sch_cron st) ids) as H1.
    destruct (clock_of t start) as [clk|] eqn:Eclk.
    + destruct H1 as (m & c' & E & H1). pose proof (added_app _ _ _ _ _ _ _ Ha H1) as Ha'.
      destruct final; rewrite E; cbn -[without rest_entries]; (split; [done|]); eexists st0, c, _;
        (split_and!; [done|done|done|done|exact Ha'|]); rewrite <- El, <- app_assoc;
        unfold rest_entries; cbn [entries_from]; unfold section_entries; by rewrite Eclk.
    + assert (E0 : section_entries (po_delayAfterClassStart s) t tid n start = []) by (unfold section_entries; by rewrite Eclk).
      destruct final; rewrite H1; cbn -[without rest_entries]; (split; [done|]); exists st0, c, l;
        (split_and!; [done..|]); rewrite <- El; unfold rest_entries; cbn [entries_from]; by rewrite E0.
Qed.

Lemma reload_part_ok g st w :
  stage_ok st g ->
  match reload_part s g (st, w) with (Some g', x) => stage_ok x.1 g' | (None, x) => scheduled' x.1 end.
Proof.
  intros Hg. destruct g as [|[|tid todo]|tid t todo|tid t todo old|tid t todo n starts final ids].
  - cbn in *. by destruct (po_ListActiveTenants s w) as [[tenants|e] w1].
  - done.
  - cbn in *. destruct (timetable_now s tid w) as [[t|] w1] eqn:E; [|done]. split; [by eapply timetable_proper|done].
  - destruct Hg as [Hp Hs]. cbn. case_if; [done|]. cbn. split; [done|]. exists st, []. split_and!; done.
  - pose proof (removing_ok st tid t todo old w Hg) as H. by destruct (reload_part s _ _) as [[g'|] x].
  - pose proof (adding_ok st tid t todo n starts final ids w Hg) as H. by destruct (reload_part s _ _) as [[g'|] x].
Qed.

Definition system_ok (x : scheduler_system (C := C) (W := W)) : Prop :=
  match x.2 with [] => scheduled' x.1.1 | [g] => stage_ok x.1.1 g | _ => False end.
Lemma step_ok x y : one_at_a_time x y -> system_ok x -> system_ok y.
Proof.
  intros [H Hl]. destruct H as [st w w' pool|tid st w pool|n e st w pool He|i g st w pool Hi]; cbn [snd] in Hl; intros Hx; [done| | |].
  - rewrite length_app in Hl. destruct pool as [|g pool]; [exact Hx|cbn in Hl; lia].
  - destruct e as [expr []]; cbn in *; [by destruct (po_Now s w)..|].
    rewrite length_app in Hl. destruct pool as [|g pool]; [exact Hx|cbn in Hl; lia].
  - unfold system_ok in *. cbn in Hx. destruct pool as [|g0 [|? ?]]; [by rewrite lookup_nil in Hi| |done].
    destruct i as [|i]; [|by apply (lookup_lt_Some (A := reload_stage)) in Hi; cbn in Hi; lia].
    injection Hi as ->. pose proof (reload_part_ok g st w Hx) as H. by destruct (reload_part s g (st, w)) as [[g'|] x].
Qed.
Lemma reached_ok x : reached x -> system_ok x.
Proof.
  intros [w Hr]. assert (H : system_ok (started_at w)) by exact (start_keeps w). revert H.
  induction Hr as [|x y z Hxy _ IH]; [done|]. intros Hx. by eapply IH, step_ok.
Qed.
Lemma reachable_scheduled x : reachable x -> scheduled' x.1.
Proof. apply reached_ok. Qed.

(** C21: no job is leaked, doubled or orphaned as long as reloads do not
    overlap.  A reload runs in parts, and between any two of them the world may
    change and other entries may fire; at every moment, an entry of the cron
    library is the reload, or a job of the tenant whose jobs are just being
    replaced, or a job recorded for exactly one tenant, the one it runs for; and
    the jobs recorded for a tenant whose jobs are not just being replaced are
    entries, each recorded once, and in order the runs of a timetable whose
    fingerprint is the one noted.  Between two reloads this holds of every tenant
    and every entry.  The scheduler has no lock, so when two reloads do overlap
    jobs are leaked ([overlapping_reloads_leak]). *)
Theorem cron_holds_the_recorded_jobs st w pool :
  reached (st, w, pool) ->
  let being_replaced tid := exists g, g ∈ pool /\ rebuilding g = Some tid in
  (forall n e, cron_Entries (sch_cron st) !! n = Some e ->
     e.2 = ReloadJob
     \/ exists tid, job_tenant e.2 = Some tid
          /\ (being_replaced tid
              \/ exists ids, sch_tenantJobs st !! tid = Some ids /\ n ∈ ids
                   /\ forall u ids', sch_tenantJobs st !! u = Some ids' -> n ∈ ids' -> u = tid))
  /\ (forall tid ids, sch_tenantJobs st !! tid = Some ids -> ~ being_replaced tid ->
        NoDup ids /\ exists t, proper t /\ sch_tenantPeriodKeys st !! tid = Some (key_of t)
          /\ Forall2 (fun n e => cron_Entries (sch_cron st) !! n = Some e) ids
               (prescribed (po_delayAfterClassStart s) t tid)).
Proof.
  intros Hr%reached_ok being_replaced.
  assert (Hx : exists st0, scheduled' st0 /\ (st0 = st \/ exists g tid, g ∈ pool /\ rebuilding g = Some tid /\ apart tid st0 st)).
  { unfold system_ok in Hr. cbn in Hr. destruct pool as [|g [|? ?]]; [by exists st; auto| |done].
    destruct (rebuilding g) as [tid|] eqn:Eg.
    - destruct (stage_apart st g tid Hr Eg) as (st0 & Hs & Ha). exists st0. split; [done|]. right. exists g, tid. set_solver.
    - exists st. split; [|by left]. destruct g; try done. by destruct Hr. }
  destruct Hx as (st0 & Hs & Hx). split.
  - intros n e He. destruct Hx as [->|(g & tid & Hg & Eg & Ha)].
    + destruct (entry_owned st n e Hs He) as [|(tid & ids & Ht & H)]; [by left|right].
      exists tid. split; [done|]. right. by exists ids.
    + destruct (ap_new _ _ _ Ha n e He) as [Ht|He0]; [right; exists tid; split; [done|left; by exists g]|].
      destruct (entry_owned st0 n e Hs He0) as [|(u & ids & Hu & Hj & Hn & H)]; [by left|right]. exists u. split; [done|].
      destruct (decide (u = tid)) as [->|Hne]; [left; by exists g|]. right. exists ids.
      rewrite (proj1 (ap_others _ _ _ Ha u Hne)). split_and!; try done. intros v ids' Hv. by apply H, (ap_jobs _ _ _ Ha).
  - intros tid ids Hj Hno. destruct Hx as [->|(g & tid0 & Hg & Eg & Ha)]; [by apply recorded_follow|].
    assert (Hne : tid <> tid0) by (intros ->; apply Hno; by exists g).
    destruct (ap_others _ _ _ Ha tid Hne) as [Ej Ek]. rewrite Ej in Hj.
    destruct (recorded_follow st0 tid ids Hs Hj) as (Hd & t & Hp & Hk & Hh). split; [done|]. exists t.
    rewrite Ek. split_and!; [done..|]. eapply Forall2_impl_entries; [exact Hh|].
    intros n e Hn He. apply (ap_old _ _ _ Ha n e He).
    destruct (recorded_tenant _ _ _ _ _ Hs Hj Hn) as (e' & He' & Ht). rewrite He in He'. injection He' as <-. rewrite Ht. congruence.
Qed.

(** ** The parts of a reload make the reload *)

(** One goroutine goes on while nothing else happens. *)
Notation goes := (rtc one_at_a_time).
Lemma one_part g st w :
  one_at_a_time (st, w, [g]) ((reload_part s g (st, w)).2, option_list (reload_part s g (st, w)).1).
Proof.
  assert (E : option_list (reload_part s g (st, w)).1 = settle_stage 0 (reload_part s g (st, w)).1 [g])
    by (by destruct (reload_part s g (st, w)).1).
  split; [rewrite E; by apply step_part|]. cbn [snd]. destruct (reload_part s g (st, w)).1; cbn; lia.
Qed.
Lemma next_part g st w g' x y :
  reload_part s g (st, w) = (Some g', x) -> goes (x, [g']) y -> goes (st, w, [g]) y.
Proof. intros E H. eapply rtc_l; [apply one_part|]. by rewrite E. Qed.

Lemma removing_parts tid t todo old c jobs keys w :
  goes (mkScheduler c jobs keys, w, [Removing tid t todo old])
    (mkScheduler (fold_left (fun c n => cron_Remove n c) old c) (delete tid jobs) keys, w, [Adding tid t todo 1 (starts_of t) false []]).
Proof.
  revert c. induction old as [|n old IH]; intros c; [eapply next_part; [reflexivity|constructor]|].
  eapply next_part; [reflexivity|]. apply IH.
Qed.

Lemma adding_parts tid t todo n starts ids c jobs keys w :
  let '(c', ids') := add_sections (trigger_of s t) (final_of t) tid n starts (c, ids) in
  goes (mkScheduler c jobs keys, w, [Adding tid t todo n starts false ids])
    (mkScheduler c' (<[tid := ids']> jobs) keys, w, [NextTenant todo]).
Proof.
  revert n ids c. induction starts as [|start starts IH]; intros n ids c; cbn [add_sections].
  { eapply next_part; [reflexivity|constructor]. }
  unfold add_section, add_job. destruct (add_one (trigger_of s t start) (TriggerJob tid n) (c, ids)) as [[] [c1 ids1]] eqn:E1.
  - destruct (add_one (final_of t start) (FinalizeJob tid n) (c1, ids1)) as [b [c2 ids2]] eqn:E2.
    assert (E : (if b then id (c2, ids2) else (c2, ids2)) = (c2, ids2)) by (by destruct b). rewrite E.
    specialize (IH (n + 1) ids2 c2). destruct (add_sections _ _ tid (n + 1) starts (c2, ids2)) as [c' ids'].
    eapply next_part; [cbn; rewrite E1; reflexivity|]. eapply next_part; [cbn; rewrite E2, andb_false_r; reflexivity|]. exact IH.
  - specialize (IH (n + 1) ids1 c1). destruct (add_sections _ _ tid (n + 1) starts (c1, ids1)) as [c' ids'].
    eapply next_part; [cbn; rewrite E1; reflexivity|]. exact IH.
Qed.

Lemma tenant_parts tid todo st w :
  goes (st, w, [NextTenant (tid :: todo)]) (reloadTenantSchedule s tid (st, w), [NextTenant todo]).
Proof.
  rewrite reload_timetable. destruct (timetable_now s tid w) as [[t|] w1] eqn:Et;
    [|eapply next_part; [cbn; rewrite Et; reflexivity|constructor]].
  eapply next_part; [cbn; rewrite Et; reflexivity|]. unfold rebuild.
  destruct (eqs (default "" (sch_tenantPeriodKeys st !! tid)) (key_of t)) eqn:Ek;
    [eapply next_part; [cbn; rewrite Ek; reflexivity|constructor]|].
  eapply next_part; [cbn; rewrite Ek; reflexivity|]. etrans; [apply removing_parts|].
  set (c := fold_left _ _ _).
  assert (Er : exists jobs, removeTenantJobs tid (mkScheduler (sch_cron st) (sch_tenantJobs st) (<[tid := key_of t]> (sch_tenantPeriodKeys st)))
               = mkScheduler c jobs (<[tid := key_of t]> (sch_tenantPeriodKeys st))
               /\ forall ids : list Z, <[tid := ids]> jobs = <[tid := ids]> (delete tid (sch_tenantJobs st))).
  { unfold removeTenantJobs, c. cbn [sch_tenantJobs sch_cron sch_tenantPeriodKeys].
    destruct (sch_tenantJobs st !! tid) as [old|] eqn:Eo; eexists; (split; [reflexivity|]); intros ids; [done|].
    by rewrite insert_delete_eq. }
  destruct Er as (jobs & -> & Hj). cbn [sch_cron sch_tenantJobs sch_tenantPeriodKeys].
  pose proof (adding_parts tid t todo 1 (starts_of t) [] c (delete tid (sch_tenantJobs st)) (<[tid := key_of t]> (sch_tenantPeriodKeys st)) w1) as H.
  assert (Ea : add_sections (trigger_of s t) (final_of t) tid 1 (starts_of t) (c, [])
               = add_sections (fun x => build t x (po_delayAfterClassStart s)) (fun x => build t x 30) tid 1 (starts_of t) (c, []))
    by (by destruct t).
  rewrite Ea in H. destruct (add_sections _ _ _ _ _ _) as [c' ids']. by rewrite Hj.
Qed.

(** With nothing in between, the parts of a reload compute
    [reloadAllTenantSchedules]. *)
Theorem reload_in_parts st w : goes (st, w, [Listing]) (reloadAllTenantSchedules s (st, w), []).
Proof.
  unfold reloadAllTenantSchedules. cbn [fst snd].
  destruct (po_ListActiveTenants s w) as [[tenants|e] w1] eqn:E.
  - eapply next_part; [cbn; rewrite E; reflexivity|]. clear E w. revert st w1.
    induction tenants as [|tn tenants IH]; intros st w.
    + apply rtc_once. exact (one_part (NextTenant []) st w).
    + cbn [List.map fold_left]. etrans; [apply tenant_parts|].
      destruct (reloadTenantSchedule s (tn_ID tn) (st, w)) as [st1 w1]. apply IH.
  - apply rtc_once. pose proof (one_part Listing st w) as H. cbn in H. by rewrite E in H.
Qed.

(** So a reload that fires between two others is reached. *)
Lemma reload_reachable n expr st w :
  reachable (st, w) -> cron_Entries (sch_cron st) !! n = Some (expr, ReloadJob) ->
  reachable (reloadAllTenantSchedules s (st, w)).
Proof.
  intros [w0 Hr] He. exists w0. etrans; [exact Hr|]. eapply rtc_l; [|apply reload_in_parts].
  split; [exact (step_due s n (expr, ReloadJob) st w [] He)|cbn; lia].
Qed.
Lemma world_reachable st w w' : reachable (st, w) -> reachable (st, w').
Proof. intros [w0 Hr]. exists w0. eapply rtc_r; [exact Hr|]. split; [apply step_world|cbn; lia]. Qed.

(** Runs of the system, several reloads at a time included. *)
Inductive system_event : Type :=
  | World (w : W)
  | Fires (n : Z)
  | Goes (i : nat).
Definition after_event (ev : system_event) (x : scheduler_system (C := C) (W := W)) : scheduler_system (C := C) (W := W) :=
  let '(st, w, pool) := x in
  match ev with
  | World w' => (st, w', pool)
  | Fires n => match cron_Entries (sch_cron st) !! n with
               | Some e => match e.2 with ReloadJob => (st, w, pool ++ [Listing]) | j => (run_job s j (st, w), pool) end
               | None => x
               end
  | Goes i => match pool !! i with
              | Some g => ((reload_part s g (st, w)).2, settle_stage i (reload_part s g (st, w)).1 pool)
              | None => x
              end
  end.
Lemma events_run evs x : rtc (system_step s) x (fold_left (fun x ev => after_event ev x) evs x).
Proof.
  revert x. induction evs as [|ev evs IH]; intros [[st w] pool]; [constructor|]. cbn [fold_left].
  etrans; [|apply IH]. destruct ev as [w'|n|i]; cbn [after_event].
  - apply rtc_once, step_world.
  - destruct (cron_Entries (sch_cron st) !! n) as [e|] eqn:E; [|constructor]. by eapply rtc_once, step_due.
  - destruct (pool !! i) as [g|] eqn:E; [|constructor]. by apply rtc_once, step_part.
Qed.

(** The entries that run for a tenant. *)
Definition tenant_entries (st : AttendanceScheduler C) (tid : Z) (l : list (string * job)) : Prop :=
  exists ids, NoDup ids /\ Forall2 (fun n e => cron_Entries (sch_cron st) !! n = Some e) ids l
    /\ forall n e, cron_Entries (sch_cron st) !! n = Some e -> job_tenant e.2 = Some tid -> n ∈ ids.

Lemma follows_entries st t tid :
  scheduled' st -> follows' st t tid -> tenant_entries st tid (prescribed (po_delayAfterClassStart s) t tid).
Proof.
  intros Hs (_ & ids & Hj & Hd & Hh). exists ids. split_and!; [done..|]. intros n e He Ht.
  destruct (sd_owned _ st Hs n e He) as [E|(u & ids' & Hj' & Hn)]; [by rewrite E in Ht|].
  destruct (recorded_tenant _ _ _ _ _ Hs Hj' Hn) as (e' & He' & Ht'). rewrite He in He'. injection He' as <-.
  rewrite Ht in Ht'. injection Ht' as <-. rewrite Hj in Hj'. by injection Hj' as <-.
Qed.

(** C22: a reload installs the timetable in force: whether the fingerprint was
    known or the jobs were rebuilt, the entries that run for the tenant are
    afterwards exactly two per section of its active periods, or of the
    configuration when there are none or they cannot be read, numbered by
    position; a start that is no clock time loses its section only; and when
    there is no timetable at all the state is left as it was. *)
Theorem reload_installs_the_timetable st w tid :
  reachable (st, w) ->
  match @ListActive W (po_settings s tid) w, po_scheduleCfg s with
  | (Ok (p :: rows), _), _ =>
      tenant_entries (reloadTenantSchedule s tid (st, w)).1 tid
        (prescribed (po_delayAfterClassStart s) (FromRows (p :: rows)) tid)
  | (_, _), (p :: periods) =>
      tenant_entries (reloadTenantSchedule s tid (st, w)).1 tid
        (prescribed (po_delayAfterClassStart s) (FromConfig (p :: periods)) tid)
  | (_, _), [] => (reloadTenantSchedule s tid (st, w)).1 = st
  end.
Proof.
  intros Hr. pose proof (reachable_scheduled _ Hr) as Hs. cbn [fst] in Hs.
  destruct (reload_keeps tid st w Hs) as [Hs' Hf]. unfold timetable_now in Hf.
  destruct (@ListActive W (po_settings s tid) w) as [[[|p rows]|e] w1]; destruct (po_scheduleCfg s) as [|q ps];
    first [exact (f_equal fst Hf) | destruct Hf as [_ Hf]; by apply follows_entries].
Qed.

(** ** Reloading when nothing changed *)

Lemma keyed_reload tid st w t w' :
  timetable_now s tid w = (t, w') -> (forall t', t = Some t' -> sch_tenantPeriodKeys st !! tid = Some (key_of t')) ->
  reloadTenantSchedule s tid (st, w) = (st, w').
Proof.
  intros E Hk. rewrite reload_timetable, E. destruct t as [t|]; [|done]. unfold rebuild. rewrite (Hk t eq_refl).
  cbn [default]. by rewrite (proj2 (eqs_true _ _) eq_refl).
Qed.

(** Reading timetables and tenants leaves the world alone. *)
Class ReadsOnly : Prop := {
  read_periods : forall tid w, (@ListActive W (po_settings s tid) w).2 = w;
  read_tenants : forall w, (po_ListActiveTenants s w).2 = w }.

Lemma timetable_reads {RO : ReadsOnly} tid w : (timetable_now s tid w).2 = w.
Proof.
  pose proof (read_periods tid w) as H. unfold timetable_now.
  by destruct (@ListActive W (po_settings s tid) w) as [[[|p rows]|e] w1].
Qed.

Definition settled (w : W) (tid : Z) (st : AttendanceScheduler C) : Prop :=
  forall t, (timetable_now s tid w).1 = Some t -> sch_tenantPeriodKeys st !! tid = Some (key_of t).

Lemma reload_settles {RO : ReadsOnly} tid st w :
  scheduled' st -> settled w tid (reloadTenantSchedule s tid (st, w)).1
    /\ (reloadTenantSchedule s tid (st, w)).2 = w
    /\ forall u, settled w u st -> settled w u (reloadTenantSchedule s tid (st, w)).1.
Proof.
  intros Hs. pose proof (timetable_reads tid w) as Hw. destruct (reload_keeps tid st w Hs) as [_ Hf].
  unfold settled. split_and!.
  - intros t Ht. destruct (timetable_now s tid w) as [[t'|] w']; [|done]. injection Ht as <-. apply Hf.
  - destruct (timetable_now s tid w) as [[t'|] w']; [by destruct Hf as [-> _]|]. by rewrite Hf.
  - intros u Hu t Ht. destruct (decide (u = tid)) as [->|Hne].
    + destruct (timetable_now s tid w) as [[t'|] w']; [|done]. injection Ht as <-. apply Hf.
    + rewrite reload_timetable. destruct (timetable_now s tid w) as [[t'|] w']; [|by apply Hu].
      cbn [fst]. rewrite rebuild_other by done. by apply Hu.
Qed.

Lemma settle_all {RO : ReadsOnly} tenants st w :
  scheduled' st ->
  let x := fold_left (fun x tenant => reloadTenantSchedule s (tn_ID tenant) x) tenants (st, w) in
  x.2 = w /\ scheduled' x.1 /\ (forall u, settled w u st -> settled w u x.1)
  /\ (forall t, t ∈ tenants -> settled w (tn_ID t) x.1).
Proof.
  revert st. induction tenants as [|t tenants IH]; intros st Hs; [split_and!; [done..|]; intros t Ht; by apply elem_of_nil in Ht|].
  cbn [fold_left]. destruct (reload_settles (tn_ID t) st w Hs) as (H1 & H2 & H3).
  pose proof (proj1 (reload_keeps (tn_ID t) st w Hs)) as Hs1.
  destruct (reloadTenantSchedule s (tn_ID t) (st, w)) as [st1 w1]. cbn [fst snd] in *. subst w1.
  destruct (IH st1 Hs1) as (E & Hs2 & Hk & Ht). split_and!; [done..|by auto|].
  intros u [->|Hu]%elem_of_cons; [by apply Hk|by apply Ht].
Qed.

(** the reload every ten seconds is a no-op as long as nothing changes:
    after one, every active tenant has the jobs of its timetable, and another
    one changes no job, no id and no fingerprint. *)
Theorem reload_all_is_stable {RO : ReadsOnly} st w tenants :
  reachable (st, w) -> (po_ListActiveTenants s w).1 = Ok tenants ->
  let x := reloadAllTenantSchedules s (st, w) in
  x.2 = w /\ reloadAllTenantSchedules s x = x
  /\ forall t tt, t ∈ tenants -> (timetable_now s (tn_ID t) w).1 = Some tt ->
       tenant_entries x.1 (tn_ID t) (prescribed (po_delayAfterClassStart s) tt (tn_ID t)).
Proof.
  intros Hr HT x. pose proof (reachable_scheduled _ Hr) as Hs. cbn [fst] in Hs.
  assert (Hl : po_ListActiveTenants s w = (Ok tenants, w)).
  { pose proof (read_tenants w). destruct (po_ListActiveTenants s w); cbn in *; congruence. }
  assert (Ex : x = fold_left (fun x tenant => reloadTenantSchedule s (tn_ID tenant) x) tenants (st, w))
    by (unfold x, reloadAllTenantSchedules; cbn [snd]; by rewrite Hl).
  destruct (settle_all tenants st w Hs) as (E & Hs2 & _ & Hset). rewrite <- Ex in *.
  split; [done|]. split.
  - destruct x as [st' w']. cbn [fst snd] in *. subst w'. unfold reloadAllTenantSchedules. cbn [fst snd]. rewrite Hl.
    clear Ex Hl HT Hr. induction tenants as [|t tenants IH]; [done|]. cbn [fold_left].
    rewrite (keyed_reload (tn_ID t) st' w (timetable_now s (tn_ID t) w).1 w).
    + apply IH. intros u Hu. apply Hset. set_solver.
    + rewrite <- (timetable_reads (tn_ID t) w) at 3. by destruct (timetable_now s (tn_ID t) w).
    + intros t' Ht. by apply (Hset t); [left|].
  - intros t t' Ht Et. apply follows_entries; [done|]. apply follows_known; [done| |by apply Hset].
    destruct (timetable_now s (tn_ID t) w) as [tt w1] eqn:E1. cbn in Et. subst tt. by eapply timetable_proper.
Qed.
End system.

(** ** When the jobs run *)

(** The fields of an expression are the time of day, whatever day it is in. *)
Lemma clock_fields_of t :
  (clock_hour t * 3600 + clock_minute t * 60 + clock_second t) * ns_sec = (t mod ns_day) / ns_sec * ns_sec.
Proof.
  unfold clock_hour, clock_minute, clock_second. change ns_day with (86400 * ns_sec). change ns_hour with (3600 * ns_sec).
  change ns_min with (60 * ns_sec). f_equal. rewrite (Z.mul_comm 3600), (Z.mul_comm 60 ns_sec), <- !Z.div_div by (unfold ns_sec; lia).
  assert (E : t mod (86400 * ns_sec) / ns_sec = (t / ns_sec) mod 86400).
  { rewrite (Z.mul_comm 86400), Z.rem_mul_r by (unfold ns_sec; lia).
    rewrite (Z.mul_comm ns_sec), Z.div_add, Z.div_small by first [by unfold ns_sec | by apply Z.mod_pos_bound]. done. }
  rewrite E. generalize (t / ns_sec). intros x. change 86400 with (60 * (60 * 24)). change 3600 with (60 * 60).
  rewrite !Z.rem_mul_r, Z.div_div by lia. lia.
Qed.

(** The settlement of a section that starts at half past eleven at night, or
    later, is due on the next day; of an earlier one on its own day. *)
Lemma settlement_day clk : 0 <= clk < ns_day ->
  (clk + minutes 30) / ns_day = if clk <? 23 * ns_hour + 30 * ns_min then 0 else 1.
Proof.
  change (minutes 30) with (30 * ns_min). unfold ns_day, ns_hour, ns_min, ns_sec. intros H.
  destruct (Z.ltb_spec clk (23 * (3600 * 1000000000) + 30 * (60 * 1000000000))); Z.div_mod_to_equations; lia.
Qed.

(** Such a section is settled under the date of the next day, before it starts
    there: the section of its own day is never settled. *)
Theorem late_section_settled_for_tomorrow `{MO : MapOrder} {W} (s : SchedulerPorts W) tid sec w w1 tenant w2 :
  is_enabled s tid w = (true, w1) -> po_FindTenant s tid w1 = (Ok tenant, w2) ->
  buildFinalizeCronExpressionFromTime "23:45:00" = Ok (daily 0 15 0)
  /\ exists week w3,
       finalizeAttendanceForTenant (LOC := shanghai) s tid sec
         (@local_instant shanghai (instant 2026 3 3 0 15 0 0)) w
       = (@FinalizeAttendanceRecord shanghai MO W (po_records s tid) (mkDetailRequest "2026-03-03" week sec []) w3).2.
Proof.
  intros He Ht. split; [vm_compute; reflexivity|]. unfold finalizeAttendanceForTenant. rewrite He. cbn [negb].
  rewrite Ht. destruct (@GetByTenantID W (po_settings s tid) w2) as [x w3].
  destruct (@week_or_zero shanghai W s tid w3) as [week w4]. exists week, w4.
  assert (E : @format_date shanghai (@local_instant shanghai (instant 2026 3 3 0 15 0 0)) = "2026-03-03") by (vm_compute; reflexivity).
  by rewrite E.
Qed.

(** ** What the groups are told *)

Section pushes.
Context `{LOC : Location} `{MO : MapOrder} {W : Type} (s : SchedulerPorts W).

(** The messages that were delivered, in order: only the client adds to them. *)
Class Outbox (tid : Z) (client : RobotClient W) (out : W -> list (string * string)) : Prop := {
  out_sent : forall key conversation text w,
    let '(r, w') := rc_SendGroupRobotMessage client key conversation text w in
    out w' = out w ++ (if is_ok r then [(conversation, text)] else []);
  out_format : forall detail depts w, out (FormatAttendanceTextFromDetail (po_records s tid) detail depts w).2 = out w }.

(** What became of a subscription: the message that was delivered, or why
    there is none. *)
Definition told_text (tid : Z) (client : RobotClient W) (key : string) (result : AttendanceDetailResponse)
    (sub : GroupAttendanceSubscription) (m : option (string * string)) : Prop :=
  exists w, match FormatAttendanceTextFromDetail (po_records s tid) result (subscribed_depts sub) w with
  | (Err _, _) => m = None
  | (Ok text, w1) =>
      (m = Some (gr_ConversationID sub, tx_FullText text)
       /\ exists detail mode periods, text = formatAttendanceText detail mode periods
            /\ if decide (subscribed_depts sub = []) then detail = result
               else exists users deptUsers w0, srv_userRepo (po_records s tid) = Some users
                      /\ ur_ListByScope users (subscribed_depts sub) [] w = (Ok deptUsers, w0)
                      /\ told (user_ids deptUsers) result detail)
      \/ m = None /\ is_ok (rc_SendGroupRobotMessage client key (gr_ConversationID sub) (tx_FullText text) w1).1 = false
  end.

(** The departments a subscription was stored with. *)
Inductive stored_scope (sub : GroupAttendanceSubscription) : list Z -> Prop :=
  | stored_all : gr_DeptIDsJSON sub = "" -> stored_scope sub []
  | stored_departments ids :
      forallb in_int64 ids = true -> gr_DeptIDsJSON sub = json_int64s ids -> stored_scope sub ids.

Lemma subscribed_stored sub ids : stored_scope sub ids -> subscribed_depts sub = ids.
Proof.
  intros [E|l Hl E]; unfold subscribed_depts; rewrite E; [done|].
  destruct (json_int64s_text l) as [Hne _]. apply eqs_false in Hne. rewrite Hne. unfold json_int64s.
  rewrite unmarshal_marshal by (by apply printable_ints). rewrite lax_list_map; [done|].
  rewrite Forall_forall. intros z Hz. apply lax_of_Ok, dec_int64_int. rewrite forallb_forall in Hl.
  by apply Hl, list_elem_of_In.
Qed.

Lemma push_one tid tenant client out {OB : Outbox tid client out} active result sub w :
  accounted active result ->
  exists m, told_text tid client (tn_AppKey tenant) result sub m
    /\ out (push_to s tid tenant client result sub w) = out w ++ option_list m.
Proof.
  intros Ha. unfold push_to, told_text. pose proof (out_format result (subscribed_depts sub) w) as Hf.
  destruct (FormatAttendanceTextFromDetail _ _ _ w) as [[text|e] w1] eqn:E; cbn [snd] in Hf.
  - pose proof (text_made _ _ _ _ _ _ _ Ha E) as Hm.
    pose proof (out_sent (tn_AppKey tenant) (gr_ConversationID sub) (tx_FullText text) w1) as Hs.
    destruct (rc_SendGroupRobotMessage _ _ _ _ w1) as [r w2] eqn:Er. cbn [snd]. rewrite Hs, Hf.
    exists (if is_ok r then Some (gr_ConversationID sub, tx_FullText text) else None).
    split; [|by destruct (is_ok r)]. exists w. rewrite E. destruct (is_ok r) eqn:Ek; [by left|]. right. by rewrite Er.
  - exists None. split; [exists w; by rewrite E|]. by rewrite Hf, app_nil_r.
Qed.

(** C23: every subscribed group is told its own part of one accounted detail:
    the messages delivered are, in the order of the subscriptions, at most one
    per subscription, to its conversation; each is the text of the whole
    section, or, for a group that follows departments, of exactly their
    members, with numbers that count its lists; the departments are those the
    subscription was stored with; and a group whose text cannot be made or
    delivered does not keep the others from theirs. *)
Theorem every_group_is_told tid tenant client out {OB : Outbox tid client out} active result subs w w1 t w2 :
  accounted active result ->
  po_ListPushEnabled s tid w = (Ok subs, w1) -> po_GetByCorpID s (tn_CorpID tenant) w1 = (Ok (t, client), w2) ->
  tn_ID tenant = tid -> subs <> [] ->
  (exists messages, Forall2 (told_text tid client (tn_AppKey tenant) result) subs messages
     /\ out (pushToSubscribedGroups s tid tenant result w) = out w2 ++ omap id messages)
  /\ forall sub ids, stored_scope sub ids -> subscribed_depts sub = ids.
Proof.
  intros Ha Hs Hc Ht Hne. split; [|exact subscribed_stored]. unfold pushToSubscribedGroups. rewrite Ht, Hs. destruct subs as [|sub subs]; [done|].
  rewrite Hc. revert Hne. generalize (sub :: subs). intros l _. clear Hs Hc sub subs w w1. revert w2.
  induction l as [|sub l IH]; intros w; cbn [fold_left]; [exists []; split; [constructor|by rewrite app_nil_r]|].
  destruct (push_one tid tenant client out active result sub w Ha) as (m & Hm & E).
  destruct (IH (push_to s tid tenant client result sub w)) as (ms & Hms & E2).
  exists (m :: ms). split; [by constructor|]. rewrite E2, E, <- app_assoc. f_equal. by destruct m.
Qed.
End pushes.

(** ** A cron in memory, two tenants and two groups *)

Record cron_table := mkCronTable { ct_next : Z; ct_entries : list (Z * (string * job)) }.
Definition ct_id (c : cron_table) : Z := foldr (fun x n => Z.max (x.1 + 1) n) (ct_next c) (ct_entries c).
(** Ids are given in order; an empty expression is refused. *)
#[local] Instance cron_in_memory : Cron cron_table := {
  cron_New := mkCronTable 1 [];
  cron_AddFunc e j c :=
    if eqs e "" then (Err (EMsg "empty spec string"), c)
    else (Ok (ct_id c), mkCronTable (ct_id c + 1) ((ct_id c, (e, j)) :: ct_entries c));
  cron_Remove n c := mkCronTable (ct_next c) (List.filter (fun x => negb (x.1 =? n)) (ct_entries c));
  cron_Start c := c;
  cron_Entries c := list_to_map (ct_entries c) }.

Lemma fresh_id c : list_to_map (M := gmap Z (string * job)) (ct_entries c) !! ct_id c = None.
Proof.
  assert (H : Forall (fun x => x.1 < ct_id c) (ct_entries c)).
  { unfold ct_id. induction (ct_entries c) as [|x l IH]; constructor; cbn; [lia|].
    eapply Forall_impl; [exact IH|]. cbn. intros y Hy. lia. }
  induction H as [|[n e] l Hn H IH]; [done|]. cbn in *. by rewrite lookup_insert_ne by lia.
Qed.

#[local] Instance cron_in_memory_laws : CronLaws cron_table.
Proof.
  split; try done.
  - intros e j c n c'. cbn. destruct (eqs e ""); [done|]. intros [= <- <-]. split; [apply fresh_id|done].
  - intros e j c x c'. cbn. destruct (eqs e ""); [by intros [= _ <-]|done].
  - intros sec mi h j c _ _ _. cbn. destruct (eqs (daily sec mi h) "") eqn:E; [|by do 2 eexists].
    apply eqs_true in E. apply (f_equal bytes) in E. unfold daily in E. rewrite !bytes_app in E.
    change (bytes " ") with [32] in E. by destruct (bytes (itoa sec)).
  - intros n c. apply map_eq. intros m. cbn. induction (ct_entries c) as [|[k e] l IH]; cbn; [done|].
    destruct (Z.eqb_spec k n) as [->|Hk]; cbn.
    + rewrite IH. destruct (decide (m = n)) as [->|Hm]; [by rewrite !lookup_delete_eq|].
      by rewrite !lookup_delete_ne, lookup_insert_ne by done.
    + destruct (decide (m = k)) as [->|Hm]; [by rewrite lookup_delete_ne, !lookup_insert_eq by done|].
      rewrite lookup_insert_ne, IH by done. destruct (decide (m = n)) as [->|Hm']; [by rewrite !lookup_delete_eq|].
      by rewrite !lookup_delete_ne, lookup_insert_ne by done.
Qed.

#[local] Existing Instance shanghai.
#[local] Existing Instance text_order.

(** The second row of a morning is not a clock time. *)
Definition rows_of (evening : bool) : list SchedulePeriod :=
  if evening then [mkSchedulePeriod "school_winter" "d" "18:00" "19:40" 1 true 14]
  else [mkSchedulePeriod "school_winter" "a" "08:00:00" "09:40:00" 1 true 11;
        mkSchedulePeriod "school_winter" "b" "noon" "13:40:00" 2 true 12;
        mkSchedulePeriod "school_winter" "c" "23:45:00" "23:55:00" 3 true 13].

(** Tenant 1 has the rows of the world, a bool; tenant 2 has none and follows
    the configuration. *)
Definition tenant_settings (tid : Z) : SettingsDatabase bool :=
  {| sdb_First := st_ret (mkSetting "school" "winter" true true true true true);
     sdb_Update _ := st_ret tt;
     sdb_Periods p w := (Ok (if tid =? 1 then List.filter p (rows_of w) else []), w) |}.
Definition one_tenant (id : Z) : Tenant := mkTenant id "corp" "school" "key" "secret" "agent" 1.
Definition two_tenants : SchedulerPorts bool :=
  mkPorts bool 3 [mkPeriod "one" "08:00" "09:40"] (st_ret [one_tenant 1; one_tenant 2])
    (fun tid => st_ret (one_tenant tid)) tenant_settings
    (fun _ => mkAttendanceService bool None (fun _ _ _ => st_ret []) None
       (mkRecordRepo bool (fun _ => st_ret tt) (fun _ _ => st_fail (ESentinel ErrRecordNotFound))
          (fun _ => st_fail (ESentinel ErrRecordNotFound)) (fun _ => st_ret []) (fun _ _ => st_ret []))
       None None None None (mkScheduleConfig [] 15 30) None None (fun w => (0, w)) None)
    (fun _ => st_ret semester_2026) (fun _ => st_ret [])
    (fun _ => st_ret (one_tenant 1, mkRobot _ (fun _ _ _ => st_ret tt))) (fun w => (0, w)).

#[local] Instance two_tenants_proper : ProperTimes two_tenants.
Proof.
  assert (Hf : forall p w, Forall (fun p => free_of 44 (sp_StartTime p)) (List.filter p (rows_of w))).
  { intros p w. apply Forall_forall. intros x Hx. apply list_elem_of_In, filter_In in Hx as [Hx _].
    destruct w; cbn in Hx; destruct_or? Hx; subst; try done; vm_compute; set_solver. }
  split; [|by repeat constructor; vm_compute; set_solver].
  intros tid w rows w'. unfold ListActive, ListActiveByMode. cbn. intros [= <- _].
  destruct (tid =? 1); [apply Hf|constructor].
Qed.
#[local] Instance two_tenants_read : ReadsOnly two_tenants.
Proof. by split. Qed.

Definition started : AttendanceScheduler cron_table * bool := Start two_tenants (NewAttendanceScheduler, false).
Lemma started_reachable : reachable two_tenants started.
Proof. by exists false. Qed.

Example started_entries :
  map_to_list (cron_Entries (sch_cron started.1))
  ≡ₚ [(1, (daily 0 3 8, TriggerJob 1 1)); (2, (daily 0 30 8, FinalizeJob 1 1));
      (3, (daily 0 48 23, TriggerJob 1 3)); (4, (daily 0 15 0, FinalizeJob 1 3));
      (5, (daily 0 3 8, TriggerJob 2 1)); (6, (daily 0 30 8, FinalizeJob 2 1));
      (7, ("*/10 * * * * *", ReloadJob))].
Proof. apply (bool_decide_unpack _). vm_compute. exact I. Qed.

(** The evening comes and the reload is due. *)
Definition evening : AttendanceScheduler cron_table * bool := run_job two_tenants ReloadJob (started.1, true).
Lemma evening_reachable : reachable two_tenants (evening.1, true).
Proof.
  apply (world_reachable _ _ evening.2). unfold evening.
  change (reachable two_tenants (reloadAllTenantSchedules two_tenants (started.1, true))).
  apply (reload_reachable _ 7 "*/10 * * * * *"); [apply (world_reachable _ _ false), started_reachable|reflexivity].
Qed.

Lemma cron_holds_the_recorded_jobs_witness :
  exists tid ids, sch_tenantJobs evening.1 !! tid = Some ids /\ 8 ∈ ids.
Proof.
  destruct (proj1 (cron_holds_the_recorded_jobs two_tenants evening.1 true [] evening_reachable) 8
    (daily 0 3 18, TriggerJob 1 1)) as [H|(tid & _ & [(g & Hg & _)|(ids & H1 & H2 & _)])].
  - vm_compute. reflexivity.
  - discriminate H.
  - by apply elem_of_nil in Hg.
  - exists tid, ids. split; [exact H1|exact H2].
Defined.

(** In the evening a reload takes the old jobs of tenant 1 away; before it adds
    the new ones the timetable changes back and the next reload fires, ten seconds
    later, adds the jobs of the morning and records them; then the first goes on
    and records its own instead.  The jobs of the morning are in the cron library
    for good, recorded for nobody, and the fingerprint is that of the morning, so
    no later reload takes the jobs of the evening away. *)
Definition overlap : list system_event :=
  [World true; Fires 7; Goes 0; Goes 0; Goes 0; Goes 0; Goes 0; Goes 0; Goes 0; Goes 0; World false; Fires 7]
  ++ replicate 12 (Goes 1) ++ replicate 7 (Goes 0).
Definition overlapped : scheduler_system (C := cron_table) (W := bool) :=
  fold_left (fun x ev => after_event two_tenants ev x) overlap (started_at two_tenants false).
Theorem overlapping_reloads_leak :
  rtc (system_step two_tenants) (started_at two_tenants false) overlapped /\ overlapped.2 = []
  /\ (exists n, cron_Entries (sch_cron overlapped.1.1) !! n = Some (daily 0 3 8, TriggerJob 1 1)
        /\ map_Forall (fun _ ids => n ∉ ids) (sch_tenantJobs overlapped.1.1))
  /\ (exists n, cron_Entries (sch_cron overlapped.1.1) !! n = Some (daily 0 3 18, TriggerJob 1 1))
  /\ sch_tenantPeriodKeys overlapped.1.1 !! 1 = Some (buildPeriodsKey (rows_of false))
  /\ reloadAllTenantSchedules two_tenants overlapped.1 = overlapped.1.
Proof.
  split; [apply events_run|]. split; [vm_compute; reflexivity|]. split.
  { exists 8. split; [vm_compute; reflexivity|]. apply (bool_decide_unpack _). vm_compute. exact I. }
  split; [exists 12; vm_compute; reflexivity|]. split; vm_compute; reflexivity.
Qed.

Lemma reload_installs_the_timetable_witness :
  tenant_entries (reloadTenantSchedule two_tenants 1 (started.1, true)).1 1
    [(daily 0 3 18, TriggerJob 1 1); (daily 0 30 18, FinalizeJob 1 1)].
Proof.
  assert (Hr : reachable two_tenants (started.1, true)).
  { apply (world_reachable _ _ false), started_reachable. }
  pose proof (reload_installs_the_timetable two_tenants started.1 true 1 Hr) as H. exact H.
Defined.

Lemma reload_all_is_stable_witness :
  reloadAllTenantSchedules two_tenants (reloadAllTenantSchedules two_tenants (started.1, true))
  = reloadAllTenantSchedules two_tenants (started.1, true).
Proof.
  assert (Hr : reachable two_tenants (started.1, true)).
  { apply (world_reachable _ _ false), started_reachable. }
  exact (proj1 (proj2 (reload_all_is_stable two_tenants started.1 true [one_tenant 1; one_tenant 2] Hr eq_refl))).
Defined.

(** Two groups: one follows department 12, the robot is not in the other. *)
Definition outbox : Type := list (string * string).
Definition outbox_service : AttendanceRecordService outbox :=
  mkAttendanceService outbox
    (Some (mkUserRepo outbox (fun _ => st_ret []) (fun _ => st_ret [])
       (fun depts _ => st_ret (if bool_decide (12 ∈ depts) then [mkUser 2 7 "d2" "B" "" ""; mkUser 4 7 "d4" "D" "" ""]
                               else [])) (fun _ => st_ret ∅)))
    (fun _ _ _ => st_ret []) None
    (mkRecordRepo outbox (fun _ => st_ret tt) (fun _ _ => st_fail (ESentinel ErrRecordNotFound))
       (fun _ => st_fail (ESentinel ErrRecordNotFound)) (fun _ => st_ret []) (fun _ _ => st_ret []))
    None None None None (mkScheduleConfig [] 15 30)
    (Some (mkPeriodService outbox {| sdb_First := st_ret (mkSetting "school" "winter" true true true true true);
                                     sdb_Update _ := st_ret tt; sdb_Periods _ := st_ret [] |}
             (Some [mkPeriod "one" "08:00" "09:40"])))
    None (fun w => (0, w)) None.
Definition robot : RobotClient outbox :=
  mkRobot outbox (fun _ conversation text w =>
    if eqs conversation "left" then (Err (EMsg "robot not in group"), w) else (Ok tt, w ++ [(conversation, text)])).
Definition two_groups : list GroupAttendanceSubscription :=
  [mkSubscription 1 "left" "" 1 "" true 0 None; mkSubscription 1 "twelve" "" 1 "[12]" true 0 None].
Definition two_groups_ports : SchedulerPorts outbox :=
  mkPorts outbox 3 [] (st_ret []) (fun _ => st_ret (one_tenant 1))
    (fun _ => {| sdb_First := st_ret zero_setting; sdb_Update _ := st_ret tt; sdb_Periods _ := st_ret [] |})
    (fun _ => outbox_service) (fun _ => st_ret semester_2026) (fun _ => st_ret two_groups)
    (fun _ => st_ret (one_tenant 1, robot)) (fun w => (0, w)).

#[local] Instance two_groups_outbox : Outbox two_groups_ports 1 robot id.
Proof.
  split.
  - intros key conversation text w. cbn. destruct (eqs conversation "left"); cbn; by rewrite ?app_nil_r.
  - intros detail depts w. by destruct depts.
Qed.

Lemma every_group_is_told_witness :
  exists messages,
    Forall2 (told_text two_groups_ports 1 robot "key" whole_section) two_groups messages
    /\ pushToSubscribedGroups two_groups_ports 1 (one_tenant 1) whole_section [] = omap id messages
    /\ List.map fst (pushToSubscribedGroups two_groups_ports 1 (one_tenant 1) whole_section []) = ["twelve"].
Proof.
  assert (Hne : two_groups <> []) by discriminate.
  destruct (every_group_is_told two_groups_ports 1 (one_tenant 1) robot id _ whole_section two_groups [] [] (one_tenant 1) []
    whole_section_accounted eq_refl eq_refl eq_refl Hne) as [(ms & H1 & H2) _].
  exists ms. split; [exact H1|]. split; [exact H2|]. vm_compute. reflexivity.
Defined.
