(* ===== verification/Leave.v ===== *)
(** * Leave approvals

    internal/service/leave_sync_service.go: an approval of the DingTalk form
    becomes a row of leave_approvals, read from whatever times and labels the
    form has; internal/repository/leave_approval_repository.go: the row is
    written under its tenant and process instance, and attendance reads the
    rows that overlap a section. *)
From Stdlib Require Import ZArith Lia Bool String.
From stdpp Require Import base list strings gmap sorting.
From S2P Require Import Prelude GoStrings GoTime Json Floats Contract Calendar Settings Attendance Repository Text.
#[local] Open Scope Z_scope.
#[local] Open Scope go_scope.

(** ** Upper case *)

(** The upper case of the runes beyond ASCII that have one, by ranges: first,
    last, step, difference (the Unicode character database). *)
Definition upper_ranges : list (Z * Z * Z * Z) := [
   (181, 181, 1, 743); (224, 246, 1, (-32)); (248, 254, 1, (-32)); (255, 255, 1, 121); (257, 303,
   2, (-1)); (305, 305, 1, (-232)); (307, 311, 2, (-1)); (314, 328, 2, (-1)); (331, 375, 2, (-1));
   (378, 382, 2, (-1)); (383, 383, 1, (-300)); (384, 384, 1, 195); (387, 389, 2, (-1)); (392, 392,
   1, (-1)); (396, 396, 1, (-1)); (402, 402, 1, (-1)); (405, 405, 1, 97); (409, 409, 1, (-1));
   (410, 410, 1, 163); (414, 414, 1, 130); (417, 421, 2, (-1)); (424, 424, 1, (-1)); (429, 429, 1,
   (-1)); (432, 432, 1, (-1)); (436, 438, 2, (-1)); (441, 441, 1, (-1)); (445, 445, 1, (-1));
   (447, 447, 1, 56); (453, 453, 1, (-1)); (454, 454, 1, (-2)); (456, 456, 1, (-1)); (457, 457, 1,
   (-2)); (459, 459, 1, (-1)); (460, 460, 1, (-2)); (462, 476, 2, (-1)); (477, 477, 1, (-79));
   (479, 495, 2, (-1)); (498, 498, 1, (-1)); (499, 499, 1, (-2)); (501, 501, 1, (-1)); (505, 543,
   2, (-1)); (547, 563, 2, (-1)); (572, 572, 1, (-1)); (575, 576, 1, 10815); (578, 578, 1, (-1));
   (583, 591, 2, (-1)); (592, 592, 1, 10783); (593, 593, 1, 10780); (594, 594, 1, 10782); (595,
   595, 1, (-210)); (596, 596, 1, (-206)); (598, 599, 1, (-205)); (601, 601, 1, (-202)); (603,
   603, 1, (-203)); (604, 604, 1, 42319); (608, 608, 1, (-205)); (609, 609, 1, 42315); (611, 611,
   1, (-207)); (613, 613, 1, 42280); (614, 614, 1, 42308); (616, 616, 1, (-209)); (617, 617, 1,
   (-211)); (618, 618, 1, 42308); (619, 619, 1, 10743); (620, 620, 1, 42305); (623, 623, 1,
   (-211)); (625, 625, 1, 10749); (626, 626, 1, (-213)); (629, 629, 1, (-214)); (637, 637, 1,
   10727); (640, 640, 1, (-218)); (642, 642, 1, 42307); (643, 643, 1, (-218)); (647, 647, 1,
   42282); (648, 648, 1, (-218)); (649, 649, 1, (-69)); (650, 651, 1, (-217)); (652, 652, 1,
   (-71)); (658, 658, 1, (-219)); (669, 669, 1, 42261); (670, 670, 1, 42258); (837, 837, 1, 84);
   (881, 883, 2, (-1)); (887, 887, 1, (-1)); (891, 893, 1, 130); (940, 940, 1, (-38)); (941, 943,
   1, (-37)); (945, 961, 1, (-32)); (962, 962, 1, (-31)); (963, 971, 1, (-32)); (972, 972, 1,
   (-64)); (973, 974, 1, (-63)); (976, 976, 1, (-62)); (977, 977, 1, (-57)); (981, 981, 1, (-47));
   (982, 982, 1, (-54)); (983, 983, 1, (-8)); (985, 1007, 2, (-1)); (1008, 1008, 1, (-86)); (1009,
   1009, 1, (-80)); (1010, 1010, 1, 7); (1011, 1011, 1, (-116)); (1013, 1013, 1, (-96)); (1016,
   1016, 1, (-1)); (1019, 1019, 1, (-1)); (1072, 1103, 1, (-32)); (1104, 1119, 1, (-80)); (1121,
   1153, 2, (-1)); (1163, 1215, 2, (-1)); (1218, 1230, 2, (-1)); (1231, 1231, 1, (-15)); (1233,
   1327, 2, (-1)); (1377, 1414, 1, (-48)); (4304, 4346, 1, 3008); (4349, 4351, 1, 3008); (5112,
   5117, 1, (-8)); (7296, 7296, 1, (-6254)); (7297, 7297, 1, (-6253)); (7298, 7298, 1, (-6244));
   (7299, 7300, 1, (-6242)); (7301, 7301, 1, (-6243)); (7302, 7302, 1, (-6236)); (7303, 7303, 1,
   (-6181)); (7304, 7304, 1, 35266); (7545, 7545, 1, 35332); (7549, 7549, 1, 3814); (7566, 7566,
   1, 35384); (7681, 7829, 2, (-1)); (7835, 7835, 1, (-59)); (7841, 7935, 2, (-1)); (7936, 7943,
   1, 8); (7952, 7957, 1, 8); (7968, 7975, 1, 8); (7984, 7991, 1, 8); (8000, 8005, 1, 8); (8017,
   8023, 2, 8); (8032, 8039, 1, 8); (8048, 8049, 1, 74); (8050, 8053, 1, 86); (8054, 8055, 1,
   100); (8056, 8057, 1, 128); (8058, 8059, 1, 112); (8060, 8061, 1, 126); (8064, 8071, 1, 8);
   (8080, 8087, 1, 8); (8096, 8103, 1, 8); (8112, 8113, 1, 8); (8115, 8115, 1, 9); (8126, 8126, 1,
   (-7205)); (8131, 8131, 1, 9); (8144, 8145, 1, 8); (8160, 8161, 1, 8); (8165, 8165, 1, 7);
   (8179, 8179, 1, 9); (8526, 8526, 1, (-28)); (8560, 8575, 1, (-16)); (8580, 8580, 1, (-1));
   (9424, 9449, 1, (-26)); (11312, 11359, 1, (-48)); (11361, 11361, 1, (-1)); (11365, 11365, 1,
   (-10795)); (11366, 11366, 1, (-10792)); (11368, 11372, 2, (-1)); (11379, 11379, 1, (-1));
   (11382, 11382, 1, (-1)); (11393, 11491, 2, (-1)); (11500, 11502, 2, (-1)); (11507, 11507, 1,
   (-1)); (11520, 11557, 1, (-7264)); (11559, 11559, 1, (-7264)); (11565, 11565, 1, (-7264));
   (42561, 42605, 2, (-1)); (42625, 42651, 2, (-1)); (42787, 42799, 2, (-1)); (42803, 42863, 2,
   (-1)); (42874, 42876, 2, (-1)); (42879, 42887, 2, (-1)); (42892, 42892, 1, (-1)); (42897,
   42899, 2, (-1)); (42900, 42900, 1, 48); (42903, 42921, 2, (-1)); (42933, 42947, 2, (-1));
   (42952, 42954, 2, (-1)); (42961, 42961, 1, (-1)); (42967, 42969, 2, (-1)); (42998, 42998, 1,
   (-1)); (43859, 43859, 1, (-928)); (43888, 43967, 1, (-38864)); (65345, 65370, 1, (-32));
   (66600, 66639, 1, (-40)); (66776, 66811, 1, (-40)); (66967, 66977, 1, (-39)); (66979, 66993, 1,
   (-39)); (66995, 67001, 1, (-39)); (67003, 67004, 1, (-39)); (68800, 68850, 1, (-64)); (71872,
   71903, 1, (-32)); (93792, 93823, 1, (-32)); (125218, 125251, 1, (-34))].
Definition unicode_upper (r : Z) : Z :=
  if r <? 128 then (if in_range 97 122 r then r - 32 else r)
  else match List.find (fun e => let '(lo, hi, st, _) := e in in_range lo hi r && ((r - lo) mod st =? 0))
               upper_ranges with
       | Some (_, _, _, d) => r + d
       | None => r
       end.
(** [strings.ToUpper] *)
Definition ToUpper (s : string) : string :=
  if forallb (fun b => b <? 128) (bytes s) then of_bytes (unicode_upper <$> bytes s)
  else of_runes (unicode_upper <$> rune_list s).

(** ** Times *)

(** A layout of package time as its elements, with the characters between. *)
Inductive element : Type := Year | Month | Day | Hour | Minute | Second | Lit (c : Z).
Record civil_fields := mkFields { f_year : Z; f_month : Z; f_day : Z; f_hour : Z; f_min : Z; f_sec : Z; f_ns : Z }.
Definition no_fields : civil_fields := mkFields 0 1 1 0 0 0 0.

Fixpoint cut_space (l : list Z) : list Z := match l with 32 :: l => cut_space l | _ => l end.

(** A space of the layout stands for any number of them; a fraction is accepted
    after the seconds. *)
Definition parse_element (e : element) (x : civil_fields * list Z) : option (civil_fields * list Z) :=
  let '(mkFields y m d h mi s ns, l) := x in
  match e with
  | Year => '(y, l) ← get_year l; Some (mkFields y m d h mi s ns, l)
  | Month => '(m, l) ← get_range 1 12 (getnum true l); Some (mkFields y m d h mi s ns, l)
  | Day => '(d, l) ← getnum true l; Some (mkFields y m d h mi s ns, l)
  | Hour => '(h, l) ← get_range 0 23 (getnum false l); Some (mkFields y m d h mi s ns, l)
  | Minute => '(mi, l) ← get_range 0 59 (getnum true l); Some (mkFields y m d h mi s ns, l)
  | Second => '(s, l) ← get_range 0 59 (getnum true l);
              let '(ns, l) := get_frac l in Some (mkFields y m d h mi s ns, l)
  | Lit c =>
      if c =? 32 then match l with
                      | [] => Some (mkFields y m d h mi s ns, l)
                      | b :: _ => if b =? 32 then Some (mkFields y m d h mi s ns, cut_space l) else None
                      end
      else l ← expect c l; Some (mkFields y m d h mi s ns, l)
  end.
Fixpoint parse_elements (layout : list element) (x : civil_fields * list Z) : option (civil_fields * list Z) :=
  match layout with [] => Some x | e :: layout => x ← parse_element e x; parse_elements layout x end.
(** The civil time of a text in a layout without a zone. *)
Definition parse_civil (layout : list element) (s : string) : option Z :=
  '(f, l) ← parse_elements layout (no_fields, bytes s);
  match l with
  | [] => if (1 <=? f_day f) && (f_day f <=? days_in (f_month f) (f_year f))
          then Some (instant (f_year f) (f_month f) (f_day f) (f_hour f) (f_min f) (f_sec f) (f_ns f)) else None
  | _ => None
  end.

Definition date_layout (sep : Z) : list element := [Year; Lit sep; Month; Lit sep; Day].
Definition minute_layout : list element := [Hour; Lit 58; Minute].
Definition second_layout : list element := minute_layout ++ [Lit 58; Second].
(** The formats without a zone, in the order they are tried. *)
Definition formats : list (list element) :=
  [date_layout 45 ++ [Lit 32] ++ second_layout; date_layout 45 ++ [Lit 84] ++ second_layout;
   date_layout 45 ++ [Lit 32] ++ minute_layout; date_layout 45;
   date_layout 47 ++ [Lit 32] ++ second_layout; date_layout 47 ++ [Lit 32] ++ minute_layout; date_layout 47].

(** [time.UnixMilli] *)
Definition unix_milli (ms : Z) : Z := ms * ns_ms + 62135596800 * ns_sec.

Definition parseTimestamp (s : string) : option Z :=
  let s := trim_space (trim_cutset s (of_bytes [34; 39])) in
  if str_len s =? 13 then match atoi s with (ts, None) => Some (unix_milli ts) | _ => None end
  else if str_len s =? 10 then match atoi s with (ts, None) => Some (unix_time ts) | _ => None end
  else None.

(** Both zoned formats accept the same texts. *)
Definition parseTime `{Location} (s : string) : option Z :=
  let s := trim_space s in
  if eqs s "" then None
  else
    match first_some (fun layout => parse_civil layout s) formats with
    | Some civil => Some (local_instant civil)
    | None => match parse_rfc3339nano s with Some t => Some t | None => parseTimestamp s end
    end.

(** ** The form *)

Record ProcessInstanceFormComponentValue := mkFormValue { fv_Name : string; fv_Value : string }.
Record ProcessInstance := mkInstance {
  pi_ProcessInstanceID : string; pi_ProcessCode : string; pi_Status : string; pi_Result : string;
  pi_OriginatorUserID : string; pi_FormValues : list ProcessInstanceFormComponentValue }.

(** Unmarshalling into an interface fails on a number out of float64's range. *)
Fixpoint floats_fit (j : json) : bool :=
  match j with
  | JNum lit => match parse_float lit with Some _ => true | None => false end
  | JArr l => forallb floats_fit l
  | JObj ms => forallb (fun m => floats_fit m.2) ms
  | _ => true
  end.
(** [json.Unmarshal] into a slice of interfaces *)
Definition unmarshal_array (s : string) : option (list json) :=
  match parse_document (bytes s) with
  | Some (JArr l) => if forallb floats_fit l then Some l else None
  | Some JNull => Some []
  | _ => None
  end.
Definition as_string (j : option json) : option string := match j with Some (JStr s) => Some s | _ => None end.

(** What the form says so far; a time is zero until one is read. *)
Record leave_form := mkForm { lf_Start : Z; lf_End : Z; lf_Type : string; lf_Fields : gmap string string }.

Section form.
Context `{LOC : Location}.

Definition read_time (s : option string) (t : Z) : Z := default t (s ≫= parseTime).

(** The holiday component: an array of start, end, duration, unit and type. *)
Definition read_holiday (value : string) (f : leave_form) : leave_form :=
  match unmarshal_array value with
  | Some valueArr =>
      if 2 <=? len valueArr then
        mkForm (read_time (as_string (valueArr !! 0%nat)) (lf_Start f))
          (read_time (as_string (valueArr !! 1%nat)) (lf_End f))
          (if 5 <=? len valueArr then default (lf_Type f) (as_string (valueArr !! 4%nat)) else lf_Type f)
          (lf_Fields f)
      else f
  | None => f
  end.
Definition read_component (f : leave_form) (fv : ProcessInstanceFormComponentValue) : leave_form :=
  let name := trim_space (fv_Name fv) in
  let value := trim_space (fv_Value fv) in
  if eqs name "" || eqs value "" then f
  else if has_prefix name "[" && contains name "开始时间" then read_holiday value f
  else mkForm (lf_Start f) (lf_End f) (lf_Type f) (<[ToLower name := value]> (lf_Fields f)).

Definition firstMatch (fieldMap : gmap string string) (keys : list string) : string :=
  default "" (first_some (fun key => match fieldMap !! ToLower key with
                                     | Some v => if eqs v "" then None else Some v
                                     | None => None end) keys).

(** Start, end, reason and type; the error is never set. *)
Definition parseLeaveFormFields (formValues : list ProcessInstanceFormComponentValue) : Z * Z * string * string :=
  let f := fold_left read_component formValues (mkForm 0 0 "" ∅) in
  let field_time keys t :=
    if is_zero t then
      let s := firstMatch (lf_Fields f) keys in if eqs s "" then t else read_time (Some s) t
    else t in
  (field_time ["start_time"; "starttime"; "开始时间"; "请假开始时间"] (lf_Start f),
   field_time ["end_time"; "endtime"; "结束时间"; "请假结束时间"] (lf_End f),
   firstMatch (lf_Fields f) ["reason"; "leave_reason"; "leavereson"; "请假理由"; "事由"; "请假事由"],
   if eqs (lf_Type f) "" then firstMatch (lf_Fields f) ["leave_type"; "leavetype"; "请假类型"; "类型"]
   else lf_Type f).
End form.

Definition one_of (s : string) (l : list string) : bool := existsb (eqs s) l.
Definition normalizeStatus (s : string) : string :=
  let s := trim_space s in
  if eqs s "" then "UNKNOWN"
  else
    let upper := ToUpper s in
    if one_of upper ["RUNNING"; "NEW"; "ACTIVE"] then "RUNNING"
    else if one_of upper ["COMPLETED"; "FINISHED"; "DONE"] then "COMPLETED"
    else if one_of upper ["TERMINATED"; "CANCELED"; "CANCELLED"] then "TERMINATED"
    else upper.
Definition normalizeResult (s : string) : string :=
  let s := trim_space s in
  if eqs s "" then ""
  else
    let lower := ToLower s in
    if one_of lower ["agree"; "approved"; "pass"; "通过"] then "agree"
    else if one_of lower ["refuse"; "rejected"; "denied"; "拒绝"] then "refuse"
    else if one_of lower ["cancel"; "cancelled"; "撤销"] then "cancel"
    else lower.

(** ** Rows *)

(** model.LeaveApproval, but the raw JSON that is kept for support. *)
Record LeaveRow := mkLeaveRow {
  lr_ID : Z; lr_TenantID : Z; lr_ProcessInstanceID : string; lr_ProcessCode : string; lr_DingUserID : string;
  lr_UserID : Z; lr_UserName : string; lr_StartAt : Z; lr_EndAt : Z; lr_LeaveType : string; lr_Reason : string;
  lr_ApproveStatus : string; lr_Result : string; lr_Deleted : bool }.
(** The table under its unique key, tenant and process instance. *)
Notation leave_table := (gmap (Z * string) LeaveRow).

(** What attendance reads of a row. *)
Definition approval_of_row (r : LeaveRow) : LeaveApproval :=
  mkLeaveApproval (lr_UserID r) (lr_UserName r) (lr_LeaveType r) (lr_Reason r) (lr_StartAt r) (lr_EndAt r)
    (lr_ApproveStatus r) (lr_Result r).

(** A statement changes the table, with the id it would give a new row, or
    reads it. *)
Class LeaveDatabase (D : Type) := {
  ld_table : D -> leave_table;
  ld_write : (Z -> leave_table -> leave_table) -> ST D unit;
  ld_rows : (LeaveRow -> bool) -> ST D (list LeaveRow)
}.

Section repository.
Context `{DC : DatabaseConventions} {D : Type} `{LD : LeaveDatabase D}.

Definition leave_key (tenantID : Z) (instanceID : string) : Z * string := (tenantID, db_collate instanceID).

(** The insert, or the update of the listed columns when the key is taken: the
    name, the tenant and the deletion mark of the row stay. *)
Definition upsert_row (tenantID : Z) (rec : LeaveRow) (id : Z) (tb : leave_table) : leave_table :=
  let k := leave_key tenantID (lr_ProcessInstanceID rec) in
  let r := default (mkLeaveRow id tenantID (lr_ProcessInstanceID rec) "" "" 0 (lr_UserName rec) 0 0 "" "" "" "" false)
             (tb !! k) in
  <[k := mkLeaveRow (lr_ID r) (lr_TenantID r) (lr_ProcessInstanceID r) (lr_ProcessCode rec) (lr_DingUserID rec)
           (lr_UserID rec) (lr_UserName r) (db_time (lr_StartAt rec)) (db_time (lr_EndAt rec)) (lr_LeaveType rec)
           (lr_Reason rec) (lr_ApproveStatus rec) (lr_Result rec) (lr_Deleted r)]> tb.

Definition UpsertByProcessInstanceID (tenantID : Z) (rec : LeaveRow) : ST D unit :=
  let instanceID := trim_space (lr_ProcessInstanceID rec) in
  if eqs instanceID "" then st_fail (EMsg "repository: process_instance_id 为空")
  else
    ld_write (upsert_row tenantID
      (mkLeaveRow (lr_ID rec) (lr_TenantID rec) instanceID (lr_ProcessCode rec) (lr_DingUserID rec) (lr_UserID rec)
         (lr_UserName rec) (lr_StartAt rec) (lr_EndAt rec) (lr_LeaveType rec) (lr_Reason rec) (lr_ApproveStatus rec)
         (lr_Result rec) (lr_Deleted rec))).

(** Scoped to the tenant, without deleted rows. *)
Definition visible (tenantID : Z) (r : LeaveRow) : bool := (lr_TenantID r =? tenantID) && negb (lr_Deleted r).
Definition overlapping (startAt endAt : Z) (r : LeaveRow) : bool := (lr_StartAt r <? endAt) && (startAt <? lr_EndAt r).
(** [COALESCE(result, '') NOT IN ('refuse', 'cancel')] *)
Definition counted_result (r : LeaveRow) : bool :=
  negb (text_eq (lr_Result r) "refuse" || text_eq (lr_Result r) "cancel").

(** [ORDER BY start_at, end_at, id] *)
Definition row_le (r1 r2 : LeaveRow) : Prop :=
  lr_StartAt r1 < lr_StartAt r2
  \/ lr_StartAt r1 = lr_StartAt r2
     /\ (lr_EndAt r1 < lr_EndAt r2 \/ lr_EndAt r1 = lr_EndAt r2 /\ lr_ID r1 <= lr_ID r2).
#[global] Instance row_le_dec r1 r2 : Decision (row_le r1 r2).
Proof. apply _. Defined.
Definition select_rows (p : LeaveRow -> bool) : ST D (list LeaveRow) :=
  rows <~ ld_rows p ;; st_ret (merge_sort row_le rows).

(** Trimmed, without blank ones and repetitions, the first of each kept. *)
Definition clean_ids (ids : list string) : list string :=
  rev (remove_dups (rev (List.filter (fun id => negb (eqs id "")) (List.map trim_space ids)))).
Definition ListOverlappingByDingUserIDs (tenantID : Z) (dingUserIDs : list string) (startAt endAt : Z)
  : ST D (list LeaveRow) :=
  match clean_ids dingUserIDs with
  | [] => st_ret []
  | clean =>
      if before endAt startAt then st_ret []
      else select_rows (fun r => visible tenantID r && existsb (text_eq (lr_DingUserID r)) clean
                                 && overlapping startAt endAt r)
  end.
Definition ListOverlappingByUserID (tenantID userID startAt endAt : Z) : ST D (list LeaveRow) :=
  if (userID =? 0) || before endAt startAt then st_ret []
  else select_rows (fun r => visible tenantID r && (lr_UserID r =? userID) && overlapping startAt endAt r).
Definition ListApprovedByUserIDs (tenantID : Z) (userIDs : list Z) (startAt endAt : Z) : ST D (list LeaveRow) :=
  if bool_decide (userIDs = []) || before endAt startAt then st_ret []
  else select_rows (fun r => visible tenantID r && bool_decide (lr_UserID r ∈ userIDs) && overlapping startAt endAt r
                             && counted_result r).
End repository.

(** ** Synchronising *)

Record LeaveSyncService W := mkLeaveSync {
  ls_GetByCorpID : string -> ST W (Z * (string -> ST W ProcessInstance));
  ls_FindByDingUserID : Z -> string -> ST W User;
  ls_Now : W -> Z * W }.
Arguments ls_GetByCorpID {W}. Arguments ls_FindByDingUserID {W}. Arguments ls_Now {W}.

Section sync.
Context `{LOC : Location} `{DC : DatabaseConventions} {W : Type} `{LD : LeaveDatabase W} (s : LeaveSyncService W).

(** The local user of an approval, nobody when there is none. *)
Definition local_user (tenantID : Z) (dingUserID : string) (w : W) : Z * string * W :=
  if eqs dingUserID "" then (0, "", w)
  else match ls_FindByDingUserID s tenantID dingUserID w with
       | (Ok user, w) => (us_ID user, us_Name user, w)
       | (Err _, w) => (0, "", w)
       end.

Definition SyncProcessInstance (corpID processInstanceID : string) : ST W unit := fun w =>
  if eqs corpID "" || eqs processInstanceID "" then (Err (EMsg "leave_sync: corpID 或 processInstanceID 为空"), w)
  else
    match ls_GetByCorpID s corpID w with
    | (Err e, w) => (Err (EWrap "leave_sync: 获取租户/客户端失败" e), w)
    | (Ok (tenantID, GetProcessInstance), w) =>
        match GetProcessInstance processInstanceID w with
        | (Err e, w) => (Err (EWrap "leave_sync: 获取审批实例详情失败" e), w)
        | (Ok pi, w) =>
            let '(startAt, endAt, reason, leaveType) := parseLeaveFormFields (pi_FormValues pi) in
            if is_zero startAt then (Ok tt, w)
            else
              let dingUserID := trim_space (pi_OriginatorUserID pi) in
              let '(userID, userName, w) := local_user tenantID dingUserID w in
              let rec := mkLeaveRow 0 tenantID (pi_ProcessInstanceID pi) (pi_ProcessCode pi) dingUserID userID userName
                           startAt endAt leaveType reason (normalizeStatus (pi_Status pi))
                           (normalizeResult (pi_Result pi)) false in
              let '(r, w) := UpsertByProcessInstanceID tenantID rec w in
              (wrap_err "leave_sync: 落库失败" r, w)
        end
    end.

(** Under the context of a tenant. *)
Definition GetRecentLeaves (tenantID userID days : Z) : ST W (list LeaveRow) := fun w =>
  let '(endAt, w) := ls_Now s w in
  (records <~ ListApprovedByUserIDs tenantID [userID] (add_days endAt (- days)) endAt ;;
   st_ret (List.filter (fun r => eqs (lr_Result r) "agree") records)) w.
End sync.
