(* ===== verification/LeaveSpec.v ===== *)
(** * Leave approvals reach the attendance of the sections they cover

    The times a form prints are read back; a synchronised approval is one row
    of its tenant that attendance reads exactly for the windows it overlaps;
    and what the code does with withdrawn approvals, dates and names. *)
From Stdlib Require Import ZArith Lia Bool String.
From stdpp Require Import base list strings gmap sorting.
From S2P Require Import Prelude GoStrings GoTime Json Contract Calendar Settings Attendance Repository Text Leave.
#[local] Open Scope Z_scope.
#[local] Open Scope go_scope.

(** ** Printed times *)

(** "2006-01-02 15:04" of a civil time *)
Definition print_minute_bytes (t : Z) : list Z :=
  let '(y, m, d) := date_of t in
  let mins := t mod ns_day / ns_min in
  pad_year y ++ [45] ++ pad2 m ++ [45] ++ pad2 d ++ [32] ++ pad2 (mins / 60) ++ [58] ++ pad2 (mins mod 60).
Definition print_minute (t : Z) : string := of_bytes (print_minute_bytes t).
Definition whole_minute (t : Z) : Prop := t mod ns_min = 0.

Lemma minute_fields tod : 0 <= tod < ns_day -> tod mod ns_min = 0 ->
  let mins := tod / ns_min in
  0 <= mins / 60 <= 23 /\ 0 <= mins mod 60 <= 59 /\ (mins / 60 * 3600 + mins mod 60 * 60 + 0) * ns_sec + 0 = tod.
Proof. intros H Hm mins. unfold mins, ns_day, ns_min, ns_sec in *. Z.div_mod_to_equations. lia. Qed.

Lemma space_element x b l : b <> 32 -> parse_element (Lit 32) (x, 32 :: b :: l) = Some (x, b :: l).
Proof. intros Hb. destruct x. cbn. destruct b as [|p|p]; try done. repeat (destruct p as [p|p|]; try done). Qed.

Lemma lit_element x c l : c <> 32 -> parse_element (Lit c) (x, c :: l) = Some (x, l).
Proof.
  intros Hc. destruct x. cbn [parse_element]. destruct (Z.eqb_spec c 32); [done|].
  change (c :: l) with ([c] ++ l). by rewrite expect_cons.
Qed.
Lemma year_element y0 m d h mi s ns y l : 0 <= y <= 9999 ->
  parse_element Year (mkFields y0 m d h mi s ns, pad_year y ++ l) = Some (mkFields y m d h mi s ns, l).
Proof. intros Hy. cbn [parse_element]. by rewrite get_year_pad. Qed.
Lemma month_element y m0 d h mi s ns m l : 1 <= m <= 12 ->
  parse_element Month (mkFields y m0 d h mi s ns, pad2 m ++ l) = Some (mkFields y m d h mi s ns, l).
Proof. intros Hm. cbn [parse_element]. by rewrite getnum_pad2, get_range_Some by lia. Qed.
Lemma day_element y m d0 h mi s ns d l : 0 <= d < 100 ->
  parse_element Day (mkFields y m d0 h mi s ns, pad2 d ++ l) = Some (mkFields y m d h mi s ns, l).
Proof. intros Hd. cbn [parse_element]. by rewrite getnum_pad2 by lia. Qed.
Lemma hour_element y m d h0 mi s ns h l : 0 <= h <= 23 ->
  parse_element Hour (mkFields y m d h0 mi s ns, pad2 h ++ l) = Some (mkFields y m d h mi s ns, l).
Proof. intros Hh. cbn [parse_element]. by rewrite getnum_pad2, get_range_Some by lia. Qed.
Lemma minute_element y m d h mi0 s ns mi l : 0 <= mi <= 59 ->
  parse_element Minute (mkFields y m d h mi0 s ns, pad2 mi ++ l) = Some (mkFields y m d h mi s ns, l).
Proof. intros Hh. cbn [parse_element]. by rewrite getnum_pad2, get_range_Some by lia. Qed.

Lemma pad2_space n l : 0 <= n < 100 -> forall x, parse_element (Lit 32) (x, 32 :: pad2 n ++ l) = Some (x, pad2 n ++ l).
Proof.
  intros H x. assert (0 <= n / 10) by (apply Z.div_pos; lia). unfold pad2. cbn [app]. apply space_element. lia.
Qed.

(** One element after the other. *)
Ltac element H := cbn [parse_elements]; rewrite H; cbn [mbind option_bind].

(** The date is read by any layout that starts with one. *)
Lemma date_elements t layout l : year_printable t ->
  let '(y, m, d) := date_of t in
  parse_elements (date_layout 45 ++ layout) (no_fields, pad_year y ++ 45 :: pad2 m ++ 45 :: pad2 d ++ l)
  = parse_elements layout (mkFields y m d 0 0 0 0, l).
Proof.
  unfold year_printable, year_of. destruct (date_of t) as [[y m] d] eqn:E. cbn [fst]. intros Hy.
  destruct (civil_from_days_spec _ _ _ _ E) as (Hm & Hd & _). pose proof (days_in_bound m y).
  unfold date_layout, no_fields. cbn [app].
  element year_element; [|lia]. element lit_element; [|done]. element month_element; [|lia].
  element lit_element; [|done]. element day_element; [|lia]. done.
Qed.

Lemma print_minute_split t : year_printable t -> whole_minute t ->
  let '(y, m, d) := date_of t in
  let mins := t mod ns_day / ns_min in
  0 <= mins / 60 <= 23 /\ 0 <= mins mod 60 <= 59 /\ 1 <= d <= days_in m y
  /\ instant y m d (mins / 60) (mins mod 60) 0 0 = t
  /\ print_minute_bytes t = pad_year y ++ 45 :: pad2 m ++ 45 :: pad2 d ++ 32 :: pad2 (mins / 60) ++ 58 :: pad2 (mins mod 60) ++ [].
Proof.
  intros Hy Hw. unfold print_minute_bytes. destruct (date_of t) as [[y m] d] eqn:E.
  destruct (civil_from_days_spec _ _ _ _ E) as (Hm & Hd & Hdays).
  pose proof (Z.mod_pos_bound t ns_day ltac:(done)) as Htod.
  assert (Hm0 : (t mod ns_day) mod ns_min = 0).
  { unfold whole_minute in Hw. change ns_day with (1440 * ns_min). rewrite (Z.mul_comm 1440), Z.rem_mul_r, (Z.mul_comm ns_min), Z.mod_add, Z.mod_mod by done. done. }
  destruct (minute_fields _ Htod Hm0) as (H1 & H2 & H3). cbv zeta. split_and!; try lia.
  - unfold instant. rewrite Hdays. pose proof (Z.div_mod t ns_day ltac:(done)). lia.
  - by rewrite app_nil_r.
Qed.

Lemma pad_year_is_ascii y : 0 <= y <= 9999 -> Forall is_ascii (pad_year y).
Proof.
  intros Hy. assert (0 <= y / 100 < 100) by (split; [apply Z.div_pos; lia|apply Z.div_lt_upper_bound; lia]).
  pose proof (Z.mod_pos_bound y 100 ltac:(lia)). unfold pad_year.
  destruct (Z.leb_spec 0 y); [|lia]. destruct (Z.leb_spec y 9999); [|lia].
  cbn [andb]. apply Forall_app. split; apply pad2_is_ascii; lia.
Qed.

Lemma print_minute_is_ascii t : year_printable t -> whole_minute t -> Forall is_ascii (print_minute_bytes t).
Proof.
  intros Hy Hw. pose proof (print_minute_split t Hy Hw) as Hs. unfold year_printable, year_of in Hy.
  destruct (date_of t) as [[y m] d] eqn:E. cbn [fst] in Hy. destruct Hs as (Hh & Hmi & Hd & _ & ->).
  destruct (civil_from_days_spec _ _ _ _ E) as (Hm & _ & _). pose proof (days_in_bound m y).
  assert (Hc : forall c l, 0 <= c < 128 -> Forall is_ascii l -> Forall is_ascii (c :: l)) by (intros; by constructor).
  apply Forall_app; split; [by apply pad_year_is_ascii|]. apply Hc; [lia|].
  apply Forall_app; split; [apply pad2_is_ascii; lia|]. apply Hc; [lia|].
  apply Forall_app; split; [apply pad2_is_ascii; lia|]. apply Hc; [lia|].
  apply Forall_app; split; [apply pad2_is_ascii; lia|]. apply Hc; [lia|].
  apply Forall_app; split; [apply pad2_is_ascii; lia|constructor].
Qed.

Lemma print_minute_bytes_of t : year_printable t -> whole_minute t -> bytes (print_minute t) = print_minute_bytes t.
Proof.
  intros Hy Hw. apply bytes_of_bytes. eapply Forall_impl; [by apply print_minute_is_ascii|apply is_ascii_byte].
Qed.

(** The two layouts with seconds that are tried first do not read a minute; the
    third does. *)
Lemma minute_formats t : year_printable t -> whole_minute t ->
  first_some (fun layout => parse_civil layout (print_minute t)) formats = Some t.
Proof.
  intros Hy Hw. pose proof (print_minute_bytes_of t Hy Hw) as Hb. pose proof (print_minute_split t Hy Hw) as Hs.
  pose proof (fun layout l => date_elements t layout l Hy) as Hd. destruct (date_of t) as [[y m] d].
  destruct Hs as (Hh & Hmi & Hdd & Hi & Hp). rewrite Hp in Hb.
  set (mins := t mod ns_day / ns_min) in *. unfold formats. cbn [first_some].
  assert (E1 : parse_civil (date_layout 45 ++ [Lit 32] ++ second_layout) (print_minute t) = None).
  { unfold parse_civil. rewrite Hb, Hd. unfold second_layout, minute_layout. cbn [app].
    element pad2_space; [|lia]. element hour_element; [|lia]. element lit_element; [|done].
    element minute_element; [|lia]. done. }
  assert (E2 : parse_civil (date_layout 45 ++ [Lit 84] ++ second_layout) (print_minute t) = None).
  { unfold parse_civil. rewrite Hb, Hd. done. }
  assert (E3 : parse_civil (date_layout 45 ++ [Lit 32] ++ minute_layout) (print_minute t) = Some t).
  { unfold parse_civil. rewrite Hb, Hd. unfold minute_layout. cbn [app].
    element pad2_space; [|lia]. element hour_element; [|lia]. element lit_element; [|done].
    element minute_element; [|lia]. cbn [f_day f_month f_year f_hour f_min f_sec f_ns].
    rewrite (proj2 (Z.leb_le 1 d)), (proj2 (Z.leb_le d (days_in m y))) by lia. cbn [andb]. by rewrite Hi. }
  by rewrite E1, E2, E3.
Qed.

Section times.
Context `{LOC : Location}.

(** A time that a form prints is the instant of that local time. *)
Lemma parseTime_minute t : year_printable t -> whole_minute t -> parseTime (print_minute t) = Some (local_instant t).
Proof.
  intros Hy Hw. pose proof (print_minute_split t Hy Hw) as Hs. pose proof (print_minute_is_ascii t Hy Hw) as Ha.
  assert (Ht : trim_space (print_minute t) = print_minute t /\ print_minute t <> "").
  { unfold year_printable, year_of in Hy. destruct (date_of t) as [[y m] d]. cbn [fst] in Hy.
    destruct Hs as (Hh & Hmi & _ & _ & Hp). set (mins := t mod ns_day / ns_min) in *.
    assert (Hend : exists b l e, print_minute_bytes t = b :: l ++ [e] /\ is_space b = false /\ is_space e = false).
    { rewrite Hp. unfold pad_year. destruct (Z.leb_spec 0 y); [|lia]. destruct (Z.leb_spec y 9999); [|lia]. cbn [andb].
      assert (Hnum : forall n, 0 <= n <= 9 -> is_space (48 + n) = false).
      { intros n Hn. unfold is_space, in_range. repeat (apply orb_false_iff; split); apply Z.eqb_neq || (apply andb_false_iff; rewrite !Z.leb_gt); lia. }
      exists (48 + y / 100 / 10), ([48 + (y / 100) mod 10] ++ pad2 (y mod 100) ++ 45 :: pad2 m ++ 45 :: pad2 d
        ++ 32 :: pad2 (mins / 60) ++ [58; 48 + mins mod 60 / 10]), (48 + (mins mod 60) mod 10).
      split; [unfold pad2; by rewrite <- !app_assoc|]. split; apply Hnum; Z.div_mod_to_equations; lia. }
    destruct Hend as (b & l & e & El & Hb & He). unfold print_minute. rewrite El in *.
    inversion_clear Ha as [|? ? Hab Ha']. apply Forall_app in Ha' as [Hal Hae]. inversion_clear Hae as [|? ? Hae' _].
    assert (Forall is_byte l) by (eapply Forall_impl; [exact Hal|apply is_ascii_byte]).
    split; [by apply trim_space_closed|]. intros E. apply (f_equal bytes) in E.
    rewrite bytes_of_bytes in E; [done|]. constructor; [by apply is_ascii_byte|]. apply Forall_app. split; [done|].
    constructor; [by apply is_ascii_byte|constructor]. }
  destruct Ht as [Ht Hne]. unfold parseTime. rewrite Ht. rewrite (proj2 (eqs_false _ _) Hne).
  by rewrite minute_formats.
Qed.

(** ** Forms *)

Definition is_holiday (fv : ProcessInstanceFormComponentValue) : bool :=
  has_prefix (trim_space (fv_Name fv)) "[" && contains (trim_space (fv_Name fv)) "开始时间".

Lemma other_components fvs f :
  Forall (fun fv => is_holiday fv = false) fvs ->
  let f' := fold_left read_component fvs f in
  lf_Start f' = lf_Start f /\ lf_End f' = lf_End f /\ lf_Type f' = lf_Type f.
Proof.
  intros H. revert f. induction H as [|fv fvs Hfv _ IH]; intros f; [done|]. cbn [fold_left].
  destruct (IH (read_component f fv)) as (-> & -> & ->). unfold read_component. unfold is_holiday in Hfv. rewrite Hfv.
  by destruct (eqs _ _ || eqs _ _).
Qed.

(** A leave form reads back: whatever other components the form has, the
    two minutes that its holiday component prints are the start and the end of
    the leave, as instants of the local zone, and its fifth entry is the
    type. *)
Theorem holiday_form_is_read before_ after_ fv from until d u type more :
  Forall (fun fv => is_holiday fv = false) before_ -> Forall (fun fv => is_holiday fv = false) after_ ->
  is_holiday fv = true -> trim_space (fv_Value fv) <> "" ->
  unmarshal_array (trim_space (fv_Value fv))
  = Some (JStr (print_minute from) :: JStr (print_minute until) :: d :: u :: JStr type :: more) ->
  year_printable from -> whole_minute from -> year_printable until -> whole_minute until ->
  local_instant from <> 0 -> local_instant until <> 0 -> type <> "" ->
  exists reason, parseLeaveFormFields (before_ ++ fv :: after_) = (local_instant from, local_instant until, reason, type).
Proof.
  intros Hb Ha Hh Hv Hj Hy1 Hw1 Hy2 Hw2 N1 N2 Nt. unfold parseLeaveFormFields. rewrite fold_left_app. cbn [fold_left].
  destruct (other_components before_ (mkForm 0 0 "" ∅) Hb) as (E1 & E2 & E3).
  set (f0 := fold_left read_component before_ (mkForm 0 0 "" ∅)) in *.
  assert (Ef : read_component f0 fv = mkForm (local_instant from) (local_instant until) type (lf_Fields f0)).
  { unfold read_component. unfold is_holiday in Hh. rewrite Hh, (proj2 (eqs_false _ _) Hv), orb_false_r.
    destruct (eqs (trim_space (fv_Name fv)) "") eqn:En.
    - apply eqs_true in En. rewrite En in Hh. done.
    - unfold read_holiday. rewrite Hj. rewrite (proj2 (Z.leb_le 2 _)) by (unfold len; cbn; lia).
      rewrite (proj2 (Z.leb_le 5 _)) by (unfold len; cbn; lia). cbn [lookup list_lookup as_string default].
      unfold read_time. cbn [mbind option_bind]. by rewrite !parseTime_minute. }
  rewrite Ef. destruct (other_components after_ (mkForm (local_instant from) (local_instant until) type (lf_Fields f0)) Ha)
    as (E4 & E5 & E6).
  set (f2 := fold_left read_component after_ _) in *. cbn [lf_Start lf_End lf_Type] in *. rewrite E4, E5, E6.
  unfold is_zero. rewrite (proj2 (Z.eqb_neq _ _) N1), (proj2 (Z.eqb_neq _ _) N2), (proj2 (eqs_false _ _) Nt). by eexists.
Qed.
End times.

(** ** The table *)

(** A statement is done or not; an error may also come after it was done. *)
Class LeaveLaws (D : Type) `{LeaveDatabase D} : Prop := {
  ld_writes : forall f w r w', ld_write f w = (r, w') ->
    (exists n, ld_table w' = f n (ld_table w)) \/ (exists e, r = Err e) /\ ld_table w' = ld_table w;
  ld_reads : forall p w r w', ld_rows p w = (r, w') ->
    ld_table w' = ld_table w
    /\ (forall rows, r = Ok rows -> rows ≡ₚ List.filter p (List.map snd (map_to_list (ld_table w)))) }.

#[global] Instance row_le_total : Total row_le.
Proof. intros r1 r2. unfold row_le. lia. Qed.
#[global] Instance row_le_trans : Transitive row_le.
Proof. intros r1 r2 r3. unfold row_le. lia. Qed.

Section table.
Context `{DC : DatabaseConventions} {D : Type} {LD : LeaveDatabase D} {LL : LeaveLaws D}.

(** Rows are where their key says. *)
Definition table_ok (tb : leave_table) : Prop :=
  forall k r, tb !! k = Some r -> k = leave_key (lr_TenantID r) (lr_ProcessInstanceID r).

(** The row an upsert leaves. *)
Lemma upserted tenant rec n tb : table_ok tb ->
  let k := leave_key tenant (lr_ProcessInstanceID rec) in
  let tb' := upsert_row tenant rec n tb in
  table_ok tb' /\ (forall k', k' <> k -> tb' !! k' = tb !! k')
  /\ exists r, tb' !! k = Some r /\ lr_TenantID r = tenant
       /\ lr_UserID r = lr_UserID rec /\ lr_StartAt r = db_time (lr_StartAt rec) /\ lr_EndAt r = db_time (lr_EndAt rec)
       /\ lr_LeaveType r = lr_LeaveType rec /\ lr_Reason r = lr_Reason rec
       /\ lr_ApproveStatus r = lr_ApproveStatus rec /\ lr_Result r = lr_Result rec
       /\ lr_Deleted r = match tb !! k with Some r0 => lr_Deleted r0 | None => false end
       /\ lr_UserName r = match tb !! k with Some r0 => lr_UserName r0 | None => lr_UserName rec end.
Proof.
  intros Hok k tb'. unfold tb', upsert_row. fold k. cbv zeta. split_and!.
  - intros k' r. destruct (decide (k' = k)) as [->|Hne].
    + rewrite lookup_insert_eq. intros [= <-]. cbn. destruct (tb !! k) as [r0|] eqn:E; [by apply Hok|done].
    + rewrite lookup_insert_ne by done. apply Hok.
  - intros k' Hne. by rewrite lookup_insert_ne.
  - eexists. split; [apply lookup_insert_eq|]. destruct (tb !! k) as [r0|] eqn:E; cbn; split_and!; try done.
    pose proof (Hok _ _ E) as Hk. unfold k, leave_key in Hk. congruence.
Qed.

(** The same approval again changes nothing. *)
Lemma upsert_idempotent tenant rec n n' tb :
  upsert_row tenant rec n' (upsert_row tenant rec n tb) = upsert_row tenant rec n tb.
Proof. unfold upsert_row. rewrite lookup_insert_eq. cbn [default]. by rewrite insert_insert_eq. Qed.

Lemma selected_rows (p : LeaveRow -> bool) w rows w' :
  select_rows p w = (Ok rows, w') ->
  ld_table w' = ld_table w /\ StronglySorted row_le rows
  /\ rows ≡ₚ List.filter p (List.map snd (map_to_list (ld_table w))).
Proof.
  unfold select_rows. intros H. apply st_bind_Ok in H as (l & w1 & Hl & H). apply st_ret_Ok in H as [<- ->].
  destruct (ld_reads _ _ _ _ Hl) as [H1 H2]. split; [done|]. split; [apply StronglySorted_merge_sort; apply _|].
  rewrite merge_sort_Permutation. by apply H2.
Qed.

Lemma selected_elem (tb : leave_table) p r :
  r ∈ List.filter p (List.map snd (map_to_list tb)) <-> p r = true /\ exists k, tb !! k = Some r.
Proof.
  rewrite list_elem_of_In, filter_In, in_map_iff. split.
  - intros [([k r'] & <- & Hk) Hp]. split; [done|]. exists k. apply elem_of_map_to_list. by apply list_elem_of_In.
  - intros [Hp [k Hk]]. split; [|done]. exists (k, r). split; [done|]. by apply list_elem_of_In, elem_of_map_to_list.
Qed.
End table.

(** ** Synchronised approvals *)

Section synced.
Context `{LOC : Location} `{DC : DatabaseConventions} {W : Type} {LD : LeaveDatabase W} {LL : LeaveLaws W}
  (s : LeaveSyncService W).

(** Only the statements on leave_approvals change that table. *)
Class SyncPorts : Prop := {
  port_client : forall corp w r w', ls_GetByCorpID s corp w = (r, w') -> ld_table w' = ld_table w;
  port_instance : forall corp w tenant get w', ls_GetByCorpID s corp w = (Ok (tenant, get), w') ->
    forall id v r v', get id v = (r, v') -> ld_table v' = ld_table v;
  port_user : forall tenant id w r w', ls_FindByDingUserID s tenant id w = (r, w') -> ld_table w' = ld_table w }.
Context {SP : SyncPorts}.

Lemma local_user_frame tenant id w : ld_table (local_user s tenant id w).2 = ld_table w.
Proof.
  unfold local_user. destruct (eqs id ""); [done|].
  destruct (ls_FindByDingUserID s tenant id w) as [[u|e] w1] eqn:E; by apply port_user in E.
Qed.

(** The record of an approval. *)
Definition record_of (tenant : Z) (pi : ProcessInstance) (start until : Z) (reason type : string) (user : Z * string)
  : LeaveRow :=
  mkLeaveRow 0 tenant (pi_ProcessInstanceID pi) (pi_ProcessCode pi) (trim_space (pi_OriginatorUserID pi)) user.1 user.2
    start until type reason (normalizeStatus (pi_Status pi)) (normalizeResult (pi_Result pi)) false.
Definition trimmed_record (rec : LeaveRow) : LeaveRow :=
  mkLeaveRow (lr_ID rec) (lr_TenantID rec) (trim_space (lr_ProcessInstanceID rec)) (lr_ProcessCode rec)
    (lr_DingUserID rec) (lr_UserID rec) (lr_UserName rec) (lr_StartAt rec) (lr_EndAt rec) (lr_LeaveType rec)
    (lr_Reason rec) (lr_ApproveStatus rec) (lr_Result rec) (lr_Deleted rec).

(** A leave is written, or there is an error and nothing changed. *)
Lemma sync_writes corp id w tenant get w1 pi w2 start until reason type r w' :
  corp <> "" -> id <> "" -> ls_GetByCorpID s corp w = (Ok (tenant, get), w1) -> get id w1 = (Ok pi, w2) ->
  parseLeaveFormFields (pi_FormValues pi) = (start, until, reason, type) -> is_zero start = false ->
  SyncProcessInstance s corp id w = (r, w') ->
  (exists n, ld_table w' = upsert_row tenant (trimmed_record (record_of tenant pi start until reason type
       (local_user s tenant (trim_space (pi_OriginatorUserID pi)) w2).1)) n (ld_table w))
  \/ (exists e, r = Err e) /\ ld_table w' = ld_table w.
Proof.
  intros Hc Hi E1 E2 Ep Ez H. unfold SyncProcessInstance in H.
  rewrite (proj2 (eqs_false _ _) Hc), (proj2 (eqs_false _ _) Hi), E1, E2, Ep, Ez in H. cbn [orb] in H.
  pose proof (port_client _ _ _ _ E1) as F1. pose proof (port_instance _ _ _ _ _ E1 _ _ _ _ E2) as F2.
  pose proof (local_user_frame tenant (trim_space (pi_OriginatorUserID pi)) w2) as F3.
  destruct (local_user s tenant _ w2) as [[u name] w3]. cbn [fst snd] in *.
  unfold UpsertByProcessInstanceID in H. destruct (eqs _ "").
  - injection H as <- <-. right. split; [by eexists|congruence].
  - destruct (ld_write _ w3) as [r4 w4] eqn:Eu. injection H as <- <-.
    apply ld_writes in Eu as [[n Hn]|[[e ->] Hn]]; [left; exists n; rewrite Hn, F3, F2, F1; done|].
    right. split; [by eexists|congruence].
Qed.

(** The rule the repository states: a leave counts unless it was refused or
    withdrawn; withdrawn is an instance that was terminated, or whose result says
    so. *)
Definition refused (pi : ProcessInstance) : Prop := text_eq (normalizeResult (pi_Result pi)) "refuse" = true.
Definition cancelled_result (pi : ProcessInstance) : Prop := text_eq (normalizeResult (pi_Result pi)) "cancel" = true.
Definition withdrawn (pi : ProcessInstance) : Prop :=
  normalizeStatus (pi_Status pi) = "TERMINATED" \/ cancelled_result pi.
(** DingTalk gives a terminated instance a result that says why it ended. *)
Definition end_explained (pi : ProcessInstance) : Prop :=
  normalizeStatus (pi_Status pi) = "TERMINATED" -> refused pi \/ cancelled_result pi.

Lemma counted_rule pi r :
  end_explained pi -> lr_Result r = normalizeResult (pi_Result pi) ->
  counted_result r = true <-> ~ refused pi /\ ~ withdrawn pi.
Proof.
  unfold end_explained, withdrawn, refused, cancelled_result, counted_result. intros Hend ->.
  destruct (text_eq _ "refuse"), (text_eq _ "cancel"); cbn; naive_solver.
Qed.

(** C24: A synchronised leave counts exactly where the repository says it
    should, when DingTalk explains the end of a terminated instance: attendance of
    the tenant then finds it for a user and a window if and only if it is that
    user's, overlaps the window, was neither refused nor withdrawn and had not
    been deleted.  In any case it is found as one row with the approval's own
    times, type, reason and status, in the order of the starts, and no other
    approval's row has changed.  The query looks at the result only, so an
    instance that was terminated without one counts against that rule
    ([withdrawn_leave_counts]). *)
Theorem synced_leave_counts corp id w tenant get w1 pi w2 start until reason type w' :
  table_ok (ld_table w) -> corp <> "" -> id <> "" ->
  ls_GetByCorpID s corp w = (Ok (tenant, get), w1) -> get id w1 = (Ok pi, w2) ->
  parseLeaveFormFields (pi_FormValues pi) = (start, until, reason, type) -> is_zero start = false ->
  SyncProcessInstance s corp id w = (Ok tt, w') ->
  let k := leave_key tenant (trim_space (pi_ProcessInstanceID pi)) in
  let user := (local_user s tenant (trim_space (pi_OriginatorUserID pi)) w2).1 in
  let result := normalizeResult (pi_Result pi) in
  table_ok (ld_table w')
  /\ (forall k', k' <> k -> ld_table w' !! k' = ld_table w !! k')
  /\ forall users a b v rows v',
       ld_table v = ld_table w' -> users <> [] -> a <= b ->
       ListApprovedByUserIDs tenant users a b v = (Ok rows, v') ->
       StronglySorted row_le rows
       /\ (forall r, r ∈ rows -> ld_table w' !! k = Some r ->
             approval_of_row r = mkLeaveApproval user.1 (lr_UserName r) type reason (db_time start) (db_time until)
                                   (normalizeStatus (pi_Status pi)) result)
       /\ (end_explained pi ->
           (exists r, r ∈ rows /\ ld_table w' !! k = Some r)
           <-> user.1 ∈ users /\ db_time start < b /\ a < db_time until /\ ~ refused pi /\ ~ withdrawn pi
               /\ (forall r0, ld_table w !! k = Some r0 -> lr_Deleted r0 = false)).
Proof.
  intros Hok Hc Hi E1 E2 Ep Ez H k user result.
  assert (Hw : exists n, ld_table w' = upsert_row tenant (trimmed_record (record_of tenant pi start until reason type user)) n (ld_table w)).
  { destruct (sync_writes _ _ _ _ _ _ _ _ _ _ _ _ _ _ Hc Hi E1 E2 Ep Ez H) as [Hn|[[e He] _]]; [exact Hn|done]. }
  destruct Hw as [n Hw].
  destruct (upserted tenant (trimmed_record (record_of tenant pi start until reason type user)) n (ld_table w) Hok)
    as (Hok' & Hrest & r & Hr & Ht & Hu & Hs & He & Hty & Hre & Hst & Hres & Hdel & _).
  rewrite <- Hw in Hok', Hrest, Hr. change (leave_key tenant (lr_ProcessInstanceID (trimmed_record (record_of tenant pi start until reason type user))))
    with k in Hrest, Hr, Hdel. cbn in Ht, Hu, Hs, He, Hty, Hre, Hst, Hres.
  split; [done|]. split; [done|]. intros users a b v rows v' Hv Hne Hab HL.
  unfold ListApprovedByUserIDs in HL. rewrite bool_decide_false in HL by done.
  unfold before in HL. rewrite (proj2 (Z.ltb_ge b a)) in HL by done. cbn [orb] in HL.
  destruct (selected_rows _ _ _ _ HL) as (_ & Hsort & Hperm). rewrite Hv in Hperm. split; [done|].
  assert (Hin : r ∈ rows <-> visible tenant r && bool_decide (lr_UserID r ∈ users) && overlapping a b r && counted_result r = true).
  { rewrite Hperm, selected_elem. split; [by intros [? _]|intros Hp2; split; [done|by exists k]]. }
  split.
  - intros r' _ Hr'. rewrite Hr in Hr'. injection Hr' as <-. unfold approval_of_row. by rewrite Hu, Hs, He, Hty, Hre, Hst, Hres.
  - intros Hend. transitivity (r ∈ rows).
    { split; [intros (r' & Hr' & E); rewrite Hr in E; by injection E as ->|intros Hi'; by exists r]. }
    rewrite Hin, !andb_true_iff, (counted_rule pi r Hend Hres). unfold visible, overlapping. rewrite Ht, Hu, Hs, He, Hdel, Z.eqb_refl.
    assert (Hd : negb (match ld_table w !! k with Some r0 => lr_Deleted r0 | None => false end) = true
                 <-> forall r0, ld_table w !! k = Some r0 -> lr_Deleted r0 = false).
    { destruct (ld_table w !! k) as [r0|]; [|done]. rewrite negb_true_iff. split; [by intros Hd r1 [= <-]|by auto]. }
    rewrite !andb_true_iff, Hd, bool_decide_eq_true, !Z.ltb_lt. tauto.
Qed.
End synced.

(** ** Concrete approvals *)

#[local] Existing Instance shanghai.
#[local] Instance exact_columns : DatabaseConventions :=
  {| db_collate s := s; db_time t := t; db_duplicate _ := false |}.

(** The table, the next id, and whether the applicant is a local user yet. *)
Record leave_world := mkLeaveWorld { le_table : leave_table; le_next : Z; le_known : bool }.
#[local] Instance leave_in_memory : LeaveDatabase leave_world := {
  ld_table := le_table;
  ld_write f w := (Ok tt, mkLeaveWorld (f (le_next w) (le_table w)) (le_next w + 1) (le_known w));
  ld_rows p w := (Ok (List.filter p (List.map snd (map_to_list (le_table w)))), w) }.
#[local] Instance leave_in_memory_laws : LeaveLaws leave_world.
Proof.
  split.
  - intros f w r w' [= <- <-]. left. by eexists.
  - intros p w r w' [= <- <-]. split; [done|]. by intros rows [= <-].
Qed.

Definition leave_service (pi : ProcessInstance) : LeaveSyncService leave_world :=
  mkLeaveSync leave_world (fun _ => st_ret (7, fun _ => st_ret pi))
    (fun _ _ w => (if le_known w then Ok (mkUser 4 7 "d4" "Di" "" "") else Err (ESentinel "ErrUserNotFound"), w))
    (fun w => (0, w)).
#[local] Instance leave_service_ports pi : SyncPorts (leave_service pi).
Proof.
  split.
  - by intros corp w r w' [= _ <-].
  - intros corp w tenant get w' [= _ <- _] id v r v'. by intros [= _ <-].
  - by intros tenant id w r w' [= _ <-].
Qed.

(** The straight double quote, to write JSON down. *)
Definition q : string := of_bytes [34].
Definition holiday_fields (from until type : string) : list ProcessInstanceFormComponentValue :=
  [mkFormValue ("[" +:+ q +:+ "开始时间" +:+ q +:+ "," +:+ q +:+ "结束时间" +:+ q +:+ "]")
     ("[" +:+ q +:+ from +:+ q +:+ "," +:+ q +:+ until +:+ q +:+ ",0.02," +:+ q +:+ "hour" +:+ q +:+ "," +:+ q +:+ type
      +:+ q +:+ "]");
   mkFormValue "请假事由" "trip"].
Definition approval (status result from until : string) : ProcessInstance :=
  mkInstance "p1" "c" status result "d4" (holiday_fields from until "事假").

Definition march (d h mi : Z) : Z := local_instant (instant 2026 3 d h mi 0 0).
Definition no_leaves (known : bool) : leave_world := mkLeaveWorld ∅ 1 known.
Definition synced (known : bool) (pi : ProcessInstance) (w : leave_world) : leave_world :=
  (SyncProcessInstance (leave_service pi) "corp" "p1" (mkLeaveWorld (le_table w) (le_next w) known)).2.
(** The approvals attendance finds for user 4 of tenant 7. *)
Definition found (a b : Z) (w : leave_world) : list LeaveApproval :=
  match ListApprovedByUserIDs 7 [4] a b w with (Ok rows, _) => List.map approval_of_row rows | _ => [] end.

Lemma holiday_form_is_read_witness :
  exists reason, parseLeaveFormFields (holiday_fields (print_minute (instant 2026 3 2 8 0 0 0))
      (print_minute (instant 2026 3 2 12 30 0 0)) "事假")
    = (march 2 8 0, march 2 12 30, reason, "事假").
Proof.
  assert (H : forall h mi, (h = 8 /\ mi = 0) \/ (h = 12 /\ mi = 30) ->
    year_printable (instant 2026 3 2 h mi 0 0) /\ whole_minute (instant 2026 3 2 h mi 0 0)).
  { intros h mi [[-> ->]|[-> ->]]; split; [split; vm_compute; discriminate|vm_compute; reflexivity|
      split; vm_compute; discriminate|vm_compute; reflexivity]. }
  destruct (H 8 0 ltac:(by left)) as [Y1 M1]. destruct (H 12 30 ltac:(by right)) as [Y2 M2].
  refine (holiday_form_is_read [] [mkFormValue "请假事由" "trip"] _ (instant 2026 3 2 8 0 0 0) (instant 2026 3 2 12 30 0 0)
    (JNum "0.02") (JStr "hour") "事假" [] _ _ _ _ _ Y1 M1 Y2 M2 _ _ _).
  - constructor.
  - constructor; [vm_compute; reflexivity|constructor].
  - vm_compute. reflexivity.
  - vm_compute. discriminate.
  - vm_compute. reflexivity.
  - vm_compute. discriminate.
  - vm_compute. discriminate.
  - discriminate.
Defined.

Lemma synced_leave_counts_witness :
  let w' := synced true (approval "COMPLETED" "agree" "2026-03-02 08:00" "2026-03-02 12:30") (no_leaves true) in
  table_ok (ld_table w')
  /\ (exists rows r, ListApprovedByUserIDs 7 [4] (march 2 8 0) (march 2 9 40) w' = (Ok rows, w') /\ r ∈ rows
        /\ ld_table w' !! leave_key 7 "p1" = Some r)
  /\ found (march 2 8 0) (march 2 9 40) w'
     = [mkLeaveApproval 4 "Di" "事假" "trip" (march 2 8 0) (march 2 12 30) "COMPLETED" "agree"].
Proof.
  assert (Hok : table_ok (ld_table (no_leaves true))) by (intros k r H; discriminate H).
  assert (Hc : "corp" <> "") by discriminate. assert (Hi : "p1" <> "") by discriminate.
  assert (Ep : parseLeaveFormFields (holiday_fields "2026-03-02 08:00" "2026-03-02 12:30" "事假")
               = (march 2 8 0, march 2 12 30, "trip", "事假")) by (vm_compute; reflexivity).
  assert (Ez : is_zero (march 2 8 0) = false) by (vm_compute; reflexivity).
  set (pi := approval "COMPLETED" "agree" "2026-03-02 08:00" "2026-03-02 12:30").
  assert (E : SyncProcessInstance (leave_service pi) "corp" "p1" (no_leaves true) = (Ok tt, synced true pi (no_leaves true)))
    by (vm_compute; reflexivity).
  destruct (synced_leave_counts (leave_service pi) "corp" "p1" (no_leaves true) 7 (fun _ => st_ret pi) (no_leaves true) pi
    (no_leaves true) _ _ _ _ _ Hok Hc Hi eq_refl eq_refl Ep Ez E) as (H1 & _ & H2).
  split; [exact H1|]. split; [|vm_compute; reflexivity].
  assert (HL : exists rows, ListApprovedByUserIDs 7 [4] (march 2 8 0) (march 2 9 40) (synced true pi (no_leaves true))
                            = (Ok rows, synced true pi (no_leaves true))) by (eexists; vm_compute; reflexivity).
  destruct HL as [rows HL]. exists rows.
  destruct (H2 [4] (march 2 8 0) (march 2 9 40) (synced true pi (no_leaves true)) rows (synced true pi (no_leaves true))
              eq_refl ltac:(discriminate) ltac:(apply Z.leb_le; vm_compute; reflexivity) HL) as (_ & _ & H3).
  assert (Hend : end_explained pi) by (intros X; vm_compute in X; discriminate X).
  destruct (proj2 (H3 Hend)) as (r & Hr & Hk).
  - split; [apply (bool_decide_unpack _); vm_compute; exact I|].
    split; [apply Z.ltb_lt; vm_compute; reflexivity|]. split; [apply Z.ltb_lt; vm_compute; reflexivity|].
    split; [intros X; vm_compute in X; discriminate X|].
    split; [intros [X|X]; vm_compute in X; discriminate X|]. intros r0 X. discriminate X.
  - exists r. split; [exact HL|]. split; [exact Hr|exact Hk].
Defined.

(** An approval that was withdrawn, and so has no result, still counts: only
    the result is looked at. *)
Theorem withdrawn_leave_counts :
  found (march 2 8 0) (march 2 9 40)
    (synced true (approval "TERMINATED" "" "2026-03-02 08:00" "2026-03-02 12:30") (no_leaves true))
  = [mkLeaveApproval 4 "Di" "事假" "trip" (march 2 8 0) (march 2 12 30) "TERMINATED" ""].
Proof. vm_compute. reflexivity. Qed.

(** A leave given in whole days does not cover its last day: one of a single
    day covers nothing. *)
Theorem last_day_not_covered :
  let w := synced true (approval "COMPLETED" "agree" "2026-03-02" "2026-03-03") (no_leaves true) in
  len (found (march 2 8 0) (march 2 9 40) w) = 1 /\ found (march 3 8 0) (march 3 9 40) w = []
  /\ found (march 2 0 0) (march 3 0 0) (synced true (approval "COMPLETED" "agree" "2026-03-02" "2026-03-02") (no_leaves true)) = [].
Proof. split_and!; vm_compute; reflexivity. Qed.

(** The applicant of a leave that was first synchronised before they were a
    local user stays without a name, although the leave is now theirs. *)
Theorem name_never_filled_in :
  let pi := approval "COMPLETED" "agree" "2026-03-02 08:00" "2026-03-02 12:30" in
  List.map (fun a => (la_UserID a, la_UserName a)) (found (march 2 8 0) (march 2 9 40) (synced true pi (synced false pi (no_leaves false))))
  = [(4, "")].
Proof. vm_compute. reflexivity. Qed.
