(* ===== verification/Courses.v ===== *)
(** * Timetables of users

    internal/service/schedule_service.go and
    internal/repository/course_repository.go: a user's courses are listed,
    added, changed, deleted, imported or copied; every change is followed by a
    notice that is sent in the background. *)
From Stdlib Require Import ZArith Lia Bool String.
From stdpp Require Import base list strings gmap sorting.
From S2P Require Import Prelude GoStrings GoTime Contract ScheduleParse Calendar Settings Attendance Analytics Slots.
#[local] Open Scope Z_scope.
#[local] Open Scope go_scope.

(** ** The table *)

(** model.Course: what a course is about is kept together. *)
Record CourseRow := mkCourseRow {
  cr_ID : Z; cr_TenantID : Z; cr_UserID : Z; cr_SemesterID : option Z; cr_Course : CourseInput; cr_Deleted : bool }.
Notation course_table := (gmap Z CourseRow).

(** A statement or a transaction changes the table as a whole, with the first
    of the ids it may give to new rows, or reads the rows that it selects. *)
Class CourseDatabase (D : Type) := {
  cdb_table : D -> course_table;
  cdb_write : (Z -> course_table -> course_table) -> ST D Z;
  cdb_rows : (CourseRow -> bool) -> ST D (list CourseRow)
}.

Definition with_id (id tenantID : Z) (r : CourseRow) : CourseRow :=
  mkCourseRow id tenantID (cr_UserID r) (cr_SemesterID r) (cr_Course r) (cr_Deleted r).
Fixpoint insert_rows (id tenantID : Z) (rows : list CourseRow) (tb : course_table) : course_table :=
  match rows with
  | [] => tb
  | r :: rows => insert_rows (id + 1) tenantID rows (<[id := with_id id tenantID r]> tb)
  end.

(** The tenant's rows that are not deleted. *)
Definition course_visible (tenantID : Z) (r : CourseRow) : bool := (cr_TenantID r =? tenantID) && negb (cr_Deleted r).
Definition of_user (userID : Z) (r : CourseRow) : bool := cr_UserID r =? userID.
Definition day_of (r : CourseRow) : Z := DayOfWeek (cr_Course r).
Definition section_of (r : CourseRow) : Z := Section_ (cr_Course r).

(** [ORDER BY day_of_week, section, id] *)
Definition course_le (r1 r2 : CourseRow) : Prop :=
  day_of r1 < day_of r2
  \/ day_of r1 = day_of r2 /\ (section_of r1 < section_of r2 \/ section_of r1 = section_of r2 /\ cr_ID r1 <= cr_ID r2).
#[global] Instance course_le_dec r1 r2 : Decision (course_le r1 r2).
Proof. apply _. Defined.

Section repository.
Context {D : Type} `{CD : CourseDatabase D}.

Definition mark_deleted (r : CourseRow) : CourseRow :=
  mkCourseRow (cr_ID r) (cr_TenantID r) (cr_UserID r) (cr_SemesterID r) (cr_Course r) true.
(** [UPDATE ... SET deleted_at]: on the visible rows that [p] selects. *)
Definition soft_delete (tenantID : Z) (p : CourseRow -> bool) (tb : course_table) : course_table :=
  (fun r => if course_visible tenantID r && p r then mark_deleted r else r) <$> tb.

Definition DeleteByUser (tenantID userID : Z) : ST D unit :=
  cdb_write (fun _ => soft_delete tenantID (of_user userID)) ~;; st_ret tt.
Definition BatchCreate (tenantID : Z) (courses : list CourseRow) : ST D unit :=
  match courses with
  | [] => st_ret tt
  | _ => cdb_write (fun id => insert_rows id tenantID courses) ~;; st_ret tt
  end.

Definition ordered_rows (p : CourseRow -> bool) : ST D (list CourseRow) :=
  rows <~ cdb_rows p ;; st_ret (merge_sort course_le rows).
Definition ListByUser (tenantID userID : Z) : ST D (list CourseRow) :=
  ordered_rows (fun r => course_visible tenantID r && of_user userID r).

(** A page and the number of rows; the count and the page are two statements. *)
Definition ListByUserPaged (tenantID userID page pageSize : Z) : ST D (list CourseRow * Z) :=
  let page := if page <=? 0 then 1 else page in
  let pageSize := if pageSize <=? 0 then 10 else pageSize in
  let offset := wrap_int64 (wrap_int64 (page - 1) * pageSize) in
  let mine r := course_visible tenantID r && of_user userID r in
  counted <~ cdb_rows mine ;;
  let total := len counted in
  if (total =? 0) || (total <=? offset) then st_ret ([], total)
  else
    rows <~ ordered_rows mine ;;
    st_ret (take (Z.to_nat pageSize) (drop (Z.to_nat offset) rows), total).

Definition ListByUsersDaySection (tenantID : Z) (userIDs : list Z) (dayOfWeek section : Z) : ST D (list CourseRow) :=
  if bool_decide (userIDs = []) || (dayOfWeek <=? 0) || (section <=? 0) then st_ret []
  else cdb_rows (fun r => course_visible tenantID r && bool_decide (cr_UserID r ∈ userIDs) && (day_of r =? dayOfWeek)
                          && (section_of r =? section)).
Definition ListCoursesByUsersDays (tenantID : Z) (userIDs dayOfWeeks : list Z) : ST D (list CourseRow) :=
  if bool_decide (userIDs = []) || bool_decide (dayOfWeeks = []) then st_ret []
  else cdb_rows (fun r => course_visible tenantID r && bool_decide (cr_UserID r ∈ userIDs)
                          && bool_decide (day_of r ∈ dayOfWeeks)).

(** One transaction: the user's rows are gone, deleted ones too, and the new
    ones are there. *)
Definition hard_delete (tenantID userID : Z) : course_table -> course_table :=
  filter (fun kv : Z * CourseRow => ~ (cr_TenantID kv.2 = tenantID /\ cr_UserID kv.2 = userID)).
Definition ReplaceByUser (tenantID userID : Z) (courses : list CourseRow) : ST D unit :=
  cdb_write (fun id tb => insert_rows id tenantID courses (hard_delete tenantID userID tb)) ~;; st_ret tt.

Definition GetByID (tenantID id : Z) : ST D CourseRow :=
  rows <~ cdb_rows (fun r => course_visible tenantID r && (cr_ID r =? id)) ;;
  match rows with r :: _ => st_ret r | [] => st_fail (ESentinel ErrRecordNotFound) end.
Definition Create (tenantID : Z) (course : CourseRow) : ST D Z :=
  cdb_write (fun id => insert_rows id tenantID [course]).

(** The columns of zero fields stay. *)
Definition or_old (new old : string) : string := if eqs new "" then old else new.
Definition or_old_Z (new old : Z) : Z := if new =? 0 then old else new.
Definition update_course (new old : CourseInput) : CourseInput :=
  mkCourseInput (or_old (CourseName new) (CourseName old)) (or_old (Teacher new) (Teacher old))
    (or_old (ScheduleParse.Location new) (ScheduleParse.Location old)) (or_old_Z (DayOfWeek new) (DayOfWeek old))
    (or_old_Z (Section_ new) (Section_ old)) (or_old (WeekList new) (WeekList old)).
Definition Update (tenantID id : Z) (course : CourseInput) : ST D unit :=
  cdb_write (fun _ tb => (fun r => if course_visible tenantID r && (cr_ID r =? id)
                                   then mkCourseRow (cr_ID r) (cr_TenantID r) (cr_UserID r) (cr_SemesterID r)
                                          (update_course course (cr_Course r)) (cr_Deleted r)
                                   else r) <$> tb) ~;; st_ret tt.
Definition Delete (tenantID id : Z) : ST D unit :=
  cdb_write (fun _ => soft_delete tenantID (fun r => cr_ID r =? id)) ~;; st_ret tt.
End repository.

(** ** The service *)

(** What a change tells in the background. *)
Record notice := mkNotice { no_TenantID : Z; no_Operator : Z; no_Role : Z; no_Change : string; no_Details : string }.

(** Under the context of a tenant. *)
Record ScheduleService W := mkScheduleService {
  sv_FindUser : Z -> ST W User;
  sv_ListByRole : Z -> ST W (list User);
  sv_ListAttendanceCandidates : list Z -> ST W (list User);
  sv_ActiveSemester : ST W (option Z);
  sv_settings : option (SettingsDatabase W);
  sv_dingMgr : option (ST W (DingClient W));
  sv_ParseFile : string -> ST W (list CourseInput);
  sv_Go : notice -> W -> W }.
Arguments sv_FindUser {W}. Arguments sv_ListByRole {W}. Arguments sv_ListAttendanceCandidates {W}.
Arguments sv_ActiveSemester {W}. Arguments sv_settings {W}. Arguments sv_dingMgr {W}. Arguments sv_ParseFile {W}.
Arguments sv_Go {W}.

Definition ErrCourseNotFound : err := ErrNotFoundWithMsg "课程不存在".

Definition normalizePagination (page pageSize : Z) : Z * Z :=
  let page := if page <=? 0 then 1 else page in
  let pageSize := if pageSize <=? 0 then 10 else pageSize in
  (page, if 200 <? pageSize then 200 else pageSize).

Definition hasDeptIntersection (a b : list Z) : bool :=
  if bool_decide (a = []) || bool_decide (b = []) then false else existsb (fun id => bool_decide (id ∈ a)) b.

Record FreeUserSlot := mkFreeSlot {
  fs_DayOfWeek : Z; fs_Section : Z; fs_SlotStart : string; fs_SlotEnd : string; fs_FreeUsers : list User }.
Record AllCoursesResult := mkAllCourses { ac_Page : Z; ac_PageSize : Z; ac_Total : Z; ac_Courses : list CourseRow }.

Section service.
Context `{UO : UserMapOrder} {W : Type} `{CD : CourseDatabase W} (s : ScheduleService W) (tenantID : Z).

Definition sendScheduleChangeNotification (operatorID operatorRole : Z) (changeType details : string) : ST W unit :=
  fun w => (Ok tt, sv_Go s (mkNotice tenantID operatorID operatorRole changeType details) w).

(** No semester when it cannot be read. *)
Definition active_semester : W -> option Z * W := fun w =>
  match sv_ActiveSemester s w with (Ok id, w) => (id, w) | (Err _, w) => (None, w) end.
Definition new_row (userID : Z) (semesterID : option Z) (c : CourseInput) : CourseRow :=
  mkCourseRow 0 0 userID semesterID c false.
Definition courses_text (n : Z) : string := itoa n +:+ " 门课程".

Definition ImportFromFile (userID userRole : Z) (srcPath : string) : ST W Z := fun w =>
  if userID =? 0 then (Err ErrForbidden, w)
  else
    let '(semesterID, w) := active_semester w in
    match sv_ParseFile s srcPath w with
    | (Err e, w) => (Err e, w)
    | (Ok [], w) => (Err (ErrInvalidParamWithMsg "未解析到任何课程数据"), w)
    | (Ok parsedCourses, w) =>
        let courses := List.map (new_row userID semesterID) parsedCourses in
        (st_wrap "替换课程失败: %w" (ReplaceByUser tenantID userID courses) ~;;
         sendScheduleChangeNotification userID userRole "导入" ("导入了 " +:+ courses_text (len courses)) ~;;
         st_ret (len courses)) w
    end.

Definition resolveTargetUserID (viewerID targetUserID : Z) : res Z :=
  if viewerID =? 0 then Err ErrForbidden else Ok (if targetUserID =? 0 then viewerID else targetUserID).

Definition ListByWeek (viewerID targetUserID week : Z) : ST W (list CourseRow) :=
  st_lift (guard (negb (week <=? 0)) (ErrInvalidParamWithMsg "week 不能为空")) ~;;
  finalUserID <~ st_lift (resolveTargetUserID viewerID targetUserID) ;;
  all <~ st_wrap "查询课程列表失败: %w" (ListByUser tenantID finalUserID) ;;
  st_ret (List.filter (fun c => ContainsWeek (WeekList (cr_Course c)) week) all).

Definition ListAll (userID page pageSize : Z) : ST W AllCoursesResult :=
  st_lift (guard (negb (userID =? 0)) ErrForbidden) ~;;
  let '(page, pageSize) := normalizePagination page pageSize in
  x <~ st_wrap "查询课程列表失败: %w" (ListByUserPaged tenantID userID page pageSize) ;;
  st_ret (mkAllCourses page pageSize x.2 x.1).

Definition CreateCourse (userID userRole : Z) (req : CourseInput) : ST W Z := fun w =>
  if userID =? 0 then (Err ErrForbidden, w)
  else
    let '(semesterID, w) := active_semester w in
    (id <~ Create tenantID (new_row userID semesterID req) ;;
     sendScheduleChangeNotification userID userRole "创建" ("课程: " +:+ CourseName req) ~;;
     st_ret id) w.

(** A course of the user, or why not. *)
Definition own_course (userID courseID : Z) : ST W CourseRow := fun w =>
  match GetByID tenantID courseID w with
  | (Err e, w) =>
      (Err (if errors_Is e ErrRecordNotFound then ErrCourseNotFound else EWrap "查询课程失败: %w" e), w)
  | (Ok existing, w) => if cr_UserID existing =? userID then (Ok existing, w) else (Err ErrForbidden, w)
  end.

Definition UpdateCourse (userID userRole courseID : Z) (req : CourseInput) : ST W unit :=
  st_lift (guard (negb (userID =? 0)) ErrForbidden) ~;;
  own_course userID courseID ~;;
  Update tenantID courseID req ~;;
  sendScheduleChangeNotification userID userRole "更新" ("课程: " +:+ CourseName req).
Definition DeleteCourse (userID userRole courseID : Z) : ST W unit :=
  st_lift (guard (negb (userID =? 0)) ErrForbidden) ~;;
  existing <~ own_course userID courseID ;;
  Delete tenantID courseID ~;;
  sendScheduleChangeNotification userID userRole "删除" ("课程: " +:+ CourseName (cr_Course existing)).
Definition GetCourseDetail (userID courseID : Z) : ST W CourseRow :=
  st_lift (guard (negb (userID =? 0)) ErrForbidden) ~;; own_course userID courseID.

Definition CopyFromUser (currentUserID currentUserRole sourceUserID : Z) : ST W Z :=
  st_lift (guard (negb (currentUserID =? 0)) ErrForbidden) ~;;
  st_lift (guard (negb (sourceUserID =? 0)) (ErrInvalidParamWithMsg "源用户ID不能为空")) ~;;
  st_lift (guard (negb (currentUserID =? sourceUserID)) (ErrInvalidParamWithMsg "不能复制自己的课表")) ~;;
  fun w =>
  match sv_FindUser s sourceUserID w with
  | (Err e, w) =>
      (Err (if errors_Is e "ErrUserNotFound" then ErrNotFoundWithMsg "源用户不存在" else EWrap "查询源用户失败: %w" e), w)
  | (Ok sourceUser, w) =>
      match ListByUser tenantID sourceUserID w with
      | (Err e, w) => (Err (EWrap "查询源课程失败: %w" e), w)
      | (Ok [], w) => (Err (ErrInvalidParamWithMsg "源用户没有课程"), w)
      | (Ok sourceCourses, w) =>
          let '(semesterID, w) := active_semester w in
          let copiedCourses := List.map (fun c => new_row currentUserID semesterID (cr_Course c)) sourceCourses in
          (st_wrap "替换课程失败: %w" (ReplaceByUser tenantID currentUserID copiedCourses) ~;;
           sendScheduleChangeNotification currentUserID currentUserRole "复制"
             ("从 " +:+ us_Name sourceUser +:+ " 复制了 " +:+ courses_text (len copiedCourses)) ~;;
           st_ret (len copiedCourses)) w
      end
  end.

Definition DeleteAllCoursesByUser (targetUserID : Z) : ST W unit :=
  st_lift (guard (negb (targetUserID =? 0)) (ErrInvalidParamWithMsg "用户ID不能为空")) ~;;
  st_wrap "删除课程失败: %w" (DeleteByUser tenantID targetUserID).

(** ** Who is free *)

Definition free_slot (activeUsers : list User) (week day : Z) (section : Z) (p : Period) : ST W FreeUserSlot :=
  courses <~ ListByUsersDaySection tenantID (List.map us_ID activeUsers) day section ;;
  let busySet : gset Z :=
    list_to_set (List.map cr_UserID (List.filter (fun c => ContainsWeek (WeekList (cr_Course c)) week) courses)) in
  st_ret (mkFreeSlot day section (pd_Start p) (pd_End p) 
    (List.filter (fun u => negb (bool_decide (us_ID u ∈ busySet))) activeUsers)).
Definition GetFreeUsersBySlot (week dayStart dayEnd deptID : Z) (periods : list Period) : ST W (list FreeUserSlot) :=
  activeUsers <~ sv_ListAttendanceCandidates s (if 0 <? deptID then [deptID] else []) ;;
  match activeUsers with
  | [] => st_ret []
  | _ =>
      st_mapM (fun x => free_slot activeUsers week x.1 x.2.1 x.2.2)
        (days ← seqZ dayStart (dayEnd - dayStart + 1);
         p ← zip (seqZ 1 (len periods)) periods; [(days, p)])
  end.

(** ** Notices *)

Definition notice_text (name changeType details : string) : string :=
  "【课表变更通知】" +:+ of_bytes [10] +:+ "用户 " +:+ name +:+ " 进行了课表" +:+ changeType +:+ "操作"
  +:+ (if eqs details "" then "" else of_bytes [10] +:+ "详情: " +:+ details).

(** The operator, and the administrators unless the operator is one. *)
Definition notice_targets (operator : User) (operatorRole : Z) : ST W (list User) := fun w =>
  if RoleAdmin <=? operatorRole then (Ok [operator], w)
  else
    match sv_ListByRole s RoleAdmin w with
    | (Err e, w) => (Err (EWrap "查询管理员列表失败: %w" e), w)
    | (Ok admins, w) =>
        let m : gmap Z User := foldl (fun m u => <[us_ID u := u]> m) ∅ (operator :: admins) in
        (Ok (List.map snd (range_users m)), w)
    end.

Definition doSendScheduleChangeNotification (n : notice) : ST W unit := fun w =>
  let '(enabled, w) :=
    match sv_settings s with
    | None => (true, w)
    | Some db => let '((enabled, _), w) := @IsScheduleChangeNotifyEnabled W db w in (enabled, w)
    end in
  if negb enabled then (Ok tt, w)
  else
    match sv_dingMgr s with
    | None => (Err (EMsg "钉钉客户端管理器未初始化"), w)
    | Some FromContext =>
        (dingClient <~ st_wrap "获取钉钉客户端失败: %w" FromContext ;;
         st_lift (guard (negb (eqs (dc_AgentID dingClient) "")) (EMsg "钉钉 AgentID 未配置")) ~;;
         operator <~ st_wrap "查询操作者信息失败: %w" (sv_FindUser s (no_Operator n)) ;;
         targetUsers <~ notice_targets operator (no_Role n) ;;
         match List.filter (fun id => negb (eqs id "")) (List.map us_DingUserID targetUsers) with
         | [] => st_ret tt
         | dingUserIDs =>
             st_wrap "发送钉钉通知失败"
               (dc_SendWorkNoticeText dingClient (dc_AgentID dingClient) dingUserIDs
                  (notice_text (us_Name operator) (no_Change n) (no_Details n)))
         end) w
    end.
End service.
