(* ===== verification/CoursesSpec.v ===== *)
(** * A user changes nobody else's timetable

    Every request of a user leaves the rows of other users and tenants as they
    are; a copied timetable lists as its source does; the free users of a
    section are the candidates without a course there in that week. *)
From Stdlib Require Import ZArith Lia Bool String.
From stdpp Require Import base list strings gmap sorting.
From S2P Require Import Prelude GoStrings GoTime Contract ScheduleParse Calendar Settings Attendance Analytics Slots Courses.
#[local] Open Scope Z_scope.
#[local] Open Scope go_scope.

(** A statement is done, with ids that no row has, or fails; an error may come
    although it was done. *)
Class CourseLaws (D : Type) `{CourseDatabase D} : Prop := {
  cdb_writes : forall f w r w', cdb_write f w = (r, w') ->
    (exists n, (forall m, n <= m -> cdb_table w !! m = None) /\ cdb_table w' = f n (cdb_table w)
               /\ forall id, r = Ok id -> id = n)
    \/ (exists e, r = Err e) /\ cdb_table w' = cdb_table w;
  cdb_reads : forall p w r w', cdb_rows p w = (r, w') ->
    cdb_table w' = cdb_table w
    /\ forall rows, r = Ok rows -> rows ≡ₚ List.filter p (List.map snd (map_to_list (cdb_table w))) }.

(** ** Tables *)

(** Rows are where their id says. *)
Definition ids_ok (tb : course_table) : Prop := forall k r, tb !! k = Some r -> cr_ID r = k.
Definition mine (tenant user : Z) (r : CourseRow) : Prop := cr_TenantID r = tenant /\ cr_UserID r = user.
(** Rows that are not the user's are neither lost, changed nor made. *)
Definition others_kept (tenant user : Z) (tb tb' : course_table) : Prop :=
  forall k r, ~ mine tenant user r -> tb !! k = Some r <-> tb' !! k = Some r.

Lemma others_kept_refl t u tb : others_kept t u tb tb.
Proof. done. Qed.
Lemma others_kept_trans t u tb1 tb2 tb3 : others_kept t u tb1 tb2 -> others_kept t u tb2 tb3 -> others_kept t u tb1 tb3.
Proof. intros H1 H2 k r Hr. by rewrite (H1 k r Hr), (H2 k r Hr). Qed.

Lemma insert_rows_other n t rows tb k : k < n \/ n + len rows <= k -> insert_rows n t rows tb !! k = tb !! k.
Proof.
  revert n tb. induction rows as [|r rows IH]; intros n tb Hk; [done|]. cbn [insert_rows]. unfold len in *. cbn [length] in Hk.
  rewrite IH by lia. apply lookup_insert_ne. lia.
Qed.
Lemma insert_rows_at n t rows tb i :
  insert_rows n t rows tb !! (n + Z.of_nat i)
  = match rows !! i with Some r => Some (with_id (n + Z.of_nat i) t r) | None => tb !! (n + Z.of_nat i) end.
Proof.
  revert n tb i. induction rows as [|r rows IH]; intros n tb i; [done|]. cbn [insert_rows]. destruct i as [|i].
  - rewrite Z.add_0_r. rewrite insert_rows_other by lia. by rewrite lookup_insert_eq.
  - replace (n + Z.of_nat (S i)) with (n + 1 + Z.of_nat i) by lia. rewrite IH. cbn [lookup list_lookup].
    destruct (rows !! i); [done|]. apply lookup_insert_ne. lia.
Qed.

(** The rows of a table after an insertion of fresh ids. *)
Lemma insert_rows_lookup n t rows tb k : (forall m, n <= m -> tb !! m = None) ->
  insert_rows n t rows tb !! k
  = if k <? n then tb !! k
    else match rows !! Z.to_nat (k - n) with Some r => Some (with_id k t r) | None => None end.
Proof.
  intros Hf. destruct (Z.ltb_spec k n); [apply insert_rows_other; lia|].
  pose proof (insert_rows_at n t rows tb (Z.to_nat (k - n))) as E. rewrite Z2Nat.id in E by lia.
  replace (n + (k - n)) with k in E by lia. rewrite E. destruct (rows !! Z.to_nat (k - n)); [done|]. apply Hf. lia.
Qed.

Lemma inserted_kept n t u rows tb :
  ids_ok tb -> (forall m, n <= m -> tb !! m = None) -> Forall (fun r => cr_UserID r = u) rows ->
  ids_ok (insert_rows n t rows tb) /\ others_kept t u tb (insert_rows n t rows tb).
Proof.
  intros Hok Hf Hu. split.
  - intros k r. rewrite insert_rows_lookup by done. destruct (k <? n); [by apply Hok|].
    destruct (rows !! Z.to_nat (k - n)); [by intros [= <-]|done].
  - intros k r Hr. rewrite insert_rows_lookup by done. destruct (Z.ltb_spec k n) as [|Hk]; [done|].
    rewrite (Hf k Hk). destruct (rows !! Z.to_nat (k - n)) as [r0|] eqn:E; [|done]. split; [done|]. intros [= <-].
    exfalso. apply Hr. split; [done|]. by apply (Forall_lookup_1 _ _ _ _ Hu E).
Qed.

Lemma hard_deleted_kept t u tb : ids_ok tb -> ids_ok (hard_delete t u tb) /\ others_kept t u tb (hard_delete t u tb).
Proof.
  intros Hok. unfold hard_delete, others_kept, mine. setoid_rewrite map_lookup_filter_Some. cbn.
  split; [|naive_solver]. intros k r Hk. apply map_lookup_filter_Some in Hk as [Hk _]. by apply Hok.
Qed.

(** A change of the rows that [p] selects, all of them the user's, which keeps
    whose they are. *)
Lemma mapped_kept t u (p : CourseRow -> bool) (f : CourseRow -> CourseRow) tb :
  ids_ok tb -> (forall k r, tb !! k = Some r -> p r = true -> mine t u r) ->
  (forall r, cr_ID (f r) = cr_ID r /\ cr_TenantID (f r) = cr_TenantID r /\ cr_UserID (f r) = cr_UserID r) ->
  let tb' := (fun r => if p r then f r else r) <$> tb in ids_ok tb' /\ others_kept t u tb tb'.
Proof.
  intros Hok Hp Hf tb'. split.
  - intros k r. unfold tb'. rewrite lookup_fmap. destruct (tb !! k) as [r0|] eqn:E; [|done]. cbn. intros [= <-].
    pose proof (Hok _ _ E). destruct (p r0); [|done]. by destruct (Hf r0) as [-> _].
  - intros k r Hr. unfold tb'. rewrite lookup_fmap. destruct (tb !! k) as [r0|] eqn:E; [|done]. cbn.
    destruct (p r0) eqn:Ep; [|done]. pose proof (Hp _ _ E Ep) as [H1 H2]. destruct (Hf r0) as (_ & F2 & F3).
    split; intros [= <-]; exfalso; apply Hr; unfold mine; by rewrite ?F2, ?F3.
Qed.

(** ** Requests *)

Section requests.
Context `{UO : UserMapOrder} {W : Type} {CD : CourseDatabase W} {CL : CourseLaws W}
  (s : ScheduleService W) (tenant : Z).

(** What the service is given does not touch the courses. *)
Class SchedulePorts : Prop := {
  frame_user : forall id w, cdb_table (sv_FindUser s id w).2 = cdb_table w;
  frame_semester : forall w, cdb_table (sv_ActiveSemester s w).2 = cdb_table w;
  frame_parse : forall path w, cdb_table (sv_ParseFile s path w).2 = cdb_table w;
  frame_go : forall n w, cdb_table (sv_Go s n w) = cdb_table w;
  frame_candidates : forall depts w, cdb_table (sv_ListAttendanceCandidates s depts w).2 = cdb_table w }.
Context {SP : SchedulePorts}.

Inductive course_request : Type :=
  | RequestImport (path : string)
  | RequestCreate (req : CourseInput)
  | RequestUpdate (id : Z) (req : CourseInput)
  | RequestDelete (id : Z)
  | RequestCopy (source : Z).
(** The table after a request of a user. *)
Definition after_request (user role : Z) (req : course_request) (w : W) : W :=
  match req with
  | RequestImport path => (ImportFromFile s tenant user role path w).2
  | RequestCreate c => (CreateCourse s tenant user role c w).2
  | RequestUpdate id c => (UpdateCourse s tenant user role id c w).2
  | RequestDelete id => (DeleteCourse s tenant user role id w).2
  | RequestCopy source => (CopyFromUser s tenant user role source w).2
  end.

Definition kept (user : Z) (tb : course_table) (w : W) : Prop := ids_ok (cdb_table w) /\ others_kept tenant user tb (cdb_table w).

Lemma kept_frame user tb w w' : cdb_table w' = cdb_table w -> kept user tb w -> kept user tb w'.
Proof. unfold kept. by intros ->. Qed.

Lemma write_kept user tb f w :
  kept user tb w ->
  (forall n, (forall i, n <= i -> cdb_table w !! i = None) ->
     ids_ok (f n (cdb_table w)) /\ others_kept tenant user (cdb_table w) (f n (cdb_table w))) ->
  kept user tb (cdb_write f w).2.
Proof.
  intros [Hok Ho] Hf. destruct (cdb_write f w) as [r w1] eqn:E. cbn [snd].
  apply cdb_writes in E as [(i & Hi & E & _)|[_ E]]; unfold kept; rewrite E; [|done].
  destruct (Hf i Hi) as [H1 H2]. split; [done|by eapply others_kept_trans].
Qed.
Lemma keeps_write user tb f :
  (forall n tb0, ids_ok tb0 -> (forall i, n <= i -> tb0 !! i = None) ->
     ids_ok (f n tb0) /\ others_kept tenant user tb0 (f n tb0)) ->
  st_keeps (kept user tb) (cdb_write f).
Proof. intros Hf w Hw. apply write_kept; [done|]. intros n. apply Hf, Hw. Qed.
Lemma keeps_wrap user tb {A} fmt (m : ST W A) : st_keeps (kept user tb) m -> st_keeps (kept user tb) (st_wrap fmt m).
Proof. intros Hm w Hw. unfold st_wrap. specialize (Hm w Hw). by destruct (m w). Qed.
Lemma keeps_notice user tb op role change details :
  st_keeps (kept user tb) (sendScheduleChangeNotification s tenant op role change details).
Proof. intros w. apply kept_frame. apply frame_go. Qed.

Lemma semester_frame w : cdb_table (active_semester s w).2 = cdb_table w.
Proof. unfold active_semester. pose proof (frame_semester w). by destruct (sv_ActiveSemester s w) as [[id|e] w1]. Qed.

Lemma new_rows_of user sem cs : Forall (fun r => cr_UserID r = user) (List.map (new_row user sem) cs).
Proof. by induction cs; constructor. Qed.

Lemma replaced_kept user tb rows n : ids_ok tb -> (forall i, n <= i -> tb !! i = None) ->
  Forall (fun r => cr_UserID r = user) rows ->
  let tb' := insert_rows n tenant rows (hard_delete tenant user tb) in ids_ok tb' /\ others_kept tenant user tb tb'.
Proof.
  intros Hok Hf Hu. destruct (hard_deleted_kept tenant user tb Hok) as [H1 H2].
  assert (Hf' : forall i, n <= i -> hard_delete tenant user tb !! i = None).
  { intros i Hi. unfold hard_delete. rewrite map_lookup_filter, (Hf i Hi). done. }
  destruct (inserted_kept n tenant user rows _ H1 Hf' Hu) as [H3 H4]. split; [done|by eapply others_kept_trans].
Qed.

(** The row that the ownership check lets through. *)
Lemma own_course_row user id w r w' : ids_ok (cdb_table w) -> own_course tenant user id w = (Ok r, w') ->
  cdb_table w' = cdb_table w /\ cdb_table w !! id = Some r /\ mine tenant user r.
Proof.
  intros Hok. unfold own_course, GetByID, st_bind. destruct (cdb_rows _ w) as [[rows|e] w1] eqn:E; [|done].
  apply cdb_reads in E as [Ew Hp]. specialize (Hp rows eq_refl). destruct rows as [|r0 rows]; [done|]. unfold st_ret.
  destruct (Z.eqb_spec (cr_UserID r0) user) as [Hu|]; [|done]. intros [= <- <-]. split; [done|].
  assert (Hin : r0 ∈ List.filter (fun r => course_visible tenant r && (cr_ID r =? id)) (List.map snd (map_to_list (cdb_table w)))).
  { rewrite <- Hp. by left. }
  apply list_elem_of_In, filter_In in Hin as [Hin Hv]. apply in_map_iff in Hin as ([k r1] & <- & Hk). cbn in *.
  apply list_elem_of_In, elem_of_map_to_list in Hk. unfold course_visible in Hv. b2p.
  pose proof (Hok _ _ Hk). split; [congruence|]. split; [done|lia].
Qed.

Lemma own_course_frame user id w : cdb_table (own_course tenant user id w).2 = cdb_table w.
Proof.
  unfold own_course, GetByID, st_bind. destruct (cdb_rows _ w) as [[rows|e] w1] eqn:E; apply cdb_reads in E as [E _]; [|done].
  destruct rows as [|r rows]; [done|]. unfold st_ret. by destruct (cr_UserID r =? user).
Qed.

Lemma list_frame user w : cdb_table (ListByUser tenant user w).2 = cdb_table w.
Proof. unfold ListByUser, ordered_rows, st_bind. destruct (cdb_rows _ w) as [[rows|e] w1] eqn:E; by apply cdb_reads in E as [E _]. Qed.

(** A change of one row of the user's. *)
Lemma own_row_kept user tb id f w r :
  kept user tb w -> cdb_table w !! id = Some r -> mine tenant user r ->
  (forall r, cr_ID (f r) = cr_ID r /\ cr_TenantID (f r) = cr_TenantID r /\ cr_UserID (f r) = cr_UserID r) ->
  kept user tb (cdb_write (fun _ tb => (fun r => if course_visible tenant r && (cr_ID r =? id) then f r else r) <$> tb) w).2.
Proof.
  intros Hw Hr Hm Hf. apply write_kept; [done|]. intros n _. apply mapped_kept; [apply Hw| |done].
  intros k r0 Hk Hp. b2p. pose proof (proj1 Hw _ _ Hk). congruence.
Qed.

Lemma replace_keeps user tb rows : Forall (fun r => cr_UserID r = user) rows ->
  st_keeps (kept user tb) (ReplaceByUser tenant user rows).
Proof.
  intros Hr. apply keeps_bind; [|intros _; apply keeps_ret]. apply keeps_write. intros n tb0 Hok Hf. by apply replaced_kept.
Qed.

Lemma import_keeps user role path tb w : kept user tb w -> kept user tb (ImportFromFile s tenant user role path w).2.
Proof.
  intros Hw. unfold ImportFromFile. destruct (user =? 0); [exact Hw|]. pose proof (semester_frame w) as F1.
  destruct (active_semester s w) as [sem w1]. cbn [snd] in F1. pose proof (frame_parse path w1) as F2.
  destruct (sv_ParseFile s path w1) as [[[|c cs]|e] w2]; cbn [snd] in F2; try (apply (kept_frame user _ w); [cbn; congruence|exact Hw]).
  refine (keeps_bind (kept user tb) _ _ _ _ _ _).
  - apply keeps_wrap, replace_keeps, new_rows_of.
  - intros _. apply keeps_bind; [apply keeps_notice|intros _; apply keeps_ret].
  - apply (kept_frame user _ w); [congruence|exact Hw].
Qed.
Lemma create_keeps user role c tb w : kept user tb w -> kept user tb (CreateCourse s tenant user role c w).2.
Proof.
  intros Hw. unfold CreateCourse. destruct (user =? 0); [exact Hw|]. pose proof (semester_frame w) as F1.
  destruct (active_semester s w) as [sem w1]. cbn [snd] in F1.
  refine (keeps_bind (kept user tb) _ _ _ _ _ _).
  - apply keeps_write. intros n tb0 Hok0 Hf. apply inserted_kept; [done..|]. by repeat constructor.
  - intros id. apply keeps_bind; [apply keeps_notice|intros _; apply keeps_ret].
  - apply (kept_frame user _ w); [exact F1|exact Hw].
Qed.
Lemma update_keeps user role id c tb w : kept user tb w -> kept user tb (UpdateCourse s tenant user role id c w).2.
Proof.
  intros Hw. unfold UpdateCourse. refine (keeps_bind (kept user tb) _ _ (keeps_lift _ _) _ _ Hw). intros _ w1 Hw1. unfold st_bind at 1.
  pose proof (own_course_frame user id w1) as F1. destruct (own_course tenant user id w1) as [[r|e] w2] eqn:E; cbn [snd] in F1;
    [|by apply (kept_frame user _ w1)].
  apply own_course_row in E as (_ & Hr & Hm); [|apply Hw1].
  unfold Update. unfold st_bind at 1. unfold st_bind at 1.
  pose proof (own_row_kept user tb id (fun r => mkCourseRow (cr_ID r) (cr_TenantID r) (cr_UserID r) (cr_SemesterID r)
    (update_course c (cr_Course r)) (cr_Deleted r)) w2 r (kept_frame user _ _ _ F1 Hw1) ltac:(by rewrite F1) Hm ltac:(done)) as Hk.
  destruct (cdb_write _ w2) as [[n|e] w3]; [|exact Hk]. apply (keeps_notice user tb user role _ _ w3 Hk).
Qed.
Lemma delete_keeps user role id tb w : kept user tb w -> kept user tb (DeleteCourse s tenant user role id w).2.
Proof.
  intros Hw. unfold DeleteCourse. refine (keeps_bind (kept user tb) _ _ (keeps_lift _ _) _ _ Hw). intros _ w1 Hw1. unfold st_bind at 1.
  pose proof (own_course_frame user id w1) as F1. destruct (own_course tenant user id w1) as [[r|e] w2] eqn:E; cbn [snd] in F1;
    [|by apply (kept_frame user _ w1)].
  apply own_course_row in E as (_ & Hr & Hm); [|apply Hw1].
  unfold Delete. unfold st_bind at 1. unfold st_bind at 1.
  pose proof (own_row_kept user tb id mark_deleted w2 r (kept_frame user _ _ _ F1 Hw1) ltac:(by rewrite F1) Hm ltac:(done)) as Hk.
  unfold soft_delete. destruct (cdb_write _ w2) as [[n|e] w3]; [|exact Hk]. apply (keeps_notice user tb user role _ _ w3 Hk).
Qed.
Lemma copy_keeps user role source tb w : kept user tb w -> kept user tb (CopyFromUser s tenant user role source w).2.
Proof.
  intros Hw. unfold CopyFromUser. refine (keeps_bind (kept user tb) _ _ (keeps_lift _ _) _ w Hw). intros _.
  apply keeps_bind; [apply keeps_lift|]. intros _. apply keeps_bind; [apply keeps_lift|]. intros _ w1 Hw1.
  pose proof (frame_user source w1) as F1.
  destruct (sv_FindUser s source w1) as [[u|e] w2]; cbn [snd] in F1; [|by apply (kept_frame user _ w1)].
  pose proof (list_frame source w2) as F2.
  destruct (ListByUser tenant source w2) as [[[|c cs]|e] w3]; cbn [snd] in F2; try (apply (kept_frame user _ w1); [cbn; congruence|exact Hw1]).
  pose proof (semester_frame w3) as F3. destruct (active_semester s w3) as [sem w4]. cbn [snd] in F3.
  refine (keeps_bind (kept user tb) _ _ _ _ _ _).
  - apply keeps_wrap, replace_keeps. rewrite <- (List.map_map cr_Course (new_row user sem)). apply new_rows_of.
  - intros _. apply keeps_bind; [apply keeps_notice|intros _; apply keeps_ret].
  - apply (kept_frame user _ w1); [congruence|exact Hw1].
Qed.

(** C25: A user changes nobody else's timetable: whatever a user imports,
    creates, updates, deletes or copies, and whether it succeeds or fails, no
    row of another user or another tenant is lost, changed or made. *)
Theorem courses_owned user role req w :
  ids_ok (cdb_table w) ->
  ids_ok (cdb_table (after_request user role req w))
  /\ forall k r, ~ (cr_TenantID r = tenant /\ cr_UserID r = user) ->
       cdb_table w !! k = Some r <-> cdb_table (after_request user role req w) !! k = Some r.
Proof.
  intros Hok. assert (Hw : kept user (cdb_table w) w) by (split; [done|apply others_kept_refl]).
  cut (kept user (cdb_table w) (after_request user role req w)); [intros [H1 H2]; split; [exact H1|exact H2]|].
  destruct req as [path|c|id c|id|source]; cbn [after_request].
  - by apply import_keeps.
  - by apply create_keeps.
  - by apply update_keeps.
  - by apply delete_keeps.
  - by apply copy_keeps.
Qed.
End requests.

(** ** Copying *)

Fixpoint inserted (n t : Z) (rows : list CourseRow) : list CourseRow :=
  match rows with [] => [] | r :: rows => with_id n t r :: inserted (n + 1) t rows end.

Lemma inserted_elem n t rows r : r ∈ inserted n t rows <-> exists i r0, rows !! i = Some r0 /\ r = with_id (n + Z.of_nat i) t r0.
Proof.
  revert n. induction rows as [|r1 rows IH]; intros n; cbn [inserted].
  { split; [intros H; by apply elem_of_nil in H|by intros (i & r0 & H & _)]. }
  rewrite elem_of_cons, IH. split.
  - intros [->|(i & r0 & Hi & ->)]; [exists 0%nat, r1; by rewrite Z.add_0_r|]. exists (S i), r0. split; [done|]. f_equal. lia.
  - intros ([|i] & r0 & Hi & ->); [left; injection Hi as <-; by rewrite Z.add_0_r|]. right. exists i, r0.
    split; [done|]. f_equal. lia.
Qed.

(** Rows that were sorted are still sorted under increasing ids. *)
Lemma inserted_sorted n t rows sources :
  Forall2 (fun r r0 => cr_Course r = cr_Course r0) rows sources -> StronglySorted course_le sources ->
  StronglySorted course_le (inserted n t rows).
Proof.
  intros H. revert n. induction H as [|r r0 rows sources Hr H IH]; intros n Hs; [constructor|].
  apply StronglySorted_inv in Hs as [Hs Hh]. cbn [inserted]. constructor; [by apply IH|].
  apply Forall_forall. intros x Hx. apply inserted_elem in Hx as (i & y & Hy & ->).
  destruct (Forall2_lookup_l _ _ _ _ _ H Hy) as (y0 & Hy0 & Ey). pose proof (Forall_lookup_1 _ _ _ _ Hh Hy0) as Hle.
  unfold course_le, day_of, section_of in *. cbn. rewrite Hr, Ey. cbn in Hle. lia.
Qed.

Lemma rows_distinct (tb : course_table) : ids_ok tb -> NoDup (List.map snd (map_to_list tb)).
Proof.
  intros Hok. apply (NoDup_fmap_1 cr_ID).
  assert (E : cr_ID <$> List.map snd (map_to_list tb) = (map_to_list tb).*1).
  { change (List.map snd (map_to_list tb)) with ((map_to_list tb).*2). rewrite <- list_fmap_compose.
    apply list_fmap_ext. intros i [k r] Hi. cbn. apply Hok. apply elem_of_map_to_list. by eapply list_elem_of_lookup_2. }
  rewrite E. apply NoDup_fst_map_to_list.
Qed.

Lemma rows_elem (tb : course_table) (p : CourseRow -> bool) r :
  r ∈ List.filter p (List.map snd (map_to_list tb)) <-> p r = true /\ exists k, tb !! k = Some r.
Proof.
  rewrite list_elem_of_In, filter_In, in_map_iff. split.
  - intros [([k r'] & <- & Hk) Hp]. split; [done|]. exists k. apply elem_of_map_to_list. by apply list_elem_of_In.
  - intros [Hp [k Hk]]. split; [|done]. exists (k, r). split; [done|]. by apply list_elem_of_In, elem_of_map_to_list.
Qed.

#[global] Instance course_le_total : Total course_le.
Proof. intros r1 r2. unfold course_le. lia. Qed.
#[global] Instance course_le_trans : Transitive course_le.
Proof. intros r1 r2 r3. unfold course_le. lia. Qed.

Section copies.
Context `{UO : UserMapOrder} {W : Type} {CD : CourseDatabase W} {CL : CourseLaws W}
  (s : ScheduleService W) (tenant : Z) {SP : SchedulePorts s}.

(** The visible rows of a user. *)
Definition timetable_of (user : Z) (tb : course_table) : list CourseRow :=
  List.filter (fun r => course_visible tenant r && of_user user r) (List.map snd (map_to_list tb)).

Lemma listed_rows user v rows v' : ListByUser tenant user v = (Ok rows, v') ->
  cdb_table v' = cdb_table v /\ StronglySorted course_le rows /\ rows ≡ₚ timetable_of user (cdb_table v).
Proof.
  unfold ListByUser, ordered_rows. intros H. apply st_bind_Ok in H as (l & w1 & Hl & H). apply st_ret_Ok in H as [<- ->].
  apply cdb_reads in Hl as [H1 H2]. split; [done|]. split; [apply StronglySorted_merge_sort; apply _|].
  rewrite merge_sort_Permutation. by apply H2.
Qed.

(** After a replacement the user's rows are the inserted ones. *)
Lemma replaced_rows user rows n tb :
  ids_ok tb -> (forall i, n <= i -> tb !! i = None) -> Forall (fun r => cr_UserID r = user /\ cr_Deleted r = false) rows ->
  timetable_of user (insert_rows n tenant rows (hard_delete tenant user tb)) ≡ₚ inserted n tenant rows.
Proof.
  intros Hok Hf Hu. set (tb1 := hard_delete tenant user tb).
  assert (Hf1 : forall i, n <= i -> tb1 !! i = None) by (intros i Hi; unfold tb1, hard_delete; by rewrite map_lookup_filter, (Hf i Hi)).
  assert (Hok2 : ids_ok (insert_rows n tenant rows tb1)).
  { apply (inserted_kept n tenant user); [by apply hard_deleted_kept|done|]. eapply Forall_impl; [exact Hu|]. by intros r []. }
  apply NoDup_Permutation.
  - apply NoDup_ListNoDup, List.NoDup_filter, NoDup_ListNoDup. by apply rows_distinct.
  - clear -Hf. generalize n. induction rows as [|r rows IH]; intros m; cbn [inserted]; constructor; [|apply IH].
    intros H. apply inserted_elem in H as (i & r0 & _ & E). apply (f_equal cr_ID) in E. cbn in E. lia.
  - intros r. unfold timetable_of. rewrite rows_elem, inserted_elem. split.
    + intros [Hp [k Hk]]. unfold course_visible, of_user in Hp. b2p. rewrite insert_rows_lookup in Hk by done.
      destruct (Z.ltb_spec k n) as [|Hkn].
      * apply map_lookup_filter_Some in Hk as [_ Hk]. cbn in Hk. exfalso. apply Hk. split; lia.
      * destruct (rows !! Z.to_nat (k - n)) as [r0|] eqn:E; [|done]. injection Hk as <-. exists (Z.to_nat (k - n)), r0.
        split; [done|]. f_equal. lia.
    + intros (i & r0 & Hi & ->). destruct (Forall_lookup_1 _ _ _ _ Hu Hi) as [Hu0 Hd0]. split.
      * unfold course_visible, of_user. cbn. rewrite Hd0, Hu0, !Z.eqb_refl. done.
      * exists (n + Z.of_nat i). by rewrite insert_rows_at, Hi.
Qed.

(** C26: A copied timetable is the source's: after a copy the user's list is,
    course by course and in the same order, the list of the source when it was
    read, whatever the user had before; the number answered is its length. *)
Theorem copied_timetable_is_the_same user role source w n w' :
  ids_ok (cdb_table w) -> CopyFromUser s tenant user role source w = (Ok n, w') ->
  exists sources, StronglySorted course_le sources /\ sources ≡ₚ timetable_of source (cdb_table w) /\ n = len sources
    /\ forall v rows v', cdb_table v = cdb_table w' -> ListByUser tenant user v = (Ok rows, v') ->
         List.map cr_Course rows = List.map cr_Course sources.
Proof.
  intros Hok H. unfold CopyFromUser in H.
  do 3 (apply st_bind_Ok in H as (? & ? & Hg & H); apply st_lift_Ok in Hg as [_ ->]).
  pose proof (frame_user s source w) as F1. destruct (sv_FindUser s source w) as [[u|e] w2]; cbn [snd] in F1; [|done].
  destruct (ListByUser tenant source w2) as [[[|c cs]|e] w3] eqn:EL; try done.
  apply listed_rows in EL as (F2 & Hsort & Hperm). rewrite F1 in Hperm.
  pose proof (semester_frame s w3) as F3. destruct (active_semester s w3) as [sem w4]. cbn [snd] in F3.
  set (copied := List.map (fun c => new_row user sem (cr_Course c)) (c :: cs)) in *.
  apply st_bind_Ok in H as (? & w5 & Hr & H). unfold st_wrap in Hr.
  destruct (ReplaceByUser tenant user copied w4) as [r5 w5'] eqn:ER. injection Hr as Hr ->.
  apply wrap_err_Ok in Hr as ->. unfold ReplaceByUser in ER. apply st_bind_Ok in ER as (m & w6 & EW & ER).
  apply st_ret_Ok in ER as [_ ->]. apply st_bind_Ok in H as (? & w7 & Hn & H). apply st_ret_Ok in H as [<- Ew].
  unfold sendScheduleChangeNotification in Hn. injection Hn as _ Hn. pose proof (frame_go s) as Fg.
  apply cdb_writes in EW as [(i & Hi & EW & _)|[[e He] _]]; [|done].
  assert (Et : cdb_table w' = insert_rows i tenant copied (hard_delete tenant user (cdb_table w))).
  { rewrite Ew, <- Hn, Fg, EW. do 2 f_equal. congruence. }
  assert (Hfresh : forall j, i <= j -> cdb_table w !! j = None) by (intros j Hj; rewrite <- F1, <- F2, <- F3; by apply Hi).
  exists (c :: cs). split; [done|]. split; [done|]. split; [by unfold len, copied; rewrite length_map|].
  intros v rows v' Hv HL. apply listed_rows in HL as (_ & Hs & Hp). rewrite Hv, Et in Hp.
  assert (Hall : Forall (fun r => cr_UserID r = user /\ cr_Deleted r = false) copied).
  { unfold copied. rewrite List.Forall_map. by apply Forall_true. }
  rewrite (replaced_rows user copied i _ Hok Hfresh Hall) in Hp.
  assert (H2 : Forall2 (fun r r0 => cr_Course r = cr_Course r0) copied (c :: cs)).
  { unfold copied. generalize (c :: cs). intros l. by induction l; constructor. }
  assert (E : rows = inserted i tenant copied).
  { apply (StronglySorted_unique_strong course_le); [|done|by eapply inserted_sorted|done].
    intros r1 r2 Hx Hy Hxy Hyx. rewrite Hp in Hx. apply inserted_elem in Hx as (a & r3 & Ha & ->).
    apply inserted_elem in Hy as (b & r4 & Hb & ->).
    assert (a = b) as -> by (unfold course_le in Hxy, Hyx; cbn in Hxy, Hyx; lia). congruence. }
  rewrite E. clear -H2. revert i. induction H2 as [|r r0 l l0 Hr H2 IH]; intros i; [done|]. cbn. by rewrite Hr, IH.
Qed.

(** ** Free users *)

(** A course of a user in a section of a week. *)
Definition has_course (tb : course_table) (week day section user : Z) : Prop :=
  exists k r, tb !! k = Some r /\ course_visible tenant r = true /\ cr_UserID r = user /\ day_of r = day
    /\ section_of r = section /\ ContainsWeek (WeekList (cr_Course r)) week = true.

Lemma free_slot_exact users week day section p w f w' :
  users <> [] -> 1 <= day -> 1 <= section -> free_slot tenant users week day section p w = (Ok f, w') ->
  cdb_table w' = cdb_table w /\ (fs_DayOfWeek f, fs_Section f) = (day, section)
  /\ forall u, u ∈ fs_FreeUsers f <-> u ∈ users /\ ~ has_course (cdb_table w) week day section (us_ID u).
Proof.
  intros Hne Hd Hs H. unfold free_slot in H. apply st_bind_Ok in H as (courses & w1 & Hc & H).
  apply st_ret_Ok in H as [<- ->]. unfold ListByUsersDaySection in Hc.
  rewrite bool_decide_false in Hc by (by destruct users).
  rewrite (proj2 (Z.leb_gt day 0)), (proj2 (Z.leb_gt section 0)) in Hc by lia. cbn [orb] in Hc.
  apply cdb_reads in Hc as [Ht Hp]. specialize (Hp courses eq_refl). split; [done|]. split; [done|]. intros u.
  cbn [fs_FreeUsers]. rewrite list_elem_of_In, filter_In, <- list_elem_of_In.
  rewrite negb_true_iff, bool_decide_eq_false.
  cut (u ∈ users -> (us_ID u ∈ (list_to_set (List.map cr_UserID (List.filter (fun c => ContainsWeek (WeekList (cr_Course c)) week) courses)) : gset Z)
                     <-> has_course (cdb_table w) week day section (us_ID u))); [tauto|].
  intros Hin. rewrite elem_of_list_to_set, list_elem_of_In, in_map_iff. setoid_rewrite filter_In.
  split.
  - intros (r & Hu & Hr & Hw). apply list_elem_of_In in Hr. rewrite Hp, rows_elem in Hr.
    destruct Hr as [Hv [k Hk]]. b2p. exists k, r. split_and!; try done; lia.
  - intros (k & r & Hk & Hv & Hu & Hday & Hsec & Hw). exists r. split; [done|]. split; [|done]. apply list_elem_of_In.
    rewrite Hp, rows_elem. split; [|by exists k]. rewrite Hv, Hday, Hsec, !Z.eqb_refl, !andb_true_r. cbn [andb].
    apply bool_decide_eq_true. rewrite Hu. apply list_elem_of_In, in_map, list_elem_of_In. exact Hin.
Qed.

(** The days and sections asked for, in order. *)
Definition asked_slots (dayStart dayEnd : Z) (periods : list Period) : list (Z * (Z * Period)) :=
  d ← seqZ dayStart (dayEnd - dayStart + 1); p ← zip (seqZ 1 (len periods)) periods; [(d, p)].

Lemma asked_slot dayStart dayEnd periods x : 1 <= dayStart -> x ∈ asked_slots dayStart dayEnd periods -> 1 <= x.1 /\ 1 <= x.2.1.
Proof.
  intros Hd Hx. unfold asked_slots in Hx. apply list_elem_of_bind in Hx as (d & Hx & Hdin).
  apply list_elem_of_bind in Hx as ([i p] & Hx & Hp). apply list_elem_of_singleton in Hx as ->.
  apply elem_of_seqZ in Hdin. apply elem_of_zip_l, elem_of_seqZ in Hp. cbn. lia.
Qed.

Lemma free_slots_exact users week l w slots w' :
  users <> [] -> (forall x, x ∈ l -> 1 <= x.1 /\ 1 <= x.2.1) ->
  st_mapM (fun x => free_slot tenant users week x.1 x.2.1 x.2.2) l w = (Ok slots, w') ->
  List.map (fun f => (fs_DayOfWeek f, fs_Section f)) slots = List.map (fun x => (x.1, x.2.1)) l
  /\ forall f u, f ∈ slots -> u ∈ fs_FreeUsers f
       <-> u ∈ users /\ ~ has_course (cdb_table w) week (fs_DayOfWeek f) (fs_Section f) (us_ID u).
Proof.
  intros Hne. revert w slots w'. induction l as [|x l IH]; intros w slots w' Ha H; cbn [st_mapM] in H.
  { apply st_ret_Ok in H as [<- _]. split; [done|]. intros f u Hf. by apply elem_of_nil in Hf. }
  apply st_bind_Ok in H as (f & w2 & Hf & H). apply st_bind_Ok in H as (fs & w3 & Hfs & H). apply st_ret_Ok in H as [<- _].
  destruct (Ha x ltac:(left)) as [H1 H2].
  destruct (free_slot_exact users week x.1 x.2.1 x.2.2 w f w2 Hne H1 H2 Hf) as (Ht & Hx & He). injection Hx as Hx1 Hx2.
  destruct (IH w2 fs w3) as [E1 E2]; [intros y Hy; apply Ha; by right|done|]. split.
  - cbn [List.map]. rewrite E1. congruence.
  - intros g u Hg. apply elem_of_cons in Hg as [->|Hg]; [rewrite He, Hx1, Hx2; reflexivity|]. by rewrite (E2 g u Hg), Ht.
Qed.

(** The free users of a section are exactly the candidates who have no
    course in it that week: the sections answered are those of the days and
    periods asked for, day by day, and in each of them a candidate is listed if
    and only if no visible course of theirs is held there in that week. *)
Theorem free_users_exact week dayStart dayEnd deptID periods users w w1 slots w' :
  1 <= dayStart -> sv_ListAttendanceCandidates s (if 0 <? deptID then [deptID] else []) w = (Ok users, w1) -> users <> [] ->
  GetFreeUsersBySlot s tenant week dayStart dayEnd deptID periods w = (Ok slots, w') ->
  List.map (fun f => (fs_DayOfWeek f, fs_Section f)) slots
  = List.map (fun x => (x.1, x.2.1)) (asked_slots dayStart dayEnd periods)
  /\ forall f u, f ∈ slots ->
       u ∈ fs_FreeUsers f
       <-> u ∈ users /\ ~ has_course (cdb_table w) week (fs_DayOfWeek f) (fs_Section f) (us_ID u).
Proof.
  intros Hd Hc Hne H. pose proof (frame_candidates s (if 0 <? deptID then [deptID] else []) w) as F. rewrite Hc in F.
  unfold GetFreeUsersBySlot, st_bind in H. rewrite Hc in H. destruct users as [|u0 us]; [done|].
  cbn [snd] in F. rewrite <- F. eapply free_slots_exact; [done| |exact H]. intros x Hx. by apply (asked_slot dayStart dayEnd periods x Hd).
Qed.
End copies.

(** ** Two users in memory *)

#[local] Instance course_user_order : UserMapOrder :=
  { range_users A m := map_to_list m; range_users_entries A m := reflexivity _ }.

(** The table and the notices that were started; ids go on after the largest. *)
Record course_world := mkCourseWorld { cw_table : course_table; cw_notices : list notice }.
Definition next_id (tb : course_table) : Z := foldr (fun r n => Z.max (r.1 + 1) n) 1 (map_to_list tb).
#[local] Instance courses_in_memory : CourseDatabase course_world := {
  cdb_table := cw_table;
  cdb_write f w := (Ok (next_id (cw_table w)), mkCourseWorld (f (next_id (cw_table w)) (cw_table w)) (cw_notices w));
  cdb_rows p w := (Ok (List.filter p (List.map snd (map_to_list (cw_table w)))), w) }.

Lemma next_id_fresh tb m : next_id tb <= m -> tb !! m = None.
Proof.
  intros Hm. destruct (tb !! m) as [r|] eqn:E; [|done]. exfalso. apply elem_of_map_to_list in E. revert E Hm.
  unfold next_id. induction (map_to_list tb) as [|x l IH]; intros E Hm; [by apply elem_of_nil in E|].
  cbn in Hm. apply elem_of_cons in E as [<-|E]; [cbn in Hm; lia|]. apply IH; [done|lia].
Qed.
#[local] Instance courses_in_memory_laws : CourseLaws course_world.
Proof.
  split.
  - intros f w r w' [= <- <-]. left. exists (next_id (cw_table w)). split_and!; [apply next_id_fresh|done|by intros id [= <-]].
  - intros p w r w' [= <- <-]. split; [done|]. by intros rows [= <-].
Qed.

Definition two_users : list User := [mkUser 4 7 "d4" "Di" "" ""; mkUser 5 7 "d5" "Ed" "" ""].
Definition course_periods : list Period := [mkPeriod "one" "08:00" "09:40"; mkPeriod "two" "10:00" "11:40"].
Definition course_service : ScheduleService course_world :=
  mkScheduleService course_world
    (fun id w => (match List.find (fun u => us_ID u =? id) two_users with
                  | Some u => Ok u | None => Err (ESentinel "ErrUserNotFound") end, w))
    (fun _ => st_ret []) (fun _ => st_ret two_users) (st_ret (Some 3)) None None
    (fun _ => st_ret []) (fun n w => mkCourseWorld (cw_table w) (cw_notices w ++ [n])).
#[local] Instance course_service_ports : SchedulePorts course_service.
Proof. by split. Qed.

Definition course_input (name : string) (day section : Z) (weeks : string) : CourseInput :=
  mkCourseInput name "T" "R" day section weeks.
(** Di has two courses, Ed one; user 9 of another tenant has one, too. *)
Definition course_start : course_world :=
  mkCourseWorld (list_to_map
    [(1, mkCourseRow 1 7 4 (Some 3) (course_input "maths" 2 1 "1,2") false);
     (2, mkCourseRow 2 7 4 (Some 3) (course_input "art" 1 2 "1") false);
     (3, mkCourseRow 3 7 5 (Some 3) (course_input "sport" 1 1 "2") false);
     (4, mkCourseRow 4 8 9 None (course_input "music" 1 1 "2") false)]) [].
Lemma course_start_ok : ids_ok (cdb_table course_start).
Proof.
  intros k r Hk. apply elem_of_list_to_map_2 in Hk. cbn in Hk. rewrite !elem_of_cons in Hk.
  destruct Hk as [Hk|[Hk|[Hk|[Hk|Hk]]]]; [by injection Hk as -> ->..|by apply elem_of_nil in Hk].
Qed.

(** Di may not delete Ed's course. *)
Lemma courses_owned_witness :
  cdb_table (after_request course_service 7 4 0 (RequestDelete 3) course_start) !! 3
  = Some (mkCourseRow 3 7 5 (Some 3) (course_input "sport" 1 1 "2") false).
Proof.
  assert (Hm : ~ (cr_TenantID (mkCourseRow 3 7 5 (Some 3) (course_input "sport" 1 1 "2") false) = 7
                  /\ cr_UserID (mkCourseRow 3 7 5 (Some 3) (course_input "sport" 1 1 "2") false) = 4)) by (intros [_ H]; discriminate H).
  apply (proj2 (courses_owned course_service 7 4 0 (RequestDelete 3) course_start course_start_ok) 3 _ Hm).
  vm_compute. reflexivity.
Defined.

(** Ed copies Di's timetable. *)
Lemma copied_timetable_is_the_same_witness :
  exists w', CopyFromUser course_service 7 5 0 4 course_start = (Ok 2, w')
    /\ exists sources, sources ≡ₚ timetable_of 7 4 (cdb_table course_start) /\ 2 = len sources.
Proof.
  destruct (CopyFromUser course_service 7 5 0 4 course_start) as [r w'] eqn:E.
  assert (Hr : r = Ok 2) by (transitivity (CopyFromUser course_service 7 5 0 4 course_start).1;
    [by rewrite E|vm_compute; reflexivity]).
  subst r. exists w'. split; [reflexivity|].
  destruct (copied_timetable_is_the_same course_service 7 5 0 4 course_start 2 w' course_start_ok E) as (sources & _ & Hp & Hn & _).
  exists sources. split; [exact Hp|exact Hn].
Defined.

Lemma free_users_exact_witness :
  exists slots, GetFreeUsersBySlot course_service 7 2 1 2 0 course_periods course_start = (Ok slots, course_start)
    /\ List.map (fun f => (fs_DayOfWeek f, fs_Section f)) slots = [(1, 1); (1, 2); (2, 1); (2, 2)]
    /\ List.map (fun f => List.map us_Name (fs_FreeUsers f)) slots = [["Di"]; ["Di"; "Ed"]; ["Ed"]; ["Di"; "Ed"]].
Proof.
  assert (E : exists slots, GetFreeUsersBySlot course_service 7 2 1 2 0 course_periods course_start = (Ok slots, course_start)
    /\ List.map (fun f => List.map us_Name (fs_FreeUsers f)) slots = [["Di"]; ["Di"; "Ed"]; ["Ed"]; ["Di"; "Ed"]])
    by (eexists; split; vm_compute; reflexivity).
  destruct E as (slots & E & En). exists slots. split; [exact E|]. split; [|exact En].
  assert (Hd : 1 <= 1) by discriminate. assert (Hne : two_users <> []) by discriminate.
  exact (proj1 (free_users_exact course_service 7 2 1 2 0 course_periods two_users course_start course_start slots course_start
    Hd eq_refl Hne E)).
Defined.

(** The notice of a copy is started after the rows are there. *)
Example copy_notice :
  cw_notices (CopyFromUser course_service 7 5 0 4 course_start).2
  = [mkNotice 7 5 0 "复制" "从 Di 复制了 2 门课程"].
Proof. vm_compute. reflexivity. Qed.
