(* ===== verification/Users.v ===== *)
(** * Users, departments, rest days and login

    The rows are those of internal/repository/user_repository.go,
    department_repository.go and user_rest_day_repository.go; the services are
    internal/service/user_service.go, authz_scope.go, department_service.go,
    rest_day_service.go and auth_service.go, with the department walk of
    pkg/dingtalk/department.go.  Every statement is scoped to the tenant of the
    context.  Creation and update times are left out. *)
From Stdlib Require Import ZArith Lia Bool String.
From stdpp Require Import base list strings gmap sorting.
From S2P Require Import Prelude GoStrings GoTime Contract Repository Settings Attendance Analytics Slots Clients.
#[local] Open Scope Z_scope.
#[local] Open Scope go_scope.

(** ** Tables *)

Record UserRow := mkUserRow {
  uw_ID : Z; uw_TenantID : Z; uw_DingUserID : string; uw_Name : string; uw_NamePinyin : string;
  uw_NamePinyinAbbr : string; uw_Phone : string; uw_Avatar : string; uw_Role : Z; uw_Status : Z; uw_Deleted : bool }.
Record DepartmentRow := mkDepartmentRow {
  dw_TenantID : Z; dw_DeptID : Z; dw_Name : string; dw_ParentID : Z; dw_IsLeaf : bool; dw_Status : Z;
  dw_Deleted : bool }.
(** Users by id, departments by tenant and id, memberships as tenant, user and
    department, and rest days by tenant and user, a day or none. *)
Record user_tables := mkTables {
  tb_users : gmap Z UserRow; tb_depts : gmap (Z * Z) DepartmentRow; tb_links : gset (Z * Z * Z);
  tb_rest : gmap (Z * Z) (option Z) }.

(** A statement or a transaction computes from the tables, with the id it would
    give a new user, the new tables and the number it answers; a unique key in
    its way is [None].  The order of rows that no ORDER BY names, the order of
    names, and LIKE are the database's. *)
Class UserDatabase (D : Type) := {
  udb_tables : D -> user_tables;
  udb_write : (Z -> user_tables -> option (user_tables * Z)) -> ST D Z;
  udb_read : ST D user_tables;
  udb_scan : forall {A : Type}, list A -> list A;
  udb_by_name : list (Z * string) -> list (Z * string);
  udb_like : string -> string -> bool
}.
(** pkg/pinyinutil, over a transliteration library: spelling and initials. *)
Class Pinyin := { FullAndAbbr : string -> string * string }.

Definition ErrUserRowNotFound : err := ESentinel "ErrUserNotFound".

Definition edit_users (f : gmap Z UserRow -> gmap Z UserRow) (tb : user_tables) : user_tables :=
  mkTables (f (tb_users tb)) (tb_depts tb) (tb_links tb) (tb_rest tb).
Definition edit_depts (f : gmap (Z * Z) DepartmentRow -> gmap (Z * Z) DepartmentRow) (tb : user_tables) : user_tables :=
  mkTables (tb_users tb) (f (tb_depts tb)) (tb_links tb) (tb_rest tb).
Definition edit_links (f : gset (Z * Z * Z) -> gset (Z * Z * Z)) (tb : user_tables) : user_tables :=
  mkTables (tb_users tb) (tb_depts tb) (f (tb_links tb)) (tb_rest tb).
Definition edit_rest (f : gmap (Z * Z) (option Z) -> gmap (Z * Z) (option Z)) (tb : user_tables) : user_tables :=
  mkTables (tb_users tb) (tb_depts tb) (tb_links tb) (f (tb_rest tb)).

Definition user_rows (tb : user_tables) : list UserRow := List.map snd (map_to_list (tb_users tb)).
Definition dept_rows (tb : user_tables) : list DepartmentRow := List.map snd (map_to_list (tb_depts tb)).
Definition user_visible (tenantID : Z) (r : UserRow) : bool := (uw_TenantID r =? tenantID) && negb (uw_Deleted r).
Definition dept_visible (tenantID : Z) (d : DepartmentRow) : bool := (dw_TenantID d =? tenantID) && negb (dw_Deleted d).
Definition positive_ids (ids : list Z) : list Z := List.filter (fun id => 0 <? id) ids.

Definition user_le (r1 r2 : UserRow) : Prop := uw_ID r1 <= uw_ID r2.
#[global] Instance user_le_dec r1 r2 : Decision (user_le r1 r2).
Proof. unfold user_le. apply _. Defined.
Definition user_ge (r1 r2 : UserRow) : Prop := uw_ID r2 <= uw_ID r1.
#[global] Instance user_ge_dec r1 r2 : Decision (user_ge r1 r2).
Proof. unfold user_ge. apply _. Defined.

(** The user has the membership, in the user's tenant. *)
Definition in_department (tb : user_tables) (r : UserRow) (d : Z) : bool :=
  bool_decide ((uw_TenantID r, uw_ID r, d) ∈ tb_links tb).
Definition in_departments (tb : user_tables) (ds : list Z) (r : UserRow) : bool := existsb (in_department tb r) ds.
(** [JOIN departments d]: the joined row's own deletion mark is not looked at. *)
Definition department_active (tb : user_tables) (tenantID d : Z) : bool :=
  match tb_depts tb !! (tenantID, d) with Some dp => dw_Status dp =? 1 | None => false end.
Definition departments_of (tb : user_tables) (tenantID userID : Z) : list Z :=
  List.map snd (List.filter (fun l => (l.1.1 =? tenantID) && (l.1.2 =? userID)) (elements (tb_links tb))).

Section repository.
Context `{DC : DatabaseConventions} `{PY : Pinyin} {D : Type} `{UD : UserDatabase D} (tenantID : Z).

(** ** internal/repository/user_repository.go *)

Definition select_users (p : user_tables -> UserRow -> bool) : ST D (list UserRow) :=
  tb <~ udb_read ;; st_ret (udb_scan (List.filter (p tb) (user_rows tb))).
Definition users_by_id (p : user_tables -> UserRow -> bool) : ST D (list UserRow) :=
  rows <~ select_users p ;; st_ret (merge_sort user_le rows).
(** [First]: the row of the least id. *)
Definition first_user (p : user_tables -> UserRow -> bool) : ST D UserRow :=
  rows <~ users_by_id p ;; match rows with r :: _ => st_ret r | [] => st_fail ErrUserRowNotFound end.
Definition visible_where (p : UserRow -> bool) : user_tables -> UserRow -> bool :=
  fun _ r => user_visible tenantID r && p r.

Definition user_FindByID (id : Z) : ST D UserRow := first_user (visible_where (fun r => uw_ID r =? id)).
Definition user_FindByDingUserID (dingUserID : string) : ST D UserRow :=
  first_user (visible_where (fun r => text_eq (uw_DingUserID r) dingUserID)).
Definition user_ListByIDs (ids : list Z) : ST D (list UserRow) :=
  match ids with [] => st_ret [] | _ => select_users (visible_where (fun r => bool_decide (uw_ID r ∈ ids))) end.

Definition user_ListByScope (deptIDs onlyUserIDs : list Z) : ST D (list UserRow) :=
  let named r := bool_decide (uw_ID r ∈ onlyUserIDs) in
  let cleanDeptIDs := positive_ids deptIDs in
  users_by_id (fun tb r => user_visible tenantID r
    && (bool_decide (cleanDeptIDs = []) || in_departments tb cleanDeptIDs r)
    && (bool_decide (onlyUserIDs = []) || named r)).

(** Of status 1, and a member of a department of status 1, of one of the given
    ones if there are any. *)
Definition user_ListAttendanceCandidates (deptIDs : list Z) : ST D (list UserRow) :=
  let cleanDeptIDs := positive_ids deptIDs in
  users_by_id (fun tb r => user_visible tenantID r && (uw_Status r =? 1)
    && existsb (fun d => department_active tb (uw_TenantID r) d
                         && (bool_decide (cleanDeptIDs = []) || bool_decide (d ∈ cleanDeptIDs)))
         (departments_of tb (uw_TenantID r) (uw_ID r))).

Definition user_List (limit offset : Z) : ST D (list UserRow) :=
  let limit := if limit <=? 0 then 100 else limit in
  let offset := if offset <? 0 then 0 else offset in
  rows <~ users_by_id (visible_where (fun _ => true)) ;;
  st_ret (take (Z.to_nat limit) (drop (Z.to_nat offset) rows)).
Definition user_ListByStatus (status : Z) : ST D (list UserRow) := users_by_id (visible_where (fun r => uw_Status r =? status)).
Definition user_ListByRole (role : Z) : ST D (list UserRow) := users_by_id (visible_where (fun r => role <=? uw_Role r)).

Definition fillUserPinyin (u : UserRow) : UserRow :=
  let '(full, abbr) := if eqs (trim_space (uw_Name u)) "" then ("", "") else FullAndAbbr (uw_Name u) in
  mkUserRow (uw_ID u) (uw_TenantID u) (uw_DingUserID u) (uw_Name u) full abbr (uw_Phone u) (uw_Avatar u) (uw_Role u)
    (uw_Status u) (uw_Deleted u).

(** The unique key (tenant, ding_user_id) is held by another row, deleted or not. *)
Definition ding_taken (tb : user_tables) (dingUserID : string) (id : Z) : bool :=
  existsb (fun r => (uw_TenantID r =? tenantID) && text_eq (uw_DingUserID r) dingUserID && negb (uw_ID r =? id)) (user_rows tb).
(** All columns of [u], at an id and in the tenant. *)
Definition user_at (id : Z) (u : UserRow) : UserRow :=
  mkUserRow id tenantID (uw_DingUserID u) (uw_Name u) (uw_NamePinyin u) (uw_NamePinyinAbbr u) (uw_Phone u) (uw_Avatar u)
    (uw_Role u) (uw_Status u) (uw_Deleted u).
(** A zero status is the column's default. *)
Definition with_default_status (u : UserRow) : UserRow :=
  mkUserRow (uw_ID u) (uw_TenantID u) (uw_DingUserID u) (uw_Name u) (uw_NamePinyin u) (uw_NamePinyinAbbr u) (uw_Phone u)
    (uw_Avatar u) (uw_Role u) (if uw_Status u =? 0 then 1 else uw_Status u) (uw_Deleted u).

Definition insert_user (u : UserRow) (id : Z) (tb : user_tables) : option (user_tables * Z) :=
  if ding_taken tb (uw_DingUserID u) id then None
  else Some (edit_users (insert id (user_at id (with_default_status u))) tb, id).
Definition user_Create (u : UserRow) : ST D UserRow :=
  let u := fillUserPinyin u in
  id <~ udb_write (insert_user u) ;; st_ret (user_at id (with_default_status u)).

(** [UPDATE] of the row with an id, if it is in scope: how many rows there were. *)
Definition update_where (unscoped : bool) (id : Z) (f : UserRow -> UserRow) (tb : user_tables) : option (user_tables * Z) :=
  match tb_users tb !! id with
  | Some r =>
      if (uw_TenantID r =? tenantID) && (unscoped || negb (uw_Deleted r)) then
        if ding_taken tb (uw_DingUserID (f r)) id then None else Some (edit_users (insert id (f r)) tb, 1)
      else Some (tb, 0)
  | None => Some (tb, 0)
  end.
(** [Select("*").Omit("id")]: every other column is written. *)
Definition user_Update (u : UserRow) : ST D UserRow :=
  let u := fillUserPinyin u in
  udb_write (fun _ => update_where false (uw_ID u) (fun _ => user_at (uw_ID u) u)) ~;; st_ret u.

Definition set_role (role : Z) (r : UserRow) : UserRow :=
  mkUserRow (uw_ID r) (uw_TenantID r) (uw_DingUserID r) (uw_Name r) (uw_NamePinyin r) (uw_NamePinyinAbbr r) (uw_Phone r)
    (uw_Avatar r) role (uw_Status r) (uw_Deleted r).
Definition set_status (status : Z) (r : UserRow) : UserRow :=
  mkUserRow (uw_ID r) (uw_TenantID r) (uw_DingUserID r) (uw_Name r) (uw_NamePinyin r) (uw_NamePinyinAbbr r) (uw_Phone r)
    (uw_Avatar r) (uw_Role r) status (uw_Deleted r).
Definition set_deleted (r : UserRow) : UserRow :=
  mkUserRow (uw_ID r) (uw_TenantID r) (uw_DingUserID r) (uw_Name r) (uw_NamePinyin r) (uw_NamePinyinAbbr r) (uw_Phone r)
    (uw_Avatar r) (uw_Role r) (uw_Status r) true.
(** No row affected is no such user; every matched row counts, since its
    updated_at changes. *)
Definition update_one (id : Z) (f : UserRow -> UserRow) : ST D unit :=
  n <~ udb_write (fun _ => update_where false id f) ;;
  if n =? 0 then st_fail ErrUserRowNotFound else st_ret tt.
Definition user_UpdateStatus (userID status : Z) : ST D unit := update_one userID (set_status status).
Definition user_UpdateRole (userID role : Z) : ST D unit := update_one userID (set_role role).
Definition user_Delete (userID : Z) : ST D unit := update_one userID set_deleted.

(** What an existing row keeps: its id, role and status. *)
Definition keep_row (u existing : UserRow) : UserRow :=
  mkUserRow (uw_ID existing) (uw_TenantID u) (uw_DingUserID u) (uw_Name u) (uw_NamePinyin u) (uw_NamePinyinAbbr u)
    (uw_Phone u) (uw_Avatar u) (uw_Role existing) (uw_Status existing) (uw_Deleted u).
(** Update, or bring back a deleted row, or create; the row as it is then. *)
Definition user_Upsert (u : UserRow) : ST D UserRow := fun w =>
  match user_FindByDingUserID (uw_DingUserID u) w with
  | (Ok existing, w) => user_Update (keep_row u existing) w
  | (Err e, w) =>
      if negb (errors_Is e "ErrUserNotFound") then (Err e, w)
      else
        match first_user (fun _ r => (uw_TenantID r =? tenantID) && text_eq (uw_DingUserID r) (uw_DingUserID u)) w with
        | (Ok deleted, w) =>
            let u := keep_row u deleted in
            (udb_write (fun _ => update_where true (uw_ID u) (fun _ => user_at (uw_ID u) u)) ~;; st_ret u) w
        | (Err e, w) => if negb (errors_Is e "ErrUserNotFound") then (Err e, w) else user_Create u w
        end
  end.

(** One transaction: the user's memberships are replaced; a repeated id breaks
    the primary key. *)
Definition sync_links (userID : Z) (deptIDs : list Z) (tb : user_tables) : option (user_tables * Z) :=
  let ids := positive_ids deptIDs in
  if bool_decide (NoDup ids) then
    Some (edit_links (fun links => filter (fun l => ~ (l.1.1 = tenantID /\ l.1.2 = userID)) links
                                   ∪ list_to_set (List.map (fun d => (tenantID, userID, d)) ids)) tb, 0)
  else None.
Definition user_SyncDepartments (userID : Z) (deptIDs : list Z) : ST D unit :=
  udb_write (fun _ => sync_links userID deptIDs) ~;; st_ret tt.

Definition user_FindDepartmentIDs (userID : Z) : ST D (list Z) :=
  tb <~ udb_read ;; st_ret (udb_scan (departments_of tb tenantID userID)).
Definition user_FindDepartments (userID : Z) : ST D (list DepartmentRow) :=
  tb <~ udb_read ;;
  st_ret (udb_scan (List.filter (fun d => dept_visible tenantID d
                                  && bool_decide ((dw_TenantID d, userID, dw_DeptID d) ∈ tb_links tb)) (dept_rows tb))).

Definition keyword_matches (keyword : string) (r : UserRow) : bool :=
  if eqs keyword "" then true
  else let like := "%" +:+ keyword +:+ "%" in
       udb_like (uw_Name r) like || udb_like (uw_Phone r) like || udb_like (uw_DingUserID r) like
       || udb_like (uw_NamePinyin r) like || udb_like (uw_NamePinyinAbbr r) like.
(** A page, latest ids first, and the number of all; two statements. *)
Definition page_of_users (p : user_tables -> UserRow -> bool) (page pageSize : Z) : ST D (list UserRow * Z) :=
  counted <~ select_users p ;;
  rows <~ select_users p ;;
  st_ret (take (Z.to_nat pageSize) (drop (Z.to_nat (wrap_int64 (wrap_int64 (page - 1) * pageSize))) (merge_sort user_ge rows)),
          len counted).
Definition user_Search (keyword : string) (page pageSize : Z) : ST D (list UserRow * Z) :=
  page_of_users (visible_where (keyword_matches keyword)) page pageSize.
Definition user_SearchWithScope (keyword : string) (deptIDs onlyUserIDs : list Z) (page pageSize : Z)
  : ST D (list UserRow * Z) :=
  if bool_decide (deptIDs = []) && bool_decide (onlyUserIDs = []) then user_Search keyword page pageSize
  else
    let cleanDeptIDs := positive_ids deptIDs in
    let named r := bool_decide (uw_ID r ∈ onlyUserIDs) in
    page_of_users (fun tb r => user_visible tenantID r && keyword_matches keyword r
      && match cleanDeptIDs, onlyUserIDs with
         | [], [] => true
         | [], _ => named r
         | _, [] => in_departments tb cleanDeptIDs r
         | _, _ => in_departments tb cleanDeptIDs r || named r
         end) page pageSize.

(** The names of the departments of users, joined; a membership of no known
    department has an empty name. *)
Definition user_GetUserDepartmentNames (userIDs : list Z) : ST D (gmap Z string) :=
  match userIDs with
  | [] => st_ret ∅
  | _ =>
      tb <~ udb_read ;;
      let rows := udb_by_name (List.map (fun l => (l.1.2, match tb_depts tb !! (l.1.1, l.2) with
                                                          | Some d => dw_Name d | None => "" end))
                    (List.filter (fun l => bool_decide (l.1.2 ∈ userIDs)) (elements (tb_links tb)))) in
      let userDeptMap : gmap Z (list string) :=
        fold_left (fun m r => if eqs r.2 "" then m else <[r.1 := default [] (m !! r.1) ++ [r.2]]> m) rows ∅ in
      st_ret (join "," <$> userDeptMap)
  end.
End repository.

(** ** internal/repository/department_repository.go *)

Definition ErrDepartmentNotFound : err := ESentinel ErrRecordNotFound.

Section departments.
Context {D : Type} `{UD : UserDatabase D} (tenantID : Z).

Definition remove_other_depts (deptIDs : list Z) (tb : gmap (Z * Z) DepartmentRow) : gmap (Z * Z) DepartmentRow :=
  (fun d => if dept_visible tenantID d && negb (bool_decide (dw_DeptID d ∈ deptIDs))
            then mkDepartmentRow (dw_TenantID d) (dw_DeptID d) (dw_Name d) (dw_ParentID d) (dw_IsLeaf d) (dw_Status d) true
            else d) <$> tb.
(** A new row, or name, parent, leaf and deletion mark of the old one; a zero
    status is the column's default. *)
Definition upsert_dept (d : DepartmentRow) (tb : gmap (Z * Z) DepartmentRow) : gmap (Z * Z) DepartmentRow :=
  let status := match tb !! (tenantID, dw_DeptID d) with
                | Some old => dw_Status old
                | None => if dw_Status d =? 0 then 1 else dw_Status d
                end in
  <[(tenantID, dw_DeptID d) :=
      mkDepartmentRow tenantID (dw_DeptID d) (dw_Name d) (dw_ParentID d) (dw_IsLeaf d) status (dw_Deleted d)]> tb.
Definition sync_depts (depts : list DepartmentRow) (deptIDs : list Z) (tb : gmap (Z * Z) DepartmentRow)
  : gmap (Z * Z) DepartmentRow :=
  fold_left (fun tb d => upsert_dept d tb) depts (if bool_decide (deptIDs = []) then tb else remove_other_depts deptIDs tb).
Definition dept_SyncAll (depts : list DepartmentRow) (deptIDs : list Z) : ST D unit :=
  udb_write (fun _ tb => Some (edit_depts (sync_depts depts deptIDs) tb, 0)) ~;; st_ret tt.

Definition select_depts (p : DepartmentRow -> bool) : ST D (list DepartmentRow) :=
  tb <~ udb_read ;; st_ret (udb_scan (List.filter (fun d => dept_visible tenantID d && p d) (dept_rows tb))).
Definition dept_FindLeaf : ST D (list DepartmentRow) := select_depts dw_IsLeaf.
Definition dept_FindByID (deptID : Z) : ST D DepartmentRow :=
  rows <~ select_depts (fun d => dw_DeptID d =? deptID) ;;
  match rows with d :: _ => st_ret d | [] => st_fail ErrDepartmentNotFound end.

(** The row with an id, if it is visible, and how many there were. *)
Definition update_dept (deptID : Z) (f : DepartmentRow -> DepartmentRow) (tb : user_tables) : option (user_tables * Z) :=
  match tb_depts tb !! (tenantID, deptID) with
  | Some d => if dept_visible tenantID d then Some (edit_depts (insert (tenantID, deptID) (f d)) tb, 1) else Some (tb, 0)
  | None => Some (tb, 0)
  end.
(** A count first: an unchanged row would not count as affected. *)
Definition dept_UpdateStatus (deptID status : Z) : ST D unit :=
  rows <~ select_depts (fun d => dw_DeptID d =? deptID) ;;
  if len rows =? 0 then st_fail ErrDepartmentNotFound
  else
    udb_write (fun _ => update_dept deptID (fun d => mkDepartmentRow (dw_TenantID d) (dw_DeptID d) (dw_Name d)
      (dw_ParentID d) (dw_IsLeaf d) status (dw_Deleted d))) ~;; st_ret tt.
Definition dept_Delete (deptID : Z) : ST D unit :=
  n <~ udb_write (fun _ => update_dept deptID (fun d => mkDepartmentRow (dw_TenantID d) (dw_DeptID d) (dw_Name d)
         (dw_ParentID d) (dw_IsLeaf d) (dw_Status d) true)) ;;
  if n =? 0 then st_fail ErrDepartmentNotFound else st_ret tt.

(** ** internal/repository/user_rest_day_repository.go *)

Definition rest_Upsert (userID dayOfWeek : Z) : ST D unit :=
  udb_write (fun _ tb => Some (edit_rest (insert (tenantID, userID) (Some dayOfWeek)) tb, 1)) ~;; st_ret tt.
Definition rest_Unset (userID : Z) : ST D unit :=
  udb_write (fun _ tb => Some (edit_rest (alter (fun _ => None) (tenantID, userID)) tb, 0)) ~;; st_ret tt.
Definition rest_FindByUserID (userID : Z) : ST D (option Z) :=
  tb <~ udb_read ;;
  match tb_rest tb !! (tenantID, userID) with Some day => st_ret day | None => st_fail (ESentinel ErrRecordNotFound) end.
(** The tenant's rows with a day. *)
Definition rest_days (p : UserRestDay -> bool) : ST D (list UserRestDay) :=
  tb <~ udb_read ;;
  st_ret (udb_scan (List.filter p
    (omap (fun kv : Z * Z * option Z => if kv.1.1 =? tenantID then mkRestDay kv.1.2 <$> kv.2 else None)
       (map_to_list (tb_rest tb))))).
Definition rest_ListByDayOfWeek (dayOfWeek : Z) : ST D (list UserRestDay) := rest_days (fun rd => rd_DayOfWeek rd =? dayOfWeek).
Definition rest_ListByUserIDs (userIDs : list Z) : ST D (list UserRestDay) :=
  match userIDs with [] => st_ret [] | _ => rest_days (fun rd => bool_decide (rd_UserID rd ∈ userIDs)) end.
Definition rest_ListAll : ST D (list UserRestDay) := rest_days (fun _ => true).
End departments.

(** ** What DingTalk answers *)

Record UserDetail := mkUserDetail {
  dt_UserID : string; dt_Name : string; dt_Avatar : string; dt_Mobile : string; dt_DeptIDList : list Z }.
Record DingDepartment := mkDingDepartment { dg_DeptID : Z; dg_Name : string; dg_ParentID : Z }.
Definition ErrDingUserMissing : err := ESentinel "dingtalk.ErrUserNotFound".
(** The calls of a tenant's client that are used here. *)
Record DirectoryClient W := mkDirectory {
  dc_GetUserDetail : string -> ST W UserDetail;
  dc_GetUserByAuthCode : string -> ST W string;
  dc_GetSubDepartments : Z -> ST W (list DingDepartment) }.
Arguments dc_GetUserDetail {W}. Arguments dc_GetUserByAuthCode {W}. Arguments dc_GetSubDepartments {W}.

Section walk.
Context {W : Type} (GetSubDepartments : Z -> ST W (list DingDepartment)).

(** The list grows as in the code: a department, then all below it.  The fuel
    is the depth of the tree ([UsersSpec.all_departments_fetched]). *)
Definition fetch_children (recurse : Z -> list DingDepartment -> ST W (list DingDepartment)) :=
  fix each (depts result : list DingDepartment) : ST W (list DingDepartment) :=
    match depts with
    | [] => st_ret result
    | dept :: depts => result <~ recurse (dg_DeptID dept) (result ++ [dept]) ;; each depts result
    end.
Fixpoint fetchDeptRecursive (fuel : nat) (parentID : Z) (result : list DingDepartment) : ST W (list DingDepartment) :=
  match fuel with
  | O => st_fail (EMsg "out of fuel")
  | S fuel =>
      depts <~ st_wrap ("获取部门(parentID=" +:+ itoa parentID +:+ ")子部门失败: %w") (GetSubDepartments parentID) ;;
      fetch_children (fetchDeptRecursive fuel) depts result
  end.
(** The department of id 1 is the root. *)
Definition FetchAllDepartments (fuel : nat) : ST W (list DingDepartment) := fetchDeptRecursive fuel 1 [].
End walk.

(** ** internal/service *)

Definition ErrInvalidParam : err := BizError CodeInvalidParam "参数无效".
Definition ErrDingUserNotFound : err := BizError 10001 "钉钉用户不存在".
Definition ErrNoTenantManager : err := BizError CodeInternalError "钉钉租户管理器未初始化".
Definition ErrNoTenantInfo : err := BizError CodeUnauthorized "缺少租户信息".

Definition RoleName (role : Z) : string :=
  if role =? 0 then "普通用户" else if role =? 1 then "管理员" else if role =? 2 then "超级管理员" else "未知角色".

Record UserScope := mkScope { sc_DeptIDs : list Z; sc_OnlyUserIDs : list Z }.
Definition VisibleUserScope (viewerID viewerRole : Z) : res UserScope :=
  if viewerID =? 0 then Err ErrForbidden
  else Ok (if RoleAdmin <=? viewerRole then mkScope [] [] else mkScope [] [viewerID]).

Record SearchUsersResult := mkSearchResult { sr_Users : list UserRow; sr_Total : Z; sr_Page : Z; sr_PageSize : Z }.
Record SyncAllUsersResponse := mkSyncAll {
  sa_TotalRequested : Z; sa_Success : Z; sa_Failed : list (string * err); sa_HasMore : bool; sa_NextOffset : Z }.

Definition normalizeUserSearchPagination (page pageSize : Z) : Z * Z :=
  (if page <=? 0 then 1 else page, if pageSize <=? 0 then 10 else pageSize).
Definition deptHasIntersection (a b : list Z) : bool :=
  if bool_decide (a = []) || bool_decide (b = []) then false else existsb (fun id => bool_decide (id ∈ a)) b.

(** An error of the repository that says the user is not there. *)
Definition user_error {W A} (msg : string) (m : ST W A) : ST W A := fun w =>
  match m w with
  | (Ok a, w) => (Ok a, w)
  | (Err e, w) => (Err (if errors_Is e "ErrUserNotFound" then ErrUserNotFound else EWrap msg e), w)
  end.
Definition dept_error {W A} (msg : string) (m : ST W A) : ST W A := fun w =>
  match m w with
  | (Ok a, w) => (Ok a, w)
  | (Err e, w) => (Err (if errors_Is e ErrRecordNotFound then ErrNotFoundWithMsg "部门不存在" else EWrap msg e), w)
  end.

Section service.
Context `{DC : DatabaseConventions} `{PY : Pinyin} {W : Type} `{UD : UserDatabase W} (tenantID : Z)
  (dingMgr : option (ST W (DirectoryClient W))).

(** The client of the context's tenant. *)
Definition directory : ST W (DirectoryClient W) := fun w =>
  match dingMgr with
  | None => (Err ErrNoTenantManager, w)
  | Some FromContext => match FromContext w with (Err _, w) => (Err ErrNoTenantInfo, w) | (Ok c, w) => (Ok c, w) end
  end.

Definition GetUserById (id : Z) : ST W UserRow := user_FindByID tenantID id.
Definition GetUserWithDepts (id : Z) : ST W (UserRow * list DepartmentRow) :=
  user <~ user_FindByID tenantID id ;; depts <~ user_FindDepartments tenantID id ;; st_ret (user, depts).
Definition GetVisibleUser (viewerID targetUserID : Z) : ST W (UserRow * list DepartmentRow) :=
  st_lift (guard (negb ((viewerID =? 0) || (targetUserID =? 0))) ErrForbidden) ~;; GetUserWithDepts targetUserID.

Definition SearchUsers (keyword : string) (page pageSize : Z) : ST W SearchUsersResult :=
  let '(page, pageSize) := normalizeUserSearchPagination page pageSize in
  x <~ user_Search tenantID (trim_space keyword) page pageSize ;; st_ret (mkSearchResult x.1 x.2 page pageSize).
Definition SearchVisibleUsers (viewerID viewerRole : Z) (keyword : string) (page pageSize : Z) : ST W SearchUsersResult :=
  let '(page, pageSize) := normalizeUserSearchPagination page pageSize in
  scope <~ st_lift (VisibleUserScope viewerID viewerRole) ;;
  x <~ user_SearchWithScope tenantID (trim_space keyword) (sc_DeptIDs scope) (sc_OnlyUserIDs scope) page pageSize ;;
  st_ret (mkSearchResult x.1 x.2 page pageSize).

(** Name, phone and avatar of the detail, the rest of the row. *)
Definition with_detail (detail : UserDetail) (u : UserRow) : UserRow :=
  mkUserRow (uw_ID u) (uw_TenantID u) (uw_DingUserID u) (dt_Name detail) (uw_NamePinyin u) (uw_NamePinyinAbbr u)
    (dt_Mobile detail) (dt_Avatar detail) (uw_Role u) (uw_Status u) (uw_Deleted u).
Definition Refresh (dingUserID : string) : ST W (UserRow * list Z) :=
  let dingUserID := trim_space dingUserID in
  st_lift (guard (negb (eqs dingUserID "")) ErrForbidden) ~;;
  client <~ directory ;;
  fun w =>
    match dc_GetUserDetail client dingUserID w with
    | (Err e, w) =>
        (Err (if errors_Is e "dingtalk.ErrUserNotFound" then ErrDingUserNotFound
              else EWrap "获取钉钉用户详情失败: %w" e), w)
    | (Ok detail, w) =>
        (user <~ user_error "查询本地用户失败: %w" (user_FindByDingUserID tenantID dingUserID) ;;
         user <~ st_wrap "更新用户失败: %w" (user_Update tenantID (with_detail detail user)) ;;
         st_wrap "同步部门失败: %w" (user_SyncDepartments tenantID (uw_ID user) (dt_DeptIDList detail)) ~;;
         st_ret (user, dt_DeptIDList detail)) w
    end.

(** The users one after the other: those that failed, and how many did not. *)
Fixpoint refresh_each (users : list UserRow) (failed : list (string * err)) (successCount : Z) (w : W)
  : list (string * err) * Z * W :=
  match users with
  | [] => (failed, successCount, w)
  | u :: users =>
      match Refresh (uw_DingUserID u) w with
      | (Err e, w) => refresh_each users (failed ++ [(uw_DingUserID u, e)]) successCount w
      | (Ok _, w) => refresh_each users failed (successCount + 1) w
      end
  end.
Definition BatchRefresh (limit offset : Z) : ST W SyncAllUsersResponse :=
  let limit := if limit <=? 0 then 100 else limit in
  let offset := if offset <? 0 then 0 else offset in
  users <~ st_wrap "获取用户列表失败: %w" (user_List tenantID limit offset) ;;
  fun w =>
    let '(failed, successCount, w) := refresh_each users [] 0 w in
    (Ok (mkSyncAll (len users) successCount failed (len users =? limit) (offset + len users)), w).

Definition UpdateUserStatus (targetUserID status : Z) : ST W unit :=
  st_lift (guard (negb (targetUserID =? 0)) ErrInvalidParam) ~;;
  st_lift (guard ((status =? 0) || (status =? 1)) (ErrInvalidParamWithMsg "状态值无效")) ~;;
  user_error "更新用户状态失败: %w" (user_UpdateStatus tenantID targetUserID status).
Definition DeleteUser (targetUserID : Z) : ST W unit :=
  st_lift (guard (negb (targetUserID =? 0)) ErrInvalidParam) ~;;
  user_error "删除用户失败: %w" (user_Delete tenantID targetUserID).
(** Never to a super administrator, and never of one. *)
Definition UpdateUserRole (targetUserID role : Z) : ST W unit :=
  st_lift (guard (negb (targetUserID =? 0)) ErrInvalidParam) ~;;
  st_lift (guard ((role =? 0) || (role =? 1))
             (ErrInvalidParamWithMsg "角色值无效，只能设置为普通用户(0)或管理员(1)")) ~;;
  user <~ user_error "查询用户失败: %w" (user_FindByID tenantID targetUserID) ;;
  st_lift (guard (negb (uw_Role user =? 2)) (BizError 10004 "不允许修改超级管理员的角色")) ~;;
  user_error "更新用户角色失败: %w" (user_UpdateRole tenantID targetUserID role).

(** *** department_service.go *)

Definition has_children (allDepts : list DingDepartment) (deptID : Z) : bool :=
  existsb (fun d => (0 <? dg_ParentID d) && (dg_ParentID d =? deptID)) allDepts.
Definition dept_model (allDepts : list DingDepartment) (d : DingDepartment) : DepartmentRow :=
  mkDepartmentRow 0 (dg_DeptID d) (dg_Name d) (dg_ParentID d) (negb (has_children allDepts (dg_DeptID d))) 1 false.
Definition SyncDepartments (fuel : nat) : ST W unit :=
  client <~ directory ;;
  allDepts <~ st_wrap "获取钉钉部门失败: %w" (FetchAllDepartments (dc_GetSubDepartments client) fuel) ;;
  match allDepts with
  | [] => st_ret tt
  | _ => st_wrap "同步部门到数据库失败: %w"
           (dept_SyncAll tenantID (List.map (dept_model allDepts) allDepts) (List.map dg_DeptID allDepts))
  end.
Definition ListLeafDepartments : ST W (list DepartmentRow) := dept_FindLeaf tenantID.
Definition UpdateDepartmentStatus (deptID status : Z) : ST W unit :=
  st_lift (guard (negb (deptID <=? 0)) ErrInvalidParam) ~;;
  st_lift (guard ((status =? 0) || (status =? 1)) (ErrInvalidParamWithMsg "状态值无效")) ~;;
  dept_error "更新部门状态失败: %w" (dept_UpdateStatus tenantID deptID status).
Definition DeleteDepartment (deptID : Z) : ST W unit :=
  st_lift (guard (negb (deptID <=? 0)) ErrInvalidParam) ~;;
  dept_error "删除部门失败: %w" (dept_Delete tenantID deptID).

(** *** rest_day_service.go *)

Definition DayOfWeekName (day : Z) : string :=
  if (1 <=? day) && (day <=? 7)
  then default "" (["周一"; "周二"; "周三"; "周四"; "周五"; "周六"; "周日"] !! Z.to_nat (day - 1)) else "".
Record UserRestDayResponse := mkRestDayResponse { rs_UserID : Z; rs_DayOfWeek : Z; rs_DayName : string }.
Record UserRestDayItem := mkRestDayItem {
  ri_UserID : Z; ri_UserName : string; ri_Avatar : string; ri_DeptName : string; ri_DayOfWeek : Z; ri_DayName : string }.

(** Allowed when the switch cannot be read. *)
Definition checkRestDayEditingAllowed `{DB : SettingsDatabase W} : ST W unit := fun w =>
  let '((allowed, e), w) := IsRestDayEditingAllowed w in
  match e with
  | Some _ => (Ok tt, w)
  | None => if allowed : bool then (Ok tt, w) else (Err (BizError 10004 "管理员已关闭休息日编辑权限"), w)
  end.
Definition internal_error {A} (msg : string) (m : ST W A) : ST W A := fun w =>
  match m w with (Ok a, w) => (Ok a, w) | (Err _, w) => (Err (BizError CodeInternalError msg), w) end.

Definition SetRestDay `{DB : SettingsDatabase W} (userID dayOfWeek : Z) : ST W unit :=
  st_lift (guard (negb (userID =? 0)) ErrForbidden) ~;;
  st_lift (guard ((1 <=? dayOfWeek) && (dayOfWeek <=? 7)) (ErrInvalidParamWithMsg "day_of_week 必须在 1-7 之间")) ~;;
  checkRestDayEditingAllowed ~;;
  internal_error "设置休息日失败" (rest_Upsert tenantID userID dayOfWeek).
Definition RemoveRestDay `{DB : SettingsDatabase W} (userID : Z) : ST W unit :=
  st_lift (guard (negb (userID =? 0)) ErrForbidden) ~;;
  checkRestDayEditingAllowed ~;;
  internal_error "取消休息日失败" (rest_Unset tenantID userID).
Definition GetMyRestDay (userID : Z) : ST W UserRestDayResponse := fun w =>
  if userID =? 0 then (Err ErrForbidden, w)
  else
    match rest_FindByUserID tenantID userID w with
    | (Ok (Some day), w) => (Ok (mkRestDayResponse userID day (DayOfWeekName day)), w)
    | (Ok None, w) => (Ok (mkRestDayResponse userID 0 ""), w)
    | (Err e, w) => (if errors_Is e ErrRecordNotFound then Ok (mkRestDayResponse userID 0 "")
                     else Err (BizError CodeInternalError "查询休息日失败"), w)
    end.
(** A record of a user who is not there is left out. *)
Definition rest_item (users : list UserRow) (deptNames : gmap Z string) (r : UserRestDay) : option UserRestDayItem :=
  (fun u => mkRestDayItem (rd_UserID r) (uw_Name u) (uw_Avatar u) (default "" (deptNames !! rd_UserID r)) (rd_DayOfWeek r)
              (DayOfWeekName (rd_DayOfWeek r)))
  <$> List.find (fun u => uw_ID u =? rd_UserID r) users.
Definition ListAllRestDays : ST W (list UserRestDayItem) :=
  records <~ internal_error "查询休息日列表失败" (rest_ListAll tenantID) ;;
  match records with
  | [] => st_ret []
  | _ =>
      let userIDs := List.map rd_UserID records in
      users <~ internal_error "查询用户信息失败" (user_ListByIDs tenantID userIDs) ;;
      fun w =>
        let '(deptNames, w) := match user_GetUserDepartmentNames userIDs w with
                               | (Ok names, w) => (names, w) | (Err _, w) => (∅, w) end in
        (Ok (omap (rest_item users deptNames) records), w)
  end.
End service.

(** *** auth_service.go *)

(** What a token says. *)
Record Claims := mkClaims {
  tk_TenantID : Z; tk_CorpID : string; tk_UserID : Z; tk_DingUserID : string; tk_Name : string; tk_Role : Z }.
Record LoginUser := mkLoginUser {
  lu_ID : Z; lu_DingUserID : string; lu_Name : string; lu_Avatar : string; lu_Phone : string; lu_Role : Z;
  lu_RoleName : string; lu_DeptIDs : list Z }.
Record LoginResponse := mkLoginResponse { lo_Token : string; lo_ExpiresIn : Z; lo_User : LoginUser }.
Record AuthService W := mkAuth {
  au_GetByCorpID : option (string -> ST W (Tenant * DirectoryClient W));
  au_GenerateToken : Claims -> ST W string;
  au_Expire : Z }.
Arguments au_GetByCorpID {W}. Arguments au_GenerateToken {W}. Arguments au_Expire {W}.

Definition ErrAuthCodeRequired : err := EMsg "auth: 免登码不能为空".
Definition ErrLoginFailed : err := ESentinel "ErrLoginFailed".
(** The configured duration, three days when it is not positive. *)
Definition jwt_expire (configured : Z) : Z := if configured <=? 0 then 72 * ns_hour else configured.

Section auth.
Context `{DC : DatabaseConventions} `{PY : Pinyin} {W : Type} `{UD : UserDatabase W} (s : AuthService W).

(** The text also names the cause; the error is only [ErrLoginFailed]. *)
Definition login_failed {A} (msg : string) (m : ST W A) : ST W A := fun w =>
  match m w with (Ok a, w) => (Ok a, w) | (Err _, w) => (Err (EWrap ("%w: " +:+ msg) ErrLoginFailed), w) end.

Definition login_user (tenantID : Z) (detail : UserDetail) : UserRow :=
  mkUserRow 0 tenantID (dt_UserID detail) (dt_Name detail) "" "" (dt_Mobile detail) (dt_Avatar detail) 0 0 false.
Definition claims_of (tenant : Tenant) (user : UserRow) : Claims :=
  mkClaims (tn_ID tenant) (tn_CorpID tenant) (uw_ID user) (uw_DingUserID user) (uw_Name user) (uw_Role user).

Definition Login (corpID authCode : string) : ST W LoginResponse := fun w =>
  if eqs authCode "" then (Err ErrAuthCodeRequired, w)
  else
    match au_GetByCorpID s with
    | None => (Err ErrNoTenantManager, w)
    | Some GetByCorpID =>
        match GetByCorpID corpID w with
        | (Err e, w) =>
            (Err (if errors_Is e "ErrTenantNotFound" then ErrInvalidParamWithMsg "corp_id 无效或企业未开通"
                  else EWrap "%w: 获取企业配置失败: %v" ErrLoginFailed), w)
        | (Ok (tenant, client), w) =>
            (userID <~ login_failed "获取用户ID失败: %v" (dc_GetUserByAuthCode client authCode) ;;
             detail <~ login_failed "获取用户详情失败: %v" (dc_GetUserDetail client userID) ;;
             user <~ login_failed "保存用户失败: %v" (user_Upsert (tn_ID tenant) (login_user (tn_ID tenant) detail)) ;;
             login_failed "同步部门失败: %v" (user_SyncDepartments (tn_ID tenant) (uw_ID user) (dt_DeptIDList detail)) ~;;
             token <~ login_failed "签发Token失败: %v" (au_GenerateToken s (claims_of tenant user)) ;;
             st_ret (mkLoginResponse token (Z.quot (au_Expire s) ns_sec)
                       (mkLoginUser (uw_ID user) (uw_DingUserID user) (uw_Name user) (uw_Avatar user) (uw_Phone user)
                          (uw_Role user) (RoleName (uw_Role user)) (dt_DeptIDList detail)))) w
        end
    end.
End auth.

(** ** The repositories as attendance knows them *)

Definition user_of_row (r : UserRow) : User :=
  mkUser (uw_ID r) (uw_TenantID r) (uw_DingUserID r) (uw_Name r) (uw_Avatar r) (uw_Phone r).
Definition as_users {W} (m : ST W (list UserRow)) : ST W (list User) := rows <~ m ;; st_ret (List.map user_of_row rows).
Definition user_repository {W} `{DC : DatabaseConventions} `{UD : UserDatabase W} (tenantID : Z) : UserRepository W :=
  mkUserRepo W (fun depts => as_users (user_ListAttendanceCandidates tenantID depts))
    (fun ids => as_users (user_ListByIDs tenantID ids))
    (fun depts ids => as_users (user_ListByScope tenantID depts ids)) user_GetUserDepartmentNames.
