(* ===== verification/UsersSpec.v ===== *)
(** * Roles are granted, departments mirror the tree, a token is its row

    No request but a change of role changes the role of a user, and none makes
    or unmakes a super administrator; the department walk ends and finds every
    department; after a synchronisation the visible departments are those of
    the tree, or those there were when a call for it failed; a login answers
    with what the stored row says. *)
From Stdlib Require Import ZArith Lia Bool String.
From stdpp Require Import base list strings gmap sorting.
From S2P Require Import Prelude GoStrings GoTime Contract Repository Settings Attendance Analytics Slots Clients Users.
#[local] Open Scope Z_scope.
#[local] Open Scope go_scope.

(** A statement is done, with an id that no row has, or fails and changes
    nothing; rows come in any order. *)
Class UserLaws (D : Type) `{UserDatabase D} : Prop := {
  udb_writes : forall f w r w', udb_write f w = (r, w') ->
    (exists id n, 0 < id /\ tb_users (udb_tables w) !! id = None /\ f id (udb_tables w) = Some (udb_tables w', n)
                  /\ r = Ok n)
    \/ (exists e, r = Err e) /\ udb_tables w' = udb_tables w;
  udb_reads : forall w r w', udb_read w = (r, w') ->
    udb_tables w' = udb_tables w /\ forall tb, r = Ok tb -> tb = udb_tables w;
  udb_read_error : forall w e w', udb_read w = (Err e, w') -> errors_Is e ErrRecordNotFound = false;
  udb_scans : forall A (l : list A), udb_scan l ≡ₚ l }.

(** ** What a computation leaves and answers, from given tables *)

Section does.
Context {W : Type} {UD : UserDatabase W}.

Definition does {A} (tb : user_tables) (m : ST W A) (Q : A -> user_tables -> Prop) (E : user_tables -> Prop) : Prop :=
  forall w, udb_tables w = tb -> match m w with (Ok a, w') => Q a (udb_tables w') | (Err _, w') => E (udb_tables w') end.

Lemma does_ret {A} tb (a : A) Q (E : user_tables -> Prop) : Q a tb -> does tb (st_ret a) Q E.
Proof. intros HQ w Hw. cbn. by rewrite Hw. Qed.
Lemma does_fail {A} tb e (Q : A -> user_tables -> Prop) (E : user_tables -> Prop) : E tb -> does tb (st_fail e) Q E.
Proof. intros HE w Hw. cbn. by rewrite Hw. Qed.
Lemma does_guard {A} tb b e (Q : A -> user_tables -> Prop) (E : user_tables -> Prop) (m : ST W A) :
  E tb -> (b = true -> does tb m Q E) -> does tb (st_lift (guard b e) ~;; m) Q E.
Proof. intros HE Hm w Hw. unfold st_bind, st_lift, guard. destruct b; [by apply Hm|by rewrite Hw]. Qed.
Lemma does_bind {A B} tb (m : ST W A) (k : A -> ST W B) Q' Q E :
  does tb m Q' E -> (forall a tb', Q' a tb' -> does tb' (k a) Q E) -> does tb (st_bind m k) Q E.
Proof.
  intros Hm Hk w Hw. unfold st_bind. specialize (Hm w Hw). destruct (m w) as [[a|e] w1]; [|done].
  by apply (Hk a _ Hm w1).
Qed.
(** Only the error's text or kind is changed. *)
Lemma does_error {A} tb (m m' : ST W A) Q (E : user_tables -> Prop) :
  (forall w, match m w, m' w with
             | (Ok a, w1), (Ok a', w2) => a = a' /\ w1 = w2 | (Err _, w1), (Err _, w2) => w1 = w2 | _, _ => False end) ->
  does tb m Q E -> does tb m' Q E.
Proof.
  intros Hs Hm w Hw. specialize (Hm w Hw). specialize (Hs w).
  destruct (m w) as [[a|e] w1], (m' w) as [[a'|e'] w2]; naive_solver.
Qed.
Lemma does_wrap {A} tb fmt (m : ST W A) Q E : does tb m Q E -> does tb (st_wrap fmt m) Q E.
Proof. apply does_error. intros w. unfold st_wrap. by destruct (m w) as [[a|e] w1]. Qed.
Lemma does_user_error {A} tb fmt (m : ST W A) Q E : does tb m Q E -> does tb (user_error fmt m) Q E.
Proof. apply does_error. intros w. unfold user_error. by destruct (m w) as [[a|e] w1]. Qed.
Lemma does_dept_error {A} tb fmt (m : ST W A) Q E : does tb m Q E -> does tb (dept_error fmt m) Q E.
Proof. apply does_error. intros w. unfold dept_error. by destruct (m w) as [[a|e] w1]. Qed.
Lemma does_internal_error {A} tb msg (m : ST W A) Q E : does tb m Q E -> does tb (internal_error msg m) Q E.
Proof. apply does_error. intros w. unfold internal_error. by destruct (m w) as [[a|e] w1]. Qed.
Lemma does_login_failed {A} tb msg (m : ST W A) Q E : does tb m Q E -> does tb (login_failed msg m) Q E.
Proof. apply does_error. intros w. unfold login_failed. by destruct (m w) as [[a|e] w1]. Qed.
Lemma does_weaken {A} tb (m : ST W A) (Q Q' : A -> user_tables -> Prop) (E E' : user_tables -> Prop) :
  does tb m Q E -> (forall a tb', Q a tb' -> Q' a tb') -> (forall tb', E tb' -> E' tb') -> does tb m Q' E'.
Proof. intros Hm HQ HE w Hw. specialize (Hm w Hw). destruct (m w) as [[a|e] w1]; auto. Qed.
(** A computation that does not touch the tables. *)
Lemma does_frame {A} tb (m : ST W A) : (forall w, udb_tables (m w).2 = udb_tables w) ->
  does tb m (fun _ tb' => tb' = tb) (fun tb' => tb' = tb).
Proof. intros Hf w <-. specialize (Hf w). by destruct (m w) as [[a|e] w1]. Qed.
(** The same, with the answer. *)
Lemma does_ask {A} tb (m : ST W A) (E : user_tables -> Prop) : E tb -> (forall w, udb_tables (m w).2 = udb_tables w) ->
  does tb m (fun a tb' => tb' = tb /\ exists w1 w2, m w1 = (Ok a, w2)) E.
Proof.
  intros HE Hf w <-. specialize (Hf w). destruct (m w) as [[a|e] w1] eqn:Em; cbn in Hf; rewrite Hf; [|done].
  split; [done|]. by exists w, w1.
Qed.
Lemma does_then {A B} tb (m : ST W A) (k : A -> ST W B) Q (E : user_tables -> Prop) : E tb ->
  does tb m (fun _ tb' => tb' = tb) (fun tb' => tb' = tb) -> (forall a, does tb (k a) Q E) -> does tb (st_bind m k) Q E.
Proof.
  intros HE Hm Hk. eapply does_bind; [eapply does_weaken; [exact Hm|intros a tb' H; exact H|by intros tb' ->]|].
  intros a tb' ->. apply Hk.
Qed.

Context {UL : UserLaws W}.

Lemma does_write tb f (Q : Z -> user_tables -> Prop) (E : user_tables -> Prop) :
  E tb -> (forall id tb' n, 0 < id -> tb_users tb !! id = None -> f id tb = Some (tb', n) -> Q n tb') ->
  does tb (udb_write f) Q E.
Proof.
  intros HE HQ w <-. destruct (udb_write f w) as [r w1] eqn:Ew.
  apply udb_writes in Ew as [(id & n & Hi & Hn & Hf & ->)|[[e ->] ->]]; [by eapply HQ|done].
Qed.
Lemma does_read tb (E : user_tables -> Prop) : E tb -> does tb udb_read (fun a tb' => a = tb /\ tb' = tb) E.
Proof.
  intros HE w Hw. destruct (udb_read w) as [r w1] eqn:Er. apply udb_reads in Er as [E1 E2]. rewrite Hw in *.
  destruct r as [a|e]; [|by rewrite E1]. split; [by apply E2|done].
Qed.
(** The least row of those that a condition selects. *)
Lemma does_first tb p (E : user_tables -> Prop) : E tb ->
  does tb (first_user p) (fun r tb' => tb' = tb /\ r ∈ user_rows tb /\ p tb r = true) E.
Proof.
  intros HE. unfold first_user, users_by_id, select_users.
  eapply does_bind; [eapply does_bind; [eapply does_bind; [by apply does_read|]|]|].
  - intros a tb' [-> ->]. eapply does_ret. instantiate (1 := fun rows tb' => tb' = tb /\ rows ≡ₚ List.filter (p tb) (user_rows tb)).
    split; [done|apply udb_scans].
  - intros rows tb' [-> Hr]. eapply does_ret.
    instantiate (1 := fun rows tb' => tb' = tb /\ rows ≡ₚ List.filter (p tb) (user_rows tb)). split; [done|].
    by rewrite merge_sort_Permutation.
  - intros [|r rows] tb' [-> Hr]; [by apply does_fail|]. apply does_ret. split; [done|].
    assert (Hin : r ∈ List.filter (p tb) (user_rows tb)) by (rewrite <- Hr; left).
    apply list_elem_of_In, filter_In in Hin as [H1 H2]. by rewrite list_elem_of_In.
Qed.
End does.

(** ** Roles *)

(** Users are where their id says. *)
Definition users_ok (tb : user_tables) : Prop := forall id r, tb_users tb !! id = Some r -> uw_ID r = id.
(** Rows stay with their tenants; none becomes or stops being a super
    administrator, and of no row but a granted one does the role change. *)
Definition roles_kept (granted : Z -> Prop) (tb tb' : user_tables) : Prop :=
  users_ok tb' /\ forall id,
    match tb_users tb !! id with
    | Some r => exists r', tb_users tb' !! id = Some r' /\ uw_TenantID r' = uw_TenantID r
                  /\ (uw_Role r' = 2 <-> uw_Role r = 2) /\ (~ granted id -> uw_Role r' = uw_Role r)
    | None => forall r', tb_users tb' !! id = Some r' -> uw_Role r' <> 2 /\ (~ granted id -> uw_Role r' = 0)
    end.

Lemma roles_kept_refl G tb : users_ok tb -> roles_kept G tb tb.
Proof. intros Hok. split; [done|]. intros id. destruct (tb_users tb !! id) as [r|]; [|done]. by exists r. Qed.
Lemma roles_kept_trans G tb1 tb2 tb3 : roles_kept G tb1 tb2 -> roles_kept G tb2 tb3 -> roles_kept G tb1 tb3.
Proof.
  intros [_ H1] [Hok H2]. split; [done|]. intros id. specialize (H1 id). specialize (H2 id).
  destruct (tb_users tb1 !! id) as [r1|].
  - destruct H1 as (r2 & E2 & T2 & S2 & R2). rewrite E2 in H2. destruct H2 as (r3 & E3 & T3 & S3 & R3).
    exists r3. split; [done|]. split; [congruence|]. split; [by rewrite S3|]. intros Hn. by rewrite R3, R2.
  - destruct (tb_users tb2 !! id) as [r2|]; [|done]. destruct (H1 r2 eq_refl) as [N2 Z2].
    destruct H2 as (r3 & E3 & _ & S3 & R3). rewrite E3. intros r' [= <-]. split; [by rewrite S3|].
    intros Hn. rewrite R3 by done. by apply Z2.
Qed.
Lemma roles_kept_weaken (G G' : Z -> Prop) tb tb' : (forall id, G id -> G' id) -> roles_kept G tb tb' -> roles_kept G' tb tb'.
Proof.
  intros HG [Hok H]. split; [done|]. intros id. specialize (H id). destruct (tb_users tb !! id) as [r|].
  - destruct H as (r' & E & T & S & R). exists r'. repeat split; try done; try apply S. intros Hn. apply R. auto.
  - intros r' E. destruct (H r' E) as [H1 H2]. split; [done|]. intros Hn. apply H2. auto.
Qed.
Lemma roles_kept_same G tb tb' : tb_users tb' = tb_users tb -> users_ok tb -> roles_kept G tb tb'.
Proof.
  intros E Hok. destruct (roles_kept_refl G tb Hok) as [H1 H2]. unfold roles_kept, users_ok. rewrite E. by split.
Qed.

(** One row is written: the same role, or that of a grant. *)
Lemma write_row_kept G tb id r r0 :
  users_ok tb -> tb_users tb !! id = Some r0 -> uw_ID r = id -> uw_TenantID r = uw_TenantID r0 ->
  (uw_Role r = 2 <-> uw_Role r0 = 2) -> (~ G id -> uw_Role r = uw_Role r0) ->
  roles_kept G tb (edit_users (insert id r) tb).
Proof.
  intros Hok E0 Eid Et Es Er. split.
  - intros k x. cbn. destruct (decide (id = k)) as [<-|]; [rewrite lookup_insert_eq|rewrite lookup_insert_ne by done; apply Hok].
    by intros [= <-].
  - intros k. cbn. destruct (decide (id = k)) as [<-|Hne].
    + rewrite E0, lookup_insert_eq. by exists r.
    + rewrite lookup_insert_ne by done. destruct (tb_users tb !! k) as [x|]; [|done]. by exists x.
Qed.
(** A new row of role 0. *)
Lemma new_row_kept G tb id r : users_ok tb -> tb_users tb !! id = None -> uw_ID r = id -> uw_Role r = 0 ->
  roles_kept G tb (edit_users (insert id r) tb).
Proof.
  intros Hok E0 Eid Er. split.
  - intros k x. cbn. destruct (decide (id = k)) as [<-|]; [rewrite lookup_insert_eq|rewrite lookup_insert_ne by done; apply Hok].
    by intros [= <-].
  - intros k. cbn. destruct (decide (id = k)) as [<-|Hne].
    + rewrite E0, lookup_insert_eq. intros r' [= <-]. rewrite Er. split; [lia|done].
    + rewrite lookup_insert_ne by done. destruct (tb_users tb !! k) as [x|]; [|done]. by exists x.
Qed.

(** An UPDATE that writes such a row. *)
Lemma update_where_kept `{DC : DatabaseConventions} G tenant unscoped tb id f tb' n :
  users_ok tb ->
  (forall r0, tb_users tb !! id = Some r0 -> uw_TenantID r0 = tenant ->
     uw_ID (f r0) = id /\ uw_TenantID (f r0) = uw_TenantID r0
     /\ (uw_Role (f r0) = 2 <-> uw_Role r0 = 2) /\ (~ G id -> uw_Role (f r0) = uw_Role r0)) ->
  update_where tenant unscoped id f tb = Some (tb', n) -> roles_kept G tb tb'.
Proof.
  intros Hok Hf. unfold update_where. pose proof (roles_kept_refl G tb Hok) as Hr.
  destruct (tb_users tb !! id) as [r0|] eqn:E0; [|by intros [= <- _]].
  destruct (Z.eqb_spec (uw_TenantID r0) tenant) as [Et|]; cbn [andb]; [|by intros [= <- _]].
    destruct (unscoped || negb (uw_Deleted r0)); [|by intros [= <- _]].
    destruct (ding_taken _ _ _ _); [done|]. intros [= <- _]. destruct (Hf r0 eq_refl Et) as (H1 & H2 & H3 & H4).
    by eapply write_row_kept.
Qed.

Lemma user_rows_lookup tb r : users_ok tb -> r ∈ user_rows tb -> tb_users tb !! uw_ID r = Some r.
Proof.
  intros Hok Hr. apply list_elem_of_fmap in Hr as ([k x] & -> & Hk). cbn. apply elem_of_map_to_list in Hk.
  by rewrite (Hok _ _ Hk).
Qed.

Section requests.
Context `{DC : DatabaseConventions} `{PY : Pinyin} {W : Type} {UD : UserDatabase W} {UL : UserLaws W}.

Definition keeps_roles {A} G tb (m : ST W A) : Prop := does tb m (fun _ => roles_kept G tb) (roles_kept G tb).

Lemma fill_fields u : uw_ID (fillUserPinyin u) = uw_ID u /\ uw_TenantID (fillUserPinyin u) = uw_TenantID u
  /\ uw_Role (fillUserPinyin u) = uw_Role u /\ uw_Name (fillUserPinyin u) = uw_Name u
  /\ uw_DingUserID (fillUserPinyin u) = uw_DingUserID u /\ uw_Avatar (fillUserPinyin u) = uw_Avatar u
  /\ uw_Phone (fillUserPinyin u) = uw_Phone u /\ uw_Deleted (fillUserPinyin u) = uw_Deleted u.
Proof. unfold fillUserPinyin. by destruct (if eqs _ _ then _ else _). Qed.

(** The row that a user's columns are written to. *)
Definition stored (tenant : Z) (u : UserRow) (tb : user_tables) : Prop :=
  tb_users tb !! uw_ID u = Some (user_at tenant (uw_ID u) u).

(** All columns are written over a row of the same role. *)
Lemma does_write_all G tenant unscoped tb u r0 :
  users_ok tb -> tb_users tb !! uw_ID u = Some r0 -> uw_TenantID r0 = tenant ->
  unscoped || negb (uw_Deleted r0) = true -> uw_Role u = uw_Role r0 ->
  does tb (udb_write (fun _ => update_where tenant unscoped (uw_ID u) (fun _ => user_at tenant (uw_ID u) u)))
    (fun _ tb' => stored tenant u tb' /\ roles_kept G tb tb') (roles_kept G tb).
Proof.
  intros Hok E0 Et Hd Er. apply does_write; [by apply roles_kept_refl|]. intros id tb' n _ _ Hu. split.
  - revert Hu. unfold update_where. rewrite E0, Et, Z.eqb_refl, Hd. cbn [andb].
    destruct (ding_taken _ _ _ _); [done|]. intros [= <- _]. apply lookup_insert_eq.
  - eapply update_where_kept; [done| |exact Hu]. cbn. intros r1 E1 _. rewrite E0 in E1. injection E1 as <-. by rewrite Er.
Qed.
Lemma does_user_update G tenant tb u r0 :
  users_ok tb -> tb_users tb !! uw_ID u = Some r0 -> user_visible tenant r0 = true -> uw_Role u = uw_Role r0 ->
  does tb (user_Update tenant u) (fun a tb' => a = fillUserPinyin u /\ stored tenant a tb' /\ roles_kept G tb tb')
    (roles_kept G tb).
Proof.
  intros Hok E0 Hv Er. destruct (fill_fields u) as (F1 & _ & F3 & _). unfold user_visible in Hv. apply andb_true_iff in Hv as [Hv1 Hv2].
  apply Z.eqb_eq in Hv1. unfold user_Update. eapply does_bind; [eapply (does_write_all G _ _ _ (fillUserPinyin u) r0)|].
  1-5: rewrite ?F1, ?F3; try done.
  intros n tb' [H1 H2]. by apply does_ret.
Qed.

Lemma does_sync_links G tenant tb id ds : users_ok tb -> keeps_roles G tb (user_SyncDepartments tenant id ds).
Proof.
  intros Hok. unfold user_SyncDepartments. eapply does_bind.
  - eapply (does_write tb _ (fun _ => roles_kept G tb)); [by apply roles_kept_refl|].
    intros i tb' n _ _. unfold sync_links. case_bool_decide; [|done]. intros [= <- _]. by apply roles_kept_same.
  - intros a tb' H. by apply does_ret.
Qed.

Lemma does_update_one (G : Z -> Prop) tenant tb id f : users_ok tb ->
  (forall r0, tb_users tb !! id = Some r0 -> uw_ID (f r0) = uw_ID r0 /\ uw_TenantID (f r0) = uw_TenantID r0
     /\ (uw_Role (f r0) = 2 <-> uw_Role r0 = 2) /\ (~ G id -> uw_Role (f r0) = uw_Role r0)) ->
  keeps_roles G tb (update_one tenant id f).
Proof.
  intros Hok Hf. unfold update_one. eapply does_bind.
  - eapply (does_write tb _ (fun _ => roles_kept G tb)); [by apply roles_kept_refl|].
    intros i tb' n _ _. apply update_where_kept; [done|]. intros r0 E0 _. destruct (Hf r0 E0) as (H1 & H2 & H3 & H4).
    by rewrite H1, (Hok _ _ E0).
  - intros n tb' H. destruct (n =? 0); [by apply does_fail|by apply does_ret].
Qed.

(** A new user is stored. *)
Lemma does_user_create G tenant tb u : users_ok tb -> uw_Role u = 0 ->
  does tb (user_Create tenant u) (fun r tb' => stored tenant r tb' /\ roles_kept G tb tb') (roles_kept G tb).
Proof.
  intros Hok Er. destruct (fill_fields u) as (_ & _ & F3 & _). unfold user_Create. eapply does_bind.
  - eapply (does_write tb _ (fun id tb' => tb_users tb' !! id = Some (user_at tenant id (with_default_status (fillUserPinyin u)))
              /\ roles_kept G tb tb')); [by apply roles_kept_refl|].
    intros id tb' n _ Hn. unfold insert_user. destruct (ding_taken _ _ _ _); [done|]. intros [= <- <-].
    split; [apply lookup_insert_eq|]. apply new_row_kept; [done..|]. cbn. by rewrite F3.
  - intros id tb' [H1 H2]. by apply does_ret.
Qed.

(** The row that a condition on the tenant's rows selects. *)
Lemma does_first_row tb p (E : user_tables -> Prop) : users_ok tb -> E tb ->
  does tb (first_user p) (fun r tb' => tb' = tb /\ tb_users tb !! uw_ID r = Some r /\ p tb r = true) E.
Proof.
  intros Hok HE. eapply does_weaken; [by apply does_first|cbn|done]. intros r tb' (-> & H1 & H2).
  split; [done|]. split; [by apply user_rows_lookup|done].
Qed.

Lemma does_upsert G tenant tb u : users_ok tb -> uw_Role u = 0 ->
  does tb (user_Upsert tenant u)
    (fun a tb' => stored tenant a tb' /\ uw_DingUserID a = uw_DingUserID u /\ uw_Deleted a = uw_Deleted u
                  /\ uw_Name a = uw_Name u /\ roles_kept G tb tb') (roles_kept G tb).
Proof.
  intros Hok Er w Hw. pose proof (roles_kept_refl G tb Hok) as Hr. unfold user_Upsert.
  pose proof (does_first_row tb (visible_where tenant (fun r => text_eq (uw_DingUserID r) (uw_DingUserID u)))
                (fun tb' => tb' = tb) Hok eq_refl w Hw) as H1.
  unfold user_FindByDingUserID. destruct (first_user _ w) as [[r0|e] w1].
  - destruct H1 as (E1 & E0 & Hv). unfold visible_where in Hv. apply andb_true_iff in Hv as [Hv _].
    pose proof (does_user_update G tenant tb (keep_row u r0) r0 Hok E0 Hv eq_refl w1 E1) as H2.
    destruct (fill_fields (keep_row u r0)) as (_ & _ & _ & F4 & F5 & _ & _ & F8).
    destruct (user_Update tenant _ w1) as [[a|e] w2]; [|done]. destruct H2 as (-> & H2 & H3). by rewrite F4, F5, F8.
  - destruct (errors_Is e "ErrUserNotFound"); cbn [negb]; [|by cbn; rewrite H1].
    pose proof (does_first_row tb (fun _ r => (uw_TenantID r =? tenant) && text_eq (uw_DingUserID r) (uw_DingUserID u))
                (fun tb' => tb' = tb) Hok eq_refl w1 H1) as H2.
    destruct (first_user _ w1) as [[r0|e2] w2].
    + destruct H2 as (E2 & E0 & Hv). apply andb_true_iff in Hv as [Hv _]. apply Z.eqb_eq in Hv.
      pose proof (does_write_all G tenant true tb (keep_row u r0) r0 Hok E0 Hv eq_refl eq_refl w2 E2) as H3.
      unfold st_bind. destruct (udb_write _ w2) as [[n|e3] w3]; [|done]. by destruct H3.
    + destruct (errors_Is e2 "ErrUserNotFound"); cbn [negb]; [|by cbn; rewrite H2].
      pose proof (does_user_create G tenant tb u Hok Er w2 H2) as H3. destruct (fill_fields u) as (_ & _ & _ & F4 & F5 & _ & _ & F8).
      unfold user_Create, st_bind in *. destruct (udb_write _ w2) as [[n|e3] w3]; [|done]. cbv beta iota delta [st_ret] in *.
      destruct H3 as [H3 H4]. split; [exact H3|]. cbn [user_at with_default_status uw_DingUserID uw_Deleted uw_Name]. by rewrite F4, F5, F8.
Qed.

(** *** The services *)

(** What the services are given does not touch the tables: the clients, the
    signing of tokens and the settings. *)
Definition client_frames (c : DirectoryClient W) : Prop :=
  (forall id w, udb_tables (dc_GetUserDetail c id w).2 = udb_tables w)
  /\ (forall code w, udb_tables (dc_GetUserByAuthCode c code w).2 = udb_tables w)
  /\ (forall id w, udb_tables (dc_GetSubDepartments c id w).2 = udb_tables w).
Context {DB : SettingsDatabase W} (managers : Z -> option (ST W (DirectoryClient W))) (auth : AuthService W).
Class UserPorts : Prop := {
  frame_manager : forall t m tb, managers t = Some m -> does tb m (fun c tb' => tb' = tb /\ client_frames c) (fun tb' => tb' = tb);
  frame_corp : forall m corp tb, au_GetByCorpID auth = Some m ->
    does tb (m corp) (fun x tb' => tb' = tb /\ client_frames x.2) (fun tb' => tb' = tb);
  frame_token : forall c w, udb_tables (au_GenerateToken auth c w).2 = udb_tables w;
  frame_editing : forall w, udb_tables (IsRestDayEditingAllowed w).2 = udb_tables w }.
Context {UP : UserPorts}.

Lemma does_directory t tb :
  does tb (directory (managers t)) (fun c tb' => tb' = tb /\ client_frames c) (fun tb' => tb' = tb).
Proof.
  intros w Hw. unfold directory. destruct (managers t) as [m|] eqn:Em; [|done].
  pose proof (frame_manager t m tb Em w Hw) as H. by destruct (m w) as [[c|e] w1].
Qed.

Lemma does_refresh G t tb ding : users_ok tb -> keeps_roles G tb (Refresh t (managers t) ding).
Proof.
  intros Hok. pose proof (roles_kept_refl G tb Hok) as Hr. apply does_guard; [done|]. intros _.
  eapply does_bind; [eapply does_weaken; [apply does_directory|done|by intros tb' ->]|].
  intros c tb' [-> (Hc & _ & _)] w Hw. specialize (Hc (trim_space ding) w).
  destruct (dc_GetUserDetail c (trim_space ding) w) as [[detail|e] w1]; cbn [snd] in Hc;
    [|cbn; by rewrite Hc, Hw].
  rewrite Hw in Hc. refine ((_ : does tb _ (fun _ => roles_kept G tb) (roles_kept G tb)) w1 Hc).
  eapply does_bind; [apply does_user_error, (does_first_row tb _ (roles_kept G tb) Hok Hr)|].
  intros u tb' (-> & E0 & Hv). unfold visible_where in Hv. apply andb_true_iff in Hv as [Hv _].
  eapply does_bind; [apply does_wrap, (does_user_update G t tb (with_detail detail u) u Hok E0 Hv eq_refl)|].
  intros u' tb' (_ & _ & Hk).
  apply (does_bind tb' _ _ (fun _ => roles_kept G tb)).
  - apply does_wrap. eapply does_weaken; [apply (does_sync_links G), Hk|cbn; intros; by eapply roles_kept_trans..].
  - intros [] tb2 H2. by apply does_ret.
Qed.

Lemma refresh_each_keeps G t users failed n w : users_ok (udb_tables w) ->
  roles_kept G (udb_tables w) (udb_tables (refresh_each t (managers t) users failed n w).2).
Proof.
  revert failed n w. induction users as [|u users IH]; intros failed n w Hok; [by apply roles_kept_refl|]. cbn [refresh_each].
  pose proof (does_refresh G t (udb_tables w) (uw_DingUserID u) Hok w eq_refl) as H.
  destruct (Refresh t (managers t) (uw_DingUserID u) w) as [[x|e] w1]; (eapply roles_kept_trans; [exact H|apply IH, H]).
Qed.

Lemma fetch_frame c fuel parent acc w : client_frames c ->
  udb_tables (fetchDeptRecursive (dc_GetSubDepartments c) fuel parent acc w).2 = udb_tables w.
Proof.
  intros (_ & _ & Hc). revert parent acc w. induction fuel as [|fuel IH]; intros parent acc w; [done|].
  cbn [fetchDeptRecursive]. unfold st_bind, st_wrap. specialize (Hc parent w).
  destruct (dc_GetSubDepartments c parent w) as [[ds|e] w1]; cbn in Hc |- *; [|done].
  rewrite <- Hc. clear Hc. revert acc w1. induction ds as [|d ds IHd]; intros acc w1; [done|].
  cbn [fetch_children]. unfold st_bind. pose proof (IH (dg_DeptID d) (acc ++ [d]) w1) as H.
  destruct (fetchDeptRecursive _ fuel _ _ w1) as [[ac|e] w2]; cbn [snd] in H; [|done]. by rewrite IHd.
Qed.

(** Tables whose users and their roles are the same. *)
Lemma does_same_users {A} G tb (m : ST W A) : users_ok tb ->
  does tb m (fun _ tb' => tb_users tb' = tb_users tb) (fun tb' => tb_users tb' = tb_users tb) -> keeps_roles G tb m.
Proof. intros Hok Hm. eapply does_weaken; [exact Hm|cbn; intros; by apply roles_kept_same..]. Qed.

Inductive user_request : Type :=
  | RequestLogin (corpID authCode : string)
  | RequestRefresh (dingUserID : string)
  | RequestBatch (limit offset : Z)
  | RequestStatus (userID status : Z)
  | RequestRole (userID role : Z)
  | RequestDelete (userID : Z)
  | RequestSyncDepartments (fuel : nat)
  | RequestDepartmentStatus (deptID status : Z)
  | RequestDeleteDepartment (deptID : Z)
  | RequestRestDay (userID day : Z)
  | RequestNoRestDay (userID : Z).
(** A request in a tenant, and the state after it. *)
Definition after_user_request (t : Z) (req : user_request) (w : W) : W :=
  match req with
  | RequestLogin corp code => (Login auth corp code w).2
  | RequestRefresh ding => (Refresh t (managers t) ding w).2
  | RequestBatch limit offset => (BatchRefresh t (managers t) limit offset w).2
  | RequestStatus id status => (UpdateUserStatus t id status w).2
  | RequestRole id role => (UpdateUserRole t id role w).2
  | RequestDelete id => (DeleteUser t id w).2
  | RequestSyncDepartments fuel => (SyncDepartments t (managers t) fuel w).2
  | RequestDepartmentStatus id status => (UpdateDepartmentStatus t id status w).2
  | RequestDeleteDepartment id => (DeleteDepartment t id w).2
  | RequestRestDay id day => (SetRestDay t id day w).2
  | RequestNoRestDay id => (RemoveRestDay t id w).2
  end.
Definition grants (req : user_request) (id : Z) : Prop := match req with RequestRole u _ => u = id | _ => False end.

Lemma does_after {A} G (m : ST W A) w : keeps_roles G (udb_tables w) m -> roles_kept G (udb_tables w) (udb_tables (m w).2).
Proof. intros H. specialize (H w eq_refl). by destruct (m w) as [[a|e] w1]. Qed.

(** A write that leaves the users. *)
Lemma write_same_users G tb f : users_ok tb -> (forall id tb' n, f id tb = Some (tb', n) -> tb_users tb' = tb_users tb) ->
  keeps_roles G tb (udb_write f).
Proof. intros Hok Hf. apply does_same_users; [done|]. apply does_write; [done|]. intros id tb' n _ _. apply Hf. Qed.
Lemma keeps_then_ret {A B} G tb (m : ST W A) (k : A -> ST W B) : keeps_roles G tb m ->
  (forall a tb' , roles_kept G tb tb' -> does tb' (k a) (fun _ => roles_kept G tb) (roles_kept G tb)) -> keeps_roles G tb (st_bind m k).
Proof. intros Hm Hk. by eapply does_bind. Qed.
Lemma does_select_depts t tb p : does tb (select_depts t p) (fun _ tb' => tb' = tb) (fun tb' => tb' = tb).
Proof.
  unfold select_depts. eapply does_bind; [by apply does_read|]. intros a tb' [-> ->]. by apply does_ret.
Qed.
Lemma update_dept_users t id f tb tb' n : update_dept t id f tb = Some (tb', n) -> tb_users tb' = tb_users tb.
Proof. unfold update_dept. destruct (_ !! _) as [d|]; [destruct (dept_visible t d)|]; by intros [= <- _]. Qed.
Lemma does_editing tb : does tb checkRestDayEditingAllowed (fun _ tb' => tb' = tb) (fun tb' => tb' = tb).
Proof.
  intros w Hw. unfold checkRestDayEditingAllowed. pose proof (frame_editing w) as H.
  destruct (IsRestDayEditingAllowed w) as [[[|] [e|]] w1]; cbn in *; congruence.
Qed.

(** The row of which a login answer speaks: of the tenant of the corporation and
    the person whom its client names for the code. *)
Definition answers_row (corp code : string) (tb : user_tables) (resp : LoginResponse) : Prop :=
  exists get tenant c dingUserID detail row,
    au_GetByCorpID auth = Some get /\ (exists w1 w2, get corp w1 = (Ok (tenant, c), w2))
    /\ (exists w1 w2, dc_GetUserByAuthCode c code w1 = (Ok dingUserID, w2))
    /\ (exists w1 w2, dc_GetUserDetail c dingUserID w1 = (Ok detail, w2))
    /\ tb_users tb !! uw_ID row = Some row /\ user_visible (tn_ID tenant) row = true
    /\ uw_DingUserID row = dt_UserID detail /\ uw_Name row = dt_Name detail
    /\ (exists w1 w2, au_GenerateToken auth (claims_of tenant row) w1 = (Ok (lo_Token resp), w2))
    /\ lu_ID (lo_User resp) = uw_ID row /\ lu_DingUserID (lo_User resp) = uw_DingUserID row
    /\ lu_Role (lo_User resp) = uw_Role row.
Definition login_done (corp code : string) (tb : user_tables) (resp : LoginResponse) (tb' : user_tables) : Prop :=
  roles_kept (fun _ => False) tb tb' /\ answers_row corp code tb' resp.

Lemma does_login corp code tb : users_ok tb ->
  does tb (Login auth corp code) (login_done corp code tb) (roles_kept (fun _ => False) tb).
Proof.
  intros Hok w Hw. pose proof (roles_kept_refl (fun _ => False) tb Hok) as Hr. unfold Login.
  destruct (eqs code ""); [by rewrite Hw|]. destruct (au_GetByCorpID auth) as [get|] eqn:Eg; [|by rewrite Hw].
  pose proof (frame_corp get corp tb Eg w Hw) as H1. destruct (get corp w) as [[[tenant c]|e] w1] eqn:Ec; [|by rewrite H1].
  destruct H1 as [H1 (Hd & Ha & _)]. cbn [snd] in Hd, Ha.
  refine ((_ : does tb _ (login_done corp code tb) (roles_kept (fun _ => False) tb)) w1 H1).
  eapply does_bind; [by apply does_login_failed, (does_ask _ _ _ Hr), Ha|]. intros id tb' [-> Hid].
  eapply does_bind; [by apply does_login_failed, (does_ask _ _ _ Hr), Hd|]. intros detail tb' [-> Hdet].
  eapply does_bind; [apply does_login_failed, (does_upsert (fun _ => False)); done|].
  intros u tb1 (Hs & Hdu & Hdel & Hn & Hk). set (row := user_at (tn_ID tenant) (uw_ID u) u) in *.
  assert (Ht : forall tb2, tb_users tb2 = tb_users tb1 -> roles_kept (fun _ => False) tb tb2).
  { intros tb2 E. eapply roles_kept_trans; [exact Hk|]. apply roles_kept_same; [done|apply Hk]. }
  eapply (does_bind tb1 _ _ (fun _ tb2 => tb_users tb2 = tb_users tb1)).
  { apply does_login_failed. eapply does_bind; [eapply (does_write tb1 _ (fun _ tb2 => tb_users tb2 = tb_users tb1))|].
    - by apply Ht.
    - intros i tb2 n _ _. unfold sync_links. case_bool_decide; [|done]. by intros [= <- _].
    - intros n tb2 E. by apply does_ret. }
  intros [] tb2 E2. eapply does_bind; [by apply does_login_failed, (does_ask _ _ _ (Ht _ E2)), frame_token|].
  intros tok tb3 [-> Htok]. apply does_ret. split; [by apply Ht|].
  exists get, tenant, c, id, detail, row. repeat split; try done; cbn [lu_Role lu_ID lo_User].
  - by exists w, w1.
  - unfold stored in Hs. by rewrite E2.
  - unfold user_visible. cbn. by rewrite Z.eqb_refl, Hdel.
Qed.

Lemma role_change_keeps t tb id role : users_ok tb -> keeps_roles (fun k => id = k) tb (UpdateUserRole t id role).
Proof.
  intros Hok. pose proof (roles_kept_refl (fun k => id = k) tb Hok) as Hr. apply does_guard; [done|]. intros _.
  apply does_guard; [done|]. intros Hrole.
  eapply does_bind; [apply does_user_error, (does_first_row tb _ (roles_kept (fun k => id = k) tb) Hok Hr)|].
  intros u tb' (-> & E0 & Hv). apply andb_true_iff in Hv as [_ Hv]. apply Z.eqb_eq in Hv. rewrite Hv in E0.
  apply does_guard; [done|]. intros Hnot. apply does_user_error, does_update_one; [done|]. intros r0 E1.
  rewrite E0 in E1. injection E1 as <-. apply negb_true_iff, Z.eqb_neq in Hnot. repeat split; try done; cbn.
  - intros ->. apply orb_true_iff in Hrole as [H|H]; apply Z.eqb_eq in H; lia.
Qed.

Lemma sync_departments_keep G t tb fuel : users_ok tb -> keeps_roles G tb (SyncDepartments t (managers t) fuel).
Proof.
  intros Hok. pose proof (roles_kept_refl G tb Hok) as Hr. unfold SyncDepartments.
  eapply does_bind; [eapply does_weaken; [apply does_directory|intros c tb' H; exact H|by intros tb' ->]|].
  intros c tb' [-> Hc]. apply does_then; [done|by apply does_wrap, does_frame; intros; apply fetch_frame|].
  intros [|d all]; [by apply does_ret|]. apply does_wrap. unfold dept_SyncAll. apply keeps_then_ret.
  - apply write_same_users; [done|]. by intros id tb' n [= <- _].
  - intros a tb' H. by apply does_ret.
Qed.

Lemma department_status_keeps G t tb id status : users_ok tb -> keeps_roles G tb (UpdateDepartmentStatus t id status).
Proof.
  intros Hok. pose proof (roles_kept_refl G tb Hok) as Hr. do 2 (apply does_guard; [done|]; intros _).
  apply does_dept_error. apply does_then; [done|apply does_select_depts|]. intros rows.
  destruct (len rows =? 0); [by apply does_fail|]. apply keeps_then_ret.
  - apply write_same_users; [done|]. intros i tb' n. apply update_dept_users.
  - intros a tb' H. by apply does_ret.
Qed.
Lemma department_delete_keeps G t tb id : users_ok tb -> keeps_roles G tb (DeleteDepartment t id).
Proof.
  intros Hok. pose proof (roles_kept_refl G tb Hok) as Hr. apply does_guard; [done|]. intros _.
  apply does_dept_error, keeps_then_ret.
  - apply write_same_users; [done|]. intros i tb' n. apply update_dept_users.
  - intros n tb' H. destruct (n =? 0); [by apply does_fail|by apply does_ret].
Qed.

Lemma rest_day_keeps G t tb id day : users_ok tb -> keeps_roles G tb (SetRestDay t id day).
Proof.
  intros Hok. pose proof (roles_kept_refl G tb Hok) as Hr. do 2 (apply does_guard; [done|]; intros _).
  apply does_then; [done|apply does_editing|]. intros _. apply does_internal_error, keeps_then_ret.
  - apply write_same_users; [done|]. by intros i tb' n [= <- _].
  - intros a tb' H. by apply does_ret.
Qed.
Lemma no_rest_day_keeps G t tb id : users_ok tb -> keeps_roles G tb (RemoveRestDay t id).
Proof.
  intros Hok. pose proof (roles_kept_refl G tb Hok) as Hr. apply does_guard; [done|]. intros _.
  apply does_then; [done|apply does_editing|]. intros _. apply does_internal_error, keeps_then_ret.
  - apply write_same_users; [done|]. by intros i tb' n [= <- _].
  - intros a tb' H. by apply does_ret.
Qed.

Lemma batch_keeps G t tb limit offset : users_ok tb -> keeps_roles G tb (BatchRefresh t (managers t) limit offset).
Proof.
  intros Hok. pose proof (roles_kept_refl G tb Hok) as Hr. unfold BatchRefresh. cbv zeta.
  apply does_then; [done| |].
  - apply does_wrap. unfold user_List, users_by_id, select_users. cbv zeta.
    eapply does_bind; [eapply does_bind; [eapply does_bind; [by apply does_read|]|]|].
    + intros a tb' [-> ->]. eapply does_ret. instantiate (1 := fun _ tb' => tb' = tb). done.
    + intros a tb' ->. eapply does_ret. instantiate (1 := fun _ tb' => tb' = tb). done.
    + intros a tb' ->. by apply does_ret.
  - intros users w Hw. pose proof (refresh_each_keeps G t users [] 0 w) as H. rewrite Hw in H. specialize (H Hok).
    by destruct (refresh_each _ _ _ _ _ w) as [[failed n] w1].
Qed.

Lemma one_request t req w : users_ok (udb_tables w) ->
  roles_kept (grants req) (udb_tables w) (udb_tables (after_user_request t req w)).
Proof.
  intros Hok. destruct req; cbn [after_user_request grants]; apply does_after || idtac.
  all: try (by apply does_refresh || by apply batch_keeps || by apply role_change_keeps
            || by apply sync_departments_keep || by apply department_status_keeps || by apply department_delete_keeps
            || by apply rest_day_keeps || by apply no_rest_day_keeps).
  - eapply does_weaken; [by apply does_login|by intros r tb' [H _]|done].
  - do 2 (apply does_guard; [by apply roles_kept_refl|]; intros _). by apply does_user_error, does_update_one.
  - apply does_guard; [by apply roles_kept_refl|]. intros _. by apply does_user_error, does_update_one.
Qed.

(** C28: Whatever requests the users of whatever tenants make, one after the
    other, no user is lost or moved to another tenant; nobody becomes or stops
    being a super administrator; and the role of a user whom no role change
    names is what it was, 0 for a user who was not there before. *)
Theorem roles_are_granted (reqs : list (Z * user_request)) w :
  users_ok (udb_tables w) ->
  let w' := fold_left (fun w r => after_user_request r.1 r.2 w) reqs w in
  users_ok (udb_tables w') /\ forall id,
    let granted := exists t role, (t, RequestRole id role) ∈ reqs in
    match tb_users (udb_tables w) !! id with
    | Some row => exists row', tb_users (udb_tables w') !! id = Some row' /\ uw_TenantID row' = uw_TenantID row
                    /\ (uw_Role row' = 2 <-> uw_Role row = 2) /\ (~ granted -> uw_Role row' = uw_Role row)
    | None => forall row', tb_users (udb_tables w') !! id = Some row' -> uw_Role row' <> 2 /\ (~ granted -> uw_Role row' = 0)
    end.
Proof.
  intros Hok w'. change (roles_kept (fun id => exists t role, (t, RequestRole id role) ∈ reqs) (udb_tables w) (udb_tables w')).
  revert w Hok w'. induction reqs as [|[t req] reqs IH]; intros w Hok w'; [by apply roles_kept_refl|].
  pose proof (one_request t req w Hok) as H1. pose proof (IH _ (proj1 H1)) as H2.
  eapply roles_kept_trans; [eapply roles_kept_weaken; [|exact H1]|eapply roles_kept_weaken; [|exact H2]]; cbn.
  - intros id Hg. destruct req; try done. cbn in Hg. subst. exists t, role. left.
  - intros id (t' & role & Hin). exists t', role. by right.
Qed.

(** C29: A successful login answers with the stored user: the token was signed
    for the claims of a row of the corporation's tenant that is not deleted, the
    row of the person whom DingTalk names for the code; the answer's id and role
    are the row's. *)
Theorem login_answers_the_row corp code w resp w' :
  users_ok (udb_tables w) -> Login auth corp code w = (Ok resp, w') -> answers_row corp code (udb_tables w') resp.
Proof. intros Hok E. pose proof (does_login corp code _ Hok w eq_refl) as H. rewrite E in H. apply H. Qed.
End requests.

(** ** The department tree *)

Section tree.
Context (children : Z -> list DingDepartment).

(** Department by department, each before all below it, to a depth. *)
Fixpoint all_below (n : nat) (p : Z) : list DingDepartment :=
  match n with
  | O => []
  | S n => List.flat_map (fun d => d :: all_below n (dg_DeptID d)) (children p)
  end.
(** Every way down ends in fewer than so many steps. *)
Fixpoint shallow (n : nat) (p : Z) : bool :=
  match n with O => false | S n => forallb (fun d => shallow n (dg_DeptID d)) (children p) end.
Inductive below : Z -> DingDepartment -> Prop :=
  | below_child p d : d ∈ children p -> below p d
  | below_lower p d e : d ∈ children p -> below (dg_DeptID d) e -> below p e.

Lemma all_below_below n p d : shallow n p = true -> d ∈ all_below n p <-> below p d.
Proof.
  revert p. induction n as [|n IH]; intros p Hn; [done|]. cbn in Hn |- *. rewrite forallb_forall in Hn.
  rewrite list_elem_of_In, in_flat_map. split.
  - intros (x & Hx & [<-|Hd]); [by apply below_child, list_elem_of_In|].
    apply (below_lower _ x); [by apply list_elem_of_In|]. apply IH; [by apply Hn|by apply list_elem_of_In].
  - intros Hb. inversion Hb as [p' d' Hd|p' x d' Hx Hd]; subst.
    + exists d. split; [by apply list_elem_of_In|by left].
    + exists x. apply list_elem_of_In in Hx. split; [done|]. right. apply list_elem_of_In, IH; [by apply Hn|done].
Qed.

Context {W : Type} (Get : Z -> ST W (list DingDepartment)) (I : W -> Prop)
  (Get_children : forall p w, I w -> exists w', Get p w = (Ok (children p), w') /\ I w').

Lemma fetched_below fuel n p acc w : shallow n p = true -> (n <= fuel)%nat -> I w ->
  exists w', fetchDeptRecursive Get fuel p acc w = (Ok (acc ++ all_below n p), w') /\ I w'.
Proof.
  revert n p acc w. induction fuel as [|fuel IH]; intros [|n] p acc w Hn Hf Hw; [done|lia|done|].
  cbn in Hn. cbn [fetchDeptRecursive all_below]. destruct (Get_children p w Hw) as (w1 & E1 & H1).
  unfold st_bind at 1, st_wrap. rewrite E1. cbn [wrap_err]. clear E1. revert Hn acc w1 H1.
  induction (children p) as [|d ds IHd]; intros Hn acc w1 H1; [by exists w1; rewrite app_nil_r|].
  cbn in Hn. apply andb_true_iff in Hn as [Hn1 Hn2]. cbn [fetch_children flat_map]. unfold st_bind at 1.
  destruct (IH n (dg_DeptID d) (acc ++ [d]) w1 Hn1 ltac:(lia) H1) as (w2 & -> & H2).
  destruct (IHd Hn2 ((acc ++ [d]) ++ all_below n (dg_DeptID d)) w2 H2) as (w3 & -> & H3).
  exists w3. split; [|done]. by rewrite <- !app_assoc.
Qed.

(** C31: The walk of the departments ends and misses none: when every way down
    from the root ends within [n] steps and DingTalk answers, fuel [n] and any
    more gives the same list, each department before those below it, and on it
    are exactly the departments below the root. *)
Theorem all_departments_fetched n fuel w :
  shallow n 1 = true -> (n <= fuel)%nat -> I w ->
  (FetchAllDepartments Get fuel w).1 = Ok (all_below n 1) /\ forall d, d ∈ all_below n 1 <-> below 1 d.
Proof.
  intros Hn Hf Hw. split; [|intros d; by apply all_below_below]. unfold FetchAllDepartments.
  by destruct (fetched_below fuel n 1 [] w Hn Hf Hw) as (w' & -> & _).
Qed.
End tree.

(** A directory whose calls may fail: the walk fails with one of them, or its
    list is complete. *)
Section walk.
Context (children : Z -> list DingDepartment) {W : Type} (Get : Z -> ST W (list DingDepartment)) (I : W -> Prop)
  (Get_answers : forall p w r w', I w -> Get p w = (r, w') -> I w' /\ forall l, r = Ok l -> l = children p).

Definition call_failed : Prop := exists p w e w', Get p w = (Err e, w').

Lemma walk_complete fuel n p acc w : shallow children n p = true -> (n <= fuel)%nat -> I w ->
  let '(r, w') := fetchDeptRecursive Get fuel p acc w in
  I w' /\ match r with Ok l => l = acc ++ all_below children n p | Err _ => call_failed end.
Proof.
  revert n p acc w. induction fuel as [|fuel IH]; intros [|n] p acc w Hn Hf Hw; [done|lia|done|].
  cbn in Hn. cbn [fetchDeptRecursive all_below]. unfold st_bind at 1, st_wrap.
  destruct (Get p w) as [[depts|e] w1] eqn:E; destruct (Get_answers _ _ _ _ Hw E) as [H1 Hl]; cbn [wrap_err];
    [|by split; [|exists p, w, e, w1]].
  rewrite (Hl _ eq_refl). clear E Hl. revert Hn acc w1 H1.
  induction (children p) as [|d ds IHd]; intros Hn acc w1 H1; [by split; [|rewrite app_nil_r]|].
  cbn in Hn. apply andb_true_iff in Hn as [Hn1 Hn2]. cbn [fetch_children flat_map]. unfold st_bind at 1.
  pose proof (IH n (dg_DeptID d) (acc ++ [d]) w1 Hn1 ltac:(lia) H1) as H2.
  destruct (fetchDeptRecursive Get fuel (dg_DeptID d) (acc ++ [d]) w1) as [[l|e] w2]; destruct H2 as [H2 Hr]; [|done].
  subst l. pose proof (IHd Hn2 ((acc ++ [d]) ++ all_below children n (dg_DeptID d)) w2 H2) as H3.
  destruct (fetch_children _ ds _ w2) as [r w3]. destruct H3 as [H3 Hr]. split; [done|]. destruct r; [|done].
  rewrite Hr. by rewrite <- !app_assoc.
Qed.
End walk.

(** ** A synchronisation of departments *)

Definition depts_ok (tb : user_tables) : Prop :=
  forall k d, tb_depts tb !! k = Some d -> k = (dw_TenantID d, dw_DeptID d).

Definition upserted (t : Z) (d : DepartmentRow) (old : option DepartmentRow) : DepartmentRow :=
  mkDepartmentRow t (dw_DeptID d) (dw_Name d) (dw_ParentID d) (dw_IsLeaf d)
    (match old with Some o => dw_Status o | None => if dw_Status d =? 0 then 1 else dw_Status d end) (dw_Deleted d).

Lemma upserts_other t ds tb k : (forall d, d ∈ ds -> (t, dw_DeptID d) <> k) ->
  fold_left (fun tb d => upsert_dept t d tb) ds tb !! k = tb !! k.
Proof.
  revert tb. induction ds as [|d ds IH]; intros tb Hk; [done|]. cbn. rewrite IH by (intros; apply Hk; by right).
  apply lookup_insert_ne, Hk. left.
Qed.
Lemma upserts_at t ds tb d : NoDup (List.map dw_DeptID ds) -> d ∈ ds ->
  fold_left (fun tb d => upsert_dept t d tb) ds tb !! (t, dw_DeptID d) = Some (upserted t d (tb !! (t, dw_DeptID d))).
Proof.
  revert tb. induction ds as [|x ds IH]; intros tb Hd Hin; [by apply elem_of_nil in Hin|]. cbn in Hd |- *.
  apply NoDup_cons in Hd as [Hx Hd]. apply elem_of_cons in Hin as [->|Hin].
  - rewrite upserts_other; [apply lookup_insert_eq|]. intros y Hy [= E]. apply Hx. rewrite <- E.
    apply list_elem_of_In, in_map_iff. exists y. split; [done|by apply list_elem_of_In].
  - rewrite IH by done. f_equal. f_equal. apply lookup_insert_ne. intros [= E]. apply Hx. rewrite E.
    apply list_elem_of_In, in_map_iff. exists d. split; [done|by apply list_elem_of_In].
Qed.

(** The row of a department of the tree. *)
Definition synced_row (children : Z -> list DingDepartment) (t : Z) (old : option DepartmentRow) (d : DingDepartment)
  : DepartmentRow :=
  mkDepartmentRow t (dg_DeptID d) (dg_Name d) (dg_ParentID d) (bool_decide (children (dg_DeptID d) = []))
    (match old with Some o => dw_Status o | None => 1 end) false.
Definition marked_deleted (d : DepartmentRow) : DepartmentRow :=
  mkDepartmentRow (dw_TenantID d) (dw_DeptID d) (dw_Name d) (dw_ParentID d) (dw_IsLeaf d) (dw_Status d) true.

(** The table after a list of distinct departments. *)
Lemma sync_depts_at t tb ds ids k : (forall k d, tb !! k = Some d -> k = (dw_TenantID d, dw_DeptID d)) ->
  ids = List.map dw_DeptID ds -> NoDup ids -> ids <> [] ->
  (forall d, d ∈ ds -> k = (t, dw_DeptID d) -> sync_depts t ds ids tb !! k = Some (upserted t d (tb !! k)))
  /\ ((forall d, d ∈ ds -> k <> (t, dw_DeptID d)) ->
      sync_depts t ds ids tb !! k = (fun d => if dw_TenantID d =? t then marked_deleted d else d) <$> tb !! k).
Proof.
  intros Hok -> Hd Hne. unfold sync_depts. rewrite bool_decide_false by done. split.
  - intros d Hin ->. rewrite upserts_at by done. f_equal. unfold upserted, remove_other_depts. rewrite lookup_fmap.
    destruct (tb !! (t, dw_DeptID d)) as [o|] eqn:E; [|done]. cbn. by destruct (_ && _).
  - intros Hk. rewrite upserts_other by (intros d Hin E; by apply (Hk d)). unfold remove_other_depts. rewrite lookup_fmap.
    destruct (tb !! k) as [o|] eqn:E; [|done]. cbn. f_equal. pose proof (Hok _ _ E) as ->. unfold dept_visible.
    destruct (Z.eqb_spec (dw_TenantID o) t) as [<-|]; [|done]. cbn. rewrite bool_decide_false; cbn.
    + rewrite andb_true_r. destruct (dw_Deleted o) eqn:Ed; [|done]. cbn. unfold marked_deleted. rewrite <- Ed. by destruct o.
    + intros Hin. apply list_elem_of_In, in_map_iff in Hin as (d & E' & Hd'). apply (Hk d); [by apply list_elem_of_In|by rewrite E'].
Qed.

Section sync.
Context `{DC : DatabaseConventions} {W : Type} {UD : UserDatabase W} {UL : UserLaws W}
  (t : Z) (client_of : ST W (DirectoryClient W)) (children : Z -> list DingDepartment).

(** A call of DingTalk fails or answers the departments of a tree, each with its
    parent and an id of its own, and no call touches the tables. *)
Class DepartmentTree : Prop := {
  tree_client : forall w r w', client_of w = (r, w') -> udb_tables w' = udb_tables w
    /\ forall c, r = Ok c -> forall p w1 r1 w2, dc_GetSubDepartments c p w1 = (r1, w2) ->
         udb_tables w2 = udb_tables w1 /\ forall l, r1 = Ok l -> l = children p;
  tree_parent : forall p d, d ∈ children p -> dg_ParentID d = p /\ 0 < dg_DeptID d;
  tree_distinct : forall n, NoDup (List.map dg_DeptID (all_below children n 1)) }.
Context {DT : DepartmentTree}.

Lemma below_positive p d : below children p d -> 0 < dg_DeptID d.
Proof. induction 1 as [p d Hd|p x d Hx Hb IH]; [by apply (tree_parent p)|done]. Qed.
(** A parent of one below is above it, on the list or at the top. *)
Lemma below_parent p d : below children p d -> d ∈ children (dg_ParentID d).
Proof. induction 1 as [p d Hd|p x d Hx Hb IH]; [|done]. by destruct (tree_parent p d Hd) as [-> _]. Qed.
Lemma below_extend p x d : below children p x -> d ∈ children (dg_DeptID x) -> below children p d.
Proof.
  induction 1 as [p x Hx|p y x Hy Hb IH]; intros Hd; [by eapply below_lower, below_child|]. eapply below_lower; [exact Hy|auto].
Qed.

(** A department has children exactly if one of the fetched names it as parent. *)
Lemma leaf_exact n d : shallow children n 1 = true -> below children 1 d ->
  negb (has_children (all_below children n 1) (dg_DeptID d)) = bool_decide (children (dg_DeptID d) = []).
Proof.
  intros Hn Hb. unfold has_children. destruct (children (dg_DeptID d)) as [|x xs] eqn:E.
  - rewrite bool_decide_true by done. apply negb_true_iff, not_true_iff_false. intros Hex.
    apply existsb_exists in Hex as (y & Hy & Hp). apply andb_true_iff in Hp as [_ Hp]. apply Z.eqb_eq in Hp.
    apply list_elem_of_In, all_below_below, below_parent in Hy; [|done]. rewrite Hp, E in Hy. by apply elem_of_nil in Hy.
  - rewrite bool_decide_false by done. apply negb_false_iff, existsb_exists. exists x.
    assert (Hx : x ∈ children (dg_DeptID d)) by (rewrite E; left). destruct (tree_parent _ _ Hx) as [Hp _]. split.
    + apply list_elem_of_In, all_below_below; [done|]. by eapply below_extend.
    + rewrite Hp, Z.eqb_refl, andb_true_r. apply Z.ltb_lt. by eapply below_positive.
Qed.

(** The rows that are written for the fetched departments. *)
Lemma synced_table n tb d : (forall k d, tb !! k = Some d -> k = (dw_TenantID d, dw_DeptID d)) -> shallow children n 1 = true ->
  all_below children n 1 <> [] ->
  let all := all_below children n 1 in
  let after := sync_depts t (List.map (dept_model all) all) (List.map dg_DeptID all) tb in
  (below children 1 d -> after !! (t, dg_DeptID d) = Some (synced_row children t (tb !! (t, dg_DeptID d)) d))
  /\ forall k, (forall d, below children 1 d -> k <> (t, dg_DeptID d)) ->
       after !! k = (fun d => if dw_TenantID d =? t then marked_deleted d else d) <$> tb !! k.
Proof.
  intros Hok Hn Hne all after. set (ds := List.map (dept_model all) all) in *.
  assert (Hids : List.map dg_DeptID all = List.map dw_DeptID ds) by (unfold ds; by rewrite map_map).
  assert (Hnil : List.map dg_DeptID all <> []) by (intros H; by apply map_eq_nil in H).
  assert (Hin : forall e, e ∈ ds <-> exists d, e = dept_model all d /\ below children 1 d).
  { intros e. unfold ds. rewrite list_elem_of_In, in_map_iff. split.
    - intros (d' & <- & Hd'). exists d'. split; [done|]. by apply (all_below_below children n 1 _ Hn), list_elem_of_In.
    - intros (d' & -> & Hd'). exists d'. split; [done|]. by apply list_elem_of_In, (all_below_below children n 1 _ Hn). }
  pose proof (tree_distinct n) as Hd. split.
  - intros Hb. destruct (sync_depts_at t tb ds _ (t, dg_DeptID d) Hok Hids Hd Hnil) as [H _].
    unfold after. rewrite (H (dept_model all d)); [|apply Hin; by exists d|done]. unfold upserted, synced_row. cbn.
    by rewrite (leaf_exact n).
  - intros k Hk. destruct (sync_depts_at t tb ds _ k Hok Hids Hd Hnil) as [_ H]. apply H.
    intros e (d' & -> & Hb)%Hin. by apply Hk.
Qed.

(** The three ways a synchronisation may fail: there is no client, a call of
    DingTalk failed, wherever in the tree, or the database refused the write. *)
Definition sync_failed : Prop :=
  (exists w e w', client_of w = (Err e, w'))
  \/ (exists c w w', client_of w = (Ok c, w') /\ call_failed (dc_GetSubDepartments c))
  \/ exists f w e w', udb_write f w = (Err e, w').

(** C30: A synchronisation makes the tenant's departments those of DingTalk's
    tree, when the root has any, or it fails and changes none.  Any call of
    DingTalk may fail, for any department, and the write may be refused: then the
    synchronisation answers an error, for one of these reasons only, and the
    departments are as they were, never those of a part of the tree.  When it
    succeeds each department below the root has its name and parent, is a leaf
    exactly if nothing is below it, is enabled if it is new and as it was if it is
    not; every other department of the tenant is marked deleted and otherwise as
    it was; other tenants' departments stay. *)
Theorem synced_departments_are_the_tree n fuel w :
  depts_ok (udb_tables w) -> shallow children n 1 = true -> (n <= fuel)%nat -> children 1 <> [] ->
  let '(r, w') := SyncDepartments t (Some client_of) fuel w in
  let before := tb_depts (udb_tables w) in
  let after := tb_depts (udb_tables w') in
  match r with
  | Err _ => after = before /\ sync_failed
  | Ok _ =>
      (forall d, below children 1 d -> after !! (t, dg_DeptID d) = Some (synced_row children t (before !! (t, dg_DeptID d)) d))
      /\ (forall id, (forall d, below children 1 d -> dg_DeptID d <> id) -> after !! (t, id) = marked_deleted <$> before !! (t, id))
      /\ (forall k, k.1 <> t -> after !! k = before !! k)
  end.
Proof.
  intros Hok Hn Hf Hne. unfold SyncDepartments, directory, st_bind at 1.
  destruct (client_of w) as [[c|e] w1] eqn:Ec; destruct (tree_client _ _ _ Ec) as [E1 Hget]; cbn [fst snd];
    [|split; [by rewrite E1|left; by exists w, e, w1]].
  specialize (Hget c eq_refl). unfold st_bind, st_wrap.
  pose proof (walk_complete children (dc_GetSubDepartments c) (fun w' => udb_tables w' = udb_tables w)
    ltac:(intros p w2 r2 w3 E2 E3; destruct (Hget _ _ _ _ E3) as [E4 Hl]; split; [congruence|exact Hl])
    fuel n 1 [] w1 Hn Hf E1) as Hwalk.
  unfold FetchAllDepartments. destruct (fetchDeptRecursive _ fuel 1 [] w1) as [[all|e] w2]; destruct Hwalk as [H2 Hr]; cbn [wrap_err];
    [|split; [by rewrite H2|right; left; by exists c, w, w1]].
  cbn [app] in Hr. subst all.
  assert (Hall : all_below children n 1 <> []) by (destruct n as [|n]; [done|]; cbn; by destruct (children 1)).
  assert (Hs := fun d => synced_table n (tb_depts (udb_tables w)) d Hok Hn Hall). cbn in Hs.
  set (all := all_below children n 1) in *. unfold dept_SyncAll, st_bind.
  assert (Hm : forall A (x y : A), match all with [] => x | _ => y end = y) by (by destruct all). rewrite Hm.
  destruct (udb_write _ w2) as [r w3] eqn:Ew. pose proof Ew as Ew'.
  apply udb_writes in Ew as [(id & k & _ & _ & [= Et _] & ->)|[[e ->] Et]]; cbn;
    [|split; [by rewrite Et, H2|right; right; by do 4 eexists]].
  rewrite <- Et, H2. cbn. split; [intros d; apply Hs|]. split.
  - intros id0 Hid. rewrite (proj2 (Hs (mkDingDepartment 0 "" 0))) by (intros d Hb [= E]; by apply (Hid d)).
    destruct (tb_depts (udb_tables w) !! (t, id0)) as [o|] eqn:E; [|done]. pose proof (Hok _ _ E) as [= -> _].
    cbn. by rewrite Z.eqb_refl.
  - intros [t0 id0] Hk. cbn in Hk. rewrite (proj2 (Hs (mkDingDepartment 0 "" 0))) by (intros d _ [= E _]; done).
    destruct (tb_depts (udb_tables w) !! (t0, id0)) as [o|] eqn:E; [|done]. pose proof (Hok _ _ E) as [= -> _].
    cbn. by destruct (Z.eqb_spec (dw_TenantID o) t).
Qed.
End sync.

(** ** Rest days *)

Section rest_days.
Context {W : Type} {UD : UserDatabase W} {UL : UserLaws W} {DB : SettingsDatabase W} (t : Z).

Lemma set_rest_written u d w w1 : SetRestDay t u d w = (Ok tt, w1) -> tb_rest (udb_tables w1) !! (t, u) = Some (Some d).
Proof.
  unfold SetRestDay. intros (? & w2 & _ & H)%st_bind_Ok. apply st_bind_Ok in H as (? & w3 & _ & H).
  apply st_bind_Ok in H as (? & w4 & _ & H). unfold internal_error, rest_Upsert, st_bind in H.
  destruct (udb_write _ w4) as [r w5] eqn:E. apply udb_writes in E as [(id & n & _ & _ & [= Et _] & ->)|[[e ->] _]]; [|done].
  injection H as <-. rewrite <- Et. cbn. apply lookup_insert_eq.
Qed.
Lemma remove_rest_written u w w1 : RemoveRestDay t u w = (Ok tt, w1) ->
  tb_rest (udb_tables w1) !! (t, u) = None \/ tb_rest (udb_tables w1) !! (t, u) = Some None.
Proof.
  unfold RemoveRestDay. intros (? & w2 & _ & H)%st_bind_Ok. apply st_bind_Ok in H as (? & w3 & _ & H).
  unfold internal_error, rest_Unset, st_bind in H.
  destruct (udb_write _ w3) as [r w5] eqn:E. apply udb_writes in E as [(id & n & _ & _ & [= Et _] & ->)|[[e ->] _]]; [|done].
  injection H as <-. rewrite <- Et. cbn. rewrite lookup_alter_eq. destruct (_ !! _); [by right|by left].
Qed.

(** A user reads the rest day that was set, and none after it was taken away,
    from any state with the same tables. *)
Theorem rest_day_read_back u w w1 w2 r w3 : udb_tables w2 = udb_tables w1 -> GetMyRestDay t u w2 = (Ok r, w3) ->
  (forall d, SetRestDay t u d w = (Ok tt, w1) -> r = mkRestDayResponse u d (DayOfWeekName d))
  /\ (RemoveRestDay t u w = (Ok tt, w1) -> r = mkRestDayResponse u 0 "").
Proof.
  intros E2. unfold GetMyRestDay. destruct (u =? 0); [done|]. unfold rest_FindByUserID, st_bind.
  destruct (udb_read w2) as [[tb|e] w4] eqn:Er.
  - apply udb_reads in Er as [_ Er]. rewrite (Er tb eq_refl), E2. intros H. split.
    + intros d Hs%set_rest_written. rewrite Hs in H. cbn in H. congruence.
    + intros [Hr|Hr]%remove_rest_written; rewrite Hr in H; cbn in H; by injection H as <- _.
  - apply udb_read_error in Er. rewrite Er. done.
Qed.
End rest_days.

(** ** A database, and runs on it *)

Definition next_user_id (tb : user_tables) : Z := 1 + fold_right Z.max 0 (List.map fst (map_to_list (tb_users tb))).
Lemma next_user_id_fresh tb : 0 < next_user_id tb /\ tb_users tb !! next_user_id tb = None.
Proof.
  unfold next_user_id. assert (H : forall l k, In k l -> k <= fold_right Z.max 0 l).
  { induction l as [|x l IH]; [done|]. intros k [->|Hk]; cbn; [lia|]. specialize (IH k Hk). lia. }
  assert (H0 : forall l, 0 <= fold_right Z.max 0 l) by (induction l; cbn; lia). split; [pose proof (H0 (List.map fst (map_to_list (tb_users tb)))); lia|].
  destruct (tb_users tb !! _) as [r|] eqn:E; [|done]. apply elem_of_map_to_list, list_elem_of_In in E.
  apply (in_map fst), H in E. cbn in E. lia.
Qed.
#[local] Instance plain_tables : UserDatabase user_tables := {
  udb_tables tb := tb;
  udb_write f := fun tb => match f (next_user_id tb) tb with Some (tb', n) => (Ok n, tb') | None => (Err (EMsg "duplicate entry"), tb) end;
  udb_read := fun tb => (Ok tb, tb);
  udb_scan _ l := l;
  udb_by_name l := l;
  udb_like a b := eqs a b }.
#[local] Instance plain_laws : UserLaws user_tables.
Proof.
  split; cbn.
  - intros f tb r tb'. destruct (f (next_user_id tb) tb) as [[tb1 n]|] eqn:E; intros [= <- <-]; [left|right; by eauto].
    destruct (next_user_id_fresh tb). by exists (next_user_id tb), n.
  - intros tb r tb' [= <- <-]. split; [done|]. by intros ? [= <-].
  - done.
  - done.
Qed.
#[local] Instance plain_settings : SettingsDatabase user_tables := {
  sdb_First := st_fail (EMsg "no setting");
  sdb_Update _ := st_ret tt;
  sdb_Periods _ := st_ret [] }.
#[local] Instance plain_columns : DatabaseConventions := { db_collate s := s; db_time z := z; db_duplicate _ := false }.
#[local] Instance plain_pinyin : Pinyin := { FullAndAbbr s := (s, s) }.

Definition demo_children (p : Z) : list DingDepartment :=
  if p =? 1 then [mkDingDepartment 3 "A" 1; mkDingDepartment 4 "B" 1]
  else if p =? 3 then [mkDingDepartment 5 "C" 3] else [].
Definition demo_client : DirectoryClient user_tables := mkDirectory user_tables
  (fun id => st_ret (mkUserDetail id "Wang" "" "138" [3])) (fun code => st_ret code)
  (fun p => st_ret (demo_children p)).
Definition demo_managers (t : Z) : option (ST user_tables (DirectoryClient user_tables)) := Some (st_ret demo_client).
Definition demo_auth : AuthService user_tables := mkAuth user_tables
  (Some (fun corp => st_ret (mkTenant 7 corp "" "" "" "" 1, demo_client))) (fun c => st_ret (tk_DingUserID c)) ns_hour.
#[local] Instance demo_ports : UserPorts demo_managers demo_auth.
Proof.
  assert (Hc : client_frames demo_client) by done. split.
  - intros t m tb [= <-]. by apply does_ret.
  - intros m corp tb [= <-]. by apply does_ret.
  - done.
  - done.
Qed.
Definition demo_user : UserRow := mkUserRow 1 7 "u1" "Wang" "Wang" "Wang" "138" "" 0 1 false.
Definition demo_tables : user_tables :=
  mkTables {[1 := demo_user; 2 := mkUserRow 2 7 "u2" "Li" "Li" "Li" "" "" 2 1 false]}
    {[(7, 3) := mkDepartmentRow 7 3 "A" 1 true 0 false; (7, 9) := mkDepartmentRow 7 9 "Z" 1 true 1 false]} ∅ ∅.
Lemma demo_users_ok : users_ok demo_tables.
Proof.
  intros id r H. unfold demo_tables in H. cbn [tb_users] in H. apply lookup_insert_Some in H as [[<- <-]|[_ H]]; [done|].
  by apply lookup_singleton_Some in H as [<- <-].
Qed.

Lemma roles_are_granted_witness :
  users_ok demo_tables /\
  users_ok (fold_left (fun w r => after_user_request demo_managers demo_auth r.1 r.2 w)
    [(7, RequestLogin "corp" "u9"); (7, RequestRole 1 1); (7, RequestRole 2 0); (7, RequestBatch 0 0)] demo_tables).
Proof.
  split; [exact demo_users_ok|].
  exact (proj1 (roles_are_granted demo_managers demo_auth
    [(7, RequestLogin "corp" "u9"); (7, RequestRole 1 1); (7, RequestRole 2 0); (7, RequestBatch 0 0)] demo_tables demo_users_ok)).
Defined.

Lemma login_answers_the_row_witness :
  users_ok demo_tables
  /\ exists resp w', Login demo_auth "corp" "u1" demo_tables = (Ok resp, w') /\ answers_row demo_auth "corp" "u1" w' resp.
Proof.
  split; [exact demo_users_ok|].
  destruct (Login demo_auth "corp" "u1" demo_tables) as [[resp|e] w'] eqn:E; [|by vm_compute in E].
  exists resp, w'. split; [done|].
  exact (login_answers_the_row demo_managers demo_auth "corp" "u1" demo_tables resp w' demo_users_ok E).
Defined.

Lemma all_departments_fetched_witness :
  shallow demo_children 3 1 = true
  /\ (FetchAllDepartments (dc_GetSubDepartments demo_client) 5 demo_tables).1 = Ok (all_below demo_children 3 1)
  /\ forall d, d ∈ all_below demo_children 3 1 <-> below demo_children 1 d.
Proof.
  split; [by vm_compute|].
  apply (all_departments_fetched demo_children (dc_GetSubDepartments demo_client) (fun _ => True)
           ltac:(intros p w _; by exists w) 3 5 demo_tables); [by vm_compute|lia|done].
Defined.

(** The same, but calls for some departments fail. *)
Definition flaky_client (broken : list Z) : DirectoryClient user_tables := mkDirectory user_tables
  (dc_GetUserDetail demo_client) (dc_GetUserByAuthCode demo_client)
  (fun p => if bool_decide (p ∈ broken) then st_fail (EMsg "dingtalk: 88") else st_ret (demo_children p)).
#[local] Instance demo_tree broken : DepartmentTree (st_ret (flaky_client broken)) demo_children.
Proof.
  split.
  - intros w r w' [= <- <-]. split; [done|]. intros c [= <-] p w1 r1 w2. cbn.
    case_bool_decide; intros [= <- <-]; (split; [done|]); [done|by intros l [= <-]].
  - intros p d. unfold demo_children. destruct (Z.eqb_spec p 1) as [->|]; [|destruct (Z.eqb_spec p 3) as [->|]].
    + intros [->|[->|[]%elem_of_nil]%elem_of_cons]%elem_of_cons; split; (done || cbn; lia).
    + intros [->|[]%elem_of_nil]%elem_of_cons. split; (done || cbn; lia).
    + by intros []%elem_of_nil.
  - intros [|[|[|[|n]]]]; cbn; repeat constructor; set_solver by lia.
Qed.

Lemma synced_departments_are_the_tree_witness :
  depts_ok demo_tables
  /\ (exists w',
        SyncDepartments 7 (Some (st_ret (flaky_client []))) 4 demo_tables = (Ok tt, w')
        /\ (forall d, below demo_children 1 d ->
              tb_depts w' !! (7, dg_DeptID d) = Some (synced_row demo_children 7 (tb_depts demo_tables !! (7, dg_DeptID d)) d))
        /\ (forall id, (forall d, below demo_children 1 d -> dg_DeptID d <> id) ->
              tb_depts w' !! (7, id) = marked_deleted <$> tb_depts demo_tables !! (7, id)))
  /\ exists e w', SyncDepartments 7 (Some (st_ret (flaky_client [3]))) 4 demo_tables = (Err e, w')
       /\ tb_depts w' = tb_depts demo_tables.
Proof.
  assert (Hok : depts_ok demo_tables).
  { intros k d H. unfold demo_tables in H. cbn [tb_depts] in H. apply lookup_insert_Some in H as [[<- <-]|[_ H]]; [done|].
    by apply lookup_singleton_Some in H as [<- <-]. }
  assert (H := fun broken => synced_departments_are_the_tree 7 (st_ret (flaky_client broken)) demo_children 3 4 demo_tables Hok
                ltac:(by vm_compute) ltac:(lia) ltac:(done)).
  split; [exact Hok|]. split.
  - specialize (H []). destruct (SyncDepartments 7 (Some (st_ret (flaky_client []))) 4 demo_tables) as [[[]|e] w'] eqn:E;
      [|by vm_compute in E]. exists w'. split; [done|]. destruct H as (H1 & H2 & _). split; [exact H1|exact H2].
  - specialize (H [3]). destruct (SyncDepartments 7 (Some (st_ret (flaky_client [3]))) 4 demo_tables) as [[[]|e] w'] eqn:E;
      [by vm_compute in E|]. exists e, w'. split; [done|exact (proj1 H)].
Defined.

(** *** What the code does not do *)

(** A deleted department is listed no more, but its members stay candidates. *)
Example deleted_department_still_attends :
  let start := mkTables {[1 := demo_user]} {[(7, 3) := mkDepartmentRow 7 3 "A" 1 true 1 false]} {[(7, 1, 3)]} ∅ in
  let '(r, w) := DeleteDepartment 7 3 start in
  r = Ok tt /\ (ListLeafDepartments 7 w).1 = Ok []
  /\ (user_ListAttendanceCandidates 7 [] w).1 = Ok [demo_user].
Proof. vm_compute. done. Qed.

(** A deleted user who logs in again has no spelling, as a new one has. *)
Example restored_user_loses_pinyin :
  let start := edit_users (alter set_deleted 1) demo_tables in
  let pinyin w := uw_NamePinyin <$> tb_users w !! 1 in
  pinyin start = Some "Wang" /\ pinyin (Login demo_auth "corp" "u1" start).2 = Some ""
  /\ pinyin (Login demo_auth "corp" "u1" demo_tables).2 = Some "Wang".
Proof. vm_compute. done. Qed.

(** A role granted between a refresh's read and its write is lost. *)
Example stale_refresh_undoes_a_role :
  let role w := uw_Role <$> tb_users w !! 1 in
  let '(u, w) := user_FindByDingUserID 7 "u1" demo_tables in
  let w := (UpdateUserRole 7 1 1 w).2 in
  role w = Some 1
  /\ match u with
     | Ok u => role (user_Update 7 (with_detail (mkUserDetail "u1" "Wang" "" "138" [3]) u) w).2 = Some 0
     | Err _ => False
     end.
Proof. vm_compute. done. Qed.
