(* ===== verification/Reply.v ===== *)
(** * Chat messages in, replies out

    pkg/dingtalk/reply_format.go: Markdown becomes the plain text that DingTalk
    shows.  pkg/dingtalk/stream.go: a message or an event of the stream
    connection.  pkg/dingtalk/group_chat_reply_orchestrator.go: messages of
    groups are handled side by side, up to a number at a time, each answered
    through its session's webhook or, when that is closed, through a handler. *)
From Stdlib Require Import ZArith Lia Bool String.
From stdpp Require Import base list strings gmap.
From S2P Require Import Prelude GoStrings Json JsonLax Text Renderer Session.
#[local] Open Scope Z_scope.
#[local] Open Scope go_scope.

(** ** Regular expressions of reply_format.go, on bytes *)

(** [ReplaceAll]: from left to right, a match is replaced and skipped.  A match
    is its length and its replacement; all start with an ASCII character. *)
Fixpoint replace_matches (m : list Z -> option (nat * list Z)) (skip : nat) (l : list Z) : list Z :=
  match l with
  | [] => []
  | b :: l' =>
      match skip with
      | S skip => replace_matches m skip l'
      | O => match m l with
             | Some (n, replacement) => replacement ++ replace_matches m (pred n) l'
             | None => b :: replace_matches m O l'
             end
      end
  end.
Definition replace_pattern (m : list Z -> option (nat * list Z)) (l : list Z) : list Z := replace_matches m O l.

(** [\s] is an ASCII class. *)
Definition re_space (b : Z) : bool := (b =? 32) || in_range 9 10 b || in_range 12 13 b.
Fixpoint span_while {A} (p : A -> bool) (l : list A) : list A * list A :=
  match l with
  | [] => ([], [])
  | x :: l' => if p x then let '(a, b) := span_while p l' in (x :: a, b) else ([], l)
  end.
(** A lazy group and what follows it: the least number of characters, no line break
    among them, after which the rest matches. *)
Fixpoint lazily {A} (rest : list Z -> option A) (l : list Z) : option (list Z * A) :=
  match rest l with
  | Some a => Some ([], a)
  | None =>
      match l with
      | [] => None
      | b :: l' => if b =? 10 then None else (fun x => (b :: x.1, x.2)) <$> lazily rest l'
      end
  end.
Definition literally (s : string) (l : list Z) : option (list Z) :=
  if prefix_of (bytes s) l then Some (drop (String.length s) l) else None.

(** The address and the closing parenthesis. *)
Definition link_address (l : list Z) : option (list Z) :=
  match literally "http" l with
  | None => None
  | Some l1 =>
      let '(scheme, l2) := match literally "s" l1 with Some l2 => ("https", l2) | None => ("http", l1) end in
      match literally "://" l2 with
      | None => None
      | Some l3 =>
          let '(address, l4) := span_while (fun b => negb (re_space b) && negb (b =? 41)) l3 in
          match address, literally ")" l4 with
          | _ :: _, Some _ => Some (bytes scheme ++ bytes "://" ++ address)
          | _, _ => None
          end
      end
  end.
(** A link, replaced by the text and the address. *)
Definition markdownLinkPattern (l : list Z) : option (nat * list Z) :=
  match literally "[" l with
  | None => None
  | Some l1 =>
      match lazily (fun l => match literally "](" l with Some l => link_address l | None => None end) l1 with
      | Some (text, address) => Some ((length text + length address + 4)%nat, text ++ bytes "：" ++ address)
      | None => None
      end
  end.
Definition markdownCodePattern (l : list Z) : option (nat * list Z) :=
  match literally "`" l with
  | None => None
  | Some l1 =>
      let '(code, l2) := span_while (fun b => negb (b =? 96)) l1 in
      match code, literally "`" l2 with _ :: _, Some _ => Some ((length code + 2)%nat, code) | _, _ => None end
  end.
(** [strings.Trim(s, "*_")]. *)
Definition trim_marks (l : list Z) : list Z :=
  let mark b := (b =? 42) || (b =? 95) in drop_while_end mark (drop_while mark l).
Definition marked (mark : string) (l : list Z) : option (nat * list Z) :=
  match literally mark l with
  | None => None
  | Some l1 => (fun x => ((length x.1 + 2 * String.length mark)%nat, trim_marks (bytes mark ++ x.1 ++ bytes mark)))
               <$> lazily (literally mark) l1
  end.
Definition either {A} (a b : option A) : option A := match a with Some _ => a | None => b end.
Definition markdownBoldPattern (l : list Z) : option (nat * list Z) := either (marked "**" l) (marked "__" l).
Definition markdownItalicPattern (l : list Z) : option (nat * list Z) := either (marked "*" l) (marked "_" l).

(** The text of a heading: up to three spaces, up to six marks, spaces, the
    text, and spaces, marks and spaces to the end. *)
Fixpoint drop_upto {A} (p : A -> bool) (n : nat) (l : list A) : list A :=
  match n, l with
  | S n, x :: l' => if p x then drop_upto p n l' else l
  | _, _ => l
  end.
Definition hash (b : Z) : bool := b =? 35.
Definition heading_end (l : list Z) : option unit :=
  match drop_while re_space (drop_while hash (drop_while re_space l)) with [] => Some tt | _ => None end.
Definition markdownHeadingPattern (l : list Z) : option (list Z) :=
  match drop_upto re_space 3 l with
  | 35 :: l' => fst <$> lazily heading_end (drop_while re_space (drop_upto hash 5 l'))
  | _ => None
  end.
(** The text of a list item: spaces, one of three marks, spaces, the text. *)
Definition markdownListPattern (l : list Z) : option (list Z) :=
  match drop_while re_space l with
  | b :: l' =>
      if (b =? 45) || (b =? 42) || (b =? 43) then
        match l' with
        | c :: _ => if re_space c then Some (drop_while re_space l') else None
        | [] => None
        end
      else None
  | [] => None
  end.

(** ** Rendering *)

Fixpoint replace_crlf (l : list Z) : list Z :=
  match l with
  | 13 :: (10 :: l') => 10 :: replace_crlf l'
  | b :: l' => b :: replace_crlf l'
  | [] => []
  end.
Definition normalize_lines (l : list Z) : list Z := List.map (fun b => if b =? 13 then 10 else b) (replace_crlf l).

(** A line that is not blank. *)
Definition render_line (line : list Z) : string :=
  let line := match markdownHeadingPattern line with Some text => bytes (trim_space (of_bytes text)) | None => line end in
  let line := match markdownListPattern line with
              | Some text => bytes "- " ++ bytes (trim_space (of_bytes text))
              | None => line
              end in
  trim_space (of_bytes line).
Definition trim_right_blank (l : list Z) : list Z := drop_while_end (fun b => (b =? 32) || (b =? 9)) l.
(** Blank lines between others become one. *)
Fixpoint render_lines (lines : list (list Z)) (rendered : list string) (blankPending : bool) : list string :=
  match lines with
  | [] => rendered
  | line :: lines =>
      let trimmedRight := trim_right_blank line in
      if eqs (trim_space (of_bytes trimmedRight)) ""
      then render_lines lines rendered (match rendered with [] => blankPending | _ => true end)
      else
        let gap := blankPending && negb (bool_decide (rendered = [])) in
        let rendered := if gap then rendered ++ [""] else rendered in
        render_lines lines (rendered ++ [render_line trimmedRight]) (if gap then false else blankPending)
  end.
Definition renderPlainTextReply (reply : string) : string :=
  let normalized := normalize_lines (bytes reply) in
  let normalized := replace_pattern markdownLinkPattern normalized in
  let normalized := replace_pattern markdownCodePattern normalized in
  let normalized := replace_pattern markdownBoldPattern normalized in
  let normalized := replace_pattern markdownItalicPattern normalized in
  trim_space (join newline (render_lines (split_bytes 10 normalized) [] false)).

Example common_markdown :
  renderPlainTextReply "### 考勤统计

- **出勤次数**：12
- **迟到次数**：2
- `状态`：正常
- [查看详情](https://example.com/detail)
" = "考勤统计

- 出勤次数：12
- 迟到次数：2
- 状态：正常
- 查看详情：https://example.com/detail".
Proof. vm_compute. done. Qed.
Example excessive_blank_lines :
  renderPlainTextReply "# 标题


内容一



内容二
" = "标题

内容一

内容二".
Proof. vm_compute. done. Qed.

(** ** stream.go *)

(** What the robot's callback brings. *)
Record BotCallback := mkCallback {
  bc_SenderCorpId : string; bc_SenderStaffId : string; bc_SenderNick : string; bc_Text : string;
  bc_ConversationId : string; bc_ConversationType : string; bc_ConversationTitle : string; bc_SessionWebhook : string }.

(** [@\S+\s*]. *)
Definition mentionRegexp (l : list Z) : option (nat * list Z) :=
  match literally "@" l with
  | None => None
  | Some l1 =>
      let '(name, l2) := span_while (fun b => negb (re_space b)) l1 in
      match name with
      | [] => None
      | _ => Some ((1 + length name + length (fst (span_while re_space l2)))%nat, [])
      end
  end.
Definition ConversationGroup : string := "2".
(** Without mentions in a group. *)
Definition message_content (data : BotCallback) : string :=
  let content := trim_space (bc_Text data) in
  if eqs (bc_ConversationType data) ConversationGroup
  then trim_space (of_bytes (replace_pattern mentionRegexp (bytes content))) else content.
Definition message_of (data : BotCallback) : ChatMessage :=
  mkChat (bc_SenderCorpId data) (bc_SenderStaffId data) (bc_SenderNick data) (message_content data)
    (bc_ConversationId data) (bc_ConversationType data) (bc_ConversationTitle data) (bc_SessionWebhook data).

Definition DeadlineExceeded : string := "context.DeadlineExceeded".
Definition private_reply (r : res string) : string :=
  match r with
  | Ok reply => reply
  | Err e => if errors_Is e DeadlineExceeded then "处理超时，请重试" else "处理出错，请重试"
  end.
(** A message that is not of a group: handled and answered before the callback
    returns; a reply that cannot be sent is logged. *)
Definition handle_private {W} (chatHandler : ChatMessage -> ST W string) (SimpleReplyText : string -> string -> ST W unit)
  (data : BotCallback) (w : W) : W :=
  let '(r, w) := chatHandler (message_of data) w in
  (SimpleReplyText (bc_SessionWebhook data) (renderPlainTextReply (private_reply r)) w).2.

(** Which way a message goes; without a handler it is dropped. *)
Inductive message_way : Type := Dropped | ByGroup (msg : ChatMessage) | ByPrivate (msg : ChatMessage).
Definition handleChatBotMessage (has_handler : bool) (data : BotCallback) : message_way :=
  if negb has_handler then Dropped
  else if eqs (bc_ConversationType data) ConversationGroup then ByGroup (message_of data) else ByPrivate (message_of data).

(** An event of the connection: the approval that is passed on, in a goroutine
    of its own, or nothing. *)
Record bpmsEvent := mkBpms { ev_ProcessInstanceID : string; ev_ProcessCode : string; ev_Status : string }.
Definition bpms_names : list string := ["processInstanceId"; "processCode"; "status"].
Definition lax_bpms : lax bpmsEvent := lax_struct (fun ms cur =>
  let text name := lax_field bpms_names name (lax_of dec_string) ms in
  let '(id, e1) := text "processInstanceId" (ev_ProcessInstanceID cur) in
  let '(code, e2) := text "processCode" (ev_ProcessCode cur) in
  let '(status, e3) := text "status" (ev_Status cur) in
  (mkBpms id code status, e1 || e2 || e3)).
Definition handleEvent (has_handler : bool) (eventCorpId corpID data : string) : option (string * string * string) :=
  let corpID := if eqs eventCorpId "" then corpID else eventCorpId in
  let '(evt, failed) := unmarshal lax_bpms (mkBpms "" "" "") data in
  if failed then None
  else if negb has_handler || eqs (ev_ProcessInstanceID evt) "" then None
  else Some (corpID, ev_ProcessInstanceID evt, ev_Status evt).

(** ** group_chat_reply_orchestrator.go *)

Definition groupChatConcurrency : Z := 10.
Definition at_sender (msg : ChatMessage) (text : string) : string := "@" +:+ cm_SenderNick msg +:+ " " +:+ text.
Definition busy_text (msg : ChatMessage) : string := at_sender msg "服务繁忙，请稍后重试".
Definition ack_text (msg : ChatMessage) : string := at_sender msg "正在查询，请稍候...".
(** What a message is answered with. *)
Definition group_reply (msg : ChatMessage) (r : res string) : string :=
  match r with
  | Ok reply => reply
  | Err e => at_sender msg (if errors_Is e DeadlineExceeded then "处理超时，请重试" else "处理出错，请重试")
  end.

(** Where [processAsync] is: in the chat handler, before the webhook reply,
    before the fallback, at its end. *)
Inductive reply_phase : Type :=
  | Handling
  | Replying (reply : string)
  | FallingBack (reply : string)
  | Finished.
(** A message that is processed; whether [done] is closed, and whether
    [sendSlowAck] still waits for it or for its timer. *)
Record group_job := mkJob { jb_msg : ChatMessage; jb_phase : reply_phase; jb_done : bool; jb_ack_waits : bool }.
(** A post through the webhook and what became of it, or a call of the
    fallback handler. *)
Inductive delivery : Type :=
  | BusyPosted (text : string) (failed : option err)
  | AckPosted (text : string) (failed : option err)
  | ReplyPosted (text : string) (failed : option err)
  | Pushed (reply : string).
Record group_state := mkGroups { gs_sema : Z; gs_jobs : gmap Z group_job; gs_log : list (Z * delivery) }.
Definition no_messages : group_state := mkGroups 0 ∅ [].

(** What happens, at a message of some number.  The acknowledgement is one event,
    its post: the timer may have been taken before [done] was closed and the post
    be on its way since, and of two ready cases [select] takes either. *)
Inductive group_event : Type :=
  | Arrives (i : Z) (msg : ChatMessage) (failed : option err)   (* [handle]; the busy reply *)
  | Handled (i : Z) (r : option (res string))                   (* the chat handler returns, or panics *)
  | AckDue (i : Z) (failed : option err)                        (* [sendSlowAck] takes its timer *)
  | AckDropped (i : Z)                                          (* [sendSlowAck] takes [done] *)
  | Answers (i : Z) (failed : option err)                       (* [sendWebhookReply] returns *)
  | FallsBack (i : Z).                                          (* the fallback returns, or panics *)

Section orchestrator.
Context (has_fallback : bool).

Definition tryAcquire (s : group_state) : bool := gs_sema s <? groupChatConcurrency.
Definition log_delivery (i : Z) (d : delivery) (s : group_state) : group_state :=
  mkGroups (gs_sema s) (gs_jobs s) (gs_log s ++ [(i, d)]).
Definition set_job (i : Z) (j : group_job) (s : group_state) : group_state :=
  mkGroups (gs_sema s) (<[i := j]> (gs_jobs s)) (gs_log s).
Definition at_phase (p : reply_phase) (j : group_job) : group_job := mkJob (jb_msg j) p (jb_done j) (jb_ack_waits j).
(** The deferred functions: the slot is given back. *)
Definition end_job (i : Z) (j : group_job) (s : group_state) : group_state :=
  mkGroups (gs_sema s - 1) (<[i := at_phase Finished j]> (gs_jobs s)) (gs_log s).

Definition job_event (ev : group_event) (i : Z) (j : group_job) (s : group_state) : group_state :=
  match ev, jb_phase j with
  | Handled _ None, Handling => end_job i j s
  | Handled _ (Some r), Handling =>
      set_job i (mkJob (jb_msg j) (Replying (group_reply (jb_msg j) r)) true (jb_ack_waits j)) s
  | Answers _ failed, Replying reply =>
      let s := log_delivery i (ReplyPosted (renderPlainTextReply reply) failed) s in
      match failed with
      | None => end_job i j s
      | Some _ => if has_fallback then set_job i (at_phase (FallingBack reply) j) s else end_job i j s
      end
  | FallsBack _, FallingBack reply => end_job i j (log_delivery i (Pushed reply) s)
  | AckDue _ failed, _ =>
      if jb_ack_waits j
      then log_delivery i (AckPosted (renderPlainTextReply (ack_text (jb_msg j))) failed)
             (set_job i (mkJob (jb_msg j) (jb_phase j) (jb_done j) false) s)
      else s
  | AckDropped _, _ =>
      if jb_ack_waits j && jb_done j then set_job i (mkJob (jb_msg j) (jb_phase j) true false) s else s
  | _, _ => s
  end.
Definition event_of (ev : group_event) : Z :=
  match ev with
  | Arrives i _ _ | Handled i _ | AckDue i _ | AckDropped i | Answers i _ | FallsBack i => i
  end.
(** An event that cannot happen where the message is changes nothing. *)
Definition group_step (s : group_state) (ev : group_event) : group_state :=
  match ev, gs_jobs s !! event_of ev with
  | Arrives i msg failed, None =>
      if tryAcquire s then mkGroups (gs_sema s + 1) (<[i := mkJob msg Handling false true]> (gs_jobs s)) (gs_log s)
      else log_delivery i (BusyPosted (renderPlainTextReply (busy_text msg)) failed) s
  | Arrives _ _ _, Some _ => s
  | _, Some j => job_event ev (event_of ev) j s
  | _, None => s
  end.
End orchestrator.
