(* ===== verification/ReplySpec.v ===== *)
(** * A group message is answered once; plain text is sent as it is *)
From Stdlib Require Import ZArith Lia Bool String.
From stdpp Require Import base list strings gmap.
From S2P Require Import Prelude GoStrings Json JsonLax Text Renderer Session EntitySpec Reply.
#[local] Open Scope Z_scope.
#[local] Open Scope go_scope.

(** ** Group messages *)

Section groups.
Context (has_fallback : bool).

(** The answers of a message: not the busy notice, not the slow acknowledgement. *)
Definition answers (i : Z) (log : list (Z * delivery)) : list delivery :=
  List.map snd (List.filter (fun x => (x.1 =? i) && match x.2 with ReplyPosted _ _ | Pushed _ => true | _ => false end) log).
Definition acks (i : Z) (log : list (Z * delivery)) : list delivery :=
  List.map snd (List.filter (fun x => (x.1 =? i) && match x.2 with AckPosted _ _ => true | _ => false end) log).
Definition running (j : group_job) : bool := match jb_phase j with Finished => false | _ => true end.
Definition running_count (jobs : gmap Z group_job) : Z :=
  Z.of_nat (size (filter (fun kv : Z * group_job => running kv.2 = true) jobs)).

(** What has been answered where the message is. *)
Definition answered (evs : list group_event) (i : Z) (j : group_job) (log : list (Z * delivery)) : Prop :=
  let handled r := Handled i (Some r) ∈ evs in
  match jb_phase j with
  | Handling => jb_done j = false /\ answers i log = []
  | Replying reply => jb_done j = true /\ answers i log = [] /\ exists r, handled r /\ reply = group_reply (jb_msg j) r
  | FallingBack reply =>
      jb_done j = true /\ has_fallback = true
      /\ (exists e, answers i log = [ReplyPosted (renderPlainTextReply reply) (Some e)])
      /\ exists r, handled r /\ reply = group_reply (jb_msg j) r
  | Finished =>
      if jb_done j
      then exists r, handled r /\ let reply := group_reply (jb_msg j) r in
             answers i log = [ReplyPosted (renderPlainTextReply reply) None]
             \/ exists e, answers i log
                  = ReplyPosted (renderPlainTextReply reply) (Some e) :: (if has_fallback then [Pushed reply] else [])
      else answers i log = [] /\ Handled i None ∈ evs
  end.
Definition group_ok (evs : list group_event) (s : group_state) : Prop :=
  gs_sema s = running_count (gs_jobs s) /\ gs_sema s <= groupChatConcurrency
  /\ (forall i j, gs_jobs s !! i = Some j ->
        answered evs i j (gs_log s) /\ len (acks i (gs_log s)) <= 1 /\ (jb_ack_waits j = true -> acks i (gs_log s) = [])
        /\ exists failed, Arrives i (jb_msg j) failed ∈ evs)
  /\ (forall i, gs_jobs s !! i = None -> answers i (gs_log s) = [] /\ acks i (gs_log s) = []).

Definition runs (o : option group_job) : Z := match o with Some j => if running j then 1 else 0 | None => 0 end.
Lemma running_insert i j jobs : running_count (<[i := j]> jobs) = running_count jobs - runs (jobs !! i) + runs (Some j).
Proof.
  unfold running_count. set (P := fun kv : Z * group_job => running kv.2 = true).
  assert (Hr : filter P jobs !! i = match jobs !! i with Some j0 => if running j0 then Some j0 else None | None => None end).
  { rewrite map_lookup_filter. destruct (jobs !! i) as [j0|] eqn:E; [|done]. unfold P. cbn.
    destruct (running j0) eqn:Ej; cbn; case_guard as Hg; cbn in Hg; try congruence; done. }
  rewrite map_filter_insert. destruct (decide (P (i, j))) as [Hp|Hp]; unfold P in Hp; cbn in Hp.
  - rewrite map_size_insert, Hr. unfold runs. rewrite Hp. destruct (jobs !! i) as [j0|]; [destruct (running j0)|]; unfold id; lia.
  - apply not_true_iff_false in Hp. rewrite map_filter_delete, map_size_delete, Hr. unfold runs. rewrite Hp.
    destruct (jobs !! i) as [j0|]; [|cbn; lia]. destruct (running j0); [|cbn; lia]. cbn.
    assert (size (filter P jobs) <> 0%nat); [|lia]. intros H0. apply map_size_empty_inv in H0.
    rewrite H0 in Hr. by rewrite lookup_empty in Hr.
Qed.

Definition is_answer (d : delivery) : bool := match d with ReplyPosted _ _ | Pushed _ => true | _ => false end.
Definition is_ack (d : delivery) : bool := match d with AckPosted _ _ => true | _ => false end.
Lemma answers_snoc i k d log : answers i (log ++ [(k, d)]) = answers i log ++ (if (k =? i) && is_answer d then [d] else []).
Proof. unfold answers. rewrite List.filter_app, map_app. cbn. by destruct (_ && _). Qed.
Lemma acks_snoc i k d log : acks i (log ++ [(k, d)]) = acks i log ++ (if (k =? i) && is_ack d then [d] else []).
Proof. unfold acks. rewrite List.filter_app, map_app. cbn. by destruct (_ && _). Qed.

Lemma answered_more evs ev i j log : answered evs i j log -> answered (evs ++ [ev]) i j log.
Proof.
  assert (Hin : forall x, x ∈ evs -> x ∈ evs ++ [ev]) by (intros x Hx; apply elem_of_app; by left).
  unfold answered. destruct (jb_phase j); [done| | |destruct (jb_done j)]; naive_solver.
Qed.
Lemma answered_log evs i j log log' : answers i log' = answers i log -> answered evs i j log -> answered evs i j log'.
Proof. unfold answered. intros ->. done. Qed.

(** A job moves and something is delivered for it. *)
Lemma job_moves evs ev s i j j' log' :
  group_ok evs s -> gs_jobs s !! i = Some j -> jb_msg j' = jb_msg j -> (running j' = true -> running j = true) ->
  (forall k, k <> i -> answers k log' = answers k (gs_log s) /\ acks k log' = acks k (gs_log s)) ->
  answered (evs ++ [ev]) i j' log' ->
  len (acks i log') <= 1 -> (jb_ack_waits j' = true -> acks i log' = []) ->
  group_ok (evs ++ [ev]) (mkGroups (gs_sema s + runs (Some j') - runs (Some j)) (<[i := j']> (gs_jobs s)) log').
Proof.
  intros (H1 & H2 & H3 & H4) Ei Em Hrun Hlog Ha Hk Hw. destruct (H3 i j Ei) as (_ & _ & _ & failed & Harr). split; [|split; [|split]]; cbn [gs_sema gs_jobs gs_log].
  - rewrite running_insert, Ei, H1. lia.
  - cbn [runs]. destruct (running j') eqn:E1; [rewrite (Hrun eq_refl); lia|destruct (running j); lia].
  - intros k x. destruct (decide (i = k)) as [<-|Hne].
    + rewrite lookup_insert_eq. intros [= <-]. split; [done|]. split; [done|]. split; [done|]. exists failed.
      rewrite Em. apply elem_of_app. by left.
    + rewrite lookup_insert_ne by done. intros Ek. destruct (H3 k x Ek) as (A1 & A2 & A3 & f & A4).
      destruct (Hlog k (not_eq_sym Hne)) as [L1 L2]. rewrite L2. split.
      * apply answered_more. by eapply answered_log.
      * split; [done|]. split; [done|]. exists f. apply elem_of_app. by left.
  - intros k Ek. destruct (decide (i = k)) as [<-|Hne]; [by rewrite lookup_insert_eq in Ek|].
    rewrite lookup_insert_ne in Ek by done. destruct (Hlog k (not_eq_sym Hne)) as [-> ->]. by apply H4.
Qed.
Lemma nothing_moves evs ev s : group_ok evs s -> group_ok (evs ++ [ev]) s.
Proof.
  intros (H1 & H2 & H3 & H4). split; [done|]. split; [done|]. split; [|done]. intros i j Ei.
  destruct (H3 i j Ei) as (A1 & A2 & A3 & f & A4). split; [by apply answered_more|]. split; [done|]. split; [done|].
  exists f. apply elem_of_app. by left.
Qed.

Lemma others_quiet i d log k : k <> i -> answers k (log ++ [(i, d)]) = answers k log /\ acks k (log ++ [(i, d)]) = acks k log.
Proof.
  intros Hk. rewrite answers_snoc, acks_snoc. rewrite (proj2 (Z.eqb_neq i k)) by done. by rewrite !app_nil_r.
Qed.
(** Without a delivery, and with one. *)
Lemma job_moves_silently evs ev s i j j' n :
  group_ok evs s -> gs_jobs s !! i = Some j -> jb_msg j' = jb_msg j -> (running j' = true -> running j = true) ->
  n = gs_sema s + runs (Some j') - runs (Some j) -> (jb_ack_waits j' = true -> jb_ack_waits j = true) ->
  answered (evs ++ [ev]) i j' (gs_log s) -> group_ok (evs ++ [ev]) (mkGroups n (<[i := j']> (gs_jobs s)) (gs_log s)).
Proof.
  intros Hok Ei Em Hrun -> Hw Ha. destruct (proj1 (proj2 (proj2 Hok)) _ _ Ei) as (_ & A2 & A3 & _).
  apply job_moves; try done. intros H. by apply A3, Hw.
Qed.
Lemma job_moves_told evs ev s i j j' n d :
  group_ok evs s -> gs_jobs s !! i = Some j -> jb_msg j' = jb_msg j -> (running j' = true -> running j = true) ->
  n = gs_sema s + runs (Some j') - runs (Some j) ->
  (is_ack d = true -> jb_ack_waits j = true /\ jb_ack_waits j' = false) -> (jb_ack_waits j' = true -> jb_ack_waits j = true) ->
  answered (evs ++ [ev]) i j' (gs_log s ++ [(i, d)]) ->
  group_ok (evs ++ [ev]) (mkGroups n (<[i := j']> (gs_jobs s)) (gs_log s ++ [(i, d)])).
Proof.
  intros Hok Ei Em Hrun -> Hd Hw Ha. destruct (proj1 (proj2 (proj2 Hok)) _ _ Ei) as (_ & A2 & A3 & _).
  apply job_moves; try done; try rewrite acks_snoc, Z.eqb_refl; cbn [andb].
  - intros k Hk. by apply others_quiet.
  - destruct (is_ack d) eqn:Ed; [destruct (Hd eq_refl) as [H1 _]; rewrite A3 by done; done|by rewrite app_nil_r].
  - intros H. destruct (is_ack d) eqn:Ed; [destruct (Hd eq_refl); congruence|]. rewrite app_nil_r. by apply A3, Hw.
Qed.

Ltac here := cbn [runs running jb_phase at_phase]; unfold running; cbn [jb_phase];
  repeat match goal with H : jb_phase _ = _ |- _ => rewrite H end;
  try done; first [lia | destruct (jb_phase _); lia].
Lemma job_event_kept evs ev s j : group_ok evs s -> gs_jobs s !! event_of ev = Some j ->
  group_ok (evs ++ [ev]) (job_event has_fallback ev (event_of ev) j s).
Proof.
  intros Hok Ei. destruct (proj1 (proj2 (proj2 Hok)) _ _ Ei) as (A1 & _). revert Ei A1.
  assert (Hev : ev ∈ evs ++ [ev]) by (apply elem_of_app; right; left).
  assert (Hold : forall x, x ∈ evs -> x ∈ evs ++ [ev]) by (intros x Hx; apply elem_of_app; by left).
  pose proof (nothing_moves evs ev s Hok) as Hn.
  destruct ev as [i msg f|i [r|]|i f|i|i f|i]; cbn [event_of job_event]; intros Ei A1; try exact Hn.
  - destruct (jb_phase j) eqn:Ep; try exact Hn. unfold answered in A1. rewrite Ep in A1. destruct A1 as [_ A1].
    apply (job_moves_silently evs _ s i j); [done..|here|here|done|]. unfold answered. cbn. repeat split; [done|]. by exists r.
  - destruct (jb_phase j) eqn:Ep; try exact Hn. unfold answered in A1. rewrite Ep in A1. destruct A1 as [Hd A1].
    apply (job_moves_silently evs _ s i j); [done..|here|here|done|]. unfold answered. cbn. by rewrite Hd.
  - destruct (jb_ack_waits j) eqn:Ew; [|exact Hn]. unfold log_delivery, set_job. cbn [gs_sema gs_jobs gs_log].
    apply (job_moves_told evs _ s i j); [done..|here|done|done|]. apply answered_more.
    eapply answered_log; [|exact A1]. rewrite answers_snoc, Z.eqb_refl. apply app_nil_r.
  - destruct (jb_ack_waits j && jb_done j) eqn:Ew; [|exact Hn]. apply andb_true_iff in Ew as [Ew Ed].
    apply (job_moves_silently evs _ s i j); [done..|here|done|]. apply answered_more.
    revert A1. unfold answered. cbn. by rewrite Ed.
  - destruct (jb_phase j) eqn:Ep; try exact Hn. unfold answered in A1. rewrite Ep in A1. destruct A1 as (Hd & A1 & r & Hr & ->).
    assert (Ha : forall f, answers i (gs_log s ++ [(i, ReplyPosted (renderPlainTextReply (group_reply (jb_msg j) r)) f)])
                           = [ReplyPosted (renderPlainTextReply (group_reply (jb_msg j) r)) f])
      by (intros f'; by rewrite answers_snoc, Z.eqb_refl, A1).
    unfold log_delivery, set_job, end_job. destruct f as [e|]; [destruct has_fallback eqn:Ef|]; cbn [gs_sema gs_jobs gs_log];
      (apply (job_moves_told evs _ s i j); [done..|here|here|done|done|]); unfold answered; cbn; rewrite ?Hd, Ha.
    + split; [done|]. split; [done|]. split; [by exists e|]. exists r. split; [by apply Hold|done].
    + exists r. split; [by apply Hold|]. right. exists e. by rewrite Ef.
    + exists r. split; [by apply Hold|]. by left.
  - destruct (jb_phase j) eqn:Ep; try exact Hn. unfold answered in A1. rewrite Ep in A1.
    destruct A1 as (Hd & Hf & (e & A1) & r & Hr & ->). unfold log_delivery, end_job. cbn [gs_sema gs_jobs gs_log].
    apply (job_moves_told evs _ s i j); [done..|here|here|done|done|]. unfold answered. cbn. rewrite Hd, Hf.
    exists r. split; [by apply Hold|]. right. exists e. by rewrite answers_snoc, Z.eqb_refl, A1.
Qed.

Lemma group_step_kept evs ev s : group_ok evs s -> group_ok (evs ++ [ev]) (group_step has_fallback s ev).
Proof.
  intros Hok. pose proof (nothing_moves evs ev s Hok) as Hn. unfold group_step.
  destruct (gs_jobs s !! event_of ev) as [j|] eqn:Ei.
  - pose proof (job_event_kept evs ev s j Hok Ei) as Hj. destruct ev; rewrite Ei; [exact Hn|exact Hj..].
  - destruct ev as [i msg f| | | | |]; rewrite Ei; try exact Hn. cbn [event_of] in Ei. destruct Hok as (H1 & H2 & H3 & H4).
    destruct (H4 i Ei) as [Ha Hk]. unfold tryAcquire. destruct (Z.ltb_spec (gs_sema s) groupChatConcurrency) as [Hl|Hl].
    + destruct Hn as (_ & _ & N3 & N4). split; [|split; [|split]]; cbn [gs_sema gs_jobs gs_log].
      * rewrite running_insert, Ei, H1. cbn. lia.
      * lia.
      * intros k x. destruct (decide (i = k)) as [<-|Hne]; [|rewrite lookup_insert_ne by done; apply N3].
        rewrite lookup_insert_eq. intros [= <-]. unfold answered. cbn. rewrite Ha, Hk. split; [done|]. split; [done|]. split; [done|].
        exists f. apply elem_of_app. right. left.
      * intros k. destruct (decide (i = k)) as [<-|Hne]; [by rewrite lookup_insert_eq|rewrite lookup_insert_ne by done; apply N4].
    + destruct Hn as (N1 & N2 & N3 & N4). split; [done|]. split; [done|]. unfold log_delivery. cbn [gs_sema gs_jobs gs_log].
      assert (Hq : forall k, answers k (gs_log s ++ [(i, BusyPosted (renderPlainTextReply (busy_text msg)) f)]) = answers k (gs_log s)
                /\ acks k (gs_log s ++ [(i, BusyPosted (renderPlainTextReply (busy_text msg)) f)]) = acks k (gs_log s)).
      { intros k. rewrite answers_snoc, acks_snoc, !andb_false_r. by rewrite !app_nil_r. }
      split; intros k; destruct (Hq k) as [Q1 Q2]; rewrite Q2; [|rewrite Q1; apply N4].
      intros x Ek. destruct (N3 k x Ek) as (B1 & B2). split; [by eapply answered_log|exact B2].
Qed.

Lemma groups_ok evs : group_ok evs (fold_left (group_step has_fallback) evs no_messages).
Proof.
  induction evs as [|ev evs IH] using rev_ind; [|rewrite fold_left_app; by apply group_step_kept].
  split; [done|]. split; [cbn; unfold groupChatConcurrency; lia|]. split; [by intros i j|done].
Qed.

(** C32: A group message is answered once.  Whatever happens in whatever order,
    as many slots are taken as messages are handled, at most ten.  An accepted
    message gets at most one slow acknowledgement and no answer before its
    handler returned; when it is finished its handler either panicked, and there
    is no answer, or returned, and its reply was posted through the webhook
    once, and was pushed once exactly if that failed and there is a fallback. *)
Theorem group_message_answered_once (evs : list group_event) :
  let s := fold_left (group_step has_fallback) evs no_messages in
  (gs_sema s = running_count (gs_jobs s) /\ gs_sema s <= groupChatConcurrency)
  /\ forall i j, gs_jobs s !! i = Some j ->
       (exists failed, Arrives i (jb_msg j) failed ∈ evs)
       /\ len (acks i (gs_log s)) <= 1
       /\ match jb_phase j with
          | Handling | Replying _ => answers i (gs_log s) = []
          | FallingBack reply => exists e, answers i (gs_log s) = [ReplyPosted (renderPlainTextReply reply) (Some e)]
          | Finished =>
              (answers i (gs_log s) = [] /\ Handled i None ∈ evs)
              \/ exists r, Handled i (Some r) ∈ evs /\ let reply := group_reply (jb_msg j) r in
                   answers i (gs_log s) = [ReplyPosted (renderPlainTextReply reply) None]
                   \/ exists e, answers i (gs_log s)
                        = ReplyPosted (renderPlainTextReply reply) (Some e) :: (if has_fallback then [Pushed reply] else [])
          end.
Proof.
  destruct (groups_ok evs) as (H1 & H2 & H3 & _). split; [done|]. intros i j Ei.
  destruct (H3 i j Ei) as (A1 & A2 & _ & A4). split; [done|]. split; [done|]. unfold answered in A1.
  destruct (jb_phase j); [apply A1|apply A1|destruct A1 as (_ & _ & ? & _); done|]. destruct (jb_done j); [by right|by left].
Qed.

(** A step of a message, and how far it brings it. *)
Definition phase_rank (p : reply_phase) : Z :=
  match p with Handling => 0 | Replying _ => 1 | FallingBack _ => 2 | Finished => 3 end.
Lemma step_ranks s i j ev k : gs_jobs s !! i = Some j -> k <= phase_rank (jb_phase j) ->
  (k = 0 /\ exists r, ev = Handled i r) \/ (k = 1 /\ exists f, ev = Answers i f) \/ (k = 2 /\ ev = FallsBack i) ->
  exists j', gs_jobs (group_step has_fallback s ev) !! i = Some j' /\ k + 1 <= phase_rank (jb_phase j').
Proof.
  intros Ei Hk Hev.
  destruct Hev as [[-> [[r|] ->]]|[[-> [f ->]]|[-> ->]]]; unfold group_step; cbn [event_of]; rewrite Ei; unfold job_event;
    destruct (jb_phase j) eqn:Ep; cbn in Hk; try lia;
    try (exists j; split; [exact Ei|rewrite Ep; cbn; lia]).
  - eexists. split; [apply lookup_insert_eq|cbn; lia].
  - eexists. split; [apply lookup_insert_eq|cbn; lia].
  - destruct f; [destruct has_fallback|]; eexists; (split; [apply lookup_insert_eq|cbn; lia]).
  - eexists. split; [apply lookup_insert_eq|cbn; lia].
Qed.
(** An accepted message can finish from wherever it is, by its own steps. *)
Theorem accepted_message_finishes s i j r failed : gs_jobs s !! i = Some j ->
  let s' := fold_left (group_step has_fallback) [Handled i r; Answers i failed; FallsBack i] s in
  exists j', gs_jobs s' !! i = Some j' /\ jb_phase j' = Finished.
Proof.
  intros Ei. cbn [fold_left].
  destruct (step_ranks s i j (Handled i r) 0 Ei) as (j1 & E1 & R1); [by destruct (jb_phase j)|left; eauto|].
  destruct (step_ranks _ i j1 (Answers i failed) 1 E1) as (j2 & E2 & R2); [done|right; left; eauto|].
  destruct (step_ranks _ i j2 (FallsBack i) 2 E2) as (j3 & E3 & R3); [done|by right; right|].
  exists j3. split; [done|]. destruct (jb_phase j3); cbn in R3; done || lia.
Qed.

(** A message whose handler panicked is never answered, whatever follows. *)
Definition unanswered (i : Z) (s : group_state) : Prop :=
  exists j, gs_jobs s !! i = Some j /\ jb_phase j = Finished /\ jb_done j = false /\ answers i (gs_log s) = [].
Lemma step_at s ev j : gs_jobs s !! event_of ev = Some j ->
  group_step has_fallback s ev = match ev with Arrives _ _ _ => s | _ => job_event has_fallback ev (event_of ev) j s end.
Proof. intros E. unfold group_step. destruct ev; by rewrite E. Qed.
Lemma step_fresh s ev : gs_jobs s !! event_of ev = None ->
  group_step has_fallback s ev
  = match ev with
    | Arrives i msg failed =>
        if tryAcquire s then mkGroups (gs_sema s + 1) (<[i := mkJob msg Handling false true]> (gs_jobs s)) (gs_log s)
        else log_delivery i (BusyPosted (renderPlainTextReply (busy_text msg)) failed) s
    | _ => s
    end.
Proof. intros E. unfold group_step. destruct ev; by rewrite E. Qed.
Lemma unanswered_stays i s ev : unanswered i s -> unanswered i (group_step has_fallback s ev).
Proof.
  intros (j & Ei & Ep & Ed & Ha). destruct (decide (event_of ev = i)) as [He|He].
  - assert (Hs : unanswered i s) by by exists j. rewrite (step_at s ev j) by by rewrite He.
    destruct ev as [k msg f|k [r|]|k f|k|k f|k]; [exact Hs|..]; cbn [event_of] in *; subst k; unfold job_event; rewrite ?Ep; try exact Hs.
    + destruct (jb_ack_waits j); [|exact Hs]. eexists. split; [apply lookup_insert_eq|].
      cbn [jb_phase jb_done gs_log log_delivery set_job]. split; [done|]. split; [done|]. by rewrite answers_snoc, andb_false_r, Ha.
    + by rewrite Ed, andb_false_r.
  - assert (Hq : forall s', gs_jobs s' !! i = gs_jobs s !! i -> answers i (gs_log s') = answers i (gs_log s) -> unanswered i s')
      by (intros s' E1 E2; exists j; by rewrite E1, E2).
    assert (Hl : forall d, answers i (gs_log s ++ [(event_of ev, d)]) = answers i (gs_log s))
      by (intros d; by apply others_quiet).
    destruct (gs_jobs s !! event_of ev) as [x|] eqn:Ek; [rewrite (step_at s ev x Ek)|rewrite (step_fresh s ev Ek)].
    + destruct ev as [k msg f|k [r|]|k f|k|k f|k]; cbn [event_of] in *; unfold job_event; try by apply Hq.
      * destruct (jb_phase x); try (by apply Hq). apply Hq; [by apply lookup_insert_ne|done].
      * destruct (jb_phase x); try (by apply Hq). apply Hq; [by apply lookup_insert_ne|done].
      * destruct (jb_ack_waits x); [|by apply Hq]. apply Hq; [by apply lookup_insert_ne|apply Hl].
      * destruct (_ && _); [|by apply Hq]. apply Hq; [by apply lookup_insert_ne|done].
      * destruct (jb_phase x); try (by apply Hq). destruct f; [destruct has_fallback|]; (apply Hq; [by apply lookup_insert_ne|apply Hl]).
      * destruct (jb_phase x); try (by apply Hq). apply Hq; [by apply lookup_insert_ne|apply Hl].
    + destruct ev as [k msg f|k r|k f|k|k f|k]; cbn [event_of] in *; try by apply Hq.
      destruct (tryAcquire s); apply Hq; [by apply lookup_insert_ne|done|done|apply Hl].
Qed.
Theorem panicked_message_unanswered i msg evs :
  answers i (gs_log (fold_left (group_step has_fallback) ([Arrives i msg None; Handled i None] ++ evs) no_messages)) = [].
Proof.
  assert (H : unanswered i (fold_left (group_step has_fallback) ([Arrives i msg None; Handled i None] ++ evs) no_messages)).
  { induction evs as [|ev evs IH] using rev_ind.
    - exists (mkJob msg Finished false true). cbn. rewrite lookup_empty. cbn. rewrite lookup_insert_eq. cbn.
      by rewrite lookup_insert_eq.
    - rewrite app_assoc, fold_left_app. by apply unanswered_stays. }
  by destruct H as (j & _ & _ & _ & H).
Qed.
End groups.

Definition demo_message : ChatMessage := mkChat "corp" "u1" "张三" "谁迟到了" "cid" "2" "群" "https://hook".
(** All that its sender gets is the acknowledgement. *)
Example panicked_message_acknowledged :
  gs_log (fold_left (group_step true) [Arrives 1 demo_message None; Handled 1 None; AckDue 1 None] no_messages)
  = [(1, AckPosted "@张三 正在查询，请稍候..." None)].
Proof. vm_compute. done. Qed.
(** The acknowledgement may come after the answer. *)
Example acknowledged_after_the_answer :
  gs_log (fold_left (group_step true)
            [Arrives 1 demo_message None; Handled 1 (Some (Ok "两人")); Answers 1 None; AckDue 1 None] no_messages)
  = [(1, ReplyPosted "两人" None); (1, AckPosted "@张三 正在查询，请稍候..." None)].
Proof. vm_compute. done. Qed.

(** ** Plain text *)

(** A line without what the patterns look for: the marks of links, code and
    emphasis, a heading; a list item is written as one is shown. *)
Definition plain_byte (b : Z) : bool :=
  negb ((b =? 10) || (b =? 13) || (b =? 91) || (b =? 96) || (b =? 42) || (b =? 95)).
Definition plain_line (s : string) : Prop :=
  trim_space s = s /\ s <> "" /\ forallb plain_byte (bytes s) = true /\ markdownHeadingPattern (bytes s) = None
  /\ (markdownListPattern (bytes s) = None \/ exists t, s = "- " +:+ t /\ trim_space t = t).
(** Lines with at most one blank line between two. *)
Inductive paragraphs : list string -> Prop :=
  | last_line l : plain_line l -> paragraphs [l]
  | next_line l ls : plain_line l -> paragraphs ls -> paragraphs (l :: ls)
  | blank_between l ls : plain_line l -> paragraphs ls -> paragraphs (l :: "" :: ls).

Lemma no_cr_normal l : forallb (fun b => negb (b =? 13)) l = true -> normalize_lines l = l.
Proof.
  intros H. unfold normalize_lines.
  assert (E : replace_crlf l = l).
  { induction l as [|b l IH]; [done|]. cbn in H. apply andb_true_iff in H as [Hb Hl]. specialize (IH Hl). cbn.
    apply negb_true_iff, Z.eqb_neq in Hb. destruct b as [|p|p]; try (by rewrite IH).
    do 4 (destruct p as [p|p|]; try (by rewrite IH)). }
  rewrite E. clear E. induction l as [|b l IH]; [done|]. cbn in H |- *. apply andb_true_iff in H as [Hb Hl].
  apply negb_true_iff in Hb. by rewrite Hb, (IH Hl).
Qed.

Lemma unmatched_kept (m : list Z -> option (nat * list Z)) l :
  (forall b l', m (b :: l') = None \/ plain_byte b = false) ->
  forallb (fun b => plain_byte b || (b =? 10)) l = true -> (forall l', m (10 :: l') = None) -> replace_pattern m l = l.
Proof.
  intros Hm Hl H10. unfold replace_pattern. induction l as [|b l IH]; [done|]. cbn in Hl. apply andb_true_iff in Hl as [Hb Hl].
  cbn. assert (m (b :: l) = None) as ->; [|by rewrite (IH Hl)]. destruct (Z.eqb_spec b 10) as [->|]; [apply H10|].
  rewrite orb_false_r in Hb. destruct (Hm b l); [done|congruence].
Qed.
Lemma literally_other s c l b : bytes s = [c] \/ (exists d, bytes s = [c; d]) -> b <> c -> literally s (b :: l) = None.
Proof.
  intros Hs Hb. unfold literally. destruct Hs as [->|[d ->]]; cbn; by destruct (Z.eqb_spec c b).
Qed.

(** No pattern of a reply matches a plain line or a line break. *)
Lemma plain_unmatched l : forallb (fun b => plain_byte b || (b =? 10)) l = true ->
  replace_pattern markdownLinkPattern l = l /\ replace_pattern markdownCodePattern l = l
  /\ replace_pattern markdownBoldPattern l = l /\ replace_pattern markdownItalicPattern l = l.
Proof.
  intros Hl.
  assert (Hp : forall c b, plain_byte c = false -> b = c -> plain_byte b = false) by (intros c b Hc ->; done).
  repeat split; apply unmatched_kept; try done; intros b l'.
  - destruct (Z.eqb_spec b 91) as [->|Hb]; [by right|left]. unfold markdownLinkPattern.
    by rewrite (literally_other "[" 91) by (by left || done).
  - destruct (Z.eqb_spec b 96) as [->|Hb]; [by right|left]. unfold markdownCodePattern.
    by rewrite (literally_other "`" 96) by (by left || done).
  - destruct (Z.eqb_spec b 42) as [->|Hb]; [by right|]. destruct (Z.eqb_spec b 95) as [->|Hb2]; [by right|left].
    unfold markdownBoldPattern, marked.
    rewrite (literally_other "**" 42) by ((right; by exists 42) || done).
    by rewrite (literally_other "__" 95) by ((right; by exists 95) || done).
  - destruct (Z.eqb_spec b 42) as [->|Hb]; [by right|]. destruct (Z.eqb_spec b 95) as [->|Hb2]; [by right|left].
    unfold markdownItalicPattern, marked.
    rewrite (literally_other "*" 42) by ((by left) || done). by rewrite (literally_other "_" 95) by ((by left) || done).
Qed.

Lemma split_plain_line l rest : forallb plain_byte l = true -> split_bytes 10 (l ++ 10 :: rest) = l :: split_bytes 10 rest.
Proof.
  induction l as [|b l IH]; cbn; [done|]. intros H. apply andb_true_iff in H as [Hb Hl]. rewrite (IH Hl).
  destruct (Z.eqb_spec b 10) as [->|]; [done|]. done.
Qed.
Lemma split_last l : forallb plain_byte l = true -> split_bytes 10 l = [l].
Proof.
  induction l as [|b l IH]; cbn; [done|]. intros H. apply andb_true_iff in H as [Hb Hl]. rewrite (IH Hl).
  by destruct (Z.eqb_spec b 10) as [->|].
Qed.

Lemma paragraphs_cons ls : paragraphs ls -> exists l ls', ls = l :: ls' /\ plain_line l.
Proof. intros H. destruct H; eauto. Qed.
Lemma join_more l ls : ls <> [] -> join newline (l :: ls) = l +:+ newline +:+ join newline ls.
Proof. by destruct ls. Qed.
Lemma bytes_join_more l ls : ls <> [] -> bytes (join newline (l :: ls)) = bytes l ++ 10 :: bytes (join newline ls).
Proof. intros H. rewrite join_more by done. by rewrite !bytes_app. Qed.
Lemma paragraphs_nonempty ls : paragraphs ls -> ls <> [].
Proof. by destruct 1. Qed.
Lemma split_paragraphs ls : paragraphs ls -> split_bytes 10 (bytes (join newline ls)) = List.map bytes ls.
Proof.
  induction 1 as [l Hl|l ls Hl Hp IH|l ls Hl Hp IH]; destruct Hl as (_ & _ & Hl & _).
  - by apply split_last.
  - rewrite bytes_join_more by (by apply paragraphs_nonempty). by rewrite split_plain_line, IH.
  - rewrite bytes_join_more by done. rewrite split_plain_line by done. rewrite bytes_join_more by (by apply paragraphs_nonempty).
    rewrite (split_plain_line (bytes "")) by done. by rewrite IH.
Qed.
Lemma plain_paragraphs ls : paragraphs ls -> forallb (fun b => plain_byte b || (b =? 10)) (bytes (join newline ls)) = true.
Proof.
  assert (Hw : forall l, forallb plain_byte l = true -> forallb (fun b => plain_byte b || (b =? 10)) l = true).
  { intros l. rewrite !forallb_forall. intros H x Hx. by rewrite H. }
  induction 1 as [l Hl|l ls Hl Hp IH|l ls Hl Hp IH]; destruct Hl as (_ & _ & Hl & _).
  - by apply Hw.
  - rewrite bytes_join_more by (by apply paragraphs_nonempty). rewrite forallb_app. cbn [forallb]. by rewrite (Hw _ Hl), IH.
  - rewrite bytes_join_more by done. rewrite forallb_app. cbn [forallb]. rewrite (Hw _ Hl).
    rewrite bytes_join_more by (by apply paragraphs_nonempty). change (bytes "") with (@nil Z). cbn [app forallb]. by rewrite IH.
Qed.

(** Trimmed text begins and ends with runes that are no spaces. *)
Lemma trimmed_ends s : trim_space s = s -> s <> "" ->
  (exists c cs, runes (bytes s) = c :: cs /\ space_rune c = false)
  /\ (exists c cs, runes (bytes s) = cs ++ [c] /\ space_rune c = false).
Proof.
  intros Hs Hne. destruct (trimmed_runes s Hs) as [Hd He].
  assert (Hr : runes (bytes s) <> []).
  { intros E. apply Hne. rewrite <- (of_bytes_bytes s), <- (runes_concat (bytes s)), E. done. }
  split.
  - pose proof (drop_while_head space_rune (runes (bytes s))) as H. rewrite Hd in H.
    destruct (runes (bytes s)) as [|c cs]; [done|]. by exists c, cs.
  - pose proof (drop_while_head space_rune (rev (runes (bytes s)))) as H. rewrite He in H.
    destruct (rev (runes (bytes s))) as [|c cs] eqn:E; [by apply (f_equal (@rev _)) in E; rewrite rev_involutive in E|].
    exists c, (rev cs). split; [|done]. rewrite <- (rev_involutive (runes (bytes s))), E. done.
Qed.

(** Text with such ends is trimmed. *)
Lemma runes_join l ls : ls <> [] ->
  runes (bytes (join newline (l :: ls))) = runes (bytes l) ++ (10, [10]) :: runes (bytes (join newline ls)).
Proof. intros H. rewrite bytes_join_more by done. rewrite runes_app by done. by rewrite (runes_ascii_cons 10) by lia. Qed.
Lemma paragraphs_ends ls : paragraphs ls ->
  (exists c cs, runes (bytes (join newline ls)) = c :: cs /\ space_rune c = false)
  /\ (exists c cs, runes (bytes (join newline ls)) = cs ++ [c] /\ space_rune c = false).
Proof.
  induction 1 as [l Hl|l ls Hl Hp IH|l ls Hl Hp IH]; destruct Hl as (Ht & Hne & _);
    destruct (trimmed_ends l Ht Hne) as [(c & cs & E & Hc) He]; [split; [by exists c, cs|done]|..];
    destruct IH as [_ (d & ds & Ed & Hd)]; pose proof (paragraphs_nonempty _ Hp) as Hn.
  - rewrite runes_join, E, Ed by done. split; [by eexists _, _|]. exists d. eexists. split; [|done].
    by rewrite app_comm_cons, app_assoc.
  - rewrite runes_join, E by done. rewrite runes_join, Ed by done. split; [by eexists _, _|]. exists d. eexists. split; [|done].
    rewrite !app_comm_cons, !app_assoc. done.
Qed.
Lemma paragraphs_trimmed ls : paragraphs ls -> trim_space (join newline ls) = join newline ls.
Proof.
  intros H. destruct (paragraphs_ends ls H) as [(c & cs & E & Hc) (d & ds & Ed & Hd)].
  rewrite <- (of_bytes_bytes (join newline ls)). apply trim_space_keep; [apply bytes_is_byte|by rewrite E|].
  rewrite Ed, rev_app_distr. done.
Qed.

(** A plain line is rendered as it is. *)
Lemma trim_right_kept s : trim_space s = s -> trim_right_blank (bytes s) = bytes s.
Proof.
  intros Hs. unfold trim_right_blank, drop_while_end. destruct (decide (s = "")) as [->|Hne]; [done|].
  destruct (trimmed_ends s Hs Hne) as [_ (c & cs & E & Hc)].
  rewrite drop_while_none; [apply rev_involutive|]. destruct (rev (bytes s)) as [|b r] eqn:Er; [done|].
  apply (f_equal (@rev _)) in Er. rewrite rev_involutive in Er. cbn in Er. rewrite Er in E.
  destruct ((b =? 32) || (b =? 9)) eqn:Eb; [|done]. exfalso.
  assert (Hb : b = 32 \/ b = 9) by (apply orb_true_iff in Eb as [H|H]; apply Z.eqb_eq in H; auto).
  assert (Hst : starts_rune [b]) by (destruct Hb; subst b; done). rewrite runes_app in E by done.
  assert (Hr : runes [b] = [(b, [b])]) by (destruct Hb; subst b; done). rewrite Hr in E.
  apply app_inj_tail in E as [_ <-]. destruct Hb; subst b; done.
Qed.
Lemma no_space_first t : trim_space t = t -> t <> "" -> drop_while re_space (bytes t) = bytes t.
Proof.
  intros Ht Hne. destruct (trimmed_ends t Ht Hne) as [(c & cs & E & Hc) _]. apply drop_while_none.
  destruct (bytes t) as [|b l]; [done|]. destruct (re_space b) eqn:Eb; [|done]. exfalso.
  assert (Hb : 0 <= b < 128 /\ is_space b = true).
  { unfold re_space, in_range in Eb. unfold is_space, in_range. b2p.
    split; [lia|]. repeat rewrite orb_true_iff. repeat rewrite andb_true_iff. repeat rewrite Z.leb_le. repeat rewrite Z.eqb_eq. lia. }
  destruct Hb as [Hb Hsp]. rewrite runes_ascii_cons in E by lia. injection E as <- _. unfold space_rune in Hc. cbn in Hc. congruence.
Qed.
Lemma plain_line_rendered s : plain_line s -> render_line (bytes s) = s.
Proof.
  intros (Ht & Hne & _ & Hh & Hl). unfold render_line. rewrite Hh. destruct Hl as [->|(t & -> & Htt)].
  - rewrite of_bytes_bytes. exact Ht.
  - destruct (decide (t = "")) as [->|Hte]; [by vm_compute in Ht|].
    assert (Hm : forall l, markdownListPattern (bytes "- " ++ l) = Some (drop_while re_space l)) by done.
    rewrite bytes_app, Hm, (no_space_first t Htt Hte), of_bytes_bytes, Htt, <- bytes_app, of_bytes_bytes. exact Ht.
Qed.

Lemma paragraphs_rendered ls : paragraphs ls -> forall rendered,
  render_lines (List.map bytes ls) rendered false = rendered ++ ls
  /\ (rendered <> [] -> render_lines (List.map bytes ls) rendered true = rendered ++ "" :: ls).
Proof.
  assert (Hne : forall l, plain_line l -> eqs (trim_space (of_bytes (trim_right_blank (bytes l)))) "" = false).
  { intros l (Ht & Hl & _). rewrite trim_right_kept, of_bytes_bytes, Ht by done. unfold eqs. by rewrite bool_decide_false. }
  assert (Hone : forall l ls rendered, plain_line l ->
    render_lines (bytes l :: ls) rendered false = render_lines ls (rendered ++ [l]) false
    /\ (rendered <> [] -> render_lines (bytes l :: ls) rendered true = render_lines ls (rendered ++ [""; l]) false)).
  { intros l ls' rendered Hl. cbn [render_lines]. rewrite (Hne l Hl), trim_right_kept, plain_line_rendered by (apply Hl || done).
    split; [done|]. intros Hr. rewrite bool_decide_false by done. cbn. by rewrite <- app_assoc. }
  induction 1 as [l Hl|l ls Hl Hp IH|l ls Hl Hp IH]; intros rendered; cbn [List.map];
    destruct (Hone l (List.map bytes ls) rendered Hl) as [H1 H2] || destruct (Hone l [] rendered Hl) as [H1 H2].
  - split; [exact H1|intros Hr; by rewrite (H2 Hr)].
  - rewrite H1. split; [by rewrite (proj1 (IH _)), <- app_assoc|]. intros Hr. by rewrite (H2 Hr), (proj1 (IH _)), <- app_assoc.
  - clear H1 H2. destruct (Hone l (bytes "" :: List.map bytes ls) rendered Hl) as [H1 H2]. rewrite H1.
    assert (Hb : forall r, r <> [] -> render_lines (bytes "" :: List.map bytes ls) r false = r ++ "" :: ls).
    { intros r Hr. cbn [render_lines]. change (eqs _ "") with true. cbn match. destruct r as [|x r]; [done|].
      by apply IH. }
    split; [rewrite Hb by (by destruct rendered); by rewrite <- app_assoc|].
    intros Hr. rewrite (H2 Hr), Hb by (by destruct rendered). by rewrite <- app_assoc.
Qed.

(** C33: Plain text is sent as it is: lines without marks of Markdown, each
    trimmed, list items with a hyphen among them, and at most one blank line
    between two, come out of the rendering unchanged. *)
Theorem plain_reply_unchanged ls : paragraphs ls -> renderPlainTextReply (join newline ls) = join newline ls.
Proof.
  intros H. unfold renderPlainTextReply. pose proof (plain_paragraphs ls H) as Hp.
  destruct (plain_unmatched _ Hp) as (E1 & E2 & E3 & E4). rewrite no_cr_normal.
  - rewrite E1, E2, E3, E4, split_paragraphs by done. rewrite (proj1 (paragraphs_rendered ls H [])). by apply paragraphs_trimmed.
  - rewrite forallb_forall in Hp |- *. intros b Hb. specialize (Hp b Hb). destruct (Z.eqb_spec b 13) as [->|]; done.
Qed.
Lemma plain_reply_unchanged_witness :
  paragraphs ["迟到：2人"; "- 张三"; ""; "统计结束"]
  /\ renderPlainTextReply (join newline ["迟到：2人"; "- 张三"; ""; "统计结束"]) = join newline ["迟到：2人"; "- 张三"; ""; "统计结束"].
Proof.
  assert (H : paragraphs ["迟到：2人"; "- 张三"; ""; "统计结束"]).
  { apply next_line; [repeat split; try done; by left|]. apply blank_between; [repeat split; try done; right; by exists "张三"|].
    apply last_line. repeat split; try done; by left. }
  split; [exact H|]. exact (plain_reply_unchanged _ H).
Defined.

(** The underscores of an address are taken for emphasis. *)
Example underscored_link_broken :
  renderPlainTextReply "[日报](https://example.com/a_day_b)" = "日报：https://example.com/adayb".
Proof. vm_compute. done. Qed.
